(* ===== verification/_CoqProject ===== *)
-Q . S2P
Prelude.v
TcpTypes.v
Kernel.v
ReqQueue.v
RcvTune.v
Rtt.v
TcpOpt.v
SackGen.v
Minisocks.v
Collapse.v
DataQueue.v
WriteQueue.v
Xmit.v
Scoreboard.v
Recovery.v
Cong.v
Ack.v
Frame.v
Quiet.v
Deliver.v
Input.v
Established.v
Hashtables.v
Md5.v
Reply.v
Icmp.v
Listen.v
Child.v
Ipv4.v
Proc.v
Connect.v
Reroute.v
Socket.v
Life.v
Syscall.v
Create.v
Offload.v
