(* ===== verification/Prelude.v ===== *)
(** * Verification of the annotated Linux 3.2 TCP sources

    The repository holds the TCP receive path of Linux 3.2 (src/kernel-network-3.2) with a
    reader's annotations.  This library models it function by function and proves what makes it
    correct.  TCP here is one record of state per socket ([sock] with its [tcp_sock] and
    [inet_connection_sock]), a queue of half-open connections per listening socket, and
    functions that run to completion under the socket lock; so a C function becomes a function
    from the state (and the segment) to the new state.

    ** How C is modelled

    - Integers are [Z] with the wrap-around written out ([u8], [u16], [u32], [u64], [s32]) where
      the C arithmetic can overflow.  Sequence numbers are 32-bit; the theorems relate them to
      positions of an unbounded stream, so they cover wrap-around.
    - Structures are records with the members the code uses; [x <| f := v |>] is an assignment.
    - A queue of buffers (sk_buff_head) is a list of [sk_buff]; a buffer carries its bytes, so
      theorems about queues are theorems about the data.  The request queue of a listener is
      linked through the requests themselves, so there the pointers are kept (a heap and
      pointers to pointers) and refined to lists.
    - A loop is a [Fixpoint], on a list where it walks a queue, or with fuel: the length of the
      option area, the number of SACK blocks, the length of the out-of-order queue, the distance
      from start to end in tcp_collapse.  The termination theorems show that more fuel makes no
      difference.  The walk over the write queue in Scoreboard is bounded by the buffers and
      packets of the queue ([walk_fuel]); its theorem is an invariant of every step.
    - BUG() and BUG_ON are the result [None]; errors are values ([errno], sums, verdict types).
    - Code that the repository calls but does not contain (net/tcp.h, tcp_output.c, tcp.c, the
      memory accounting, congestion modules, callbacks) is the class [Kernel] of Kernel.v; what
      is assumed of it are the small law classes there ([SeqLaws], [WindowLaws], ...), all of
      which the concrete interface [linux] satisfies.  What only one part of the system needs is a
      class in the file of that part: the destination cache ([DstOps]), tcp_time_wait
      ([TimeWait]), the hash functions and TIME-WAIT sockets ([HashEnv], [HashLaws]), the crypto
      layer ([Crypto], [CryptoLaws]), routing and the construction of packets ([ReplyEnv],
      [IcmpEnv], [ListenEnv], [ChildEnv], [ConnEnv]), tcp_disconnect and tcp_shutdown
      ([SockEnv], [LifeEnv]), the memory of new sockets and the other protocols ([CreateEnv],
      [CreateLaws]), routes ([RouteEnv], [RouteLaws]), the checksum routines and the transport side
      of offload ([OffEnv], [OffLaws], [TcpOffLaws]), and the file system, modules, user memory,
      security hooks and protocols behind the system calls ([Sys], [SysLaws], [IovecLaws]).  Each
      has an instance in a Demo module, where the theorems are applied to concrete inputs.

    ** Files

    - Prelude: record update, machine integers, flag words, bytes of a packet, tactics.
    - TcpTypes: tcp.h, tcp_states.h, inet_connection_sock.h, the members of struct sock, and the
      constants of tcp_input.c.
    - Kernel: the interface to the code outside of the repository.
    - ReqQueue: include/net/request_sock.h, net/core/request_sock.c and the SYN-queue part of
      net/ipv4/inet_connection_sock.c.  [rep] relates the pointer structure to lists of requests
      per bucket and in the accept queue; the theorems are refinements: what is hashed is found,
      a search is complete, a drop removes one request, accept is FIFO, and the SYN-ACK timer
      frees, or counts and delays, each request of the visited buckets.
    - RcvTune: tcp_input.c 128-615, receiver tuning: bounds of the delayed-ACK timer, of the
      window clamp and of autotuning; the receiver's RTT estimate.
    - Rtt: tcp_input.c 617-954 and 3176-3255, RTT estimation, the RTO, and the metrics cache.
    - TcpOpt: tcp_input.c 3810-4098, option parsing (bounds, round trip, equivalence of the fast
      path), PAWS and the sequence check.
    - SackGen: tcp_input.c 4206-4374, the SACK blocks a receiver reports, refined to a list of
      disjoint intervals.
    - Minisocks: tcp_minisocks.c, TIME-WAIT, the handling of half-open connections and the
      creation of the child socket; inet_csk_clone.
    - Collapse: tcp_input.c 4417-4434 and 4652-4895, collapsing and pruning of the receive
      queues.  [stream] says that a queue carries the peer's stream; collapsing keeps it.
    - DataQueue: tcp_input.c 4100-4205, 4376-4412, 4436-4650, FIN, RST, and tcp_data_queue, which keeps
      [rcv_inv]: the receive queue carries the stream from copied_seq to rcv_nxt.
    - WriteQueue: the write queue with its tags and counters, which the next five files share.
      [score] relates the counters to the tags, modulo 2^16 as packet counts are 16 bit fields; it
      says that neither a SYN nor a FIN is in the queue.
    - Xmit: what the transmission code outside of the repository (tcp_fragment, tcp_retransmit_skb,
      tcp_xmit_retransmit_queue, tcp_push_pending_frames) does to the write queue, as steps on single
      buffers: cut one in two, send one again, send the first unsent one.  The laws on that code say
      that it takes such steps; that the steps keep [score] is proved.  The interface [linux] has
      definitions of this code that cut, resend and send, and takes these steps.
    - Scoreboard: tcp_input.c 956-1944, the SACK blocks of an ACK; every step of
      tcp_sacktag_write_queue keeps [score].  Accepted blocks, their order, and three examples of
      what the code does not handle.
    - Recovery: tcp_input.c 836-857 and 1946-2600, loss detection, F-RTO and the Loss state.
    - Cong: tcp_input.c 2600-3170, the congestion state machine: tcp_fastretrans_alert is a step
      of an explicit transition relation; the bounds of proportional rate reduction.
    - Ack: tcp_input.c 3258-3812, tcp_clean_rtx_queue and tcp_ack.
    - Frame, Quiet, Deliver: what ACK processing leaves alone in the receiver, and receiving data
      in the sender; a tactic follows the code for such frame properties.
    - Input: tcp_input.c 4900-6006, urgent data, header prediction, the check of incoming segments
      and tcp_rcv_state_process: the transitions are those of RFC 793, the fast path equals the
      slow path.
    - Established: tcp_rcv_established as a whole keeps both halves of a connection.
    - Hashtables: inet_hashtables.c and the port allocation of inet_connection_sock.c.  [conn_inv]
      says that chains, buckets and owners are consistent and four-tuples unique; lookups refine
      a search of all sockets.
    - Md5: RFC 2385 keys and signatures of tcp_ipv4.c: the array of keys is a map.
    - Reply: resets and ACKs without a socket, followed to the peer that receives them.
    - Icmp: tcp_v4_err; a forged ICMP message cannot abort a connection.
    - Listen: tcp_v4_conn_request and tcp_v4_hnd_req; the handshake can be completed.
    - Child: tcp_v4_syn_recv_sock; the child is what the next segment of the peer finds.
    - Ipv4: tcp_v4_rcv, tcp_v4_do_rcv and the backlog: the composition of the above for a segment
      that arrives from the IP layer; [delivered] says who must have it, [confined] that nothing else
      happens.
    - Proc: the iterator behind /proc/net/tcp lists every socket once, however it is read.
    - Connect: tcp_v4_connect and the reuse of TIME-WAIT sockets.
    - Reroute: inet_sk_rebuild_header: a connection that is being opened may change its source
      address and is moved in the tables; an error changes only the route and the error fields.
    - Socket: the socket calls of af_inet.c; the state of the struct socket and the TCP state
      agree along every sequence of calls and network events ([api_step]).
    - Life: the end of a listening socket (inet_csk_listen_stop) and of the connections in its
      queue, with their references: nothing is left behind in the tables, and no WARN_ON fires.
    - Create: the table of protocols of af_inet.c, inet_create and tcp_v4_init_sock: a permanent
      protocol stays what it is, a module that goes leaves no trace, and a new TCP socket is ready
      for the calls of Socket.
    - Syscall: the system calls of net/socket.c on descriptors, files and modules.  [inv] counts
      every reference; all calls keep it, on success and on errors, when no other thread acts on the
      descriptors and messages carry no descriptors.  Messages go to approved addresses only,
      and socketcall() is the calls it multiplexes.
    - Offload: the GSO and GRO hooks of af_inet.c and tcp_ipv4.c: the headers of the pieces of a
      packet, and that cutting and joining are inverse.

    A layer uses the one below through its lemmas: a claim of Ipv4 rests on the lookups of
    Hashtables, the request queue of ReqQueue and the state machine of Input; Connect and Socket
    rest on the tables and ports of Hashtables.

    ** What is not modelled

    Statistics, debugging output, locks and RCU, IP options on received segments, IPv6, DMA
    receive, the values of TCP cookie transactions beyond what tcp_v4_conn_request does and the
    checksums of transmitted segments outside of GSO are left out.  Reference counts are modelled
    where sockets and files begin and end (Create, Life, Syscall) and not on the receive path.
    Concurrency is not modelled: the functions run under the socket lock; where a call sleeps, what
    happened in the meantime is an argument.  Of net/socket.c ioctl(), poll(), asynchronous I/O, time
    stamps, the passing of descriptors with SCM_RIGHTS and the 32-bit compatibility code are left out: glue between the file system and drivers
    that are not in the repository.  Of af_inet.c the same holds for ioctl(), the calls of datagram
    sockets, the counters and the rest of inet_init.  include/net/sock.h is modelled as far as the
    code above uses it; the rest are helpers for protocols that are not in the repository.  *)

From stdpp Require Export base option list.
From Stdlib Require Export ZArith Lia Bool.
Create HintDb net.
#[export] Set Default Goal Selector "!".
Global Open Scope Z_scope.

(** ** Record update

    The C code mutates fields of nested structures.  A field [p] of a record has a
    [Setter] instance; [x <| p := v |>] is [x] with the field replaced and
    [x <| p ; q := v |>] replaces the field [q] of the sub-structure [p]. *)
Class Setter {R T : Type} (p : R -> T) := set : (T -> T) -> R -> R.
Arguments set {R T} p {_} _ _ : simpl nomatch.

Ltac solve_setter eta :=
  lazymatch goal with
  | |- @Setter ?R ?T ?p =>
    let s := constr:(fun (g : T -> T) (r : R) =>
      ltac:(let e := eval cbv beta delta [eta] in (eta r) in
            let e' := eval pattern (p r) in e in
            lazymatch e' with
            | ?h _ => let b := eval cbv beta in (h (g (p r))) in exact b
            end)) in
    exact s
  end.

Declare Scope net_scope.
Delimit Scope net_scope with net.
Global Open Scope net_scope.

Notation "x <| a := v |>" := (set a (fun _ => v) x)
  (at level 1, a at level 9, v at level 200, left associativity) : net_scope.
Notation "x <| a ; b := v |>" := (set a (set b (fun _ => v)) x)
  (at level 1, a at level 9, b at level 9, v at level 200, left associativity) : net_scope.
Notation "x <| a ; b ; c := v |>" := (set a (set b (set c (fun _ => v))) x)
  (at level 1, a at level 9, b at level 9, c at level 9, v at level 200,
   left associativity) : net_scope.

(** ** Machine integers

    A w-bit unsigned value is a [Z] in [0, 2^w); [u8], [u16], [u32], [u64] are the
    wrap-around of C's unsigned types and [s32] the conversion to [int]. *)
Definition u8 (x : Z) : Z := x mod 2 ^ 8.
Definition u16 (x : Z) : Z := x mod 2 ^ 16.
Definition u32 (x : Z) : Z := x mod 2 ^ 32.
Definition u64 (x : Z) : Z := x mod 2 ^ 64.
Definition s32 (x : Z) : Z := (x + 2 ^ 31) mod 2 ^ 32 - 2 ^ 31.

Definition s64 (x : Z) : Z := (x + 2 ^ 63) mod 2 ^ 64 - 2 ^ 63.

Definition is_u8 (x : Z) : Prop := 0 <= x < 2 ^ 8.
Definition is_u16 (x : Z) : Prop := 0 <= x < 2 ^ 16.
Definition is_u32 (x : Z) : Prop := 0 <= x < 2 ^ 32.

Arguments u8 : simpl never.
Arguments u16 : simpl never.
Arguments u32 : simpl never.
Arguments u64 : simpl never.
Arguments s32 : simpl never.
Arguments s64 : simpl never.
#[export] Hint Unfold is_u8 is_u16 is_u32 : net.

(** [lia] with the equations of [/] and [mod]. *)
Ltac dlia := Z.div_mod_to_equations; lia.
(** [lia] after unfolding the wrap-around functions. *)
Ltac warith := unfold u8, u16, u32, u64, s32, s64, is_u8, is_u16, is_u32 in *; dlia.

Lemma u32_range x : is_u32 (u32 x).
Proof. warith. Qed.
Lemma u32_small x : is_u32 x -> u32 x = x.
Proof. warith. Qed.
Lemma u16_range x : is_u16 (u16 x).
Proof. warith. Qed.
Lemma u8_range x : is_u8 (u8 x).
Proof. warith. Qed.
Lemma u32_u32 x : u32 (u32 x) = u32 x.
Proof. apply u32_small, u32_range. Qed.
Lemma u32_add_l x y : u32 (u32 x + y) = u32 (x + y).
Proof. unfold u32. apply Z.add_mod_idemp_l. lia. Qed.
Lemma u32_add_r x y : u32 (x + u32 y) = u32 (x + y).
Proof. unfold u32. apply Z.add_mod_idemp_r. lia. Qed.
Lemma u32_sub_l x y : u32 (u32 x - y) = u32 (x - y).
Proof. unfold u32. apply Zminus_mod_idemp_l. Qed.
Lemma u32_sub_r x y : u32 (x - u32 y) = u32 (x - y).
Proof. unfold u32. apply Zminus_mod_idemp_r. Qed.
Lemma s32_small x : - 2 ^ 31 <= x < 2 ^ 31 -> s32 x = x.
Proof. warith. Qed.
Lemma s32_range x : - 2 ^ 31 <= s32 x < 2 ^ 31.
Proof. warith. Qed.
Lemma s32_u32 x : s32 (u32 x) = s32 x.
Proof. warith. Qed.
(** Two sequence numbers less than 2^31 apart subtract to their true distance. *)
Lemma s32_sub_u32 x y : - 2 ^ 31 <= x - y < 2 ^ 31 -> s32 (u32 x - u32 y) = x - y.
Proof. warith. Qed.

#[export] Hint Resolve u32_range u16_range u8_range : net.
#[export] Hint Rewrite u32_u32 u32_add_l u32_add_r u32_sub_l u32_sub_r s32_u32 : net.

(** time_after_eq of linux/jiffies.h: the signed comparison of two jiffies values. *)
Definition time_after_eq (a b : Z) : bool := s64 (a - b) >=? 0.

(** ** Flag words *)
Definition has (x f : Z) : bool := negb (Z.land x f =? 0).
Definition bset (x f : Z) : Z := Z.lor x f.
Definition bclr (x f : Z) : Z := Z.land x (Z.lnot f).
Definition b2z (b : bool) : Z := if b then 1 else 0.

Arguments has : simpl never.
Arguments bset : simpl never.
Arguments bclr : simpl never.

Lemma land_pow2 x n : 0 <= n -> Z.land x (2 ^ n) = if Z.testbit x n then 2 ^ n else 0.
Proof.
  intros Hn. apply Z.bits_inj'. intros m Hm. rewrite Z.land_spec, Z.pow2_bits_eqb by lia.
  destruct (Z.eqb_spec n m) as [->|Hne].
  - destruct (Z.testbit x m) eqn:E; cbn; [|by rewrite Z.testbit_0_l].
    symmetry. apply Z.pow2_bits_true. lia.
  - rewrite andb_false_r. destruct (Z.testbit x n); [|by rewrite Z.testbit_0_l].
    symmetry. apply Z.pow2_bits_false. lia.
Qed.

Lemma has_pow2 x n : 0 <= n -> has x (2 ^ n) = Z.testbit x n.
Proof.
  intros Hn. unfold has. rewrite land_pow2 by done.
  destruct (Z.testbit x n); [|done].
  pose proof (Z.pow_pos_nonneg 2 n). destruct (Z.eqb_spec (2 ^ n) 0); [lia|done].
Qed.

Lemma has_lor x f g : has x (Z.lor f g) = has x f || has x g.
Proof.
  unfold has. rewrite Z.land_lor_distr_r.
  destruct (Z.eqb_spec (Z.land x f) 0) as [->|Hf]; cbn; [by rewrite Z.lor_0_l|].
  destruct (Z.eqb_spec (Z.lor (Z.land x f) (Z.land x g)) 0) as [E|]; [|done].
  apply Z.lor_eq_0_iff in E. tauto.
Qed.

Lemma has_comm x f : has x f = has f x.
Proof. unfold has. by rewrite Z.land_comm. Qed.
Lemma has_bset x f g : has (bset x f) g = has x g || has f g.
Proof. unfold bset. rewrite has_comm, has_lor. by rewrite (has_comm g x), (has_comm g f). Qed.

(** ** Bytes of a packet *)

(** [get_unaligned_be16] and [get_unaligned_be32] of a byte string at an offset; a byte
    outside of the string reads as 0, and the callers never look there. *)
Definition byte_at (bs : list Z) (i : Z) : Z :=
  if i <? 0 then 0 else default 0 (bs !! Z.to_nat i).
Definition get_be16 (bs : list Z) (i : Z) : Z := byte_at bs i * 256 + byte_at bs (i + 1).
Definition get_be32 (bs : list Z) (i : Z) : Z := get_be16 bs i * 65536 + get_be16 bs (i + 2).

(** The bytes of a big-endian word. *)
Definition be16 (x : Z) : list Z := [u8 (x / 256); u8 x].
Definition be32 (x : Z) : list Z := be16 (x / 65536) ++ be16 x.

Arguments byte_at : simpl never.
Arguments get_be16 : simpl never.
Arguments get_be32 : simpl never.

Lemma get_be16_ext bs bs' i :
  (forall j, i <= j < i + 2 -> byte_at bs j = byte_at bs' j) -> get_be16 bs i = get_be16 bs' i.
Proof. intros H. unfold get_be16. by rewrite !H by lia. Qed.
Lemma get_be32_ext bs bs' i :
  (forall j, i <= j < i + 4 -> byte_at bs j = byte_at bs' j) -> get_be32 bs i = get_be32 bs' i.
Proof. intros H. unfold get_be32. f_equal; [f_equal|]; apply get_be16_ext; intros; apply H; lia. Qed.

(** ** Sums over lists *)
Fixpoint sumZ {A} (f : A -> Z) (l : list A) : Z :=
  match l with
  | [] => 0
  | x :: l => f x + sumZ f l
  end.

Lemma sumZ_app {A} (f : A -> Z) l k : sumZ f (l ++ k) = sumZ f l + sumZ f k.
Proof. induction l as [|x l IH]; cbn; [done|]. rewrite IH. lia. Qed.
Lemma sumZ_nonneg {A} (f : A -> Z) l : Forall (fun x => 0 <= f x) l -> 0 <= sumZ f l.
Proof. induction 1; cbn; lia. Qed.
Lemma sumZ_ext {A} (f g : A -> Z) l : Forall (fun x => f x = g x) l -> sumZ f l = sumZ g l.
Proof. induction 1; cbn; lia. Qed.

(** ** Proof automation *)

(** Case analysis on the test of an [if] in the goal, remembering its value. *)
Ltac case_if_as H :=
  match goal with
  | |- context [if ?b then _ else _] => destruct b eqn:H
  end.
Ltac cases_if := repeat (let H := fresh "Hc" in case_if_as H).

(** Turns boolean comparisons of the context into arithmetic facts. *)
Ltac bool_arith :=
  repeat match goal with
  | H : _ && _ = true |- _ => apply andb_prop in H; destruct H
  | H : _ || _ = false |- _ => apply orb_false_elim in H; destruct H
  | H : negb _ = true |- _ => apply negb_true_iff in H
  | H : negb _ = false |- _ => apply negb_false_iff in H
  | H : (_ <? _) = true |- _ => apply Z.ltb_lt in H
  | H : (_ <? _) = false |- _ => apply Z.ltb_ge in H
  | H : (_ <=? _) = true |- _ => apply Z.leb_le in H
  | H : (_ <=? _) = false |- _ => apply Z.leb_gt in H
  | H : (_ >? _) = true |- _ => apply Z.gtb_lt in H
  | H : (_ >=? _) = true |- _ => apply Z.geb_le in H
  | H : (_ =? _) = true |- _ => apply Z.eqb_eq in H
  | H : (_ =? _) = false |- _ => apply Z.eqb_neq in H
  end.
