(* ===== verification/TcpTypes.v ===== *)
(** * The data structures of the TCP receive path

    struct tcphdr, struct tcp_options_received and struct tcp_sock of
    include/linux/tcp.h, the state enumerations of include/net/tcp_states.h,
    struct inet_connection_sock of include/net/inet_connection_sock.h and the members
    of struct sock (include/net/sock.h) that the TCP code reads or writes.

    The kernel's sk_buff_head is a list of [sk_buff]; a pointer to an sk_buff is the
    buffer's [skb_id], and a NULL pointer is [None].  One-bit members are [bool]. *)

From S2P Require Import Prelude.

(** ** State enumerations *)

(** include/net/tcp_states.h *)
Inductive tcp_state :=
  | TCP_ESTABLISHED | TCP_SYN_SENT | TCP_SYN_RECV | TCP_FIN_WAIT1 | TCP_FIN_WAIT2
  | TCP_TIME_WAIT | TCP_CLOSE | TCP_CLOSE_WAIT | TCP_LAST_ACK | TCP_LISTEN | TCP_CLOSING.

(** The value of the enumerator. *)
Definition tcp_state_code (s : tcp_state) : Z :=
  match s with
  | TCP_ESTABLISHED => 1 | TCP_SYN_SENT => 2 | TCP_SYN_RECV => 3 | TCP_FIN_WAIT1 => 4
  | TCP_FIN_WAIT2 => 5 | TCP_TIME_WAIT => 6 | TCP_CLOSE => 7 | TCP_CLOSE_WAIT => 8
  | TCP_LAST_ACK => 9 | TCP_LISTEN => 10 | TCP_CLOSING => 11
  end.

(** enum tcp_ca_state of include/linux/tcp.h *)
Inductive tcp_ca_state := TCP_CA_Open | TCP_CA_Disorder | TCP_CA_CWR | TCP_CA_Recovery | TCP_CA_Loss.

Definition ca_code (s : tcp_ca_state) : Z :=
  match s with
  | TCP_CA_Open => 0 | TCP_CA_Disorder => 1 | TCP_CA_CWR => 2
  | TCP_CA_Recovery => 3 | TCP_CA_Loss => 4
  end.

#[export] Instance tcp_state_eq_dec : EqDecision tcp_state.
Proof. solve_decision. Defined.
#[export] Instance tcp_ca_state_eq_dec : EqDecision tcp_ca_state.
Proof. solve_decision. Defined.

Definition st_eqb (a b : tcp_state) : bool := bool_decide (a = b).
Definition ca_eqb (a b : tcp_ca_state) : bool := bool_decide (a = b).
Definition ca_ltb (a b : tcp_ca_state) : bool := ca_code a <? ca_code b.
Definition ca_leb (a b : tcp_ca_state) : bool := ca_code a <=? ca_code b.

(** The error codes the modelled functions report. *)
Inductive errno :=
  | ECONNREFUSED | EPIPE | ECONNRESET | EINVAL | EAGAIN | ENOMEM | EADDRINUSE | ERESTARTSYS | EINTR
  | ENOENT | EFAULT | EPROTO | EHOSTUNREACH | ENETUNREACH | EMSGSIZE | EAFNOSUPPORT | EADDRNOTAVAIL
  | EACCES | EISCONN | EALREADY | EINPROGRESS | ECONNABORTED | ENOTCONN | EDESTADDRREQ | EOPNOTSUPP
  | ESOCKTNOSUPPORT | EPROTONOSUPPORT | EPERM | ENOBUFS | ENOSYS.
#[export] Instance errno_eq_dec : EqDecision errno.
Proof. solve_decision. Defined.

(** ** Packets *)

(** struct tcphdr, with the multi-byte members in host order. *)
#[projections(primitive)]
Record tcphdr := mk_tcphdr {
  th_seq : Z;
  th_ack_seq : Z;
  th_doff : Z; (* header length in 32-bit words *)
  th_fin : bool;
  th_syn : bool;
  th_rst : bool;
  th_psh : bool;
  th_ack : bool;
  th_urg : bool;
  th_ece : bool;
  th_cwr : bool;
  th_res1 : Z; (* 4 reserved bits *)
  th_window : Z;
  th_urg_ptr : Z
}.

Definition eta_tcphdr (r : tcphdr) : tcphdr :=
  mk_tcphdr (th_seq r) (th_ack_seq r) (th_doff r) (th_fin r) (th_syn r) (th_rst r)
    (th_psh r) (th_ack r) (th_urg r) (th_ece r) (th_cwr r) (th_res1 r) (th_window r)
    (th_urg_ptr r).
#[export] Instance set_th_seq : Setter th_seq. Proof. solve_setter eta_tcphdr. Defined.
#[export] Instance set_th_ack_seq : Setter th_ack_seq. Proof. solve_setter eta_tcphdr. Defined.
#[export] Instance set_th_doff : Setter th_doff. Proof. solve_setter eta_tcphdr. Defined.
#[export] Instance set_th_fin : Setter th_fin. Proof. solve_setter eta_tcphdr. Defined.
#[export] Instance set_th_syn : Setter th_syn. Proof. solve_setter eta_tcphdr. Defined.
#[export] Instance set_th_rst : Setter th_rst. Proof. solve_setter eta_tcphdr. Defined.
#[export] Instance set_th_psh : Setter th_psh. Proof. solve_setter eta_tcphdr. Defined.
#[export] Instance set_th_ack : Setter th_ack. Proof. solve_setter eta_tcphdr. Defined.
#[export] Instance set_th_urg : Setter th_urg. Proof. solve_setter eta_tcphdr. Defined.
#[export] Instance set_th_ece : Setter th_ece. Proof. solve_setter eta_tcphdr. Defined.
#[export] Instance set_th_cwr : Setter th_cwr. Proof. solve_setter eta_tcphdr. Defined.
#[export] Instance set_th_res1 : Setter th_res1. Proof. solve_setter eta_tcphdr. Defined.
#[export] Instance set_th_window : Setter th_window. Proof. solve_setter eta_tcphdr. Defined.
#[export] Instance set_th_urg_ptr : Setter th_urg_ptr. Proof. solve_setter eta_tcphdr. Defined.

(** A socket buffer: its identity, the TCP segment it carries ([bytes] from the transport
    header on), the offset of skb->data in it, and the TCP control block. *)
#[projections(primitive)]
Record sk_buff := mk_sk_buff {
  skb_id : nat; (* the pointer *)
  skb_th : tcphdr; (* tcp_hdr(skb) *)
  bytes : list Z; (* segment, from the TCP header on *)
  data_off : Z; (* skb->data - skb_transport_header(skb) *)
  len : Z; (* skb->len *)
  truesize : Z;
  seq : Z; (* TCP_SKB_CB(skb)->seq *)
  end_seq : Z;
  ack_seq : Z;
  when_ : Z; (* TCP_SKB_CB(skb)->when *)
  sacked : Z; (* tag bits, or the offset of the SACK option *)
  tcp_flags : Z;
  ip_dsfield : Z;
  gso_size : Z; (* skb_shinfo(skb)->gso_size *)
  gso_segs : Z;
  tstamp : Z
}.

Definition eta_sk_buff (r : sk_buff) : sk_buff :=
  mk_sk_buff (skb_id r) (skb_th r) (bytes r) (data_off r) (len r) (truesize r) (seq r)
    (end_seq r) (ack_seq r) (when_ r) (sacked r) (tcp_flags r) (ip_dsfield r) (gso_size
    r) (gso_segs r) (tstamp r).
#[export] Instance set_skb_id : Setter skb_id. Proof. solve_setter eta_sk_buff. Defined.
#[export] Instance set_skb_th : Setter skb_th. Proof. solve_setter eta_sk_buff. Defined.
#[export] Instance set_bytes : Setter bytes. Proof. solve_setter eta_sk_buff. Defined.
#[export] Instance set_data_off : Setter data_off. Proof. solve_setter eta_sk_buff. Defined.
#[export] Instance set_len : Setter len. Proof. solve_setter eta_sk_buff. Defined.
#[export] Instance set_truesize : Setter truesize. Proof. solve_setter eta_sk_buff. Defined.
#[export] Instance set_seq : Setter seq. Proof. solve_setter eta_sk_buff. Defined.
#[export] Instance set_end_seq : Setter end_seq. Proof. solve_setter eta_sk_buff. Defined.
#[export] Instance set_ack_seq : Setter ack_seq. Proof. solve_setter eta_sk_buff. Defined.
#[export] Instance set_when_ : Setter when_. Proof. solve_setter eta_sk_buff. Defined.
#[export] Instance set_sacked : Setter sacked. Proof. solve_setter eta_sk_buff. Defined.
#[export] Instance set_tcp_flags : Setter tcp_flags. Proof. solve_setter eta_sk_buff. Defined.
#[export] Instance set_ip_dsfield : Setter ip_dsfield. Proof. solve_setter eta_sk_buff. Defined.
#[export] Instance set_gso_size : Setter gso_size. Proof. solve_setter eta_sk_buff. Defined.
#[export] Instance set_gso_segs : Setter gso_segs. Proof. solve_setter eta_sk_buff. Defined.
#[export] Instance set_tstamp : Setter tstamp. Proof. solve_setter eta_sk_buff. Defined.

(** struct tcp_sack_block *)
#[projections(primitive)]
Record tcp_sack_block := mk_sack_block {
  start_seq : Z;
  sb_end_seq : Z (* end_seq *)
}.

Definition eta_tcp_sack_block (r : tcp_sack_block) : tcp_sack_block :=
  mk_sack_block (start_seq r) (sb_end_seq r).
#[export] Instance set_start_seq : Setter start_seq. Proof. solve_setter eta_tcp_sack_block. Defined.
#[export] Instance set_sb_end_seq : Setter sb_end_seq. Proof. solve_setter eta_tcp_sack_block. Defined.

(** struct tcp_options_received *)
#[projections(primitive)]
Record tcp_options_received := mk_rx_opt {
  ts_recent_stamp : Z;
  ts_recent : Z;
  rcv_tsval : Z;
  rcv_tsecr : Z;
  saw_tstamp : bool;
  tstamp_ok : bool;
  dsack : bool;
  wscale_ok : bool;
  sack_ok : Z; (* 4 bits *)
  snd_wscale : Z; (* 4 bits *)
  rcv_wscale : Z; (* 4 bits *)
  cookie_plus : Z; (* 6 bits *)
  num_sacks : Z;
  user_mss : Z;
  mss_clamp : Z
}.

Definition eta_tcp_options_received (r : tcp_options_received) : tcp_options_received :=
  mk_rx_opt (ts_recent_stamp r) (ts_recent r) (rcv_tsval r) (rcv_tsecr r) (saw_tstamp r)
    (tstamp_ok r) (dsack r) (wscale_ok r) (sack_ok r) (snd_wscale r) (rcv_wscale r)
    (cookie_plus r) (num_sacks r) (user_mss r) (mss_clamp r).
#[export] Instance set_ts_recent_stamp : Setter ts_recent_stamp. Proof. solve_setter eta_tcp_options_received. Defined.
#[export] Instance set_ts_recent : Setter ts_recent. Proof. solve_setter eta_tcp_options_received. Defined.
#[export] Instance set_rcv_tsval : Setter rcv_tsval. Proof. solve_setter eta_tcp_options_received. Defined.
#[export] Instance set_rcv_tsecr : Setter rcv_tsecr. Proof. solve_setter eta_tcp_options_received. Defined.
#[export] Instance set_saw_tstamp : Setter saw_tstamp. Proof. solve_setter eta_tcp_options_received. Defined.
#[export] Instance set_tstamp_ok : Setter tstamp_ok. Proof. solve_setter eta_tcp_options_received. Defined.
#[export] Instance set_dsack : Setter dsack. Proof. solve_setter eta_tcp_options_received. Defined.
#[export] Instance set_wscale_ok : Setter wscale_ok. Proof. solve_setter eta_tcp_options_received. Defined.
#[export] Instance set_sack_ok : Setter sack_ok. Proof. solve_setter eta_tcp_options_received. Defined.
#[export] Instance set_snd_wscale : Setter snd_wscale. Proof. solve_setter eta_tcp_options_received. Defined.
#[export] Instance set_rcv_wscale : Setter rcv_wscale. Proof. solve_setter eta_tcp_options_received. Defined.
#[export] Instance set_cookie_plus : Setter cookie_plus. Proof. solve_setter eta_tcp_options_received. Defined.
#[export] Instance set_num_sacks : Setter num_sacks. Proof. solve_setter eta_tcp_options_received. Defined.
#[export] Instance set_user_mss : Setter user_mss. Proof. solve_setter eta_tcp_options_received. Defined.
#[export] Instance set_mss_clamp : Setter mss_clamp. Proof. solve_setter eta_tcp_options_received. Defined.

(** ** Sockets *)

(** struct inet_connection_sock; the members of icsk_ack and icsk_mtup carry the prefixes
    [ack_] and [mtup_]. *)
#[projections(primitive)]
Record inet_connection_sock := mk_icsk {
  icsk_timeout : Z;
  icsk_rto : Z;
  icsk_pmtu_cookie : Z;
  icsk_ca_state : tcp_ca_state;
  icsk_retransmits : Z;
  icsk_pending : Z;
  icsk_backoff : Z;
  icsk_probes_out : Z;
  rskq_defer_accept : Z; (* icsk_accept_queue.rskq_defer_accept *)
  ack_pending : Z;
  ack_quick : Z;
  ack_pingpong : Z;
  ack_blocked : Z;
  ack_ato : Z;
  ack_timeout : Z;
  ack_lrcvtime : Z;
  ack_last_seg_size : Z;
  ack_rcv_mss : Z;
  mtup_search_high : Z;
  mtup_search_low : Z;
  mtup_probe_size : Z
}.

Definition eta_inet_connection_sock (r : inet_connection_sock) : inet_connection_sock :=
  mk_icsk (icsk_timeout r) (icsk_rto r) (icsk_pmtu_cookie r) (icsk_ca_state r)
    (icsk_retransmits r) (icsk_pending r) (icsk_backoff r) (icsk_probes_out r)
    (rskq_defer_accept r) (ack_pending r) (ack_quick r) (ack_pingpong r) (ack_blocked r)
    (ack_ato r) (ack_timeout r) (ack_lrcvtime r) (ack_last_seg_size r) (ack_rcv_mss r)
    (mtup_search_high r) (mtup_search_low r) (mtup_probe_size r).
#[export] Instance set_icsk_timeout : Setter icsk_timeout. Proof. solve_setter eta_inet_connection_sock. Defined.
#[export] Instance set_icsk_rto : Setter icsk_rto. Proof. solve_setter eta_inet_connection_sock. Defined.
#[export] Instance set_icsk_pmtu_cookie : Setter icsk_pmtu_cookie. Proof. solve_setter eta_inet_connection_sock. Defined.
#[export] Instance set_icsk_ca_state : Setter icsk_ca_state. Proof. solve_setter eta_inet_connection_sock. Defined.
#[export] Instance set_icsk_retransmits : Setter icsk_retransmits. Proof. solve_setter eta_inet_connection_sock. Defined.
#[export] Instance set_icsk_pending : Setter icsk_pending. Proof. solve_setter eta_inet_connection_sock. Defined.
#[export] Instance set_icsk_backoff : Setter icsk_backoff. Proof. solve_setter eta_inet_connection_sock. Defined.
#[export] Instance set_icsk_probes_out : Setter icsk_probes_out. Proof. solve_setter eta_inet_connection_sock. Defined.
#[export] Instance set_rskq_defer_accept : Setter rskq_defer_accept. Proof. solve_setter eta_inet_connection_sock. Defined.
#[export] Instance set_ack_pending : Setter ack_pending. Proof. solve_setter eta_inet_connection_sock. Defined.
#[export] Instance set_ack_quick : Setter ack_quick. Proof. solve_setter eta_inet_connection_sock. Defined.
#[export] Instance set_ack_pingpong : Setter ack_pingpong. Proof. solve_setter eta_inet_connection_sock. Defined.
#[export] Instance set_ack_blocked : Setter ack_blocked. Proof. solve_setter eta_inet_connection_sock. Defined.
#[export] Instance set_ack_ato : Setter ack_ato. Proof. solve_setter eta_inet_connection_sock. Defined.
#[export] Instance set_ack_timeout : Setter ack_timeout. Proof. solve_setter eta_inet_connection_sock. Defined.
#[export] Instance set_ack_lrcvtime : Setter ack_lrcvtime. Proof. solve_setter eta_inet_connection_sock. Defined.
#[export] Instance set_ack_last_seg_size : Setter ack_last_seg_size. Proof. solve_setter eta_inet_connection_sock. Defined.
#[export] Instance set_ack_rcv_mss : Setter ack_rcv_mss. Proof. solve_setter eta_inet_connection_sock. Defined.
#[export] Instance set_mtup_search_high : Setter mtup_search_high. Proof. solve_setter eta_inet_connection_sock. Defined.
#[export] Instance set_mtup_search_low : Setter mtup_search_low. Proof. solve_setter eta_inet_connection_sock. Defined.
#[export] Instance set_mtup_probe_size : Setter mtup_probe_size. Proof. solve_setter eta_inet_connection_sock. Defined.

(** struct tcp_sock *)
#[projections(primitive)]
Record tcp_sock := mk_tcp_sock {
  tcp_header_len : Z;
  pred_flags : Z;
  rcv_nxt : Z;
  copied_seq : Z;
  rcv_wup : Z;
  snd_nxt : Z;
  snd_una : Z;
  rcv_tstamp : Z;
  lsndtime : Z;
  ucopy_task : Z; (* ucopy.task *)
  ucopy_len : Z; (* ucopy.len *)
  snd_wl1 : Z;
  snd_wnd : Z;
  max_window : Z;
  mss_cache : Z;
  window_clamp : Z;
  rcv_ssthresh : Z;
  frto_highmark : Z;
  advmss : Z;
  frto_counter : Z;
  thin_dupack : bool;
  srtt : Z;
  mdev : Z;
  mdev_max : Z;
  rttvar : Z;
  rtt_seq : Z;
  packets_out : Z;
  retrans_out : Z;
  urg_data : Z;
  ecn_flags : Z;
  reordering : Z;
  snd_up : Z;
  rx_opt : tcp_options_received;
  snd_ssthresh : Z;
  snd_cwnd : Z;
  snd_cwnd_cnt : Z;
  snd_cwnd_clamp : Z;
  snd_cwnd_used : Z;
  snd_cwnd_stamp : Z;
  prior_cwnd : Z;
  prr_delivered : Z;
  prr_out : Z;
  rcv_wnd : Z;
  write_seq : Z;
  lost_out : Z;
  sacked_out : Z;
  fackets_out : Z;
  bytes_acked : Z;
  lost_skb_hint : option nat;
  scoreboard_skb_hint : option nat;
  retransmit_skb_hint : option nat;
  out_of_order_queue : list sk_buff;
  duplicate_sack : tcp_sack_block; (* duplicate_sack[0] *)
  selective_acks : list tcp_sack_block; (* 4 entries *)
  recv_sack_cache : list tcp_sack_block; (* 4 entries *)
  highest_sack : option nat;
  lost_cnt_hint : Z;
  retransmit_high : Z;
  lost_retrans_low : Z;
  prior_ssthresh : Z;
  high_seq : Z;
  retrans_stamp : Z;
  undo_marker : Z;
  undo_retrans : Z;
  total_retrans : Z;
  urg_seq : Z;
  linger2 : Z;
  rcv_rtt_est_rtt : Z; (* rcv_rtt_est.rtt *)
  rcv_rtt_est_seq : Z;
  rcv_rtt_est_time : Z;
  rcvq_space_space : Z; (* rcvq_space.space *)
  rcvq_space_seq : Z;
  rcvq_space_time : Z;
  probe_seq_start : Z; (* mtu_probe.probe_seq_start *)
  probe_seq_end : Z
}.

Definition eta_tcp_sock (r : tcp_sock) : tcp_sock :=
  mk_tcp_sock (tcp_header_len r) (pred_flags r) (rcv_nxt r) (copied_seq r) (rcv_wup r)
    (snd_nxt r) (snd_una r) (rcv_tstamp r) (lsndtime r) (ucopy_task r) (ucopy_len r)
    (snd_wl1 r) (snd_wnd r) (max_window r) (mss_cache r) (window_clamp r) (rcv_ssthresh
    r) (frto_highmark r) (advmss r) (frto_counter r) (thin_dupack r) (srtt r) (mdev r)
    (mdev_max r) (rttvar r) (rtt_seq r) (packets_out r) (retrans_out r) (urg_data r)
    (ecn_flags r) (reordering r) (snd_up r) (rx_opt r) (snd_ssthresh r) (snd_cwnd r)
    (snd_cwnd_cnt r) (snd_cwnd_clamp r) (snd_cwnd_used r) (snd_cwnd_stamp r) (prior_cwnd
    r) (prr_delivered r) (prr_out r) (rcv_wnd r) (write_seq r) (lost_out r) (sacked_out
    r) (fackets_out r) (bytes_acked r) (lost_skb_hint r) (scoreboard_skb_hint r)
    (retransmit_skb_hint r) (out_of_order_queue r) (duplicate_sack r) (selective_acks r)
    (recv_sack_cache r) (highest_sack r) (lost_cnt_hint r) (retransmit_high r)
    (lost_retrans_low r) (prior_ssthresh r) (high_seq r) (retrans_stamp r) (undo_marker
    r) (undo_retrans r) (total_retrans r) (urg_seq r) (linger2 r) (rcv_rtt_est_rtt r)
    (rcv_rtt_est_seq r) (rcv_rtt_est_time r) (rcvq_space_space r) (rcvq_space_seq r)
    (rcvq_space_time r) (probe_seq_start r) (probe_seq_end r).
#[export] Instance set_tcp_header_len : Setter tcp_header_len. Proof. solve_setter eta_tcp_sock. Defined.
#[export] Instance set_pred_flags : Setter pred_flags. Proof. solve_setter eta_tcp_sock. Defined.
#[export] Instance set_rcv_nxt : Setter rcv_nxt. Proof. solve_setter eta_tcp_sock. Defined.
#[export] Instance set_copied_seq : Setter copied_seq. Proof. solve_setter eta_tcp_sock. Defined.
#[export] Instance set_rcv_wup : Setter rcv_wup. Proof. solve_setter eta_tcp_sock. Defined.
#[export] Instance set_snd_nxt : Setter snd_nxt. Proof. solve_setter eta_tcp_sock. Defined.
#[export] Instance set_snd_una : Setter snd_una. Proof. solve_setter eta_tcp_sock. Defined.
#[export] Instance set_rcv_tstamp : Setter rcv_tstamp. Proof. solve_setter eta_tcp_sock. Defined.
#[export] Instance set_lsndtime : Setter lsndtime. Proof. solve_setter eta_tcp_sock. Defined.
#[export] Instance set_ucopy_task : Setter ucopy_task. Proof. solve_setter eta_tcp_sock. Defined.
#[export] Instance set_ucopy_len : Setter ucopy_len. Proof. solve_setter eta_tcp_sock. Defined.
#[export] Instance set_snd_wl1 : Setter snd_wl1. Proof. solve_setter eta_tcp_sock. Defined.
#[export] Instance set_snd_wnd : Setter snd_wnd. Proof. solve_setter eta_tcp_sock. Defined.
#[export] Instance set_max_window : Setter max_window. Proof. solve_setter eta_tcp_sock. Defined.
#[export] Instance set_mss_cache : Setter mss_cache. Proof. solve_setter eta_tcp_sock. Defined.
#[export] Instance set_window_clamp : Setter window_clamp. Proof. solve_setter eta_tcp_sock. Defined.
#[export] Instance set_rcv_ssthresh : Setter rcv_ssthresh. Proof. solve_setter eta_tcp_sock. Defined.
#[export] Instance set_frto_highmark : Setter frto_highmark. Proof. solve_setter eta_tcp_sock. Defined.
#[export] Instance set_advmss : Setter advmss. Proof. solve_setter eta_tcp_sock. Defined.
#[export] Instance set_frto_counter : Setter frto_counter. Proof. solve_setter eta_tcp_sock. Defined.
#[export] Instance set_thin_dupack : Setter thin_dupack. Proof. solve_setter eta_tcp_sock. Defined.
#[export] Instance set_srtt : Setter srtt. Proof. solve_setter eta_tcp_sock. Defined.
#[export] Instance set_mdev : Setter mdev. Proof. solve_setter eta_tcp_sock. Defined.
#[export] Instance set_mdev_max : Setter mdev_max. Proof. solve_setter eta_tcp_sock. Defined.
#[export] Instance set_rttvar : Setter rttvar. Proof. solve_setter eta_tcp_sock. Defined.
#[export] Instance set_rtt_seq : Setter rtt_seq. Proof. solve_setter eta_tcp_sock. Defined.
#[export] Instance set_packets_out : Setter packets_out. Proof. solve_setter eta_tcp_sock. Defined.
#[export] Instance set_retrans_out : Setter retrans_out. Proof. solve_setter eta_tcp_sock. Defined.
#[export] Instance set_urg_data : Setter urg_data. Proof. solve_setter eta_tcp_sock. Defined.
#[export] Instance set_ecn_flags : Setter ecn_flags. Proof. solve_setter eta_tcp_sock. Defined.
#[export] Instance set_reordering : Setter reordering. Proof. solve_setter eta_tcp_sock. Defined.
#[export] Instance set_snd_up : Setter snd_up. Proof. solve_setter eta_tcp_sock. Defined.
#[export] Instance set_rx_opt : Setter rx_opt. Proof. solve_setter eta_tcp_sock. Defined.
#[export] Instance set_snd_ssthresh : Setter snd_ssthresh. Proof. solve_setter eta_tcp_sock. Defined.
#[export] Instance set_snd_cwnd : Setter snd_cwnd. Proof. solve_setter eta_tcp_sock. Defined.
#[export] Instance set_snd_cwnd_cnt : Setter snd_cwnd_cnt. Proof. solve_setter eta_tcp_sock. Defined.
#[export] Instance set_snd_cwnd_clamp : Setter snd_cwnd_clamp. Proof. solve_setter eta_tcp_sock. Defined.
#[export] Instance set_snd_cwnd_used : Setter snd_cwnd_used. Proof. solve_setter eta_tcp_sock. Defined.
#[export] Instance set_snd_cwnd_stamp : Setter snd_cwnd_stamp. Proof. solve_setter eta_tcp_sock. Defined.
#[export] Instance set_prior_cwnd : Setter prior_cwnd. Proof. solve_setter eta_tcp_sock. Defined.
#[export] Instance set_prr_delivered : Setter prr_delivered. Proof. solve_setter eta_tcp_sock. Defined.
#[export] Instance set_prr_out : Setter prr_out. Proof. solve_setter eta_tcp_sock. Defined.
#[export] Instance set_rcv_wnd : Setter rcv_wnd. Proof. solve_setter eta_tcp_sock. Defined.
#[export] Instance set_write_seq : Setter write_seq. Proof. solve_setter eta_tcp_sock. Defined.
#[export] Instance set_lost_out : Setter lost_out. Proof. solve_setter eta_tcp_sock. Defined.
#[export] Instance set_sacked_out : Setter sacked_out. Proof. solve_setter eta_tcp_sock. Defined.
#[export] Instance set_fackets_out : Setter fackets_out. Proof. solve_setter eta_tcp_sock. Defined.
#[export] Instance set_bytes_acked : Setter bytes_acked. Proof. solve_setter eta_tcp_sock. Defined.
#[export] Instance set_lost_skb_hint : Setter lost_skb_hint. Proof. solve_setter eta_tcp_sock. Defined.
#[export] Instance set_scoreboard_skb_hint : Setter scoreboard_skb_hint. Proof. solve_setter eta_tcp_sock. Defined.
#[export] Instance set_retransmit_skb_hint : Setter retransmit_skb_hint. Proof. solve_setter eta_tcp_sock. Defined.
#[export] Instance set_out_of_order_queue : Setter out_of_order_queue. Proof. solve_setter eta_tcp_sock. Defined.
#[export] Instance set_duplicate_sack : Setter duplicate_sack. Proof. solve_setter eta_tcp_sock. Defined.
#[export] Instance set_selective_acks : Setter selective_acks. Proof. solve_setter eta_tcp_sock. Defined.
#[export] Instance set_recv_sack_cache : Setter recv_sack_cache. Proof. solve_setter eta_tcp_sock. Defined.
#[export] Instance set_highest_sack : Setter highest_sack. Proof. solve_setter eta_tcp_sock. Defined.
#[export] Instance set_lost_cnt_hint : Setter lost_cnt_hint. Proof. solve_setter eta_tcp_sock. Defined.
#[export] Instance set_retransmit_high : Setter retransmit_high. Proof. solve_setter eta_tcp_sock. Defined.
#[export] Instance set_lost_retrans_low : Setter lost_retrans_low. Proof. solve_setter eta_tcp_sock. Defined.
#[export] Instance set_prior_ssthresh : Setter prior_ssthresh. Proof. solve_setter eta_tcp_sock. Defined.
#[export] Instance set_high_seq : Setter high_seq. Proof. solve_setter eta_tcp_sock. Defined.
#[export] Instance set_retrans_stamp : Setter retrans_stamp. Proof. solve_setter eta_tcp_sock. Defined.
#[export] Instance set_undo_marker : Setter undo_marker. Proof. solve_setter eta_tcp_sock. Defined.
#[export] Instance set_undo_retrans : Setter undo_retrans. Proof. solve_setter eta_tcp_sock. Defined.
#[export] Instance set_total_retrans : Setter total_retrans. Proof. solve_setter eta_tcp_sock. Defined.
#[export] Instance set_urg_seq : Setter urg_seq. Proof. solve_setter eta_tcp_sock. Defined.
#[export] Instance set_linger2 : Setter linger2. Proof. solve_setter eta_tcp_sock. Defined.
#[export] Instance set_rcv_rtt_est_rtt : Setter rcv_rtt_est_rtt. Proof. solve_setter eta_tcp_sock. Defined.
#[export] Instance set_rcv_rtt_est_seq : Setter rcv_rtt_est_seq. Proof. solve_setter eta_tcp_sock. Defined.
#[export] Instance set_rcv_rtt_est_time : Setter rcv_rtt_est_time. Proof. solve_setter eta_tcp_sock. Defined.
#[export] Instance set_rcvq_space_space : Setter rcvq_space_space. Proof. solve_setter eta_tcp_sock. Defined.
#[export] Instance set_rcvq_space_seq : Setter rcvq_space_seq. Proof. solve_setter eta_tcp_sock. Defined.
#[export] Instance set_rcvq_space_time : Setter rcvq_space_time. Proof. solve_setter eta_tcp_sock. Defined.
#[export] Instance set_probe_seq_start : Setter probe_seq_start. Proof. solve_setter eta_tcp_sock. Defined.
#[export] Instance set_probe_seq_end : Setter probe_seq_end. Proof. solve_setter eta_tcp_sock. Defined.

(** The members of struct sock the TCP code uses, with the enclosing
    inet_connection_sock and tcp_sock. *)
#[projections(primitive)]
Record sock := mk_sock {
  sk_state : tcp_state;
  sk_err : option errno;
  sk_err_soft : Z;
  sk_shutdown : Z;
  sk_flags : Z;
  sk_rcvbuf : Z;
  sk_sndbuf : Z;
  sk_rmem_alloc : Z;
  sk_wmem_queued : Z;
  sk_forward_alloc : Z;
  sk_userlocks : Z;
  sk_receive_queue : list sk_buff;
  sk_write_queue : list sk_buff;
  sk_send_head : option nat; (* first unsent buffer *)
  sk_socket : option Z; (* the socket's flags *)
  sk_write_pending : Z;
  sk_owned : bool; (* sk_lock.owned *)
  sk_dst_cache : option nat;
  sk_route_caps : Z;
  icsk : inet_connection_sock; (* inet_csk(sk) *)
  tp : tcp_sock (* tcp_sk(sk) *)
}.

Definition eta_sock (r : sock) : sock :=
  mk_sock (sk_state r) (sk_err r) (sk_err_soft r) (sk_shutdown r) (sk_flags r)
    (sk_rcvbuf r) (sk_sndbuf r) (sk_rmem_alloc r) (sk_wmem_queued r) (sk_forward_alloc
    r) (sk_userlocks r) (sk_receive_queue r) (sk_write_queue r) (sk_send_head r)
    (sk_socket r) (sk_write_pending r) (sk_owned r) (sk_dst_cache r) (sk_route_caps r) (icsk r) (tp r).
#[export] Instance set_sk_state : Setter sk_state. Proof. solve_setter eta_sock. Defined.
#[export] Instance set_sk_err : Setter sk_err. Proof. solve_setter eta_sock. Defined.
#[export] Instance set_sk_err_soft : Setter sk_err_soft. Proof. solve_setter eta_sock. Defined.
#[export] Instance set_sk_shutdown : Setter sk_shutdown. Proof. solve_setter eta_sock. Defined.
#[export] Instance set_sk_flags : Setter sk_flags. Proof. solve_setter eta_sock. Defined.
#[export] Instance set_sk_rcvbuf : Setter sk_rcvbuf. Proof. solve_setter eta_sock. Defined.
#[export] Instance set_sk_sndbuf : Setter sk_sndbuf. Proof. solve_setter eta_sock. Defined.
#[export] Instance set_sk_rmem_alloc : Setter sk_rmem_alloc. Proof. solve_setter eta_sock. Defined.
#[export] Instance set_sk_wmem_queued : Setter sk_wmem_queued. Proof. solve_setter eta_sock. Defined.
#[export] Instance set_sk_forward_alloc : Setter sk_forward_alloc. Proof. solve_setter eta_sock. Defined.
#[export] Instance set_sk_userlocks : Setter sk_userlocks. Proof. solve_setter eta_sock. Defined.
#[export] Instance set_sk_receive_queue : Setter sk_receive_queue. Proof. solve_setter eta_sock. Defined.
#[export] Instance set_sk_write_queue : Setter sk_write_queue. Proof. solve_setter eta_sock. Defined.
#[export] Instance set_sk_send_head : Setter sk_send_head. Proof. solve_setter eta_sock. Defined.
#[export] Instance set_sk_socket : Setter sk_socket. Proof. solve_setter eta_sock. Defined.
#[export] Instance set_sk_write_pending : Setter sk_write_pending. Proof. solve_setter eta_sock. Defined.
#[export] Instance set_sk_owned : Setter sk_owned. Proof. solve_setter eta_sock. Defined.
#[export] Instance set_sk_dst_cache : Setter sk_dst_cache. Proof. solve_setter eta_sock. Defined.
#[export] Instance set_sk_route_caps : Setter sk_route_caps. Proof. solve_setter eta_sock. Defined.
#[export] Instance set_icsk : Setter icsk. Proof. solve_setter eta_sock. Defined.
#[export] Instance set_tp : Setter tp. Proof. solve_setter eta_sock. Defined.

(** ** Header words and socket flags *)

(** enum { TCP_FLAG_CWR ... } of include/linux/tcp.h: bits of the fourth header word,
    which is compared in network order on both sides. *)
Definition TCP_FLAG_CWR : Z := 0x00800000.
Definition TCP_FLAG_ECE : Z := 0x00400000.
Definition TCP_FLAG_URG : Z := 0x00200000.
Definition TCP_FLAG_ACK : Z := 0x00100000.
Definition TCP_FLAG_PSH : Z := 0x00080000.
Definition TCP_FLAG_RST : Z := 0x00040000.
Definition TCP_FLAG_SYN : Z := 0x00020000.
Definition TCP_FLAG_FIN : Z := 0x00010000.
Definition TCP_RESERVED_BITS : Z := 0x0F000000.

(** tcp_flag_word(th): the word with the data offset, the flags and the window. *)
Definition tcp_flag_word (th : tcphdr) : Z :=
  th_doff th * 2 ^ 28 + th_res1 th * 2 ^ 24 +
  b2z (th_cwr th) * TCP_FLAG_CWR + b2z (th_ece th) * TCP_FLAG_ECE +
  b2z (th_urg th) * TCP_FLAG_URG + b2z (th_ack th) * TCP_FLAG_ACK +
  b2z (th_psh th) * TCP_FLAG_PSH + b2z (th_rst th) * TCP_FLAG_RST +
  b2z (th_syn th) * TCP_FLAG_SYN + b2z (th_fin th) * TCP_FLAG_FIN + th_window th.

(** Size of struct tcphdr without options, and TCP_MSS_DEFAULT. *)
Definition sizeof_tcphdr : Z := 20.
Definition TCP_MSS_DEFAULT : Z := 536.
(** TCP_NUM_SACKS *)
Definition TCP_NUM_SACKS : nat := 4.

(** RCV_SHUTDOWN, SEND_SHUTDOWN, SHUTDOWN_MASK and the buffer locks of
    include/net/sock.h. *)
Definition RCV_SHUTDOWN : Z := 1.
Definition SEND_SHUTDOWN : Z := 2.
Definition SHUTDOWN_MASK : Z := 3.
Definition SOCK_SNDBUF_LOCK : Z := 1.
Definition SOCK_RCVBUF_LOCK : Z := 2.

(** enum sock_flags: the bit numbers the TCP code uses. *)
Inductive sock_flags := SOCK_DEAD | SOCK_DONE | SOCK_URGINLINE | SOCK_KEEPOPEN | SOCK_LINGER | SOCK_USE_WRITE_QUEUE | SOCK_QUEUE_SHRUNK | SOCK_FASYNC.
Definition sock_flag_bit (f : sock_flags) : Z :=
  match f with
  | SOCK_DEAD => 0 | SOCK_DONE => 1 | SOCK_URGINLINE => 2 | SOCK_KEEPOPEN => 3 | SOCK_LINGER => 4 | SOCK_USE_WRITE_QUEUE => 9
  | SOCK_QUEUE_SHRUNK => 14 | SOCK_FASYNC => 22
  end.
Definition sock_flag (sk : sock) (f : sock_flags) : bool := Z.testbit (sk_flags sk) (sock_flag_bit f).
Definition sock_set_flag (sk : sock) (f : sock_flags) : sock :=
  sk <| sk_flags := Z.setbit (sk_flags sk) (sock_flag_bit f) |>.
Definition sock_reset_flag (sk : sock) (f : sock_flags) : sock :=
  sk <| sk_flags := Z.clearbit (sk_flags sk) (sock_flag_bit f) |>.

(** tcp_clear_options *)
Definition tcp_clear_options (o : tcp_options_received) : tcp_options_received :=
  o <| tstamp_ok := false |> <| sack_ok := 0 |> <| wscale_ok := false |>
    <| snd_wscale := 0 |> <| cookie_plus := 0 |>.

(** The flags of an incoming ACK (net/ipv4/tcp_input.c). *)
Definition FLAG_DATA : Z := 0x01.
Definition FLAG_WIN_UPDATE : Z := 0x02.
Definition FLAG_DATA_ACKED : Z := 0x04.
Definition FLAG_RETRANS_DATA_ACKED : Z := 0x08.
Definition FLAG_SYN_ACKED : Z := 0x10.
Definition FLAG_DATA_SACKED : Z := 0x20.
Definition FLAG_ECE : Z := 0x40.
Definition FLAG_DATA_LOST : Z := 0x80.
Definition FLAG_SLOWPATH : Z := 0x100.
Definition FLAG_ONLY_ORIG_SACKED : Z := 0x200.
Definition FLAG_SND_UNA_ADVANCED : Z := 0x400.
Definition FLAG_DSACKING_ACK : Z := 0x800.
Definition FLAG_NONHEAD_RETRANS_ACKED : Z := 0x1000.
Definition FLAG_SACK_RENEGING : Z := 0x2000.
Definition FLAG_ACKED : Z := Z.lor FLAG_DATA_ACKED FLAG_SYN_ACKED.
Definition FLAG_NOT_DUP : Z := Z.lor (Z.lor FLAG_DATA FLAG_WIN_UPDATE) FLAG_ACKED.
Definition FLAG_CA_ALERT : Z := Z.lor FLAG_DATA_SACKED FLAG_ECE.
Definition FLAG_FORWARD_PROGRESS : Z := Z.lor FLAG_ACKED FLAG_DATA_SACKED.
Definition FLAG_ANY_PROGRESS : Z := Z.lor FLAG_FORWARD_PROGRESS FLAG_SND_UNA_ADVANCED.

(** Timer and delayed-ACK constants of include/net/inet_connection_sock.h. *)
Definition ICSK_TIME_RETRANS : Z := 1.
Definition ICSK_TIME_DACK : Z := 2.
Definition ICSK_TIME_PROBE0 : Z := 3.
Definition ICSK_ACK_SCHED : Z := 1.
Definition ICSK_ACK_TIMER : Z := 2.
Definition ICSK_ACK_PUSHED : Z := 4.
Definition ICSK_ACK_PUSHED2 : Z := 8.

Definition inet_csk_schedule_ack (sk : sock) : sock :=
  sk <| icsk; ack_pending := bset (ack_pending (icsk sk)) ICSK_ACK_SCHED |>.
Definition inet_csk_ack_scheduled (sk : sock) : bool := has (ack_pending (icsk sk)) ICSK_ACK_SCHED.

(** inet_csk_clear_xmit_timer; INET_CSK_CLEAR_TIMERS is not set in the sources. *)
Definition inet_csk_clear_xmit_timer (sk : sock) (what : Z) : sock :=
  if (what =? ICSK_TIME_RETRANS) || (what =? ICSK_TIME_PROBE0) then
    sk <| icsk; icsk_pending := 0 |>
  else if what =? ICSK_TIME_DACK then
    sk <| icsk; ack_blocked := 0 |> <| icsk; ack_pending := 0 |>
  else sk.


(** ** Blank structures, the starting point of the concrete examples *)
Definition blank_th : tcphdr :=
  mk_tcphdr 0 0 0 false false false false false false false false 0 0 0.
Definition blank_sack : tcp_sack_block :=
  mk_sack_block 0 0.
Definition blank_opt : tcp_options_received :=
  mk_rx_opt 0 0 0 0 false false false false 0 0 0 0 0 0 0.
Definition blank_skb : sk_buff :=
  mk_sk_buff 0%nat blank_th [] 0 0 0 0 0 0 0 0 0 0 0 0 0.
Definition blank_icsk : inet_connection_sock :=
  mk_icsk 0 0 0 TCP_CA_Open 0 0 0 0 0 0 0 0 0 0 0 0 0 0 0 0 0.
Definition blank_tcp : tcp_sock :=
  mk_tcp_sock 0 0 0 0 0 0 0 0 0 0 0 0 0 0 0 0 0 0 0 0 false 0 0 0 0 0 0 0 0 0 0 0 blank_opt 0 0
    0 0 0 0 0 0 0 0 0 0 0 0 0 None None None [] blank_sack (replicate 4 blank_sack) (replicate
    4 blank_sack) None 0 0 0 0 0 0 0 0 0 0 0 0 0 0 0 0 0 0 0.
Definition blank_sock : sock :=
  mk_sock TCP_ESTABLISHED None 0 0 0 0 0 0 0 0 0 [] [] None None 0 false None 0 blank_icsk
    blank_tcp.
