(* ===== verification/Kernel.v ===== *)
(** * The interface to the kernel code outside of this repository

    The sources call net/tcp.h, tcp_output.c, tcp.c, the congestion-control modules, the
    socket memory accounting and the socket callbacks, none of which are part of the
    repository.  They are the fields of the class [Kernel]; every definition of the
    development that uses one takes it as an argument.

    What the sources rely on is stated by the small classes after it, each one naming the
    documented behaviour of one group of operations ([SeqLaws]: the comparison of sequence
    numbers that worries about wrap-around; [SackModeLaws]: the encoding of the SACK mode in
    rx_opt.sack_ok; ...).  A theorem takes exactly the groups it needs.  [linux] is a concrete
    kernel interface, and its instances show that every group can hold. *)

From S2P Require Import Prelude TcpTypes.

(** ** The write queue

    A queue of buffers, in the order of the stream; a pointer into it is the [skb_id] of the
    buffer, and the end of the queue is [None].  The walks of net/tcp.h over it. *)
Definition wq_get (sk : sock) (i : nat) : option sk_buff := List.find (fun b => Nat.eqb (skb_id b) i) (sk_write_queue sk).
Definition wq_set (sk : sock) (i : nat) (b : sk_buff) : sock :=
  sk <| sk_write_queue := (fun x => if Nat.eqb (skb_id x) i then b else x) <$> sk_write_queue sk |>.
Definition wq_unlink (sk : sock) (i : nat) : sock :=
  sk <| sk_write_queue := List.filter (fun x => negb (Nat.eqb (skb_id x) i)) (sk_write_queue sk) |>.
Fixpoint after_id (q : list sk_buff) (i : nat) : option nat :=
  match q with
  | [] => None
  | b :: q => if Nat.eqb (skb_id b) i then skb_id <$> head q else after_id q i
  end.
Definition tcp_write_queue_head (sk : sock) : option nat := skb_id <$> head (sk_write_queue sk).
Definition tcp_write_queue_tail (sk : sock) : option nat := skb_id <$> last (sk_write_queue sk).
Definition tcp_write_queue_next (sk : sock) (i : nat) : option nat := after_id (sk_write_queue sk) i.
Definition tcp_write_queue_prev (sk : sock) (i : nat) : option nat := after_id (rev (sk_write_queue sk)) i.
Definition is_send_head (sk : sock) (i : nat) : bool := bool_decide (sk_send_head sk = Some i).
(** The pointer to the queue itself, where a walk over the buffers ends; it is no buffer. *)
Definition QUEUE_END : nat := 0.
(** A hint that is this buffer. *)
Definition is_hint (h : option nat) (i : nat) : bool := bool_decide (h = Some i).

(** The events passed to tcp_ca_event. *)
Inductive ca_event := CA_EVENT_COMPLETE_CWR | CA_EVENT_FRTO | CA_EVENT_LOSS | CA_EVENT_FAST_ACK | CA_EVENT_SLOW_ACK.

Class Kernel := {
  (** Sequence-number comparison (net/tcp.h). *)
  before : Z -> Z -> bool;
  after : Z -> Z -> bool;
  between : Z -> Z -> Z -> bool;

  (** Time. *)
  jiffies : Z;
  tcp_time_stamp : Z;
  get_seconds : Z;
  HZ : Z;

  (** Run-time configuration: the sysctl variables and global memory state. *)
  sysctl_tcp_timestamps : bool;
  sysctl_tcp_window_scaling : bool;
  sysctl_tcp_sack : bool;
  sysctl_tcp_fack : bool;
  sysctl_tcp_reordering : Z;
  sysctl_tcp_dsack : bool;
  sysctl_tcp_app_win : Z;
  sysctl_tcp_stdurg : bool;
  sysctl_tcp_rfc1337 : bool;
  sysctl_tcp_frto : Z;
  sysctl_tcp_frto_response : Z;
  sysctl_tcp_nometrics_save : bool;
  sysctl_tcp_thin_dupack : bool;
  sysctl_tcp_moderate_rcvbuf : bool;
  sysctl_tcp_abc : bool;
  sysctl_tcp_rmem2 : Z; (** sysctl_tcp_rmem[2] *)
  sysctl_tcp_wmem2 : Z; (** sysctl_tcp_wmem[2] *)
  sysctl_tcp_mem0 : Z; (** sysctl_tcp_mem[0] *)
  tcp_memory_pressure : bool;
  tcp_memory_allocated : Z;

  (** Constants of net/tcp.h and net/inet_ecn.h. *)
  TCP_MAX_QUICKACKS : Z;
  TCP_ATO_MIN : Z;
  TCP_MIN_MSS : Z;
  TCP_INIT_CWND : Z;
  MAX_TCP_HEADER : Z;
  TCP_DEFAULT_INIT_RCVWND : Z;
  TCP_RTO_MAX : Z;
  TCP_TIMEOUT_FALLBACK : Z;
  TCP_INFINITE_SSTHRESH : Z;
  TCP_MAX_REORDERING : Z;
  TCP_PAWS_WINDOW : Z;
  TCP_TIMEWAIT_LEN : Z;
  TCP_DELACK_MAX : Z;
  SOCK_NOSPACE : Z; (** a bit of socket->flags *)
  TCP_URG_NOTYET : Z;
  TCP_URG_VALID : Z;
  TCPHDR_SYN : Z;
  TCP_ECN_OK : Z;
  TCP_ECN_QUEUE_CWR : Z;
  TCP_ECN_DEMAND_CWR : Z;
  TCP_ECN_SEEN : Z;
  INET_ECN_MASK : Z;
  INET_ECN_NOT_ECT : Z;
  INET_ECN_CE : Z;
  TCPCB_SACKED_ACKED : Z;
  TCPCB_SACKED_RETRANS : Z;
  TCPCB_LOST : Z;
  TCPCB_TAGBITS : Z;
  TCPCB_EVER_RETRANS : Z;
  TCPCB_RETRANS : Z;
  TCPOPT_EOL : Z;
  TCPOPT_NOP : Z;
  TCPOPT_MSS : Z;
  TCPOPT_WINDOW : Z;
  TCPOPT_SACK_PERM : Z;
  TCPOPT_SACK : Z;
  TCPOPT_TIMESTAMP : Z;
  TCPOPT_MD5SIG : Z;
  TCPOPT_COOKIE : Z;
  TCPOLEN_MSS : Z;
  TCPOLEN_WINDOW : Z;
  TCPOLEN_SACK_PERM : Z;
  TCPOLEN_TIMESTAMP : Z;
  TCPOLEN_MD5SIG : Z;
  TCPOLEN_SACK_BASE : Z;
  TCPOLEN_SACK_PERBLOCK : Z;
  TCPOLEN_COOKIE_BASE : Z;
  TCPOLEN_COOKIE_PAIR : Z;
  TCPOLEN_COOKIE_MIN : Z;
  TCPOLEN_COOKIE_MAX : Z;
  TCPOLEN_TSTAMP_ALIGNED : Z;

  (** Buffer arithmetic. *)
  SKB_TRUESIZE : Z -> Z;
  tcp_win_from_space : Z -> Z;
  tcp_space : sock -> Z;
  tcp_full_space : sock -> Z;

  (** Helpers of net/tcp.h on the TCP control block. *)
  tcp_rto_min : sock -> Z;
  tcp_set_rto_ : tcp_sock -> Z; (** __tcp_set_rto *)
  tcp_bound_rto : sock -> sock;
  tcp_is_sack : tcp_sock -> bool;
  tcp_is_reno : tcp_sock -> bool;
  tcp_is_fack : tcp_sock -> bool;
  tcp_enable_fack : tcp_sock -> tcp_sock;
  tcp_sack_reset : tcp_options_received -> tcp_options_received;
  tcp_left_out : tcp_sock -> Z;
  tcp_packets_in_flight : tcp_sock -> Z;
  tcp_max_burst : tcp_sock -> Z;
  tcp_current_ssthresh : sock -> Z;
  tcp_in_initial_slowstart : tcp_sock -> bool;
  tcp_stream_is_thin : tcp_sock -> bool;
  tcp_receive_window : tcp_sock -> Z;
  tcp_wnd_end : tcp_sock -> Z;
  tcp_update_wl : tcp_sock -> Z -> tcp_sock;
  tcp_init_wl : tcp_sock -> Z -> tcp_sock;
  tcp_fast_path_check : sock -> sock;
  tcp_fast_path_on : tcp_sock -> tcp_sock;
  tcp_fast_path_on_ : tcp_sock -> Z -> tcp_sock; (** __tcp_fast_path_on *)
  tcp_paws_check : tcp_options_received -> Z -> bool;
  tcp_paws_reject : tcp_options_received -> bool -> bool;
  tcp_skb_pcount : sk_buff -> Z;
  tcp_skb_mss : sk_buff -> Z;
  tcp_highest_sack_seq : sock -> Z;
  tcp_advance_highest_sack : sock -> sk_buff -> sock;
  tcp_highest_sack_reset : sock -> sock;
  tcp_clear_all_retrans_hints : tcp_sock -> tcp_sock;
  tcp_clear_retrans_hints_partial : tcp_sock -> tcp_sock;

  (** The congestion-control module of the socket, icsk_ca_ops. *)
  ca_ssthresh : sock -> Z;
  ca_min_cwnd : option (sock -> Z);
  ca_undo_cwnd : option (sock -> Z);
  ca_cong_avoid : sock -> Z -> Z -> sock;
  ca_pkts_acked : option (sock -> Z -> Z -> sock);
  ca_rtt_stamp : bool; (** flags & TCP_CONG_RTT_STAMP *)
  net_invalid_timestamp : Z;
  ktime_us_since : Z -> Z; (** ktime_us_delta(ktime_get_real(), .) *)
  jiffies_to_usecs : Z -> Z;
  tcp_set_ca_state : sock -> tcp_ca_state -> sock;
  tcp_ca_event : sock -> ca_event -> sock;
  tcp_init_congestion_control : sock -> sock;

  (** tcp_output.c *)
  tcp_send_ack : sock -> sock;
  tcp_send_delayed_ack : sock -> sock;
  tcp_send_synack : sock -> sock;
  tcp_push_pending_frames : sock -> sock;
  tcp_xmit_retransmit_queue : sock -> sock;
  tcp_retransmit_skb : sock -> option nat -> sock;
  tcp_fragment : sock -> nat -> Z -> Z -> Z * sock;
  tcp_trim_head : sock -> nat -> Z -> Z * sock;
  tcp_sync_mss : sock -> Z -> sock;
  tcp_mtup_init : sock -> sock;
  tcp_mss_to_mtu : sock -> Z -> Z;
  tcp_current_mss : sock -> Z;
  tcp_may_send_now : sock -> bool;
  tcp_select_window_ : sock -> Z; (** __tcp_select_window *)

  (** tcp.c and the timers. *)
  tcp_set_state : sock -> tcp_state -> sock;
  tcp_done : sock -> sock;
  tcp_fin_time : sock -> Z;
  keepalive_time_when : tcp_sock -> Z;
  inet_csk_reset_keepalive_timer : sock -> Z -> sock;

  (** Time-wait sockets (net/inet_timewait_sock.h), the peer cache and the request sockets. *)
  TCP_PAWS_MSL : Z;
  TCP_TIMEOUT_INIT : Z;
  sysctl_tw_recycle : bool; (** tcp_death_row.sysctl_tw_recycle *)
  tw_count : Z; (** tcp_death_row.tw_count *)
  sysctl_max_tw_buckets : Z;
  inet_twsk_alloc : sock -> bool; (** true: the allocation succeeded *)
  sysctl_tcp_abort_on_overflow : bool;
  tcp_s_data_size : tcp_sock -> Z;
  sk_clone : sock -> option sock;
  security_inet_csk_clone : sock -> sock;
  tcp_prequeue_init : tcp_sock -> tcp_sock;
  tcp_init_xmit_timers : sock -> sock;

  (** Memory accounting (net/core/sock.c) and the page size. *)
  SK_MEM_QUANTUM : Z;
  sk_has_account : sock -> bool;
  sk_mem_schedule_ : sock -> Z -> bool * sock; (** __sk_mem_schedule(.., SK_MEM_RECV) *)
  sk_mem_reclaim_ : sock -> sock; (** __sk_mem_reclaim *)
  kfree_skb : sock -> sk_buff -> sock; (** __kfree_skb of a buffer charged to the socket *)
  skb_max_copy : sk_buff -> Z; (** SKB_MAX_ORDER(skb_headroom(skb), 0) *)
  alloc_skb : sock -> Z -> option (nat * Z); (** the new buffer and its truesize *)

  (** Merging of buffers in the write queue (net/core/skbuff.c). *)
  sk_can_gso : sock -> bool;
  skb_headlen : sk_buff -> Z;
  skb_is_nonlinear : sk_buff -> bool;
  skb_shift : sk_buff -> sk_buff -> Z -> option (sk_buff * sk_buff); (** both buffers afterwards *)

  (** Callbacks of the socket layer. *)
  sk_data_ready : sock -> sock;
  sk_state_change : sock -> sock;
  sk_error_report : sock -> sock;
  sk_write_space : sock -> sock;
  sk_send_sigurg : sock -> sock;
  conn_request : sock -> sk_buff -> Z * sock; (** icsk_af_ops->conn_request *)
  rebuild_header : sock -> sock; (** icsk_af_ops->rebuild_header *)

  (** User copy, checksums, the current task. *)
  current : Z;
  skb_copy_datagram_iovec : sock -> sk_buff -> Z -> Z -> bool; (** true: copied, no error *)
  skb_copy_and_csum_datagram_iovec : sock -> sk_buff -> Z -> bool; (** true: copied, no error *)
  skb_csum_unnecessary : sk_buff -> bool;
  tcp_checksum_complete_ : sk_buff -> bool; (** __tcp_checksum_complete: true is an error *)
}.

(** ** What the sources rely on *)

(** The comparison of 32-bit sequence numbers: the sign of the 32-bit difference. *)
Class SeqLaws (K : Kernel) : Prop := {
  before_spec a b : before a b = (s32 (a - b) <? 0);
  after_spec a b : after a b = before b a;
  between_spec a b c : between a b c = (u32 (a - b) <=? u32 (c - b));
}.

(** rx_opt.sack_ok: zero is Reno, bit 1 is FACK. *)
Class SackModeLaws (K : Kernel) : Prop := {
  tcp_is_sack_spec t : tcp_is_sack t = negb (sack_ok (rx_opt t) =? 0);
  tcp_is_reno_spec t : tcp_is_reno t = negb (tcp_is_sack t);
  tcp_is_fack_spec t : tcp_is_fack t = has (sack_ok (rx_opt t)) 2;
  tcp_sack_reset_spec o : tcp_sack_reset o = o <| dsack := false |> <| num_sacks := 0 |>;
}.

(** The RTO helpers: the bound of the minimum, the sum of the smoothed estimate and the
    deviation, and the clamp at TCP_RTO_MAX. *)
Class RtoLaws (K : Kernel) : Prop := {
  rto_min_u32 sk : is_u32 (tcp_rto_min sk);
  rto_min_stable sk f : tcp_rto_min (set tp f sk) = tcp_rto_min sk;
  rto_min_icsk sk f : tcp_rto_min (set icsk f sk) = tcp_rto_min sk;
  set_rto_spec t : tcp_set_rto_ t = u32 (srtt t / 8 + rttvar t);
  bound_rto_spec sk :
    tcp_bound_rto sk = if icsk_rto (icsk sk) >? TCP_RTO_MAX then sk <| icsk; icsk_rto := TCP_RTO_MAX |> else sk;
}.

(** The tag bits of a queued segment. *)
Class TagLaws (K : Kernel) : Prop := {
  tag_sacked_acked : TCPCB_SACKED_ACKED = 2 ^ 0;
  tag_sacked_retrans : TCPCB_SACKED_RETRANS = 2 ^ 1;
  tag_lost : TCPCB_LOST = 2 ^ 2;
  tag_tagbits : TCPCB_TAGBITS = 7;
  tag_ever_retrans : TCPCB_EVER_RETRANS = 2 ^ 7;
  tag_retrans : TCPCB_RETRANS = Z.lor TCPCB_SACKED_RETRANS TCPCB_EVER_RETRANS;
}.

(** A buffer's packet count is its gso_segs. *)
Class PcountLaws (K : Kernel) : Prop := {
  pcount_spec s : tcp_skb_pcount s = gso_segs s;
  mss_spec s : tcp_skb_mss s = gso_size s;
}.

(** in_flight = packets_out - left_out + retrans_out, left_out = sacked_out + lost_out. *)
Class FlightLaws (K : Kernel) : Prop := {
  left_out_spec t : tcp_left_out t = u32 (sacked_out t + lost_out t);
  in_flight_spec t :
    tcp_packets_in_flight t = u32 (packets_out t - (sacked_out t + lost_out t) + retrans_out t);
}.

(** The option kinds and lengths (RFC 793, 1323, 2018, 2385). *)
Class OptLaws (K : Kernel) : Prop := {
  opt_eol : TCPOPT_EOL = 0;
  opt_nop : TCPOPT_NOP = 1;
  opt_mss : TCPOPT_MSS = 2;
  opt_window : TCPOPT_WINDOW = 3;
  opt_sack_perm : TCPOPT_SACK_PERM = 4;
  opt_sack : TCPOPT_SACK = 5;
  opt_timestamp : TCPOPT_TIMESTAMP = 8;
  opt_md5sig : TCPOPT_MD5SIG = 19;
  opt_cookie : TCPOPT_COOKIE = 253;
  olen_mss : TCPOLEN_MSS = 4;
  olen_window : TCPOLEN_WINDOW = 3;
  olen_sack_perm : TCPOLEN_SACK_PERM = 2;
  olen_timestamp : TCPOLEN_TIMESTAMP = 10;
  olen_md5sig : TCPOLEN_MD5SIG = 18;
  olen_sack_base : TCPOLEN_SACK_BASE = 2;
  olen_sack_perblock : TCPOLEN_SACK_PERBLOCK = 8;
  olen_tstamp_aligned : TCPOLEN_TSTAMP_ALIGNED = 12;
}.

(** The receive window still open: rcv_wup + rcv_wnd - rcv_nxt, or zero. *)
Class WindowLaws (K : Kernel) : Prop := {
  receive_window_spec t :
    tcp_receive_window t = Z.max 0 (s32 (rcv_wup t + rcv_wnd t - rcv_nxt t));
}.

(** PAWS only looks at the stored and the received timestamp. *)
Class PawsLaws (K : Kernel) : Prop := {
  paws_reject_ext o o' rst :
    ts_recent o = ts_recent o' -> ts_recent_stamp o = ts_recent_stamp o' -> rcv_tsval o = rcv_tsval o' ->
    tcp_paws_reject o rst = tcp_paws_reject o' rst;
}.

(** tcp_set_ca_state records the state (for a congestion module without a set_state hook). *)
Class CaStateLaws (K : Kernel) : Prop := {
  set_ca_state_spec sk s : tcp_set_ca_state sk s = sk <| icsk; icsk_ca_state := s |>;
}.

(** The initialisers used for a new child leave the TCP control block alone, except for what
    they initialise; a clone is a copy. *)
Class ChildLaws (K : Kernel) : Prop := {
  clone_tp sk sk' : sk_clone sk = Some sk' -> tp sk' = tp sk;
  security_clone_spec sk : security_inet_csk_clone sk = sk;
  init_wl_spec t s : tcp_init_wl t s = t <| snd_wl1 := s |>;
  prequeue_init_spec t : tcp_prequeue_init t = t <| ucopy_task := ucopy_task (tcp_prequeue_init t) |>
                                               <| ucopy_len := ucopy_len (tcp_prequeue_init t) |>;
  init_timers_tp sk : tp (tcp_init_xmit_timers sk) = tp sk;
  init_timers_state sk : sk_state (tcp_init_xmit_timers sk) = sk_state sk;
  keepalive_tp sk n : tp (inet_csk_reset_keepalive_timer sk n) = tp sk;
  keepalive_state sk n : sk_state (inet_csk_reset_keepalive_timer sk n) = sk_state sk;
  enable_fack_spec t : tcp_enable_fack t = t <| rx_opt; sack_ok := sack_ok (rx_opt (tcp_enable_fack t)) |>;
}.

(** Socket memory accounting only moves the forward allocation. *)
Class MemLaws (K : Kernel) : Prop := {
  mem_reclaim_spec sk :
    sk_mem_reclaim_ sk = sk <| sk_forward_alloc := sk_forward_alloc (sk_mem_reclaim_ sk) |>;
  mem_schedule_spec sk n :
    snd (sk_mem_schedule_ sk n) = sk <| sk_forward_alloc := sk_forward_alloc (snd (sk_mem_schedule_ sk n)) |>;
}.

(** Freeing a buffer that is charged to the socket returns its memory. *)
Class FreeLaws (K : Kernel) : Prop := {
  kfree_skb_spec sk b :
    kfree_skb sk b = sk <| sk_rmem_alloc := sk_rmem_alloc (kfree_skb sk b) |>
                        <| sk_forward_alloc := sk_forward_alloc (kfree_skb sk b) |>;
}.

(** Checking for the fast path only sets the prediction flags; the default data_ready callback
    only wakes up the readers. *)
Class DeliverLaws (K : Kernel) : Prop := {
  fast_path_check_spec sk :
    tcp_fast_path_check sk = sk <| tp; pred_flags := pred_flags (tp (tcp_fast_path_check sk)) |>;
  data_ready_spec sk : sk_data_ready sk = sk;
}.

(** tcp_update_wl records the segment of the last window update. *)
Class WlLaws (K : Kernel) : Prop := {
  update_wl_spec t s : tcp_update_wl t s = t <| snd_wl1 := s |>;
}.

(** State changes: tcp_set_state records the state; tcp_done closes the socket for both
    directions and keeps its error; sending an ACK changes neither the state nor the receive
    side; the default callbacks only wake up processes. *)
Class StateLaws (K : Kernel) : Prop := {
  set_state_spec sk s : tcp_set_state sk s = sk <| sk_state := s |>;
  done_state sk : sk_state (tcp_done sk) = TCP_CLOSE;
  done_shutdown sk : sk_shutdown (tcp_done sk) = SHUTDOWN_MASK;
  done_err sk : sk_err (tcp_done sk) = sk_err sk;
  send_ack_state sk : sk_state (tcp_send_ack sk) = sk_state sk;
  send_ack_shutdown sk : sk_shutdown (tcp_send_ack sk) = sk_shutdown sk;
  send_ack_rq sk : sk_receive_queue (tcp_send_ack sk) = sk_receive_queue sk;
  send_ack_rcv_nxt sk : rcv_nxt (tp (tcp_send_ack sk)) = rcv_nxt (tp sk);
  send_ack_copied sk : copied_seq (tp (tcp_send_ack sk)) = copied_seq (tp sk);
  state_change_spec sk : sk_state_change sk = sk;
  error_report_spec sk : sk_error_report sk = sk;
}.

(** Shifting data from a buffer to the one before it moves bytes only. *)
Class ShiftLaws (K : Kernel) : Prop := {
  shift_prev p b n p' b' : skb_shift p b n = Some (p', b') ->
    p' = p <| bytes := bytes p' |> <| data_off := data_off p' |> <| len := len p + n |> <| truesize := truesize p' |>;
  shift_skb p b n p' b' : skb_shift p b n = Some (p', b') ->
    b' = b <| bytes := bytes b' |> <| data_off := data_off b' |> <| len := len b - n |> <| truesize := truesize b' |>;
}.

(** The mark behind the highest SACKed buffer: the buffer after the given one, or the head. *)
Class HighSackLaws (K : Kernel) : Prop := {
  advance_highest_spec sk b : tcp_advance_highest_sack sk b = sk <| tp; highest_sack := tcp_write_queue_next sk (skb_id b) |>;
  highest_reset_spec sk : tcp_highest_sack_reset sk = sk <| tp; highest_sack := tcp_write_queue_head sk |>;
}.

(** A congestion module has its own state and changes the congestion window, its counter and
    time stamp, the threshold and the byte count of the socket, nothing else. *)
Definition cong_only (sk sk' : sock) : sock :=
  sk <| tp; snd_cwnd := snd_cwnd (tp sk') |> <| tp; snd_cwnd_cnt := snd_cwnd_cnt (tp sk') |> <| tp; snd_cwnd_stamp := snd_cwnd_stamp (tp sk') |>
     <| tp; snd_ssthresh := snd_ssthresh (tp sk') |> <| tp; bytes_acked := bytes_acked (tp sk') |>.
Class CongLaws (K : Kernel) : Prop := {
  ca_event_spec sk e : tcp_ca_event sk e = cong_only sk (tcp_ca_event sk e);
  cong_avoid_spec sk ack n : ca_cong_avoid sk ack n = cong_only sk (ca_cong_avoid sk ack n);
  pkts_acked_spec f sk n rtt : ca_pkts_acked = Some f -> f sk n rtt = cong_only sk (f sk n rtt);
}.

(** The Reno module, and the threshold that an undo brings back: outside of a reduction at least
    three quarters of the window. *)
Class RenoLaws (K : Kernel) : Prop := {
  reno_ssthresh sk : ca_ssthresh sk = Z.max (snd_cwnd (tp sk) / 2) 2;
  reno_undo : ca_undo_cwnd = None;
  current_ssthresh_spec sk : ca_ltb (icsk_ca_state (icsk sk)) TCP_CA_CWR = true ->
    tcp_current_ssthresh sk = Z.max (snd_ssthresh (tp sk)) (snd_cwnd (tp sk) / 2 + snd_cwnd (tp sk) / 4);
}.

(** Clearing the hints of the retransmission walks. *)
Class HintLaws (K : Kernel) : Prop := {
  clear_partial_spec t : tcp_clear_retrans_hints_partial t = t <| lost_skb_hint := None |> <| scoreboard_skb_hint := None |>;
  clear_all_spec t : tcp_clear_all_retrans_hints t = tcp_clear_retrans_hints_partial t <| retransmit_skb_hint := None |>;
}.

(** The window that fits a buffer: between half of the buffer and all of it; a socket's full
    space is the one of its receive buffer, and a buffer's true size includes its data. *)
Class BufLaws (K : Kernel) : Prop := {
  win_from_space_bounds x : 0 <= x -> x / 2 <= tcp_win_from_space x <= x;
  full_space_spec sk : tcp_full_space sk = tcp_win_from_space (sk_rcvbuf sk);
  truesize_ge x : 0 <= x -> x <= SKB_TRUESIZE x;
  ato_min_ok : 2 <= TCP_ATO_MIN < 2 ^ 31;
}.

(** ** A concrete kernel interface

    [linux] instantiates every field; operations that transmit or wake up a process leave the
    socket unchanged.  The instances show that the laws above are satisfiable, and the
    witnesses of the development evaluate with it. *)
Definition linux_receive_window (t : tcp_sock) : Z := Z.max 0 (s32 (rcv_wup t + rcv_wnd t - rcv_nxt t)).
Definition linux_before (a b : Z) : bool := s32 (a - b) <? 0.
Definition linux_in_flight (t : tcp_sock) : Z :=
  u32 (packets_out t - (sacked_out t + lost_out t) + retrans_out t).
Definition linux_paws_check (o : tcp_options_received) (win : Z) : bool :=
  (s32 (ts_recent o - rcv_tsval o) <=? win) || (ts_recent_stamp o + 24 * 24 * 60 * 60 <=? 1000)
  || (ts_recent o =? 0).
Definition linux_bound_rto (sk : sock) : sock :=
  if icsk_rto (icsk sk) >? 120000 then sk <| icsk; icsk_rto := 120000 |> else sk.
Definition linux_highest_sack_seq (sk : sock) : Z :=
  if sacked_out (tp sk) =? 0 then snd_una (tp sk) else
  match highest_sack (tp sk) with
  | None => snd_nxt (tp sk)
  | Some p =>
    match List.find (fun b => Nat.eqb (skb_id b) p) (sk_write_queue sk) with
    | Some b => seq b
    | None => snd_nxt (tp sk)
    end
  end.
Definition linux_current_ssthresh (sk : sock) : Z :=
  let t := tp sk in
  match icsk_ca_state (icsk sk) with
  | TCP_CA_CWR | TCP_CA_Recovery => snd_ssthresh t
  | _ => Z.max (snd_ssthresh t) (snd_cwnd t / 2 + snd_cwnd t / 4)
  end.
Definition linux_clear_partial (t : tcp_sock) : tcp_sock :=
  t <| lost_skb_hint := None |> <| scoreboard_skb_hint := None |>.
(** The head of the data goes, and the packets of the rest are counted again. *)
Definition linux_trim (sk : sock) (i : nat) (n : Z) : Z * sock :=
  match wq_get sk i with
  | None => (-1, sk)
  | Some b =>
    let b := b <| len := len b - n |> <| seq := u32 (seq b + n) |> in
    if len b <? 0 then (-1, sk) else
    let segs := if gso_segs b >? 1 then Z.max 1 (Z.min (gso_segs b) ((len b + gso_size b - 1) / gso_size b)) else gso_segs b in
    (0, wq_set sk i (b <| gso_segs := segs |>))
  end.
(** A buffer is cut at [n] bytes; the new one gets an address that nothing uses.  The packets of the
    two are counted again, and the counters follow. *)
Definition linux_segs (n mss : Z) : Z := if n <=? mss then 1 else (n + mss - 1) / mss.
Definition linux_fresh (sk : sock) : nat :=
  let known := [sk_send_head sk; highest_sack (tp sk); lost_skb_hint (tp sk); scoreboard_skb_hint (tp sk)] in
  S (list_max ((skb_id <$> sk_write_queue sk) ++ (default 0%nat <$> known))).
Definition linux_adjust (sk : sock) (tags d : Z) : sock :=
  let take bit x := u32 (x - (if has tags bit then d else 0)) in
  sk <| tp; packets_out := u32 (packets_out (tp sk) - d) |> <| tp; lost_out := take 4 (lost_out (tp sk)) |>
     <| tp; retrans_out := take 2 (retrans_out (tp sk)) |> <| tp; sacked_out := take 1 (sacked_out (tp sk)) |>.
Definition linux_fragment (sk : sock) (i : nat) (n mss : Z) : Z * sock :=
  match wq_get sk i with
  | None => (-22, sk)
  | Some b =>
    if (n <? 0) || (len b <? n) then (-22, sk) else
    if mss <=? 0 then (-22, sk) else
    let a := b <| len := n |> <| end_seq := u32 (seq b + n) |> <| gso_segs := linux_segs n mss |> <| gso_size := mss |> in
    let c := b <| skb_id := linux_fresh sk |> <| len := len b - n |> <| seq := u32 (seq b + n) |> <| gso_segs := linux_segs (len b - n) mss |> <| gso_size := mss |> in
    let d := gso_segs b - gso_segs a - gso_segs c in
    if 2 ^ 32 <=? packets_out (tp sk) - d then (-12, sk) else
    (0, linux_adjust (sk <| sk_write_queue := sk_write_queue sk ≫= (fun x => if Nat.eqb (skb_id x) i then [a; c] else [x]) |>) (sacked b) d)
  end.
(** A buffer is retransmitted as it is; of the buffers that are lost and were not retransmitted
    since, the first one is. *)
Definition linux_retransmit (sk : sock) (h : option nat) : sock :=
  match h ≫= wq_get sk with
  | None => sk
  | Some b =>
    let b' := b <| sacked := bset (sacked b) 130 |> <| when_ := 100000 |> <| ack_seq := snd_nxt (tp sk) |> in
    (wq_set sk (skb_id b) b') <| tp; retrans_out := u32 (retrans_out (tp sk) + gso_segs b) |>
  end.
Definition linux_xmit_queue (sk : sock) : sock :=
  match List.find (fun b => has (sacked b) 4 && negb (has (sacked b) 2)) (sk_write_queue sk) with
  | None => sk
  | Some b => linux_retransmit sk (Some (skb_id b))
  end.
(** The buffer at the send head is sent. *)
Definition linux_push (sk : sock) : sock :=
  match sk_send_head sk ≫= wq_get sk with
  | None => sk
  | Some b =>
    if 2 ^ 32 <=? packets_out (tp sk) + gso_segs b then sk else
    (wq_set sk (skb_id b) (b <| when_ := 100000 |>)) <| sk_send_head := tcp_write_queue_next sk (skb_id b) |>
      <| tp; packets_out := u32 (packets_out (tp sk) + gso_segs b) |>
  end.
Definition linux_sack_reset (o : tcp_options_received) : tcp_options_received :=
  o <| dsack := false |> <| num_sacks := 0 |>.
Definition linux_rmem (sk : sock) (b : sk_buff) : sock :=
  sk <| sk_rmem_alloc := sk_rmem_alloc sk - truesize b |>
     <| sk_forward_alloc := sk_forward_alloc sk + truesize b |>.

#[export] Instance linux : Kernel := {|
  before := linux_before;
  after a b := linux_before b a;
  between a b c := u32 (a - b) <=? u32 (c - b);
  jiffies := 100000; tcp_time_stamp := 100000; get_seconds := 1000; HZ := 1000;
  sysctl_tcp_timestamps := true; sysctl_tcp_window_scaling := true; sysctl_tcp_sack := true;
  sysctl_tcp_fack := true; sysctl_tcp_reordering := 3; sysctl_tcp_dsack := true;
  sysctl_tcp_app_win := 31; sysctl_tcp_stdurg := false; sysctl_tcp_rfc1337 := false;
  sysctl_tcp_frto := 2; sysctl_tcp_frto_response := 0; sysctl_tcp_nometrics_save := false;
  sysctl_tcp_thin_dupack := false; sysctl_tcp_moderate_rcvbuf := true; sysctl_tcp_abc := false;
  sysctl_tcp_rmem2 := 4194304; sysctl_tcp_wmem2 := 4194304; sysctl_tcp_mem0 := 100000;
  tcp_memory_pressure := false; tcp_memory_allocated := 0;
  TCP_MAX_QUICKACKS := 16; TCP_ATO_MIN := 40; TCP_MIN_MSS := 88; TCP_INIT_CWND := 10;
  MAX_TCP_HEADER := 160; TCP_DEFAULT_INIT_RCVWND := 10; TCP_RTO_MAX := 120000;
  TCP_TIMEOUT_FALLBACK := 3000; TCP_INFINITE_SSTHRESH := 0x7fffffff; TCP_MAX_REORDERING := 127;
  TCP_PAWS_WINDOW := 1; TCP_TIMEWAIT_LEN := 60000; TCP_DELACK_MAX := 200;
  TCP_URG_NOTYET := 0x0200; TCP_URG_VALID := 0x0100; TCPHDR_SYN := 2;
  TCP_ECN_OK := 1; TCP_ECN_QUEUE_CWR := 2; TCP_ECN_DEMAND_CWR := 4; TCP_ECN_SEEN := 8;
  INET_ECN_MASK := 3; INET_ECN_NOT_ECT := 0; INET_ECN_CE := 3;
  TCPCB_SACKED_ACKED := 1; TCPCB_SACKED_RETRANS := 2; TCPCB_LOST := 4; TCPCB_TAGBITS := 7;
  TCPCB_EVER_RETRANS := 128; TCPCB_RETRANS := 130;
  TCPOPT_EOL := 0; TCPOPT_NOP := 1; TCPOPT_MSS := 2; TCPOPT_WINDOW := 3; TCPOPT_SACK_PERM := 4;
  TCPOPT_SACK := 5; TCPOPT_TIMESTAMP := 8; TCPOPT_MD5SIG := 19; TCPOPT_COOKIE := 253;
  TCPOLEN_MSS := 4; TCPOLEN_WINDOW := 3; TCPOLEN_SACK_PERM := 2; TCPOLEN_TIMESTAMP := 10;
  TCPOLEN_MD5SIG := 18; TCPOLEN_SACK_BASE := 2; TCPOLEN_SACK_PERBLOCK := 8;
  TCPOLEN_COOKIE_BASE := 2; TCPOLEN_COOKIE_PAIR := 3; TCPOLEN_COOKIE_MIN := 10;
  TCPOLEN_COOKIE_MAX := 18; TCPOLEN_TSTAMP_ALIGNED := 12;
  SKB_TRUESIZE x := x + 512; tcp_win_from_space x := x - x / 4;
  tcp_space sk := let s := sk_rcvbuf sk - sk_rmem_alloc sk in s - s / 4;
  tcp_full_space sk := let s := sk_rcvbuf sk in s - s / 4;
  tcp_rto_min _ := 200; tcp_set_rto_ t := u32 (srtt t / 8 + rttvar t); tcp_bound_rto := linux_bound_rto;
  tcp_is_sack t := negb (sack_ok (rx_opt t) =? 0);
  tcp_is_reno t := negb (negb (sack_ok (rx_opt t) =? 0));
  tcp_is_fack t := has (sack_ok (rx_opt t)) 2;
  tcp_enable_fack t := t <| rx_opt; sack_ok := bset (sack_ok (rx_opt t)) 2 |>;
  tcp_sack_reset := linux_sack_reset;
  tcp_left_out t := u32 (sacked_out t + lost_out t); tcp_packets_in_flight := linux_in_flight;
  tcp_max_burst t := reordering t;
  tcp_current_ssthresh := linux_current_ssthresh;
  tcp_in_initial_slowstart t := 0x7fffffff <=? snd_ssthresh t;
  tcp_stream_is_thin t := packets_out t <? 4;
  tcp_receive_window := linux_receive_window; tcp_wnd_end t := u32 (snd_una t + snd_wnd t);
  tcp_update_wl t s := t <| snd_wl1 := s |>; tcp_init_wl t s := t <| snd_wl1 := s |>;
  tcp_fast_path_check sk := sk; tcp_fast_path_on t := t; tcp_fast_path_on_ t _ := t;
  tcp_paws_check := linux_paws_check;
  tcp_paws_reject o _ := negb (linux_paws_check o 0);
  tcp_skb_pcount := gso_segs; tcp_skb_mss := gso_size;
  tcp_highest_sack_seq := linux_highest_sack_seq;
  tcp_advance_highest_sack sk b := sk <| tp; highest_sack := tcp_write_queue_next sk (skb_id b) |>;
  tcp_highest_sack_reset sk := sk <| tp; highest_sack := tcp_write_queue_head sk |>;
  tcp_clear_all_retrans_hints t := linux_clear_partial t <| retransmit_skb_hint := None |>;
  tcp_clear_retrans_hints_partial := linux_clear_partial;
  ca_ssthresh sk := Z.max (snd_cwnd (tp sk) / 2) 2; ca_min_cwnd := None; ca_undo_cwnd := None;
  ca_cong_avoid sk _ _ := sk <| tp; snd_cwnd := snd_cwnd (tp sk) + 1 |>; ca_pkts_acked := None;
  ca_rtt_stamp := false; net_invalid_timestamp := 0; ktime_us_since _ := 1000; jiffies_to_usecs j := 1000 * j;
  tcp_set_ca_state sk s := sk <| icsk; icsk_ca_state := s |>; tcp_ca_event sk _ := sk;
  tcp_init_congestion_control sk := sk;
  tcp_send_ack sk := sk; tcp_send_delayed_ack sk := sk; tcp_send_synack sk := sk;
  tcp_push_pending_frames := linux_push; tcp_xmit_retransmit_queue := linux_xmit_queue; tcp_retransmit_skb := linux_retransmit;
  tcp_fragment := linux_fragment; tcp_trim_head := linux_trim; tcp_sync_mss sk _ := sk;
  tcp_mtup_init sk := sk; tcp_mss_to_mtu _ m := m + 40; tcp_current_mss sk := mss_cache (tp sk);
  tcp_may_send_now _ := true; tcp_select_window_ sk := rcv_wnd (tp sk);
  tcp_set_state sk s := sk <| sk_state := s |>; tcp_done sk := sk <| sk_state := TCP_CLOSE |> <| sk_shutdown := 3 |>;
  tcp_fin_time _ := 60000; keepalive_time_when _ := 7200000; inet_csk_reset_keepalive_timer sk _ := sk;
  TCP_PAWS_MSL := 60; TCP_TIMEOUT_INIT := 1000; sysctl_tw_recycle := false; tw_count := 0;
  sysctl_max_tw_buckets := 1000; inet_twsk_alloc _ := true; sysctl_tcp_abort_on_overflow := false;
  tcp_s_data_size _ := 0; sk_clone sk := Some sk; security_inet_csk_clone sk := sk;
  tcp_prequeue_init t := t; tcp_init_xmit_timers sk := sk;
  SK_MEM_QUANTUM := 4096; sk_has_account _ := true; sk_mem_schedule_ sk _ := (true, sk);
  sk_mem_reclaim_ sk := sk; kfree_skb := linux_rmem;
  skb_max_copy _ := 3000; alloc_skb sk n := Some (1000%nat, n + 512);
  sk_can_gso _ := true; skb_headlen _ := 0; skb_is_nonlinear _ := true;
  skb_shift p b n := Some (p <| len := len p + n |>, b <| len := len b - n |>);
  sk_data_ready sk := sk; sk_state_change sk := sk; sk_error_report sk := sk; sk_write_space sk := sk;
  sk_send_sigurg sk := sk; conn_request sk _ := (0, sk); rebuild_header sk := sk;
  current := 1; skb_copy_datagram_iovec _ _ _ _ := true; skb_copy_and_csum_datagram_iovec _ _ _ := true; SOCK_NOSPACE := 2; skb_csum_unnecessary _ := true;
  tcp_checksum_complete_ _ := false
|}.

#[export] Instance linux_seq : SeqLaws linux.
Proof. by split. Qed.
#[export] Instance linux_sack_mode : SackModeLaws linux.
Proof. by split. Qed.
#[export] Instance linux_rto : RtoLaws linux.
Proof. split; [unfold is_u32; cbn; lia|done..]. Qed.
#[export] Instance linux_tags : TagLaws linux.
Proof. by split. Qed.
#[export] Instance linux_pcount : PcountLaws linux.
Proof. by split. Qed.
#[export] Instance linux_flight : FlightLaws linux.
Proof. by split. Qed.
#[export] Instance linux_opt : OptLaws linux.
Proof. by split. Qed.
#[export] Instance linux_window : WindowLaws linux.
Proof. by split. Qed.

#[export] Instance linux_paws : PawsLaws linux.
Proof. split. intros o o' rst H1 H2 H3. cbn. unfold linux_paws_check. by rewrite H1, H2, H3. Qed.
#[export] Instance linux_ca_state : CaStateLaws linux.
Proof. by split. Qed.
#[export] Instance linux_child : ChildLaws linux.
Proof. split; cbn; try done. by intros ? ? [= ->]. Qed.
#[export] Instance linux_mem : MemLaws linux.
Proof. by split. Qed.
#[export] Instance linux_free : FreeLaws linux.
Proof. by split. Qed.
#[export] Instance linux_deliver : DeliverLaws linux.
Proof. by split. Qed.
#[export] Instance linux_wl : WlLaws linux.
Proof. by split. Qed.
#[export] Instance linux_state : StateLaws linux.
Proof. by split. Qed.
#[export] Instance linux_shift : ShiftLaws linux.
Proof. split; by intros p b n p' b' [= <- <-]. Qed.
#[export] Instance linux_high_sack : HighSackLaws linux.
Proof. by split. Qed.
#[export] Instance linux_cong : CongLaws linux.
Proof. by split. Qed.
#[export] Instance linux_reno : RenoLaws linux.
Proof. split; [done..|]. intros sk H. cbn. unfold linux_current_ssthresh. by destruct (icsk_ca_state (icsk sk)). Qed.
#[export] Instance linux_hint : HintLaws linux.
Proof. by split. Qed.
#[export] Instance linux_buf : BufLaws linux.
Proof. split; cbn; intros; try done; try dlia. Qed.

(** ** Consequences of the laws *)
Section SeqFacts.
Context {K : Kernel} {S : SeqLaws K}.

(** On positions of an unbounded stream less than 2^31 apart, [before] is [<]. *)
Lemma before_u32 x y : - 2 ^ 31 <= x - y < 2 ^ 31 -> before (u32 x) (u32 y) = (x <? y).
Proof. intros H. rewrite before_spec, s32_sub_u32 by done. destruct (Z.ltb_spec (x - y) 0), (Z.ltb_spec x y); lia. Qed.
Lemma after_u32 x y : - 2 ^ 31 <= y - x < 2 ^ 31 -> after (u32 x) (u32 y) = (y <? x).
Proof. intros. rewrite after_spec. by apply before_u32. Qed.
Lemma before_irrefl x : before x x = false.
Proof. rewrite before_spec, Z.sub_diag. done. Qed.
Lemma after_irrefl x : after x x = false.
Proof. rewrite after_spec. apply before_irrefl. Qed.
End SeqFacts.
