(* ===== verification/ReqQueue.v ===== *)
(** * The queue of connection requests of a listening socket

    include/net/request_sock.h, net/core/request_sock.c and the SYN-queue part of
    net/ipv4/inet_connection_sock.c: the hash table of half-open connections
    (listen_sock.syn_table), the FIFO of established children waiting for accept(), their
    counters, and the timer that retransmits SYN-ACKs and prunes the table.

    Both structures are linked through request_sock.dl_next, so the model keeps the pointers:
    [reqs] is the heap of live requests, a bucket and the FIFO are chains in it, and a
    [struct request_sock **] is a [prevptr].  The abstract state is the lists of requests in
    each bucket and in the FIFO; [rep] relates the two, and the theorems are refinements. *)

From stdpp Require Import gmap.
From S2P Require Import Prelude TcpTypes.

(** struct request_sock with the members of inet_request_sock and tcp_request_sock that the
    sources use. *)
#[projections(primitive)]
Record request_sock := mk_request_sock {
  dl_next : option nat;
  req_mss : Z; (* mss *)
  retrans : Z;
  req_window_clamp : Z; (* window_clamp *)
  req_rcv_wnd : Z; (* rcv_wnd *)
  req_ts_recent : Z; (* ts_recent *)
  expires : Z;
  req_sk : option nat; (* sk: the child socket *)
  loc_addr : Z;
  rmt_addr : Z;
  rmt_port : Z;
  req_acked : bool; (* acked *)
  rcv_isn : Z;
  snt_isn : Z;
  snt_synack : Z;
  req_tstamp_ok : bool; (* tstamp_ok *)
  req_sack_ok : Z; (* sack_ok *)
  req_wscale_ok : bool; (* wscale_ok *)
  req_snd_wscale : Z; (* snd_wscale *)
  req_rcv_wscale : Z; (* rcv_wscale *)
  req_ecn_ok : bool; (* ecn_ok *)
  loc_port : Z
}.

Definition eta_request_sock (r : request_sock) : request_sock :=
  mk_request_sock (dl_next r) (req_mss r) (retrans r) (req_window_clamp r) (req_rcv_wnd
    r) (req_ts_recent r) (expires r) (req_sk r) (loc_addr r) (rmt_addr r) (rmt_port r)
    (req_acked r) (rcv_isn r) (snt_isn r) (snt_synack r)
    (req_tstamp_ok r) (req_sack_ok r) (req_wscale_ok r) (req_snd_wscale r) (req_rcv_wscale r) (req_ecn_ok r) (loc_port r).
#[export] Instance set_dl_next : Setter dl_next. Proof. solve_setter eta_request_sock. Defined.
#[export] Instance set_req_mss : Setter req_mss. Proof. solve_setter eta_request_sock. Defined.
#[export] Instance set_retrans : Setter retrans. Proof. solve_setter eta_request_sock. Defined.
#[export] Instance set_req_window_clamp : Setter req_window_clamp. Proof. solve_setter eta_request_sock. Defined.
#[export] Instance set_req_rcv_wnd : Setter req_rcv_wnd. Proof. solve_setter eta_request_sock. Defined.
#[export] Instance set_req_ts_recent : Setter req_ts_recent. Proof. solve_setter eta_request_sock. Defined.
#[export] Instance set_expires : Setter expires. Proof. solve_setter eta_request_sock. Defined.
#[export] Instance set_req_sk : Setter req_sk. Proof. solve_setter eta_request_sock. Defined.
#[export] Instance set_loc_addr : Setter loc_addr. Proof. solve_setter eta_request_sock. Defined.
#[export] Instance set_rmt_addr : Setter rmt_addr. Proof. solve_setter eta_request_sock. Defined.
#[export] Instance set_rmt_port : Setter rmt_port. Proof. solve_setter eta_request_sock. Defined.
#[export] Instance set_req_acked : Setter req_acked. Proof. solve_setter eta_request_sock. Defined.
#[export] Instance set_rcv_isn : Setter rcv_isn. Proof. solve_setter eta_request_sock. Defined.
#[export] Instance set_snt_isn : Setter snt_isn. Proof. solve_setter eta_request_sock. Defined.
#[export] Instance set_snt_synack : Setter snt_synack. Proof. solve_setter eta_request_sock. Defined.
#[export] Instance set_req_tstamp_ok : Setter req_tstamp_ok. Proof. solve_setter eta_request_sock. Defined.
#[export] Instance set_req_sack_ok : Setter req_sack_ok. Proof. solve_setter eta_request_sock. Defined.
#[export] Instance set_req_wscale_ok : Setter req_wscale_ok. Proof. solve_setter eta_request_sock. Defined.
#[export] Instance set_req_snd_wscale : Setter req_snd_wscale. Proof. solve_setter eta_request_sock. Defined.
#[export] Instance set_req_rcv_wscale : Setter req_rcv_wscale. Proof. solve_setter eta_request_sock. Defined.
#[export] Instance set_req_ecn_ok : Setter req_ecn_ok. Proof. solve_setter eta_request_sock. Defined.
#[export] Instance set_loc_port : Setter loc_port. Proof. solve_setter eta_request_sock. Defined.

(** struct listen_sock *)
#[projections(primitive)]
Record listen_sock := mk_listen_sock {
  max_qlen_log : Z;
  qlen : Z;
  qlen_young : Z;
  clock_hand : nat;
  hash_rnd : Z;
  nr_table_entries : nat;
  syn_table : list (option nat)
}.

Definition eta_listen_sock (r : listen_sock) : listen_sock :=
  mk_listen_sock (max_qlen_log r) (qlen r) (qlen_young r) (clock_hand r) (hash_rnd r)
    (nr_table_entries r) (syn_table r).
#[export] Instance set_max_qlen_log : Setter max_qlen_log. Proof. solve_setter eta_listen_sock. Defined.
#[export] Instance set_qlen : Setter qlen. Proof. solve_setter eta_listen_sock. Defined.
#[export] Instance set_qlen_young : Setter qlen_young. Proof. solve_setter eta_listen_sock. Defined.
#[export] Instance set_clock_hand : Setter clock_hand. Proof. solve_setter eta_listen_sock. Defined.
#[export] Instance set_hash_rnd : Setter hash_rnd. Proof. solve_setter eta_listen_sock. Defined.
#[export] Instance set_nr_table_entries : Setter nr_table_entries. Proof. solve_setter eta_listen_sock. Defined.
#[export] Instance set_syn_table : Setter syn_table. Proof. solve_setter eta_listen_sock. Defined.

(** struct request_sock_queue, with the heap of requests and the counters of the listening
    socket it belongs to. *)
#[projections(primitive)]
Record listener := mk_listener {
  reqs : gmap nat request_sock; (* live requests *)
  rskq_accept_head : option nat;
  rskq_accept_tail : option nat;
  lq_defer_accept : Z; (* rskq_defer_accept *)
  listen_opt : option listen_sock;
  sk_ack_backlog : Z;
  sk_max_ack_backlog : Z;
  icsk_syn_retries : Z;
  lq_state : tcp_state (* sk_state of the listening socket *)
}.

Definition eta_listener (r : listener) : listener :=
  mk_listener (reqs r) (rskq_accept_head r) (rskq_accept_tail r) (lq_defer_accept r)
    (listen_opt r) (sk_ack_backlog r) (sk_max_ack_backlog r) (icsk_syn_retries r)
    (lq_state r).
#[export] Instance set_reqs : Setter reqs. Proof. solve_setter eta_listener. Defined.
#[export] Instance set_rskq_accept_head : Setter rskq_accept_head. Proof. solve_setter eta_listener. Defined.
#[export] Instance set_rskq_accept_tail : Setter rskq_accept_tail. Proof. solve_setter eta_listener. Defined.
#[export] Instance set_lq_defer_accept : Setter lq_defer_accept. Proof. solve_setter eta_listener. Defined.
#[export] Instance set_listen_opt : Setter listen_opt. Proof. solve_setter eta_listener. Defined.
#[export] Instance set_sk_ack_backlog : Setter sk_ack_backlog. Proof. solve_setter eta_listener. Defined.
#[export] Instance set_sk_max_ack_backlog : Setter sk_max_ack_backlog. Proof. solve_setter eta_listener. Defined.
#[export] Instance set_icsk_syn_retries : Setter icsk_syn_retries. Proof. solve_setter eta_listener. Defined.
#[export] Instance set_lq_state : Setter lq_state. Proof. solve_setter eta_listener. Defined.

(** struct request_sock **prev: the address of a bucket head or of a dl_next member. *)
Inductive prevptr := PSlot (i : nat) | PNext (p : nat).

(** ** Operations *)

(** The loop that finds max_qlen_log: from 3 up while 1 << log is below the table size. *)
Fixpoint find_qlen_log (fuel : nat) (log n : Z) : Z :=
  match fuel with
  | O => log
  | S fuel => if Z.shiftl 1 log <? n then find_qlen_log fuel (log + 1) n else log
  end.

(** reqsk_queue_alloc; [mem] says whether the allocation succeeds and [rnd] is the random
    hash seed.  roundup_pow_of_two (linux/log2.h) is an argument. *)
Definition reqsk_queue_alloc (roundup_pow_of_two : Z -> Z) (sysctl_max_syn_backlog : Z)
    (mem : bool) (rnd : Z) (q : listener) (nr : Z) : errno + listener :=
  let nr := Z.min (u32 nr) (u32 sysctl_max_syn_backlog) in
  let nr := Z.max nr 8 in
  let nr := u32 (roundup_pow_of_two (u32 (nr + 1))) in
  if negb mem then inl ENOMEM else
  let lopt := {| max_qlen_log := find_qlen_log 32 3 nr; qlen := 0; qlen_young := 0; clock_hand := 0;
                 hash_rnd := rnd; nr_table_entries := Z.to_nat nr;
                 syn_table := replicate (Z.to_nat nr) None |} in
  inr (q <| rskq_accept_head := None |> <| listen_opt := Some lopt |>).

(** reqsk_queue_empty *)
Definition reqsk_queue_empty (q : listener) : bool :=
  match rskq_accept_head q with None => true | Some _ => false end.

(** sk_acceptq_removed, sk_acceptq_added, sk_acceptq_is_full (sock.h); the backlog is an
    unsigned short. *)
Definition sk_acceptq_removed (q : listener) : listener := q <| sk_ack_backlog := u16 (sk_ack_backlog q - 1) |>.
Definition sk_acceptq_added (q : listener) : listener := q <| sk_ack_backlog := u16 (sk_ack_backlog q + 1) |>.
Definition sk_acceptq_is_full (q : listener) : bool := sk_ack_backlog q >? sk_max_ack_backlog q.

(** Updates of one request and of the listen state. *)
Definition upd_req (q : listener) (p : nat) (f : request_sock -> request_sock) : listener :=
  q <| reqs := alter f p (reqs q) |>.
Definition upd_lopt (q : listener) (f : listen_sock -> listen_sock) : listener :=
  q <| listen_opt := f <$> listen_opt q |>.

(** Reading and writing through a [struct request_sock **]. *)
Definition read_prev (q : listener) (prev : prevptr) : option nat :=
  match prev with
  | PSlot i => lopt ← listen_opt q; default None (syn_table lopt !! i)
  | PNext p => r ← reqs q !! p; dl_next r
  end.
Definition write_prev (q : listener) (prev : prevptr) (v : option nat) : listener :=
  match prev with
  | PSlot i => upd_lopt q (fun l => l <| syn_table := <[i := v]> (syn_table l) |>)
  | PNext p => upd_req q p (fun r => r <| dl_next := v |>)
  end.

(** reqsk_queue_unlink: *prev_req = req->dl_next. *)
Definition reqsk_queue_unlink (q : listener) (req : nat) (prev : prevptr) : listener :=
  write_prev q prev (r ← reqs q !! req; dl_next r).

(** reqsk_queue_add: append to the FIFO of established children. *)
Definition reqsk_queue_add (q : listener) (req : nat) (child : nat) : listener :=
  let q := upd_req q req (fun r => r <| req_sk := Some child |>) in
  let q := sk_acceptq_added q in
  let q := match rskq_accept_head q with
           | None => q <| rskq_accept_head := Some req |>
           | Some _ =>
             match rskq_accept_tail q with
             | Some t => upd_req q t (fun r => r <| dl_next := Some req |>)
             | None => q
             end
           end in
  let q := q <| rskq_accept_tail := Some req |> in
  upd_req q req (fun r => r <| dl_next := None |>).

(** reqsk_queue_remove: the head of the FIFO; the queue must not be empty. *)
Definition reqsk_queue_remove (q : listener) : option (nat * listener) :=
  match rskq_accept_head q with
  | None => None
  | Some req =>
    let h := r ← reqs q !! req; dl_next r in
    let q := q <| rskq_accept_head := h |> in
    let q := match h with None => q <| rskq_accept_tail := None |> | Some _ => q end in
    Some (req, q)
  end.

(** __reqsk_free: the request leaves the heap. *)
Definition reqsk_free (q : listener) (req : nat) : listener := q <| reqs := delete req (reqs q) |>.

(** reqsk_queue_get_child: the child socket of the oldest request, which is freed. *)
Definition reqsk_queue_get_child (q : listener) : option (option nat * listener) :=
  match reqsk_queue_remove q with
  | None => None
  | Some (req, q) =>
    let child := r ← reqs q !! req; req_sk r in
    let q := sk_acceptq_removed q in
    Some (child, reqsk_free q req)
  end.

(** reqsk_queue_removed: account for a request that leaves the table; returns qlen. *)
Definition reqsk_queue_removed (q : listener) (req : nat) : Z * listener :=
  let young := match reqs q !! req with Some r => retrans r =? 0 | None => false end in
  let q := if young then upd_lopt q (fun l => l <| qlen_young := qlen_young l - 1 |>) else q in
  let q := upd_lopt q (fun l => l <| qlen := qlen l - 1 |>) in
  (match listen_opt q with Some l => qlen l | None => 0 end, q).

(** reqsk_queue_added: account for a new request; returns the previous qlen. *)
Definition reqsk_queue_added (q : listener) : Z * listener :=
  let prev := match listen_opt q with Some l => qlen l | None => 0 end in
  (prev, upd_lopt q (fun l => l <| qlen_young := qlen_young l + 1 |> <| qlen := qlen l + 1 |>)).

Definition reqsk_queue_len (q : listener) : Z :=
  match listen_opt q with Some l => qlen l | None => 0 end.
Definition reqsk_queue_len_young (q : listener) : Z :=
  match listen_opt q with Some l => qlen_young l | None => 0 end.
(** reqsk_queue_is_full: qlen >> max_qlen_log *)
Definition reqsk_queue_is_full (q : listener) : bool :=
  match listen_opt q with Some l => negb (Z.shiftr (qlen l) (max_qlen_log l) =? 0) | None => false end.

(** reqsk_queue_hash_req: push a request on its bucket. *)
Definition reqsk_queue_hash_req (jiffies : Z) (q : listener) (hash : nat) (req : nat) (timeout : Z) : listener :=
  let q := upd_req q req (fun r => r <| expires := u64 (jiffies + timeout) |> <| retrans := 0 |> <| req_sk := None |>
             <| dl_next := read_prev q (PSlot hash) |>) in
  write_prev q (PSlot hash) (Some req).

(** ** Setup, teardown and accept *)

(** reqsk_queue_yank_acceptq: take the whole FIFO. *)
Definition reqsk_queue_yank_acceptq (q : listener) : option nat * listener :=
  (rskq_accept_head q, q <| rskq_accept_head := None |>).

(** The loop of reqsk_queue_destroy over one bucket, which frees every request. *)
Fixpoint destroy_bucket (fuel : nat) (q : listener) (n : Z) (slot : option nat) : Z * listener :=
  match fuel, slot with
  | S fuel, Some req => destroy_bucket fuel (reqsk_free q req) (n - 1) (r ← reqs q !! req; dl_next r)
  | _, _ => (n, q)
  end.
Fixpoint destroy_slots (q : listener) (n : Z) (slots : list (option nat)) : Z * listener :=
  match slots with
  | [] => (n, q)
  | s :: slots => let '(n, q) := destroy_bucket (size (reqs q)) q n s in destroy_slots q n slots
  end.

(** reqsk_queue_destroy: detach the table and free its requests; the result is the final
    qlen, which the code expects to be zero. *)
Definition reqsk_queue_destroy (q : listener) : Z * listener :=
  match listen_opt q with
  | None => (0, q)
  | Some l =>
    let q := q <| listen_opt := None |> in
    if qlen l =? 0 then (0, q) else destroy_slots q (qlen l) (syn_table l)
  end.

(** One wake-up of a process sleeping in accept(): whether the unlocked check found the queue
    empty and slept, the timeout left, the socket as found after the lock is taken again, and
    whether a signal is pending. *)
Record wakeup := { w_slept : bool; w_timeo : Z; w_sock : listener; w_signal : bool }.

(** sock_intr_errno (sock.h) *)
Definition sock_intr_errno (MAX_SCHEDULE_TIMEOUT timeo : Z) : errno :=
  if timeo =? MAX_SCHEDULE_TIMEOUT then ERESTARTSYS else EINTR.

(** inet_csk_wait_for_connect, along the wake-ups it sees; None: it still sleeps. *)
Fixpoint inet_csk_wait_for_connect (MAX_SCHEDULE_TIMEOUT : Z) (ws : list wakeup) (timeo : Z)
    : option (option errno * listener) :=
  match ws with
  | [] => None
  | w :: ws =>
    let timeo := if w_slept w then w_timeo w else timeo in
    let q := w_sock w in
    if negb (reqsk_queue_empty q) then Some (None, q)
    else if negb (st_eqb (lq_state q) TCP_LISTEN) then Some (Some EINVAL, q)
    else if w_signal w then Some (Some (sock_intr_errno MAX_SCHEDULE_TIMEOUT timeo), q)
    else if timeo =? 0 then Some (Some EAGAIN, q)
    else inet_csk_wait_for_connect MAX_SCHEDULE_TIMEOUT ws timeo
  end.

(** inet_csk_accept: the child socket or an error; [timeo] is sock_rcvtimeo. *)
Definition inet_csk_accept (MAX_SCHEDULE_TIMEOUT : Z) (q : listener) (timeo : Z) (ws : list wakeup)
    : option ((errno + option nat) * listener) :=
  if negb (st_eqb (lq_state q) TCP_LISTEN) then Some (inl EINVAL, q) else
  let take q := match reqsk_queue_get_child q with
                | Some (child, q) => Some (inr child, q)
                | None => None
                end in
  if reqsk_queue_empty q then
    if timeo =? 0 then Some (inl EAGAIN, q) else
    match inet_csk_wait_for_connect MAX_SCHEDULE_TIMEOUT ws timeo with
    | None => None
    | Some (Some e, q) => Some (inl e, q)
    | Some (None, q) => take q
    end
  else take q.

(** inet_csk_listen_start; [get_port] is sk_prot->get_port (true: the port was refused). *)
Definition inet_csk_listen_start (roundup_pow_of_two : Z -> Z) (sysctl_max_syn_backlog : Z) (mem : bool)
    (rnd : Z) (get_port : listener -> bool) (q : listener) (nr : Z) : (errno + unit) * listener :=
  match reqsk_queue_alloc roundup_pow_of_two sysctl_max_syn_backlog mem rnd q nr with
  | inl e => (inl e, q)
  | inr q =>
    let q := q <| sk_max_ack_backlog := 0 |> <| sk_ack_backlog := 0 |> <| lq_state := TCP_LISTEN |> in
    if get_port q then (inl EADDRINUSE, q <| lq_state := TCP_CLOSE |>) else (inr tt, q)
  end.

Section SynQueue.
(** jhash_2words is outside of the repository. *)
Variable jhash_2words : Z -> Z -> Z -> Z.

(** inet_synq_hash: jhash & (synq_hsize - 1) *)
Definition inet_synq_hash (raddr rport rnd : Z) (synq_hsize : nat) : nat :=
  Z.to_nat (Z.land (jhash_2words raddr rport rnd) (Z.of_nat synq_hsize - 1)).

(** inet_csk_search_req: walk the bucket of the remote address; returns the request and the
    link that points to it. *)
Fixpoint search_chain (fuel : nat) (q : listener) (prev : prevptr) (rport raddr laddr : Z) : option (nat * prevptr) :=
  match fuel with
  | O => None
  | S fuel =>
    match read_prev q prev with
    | None => None
    | Some req =>
      match reqs q !! req with
      | None => None
      | Some r =>
        if (rmt_port r =? rport) && (rmt_addr r =? raddr) && (loc_addr r =? laddr)
        then Some (req, prev)
        else search_chain fuel q (PNext req) rport raddr laddr
      end
    end
  end.
Definition inet_csk_search_req (q : listener) (rport raddr laddr : Z) : option (nat * prevptr) :=
  match listen_opt q with
  | None => None
  | Some l =>
    search_chain (S (size (reqs q))) q (PSlot (inet_synq_hash raddr rport (hash_rnd l) (nr_table_entries l)))
      rport raddr laddr
  end.

(** inet_csk_reqsk_queue_hash_add: hash the request and count it; the first one of an empty
    queue starts the keepalive timer, reported by the boolean. *)
Definition inet_csk_reqsk_queue_hash_add (jiffies : Z) (q : listener) (req : nat) (timeout : Z) : bool * listener :=
  match listen_opt q, reqs q !! req with
  | Some l, Some r =>
    let h := inet_synq_hash (rmt_addr r) (rmt_port r) (hash_rnd l) (nr_table_entries l) in
    let q := reqsk_queue_hash_req jiffies q h req timeout in
    let '(prev, q) := reqsk_queue_added q in
    (prev =? 0, q)
  | _, _ => (false, q)
  end.

(** inet_csk_reqsk_queue_drop: unlink, uncount and free; the boolean says that the queue
    became empty and the keepalive timer is deleted. *)
Definition inet_csk_reqsk_queue_drop (q : listener) (req : nat) (prev : prevptr) : bool * listener :=
  let q := reqsk_queue_unlink q req prev in
  let '(n, q) := reqsk_queue_removed q req in
  (n =? 0, reqsk_free q req).

(** ** SYN-ACK retransmission and pruning *)

(** syn_ack_recalc: (expire, resend). *)
Definition syn_ack_recalc (r : request_sock) (thresh max_retries defer : Z) : bool * bool :=
  if defer =? 0 then (retrans r >=? thresh, true)
  else ((retrans r >=? thresh) && (negb (req_acked r) || (retrans r >=? max_retries)),
        negb (req_acked r) || (retrans r >=? defer - 1)).

(** The loop that lowers [thresh] while the table is crowded with old requests. *)
Fixpoint prune_thresh (fuel : nat) (qlen young thresh : Z) : Z :=
  match fuel with
  | O => thresh
  | S fuel =>
    if thresh >? 2 then
      if qlen <? young then thresh
      else prune_thresh fuel qlen (Z.shiftl young 1) (thresh - 1)
    else thresh
  end.

(** The outcome of rsk_ops->rtx_syn_ack for a request; nonzero is a failure. *)
Variable rtx_syn_ack : nat -> Z.

(** One request whose link is [prev]: the next link and the new queue.  The syn_ack_timeout
    hook only counts statistics. *)
Definition prune_req (now timeout max_rto thresh max_retries defer : Z)
    (q : listener) (prev : prevptr) (req : nat) (r : request_sock) : prevptr * listener :=
  if time_after_eq now (expires r) then
    let '(expire, resend) := syn_ack_recalc r thresh max_retries defer in
    if negb expire && (negb resend || (rtx_syn_ack req =? 0) || req_acked r) then
      let q := if retrans r =? 0 then upd_lopt q (fun l => l <| qlen_young := qlen_young l - 1 |>) else q in
      let r' := r <| retrans := u8 (retrans r + 1) |> in
      let timeo := Z.min (u64 (Z.shiftl timeout (retrans r'))) max_rto in
      let q := upd_req q req (fun r => r <| retrans := u8 (retrans r + 1) |> <| expires := u64 (now + timeo) |>) in
      (PNext req, q)
    else
      let q := reqsk_queue_unlink q req prev in
      let '(_, q) := reqsk_queue_removed q req in
      (prev, reqsk_free q req)
  else (PNext req, q).

(** The inner loop: while ((req = *reqp) != NULL). *)
Fixpoint prune_bucket (fuel : nat) (now timeout max_rto thresh max_retries defer : Z)
    (q : listener) (prev : prevptr) : listener :=
  match fuel with
  | O => q
  | S fuel =>
    match read_prev q prev with
    | None => q
    | Some req =>
      match reqs q !! req with
      | None => q
      | Some r =>
        let '(prev, q) := prune_req now timeout max_rto thresh max_retries defer q prev req r in
        prune_bucket fuel now timeout max_rto thresh max_retries defer q prev
      end
    end
  end.

(** The outer loop: do { bucket i; i = (i + 1) & (nr - 1); } while (--budget > 0). *)
Fixpoint prune_slots (budget : nat) (now timeout max_rto thresh max_retries defer : Z)
    (q : listener) (i nr : nat) : nat * listener :=
  let q := prune_bucket (S (size (reqs q))) now timeout max_rto thresh max_retries defer q (PSlot i) in
  let i := Z.to_nat (Z.land (Z.of_nat (i + 1)) (Z.of_nat nr - 1)) in
  match budget with
  | O => (i, q)
  | S budget => prune_slots budget now timeout max_rto thresh max_retries defer q i nr
  end.

(** inet_csk_reqsk_queue_prune; the boolean says that the keepalive timer is rearmed.
    The loop runs max(budget, 1) times. *)
Definition inet_csk_reqsk_queue_prune (sysctl_tcp_synack_retries now : Z)
    (q : listener) (interval timeout max_rto : Z) : bool * listener :=
  match listen_opt q with
  | None => (false, q)
  | Some l =>
    if qlen l =? 0 then (false, q) else
    let max_retries := if icsk_syn_retries q =? 0 then sysctl_tcp_synack_retries else icsk_syn_retries q in
    let thresh := max_retries in
    let thresh := if Z.shiftr (qlen l) (max_qlen_log l - 1) =? 0 then thresh
                  else prune_thresh (Z.to_nat thresh) (qlen l) (Z.shiftl (qlen_young l) 1) thresh in
    let max_retries := if lq_defer_accept q =? 0 then max_retries else lq_defer_accept q in
    let budget := 2 * (Z.of_nat (nr_table_entries l) / (timeout / interval)) in
    let '(i, q) := prune_slots (Z.to_nat (budget - 1)) now timeout max_rto thresh max_retries (lq_defer_accept q)
                     q (clock_hand l) (nr_table_entries l) in
    let q := upd_lopt q (fun l => l <| clock_hand := i |>) in
    (negb (reqsk_queue_len q =? 0), q)
  end.
End SynQueue.

(** ** The abstract state and its representation *)

(** [chain nx p l]: following [nx] from [p] visits exactly [l] and ends in NULL. *)
Fixpoint chain (nx : nat -> option (option nat)) (p : option nat) (l : list nat) : Prop :=
  match l with
  | [] => p = None
  | x :: l => p = Some x /\ exists p', nx x = Some p' /\ chain nx p' l
  end.

(** The link that points to what follows the prefix [l1] of bucket [i]. *)
Definition link (i : nat) (l1 : list nat) : prevptr :=
  match last l1 with None => PSlot i | Some y => PNext y end.

(** The linked structure: every bucket of the table and the FIFO are chains, no request is
    linked twice, and the tail pointer is the last request of the FIFO. *)
Record shape (nx : nat -> option (option nat)) (tbl : list (option nat)) (hd tl : option nat)
    (T : list (list nat)) (A : list nat) : Prop := {
  shape_len : length tbl = length T;
  shape_table i p b : tbl !! i = Some p -> T !! i = Some b -> chain nx p b;
  shape_accept : chain nx hd A;
  shape_tail : A <> [] -> tl = last A;
  shape_nodup : NoDup (concat T ++ A);
}.

Definition nexts (h : gmap nat request_sock) (x : nat) : option (option nat) := dl_next <$> h !! x.
Definition young (h : gmap nat request_sock) (x : nat) : Z :=
  match h !! x with Some r => b2z (retrans r =? 0) | None => 0 end.

(** [rep q l T A]: the listener [q] with listen state [l] represents the table [T] (the
    requests of each bucket, most recent first) and the FIFO [A]. *)
Record rep (jh : Z -> Z -> Z -> Z) (q : listener) (l : listen_sock) (T : list (list nat)) (A : list nat) : Prop := {
  rep_lopt : listen_opt q = Some l;
  rep_shape : shape (nexts (reqs q)) (syn_table l) (rskq_accept_head q) (rskq_accept_tail q) T A;
  rep_nr : length T = nr_table_entries l;
  rep_qlen : qlen l = Z.of_nat (length (concat T));
  rep_young : qlen_young l = sumZ (young (reqs q)) (concat T);
  rep_hash i b x r : T !! i = Some b -> x ∈ b -> reqs q !! x = Some r ->
    inet_synq_hash jh (rmt_addr r) (rmt_port r) (hash_rnd l) (nr_table_entries l) = i;
}.

(** ** Lists of buckets *)
Lemma concat_lookup_perm {B} (T : list (list B)) i a :
  T !! i = Some a -> concat T ≡ₚ a ++ concat (delete i T).
Proof.
  intros H. rewrite <- (take_drop_middle T i a H) at 1. rewrite delete_take_drop, !concat_app. cbn.
  rewrite !app_assoc. by rewrite (Permutation_app_comm (concat (take i T)) a).
Qed.
Lemma concat_insert_perm {B} (T : list (list B)) i a b :
  T !! i = Some a -> concat (<[i := b]> T) ≡ₚ b ++ concat (delete i T).
Proof.
  intros H. assert (Hi : (i < length T)%nat) by (by eapply lookup_lt_Some).
  rewrite (concat_lookup_perm _ i b) by (by apply list_lookup_insert_eq).
  rewrite !delete_take_drop, take_insert_ge, drop_insert_lt by lia. done.
Qed.
Lemma sumZ_perm {B} (f : B -> Z) l k : l ≡ₚ k -> sumZ f l = sumZ f k.
Proof. induction 1; cbn; lia. Qed.
Lemma elem_of_concat {B} (T : list (list B)) x : x ∈ concat T <-> exists i b, T !! i = Some b /\ x ∈ b.
Proof.
  rewrite list_elem_of_In, in_concat. split.
  - intros (b & Hb & Hx). apply list_elem_of_In, list_elem_of_lookup in Hb as [i Hi].
    exists i, b. by rewrite list_elem_of_In.
  - intros (i & b & Hi & Hx). exists b. split; [|by apply list_elem_of_In].
    apply list_elem_of_In, list_elem_of_lookup. eauto.
Qed.
Lemma bucket_unique {B} (T : list (list B)) i j a b x :
  NoDup (concat T) -> T !! i = Some a -> T !! j = Some b -> x ∈ a -> x ∈ b -> i = j.
Proof.
  intros Hnd Hi Hj Ha Hb. destruct (decide (i = j)) as [|Hne]; [done|]. exfalso.
  rewrite (concat_lookup_perm T i a Hi) in Hnd. apply NoDup_app in Hnd as (_ & Hd & _).
  apply (Hd x Ha), elem_of_concat. destruct (decide (j < i)%nat).
  - exists j, b. split; [|done]. by rewrite list_lookup_delete_lt.
  - exists (Nat.pred j), b. split; [|done]. rewrite list_lookup_delete_ge by lia.
    by replace (S (Nat.pred j)) with j by lia.
Qed.

(** ** Chains *)
Lemma chain_ext nx nx' p l : (forall x, x ∈ l -> nx x = nx' x) -> chain nx p l -> chain nx' p l.
Proof.
  revert p. induction l as [|x l IH]; intros p Hx; cbn; [done|].
  intros (-> & p' & Hp & Hc). split; [done|]. exists p'. split.
  - rewrite <- Hx by (by left). done.
  - apply IH; [|done]. intros y Hy. apply Hx. by right.
Qed.
Lemma chain_app nx p l1 l2 :
  chain nx p (l1 ++ l2) ->
  chain nx (match last l1 with None => p | Some y => default None (nx y) end) l2.
Proof.
  revert p. induction l1 as [|x l1 IH]; intros p; [done|]. cbn [app chain].
  intros (-> & p' & Hp & Hc). apply IH in Hc. rewrite last_cons.
  destruct (last l1) as [y|]; [done|]. by rewrite Hp.
Qed.
(** Redirecting the link after [l1] replaces the rest of the chain. *)
Lemma chain_relink nx p l1 y l2 l3 p3 :
  last l1 = Some y -> NoDup (l1 ++ l3) -> chain nx p (l1 ++ l2) -> chain nx p3 l3 ->
  chain (fun z => if decide (z = y) then Some p3 else nx z) p (l1 ++ l3).
Proof.
  revert p. induction l1 as [|x l1 IH]; intros p; [done|]. rewrite last_cons. cbn [app chain].
  intros Hl Hnd (-> & p' & Hp & Hc) H3. apply NoDup_cons in Hnd as [Hx Hnd]. split; [done|].
  assert (Hl1 : last l1 = Some y -> y ∈ l1).
  { intros E. apply last_Some in E as [k ->]. apply elem_of_app. right. by left. }
  destruct (last l1) as [z|] eqn:E.
  - injection Hl as ->. exists p'. rewrite decide_False; [by split; [done|apply IH]|].
    intros ->. apply Hx, elem_of_app. left. by apply Hl1.
  - injection Hl as ->. exists p3. rewrite decide_True by done. split; [done|].
    apply last_None in E as ->. cbn. eapply chain_ext; [|done]. cbn. intros z Hz.
    rewrite decide_False; [done|]. intros ->. done.
Qed.
Lemma chain_dom nx p l x : chain nx p l -> x ∈ l -> is_Some (nx x).
Proof.
  revert p. induction l as [|y l IH]; intros p; cbn; [by intros _ ?%elem_of_nil|].
  intros (-> & p' & Hp & Hc) [->|Hx]%elem_of_cons; eauto.
Qed.
Lemma chain_None nx l : chain nx None l -> l = [].
Proof. destruct l; [done|]. by intros [? _]. Qed.

(** ** The linked structure under the pointer operations *)
Lemma shape_ext nx nx' tbl hd tl T A :
  (forall x, x ∈ concat T ++ A -> nx x = nx' x) -> shape nx tbl hd tl T A -> shape nx' tbl hd tl T A.
Proof.
  intros Hx [H1 H2 H3 H4 H5]. split; [done| | |done|done].
  - intros i p b Hp Hb. eapply chain_ext; [|by eapply H2]. intros x Hxb. apply Hx, elem_of_app. left.
    apply elem_of_concat. eauto.
  - eapply chain_ext; [|done]. intros x HA. apply Hx, elem_of_app. by right.
Qed.

Lemma shape_slot nx tbl hd tl T A i b : shape nx tbl hd tl T A -> T !! i = Some b ->
  exists p, tbl !! i = Some p /\ chain nx p b.
Proof.
  intros [H1 H2 _ _ _] Hb. assert (Hi : (i < length tbl)%nat) by (rewrite H1; by eapply lookup_lt_Some).
  apply lookup_lt_is_Some in Hi as [p Hp]. eauto.
Qed.

(** Unlinking the request after the prefix [l1] of bucket [i]. *)
Lemma shape_unlink_slot nx tbl hd tl T A i x l2 p :
  shape nx tbl hd tl T A -> T !! i = Some (x :: l2) -> nx x = Some p ->
  shape nx (<[i := p]> tbl) hd tl (<[i := l2]> T) A.
Proof.
  intros Hs Hi Hx. pose proof (shape_slot _ _ _ _ _ _ _ _ Hs Hi) as (p0 & Hp0 & Hc).
  destruct Hs as [H1 H2 H3 H4 H5]. split; [by rewrite !length_insert| |done|done|].
  - intros j p' b Hp Hb. destruct (decide (i = j)) as [<-|Hne].
    + rewrite list_lookup_insert_eq in Hp by (by eapply lookup_lt_Some).
      rewrite list_lookup_insert_eq in Hb by (by eapply lookup_lt_Some). simplify_eq.
      destruct Hc as (_ & p1 & E & Hc). congruence.
    + rewrite list_lookup_insert_ne in Hp by done. rewrite list_lookup_insert_ne in Hb by done. eauto.
  - rewrite (concat_insert_perm T i _ _ Hi). rewrite (concat_lookup_perm T i _ Hi) in H5.
    by apply NoDup_cons in H5 as [_ H5].
Qed.

Lemma shape_unlink_next nx tbl hd tl T A i l1 y x l2 p :
  shape nx tbl hd tl T A -> T !! i = Some (l1 ++ x :: l2) -> last l1 = Some y -> nx x = Some p ->
  shape (fun z => if decide (z = y) then Some p else nx z) tbl hd tl (<[i := l1 ++ l2]> T) A.
Proof.
  intros Hs Hi Hl Hx. pose proof (shape_slot _ _ _ _ _ _ _ _ Hs Hi) as (p0 & Hp0 & Hc).
  destruct Hs as [H1 H2 H3 H4 H5].
  assert (Hy : y ∈ l1 ++ x :: l2).
  { apply last_Some in Hl as [k ->]. rewrite !elem_of_app. left. right. by left. }
  assert (Hperm : concat T ≡ₚ x :: (l1 ++ l2) ++ concat (delete i T)).
  { rewrite (concat_lookup_perm T i _ Hi), <- Permutation_middle. done. }
  pose proof H5 as Hnd. rewrite Hperm in Hnd. cbn [app] in Hnd. apply NoDup_cons in Hnd as [_ Hnd].
  split; [by rewrite length_insert| | |done|].
  - intros j p' b Hp Hb. destruct (decide (i = j)) as [<-|Hne].
    + rewrite list_lookup_insert_eq in Hb by (by eapply lookup_lt_Some). simplify_eq.
      eapply chain_relink; [done| |exact Hc|].
      * rewrite <- app_assoc in Hnd. by apply NoDup_app in Hnd as [? _].
      * apply chain_app in Hc. destruct Hc as (_ & p1 & E & Hc). congruence.
    + rewrite list_lookup_insert_ne in Hb by done. eapply chain_ext; [|by eapply H2].
      intros z Hz. cbn. rewrite decide_False; [done|]. intros ->. apply Hne.
      apply NoDup_app in H5 as [H5 _]. by eapply bucket_unique.
  - eapply chain_ext; [|done]. intros z Hz. cbn. rewrite decide_False; [done|]. intros ->.
    apply NoDup_app in H5 as (_ & Hd & _). apply (Hd y); [|done]. apply elem_of_concat. eauto.
  - rewrite (concat_insert_perm T i _ _ Hi). done.
Qed.

(** ** Requests up to their link *)

(** A request without its dl_next: what the pointer operations leave alone. *)
Definition strip (r : request_sock) : request_sock := r <| dl_next := None |>.
Definition same_but_link (h h' : gmap nat request_sock) : Prop :=
  forall z, strip <$> h' !! z = strip <$> h !! z.

Lemma same_but_link_young h h' z : same_but_link h h' -> young h' z = young h z.
Proof.
  intros H. specialize (H z). unfold young. destruct (h !! z), (h' !! z); cbn in H; simplify_eq; [congruence|done].
Qed.
Lemma same_but_link_lookup h h' z r' : same_but_link h h' -> h' !! z = Some r' ->
  exists r, h !! z = Some r /\ strip r = strip r'.
Proof. intros H E. specialize (H z). rewrite E in H. destruct (h !! z) as [r|]; [|done].
  exists r. split; [done|]. cbn [fmap option_fmap option_map] in H. congruence.
Qed.

Lemma chain_size h p l : NoDup l -> chain (nexts h) p l -> (length l <= size h)%nat.
Proof.
  intros Hnd Hc. rewrite <- size_dom. rewrite <- (size_list_to_set (C := gset nat) l) by done.
  apply subseteq_size. intros x Hx%elem_of_list_to_set. apply elem_of_dom.
  destruct (chain_dom _ _ _ _ Hc Hx) as [p' E]. unfold nexts in E. destruct (h !! x); [eauto|done].
Qed.

Lemma nexts_alter_link h y p z : is_Some (h !! y) ->
  nexts (alter (fun r => r <| dl_next := p |>) y h) z = if decide (z = y) then Some p else nexts h z.
Proof.
  intros [r Hr]. unfold nexts. destruct (decide (z = y)) as [->|Hne].
  - rewrite lookup_alter, decide_True, Hr by done. done.
  - rewrite lookup_alter_ne by done. done.
Qed.

Section RepFacts.
Context {jh : Z -> Z -> Z -> Z}.
Implicit Types (q : listener) (T : list (list nat)).

Lemma rep_nodup_bucket q l T A i b : rep jh q l T A -> T !! i = Some b -> NoDup b.
Proof.
  intros [_ [_ _ _ _ H] _ _ _ _] Hi. apply NoDup_app in H as [H _].
  rewrite (concat_lookup_perm T i b Hi) in H. by apply NoDup_app in H as [H _].
Qed.

Lemma rep_bucket_req q l T A i b x : rep jh q l T A -> T !! i = Some b -> x ∈ b -> is_Some (reqs q !! x).
Proof.
  intros [_ Hs _ _ _ _] Hi Hx. destruct (shape_slot _ _ _ _ _ _ _ _ Hs Hi) as (p & _ & Hc).
  destruct (chain_dom _ _ _ _ Hc Hx) as [p' E]. unfold nexts in E. destruct (reqs q !! x); [eauto|done].
Qed.

Lemma rep_fuel q l T A i b : rep jh q l T A -> T !! i = Some b -> (length b <= size (reqs q))%nat.
Proof.
  intros H Hi. pose proof (rep_nodup_bucket _ _ _ _ _ _ H Hi). destruct H as [_ Hs _ _ _ _].
  destruct (shape_slot _ _ _ _ _ _ _ _ Hs Hi) as (p & _ & Hc). by eapply chain_size.
Qed.

(** Dereferencing the link after the prefix [l1] of a bucket. *)
Lemma read_link q l T A i l1 l2 :
  rep jh q l T A -> T !! i = Some (l1 ++ l2) -> read_prev q (link i l1) = head l2.
Proof.
  intros [Hl Hs _ _ _ _] Hi. destruct (shape_slot _ _ _ _ _ _ _ _ Hs Hi) as (p & Hp & Hc).
  assert (E : forall p l2, chain (nexts (reqs q)) p l2 -> p = head l2).
  { intros p' [|z k]; cbn; [done|]. by intros [-> _]. }
  apply chain_app, E in Hc. rewrite <- Hc. unfold link, read_prev, nexts.
  destruct (last l1) as [y|]; [by destruct (reqs q !! y)|]. rewrite Hl. cbn. by rewrite Hp.
Qed.

(** reqsk_queue_unlink removes one request from its bucket and changes nothing else. *)
Lemma unlink_spec q l T A i l1 x l2 :
  rep jh q l T A -> T !! i = Some (l1 ++ x :: l2) ->
  let q' := reqsk_queue_unlink q x (link i l1) in
  exists tbl, q' = q <| reqs := reqs q' |> <| listen_opt := Some (l <| syn_table := tbl |>) |> /\
    shape (nexts (reqs q')) tbl (rskq_accept_head q) (rskq_accept_tail q) (<[i := l1 ++ l2]> T) A /\
    same_but_link (reqs q) (reqs q').
Proof.
  intros Hr Hi q'. assert (Hx : is_Some (reqs q !! x)).
  { eapply rep_bucket_req; [done..|]. apply elem_of_app. right. by left. }
  destruct Hx as [r Hx]. destruct Hr as [Hl Hs _ _ _ _].
  assert (Hn : nexts (reqs q) x = Some (dl_next r)) by (unfold nexts; by rewrite Hx).
  unfold q', reqsk_queue_unlink, link. rewrite Hx. cbn [mbind option_bind].
  destruct (last l1) as [y|] eqn:El.
  - exists (syn_table l). change (l <| syn_table := syn_table l |>) with l. rewrite <- Hl. cbn. assert (Hy : is_Some (reqs q !! y)).
    { destruct (shape_slot _ _ _ _ _ _ _ _ Hs Hi) as (p & _ & Hc).
      assert (y ∈ l1 ++ x :: l2) as Hy.
      { apply last_Some in El as [k ->]. rewrite !elem_of_app. left. right. by left. }
      destruct (chain_dom _ _ _ _ Hc Hy) as [p' E]. unfold nexts in E. destruct (reqs q !! y); [eauto|done]. }
    split; [|split].
    + done.
    + eapply shape_ext; [|by eapply shape_unlink_next].
      intros z _. cbn. by rewrite nexts_alter_link.
    + intros z. destruct (decide (z = y)) as [->|Hne].
      * rewrite lookup_alter, decide_True by done. by destruct (reqs q !! y).
      * by rewrite lookup_alter_ne.
  - exists (<[i := dl_next r]> (syn_table l)). apply last_None in El as ->. cbn in *. split; [|split].
    + unfold upd_lopt. rewrite Hl. done.
    + by apply shape_unlink_slot with x.
    + by intros z.
Qed.
End RepFacts.

(** ** Refinement of the operations *)
Section RepOps.
Context {jh : Z -> Z -> Z -> Z}.
Implicit Types (q : listener) (T : list (list nat)).

(** Rebuilds [rep] after a change of the heap that keeps the static fields of the linked
    requests. *)
Lemma hash_stable q l T A (h' : gmap nat request_sock) (T' : list (list nat)) :
  rep jh q l T A -> same_but_link (reqs q) h' ->
  (forall i b, T' !! i = Some b -> forall x, x ∈ b -> exists b', T !! i = Some b' /\ x ∈ b') ->
  forall i b x r, T' !! i = Some b -> x ∈ b -> h' !! x = Some r ->
    inet_synq_hash jh (rmt_addr r) (rmt_port r) (hash_rnd l) (nr_table_entries l) = i.
Proof.
  intros H Hh HT i b x r' Hi Hx Hr. destruct (HT i b Hi x Hx) as (b' & Hb' & Hx').
  destruct (same_but_link_lookup _ _ _ _ Hh Hr) as (r & Hr0 & E). symmetry in E.
  pose proof (rep_hash _ _ _ _ _ H i b' x r Hb' Hx' Hr0) as Hash.
  assert (rmt_addr r' = rmt_addr r) as -> by exact (f_equal rmt_addr E).
  assert (rmt_port r' = rmt_port r) as -> by exact (f_equal rmt_port E). exact Hash.
Qed.

Lemma insert_sub T i (l1 : list nat) x l2 : T !! i = Some (l1 ++ x :: l2) ->
  forall j b, <[i := l1 ++ l2]> T !! j = Some b -> forall y, y ∈ b -> exists b', T !! j = Some b' /\ y ∈ b'.
Proof.
  intros Hi j b Hj y Hy. destruct (decide (i = j)) as [<-|Hne].
  - rewrite list_lookup_insert_eq in Hj by (by eapply lookup_lt_Some). simplify_eq.
    eexists. split; [done|]. rewrite elem_of_app, elem_of_cons. apply elem_of_app in Hy. tauto.
  - rewrite list_lookup_insert_ne in Hj by done. eauto.
Qed.

Lemma concat_unlink_perm T i (l1 : list nat) x l2 : T !! i = Some (l1 ++ x :: l2) ->
  concat T ≡ₚ x :: concat (<[i := l1 ++ l2]> T).
Proof.
  intros Hi. rewrite (concat_lookup_perm T i _ Hi), (concat_insert_perm T i _ _ Hi).
  by rewrite <- Permutation_middle.
Qed.

Lemma young_delete h x z : z <> x -> young (delete x h) z = young h z.
Proof. intros. unfold young. by rewrite lookup_delete_ne. Qed.

(** reqsk_queue_removed only changes the two counters. *)
Lemma removed_eq q x :
  snd (reqsk_queue_removed q x) =
  upd_lopt q (fun l => l <| qlen := qlen l - 1 |> <| qlen_young := qlen_young l - young (reqs q) x |>).
Proof.
  unfold reqsk_queue_removed, upd_lopt, young. cbn.
  destruct (reqs q !! x) as [r|]; [destruct (retrans r =? 0)|]; cbn; destruct (listen_opt q); cbn;
    by rewrite ?Z.sub_0_r.
Qed.
Lemma drop_eq q x prev :
  snd (inet_csk_reqsk_queue_drop q x prev) =
  reqsk_free (snd (reqsk_queue_removed (reqsk_queue_unlink q x prev) x)) x.
Proof. unfold inet_csk_reqsk_queue_drop. by destruct (reqsk_queue_removed _ x). Qed.

(** Unlinking and uncounting a request. *)
Lemma unlink_removed_rep q l T A i l1 x l2 :
  rep jh q l T A -> T !! i = Some (l1 ++ x :: l2) ->
  let q' := snd (reqsk_queue_removed (reqsk_queue_unlink q x (link i l1)) x) in
  exists l', rep jh q' l' (<[i := l1 ++ l2]> T) A /\ x ∉ concat (<[i := l1 ++ l2]> T) ++ A /\
    hash_rnd l' = hash_rnd l /\ nr_table_entries l' = nr_table_entries l /\ same_but_link (reqs q) (reqs q').
Proof.
  intros Hr Hi. destruct (unlink_spec _ _ _ _ _ _ _ _ Hr Hi) as (tbl & Hq & Hs & Hsame).
  rewrite removed_eq. set (q1 := reqsk_queue_unlink q x (link i l1)) in *. clearbody q1.
  pose proof (concat_unlink_perm _ _ _ _ _ Hi) as Hperm.
  assert (Hxn : x ∉ concat (<[i := l1 ++ l2]> T) ++ A).
  { pose proof (shape_nodup _ _ _ _ _ _ (rep_shape _ _ _ _ _ Hr)) as Hnd. rewrite Hperm in Hnd.
    by apply NoDup_cons in Hnd as [? _]. }
  exists (l <| syn_table := tbl |> <| qlen := qlen l - 1 |> <| qlen_young := qlen_young l - young (reqs q1) x |>).
  unfold upd_lopt. cbn. split; [split; cbn|by split_and!].
  - by rewrite Hq.
  - rewrite Hq. exact Hs.
  - rewrite length_insert. apply Hr.
  - rewrite (rep_qlen _ _ _ _ _ Hr), Hperm. cbn. lia.
  - rewrite (rep_young _ _ _ _ _ Hr), (sumZ_perm _ _ _ Hperm). cbn.
    rewrite (same_but_link_young _ _ x Hsame), Z.add_simpl_l. apply sumZ_ext, Forall_forall. intros z Hz.
    symmetry. by apply same_but_link_young.
  - intros j b z r Hj Hz Hzr.
    eapply hash_stable; [exact Hr|exact Hsame|by eapply insert_sub|exact Hj|exact Hz|exact Hzr].
Qed.

(** Freeing a request that is not linked. *)
Lemma free_rep q l T A x : rep jh q l T A -> x ∉ concat T ++ A -> rep jh (reqsk_free q x) l T A.
Proof.
  intros [H1 H2 H3 H4 H5 H6] Hx. unfold reqsk_free. split; cbn; try done.
  - eapply shape_ext; [|exact H2]. intros z Hz. unfold nexts. rewrite lookup_delete_ne; [done|]. by intros ->.
  - rewrite H5. apply sumZ_ext, Forall_forall. intros z Hz. symmetry. apply young_delete.
    intros ->. apply Hx, elem_of_app. by left.
  - intros i b z r Hi Hz Hr. apply lookup_delete_Some in Hr as [_ Hr]. eauto.
Qed.

(** Unlinking, uncounting and freeing a request: the common tail of the drop and prune paths. *)
Lemma drop_rep q l T A i l1 x l2 :
  rep jh q l T A -> T !! i = Some (l1 ++ x :: l2) ->
  let q' := snd (inet_csk_reqsk_queue_drop q x (link i l1)) in
  exists l', rep jh q' l' (<[i := l1 ++ l2]> T) A /\ reqs q' !! x = None /\
    hash_rnd l' = hash_rnd l /\ nr_table_entries l' = nr_table_entries l /\
    (forall z, z <> x -> strip <$> reqs q' !! z = strip <$> reqs q !! z).
Proof.
  intros Hr Hi. destruct (unlink_removed_rep _ _ _ _ _ _ _ _ Hr Hi) as (l' & Hrep & Hx & H1 & H2 & Hs).
  rewrite drop_eq. exists l'. split; [by apply free_rep|]. cbn. split; [apply lookup_delete_eq|]. split_and!; [done..|].
  intros z Hz. rewrite lookup_delete_ne by done. apply Hs.
Qed.
End RepOps.

Section RepOps2.
Context {jh : Z -> Z -> Z -> Z}.
Implicit Types (q : listener) (T : list (list nat)).

(** Hashing a new request puts it at the front of its bucket. *)
Lemma hash_add_rep q l T A x r jiffies timeout :
  rep jh q l T A -> reqs q !! x = Some r -> x ∉ concat T ++ A ->
  (inet_synq_hash jh (rmt_addr r) (rmt_port r) (hash_rnd l) (nr_table_entries l) < nr_table_entries l)%nat ->
  let h := inet_synq_hash jh (rmt_addr r) (rmt_port r) (hash_rnd l) (nr_table_entries l) in
  let q' := snd (inet_csk_reqsk_queue_hash_add jh jiffies q x timeout) in
  exists b l' r', T !! h = Some b /\ rep jh q' l' (<[h := x :: b]> T) A /\
    hash_rnd l' = hash_rnd l /\ nr_table_entries l' = nr_table_entries l /\
    reqs q' !! x = Some r' /\ rmt_addr r' = rmt_addr r /\ rmt_port r' = rmt_port r /\ loc_addr r' = loc_addr r /\
    (forall z, z <> x -> reqs q' !! z = reqs q !! z).
Proof.
  intros Hrep Hx Hn Hh h q'. pose proof (rep_nr _ _ _ _ _ Hrep) as Hnr.
  destruct (lookup_lt_is_Some_2 T h) as [b Hb]; [by rewrite Hnr|].
  destruct (shape_slot _ _ _ _ _ _ _ _ (rep_shape _ _ _ _ _ Hrep) Hb) as (p & Hp & Hc).
  set (r' := r <| expires := u64 (jiffies + timeout) |> <| retrans := 0 |> <| req_sk := None |> <| dl_next := p |>).
  set (l' := l <| syn_table := <[h := Some x]> (syn_table l) |> <| qlen_young := qlen_young l + 1 |> <| qlen := qlen l + 1 |>).
  assert (Eq : q' = q <| reqs := <[x := r']> (reqs q) |> <| listen_opt := Some l' |>).
  { unfold q', inet_csk_reqsk_queue_hash_add. rewrite (rep_lopt _ _ _ _ _ Hrep), Hx. cbn.
    rewrite (rep_lopt _ _ _ _ _ Hrep). fold h. cbn. rewrite Hp. cbn.
    unfold upd_lopt, upd_req. cbn. rewrite (rep_lopt _ _ _ _ _ Hrep). cbn.
    assert (alter (fun r0 : request_sock => r0 <| expires := u64 (jiffies + timeout) |> <| retrans := 0 |>
        <| req_sk := None |> <| dl_next := p |>) x (reqs q) = <[x := r']> (reqs q)) as ->; [|done].
    apply map_eq. intros z. destruct (decide (z = x)) as [->|Hne].
    - by rewrite lookup_alter, decide_True, lookup_insert_eq, Hx by done.
    - by rewrite lookup_alter_ne, lookup_insert_ne by done. }
  pose proof (concat_lookup_perm T h b Hb) as P1. pose proof (concat_insert_perm T h b (x :: b) Hb) as P2.
  assert (P3 : concat (<[h := x :: b]> T) ≡ₚ x :: concat T) by (rewrite P2, P1; done).
  assert (Hny : forall z, z ∈ concat T ++ A -> nexts (reqs q) z = nexts (reqs q') z).
  { intros z Hz. rewrite Eq. unfold nexts. cbn. rewrite lookup_insert_ne; [done|]. by intros ->. }
  assert (Hlt : forall B (k : list B) d, length k = length T -> <[h := d]> k !! h = Some d).
  { intros. apply list_lookup_insert_eq. rewrite H, Hnr. exact Hh. }
  exists b, l', r'. rewrite Eq. split_and!; try done.
  2:{ cbn. apply lookup_insert_eq. }
  2:{ intros z Hz. cbn. by rewrite lookup_insert_ne. }
  destruct (rep_shape _ _ _ _ _ Hrep) as [S1 S2 S3 S4 S5]. rewrite Eq in Hny. split; cbn.
  - done.
  - split; [by rewrite !length_insert| | |done|].
    + intros j p' b' Hp' Hb'. destruct (decide (h = j)) as [<-|Hne].
      * rewrite Hlt in Hp' by done. rewrite Hlt in Hb' by done. simplify_eq. cbn. split; [done|]. exists p.
        split; [unfold nexts; by rewrite lookup_insert_eq|]. eapply chain_ext; [|exact Hc].
        intros z Hz. apply Hny, elem_of_app. left. rewrite P1. apply elem_of_app. by left.
      * rewrite list_lookup_insert_ne in Hp' by done. rewrite list_lookup_insert_ne in Hb' by done.
        eapply chain_ext; [|by eapply S2]. intros z Hz. apply Hny, elem_of_app. left. apply elem_of_concat. eauto.
    + eapply chain_ext; [|done]. intros z Hz. apply Hny, elem_of_app. by right.
    + rewrite P3. cbn. by apply NoDup_cons.
  - by rewrite length_insert.
  - rewrite (rep_qlen _ _ _ _ _ Hrep), P3. cbn. lia.
  - rewrite (rep_young _ _ _ _ _ Hrep), (sumZ_perm _ _ _ P3). cbn.
    unfold young at 2. rewrite lookup_insert_eq. cbn.
    erewrite (sumZ_ext (young (reqs q))); [apply Z.add_comm|]. apply Forall_forall. intros z Hz. unfold young.
    rewrite lookup_insert_ne; [done|]. intros ->. apply Hn, elem_of_app. by left.
  - intros j b' z rz Hj Hz Hrz. destruct (decide (z = x)) as [->|Hzx].
    + rewrite lookup_insert_eq in Hrz. simplify_eq. cbn. fold h. destruct (decide (h = j)) as [|Hne]; [done|].
      exfalso. rewrite list_lookup_insert_ne in Hj by done. apply Hn, elem_of_app. left. apply elem_of_concat. eauto.
    + rewrite lookup_insert_ne in Hrz by done. destruct (decide (h = j)) as [<-|Hne].
      * rewrite Hlt in Hj by done. simplify_eq. apply elem_of_cons in Hz as [->|Hz]; [done|].
        by eapply (rep_hash _ _ _ _ _ Hrep).
      * rewrite list_lookup_insert_ne in Hj by done. by eapply (rep_hash _ _ _ _ _ Hrep).
Qed.

(** inet_csk_search_req returns the first request of the bucket that matches the addresses. *)
Definition req_matches (h : gmap nat request_sock) (rport raddr laddr : Z) (x : nat) : bool :=
  match h !! x with
  | Some r => (rmt_port r =? rport) && (rmt_addr r =? raddr) && (loc_addr r =? laddr)
  | None => false
  end.

Lemma search_chain_spec q l T A i l1 l2 rport raddr laddr fuel :
  rep jh q l T A -> T !! i = Some (l1 ++ l2) -> (length l2 < fuel)%nat ->
  match search_chain fuel q (link i l1) rport raddr laddr with
  | Some (x, prev) => exists k1 k2, l2 = k1 ++ x :: k2 /\ prev = link i (l1 ++ k1) /\
      req_matches (reqs q) rport raddr laddr x = true /\
      Forall (fun y => req_matches (reqs q) rport raddr laddr y = false) k1
  | None => Forall (fun y => req_matches (reqs q) rport raddr laddr y = false) l2
  end.
Proof.
  intros Hrep. revert l1 fuel. induction l2 as [|x l2 IH]; intros l1 [|fuel] Hi Hf; cbn in Hf; try lia; cbn.
  - rewrite (read_link _ _ _ _ _ _ _ Hrep Hi). cbn. constructor.
  - rewrite (read_link _ _ _ _ _ _ _ Hrep Hi). cbn.
    destruct (rep_bucket_req _ _ _ _ _ _ x Hrep Hi) as [r Hr]; [apply elem_of_app; right; by left|]. rewrite Hr.
    assert (Em : req_matches (reqs q) rport raddr laddr x =
                 (rmt_port r =? rport) && (rmt_addr r =? raddr) && (loc_addr r =? laddr))
      by (unfold req_matches; by rewrite Hr).
    rewrite <- Em. destruct (req_matches (reqs q) rport raddr laddr x) eqn:E.
    + exists [], l2. rewrite app_nil_r. by repeat split.
    + replace (PNext x) with (link i (l1 ++ [x])) by (unfold link; by rewrite last_snoc).
      specialize (IH (l1 ++ [x]) fuel). rewrite <- app_assoc in IH. specialize (IH Hi ltac:(lia)).
      destruct (search_chain fuel q _ rport raddr laddr) as [[y prev]|].
      * destruct IH as (k1 & k2 & -> & -> & Hm & Hk). exists (x :: k1), k2. rewrite <- app_assoc.
        repeat split; [done|]. by constructor.
      * by constructor.
Qed.

(** reqsk_queue_add leaves the table, the counters and the addresses of every request alone. *)
Lemma accept_add_static q x child :
  listen_opt (reqsk_queue_add q x child) = listen_opt q /\
  rskq_accept_tail (reqsk_queue_add q x child) = Some x /\
  (rskq_accept_head q <> None -> rskq_accept_head (reqsk_queue_add q x child) = rskq_accept_head q).
Proof.
  unfold reqsk_queue_add. cbn. destruct (rskq_accept_head q) eqn:Eh; cbn; [destruct (rskq_accept_tail q)|]; cbn; by rewrite ?Eh.
Qed.
Lemma accept_add_addr q x child z :
  (fun r => (retrans r, rmt_addr r, rmt_port r)) <$> reqs (reqsk_queue_add q x child) !! z =
  (fun r => (retrans r, rmt_addr r, rmt_port r)) <$> reqs q !! z.
Proof.
  unfold reqsk_queue_add. cbn. destruct (rskq_accept_head q); cbn; [destruct (rskq_accept_tail q); cbn|];
    rewrite !lookup_alter; repeat case_decide; subst; destruct (reqs q !! z); done.
Qed.

(** The links after reqsk_queue_add. *)
Lemma accept_add_nexts q l T A x child z :
  rep jh q l T A -> is_Some (reqs q !! x) -> x ∉ concat T ++ A ->
  nexts (reqs (reqsk_queue_add q x child)) z =
  if decide (z = x) then Some None else
  if decide (last A = Some z) then Some (Some x) else nexts (reqs q) z.
Proof.
  intros Hrep [r Hx] Hn. destruct (rep_shape _ _ _ _ _ Hrep) as [_ _ S3 S4 _]. unfold reqsk_queue_add. cbn.
  destruct A as [|a A'] eqn:EA.
  - cbn in S3. rewrite S3. cbn. rewrite (decide_False (P := None = Some z)) by done.
    unfold nexts. destruct (decide (z = x)) as [->|Hne]; [|by rewrite !lookup_alter_ne by done].
    by rewrite !lookup_alter, !decide_True, Hx by done.
  - pose proof S3 as S3'. cbn in S3. destruct S3 as (-> & _). cbn. rewrite (S4 ltac:(done)).
    destruct (last (a :: A')) as [t|] eqn:El; [|by apply last_None in El].
    assert (Ht : t ∈ a :: A') by (apply last_Some in El as [k ->]; apply elem_of_app; right; by left).
    assert (t <> x) by (intros ->; apply Hn, elem_of_app; by right). cbn. unfold nexts.
    destruct (decide (z = x)) as [->|Hne].
    + rewrite lookup_alter, decide_True, lookup_alter_ne by done. by rewrite lookup_alter, decide_True, Hx by done.
    + rewrite lookup_alter_ne by done. destruct (decide (Some t = Some z)) as [Etz|Htz].
      * injection Etz as ->. rewrite lookup_alter, decide_True, lookup_alter_ne by done.
        destruct (chain_dom _ _ _ z S3' Ht) as [p' E]. unfold nexts in E. by destruct (reqs q !! z).
      * rewrite lookup_alter_ne by congruence. by rewrite lookup_alter_ne.
Qed.

Lemma accept_add_chain q l T A x child :
  rep jh q l T A -> is_Some (reqs q !! x) -> x ∉ concat T ++ A ->
  chain (nexts (reqs (reqsk_queue_add q x child))) (rskq_accept_head (reqsk_queue_add q x child)) (A ++ [x]).
Proof.
  intros Hrep Hx Hn. pose proof (fun z => accept_add_nexts q l T A x child z Hrep Hx Hn) as Hnx.
  destruct (rep_shape _ _ _ _ _ Hrep) as [_ _ S3 _ S5]. destruct A as [|a A'].
  - cbn in S3. cbn [app chain]. split; [unfold reqsk_queue_add; cbn; by rewrite S3|]. exists None.
    rewrite Hnx. by rewrite decide_True.
  - destruct (last (a :: A')) as [t|] eqn:El; [|by apply last_None in El].
    assert (t <> x).
    { intros ->. apply Hn, elem_of_app. right. apply last_Some in El as [k ->]. apply elem_of_app. right. by left. }
    destruct (accept_add_static q x child) as (_ & _ & ->); [|destruct S3 as (-> & _); done].
    eapply chain_ext with (nx := fun z => if decide (z = t) then Some (Some x) else
                                 if decide (z = x) then Some None else nexts (reqs q) z).
    + intros z Hz. cbn. rewrite Hnx. destruct (decide (z = x)) as [->|Hzx]; [by rewrite decide_False|].
      destruct (decide (z = t)) as [->|]; [by rewrite decide_True|]. rewrite decide_False; [done|congruence].
    + eapply chain_relink with (l2 := []); [exact El| | |].
      * apply NoDup_app in S5 as (_ & _ & S5). apply NoDup_app. split_and!; [done| |apply NoDup_singleton].
        intros y Hy ->%list_elem_of_singleton. apply Hn, elem_of_app. by right.
      * rewrite app_nil_r. eapply chain_ext; [|exact S3]. intros z Hz. rewrite decide_False; [done|].
        intros ->. apply Hn, elem_of_app. by right.
      * cbn. split; [done|]. exists None. by rewrite decide_True.
Qed.

(** The FIFO: reqsk_queue_add appends. *)
Lemma accept_add_rep q l T A x child :
  rep jh q l T A -> is_Some (reqs q !! x) -> x ∉ concat T ++ A ->
  rep jh (reqsk_queue_add q x child) l T (A ++ [x]).
Proof.
  intros Hrep Hx Hn. destruct (rep_shape _ _ _ _ _ Hrep) as [S1 S2 _ _ S5].
  destruct (accept_add_static q x child) as (Hlo & Htl & _).
  split; [by rewrite Hlo, (rep_lopt _ _ _ _ _ Hrep)| |apply Hrep|apply Hrep| |].
  - split; [done| |by eapply accept_add_chain|by rewrite last_snoc|].
    + intros i p b Hp Hb. eapply chain_ext; [|by eapply S2]. intros z Hz.
      assert (Hc : z ∈ concat T) by (apply elem_of_concat; eauto).
      rewrite (accept_add_nexts q l T A) by done. rewrite !decide_False; [done| |].
      * intros (k & ->)%last_Some. apply NoDup_app in S5 as (_ & Hd & _). apply (Hd z Hc), elem_of_app. right. by left.
      * intros ->. apply Hn, elem_of_app. by left.
    + rewrite app_assoc. apply NoDup_app. split_and!; [done| |apply NoDup_singleton].
      by intros y Hy ->%list_elem_of_singleton.
  - rewrite (rep_young _ _ _ _ _ Hrep). apply sumZ_ext, Forall_forall. intros z _.
    pose proof (accept_add_addr q x child z) as Hret. unfold young.
    destruct (reqs (reqsk_queue_add q x child) !! z), (reqs q !! z); cbn in Hret; simplify_eq; congruence.
  - intros i b z r' Hi Hz Hr'. pose proof (accept_add_addr q x child z) as Hret. rewrite Hr' in Hret.
    destruct (reqs q !! z) as [r0|] eqn:E0; cbn in Hret; simplify_eq.
    pose proof (rep_hash _ _ _ _ _ Hrep i b z r0 Hi Hz E0). congruence.
Qed.

(** reqsk_queue_get_child takes the oldest request of the FIFO. *)
Lemma get_child_rep q l T x A :
  rep jh q l T (x :: A) ->
  exists q', reqsk_queue_get_child q = Some (reqs q !! x ≫= req_sk, q') /\
    rep jh q' l T A /\ reqs q' = delete x (reqs q) /\ sk_ack_backlog q' = u16 (sk_ack_backlog q - 1).
Proof.
  intros Hrep. destruct (rep_shape _ _ _ _ _ Hrep) as [S1 S2 S3 S4 S5]. cbn in S3.
  destruct S3 as (Eh & p' & Hp & Hc). unfold reqsk_queue_get_child, reqsk_queue_remove. rewrite Eh.
  assert (Ep : (r ← reqs q !! x; dl_next r) = p').
  { unfold nexts in Hp. destruct (reqs q !! x); cbn in *; congruence. }
  rewrite Ep.
  exists (reqsk_free (sk_acceptq_removed (match p' with
          | None => q <| rskq_accept_head := p' |> <| rskq_accept_tail := None |>
          | Some _ => q <| rskq_accept_head := p' |> end)) x).
  split; [by destruct p'|]. split; [|by destruct p'].
  apply NoDup_app in S5 as (Nd1 & Nd2 & Nd3). apply NoDup_cons in Nd3 as [Nx Nd3].
  assert (Hsub : forall z, z ∈ concat T ++ A -> delete x (reqs q) !! z = reqs q !! z).
  { intros z [Hz|Hz]%elem_of_app; rewrite lookup_delete_ne; try done; intros <-; [|done].
    apply (Nd2 x Hz). by left. }
  assert (HsT : forall z, z ∈ concat T -> delete x (reqs q) !! z = reqs q !! z) by (intros; apply Hsub, elem_of_app; by left).
  split.
  - destruct p'; cbn; apply Hrep.
  - eapply shape_ext with (nx := nexts (reqs q)).
    + intros z Hz. unfold nexts. destruct p'; cbn; by rewrite Hsub.
    + destruct p' as [p|]; cbn.
      * split; [done|done|done| |].
        -- intros HA. rewrite S4 by done. rewrite last_cons. by destruct (last A) eqn:E; [|apply last_None in E].
        -- apply NoDup_app. split_and!; [done| |done]. intros y Hy HyA. apply (Nd2 y Hy). by right.
      * apply chain_None in Hc as ->. split; [done..|]. by rewrite app_nil_r.
  - apply Hrep.
  - apply Hrep.
  - rewrite (rep_young _ _ _ _ _ Hrep). apply sumZ_ext, Forall_forall. intros z Hz. unfold young.
    destruct p'; cbn; by rewrite HsT.
  - intros i b z r Hi Hz Hr. eapply (rep_hash _ _ _ _ _ Hrep); [done..|]. rewrite <- Hr. symmetry.
    destruct p'; cbn; apply HsT, elem_of_concat; eauto.
Qed.
End RepOps2.

(** ** Pruning *)
Lemma mask_pow2 x k : 0 <= k -> Z.land x (2 ^ k - 1) = x mod 2 ^ k.
Proof. intros. rewrite <- Z.land_ones by done. by rewrite Z.ones_equiv, Z.sub_1_r. Qed.

Section PruneFacts.
Context {jh : Z -> Z -> Z -> Z} (rtx : nat -> Z).
Context (now timeout max_rto thresh max_retries defer : Z).
Implicit Types (q : listener) (T : list (list nat)).

(** The requests that survive a visit of the pruning timer: not timed out yet, or not
    expired and its SYN-ACK was resent or is not to be resent. *)
Definition prune_keep (x : nat) (r : request_sock) : bool :=
  negb (time_after_eq now (expires r)) ||
  (let '(expire, resend) := syn_ack_recalc r thresh max_retries defer in
   negb expire && (negb resend || (rtx x =? 0) || req_acked r)).
Definition keep_at (h : gmap nat request_sock) (x : nat) : bool :=
  match h !! x with Some r => prune_keep x r | None => true end.

(** Every live request's retransmission counter fits its byte. *)
Definition retrans_ok q : Prop := forall x r, reqs q !! x = Some r -> is_u8 (retrans r).

Definition lopt_static (l l' : listen_sock) : Prop :=
  hash_rnd l' = hash_rnd l /\ nr_table_entries l' = nr_table_entries l.
#[local] Instance lopt_static_trans : Transitive lopt_static.
Proof. intros l1 l2 l3 [? ?] [? ?]. split; congruence. Qed.

Context (Hthresh : thresh <= 255) (Hmax : max_retries <= 255).

(** A kept request that is counted once more cannot overflow its counter. *)
Lemma keep_retrans r x : is_u8 (retrans r) -> prune_keep x r = true -> time_after_eq now (expires r) = true ->
  u8 (retrans r + 1) = retrans r + 1.
Proof.
  unfold prune_keep. intros Hu Hk Ht. rewrite Ht in Hk. cbn in Hk. unfold syn_ack_recalc in Hk.
  assert (retrans r < 255).
  { destruct (defer =? 0); bool_arith.
    - rewrite Z.geb_leb in *. bool_arith. lia.
    - rewrite Z.geb_leb in *. destruct (Z.leb_spec thresh (retrans r)) as [Hl|Hl]; [|lia].
      cbn in *. bool_arith. rewrite Z.geb_leb in *. bool_arith. lia. }
  unfold is_u8 in Hu. warith.
Qed.

(** [rep] depends on the heap only through the links, the addresses and the young count. *)
Lemma rep_change q l T A q' l' :
  rep jh q l T A ->
  (forall z, nexts (reqs q') z = nexts (reqs q) z) ->
  (forall z r', reqs q' !! z = Some r' -> exists r, reqs q !! z = Some r /\ rmt_addr r = rmt_addr r' /\ rmt_port r = rmt_port r') ->
  listen_opt q' = Some l' -> l' = l <| qlen_young := qlen_young l' |> ->
  rskq_accept_head q' = rskq_accept_head q -> rskq_accept_tail q' = rskq_accept_tail q ->
  qlen_young l' = sumZ (young (reqs q')) (concat T) -> rep jh q' l' T A.
Proof.
  intros Hrep Hnx Had Hl El Eh Et Ey. split; [done| | | |done|].
  - rewrite Eh, Et, El. cbn. eapply shape_ext; [|apply Hrep]. intros z _. by rewrite Hnx.
  - rewrite El. apply Hrep.
  - rewrite El. apply Hrep.
  - intros j b z r' Hj Hz Hr'. destruct (Had z r' Hr') as (r & Hr & <- & <-). rewrite El.
    by eapply (rep_hash _ _ _ _ _ Hrep).
Qed.

Definition bump (e : Z) (r : request_sock) : request_sock := r <| retrans := u8 (retrans r + 1) |> <| expires := e |>.
(** What a visit makes of the request [x]: nothing before its time; then it is freed, or counted once
    more and given a timeout twice as long, at most [max_rto]. *)
Definition aged (x : nat) (r : request_sock) : option request_sock :=
  if negb (time_after_eq now (expires r)) then Some r
  else if prune_keep x r then Some (r <| retrans := retrans r + 1 |> <| expires := u64 (now + Z.min (u64 (Z.shiftl timeout (retrans r + 1))) max_rto) |>)
  else None.

Lemma bump_young q l T A x r e k :
  rep jh q l T A -> concat T ≡ₚ x :: k -> reqs q !! x = Some r -> is_u8 (retrans r) ->
  u8 (retrans r + 1) = retrans r + 1 ->
  (if retrans r =? 0 then qlen_young l - 1 else qlen_young l) = sumZ (young (<[x := bump e r]> (reqs q))) (concat T).
Proof.
  intros Hrep Hk Hx Hu Hnw. rewrite (sumZ_perm _ _ _ Hk). cbn. assert (Hxk : x ∉ k).
  { pose proof (shape_nodup _ _ _ _ _ _ (rep_shape _ _ _ _ _ Hrep)) as Hnd.
    apply NoDup_app in Hnd as [Hnd _]. rewrite Hk in Hnd. apply NoDup_cons in Hnd. tauto. }
  rewrite <- (sumZ_ext (young (reqs q))).
  2:{ apply Forall_forall. intros z Hz. unfold young. rewrite lookup_insert_ne; [done|]. by intros ->. }
  pose proof (rep_young _ _ _ _ _ Hrep) as Hy. rewrite (sumZ_perm _ _ _ Hk) in Hy. cbn in Hy.
  unfold young in *. rewrite Hx in Hy. rewrite lookup_insert_eq. cbn. rewrite Hnw. unfold is_u8 in Hu.
  destruct (Z.eqb_spec (retrans r) 0), (Z.eqb_spec (retrans r + 1) 0); cbn in *; lia.
Qed.

(** Counting a request once more. *)
Lemma bump_rep q l T A x r e :
  rep jh q l T A -> x ∈ concat T -> reqs q !! x = Some r -> is_u8 (retrans r) ->
  u8 (retrans r + 1) = retrans r + 1 ->
  let q0 := if retrans r =? 0 then upd_lopt q (fun l => l <| qlen_young := qlen_young l - 1 |>) else q in
  reqs (upd_req q0 x (bump e)) = <[x := bump e r]> (reqs q) /\
  exists l', lopt_static l l' /\ rep jh (upd_req q0 x (bump e)) l' T A.
Proof.
  intros Hrep Hin Hx Hu Hnw q0.
  assert (Hr0 : reqs (upd_req q0 x (bump e)) = <[x := bump e r]> (reqs q)).
  { unfold upd_req. cbn. assert (reqs q0 = reqs q) as Eq0 by (unfold q0; by destruct (retrans r =? 0)). rewrite Eq0.
    apply map_eq. intros z. destruct (decide (x = z)) as [<-|Hne].
    - by rewrite lookup_alter, decide_True, Hx, lookup_insert_eq by done.
    - by rewrite lookup_alter_ne, lookup_insert_ne by done. }
  split; [done|].
  exists (l <| qlen_young := if retrans r =? 0 then qlen_young l - 1 else qlen_young l |>). split; [done|].
  apply elem_of_Permutation in Hin as [k Hk].
  eapply rep_change; [exact Hrep| | | |done| | |]; rewrite ?Hr0.
  - intros z. unfold nexts. destruct (decide (x = z)) as [<-|]; [by rewrite lookup_insert_eq, Hx|by rewrite lookup_insert_ne].
  - intros z r'. destruct (decide (x = z)) as [<-|]; [rewrite lookup_insert_eq|rewrite lookup_insert_ne by done; eauto].
    intros [= <-]. exists r. done.
  - unfold q0, upd_req, upd_lopt. cbn. destruct (retrans r =? 0); cbn; by rewrite (rep_lopt _ _ _ _ _ Hrep).
  - unfold q0. by destruct (retrans r =? 0).
  - unfold q0. by destruct (retrans r =? 0).
  - cbn. by eapply bump_young.
Qed.

(** One step of the walk: the request is kept or removed from its bucket. *)
Lemma prune_req_rep q l T A i l1 x l2 r :
  rep jh q l T A -> retrans_ok q -> T !! i = Some (l1 ++ x :: l2) -> reqs q !! x = Some r ->
  let '(prev, q') := prune_req rtx now timeout max_rto thresh max_retries defer q (link i l1) x r in
  exists l', lopt_static l l' /\ retrans_ok q' /\
    (forall z, z <> x -> strip <$> reqs q' !! z = strip <$> reqs q !! z) /\
    reqs q' !! x = aged x r /\
    if prune_keep x r then prev = link i (l1 ++ [x]) /\ rep jh q' l' T A
    else prev = link i l1 /\ rep jh q' l' (<[i := l1 ++ l2]> T) A.
Proof.
  intros Hrep Hok Hi Hx. assert (Hpn : link i (l1 ++ [x]) = PNext x) by (unfold link; by rewrite last_snoc).
  unfold prune_req. destruct (time_after_eq now (expires r)) eqn:Et.
  2:{ exists l. unfold aged, prune_keep. rewrite Et. cbn. rewrite Hpn. split_and!; done. }
  destruct (syn_ack_recalc r thresh max_retries defer) as [ex re] eqn:Es.
  assert (Hk : prune_keep x r = negb ex && (negb re || (rtx x =? 0) || req_acked r))
    by (unfold prune_keep; by rewrite Et, Es).
  rewrite <- Hk. assert (Hu : is_u8 (retrans r)) by (by eapply Hok). unfold aged. rewrite Et. cbn [negb]. destruct (prune_keep x r) eqn:Ek.
  - rewrite Hpn. set (e := u64 _). pose proof (keep_retrans r x Hu Ek Et) as Hnw.
    destruct (bump_rep q l T A x r e) as (Hr0 & l' & Hst & Hrep'); [done| |done|by eapply Hok|by eapply keep_retrans; [eapply Hok|..]|].
    { apply elem_of_concat. exists i, (l1 ++ x :: l2). split; [done|]. apply elem_of_app. right. by left. }
    unfold bump in Hr0, Hrep'. exists l'. split; [done|]. rewrite Hr0. split_and!; try done.
    + intros z rz. rewrite Hr0. destruct (decide (x = z)) as [<-|]; [rewrite lookup_insert_eq|rewrite lookup_insert_ne by done; apply Hok].
      intros [= <-]. apply u8_range.
    + intros z Hz. by rewrite lookup_insert_ne.
    + rewrite lookup_insert_eq. unfold e. cbn. by rewrite Hnw.
  - destruct (drop_rep _ _ _ _ _ _ _ _ Hrep Hi) as (l' & Hrep' & Hxn & Hh & Hn & Hs).
    rewrite drop_eq in Hrep', Hxn, Hs. destruct (reqsk_queue_removed _ x) as [n q1]. cbn in Hrep', Hxn, Hs.
    exists l'. split_and!; try done.
    intros z rz Hz. cbn in Hz. destruct (decide (z = x)) as [->|Hne]; [congruence|].
    specialize (Hs z Hne). rewrite Hz in Hs. destruct (reqs q !! z) as [r0|] eqn:E0; [|done].
    assert (retrans rz = retrans r0) as ->; [|by eapply Hok]. cbn in Hs. by simplify_eq.
Qed.

Lemma keep_at_strip h h' x : strip <$> h' !! x = strip <$> h !! x -> keep_at h' x = keep_at h x.
Proof.
  unfold keep_at. destruct (h' !! x) as [r'|], (h !! x) as [r|]; try done. intros E.
  assert (retrans r' = retrans r /\ expires r' = expires r /\ req_acked r' = req_acked r) as (E1 & E2 & E3).
  { cbn in E. simplify_eq. done. }
  unfold prune_keep, syn_ack_recalc. by rewrite E1, E2, E3.
Qed.

(** A walk over the requests [seen]: they are [aged], and others change in their link only. *)
Definition walked (seen : nat -> Prop) (h h' : gmap nat request_sock) : Prop :=
  forall z, (seen z -> strip <$> h' !! z = strip <$> (h !! z ≫= aged z)) /\ (~ seen z -> strip <$> h' !! z = strip <$> h !! z).

Lemma aged_strip x (a b : option request_sock) : strip <$> a = strip <$> b -> strip <$> (a ≫= aged x) = strip <$> (b ≫= aged x).
Proof.
  destruct a as [r|], b as [r'|]; try done. intros E. apply (inj Some) in E. cbn. assert (F : retrans r = retrans r' /\ expires r = expires r' /\ req_acked r = req_acked r') by (split_and!; [change (retrans (strip r) = retrans (strip r'))|change (expires (strip r) = expires (strip r'))|change (req_acked (strip r) = req_acked (strip r'))]; by rewrite E).
  destruct F as (F1 & F2 & F3). assert (Hk : prune_keep x r = prune_keep x r') by (unfold prune_keep, syn_ack_recalc; by rewrite F1, F2, F3). unfold aged. rewrite F2, Hk, F1. case_match; cbn; [by rewrite E|]. case_match; cbn; [|done]. f_equal. set (e := u64 _). change ((strip r) <| retrans := retrans r' + 1 |> <| expires := e |> = (strip r') <| retrans := retrans r' + 1 |> <| expires := e |>). by rewrite E.
Qed.
Lemma walked_nil h : walked (fun z => z ∈ []) h h.
Proof. intros z. split; [by intros ?%elem_of_nil|done]. Qed.
Lemma walked_ext (s s' : nat -> Prop) h h' : (forall z, s z <-> s' z) -> walked s h h' -> walked s' h h'.
Proof. intros Hs Hw z. rewrite <- Hs. apply Hw. Qed.
Lemma walked_app (s1 s2 : nat -> Prop) h h1 h2 : (forall z, s1 z -> ~ s2 z) -> walked s1 h h1 -> walked s2 h1 h2 -> walked (fun z => s1 z \/ s2 z) h h2.
Proof.
  intros Hd H1 H2 z. destruct (H1 z) as [A1 A2], (H2 z) as [B1 B2]. specialize (Hd z). split; [intros [Hz|Hz]|intros Hz].
  - rewrite B2 by tauto. by apply A1.
  - rewrite B1 by done. apply aged_strip, A2. tauto.
  - rewrite B2 by tauto. apply A2. tauto.
Qed.
Lemma walked_step q q' x r : reqs q !! x = Some r ->
  (forall z, z <> x -> strip <$> reqs q' !! z = strip <$> reqs q !! z) ->
  reqs q' !! x = aged x r -> walked (fun z => z = x) (reqs q) (reqs q').
Proof. intros Hr Hoth Hself z. split; [intros ->|by apply Hoth]. by rewrite Hself, Hr. Qed.

(** The walk of one bucket keeps exactly the requests that [prune_keep] selects. *)
Lemma prune_bucket_rep l2 : forall q l T A i l1 fuel,
  rep jh q l T A -> retrans_ok q -> T !! i = Some (l1 ++ l2) -> (length l2 < fuel)%nat ->
  let q' := prune_bucket rtx fuel now timeout max_rto thresh max_retries defer q (link i l1) in
  exists l', lopt_static l l' /\ retrans_ok q' /\ walked (fun z => z ∈ l2) (reqs q) (reqs q') /\
    rep jh q' l' (<[i := l1 ++ List.filter (keep_at (reqs q)) l2]> T) A.
Proof.
  induction l2 as [|x l2 IH]; intros q l T A i l1 [|fuel] Hrep Hok Hi Hf; cbn in Hf; try lia; cbn.
  - rewrite (read_link _ _ _ _ _ _ _ Hrep Hi). exists l. cbn. rewrite list_insert_id by done.
    split_and!; try done. apply walked_nil.
  - rewrite (read_link _ _ _ _ _ _ _ Hrep Hi). cbn.
    destruct (rep_bucket_req _ _ _ _ _ _ x Hrep Hi) as [r Hr]; [apply elem_of_app; right; by left|]. rewrite Hr.
    pose proof (prune_req_rep q l T A i l1 x l2 r Hrep Hok Hi Hr) as Hstep.
    destruct (prune_req _ _ _ _ _ _ _ _ _ _ _) as [prev q1]. destruct Hstep as (l1' & Hst & Hok1 & Hoth & Hself & Hk).
    assert (Hnd : x ∉ l2).
    { pose proof (rep_nodup_bucket _ _ _ _ _ _ Hrep Hi) as Hn. apply NoDup_app in Hn as (_ & _ & Hn).
      by apply NoDup_cons in Hn as [? _]. }
    assert (Hfil : List.filter (keep_at (reqs q1)) l2 = List.filter (keep_at (reqs q)) l2).
    { apply filter_ext_in. intros z Hz%list_elem_of_In. apply keep_at_strip, Hoth. by intros ->. }
    assert (Hkx : keep_at (reqs q) x = prune_keep x r) by (unfold keep_at; by rewrite Hr).
    pose proof (walked_step q q1 x r Hr Hoth Hself) as Hw.
    assert (Hcons : forall h, walked (fun z => z ∈ l2) (reqs q1) h -> walked (fun z => z ∈ x :: l2) (reqs q) h).
    { intros h Hh. apply (walked_ext (fun z => z = x \/ z ∈ l2)); [intros z; by rewrite elem_of_cons|]. apply (walked_app _ _ _ (reqs q1)); [by intros z ->|done..]. }
    rewrite Hkx. destruct (prune_keep x r); destruct Hk as [-> Hrep1].
    + destruct (IH q1 l1' T A i (l1 ++ [x]) fuel Hrep1 Hok1) as (l' & Hst' & Hok' & Hw' & Hrep'); [by rewrite <- app_assoc|lia|].
      exists l'. rewrite <- app_assoc, Hfil in Hrep'. split_and!; try done; [by etrans|by apply Hcons].
    + destruct (IH q1 l1' (<[i := l1 ++ l2]> T) A i l1 fuel Hrep1 Hok1) as (l' & Hst' & Hok' & Hw' & Hrep');
        [by apply list_lookup_insert_eq; eapply lookup_lt_Some|lia|].
      exists l'. rewrite list_insert_insert_eq, Hfil in Hrep'. split_and!; try done; [by etrans|by apply Hcons].
Qed.

(** Distance from slot [i] to slot [j] in the order in which the clock hand moves. *)
Definition hand_dist (nr i j : nat) : Z :=
  if (i <=? j)%nat then Z.of_nat j - Z.of_nat i else Z.of_nat j - Z.of_nat i + Z.of_nat nr.

Lemma hand_dist_step nr i i1 j : (i < nr)%nat -> (j < nr)%nat -> Z.of_nat i1 = (Z.of_nat i + 1) mod Z.of_nat nr ->
  hand_dist nr i1 j = if decide (i = j) then Z.of_nat nr - 1 else hand_dist nr i j - 1.
Proof.
  intros Hi Hj H1. assert (Hc : Z.of_nat i1 = Z.of_nat i + 1 \/ Z.of_nat i1 = 0 /\ Z.of_nat i + 1 = Z.of_nat nr).
  { destruct (decide (Z.of_nat i + 1 = Z.of_nat nr)) as [E|]; [right; by rewrite H1, E, Z_mod_same_full|].
    left. rewrite H1. apply Z.mod_small. lia. }
  unfold hand_dist. destruct (decide (i = j)), (Nat.leb_spec i1 j), (Nat.leb_spec i j); lia.
Qed.
(** The clock hand moves to the next slot, around the table. *)
Lemma hand_next i k nr : 0 <= k -> Z.of_nat nr = 2 ^ k ->
  Z.of_nat (Z.to_nat (Z.land (Z.of_nat (i + 1)) (Z.of_nat nr - 1))) = (Z.of_nat i + 1) mod Z.of_nat nr.
Proof.
  intros Hk Hnr. rewrite Hnr, mask_pow2, Nat2Z.inj_add by lia. apply Z2Nat.id, Z.mod_pos_bound. lia.
Qed.

(** The first bucket of a sweep, then the rest. *)
Lemma sweep_cons q q1 (T T1 : list (list nat)) T' i i1 b nr n :
  length T = nr -> NoDup (concat T) -> (i < nr)%nat -> Z.of_nat i1 = (Z.of_nat i + 1) mod Z.of_nat nr -> (S n < nr)%nat ->
  T !! i = Some b -> T1 = <[i := List.filter (keep_at (reqs q)) b]> T -> walked (fun z => z ∈ b) (reqs q) (reqs q1) ->
  (forall j c, T1 !! j = Some c ->
     T' !! j = Some (if hand_dist nr i1 j <=? Z.of_nat n then List.filter (keep_at (reqs q1)) c else c)) ->
  forall j c, T !! j = Some c ->
     T' !! j = Some (if hand_dist nr i j <=? Z.of_nat (S n) then List.filter (keep_at (reqs q)) c else c).
Proof.
  intros Hlen Hnd Hi H1 Hn Hb -> Hw HT j c Hj.
  assert (Hjn : (j < nr)%nat) by (rewrite <- Hlen; by eapply lookup_lt_Some).
  rewrite (HT j (if decide (i = j) then List.filter (keep_at (reqs q)) b else c)), (hand_dist_step nr i i1 j) by
    (done || by destruct (decide (i = j)) as [->|]; [rewrite list_lookup_insert_eq by (by eapply lookup_lt_Some)|rewrite list_lookup_insert_ne]).
  destruct (decide (i = j)) as [<-|Hne].
  - simplify_eq. unfold hand_dist. rewrite Nat.leb_refl, Z.sub_diag.
    destruct (Z.leb_spec (Z.of_nat (length T) - 1) (Z.of_nat n)); [lia|done].
  - assert (Hf : List.filter (keep_at (reqs q1)) c = List.filter (keep_at (reqs q)) c).
    { apply filter_ext_in. intros z Hz%list_elem_of_In. apply keep_at_strip, (Hw z). intros Hzb.
      by apply Hne; eapply bucket_unique. }
    rewrite Hf. destruct (Z.leb_spec (hand_dist nr i j - 1) (Z.of_nat n)), (Z.leb_spec (hand_dist nr i j) (Z.of_nat (S n))); done || lia.
Qed.

(** The requests in the buckets at a distance of at most [n] from the clock hand. *)
Definition visited (nr hand : nat) (n : Z) T (z : nat) : Prop := exists j b, T !! j = Some b /\ z ∈ b /\ hand_dist nr hand j <= n.
Lemma visited_cons q q1 q' (T : list (list nat)) i i1 b nr n :
  length T = nr -> NoDup (concat T) -> (i < nr)%nat -> Z.of_nat i1 = (Z.of_nat i + 1) mod Z.of_nat nr -> (S n < nr)%nat -> T !! i = Some b ->
  walked (fun z => z ∈ b) (reqs q) (reqs q1) -> walked (visited nr i1 (Z.of_nat n) (<[i := List.filter (keep_at (reqs q)) b]> T)) (reqs q1) (reqs q') -> walked (visited nr i (Z.of_nat (S n)) T) (reqs q) (reqs q').
Proof.
  intros Hlen Hnd Hi H1 Hn Hb Hw Hw'.
  assert (Hv : forall z, visited nr i1 (Z.of_nat n) (<[i := List.filter (keep_at (reqs q)) b]> T) z <-> exists j c, T !! j = Some c /\ j <> i /\ z ∈ c /\ hand_dist nr i j <= Z.of_nat (S n)).
  { intros z. unfold visited. split; intros (j & c & Hj).
    - destruct Hj as (Hj & Hz & Hd). assert (Hjn : (j < nr)%nat) by (apply lookup_lt_Some in Hj; rewrite length_insert in Hj; lia). rewrite (hand_dist_step nr i i1 j) in Hd by done. destruct (decide (i = j)) as [<-|Hne]; [lia|]. rewrite list_lookup_insert_ne in Hj by done. exists j, c. split_and!; [done..|lia].
    - destruct Hj as (Hj & Hne & Hz & Hd). assert (Hjn : (j < nr)%nat) by (rewrite <- Hlen; by eapply lookup_lt_Some). exists j, c. rewrite list_lookup_insert_ne by done. rewrite (hand_dist_step nr i i1 j) by done. destruct (decide (i = j)) as [<-|]; [done|]. split_and!; [done..|lia]. }
  eapply walked_ext; [|eapply walked_app; [|exact Hw|exact Hw']]; cbn beta.
  - intros z. rewrite Hv. split.
    + intros [Hz|(j & c & Hj & _ & Hz & Hd)]; [|by exists j, c]. exists i, b. split_and!; [done..|]. unfold hand_dist. rewrite Nat.leb_refl. lia.
    + intros (j & c & Hj & Hz & Hd). destruct (decide (j = i)) as [->|Hne]; [left; congruence|right; by exists j, c].
  - intros z Hz (j & c & Hj & Hne & Hzc & _)%Hv. by apply Hne; eapply bucket_unique.
Qed.

(** The sweep of [budget + 1] consecutive buckets from [i] filters exactly these. *)
Lemma prune_slots_rep k budget : forall q l T A i,
  0 <= k -> Z.of_nat (nr_table_entries l) = 2 ^ k -> (budget < nr_table_entries l)%nat ->
  rep jh q l T A -> retrans_ok q -> (i < nr_table_entries l)%nat ->
  let '(i', q') := prune_slots rtx budget now timeout max_rto thresh max_retries defer q i (nr_table_entries l) in
  exists l' T', lopt_static l l' /\ retrans_ok q' /\ walked (visited (nr_table_entries l) i (Z.of_nat budget) T) (reqs q) (reqs q') /\ rep jh q' l' T' A /\
    (i' < nr_table_entries l)%nat /\
    forall j b, T !! j = Some b ->
      T' !! j = Some (if hand_dist (nr_table_entries l) i j <=? Z.of_nat budget then List.filter (keep_at (reqs q)) b else b).
Proof.
  induction budget as [|n IH]; intros q l T A i Hk Hnr Hb Hrep Hok Hi; cbn.
  all: pose proof (rep_nr _ _ _ _ _ Hrep) as Hlen; pose proof (hand_next i k _ Hk Hnr) as Hi1.
  all: assert (HT : is_Some (T !! i)) by (apply lookup_lt_is_Some; by rewrite Hlen); destruct HT as [b Hbi].
  all: destruct (prune_bucket_rep b q l T A i [] (S (size (reqs q))) Hrep Hok Hbi) as (l1 & Hst & Hok1 & Hw & Hrep1);
    [pose proof (rep_fuel _ _ _ _ _ _ Hrep Hbi); lia|]; cbn [link last app] in Hrep1, Hok1, Hw |- *.
  all: set (q1 := prune_bucket _ _ _ _ _ _ _ _ _ _) in *.
  all: set (i1 := Z.to_nat (Z.land (Z.of_nat (i + 1)) (Z.of_nat (nr_table_entries l) - 1))) in *.
  all: assert (Hlt : (i1 < nr_table_entries l)%nat) by (pose proof (Z.mod_pos_bound (Z.of_nat i + 1) (Z.of_nat (nr_table_entries l))); lia).
  all: assert (Hnd : NoDup (concat T)) by (destruct (rep_shape _ _ _ _ _ Hrep) as [_ _ _ _ Hnd]; by apply NoDup_app in Hnd as [? _]).
  - exists l1, (<[i := List.filter (keep_at (reqs q)) b]> T). split_and!; try done.
    { eapply walked_ext; [|exact Hw]. intros z. split; [intros Hz; exists i, b; split_and!; [done..|]; unfold hand_dist; rewrite Nat.leb_refl; lia|]. intros (j & c & Hj & Hz & Hd). assert (Hjn : (j < length T)%nat) by (by eapply lookup_lt_Some). unfold hand_dist in Hd. destruct (Nat.leb_spec i j); [|lia]. assert (j = i) as -> by lia. congruence. }
    intros j c Hj.
    assert (j < length T)%nat by (by eapply lookup_lt_Some). unfold hand_dist. destruct (decide (i = j)) as [<-|Hne].
    + rewrite Nat.leb_refl, Z.sub_diag, list_lookup_insert_eq by (by eapply lookup_lt_Some). by simplify_eq.
    + rewrite list_lookup_insert_ne by done. destruct (Z.leb_spec (if (i <=? j)%nat then Z.of_nat j - Z.of_nat i else Z.of_nat j - Z.of_nat i + Z.of_nat (nr_table_entries l)) (Z.of_nat 0)) as [Hd|]; [|done].
      destruct (Nat.leb_spec i j); lia.
  - destruct Hst as [Hst1 Hst2].
    pose proof (IH q1 l1 _ A i1 Hk ltac:(by rewrite Hst2) ltac:(lia) Hrep1 Hok1 ltac:(lia)) as Hrec. rewrite Hst2 in Hrec.
    destruct (prune_slots _ _ _ _ _ _ _ _ _ _ _) as [i' q']. destruct Hrec as (l' & T' & Hst' & Hok' & Hw' & Hrep' & Hi' & HT').
    exists l', T'. split_and!; try done.
    + etrans; [split; [exact Hst1|exact Hst2]|done].
    + by eapply visited_cons.
    + by eapply sweep_cons.
Qed.
End PruneFacts.

(** ** The size of the table *)
Lemma find_qlen_log_spec fuel log k :
  0 <= log <= k -> (Z.to_nat (k - log) <= fuel)%nat -> find_qlen_log fuel log (2 ^ k) = k.
Proof.
  revert log. induction fuel as [|fuel IH]; intros log Hl Hf; cbn; [lia|].
  rewrite Z.shiftl_mul_pow2, Z.mul_1_l by lia. destruct (Z.ltb_spec (2 ^ log) (2 ^ k)) as [H|H].
  - apply IH; [|lia]. apply Z.pow_lt_mono_r_iff in H; lia.
  - destruct (decide (log = k)); [done|]. assert (2 ^ log < 2 ^ k) by (apply Z.pow_lt_mono_r; lia). lia.
Qed.

(** The documented behaviour of roundup_pow_of_two (linux/log2.h) on 32-bit values: the least
    power of two that is not below the argument. *)
Definition rounds_up (f : Z -> Z) : Prop :=
  forall n, 1 < n <= 2 ^ 31 -> exists k, f n = 2 ^ k /\ 0 <= k /\ n <= 2 ^ k < 2 * n.

(** A table of 2^k buckets, whose limit is given by max_qlen_log = k. *)
Definition table_ok (l : listen_sock) (k : Z) : Prop :=
  3 <= k <= 31 /\ Z.of_nat (nr_table_entries l) = 2 ^ k /\ max_qlen_log l = k.

Lemma shape_empty nx tl n : shape nx (replicate n None) None tl (replicate n []) [].
Proof.
  assert (Hc : concat (replicate n (@nil nat)) = []) by (by induction n).
  split; [by rewrite !length_replicate| |done|done|rewrite Hc; constructor].
  intros i p b [-> _]%lookup_replicate [-> _]%lookup_replicate. done.
Qed.

Lemma alloc_rep jh f maxb rnd q nr :
  rounds_up f -> 0 <= nr < 2 ^ 31 -> 0 <= maxb < 2 ^ 31 ->
  exists q' l k, reqsk_queue_alloc f maxb true rnd q nr = inr q' /\ table_ok l k /\ 4 <= k /\
    Z.max 8 (Z.min nr maxb) < 2 ^ k <= 2 * Z.max 8 (Z.min nr maxb) + 1 /\
    rep jh q' l (replicate (nr_table_entries l) []) [] /\ clock_hand l = 0%nat.
Proof.
  intros Hf Hnr Hm. rewrite (Z.max_comm 8). set (n := Z.max (Z.min nr maxb) 8).
  destruct (Hf (n + 1)) as (k & Ek & Hk0 & Hk); [lia|].
  assert (H4 : 3 < k) by (apply (Z.pow_lt_mono_r_iff 2); lia).
  assert (H32 : k < 32) by (apply (Z.pow_lt_mono_r_iff 2); lia).
  assert (Hr : 2 ^ k <= 2 ^ 31) by (apply Z.pow_le_mono_r; lia).
  unfold reqsk_queue_alloc. rewrite (u32_small nr), (u32_small maxb) by (unfold is_u32; lia). fold n.
  rewrite (u32_small (n + 1)), Ek, u32_small by (unfold is_u32; lia). cbn [negb].
  eexists _, (mk_listen_sock (find_qlen_log 32 3 (2 ^ k)) 0 0 0 rnd (Z.to_nat (2 ^ k)) (replicate (Z.to_nat (2 ^ k)) None)), k.
  split; [reflexivity|]. split; [|split_and!].
  - split; [lia|]. split; [cbn; rewrite Z2Nat.id; lia|]. cbn -[find_qlen_log]. apply find_qlen_log_spec; lia.
  - lia.
  - lia.
  - lia.
  - assert (Hc : forall m, concat (replicate m (@nil nat)) = []) by (by induction m).
    split; cbn -[find_qlen_log]; [done|apply shape_empty|by rewrite length_replicate|by rewrite Hc..|].
    intros i b x r [-> _]%lookup_replicate Hx. by apply elem_of_nil in Hx.
  - done.
Qed.

Lemma synq_hash_lt jh raddr rport rnd nr k : 0 <= k -> Z.of_nat nr = 2 ^ k ->
  (inet_synq_hash jh raddr rport rnd nr < nr)%nat.
Proof.
  intros Hk Hn. unfold inet_synq_hash. rewrite Hn, mask_pow2 by done.
  pose proof (Z.mod_pos_bound (jh raddr rport rnd) (2 ^ k)). lia.
Qed.

(** The loop that lowers the threshold under pressure never takes it below 2. *)
Lemma prune_thresh_bounds fuel n y t : Z.min 2 t <= prune_thresh fuel n y t <= t.
Proof.
  revert y t. induction fuel as [|fuel IH]; intros y t; cbn; [lia|].
  destruct (Z.gtb_spec t 2); [|lia]. destruct (n <? y); [lia|]. specialize (IH (Z.shiftl y 1) (t - 1)). lia.
Qed.
Lemma rep_clock jh q l T A i : rep jh q l T A ->
  rep jh (upd_lopt q (fun l => l <| clock_hand := i |>)) (l <| clock_hand := i |>) T A.
Proof. intros [H1 H2 H3 H4 H5 H6]. split; cbn; try done. unfold upd_lopt. cbn. by rewrite H1. Qed.

(** A timeout of two intervals or more keeps the sweep within one turn of the table. *)
Lemma prune_budget n interval timeout : 0 < interval -> 2 * interval <= timeout ->
  0 <= 2 * (Z.of_nat n / (timeout / interval)) <= Z.of_nat n.
Proof.
  intros Hi Ht. assert (Hd : 2 <= timeout / interval) by (apply Z.div_le_lower_bound; lia).
  assert (Z.of_nat n / (timeout / interval) <= Z.of_nat n / 2) by (apply Z.div_le_compat_l; lia).
  assert (0 <= Z.of_nat n / (timeout / interval)) by (apply Z.div_pos; lia). dlia.
Qed.

(** ** The properties *)
Section Claims.
Context (jh : Z -> Z -> Z -> Z).

(** Allocation of the SYN table: whatever backlog the caller asks for, the table gets a
    power of two of buckets, more than the backlog (clipped to sysctl_max_syn_backlog and to at
    least 8) and at most twice it plus one, max_qlen_log is exactly the logarithm of that number,
    and the queue represents the empty table and the empty FIFO. *)
Theorem reqsk_queue_alloc_ok (f : Z -> Z) (maxb rnd nr : Z) (q : listener) :
  rounds_up f -> 0 <= nr < 2 ^ 31 -> 0 <= maxb < 2 ^ 31 ->
  exists q' l k, reqsk_queue_alloc f maxb true rnd q nr = inr q' /\ table_ok l k /\
    Z.max 8 (Z.min nr maxb) < 2 ^ k <= 2 * Z.max 8 (Z.min nr maxb) + 1 /\
    rep jh q' l (replicate (nr_table_entries l) []) [].
Proof.
  intros Hf Hn Hm. destruct (alloc_rep jh f maxb rnd q nr Hf Hn Hm) as (q' & l & k & H1 & H2 & _ & H3 & H4 & _).
  exists q', l, k. done.
Qed.

(** The queue is reported full exactly when the table holds as many requests as it has
    buckets: the shift by max_qlen_log is the comparison with nr_table_entries. *)
Theorem reqsk_queue_is_full_iff (q : listener) (l : listen_sock) (k : Z) (T : list (list nat)) (A : list nat) :
  rep jh q l T A -> table_ok l k ->
  reqsk_queue_is_full q = true <-> Z.of_nat (nr_table_entries l) <= Z.of_nat (length (concat T)).
Proof.
  intros Hrep (Hk & Hn & Hm). unfold reqsk_queue_is_full.
  rewrite (rep_lopt _ _ _ _ _ Hrep), Hm, (rep_qlen _ _ _ _ _ Hrep), Hn, Z.shiftr_div_pow2 by lia.
  set (n := Z.of_nat (length (concat T))). assert (0 < 2 ^ k) by (apply Z.pow_pos_nonneg; lia).
  destruct (Z.eqb_spec (n / 2 ^ k) 0) as [E|E]; cbn.
  - split; [done|]. intros Hle. apply Z.div_small_iff in E; lia.
  - split; [|done]. intros _. destruct (Z.le_gt_cases (2 ^ k) n) as [|Hlt]; [done|].
    exfalso. apply E, Z.div_small. lia.
Qed.

Lemma hash_add_search (q : listener) (l : listen_sock) (T : list (list nat)) (A : list nat)
    (x : nat) (r : request_sock) (jiffies timeout k : Z) :
  rep jh q l T A -> table_ok l k -> reqs q !! x = Some r -> x ∉ concat T ++ A ->
  let q' := snd (inet_csk_reqsk_queue_hash_add jh jiffies q x timeout) in
  let h := inet_synq_hash jh (rmt_addr r) (rmt_port r) (hash_rnd l) (nr_table_entries l) in
  inet_csk_search_req jh q' (rmt_port r) (rmt_addr r) (loc_addr r) = Some (x, PSlot h) /\
  exists b l', T !! h = Some b /\ rep jh q' l' (<[h := x :: b]> T) A.
Proof.
  intros Hrep (Hk & Hn & _) Hx Hnin q' h.
  destruct (hash_add_rep (jh := jh) q l T A x r jiffies timeout) as (b & l' & r' & Hb & Hrep' & Hh & Hnr & Hx' & E1 & E2 & E3 & _);
    [done..|by apply (synq_hash_lt _ _ _ _ _ k); [lia|]|].
  fold h q' in Hb, Hrep', Hx'. split; [|by exists b, l'].
  assert (Hi : <[h := x :: b]> T !! h = Some ([] ++ x :: b)) by (apply list_lookup_insert_eq; by eapply lookup_lt_Some).
  pose proof (search_chain_spec q' l' _ A h [] (x :: b) (rmt_port r) (rmt_addr r) (loc_addr r) (S (size (reqs q'))) Hrep' Hi) as Hs.
  unfold inet_csk_search_req. rewrite (rep_lopt _ _ _ _ _ Hrep'), Hh, Hnr. fold h.
  assert (Hm : req_matches (reqs q') (rmt_port r) (rmt_addr r) (loc_addr r) x = true).
  { unfold req_matches. rewrite Hx', E1, E2, E3, !Z.eqb_refl. done. }
  change (link h []) with (PSlot h) in Hs.
  specialize (Hs ltac:(pose proof (rep_fuel _ _ _ _ _ _ Hrep' Hi); cbn in *; lia)).
  destruct (search_chain _ q' (PSlot h) _ _ _) as [[y prev]|].
  - destruct Hs as (k1 & k2 & Hl & -> & _ & HF).
    destruct k1 as [|z k1]; cbn in Hl; injection Hl as -> ->; [done|]. apply Forall_cons in HF as [HF _]. congruence.
  - apply Forall_cons in Hs as [Hs _]. congruence.
Qed.
(** A request that is hashed is found again: after inet_csk_reqsk_queue_hash_add the search
    for its addresses returns this request, linked from the head of its bucket (it hides older
    ones with the same addresses); it is the new first element of its bucket, every other
    bucket and the FIFO are unchanged, and both counters account for it. *)
Theorem synq_add_then_search (q : listener) (l : listen_sock) (T : list (list nat)) (A : list nat)
    (x : nat) (r : request_sock) (jiffies timeout k : Z) :
  rep jh q l T A -> table_ok l k -> reqs q !! x = Some r -> x ∉ concat T ++ A ->
  let q' := snd (inet_csk_reqsk_queue_hash_add jh jiffies q x timeout) in
  let h := inet_synq_hash jh (rmt_addr r) (rmt_port r) (hash_rnd l) (nr_table_entries l) in
  inet_csk_search_req jh q' (rmt_port r) (rmt_addr r) (loc_addr r) = Some (x, PSlot h) /\
  exists b l', T !! h = Some b /\ rep jh q' l' (<[h := x :: b]> T) A.
Proof. apply hash_add_search. Qed.

(** The search is complete: when it fails, no request of the whole table has these
    addresses (the one bucket it looks at is the only one that could hold it), and when it
    succeeds the request matches, and the returned link is the one the unlink operation needs. *)
Theorem synq_search_complete (q : listener) (l : listen_sock) (T : list (list nat)) (A : list nat)
    (rport raddr laddr k : Z) :
  rep jh q l T A -> table_ok l k ->
  match inet_csk_search_req jh q rport raddr laddr with
  | None => forall x, x ∈ concat T -> req_matches (reqs q) rport raddr laddr x = false
  | Some (x, prev) => exists i l1 l2, T !! i = Some (l1 ++ x :: l2) /\ prev = link i l1 /\
      req_matches (reqs q) rport raddr laddr x = true
  end.
Proof.
  intros Hrep (Hk & Hn & _). unfold inet_csk_search_req. rewrite (rep_lopt _ _ _ _ _ Hrep).
  set (h := inet_synq_hash jh raddr rport (hash_rnd l) (nr_table_entries l)).
  destruct (lookup_lt_is_Some_2 T h) as [b Hb].
  { rewrite (rep_nr _ _ _ _ _ Hrep). apply (synq_hash_lt _ _ _ _ _ k); [lia|done]. }
  pose proof (search_chain_spec q l T A h [] b rport raddr laddr (S (size (reqs q))) Hrep Hb) as Hs.
  change (link h []) with (PSlot h) in Hs. pose proof (rep_fuel _ _ _ _ _ _ Hrep Hb).
  destruct (search_chain _ q (PSlot h) _ _ _) as [[x prev]|].
  - destruct Hs as (k1 & k2 & -> & -> & Hm & _); [lia|]. by exists h, k1, k2.
  - intros x (i & c & Hi & Hx)%elem_of_concat. destruct (req_matches (reqs q) rport raddr laddr x) eqn:E; [|done].
    specialize (Hs ltac:(lia)). unfold req_matches in E. destruct (reqs q !! x) as [r|] eqn:Er; [|done].
    bool_arith. assert (i = h) as ->.
    { pose proof (rep_hash _ _ _ _ _ Hrep i c x r Hi Hx Er) as Hh. unfold h. congruence. }
    simplify_eq. rewrite Forall_forall in Hs. specialize (Hs x Hx). unfold req_matches in Hs. rewrite Er in Hs.
    rewrite !(proj2 (Z.eqb_eq _ _)) in Hs by done. done.
Qed.

(** Dropping a request that the search found removes exactly it: its bucket loses one
    element, the FIFO is unchanged, the request is freed and no other one changes except for
    its link, and both counters stay exact. *)
Theorem synq_search_then_drop (q : listener) (l : listen_sock) (T : list (list nat)) (A : list nat)
    (rport raddr laddr k : Z) (x : nat) (prev : prevptr) :
  rep jh q l T A -> table_ok l k -> inet_csk_search_req jh q rport raddr laddr = Some (x, prev) ->
  let q' := snd (inet_csk_reqsk_queue_drop q x prev) in
  exists i l1 l2 l', T !! i = Some (l1 ++ x :: l2) /\ rep jh q' l' (<[i := l1 ++ l2]> T) A /\
    reqs q' !! x = None /\ (forall z, z <> x -> strip <$> reqs q' !! z = strip <$> reqs q !! z).
Proof.
  intros Hrep (Hk & Hn & _) Hs q'.
  assert (Hf : exists i l1 l2, T !! i = Some (l1 ++ x :: l2) /\ prev = link i l1).
  { unfold inet_csk_search_req in Hs. rewrite (rep_lopt _ _ _ _ _ Hrep) in Hs.
    set (h := inet_synq_hash jh raddr rport (hash_rnd l) (nr_table_entries l)) in *.
    destruct (lookup_lt_is_Some_2 T h) as [b Hb].
    { rewrite (rep_nr _ _ _ _ _ Hrep). apply (synq_hash_lt _ _ _ _ _ k); [lia|done]. }
    pose proof (search_chain_spec q l T A h [] b rport raddr laddr (S (size (reqs q))) Hrep Hb) as Hc.
    change (link h []) with (PSlot h) in Hc. rewrite Hs in Hc. pose proof (rep_fuel _ _ _ _ _ _ Hrep Hb).
    destruct Hc as (k1 & k2 & -> & -> & _); [lia|]. by exists h, k1, k2. }
  destruct Hf as (i & l1 & l2 & Hi & ->). destruct (drop_rep _ _ _ _ _ _ _ _ Hrep Hi) as (l' & H1 & H2 & _ & _ & H3).
  by exists i, l1, l2, l'.
Qed.

Lemma get_child_state q child q' : reqsk_queue_get_child q = Some (child, q') -> lq_state q' = lq_state q.
Proof. unfold reqsk_queue_get_child, reqsk_queue_remove, reqsk_free, sk_acceptq_removed. intros E. repeat case_match; simplify_eq; done. Qed.
Lemma accept_takes (MAX timeo : Z) (q : listener) (l : listen_sock) (T : list (list nat)) (x : nat) (A : list nat) (ws : list wakeup) :
  rep jh q l T (x :: A) -> lq_state q = TCP_LISTEN ->
  exists q', inet_csk_accept MAX q timeo ws = Some (inr (reqs q !! x ≫= req_sk), q') /\
    rep jh q' l T A /\ reqs q' = delete x (reqs q) /\ sk_ack_backlog q' = u16 (sk_ack_backlog q - 1) /\ lq_state q' = TCP_LISTEN.
Proof.
  intros Hrep Hs. unfold inet_csk_accept, st_eqb. rewrite bool_decide_true by done. cbn [negb].
  destruct (shape_accept _ _ _ _ _ _ (rep_shape _ _ _ _ _ Hrep)) as [Hh _]. unfold reqsk_queue_empty. rewrite Hh.
  destruct (get_child_rep _ _ _ _ _ Hrep) as (q' & E & H1 & H2 & H3). pose proof (get_child_state _ _ _ E) as H4. rewrite E. exists q'. split_and!; [done..|congruence].
Qed.
(** The calls of accept() one after the other, and what they return. *)
Fixpoint accepts (MAX : Z) (q : listener) (calls : list (Z * list wakeup)) : option (list (errno + option nat) * listener) :=
  match calls with
  | [] => Some ([], q)
  | (timeo, ws) :: calls =>
    match inet_csk_accept MAX q timeo ws with
    | None => None
    | Some (r, q) => match accepts MAX q calls with Some (rs, q) => Some (r :: rs, q) | None => None end
    end
  end.
Lemma accepts_all MAX l T A : forall q calls, rep jh q l T A -> lq_state q = TCP_LISTEN -> length calls = length A ->
  exists q', accepts MAX q calls = Some ((fun x => inr (reqs q !! x ≫= req_sk)) <$> A, q') /\ rep jh q' l T [].
Proof.
  induction A as [|x A IH]; intros q [|[timeo ws] calls] Hr Hs Hl; [by exists q|done..|]. assert (Hx : x ∉ A) by (destruct (rep_shape _ _ _ _ _ Hr) as [_ _ _ _ S5]; apply NoDup_app in S5 as (_ & _ & S5); by apply NoDup_cons in S5 as []). cbn [accepts]. destruct (accept_takes MAX timeo q l T x A ws Hr Hs) as (q1 & E1 & R1 & R2 & R3 & R4). rewrite E1. destruct (IH q1 calls R1) as (q2 & E2 & R5); [congruence|by injection Hl|]. rewrite E2. exists q2. split; [|done]. cbn [fmap list_fmap]. do 3 f_equal. apply list_fmap_ext. intros k y Hy. rewrite R2, lookup_delete_ne; [done|]. intros ->. apply Hx. by eapply list_elem_of_lookup_2.
Qed.
(** accept() is first-in first-out and never invents a connection: on a listening socket
    it returns the child of the oldest request of the FIFO, frees that request, leaves the SYN
    table alone and decrements the backlog; on an empty queue it returns EAGAIN when it may not
    block, and on a socket that does not listen EINVAL, without a change. *)
Theorem inet_csk_accept_fifo (MAX timeo : Z) (q : listener) (l : listen_sock) (T : list (list nat)) (A : list nat) (ws : list wakeup) :
  rep jh q l T A ->
  (lq_state q <> TCP_LISTEN -> inet_csk_accept MAX q timeo ws = Some (inl EINVAL, q)) /\
  (lq_state q = TCP_LISTEN ->
   match A with
   | [] => timeo = 0 -> inet_csk_accept MAX q timeo ws = Some (inl EAGAIN, q)
   | x :: A' => exists q', inet_csk_accept MAX q timeo ws = Some (inr (reqs q !! x ≫= req_sk), q') /\
       rep jh q' l T A' /\ reqs q' = delete x (reqs q) /\ sk_ack_backlog q' = u16 (sk_ack_backlog q - 1)
   end).
Proof.
  intros Hrep. split; intros Hs; [unfold inet_csk_accept, st_eqb; by rewrite bool_decide_false|].
  destruct A as [|x A']; [|destruct (accept_takes MAX timeo q l T x A' ws Hrep Hs) as (q' & H1 & H2 & H3 & H4 & _); by exists q']. pose proof (shape_accept _ _ _ _ _ _ (rep_shape _ _ _ _ _ Hrep)) as Hc. cbn in Hc.
  unfold inet_csk_accept, st_eqb, reqsk_queue_empty. rewrite bool_decide_true, Hc by done. by intros ->.
Qed.

(** A blocking accept() that is woken up returns the child of the oldest request of the
    first wake-up that finds one; otherwise the first wake-up that finds the socket closed, a
    signal or no time left decides the error: an accept never returns success without a
    request in the queue. *)
Theorem wait_for_connect_nonempty (MAX timeo : Z) (ws : list wakeup) (r : option errno) (q : listener) :
  inet_csk_wait_for_connect MAX ws timeo = Some (r, q) ->
  exists ws1 w ws2, ws = ws1 ++ w :: ws2 /\ q = w_sock w /\
    Forall (fun w => reqsk_queue_empty (w_sock w) = true /\ lq_state (w_sock w) = TCP_LISTEN /\ w_signal w = false) ws1 /\
    match r with
    | None => reqsk_queue_empty q = false
    | Some EINVAL => reqsk_queue_empty q = true /\ lq_state q <> TCP_LISTEN
    | Some e => reqsk_queue_empty q = true /\ lq_state q = TCP_LISTEN /\
        (if w_signal w then e = ERESTARTSYS \/ e = EINTR else e = EAGAIN)
    end.
Proof.
  revert timeo. induction ws as [|w ws IH]; intros timeo; cbn; [done|].
  set (tm := if w_slept w then w_timeo w else timeo).
  destruct (reqsk_queue_empty (w_sock w)) eqn:Ee; cbn.
  2:{ intros [= <- <-]. exists [], w, ws. by split_and!. }
  unfold st_eqb. case_bool_decide as Es; cbn.
  2:{ intros [= <- <-]. exists [], w, ws. by split_and!. }
  destruct (w_signal w) eqn:Esig.
  { intros [= <- <-]. exists [], w, ws. unfold sock_intr_errno. destruct (tm =? MAX); split_and!; rewrite ?Esig; auto. }
  destruct (tm =? 0).
  { intros [= <- <-]. exists [], w, ws. by rewrite Esig. }
  intros (ws1 & w' & ws2 & -> & -> & HF & Hr)%IH. exists (w :: ws1), w', ws2. split_and!; try done. by constructor.
Qed.

(** C36. The SYN-ACK timer: with a timeout of at least two intervals it visits, from the clock
    hand on, max(1, 2 * (nr / (timeout / interval))) consecutive buckets.  A request in them whose
    timer has not expired stays as it is; one that is over the retry limit, or whose SYN-ACK was to
    be resent and could not, is taken out of its bucket and freed; any other one is counted once
    more (the counter does not overflow) and expires again after the timeout doubled for each
    retransmission, at most max_rto.  The limit is lowered only when the table is half full, and
    never below 2.  Buckets not visited and the FIFO are untouched, and the timer is rearmed
    exactly when requests are left. *)
Theorem synq_prune_ok (rtx : nat -> Z) (retries now interval timeout max_rto k : Z)
    (q : listener) (l : listen_sock) (T : list (list nat)) (A : list nat) :
  rep jh q l T A -> table_ok l k -> retrans_ok q -> (clock_hand l < nr_table_entries l)%nat ->
  0 <= retries <= 255 -> is_u8 (icsk_syn_retries q) -> is_u8 (lq_defer_accept q) ->
  0 < interval -> 2 * interval <= timeout -> concat T <> [] ->
  let '(rearm, q') := inet_csk_reqsk_queue_prune rtx retries now q interval timeout max_rto in
  let limit := if icsk_syn_retries q =? 0 then retries else icsk_syn_retries q in
  let max_retries := if lq_defer_accept q =? 0 then limit else lq_defer_accept q in
  let visits := Z.max 1 (2 * (Z.of_nat (nr_table_entries l) / (timeout / interval))) in
  exists thresh l' T', Z.min 2 limit <= thresh <= limit /\ (Z.of_nat (length (concat T)) < 2 ^ (k - 1) -> thresh = limit) /\ rep jh q' l' T' A /\ retrans_ok q' /\
    (clock_hand l' < nr_table_entries l')%nat /\ nr_table_entries l' = nr_table_entries l /\
    walked rtx now timeout max_rto thresh max_retries (lq_defer_accept q) (visited (nr_table_entries l) (clock_hand l) (visits - 1) T) (reqs q) (reqs q') /\ (rearm = false <-> concat T' = []) /\
    forall j b, T !! j = Some b -> T' !! j = Some (
      if hand_dist (nr_table_entries l) (clock_hand l) j <? visits
      then List.filter (keep_at rtx now thresh max_retries (lq_defer_accept q) (reqs q)) b else b).
Proof.
  intros Hrep (Hk & Hn & Hm) Hok Hch Hr Hu Hd Hi Ht Hne. unfold inet_csk_reqsk_queue_prune.
  rewrite (rep_lopt _ _ _ _ _ Hrep), (rep_qlen _ _ _ _ _ Hrep).
  destruct (Z.eqb_spec (Z.of_nat (length (concat T))) 0) as [E|_]; [by destruct (concat T)|].
  set (limit := if icsk_syn_retries q =? 0 then retries else icsk_syn_retries q).
  set (max_retries := if lq_defer_accept q =? 0 then limit else lq_defer_accept q).
  set (thresh := if _ =? 0 then limit else _).
  set (budget := 2 * (Z.of_nat (nr_table_entries l) / (timeout / interval))).
  assert (Hb : 0 <= budget <= Z.of_nat (nr_table_entries l)) by (by apply prune_budget).
  assert (Hth : Z.min 2 limit <= thresh <= limit).
  { unfold thresh. destruct (_ =? 0) in |- *; [clear; lia|]. apply prune_thresh_bounds. }
  assert (Hlim : limit <= 255) by (unfold limit, is_u8 in *; destruct (icsk_syn_retries q =? 0); lia).
  assert (Hmr : max_retries <= 255) by (unfold max_retries, is_u8 in *; destruct (lq_defer_accept q =? 0); lia).
  pose proof (prune_slots_rep (jh := jh) rtx now timeout max_rto thresh max_retries (lq_defer_accept q) ltac:(lia) Hmr k
    (Z.to_nat (budget - 1)) q l T A (clock_hand l) ltac:(lia) Hn ltac:(lia) Hrep Hok Hch) as Hp.
  destruct (prune_slots _ _ _ _ _ _ _ _ _ _ _) as [i' q']. destruct Hp as (l' & T' & [Hs1 Hs2] & Hok' & Hw & Hrep' & Hi' & HT).
  exists thresh, (l' <| clock_hand := i' |>), T'. split; [done|]. split; [intros Hh; unfold thresh; rewrite Z.shiftr_div_pow2, Hm, Z.div_small by lia; done|]. split; [by apply rep_clock|].
  split; [done|]. split; [cbn; by rewrite Hs2|]. split; [done|]. split; [by replace (Z.max 1 budget - 1) with (Z.of_nat (Z.to_nat (budget - 1))) by lia|]. split.
  - unfold reqsk_queue_len. rewrite (rep_lopt _ _ _ _ _ (rep_clock _ _ _ _ _ i' Hrep')). cbn.
    rewrite (rep_qlen _ _ _ _ _ Hrep'). destruct (concat T'); cbn; done.
  - intros j b Hj. rewrite (HT j b Hj). do 2 f_equal.
    destruct (Z.leb_spec (hand_dist (nr_table_entries l) (clock_hand l) j) (Z.of_nat (Z.to_nat (budget - 1)))),
      (Z.ltb_spec (hand_dist (nr_table_entries l) (clock_hand l) j) (Z.max 1 budget)); try done; lia.
Qed.
End Claims.

(** ** Concrete queues

    A listener allocated for a backlog of 5 (16 buckets), and the same with one request
    hashed; the hash function adds the address and the port. *)
Module Demo.
Definition jh (a b c : Z) : Z := a + b.
Definition round (n : Z) : Z := 2 ^ Z.log2_up n.
Lemma round_ok : rounds_up round.
Proof.
  intros n Hn. exists (Z.log2_up n). unfold round. pose proof (Z.log2_up_spec n ltac:(lia)) as [H1 H2].
  pose proof (Z.log2_up_nonneg n). split_and!; try done. replace (Z.log2_up n) with (Z.succ (Z.pred (Z.log2_up n))) by lia.
  assert (0 < Z.log2_up n) by (apply Z.log2_up_pos; lia). rewrite Z.pow_succ_r by lia. lia.
Qed.

Definition req : request_sock :=
  mk_request_sock None 1460 0 0 5840 0 0 None 10 20 30 false 100 200 0 true 1 true 7 7 false 20480.
Definition blank : listener := mk_listener {[7%nat := req]} None None 0 None 0 5 0 TCP_LISTEN.
Definition q0 : listener := match reqsk_queue_alloc round 128 true 9 blank 5 with inr q => q | inl _ => blank end.
Definition q1 : listener := snd (inet_csk_reqsk_queue_hash_add jh 0 q0 7 3000).
Definition q2 : listener := reqsk_queue_add q0 7 42.
Definition l0 : listen_sock := mk_listen_sock 4 0 0 0 9 16 (replicate 16 None).
Definition l1 : listen_sock := mk_listen_sock 4 1 1 0 9 16 (<[2%nat := Some 7%nat]> (replicate 16 None)).
Definition T0 : list (list nat) := replicate 16 [].
Definition T1 : list (list nat) := <[2%nat := [7%nat]]> T0.

Lemma q0_rep : rep jh q0 l0 T0 [].
Proof.
  destruct (alloc_rep jh round 128 9 blank 5 round_ok) as (q & l & k & E & _ & _ & _ & Hr & _); [lia..|].
  assert (q = q0) as -> by (unfold q0; by rewrite E).
  assert (l = l0) as -> by (pose proof (rep_lopt _ _ _ _ _ Hr) as H; vm_compute in H; by injection H as <-). exact Hr.
Qed.
Lemma table0 : table_ok l0 4.
Proof. split; [lia|done]. Qed.
Lemma table1 : table_ok l1 4.
Proof. split; [lia|done]. Qed.
Lemma q1_rep : rep jh q1 l1 T1 [].
Proof.
  destruct (hash_add_rep (jh := jh) q0 l0 T0 [] 7 req 0 3000 q0_rep eq_refl) as (b & l & r & Eb & Hr & _).
  { vm_compute. by intros ?%elem_of_nil. }
  { vm_compute. lia. }
  fold q1 in Hr. assert (b = []) as -> by (vm_compute in Eb; by injection Eb).
  assert (l = l1) as -> by (pose proof (rep_lopt _ _ _ _ _ Hr) as H; vm_compute in H; by injection H as <-). exact Hr.
Qed.
Lemma q2_rep : rep jh q2 l0 T0 [7%nat].
Proof.
  apply (accept_add_rep q0 l0 T0 [] 7 42 q0_rep); [by eexists|]. vm_compute. by intros ?%elem_of_nil.
Qed.
Lemma q1_retrans : retrans_ok q1.
Proof.
  intros x r. change (reqs q1) with (reqs q1). unfold q1. intros H.
  destruct (decide (x = 7%nat)) as [->|Hne]; [vm_compute in H; injection H as <-; unfold is_u8; cbn; lia|].
  exfalso. assert (E : reqs q1 = {[7%nat := default req (reqs q1 !! 7%nat)]}) by (vm_compute; reflexivity).
  unfold q1 in E. rewrite E, lookup_singleton_ne in H; done.
Qed.
End Demo.
Import Demo.

Lemma reqsk_queue_alloc_ok_witness :
  exists q' l k, reqsk_queue_alloc round 128 true 9 blank 5 = inr q' /\ table_ok l k /\
    Z.max 8 (Z.min 5 128) < 2 ^ k <= 2 * Z.max 8 (Z.min 5 128) + 1 /\ rep jh q' l (replicate (nr_table_entries l) []) [].
Proof. apply (reqsk_queue_alloc_ok jh round 128 9 5 blank round_ok); lia. Defined.

Lemma reqsk_queue_is_full_iff_witness :
  reqsk_queue_is_full q1 = true <-> Z.of_nat (nr_table_entries l1) <= Z.of_nat (length (concat T1)).
Proof. apply (reqsk_queue_is_full_iff jh q1 l1 4 T1 [] q1_rep table1). Defined.

Lemma synq_add_then_search_witness : inet_csk_search_req jh q1 30 20 10 = Some (7%nat, PSlot 2).
Proof.
  refine (proj1 (synq_add_then_search jh q0 l0 T0 [] 7 req 0 3000 4 q0_rep table0 eq_refl _)).
  vm_compute. by intros ?%elem_of_nil.
Defined.

Lemma synq_search_complete_witness : 7%nat ∈ concat T1 /\ req_matches (reqs q1) 31 20 10 7 = false.
Proof.
  assert (H : 7%nat ∈ concat T1) by (apply (bool_decide_unpack _); vm_compute; exact I).
  split; [exact H|]. exact (synq_search_complete jh q1 l1 T1 [] 31 20 10 4 q1_rep table1 7%nat H).
Defined.

Lemma synq_search_then_drop_witness :
  let q' := snd (inet_csk_reqsk_queue_drop q1 7 (PSlot 2)) in
  exists i k1 k2 l', T1 !! i = Some (k1 ++ 7%nat :: k2) /\ rep jh q' l' (<[i := k1 ++ k2]> T1) [] /\
    reqs q' !! 7%nat = None /\ (forall z, z <> 7%nat -> strip <$> reqs q' !! z = strip <$> reqs q1 !! z).
Proof. apply (synq_search_then_drop jh q1 l1 T1 [] 30 20 10 4 7 (PSlot 2) q1_rep table1). reflexivity. Defined.

Lemma inet_csk_accept_fifo_witness :
  exists q', inet_csk_accept 1000 q2 0 [] = Some (inr (Some 42%nat), q') /\
    rep jh q' l0 T0 [] /\ reqs q' = delete 7%nat (reqs q2) /\ sk_ack_backlog q' = u16 (sk_ack_backlog q2 - 1).
Proof. exact (proj2 (inet_csk_accept_fifo jh 1000 0 q2 l0 T0 [7%nat] [] q2_rep) eq_refl). Defined.

Lemma wait_for_connect_nonempty_witness :
  exists ws1 w ws2, [Build_wakeup true 5 q0 false; Build_wakeup true 3 q2 false] = ws1 ++ w :: ws2 /\ q2 = w_sock w /\
    Forall (fun w => reqsk_queue_empty (w_sock w) = true /\ lq_state (w_sock w) = TCP_LISTEN /\ w_signal w = false) ws1 /\
    reqsk_queue_empty q2 = false.
Proof. apply (wait_for_connect_nonempty 1000 9 _ None q2). reflexivity. Defined.

Lemma synq_prune_ok_witness :
  let '(rearm, q') := inet_csk_reqsk_queue_prune (fun _ => 0) 5 3001 q1 200 3000 120000 in
  exists thresh l' T', Z.min 2 5 <= thresh <= 5 /\ (Z.of_nat (length (concat T1)) < 2 ^ (4 - 1) -> thresh = 5) /\ rep jh q' l' T' [] /\ retrans_ok q' /\
    (clock_hand l' < nr_table_entries l')%nat /\ nr_table_entries l' = nr_table_entries l1 /\
    walked (fun _ => 0) 3001 3000 120000 thresh 5 0 (visited (nr_table_entries l1) (clock_hand l1) (Z.max 1 (2 * (Z.of_nat (nr_table_entries l1) / (3000 / 200))) - 1) T1) (reqs q1) (reqs q') /\ (rearm = false <-> concat T' = []) /\
    forall j b, T1 !! j = Some b -> T' !! j = Some (
      if hand_dist (nr_table_entries l1) (clock_hand l1) j <? Z.max 1 (2 * (Z.of_nat (nr_table_entries l1) / (3000 / 200)))
      then List.filter (keep_at (fun _ => 0) 3001 thresh 5 0 (reqs q1)) b else b).
Proof.
  apply (synq_prune_ok jh (fun _ => 0) 5 3001 200 3000 120000 4 q1 l1 T1 [] q1_rep table1 q1_retrans);
    try done; unfold is_u8; cbn; lia.
Defined.
