(* ===== verification/RcvTune.v ===== *)
(** * Receiver tuning

    net/ipv4/tcp_input.c, lines 128-615, and the memory helpers of include/net/sock.h it uses:
    the estimate of the peer's segment size, quick-ACK mode, ECN on the receiving side, the
    sizes of the socket buffers, the growth of the receive window, the receiver-side round-trip
    estimate and the delayed-ACK engine ([tcp_event_data_recv]). *)

From S2P Require Import Prelude TcpTypes Kernel.

Section RcvTune.
Context {K : Kernel}.
Implicit Types (sk : sock) (skb : sk_buff) (t : tcp_sock).

(** ** Memory helpers of sock.h *)
Definition sk_rmem_schedule sk (size : Z) : bool * sock :=
  if negb (sk_has_account sk) then (true, sk)
  else if size <=? sk_forward_alloc sk then (true, sk)
  else sk_mem_schedule_ sk size.
Definition sk_mem_reclaim sk : sock :=
  if negb (sk_has_account sk) then sk
  else if sk_forward_alloc sk >=? SK_MEM_QUANTUM then sk_mem_reclaim_ sk else sk.
Definition sk_mem_charge sk (size : Z) : sock :=
  if negb (sk_has_account sk) then sk else sk <| sk_forward_alloc := s32 (sk_forward_alloc sk - size) |>.
Definition sk_mem_uncharge sk (size : Z) : sock :=
  if negb (sk_has_account sk) then sk else sk <| sk_forward_alloc := s32 (sk_forward_alloc sk + size) |>.
Definition sk_wmem_free_skb sk skb : sock :=
  let sk := sock_set_flag sk SOCK_QUEUE_SHRUNK in
  let sk := sk <| sk_wmem_queued := s32 (sk_wmem_queued sk - truesize skb) |> in
  sk_mem_uncharge sk (truesize skb).

(** ** The size of incoming segments *)
Definition TCP_REMNANT : Z := TCP_FLAG_FIN + TCP_FLAG_URG + TCP_FLAG_SYN + TCP_FLAG_PSH.

Definition tcp_measure_rcv_mss sk skb : sock :=
  let lss := ack_last_seg_size (icsk sk) in
  let sk := sk <| icsk; ack_last_seg_size := 0 |> in
  let ln := if gso_size skb =? 0 then len skb else gso_size skb in
  if ln >=? ack_rcv_mss (icsk sk) then sk <| icsk; ack_rcv_mss := u16 ln |>
  else
    let ln := u32 (ln + data_off skb) in
    let push sk :=
      let sk := if has (ack_pending (icsk sk)) ICSK_ACK_PUSHED
                then sk <| icsk; ack_pending := bset (ack_pending (icsk sk)) ICSK_ACK_PUSHED2 |> else sk in
      sk <| icsk; ack_pending := bset (ack_pending (icsk sk)) ICSK_ACK_PUSHED |> in
    if (ln >=? TCP_MSS_DEFAULT + sizeof_tcphdr) ||
       ((ln >=? TCP_MIN_MSS + sizeof_tcphdr) && negb (has (tcp_flag_word (skb_th skb)) TCP_REMNANT)) then
      let ln := u32 (ln - tcp_header_len (tp sk)) in
      let sk := sk <| icsk; ack_last_seg_size := u16 ln |> in
      if ln =? lss then sk <| icsk; ack_rcv_mss := u16 ln |> else push sk
    else push sk.

(** ** Quick ACKs *)
Definition tcp_incr_quickack sk : sock :=
  let quickacks := rcv_wnd (tp sk) / (2 * ack_rcv_mss (icsk sk)) in
  let quickacks := if quickacks =? 0 then 2 else quickacks in
  if quickacks >? ack_quick (icsk sk)
  then sk <| icsk; ack_quick := u8 (Z.min quickacks TCP_MAX_QUICKACKS) |> else sk.
Definition tcp_enter_quickack_mode sk : sock :=
  (tcp_incr_quickack sk) <| icsk; ack_pingpong := 0 |> <| icsk; ack_ato := TCP_ATO_MIN |>.
Definition tcp_in_quickack_mode sk : bool :=
  negb (ack_quick (icsk sk) =? 0) && (ack_pingpong (icsk sk) =? 0).

(** ** ECN, as a receiver *)
Definition TCP_ECN_queue_cwr t : tcp_sock :=
  if has (ecn_flags t) TCP_ECN_OK then t <| ecn_flags := bset (ecn_flags t) TCP_ECN_QUEUE_CWR |> else t.
Definition TCP_ECN_accept_cwr t skb : tcp_sock :=
  if th_cwr (skb_th skb) then t <| ecn_flags := bclr (ecn_flags t) TCP_ECN_DEMAND_CWR |> else t.
Definition TCP_ECN_withdraw_cwr t : tcp_sock := t <| ecn_flags := bclr (ecn_flags t) TCP_ECN_DEMAND_CWR |>.
Definition TCP_ECN_check_ce sk skb : sock :=
  if negb (has (ecn_flags (tp sk)) TCP_ECN_OK) then sk else
  let ds := Z.land (ip_dsfield skb) INET_ECN_MASK in
  let seen sk := sk <| tp; ecn_flags := bset (ecn_flags (tp sk)) TCP_ECN_SEEN |> in
  if ds =? INET_ECN_NOT_ECT then
    if has (ecn_flags (tp sk)) TCP_ECN_SEEN then tcp_enter_quickack_mode sk else sk
  else if ds =? INET_ECN_CE then
    seen (sk <| tp; ecn_flags := bset (ecn_flags (tp sk)) TCP_ECN_DEMAND_CWR |>)
  else seen sk.
Definition TCP_ECN_rcv_synack t (th : tcphdr) : tcp_sock :=
  if has (ecn_flags t) TCP_ECN_OK && (negb (th_ece th) || th_cwr th)
  then t <| ecn_flags := bclr (ecn_flags t) TCP_ECN_OK |> else t.
Definition TCP_ECN_rcv_syn t (th : tcphdr) : tcp_sock :=
  if has (ecn_flags t) TCP_ECN_OK && (negb (th_ece th) || negb (th_cwr th))
  then t <| ecn_flags := bclr (ecn_flags t) TCP_ECN_OK |> else t.
Definition TCP_ECN_rcv_ecn_echo t (th : tcphdr) : bool :=
  th_ece th && negb (th_syn th) && has (ecn_flags t) TCP_ECN_OK.

(** ** Buffer sizes *)
Definition tcp_fixup_sndbuf sk : sock :=
  let sndmem := s32 (SKB_TRUESIZE (mss_clamp (rx_opt (tp sk)) + MAX_TCP_HEADER)) in
  let sndmem := s32 (sndmem * TCP_INIT_CWND) in
  if sk_sndbuf sk <? sndmem then sk <| sk_sndbuf := Z.min sndmem sysctl_tcp_wmem2 |> else sk.

(** __tcp_grow_window: the loop halves the size and the window together; it ends when the
    size is down to 0 at the latest, so 32 rounds are enough. *)
Fixpoint grow_window_loop (fuel : nat) (ssthresh truesize window ln rcv_mss : Z) : Z :=
  match fuel with
  | O => 0
  | S fuel =>
    if ssthresh <=? u32 window then
      if u32 truesize <=? ln then 2 * rcv_mss
      else grow_window_loop fuel ssthresh (Z.shiftr truesize 1) (Z.shiftr window 1) ln rcv_mss
    else 0
  end.
Definition tcp_grow_window_ sk skb : Z :=
  grow_window_loop 33 (rcv_ssthresh (tp sk)) (Z.shiftr (tcp_win_from_space (truesize skb)) 1)
    (Z.shiftr (tcp_win_from_space sysctl_tcp_rmem2) 1) (len skb) (ack_rcv_mss (icsk sk)).

Definition tcp_grow_window sk skb : sock :=
  if (rcv_ssthresh (tp sk) <? window_clamp (tp sk)) && (s32 (rcv_ssthresh (tp sk)) <? tcp_space sk)
     && negb tcp_memory_pressure then
    let incr := if u32 (tcp_win_from_space (truesize skb)) <=? len skb then 2 * advmss (tp sk)
                else tcp_grow_window_ sk skb in
    if incr =? 0 then sk else
    sk <| tp; rcv_ssthresh := Z.min (u32 (rcv_ssthresh (tp sk) + incr)) (window_clamp (tp sk)) |>
       <| icsk; ack_quick := bset (ack_quick (icsk sk)) 1 |>
  else sk.

(** while (tcp_win_from_space(rcvmem) < mss) rcvmem += 128; *)
Fixpoint rcvmem_loop (fuel : nat) (rcvmem mss : Z) : Z :=
  match fuel with
  | O => rcvmem
  | S fuel => if tcp_win_from_space rcvmem <? mss then rcvmem_loop fuel (rcvmem + 128) mss else rcvmem
  end.

Definition tcp_fixup_rcvbuf sk : sock :=
  let mss := advmss (tp sk) in
  let icwnd := if mss >? 1460 then Z.max ((1460 * TCP_DEFAULT_INIT_RCVWND) / mss) 2
               else TCP_DEFAULT_INIT_RCVWND in
  let rcvmem := rcvmem_loop (Z.to_nat mss) (s32 (SKB_TRUESIZE (mss + MAX_TCP_HEADER))) mss in
  let rcvmem := s32 (rcvmem * icwnd) in
  if sk_rcvbuf sk <? rcvmem then sk <| sk_rcvbuf := Z.min rcvmem sysctl_tcp_rmem2 |> else sk.

Definition tcp_init_buffer_space sk : sock :=
  let sk := if has (sk_userlocks sk) SOCK_RCVBUF_LOCK then sk else tcp_fixup_rcvbuf sk in
  let sk := if has (sk_userlocks sk) SOCK_SNDBUF_LOCK then sk else tcp_fixup_sndbuf sk in
  let sk := sk <| tp; rcvq_space_space := s32 (rcv_wnd (tp sk)) |> in
  let maxwin := tcp_full_space sk in
  let adv := advmss (tp sk) in
  let app_win := negb (sysctl_tcp_app_win =? 0) in
  let sk := if window_clamp (tp sk) >=? u32 maxwin then
              let sk := sk <| tp; window_clamp := u32 maxwin |> in
              if app_win && (maxwin >? 4 * adv)
              then sk <| tp; window_clamp := u32 (Z.max (maxwin - Z.shiftr maxwin sysctl_tcp_app_win) (4 * adv)) |>
              else sk
            else sk in
  let sk := if app_win && (window_clamp (tp sk) >? 2 * adv) && (u32 (window_clamp (tp sk) + adv) >? u32 maxwin)
            then sk <| tp; window_clamp := u32 (Z.max (2 * adv) (maxwin - adv)) |> else sk in
  sk <| tp; rcv_ssthresh := Z.min (rcv_ssthresh (tp sk)) (window_clamp (tp sk)) |>
     <| tp; snd_cwnd_stamp := tcp_time_stamp |>.

Definition tcp_clamp_window sk : sock :=
  let sk := sk <| icsk; ack_quick := 0 |> in
  let sk := if (sk_rcvbuf sk <? sysctl_tcp_rmem2) && negb (has (sk_userlocks sk) SOCK_RCVBUF_LOCK)
               && negb tcp_memory_pressure && (tcp_memory_allocated <? sysctl_tcp_mem0)
            then sk <| sk_rcvbuf := Z.min (sk_rmem_alloc sk) sysctl_tcp_rmem2 |> else sk in
  if sk_rmem_alloc sk >? sk_rcvbuf sk
  then sk <| tp; rcv_ssthresh := Z.min (window_clamp (tp sk)) (2 * advmss (tp sk)) |> else sk.

Definition tcp_initialize_rcv_mss sk : sock :=
  let hint := Z.min (advmss (tp sk)) (mss_cache (tp sk)) in
  let hint := Z.min hint (rcv_wnd (tp sk) / 2) in
  let hint := Z.min hint TCP_MSS_DEFAULT in
  let hint := Z.max hint TCP_MIN_MSS in
  sk <| icsk; ack_rcv_mss := u16 hint |>.

(** ** The receiver's round-trip estimate, scaled by 8 *)
Definition tcp_rcv_rtt_update t (sample : Z) (win_dep : bool) : tcp_sock :=
  let new_sample := rcv_rtt_est_rtt t in
  let m := if sample =? 0 then 1 else sample in
  let new_sample :=
    if negb (new_sample =? 0) then
      if negb win_dep then u32 (new_sample + (m - Z.shiftr new_sample 3))
      else if m <? new_sample then u32 (Z.shiftl m 3) else new_sample
    else u32 (Z.shiftl m 3) in
  if rcv_rtt_est_rtt t =? new_sample then t else t <| rcv_rtt_est_rtt := new_sample |>.

Definition tcp_rcv_rtt_measure t : tcp_sock :=
  let new_measure t :=
    t <| rcv_rtt_est_seq := u32 (rcv_nxt t + rcv_wnd t) |> <| rcv_rtt_est_time := tcp_time_stamp |> in
  if rcv_rtt_est_time t =? 0 then new_measure t
  else if before (rcv_nxt t) (rcv_rtt_est_seq t) then t
  else new_measure (tcp_rcv_rtt_update t (u32 (jiffies - rcv_rtt_est_time t)) true).

Definition tcp_rcv_rtt_measure_ts sk skb : sock :=
  if negb (rcv_tsecr (rx_opt (tp sk)) =? 0) && (u32 (end_seq skb - seq skb) >=? ack_rcv_mss (icsk sk))
  then sk <| tp := tcp_rcv_rtt_update (tp sk) (u32 (tcp_time_stamp - rcv_tsecr (rx_opt (tp sk)))) false |>
  else sk.

Definition tcp_rcv_space_adjust sk : sock :=
  let new_measure sk :=
    sk <| tp; rcvq_space_seq := copied_seq (tp sk) |> <| tp; rcvq_space_time := tcp_time_stamp |> in
  let t := tp sk in
  if rcvq_space_time t =? 0 then new_measure sk else
  let time := u32 (tcp_time_stamp - rcvq_space_time t) in
  if (time <? Z.shiftr (rcv_rtt_est_rtt t) 3) || (rcv_rtt_est_rtt t =? 0) then sk else
  let space := s32 (2 * u32 (copied_seq t - rcvq_space_seq t)) in
  let space := Z.max (rcvq_space_space t) space in
  if rcvq_space_space t =? space then new_measure sk else
  let sk := sk <| tp; rcvq_space_space := space |> in
  let sk := if sysctl_tcp_moderate_rcvbuf && negb (has (sk_userlocks sk) SOCK_RCVBUF_LOCK) then
              let new_clamp := space in
              let adv := advmss (tp sk) in
              let space := Z.quot space adv in
              let space := if space =? 0 then 1 else space in
              let rcvmem := rcvmem_loop (Z.to_nat adv) (s32 (SKB_TRUESIZE (adv + MAX_TCP_HEADER))) adv in
              let space := s32 (space * rcvmem) in
              let space := Z.min space sysctl_tcp_rmem2 in
              if space >? sk_rcvbuf sk
              then sk <| sk_rcvbuf := space |> <| tp; window_clamp := u32 new_clamp |> else sk
            else sk in
  new_measure sk.

(** ** A data segment arrives *)

(** The differences of time stamps are compared as unsigned values, as TCP_ATO_MIN and the
    timeouts are unsigned. *)
Definition tcp_event_data_recv sk skb : sock :=
  let sk := inet_csk_schedule_ack sk in
  let sk := tcp_measure_rcv_mss sk skb in
  let sk := sk <| tp := tcp_rcv_rtt_measure (tp sk) |> in
  let now := tcp_time_stamp in
  let sk :=
    if ack_ato (icsk sk) =? 0 then (tcp_incr_quickack sk) <| icsk; ack_ato := TCP_ATO_MIN |>
    else
      let m := u32 (now - ack_lrcvtime (icsk sk)) in
      if m <=? TCP_ATO_MIN / 2 then
        sk <| icsk; ack_ato := u32 (Z.shiftr (ack_ato (icsk sk)) 1 + TCP_ATO_MIN / 2) |>
      else if m <? ack_ato (icsk sk) then
        let sk := sk <| icsk; ack_ato := u32 (Z.shiftr (ack_ato (icsk sk)) 1 + m) |> in
        if ack_ato (icsk sk) >? icsk_rto (icsk sk) then sk <| icsk; ack_ato := icsk_rto (icsk sk) |> else sk
      else if m >? icsk_rto (icsk sk) then sk_mem_reclaim (tcp_incr_quickack sk)
      else sk in
  let sk := sk <| icsk; ack_lrcvtime := now |> in
  let sk := TCP_ECN_check_ce sk skb in
  if len skb >=? 128 then tcp_grow_window sk skb else sk.
End RcvTune.

(** ** What each step leaves alone *)
Section Frames.
Context {K : Kernel} {M : MemLaws K}.
Implicit Types (sk : sock) (skb : sk_buff) (t : tcp_sock).

Lemma measure_rcv_mss_frame sk skb : exists a b c,
  tcp_measure_rcv_mss sk skb =
    sk <| icsk; ack_last_seg_size := a |> <| icsk; ack_rcv_mss := b |> <| icsk; ack_pending := c |> /\
  (forall f, has (ack_pending (icsk sk)) f = true -> has c f = true) /\ (is_u16 (ack_rcv_mss (icsk sk)) -> is_u16 b).
Proof.
  set (r := tcp_measure_rcv_mss sk skb).
  exists (ack_last_seg_size (icsk r)), (ack_rcv_mss (icsk r)), (ack_pending (icsk r)). unfold r, tcp_measure_rcv_mss.
  cbn. cases_if; (split; [reflexivity|]; split; cbn; intros;
    rewrite ?has_bset; auto with net; by repeat (apply orb_true_iff; left)).
Qed.
Lemma incr_quickack_frame sk : exists q, tcp_incr_quickack sk = sk <| icsk; ack_quick := q |>.
Proof. exists (ack_quick (icsk (tcp_incr_quickack sk))). unfold tcp_incr_quickack. cbn zeta. by cases_if. Qed.
Lemma mem_reclaim_frame sk : exists f, sk_mem_reclaim sk = sk <| sk_forward_alloc := f |>.
Proof.
  unfold sk_mem_reclaim. cases_if; try by exists (sk_forward_alloc sk).
  eexists. apply mem_reclaim_spec.
Qed.
Lemma rtt_measure_frame t : exists a b c,
  tcp_rcv_rtt_measure t = t <| rcv_rtt_est_rtt := a |> <| rcv_rtt_est_seq := b |> <| rcv_rtt_est_time := c |>.
Proof.
  set (r := tcp_rcv_rtt_measure t). exists (rcv_rtt_est_rtt r), (rcv_rtt_est_seq r), (rcv_rtt_est_time r).
  unfold r, tcp_rcv_rtt_measure, tcp_rcv_rtt_update. cbn zeta. cases_if; reflexivity.
Qed.
(** ECN processing may enter quick-ACK mode, which resets the delayed-ACK timeout. *)
Lemma check_ce_frame sk skb : exists e q p a,
  TCP_ECN_check_ce sk skb =
    sk <| tp; ecn_flags := e |> <| icsk; ack_quick := q |> <| icsk; ack_pingpong := p |> <| icsk; ack_ato := a |> /\
  (a = ack_ato (icsk sk) \/ a = TCP_ATO_MIN).
Proof.
  set (r := TCP_ECN_check_ce sk skb).
  exists (ecn_flags (tp r)), (ack_quick (icsk r)), (ack_pingpong (icsk r)), (ack_ato (icsk r)).
  unfold r, TCP_ECN_check_ce, tcp_enter_quickack_mode. destruct (incr_quickack_frame sk) as [q ->]. cbn zeta.
  cases_if; (split; [reflexivity|auto]).
Qed.
Lemma grow_window_frame sk skb : exists s q,
  tcp_grow_window sk skb = sk <| tp; rcv_ssthresh := s |> <| icsk; ack_quick := q |>.
Proof.
  set (r := tcp_grow_window sk skb). exists (rcv_ssthresh (tp r)), (ack_quick (icsk r)).
  unfold r, tcp_grow_window. cbn zeta. cases_if; reflexivity.
Qed.

(** The loop of __tcp_grow_window returns 0 or twice the segment size. *)
Lemma grow_loop_cases fuel s tr w ln m : grow_window_loop fuel s tr w ln m = 0 \/ grow_window_loop fuel s tr w ln m = 2 * m.
Proof. revert tr w. induction fuel as [|fuel IH]; intros tr w; cbn; [by left|]. cases_if; auto. Qed.

Lemma grow_window_bounds sk skb :
  is_u16 (advmss (tp sk)) -> is_u16 (ack_rcv_mss (icsk sk)) ->
  0 <= rcv_ssthresh (tp sk) <= window_clamp (tp sk) -> window_clamp (tp sk) < 2 ^ 31 ->
  rcv_ssthresh (tp sk) <= rcv_ssthresh (tp (tcp_grow_window sk skb)) <= window_clamp (tp sk).
Proof.
  intros Ha Hm Hs Hw. unfold tcp_grow_window.
  case_if_as Hc; [|lia]. cbn zeta.
  match goal with |- context [if ?i =? 0 then sk else _] => set (incr := i) end.
  assert (0 <= incr < 2 ^ 18).
  { unfold incr, is_u16, tcp_grow_window_ in *. case_if_as Hd; [lia|].
    destruct (grow_loop_cases 33 (rcv_ssthresh (tp sk)) (Z.shiftr (tcp_win_from_space (truesize skb)) 1)
      (Z.shiftr (tcp_win_from_space sysctl_tcp_rmem2) 1) (len skb) (ack_rcv_mss (icsk sk))) as [->| ->]; lia. }
  destruct (incr =? 0); [lia|]. cbn. rewrite u32_small by (unfold is_u32; lia). lia.
Qed.

(** The delayed-ACK timeout that one data segment computes. *)
Definition next_ato (now ato lrcvtime rto : Z) : Z :=
  if ato =? 0 then TCP_ATO_MIN else
  let m := u32 (now - lrcvtime) in
  if m <=? TCP_ATO_MIN / 2 then u32 (Z.shiftr ato 1 + TCP_ATO_MIN / 2)
  else if m <? ato then Z.min (u32 (Z.shiftr ato 1 + m)) rto else ato.

(** The whole handler, as one update of the socket. *)
Lemma event_data_recv_frame sk skb : exists sk0 e s,
  tcp_event_data_recv sk skb = s /\ sk0 = TCP_ECN_check_ce e skb /\
  s = (if len skb >=? 128 then tcp_grow_window sk0 skb else sk0) /\
  exists a b c q f x y z,
    e = sk <| icsk; ack_last_seg_size := a |> <| icsk; ack_rcv_mss := b |> <| icsk; ack_pending := c |>
           <| tp; rcv_rtt_est_rtt := x |> <| tp; rcv_rtt_est_seq := y |> <| tp; rcv_rtt_est_time := z |>
           <| icsk; ack_quick := q |> <| sk_forward_alloc := f |>
           <| icsk; ack_ato := next_ato tcp_time_stamp (ack_ato (icsk sk)) (ack_lrcvtime (icsk sk)) (icsk_rto (icsk sk)) |>
           <| icsk; ack_lrcvtime := tcp_time_stamp |> /\
    has c ICSK_ACK_SCHED = true /\ (is_u16 (ack_rcv_mss (icsk sk)) -> is_u16 b).
Proof.
  unfold tcp_event_data_recv. eexists _, _, _. split; [reflexivity|]. split; [reflexivity|]. split; [reflexivity|].
  destruct (measure_rcv_mss_frame (inet_csk_schedule_ack sk) skb) as (a & b & c & -> & Hc & Hb).
  assert (Hs : has c ICSK_ACK_SCHED = true).
  { apply Hc. cbn. rewrite has_bset. apply orb_true_r. }
  unfold inet_csk_schedule_ack in *. cbn in Hb.
  set (sk1 := _ <| icsk; ack_pending := c |>).
  destruct (rtt_measure_frame (tp sk1)) as (x & y & z & ->).
  set (sk2 := sk1 <| tp := _ |>). unfold next_ato.
  change (ack_ato (icsk sk2)) with (ack_ato (icsk sk)). change (ack_lrcvtime (icsk sk2)) with (ack_lrcvtime (icsk sk)).
  change (icsk_rto (icsk sk2)) with (icsk_rto (icsk sk)). cbn zeta.
  destruct (incr_quickack_frame sk2) as [q ->]. destruct (mem_reclaim_frame (sk2 <| icsk; ack_quick := q |>)) as [f ->].
  exists a, b, c. cases_if; cbn in *.
  all: match goal with |- context [?r <| icsk; ack_lrcvtime := _ |> = _] =>
         exists (ack_quick (icsk r)), (sk_forward_alloc r), x, y, z end; (split; [|done]); try reflexivity.
  all: rewrite Z.gtb_ltb in *; bool_arith; rewrite ?Z.min_r, ?Z.min_l by lia; reflexivity.
Qed.
End Frames.

(** ** The properties *)
Section Claims.
Context {K : Kernel} {M : MemLaws K} {B : BufLaws K}.
Implicit Types (sk : sock) (skb : sk_buff) (t : tcp_sock).

(** The invariant of the receiver's tuning state: the slow-start threshold is within the
    window clamp, and the delayed-ACK timeout is unset or between half of its minimum and the
    larger of its minimum and the retransmission timeout. *)
Record rcv_tune_ok sk : Prop := {
  tune_advmss : is_u16 (advmss (tp sk));
  tune_rcv_mss : is_u16 (ack_rcv_mss (icsk sk));
  tune_ssthresh : 0 <= rcv_ssthresh (tp sk) <= window_clamp (tp sk);
  tune_clamp : window_clamp (tp sk) < 2 ^ 31;
  tune_rto : TCP_ATO_MIN / 2 <= icsk_rto (icsk sk) < 2 ^ 31;
  tune_ato : ack_ato (icsk sk) = 0 \/
    TCP_ATO_MIN / 2 <= ack_ato (icsk sk) <= Z.max TCP_ATO_MIN (icsk_rto (icsk sk));
}.

Lemma next_ato_bounds now ato lr rto :
  TCP_ATO_MIN / 2 <= rto < 2 ^ 31 -> ato = 0 \/ TCP_ATO_MIN / 2 <= ato <= Z.max TCP_ATO_MIN rto ->
  TCP_ATO_MIN / 2 <= next_ato now ato lr rto <= Z.max TCP_ATO_MIN rto.
Proof.
  intros Hr Ha. pose proof ato_min_ok as Hm. unfold next_ato. destruct (Z.eqb_spec ato 0) as [->|H0]; [dlia|].
  destruct Ha as [|Ha]; [done|]. pose proof (u32_range (now - lr)) as Hu. unfold is_u32 in Hu.
  set (m := u32 (now - lr)) in *. rewrite Z.shiftr_div_pow2 by lia. change (2 ^ 1) with 2.
  destruct (Z.leb_spec m (TCP_ATO_MIN / 2)).
  - rewrite u32_small by (unfold is_u32; dlia). dlia.
  - destruct (Z.ltb_spec m ato); [|lia]. rewrite u32_small by (unfold is_u32; dlia). dlia.
Qed.

(** Every data segment keeps the receiver's tuning state within its bounds: the delayed-ACK
    timeout stays between half of TCP_ATO_MIN and max(TCP_ATO_MIN, rto), the window threshold
    only grows and never beyond the window clamp, an ACK is scheduled, and the sequence space
    and the queues are untouched. *)
Theorem event_data_recv_ok sk skb :
  rcv_tune_ok sk ->
  let sk' := tcp_event_data_recv sk skb in
  rcv_tune_ok sk' /\ ack_ato (icsk sk') <> 0 /\ inet_csk_ack_scheduled sk' = true /\
  rcv_ssthresh (tp sk) <= rcv_ssthresh (tp sk') /\
  rcv_nxt (tp sk') = rcv_nxt (tp sk) /\ rcv_wnd (tp sk') = rcv_wnd (tp sk) /\
  sk_receive_queue sk' = sk_receive_queue sk /\ out_of_order_queue (tp sk') = out_of_order_queue (tp sk).
Proof.
  intros [H1 H2 H3 H4 H5 H6] sk'. pose proof ato_min_ok as Hm.
  pose proof (next_ato_bounds tcp_time_stamp _ (ack_lrcvtime (icsk sk)) _ H5 H6) as Hn.
  destruct (event_data_recv_frame sk skb) as (sk0 & e & s & Es & -> & Es' & a & b & c & q & f & x & y & z & Ee & Hc & Hb).
  destruct (check_ce_frame e skb) as (ec & q' & p & at' & Ece & Hat).
  destruct (grow_window_frame (TCP_ECN_check_ce e skb) skb) as (st & q'' & Eg).
  pose proof (grow_window_bounds (TCP_ECN_check_ce e skb) skb) as Hg.
  unfold sk'. rewrite Es, Es'. clear Es Es' sk' s. rewrite Ece in Eg, Hg |- *. subst e. cbn in Hg, Hat.
  specialize (Hg H1 (Hb H2) H3 H4).
  assert (Ha : TCP_ATO_MIN / 2 <= at' <= Z.max TCP_ATO_MIN (icsk_rto (icsk sk)) /\ at' <> 0).
  { destruct Hat as [->| ->]; dlia. }
  destruct (len skb >=? 128); [rewrite Eg in Hg |- *|]; cbn in *; (split; [split; cbn; auto; lia|]); split_and!; auto; lia.
Qed.

(** The buffer for one segment: the loop finds the first size, in steps of 128, whose window
    holds the segment. *)
Lemma rcvmem_loop_ok fuel r mss :
  0 <= r -> mss <= 64 * Z.of_nat fuel + r / 2 ->
  let r' := rcvmem_loop fuel r mss in
  mss <= tcp_win_from_space r' /\ r <= r' /\ (r' = r \/ tcp_win_from_space (r' - 128) < mss).
Proof.
  revert r. induction fuel as [|fuel IH]; intros r Hr Hf; cbn.
  - pose proof (win_from_space_bounds r Hr). lia.
  - destruct (Z.ltb_spec (tcp_win_from_space r) mss) as [Hw|Hw]; [|lia].
    destruct (IH (r + 128)) as (I1 & I2 & [I3|I3]); [lia|dlia|..]; cbn in *; split_and!; try lia.
    right. rewrite I3. by replace (r + 128 - 128) with r by lia.
Qed.
Lemma grow_loop_fuel n : forall fuel s tr w ln m, (n < fuel)%nat -> 0 <= tr < 2 ^ Z.of_nat n -> 0 <= ln ->
  grow_window_loop fuel s tr w ln m = grow_window_loop (S n) s tr w ln m.
Proof.
  induction n as [|n IH]; intros fuel s tr w ln m Hf Ht Hl; (destruct fuel as [|fuel]; [lia|]); cbn [grow_window_loop].
  - assert (tr = 0) as -> by (change (2 ^ Z.of_nat 0) with 1 in Ht; lia). destruct (s <=? u32 w); [|done].
    destruct (Z.leb_spec (u32 0) ln) as [|H]; [done|]. change (u32 0) with 0 in H. lia.
  - case_if_as Hc; [|done]. case_if_as Hd; [done|]. apply IH; [lia| |done].
    rewrite Z.shiftr_div_pow2 by lia. change (2 ^ 1) with 2. rewrite Nat2Z.inj_succ, Z.pow_succ_r in Ht by lia. dlia.
Qed.

(** The two loops of buffer sizing terminate: the search for the memory of one segment ends
    within mss rounds, at the first size in steps of 128 whose window holds the segment; and the
    loop of __tcp_grow_window needs at most 33 rounds, whatever the threshold and the window. *)
Theorem buffer_loops_terminate (r mss : Z) (fuel : nat) (s tr w ln m : Z) :
  0 <= r -> 0 <= mss -> (33 <= fuel)%nat -> 0 <= tr < 2 ^ 32 -> 0 <= ln ->
  (let r' := rcvmem_loop (Z.to_nat mss) r mss in
   mss <= tcp_win_from_space r' /\ r <= r' /\ (r' = r \/ tcp_win_from_space (r' - 128) < mss)) /\
  grow_window_loop fuel s tr w ln m = grow_window_loop 33 s tr w ln m.
Proof.
  intros Hr Hm Hf Ht Hl. split.
  - apply rcvmem_loop_ok; [done|]. assert (0 <= r / 2) by (apply Z.div_pos; lia). lia.
  - by apply (grow_loop_fuel 32); [lia| |].
Qed.

(** What the fixups of the two buffers do to the receive buffer. *)
Lemma fixup_rcvbuf_frame sk : 0 <= sk_rcvbuf sk < 2 ^ 31 -> 0 <= sysctl_tcp_rmem2 < 2 ^ 31 ->
  exists b, tcp_fixup_rcvbuf sk = sk <| sk_rcvbuf := b |> /\ (b = sk_rcvbuf sk \/ 0 <= b <= sysctl_tcp_rmem2) /\ 0 <= b < 2 ^ 31.
Proof.
  intros H1 H2. unfold tcp_fixup_rcvbuf. cbn zeta. case_if_as Hc; bool_arith.
  - eexists. split; [reflexivity|]. lia.
  - exists (sk_rcvbuf sk). split; [reflexivity|]. lia.
Qed.
Lemma fixup_sndbuf_frame sk : exists b, tcp_fixup_sndbuf sk = sk <| sk_sndbuf := b |>.
Proof. unfold tcp_fixup_sndbuf. cbn zeta. case_if_as Hc; [by eexists|by exists (sk_sndbuf sk)]. Qed.

(** When a connection is established, tcp_init_buffer_space leaves an advertisable window
    that the receive buffer can hold: rcv_ssthresh <= window_clamp <= tcp_full_space, and a
    receive buffer the user locked is not resized. *)
Theorem init_buffer_space_ok sk :
  is_u16 (advmss (tp sk)) -> 0 <= sk_rcvbuf sk < 2 ^ 31 -> 0 <= sysctl_tcp_rmem2 < 2 ^ 31 ->
  is_u32 (window_clamp (tp sk)) -> 0 <= sysctl_tcp_app_win ->
  let sk' := tcp_init_buffer_space sk in
  rcv_ssthresh (tp sk') <= window_clamp (tp sk') <= tcp_full_space sk' /\
  (has (sk_userlocks sk) SOCK_RCVBUF_LOCK = true -> sk_rcvbuf sk' = sk_rcvbuf sk).
Proof.
  intros Ha Hb Hm Hw Happ. unfold tcp_init_buffer_space.
  destruct (fixup_rcvbuf_frame sk Hb Hm) as (b & Eb & _ & Hb').
  set (sk1 := if has (sk_userlocks sk) SOCK_RCVBUF_LOCK then _ else _).
  set (sk2 := if has _ SOCK_SNDBUF_LOCK then sk1 else _). set (sk3 := sk2 <| tp; rcvq_space_space := _ |>).
  assert (E3 : exists b s q, sk3 = sk <| sk_rcvbuf := b |> <| sk_sndbuf := s |> <| tp; rcvq_space_space := q |> /\
     0 <= b < 2 ^ 31 /\ (has (sk_userlocks sk) SOCK_RCVBUF_LOCK = true -> b = sk_rcvbuf sk)).
  { exists (sk_rcvbuf sk3), (sk_sndbuf sk3), (rcvq_space_space (tp sk3)). unfold sk3, sk2.
    destruct (fixup_sndbuf_frame sk1) as [sb ->]. unfold sk1. rewrite Eb.
    destruct (has (sk_userlocks sk) SOCK_RCVBUF_LOCK); cases_if; (split; [reflexivity|]); (split; [cbn; lia|done]). }
  clearbody sk3. clear sk1 sk2 Eb. destruct E3 as (b3 & s3 & q3 & -> & Hb3 & Hl3). cbn zeta.
  rewrite !full_space_spec. cbn. pose proof (win_from_space_bounds b3 ltac:(lia)) as Hmw.
  set (maxwin := tcp_win_from_space b3) in *. assert (0 <= maxwin) by dlia. rewrite (u32_small maxwin) by (unfold is_u32; lia).
  assert (Hsh : 0 <= Z.shiftr maxwin sysctl_tcp_app_win) by (by apply Z.shiftr_nonneg).
  unfold is_u16, is_u32 in *.
  cases_if; cbn in *; rewrite Z.gtb_ltb in *; rewrite ?Z.geb_leb in *; bool_arith; cbn;
    fold maxwin; repeat rewrite u32_small by (unfold is_u32; lia); (split; [lia|done]).
Qed.

(** Receive-buffer autotuning only moves upwards and within the administrator's limit: the
    buffer never shrinks, never exceeds max(old size, tcp_rmem[2]), the measured space never
    decreases, and neither the buffer nor the clamp changes when the user locked the buffer. *)
Theorem rcv_space_adjust_ok sk :
  let sk' := tcp_rcv_space_adjust sk in
  sk_rcvbuf sk <= sk_rcvbuf sk' <= Z.max (sk_rcvbuf sk) sysctl_tcp_rmem2 /\
  rcvq_space_space (tp sk) <= rcvq_space_space (tp sk') /\
  (has (sk_userlocks sk) SOCK_RCVBUF_LOCK = true ->
   sk_rcvbuf sk' = sk_rcvbuf sk /\ window_clamp (tp sk') = window_clamp (tp sk)).
Proof.
  unfold tcp_rcv_space_adjust. cbn zeta. cases_if; cbn in *; rewrite ?Z.gtb_ltb in *; bool_arith;
    split_and!; intros; try lia; try done; try congruence.
Qed.

(** The receiver's estimate without timestamps is meant to be a minimum, but a sample above
    the current estimate raises it: the sample is compared unscaled with the estimate, which is
    scaled by 8.  Any sample between an eighth of the stored value and the stored value itself
    (that is, up to eight times the estimated round-trip time) becomes the new estimate. *)
Theorem rcv_rtt_update_raises t sample :
  0 < rcv_rtt_est_rtt t < 2 ^ 29 -> 0 < sample -> rcv_rtt_est_rtt t < 8 * sample -> sample < rcv_rtt_est_rtt t ->
  rcv_rtt_est_rtt (tcp_rcv_rtt_update t sample true) = 8 * sample /\
  rcv_rtt_est_rtt t < rcv_rtt_est_rtt (tcp_rcv_rtt_update t sample true).
Proof.
  intros H1 H2 H3 H4. unfold tcp_rcv_rtt_update.
  rewrite (proj2 (Z.eqb_neq sample 0)), (proj2 (Z.eqb_neq (rcv_rtt_est_rtt t) 0)), (proj2 (Z.ltb_lt _ _) H4) by lia.
  cbn [negb]. rewrite Z.shiftl_mul_pow2, u32_small by (unfold is_u32; lia).
  rewrite (proj2 (Z.eqb_neq _ _)) by lia. cbn. lia.
Qed.

(** With timestamps the estimate is an exponential average with gain 1/8: it moves towards
    the sample, by an eighth of the distance (up to rounding), and never past it. *)
Theorem rcv_rtt_update_average t sample :
  0 < rcv_rtt_est_rtt t < 2 ^ 31 -> 0 < sample < 2 ^ 28 ->
  let e' := rcv_rtt_est_rtt (tcp_rcv_rtt_update t sample false) in
  e' = rcv_rtt_est_rtt t - rcv_rtt_est_rtt t / 8 + sample /\
  Z.min (rcv_rtt_est_rtt t) (8 * sample) <= e' <= Z.max (rcv_rtt_est_rtt t) (8 * sample + 7).
Proof.
  intros H1 H2 e'. assert (E : e' = rcv_rtt_est_rtt t - rcv_rtt_est_rtt t / 8 + sample); [|rewrite E; dlia].
  unfold e', tcp_rcv_rtt_update. rewrite (proj2 (Z.eqb_neq sample 0)), (proj2 (Z.eqb_neq (rcv_rtt_est_rtt t) 0)) by lia.
  cbn [negb]. rewrite Z.shiftr_div_pow2 by lia. change (2 ^ 3) with 8. rewrite u32_small by (unfold is_u32; dlia).
  destruct (Z.eqb_spec (rcv_rtt_est_rtt t) (rcv_rtt_est_rtt t + (sample - rcv_rtt_est_rtt t / 8))); cbn; lia.
Qed.
End Claims.

(** ** Concrete sockets *)
Module Demo.
Definition sk0 : sock :=
  blank_sock <| tp; advmss := 1460 |> <| tp; rcv_ssthresh := 5840 |> <| tp; window_clamp := 65535 |>
             <| icsk; ack_rcv_mss := 536 |> <| icsk; icsk_rto := 200 |> <| sk_rcvbuf := 87380 |>
             <| tp; rcv_rtt_est_rtt := 80 |>.
Definition skb0 : sk_buff := blank_skb <| len := 1460 |> <| truesize := 1500 |>.
Lemma sk0_ok : rcv_tune_ok sk0.
Proof. split; unfold is_u16; cbn; dlia. Qed.
End Demo.
Import Demo.

Lemma event_data_recv_ok_witness :
  let sk' := tcp_event_data_recv sk0 skb0 in
  rcv_tune_ok sk' /\ ack_ato (icsk sk') <> 0 /\ inet_csk_ack_scheduled sk' = true /\
  rcv_ssthresh (tp sk0) <= rcv_ssthresh (tp sk') /\
  rcv_nxt (tp sk') = rcv_nxt (tp sk0) /\ rcv_wnd (tp sk') = rcv_wnd (tp sk0) /\
  sk_receive_queue sk' = sk_receive_queue sk0 /\ out_of_order_queue (tp sk') = out_of_order_queue (tp sk0).
Proof. apply (event_data_recv_ok sk0 skb0 sk0_ok). Defined.

Lemma buffer_loops_terminate_witness :
  (let r' := rcvmem_loop (Z.to_nat 1460) 100 1460 in
   1460 <= tcp_win_from_space r' /\ 100 <= r' /\ (r' = 100 \/ tcp_win_from_space (r' - 128) < 1460)) /\
  grow_window_loop 40 5840 9000 100000 60 536 = grow_window_loop 33 5840 9000 100000 60 536.
Proof. apply (buffer_loops_terminate 100 1460 40 5840 9000 100000 60 536); lia. Defined.

Lemma init_buffer_space_ok_witness :
  let sk' := tcp_init_buffer_space sk0 in
  rcv_ssthresh (tp sk') <= window_clamp (tp sk') <= tcp_full_space sk' /\
  (has (sk_userlocks sk0) SOCK_RCVBUF_LOCK = true -> sk_rcvbuf sk' = sk_rcvbuf sk0).
Proof. apply (init_buffer_space_ok sk0); unfold is_u16, is_u32; cbn; lia. Defined.

Lemma rcv_rtt_update_raises_witness :
  rcv_rtt_est_rtt (tcp_rcv_rtt_update (tp sk0) 50 true) = 8 * 50 /\
  rcv_rtt_est_rtt (tp sk0) < rcv_rtt_est_rtt (tcp_rcv_rtt_update (tp sk0) 50 true).
Proof. apply (rcv_rtt_update_raises (tp sk0) 50); cbn; lia. Defined.

Lemma rcv_rtt_update_average_witness :
  let e' := rcv_rtt_est_rtt (tcp_rcv_rtt_update (tp sk0) 50 false) in
  e' = rcv_rtt_est_rtt (tp sk0) - rcv_rtt_est_rtt (tp sk0) / 8 + 50 /\
  Z.min (rcv_rtt_est_rtt (tp sk0)) (8 * 50) <= e' <= Z.max (rcv_rtt_est_rtt (tp sk0)) (8 * 50 + 7).
Proof. apply (rcv_rtt_update_average (tp sk0) 50); cbn; lia. Defined.
