(* ===== verification/Rtt.v ===== *)
(** * Round-trip time, retransmission timeout and saved metrics

    net/ipv4/tcp_input.c, lines 617-722 (the Jacobson estimator and the RTO), 724-810 and
    879-952 (the metrics saved in and restored from the destination cache) and 3176-3255
    (which ACKs may give a sample, and the retransmission timer). *)

From S2P Require Import Prelude TcpTypes Kernel.

(** The destination cache (net/dst.h) is outside of the repository: an interface. *)
Inductive rtax := RTAX_RTT | RTAX_RTTVAR | RTAX_SSTHRESH | RTAX_CWND | RTAX_REORDERING | RTAX_INITCWND.
#[export] Instance rtax_eq_dec : EqDecision rtax.
Proof. solve_decision. Defined.

Class DstOps (dst_entry : Type) := {
  dst_host : dst_entry -> bool; (** dst->flags & DST_HOST *)
  dst_confirm : dst_entry -> dst_entry;
  dst_metric : dst_entry -> rtax -> Z;
  dst_metric_locked : dst_entry -> rtax -> bool;
  dst_metric_set : dst_entry -> rtax -> Z -> dst_entry;
  dst_metric_rtt : dst_entry -> rtax -> Z;
  set_dst_metric_rtt : dst_entry -> rtax -> Z -> dst_entry;
}.

(** Reading back what was written; the locks are not part of what is written. *)
Class DstLaws (D : Type) (O : DstOps D) : Prop := {
  confirm_metric d r : dst_metric (dst_confirm d) r = dst_metric d r;
  confirm_rtt d r : dst_metric_rtt (dst_confirm d) r = dst_metric_rtt d r;
  confirm_locked d r : dst_metric_locked (dst_confirm d) r = dst_metric_locked d r;
  metric_set d r v s : dst_metric (dst_metric_set d r v) s = if decide (r = s) then v else dst_metric d s;
  metric_set_locked d r v s : dst_metric_locked (dst_metric_set d r v) s = dst_metric_locked d s;
  set_rtt_locked d r v s : dst_metric_locked (set_dst_metric_rtt d r v) s = dst_metric_locked d s;
  set_rtt_other d r v s : r <> s -> dst_metric (set_dst_metric_rtt d r v) s = dst_metric d s;
}.

Section Rtt.
Context {K : Kernel}.
Implicit Types (sk : sock) (skb : sk_buff) (t : tcp_sock).

(** ** The estimator *)
Definition tcp_rtt_estimator sk (mrtt : Z) : sock :=
  let t := tp sk in
  let m := if mrtt =? 0 then 1 else mrtt in
  if negb (srtt t =? 0) then
    let m := m - Z.shiftr (srtt t) 3 in
    let t := t <| srtt := u32 (srtt t + m) |> in
    let m := if m <? 0 then
               let m := - m in
               let m := m - Z.shiftr (mdev t) 2 in
               if m >? 0 then Z.shiftr m 3 else m
             else m - Z.shiftr (mdev t) 2 in
    let t := t <| mdev := u32 (mdev t + m) |> in
    let t := if mdev t >? mdev_max t then
               let t := t <| mdev_max := mdev t |> in
               if mdev_max t >? rttvar t then t <| rttvar := mdev_max t |> else t
             else t in
    let t := if after (snd_una t) (rtt_seq t) then
               let t := if mdev_max t <? rttvar t
                        then t <| rttvar := u32 (rttvar t - Z.shiftr (rttvar t - mdev_max t) 2) |> else t in
               t <| rtt_seq := snd_nxt t |> <| mdev_max := tcp_rto_min sk |>
             else t in
    sk <| tp := t |>
  else
    let t := t <| srtt := u32 (Z.shiftl m 3) |> <| mdev := u32 (Z.shiftl m 1) |> in
    let v := Z.max (mdev t) (tcp_rto_min sk) in
    let t := t <| rttvar := v |> <| mdev_max := v |> <| rtt_seq := snd_nxt t |> in
    sk <| tp := t |>.

Definition tcp_set_rto sk : sock :=
  tcp_bound_rto (sk <| icsk; icsk_rto := tcp_set_rto_ (tp sk) |>).

Definition tcp_valid_rtt_meas sk (seq_rtt : Z) : sock :=
  (tcp_set_rto (tcp_rtt_estimator sk seq_rtt)) <| icsk; icsk_backoff := 0 |>.

(** ** Which ACKs give a sample *)
Definition tcp_ack_saw_tstamp sk (flag : Z) : sock :=
  tcp_valid_rtt_meas sk (u32 (tcp_time_stamp - rcv_tsecr (rx_opt (tp sk)))).
Definition tcp_ack_no_tstamp sk (seq_rtt flag : Z) : sock :=
  if has flag FLAG_RETRANS_DATA_ACKED then sk else tcp_valid_rtt_meas sk seq_rtt.
Definition tcp_ack_update_rtt sk (flag seq_rtt : Z) : sock :=
  if saw_tstamp (rx_opt (tp sk)) && negb (rcv_tsecr (rx_opt (tp sk)) =? 0) then tcp_ack_saw_tstamp sk flag
  else if seq_rtt >=? 0 then tcp_ack_no_tstamp sk seq_rtt flag else sk.

Definition tcp_cong_avoid sk (ack in_flight : Z) : sock :=
  (ca_cong_avoid sk ack in_flight) <| tp; snd_cwnd_stamp := tcp_time_stamp |>.

(** ** The timers *)

(** inet_csk_reset_xmit_timer of inet_connection_sock.h; the timer itself is armed for
    icsk_timeout or icsk_ack.timeout. *)
Definition inet_csk_reset_xmit_timer sk (what when max_when : Z) : sock :=
  let when := if when >? max_when then max_when else when in
  if (what =? ICSK_TIME_RETRANS) || (what =? ICSK_TIME_PROBE0) then
    sk <| icsk; icsk_pending := what |> <| icsk; icsk_timeout := u64 (jiffies + when) |>
  else if what =? ICSK_TIME_DACK then
    sk <| icsk; ack_pending := bset (ack_pending (icsk sk)) ICSK_ACK_TIMER |>
       <| icsk; ack_timeout := u64 (jiffies + when) |>
  else sk.

Definition tcp_rearm_rto sk : sock :=
  if packets_out (tp sk) =? 0 then inet_csk_clear_xmit_timer sk ICSK_TIME_RETRANS
  else inet_csk_reset_xmit_timer sk ICSK_TIME_RETRANS (icsk_rto (icsk sk)) TCP_RTO_MAX.

(** ** FACK and D-SACK bits of sack_ok *)
Definition tcp_disable_fack t : tcp_sock :=
  let t := if tcp_is_fack t then t <| lost_skb_hint := None |> else t in
  t <| rx_opt; sack_ok := bclr (sack_ok (rx_opt t)) 2 |>.
Definition tcp_dsack_seen t : tcp_sock := t <| rx_opt; sack_ok := bset (sack_ok (rx_opt t)) 4 |>.

(** ** Metrics *)
Context {D : Type} {O : DstOps D}.

(** The parts of tcp_update_metrics.  [unsigned long] is 64 bits wide and [m] an int, so the
    comparison with [var] is the unsigned 64-bit one (m is never negative there). *)
Definition metrics_rtt t (rtt m : Z) (dst : D) : D :=
  if dst_metric_locked dst RTAX_RTT then dst
  else if m <=? 0 then set_dst_metric_rtt dst RTAX_RTT (srtt t)
  else set_dst_metric_rtt dst RTAX_RTT (u64 (rtt - Z.shiftr m 3)).
Definition metrics_rttvar t (m : Z) (dst : D) : D :=
  if dst_metric_locked dst RTAX_RTTVAR then dst else
  let m := if m <? 0 then s32 (- m) else m in
  let m := Z.shiftr m 1 in
  let m := if u32 m <? mdev t then s32 (mdev t) else m in
  let var := dst_metric_rtt dst RTAX_RTTVAR in
  let var := if u64 m >=? var then u64 m else u64 (var - Z.shiftr (u64 (var - m)) 2) in
  set_dst_metric_rtt dst RTAX_RTTVAR var.
Definition metrics_window sk (dst : D) : D :=
  let t := tp sk in
  if tcp_in_initial_slowstart t then
    let dst := if negb (dst_metric dst RTAX_SSTHRESH =? 0) && negb (dst_metric_locked dst RTAX_SSTHRESH)
                  && (Z.shiftr (snd_cwnd t) 1 >? dst_metric dst RTAX_SSTHRESH)
               then dst_metric_set dst RTAX_SSTHRESH (Z.shiftr (snd_cwnd t) 1) else dst in
    if negb (dst_metric_locked dst RTAX_CWND) && (snd_cwnd t >? dst_metric dst RTAX_CWND)
    then dst_metric_set dst RTAX_CWND (snd_cwnd t) else dst
  else if (snd_cwnd t >? snd_ssthresh t) && ca_eqb (icsk_ca_state (icsk sk)) TCP_CA_Open then
    let dst := if negb (dst_metric_locked dst RTAX_SSTHRESH)
               then dst_metric_set dst RTAX_SSTHRESH (Z.max (Z.shiftr (snd_cwnd t) 1) (snd_ssthresh t)) else dst in
    if negb (dst_metric_locked dst RTAX_CWND)
    then dst_metric_set dst RTAX_CWND (Z.shiftr (u32 (dst_metric dst RTAX_CWND + snd_cwnd t)) 1) else dst
  else
    let dst := if negb (dst_metric_locked dst RTAX_CWND)
               then dst_metric_set dst RTAX_CWND (Z.shiftr (u32 (dst_metric dst RTAX_CWND + snd_ssthresh t)) 1) else dst in
    if negb (dst_metric dst RTAX_SSTHRESH =? 0) && negb (dst_metric_locked dst RTAX_SSTHRESH)
       && (snd_ssthresh t >? dst_metric dst RTAX_SSTHRESH)
    then dst_metric_set dst RTAX_SSTHRESH (snd_ssthresh t) else dst.
Definition metrics_reordering t (dst : D) : D :=
  if negb (dst_metric_locked dst RTAX_REORDERING) then
    if (dst_metric dst RTAX_REORDERING <? reordering t) && negb (reordering t =? sysctl_tcp_reordering)
    then dst_metric_set dst RTAX_REORDERING (reordering t) else dst
  else dst.

(** tcp_update_metrics; [sk_dst] is __sk_dst_get(sk), and the result the entry it leaves. *)
Definition tcp_update_metrics sk (sk_dst : option D) : option D :=
  let t := tp sk in
  if sysctl_tcp_nometrics_save then sk_dst else
  match dst_confirm <$> sk_dst with
  | None => None
  | Some dst => Some (
    if negb (dst_host dst) then dst else
    if negb (icsk_backoff (icsk sk) =? 0) || (srtt t =? 0) then
      if dst_metric_locked dst RTAX_RTT then dst else dst_metric_set dst RTAX_RTT 0
    else
      let rtt := dst_metric_rtt dst RTAX_RTT in
      let m := s32 (rtt - srtt t) in
      let dst := metrics_rtt t rtt m dst in
      let dst := metrics_rttvar t m dst in
      let dst := metrics_window sk dst in
      metrics_reordering t dst)
  end.

Definition tcp_init_cwnd t (dst : option D) : Z :=
  let cwnd := match dst with Some d => dst_metric d RTAX_INITCWND | None => 0 end in
  let cwnd := if cwnd =? 0 then TCP_INIT_CWND else cwnd in
  Z.min cwnd (snd_cwnd_clamp t).

(** The part of tcp_init_metrics after the label [reset]. *)
Definition init_metrics_reset sk (dst : option D) : sock :=
  let sk := if srtt (tp sk) =? 0 then
              sk <| tp; rttvar := TCP_TIMEOUT_FALLBACK |> <| tp; mdev_max := TCP_TIMEOUT_FALLBACK |>
                 <| tp; mdev := TCP_TIMEOUT_FALLBACK |> <| icsk; icsk_rto := TCP_TIMEOUT_FALLBACK |>
            else sk in
  let sk := if total_retrans (tp sk) >? 1 then sk <| tp; snd_cwnd := 1 |>
            else sk <| tp; snd_cwnd := tcp_init_cwnd (tp sk) dst |> in
  sk <| tp; snd_cwnd_stamp := tcp_time_stamp |>.

Definition tcp_init_metrics sk (sk_dst : option D) : sock :=
  match sk_dst with
  | None => init_metrics_reset sk None
  | Some dst =>
    let dst := dst_confirm dst in
    let sk := if dst_metric_locked dst RTAX_CWND
              then sk <| tp; snd_cwnd_clamp := dst_metric dst RTAX_CWND |> else sk in
    let sk := if negb (dst_metric dst RTAX_SSTHRESH =? 0) then
                let sk := sk <| tp; snd_ssthresh := dst_metric dst RTAX_SSTHRESH |> in
                if snd_ssthresh (tp sk) >? snd_cwnd_clamp (tp sk)
                then sk <| tp; snd_ssthresh := snd_cwnd_clamp (tp sk) |> else sk
              else sk <| tp; snd_ssthresh := TCP_INFINITE_SSTHRESH |> in
    let sk := if negb (dst_metric dst RTAX_REORDERING =? 0) && negb (reordering (tp sk) =? dst_metric dst RTAX_REORDERING)
              then sk <| tp := (tcp_disable_fack (tp sk)) <| reordering := u8 (dst_metric dst RTAX_REORDERING) |> |>
              else sk in
    if (dst_metric dst RTAX_RTT =? 0) || (srtt (tp sk) =? 0) then init_metrics_reset sk (Some dst) else
    let sk := if dst_metric_rtt dst RTAX_RTT >? srtt (tp sk)
              then sk <| tp; srtt := u32 (dst_metric_rtt dst RTAX_RTT) |> <| tp; rtt_seq := snd_nxt (tp sk) |> else sk in
    let sk := if dst_metric_rtt dst RTAX_RTTVAR >? mdev (tp sk) then
                let sk := sk <| tp; mdev := u32 (dst_metric_rtt dst RTAX_RTTVAR) |> in
                let v := Z.max (mdev (tp sk)) (tcp_rto_min sk) in
                sk <| tp; rttvar := v |> <| tp; mdev_max := v |>
              else sk in
    init_metrics_reset (tcp_set_rto sk) (Some dst)
  end.
End Rtt.

(** ** The properties *)
Section Claims.
Context {K : Kernel} {R : RtoLaws K}.
Implicit Types (sk : sock) (t : tcp_sock).

(** The invariant of the estimator, for samples of at most [M] ticks: once there is an
    estimate, the deviation used for the timeout is at least the maximum of the current window
    of measurements, which is at least the minimal RTO; and no 32-bit member is near overflow. *)
Record rtt_inv (M : Z) sk : Prop := {
  inv_srtt : 0 <= srtt (tp sk) <= 8 * M + 7;
  inv_mdev : 0 <= mdev (tp sk) <= 4 * M + 3;
  inv_var : srtt (tp sk) <> 0 ->
    tcp_rto_min sk <= mdev_max (tp sk) <= rttvar (tp sk) /\ rttvar (tp sk) <= Z.max (4 * M + 3) (tcp_rto_min sk);
}.

(** One step of the estimator, on integers that do not overflow. *)
Lemma rtt_step_bounds M m s d :
  0 < m <= M -> 0 < s <= 8 * M + 7 -> 0 <= d <= 4 * M + 3 -> M < 2 ^ 27 ->
  let e := m - s / 8 in
  let g := if e <? 0 then (let k := - e - d / 4 in if k >? 0 then k / 8 else k) else e - d / 4 in
  0 < s + e <= 8 * M + 7 /\ 0 <= d + g <= 4 * M + 3.
Proof.
  intros Hm Hs Hd HM e g. split; [unfold e; dlia|]. unfold g.
  destruct (Z.ltb_spec e 0) as [He|He]; [|unfold e in *; dlia].
  set (k := - e - d / 4). assert (Hk : - (d / 4) <= k <= M) by (unfold k, e in *; dlia).
  destruct (Z.gtb_spec k 0); [|dlia]. unfold k, e in *. dlia.
Qed.

Lemma rtt_estimator_inv M sk mrtt :
  M < 2 ^ 27 -> 0 < M -> 0 <= tcp_rto_min sk < 2 ^ 30 -> 0 <= mrtt <= M -> rtt_inv M sk ->
  rtt_inv M (tcp_rtt_estimator sk mrtt) /\ srtt (tp (tcp_rtt_estimator sk mrtt)) <> 0.
Proof.
  intros HM HM0 Hmin Hm [H1 H2 H3]. unfold tcp_rtt_estimator.
  set (m := if mrtt =? 0 then 1 else mrtt). assert (Hm' : 0 < m <= M) by (unfold m; destruct (Z.eqb_spec mrtt 0); lia).
  destruct (Z.eqb_spec (srtt (tp sk)) 0) as [Hz|Hz]; cbn [negb].
  - rewrite !Z.shiftl_mul_pow2 by lia. cbn. rewrite !u32_small by (unfold is_u32; lia).
    split; [split; cbn; rewrite ?rto_min_stable; lia|lia].
  - specialize (H3 Hz). rewrite !Z.shiftr_div_pow2 by lia. change (2 ^ 3) with 8. change (2 ^ 2) with 4.
    pose proof (rtt_step_bounds M m (srtt (tp sk)) (mdev (tp sk)) Hm' ltac:(lia) H2 HM) as [B1 B2]. cbn in B1, B2 |- *.
    rewrite (u32_small (srtt (tp sk) + (m - srtt (tp sk) / 8))) by (unfold is_u32; lia).
    match goal with |- context [u32 (mdev (tp sk) + ?g)] => set (d' := mdev (tp sk) + g) in * end.
    rewrite (u32_small d') by (unfold is_u32; lia). clearbody d'.
    cases_if; cbn in *; rewrite ?Z.gtb_ltb in *; bool_arith; (split; [|lia]); split; cbn; rewrite ?rto_min_stable; try lia;
      intros _; rewrite ?Z.shiftr_div_pow2 by lia; repeat rewrite u32_small by (unfold is_u32; dlia); dlia.
Qed.

Lemma set_rto_frame sk : exists r, tcp_set_rto sk = sk <| icsk; icsk_rto := r |> /\
  (0 <= u32 (srtt (tp sk) / 8 + rttvar (tp sk)) -> r = Z.min (u32 (srtt (tp sk) / 8 + rttvar (tp sk))) TCP_RTO_MAX).
Proof.
  unfold tcp_set_rto. rewrite bound_rto_spec, set_rto_spec. cbn. case_if_as Hc; rewrite Z.gtb_ltb in *; bool_arith;
    eexists; (split; [reflexivity|]); lia.
Qed.

(** A valid round-trip sample keeps the estimator's invariant, resets the backoff, and sets
    the retransmission timeout to srtt/8 + rttvar clamped at TCP_RTO_MAX only: no clamping at
    the minimum is needed, because the algorithm guarantees that the timeout is at least
    tcp_rto_min (as the comment in tcp_set_rto claims). *)
Theorem valid_rtt_meas_ok M sk mrtt :
  0 < M < 2 ^ 27 -> 0 <= tcp_rto_min sk < 2 ^ 30 -> 0 <= mrtt <= M -> rtt_inv M sk ->
  let sk' := tcp_valid_rtt_meas sk mrtt in
  rtt_inv M sk' /\ icsk_backoff (icsk sk') = 0 /\
  icsk_rto (icsk sk') = Z.min (srtt (tp sk') / 8 + rttvar (tp sk')) TCP_RTO_MAX /\
  Z.min (tcp_rto_min sk) TCP_RTO_MAX <= icsk_rto (icsk sk').
Proof.
  intros HM Hmin Hm Hinv. destruct (rtt_estimator_inv M sk mrtt) as [Hinv' Hne]; [lia..|done|].
  cbn. unfold tcp_valid_rtt_meas. assert (Hs : tcp_rto_min (tcp_rtt_estimator sk mrtt) = tcp_rto_min sk).
  { unfold tcp_rtt_estimator. cbn zeta. by case_if_as Hc; rewrite rto_min_stable. }
  set (sk1 := tcp_rtt_estimator sk mrtt) in *. clearbody sk1. destruct Hinv' as [H1 H2 H3]. specialize (H3 Hne).
  destruct (set_rto_frame sk1) as (r & -> & Hr). cbn. rewrite u32_small in Hr by (unfold is_u32; dlia).
  split; [|split; [done|]].
  - split; cbn; rewrite ?rto_min_icsk; auto.
  - rewrite Hr by dlia. split; [done|]. rewrite Hs in H3. dlia.
Qed.

(** The first sample of a connection sets the timeout to three times the measured
    round-trip time, unless the minimal RTO makes it larger. *)
Theorem first_sample_rto sk m :
  srtt (tp sk) = 0 -> 0 < m < 2 ^ 27 -> 0 <= tcp_rto_min sk < 2 ^ 30 ->
  let sk' := tcp_valid_rtt_meas sk m in
  srtt (tp sk') = 8 * m /\ icsk_rto (icsk sk') = Z.min (m + Z.max (2 * m) (tcp_rto_min sk)) TCP_RTO_MAX.
Proof.
  intros Hz Hm Hmin. cbn. unfold tcp_valid_rtt_meas, tcp_rtt_estimator. rewrite Hz. cbn [negb Z.eqb].
  rewrite (proj2 (Z.eqb_neq m 0)), !Z.shiftl_mul_pow2 by lia. cbn. rewrite !u32_small by (unfold is_u32; lia).
  match goal with |- context [tcp_set_rto ?s] => destruct (set_rto_frame s) as (r & -> & Hr) end.
  cbn in *. split; [lia|]. rewrite u32_small in Hr by (unfold is_u32; dlia). rewrite Hr by dlia. f_equal. dlia.
Qed.

(** Karn's algorithm: an ACK without an echoed timestamp that covers retransmitted data
    gives no sample and changes nothing, in particular not the backoff; with a timestamp the
    sample is the age of the echoed value even for retransmitted data. *)
Theorem karn_algorithm sk flag seq_rtt :
  (saw_tstamp (rx_opt (tp sk)) = false \/ rcv_tsecr (rx_opt (tp sk)) = 0 ->
   has flag FLAG_RETRANS_DATA_ACKED = true -> tcp_ack_update_rtt sk flag seq_rtt = sk) /\
  (saw_tstamp (rx_opt (tp sk)) = true -> rcv_tsecr (rx_opt (tp sk)) <> 0 ->
   tcp_ack_update_rtt sk flag seq_rtt =
   tcp_valid_rtt_meas sk (u32 (tcp_time_stamp - rcv_tsecr (rx_opt (tp sk))))) /\
  (saw_tstamp (rx_opt (tp sk)) = false -> 0 <= seq_rtt -> has flag FLAG_RETRANS_DATA_ACKED = false ->
   tcp_ack_update_rtt sk flag seq_rtt = tcp_valid_rtt_meas sk seq_rtt).
Proof.
  unfold tcp_ack_update_rtt, tcp_ack_no_tstamp, tcp_ack_saw_tstamp. split_and!.
  - intros Hts ->. destruct Hts as [->| ->]; cbn; [|rewrite andb_false_r]; by case_if_as Hc.
  - intros -> H. by rewrite (proj2 (Z.eqb_neq _ _) H).
  - intros -> Hr ->. cbn. rewrite Z.geb_leb. by rewrite (proj2 (Z.leb_le _ _) Hr).
Qed.

(** After an ACK the retransmission timer is stopped exactly when nothing is outstanding;
    otherwise it is armed for now + rto, but never more than TCP_RTO_MAX ahead. *)
Theorem rearm_rto_ok sk :
  (packets_out (tp sk) = 0 -> icsk_pending (icsk (tcp_rearm_rto sk)) = 0) /\
  (packets_out (tp sk) <> 0 -> icsk_pending (icsk (tcp_rearm_rto sk)) = ICSK_TIME_RETRANS /\
   icsk_timeout (icsk (tcp_rearm_rto sk)) = u64 (jiffies + Z.min (icsk_rto (icsk sk)) TCP_RTO_MAX)) /\
  tp (tcp_rearm_rto sk) = tp sk.
Proof.
  unfold tcp_rearm_rto, inet_csk_reset_xmit_timer, inet_csk_clear_xmit_timer.
  destruct (Z.eqb_spec (packets_out (tp sk)) 0); cbn; split_and!; intros; try done.
  split; [done|]. do 2 f_equal. destruct (Z.gtb_spec (icsk_rto (icsk sk)) TCP_RTO_MAX); lia.
Qed.

Context {D : Type} {O : DstOps D} {L : DstLaws D O}.

(** A metric that is locked in [d0] keeps its value and its lock. *)
Definition lock_kept (d0 : D) (r : rtax) (x : D) : Prop :=
  dst_metric x r = dst_metric d0 r /\ dst_metric_locked x r = true.
Lemma lock_kept_set d0 r x s v : lock_kept d0 r x -> dst_metric_locked x s = false -> lock_kept d0 r (dst_metric_set x s v).
Proof.
  intros [P1 P2] Hs. split; [|by rewrite metric_set_locked].
  rewrite metric_set. destruct (decide (s = r)) as [->|]; [congruence|done].
Qed.
Lemma lock_kept_set_rtt d0 r x s v : lock_kept d0 r x -> dst_metric_locked x s = false -> lock_kept d0 r (set_dst_metric_rtt x s v).
Proof.
  intros [P1 P2] Hs. split; [|by rewrite set_rtt_locked]. rewrite set_rtt_other; [done|]. intros ->. congruence.
Qed.
#[local] Hint Resolve lock_kept_set lock_kept_set_rtt : net.

Lemma metrics_parts_keep d0 r x sk rtt m : lock_kept d0 r x ->
  lock_kept d0 r (metrics_rtt (tp sk) rtt m x) /\ lock_kept d0 r (metrics_rttvar (tp sk) m x) /\
  lock_kept d0 r (metrics_window sk x) /\ lock_kept d0 r (metrics_reordering (tp sk) x).
Proof.
  intros Hx. unfold metrics_rtt, metrics_rttvar, metrics_window, metrics_reordering. cbn zeta.
  split_and!; cases_if; bool_arith; rewrite ?metric_set_locked in *; auto with net.
  all: apply lock_kept_set; [|by rewrite ?metric_set_locked]; auto with net.
Qed.

(** Saving the metrics of a finished connection never overwrites a metric that the
    administrator locked, and saves nothing at all when saving is disabled. *)
Theorem update_metrics_respects_locks sk (d d' : D) (r : rtax) :
  tcp_update_metrics sk (Some d) = Some d' ->
  (sysctl_tcp_nometrics_save = true -> d' = d) /\
  (dst_metric_locked d r = true ->
   dst_metric d' r = dst_metric d r /\ dst_metric_locked d' r = true).
Proof.
  unfold tcp_update_metrics. intros H. split; [intros E; rewrite E in H; congruence|]. intros Hl.
  destruct sysctl_tcp_nometrics_save; [by injection H as <-|]. cbn in H. injection H as H.
  rewrite <- (confirm_metric d r). rewrite <- (confirm_locked d r) in Hl.
  assert (Hd : lock_kept (dst_confirm d) r (dst_confirm d)) by done. change (lock_kept (dst_confirm d) r d'). subst d'.
  case_if_as H1; [done|]. case_if_as H2.
  - case_if_as H3; auto with net.
  - apply (metrics_parts_keep _ _ _ sk 0 0), (metrics_parts_keep _ _ _ sk 0 0), (metrics_parts_keep _ _ _ sk 0). by eapply metrics_parts_keep.
Qed.
End Claims.

(** ** Concrete examples *)
Module Demo.
Definition sk1 : sock :=
  blank_sock <| tp; srtt := 800 |> <| tp; mdev := 120 |> <| tp; mdev_max := 200 |> <| tp; rttvar := 250 |>.
Lemma sk1_inv : rtt_inv 1000 sk1.
Proof. split; cbn; lia. Qed.

(** A destination with a locked congestion window. *)
Record dst := { vals : rtax -> Z }.
#[export] Instance dst_ops : DstOps dst := {|
  dst_host _ := true; dst_confirm d := d; dst_metric := vals;
  dst_metric_locked _ r := bool_decide (r = RTAX_CWND);
  dst_metric_set d r v := {| vals := fun s => if decide (r = s) then v else vals d s |};
  dst_metric_rtt := vals;
  set_dst_metric_rtt d r v := {| vals := fun s => if decide (r = s) then v else vals d s |} |}.
#[export] Instance dst_laws : DstLaws dst dst_ops.
Proof. split; intros; cbn; try done. by rewrite decide_False. Qed.
Definition d0 : dst := {| vals := fun r => match r with RTAX_CWND => 4 | RTAX_SSTHRESH => 3 | _ => 0 end |}.
Definition d1 : dst := default d0 (tcp_update_metrics sk1 (Some d0)).
End Demo.
Import Demo.

Lemma valid_rtt_meas_ok_witness :
  let sk' := tcp_valid_rtt_meas sk1 140 in
  rtt_inv 1000 sk' /\ icsk_backoff (icsk sk') = 0 /\
  icsk_rto (icsk sk') = Z.min (srtt (tp sk') / 8 + rttvar (tp sk')) TCP_RTO_MAX /\
  Z.min (tcp_rto_min sk1) TCP_RTO_MAX <= icsk_rto (icsk sk').
Proof. apply (valid_rtt_meas_ok 1000 sk1 140); [cbn; lia..|exact sk1_inv]. Defined.

Lemma first_sample_rto_witness :
  let sk' := tcp_valid_rtt_meas blank_sock 150 in
  srtt (tp sk') = 8 * 150 /\ icsk_rto (icsk sk') = Z.min (150 + Z.max (2 * 150) (tcp_rto_min blank_sock)) TCP_RTO_MAX.
Proof. apply (first_sample_rto blank_sock 150); cbn; lia. Defined.

Lemma karn_algorithm_witness : tcp_ack_update_rtt sk1 FLAG_RETRANS_DATA_ACKED 77 = sk1.
Proof. apply (proj1 (karn_algorithm sk1 FLAG_RETRANS_DATA_ACKED 77)); [by left|reflexivity]. Defined.

Lemma update_metrics_respects_locks_witness :
  (sysctl_tcp_nometrics_save = true -> d1 = d0) /\
  (dst_metric_locked d0 RTAX_CWND = true ->
   dst_metric d1 RTAX_CWND = dst_metric d0 RTAX_CWND /\ dst_metric_locked d1 RTAX_CWND = true).
Proof. apply (update_metrics_respects_locks sk1 d0 d1 RTAX_CWND). reflexivity. Defined.
