(* ===== verification/TcpOpt.v ===== *)
(** * TCP options, PAWS and the acceptance of segments

    net/ipv4/tcp_input.c, lines 3810-4095: the option parser and its fast path, the MD5
    signature option, the timestamp echo state, the PAWS test and the sequence check; and
    tcp_may_update_window (lines 3484-3494).

    The option bytes are read from [bytes skb], the segment from the TCP header on: the C
    pointer [ptr] is the offset in it, and [hvpp], where a cookie pair is reported, the offset
    of the cookie. *)

From S2P Require Import Prelude TcpTypes Kernel.

(** What the parser updates: the option block, TCP_SKB_CB(skb)->sacked and *hvpp. *)
Record parse_state := mk_parse { ps_opt : tcp_options_received; ps_sacked : Z; ps_hvp : option Z }.

Section TcpOpt.
Context {K : Kernel}.
Implicit Types (skb : sk_buff) (o : tcp_options_received) (bs : list Z) (st : parse_state).

(** The inner switch: one option of kind [opcode] and size [opsize] whose data is at [ptr]. *)
Definition parse_option (th : tcphdr) (estab : bool) bs (ptr opcode opsize : Z) st : parse_state :=
  let o := ps_opt st in
  let upd o := mk_parse o (ps_sacked st) (ps_hvp st) in
  if opcode =? TCPOPT_MSS then
    if (opsize =? TCPOLEN_MSS) && th_syn th && negb estab then
      let in_mss := get_be16 bs ptr in
      if negb (in_mss =? 0) then
        let in_mss := if negb (user_mss o =? 0) && (user_mss o <? in_mss) then user_mss o else in_mss in
        upd (o <| mss_clamp := in_mss |>)
      else st
    else st
  else if opcode =? TCPOPT_WINDOW then
    if (opsize =? TCPOLEN_WINDOW) && th_syn th && negb estab && sysctl_tcp_window_scaling then
      let w := byte_at bs ptr in
      let o := o <| wscale_ok := true |> in
      let w := if w >? 14 then 14 else w in
      upd (o <| snd_wscale := w |>)
    else st
  else if opcode =? TCPOPT_TIMESTAMP then
    if (opsize =? TCPOLEN_TIMESTAMP) && ((estab && tstamp_ok o) || (negb estab && sysctl_tcp_timestamps)) then
      upd (o <| saw_tstamp := true |> <| rcv_tsval := get_be32 bs ptr |> <| rcv_tsecr := get_be32 bs (ptr + 4) |>)
    else st
  else if opcode =? TCPOPT_SACK_PERM then
    if (opsize =? TCPOLEN_SACK_PERM) && th_syn th && negb estab && sysctl_tcp_sack then
      upd (tcp_sack_reset (o <| sack_ok := 1 |>))
    else st
  else if opcode =? TCPOPT_SACK then
    if (opsize >=? TCPOLEN_SACK_BASE + TCPOLEN_SACK_PERBLOCK) &&
       (Z.rem (opsize - TCPOLEN_SACK_BASE) TCPOLEN_SACK_PERBLOCK =? 0) && negb (sack_ok o =? 0) then
      mk_parse o (u8 (ptr - 2)) (ps_hvp st)
    else st
  else if opcode =? TCPOPT_MD5SIG then st
  else if opcode =? TCPOPT_COOKIE then
    if opsize =? TCPOLEN_COOKIE_BASE then st
    else if opsize =? TCPOLEN_COOKIE_PAIR then st
    else if (opsize =? TCPOLEN_COOKIE_MIN) || (opsize =? TCPOLEN_COOKIE_MIN + 2) || (opsize =? TCPOLEN_COOKIE_MIN + 4)
            || (opsize =? TCPOLEN_COOKIE_MIN + 6) || (opsize =? TCPOLEN_COOKIE_MAX) then
      mk_parse (o <| cookie_plus := opsize |>) (ps_sacked st) (Some ptr)
    else st
  else st.

(** while (length > 0); every round consumes at least one byte. *)
Fixpoint parse_loop (fuel : nat) (th : tcphdr) (estab : bool) bs (ptr length : Z) st : parse_state :=
  match fuel with
  | O => st
  | S fuel =>
    if length <=? 0 then st else
    let opcode := byte_at bs ptr in
    let ptr := ptr + 1 in
    if opcode =? TCPOPT_EOL then st
    else if opcode =? TCPOPT_NOP then parse_loop fuel th estab bs ptr (length - 1) st
    else
      let opsize := byte_at bs ptr in
      let ptr := ptr + 1 in
      if opsize <? 2 then st
      else if opsize >? length then st
      else
        let st := parse_option th estab bs ptr opcode opsize st in
        parse_loop fuel th estab bs (ptr + (opsize - 2)) (length - opsize) st
  end.

Definition tcp_parse_options skb o (hvp : option Z) (estab : bool) : parse_state :=
  let th := skb_th skb in
  let length := th_doff th * 4 - sizeof_tcphdr in
  let o := o <| saw_tstamp := false |> in
  parse_loop (Z.to_nat length) th estab (bytes skb) sizeof_tcphdr length (mk_parse o (sacked skb) hvp).

Definition tcp_parse_aligned_timestamp o bs : bool * tcp_options_received :=
  let ptr := sizeof_tcphdr in
  if get_be32 bs ptr =? Z.lor (Z.lor (Z.lor (Z.shiftl TCPOPT_NOP 24) (Z.shiftl TCPOPT_NOP 16))
                                (Z.shiftl TCPOPT_TIMESTAMP 8)) TCPOLEN_TIMESTAMP then
    (true, o <| saw_tstamp := true |> <| rcv_tsval := get_be32 bs (ptr + 4) |> <| rcv_tsecr := get_be32 bs (ptr + 8) |>)
  else (false, o).

(** tcp_fast_parse_options: the result says whether the segment has options. *)
Definition tcp_fast_parse_options skb o (hvp : option Z) : bool * parse_state :=
  let th := skb_th skb in
  if th_doff th =? sizeof_tcphdr / 4 then
    (false, mk_parse (o <| saw_tstamp := false |>) (sacked skb) hvp)
  else if tstamp_ok o && (th_doff th =? (sizeof_tcphdr + TCPOLEN_TSTAMP_ALIGNED) / 4) then
    let '(ok, o) := tcp_parse_aligned_timestamp o (bytes skb) in
    if ok then (true, mk_parse o (sacked skb) hvp)
    else (true, tcp_parse_options skb o hvp true)
  else (true, tcp_parse_options skb o hvp true).

(** tcp_parse_md5sig_option: the offset of the signature. *)
Fixpoint md5sig_loop (fuel : nat) bs (ptr length : Z) : option Z :=
  match fuel with
  | O => None
  | S fuel =>
    if length <=? 0 then None else
    let opcode := byte_at bs ptr in
    let ptr := ptr + 1 in
    if opcode =? TCPOPT_EOL then None
    else if opcode =? TCPOPT_NOP then md5sig_loop fuel bs ptr (length - 1)
    else
      let opsize := byte_at bs ptr in
      let ptr := ptr + 1 in
      if (opsize <? 2) || (opsize >? length) then None
      else if opcode =? TCPOPT_MD5SIG then (if opsize =? TCPOLEN_MD5SIG then Some ptr else None)
      else md5sig_loop fuel bs (ptr + (opsize - 2)) (length - opsize)
  end.
Definition tcp_parse_md5sig_option (th : tcphdr) bs : option Z :=
  let length := Z.shiftl (th_doff th) 2 - sizeof_tcphdr in
  if length <? TCPOLEN_MD5SIG then None else md5sig_loop (Z.to_nat length) bs sizeof_tcphdr length.

(** ** Timestamps and PAWS *)
Implicit Types (t : tcp_sock) (sk : sock).

Definition tcp_store_ts_recent t : tcp_sock :=
  t <| rx_opt; ts_recent := rcv_tsval (rx_opt t) |> <| rx_opt; ts_recent_stamp := get_seconds |>.
Definition tcp_replace_ts_recent t (seq : Z) : tcp_sock :=
  if saw_tstamp (rx_opt t) && negb (after seq (rcv_wup t)) then
    if tcp_paws_check (rx_opt t) 0 then tcp_store_ts_recent t else t
  else t.

Definition tcp_may_update_window t (ack ack_seq nwin : Z) : bool :=
  after ack (snd_una t) || after ack_seq (snd_wl1 t) || ((ack_seq =? snd_wl1 t) && (nwin >? snd_wnd t)).

(** The last comparison is unsigned: icsk_rto is a 32-bit unsigned value. *)
Definition tcp_disordered_ack sk skb : bool :=
  let t := tp sk in
  let th := skb_th skb in
  let sq := seq skb in
  let ack := ack_seq skb in
  (th_ack th && (sq =? end_seq skb) && (sq =? rcv_nxt t)) &&
  (ack =? snd_una t) &&
  negb (tcp_may_update_window t ack sq (Z.shiftl (th_window th) (snd_wscale (rx_opt t)))) &&
  (u32 (ts_recent (rx_opt t) - rcv_tsval (rx_opt t)) <=? u32 (icsk_rto (icsk sk) * 1024) / HZ).
Definition tcp_paws_discard sk skb : bool :=
  negb (tcp_paws_check (rx_opt (tp sk)) TCP_PAWS_WINDOW) && negb (tcp_disordered_ack sk skb).

Definition tcp_sequence t (seq end_seq : Z) : bool :=
  negb (before end_seq (rcv_wup t)) && negb (after seq (u32 (rcv_nxt t + tcp_receive_window t))).
End TcpOpt.

(** ** How the parser walks the options *)
Section Walk.
Context {K : Kernel} {L : OptLaws K}.
Implicit Types (skb : sk_buff) (o : tcp_options_received) (bs : list Z) (st : parse_state).

Lemma byte_at_range bs i : Forall is_u8 bs -> is_u8 (byte_at bs i).
Proof.
  intros H. unfold byte_at. destruct (i <? 0); [unfold is_u8; lia|].
  destruct (bs !! Z.to_nat i) as [b|] eqn:E; cbn; [|unfold is_u8; lia]. by eapply Forall_lookup_1.
Qed.

(** An option's data is read only within its size. *)
Lemma parse_option_ext th estab bs bs' ptr opcode opsize st :
  (forall i, ptr <= i < ptr + (opsize - 2) -> byte_at bs i = byte_at bs' i) ->
  parse_option th estab bs ptr opcode opsize st = parse_option th estab bs' ptr opcode opsize st.
Proof.
  intros H. unfold parse_option. rewrite olen_mss, olen_window, olen_timestamp.
  destruct (Z.eqb_spec opsize 4) as [->|]; cbn.
  { by rewrite (get_be16_ext bs bs') by (intros; apply H; lia). }
  destruct (Z.eqb_spec opsize 3) as [->|]; cbn.
  { by rewrite !(H ptr) by lia. }
  destruct (Z.eqb_spec opsize 10) as [->|]; cbn; [|done].
  by rewrite (get_be32_ext bs bs' ptr), (get_be32_ext bs bs' (ptr + 4)) by (intros; apply H; lia).
Qed.

Lemma parse_loop_ext fuel th estab bs bs' ptr length st :
  (forall i, ptr <= i < ptr + length -> byte_at bs i = byte_at bs' i) ->
  parse_loop fuel th estab bs ptr length st = parse_loop fuel th estab bs' ptr length st.
Proof.
  revert ptr length st. induction fuel as [|fuel IH]; intros ptr length st H; [done|]. cbn [parse_loop].
  destruct (Z.leb_spec length 0); [done|]. rewrite (H ptr) by lia.
  case_if_as Hc; [done|]. case_if_as Hd; [apply IH; intros; apply H; lia|].
  destruct (Z.eqb_spec length 1) as [->|Hn].
  - assert (Hs : forall b (x : parse_state), (if b <? 2 then st else if b >? 1 then st else x) = st).
    { intros b x. destruct (Z.ltb_spec b 2); [done|]. rewrite Z.gtb_ltb, (proj2 (Z.ltb_lt _ _)); [done|lia]. }
    by rewrite !Hs.
  - rewrite (H (ptr + 1)) by lia. case_if_as He; [done|]. case_if_as Hg; [done|]. bool_arith. rewrite Z.gtb_ltb in Hg. bool_arith.
    rewrite (parse_option_ext th estab bs bs') by (intros; apply H; lia). apply IH. intros. apply H. lia.
Qed.

(** The number of remaining bytes is enough fuel. *)
Lemma parse_loop_fuel f1 f2 th estab bs ptr length st :
  (Z.to_nat length <= f1)%nat -> (Z.to_nat length <= f2)%nat ->
  parse_loop f1 th estab bs ptr length st = parse_loop f2 th estab bs ptr length st.
Proof.
  revert f2 ptr length st. induction f1 as [|f1 IH]; intros [|f2] ptr length st H1 H2; try done; cbn [parse_loop].
  - by rewrite (proj2 (Z.leb_le length 0)) by lia.
  - by rewrite (proj2 (Z.leb_le length 0)) by lia.
  - destruct (Z.leb_spec length 0); [done|]. case_if_as Hc; [done|]. case_if_as Hd; [apply IH; lia|].
    case_if_as He; [done|]. case_if_as Hf; [done|]. bool_arith. apply IH; lia.
Qed.

Lemma parse_loop_inv (P : parse_state -> Prop) fuel th estab bs ptr length st :
  (forall ptr opcode opsize st, P st -> P (parse_option th estab bs ptr opcode opsize st)) ->
  P st -> P (parse_loop fuel th estab bs ptr length st).
Proof.
  intros H. revert ptr length st. induction fuel as [|fuel IH]; intros ptr length st Hst; [done|]. cbn [parse_loop].
  cases_if; auto.
Qed.

(** The rounds of the loop, from the bytes they see. *)
Lemma parse_loop_nop fuel th estab bs ptr length st :
  0 < length -> byte_at bs ptr = 1 ->
  parse_loop (S fuel) th estab bs ptr length st = parse_loop fuel th estab bs (ptr + 1) (length - 1) st.
Proof.
  intros Hl Hb. cbn [parse_loop]. rewrite (proj2 (Z.leb_gt length 0)), Hb, opt_eol, opt_nop by lia. done.
Qed.
Lemma parse_loop_eol fuel th estab bs ptr length st : byte_at bs ptr = 0 -> parse_loop fuel th estab bs ptr length st = st.
Proof. intros Hb. destruct fuel; cbn [parse_loop]; [done|]. rewrite Hb, opt_eol. by case_if_as Hc. Qed.
Lemma parse_loop_opt fuel th estab bs ptr length st :
  byte_at bs ptr <> 0 -> byte_at bs ptr <> 1 -> 2 <= byte_at bs (ptr + 1) <= length ->
  parse_loop (S fuel) th estab bs ptr length st =
  parse_loop fuel th estab bs (ptr + byte_at bs (ptr + 1)) (length - byte_at bs (ptr + 1))
    (parse_option th estab bs (ptr + 2) (byte_at bs ptr) (byte_at bs (ptr + 1)) st).
Proof.
  intros H0 H1 H2. cbn [parse_loop].
  rewrite (proj2 (Z.leb_gt length 0)), opt_eol, opt_nop, (proj2 (Z.eqb_neq _ _) H0), (proj2 (Z.eqb_neq _ _) H1),
    (proj2 (Z.ltb_ge _ _)), Z.gtb_ltb, (proj2 (Z.ltb_ge _ _)) by lia. by replace (ptr + 1 + 1) with (ptr + 2) by lia;
    replace (ptr + 2 + (byte_at bs (ptr + 1) - 2)) with (ptr + byte_at bs (ptr + 1)) by lia.
Qed.

(** ** A specification of the option area

    The options of RFC 793, 1323 and 2018 as values, their encoding, and what each one means
    for the option block; [OptOther] is an option of a kind the parser does not know. *)
Inductive tcp_option :=
  | OptNop | OptMss (mss : Z) | OptWindow (scale : Z) | OptSackPerm | OptTimestamp (tsval tsecr : Z)
  | OptOther (kind : Z) (data : list Z).

Definition encode (x : tcp_option) : list Z :=
  match x with
  | OptNop => [1]
  | OptMss v => 2 :: 4 :: be16 v
  | OptWindow w => [3; 3; w]
  | OptSackPerm => [4; 2]
  | OptTimestamp a b => 8 :: 10 :: be32 a ++ be32 b
  | OptOther k d => k :: (2 + Z.of_nat (length d)) :: d
  end.

Definition option_ok (x : tcp_option) : Prop :=
  match x with
  | OptMss v => is_u16 v
  | OptWindow w => is_u8 w
  | OptTimestamp a b => is_u32 a /\ is_u32 b
  | OptOther k d => is_u8 k /\ k ∉ [0; 1; 2; 3; 4; 5; 8; 19; 253]
  | _ => True
  end.

Definition apply_option (syn estab : bool) o (x : tcp_option) : tcp_options_received :=
  match x with
  | OptMss v => if syn && negb estab && negb (v =? 0)
                then o <| mss_clamp := if user_mss o =? 0 then v else Z.min v (user_mss o) |> else o
  | OptWindow w => if syn && negb estab && sysctl_tcp_window_scaling
                   then o <| wscale_ok := true |> <| snd_wscale := Z.min w 14 |> else o
  | OptSackPerm => if syn && negb estab && sysctl_tcp_sack then tcp_sack_reset (o <| sack_ok := 1 |>) else o
  | OptTimestamp a b => if (estab && tstamp_ok o) || (negb estab && sysctl_tcp_timestamps)
                        then o <| saw_tstamp := true |> <| rcv_tsval := a |> <| rcv_tsecr := b |> else o
  | _ => o
  end.

Lemma byte_at_app_r (a b : list Z) i : 0 <= i -> byte_at (a ++ b) (Z.of_nat (length a) + i) = byte_at b i.
Proof.
  intros Hi. unfold byte_at. rewrite (proj2 (Z.ltb_ge _ _)), (proj2 (Z.ltb_ge i 0)) by lia.
  rewrite lookup_app_r by lia. do 2 f_equal. lia.
Qed.
Lemma byte_at_S (x : Z) (b : list Z) i : 0 <= i -> byte_at (x :: b) (1 + i) = byte_at b i.
Proof. exact (byte_at_app_r [x] b i). Qed.

Lemma get_be16_be16 v (k : list Z) : is_u16 v -> get_be16 (be16 v ++ k) 0 = v.
Proof.
  intros H. unfold get_be16. change (byte_at (be16 v ++ k) 0) with (u8 (v / 256)).
  change (byte_at (be16 v ++ k) (0 + 1)) with (u8 v). warith.
Qed.
Lemma get_be32_be32 v (k : list Z) : is_u32 v -> get_be32 (be32 v ++ k) 0 = v.
Proof.
  intros H. unfold get_be32, be32. rewrite <- app_assoc.
  assert (E : forall x, be16 x = be16 (u16 x)) by (intros x; unfold be16; f_equal; [warith|f_equal; warith]).
  rewrite get_be16_be16 by (unfold is_u16, is_u32 in *; dlia).
  change (get_be16 (be16 (v / 65536) ++ be16 v ++ k) (0 + 2)) with (get_be16 (be16 v ++ k) 0).
  rewrite (E v), get_be16_be16 by auto with net. warith.
Qed.
Lemma get_be16_app_r (a b : list Z) i : 0 <= i -> get_be16 (a ++ b) (Z.of_nat (length a) + i) = get_be16 b i.
Proof. intros. unfold get_be16. by rewrite <- Z.add_assoc, !byte_at_app_r by lia. Qed.
Lemma get_be32_app_r (a b : list Z) i : 0 <= i -> get_be32 (a ++ b) (Z.of_nat (length a) + i) = get_be32 b i.
Proof. intros. unfold get_be32. by rewrite <- Z.add_assoc, !get_be16_app_r by lia. Qed.
#[local] Instance tcp_option_eq_dec : EqDecision tcp_option.
Proof. solve_decision. Defined.

(** What the inner switch does with the data of an encoded option. *)
Lemma parse_option_encoded th estab bs ptr x k d rest o sa hv :
  option_ok x -> x <> OptNop -> encode x = k :: (2 + Z.of_nat (length d)) :: d ->
  (forall i, 0 <= i -> byte_at bs (ptr + i) = byte_at (d ++ rest) i) ->
  parse_option th estab bs ptr k (2 + Z.of_nat (length d)) (mk_parse o sa hv) =
  mk_parse (apply_option (th_syn th) estab o x) sa hv.
Proof.
  intros Hok Hx He B.
  assert (H : get_be16 bs ptr = get_be16 (d ++ rest) 0).
  { unfold get_be16. rewrite !B by lia. rewrite <- (Z.add_0_r ptr) at 1. by rewrite B by lia. }
  assert (G : forall i, 0 <= i -> get_be32 bs (ptr + i) = get_be32 (d ++ rest) i).
  { intros i Hi. unfold get_be32, get_be16. by rewrite <- !Z.add_assoc, !B by lia. }
  pose proof (G 0 ltac:(lia)) as G0. pose proof (B 0 ltac:(lia)) as B0. rewrite Z.add_0_r in G0, B0.
  unfold parse_option. rewrite opt_mss, opt_window, opt_timestamp, opt_sack_perm, opt_sack, opt_md5sig, opt_cookie,
    olen_mss, olen_window, olen_timestamp, olen_sack_perm. cbn [ps_opt ps_sacked ps_hvp]. rewrite H, G0, B0, G by lia.
  clear B H G G0 B0. destruct x; cbn [encode] in He; inversion He; subst; clear He; cbn [apply_option option_ok] in *; try done.
  - rewrite get_be16_be16 by done. cbn. destruct (th_syn th), estab; cbn; try done. destruct (Z.eqb_spec mss 0); cbn; [done|].
    destruct (Z.eqb_spec (user_mss o) 0); cbn; [done|].
    by destruct (Z.ltb_spec (user_mss o) mss); [rewrite Z.min_r by lia|rewrite Z.min_l by lia].
  - cbn. change (byte_at (scale :: rest) 0) with scale.
    destruct (th_syn th), estab; cbn; try done. destruct sysctl_tcp_window_scaling; [|done].
    by rewrite Z.gtb_ltb; destruct (Z.ltb_spec 14 scale); [rewrite Z.min_r by lia|rewrite Z.min_l by lia].
  - cbn. by destruct (th_syn th && negb estab && sysctl_tcp_sack).
  - destruct Hok as [Ha Hb]. cbn -[be32 app]. match goal with |- context [get_be32 (?d ++ rest) 4] =>
      change (d ++ rest) with (be32 tsval ++ be32 tsecr ++ rest) end.
    rewrite (get_be32_be32 tsval) by done. change 4 with (Z.of_nat (length (be32 tsval)) + 0).
    rewrite get_be32_app_r, get_be32_be32 by (done || lia).
    by destruct ((estab && tstamp_ok o) || (negb estab && sysctl_tcp_timestamps)).
  - destruct Hok as [_ Hok]. rewrite !not_elem_of_cons in Hok. destruct_and!.
    by rewrite !(proj2 (Z.eqb_neq k _)) by done.
Qed.

(** One encoded option is one round of the loop. *)
Lemma parse_encoded th estab pre x rest fuel len o sa hv :
  option_ok x -> Z.of_nat (length (encode x)) <= len ->
  parse_loop (S fuel) th estab (pre ++ encode x ++ rest) (Z.of_nat (length pre)) len (mk_parse o sa hv) =
  parse_loop fuel th estab (pre ++ encode x ++ rest) (Z.of_nat (length pre) + Z.of_nat (length (encode x)))
    (len - Z.of_nat (length (encode x))) (mk_parse (apply_option (th_syn th) estab o x) sa hv).
Proof.
  intros Hok Hlen. set (bs := pre ++ encode x ++ rest).
  assert (B : forall i, 0 <= i -> byte_at bs (Z.of_nat (length pre) + i) = byte_at (encode x ++ rest) i) by (intros; by apply byte_at_app_r).
  pose proof (B 0 ltac:(lia)) as B0. pose proof (B 1 ltac:(lia)) as B1. rewrite Z.add_0_r in B0.
  destruct (decide (x = OptNop)) as [->|Hx]; [by rewrite parse_loop_nop by (exact B0 || cbn in Hlen; lia)|].
  assert (Hk : exists k d, encode x = k :: (2 + Z.of_nat (length d)) :: d /\ k <> 0 /\ k <> 1).
  { destruct x; try done; [by exists 2, (be16 mss)|by exists 3, [scale]|by exists 4, []|by exists 8, (be32 tsval ++ be32 tsecr)|].
    eexists _, _. split; [reflexivity|]. destruct Hok as [_ Hok]. rewrite !not_elem_of_cons in Hok. tauto. }
  destruct Hk as (k & d & He & Hk0 & Hk1).
  assert (Hl : Z.of_nat (length (encode x)) = 2 + Z.of_nat (length d)) by (rewrite He; cbn; lia).
  rewrite He in B, B0, B1. change (byte_at _ 0) with k in B0. change (byte_at (_ ++ rest) 1) with (2 + Z.of_nat (length d)) in B1.
  rewrite parse_loop_opt by lia. rewrite B1, B0, Hl. f_equal.
  apply (parse_option_encoded _ _ _ _ _ _ _ rest); [done..|]. intros i Hi. rewrite <- Z.add_assoc, B by lia.
  replace (2 + i) with (1 + (1 + i)) by lia. cbn [app]. by rewrite !byte_at_S by lia.
Qed.

Lemma parse_encoded_list th estab opts : forall pre rest fuel len o sa hv n,
  Forall option_ok opts -> len = Z.of_nat (length (concat (encode <$> opts))) + Z.of_nat n -> (Z.to_nat len <= fuel)%nat ->
  parse_loop fuel th estab (pre ++ concat (encode <$> opts) ++ replicate n 0 ++ rest) (Z.of_nat (length pre)) len (mk_parse o sa hv) =
  mk_parse (foldl (apply_option (th_syn th) estab) o opts) sa hv.
Proof.
  induction opts as [|x opts IH]; intros pre rest fuel len o sa hv n Hok Hlen Hf; cbn.
  - destruct n as [|n].
    + destruct fuel; cbn [parse_loop]; [done|]. rewrite (proj2 (Z.leb_le _ _)); [done|]. cbn in Hlen. lia.
    + apply parse_loop_eol. rewrite <- (Z.add_0_r (Z.of_nat _)), byte_at_app_r by lia. done.
  - apply Forall_cons in Hok as [Hx Hok]. cbn in Hlen. rewrite length_app in Hlen.
    assert (1 <= length (encode x))%nat by (destruct x; cbn; lia).
    destruct fuel as [|fuel]; [lia|]. rewrite <- app_assoc. rewrite parse_encoded by (done || lia).
    specialize (IH (pre ++ encode x) rest fuel (len - Z.of_nat (length (encode x)))
      (apply_option (th_syn th) estab o x) sa hv n Hok ltac:(lia) ltac:(lia)).
    by rewrite length_app, Nat2Z.inj_add, <- app_assoc in IH.
Qed.
End Walk.

(** ** The properties *)
Section Claims.
Context {K : Kernel} {L : OptLaws K}.
Implicit Types (skb : sk_buff) (o : tcp_options_received) (bs : list Z) (st : parse_state).

(** The option parser never depends on a byte outside of the TCP header, although it
    reads the length byte of an option before it knows that the byte is there: two segments
    that agree on the doff * 4 bytes of the header parse the same, whatever follows. *)
Theorem parse_options_in_bounds skb skb' o hvp estab :
  skb_th skb' = skb_th skb -> sacked skb' = sacked skb ->
  (forall i, 20 <= i < th_doff (skb_th skb) * 4 -> byte_at (bytes skb) i = byte_at (bytes skb') i) ->
  tcp_parse_options skb' o hvp estab = tcp_parse_options skb o hvp estab.
Proof.
  intros Hth Hs Hb. unfold tcp_parse_options. rewrite Hth, Hs. symmetry. apply parse_loop_ext.
  unfold sizeof_tcphdr. intros. apply Hb. lia.
Qed.

(** The parser terminates on every segment: the length of the option area bounds the
    number of rounds, and more fuel never changes the result. *)
Theorem parse_options_terminates skb o hvp estab fuel :
  (Z.to_nat (th_doff (skb_th skb) * 4 - sizeof_tcphdr) <= fuel)%nat ->
  parse_loop fuel (skb_th skb) estab (bytes skb) sizeof_tcphdr (th_doff (skb_th skb) * 4 - sizeof_tcphdr)
    (mk_parse (o <| saw_tstamp := false |>) (sacked skb) hvp) = tcp_parse_options skb o hvp estab.
Proof. intros H. by apply parse_loop_fuel. Qed.

(** The fast path is an optimisation only: on every segment tcp_fast_parse_options leaves
    the option block, the SACK offset and the cookie pointer exactly as the full parser run in
    established mode does. *)
Theorem fast_parse_equiv skb o hvp :
  Forall is_u8 (bytes skb) ->
  snd (tcp_fast_parse_options skb o hvp) = tcp_parse_options skb o hvp true.
Proof.
  intros Hu. unfold tcp_fast_parse_options. destruct (Z.eqb_spec (th_doff (skb_th skb)) (sizeof_tcphdr / 4)) as [E|E].
  { unfold tcp_parse_options. by rewrite E. }
  rewrite olen_tstamp_aligned. destruct (tstamp_ok o) eqn:Ets; [|done]. cbn [andb].
  destruct (Z.eqb_spec (th_doff (skb_th skb)) ((sizeof_tcphdr + 12) / 4)) as [E'|E']; [|done].
  unfold tcp_parse_aligned_timestamp. rewrite opt_nop, opt_timestamp, olen_timestamp.
  match goal with |- context [?a =? ?b] => destruct (Z.eqb_spec a b) as [Hw|Hw] end; [|done].
  cbn [snd]. change (Z.lor _ _) with 16844810 in Hw. unfold get_be32, get_be16, sizeof_tcphdr in Hw.
  change (20 + 2 + 1) with 23 in Hw. change (20 + 2) with 22 in Hw. change (20 + 1) with 21 in Hw.
  pose proof (byte_at_range (bytes skb) 20 Hu). pose proof (byte_at_range (bytes skb) 21 Hu).
  pose proof (byte_at_range (bytes skb) 22 Hu). pose proof (byte_at_range (bytes skb) 23 Hu). unfold is_u8 in *.
  assert (byte_at (bytes skb) 20 = 1 /\ byte_at (bytes skb) 21 = 1 /\ byte_at (bytes skb) 22 = 8 /\ byte_at (bytes skb) 23 = 10)
    as (B1 & B2 & B3 & B4) by lia.
  unfold tcp_parse_options. rewrite E'. change ((sizeof_tcphdr + 12) / 4 * 4 - sizeof_tcphdr) with 12.
  change (Z.to_nat 12) with 12%nat. change sizeof_tcphdr with 20.
  rewrite (parse_loop_nop 11), (parse_loop_nop 10) by (lia || done).
  change (20 + 1 + 1) with 22. change (12 - 1 - 1) with 10.
  rewrite (parse_loop_opt 9) by (change (22 + 1) with 23; rewrite ?B3, ?B4; lia).
  change (22 + 1) with 23. rewrite B3, B4. change (10 - 10) with 0. cbn [parse_loop Z.leb Z.compare].
  unfold parse_option. rewrite opt_mss, opt_window, opt_timestamp, olen_timestamp. cbn. by rewrite Ets.
Qed.
(** C37. The parser implements the meaning of the options: on a header that holds the encoding
    of any list of options, padded with EOL bytes, the resulting option block is the one
    obtained by applying the options one after the other, whatever bytes follow the header; an
    option of an unknown kind is skipped. *)
Theorem parse_options_roundtrip skb o hvp estab opts hdr n rest :
  Forall option_ok opts -> length hdr = 20%nat ->
  bytes skb = hdr ++ concat (encode <$> opts) ++ replicate n 0 ++ rest ->
  th_doff (skb_th skb) * 4 = 20 + Z.of_nat (length (concat (encode <$> opts))) + Z.of_nat n ->
  tcp_parse_options skb o hvp estab =
  mk_parse (foldl (apply_option (th_syn (skb_th skb)) estab) (o <| saw_tstamp := false |>) opts) (sacked skb) hvp.
Proof.
  intros Hok Hh Hb Hd. unfold tcp_parse_options. rewrite Hb. change sizeof_tcphdr with (Z.of_nat 20). rewrite <- Hh.
  apply parse_encoded_list; [done| |lia]. rewrite Hh. lia.
Qed.

(** The bounds on what options can change of an option block. *)
Record option_limits (syn estab : bool) o o' : Prop := {
  lim_wscale : 0 <= snd_wscale o' <= 14;
  lim_user : user_mss o' = user_mss o;
  lim_mss : mss_clamp o' = mss_clamp o \/ 0 < mss_clamp o' < 2 ^ 16 /\ (user_mss o <> 0 -> mss_clamp o' <= user_mss o);
  lim_frozen : estab = true \/ syn = false ->
    mss_clamp o' = mss_clamp o /\ wscale_ok o' = wscale_ok o /\ snd_wscale o' = snd_wscale o /\ sack_ok o' = sack_ok o;
}.

Lemma parse_option_limits {S : SackModeLaws K} th estab bs ptr opcode opsize st o :
  Forall is_u8 bs -> 0 <= user_mss o -> option_limits (th_syn th) estab o (ps_opt st) ->
  option_limits (th_syn th) estab o (ps_opt (parse_option th estab bs ptr opcode opsize st)).
Proof.
  intros Hb Hu Hst. unfold parse_option.
  pose proof (byte_at_range bs ptr Hb) as B0. pose proof (byte_at_range bs (ptr + 1) Hb) as B1.
  assert (Hmss : 0 <= get_be16 bs ptr < 2 ^ 16) by (unfold is_u8, get_be16 in *; lia). unfold is_u8 in *.
  assert (Hneg : negb estab = true -> th_syn th = true -> estab = true \/ th_syn th = false -> False).
  { intros ? ? [|]; bool_arith; congruence. }
  rewrite tcp_sack_reset_spec. cbn zeta.
  cases_if; try exact Hst; destruct Hst as [H1 H2 H3 H4]; bool_arith; rewrite ?Z.gtb_ltb in *; bool_arith;
    (split; cbn; rewrite ?H2 in *; auto; try lia; try (intros; exfalso; by apply Hneg; auto; apply negb_true_iff)).
Qed.

(** What options can do to a connection is bounded: the scale factor is at most 14, the
    peer's MSS is never zero and never above what the user asked for, and a segment without SYN,
    or one received on an established connection, cannot change the negotiated MSS, window
    scaling or SACK permission. *)
Theorem parse_options_limits {S : SackModeLaws K} skb o hvp estab :
  Forall is_u8 (bytes skb) -> 0 <= snd_wscale o <= 14 -> 0 <= user_mss o ->
  let o' := ps_opt (tcp_parse_options skb o hvp estab) in
  option_limits (th_syn (skb_th skb)) estab o o'.
Proof.
  intros Hb Hw Hu. unfold tcp_parse_options.
  apply (parse_loop_inv (fun st => option_limits (th_syn (skb_th skb)) estab o (ps_opt st))).
  - intros ptr opcode opsize st Hst. by apply parse_option_limits.
  - split; cbn; auto.
Qed.

(** PAWS replacement only moves the echo state forward on segments at or before the last
    window update: tcp_replace_ts_recent stores the segment's timestamp exactly when one was
    seen, the segment starts at or before rcv_wup, and the PAWS test accepts it; nothing else of
    the connection changes. *)
Theorem replace_ts_recent_ok (t : tcp_sock) sq :
  let t' := tcp_replace_ts_recent t sq in
  let stored := saw_tstamp (rx_opt t) && negb (after sq (rcv_wup t)) && tcp_paws_check (rx_opt t) 0 in
  t' = t <| rx_opt; ts_recent := if stored then rcv_tsval (rx_opt t) else ts_recent (rx_opt t) |>
         <| rx_opt; ts_recent_stamp := if stored then get_seconds else ts_recent_stamp (rx_opt t) |>.
Proof.
  unfold tcp_replace_ts_recent, tcp_store_ts_recent. cbn zeta.
  destruct (saw_tstamp (rx_opt t) && negb (after sq (rcv_wup t))); [|done]. by destruct (tcp_paws_check (rx_opt t) 0).
Qed.

(** The sequence check in terms of stream positions: a segment [s, e] of a connection with
    the window update position W, next expected byte R and window size w is accepted exactly
    when it reaches the last window update and starts within the window the receiver offered
    (or at the next expected byte), in spite of the 32-bit wrap-around of every quantity. *)
Theorem tcp_sequence_ok {S : SeqLaws K} {Wn : WindowLaws K} (t : tcp_sock) (W R w s e : Z) :
  rcv_wup t = u32 W -> rcv_nxt t = u32 R -> rcv_wnd t = w -> W <= R -> R - W < 2 ^ 30 -> 0 <= w < 2 ^ 30 ->
  Z.abs (s - R) < 2 ^ 30 -> Z.abs (e - R) < 2 ^ 30 ->
  tcp_sequence t (u32 s) (u32 e) = (W <=? e) && (s <=? Z.max R (W + w)).
Proof.
  intros HW HR Hw H1 H2 H3 H4 H5. unfold tcp_sequence. rewrite receive_window_spec, HW, HR, Hw, before_u32 by lia.
  assert (Hs : s32 (u32 W + w - u32 R) = W + w - R) by (warith).
  rewrite Hs, u32_add_l, after_u32 by lia.
  destruct (Z.ltb_spec e W), (Z.leb_spec W e), (Z.ltb_spec (R + Z.max 0 (W + w - R)) s), (Z.leb_spec s (Z.max R (W + w)));
    cbn; done || lia.
Qed.
End Claims.

(** ** A concrete SYN segment *)
Module Demo.
Definition opts : list tcp_option :=
  [OptMss 1460; OptSackPerm; OptTimestamp 7 0; OptNop; OptWindow 20; OptOther 34 [5; 6]].
Definition syn_bytes : list Z := replicate 20 0 ++ concat (encode <$> opts) ++ [] ++ [42; 43].
Definition syn_skb : sk_buff :=
  blank_skb <| bytes := syn_bytes |> <| skb_th; th_doff := 11 |> <| skb_th; th_syn := true |>.
Lemma opts_ok : Forall option_ok opts.
Proof.
  repeat constructor; cbn; unfold is_u8, is_u16, is_u32; try lia. rewrite !not_elem_of_cons. repeat split; try lia.
  apply not_elem_of_nil.
Qed.
Lemma syn_bytes_ok : Forall is_u8 syn_bytes.
Proof.
  let l := eval vm_compute in syn_bytes in change syn_bytes with l.
  repeat (apply Forall_cons; split; [unfold is_u8; lia|]). by apply Forall_nil.
Qed.
End Demo.
Import Demo.

Lemma parse_options_in_bounds_witness :
  tcp_parse_options (syn_skb <| bytes := take 44 syn_bytes |>) blank_opt None false = tcp_parse_options syn_skb blank_opt None false.
Proof.
  apply (parse_options_in_bounds syn_skb (syn_skb <| bytes := take 44 syn_bytes |>)); [reflexivity..|].
  intros i Hi. unfold byte_at. rewrite (proj2 (Z.ltb_ge i 0)) by lia. cbn [bytes set set_bytes syn_skb].
  rewrite lookup_take_lt; [reflexivity|]. cbn in Hi. lia.
Defined.
Lemma parse_options_terminates_witness :
  parse_loop 60 (skb_th syn_skb) false syn_bytes 20 24 (mk_parse (blank_opt <| saw_tstamp := false |>) 0 None) =
  tcp_parse_options syn_skb blank_opt None false.
Proof. apply (parse_options_terminates syn_skb blank_opt None false 60). apply Nat.leb_le. reflexivity. Defined.
Lemma fast_parse_equiv_witness :
  snd (tcp_fast_parse_options syn_skb blank_opt None) = tcp_parse_options syn_skb blank_opt None true.
Proof. apply (fast_parse_equiv syn_skb blank_opt None). exact syn_bytes_ok. Defined.
Lemma parse_options_roundtrip_witness :
  tcp_parse_options syn_skb blank_opt None false =
  mk_parse (foldl (apply_option true false) (blank_opt <| saw_tstamp := false |>) opts) 0 None.
Proof.
  apply (parse_options_roundtrip syn_skb blank_opt None false opts (replicate 20 0) 0 [42; 43]);
    [exact opts_ok|reflexivity..].
Defined.
Lemma parse_options_limits_witness :
  option_limits true false blank_opt (ps_opt (tcp_parse_options syn_skb blank_opt None false)).
Proof. apply (parse_options_limits syn_skb blank_opt None false syn_bytes_ok); cbn; lia. Defined.
Lemma tcp_sequence_ok_witness :
  let t := blank_tcp <| rcv_wup := 2 ^ 32 - 5 |> <| rcv_nxt := 3 |> <| rcv_wnd := 100 |> in
  tcp_sequence t 2 12 = true.
Proof.
  refine (tcp_sequence_ok (blank_tcp <| rcv_wup := 2 ^ 32 - 5 |> <| rcv_nxt := 3 |> <| rcv_wnd := 100 |>)
    (2 ^ 32 - 5) (2 ^ 32 + 3) 100 (2 ^ 32 + 2) (2 ^ 32 + 12) _ _ _ _ _ _ _ _); try reflexivity; lia.
Defined.
