(* ===== verification/SackGen.v ===== *)
(** * Generation of SACK blocks

    net/ipv4/tcp_input.c, lines 4206-4374: the receiver's list of SACK blocks, kept as the
    array tp->selective_acks of 4 entries of which the first rx_opt.num_sacks are in use, and
    the D-SACK block.

    The operations work on the array by index, as the code does.  The abstract state is the list
    of intervals of stream positions in use; [sack_rep] relates the two, the operations on the
    array refine operations on the list, and the properties of RFC 2018 and 2883 are proved of
    the latter. *)

From S2P Require Import Prelude TcpTypes Kernel RcvTune.

Section SackGen.
Context {K : Kernel}.
Implicit Types (sk : sock) (skb : sk_buff) (t : tcp_sock) (sp : tcp_sack_block) (arr : list tcp_sack_block).

(** tcp_sack_extend: the block, and whether it was extended. *)
Definition tcp_sack_extend sp (seq end_seq : Z) : bool * tcp_sack_block :=
  if negb (after seq (sb_end_seq sp)) && negb (after (start_seq sp) end_seq) then
    let sp := if before seq (start_seq sp) then sp <| start_seq := seq |> else sp in
    let sp := if after end_seq (sb_end_seq sp) then sp <| sb_end_seq := end_seq |> else sp in
    (true, sp)
  else (false, sp).

Definition tcp_dsack_set sk (seq end_seq : Z) : sock :=
  if tcp_is_sack (tp sk) && sysctl_tcp_dsack then
    sk <| tp; rx_opt; dsack := true |> <| tp; duplicate_sack := mk_sack_block seq end_seq |>
  else sk.
Definition tcp_dsack_extend sk (seq end_seq : Z) : sock :=
  if negb (dsack (rx_opt (tp sk))) then tcp_dsack_set sk seq end_seq
  else sk <| tp; duplicate_sack := snd (tcp_sack_extend (duplicate_sack (tp sk)) seq end_seq) |>.

Definition tcp_send_dupack sk skb : sock :=
  let sk :=
    if negb (end_seq skb =? seq skb) && before (seq skb) (rcv_nxt (tp sk)) then
      let sk := tcp_enter_quickack_mode sk in
      if tcp_is_sack (tp sk) && sysctl_tcp_dsack then
        let e := if after (end_seq skb) (rcv_nxt (tp sk)) then rcv_nxt (tp sk) else end_seq skb in
        tcp_dsack_set sk (seq skb) e
      else sk
    else sk in
  tcp_send_ack sk.

(** An entry of the array. *)
Definition sack_at arr (i : nat) : tcp_sack_block := default blank_sack (arr !! i).

(** for (i = from; i < num; i++) sp[i] = sp[i + 1]; *)
Fixpoint shift_up (n : nat) arr (from : nat) : list tcp_sack_block :=
  match n with
  | O => arr
  | S n => shift_up n (<[from := sack_at arr (S from)]> arr) (S from)
  end.

(** tcp_sack_maybe_coalesce: the array, num_sacks and this_sack; every round decreases
    num_sacks - this_sack. *)
Fixpoint coalesce_loop (fuel : nat) arr (num this_sack : nat) : list tcp_sack_block * nat :=
  match fuel with
  | O => (arr, num)
  | S fuel =>
    if (this_sack <? num)%nat then
      let swalk := sack_at arr this_sack in
      let '(hit, sp) := tcp_sack_extend (sack_at arr 0) (start_seq swalk) (sb_end_seq swalk) in
      let arr := <[0%nat := sp]> arr in
      if hit then
        let num := Nat.pred num in
        coalesce_loop fuel (shift_up (num - this_sack) arr this_sack) num this_sack
      else coalesce_loop fuel arr num (S this_sack)
    else (arr, num)
  end.
Definition set_sacks t (r : list tcp_sack_block * nat) : tcp_sock :=
  t <| selective_acks := fst r |> <| rx_opt; num_sacks := Z.of_nat (snd r) |>.
Definition tcp_sack_maybe_coalesce t : tcp_sock :=
  let num := Z.to_nat (num_sacks (rx_opt t)) in
  set_sacks t (coalesce_loop num (selective_acks t) num 1).

(** for (; this_sack > 0; this_sack--, sp--) swap( *sp, *(sp - 1)); *)
Fixpoint rotate_front (this_sack : nat) arr : list tcp_sack_block :=
  match this_sack with
  | O => arr
  | S i => rotate_front i (<[i := sack_at arr (S i)]> (<[S i := sack_at arr i]> arr))
  end.
(** for (; this_sack > 0; this_sack--, sp--) *sp = *(sp - 1); *)
Fixpoint shift_down (this_sack : nat) arr : list tcp_sack_block :=
  match this_sack with
  | O => arr
  | S i => shift_down i (<[S i := sack_at arr i]> arr)
  end.

(** The search for a block to extend: its index and the array with it extended. *)
Fixpoint find_extend (n : nat) arr (this_sack : nat) (seq end_seq : Z) : option (nat * list tcp_sack_block) :=
  match n with
  | O => None
  | S n =>
    let '(hit, sp) := tcp_sack_extend (sack_at arr this_sack) seq end_seq in
    if hit then Some (this_sack, <[this_sack := sp]> arr) else find_extend n arr (S this_sack) seq end_seq
  end.

Definition tcp_sack_new_ofo_skb sk (seq end_seq : Z) : sock :=
  let t := tp sk in
  let arr := selective_acks t in
  let cur_sacks := Z.to_nat (num_sacks (rx_opt t)) in
  if (cur_sacks =? 0)%nat then
    sk <| tp := set_sacks t (<[0%nat := mk_sack_block seq end_seq]> arr, S cur_sacks) |>
  else
    match find_extend cur_sacks arr 0 seq end_seq with
    | Some (this_sack, arr) =>
      let t := set_sacks t (rotate_front this_sack arr, cur_sacks) in
      sk <| tp := if (1 <? cur_sacks)%nat then tcp_sack_maybe_coalesce t else t |>
    | None =>
      let '(this_sack, num) :=
        if (TCP_NUM_SACKS <=? cur_sacks)%nat then (Nat.pred cur_sacks, Nat.pred cur_sacks) else (cur_sacks, cur_sacks) in
      let arr := shift_down this_sack arr in
      sk <| tp := set_sacks t (<[0%nat := mk_sack_block seq end_seq]> arr, S num) |>
    end.

(** tcp_sack_remove *)
Fixpoint remove_loop (fuel : nat) (rcv_nxt : Z) arr (num this_sack : nat) : list tcp_sack_block * nat :=
  match fuel with
  | O => (arr, num)
  | S fuel =>
    if (this_sack <? num)%nat then
      if negb (before rcv_nxt (start_seq (sack_at arr this_sack))) then
        remove_loop fuel rcv_nxt (shift_up (Nat.pred num - this_sack) arr this_sack) (Nat.pred num) this_sack
      else remove_loop fuel rcv_nxt arr num (S this_sack)
    else (arr, num)
  end.
Definition tcp_sack_remove t : tcp_sock :=
  match out_of_order_queue t with
  | [] => t <| rx_opt; num_sacks := 0 |>
  | _ =>
    let num := Z.to_nat (num_sacks (rx_opt t)) in
    set_sacks t (remove_loop num (rcv_nxt t) (selective_acks t) num 0)
  end.
End SackGen.

(** ** The abstract list of intervals *)
Definition blk : Type := Z * Z.
Definition touch (p q : blk) : bool := (q.1 <=? p.2) && (p.1 <=? q.2).
Definition merge (p q : blk) : blk := (Z.min p.1 q.1, Z.max p.2 q.2).
Definition covers (l : list blk) (x : Z) : Prop := exists p, p ∈ l /\ p.1 <= x < p.2.

(** Merging the head with every later interval it touches. *)
Fixpoint a_coalesce (h : blk) (l : list blk) : blk * list blk :=
  match l with
  | [] => (h, [])
  | w :: l => if touch h w then a_coalesce (merge h w) l
              else let '(h, k) := a_coalesce h l in (h, w :: k)
  end.
(** The first interval that touches [n], with what is before and after it. *)
Fixpoint a_split (n : blk) (l : list blk) : option (list blk * blk * list blk) :=
  match l with
  | [] => None
  | x :: l => if touch x n then Some ([], x, l)
              else '(p, y, r) ← a_split n l; Some (x :: p, y, r)
  end.
(** A new segment: extend the first interval it touches and bring it to the front, or put it
    in front and forget the oldest interval when there are four. *)
Definition a_new (l : list blk) (n : blk) : list blk :=
  match a_split n l with
  | Some (p, x, r) => let '(h, k) := a_coalesce (merge x n) (p ++ r) in h :: k
  | None => n :: take 3 l
  end.

(** No two intervals touch. *)
Fixpoint separated (l : list blk) : Prop :=
  match l with
  | [] => True
  | p :: l => Forall (fun q => touch p q = false) l /\ separated l
  end.

(** Positions within half of the sequence space from [base] on. *)
Definition in_win (base : Z) (p : blk) : Prop := base <= p.1 /\ p.1 <= p.2 /\ p.2 < base + 2 ^ 31.

Definition enc (p : blk) : tcp_sack_block := mk_sack_block (u32 p.1) (u32 p.2).

(** The array [arr] with [num] entries in use represents the list [l]. *)
Definition arr_rep (base : Z) (arr : list tcp_sack_block) (num : nat) (l : list blk) : Prop :=
  Forall (in_win base) l /\ num = length l /\ (num <= 4)%nat /\ length arr = 4%nat /\ exists j, arr = (enc <$> l) ++ j.
Definition sack_rep (base : Z) (t : tcp_sock) (l : list blk) : Prop :=
  num_sacks (rx_opt t) = Z.of_nat (length l) /\ arr_rep base (selective_acks t) (length l) l.

(** ** Facts about the abstract operations *)
Lemma touch_sym p q : touch p q = touch q p.
Proof. unfold touch. apply andb_comm. Qed.
Lemma touch_merge_false base h u w : in_win base h -> in_win base u -> in_win base w ->
  touch h u = true -> touch h w = false -> touch u w = false -> touch (merge h u) w = false.
Proof. unfold touch, merge, in_win. cbn. intros. lia. Qed.
Lemma in_win_merge base p q : in_win base p -> in_win base q -> in_win base (merge p q).
Proof. unfold in_win, merge. cbn. lia. Qed.
#[export] Hint Resolve in_win_merge : net.

Lemma covers_cons p l x : covers (p :: l) x <-> p.1 <= x < p.2 \/ covers l x.
Proof.
  split.
  - intros (q & [->|Hq]%elem_of_cons & Hx); [by left|right; by exists q].
  - intros [Hx|(q & Hq & Hx)]; [exists p|exists q]; (split; [by constructor|done]).
Qed.
Lemma covers_app l k x : covers (l ++ k) x <-> covers l x \/ covers k x.
Proof.
  split.
  - intros (q & [Hq|Hq]%elem_of_app & Hx); [left|right]; by exists q.
  - intros [(q & Hq & Hx)|(q & Hq & Hx)]; exists q; (split; [apply elem_of_app; auto|done]).
Qed.
Lemma merge_covers base p q x : in_win base p -> in_win base q -> touch p q = true ->
  ((merge p q).1 <= x < (merge p q).2 <-> p.1 <= x < p.2 \/ q.1 <= x < q.2).
Proof. unfold touch, merge, in_win. cbn. intros. lia. Qed.

Lemma separated_app l k : separated (l ++ k) <-> separated l /\ separated k /\ Forall (fun p => Forall (fun q => touch p q = false) k) l.
Proof.
  induction l as [|p l IH]; cbn; [by split; [intros; split_and!; [done..|constructor]|intros (_ & ? & _)]|].
  rewrite IH, Forall_app, Forall_cons. tauto.
Qed.

Lemma a_coalesce_ok base l : forall h, in_win base h -> Forall (in_win base) l -> separated l ->
  let '(h', k) := a_coalesce h l in
  in_win base h' /\ Forall (in_win base) k /\ separated k /\ Forall (fun q => touch h' q = false) k /\
  (forall x, covers (h' :: k) x <-> covers (h :: l) x) /\ h'.1 <= h.1 /\ h.2 <= h'.2 /\ (length k <= length l)%nat /\
  (forall P : blk -> Prop, Forall P l -> Forall P k) /\
  (forall w, in_win base w -> touch h w = false -> Forall (fun q => touch q w = false) l -> touch h' w = false).
Proof.
  induction l as [|w l IH]; intros h Hh Hl Hs; cbn.
  { split_and!; try done; lia. }
  apply Forall_cons in Hl as [Hw Hl]. destruct Hs as [Hs1 Hs2]. destruct (touch h w) eqn:E.
  - specialize (IH (merge h w) ltac:(auto with net) Hl Hs2). destruct (a_coalesce (merge h w) l) as [h' k].
    destruct IH as (I1 & I2 & I3 & I4 & I5 & I6 & I7 & I8 & I9 & I10). split_and!; try done; try (unfold merge in *; cbn in *; lia).
    + intros x. rewrite I5, !covers_cons, (merge_covers base) by done. tauto.
    + intros P [_ HP]%Forall_cons. auto.
    + intros v Hv H1 [H2 H3]%Forall_cons. apply I10; [done| |done]. by eapply touch_merge_false.
  - specialize (IH h Hh Hl Hs2). destruct (a_coalesce h l) as [h' k].
    destruct IH as (I1 & I2 & I3 & I4 & I5 & I6 & I7 & I8 & I9 & I10). split_and!; try done; try (cbn; lia).
    + by constructor.
    + split; [by apply I9|done].
    + constructor; [|done]. apply I10; [done|done|]. eapply Forall_impl; [exact Hs1|]. intros q Hq. by rewrite touch_sym.
    + intros x. pose proof (I5 x) as Hx. rewrite !covers_cons in *. tauto.
    + intros P [HP1 HP2]%Forall_cons. constructor; auto.
    + intros v Hv H1 [H2 H3]%Forall_cons. by apply I10.
Qed.

Lemma a_split_spec n l : match a_split n l with
  | Some (p, x, r) => l = p ++ x :: r /\ touch x n = true /\ Forall (fun q => touch q n = false) p
  | None => Forall (fun q => touch q n = false) l
  end.
Proof.
  induction l as [|y l IH]; cbn; [constructor|]. destruct (touch y n) eqn:E; [by split_and!|].
  destruct (a_split n l) as [[[p x] r]|]; cbn; [|by constructor]. destruct IH as (-> & H1 & H2). split_and!; [done..|by constructor].
Qed.

Lemma separated_middle p x r : separated (p ++ x :: r) -> separated (p ++ r).
Proof.
  rewrite !separated_app. cbn. intros (H1 & (H2 & H3) & H4). split_and!; [done..|].
  eapply Forall_impl; [exact H4|]. intros q Hq. by apply Forall_cons in Hq as [_ Hq].
Qed.
Lemma a_new_ok base l n : Forall (in_win base) l -> separated l -> in_win base n -> (length l <= 4)%nat ->
  exists h k, a_new l n = h :: k /\ h.1 <= n.1 /\ n.2 <= h.2 /\ separated (h :: k) /\ Forall (in_win base) (h :: k) /\
    (length (h :: k) <= 4)%nat /\ (forall x, covers (h :: k) x -> covers l x \/ n.1 <= x < n.2) /\
    ((length l < 4)%nat \/ Exists (fun q => touch q n = true) l -> forall x, covers l x \/ n.1 <= x < n.2 -> covers (h :: k) x).
Proof.
  intros Hl Hs Hn Hlen. unfold a_new. pose proof (a_split_spec n l) as Hsp. destruct (a_split n l) as [[[p x] r]|].
  - destruct Hsp as (-> & Ht & Hp). pose proof (separated_middle _ _ _ Hs) as Hs'.
    rewrite Forall_app, Forall_cons in Hl. destruct Hl as (Hlp & Hx & Hlr).
    pose proof (a_coalesce_ok base (p ++ r) (merge x n) ltac:(auto with net) ltac:(by apply Forall_app) Hs') as Hc.
    destruct (a_coalesce (merge x n) (p ++ r)) as [h k]. destruct Hc as (I1 & I2 & I3 & I4 & I5 & I6 & I7 & I8 & _).
    assert (Hcov : forall y, covers (h :: k) y <-> covers (p ++ x :: r) y \/ n.1 <= y < n.2).
    { intros y. rewrite I5, covers_cons, (merge_covers base), !covers_app, covers_cons by done. tauto. }
    exists h, k. unfold merge in I6, I7. rewrite length_app in *. cbn in *. split_and!; try done; try lia.
    + by constructor.
    + intros y. apply Hcov.
    + intros _ y. apply Hcov.
  - exists n, (take 3 l). rewrite <- (take_drop 3 l) in Hs at 1. apply separated_app in Hs as (Hs & _ & _).
    cbn. rewrite length_take. split_and!; try done; try lia.
    + apply Forall_take. eapply Forall_impl; [exact Hsp|]. intros q Hq. by rewrite touch_sym.
    + constructor; [done|]. by apply Forall_take.
    + intros y [Hy|(q & Hq & Hy)]%covers_cons; [by right|]. left. exists q. split; [|done]. by eapply subseteq_take.
    + intros [Hlt|HE].
      * rewrite take_ge by lia. intros y. rewrite covers_cons. tauto.
      * apply Exists_exists in HE as (q & Hq & Ht). rewrite Forall_forall in Hsp. specialize (Hsp q Hq). congruence.
Qed.

(** ** The array operations *)
Section Arrays.
Context {K : Kernel} {Sq : SeqLaws K}.
Implicit Types (arr j : list tcp_sack_block).

Lemma extend_enc base p q : in_win base p -> in_win base q ->
  tcp_sack_extend (enc p) (u32 q.1) (u32 q.2) = (touch p q, if touch p q then enc (merge p q) else enc p).
Proof.
  unfold in_win. intros Hp Hq. unfold tcp_sack_extend, enc. cbn. rewrite !after_u32, before_u32 by lia.
  unfold touch, merge. rewrite !Z.ltb_antisym, !negb_involutive.
  destruct (Z.leb_spec q.1 p.2), (Z.leb_spec p.1 q.2); cbn; try done.
  destruct (Z.leb_spec p.1 q.1); cbn; rewrite after_u32 by lia; rewrite Z.ltb_antisym;
    destruct (Z.leb_spec q.2 p.2); cbn; rewrite ?Z.min_l, ?Z.min_r, ?Z.max_l, ?Z.max_r by lia; done.
Qed.

Lemma sack_at_mid a x b : sack_at (a ++ x :: b) (length a) = x.
Proof. unfold sack_at. by rewrite list_lookup_middle. Qed.
Lemma sack_at_enc (a : list blk) x b j : sack_at ((enc <$> a ++ x :: b) ++ j) (length a) = enc x.
Proof. rewrite fmap_app, <- app_assoc. cbn. rewrite <- (length_fmap enc a). apply sack_at_mid. Qed.

Lemma insert_mid (a : list tcp_sack_block) v x b : <[length a := v]> (a ++ x :: b) = a ++ v :: b.
Proof. rewrite <- (Nat.add_0_r (length a)). by rewrite insert_app_r. Qed.
Lemma insert_mid_S (a : list tcp_sack_block) v x y b : <[S (length a) := v]> (a ++ x :: y :: b) = a ++ x :: v :: b.
Proof. rewrite <- (Nat.add_1_r (length a)). by rewrite insert_app_r. Qed.
Lemma sack_at_mid_S a x y b : sack_at (a ++ x :: y :: b) (S (length a)) = y.
Proof.
  replace (a ++ x :: y :: b) with ((a ++ [x]) ++ y :: b) by (by rewrite <- app_assoc).
  replace (S (length a)) with (length (a ++ [x])) by (rewrite length_app; cbn; lia). apply sack_at_mid.
Qed.

Lemma shift_up_spec b : forall a x j, exists y, shift_up (length b) (a ++ x :: b ++ j) (length a) = a ++ b ++ y :: j.
Proof.
  induction b as [|z b IH]; intros a x j; cbn.
  - by exists x.
  - assert (E : <[length a := sack_at (a ++ x :: z :: b ++ j) (S (length a))]> (a ++ x :: z :: b ++ j) = (a ++ [z]) ++ z :: b ++ j)
      by (by rewrite sack_at_mid_S, insert_mid, <- app_assoc).
    rewrite E. replace (S (length a)) with (length (a ++ [z])) by (rewrite length_app; cbn; lia).
    destruct (IH (a ++ [z]) z j) as [y Hy]. exists y. rewrite Hy, <- app_assoc. done.
Qed.

Lemma rotate_front_spec p : forall x r, rotate_front (length p) (p ++ x :: r) = x :: p ++ r.
Proof.
  induction p as [|y p IH] using rev_ind; intros x r; [done|]. rewrite length_app, Nat.add_1_r. cbn [rotate_front].
  rewrite <- !app_assoc. cbn.
  by rewrite sack_at_mid, sack_at_mid_S, insert_mid_S, insert_mid, IH.
Qed.
Lemma shift_down_spec p : forall y r, exists z, shift_down (length p) (p ++ y :: r) = z :: p ++ r.
Proof.
  induction p as [|w p IH] using rev_ind; intros y r; [by exists y|]. rewrite length_app, Nat.add_1_r. cbn [shift_down].
  rewrite <- !app_assoc. cbn. rewrite sack_at_mid, insert_mid_S.
  destruct (IH w (w :: r)) as [z Hz]. by exists z.
Qed.

(** The test of one round: the entries the loop looks at. *)
Lemma coalesce_round base h kept w l j fuel :
  in_win base h -> in_win base w ->
  let a := enc <$> kept in
  coalesce_loop (S fuel) (enc h :: a ++ enc w :: (enc <$> l) ++ j) (S (length a) + S (length l)) (S (length a)) =
  if touch h w
  then coalesce_loop fuel (shift_up (length l) (enc (merge h w) :: a ++ enc w :: (enc <$> l) ++ j) (S (length a)))
         (S (length a) + length l) (S (length a))
  else coalesce_loop fuel (enc h :: a ++ enc w :: (enc <$> l) ++ j) (S (length a) + S (length l)) (S (S (length a))).
Proof.
  intros Hh Hw a. cbn [coalesce_loop]. rewrite (proj2 (Nat.ltb_lt _ _)) by lia.
  assert (E1 : sack_at (enc h :: a ++ enc w :: (enc <$> l) ++ j) (S (length a)) = enc w) by apply (sack_at_mid (enc h :: a)).
  rewrite E1. change (sack_at (enc h :: a ++ enc w :: (enc <$> l) ++ j) 0) with (enc h). cbn [start_seq sb_end_seq enc].
  rewrite (extend_enc base) by done. destruct (touch h w); [|done].
  replace (Nat.pred (S (length a) + S (length l))) with (S (length a) + length l)%nat by lia.
  by replace (S (length a) + length l - S (length a))%nat with (length l) by lia.
Qed.

Lemma coalesce_loop_spec base l : forall h kept j fuel,
  in_win base h -> Forall (in_win base) l -> (length l <= fuel)%nat ->
  let '(h', k) := a_coalesce h l in
  exists j', coalesce_loop fuel (enc h :: (enc <$> kept) ++ (enc <$> l) ++ j) (S (length (enc <$> kept)) + length l) (S (length (enc <$> kept))) =
      (enc h' :: (enc <$> kept) ++ (enc <$> k) ++ j', length (h' :: kept ++ k)) /\
    (length k + length j' = length l + length j)%nat.
Proof.
  induction l as [|w l IH]; intros h kept j fuel Hh Hl Hf; cbn [a_coalesce].
  { exists j. split; [|done]. rewrite app_nil_r, Nat.add_0_r. rewrite length_fmap. destruct fuel; cbn [coalesce_loop]; [done|].
    by rewrite (proj2 (Nat.ltb_ge _ _)) by lia. }
  apply Forall_cons in Hl as [Hw Hl]. cbn in Hf. destruct fuel as [|fuel]; [lia|].
  change ((enc <$> w :: l) ++ j) with (enc w :: (enc <$> l) ++ j). change (length (w :: l)) with (S (length l)).
  rewrite (coalesce_round base) by done. destruct (touch h w).
  - specialize (IH (merge h w) kept).
    destruct (shift_up_spec (enc <$> l) (enc (merge h w) :: (enc <$> kept)) (enc w) j) as [y Hy].
    rewrite !length_fmap in Hy. cbn [length] in Hy. rewrite length_fmap in Hy.
    rewrite length_fmap in IH |- *. cbn [app] in Hy. rewrite Hy.
    specialize (IH (y :: j) fuel ltac:(auto with net) Hl ltac:(lia)).
    destruct (a_coalesce (merge h w) l) as [h' k]. destruct IH as (j' & E & Hj). exists j'. rewrite E. split; [done|cbn in *; lia].
  - specialize (IH h (kept ++ [w]) j fuel Hh Hl ltac:(lia)). destruct (a_coalesce h l) as [h' k].
    destruct IH as (j' & E & Hj). exists j'. rewrite !length_fmap, length_app, fmap_app, <- !app_assoc in E. cbn in E.
    rewrite length_fmap. rewrite Nat.add_1_r in E. cbn in E.
    replace (S (length kept) + S (length l))%nat with (S (S (length kept) + length l)) by lia.
    cbn. rewrite E. split; [done|cbn in *; lia].
Qed.

Lemma find_extend_spec base q b : forall a j, in_win base q -> Forall (in_win base) b ->
  find_extend (length b) ((enc <$> a) ++ (enc <$> b) ++ j) (length a) (u32 q.1) (u32 q.2) =
  match a_split q b with
  | Some (p, x, r) => Some ((length a + length p)%nat, (enc <$> a) ++ (enc <$> p) ++ enc (merge x q) :: (enc <$> r) ++ j)
  | None => None
  end.
Proof.
  induction b as [|x b IH]; intros a j Hq Hb; [done|]. apply Forall_cons in Hb as [Hx Hb]. cbn [find_extend length].
  assert (E : sack_at ((enc <$> a) ++ (enc <$> x :: b) ++ j) (length a) = enc x).
  { rewrite <- (length_fmap enc a). apply sack_at_mid. }
  rewrite E, (extend_enc base) by done. cbn [a_split]. destruct (touch x q).
  - rewrite Nat.add_0_r. do 2 f_equal. rewrite <- (length_fmap enc a). apply insert_mid.
  - specialize (IH (a ++ [x]) j Hq Hb). rewrite length_app, fmap_app, <- !app_assoc in IH. cbn in IH. rewrite Nat.add_1_r in IH.
    cbn. rewrite IH. destruct (a_split q b) as [[[p y] r]|]; cbn; [|done]. do 2 f_equal; [lia|]. by rewrite <- app_assoc.
Qed.

Lemma set_sacks_rep base t arr num l : arr_rep base arr num l -> sack_rep base (set_sacks t (arr, num)) l.
Proof. intros (H1 & -> & H3 & H4 & H5). split; [done|]. by split_and!. Qed.

Lemma coalesce_rep base t h l j : in_win base h -> Forall (in_win base) l -> (length (h :: l) + length j = 4)%nat ->
  separated l ->
  sack_rep base (tcp_sack_maybe_coalesce (set_sacks t (enc h :: (enc <$> l) ++ j, length (h :: l))))
    (let '(h', k) := a_coalesce h l in h' :: k).
Proof.
  intros Hh Hl Hlen Hs. unfold tcp_sack_maybe_coalesce. cbn [set_sacks rx_opt num_sacks selective_acks set set_selective_acks set_rx_opt set_num_sacks fst snd].
  rewrite Nat2Z.id. pose proof (coalesce_loop_spec base l h [] j (length (h :: l)) Hh Hl ltac:(cbn; lia)) as Hc.
  pose proof (a_coalesce_ok base l h Hh Hl Hs) as Ha. destruct (a_coalesce h l) as [h' k]. destruct Hc as (j' & E & Hj).
  cbn [fmap list_fmap app length Nat.add] in E |- *. rewrite E. apply set_sacks_rep. destruct Ha as (A1 & A2 & _ & _ & _ & _ & _ & A8 & _).
  cbn in Hlen. split_and!; [by constructor|done|cbn; lia| |by exists j']. cbn. rewrite !length_app, length_fmap. lia.
Qed.

Lemma new_ofo_rep base sk l n : sack_rep base (tp sk) l -> separated l -> in_win base n ->
  sack_rep base (tp (tcp_sack_new_ofo_skb sk (u32 n.1) (u32 n.2))) (a_new l n).
Proof.
  intros (Hnum & Hl & _ & H4 & Ha & j & Ej) Hs Hn. unfold tcp_sack_new_ofo_skb. rewrite Hnum, Nat2Z.id, Ej.
  assert (Hj : (length l + length j = 4)%nat) by (rewrite <- Ha, Ej, length_app, length_fmap; done).
  change (mk_sack_block (u32 n.1) (u32 n.2)) with (enc n).
  pose proof (find_extend_spec base n l [] j Hn Hl) as Hf. cbn [fmap list_fmap app length Nat.add] in Hf.
  destruct (Nat.eqb_spec (length l) 0) as [E0|E0].
  { destruct l; [|done]. destruct j as [|y j]; [done|]. cbn. apply set_sacks_rep.
    split_and!; [by constructor|done|cbn; lia|cbn in *; lia|by exists j]. }
  rewrite Hf. unfold a_new. pose proof (a_split_spec n l) as Hsp. destruct (a_split n l) as [[[p x] r]|].
  - destruct Hsp as (-> & _ & _). rewrite Forall_app, Forall_cons in Hl. destruct Hl as (Hp & Hx & Hr).
    cbn [tp set set_tp]. rewrite <- (length_fmap enc p), rotate_front_spec, app_assoc, <- fmap_app.
    assert (Hlen : length (p ++ x :: r) = length (merge x n :: p ++ r)) by (cbn; rewrite !length_app; cbn; lia).
    pose proof (coalesce_rep base (tp sk) (merge x n) (p ++ r) j ltac:(auto with net) ltac:(by apply Forall_app) ltac:(lia)
      ltac:(by eapply separated_middle)) as Hc. rewrite Hlen.
    destruct (Nat.ltb_spec 1 (length (merge x n :: p ++ r))) as [|Hle]; [exact Hc|].
    destruct (p ++ r) eqn:Epr; [|cbn in Hle; lia]. cbn [a_coalesce]. apply set_sacks_rep.
    split_and!; [constructor; auto with net|done|cbn; lia| |by exists j]. cbn in *. lia.
  - unfold TCP_NUM_SACKS.
    assert (Hgo : forall k, (k <= 3)%nat -> take k l = take 3 l -> (k <= length l)%nat ->
      sack_rep base (set_sacks (tp sk) (<[0%nat := enc n]> (shift_down k ((enc <$> l) ++ j)), S k)) (n :: take 3 l)).
    { intros k Hk Et Hkl. rewrite <- Et. destruct (drop k ((enc <$> l) ++ j)) as [|y r] eqn:Ed.
      { apply (f_equal length) in Ed. rewrite length_drop, length_app, length_fmap in Ed. cbn in Ed. lia. }
      assert (Earr : (enc <$> l) ++ j = (enc <$> take k l) ++ y :: r).
      { rewrite <- (take_drop k ((enc <$> l) ++ j)), Ed. rewrite take_app_le by (rewrite length_fmap; lia). by rewrite fmap_take. }
      destruct (shift_down_spec (enc <$> take k l) y r) as [z Hz]. rewrite length_fmap, length_take, Nat.min_l in Hz by lia.
      rewrite Earr, Hz. cbn. apply set_sacks_rep. apply (f_equal length) in Earr. rewrite !length_app, !length_fmap, length_take in Earr. cbn in Earr.
      split_and!; [constructor; [done|by apply Forall_take]|cbn; rewrite length_take; lia|cbn; lia| |by exists r].
      cbn. rewrite length_app, length_fmap, length_take. lia. }
    destruct (Nat.leb_spec 4 (length l)) as [H|H]; cbn [tp set set_tp].
    + apply Hgo; [lia| |lia]. by replace (Nat.pred (length l)) with 3%nat by lia.
    + apply Hgo; [lia| |lia]. by rewrite !take_ge by lia.
Qed.

(** The blocks that start after rcv_nxt. *)
Definition above (R : Z) (p : blk) : bool := R <? p.1.

Lemma remove_loop_spec base R l : forall a j fuel, base <= R < base + 2 ^ 31 -> Forall (in_win base) l -> (length l <= fuel)%nat ->
  exists j', remove_loop fuel (u32 R) ((enc <$> a) ++ (enc <$> l) ++ j) (length a + length l) (length a) =
    ((enc <$> a) ++ (enc <$> List.filter (above R) l) ++ j', (length a + length (List.filter (above R) l))%nat) /\
    (length (List.filter (above R) l) + length j' = length l + length j)%nat.
Proof.
  induction l as [|x l IH]; intros a j fuel HR Hl Hf; cbn [List.filter].
  { exists j. split; [|done]. cbn [length]. destruct fuel; cbn [remove_loop]; [by rewrite Nat.add_0_r|].
    rewrite (proj2 (Nat.ltb_ge _ _)) by (cbn; lia). by rewrite Nat.add_0_r. }
  apply Forall_cons in Hl as [Hx Hl]. cbn in Hf. destruct fuel as [|fuel]; [lia|]. cbn [remove_loop length].
  rewrite (proj2 (Nat.ltb_lt _ _)) by lia.
  assert (E : sack_at ((enc <$> a) ++ (enc <$> x :: l) ++ j) (length a) = enc x).
  { rewrite <- (length_fmap enc a). apply sack_at_mid. }
  rewrite E. cbn [enc start_seq]. unfold in_win in Hx. rewrite before_u32 by lia. change (above R x) with (R <? x.1). destruct (Z.ltb_spec R x.1); cbn [negb].
  - destruct (IH (a ++ [x]) j fuel HR Hl ltac:(lia)) as (j' & Eq & Hj). exists j'.
    rewrite length_app, fmap_app, <- !app_assoc in Eq. cbn in Eq |- *. rewrite !Nat.add_1_r in Eq.
    replace (length a + S (length l))%nat with (S (length a) + length l)%nat by lia.
    split; [etrans; [exact Eq|]; f_equal; lia|lia].
  - destruct (shift_up_spec (enc <$> l) (enc <$> a) (enc x) j) as [y Hy]. rewrite !length_fmap in Hy.
    replace (Nat.pred (length a + S (length l)) - length a)%nat with (length l) by lia.
    replace (Nat.pred (length a + S (length l))) with (length a + length l)%nat by lia.
    cbn [fmap list_fmap app] in Hy |- *. rewrite Hy. destruct (IH a (y :: j) fuel HR Hl ltac:(lia)) as (j' & Eq & Hj).
    exists j'. rewrite Eq. split; [done|]. cbn in Hj. lia.
Qed.
End Arrays.

(** ** The properties *)
Section Claims.
Context {K : Kernel} {Sq : SeqLaws K}.
Implicit Types (sk : sock) (t : tcp_sock).

(** C38. SACK generation (RFC 2018): after an out-of-order segment the first block reported
    contains that segment, the blocks are pairwise disjoint and not adjacent, there are at most
    four of them, they report no byte that neither an earlier block nor the segment covers, and
    they lose no byte unless the array was full and the segment touched no block. *)
Theorem sack_new_ofo_ok base sk l n :
  sack_rep base (tp sk) l -> separated l -> in_win base n ->
  exists h k, sack_rep base (tp (tcp_sack_new_ofo_skb sk (u32 n.1) (u32 n.2))) (h :: k) /\
    h.1 <= n.1 /\ n.2 <= h.2 /\ separated (h :: k) /\
    (forall x, covers (h :: k) x -> covers l x \/ n.1 <= x < n.2) /\
    ((length l < 4)%nat \/ Exists (fun q => touch q n = true) l ->
     forall x, covers l x \/ n.1 <= x < n.2 -> covers (h :: k) x).
Proof.
  intros Hr Hs Hn. pose proof (new_ofo_rep base sk l n Hr Hs Hn) as Hr'. destruct Hr as (_ & Hl & _ & H4 & _).
  destruct (a_new_ok base l n Hl Hs Hn H4) as (h & k & E & H). rewrite E in Hr'. exists h, k. destruct_and! H. by split_and!.
Qed.

(** When rcv_nxt advances, tcp_sack_remove drops exactly the blocks that start at or
    before it and keeps the others in order; with an empty out-of-order queue nothing is left. *)
Theorem sack_remove_ok base t l R :
  sack_rep base t l -> rcv_nxt t = u32 R -> base <= R < base + 2 ^ 31 ->
  let l' := if decide (out_of_order_queue t = []) then [] else List.filter (above R) l in
  sack_rep base (tcp_sack_remove t) l' /\ Forall (fun p => R < p.1) l'.
Proof.
  intros (Hnum & Hl & _ & H4 & Ha & j & Ej) HR Hb l'. unfold tcp_sack_remove.
  assert (Hlen : (length l + length j = 4)%nat) by (rewrite <- Ha, Ej, length_app, length_fmap; done).
  unfold l'. destruct (out_of_order_queue t) as [|s q]; [rewrite decide_True by done|rewrite decide_False by done].
  - split; [|constructor]. split; [done|]. split_and!; [constructor|done|cbn; lia|done|by exists (selective_acks t)].
  - split.
    + rewrite Hnum, Nat2Z.id, Ej, HR. destruct (remove_loop_spec base R l [] j (length l) Hb Hl ltac:(lia)) as (j' & E & Hj').
      cbn [fmap list_fmap app length Nat.add] in E. cbn [app] in E. rewrite E. apply set_sacks_rep.
      split_and!; [|done| | |by exists j'].
      * rewrite List.Forall_forall in Hl |- *. intros x [Hx _]%filter_In. auto.
      * pose proof (filter_length_le (above R) l). lia.
      * rewrite length_app, length_fmap. lia.
    + apply List.Forall_forall. intros x [_ Hx]%filter_In. by apply Z.ltb_lt.
Qed.
End Claims.

(** ** Concrete blocks *)
Module Demo.
Definition base0 : Z := 2 ^ 32 - 1000.
Definition l0 : list blk := [(2 ^ 32 - 100, 2 ^ 32 - 50); (2 ^ 32 + 10, 2 ^ 32 + 20)].
Definition sk_sack : sock :=
  blank_sock <| tp; selective_acks := (enc <$> l0) ++ [blank_sack; blank_sack] |> <| tp; rx_opt; num_sacks := 2 |>
             <| tp; out_of_order_queue := [blank_skb] |> <| tp; rcv_nxt := u32 (2 ^ 32 - 40) |>.
Lemma sk_sack_rep : sack_rep base0 (tp sk_sack) l0.
Proof.
  split; [done|]. split_and!; [repeat constructor; cbn; unfold base0; lia|done|cbn; lia|done|by eexists].
Qed.
Lemma l0_separated : separated l0.
Proof. cbn. repeat constructor. Qed.
End Demo.
Import Demo.

Lemma sack_new_ofo_ok_witness :
  let n := (2 ^ 32 - 50, 2 ^ 32 + 10) in
  exists h k, sack_rep base0 (tp (tcp_sack_new_ofo_skb sk_sack (u32 n.1) (u32 n.2))) (h :: k) /\
    h.1 <= n.1 /\ n.2 <= h.2 /\ separated (h :: k) /\
    (forall x, covers (h :: k) x -> covers l0 x \/ n.1 <= x < n.2) /\
    ((length l0 < 4)%nat \/ Exists (fun q => touch q n = true) l0 ->
     forall x, covers l0 x \/ n.1 <= x < n.2 -> covers (h :: k) x).
Proof.
  apply (sack_new_ofo_ok base0 sk_sack l0 (2 ^ 32 - 50, 2 ^ 32 + 10) sk_sack_rep l0_separated).
  unfold in_win, base0. cbn. lia.
Defined.

Lemma sack_remove_ok_witness :
  sack_rep base0 (tcp_sack_remove (tp sk_sack)) [(2 ^ 32 + 10, 2 ^ 32 + 20)] /\
  Forall (fun p => 2 ^ 32 - 40 < p.1) [(2 ^ 32 + 10, 2 ^ 32 + 20)].
Proof.
  refine (sack_remove_ok base0 (tp sk_sack) l0 (2 ^ 32 - 40) sk_sack_rep _ _); [reflexivity|unfold base0; lia].
Defined.
