(* ===== verification/Minisocks.v ===== *)
(** * Time-wait sockets and request sockets

    net/ipv4/tcp_minisocks.c: the state machine of a socket in TIME-WAIT (or in FIN-WAIT-2 with
    its process gone), the move of a socket to that state, the processing of a segment for a
    half-open connection (tcp_check_req), and the creation of the child socket.

    The local [struct tcp_options_received tmp_opt] of the C code is not initialised except for
    saw_tstamp; its contents are the argument [g] here, so that a theorem can say what they do
    not influence. *)

From stdpp Require Import gmap.
From S2P Require Import Prelude TcpTypes Kernel ReqQueue Rtt TcpOpt.

(** struct inet_peer, the members the TCP code uses. *)
Record inet_peer := mk_peer { tcp_ts : Z; tcp_ts_stamp : Z }.

(** struct inet_timewait_sock and struct tcp_timewait_sock. *)
#[projections(primitive)]
Record timewait_sock := mk_tw {
  tw_substate : tcp_state;
  tw_timeout : Z;
  tw_rcv_wscale : Z;
  tw_rcv_nxt : Z;
  tw_snd_nxt : Z;
  tw_rcv_wnd : Z;
  tw_ts_recent : Z;
  tw_ts_recent_stamp : Z
}.
Definition eta_timewait_sock (r : timewait_sock) : timewait_sock :=
  mk_tw (tw_substate r) (tw_timeout r) (tw_rcv_wscale r) (tw_rcv_nxt r) (tw_snd_nxt r) (tw_rcv_wnd r)
    (tw_ts_recent r) (tw_ts_recent_stamp r).
#[export] Instance set_tw_substate : Setter tw_substate. Proof. solve_setter eta_timewait_sock. Defined.
#[export] Instance set_tw_timeout : Setter tw_timeout. Proof. solve_setter eta_timewait_sock. Defined.
#[export] Instance set_tw_rcv_wscale : Setter tw_rcv_wscale. Proof. solve_setter eta_timewait_sock. Defined.
#[export] Instance set_tw_rcv_nxt : Setter tw_rcv_nxt. Proof. solve_setter eta_timewait_sock. Defined.
#[export] Instance set_tw_snd_nxt : Setter tw_snd_nxt. Proof. solve_setter eta_timewait_sock. Defined.
#[export] Instance set_tw_rcv_wnd : Setter tw_rcv_wnd. Proof. solve_setter eta_timewait_sock. Defined.
#[export] Instance set_tw_ts_recent : Setter tw_ts_recent. Proof. solve_setter eta_timewait_sock. Defined.
#[export] Instance set_tw_ts_recent_stamp : Setter tw_ts_recent_stamp. Proof. solve_setter eta_timewait_sock. Defined.

Inductive tcp_tw_status := TCP_TW_SUCCESS | TCP_TW_RST | TCP_TW_ACK | TCP_TW_SYN.

(** What is done to the time-wait bucket: inet_twsk_schedule, inet_twsk_deschedule and
    inet_twsk_put. *)
Inductive tw_action := TwSchedule (timeo timewait_len : Z) | TwDeschedule | TwPut.

(** The outcome of a segment for a time-wait socket: the verdict, the bucket, the peer entry,
    TCP_SKB_CB(skb)->when and the actions in order. *)
Record tw_result := mk_twr {
  twr_status : tcp_tw_status; twr_tw : timewait_sock; twr_peer : option inet_peer; twr_when : Z;
  twr_actions : list tw_action }.

Section Minisocks.
Context {K : Kernel}.
Implicit Types (sk : sock) (skb : sk_buff) (th : tcphdr) (tw : timewait_sock).

(** The stamp of a peer is replaced by a newer one, or when it is old. *)
Definition remember_stamp (ts stamp : Z) (peer : option inet_peer) : bool * option inet_peer :=
  match peer with
  | None => (false, None)
  | Some p =>
    if (s32 (tcp_ts p - ts) <=? 0) ||
       ((u32 (u32 get_seconds - tcp_ts_stamp p) >? TCP_PAWS_MSL) && (tcp_ts_stamp p <=? u32 stamp))
    then (true, Some (mk_peer ts (u32 stamp)))
    else (true, Some p)
  end.
Definition tcp_remember_stamp sk (peer : option inet_peer) : bool * option inet_peer :=
  remember_stamp (ts_recent (rx_opt (tp sk))) (ts_recent_stamp (rx_opt (tp sk))) peer.
Definition tcp_tw_remember_stamp tw (peer : option inet_peer) : bool * option inet_peer :=
  remember_stamp (tw_ts_recent tw) (tw_ts_recent_stamp tw) peer.

Definition tcp_in_window (seq end_seq s_win e_win : Z) : bool :=
  if seq =? s_win then true
  else if after end_seq s_win && before seq e_win then true
  else (seq =? e_win) && (seq =? end_seq).

(** The options of the segment and the PAWS verdict: the first lines of both handlers. *)
Definition tw_parse (g : tcp_options_received) tw skb : tcp_options_received * bool :=
  let th := skb_th skb in
  let tmp_opt := g <| saw_tstamp := false |> in
  if (th_doff th >? Z.shiftr sizeof_tcphdr 2) && negb (tw_ts_recent_stamp tw =? 0) then
    let tmp_opt := ps_opt (tcp_parse_options skb tmp_opt None false) in
    if saw_tstamp tmp_opt then
      let tmp_opt := tmp_opt <| ts_recent := tw_ts_recent tw |> <| ts_recent_stamp := tw_ts_recent_stamp tw |> in
      (tmp_opt, tcp_paws_reject tmp_opt (th_rst th))
    else (tmp_opt, false)
  else (tmp_opt, false).

(** The branch of tcp_timewait_state_process for a socket in FIN-WAIT-2. *)
Definition timewait_fin_wait2 tw skb (tmp_opt : tcp_options_received) (paws_reject : bool) (peer : option inet_peer) : tw_result :=
  let th := skb_th skb in
  let kill_with_rst := mk_twr TCP_TW_RST tw peer (when_ skb) [TwDeschedule; TwPut] in
  if paws_reject || negb (tcp_in_window (seq skb) (end_seq skb) (tw_rcv_nxt tw) (u32 (tw_rcv_nxt tw + tw_rcv_wnd tw)))
  then mk_twr TCP_TW_ACK tw peer (when_ skb) []
  else if th_rst th then mk_twr TCP_TW_SUCCESS tw peer (when_ skb) [TwDeschedule; TwPut]
  else if th_syn th && negb (before (seq skb) (tw_rcv_nxt tw)) then kill_with_rst
  else if negb (th_ack th) || negb (after (end_seq skb) (tw_rcv_nxt tw)) || (end_seq skb =? seq skb)
  then mk_twr TCP_TW_SUCCESS tw peer (when_ skb) [TwPut]
  else if negb (th_fin th) || negb (end_seq skb =? u32 (tw_rcv_nxt tw + 1)) then kill_with_rst
  else
    let tw := tw <| tw_substate := TCP_TIME_WAIT |> <| tw_rcv_nxt := end_seq skb |> in
    let tw := if saw_tstamp tmp_opt
              then tw <| tw_ts_recent_stamp := get_seconds |> <| tw_ts_recent := rcv_tsval tmp_opt |> else tw in
    let '(remembered, peer) :=
      if sysctl_tw_recycle && negb (tw_ts_recent_stamp tw =? 0) then tcp_tw_remember_stamp tw peer else (false, peer) in
    if remembered then mk_twr TCP_TW_ACK tw peer (when_ skb) [TwSchedule (tw_timeout tw) TCP_TIMEWAIT_LEN]
    else mk_twr TCP_TW_ACK tw peer (when_ skb) [TwSchedule TCP_TIMEWAIT_LEN TCP_TIMEWAIT_LEN].

Definition tcp_timewait_state_process (g : tcp_options_received) tw skb (peer : option inet_peer) : tw_result :=
  let th := skb_th skb in
  let '(tmp_opt, paws_reject) := tw_parse g tw skb in
  if st_eqb (tw_substate tw) TCP_FIN_WAIT2 then timewait_fin_wait2 tw skb tmp_opt paws_reject peer
  else if negb paws_reject && ((seq skb =? tw_rcv_nxt tw) && ((seq skb =? end_seq skb) || th_rst th)) then
    if th_rst th && negb sysctl_tcp_rfc1337 then mk_twr TCP_TW_SUCCESS tw peer (when_ skb) [TwDeschedule; TwPut]
    else
      let tw := if saw_tstamp tmp_opt
                then tw <| tw_ts_recent := rcv_tsval tmp_opt |> <| tw_ts_recent_stamp := get_seconds |> else tw in
      mk_twr TCP_TW_SUCCESS tw peer (when_ skb) [TwSchedule TCP_TIMEWAIT_LEN TCP_TIMEWAIT_LEN; TwPut]
  else if th_syn th && negb (th_rst th) && negb (th_ack th) && negb paws_reject &&
          (after (seq skb) (tw_rcv_nxt tw) || (saw_tstamp tmp_opt && (s32 (tw_ts_recent tw - rcv_tsval tmp_opt) <? 0))) then
    let isn := u32 (tw_snd_nxt tw + 65535 + 2) in
    let isn := if isn =? 0 then 1 else isn in
    mk_twr TCP_TW_SYN tw peer isn []
  else if negb (th_rst th) then
    mk_twr TCP_TW_ACK tw peer (when_ skb)
      (if paws_reject || th_ack th then [TwSchedule TCP_TIMEWAIT_LEN TCP_TIMEWAIT_LEN] else [])
  else mk_twr TCP_TW_SUCCESS tw peer (when_ skb) [TwPut].

(** ** Moving a socket to time-wait *)
Context {D : Type} {O : DstOps D}.

(** What tcp_time_wait leaves: the bucket, if one could be allocated, and its timer; the peer
    entry; the metrics of the destination; and the socket. *)
Record tw_outcome := mk_outcome {
  to_tw : option timewait_sock; to_actions : list tw_action; to_peer : option inet_peer; to_dst : option D; to_sk : sock }.

(** MD5 keys, IPv6 addresses and the hash linkage (__inet_twsk_hashdance) are left out. *)
Definition tcp_time_wait (peer : option inet_peer) (dst : option D) sk (state : tcp_state) (timeo : Z) : tw_outcome :=
  let '(recycle_ok, peer) :=
    if sysctl_tw_recycle && negb (ts_recent_stamp (rx_opt (tp sk)) =? 0) then tcp_remember_stamp sk peer else (false, peer) in
  let '(tw, actions) :=
    if (tw_count <? sysctl_max_tw_buckets) && inet_twsk_alloc sk then
      let rto := s32 (u32 (Z.shiftl (icsk_rto (icsk sk)) 2) - Z.shiftr (icsk_rto (icsk sk)) 1) in
      let t := tp sk in
      let tw := mk_tw state 0 (rcv_wscale (rx_opt t)) (rcv_nxt t) (snd_nxt t) (tcp_receive_window t)
                  (ts_recent (rx_opt t)) (ts_recent_stamp (rx_opt t)) in
      let timeo := if timeo <? rto then rto else timeo in
      let '(tw, timeo) :=
        if recycle_ok then (tw <| tw_timeout := rto |>, timeo)
        else (tw <| tw_timeout := TCP_TIMEWAIT_LEN |>, if st_eqb state TCP_TIME_WAIT then TCP_TIMEWAIT_LEN else timeo) in
      (Some tw, [TwSchedule timeo TCP_TIMEWAIT_LEN; TwPut])
    else (None, []) in
  mk_outcome tw actions peer (tcp_update_metrics sk dst) (tcp_done sk).

(** ** Request sockets *)
Definition TCP_ECN_openreq_child (t : tcp_sock) (req : request_sock) : tcp_sock :=
  t <| ecn_flags := if req_ecn_ok req then TCP_ECN_OK else 0 |>.

(** inet_csk_clone; the addresses and ports are not part of the model of a socket. *)
Definition inet_csk_clone sk (req : request_sock) : option sock :=
  match sk_clone sk with
  | None => None
  | Some newsk =>
    let newsk := newsk <| sk_state := TCP_SYN_RECV |> <| icsk; icsk_retransmits := 0 |> <| icsk; icsk_backoff := 0 |>
                       <| icsk; icsk_probes_out := 0 |> <| icsk; rskq_defer_accept := 0 |> in
    Some (security_inet_csk_clone newsk)
  end.

(** tcp_create_openreq_child: the receive and send state of the child, from the request. *)
Definition child_setup (oldtp : tcp_sock) (req : request_sock) (t : tcp_sock) : tcp_sock :=
  let rcv := u32 (rcv_isn req + 1) in
  let snd := u32 (snt_isn req + 1 + tcp_s_data_size oldtp) in
  let t := t <| pred_flags := 0 |> <| rcv_nxt := rcv |> <| copied_seq := rcv |> <| rcv_wup := rcv |> in
  let t := t <| snd_up := snd |> <| snd_nxt := snd |> <| snd_una := snd |> in
  let t := tcp_prequeue_init t in
  let t := tcp_init_wl t (rcv_isn req) in
  t <| srtt := 0 |> <| mdev := TCP_TIMEOUT_INIT |> <| packets_out := 0 |> <| retrans_out := 0 |> <| sacked_out := 0 |>
    <| fackets_out := 0 |> <| snd_ssthresh := TCP_INFINITE_SSTHRESH |> <| snd_cwnd := TCP_INIT_CWND |>
    <| snd_cwnd_cnt := 0 |> <| bytes_acked := 0 |> <| frto_counter := 0 |> <| frto_highmark := 0 |>.
Definition child_options (req : request_sock) skb (t : tcp_sock) : tcp_sock :=
  let t := t <| rx_opt; tstamp_ok := req_tstamp_ok req |> <| rx_opt; sack_ok := req_sack_ok req |> in
  let t := if negb (sack_ok (rx_opt t) =? 0) && sysctl_tcp_fack then tcp_enable_fack t else t in
  let t := t <| window_clamp := req_window_clamp req |> <| rcv_ssthresh := req_rcv_wnd req |> <| rcv_wnd := req_rcv_wnd req |>
             <| rx_opt; wscale_ok := req_wscale_ok req |> in
  let t := if wscale_ok (rx_opt t) then
             t <| rx_opt; snd_wscale := req_snd_wscale req |> <| rx_opt; rcv_wscale := req_rcv_wscale req |>
           else
             t <| rx_opt; rcv_wscale := 0 |> <| rx_opt; snd_wscale := 0 |> <| window_clamp := Z.min (window_clamp t) 65535 |> in
  let t := t <| snd_wnd := Z.shiftl (th_window (skb_th skb)) (snd_wscale (rx_opt t)) |> in
  let t := t <| max_window := snd_wnd t |> in
  if tstamp_ok (rx_opt t) then
    t <| rx_opt; ts_recent := req_ts_recent req |> <| rx_opt; ts_recent_stamp := get_seconds |>
      <| tcp_header_len := sizeof_tcphdr + TCPOLEN_TSTAMP_ALIGNED |>
  else t <| rx_opt; ts_recent_stamp := 0 |> <| tcp_header_len := sizeof_tcphdr |>.
(** The first half: everything up to the keepalive timer. *)
Definition child_start sk (req : request_sock) (newsk : sock) : sock :=
  let newsk := newsk <| tp := child_setup (tp sk) req (tp newsk) |> <| icsk; icsk_rto := TCP_TIMEOUT_INIT |> in
  let newsk := tcp_set_ca_state newsk TCP_CA_Open in
  let newsk := tcp_init_xmit_timers newsk in
  newsk <| tp; out_of_order_queue := [] |>
        <| tp; write_seq := u32 (snt_isn req + 1 + tcp_s_data_size (tp sk)) |>
        <| tp; rx_opt; saw_tstamp := false |> <| tp; rx_opt; dsack := false |>
        <| tp; rx_opt; num_sacks := 0 |> <| tp; urg_data := 0 |>.
(** The second half: the keepalive timer and the negotiated options. *)
Definition child_finish (req : request_sock) skb (newsk : sock) : sock :=
  let newsk := if sock_flag newsk SOCK_KEEPOPEN
               then inet_csk_reset_keepalive_timer newsk (keepalive_time_when (tp newsk)) else newsk in
  let newsk := newsk <| tp := child_options req skb (tp newsk) |> in
  let newsk := if len skb >=? TCP_MSS_DEFAULT + tcp_header_len (tp newsk)
               then newsk <| icsk; ack_last_seg_size := u16 (len skb - tcp_header_len (tp newsk)) |> else newsk in
  let newsk := newsk <| tp; rx_opt; mss_clamp := req_mss req |> in
  newsk <| tp := TCP_ECN_openreq_child (tp newsk) req |>.
Definition tcp_create_openreq_child sk (req : request_sock) skb : option sock :=
  newsk ← inet_csk_clone sk req; Some (child_finish req skb (child_start sk req newsk)).

(** What tcp_check_req does besides changing the queue: a SYN-ACK is sent again, an ACK is
    sent, a reset is sent. *)
Inductive req_action := RtxSynAck | SendAck | SendReset.

(** The result of tcp_check_req: NULL, the listening socket, or the new child. *)
Inductive req_verdict := RvNull | RvListener | RvChild (child : nat).

Record req_result := mk_rr { rr_verdict : req_verdict; rr_queue : listener; rr_actions : list req_action }.

(** The options of the segment and the PAWS verdict; the time at which the timestamp was stored
    is estimated from the number of SYN-ACK retransmissions. *)
Definition req_parse (g : tcp_options_received) skb (r : request_sock) : tcp_options_received * bool :=
  let th := skb_th skb in
  let tmp_opt := g <| saw_tstamp := false |> in
  if th_doff th >? Z.shiftr sizeof_tcphdr 2 then
    let tmp_opt := ps_opt (tcp_parse_options skb tmp_opt None false) in
    if saw_tstamp tmp_opt then
      let tmp_opt := tmp_opt <| ts_recent := req_ts_recent r |>
                             <| ts_recent_stamp := get_seconds - Z.shiftl (TCP_TIMEOUT_INIT / HZ) (retrans r) |> in
      (tmp_opt, tcp_paws_reject tmp_opt (th_rst th))
    else (tmp_opt, false)
  else (tmp_opt, false).

(** tcp_check_req, for the request [req] at link [prev] of the queue [q] of the listening
    socket [sk]; [syn_recv_sock] is icsk_af_ops->syn_recv_sock, which creates the child. *)
Definition tcp_check_req (syn_recv_sock : sock -> sk_buff -> request_sock -> option nat)
    (g : tcp_options_received) sk skb (q : listener) (req : nat) (prev : prevptr) : req_result :=
  match reqs q !! req with
  | None => mk_rr RvNull q []
  | Some r =>
    let th := skb_th skb in
    let rst := th_rst th in
    let syn := th_syn th in
    let ack := th_ack th in
    let '(tmp_opt, paws_reject) := req_parse g skb r in
    if (seq skb =? rcv_isn r) && (syn && negb rst && negb ack) && negb paws_reject then mk_rr RvNull q [RtxSynAck]
    else if ack && negb (ack_seq skb =? u32 (snt_isn r + 1 + tcp_s_data_size (tp sk))) then mk_rr RvListener q []
    else if paws_reject || negb (tcp_in_window (seq skb) (end_seq skb) (u32 (rcv_isn r + 1)) (u32 (rcv_isn r + 1 + req_rcv_wnd r)))
    then mk_rr RvNull q (if negb rst then [SendAck] else [])
    else
      let q := if saw_tstamp tmp_opt && negb (after (seq skb) (u32 (rcv_isn r + 1)))
               then upd_req q req (fun r => r <| req_ts_recent := rcv_tsval tmp_opt |>) else q in
      let syn := if seq skb =? rcv_isn r then false else syn in
      let embryonic_reset q :=
        mk_rr RvNull (snd (inet_csk_reqsk_queue_drop q req prev)) (if negb rst then [SendReset] else []) in
      if rst || syn then embryonic_reset q
      else if negb ack then mk_rr RvNull q []
      else if (retrans r <? lq_defer_accept q) && (end_seq skb =? u32 (rcv_isn r + 1))
      then mk_rr RvNull (upd_req q req (fun r => r <| req_acked := true |>)) []
      else
        let q := if saw_tstamp tmp_opt && negb (rcv_tsecr tmp_opt =? 0)
                 then upd_req q req (fun r => r <| snt_synack := rcv_tsecr tmp_opt |>)
                 else if negb (retrans r =? 0) then upd_req q req (fun r => r <| snt_synack := 0 |>) else q in
        match syn_recv_sock sk skb (default r (reqs q !! req)) with
        | Some child =>
          let q := reqsk_queue_unlink q req prev in
          let '(_, q) := reqsk_queue_removed q req in
          mk_rr (RvChild child) (reqsk_queue_add q req child) []
        | None =>
          if negb sysctl_tcp_abort_on_overflow
          then mk_rr RvNull (upd_req q req (fun r => r <| req_acked := true |>)) []
          else embryonic_reset q
        end
  end.
End Minisocks.
Arguments mk_outcome {D}.
Arguments to_tw {D}.
Arguments to_actions {D}.
Arguments to_peer {D}.
Arguments to_dst {D}.
Arguments to_sk {D}.

(** ** Independence from uninitialised memory *)
Section Uninitialised.
Context {K : Kernel} {S : SackModeLaws K}.
Implicit Types (st : parse_state) (o g : tcp_options_received).

(** Two option blocks that agree on whether a timestamp was seen, and on its values if so. *)
Definition ts_agree o o' : Prop :=
  saw_tstamp o = saw_tstamp o' /\
  (saw_tstamp o = true -> rcv_tsval o = rcv_tsval o' /\ rcv_tsecr o = rcv_tsecr o').

Lemma parse_option_agree th bs ptr opcode opsize st st' :
  ts_agree (ps_opt st) (ps_opt st') ->
  ts_agree (ps_opt (parse_option th false bs ptr opcode opsize st)) (ps_opt (parse_option th false bs ptr opcode opsize st')).
Proof.
  intros H. unfold parse_option. cbn zeta. rewrite !tcp_sack_reset_spec. cbn [negb andb orb].
  unfold ts_agree in *. cases_if; first [exact H|by split; [|intros _]].
Qed.
Lemma parse_loop_agree fuel th bs : forall ptr length st st',
  ts_agree (ps_opt st) (ps_opt st') ->
  ts_agree (ps_opt (parse_loop fuel th false bs ptr length st)) (ps_opt (parse_loop fuel th false bs ptr length st')).
Proof.
  induction fuel as [|fuel IH]; intros ptr length st st' H; [done|]. cbn [parse_loop].
  cases_if; auto. apply IH. by apply parse_option_agree.
Qed.
Lemma parse_options_agree skb g g' hvp :
  ts_agree (ps_opt (tcp_parse_options skb g hvp false)) (ps_opt (tcp_parse_options skb g' hvp false)).
Proof. apply parse_loop_agree. by split. Qed.

Context {P : PawsLaws K}.

(** The PAWS verdict is the same for blocks that agree and get the same stored timestamp. *)
Lemma paws_agree o o' ts stamp rst : ts_agree o o' -> saw_tstamp o = true ->
  tcp_paws_reject (o <| ts_recent := ts |> <| ts_recent_stamp := stamp |>) rst =
  tcp_paws_reject (o' <| ts_recent := ts |> <| ts_recent_stamp := stamp |>) rst.
Proof. intros [_ H] Hs. destruct (H Hs). by apply paws_reject_ext. Qed.

Lemma tw_parse_agree g g' tw skb :
  ts_agree (tw_parse g tw skb).1 (tw_parse g' tw skb).1 /\ (tw_parse g tw skb).2 = (tw_parse g' tw skb).2.
Proof.
  unfold tw_parse. cbn zeta. case_if_as Hc; [|by repeat split].
  pose proof (parse_options_agree skb (g <| saw_tstamp := false |>) (g' <| saw_tstamp := false |>) None) as Ha.
  set (o := ps_opt (tcp_parse_options skb (g <| saw_tstamp := false |>) None false)) in *.
  set (o' := ps_opt (tcp_parse_options skb (g' <| saw_tstamp := false |>) None false)) in *.
  pose proof Ha as [Hs _]. rewrite <- Hs. case_if_as Hd; cbn [fst snd]; [|by split].
  split; [exact Ha|]. by apply paws_agree.
Qed.
Lemma req_parse_agree g g' skb r :
  ts_agree (req_parse g skb r).1 (req_parse g' skb r).1 /\ (req_parse g skb r).2 = (req_parse g' skb r).2.
Proof.
  unfold req_parse. cbn zeta. case_if_as Hc; [|by repeat split].
  pose proof (parse_options_agree skb (g <| saw_tstamp := false |>) (g' <| saw_tstamp := false |>) None) as Ha.
  set (o := ps_opt (tcp_parse_options skb (g <| saw_tstamp := false |>) None false)) in *.
  set (o' := ps_opt (tcp_parse_options skb (g' <| saw_tstamp := false |>) None false)) in *.
  pose proof Ha as [Hs _]. rewrite <- Hs. case_if_as Hd; cbn [fst snd]; [|by split].
  split; [exact Ha|]. by apply paws_agree.
Qed.
End Uninitialised.

(** ** Queue updates of tcp_check_req *)
Section CheckReq.
Context {jh : Z -> Z -> Z -> Z}.

(** A change of a request that the queue structure does not see. *)
Definition benign (f : request_sock -> request_sock) : Prop :=
  forall r, dl_next (f r) = dl_next r /\ rmt_addr (f r) = rmt_addr r /\ rmt_port (f r) = rmt_port r /\ retrans (f r) = retrans r.

Lemma upd_req_rep q l T A x f : rep jh q l T A -> benign f -> rep jh (upd_req q x f) l T A.
Proof.
  intros Hr Hf. eapply rep_change; [exact Hr| | |apply Hr|done|done|done|]; unfold upd_req; cbn.
  - intros z. unfold nexts. rewrite lookup_alter. destruct (decide (x = z)) as [->|]; [|done].
    destruct (reqs q !! z) as [r|]; [|done]. cbn. f_equal. apply Hf.
  - intros z r'. rewrite lookup_alter. destruct (decide (x = z)) as [->|]; [|by exists r'].
    destruct (reqs q !! z) as [r|]; [|done]. cbn. intros [= <-]. exists r. destruct (Hf r) as (_ & E1 & E2 & _). by rewrite E1, E2.
  - rewrite (rep_young _ _ _ _ _ Hr). apply sumZ_ext, Forall_forall. intros z _. unfold young. rewrite lookup_alter.
    destruct (decide (x = z)) as [->|]; [|done]. destruct (reqs q !! z) as [r|]; [|done]. cbn.
    by destruct (Hf r) as (_ & _ & _ & ->).
Qed.

(** A request moves from its bucket to the end of the accept queue. *)
Lemma move_rep q l T A i l1 x l2 child :
  rep jh q l T A -> T !! i = Some (l1 ++ x :: l2) -> is_Some (reqs q !! x) ->
  let q' := reqsk_queue_add (snd (reqsk_queue_removed (reqsk_queue_unlink q x (link i l1)) x)) x child in
  exists l', rep jh q' l' (<[i := l1 ++ l2]> T) (A ++ [x]) /\ reqs q' !! x ≫= req_sk = Some child.
Proof.
  intros Hr Hi [r Hx]. destruct (unlink_removed_rep _ _ _ _ _ _ _ _ Hr Hi) as (l' & Hrep & Hn & _ & _ & Hs).
  set (q1 := snd _) in *. clearbody q1. assert (Hx1 : is_Some (reqs q1 !! x)).
  { specialize (Hs x). rewrite Hx in Hs. destruct (reqs q1 !! x); [by eexists|done]. }
  exists l'. split; [by apply accept_add_rep|]. destruct Hx1 as [r1 Hx1].
  unfold reqsk_queue_add. cbn. destruct (rskq_accept_head q1); cbn; [destruct (rskq_accept_tail q1) as [t|]; cbn|];
    rewrite !lookup_alter; repeat case_decide; subst; rewrite ?decide_True, ?Hx1 by done; cbn; rewrite ?lookup_alter, ?decide_True, ?Hx1 by done; done.
Qed.
End CheckReq.

(** ** The properties *)
Section Claims.
Context {K : Kernel}.
Implicit Types (sk : sock) (skb : sk_buff) (tw : timewait_sock) (g : tcp_options_received).

(** The verdict of the TIME-WAIT state machine never depends on uninitialised stack memory:
    tmp_opt is only partly initialised before the option parser runs on it, but neither the
    verdict nor the bucket, the peer entry, the timer or the initial sequence number of a new
    connection depends on what it held before. *)
Theorem timewait_no_uninit {S : SackModeLaws K} {P : PawsLaws K} g g' tw skb peer :
  tcp_timewait_state_process g tw skb peer = tcp_timewait_state_process g' tw skb peer.
Proof.
  unfold tcp_timewait_state_process. pose proof (tw_parse_agree g g' tw skb) as [[Hs Hv] Hp].
  destruct (tw_parse g tw skb) as [o p], (tw_parse g' tw skb) as [o' p']. cbn [fst snd] in *. subst p'.
  unfold timewait_fin_wait2. rewrite <- Hs. destruct (saw_tstamp o); [|done]. destruct (Hv eq_refl) as [<- _]. done.
Qed.

(** Reopening from TIME-WAIT (RFC 1122): the new-connection verdict is given only in true
    TIME-WAIT, only for a SYN without RST and ACK that is newer than what was received (by
    sequence number or by timestamp), with an initial sequence number 65537 beyond the last one
    used (never zero), and the old bucket stays as it was, with its timer. *)
Theorem timewait_reopen g tw skb peer :
  let r := tcp_timewait_state_process g tw skb peer in
  twr_status r = TCP_TW_SYN ->
  tw_substate tw <> TCP_FIN_WAIT2 /\ th_syn (skb_th skb) = true /\ th_rst (skb_th skb) = false /\ th_ack (skb_th skb) = false /\
  (after (seq skb) (tw_rcv_nxt tw) = true \/ s32 (tw_ts_recent tw - rcv_tsval (tw_parse g tw skb).1) < 0) /\
  twr_tw r = tw /\ twr_actions r = [] /\ twr_when r <> 0 /\
  (u32 (tw_snd_nxt tw + 65537) <> 0 -> twr_when r = u32 (tw_snd_nxt tw + 65537)).
Proof.
  unfold tcp_timewait_state_process, timewait_fin_wait2. destruct (tw_parse g tw skb) as [o p]. cbn zeta. cbn [fst].
  replace (tw_snd_nxt tw + 65535 + 2) with (tw_snd_nxt tw + 65537) by lia. unfold st_eqb.
  case_if_as Hst.
  { repeat case_match; discriminate. }
  case_if_as H1; [repeat case_match; discriminate|]. case_if_as H2; [|repeat case_match; discriminate].
  intros _. apply bool_decide_eq_false in Hst. bool_arith. split_and!; try done.
  - match goal with H : _ || _ = true |- _ => apply orb_true_iff in H as [H|H] end; [by left|right]. by bool_arith.
  - cbn. destruct (Z.eqb_spec (u32 (tw_snd_nxt tw + 65537)) 0); [lia|done].
  - cbn. intros Hn. by rewrite (proj2 (Z.eqb_neq _ _) Hn).
Qed.

(** TIME-WAIT assassination (RFC 1337): a bucket in true TIME-WAIT is descheduled only by a
    RST at exactly the next expected sequence number that passes PAWS, and never when
    sysctl_tcp_rfc1337 is set; and rcv_nxt advances only by the FIN that ends FIN-WAIT-2, by
    exactly one. *)
Theorem timewait_kill g tw skb peer :
  let r := tcp_timewait_state_process g tw skb peer in
  (TwDeschedule ∈ twr_actions r -> tw_substate tw <> TCP_FIN_WAIT2 ->
   th_rst (skb_th skb) = true /\ seq skb = tw_rcv_nxt tw /\ sysctl_tcp_rfc1337 = false /\ (tw_parse g tw skb).2 = false) /\
  (tw_rcv_nxt (twr_tw r) = tw_rcv_nxt tw /\ tw_substate (twr_tw r) = tw_substate tw \/
   tw_substate tw = TCP_FIN_WAIT2 /\ tw_substate (twr_tw r) = TCP_TIME_WAIT /\ th_fin (skb_th skb) = true /\
   tw_rcv_nxt (twr_tw r) = u32 (tw_rcv_nxt tw + 1) /\ twr_status r = TCP_TW_ACK).
Proof.
  assert (N : forall a l, TwDeschedule ∈ (TwSchedule a l :: []) -> False) by (intros a l [H|H]%elem_of_cons; [done|by apply elem_of_nil in H]).
  assert (N' : TwDeschedule ∈ [TwPut] -> False) by (intros [H|H]%elem_of_cons; [done|by apply elem_of_nil in H]).
  unfold tcp_timewait_state_process. destruct (tw_parse g tw skb) as [o p]. cbn zeta. cbn [snd]. unfold st_eqb.
  case_if_as Hst; [apply bool_decide_eq_true in Hst|apply bool_decide_eq_false in Hst].
  - split; [done|]. unfold timewait_fin_wait2.
    do 4 (case_if_as H; [left; done|clear H]). case_if_as Hfin; [left; done|].
    right. match goal with |- context [let '(_, _) := ?x in _] => destruct x as [rem peer'] end.
    bool_arith. split_and!; [done|..]; destruct rem, (saw_tstamp o); cbn; done.
  - split; [|left; repeat case_match; done]. intros Hin _. revert Hin. case_if_as H1.
    + case_if_as H2; [intros _; bool_arith; by split_and!|]. cbn.
      intros [Hin|Hin]%elem_of_cons; [done|by apply N' in Hin].
    + case_if_as H2; [by intros ?%elem_of_nil|]. case_if_as H3; cbn; [|by intros ?%N'].
      case_if_as H4; [by intros ?%N|by intros ?%elem_of_nil].
Qed.

(** The same for a segment of a half-open connection: neither the verdict nor the queue nor
    what is sent depends on the uninitialised part of tmp_opt. *)
Theorem check_req_no_uninit {S : SackModeLaws K} {P : PawsLaws K} syn_recv_sock g g' sk skb q req prev :
  tcp_check_req syn_recv_sock g sk skb q req prev = tcp_check_req syn_recv_sock g' sk skb q req prev.
Proof.
  unfold tcp_check_req. destruct (reqs q !! req) as [r|]; [|done].
  pose proof (req_parse_agree g g' skb r) as [[Hs Hv] Hp].
  destruct (req_parse g skb r) as [o p], (req_parse g' skb r) as [o' p']. cbn [fst snd] in *. subst p'.
  rewrite <- Hs. destruct (saw_tstamp o); [|done]. destruct (Hv eq_refl) as [<- <-]. done.
Qed.

Context {jh : Z -> Z -> Z -> Z}.

(** The possible changes of the queue: none, the request dropped, or moved to the accept queue
    with a child. *)
Definition req_outcome (r : req_result) (T : list (list nat)) (A : list nat) (i : nat) (l1 l2 : list nat) (x : nat) : Prop :=
  exists l' T' A', rep jh (rr_queue r) l' T' A' /\
    match rr_verdict r with
    | RvChild child => T' = <[i := l1 ++ l2]> T /\ A' = A ++ [x] /\ reqs (rr_queue r) !! x ≫= req_sk = Some child
    | RvListener => T' = T /\ A' = A
    | RvNull => A' = A /\ (T' = T \/ T' = <[i := l1 ++ l2]> T /\ reqs (rr_queue r) !! x = None)
    end.

Lemma outcome_keep q l T A i l1 l2 x v acts : v <> RvListener -> (forall c, v <> RvChild c) -> rep jh q l T A ->
  req_outcome (mk_rr v q acts) T A i l1 l2 x.
Proof. intros H1 H2 Hr. exists l, T, A. split; [done|]. destruct v; cbn; [by auto|done|]. by destruct (H2 child). Qed.
Lemma outcome_drop q l T A i l1 l2 x acts : rep jh q l T A -> T !! i = Some (l1 ++ x :: l2) ->
  req_outcome (mk_rr RvNull (snd (inet_csk_reqsk_queue_drop q x (link i l1))) acts) T A i l1 l2 x.
Proof.
  intros Hr Hi. destruct (drop_rep _ _ _ _ _ _ _ _ Hr Hi) as (l' & Hr' & Hx & _).
  exists l', (<[i := l1 ++ l2]> T), A. split; [done|]. cbn. auto.
Qed.

Lemma check_req_spec syn_recv_sock g sk skb q l T A i l1 l2 x rq :
  rep jh q l T A -> T !! i = Some (l1 ++ x :: l2) -> reqs q !! x = Some rq ->
  let r := tcp_check_req syn_recv_sock g sk skb q x (link i l1) in
  req_outcome r T A i l1 l2 x /\
  (forall child, rr_verdict r = RvChild child ->
     th_ack (skb_th skb) = true /\ th_rst (skb_th skb) = false /\ (th_syn (skb_th skb) = true -> seq skb = rcv_isn rq) /\
     ack_seq skb = u32 (snt_isn rq + 1 + tcp_s_data_size (tp sk)) /\
     tcp_in_window (seq skb) (end_seq skb) (u32 (rcv_isn rq + 1)) (u32 (rcv_isn rq + 1 + req_rcv_wnd rq)) = true) /\
  (rr_verdict r = RvListener -> rr_queue r = q /\ ack_seq skb <> u32 (snt_isn rq + 1 + tcp_s_data_size (tp sk))).
Proof.
  intros Hr Hi Hx. unfold tcp_check_req. rewrite Hx. destruct (req_parse g skb rq) as [o p]. cbn zeta.
  case_if_as H1; [split; [by eapply outcome_keep|done]|].
  case_if_as H2; [bool_arith; split; [by exists l, T, A|done]|].
  case_if_as H3; [split; [by eapply outcome_keep|done]|].
  match goal with |- context [if saw_tstamp o && negb (after _ _) then ?u else q] => set (q1 := if saw_tstamp o && negb (after _ _) then u else q) end.
  assert (Hr1 : rep jh q1 l T A) by (unfold q1; case_if_as Hq; [by apply upd_req_rep|done]).
  assert (Hx1 : is_Some (reqs q1 !! x)).
  { unfold q1, upd_req. case_if_as Hq; cbn; [|by eexists]. rewrite lookup_alter, decide_True, Hx by done. by eexists. }
  clearbody q1. case_if_as H4; [split; [by eapply outcome_drop|done]|].
  case_if_as H5; [split; [by eapply outcome_keep|done]|].
  case_if_as H6; [split; [eapply outcome_keep; [done..|by apply upd_req_rep]|done]|].
  match goal with |- context [syn_recv_sock sk skb (default rq (reqs ?u !! x))] => set (q2 := u) end.
  assert (Hr2 : rep jh q2 l T A) by (unfold q2; cases_if; [by apply upd_req_rep..|done]).
  assert (Hx2 : is_Some (reqs q2 !! x)).
  { destruct Hx1 as [r1 Hx1]. unfold q2, upd_req. cases_if; cbn; [..|by eexists]; rewrite lookup_alter, decide_True, Hx1 by done; by eexists. }
  clearbody q2. destruct (syn_recv_sock sk skb _) as [child|].
  - destruct (move_rep q2 l T A i l1 x l2 child Hr2 Hi Hx2) as (l' & Hr' & Hc).
    destruct (reqsk_queue_removed (reqsk_queue_unlink q2 x (link i l1)) x) as [n q3]. cbn [snd] in *.
    split; [by exists l', (<[i := l1 ++ l2]> T), (A ++ [x])|]. split; [|done]. intros c [= <-]. bool_arith.
    split_and!; try done.
    + intros Hsyn. destruct (Z.eqb_spec (seq skb) (rcv_isn rq)); [done|congruence].
    + apply andb_false_iff in H2 as [H2|H2]; bool_arith; congruence.
  - case_if_as H7; [split; [eapply outcome_keep; [done..|by apply upd_req_rep]|done]|].
    split; [by eapply outcome_drop|done].
Qed.
(** C39. A segment for a half-open connection keeps the listener's queues consistent on every
    path, and moves the request to the accept queue, with its child, only on a segment that has
    the ACK bit and neither RST nor a SYN within the window, that acknowledges exactly our
    SYN-ACK, and that lies in the offered window; a segment that acknowledges anything else is
    handed back to the listening socket with the queues untouched. *)
Theorem check_req_ok syn_recv_sock g sk skb q l T A i l1 l2 x rq :
  rep jh q l T A -> T !! i = Some (l1 ++ x :: l2) -> reqs q !! x = Some rq ->
  let r := tcp_check_req syn_recv_sock g sk skb q x (link i l1) in
  req_outcome r T A i l1 l2 x /\
  (forall child, rr_verdict r = RvChild child ->
     th_ack (skb_th skb) = true /\ th_rst (skb_th skb) = false /\ (th_syn (skb_th skb) = true -> seq skb = rcv_isn rq) /\
     ack_seq skb = u32 (snt_isn rq + 1 + tcp_s_data_size (tp sk)) /\
     tcp_in_window (seq skb) (end_seq skb) (u32 (rcv_isn rq + 1)) (u32 (rcv_isn rq + 1 + req_rcv_wnd rq)) = true) /\
  (rr_verdict r = RvListener -> rr_queue r = q /\ ack_seq skb <> u32 (snt_isn rq + 1 + tcp_s_data_size (tp sk))).
Proof. apply check_req_spec. Qed.

(** The parts of a control block that the options do not touch. *)
Definition child_core (t : tcp_sock) :=
  (rcv_nxt t, copied_seq t, rcv_wup t, snd_nxt t, snd_una t, write_seq t, packets_out t, retrans_out t, sacked_out t, srtt t,
   out_of_order_queue t, num_sacks (rx_opt t)).

Lemma child_start_core {Ca : CaStateLaws K} {Ch : ChildLaws K} sk req newsk :
  let snd := u32 (snt_isn req + 1 + tcp_s_data_size (tp sk)) in
  let rcv := u32 (rcv_isn req + 1) in
  child_core (tp (child_start sk req newsk)) = (rcv, rcv, rcv, snd, snd, snd, 0, 0, 0, 0, [], 0) /\
  sk_state (child_start sk req newsk) = sk_state newsk.
Proof.
  unfold child_start, child_setup. rewrite set_ca_state_spec, prequeue_init_spec, init_wl_spec. cbn zeta.
  match goal with |- context [tcp_init_xmit_timers ?s] => pose proof (init_timers_tp s) as Ht; pose proof (init_timers_state s) as Hs;
    set (sk1 := tcp_init_xmit_timers s) in * end.
  clearbody sk1. split; [|exact Hs]. unfold child_core. cbn. by rewrite Ht.
Qed.

Lemma child_options_core {Ch : ChildLaws K} req skb t :
  let t' := child_options req skb t in
  child_core t' = child_core t /\ rcv_wnd t' = req_rcv_wnd req /\
  (req_wscale_ok req = false -> window_clamp t' <= 65535 /\ snd_wscale (rx_opt t') = 0).
Proof.
  unfold child_options. rewrite enable_fack_spec. cbn zeta. unfold child_core.
  destruct (negb (sack_ok _ =? 0) && sysctl_tcp_fack), (req_wscale_ok req) eqn:Ew, (req_tstamp_ok req) eqn:Et;
    cbn; rewrite ?Ew; cbn; rewrite ?Et; cbn; split_and!; done || (intros _; split; [lia|done]).
Qed.

Lemma openreq_child_spec {Ca : CaStateLaws K} {Ch : ChildLaws K} sk req skb newsk :
  tcp_create_openreq_child sk req skb = Some newsk ->
  let t := tp newsk in
  let snd := u32 (snt_isn req + 1 + tcp_s_data_size (tp sk)) in
  let rcv := u32 (rcv_isn req + 1) in
  sk_state newsk = TCP_SYN_RECV /\
  rcv_nxt t = rcv /\ copied_seq t = rcv /\ rcv_wup t = rcv /\ snd_nxt t = snd /\ snd_una t = snd /\ write_seq t = snd /\
  packets_out t = 0 /\ retrans_out t = 0 /\ sacked_out t = 0 /\ srtt t = 0 /\
  out_of_order_queue t = [] /\ num_sacks (rx_opt t) = 0 /\
  (req_wscale_ok req = false -> window_clamp t <= 65535 /\ snd_wscale (rx_opt t) = 0) /\
  rcv_wnd t = req_rcv_wnd req /\ mss_clamp (rx_opt t) = req_mss req.
Proof.
  unfold tcp_create_openreq_child, inet_csk_clone. destruct (sk_clone sk) as [c|]; [|done]. rewrite security_clone_spec.
  cbn [mbind option_bind]. intros H%Some_inj.
  match type of H with context [child_start sk req ?x] => destruct (child_start_core sk req x) as [Hc Hs]; set (sk1 := child_start sk req x) in * end.
  clearbody sk1. cbn in Hs. unfold child_finish in H.
  set (sk2 := if sock_flag sk1 SOCK_KEEPOPEN then _ else sk1) in H.
  assert (H2 : tp sk2 = tp sk1 /\ sk_state sk2 = sk_state sk1)
    by (unfold sk2; case_if_as Hk; [by rewrite keepalive_tp, keepalive_state|done]).
  clearbody sk2. destruct H2 as [Ht2 Hs2]. rewrite <- Ht2 in Hc. destruct (child_options_core req skb (tp sk2)) as (Ho & Hw & Hx).
  rewrite Hc in Ho. set (o := child_options req skb (tp sk2)) in *. clearbody o. cbn zeta in H.
  assert (Hn : sk_state newsk = sk_state sk2 /\ tp newsk = TCP_ECN_openreq_child (o <| rx_opt; mss_clamp := req_mss req |>) req).
  { rewrite <- H. case_if_as Hl; done. }
  destruct Hn as [Hn1 Hn2]. rewrite Hn1, Hn2, Hs2, Hs. unfold child_core in Ho. injection Ho; clear Ho; intros.
  cbn. by split_and!.
Qed.
(** The child socket starts from the request: nothing received but the peer's SYN, nothing
    sent but our SYN (and the data it carried), no segments outstanding, an empty out-of-order
    queue without SACK blocks, in state SYN-RECV; and without window scaling its window clamp
    fits the 16-bit header field. *)
Theorem openreq_child_ok {Ca : CaStateLaws K} {Ch : ChildLaws K} sk req skb newsk :
  tcp_create_openreq_child sk req skb = Some newsk ->
  let t := tp newsk in
  let snd := u32 (snt_isn req + 1 + tcp_s_data_size (tp sk)) in
  let rcv := u32 (rcv_isn req + 1) in
  sk_state newsk = TCP_SYN_RECV /\
  rcv_nxt t = rcv /\ copied_seq t = rcv /\ rcv_wup t = rcv /\ snd_nxt t = snd /\ snd_una t = snd /\ write_seq t = snd /\
  packets_out t = 0 /\ retrans_out t = 0 /\ sacked_out t = 0 /\ srtt t = 0 /\
  out_of_order_queue t = [] /\ num_sacks (rx_opt t) = 0 /\
  (req_wscale_ok req = false -> window_clamp t <= 65535 /\ snd_wscale (rx_opt t) = 0) /\
  rcv_wnd t = req_rcv_wnd req /\ mss_clamp (rx_opt t) = req_mss req.
Proof. apply openreq_child_spec. Qed.
End Claims.

(** ** Concrete examples *)
Module Demo.
Definition tw0 : timewait_sock := mk_tw TCP_TIME_WAIT 60000 0 1000 5000 4000 0 0.
Definition syn_new : sk_buff := blank_skb <| seq := 2000 |> <| end_seq := 2001 |> <| skb_th; th_syn := true |> <| skb_th; th_doff := 5 |>.
(** The ACK that completes the handshake of the request of ReqQueue's example. *)
Definition ack_skb : sk_buff :=
  blank_skb <| seq := 101 |> <| end_seq := 101 |> <| ack_seq := 201 |> <| skb_th; th_ack := true |> <| skb_th; th_doff := 5 |>.
Definition child_sk : sock := default blank_sock (tcp_create_openreq_child blank_sock ReqQueue.Demo.req ack_skb).
End Demo.
Import Demo.

Lemma timewait_no_uninit_witness :
  tcp_timewait_state_process blank_opt tw0 syn_new None =
  tcp_timewait_state_process (blank_opt <| user_mss := 9 |> <| sack_ok := 7 |>) tw0 syn_new None.
Proof. apply (timewait_no_uninit blank_opt (blank_opt <| user_mss := 9 |> <| sack_ok := 7 |>) tw0 syn_new None). Defined.

Lemma timewait_reopen_witness :
  let r := tcp_timewait_state_process blank_opt tw0 syn_new None in
  tw_substate tw0 <> TCP_FIN_WAIT2 /\ th_syn (skb_th syn_new) = true /\ th_rst (skb_th syn_new) = false /\ th_ack (skb_th syn_new) = false /\
  (after (seq syn_new) (tw_rcv_nxt tw0) = true \/ s32 (tw_ts_recent tw0 - rcv_tsval (tw_parse blank_opt tw0 syn_new).1) < 0) /\
  twr_tw r = tw0 /\ twr_actions r = [] /\ twr_when r <> 0 /\
  (u32 (tw_snd_nxt tw0 + 65537) <> 0 -> twr_when r = u32 (tw_snd_nxt tw0 + 65537)).
Proof. apply (timewait_reopen blank_opt tw0 syn_new None). reflexivity. Defined.

Lemma check_req_no_uninit_witness :
  tcp_check_req (fun _ _ _ => Some 42%nat) blank_opt blank_sock ack_skb ReqQueue.Demo.q1 7 (PSlot 2) =
  tcp_check_req (fun _ _ _ => Some 42%nat) (blank_opt <| sack_ok := 7 |>) blank_sock ack_skb ReqQueue.Demo.q1 7 (PSlot 2).
Proof. apply (check_req_no_uninit (fun _ _ _ => Some 42%nat) blank_opt (blank_opt <| sack_ok := 7 |>)). Defined.

Lemma check_req_ok_witness :
  let r := tcp_check_req (fun _ _ _ => Some 42%nat) blank_opt blank_sock ack_skb ReqQueue.Demo.q1 7 (PSlot 2) in
  req_outcome (jh := ReqQueue.Demo.jh) r ReqQueue.Demo.T1 [] 2 [] [] 7 /\ rr_verdict r = RvChild 42.
Proof.
  split; [|reflexivity].
  refine (proj1 (check_req_ok (jh := ReqQueue.Demo.jh) (fun _ _ _ => Some 42%nat) blank_opt blank_sock ack_skb
    ReqQueue.Demo.q1 ReqQueue.Demo.l1 ReqQueue.Demo.T1 [] 2 [] [] 7 _ ReqQueue.Demo.q1_rep eq_refl eq_refl)).
Defined.

Lemma openreq_child_ok_witness :
  sk_state child_sk = TCP_SYN_RECV /\ rcv_nxt (tp child_sk) = 101 /\ snd_nxt (tp child_sk) = 201.
Proof.
  assert (E : tcp_create_openreq_child blank_sock ReqQueue.Demo.req ack_skb = Some child_sk) by (vm_compute; reflexivity).
  destruct (openreq_child_ok blank_sock ReqQueue.Demo.req ack_skb child_sk E) as (H1 & H2 & _ & _ & H3 & _).
  split; [exact H1|split; [exact H2|exact H3]].
Defined.
