(* ===== verification/Collapse.v ===== *)
(** * Collapsing a receive queue

    net/ipv4/tcp_input.c, lines 4417-4434 and 4652-4895: when the receive buffer is full, the contiguous parts
    of a queue are copied into densely packed buffers.

    A part of a queue, from [head] up to but not including [tail], is a list of buffers; the
    result is the list that replaces it.  [None] is a kernel BUG(). *)

From S2P Require Import Prelude TcpTypes Kernel RcvTune.

(** skb_copy_bits: the payload of a buffer from an offset on. *)
Definition skb_copy_bits (skb : sk_buff) (offset size : Z) : list Z :=
  take (Z.to_nat size) (drop (Z.to_nat (data_off skb + offset)) (bytes skb)).

Section Collapse.
Context {K : Kernel}.
Implicit Types (sk : sock) (skb nskb : sk_buff) (q : list sk_buff).

(** skb_set_owner_r (sock.h) *)
Definition skb_set_owner_r skb sk : sock :=
  sk_mem_charge (sk <| sk_rmem_alloc := s32 (sk_rmem_alloc sk + truesize skb) |>) (truesize skb).

(** The first loop of tcp_collapse: drops buffers without new data, and finds the first buffer
    where collapsing is useful.  The result is the socket, what is kept in front, the rest from
    that buffer on ([] when the end was reached) and the new [start]. *)
Fixpoint collapse_find sk q (start : Z) : sock * list sk_buff * list sk_buff * Z :=
  match q with
  | [] => (sk, [], [], start)
  | skb :: rest =>
    if negb (before start (end_seq skb)) then collapse_find (kfree_skb sk skb) rest start
    else if negb (th_syn (skb_th skb)) && negb (th_fin (skb_th skb)) &&
            ((u32 (tcp_win_from_space (truesize skb)) >? len skb) || before (seq skb) start) then (sk, [], q, start)
    else
      match rest with
      | next :: _ =>
        if negb (end_seq skb =? seq next) then (sk, [], q, start)
        else let '(sk, kept, rest, start) := collapse_find sk rest (end_seq skb) in (sk, skb :: kept, rest, start)
      | [] => (sk, [skb], [], end_seq skb)
      end
  end.

(** The inner copy loop: fills [nskb] with [copy] bytes from the buffers of [q], releasing the
    ones used up.  The boolean says that tcp_collapse returns; a copy beyond the end of a buffer
    is the BUG() after skb_copy_bits. *)
Fixpoint collapse_copy sk nskb q (copy start : Z) : option (bool * sock * sk_buff * list sk_buff * Z) :=
  match q with
  | [] => Some (true, sk, nskb, [], start)
  | skb :: rest =>
    if copy <=? 0 then Some (false, sk, nskb, q, start) else
    let offset := s32 (start - seq skb) in
    let size := s32 (end_seq skb - start) in
    if offset <? 0 then None
    else if (size >? 0) && (len skb <? offset + Z.min copy size) then None
    else
    let '(nskb, copy, start) :=
      if size >? 0 then
        let size := Z.min copy size in
        (nskb <| bytes := bytes nskb ++ skb_copy_bits skb offset size |> <| len := len nskb + size |>
              <| end_seq := u32 (end_seq nskb + size) |>, copy - size, u32 (start + size))
      else (nskb, copy, start) in
    if negb (before start (end_seq skb)) then
      let sk := kfree_skb sk skb in
      match rest with
      | [] => Some (true, sk, nskb, [], start)
      | next :: _ =>
        if th_syn (skb_th next) || th_fin (skb_th next) then Some (true, sk, nskb, rest, start)
        else collapse_copy sk nskb rest copy start
      end
    else Some (false, sk, nskb, q, start)
  end.

(** The outer loop: one new buffer per round. *)
Fixpoint collapse_loop (fuel : nat) sk q (start end_ : Z) : option (sock * list sk_buff) :=
  match fuel, q with
  | O, _ | _, [] => Some (sk, q)
  | S fuel, skb :: _ =>
    if negb (before start end_) then Some (sk, q) else
    let copy := skb_max_copy skb in
    if copy <? 0 then Some (sk, q) else
    let copy := if u32 (end_ - start) <? copy then u32 (end_ - start) else copy in
    match alloc_skb sk copy with
    | None => Some (sk, q)
    | Some (id, ts) =>
      let nskb := skb <| skb_id := id |> <| truesize := ts |> <| len := 0 |>
                      <| bytes := take (Z.to_nat (data_off skb)) (bytes skb) |>
                      <| end_seq := start |> <| seq := start |>
                      <| gso_size := 0 |> <| gso_segs := 0 |> <| tstamp := 0 |> in
      let sk := skb_set_owner_r nskb sk in
      match collapse_copy sk nskb q copy start with
      | None => None
      | Some (ret, sk, nskb, q, start) =>
        if ret then Some (sk, nskb :: q)
        else
          match collapse_loop fuel sk q start end_ with
          | None => None
          | Some (sk, q) => Some (sk, nskb :: q)
          end
      end
    end
  end.

(** tcp_collapse; every round copies at least one byte (SKB_MAX_ORDER is positive), so the
    distance from start to end bounds the number of rounds. *)
Definition tcp_collapse sk q (start end_ : Z) : option (sock * list sk_buff) :=
  let '(sk, kept, rest, start) := collapse_find sk q start in
  match rest with
  | [] => Some (sk, kept)
  | skb :: _ =>
    if th_syn (skb_th skb) || th_fin (skb_th skb) then Some (sk, kept ++ rest)
    else
      match collapse_loop (Z.to_nat (u32 (end_ - start))) sk rest start end_ with
      | None => None
      | Some (sk, rest) => Some (sk, kept ++ rest)
      end
  end.

(** tcp_collapse_ofo_queue: the queue is cut where there is a gap; [seg] is the part collected
    so far, with the range [start, end_]. *)
Fixpoint collapse_ofo_loop sk seg q (start end_ : Z) : option (sock * list sk_buff) :=
  match q with
  | [] => tcp_collapse sk seg start end_
  | skb :: rest =>
    if after (seq skb) end_ || before (end_seq skb) start then
      match tcp_collapse sk seg start end_ with
      | None => None
      | Some (sk, seg) =>
        match collapse_ofo_loop sk [skb] rest (seq skb) (end_seq skb) with
        | None => None
        | Some (sk, q) => Some (sk, seg ++ q)
        end
      end
    else
      collapse_ofo_loop sk (seg ++ [skb]) rest
        (if before (seq skb) start then seq skb else start) (if after (end_seq skb) end_ then end_seq skb else end_)
  end.
Definition tcp_collapse_ofo_queue sk : option sock :=
  match out_of_order_queue (tp sk) with
  | [] => Some sk
  | skb :: rest =>
    match collapse_ofo_loop sk [skb] rest (seq skb) (end_seq skb) with
    | None => None
    | Some (sk, q) => Some (sk <| tp; out_of_order_queue := q |>)
    end
  end.

(** tcp_prune_ofo_queue: drop the whole out-of-order queue and its SACK state. *)
Definition tcp_prune_ofo_queue sk : bool * sock :=
  match out_of_order_queue (tp sk) with
  | [] => (false, sk)
  | q =>
    let sk := (foldl kfree_skb sk q) <| tp; out_of_order_queue := [] |> in
    let sk := if negb (sack_ok (rx_opt (tp sk)) =? 0) then sk <| tp; rx_opt := tcp_sack_reset (rx_opt (tp sk)) |> else sk in
    (true, sk_mem_reclaim sk)
  end.

(** tcp_prune_queue: true when the socket is within its limits again. *)
Definition tcp_prune_queue sk : option (bool * sock) :=
  let sk := if sk_rmem_alloc sk >=? sk_rcvbuf sk then tcp_clamp_window sk
            else if tcp_memory_pressure
            then sk <| tp; rcv_ssthresh := Z.min (rcv_ssthresh (tp sk)) (4 * advmss (tp sk)) |> else sk in
  match tcp_collapse_ofo_queue sk with
  | None => None
  | Some sk =>
    let collapsed :=
      match sk_receive_queue sk with
      | [] => Some sk
      | q => match tcp_collapse sk q (copied_seq (tp sk)) (rcv_nxt (tp sk)) with
             | None => None
             | Some (sk, q) => Some (sk <| sk_receive_queue := q |>)
             end
      end in
    match collapsed with
    | None => None
    | Some sk =>
      let sk := sk_mem_reclaim sk in
      if sk_rmem_alloc sk <=? sk_rcvbuf sk then Some (true, sk) else
      let '(_, sk) := tcp_prune_ofo_queue sk in
      if sk_rmem_alloc sk <=? sk_rcvbuf sk then Some (true, sk)
      else Some (false, sk <| tp; pred_flags := 0 |>)
    end
  end.

(** tcp_try_rmem_schedule: true when the memory was reserved. *)
Definition tcp_try_rmem_schedule sk (size : Z) : option (bool * sock) :=
  let '(over, sk) := if sk_rmem_alloc sk >? sk_rcvbuf sk then (true, sk)
                     else let '(ok, sk) := sk_rmem_schedule sk size in (negb ok, sk) in
  if negb over then Some (true, sk) else
  match tcp_prune_queue sk with
  | None => None
  | Some (false, sk) => Some (false, sk)
  | Some (true, sk) =>
    let '(ok, sk) := sk_rmem_schedule sk size in
    if ok then Some (true, sk) else
    let '(pruned, sk) := tcp_prune_ofo_queue sk in
    if negb pruned then Some (false, sk) else
    let '(ok, sk) := sk_rmem_schedule sk size in Some (ok, sk)
  end.
End Collapse.

(** ** The byte stream a queue carries

    [f] gives the byte at every position of the peer's stream.  A buffer carries the positions
    from [p] to [e] when its sequence numbers are these positions modulo 2^32 and its payload is
    the stream there (a SYN or a FIN takes one position without payload).  All positions lie
    between [lo] and [hi]. *)
Definition fseq (f : Z -> Z) (p : Z) (n : nat) : list Z := (fun i => f (p + Z.of_nat i)) <$> List.seq 0 n.

Record seg (f : Z -> Z) (lo hi : Z) (skb : sk_buff) (p e : Z) : Prop := {
  seg_seq : seq skb = u32 p;
  seg_end : end_seq skb = u32 e;
  seg_lo : lo <= p;
  seg_le : p <= e;
  seg_hi : e <= hi;
  seg_len : 0 <= len skb /\ len skb = e - p - b2z (th_syn (skb_th skb)) - b2z (th_fin (skb_th skb));
  seg_off : 0 <= data_off skb /\ (Z.to_nat (data_off skb) <= length (bytes skb))%nat;
  seg_data : th_syn (skb_th skb) = false -> skb_copy_bits skb 0 (len skb) = fseq f p (Z.to_nat (len skb));
}.

(** [stream f lo hi pos q e]: reading [q] from position [pos] on gives the stream up to [e]
    without a gap; a buffer may start before the position it is read from. *)
Fixpoint stream (f : Z -> Z) (lo hi pos : Z) (q : list sk_buff) (e : Z) : Prop :=
  match q with
  | [] => pos = e
  | skb :: q => exists p e', seg f lo hi skb p e' /\ p <= pos /\ stream f lo hi (Z.max pos e') q e
  end.

Section StreamFacts.
Context (f : Z -> Z).

Lemma fseq_length p n : length (fseq f p n) = n.
Proof. unfold fseq. by rewrite length_fmap, length_seq. Qed.
Lemma fseq_app p a b : fseq f p (a + b) = fseq f p a ++ fseq f (p + Z.of_nat a) b.
Proof.
  unfold fseq. rewrite seq_app, fmap_app. f_equal. rewrite Nat.add_0_l.
  rewrite <- (Nat.add_0_r a) at 1. rewrite <- fmap_add_seq, <- list_fmap_compose.
  apply list_fmap_ext. intros i x _. cbn. f_equal. lia.
Qed.
(** A piece of a payload is a piece of the stream. *)
Lemma fseq_slice (d : list Z) p n off size : take n d = fseq f p n -> (off + size <= n)%nat ->
  take size (drop off d) = fseq f (p + Z.of_nat off) size.
Proof.
  intros H Hle. assert (E : take size (drop off d) = take size (drop off (take n d))).
  { rewrite !take_drop_commute, take_take. do 2 f_equal. lia. }
  rewrite E, H. replace n with (off + (size + (n - off - size)))%nat by lia.
  rewrite fseq_app, drop_app_length' by (by rewrite fseq_length). by rewrite fseq_app, take_app_length' by (by rewrite fseq_length).
Qed.

Lemma seg_weaken lo hi lo' hi' skb p e : lo' <= lo -> hi <= hi' -> seg f lo hi skb p e -> seg f lo' hi' skb p e.
Proof. intros ? ? []; split; auto; lia. Qed.
Lemma stream_end lo hi pos q e : pos <= hi -> stream f lo hi pos q e -> pos <= e <= hi.
Proof.
  revert pos. induction q as [|skb q IH]; intros pos Hp; cbn; [lia|].
  intros (p & e' & Hs & Hle & Hq). destruct Hs. apply IH in Hq; lia.
Qed.
Lemma stream_app lo hi pos q1 m q2 e : stream f lo hi pos q1 m -> stream f lo hi m q2 e -> stream f lo hi pos (q1 ++ q2) e.
Proof.
  revert pos. induction q1 as [|skb q1 IH]; intros pos; cbn; [by intros ->|].
  intros (p & e' & Hs & Hle & Hq) H2. exists p, e'. split_and!; [done..|]. by apply IH.
Qed.
Lemma stream_weaken lo hi lo' hi' pos q e : lo' <= lo -> hi <= hi' -> stream f lo hi pos q e -> stream f lo' hi' pos q e.
Proof.
  intros ? ?. revert pos. induction q as [|skb q IH]; intros pos; cbn; [done|].
  intros (p & e' & Hs & Hle & Hq). exists p, e'. eauto using seg_weaken.
Qed.
(** The payload of a segment from an offset on. *)
Lemma seg_copy lo hi skb p e off size : seg f lo hi skb p e -> th_syn (skb_th skb) = false -> 0 <= off -> 0 <= size ->
  off + size <= len skb -> skb_copy_bits skb off size = fseq f (p + off) (Z.to_nat size).
Proof.
  intros [] Hsyn Ho Hs Hle. specialize (seg_data0 Hsyn). unfold skb_copy_bits in *.
  replace (Z.to_nat (data_off skb + off)) with (Z.to_nat (data_off skb + 0) + Z.to_nat off)%nat by lia.
  rewrite <- drop_drop. erewrite fseq_slice; [|exact seg_data0|lia]. f_equal. lia.
Qed.
End StreamFacts.

(** Two sockets that differ in the receive memory accounting only. *)
Definition mem_frame (sk sk' : sock) : Prop :=
  exists a b, sk' = sk <| sk_rmem_alloc := a |> <| sk_forward_alloc := b |>.
#[export] Instance mem_frame_refl : Reflexive mem_frame.
Proof. intros sk. by exists (sk_rmem_alloc sk), (sk_forward_alloc sk). Qed.
#[export] Instance mem_frame_trans : Transitive mem_frame.
Proof. intros x y z (a & b & ->) (c & d & ->). by exists c, d. Qed.

Section CollapseFacts.
Context {K : Kernel} {SL : SeqLaws K} {FL : FreeLaws K}.
Context (f : Z -> Z) (lo hi : Z) (Hwin : hi - lo <= 2 ^ 30).

Lemma kfree_frame sk b : mem_frame sk (kfree_skb sk b).
Proof using FL. rewrite kfree_skb_spec. by eexists _, _. Qed.
Lemma set_owner_frame nskb sk : mem_frame sk (skb_set_owner_r nskb sk).
Proof using Type.
  exists (sk_rmem_alloc (skb_set_owner_r nskb sk)), (sk_forward_alloc (skb_set_owner_r nskb sk)).
  unfold skb_set_owner_r, sk_mem_charge. by case_if_as Hc.
Qed.

(** A buffer without SYN and FIN. *)
Definition plain (skb : sk_buff) : Prop := th_syn (skb_th skb) = false /\ th_fin (skb_th skb) = false.
Definition plain_head (q : list sk_buff) : Prop := forall skb, head q = Some skb -> plain skb.

Lemma collapse_find_ok sk q pos e : lo <= pos <= hi -> stream f lo hi pos q e ->
  exists sk' kept rest pos',
    collapse_find sk q (u32 pos) = (sk', kept, rest, u32 pos') /\ mem_frame sk sk' /\
    stream f lo hi pos kept pos' /\ stream f lo hi pos' rest e /\ lo <= pos' <= hi.
Proof using SL FL Hwin.
  revert sk pos. induction q as [|skb q IH]; intros sk pos Hpos.
  { cbn. intros ->. by exists sk, [], [], e. }
  intros (p & e' & Hs & Hle & Hq). pose proof Hs as []. cbn [collapse_find].
  rewrite seg_end0, before_u32 by lia. destruct (Z.ltb_spec pos e'); cbn [negb].
  2:{ rewrite Z.max_l in Hq by lia. destruct (IH (kfree_skb sk skb) pos Hpos Hq) as (sk' & kept & rest & pos' & -> & Hf & H').
      exists sk', kept, rest, pos'. split_and!; try tauto. etrans; [apply kfree_frame|done]. }
  assert (Hstop : stream f lo hi pos (skb :: q) e) by (by exists p, e'). rewrite Z.max_r in Hq by lia.
  case_if_as Hc; [by exists sk, [], (skb :: q), pos|].
  destruct q as [|next q].
  { cbn in Hq. subst e. exists sk, [skb], [], e'. split_and!; try done; lia. }
  case_if_as Hc'; [by exists sk, [], (skb :: next :: q), pos|].
  destruct (IH sk e' ltac:(lia) Hq) as (sk' & kept & rest & pos' & -> & Hf & Hk & Hr).
  exists sk', (skb :: kept), rest, pos'. split_and!; try tauto. exists p, e'. by rewrite Z.max_r by lia.
Qed.

(** The copy loop keeps the new buffer a segment of the stream, up to where it stops. *)
Lemma nskb_extend nskb skb p0 p pos e' size :
  seg f lo hi nskb p0 pos -> plain nskb -> seg f lo hi skb p e' -> plain skb -> p <= pos -> 0 < size -> pos + size <= e' ->
  length (bytes nskb) = Z.to_nat (data_off nskb + len nskb) ->
  let nskb' := nskb <| bytes := bytes nskb ++ skb_copy_bits skb (pos - p) size |> <| len := len nskb + size |>
                    <| end_seq := u32 (end_seq nskb + size) |> in
  seg f lo hi nskb' p0 (pos + size) /\ length (bytes nskb') = Z.to_nat (data_off nskb' + len nskb').
Proof using Type.
  intros Hn [Hn1 Hn2] Hs [Hp1 Hp2] Hle H0 Hsz Hlen. pose proof Hn as []. pose proof Hs as [].
  rewrite Hn1, Hn2, Hp1, Hp2 in *. cbn [b2z] in *.
  erewrite seg_copy by (eauto; lia). replace (p + (pos - p)) with pos by lia.
  split; [split|]; cbn; rewrite ?Hn1, ?Hn2; cbn [b2z]; try lia.
  - by rewrite seg_end0, u32_add_l.
  - rewrite length_app. lia.
  - intros _. specialize (seg_data0 eq_refl). unfold skb_copy_bits in *. cbn.
    replace (Z.to_nat (len nskb + size)) with (Z.to_nat (len nskb) + Z.to_nat size)%nat by lia.
    rewrite fseq_app, <- seg_data0, drop_app_le by lia.
    rewrite (take_ge (drop _ (bytes nskb))) by (rewrite length_drop; lia).
    rewrite take_ge by (rewrite length_app, length_drop, fseq_length; lia).
    do 2 f_equal. lia.
  - rewrite length_app, fseq_length. lia.
Qed.
Lemma plain_head_cons skb q : plain skb -> plain_head (skb :: q).
Proof. by intros ? ? [= <-]. Qed.

Lemma collapse_copy_ok q : forall sk nskb copy pos p0 e,
  0 < copy -> lo <= pos <= hi -> stream f lo hi pos q e -> plain_head q ->
  seg f lo hi nskb p0 pos -> plain nskb -> length (bytes nskb) = Z.to_nat (data_off nskb + len nskb) ->
  exists ret sk' nskb' q' pos',
    collapse_copy sk nskb q copy (u32 pos) = Some (ret, sk', nskb', q', u32 pos') /\ mem_frame sk sk' /\
    seg f lo hi nskb' p0 pos' /\ stream f lo hi pos' q' e /\ lo <= pos' <= hi /\
    (ret = false -> pos' = pos + copy /\ plain_head q').
Proof using SL FL Hwin.
  induction q as [|skb q IH]; intros sk nskb copy pos p0 e Hcopy Hpos Hst Hph Hn Hpn Hlen.
  { exists true, sk, nskb, [], pos. split_and!; try done; lia. }
  destruct Hst as (p & e' & Hs & Hle & Hq). pose proof Hs as []. destruct (Hph skb eq_refl) as [Hp1 Hp2].
  rewrite Hp1, Hp2 in seg_len0. cbn [b2z] in seg_len0.
  cbn [collapse_copy]. rewrite seg_seq0, seg_end0, !s32_sub_u32 by lia.
  destruct (Z.leb_spec copy 0); [lia|]. destruct (Z.ltb_spec (pos - p) 0); [lia|].
  (* what happens once the buffer is used up *)
  assert (Hnext : forall nskb copy pos', lo <= pos' <= hi -> Z.max pos e' = pos' -> 0 <= copy ->
    seg f lo hi nskb p0 pos' -> plain nskb -> length (bytes nskb) = Z.to_nat (data_off nskb + len nskb) ->
    exists ret sk' nskb' q' pos'',
    match q with
    | [] => Some (true, kfree_skb sk skb, nskb, [], u32 pos')
    | next :: _ => if th_syn (skb_th next) || th_fin (skb_th next) then Some (true, kfree_skb sk skb, nskb, q, u32 pos')
                   else collapse_copy (kfree_skb sk skb) nskb q copy (u32 pos')
    end = Some (ret, sk', nskb', q', u32 pos'') /\ mem_frame sk sk' /\
    seg f lo hi nskb' p0 pos'' /\ stream f lo hi pos'' q' e /\ lo <= pos'' <= hi /\
    (ret = false -> pos'' = pos' + copy /\ plain_head q')).
  { clear - IH Hq SL FL Hwin. intros nskb copy pos' Hp' Hm Hc Hn Hpn Hlen. rewrite Hm in Hq.
    pose proof (kfree_frame sk skb) as Hfr. destruct q as [|next q]; [by exists true, (kfree_skb sk skb), nskb, [], pos'|].
    case_if_as Hsf; [by exists true, (kfree_skb sk skb), nskb, (next :: q), pos'|].
    apply orb_false_elim in Hsf. destruct (Z.eqb_spec copy 0) as [->|].
    - exists false, (kfree_skb sk skb), nskb, (next :: q), pos'. cbn [collapse_copy]. split_and!; try done; try lia.
      intros _. split; [lia|]. by apply plain_head_cons.
    - destruct (IH (kfree_skb sk skb) nskb copy pos' p0 e) as (ret & sk' & nskb' & q' & pos'' & -> & H1 & H2); try done.
      { lia. } { by apply plain_head_cons. }
      exists ret, sk', nskb', q', pos''. split_and!; try tauto. by etrans. }
  destruct (Z.gtb_spec (e' - pos) 0) as [Hsz|Hsz]; cbn [andb].
  2:{ rewrite before_u32 by lia. destruct (Z.ltb_spec pos e'); [lia|]. cbn [negb]. apply Hnext; try done; lia. }
  destruct (Z.ltb_spec (len skb) (pos - p + Z.min copy (e' - pos))); [lia|].
  pose proof (nskb_extend nskb skb p0 p pos e' (Z.min copy (e' - pos)) Hn Hpn Hs (conj Hp1 Hp2) Hle ltac:(lia) ltac:(lia) Hlen) as [Hn' Hlen'].
  cbn zeta in Hn', Hlen'. rewrite !u32_add_l. rewrite before_u32 by lia.
  destruct (Z.ltb_spec (pos + Z.min copy (e' - pos)) e'); cbn [negb].
  - rewrite Z.min_l in * by lia. eexists false, sk, _, (skb :: q), (pos + copy). split_and!; try done; try lia.
    exists p, e'. split_and!; [done|lia|]. by replace (Z.max (pos + copy) e') with (Z.max pos e') by lia.
  - assert (e' - pos <= copy) by lia. rewrite Z.min_r in * by lia.
    destruct (Hnext _ (copy - (e' - pos)) (pos + (e' - pos)) ltac:(lia) ltac:(lia) ltac:(lia) Hn' Hpn Hlen') as (ret & sk' & nskb' & q' & pos'' & -> & ? & ? & ? & ? & H5).
    exists ret, sk', nskb', q', pos''. split_and!; try done; try lia. intros Hr. destruct (H5 Hr). split; [lia|done].
Qed.

Lemma collapse_loop_ok fuel : forall sk q pos e E,
  lo <= pos <= hi -> lo <= E <= hi -> stream f lo hi pos q e -> plain_head q ->
  exists sk' q', collapse_loop fuel sk q (u32 pos) (u32 E) = Some (sk', q') /\ mem_frame sk sk' /\ stream f lo hi pos q' e.
Proof using SL FL Hwin.
  induction fuel as [|fuel IH]; intros sk q pos e E Hpos HE Hst Hph; [by exists sk, q|].
  destruct q as [|skb q]; [by exists sk, []|]. cbn [collapse_loop].
  rewrite before_u32 by lia. destruct (Z.ltb_spec pos E); cbn [negb]; [|by exists sk, (skb :: q)].
  destruct (Z.ltb_spec (skb_max_copy skb) 0); [by exists sk, (skb :: q)|].
  rewrite u32_sub_l, u32_sub_r, (u32_small (E - pos)) by (unfold is_u32; lia).
  set (copy := if _ : bool then _ else _). assert (0 <= copy) by (subst copy; case_if_as Hc; lia).
  destruct (alloc_skb sk copy) as [[id ts]|]; [|by exists sk, (skb :: q)].
  destruct (Hph skb eq_refl) as [Hp1 Hp2]. pose proof Hst as (p & e' & Hs & Hle & _). destruct Hs.
  set (nskb := _ <| tstamp := 0 |>). pose proof (set_owner_frame nskb sk) as Hfr.
  assert (Hn : seg f lo hi nskb pos pos).
  { split; cbn; rewrite ?Hp1, ?Hp2; cbn [b2z]; try lia; try done. rewrite length_take. lia. }
  destruct (Z.eqb_spec copy 0) as [->|].
  { cbn [collapse_copy Z.leb Z.compare]. destruct (IH (skb_set_owner_r nskb sk) (skb :: q) pos e E) as (sk' & q' & -> & ? & ?); try done.
    exists sk', (nskb :: q'). split_and!; [done|by etrans|]. exists pos, pos. rewrite Z.max_l by lia. split_and!; [done|lia|done]. }
  destruct (collapse_copy_ok (skb :: q) (skb_set_owner_r nskb sk) nskb copy pos pos e) as (ret & sk1 & nskb1 & q1 & pos1 & -> & Hf1 & Hs1 & Hq1 & Hp1' & Hr);
    try done; try lia. { subst nskb. cbn. rewrite length_take. lia. }
  assert (Hcons : forall q', stream f lo hi pos1 q' e -> stream f lo hi pos (nskb1 :: q') e).
  { intros q' ?. exists pos, pos1. pose proof Hs1 as []. rewrite Z.max_r by lia. split_and!; [done|lia|done]. }
  destruct ret; [exists sk1, (nskb1 :: q1); split_and!; [done|by etrans|auto]|].
  destruct (Hr eq_refl) as [-> Hph1].
  destruct (IH sk1 q1 (pos + copy) e E) as (sk' & q' & -> & ? & ?); try done.
  exists sk', (nskb1 :: q'). split_and!; [done| |auto]. by do 2 (etrans; [done|]).
Qed.

Lemma tcp_collapse_stream sk q pos e E : lo <= pos <= hi -> lo <= E <= hi -> stream f lo hi pos q e ->
  exists sk' q', tcp_collapse sk q (u32 pos) (u32 E) = Some (sk', q') /\ mem_frame sk sk' /\ stream f lo hi pos q' e.
Proof using SL FL Hwin.
  intros Hpos HE Hst. unfold tcp_collapse.
  destruct (collapse_find_ok sk q pos e Hpos Hst) as (sk1 & kept & rest & pos1 & -> & Hf & Hk & Hr & Hp1).
  destruct rest as [|skb rest]; [cbn in Hr; subst e; by exists sk1, kept|].
  destruct (th_syn (skb_th skb) || th_fin (skb_th skb)) eqn:Hsf.
  { exists sk1, (kept ++ skb :: rest). split_and!; [done..|]. by eapply stream_app. }
  apply orb_false_elim in Hsf.
  destruct (collapse_loop_ok (Z.to_nat (u32 (u32 E - u32 pos1))) sk1 (skb :: rest) pos1 e E) as (sk2 & q2 & -> & Hf2 & Hq2); try done.
  { by apply plain_head_cons. }
  exists sk2, (kept ++ q2). split_and!; [done|by etrans|by eapply stream_app].
Qed.

(** Every round copies at least one byte, so more fuel than the distance to [end_] makes no
    difference: the loop terminates. *)
Lemma collapse_loop_fuel fuel : forall fuel' sk q pos e E,
  (forall skb, skb_max_copy skb <> 0) ->
  lo <= pos <= hi -> lo <= E <= hi -> stream f lo hi pos q e -> plain_head q -> E - pos <= Z.of_nat fuel -> (fuel <= fuel')%nat ->
  collapse_loop fuel' sk q (u32 pos) (u32 E) = collapse_loop fuel sk q (u32 pos) (u32 E).
Proof using SL FL Hwin.
  induction fuel as [|fuel IH]; intros fuel' sk q pos e E Hmax Hpos HE Hst Hph Hd Hle.
  { destruct fuel', q; try done. cbn [collapse_loop]. rewrite before_u32 by lia. destruct (Z.ltb_spec pos E); [lia|done]. }
  destruct fuel' as [|fuel']; [lia|]. destruct q as [|skb q]; [done|]. cbn [collapse_loop].
  rewrite before_u32 by lia. destruct (Z.ltb_spec pos E); [|done]. cbn [negb].
  case_if_as Hneg; [done|]. apply Z.ltb_ge in Hneg. specialize (Hmax skb) as Hm.
  rewrite u32_sub_l, u32_sub_r, (u32_small (E - pos)) by (unfold is_u32; lia).
  set (copy := if _ : bool then _ else _). assert (0 < copy) by (subst copy; case_if_as Hc; lia).
  destruct (alloc_skb sk copy) as [[id ts]|]; [|done].
  destruct (Hph skb eq_refl) as [Hp1 Hp2]. pose proof Hst as (p & e' & Hs & Hle' & _). destruct Hs.
  set (nskb := _ <| tstamp := 0 |>). destruct (collapse_copy_ok (skb :: q) (skb_set_owner_r nskb sk) nskb copy pos pos e)
    as (ret & sk1 & nskb1 & q1 & pos1 & -> & Hf1 & Hs1 & Hq1 & Hp1' & Hr); try done.
  { split; cbn; rewrite ?Hp1, ?Hp2; cbn [b2z]; try lia; try done. rewrite length_take. lia. }
  { subst nskb. cbn. rewrite length_take. lia. }
  destruct ret; [done|]. destruct (Hr eq_refl) as [-> Hph1]. by erewrite IH by (eauto; lia).
Qed.

(** ** The out-of-order queue

    A queue cut into runs: [from] and [to_] are the limits of the current run, and a buffer
    either starts within it or starts a new run further on.  (Buffers of one run are not
    necessarily sorted: an interrupted collapse leaves a buffer behind its copies.) *)
Fixpoint runs (from to_ : Z) (q : list sk_buff) : Prop :=
  match q with
  | [] => True
  | skb :: q => exists p e, seg f lo hi skb p e /\ from <= p /\ (if p <=? to_ then runs from (Z.max to_ e) q else runs p e q)
  end.
Definition ofo_ok (q : list sk_buff) : Prop := runs lo (lo - 1) q.

(** The positions a queue holds. *)
Definition holds (q : list sk_buff) (x : Z) : Prop := Exists (fun skb => exists p e, seg f lo hi skb p e /\ p <= x < e) q.

Lemma seg_unique skb p e p' e' : seg f lo hi skb p e -> seg f lo hi skb p' e' -> p = p' /\ e = e'.
Proof using Hwin. intros [A B] [A' B']. rewrite A in A'. rewrite B in B'. clear - A' B' Hwin seg_lo0 seg_le0 seg_hi0 seg_lo1 seg_le1 seg_hi1. warith. Qed.

Lemma stream_holds from pos q e x : lo <= from -> from <= pos -> stream f from hi pos q e -> pos <= x < e -> holds q x.
Proof using Type.
  intros Hlo. revert pos. induction q as [|skb q IH]; intros pos Hf Hst Hx; cbn in Hst; [lia|].
  destruct Hst as (p & e' & Hs & Hle & Hst). destruct (decide (x < e')).
  - left. exists p, e'. split; [eapply seg_weaken; [..|done]; lia|lia].
  - right. eapply (IH (Z.max pos e')); [lia|done|lia].
Qed.
Lemma holds_stream from pos q e x : lo <= from -> from <= pos <= hi -> stream f from hi pos q e -> holds q x -> from <= x < e.
Proof using Hwin.
  intros Hlo. revert pos. induction q as [|skb q IH]; intros pos Hf Hst Hc; inversion Hc as [? ? (p & e' & Hs & Hx)|? ? Hc']; subst;
    destruct Hst as (p1 & e1 & Hs1 & Hle & Hst).
  - destruct (seg_unique skb p e' p1 e1) as [-> ->]; [done|eapply seg_weaken; [..|done]; lia|].
    pose proof Hs1 as []. pose proof (stream_end f from hi (Z.max pos e1) q e ltac:(lia) Hst). lia.
  - pose proof Hs1 as []. eapply (IH (Z.max pos e1)); [lia|done|done].
Qed.
Lemma holds_app q1 q2 x : holds (q1 ++ q2) x <-> holds q1 x \/ holds q2 x.
Proof using Type. apply Exists_app. Qed.

(** A contiguous part followed by a queue that continues its run. *)
Lemma runs_stream from pos q1 m q2 : lo <= from <= pos -> stream f from hi pos q1 m -> runs from m q2 -> runs from pos (q1 ++ q2).
Proof using Type.
  revert pos. induction q1 as [|skb q1 IH]; intros pos Hf; cbn; [by intros ->|].
  intros (p & e' & Hs & Hle & Hst) Hr. exists p, e'. pose proof Hs as []. split_and!; [eapply seg_weaken; [..|done]; lia|lia|].
  destruct (Z.leb_spec p pos); [|lia]. apply IH; [lia|done|done].
Qed.
(** A run can start anywhere above the one before it. *)
Lemma runs_raise from to_ from' to' q : from' <= from -> to' <= to_ -> (forall skb p e, head q = Some skb -> seg f lo hi skb p e -> to_ < p) ->
  runs from to_ q -> runs from' to' q.
Proof using Type.
  destruct q as [|skb q]; [done|]. intros ? ? Hh (p & e & Hs & Hle & Hr). pose proof (Hh skb p e eq_refl Hs).
  exists p, e. split_and!; [done|lia|]. destruct (Z.leb_spec p to_); [lia|]. destruct (Z.leb_spec p to'); [lia|done].
Qed.
Lemma runs_new_stream from q1 m q2 from0 to0 :
  lo <= from <= hi -> from0 <= from -> to0 < from -> stream f from hi from q1 m ->
  (forall skb p e, head q2 = Some skb -> seg f lo hi skb p e -> m < p) -> runs from m q2 -> runs from0 to0 (q1 ++ q2).
Proof using Type.
  intros Hf H0 H1 Hst Hh Hr. destruct q1 as [|skb q1].
  { cbn in Hst. subst m. eapply runs_raise; [..|done]; try done; lia. }
  destruct Hst as (p & e' & Hs & Hle & Hst). pose proof Hs as []. assert (p = from) as -> by lia. rewrite Z.max_r in Hst by lia.
  exists from, e'. split_and!; [eapply seg_weaken; [..|done]; lia|lia|].
  destruct (Z.leb_spec from to0); [lia|]. eapply runs_stream; [|done..]. lia.
Qed.
Lemma runs_head_ge from to_ q skb p e : runs from to_ q -> head q = Some skb -> seg f lo hi skb p e -> from <= p.
Proof using Hwin.
  destruct q as [|skb' q]; [done|]. intros (p' & e' & Hs & Hle & _) [= ->] Hs'. by destruct (seg_unique skb p e p' e' Hs' Hs) as [-> _].
Qed.
End CollapseFacts.

Section OfoFacts.
Context {K : Kernel} {SL : SeqLaws K} {FL : FreeLaws K}.
Context (f : Z -> Z) (lo hi : Z) (Hwin : hi - lo <= 2 ^ 30).

Lemma stream_one skb p e : seg f lo hi skb p e -> stream f p hi p [skb] e.
Proof using Type. intros []. exists p, e. split_and!; [split; auto; lia|lia|]. cbn. lia. Qed.

Lemma collapse_ofo_loop_ok q : forall sk part from to_,
  lo <= from <= hi -> to_ <= hi -> from <= to_ -> stream f from hi from part to_ -> runs f lo hi from to_ q ->
  exists sk' q', collapse_ofo_loop sk part q (u32 from) (u32 to_) = Some (sk', q') /\ mem_frame sk sk' /\
    (forall from0 to0, from0 <= from -> to0 < from -> runs f lo hi from0 to0 q') /\
    (forall x, holds f lo hi q' x <-> holds f lo hi (part ++ q) x).
Proof using SL FL Hwin.
  induction q as [|skb q IH]; intros sk part from to_ Hf Ht Hft Hst Hr; cbn [collapse_ofo_loop].
  all: destruct (tcp_collapse_stream f from hi ltac:(lia) sk part from to_ to_ ltac:(lia) ltac:(lia) Hst) as (sk1 & part1 & Eq1 & Hfr1 & Hst1).
  all: assert (Hcov : forall x, holds f lo hi part1 x <-> holds f lo hi part x).
  1,3: intros x; split; intros Hx; (eapply (stream_holds _ _ _ from from); [lia|lia|done|eapply (holds_stream _ _ _ Hwin from from); [..|exact Hx]; [lia|lia|done]]).
  { exists sk1, part1. split_and!; [done..| |by intros; rewrite app_nil_r]. intros from0 to0 H0 H1.
    rewrite <- (app_nil_r part1). by eapply (runs_new_stream f lo hi from part1 to_ []). }
  destruct Hr as (p & e & Hs & Hle & Hr). pose proof Hs as []. rewrite seg_seq0, seg_end0, after_u32, before_u32 by lia.
  destruct (Z.ltb_spec e from); [lia|]. rewrite orb_false_r.
  destruct (Z.ltb_spec to_ p); destruct (Z.leb_spec p to_); try lia.
  - rewrite Eq1. destruct (IH sk1 [skb] p e) as (sk2 & q2 & -> & Hfr2 & Hr2 & Hcov2); try lia; try done.
    { by eapply stream_one. }
    exists sk2, (part1 ++ q2). split_and!; [done|by etrans| |].
    + intros from0 to0 H0' H1'. apply (runs_new_stream f lo hi from part1 to_ q2); [lia|done..| |apply Hr2; lia].
      intros skb' p' e' Hh Hs'. pose proof (runs_head_ge f lo hi Hwin p (p - 1) q2 skb' p' e' (Hr2 p (p - 1) ltac:(lia) ltac:(lia)) Hh Hs'). lia.
    + intros x. by rewrite !holds_app, Hcov, Hcov2.
  - rewrite before_u32, after_u32 by lia. destruct (Z.ltb_spec p from); [lia|].
    replace (if to_ <? e then u32 e else u32 to_) with (u32 (Z.max to_ e)) by (destruct (Z.ltb_spec to_ e); f_equal; lia).
    destruct (IH sk (part ++ [skb]) from (Z.max to_ e)) as (sk2 & q2 & -> & Hfr2 & Hr2 & Hcov2); try lia; try done.
    { eapply stream_app; [done|]. exists p, e. split_and!; [split; auto; lia|lia|done]. }
    exists sk2, q2. split_and!; [done..|]. intros x. by rewrite Hcov2, <- app_assoc.
Qed.

Lemma collapse_ofo_queue_ok sk : ofo_ok f lo hi (out_of_order_queue (tp sk)) ->
  exists sk' q', tcp_collapse_ofo_queue sk = Some (sk' <| tp; out_of_order_queue := q' |>) /\ mem_frame sk sk' /\
    ofo_ok f lo hi q' /\ (forall x, holds f lo hi q' x <-> holds f lo hi (out_of_order_queue (tp sk)) x).
Proof using SL FL Hwin.
  unfold tcp_collapse_ofo_queue, ofo_ok. destruct (out_of_order_queue (tp sk)) as [|skb q] eqn:E.
  { intros _. exists sk, []. split_and!; try done. by rewrite <- E. }
  intros (p & e & Hs & Hle & Hr). pose proof Hs as []. destruct (Z.leb_spec p (lo - 1)); [lia|]. rewrite seg_seq0, seg_end0.
  destruct (collapse_ofo_loop_ok q sk [skb] p e ltac:(lia) seg_hi0 seg_le0 ltac:(by eapply stream_one) Hr) as (sk' & q' & -> & Hfr & Hr' & Hcov).
  exists sk', q'. split_and!; [done..| |done]. apply Hr'; lia.
Qed.
End OfoFacts.

(** ** The headers of collapsed buffers

    Every buffer of a collapsed queue has the header of a buffer of the queue. *)
Definition th_all (P : tcphdr -> Prop) (q : list sk_buff) : Prop := Forall (fun b => P (skb_th b)) q.

Section Headers.
Context {K : Kernel} (P : tcphdr -> Prop).

Ltac th_done := intros; simplify_eq; split_and?; solve [done | apply Forall_nil_2 | by repeat constructor].

Lemma collapse_find_th q : forall sk start sk' kept rest start', th_all P q ->
  collapse_find sk q start = (sk', kept, rest, start') -> th_all P kept /\ th_all P rest.
Proof.
  induction q as [|skb q IH]; intros sk start sk' kept rest start' Hq; cbn; [th_done|].
  pose proof (Forall_inv Hq) as H1. pose proof (Forall_inv_tail Hq) as H2.
  case_if_as Hc; [by apply IH|]. case_if_as Hc'; [th_done|].
  destruct q as [|next q]; [th_done|].
  case_if_as Hc''; [th_done|].
  destruct (collapse_find sk (next :: q) (end_seq skb)) as [[[sk1 kept1] rest1] start1] eqn:E.
  intros [= _ <- <- _]. destruct (IH _ _ _ _ _ _ H2 E). split; [by constructor|done].
Qed.
Lemma collapse_copy_th q : forall sk nskb copy start ret sk' nskb' q' start', th_all P q -> P (skb_th nskb) ->
  collapse_copy sk nskb q copy start = Some (ret, sk', nskb', q', start') -> P (skb_th nskb') /\ th_all P q'.
Proof.
  induction q as [|skb q IH]; intros sk nskb copy start ret sk' nskb' q' start' Hq Hn; cbn; [th_done|].
  pose proof (Forall_inv_tail Hq) as H2. case_if_as Hc; [th_done|].
  case_if_as Hc1; [done|]. case_if_as Hc2; [done|].
  set (st := if _ : bool then _ else _). assert (Hst : P (skb_th (fst (fst st)))) by (subst st; by case_if_as Hc3).
  destruct st as [[n c] s]. cbn [fst] in Hst. case_if_as Hc4; [|th_done].
  destruct q as [|next q]; [th_done|]. case_if_as Hc5; [th_done|]. by apply IH.
Qed.
Lemma collapse_loop_th fuel : forall sk q start end_ sk' q', th_all P q -> collapse_loop fuel sk q start end_ = Some (sk', q') -> th_all P q'.
Proof.
  induction fuel as [|fuel IH]; intros sk q start end_ sk' q' Hq; cbn; [by intros [= _ <-]|].
  destruct q as [|skb q]; [by intros [= _ <-]|]. do 2 (case_if_as Hc; [by intros [= _ <-]|]; clear Hc).
  destruct (alloc_skb _ _) as [[id ts]|]; [|by intros [= _ <-]].
  set (nskb := _ <| tstamp := 0 |>). assert (Hn : P (skb_th nskb)) by apply (Forall_inv Hq).
  destruct (collapse_copy _ nskb _ _ _) as [[[[[ret sk1] nskb1] q1] s1]|] eqn:E; [|done].
  destruct (collapse_copy_th _ _ _ _ _ _ _ _ _ _ Hq Hn E) as [Hn1 Hq1]. destruct ret; [by intros [= _ <-]; constructor|].
  destruct (collapse_loop fuel sk1 q1 s1 end_) as [[sk2 q2]|] eqn:E2; [|done]. intros [= _ <-]. constructor; [done|]. by eapply IH.
Qed.
Lemma tcp_collapse_th sk q start end_ sk' q' : th_all P q -> tcp_collapse sk q start end_ = Some (sk', q') -> th_all P q'.
Proof.
  unfold tcp_collapse. intros Hq. destruct (collapse_find sk q start) as [[[sk1 kept] rest] s1] eqn:E.
  destruct (collapse_find_th _ _ _ _ _ _ _ Hq E) as [Hk Hr]. destruct rest as [|skb rest]; [by intros [= _ <-]|].
  case_if_as Hc; [intros [= _ <-]; by apply Forall_app|].
  destruct (collapse_loop _ _ _ _ _) as [[sk2 q2]|] eqn:E2; [|done]. intros [= _ <-]. apply Forall_app. split; [done|].
  exact (collapse_loop_th _ _ _ _ _ _ _ Hr E2).
Qed.
Lemma collapse_ofo_loop_th q : forall sk part s e sk' q', th_all P part -> th_all P q ->
  collapse_ofo_loop sk part q s e = Some (sk', q') -> th_all P q'.
Proof.
  induction q as [|skb q IH]; intros sk part s e sk' q' Hp Hq; cbn; [by apply tcp_collapse_th|].
  pose proof (Forall_inv Hq). pose proof (Forall_inv_tail Hq). case_if_as Hc.
  - destruct (tcp_collapse sk part s e) as [[sk1 part1]|] eqn:E; [|done].
    destruct (collapse_ofo_loop _ _ _ _ _) as [[sk2 q2]|] eqn:E2; [|done]. intros [= _ <-]. apply Forall_app. split; [exact (tcp_collapse_th _ _ _ _ _ _ Hp E)|].
    eapply IH; [..|exact E2]; [by constructor|done].
  - apply IH; [apply Forall_app; split; [done|by constructor]|done].
Qed.
Lemma collapse_ofo_queue_th sk sk' : th_all P (out_of_order_queue (tp sk)) -> tcp_collapse_ofo_queue sk = Some sk' ->
  th_all P (out_of_order_queue (tp sk')).
Proof.
  unfold tcp_collapse_ofo_queue. destruct (out_of_order_queue (tp sk)) as [|skb q] eqn:E; [intros ? [= <-]; by rewrite E|].
  intros Hq. destruct (collapse_ofo_loop _ _ _ _ _) as [[sk1 q1]|] eqn:E1; [|done]. intros [= <-]. cbn.
  pose proof (Forall_inv Hq). pose proof (Forall_inv_tail Hq).
  eapply (collapse_ofo_loop_th q sk [skb]); [by constructor|done|exact E1].
Qed.
End Headers.

(** ** The receive queues of a socket

    The receive queue carries the stream from [c] (copied_seq) to [r] (rcv_nxt); the
    out-of-order queue holds pieces of it that start after [r]. *)
Record rcv_inv (f : Z -> Z) (lo hi c r : Z) (sk : sock) : Prop := {
  ri_copied : copied_seq (tp sk) = u32 c;
  ri_nxt : rcv_nxt (tp sk) = u32 r;
  ri_win : lo <= c /\ c <= r /\ r <= hi;
  ri_rq : stream f lo hi c (sk_receive_queue sk) r;
  ri_ofo : ofo_ok f (r + 1) hi (out_of_order_queue (tp sk));
}.

(** What pruning may touch. *)
Definition prune_frame (sk sk' : sock) : Prop := exists q rb ra fa rq ss o pf oq,
  sk' = sk <| icsk; ack_quick := q |> <| sk_rcvbuf := rb |> <| sk_rmem_alloc := ra |> <| sk_forward_alloc := fa |>
           <| sk_receive_queue := rq |> <| tp; rcv_ssthresh := ss |> <| tp; rx_opt := o |> <| tp; pred_flags := pf |>
           <| tp; out_of_order_queue := oq |>.
(** Gives the components of the framed socket as the witnesses. *)
Ltac prune_frame_intro :=
  match goal with |- prune_frame _ ?s =>
    exists (ack_quick (icsk s)), (sk_rcvbuf s), (sk_rmem_alloc s), (sk_forward_alloc s), (sk_receive_queue s),
      (rcv_ssthresh (tp s)), (rx_opt (tp s)), (pred_flags (tp s)), (out_of_order_queue (tp s)) end.
#[export] Instance prune_frame_refl : Reflexive prune_frame.
Proof. intros sk. by prune_frame_intro. Qed.
#[export] Instance prune_frame_trans : Transitive prune_frame.
Proof. intros x y z (? & ? & ? & ? & ? & ? & ? & ? & ? & ->) (? & ? & ? & ? & ? & ? & ? & ? & ? & ->). by prune_frame_intro. Qed.
Lemma mem_prune_frame sk sk' : mem_frame sk sk' -> prune_frame sk sk'.
Proof. intros (a & b & ->). by prune_frame_intro. Qed.

Section PruneFacts.
Context {K : Kernel} {SL : SeqLaws K} {FL : FreeLaws K} {ML : MemLaws K}.
Context (f : Z -> Z) (lo hi : Z) (Hwin : hi - lo <= 2 ^ 30).

Lemma mem_rcv_inv c r sk sk' : mem_frame sk sk' -> rcv_inv f lo hi c r sk -> rcv_inv f lo hi c r sk'.
Proof using Type. by intros (a & b & ->) []. Qed.
Lemma reclaim_mem_frame sk : mem_frame sk (sk_mem_reclaim sk).
Proof using ML. destruct (mem_reclaim_frame sk) as [b ->]. by exists (sk_rmem_alloc sk), b. Qed.
Lemma rmem_schedule_frame sk n : mem_frame sk (snd (sk_rmem_schedule sk n)).
Proof using ML.
  unfold sk_rmem_schedule. cases_if; try reflexivity. rewrite mem_schedule_spec.
  eexists (sk_rmem_alloc sk), _. reflexivity.
Qed.
Lemma kfree_all_frame q sk : mem_frame sk (foldl kfree_skb sk q).
Proof using FL. revert sk. induction q as [|b q IH]; intros sk; [reflexivity|]. cbn. etrans; [apply kfree_frame|apply IH]. Qed.
Lemma clamp_window_frame sk : prune_frame sk (tcp_clamp_window sk) /\ sk_receive_queue (tcp_clamp_window sk) = sk_receive_queue sk /\
  tp (tcp_clamp_window sk) = (tp sk) <| rcv_ssthresh := rcv_ssthresh (tp (tcp_clamp_window sk)) |>.
Proof using Type. split_and!; [prune_frame_intro|..]; unfold tcp_clamp_window; cases_if; reflexivity. Qed.

(** tcp_prune_ofo_queue drops the whole queue and nothing else. *)
Lemma prune_ofo_queue_ok c r sk : rcv_inv f lo hi c r sk ->
  let sk' := snd (tcp_prune_ofo_queue sk) in
  rcv_inv f lo hi c r sk' /\ prune_frame sk sk' /\ out_of_order_queue (tp sk') = [].
Proof using FL ML.
  intros Hi. unfold tcp_prune_ofo_queue. destruct (out_of_order_queue (tp sk)) as [|b q] eqn:E; cbn [snd]; [by split_and!|].
  pose proof (kfree_all_frame (b :: q) sk) as Hf1. destruct Hf1 as (x & y & ->).
  set (sk1 := if _ : bool then _ else _). pose proof (reclaim_mem_frame sk1) as Hf2. destruct Hi as [? ? ? ? ?].
  assert (H1 : rcv_inv f lo hi c r sk1 /\ prune_frame sk sk1 /\ out_of_order_queue (tp sk1) = []).
  { subst sk1. case_if_as Hs; (split_and!; [by split|by prune_frame_intro|done]). }
  destruct H1 as (H1 & H2 & H3). split_and!; [by eapply mem_rcv_inv|etrans; [done|by apply mem_prune_frame]|].
  destruct Hf2 as (x' & y' & ->). done.
Qed.

(** The middle of tcp_prune_queue: both queues are collapsed. *)
Lemma prune_collapse_ok c r sk : rcv_inv f lo hi c r sk ->
  exists sk1 sk2, tcp_collapse_ofo_queue sk = Some sk1 /\
    match sk_receive_queue sk1 with
    | [] => Some sk1
    | q => match tcp_collapse sk1 q (copied_seq (tp sk1)) (rcv_nxt (tp sk1)) with
           | None => None
           | Some (sk, q) => Some (sk <| sk_receive_queue := q |>)
           end
    end = Some sk2 /\ rcv_inv f lo hi c r sk2 /\ prune_frame sk sk2 /\
    (forall P, th_all P (out_of_order_queue (tp sk)) -> th_all P (out_of_order_queue (tp sk2))) /\
    (forall x, holds f (r + 1) hi (out_of_order_queue (tp sk2)) x <-> holds f (r + 1) hi (out_of_order_queue (tp sk)) x).
Proof using SL FL Hwin.
  intros []. destruct (collapse_ofo_queue_ok f (r + 1) hi ltac:(lia) sk ri_ofo0) as (sk' & q' & E0 & (a & b & ->) & Hofo & Hcov).
  assert (Hth : forall P, th_all P (out_of_order_queue (tp sk)) -> th_all P q').
  { intros P HP. pose proof (collapse_ofo_queue_th P sk _ HP E0) as H. exact H. }
  rewrite E0.
  set (sk1 := _ <| tp; out_of_order_queue := q' |>). exists sk1.
  change (sk_receive_queue sk1) with (sk_receive_queue sk). change (copied_seq (tp sk1)) with (copied_seq (tp sk)).
  change (rcv_nxt (tp sk1)) with (rcv_nxt (tp sk)).
  destruct (sk_receive_queue sk) as [|skb rq] eqn:E.
  - exists sk1. split_and!; [done..|split; cbn; by rewrite ?E|by prune_frame_intro|exact Hth|done].
  - rewrite ri_copied0, ri_nxt0.
    destruct (tcp_collapse_stream f lo hi Hwin sk1 (skb :: rq) c r r ltac:(lia) ltac:(lia) ri_rq0) as (sk2 & q2 & -> & (a2 & b2 & ->) & Hst).
    eexists. split_and!; [done..|by split|by prune_frame_intro|exact Hth|done].
Qed.

Lemma prune_queue_ok_ c r sk : rcv_inv f lo hi c r sk ->
  exists b sk', tcp_prune_queue sk = Some (b, sk') /\ rcv_inv f lo hi c r sk' /\ prune_frame sk sk' /\
    (forall P, th_all P (out_of_order_queue (tp sk)) -> th_all P (out_of_order_queue (tp sk'))) /\
    (forall x, holds f (r + 1) hi (out_of_order_queue (tp sk')) x -> holds f (r + 1) hi (out_of_order_queue (tp sk)) x) /\
    (if b then sk_rmem_alloc sk' <= sk_rcvbuf sk'
     else sk_rcvbuf sk' < sk_rmem_alloc sk' /\ out_of_order_queue (tp sk') = [] /\ pred_flags (tp sk') = 0).
Proof using SL FL ML Hwin.
  intros Hi. unfold tcp_prune_queue. set (sk0 := if _ : bool then _ else _).
  assert (H0 : rcv_inv f lo hi c r sk0 /\ prune_frame sk sk0 /\ out_of_order_queue (tp sk0) = out_of_order_queue (tp sk)).
  { destruct (clamp_window_frame sk) as (Hc & Hrq & Htp). destruct Hi as [].
    subst sk0. destruct (_ >=? _).
    - split_and!; [|exact Hc|by rewrite Htp]. split; [by rewrite Htp..|done|by rewrite Hrq|by rewrite Htp].
    - destruct tcp_memory_pressure; (split_and!; [by split|by prune_frame_intro|reflexivity]). }
  clearbody sk0. destruct H0 as (Hi0 & Hf0 & Ho0).
  destruct (prune_collapse_ok c r sk0 Hi0) as (sk1 & sk2 & -> & -> & Hi2 & Hf2 & Hth & Hcov).
  pose proof (reclaim_mem_frame sk2) as Hf3. set (sk3 := sk_mem_reclaim sk2) in *. clearbody sk3.
  assert (H3 : rcv_inv f lo hi c r sk3 /\ prune_frame sk sk3 /\ out_of_order_queue (tp sk3) = out_of_order_queue (tp sk2)).
  { split_and!; [by eapply mem_rcv_inv|do 2 (etrans; [done|]); by apply mem_prune_frame|]. by destruct Hf3 as (? & ? & ->). }
  clear Hf3. destruct H3 as (Hi3 & Hf3 & Ho3). assert (Hcov3 : forall x, holds f (r + 1) hi (out_of_order_queue (tp sk3)) x -> holds f (r + 1) hi (out_of_order_queue (tp sk)) x).
  { intros x. rewrite Ho3, Hcov, Ho0. done. }
  assert (Hth3 : forall P, th_all P (out_of_order_queue (tp sk)) -> th_all P (out_of_order_queue (tp sk3))) by (rewrite Ho3, <- Ho0; exact Hth).
  destruct (Z.leb_spec (sk_rmem_alloc sk3) (sk_rcvbuf sk3)); [by exists true, sk3|].
  destruct (prune_ofo_queue_ok c r sk3 Hi3) as (Hi4 & Hf4 & Ho4). destruct (tcp_prune_ofo_queue sk3) as [pr sk4]. cbn [snd] in *.
  assert (Hf : prune_frame sk sk4) by (by etrans).
  assert (Hcov4 : forall x, holds f (r + 1) hi (out_of_order_queue (tp sk4)) x -> holds f (r + 1) hi (out_of_order_queue (tp sk)) x).
  { intros x. rewrite Ho4. unfold holds. by rewrite Exists_nil. }
  assert (Hth4 : forall P, th_all P (out_of_order_queue (tp sk)) -> th_all P (out_of_order_queue (tp sk4))).
  { intros P _. rewrite Ho4. apply Forall_nil_2. }
  destruct (Z.leb_spec (sk_rmem_alloc sk4) (sk_rcvbuf sk4)); [by exists true, sk4|].
  exists false, (sk4 <| tp; pred_flags := 0 |>). split_and!; try done; [by destruct Hi4|etrans; [done|by prune_frame_intro]].
Qed.

Definition keeps (sk sk' : sock) (c r : Z) : Prop :=
  rcv_inv f lo hi c r sk' /\ prune_frame sk sk' /\
  (forall P, th_all P (out_of_order_queue (tp sk)) -> th_all P (out_of_order_queue (tp sk'))).
Lemma mem_keeps_trans sk sk1 sk2 c r : keeps sk sk1 c r -> mem_frame sk1 sk2 -> keeps sk sk2 c r.
Proof using Type.
  intros (Hi & Hf & Ht) Hm. split_and!; [by eapply mem_rcv_inv|etrans; [done|by apply mem_prune_frame]|].
  destruct Hm as (? & ? & ->). done.
Qed.
Lemma mem_keeps sk sk' c r : mem_frame sk sk' -> rcv_inv f lo hi c r sk -> keeps sk sk' c r.
Proof using Type. intros Hm Hi. by eapply (mem_keeps_trans sk sk). Qed.

Lemma try_rmem_schedule_ok c r sk size : rcv_inv f lo hi c r sk ->
  exists b sk', tcp_try_rmem_schedule sk size = Some (b, sk') /\ rcv_inv f lo hi c r sk' /\ prune_frame sk sk' /\
    (forall P, th_all P (out_of_order_queue (tp sk)) -> th_all P (out_of_order_queue (tp sk'))).
Proof using SL FL ML Hwin.
  intros Hi. unfold tcp_try_rmem_schedule.
  set (start := if _ : bool then _ else _). assert (Hs : mem_frame sk (snd start)).
  { subst start. case_if_as Hc; [reflexivity|]. pose proof (rmem_schedule_frame sk size). by destruct (sk_rmem_schedule sk size). }
  destruct start as [over sk0]. cbn [snd] in Hs.
  assert (Hk0 : keeps sk sk0 c r) by (by apply mem_keeps). clear Hs Hi. destruct over; cbn [negb]; [|by exists true, sk0].
  destruct (prune_queue_ok_ c r sk0 (proj1 Hk0)) as (b & sk1 & -> & Hi1 & Hf1 & Hth1 & _ & _).
  assert (Hk1 : keeps sk sk1 c r).
  { destruct Hk0 as (_ & ? & ?). split_and!; [done|by etrans|auto]. }
  destruct b; [|by exists false, sk1].
  pose proof (rmem_schedule_frame sk1 size) as Hm. destruct (sk_rmem_schedule sk1 size) as [ok sk2]. cbn [snd] in Hm.
  assert (Hk2 : keeps sk sk2 c r) by (by eapply mem_keeps_trans). destruct ok; [by exists true, sk2|].
  destruct (prune_ofo_queue_ok c r sk2 (proj1 Hk2)) as (Hi3 & Hf3 & Ho3). destruct (tcp_prune_ofo_queue sk2) as [pr sk3]. cbn [snd] in *.
  assert (Hk3 : keeps sk sk3 c r).
  { destruct Hk2 as (_ & ? & ?). split_and!; [done|by etrans|]. intros P _. rewrite Ho3. apply Forall_nil_2. }
  destruct pr; cbn [negb]; [|by exists false, sk3].
  pose proof (rmem_schedule_frame sk3 size) as Hm4. destruct (sk_rmem_schedule sk3 size) as [ok sk4]. cbn [snd] in Hm4.
  exists ok, sk4. split; [done|by eapply mem_keeps_trans].
Qed.
End PruneFacts.

(** ** The properties *)
Section Properties.
Context {K : Kernel} {SL : SeqLaws K} {FL : FreeLaws K} {ML : MemLaws K}.
Implicit Types (f : Z -> Z) (lo hi : Z).

(** C30. tcp_collapse of a part of a queue that carries the peer's stream without a gap from [pos]
    to [e] (buffers may overlap; sequence numbers may wrap around; allocation may fail at any
    point) reaches no BUG() and leaves buffers that carry exactly the same bytes from [pos] to
    [e]; of the socket only the memory accounting changes. *)
Theorem tcp_collapse_ok f lo hi sk q pos e E :
  hi - lo <= 2 ^ 30 -> lo <= pos <= hi -> lo <= E <= hi -> stream f lo hi pos q e ->
  exists sk' q', tcp_collapse sk q (u32 pos) (u32 E) = Some (sk', q') /\ mem_frame sk sk' /\ stream f lo hi pos q' e.
Proof using SL FL. intros. by apply tcp_collapse_stream. Qed.

(** The copying loop of tcp_collapse terminates: when SKB_MAX_ORDER is never zero, each round
    copies at least one byte, so that with the fuel tcp_collapse gives it (the distance from
    start to end) or more the loop has ended by itself. *)
Theorem collapse_loop_terminates f lo hi fuel sk q pos e E :
  hi - lo <= 2 ^ 30 -> (forall skb, skb_max_copy skb <> 0) ->
  lo <= pos <= hi -> lo <= E <= hi -> stream f lo hi pos q e -> plain_head q ->
  (Z.to_nat (u32 (u32 E - u32 pos)) <= fuel)%nat -> pos <= E ->
  collapse_loop fuel sk q (u32 pos) (u32 E) = collapse_loop (Z.to_nat (u32 (u32 E - u32 pos))) sk q (u32 pos) (u32 E).
Proof using SL FL.
  intros. eapply collapse_loop_fuel; try done. rewrite u32_sub_l, u32_sub_r, u32_small by (unfold is_u32; lia). lia.
Qed.

(** tcp_prune_queue keeps the receive state: no BUG() is reached, the receive queue still
    carries the stream from copied_seq to rcv_nxt, the out-of-order queue is still cut into runs
    and holds no position it did not hold before, and nothing but the queues, the memory
    accounting, the buffer limit, rcv_ssthresh, the SACK state and the header prediction is
    touched.  It reports success exactly when the memory is within the buffer limit; otherwise
    the out-of-order queue is empty and the fast path is off. *)
Theorem tcp_prune_queue_ok f lo hi c r sk : hi - lo <= 2 ^ 30 -> rcv_inv f lo hi c r sk ->
  exists b sk', tcp_prune_queue sk = Some (b, sk') /\ rcv_inv f lo hi c r sk' /\ prune_frame sk sk' /\
    (forall x, holds f (r + 1) hi (out_of_order_queue (tp sk')) x -> holds f (r + 1) hi (out_of_order_queue (tp sk)) x) /\
    (if b then sk_rmem_alloc sk' <= sk_rcvbuf sk'
     else sk_rcvbuf sk' < sk_rmem_alloc sk' /\ out_of_order_queue (tp sk') = [] /\ pred_flags (tp sk') = 0).
Proof using SL FL ML. 
  intros Hw Hi. destruct (prune_queue_ok_ f lo hi Hw c r sk Hi) as (b & sk' & ? & ? & ? & _ & ?). by exists b, sk'.
Qed.

(** tcp_collapse_ofo_queue, for an out-of-order queue cut into runs: it reaches no BUG(), the
    result is again cut into runs, and it holds exactly the same positions of the stream. *)
Theorem tcp_collapse_ofo_queue_ok f lo hi sk : hi - lo <= 2 ^ 30 -> ofo_ok f lo hi (out_of_order_queue (tp sk)) ->
  exists sk' q', tcp_collapse_ofo_queue sk = Some (sk' <| tp; out_of_order_queue := q' |>) /\ mem_frame sk sk' /\
    ofo_ok f lo hi q' /\ (forall x, holds f lo hi q' x <-> holds f lo hi (out_of_order_queue (tp sk)) x).
Proof using SL FL. intros. by apply collapse_ofo_queue_ok. Qed.
End Properties.

(** ** Examples *)
Module Demo.
(** A stream whose byte at position p is p mod 256, and buffers with pieces of it. *)
Definition byte (p : Z) : Z := u8 p.
Definition base1 : Z := 2 ^ 32 - 100.
Definition piece (id : nat) (p n : Z) : sk_buff :=
  blank_skb <| skb_id := id |> <| bytes := replicate 20 0 ++ fseq byte p (Z.to_nat n) |> <| data_off := 20 |> <| len := n |>
            <| truesize := n + 2000 |> <| seq := u32 p |> <| end_seq := u32 (p + n) |>.
(** Two overlapping buffers across the wrap-around of the sequence numbers. *)
Definition rq : list sk_buff := [piece 1 base1 80; piece 2 (base1 + 60) 80].
Definition oq : list sk_buff := [piece 3 (base1 + 200) 50; piece 4 (base1 + 240) 50; piece 5 (base1 + 400) 10].
Definition sk_full : sock :=
  blank_sock <| sk_rcvbuf := 1000 |> <| sk_rmem_alloc := 20000 |> <| sk_receive_queue := rq |>
             <| tp; copied_seq := u32 base1 |> <| tp; rcv_nxt := u32 (base1 + 140) |> <| tp; out_of_order_queue := oq |>.

Lemma piece_seg lo id p n : lo <= p -> 0 <= n -> p + n <= base1 + 1000 -> seg byte lo (base1 + 1000) (piece id p n) p (p + n).
Proof.
  intros Hp Hn Hh. split; try done; cbn; try lia.
  intros _. unfold skb_copy_bits. change (take (Z.to_nat n) (fseq byte p (Z.to_nat n)) = fseq byte p (Z.to_nat n)).
  apply take_ge. rewrite fseq_length. lia.
Qed.
Lemma rq_stream : stream byte base1 (base1 + 1000) base1 rq (base1 + 140).
Proof.
  exists base1, (base1 + 80). split_and!; [by apply piece_seg|done|].
  exists (base1 + 60), (base1 + 140). split_and!; [|done|done].
  by apply (piece_seg _ 2 (base1 + 60) 80).
Qed.
Lemma oq_runs : ofo_ok byte (base1 + 141) (base1 + 1000) oq.
Proof.
  exists (base1 + 200), (base1 + 250). split_and!; [by apply (piece_seg _ 3 (base1 + 200) 50)|done|].
  exists (base1 + 240), (base1 + 290). split_and!; [by apply (piece_seg _ 4 (base1 + 240) 50)|done|].
  exists (base1 + 400), (base1 + 410). split_and!; [by apply (piece_seg _ 5 (base1 + 400) 10)|done|]. done.
Qed.
Lemma sk_full_inv : rcv_inv byte base1 (base1 + 1000) base1 (base1 + 140) sk_full.
Proof. split; [done..|exact rq_stream|exact oq_runs]. Qed.

(** Collapsing really copies: two overlapping buffers become one. *)
Example collapse_runs :
  option_map (fun r => (len <$> snd r, skb_copy_bits (default blank_skb (head (snd r))) 0 140)) (tcp_collapse sk_full rq (u32 base1) (u32 (base1 + 140)))
  = Some ([140], fseq byte base1 140).
Proof. vm_compute. reflexivity. Qed.

Lemma tcp_collapse_ok_witness :
  exists sk' q', tcp_collapse sk_full rq (u32 base1) (u32 (base1 + 140)) = Some (sk', q') /\ mem_frame sk_full sk' /\
    stream byte base1 (base1 + 1000) base1 q' (base1 + 140).
Proof. apply (tcp_collapse_ok byte base1 (base1 + 1000)); [done..|exact rq_stream]. Defined.
Lemma collapse_loop_terminates_witness :
  collapse_loop 5000 sk_full rq (u32 base1) (u32 (base1 + 140)) =
  collapse_loop (Z.to_nat (u32 (u32 (base1 + 140) - u32 base1))) sk_full rq (u32 base1) (u32 (base1 + 140)).
Proof.
  apply (collapse_loop_terminates byte base1 (base1 + 1000) 5000 sk_full rq base1 (base1 + 140)); try done.
  - exact rq_stream.
  - intros skb [= <-]. done.
  - vm_compute. lia.
Defined.
Lemma tcp_prune_queue_ok_witness :
  exists b sk', tcp_prune_queue sk_full = Some (b, sk') /\ rcv_inv byte base1 (base1 + 1000) base1 (base1 + 140) sk' /\ prune_frame sk_full sk' /\
    (forall x, holds byte (base1 + 141) (base1 + 1000) (out_of_order_queue (tp sk')) x -> holds byte (base1 + 141) (base1 + 1000) (out_of_order_queue (tp sk_full)) x) /\
    (if b then sk_rmem_alloc sk' <= sk_rcvbuf sk'
     else sk_rcvbuf sk' < sk_rmem_alloc sk' /\ out_of_order_queue (tp sk') = [] /\ pred_flags (tp sk') = 0).
Proof. apply (tcp_prune_queue_ok byte base1 (base1 + 1000)); [done|exact sk_full_inv]. Defined.
Lemma tcp_collapse_ofo_queue_ok_witness :
  exists sk' q', tcp_collapse_ofo_queue sk_full = Some (sk' <| tp; out_of_order_queue := q' |>) /\ mem_frame sk_full sk' /\
    ofo_ok byte (base1 + 141) (base1 + 1000) q' /\
    (forall x, holds byte (base1 + 141) (base1 + 1000) q' x <-> holds byte (base1 + 141) (base1 + 1000) (out_of_order_queue (tp sk_full)) x).
Proof. apply (tcp_collapse_ofo_queue_ok byte (base1 + 141) (base1 + 1000)); [done|exact oq_runs]. Defined.
End Demo.
