(* ===== verification/DataQueue.v ===== *)
(** * Queueing received data

    net/ipv4/tcp_input.c, lines 4100-4205, 4376-4412 and 4436-4651: RST and FIN processing, the
    out-of-order queue and [tcp_data_queue].

    A function that can reach a kernel BUG() (by collapsing a queue) returns [option]; a buffer
    that is not charged to the socket is freed without an effect on the socket. *)

From S2P Require Import Prelude TcpTypes Kernel RcvTune Rtt SackGen Minisocks Collapse.

(** What the receive path uses of the time-wait code: the original socket is done. *)
Class TimeWait (K : Kernel) := {
  time_wait : sock -> tcp_state -> Z -> sock;
  time_wait_done sk state timeo : time_wait sk state timeo = tcp_done sk;
}.
(** tcp_time_wait provides it, for every way to find the peer entry and the route. *)
Definition minisocks_time_wait {K : Kernel} {D : Type} {O : DstOps D}
  (peer_of : sock -> option inet_peer) (dst_of : sock -> option D) : TimeWait K.
Proof.
  refine {| time_wait sk state timeo := to_sk (tcp_time_wait (peer_of sk) (dst_of sk) sk state timeo) |}.
  intros sk state timeo. unfold tcp_time_wait. by repeat case_match.
Defined.

Section DataQueue.
Context {K : Kernel} {W : TimeWait K}.
Implicit Types (sk : sock) (skb : sk_buff) (q : list sk_buff).

Definition tcp_reset sk : sock :=
  let finish sk :=
    let sk := if negb (sock_flag sk SOCK_DEAD) then sk_error_report sk else sk in
    tcp_done sk in
  match sk_state sk with
  | TCP_SYN_SENT => finish (sk <| sk_err := Some ECONNREFUSED |>)
  | TCP_CLOSE_WAIT => finish (sk <| sk_err := Some EPIPE |>)
  | TCP_CLOSE => sk
  | _ => finish (sk <| sk_err := Some ECONNRESET |>)
  end.

(** The switch of tcp_fin. *)
Definition fin_transition sk : sock :=
  match sk_state sk with
  | TCP_SYN_RECV | TCP_ESTABLISHED => (tcp_set_state sk TCP_CLOSE_WAIT) <| icsk; ack_pingpong := 1 |>
  | TCP_CLOSE_WAIT | TCP_CLOSING => sk
  | TCP_LAST_ACK => sk
  | TCP_FIN_WAIT1 => tcp_set_state (tcp_send_ack sk) TCP_CLOSING
  | TCP_FIN_WAIT2 => time_wait (tcp_send_ack sk) TCP_TIME_WAIT 0
  | _ => sk
  end.
(** tcp_fin; sk_wake_async only sends a signal. *)
Definition tcp_fin sk : sock :=
  let sk := inet_csk_schedule_ack sk in
  let sk := sk <| sk_shutdown := bset (sk_shutdown sk) RCV_SHUTDOWN |> in
  let sk := sock_set_flag sk SOCK_DONE in
  let sk := fin_transition sk in
  let sk := (foldl kfree_skb sk (out_of_order_queue (tp sk))) <| tp; out_of_order_queue := [] |> in
  let sk := if tcp_is_sack (tp sk) then sk <| tp; rx_opt := tcp_sack_reset (rx_opt (tp sk)) |> else sk in
  let sk := sk_mem_reclaim sk in
  if negb (sock_flag sk SOCK_DEAD) then sk_state_change sk else sk.

(** tcp_ofo_queue; every round unlinks a buffer. *)
Fixpoint ofo_loop (fuel : nat) sk (dsack_high : Z) : sock :=
  match fuel with
  | O => sk
  | S fuel =>
    match out_of_order_queue (tp sk) with
    | [] => sk
    | skb :: rest =>
      if after (seq skb) (rcv_nxt (tp sk)) then sk else
      let '(sk, dsack_high) :=
        if before (seq skb) dsack_high then
          let dsack := dsack_high in
          let dsack_high := if before (end_seq skb) dsack_high then end_seq skb else dsack_high in
          (tcp_dsack_extend sk (seq skb) dsack, dsack_high)
        else (sk, dsack_high) in
      if negb (after (end_seq skb) (rcv_nxt (tp sk))) then
        ofo_loop fuel (kfree_skb (sk <| tp; out_of_order_queue := rest |>) skb) dsack_high
      else
        let sk := sk <| tp; out_of_order_queue := rest |> <| sk_receive_queue := sk_receive_queue sk ++ [skb] |>
                     <| tp; rcv_nxt := end_seq skb |> in
        ofo_loop fuel (if th_fin (skb_th skb) then tcp_fin sk else sk) dsack_high
    end
  end.
Definition tcp_ofo_queue sk : sock := ofo_loop (length (out_of_order_queue (tp sk))) sk (rcv_nxt (tp sk)).

(** "Find place to insert this segment", from the tail on: the buffers up to skb1, nearest
    first, and the ones after it. *)
Fixpoint find_place (rev_q : list sk_buff) (seq0 : Z) (later : list sk_buff) : list sk_buff * list sk_buff :=
  match rev_q with
  | [] => ([], later)
  | skb1 :: prev => if negb (after (seq skb1) seq0) then (rev_q, later) else find_place prev seq0 (skb1 :: later)
  end.
(** "And clean segments covered by new one as whole." *)
Fixpoint clean_covered sk (end_seq0 : Z) (later : list sk_buff) : sock * list sk_buff :=
  match later with
  | [] => (sk, [])
  | skb1 :: rest =>
    if negb (after end_seq0 (seq skb1)) then (sk, later)
    else if before end_seq0 (end_seq skb1) then (tcp_dsack_extend sk (seq skb1) end_seq0, later)
    else clean_covered (kfree_skb (tcp_dsack_extend sk (seq skb1) (end_seq skb1)) skb1) end_seq0 rest
  end.

Definition add_sack sk (seq end_seq : Z) : sock :=
  if tcp_is_sack (tp sk) then tcp_sack_new_ofo_skb sk seq end_seq else sk.

(** The out-of-order queue is not empty; skb is charged to the socket already. *)
Definition ofo_insert sk skb : sock :=
  let q := out_of_order_queue (tp sk) in
  let s := seq skb in
  let e := end_seq skb in
  let link sk (prev_rev later : list sk_buff) :=
    let '(sk, later) := clean_covered sk e later in
    add_sack (sk <| tp; out_of_order_queue := rev prev_rev ++ skb :: later |>) s e in
  match rev q with
  | [] => sk
  | skb1 :: _ =>
    if s =? end_seq skb1 then
      let sk := sk <| tp; out_of_order_queue := q ++ [skb] |> in
      let first := sack_at (selective_acks (tp sk)) 0 in
      if (num_sacks (rx_opt (tp sk)) =? 0) || negb (sb_end_seq first =? s) then add_sack sk s e
      else sk <| tp; selective_acks := <[0%nat := first <| sb_end_seq := e |>]> (selective_acks (tp sk)) |>
    else
      match find_place (rev q) s [] with
      | ([], later) => link sk [] later
      | (skb1 :: prev, later) =>
        if before s (end_seq skb1) then
          if negb (after e (end_seq skb1)) then add_sack (tcp_dsack_set (kfree_skb sk skb) s e) s e
          else if after s (seq skb1) then link (tcp_dsack_set sk s (end_seq skb1)) (skb1 :: prev) later
          else link sk prev (skb1 :: later)
        else link sk (skb1 :: prev) later
      end
  end.

(** A segment beyond rcv_nxt, after its memory was reserved. *)
Definition queue_ofo sk skb : sock :=
  let sk := sk <| tp; pred_flags := 0 |> in
  let sk := inet_csk_schedule_ack sk in
  let sk := skb_set_owner_r skb sk in
  match out_of_order_queue (tp sk) with
  | [] =>
    let sk := if tcp_is_sack (tp sk)
              then sk <| tp; rx_opt; num_sacks := 1 |>
                      <| tp; selective_acks := <[0%nat := mk_sack_block (seq skb) (end_seq skb)]> (selective_acks (tp sk)) |>
              else sk in
    sk <| tp; out_of_order_queue := [skb] |>
  | _ => ofo_insert sk skb
  end.

(** The labels of tcp_data_queue. *)
Definition out_of_window sk : sock := inet_csk_schedule_ack (tcp_enter_quickack_mode sk).

(** What follows the queueing of an in-sequence segment; [eaten] as in the code. *)
Definition in_sequence sk skb (eaten : Z) : sock :=
  let sk := sk <| tp; rcv_nxt := end_seq skb |> in
  let sk := if negb (len skb =? 0) then tcp_event_data_recv sk skb else sk in
  let sk := if th_fin (skb_th skb) then tcp_fin sk else sk in
  let sk := match out_of_order_queue (tp sk) with
            | [] => sk
            | _ =>
              let sk := tcp_ofo_queue sk in
              match out_of_order_queue (tp sk) with
              | [] => sk <| icsk; ack_pingpong := 0 |>
              | _ => sk
              end
            end in
  let sk := if negb (num_sacks (rx_opt (tp sk)) =? 0) then sk <| tp := tcp_sack_remove (tp sk) |> else sk in
  let sk := tcp_fast_path_check sk in
  if eaten >? 0 then sk
  else if negb (sock_flag sk SOCK_DEAD) then sk_data_ready sk else sk.

(** queue_and_out *)
Definition queue_and_out sk skb (eaten : Z) : option sock :=
  let scheduled := if eaten <? 0 then tcp_try_rmem_schedule sk (truesize skb) else Some (true, sk) in
  match scheduled with
  | None => None
  | Some (false, sk) => Some sk
  | Some (true, sk) =>
    let sk := skb_set_owner_r skb sk in
    Some (in_sequence (sk <| sk_receive_queue := sk_receive_queue sk ++ [skb] |>) skb eaten)
  end.

(** The direct copy to the waiting reader: the socket and [eaten]. *)
Definition ucopy_data sk skb : sock * Z :=
  let t := tp sk in
  if (ucopy_task t =? current) && (copied_seq t =? rcv_nxt t) && negb (ucopy_len t =? 0) && sk_owned sk && (urg_data t =? 0) then
    let chunk := Z.min (len skb) (u32 (ucopy_len t)) in
    if skb_copy_datagram_iovec sk skb 0 chunk then
      let sk := sk <| tp; ucopy_len := s32 (ucopy_len t - chunk) |> <| tp; copied_seq := u32 (copied_seq t + chunk) |> in
      (tcp_rcv_space_adjust sk, b2z (chunk =? len skb))
    else (sk, -1)
  else (sk, -1).

(** __skb_pull(skb, th->doff * 4) *)
Definition pull_header skb : sk_buff :=
  skb <| data_off := data_off skb + th_doff (skb_th skb) * 4 |> <| len := u32 (len skb - th_doff (skb_th skb) * 4) |>.

Definition tcp_data_queue sk skb : option sock :=
  if seq skb =? end_seq skb then Some sk else
  let skb := pull_header skb in
  let sk := sk <| tp := TCP_ECN_accept_cwr (tp sk) skb |> in
  let sk := sk <| tp; rx_opt; dsack := false |> in
  if seq skb =? rcv_nxt (tp sk) then
    if tcp_receive_window (tp sk) =? 0 then Some (out_of_window sk) else
    let '(sk, eaten) := ucopy_data sk skb in
    if eaten <=? 0 then queue_and_out sk skb eaten else Some (in_sequence sk skb eaten)
  else if negb (after (end_seq skb) (rcv_nxt (tp sk))) then
    Some (out_of_window (tcp_dsack_set sk (seq skb) (end_seq skb)))
  else if negb (before (seq skb) (u32 (rcv_nxt (tp sk) + tcp_receive_window (tp sk)))) then Some (out_of_window sk)
  else
    let sk := tcp_enter_quickack_mode sk in
    if before (seq skb) (rcv_nxt (tp sk)) then
      let sk := tcp_dsack_set sk (seq skb) (rcv_nxt (tp sk)) in
      if tcp_receive_window (tp sk) =? 0 then Some (out_of_window sk) else queue_and_out sk skb (-1)
    else
      let sk := TCP_ECN_check_ce sk skb in
      match tcp_try_rmem_schedule sk (truesize skb) with
      | None => None
      | Some (false, sk) => Some sk
      | Some (true, sk) => Some (queue_ofo sk skb)
      end.
End DataQueue.

(** ** What each step leaves alone *)

(** The part of a socket the receive invariant is about. *)
Definition rcv_part (sk : sock) := (sk_receive_queue sk, out_of_order_queue (tp sk), copied_seq (tp sk), rcv_nxt (tp sk)).

Lemma rcv_inv_ext f lo hi c r sk sk' : rcv_part sk' = rcv_part sk -> rcv_inv f lo hi c r sk -> rcv_inv f lo hi c r sk'.
Proof. unfold rcv_part. intros [= H1 H2 H3 H4] []. split; congruence. Qed.

Section Frames.
Context {K : Kernel} {ML : MemLaws K} {FL : FreeLaws K}.
Implicit Types (sk : sock) (skb : sk_buff).

Lemma mem_part sk sk' : mem_frame sk sk' -> rcv_part sk' = rcv_part sk.
Proof using Type. by intros (a & b & ->). Qed.
Lemma dsack_set_part sk s e : rcv_part (tcp_dsack_set sk s e) = rcv_part sk.
Proof using Type. unfold tcp_dsack_set. by case_if_as Hc. Qed.
Lemma dsack_extend_part sk s e : rcv_part (tcp_dsack_extend sk s e) = rcv_part sk.
Proof using Type. unfold tcp_dsack_extend. case_if_as Hc; [apply dsack_set_part|done]. Qed.
Lemma quickack_part sk : rcv_part (tcp_enter_quickack_mode sk) = rcv_part sk.
Proof using Type. unfold tcp_enter_quickack_mode. by destruct (incr_quickack_frame sk) as [q ->]. Qed.
Lemma out_of_window_part sk : rcv_part (out_of_window sk) = rcv_part sk.
Proof using Type. unfold out_of_window, inet_csk_schedule_ack. exact (quickack_part sk). Qed.
Lemma check_ce_part sk skb : rcv_part (TCP_ECN_check_ce sk skb) = rcv_part sk.
Proof using Type. by destruct (check_ce_frame sk skb) as (? & ? & ? & ? & -> & _). Qed.
Lemma add_sack_part sk s e : rcv_part (add_sack sk s e) = rcv_part sk.
Proof using Type.
  unfold add_sack, tcp_sack_new_ofo_skb, tcp_sack_maybe_coalesce, set_sacks. case_if_as Hc; [|done]. cbn zeta.
  case_if_as H0; [done|]. destruct (find_extend _ _ _ _ _) as [[i arr]|].
  - by case_if_as H1.
  - by case_if_as H1.
Qed.
Lemma event_data_recv_part sk skb : rcv_part (tcp_event_data_recv sk skb) = rcv_part sk.
Proof using ML.
  destruct (event_data_recv_frame sk skb) as (sk0 & e & s & -> & -> & -> & a & b & c & q & f & x & y & z & He & _ & _).
  transitivity (rcv_part (TCP_ECN_check_ce e skb)); [|by rewrite check_ce_part, He].
  case_if_as Hc; [|done]. by destruct (grow_window_frame (TCP_ECN_check_ce e skb) skb) as (s1 & q1 & ->).
Qed.
Lemma rcv_space_adjust_part sk : rcv_part (tcp_rcv_space_adjust sk) = rcv_part sk.
Proof using Type. unfold tcp_rcv_space_adjust. cbn zeta. cases_if; reflexivity. Qed.
Lemma sack_remove_part sk : rcv_part (sk <| tp := tcp_sack_remove (tp sk) |>) = rcv_part sk.
Proof using Type. unfold tcp_sack_remove. case_match eqn:E; unfold rcv_part, set_sacks; cbn; by rewrite ?E. Qed.
Lemma clean_covered_part e q : forall sk, rcv_part (fst (clean_covered sk e q)) = rcv_part sk.
Proof using FL.
  induction q as [|skb q IH]; intros sk; cbn; [done|]. cases_if; cbn; [done|by rewrite dsack_extend_part|].
  by rewrite IH, (mem_part _ _ (kfree_frame _ _)), dsack_extend_part.
Qed.
End Frames.

(** ** Runs *)
Section Runs.
Context (f : Z -> Z) (lo hi : Z).

Lemma runs_mono q : forall from to_ from' to', from' <= from -> to_ <= to' -> runs f lo hi from to_ q -> runs f lo hi from' to' q.
Proof.
  induction q as [|b q IH]; intros from to_ from' to' H1 H2; cbn; [done|].
  intros (p & e & Hs & Hle & Hr). exists p, e. split_and!; [done|lia|].
  destruct (Z.leb_spec p to_), (Z.leb_spec p to'); try lia; try done; (eapply IH; [..|done]; lia).
Qed.
(** Raising the lower limit of a queue that starts above it. *)
Lemma runs_tighten q : forall lo' from to_, lo' <= from -> runs f lo hi from to_ q -> runs f lo' hi from to_ q.
Proof.
  induction q as [|b q IH]; intros lo' from to_ H1; cbn; [done|].
  intros (p & e & Hs & Hle & Hr). exists p, e. split_and!; [destruct Hs; split; auto; lia|lia|].
  destruct (Z.leb_spec p to_); (apply IH; [lia|done]).
Qed.
Lemma runs_drop from to_ b p e q : hi - lo <= 2 ^ 30 -> seg f lo hi b p e -> p <= to_ -> e <= to_ -> runs f lo hi from to_ (b :: q) -> runs f lo hi from to_ q.
Proof.
  intros Hw Hs H1 H2 (p' & e' & Hs' & Hle & Hr). destruct (seg_unique f lo hi Hw b p e p' e' Hs Hs') as [<- <-].
  destruct (Z.leb_spec p to_); [|lia]. by rewrite Z.max_l in Hr by lia.
Qed.
(** A buffer of which a neighbour has all the data may go. *)
Lemma runs_drop_covered b b2 p e p2 e2 q2 q1 : forall from to_, hi - lo <= 2 ^ 30 ->
  seg f lo hi b p e -> seg f lo hi b2 p2 e2 -> p2 <= e -> e2 <= e ->
  runs f lo hi from to_ (q1 ++ b :: b2 :: q2) -> runs f lo hi from to_ (q1 ++ b :: q2).
Proof.
  induction q1 as [|b1 q1 IH]; intros from to_ Hw Hs Hs2 H1 H2.
  - intros (p' & e' & Hs' & Hle & Hr). destruct (seg_unique f lo hi Hw b p e p' e' Hs Hs') as [<- <-].
    exists p, e. split_and!; [done..|]. destruct (Z.leb_spec p to_); (eapply runs_drop; [done|exact Hs2| | |exact Hr]; lia).
  - cbn. intros (p' & e' & Hs' & Hle & Hr). exists p', e'. split_and!; [done..|]. case_if_as Hc; by apply IH.
Qed.

(** Insertion behind a buffer that starts no later, before buffers that start no earlier. *)
Lemma runs_insert b p e q2 q1 : forall from to_, hi - lo <= 2 ^ 30 -> seg f lo hi b p e ->
  match last q1 with
  | Some b1 => exists p1 e1, seg f lo hi b1 p1 e1 /\ p1 <= p
  | None => from <= p
  end \/ (exists b2 p2 e2, head q2 = Some b2 /\ seg f lo hi b2 p2 e2 /\ p2 <= p) ->
  Forall (fun b2 => forall p2 e2, seg f lo hi b2 p2 e2 -> p <= p2) q2 ->
  runs f lo hi from to_ (q1 ++ q2) -> runs f lo hi from to_ (q1 ++ b :: q2).
Proof.
  induction q1 as [|b1 q1 IH]; intros from to_ Hw Hs Hl Hq2 Hr.
  - assert (from <= p).
    { destruct Hl as [Hl|(b2 & p2 & e2 & Hh & Hs2 & Hle)]; [done|].
      pose proof (runs_head_ge f lo hi Hw from to_ q2 b2 p2 e2 Hr Hh Hs2). lia. }
    exists p, e. split_and!; [done..|]. cbn in Hr. destruct (Z.leb_spec p to_).
    + eapply runs_mono; [..|exact Hr]; lia.
    + destruct q2 as [|b2 q2]; [done|]. destruct Hr as (p2 & e2 & Hs2 & Hle & Hr). pose proof (Forall_inv Hq2 p2 e2 Hs2).
      exists p2, e2. split_and!; [done|lia|]. destruct (Z.leb_spec p2 to_); [lia|].
      destruct (Z.leb_spec p2 e); [|done]. eapply runs_mono; [..|exact Hr]; lia.
  - cbn in *. destruct Hr as (p1 & e1 & Hs1 & Hle & Hr). exists p1, e1. split_and!; [done..|].
    assert (Hl' : forall from', from' <= p1 ->
      match last q1 with Some b1 => exists p1 e1, seg f lo hi b1 p1 e1 /\ p1 <= p | None => from' <= p end
      \/ (exists b2 p2 e2, head q2 = Some b2 /\ seg f lo hi b2 p2 e2 /\ p2 <= p)).
    { intros from' Hf. destruct Hl as [Hl|Hl]; [left|by right]. rewrite last_cons in Hl.
      destruct (last q1); [done|].
      destruct Hl as (p1' & e1' & Hs1' & Hp). destruct (seg_unique f lo hi Hw b1 p1 e1 p1' e1' Hs1 Hs1') as [<- <-]. lia. }
    case_if_as Hc; (apply IH; [done|done|apply Hl'; lia|done|done]).
Qed.
End Runs.

(** ** Insertion into the out-of-order queue *)
Section Insert.
Context {K : Kernel} {SL : SeqLaws K} {FL : FreeLaws K} {ML : MemLaws K}.
Context (f : Z -> Z) (lo hi : Z) (Hwin : hi - lo <= 2 ^ 30).
Implicit Types (sk : sock) (skb b : sk_buff) (q : list sk_buff).

Definition is_seg b : Prop := exists p e, seg f lo hi b p e.
(** A buffer starts at [p] or later. *)
Definition starts_ge (p : Z) b : Prop := forall p' e', seg f lo hi b p' e' -> p <= p'.

Lemma runs_segs q : forall from to_, runs f lo hi from to_ q -> Forall is_seg q.
Proof using Type.
  induction q as [|b q IH]; intros from to_; cbn; [constructor|]. intros (p & e & Hs & _ & Hr).
  constructor; [by exists p, e|]. destruct (p <=? to_); by eapply IH.
Qed.

Lemma find_place_ok p rq : lo <= p <= hi -> forall later, Forall is_seg rq -> Forall (starts_ge p) later ->
  let '(pr, la) := find_place rq (u32 p) later in
  rev rq ++ later = rev pr ++ la /\ Forall (starts_ge p) la /\
  match pr with [] => True | b1 :: _ => exists p1 e1, seg f lo hi b1 p1 e1 /\ p1 <= p end.
Proof using SL Hwin.
  intros Hp. induction rq as [|b rq IH]; intros later Hrq Hla; cbn; [done|].
  destruct (Forall_inv Hrq) as (p1 & e1 & Hs). pose proof Hs as []. rewrite seg_seq, after_u32 by lia.
  destruct (Z.ltb_spec p p1); cbn [negb]; [|split_and!; [done..|]; by exists p1, e1].
  specialize (IH (b :: later) (Forall_inv_tail Hrq)). destruct (find_place rq (u32 p) (b :: later)) as [pr la].
  rewrite <- app_assoc. apply IH. constructor; [|done]. intros p' e' Hs'.
  destruct (seg_unique f lo hi Hwin b p1 e1 p' e' Hs Hs') as [<- <-]. lia.
Qed.

Lemma clean_covered_ok skb p e q1 later : forall sk, seg f lo hi skb p e -> Forall (starts_ge p) later -> Forall is_seg later ->
  ofo_ok f lo hi (q1 ++ skb :: later) ->
  let later' := snd (clean_covered sk (u32 e) later) in
  ofo_ok f lo hi (q1 ++ skb :: later') /\ (forall P, th_all P later -> th_all P later').
Proof using SL Hwin.
  induction later as [|b later IH]; intros sk Hs Hge Hsg Hr; cbn; [done|].
  destruct (Forall_inv Hsg) as (p1 & e1 & Hs1). pose proof (Forall_inv Hge p1 e1 Hs1). pose proof Hs1 as []. pose proof Hs as [].
  rewrite seg_seq, seg_end, after_u32, before_u32 by lia.
  destruct (Z.ltb_spec p1 e); cbn [negb]; [|done]. destruct (Z.ltb_spec e e1); [done|].
  destruct (IH (kfree_skb (tcp_dsack_extend sk (u32 p1) (u32 e1)) b) Hs (Forall_inv_tail Hge) (Forall_inv_tail Hsg)) as [Hok Hth].
  { eapply runs_drop_covered; [done|exact Hs|exact Hs1| | |exact Hr]; lia. }
  split; [done|]. intros P HP. apply Hth. exact (Forall_inv_tail HP).
Qed.

(** What insertion has to achieve: the queue is still cut into runs and holds the new data. *)
Record inserted (sk sk' : sock) skb (p e : Z) : Prop := {
  ins_ok : ofo_ok f lo hi (out_of_order_queue (tp sk'));
  ins_th P : th_all P (out_of_order_queue (tp sk)) -> P (skb_th skb) -> th_all P (out_of_order_queue (tp sk'));
  ins_holds x : p <= x < e -> holds f lo hi (out_of_order_queue (tp sk')) x;
  ins_rq : sk_receive_queue sk' = sk_receive_queue sk;
  ins_copied : copied_seq (tp sk') = copied_seq (tp sk);
  ins_nxt : rcv_nxt (tp sk') = rcv_nxt (tp sk);
}.
Lemma inserted_ext sk sk1 sk2 skb p e : rcv_part sk2 = rcv_part sk1 -> inserted sk sk1 skb p e -> inserted sk sk2 skb p e.
Proof using Type. unfold rcv_part. intros [= H1 H2 H3 H4] []. split; rewrite ?H2; try congruence; auto. Qed.

Lemma holds_mid q1 skb q2 p e x : seg f lo hi skb p e -> p <= x < e -> holds f lo hi (q1 ++ skb :: q2) x.
Proof using Type. intros Hs Hx. apply Exists_app. right. left. by exists p, e. Qed.

Lemma link_ok sk sk0 skb p e q1 later :
  rcv_part sk0 = rcv_part sk -> out_of_order_queue (tp sk) = q1 ++ later -> seg f lo hi skb p e ->
  Forall (starts_ge p) later -> Forall is_seg later -> ofo_ok f lo hi (q1 ++ skb :: later) ->
  inserted sk (let '(s, l) := clean_covered sk0 (u32 e) later in add_sack (s <| tp; out_of_order_queue := q1 ++ skb :: l |>) (u32 p) (u32 e)) skb p e.
Proof using SL FL Hwin.
  intros Hp0 Hq Hs Hge Hsg Hr. pose proof (clean_covered_part (u32 e) later sk0) as Hpart.
  destruct (clean_covered_ok skb p e q1 later sk0 Hs Hge Hsg Hr) as [Hok Hth].
  destruct (clean_covered sk0 (u32 e) later) as [s l]. cbn [fst snd] in *.
  eapply inserted_ext; [apply add_sack_part|]. rewrite Hp0 in Hpart. unfold rcv_part in Hpart. injection Hpart as H1 H2 H3 H4.
  split; cbn; try done.
  - intros P HP Hskb. rewrite Hq in HP. apply Forall_app in HP as [HP1 HP2]. apply Forall_app. split; [done|]. constructor; [done|]. by apply Hth.
  - intros x Hx. by eapply holds_mid.
Qed.

Lemma ofo_insert_ok sk skb p e : out_of_order_queue (tp sk) <> [] -> ofo_ok f lo hi (out_of_order_queue (tp sk)) ->
  seg f lo hi skb p e -> inserted sk (ofo_insert sk skb) skb p e.
Proof using SL FL Hwin.
  intros Hne Hok Hs. unfold ofo_insert. pose proof Hs as []. rewrite seg_seq, seg_end. clear seg_len seg_off seg_data.
  set (q := out_of_order_queue (tp sk)) in *. pose proof (runs_segs q _ _ Hok) as Hsg.
  destruct (rev q) as [|t tl] eqn:Er; [apply (f_equal (@rev _)) in Er; rewrite rev_involutive in Er; done|].
  assert (Hsr : Forall is_seg (t :: tl)) by (rewrite <- Er; by apply Forall_rev).
  case_if_as Htail.
  { (* right behind the last buffer *)
    apply Z.eqb_eq in Htail. assert (Hins : inserted sk (sk <| tp; out_of_order_queue := q ++ [skb] |>) skb p e).
    { split; cbn; try done.
      - apply (runs_insert f lo hi skb p e [] q); [done..| | |by rewrite app_nil_r]; [left|constructor].
        assert (Hl : last q = Some t) by (rewrite <- (rev_involutive q), Er; cbn; by rewrite last_snoc). rewrite Hl.
        destruct (Forall_inv Hsr) as (p1 & e1 & Hs1). exists p1, e1. split; [done|]. destruct Hs1 as []. clear - Hwin Htail seg_end0 seg_lo seg_le seg_hi seg_lo0 seg_le0 seg_hi0.
        rewrite seg_end0 in Htail. warith.
      - intros P HP ?. apply Forall_app. split; [done|by constructor].
      - intros x Hx. by eapply holds_mid. }
    case_if_as Hn; [eapply inserted_ext; [apply add_sack_part|exact Hins]|]. eapply inserted_ext; [|exact Hins]. done. }
  pose proof (find_place_ok p (t :: tl) ltac:(lia) [] Hsr ltac:(constructor)) as Hfp.
  destruct (find_place (t :: tl) (u32 p) []) as [pr la]. destruct Hfp as (Hsplit & Hge & Hpr).
  rewrite <- Er, rev_involutive, app_nil_r in Hsplit. rewrite Hsplit in Hsg. apply Forall_app in Hsg as [Hsg1 Hsg2].
  destruct pr as [|b1 prev]; [apply (link_ok sk sk); try done; apply (runs_insert f lo hi skb p e la []); [done..|left; exact seg_lo|done|]; unfold ofo_ok in Hok; by rewrite Hsplit in Hok|].
  destruct Hpr as (p1 & e1 & Hs1 & Hle). pose proof Hs1 as []. rewrite seg_seq0, seg_end0, before_u32, after_u32, after_u32 by lia.
  assert (Hafter : forall sk0, rcv_part sk0 = rcv_part sk -> inserted sk (let '(s, l) := clean_covered sk0 (u32 e) la in
      add_sack (s <| tp; out_of_order_queue := rev (b1 :: prev) ++ skb :: l |>) (u32 p) (u32 e)) skb p e).
  { intros sk0 H0. apply (link_ok sk sk0); try done. apply (runs_insert f lo hi skb p e la (rev (b1 :: prev))); [done..| |done|by rewrite <- Hsplit].
    left. cbn. rewrite last_snoc. by exists p1, e1. }
  destruct (Z.ltb_spec p e1); [|by apply Hafter].
  destruct (Z.ltb_spec e1 e); cbn [negb].
  - destruct (Z.ltb_spec p1 p); [apply Hafter, dsack_set_part|]. assert (p1 = p) as -> by lia.
    assert (Hge1 : Forall (starts_ge p) (b1 :: la)).
    { constructor; [|done]. intros p' e' Hs'. destruct (seg_unique f lo hi Hwin b1 p e1 p' e' Hs1 Hs') as [<- <-]. done. }
    cbn [rev] in Hsplit. rewrite <- app_assoc in Hsplit. apply (link_ok sk sk); try done.
    + constructor; [by exists p, e1|done].
    + apply (runs_insert f lo hi skb p e (b1 :: la) (rev prev)); [done..| |done|]; [|unfold ofo_ok in Hok; by rewrite Hsplit in Hok].
      right. by exists b1, p, e1.
  - eapply inserted_ext; [rewrite add_sack_part, dsack_set_part; apply mem_part, kfree_frame|]. split; try done.
    intros x Hx. fold q. rewrite Hsplit. cbn [rev]. rewrite <- app_assoc. apply (holds_mid _ b1 la p1 e1); [done|lia].
Qed.
End Insert.

(** ** Delivery *)
Section Deliver.
Context {K : Kernel} {W : TimeWait K} {SL : SeqLaws K} {FL : FreeLaws K} {ML : MemLaws K} {DL : DeliverLaws K}.
Context (f : Z -> Z) (lo hi : Z) (Hwin : hi - lo <= 2 ^ 30).
Implicit Types (sk : sock) (skb b : sk_buff) (q : list sk_buff).

Definition no_fin (th : tcphdr) : Prop := th_fin th = false.

(** A queue read from a later position on. *)
Lemma stream_le q : forall pos e, stream f lo hi pos q e -> pos <= e.
Proof using Type.
  induction q as [|b q IH]; intros pos e; cbn; [lia|]. intros (p & e' & Hs & Hle & Hst). apply IH in Hst. lia.
Qed.
Lemma stream_advance q : forall pos pos' e, pos <= pos' -> stream f lo hi pos q e -> stream f lo hi pos' q (Z.max pos' e).
Proof using Type.
  induction q as [|b q IH]; intros pos pos' e Hp; cbn; [lia|]. intros (p & e' & Hs & Hle & Hst). exists p, e'. split_and!; [done|lia|].
  pose proof (stream_le _ _ _ Hst). replace (Z.max pos' e) with (Z.max (Z.max pos' e') e) by lia. eapply IH; [|done]. lia.
Qed.

(** Draining the out-of-order queue into the receive queue. *)
Lemma ofo_loop_ok c r0 q : forall fuel sk ds from to_ r,
  out_of_order_queue (tp sk) = q -> (length q <= fuel)%nat -> copied_seq (tp sk) = u32 c -> rcv_nxt (tp sk) = u32 r ->
  lo <= c -> c <= r -> r <= hi -> lo <= r0 -> stream f lo hi c (sk_receive_queue sk) r ->
  runs f r0 hi from to_ q -> r0 <= from -> r0 - 1 <= to_ -> to_ <= r -> th_all no_fin q ->
  exists r', rcv_inv f lo hi c r' (ofo_loop fuel sk ds) /\ r <= r' /\ th_all no_fin (out_of_order_queue (tp (ofo_loop fuel sk ds))).
Proof using SL FL Hwin.
  induction q as [|b q IH]; intros fuel sk ds from to_ r Hq Hfuel Hc Hr Hlo Hcr Hhi Hr0 Hst Hruns Hf Ht1 Ht2 Hth.
  { exists r. destruct fuel; cbn [ofo_loop]; rewrite ?Hq; (split_and!; [split; try done|lia|by rewrite ?Hq]); by rewrite Hq. }
  destruct fuel as [|fuel]; [cbn in Hfuel; lia|]. cbn [ofo_loop]. rewrite Hq.
  destruct Hruns as (p & e & Hs & Hle & Hruns). pose proof Hs as []. rewrite seg_seq, seg_end, Hr, after_u32 by lia.
  destruct (Z.ltb_spec r p).
  { exists r. split_and!; [|lia|by rewrite Hq]. split; try done. rewrite Hq. unfold ofo_ok.
    exists p, e. split_and!; [destruct Hs; split; auto; lia|lia|]. destruct (Z.leb_spec p (r + 1 - 1)); [lia|].
    destruct (Z.leb_spec p to_); [lia|]. eapply runs_tighten; [|done]. lia. }
  set (st := if _ : bool then _ else _). assert (Hst1 : rcv_part (fst st) = rcv_part sk).
  { subst st. case_if_as Hb; [apply dsack_extend_part|done]. }
  destruct st as [sk1 ds1]. cbn [fst] in Hst1. unfold rcv_part in Hst1. injection Hst1 as E1 E2 E3 E4. rewrite E4, Hr, after_u32 by lia.
  pose proof (Forall_inv Hth) as Hfin. pose proof (Forall_inv_tail Hth) as Hth'. unfold no_fin in Hfin. rewrite Hfin.
  assert (Hnext : exists from' to', runs f r0 hi from' to' q /\ r0 <= from' /\ r0 - 1 <= to' /\ to' <= Z.max r e).
  { destruct (Z.leb_spec p to_); [exists from, (Z.max to_ e)|exists p, e]; split_and!; try done; lia. }
  destruct Hnext as (from' & to' & Hruns' & Hf' & Ht1' & Ht2').
  destruct (Z.ltb_spec r e); cbn [negb].
  - rewrite Z.max_r in Ht2' by lia. set (sk2 := _ <| tp; rcv_nxt := u32 e |>).
    destruct (IH fuel sk2 ds1 from' to' e) as (r' & Hi & Hle' & Hth2); try done; try lia.
    { cbn in Hfuel. lia. } { by rewrite <- Hc, <- E3. }
    { subst sk2. cbn. rewrite E1. eapply stream_app; [done|]. exists p, e. split_and!; [by eapply seg_weaken; [..|done]; lia|lia|]. cbn. lia. }
    exists r'. split_and!; [done|lia|done].
  - rewrite Z.max_l in Ht2' by lia. set (sk2 := kfree_skb _ b).
    destruct (kfree_frame (sk1 <| tp; out_of_order_queue := q |>) b) as (x & y & E). fold sk2 in E.
    destruct (IH fuel sk2 ds1 from' to' r) as (r' & Hi & Hle' & Hth2); rewrite ?E; try done; try lia.
    { cbn in Hfuel. lia. } { by rewrite <- Hc, <- E3. } { by rewrite <- Hr, <- E4. } { cbn. by rewrite E1. }
    exists r'. rewrite E in *. split_and!; [done|lia|done].
Qed.

(** Everything after an in-sequence segment was queued (or copied to the reader): the segment
    extends the stream to [e]. *)
Lemma in_sequence_ok c r e sk skb eaten :
  copied_seq (tp sk) = u32 c -> end_seq skb = u32 e -> lo <= c -> c <= e -> e <= hi -> lo <= r -> r <= e -> stream f lo hi c (sk_receive_queue sk) e ->
  ofo_ok f (r + 1) hi (out_of_order_queue (tp sk)) -> th_all no_fin (out_of_order_queue (tp sk)) -> no_fin (skb_th skb) ->
  let sk' := in_sequence sk skb eaten in
  exists r', rcv_inv f lo hi c r' sk' /\ e <= r' /\ th_all no_fin (out_of_order_queue (tp sk')).
Proof using SL FL ML DL Hwin.
  intros Hc He H1 H2 H3 H4 H5 Hst Hofo Hth Hfin. unfold in_sequence. rewrite He, Hfin.
  set (sk1 := if negb (len skb =? 0) then _ else _).
  assert (E1 : rcv_part sk1 = rcv_part (sk <| tp; rcv_nxt := u32 e |>)).
  { subst sk1. case_if_as Hl; [apply event_data_recv_part|done]. }
  clearbody sk1. unfold rcv_part in E1. cbn in E1. injection E1 as E1 E2 E3 E4. rewrite <- E1 in Hst. rewrite <- E2 in Hofo, Hth. rewrite Hc in E3.
  set (sk2 := match out_of_order_queue (tp sk1) with [] => _ | _ :: _ => _ end).
  assert (H : exists r', rcv_inv f lo hi c r' sk2 /\ e <= r' /\ th_all no_fin (out_of_order_queue (tp sk2))).
  { subst sk2. destruct (out_of_order_queue (tp sk1)) as [|b q] eqn:Eq.
    { exists e. split_and!; [split; rewrite ?Eq; done|lia|rewrite Eq; constructor]. }
    destruct (ofo_loop_ok c (r + 1) (b :: q) (length (b :: q)) sk1 (u32 e) (r + 1) (r + 1 - 1) e) as (r' & Hi & Hle & Hth'); try done; try lia.
    exists r'. unfold tcp_ofo_queue. rewrite Eq, E4. set (skd := ofo_loop _ _ _) in *. destruct (out_of_order_queue (tp skd)) eqn:E; [|by rewrite E].
    split_and!; [by destruct Hi|done|]. change (th_all no_fin (out_of_order_queue (tp skd))). by rewrite E. }
  clearbody sk2. destruct H as (r' & Hi & Hle & Hth2). exists r'.
  set (sk3 := if negb (num_sacks _ =? 0) then _ else _).
  assert (E5 : rcv_part sk3 = rcv_part sk2) by (subst sk3; case_if_as Hs; [apply sack_remove_part|done]).
  set (sk4 := tcp_fast_path_check sk3). assert (E6 : rcv_part sk4 = rcv_part sk3) by (subst sk4; by rewrite fast_path_check_spec).
  rewrite data_ready_spec. set (sk5 := if eaten >? 0 then _ else _). assert (E7 : rcv_part sk5 = rcv_part sk2).
  { rewrite <- E5, <- E6. subst sk5. by cases_if. }
  split_and!; [by eapply rcv_inv_ext|done|]. unfold rcv_part in E7. injection E7 as _ -> _ _. done.
Qed.

(** The outcome of queueing a segment with the positions [p] to [e] on [sk]: the receive state is
    intact, [prog] holds of the new rcv_nxt and out-of-order queue, or the memory was refused, for a
    socket with the queues and the memory of [sk], which were not sufficient. *)
Definition memory sk := (rcv_part sk, sk_rmem_alloc sk, sk_rcvbuf sk, sk_forward_alloc sk).
Definition refused sk skb (sk' : sock) : Prop :=
  (sk_rcvbuf sk < sk_rmem_alloc sk \/ sk_forward_alloc sk < truesize skb) /\ exists sk1, memory sk1 = memory sk /\ tcp_try_rmem_schedule sk1 (truesize skb) = Some (false, sk').
Lemma rmem_granted sk n : sk_rmem_alloc sk <= sk_rcvbuf sk -> n <= sk_forward_alloc sk -> tcp_try_rmem_schedule sk n = Some (true, sk).
Proof using Type.
  intros H1 H2. unfold tcp_try_rmem_schedule. replace (sk_rmem_alloc sk >? sk_rcvbuf sk) with false by lia. unfold sk_rmem_schedule. replace (n <=? sk_forward_alloc sk) with true by lia. by destruct (negb _).
Qed.
Lemma refused_schedule sk skb sk' : tcp_try_rmem_schedule sk (truesize skb) = Some (false, sk') -> refused sk skb sk'.
Proof using Type.
  intros E. split; [|by exists sk]. destruct (decide (sk_rcvbuf sk < sk_rmem_alloc sk)); [by left|]. destruct (decide (sk_forward_alloc sk < truesize skb)); [by right|]. rewrite rmem_granted in E by lia. done.
Qed.
Definition outcome sk (c r : Z) skb (prog : Z -> list sk_buff -> Prop) (res : option sock) : Prop :=
  exists sk' c' r', res = Some sk' /\ rcv_inv f lo hi c' r' sk' /\ th_all no_fin (out_of_order_queue (tp sk')) /\
    c <= c' /\ r <= r' /\ (prog r' (out_of_order_queue (tp sk')) \/ refused sk skb sk').
Lemma outcome_memory sk1 sk c r skb prog res : memory sk1 = memory sk -> outcome sk1 c r skb prog res -> outcome sk c r skb prog res.
Proof using Type.
  intros E (sk' & c' & r' & H1 & H2 & H3 & H4 & H5 & H6). exists sk', c', r'. split_and!; try done. destruct H6 as [H6|(H6 & sk2 & H7 & H8)]; [by left|right]. unfold refused. assert (A1 : sk_rmem_alloc sk1 = sk_rmem_alloc sk) by exact (f_equal (fun m => m.1.1.2) E). assert (A2 : sk_rcvbuf sk1 = sk_rcvbuf sk) by exact (f_equal (fun m => m.1.2) E). assert (A3 : sk_forward_alloc sk1 = sk_forward_alloc sk) by exact (f_equal snd E). rewrite <- A1, <- A2, <- A3. split; [done|]. exists sk2. split; [congruence|done].
Qed.

Lemma quickack_memory sk : memory (tcp_enter_quickack_mode sk) = memory sk.
Proof using Type. unfold tcp_enter_quickack_mode. by destruct (incr_quickack_frame sk) as [q ->]. Qed.
Lemma dsack_set_memory sk s e : memory (tcp_dsack_set sk s e) = memory sk.
Proof using Type. unfold tcp_dsack_set. by case_if_as Hc. Qed.
Lemma check_ce_memory sk skb : memory (TCP_ECN_check_ce sk skb) = memory sk.
Proof using Type. unfold TCP_ECN_check_ce. cases_if; try done. apply quickack_memory. Qed.

Lemma outcome_same sk0 c r sk sk' skb (prog : Z -> list sk_buff -> Prop) : rcv_inv f lo hi c r sk -> th_all no_fin (out_of_order_queue (tp sk)) ->
  rcv_part sk' = rcv_part sk -> prog r (out_of_order_queue (tp sk)) -> outcome sk0 c r skb prog (Some sk').
Proof using Type.
  intros Hi Hth E Hp. exists sk', c, r. unfold rcv_part in *. pose proof (rcv_inv_ext f lo hi c r sk sk' E Hi). injection E as E1 E2 E3 E4.
  rewrite E2. split_and!; try done; try lia. by left.
Qed.

(** Appending a segment that continues the stream. *)
Lemma enqueue_ok sk0 c0 c r m p e sk skb eaten : c0 <= c -> copied_seq (tp sk) = u32 c -> lo <= c -> stream f lo hi c (sk_receive_queue sk) m ->
  seg f lo hi skb p e -> p <= m <= e -> lo <= r <= e -> ofo_ok f (r + 1) hi (out_of_order_queue (tp sk)) ->
  th_all no_fin (out_of_order_queue (tp sk)) -> no_fin (skb_th skb) ->
  let sk1 := skb_set_owner_r skb sk in
  outcome sk0 c0 r skb (fun r' _ => e <= r') (Some (in_sequence (sk1 <| sk_receive_queue := sk_receive_queue sk1 ++ [skb] |>) skb eaten)).
Proof using SL FL ML DL Hwin.
  intros H0 Hc Hlo Hst Hs Hm Hr Hofo Hth Hfin sk1. pose proof Hs as [].
  pose proof (mem_part _ _ (set_owner_frame skb sk)) as E. fold sk1 in E. unfold rcv_part in E. injection E as E1 E2 E3 E4.
  assert (c <= m) by (by eapply stream_le).
  set (sk2 := sk1 <| sk_receive_queue := _ |>).
  assert (A1 : copied_seq (tp sk2) = u32 c) by (by rewrite <- Hc, <- E3).
  assert (A2 : stream f lo hi c (sk_receive_queue sk2) e).
  { subst sk2. cbn. rewrite E1. eapply stream_app; [done|]. exists p, e. split_and!; [done|lia|]. cbn. lia. }
  assert (A3 : out_of_order_queue (tp sk2) = out_of_order_queue (tp sk)) by done. rewrite <- A3 in Hofo, Hth.
  destruct (in_sequence_ok c r e sk2 skb eaten) as (r' & Hi & Hle & Hth'); try done; try lia.
  eexists _, c, r'. split; [reflexivity|]. split_and!; try done; lia.
Qed.

Lemma queue_and_out_ok c r p e sk skb : rcv_inv f lo hi c r sk -> th_all no_fin (out_of_order_queue (tp sk)) ->
  seg f lo hi skb p e -> no_fin (skb_th skb) -> p <= r <= e -> outcome sk c r skb (fun r' _ => e <= r') (queue_and_out sk skb (-1)).
Proof using SL FL ML DL Hwin.
  intros Hi Hth Hs Hfin Hr. unfold queue_and_out. cbn [Z.ltb Z.compare].
  destruct (try_rmem_schedule_ok f lo hi Hwin c r sk (truesize skb) Hi) as (b & sk1 & E & Hi1 & Hf1 & Hth1).
  rewrite E. specialize (Hth1 no_fin Hth). destruct b.
  - destruct Hi1 as []. eapply enqueue_ok; try done; lia.
  - exists sk1, c, r. split_and!; try done; try lia. right. by apply refused_schedule.
Qed.

(** The direct copy to the reader. *)
Lemma ucopy_ok c r sk skb p e : rcv_inv f lo hi c r sk -> seg f lo hi skb p e -> plain skb -> p = r ->
  let '(sk', eaten) := ucopy_data sk skb in
  sk_receive_queue sk' = sk_receive_queue sk /\ out_of_order_queue (tp sk') = out_of_order_queue (tp sk) /\
  ((eaten = -1 /\ sk' = sk) \/
   exists c', c = r /\ c <= c' <= e /\ copied_seq (tp sk') = u32 c' /\ (eaten = 0 \/ (eaten = 1 /\ c' = e))).
Proof using Hwin.
  intros Hi Hs [Hp1 Hp2] ->. destruct Hi as []. pose proof Hs as []. rewrite Hp1, Hp2 in seg_len. cbn [b2z] in seg_len.
  unfold ucopy_data. case_if_as Hc; [|by split_and!; try left]. case_if_as Hcp; [|by split_and!; try left].
  apply andb_true_iff in Hc as [Hc _]. apply andb_true_iff in Hc as [Hc _]. apply andb_true_iff in Hc as [Hc _].
  apply andb_true_iff in Hc as [_ Hc]. apply Z.eqb_eq in Hc. rewrite ri_copied, ri_nxt in Hc.
  assert (c = r) as -> by (clear - Hc Hwin ri_win; warith). rewrite ri_copied, u32_add_l.
  pose proof (u32_range (ucopy_len (tp sk))) as Hu. set (chunk := Z.min (len skb) (u32 (ucopy_len (tp sk)))). assert (0 <= chunk <= len skb) by (unfold is_u32 in Hu; lia).
  set (sk1 := _ <| tp; copied_seq := u32 (r + chunk) |>). pose proof (rcv_space_adjust_part sk1) as E. unfold rcv_part in E. injection E as E1 E2 E3 E4.
  rewrite E1, E2, E3. split_and!; [done..|]. right. exists (r + chunk). split_and!; try done; try lia.
  destruct (Z.eqb_spec chunk (len skb)); cbn; [right; split; [done|lia]|by left].
Qed.

(** Queueing a segment beyond rcv_nxt. *)
Lemma queue_ofo_ok sk0 c r p e sk skb : rcv_inv f lo hi c r sk -> th_all no_fin (out_of_order_queue (tp sk)) ->
  seg f lo hi skb p e -> no_fin (skb_th skb) -> r < p ->
  outcome sk0 c r skb (fun r' q => r' = r /\ forall x, p <= x < e -> holds f (r + 1) hi q x) (Some (queue_ofo sk skb)).
Proof using SL FL ML Hwin.
  intros Hi Hth Hs Hfin Hr. unfold queue_ofo.
  set (sk1 := skb_set_owner_r skb _). assert (E : rcv_part sk1 = rcv_part sk) by (exact (mem_part _ _ (set_owner_frame _ _))).
  pose proof (rcv_inv_ext f lo hi c r sk sk1 E Hi) as Hi1. unfold rcv_part in E. injection E as E1 E2 E3 E4. rewrite <- E2 in Hth.
  pose proof Hi1 as []. pose proof Hs as []. assert (Hs' : seg f (r + 1) hi skb p e) by (split; auto; lia).
  assert (Hins : inserted f (r + 1) hi sk1 (match out_of_order_queue (tp sk1) with
     | [] => (if tcp_is_sack (tp sk1) then sk1 <| tp; rx_opt; num_sacks := 1 |>
             <| tp; selective_acks := <[0%nat := mk_sack_block (seq skb) (end_seq skb)]> (selective_acks (tp sk1)) |> else sk1) <| tp; out_of_order_queue := [skb] |>
     | _ :: _ => ofo_insert sk1 skb end) skb p e).
  { destruct (out_of_order_queue (tp sk1)) as [|b q] eqn:Eq.
    - assert (Hok : ofo_ok f (r + 1) hi [skb]) by (exists p, e; split_and!; [done|lia|by case_match]).
      assert (Hh : forall x, p <= x < e -> holds f (r + 1) hi [skb] x) by (intros; by eapply (holds_mid _ _ _ []); [done|]).
      case_if_as Hk; (split; cbn; try done; intros; by constructor).
    - apply ofo_insert_ok; [lia|by rewrite Eq..|done]. }
  destruct Hins as []. eexists _, c, r. split; [reflexivity|]. split_and!; try done; try lia; [|by apply (ins_th0 no_fin)|by left].
  split; try done; congruence.
Qed.

Context {WL : WindowLaws K}.

Lemma receive_window_ext sk sk' : rcv_wup (tp sk') = rcv_wup (tp sk) -> rcv_wnd (tp sk') = rcv_wnd (tp sk) -> rcv_nxt (tp sk') = rcv_nxt (tp sk) ->
  tcp_receive_window (tp sk') = tcp_receive_window (tp sk).
Proof using WL. intros H1 H2 H3. by rewrite !receive_window_spec, H1, H2, H3. Qed.
Lemma dsack_set_window sk s e : tcp_receive_window (tp (tcp_dsack_set sk s e)) = tcp_receive_window (tp sk).
Proof using WL. unfold tcp_dsack_set. case_if_as Hc; [|done]. by apply receive_window_ext. Qed.
Lemma quickack_window sk : tcp_receive_window (tp (tcp_enter_quickack_mode sk)) = tcp_receive_window (tp sk).
Proof using WL. unfold tcp_enter_quickack_mode. destruct (incr_quickack_frame sk) as [q ->]. by apply receive_window_ext. Qed.

(** What a segment achieves when the window admits it and the memory is not refused. *)
Definition progress (win r p e : Z) (r' : Z) (q : list sk_buff) : Prop :=
  (p <= r < e -> 0 < win -> e <= r') /\
  (r < p < r + win -> r' = r /\ forall x, p <= x < e -> holds f (r + 1) hi q x).

Lemma outcome_impl sk c r skb (P Q : Z -> list sk_buff -> Prop) res : (forall r' q, P r' q -> Q r' q) -> outcome sk c r skb P res -> outcome sk c r skb Q res.
Proof using Type. intros H (sk' & c' & r' & ? & ? & ? & ? & ? & [Hp|Hp]); exists sk', c', r'; split_and!; auto. Qed.

(** A segment that starts exactly at rcv_nxt. *)
Lemma in_order_ok c r e sk skb : rcv_inv f lo hi c r sk -> th_all no_fin (out_of_order_queue (tp sk)) ->
  seg f lo hi skb r e -> plain skb ->
  outcome sk c r skb (fun r' _ => e <= r')
    (let '(sk, eaten) := ucopy_data sk skb in if eaten <=? 0 then queue_and_out sk skb eaten else Some (in_sequence sk skb eaten)).
Proof using SL FL ML DL Hwin.
  intros Hi Hth Hs Hpl. pose proof (ucopy_ok c r sk skb r e Hi Hs Hpl eq_refl) as Hu. pose proof (proj2 Hpl) as Hfin.
  destruct (ucopy_data sk skb) as [sk1 eaten]. destruct Hu as (E1 & E2 & [[-> ->]|(c' & -> & Hc' & Ec & Heat)]).
  { cbn [Z.leb Z.compare]. apply queue_and_out_ok with r; try done. destruct Hs. lia. }
  destruct Hi as []. pose proof Hs as [].
  assert (Hst : stream f lo hi c' (sk_receive_queue sk1) c').
  { rewrite E1. replace c' with (Z.max c' r) at 2 by lia. eapply stream_advance; [|done]. lia. }
  rewrite <- E2 in Hth, ri_ofo. destruct Heat as [->|[-> ->]]; cbn [Z.leb Z.compare].
  - unfold queue_and_out. cbn [Z.ltb Z.compare]. apply (enqueue_ok sk r c' r c' r e); try done; lia.
  - destruct (in_sequence_ok e r e sk1 skb 1) as (r' & Hi' & Hle & Hth'); try done; try lia.
    eexists _, e, r'. split; [reflexivity|]. split_and!; try done; lia.
Qed.

Lemma data_queue_outcome c r sk skb p e : rcv_inv f lo hi c r sk -> th_all no_fin (out_of_order_queue (tp sk)) ->
  seg f lo hi (pull_header skb) p e -> p < e -> plain skb -> 0 <= tcp_receive_window (tp sk) <= 2 ^ 30 ->
  outcome sk c r skb (progress (tcp_receive_window (tp sk)) r p e) (tcp_data_queue sk skb).
Proof using SL FL ML DL WL Hwin.
  intros Hi Hth Hs Hpe Hpl Hw. pose proof Hi as []. pose proof Hs as []. unfold tcp_data_queue.
  change (seq skb) with (seq (pull_header skb)). change (end_seq skb) with (end_seq (pull_header skb)).
  set (skb1 := pull_header skb) in *. assert (Ht : truesize skb1 = truesize skb) by done.
  
  assert (Hout : forall s P res, memory s = memory sk -> outcome s c r skb1 P res -> outcome sk c r skb P res) by (intros s P res Em Ho; exact (outcome_memory s sk c r skb P res Em Ho)).
  assert (Hpl1 : plain skb1) by done. clearbody skb1. rewrite seg_seq, seg_end.
  destruct (Z.eqb_spec (u32 p) (u32 e)) as [Heq|_]; [clear - Heq Hpe Hwin seg_lo seg_hi; warith|].
  set (sk1 := _ <| tp; rx_opt; dsack := false |>).
  assert (M1 : memory sk1 = memory sk) by (subst sk1; unfold TCP_ECN_accept_cwr; by destruct (th_cwr (skb_th skb1))). assert (E : rcv_part sk1 = rcv_part sk) by exact (f_equal (fun m => m.1.1.1) M1).
  assert (Ew : tcp_receive_window (tp sk1) = tcp_receive_window (tp sk)).
  { subst sk1. unfold TCP_ECN_accept_cwr. destruct (th_cwr (skb_th skb1)); by apply receive_window_ext. }
  pose proof (rcv_inv_ext f lo hi c r sk sk1 E Hi) as Hi1. clearbody sk1.
  assert (Hth1 : th_all no_fin (out_of_order_queue (tp sk1))) by (unfold rcv_part in E; injection E as _ -> _ _; done).
  rewrite (Collapse.ri_nxt _ _ _ _ _ _ Hi1), Ew.
  assert (Hdrop : forall sk', rcv_part sk' = rcv_part sk1 -> progress (tcp_receive_window (tp sk)) r p e r (out_of_order_queue (tp sk1)) ->
    outcome sk c r skb (progress (tcp_receive_window (tp sk)) r p e) (Some (out_of_window sk'))).
  { intros sk' E' HP. eapply outcome_same; [exact Hi1|done| |done]. by rewrite out_of_window_part. }
  destruct (Z.eqb_spec (u32 p) (u32 r)) as [Heq|Hne].
  { assert (p = r) as -> by (clear - Heq Hwin seg_lo seg_le seg_hi ri_win; warith).
    destruct (Z.eqb_spec (tcp_receive_window (tp sk)) 0); [apply Hdrop; [done|]; split; intros; lia|].
    apply (Hout sk1); [done|]. eapply outcome_impl; [|by apply in_order_ok]. cbn. intros r' q ?. split; intros; lia. }
  assert (p <> r) by congruence. rewrite after_u32 by lia.
  destruct (Z.ltb_spec r e); cbn [negb]; [|apply Hdrop; [apply dsack_set_part|]; split; intros; lia].
  rewrite u32_add_l, before_u32 by lia. destruct (Z.ltb_spec p (r + tcp_receive_window (tp sk))); cbn [negb]; [|apply Hdrop; [done|]; split; intros; lia].
  assert (M2 : memory (tcp_enter_quickack_mode sk1) = memory sk) by (rewrite <- M1; apply quickack_memory). pose proof (quickack_part sk1) as Eq. pose proof (quickack_window sk1) as Eqw. rewrite Ew in Eqw. set (sk2 := tcp_enter_quickack_mode sk1) in *. clearbody sk2.
  pose proof (rcv_inv_ext f lo hi c r sk1 sk2 Eq Hi1) as Hi2.
  assert (Hth2 : th_all no_fin (out_of_order_queue (tp sk2))) by (unfold rcv_part in Eq; injection Eq as _ -> _ _; done).
  rewrite (Collapse.ri_nxt _ _ _ _ _ _ Hi2), before_u32 by lia. destruct (Z.ltb_spec p r).
  - rewrite dsack_set_window, Eqw. assert (M3 : memory (tcp_dsack_set sk2 (u32 p) (u32 r)) = memory sk) by (rewrite <- M2; apply dsack_set_memory). pose proof (dsack_set_part sk2 (u32 p) (u32 r)) as Ed. set (sk3 := tcp_dsack_set _ _ _) in *. clearbody sk3.
    destruct (Z.eqb_spec (tcp_receive_window (tp sk)) 0); [apply Hdrop; [by rewrite Ed|]; split; intros; lia|].
    apply (Hout sk3); [done|]. eapply outcome_impl; [|apply (queue_and_out_ok c r p e)]; [cbn; intros r' q ?; split; intros; lia|by eapply rcv_inv_ext| |done|apply Hpl1|lia].
    unfold rcv_part in Ed. by injection Ed as _ -> _ _.
  - assert (M3 : memory (TCP_ECN_check_ce sk2 skb1) = memory sk) by (rewrite <- M2; apply check_ce_memory). pose proof (check_ce_part sk2 skb1) as Ec. set (sk3 := TCP_ECN_check_ce sk2 skb1) in *. clearbody sk3.
    pose proof (rcv_inv_ext f lo hi c r sk2 sk3 Ec Hi2) as Hi3.
    assert (Hth3 : th_all no_fin (out_of_order_queue (tp sk3))) by (unfold rcv_part in Ec; injection Ec as _ -> _ _; done).
    destruct (try_rmem_schedule_ok f lo hi Hwin c r sk3 (truesize skb1) Hi3) as (b & sk4 & Es & Hi4 & _ & Hth4). rewrite Es. specialize (Hth4 no_fin Hth3).
    destruct b.
    + apply (Hout sk3); [done|]. eapply outcome_impl; [|apply (queue_ofo_ok sk3 c r p e)]; try done; [|apply Hpl1|lia].
      cbn. intros r' q [-> Hh]. split; [lia|by intros _].
    + apply (Hout sk3); [done|]. exists sk4, c, r. split_and!; try done; try lia. right. by apply refused_schedule.
Qed.
End Deliver.

(** ** The properties *)
Section Properties.
Context {K : Kernel} {W : TimeWait K} {SL : SeqLaws K} {FL : FreeLaws K} {ML : MemLaws K}.
Implicit Types (sk : sock) (skb : sk_buff).

(** C3. tcp_data_queue, for a data segment without SYN and FIN, with the stream's bytes from [p] to
    [e] (anywhere in the window of 2^30 positions, in order, overlapping, duplicate or ahead, with
    or without a reader waiting in recvmsg), while no FIN waits out of order: it reaches no BUG();
    afterwards the receive queue again carries the peer's stream without a gap from copied_seq to rcv_nxt and the out-of-order queue only
    pieces that start behind rcv_nxt; neither pointer moves back.
    A segment that covers rcv_nxt moves rcv_nxt to its end or further when the window is open,
    and a segment ahead of rcv_nxt that starts in the window leaves rcv_nxt alone and all of its
    positions are held in the out-of-order queue; unless the receive buffer is full or the memory
    granted to the socket is too small for the segment, and tcp_try_rmem_schedule, called with
    the socket's queues and memory as they are, found no more. *)
Theorem tcp_data_queue_ok {DL : DeliverLaws K} {WL : WindowLaws K} (f : Z -> Z) (lo hi c r : Z) sk skb (p e : Z) :
  hi - lo <= 2 ^ 30 -> rcv_inv f lo hi c r sk -> th_all no_fin (out_of_order_queue (tp sk)) ->
  seg f lo hi (pull_header skb) p e -> p < e -> plain skb -> 0 <= tcp_receive_window (tp sk) <= 2 ^ 30 ->
  exists sk' c' r', tcp_data_queue sk skb = Some sk' /\ rcv_inv f lo hi c' r' sk' /\ th_all no_fin (out_of_order_queue (tp sk')) /\
    c <= c' /\ r <= r' /\
    (((p <= r < e -> 0 < tcp_receive_window (tp sk) -> e <= r') /\
      (r < p < r + tcp_receive_window (tp sk) -> r' = r /\ forall x, p <= x < e -> holds f (r + 1) hi (out_of_order_queue (tp sk')) x)) \/
     ((sk_rcvbuf sk < sk_rmem_alloc sk \/ sk_forward_alloc sk < truesize skb) /\ exists sk1, memory sk1 = memory sk /\ tcp_try_rmem_schedule sk1 (truesize skb) = Some (false, sk'))).
Proof using SL FL ML. intros. by apply data_queue_outcome. Qed.

(** The state a FIN moves a socket to (RFC 793); the time-wait socket takes over from a socket
    in FIN-WAIT-2, which is done. *)
Definition fin_next (s : tcp_state) : tcp_state :=
  match s with
  | TCP_SYN_RECV | TCP_ESTABLISHED => TCP_CLOSE_WAIT
  | TCP_FIN_WAIT1 => TCP_CLOSING
  | TCP_FIN_WAIT2 => TCP_CLOSE
  | s => s
  end.

Lemma fin_transition_ok {ST : StateLaws K} sk sk1 : sk_state sk1 = sk_state sk -> has (sk_shutdown sk1) RCV_SHUTDOWN = true ->
  sk_receive_queue sk1 = sk_receive_queue sk -> rcv_nxt (tp sk1) = rcv_nxt (tp sk) -> copied_seq (tp sk1) = copied_seq (tp sk) ->
  let sk2 := fin_transition sk1 in
  sk_state sk2 = fin_next (sk_state sk) /\ has (sk_shutdown sk2) RCV_SHUTDOWN = true /\
  (sk_state sk = TCP_FIN_WAIT2 \/ (sk_receive_queue sk2 = sk_receive_queue sk /\ rcv_nxt (tp sk2) = rcv_nxt (tp sk) /\ copied_seq (tp sk2) = copied_seq (tp sk))).
Proof using Type.
  intros E Hsh H1 H2 H3. unfold fin_transition. rewrite E. destruct (sk_state sk); cbn [fin_next];
    rewrite ?set_state_spec, ?time_wait_done, ?done_state, ?done_shutdown; cbn; rewrite ?send_ack_shutdown, ?send_ack_rq, ?send_ack_rcv_nxt, ?send_ack_copied;
    split_and!; auto.
Qed.

(** tcp_fin makes the transition of RFC 793 in every state, shuts down the receiving
    direction and empties the out-of-order queue; except in FIN-WAIT-2, where the socket is done,
    the receive queue and the sequence numbers of the receiver stay as they are. *)
Theorem tcp_fin_ok {ST : StateLaws K} sk :
  let sk' := tcp_fin sk in
  sk_state sk' = fin_next (sk_state sk) /\ out_of_order_queue (tp sk') = [] /\ has (sk_shutdown sk') RCV_SHUTDOWN = true /\
  (sk_state sk = TCP_FIN_WAIT2 \/ (sk_receive_queue sk' = sk_receive_queue sk /\ rcv_nxt (tp sk') = rcv_nxt (tp sk) /\ copied_seq (tp sk') = copied_seq (tp sk))).
Proof using FL ML.
  cbv zeta. unfold tcp_fin. set (sk1 := sock_set_flag _ SOCK_DONE). destruct (fin_transition_ok sk sk1) as (H1 & H2 & H3); try done.
  { cbn. rewrite has_bset. apply orb_true_r. }
  set (sk2 := fin_transition sk1) in *. clearbody sk2.
  destruct (kfree_all_frame (out_of_order_queue (tp sk2)) sk2) as (a & b & E). rewrite E.
  set (sk3 := _ <| tp; out_of_order_queue := [] |>). set (sk4 := if tcp_is_sack (tp sk3) then _ else _).
  assert (E4 : sk_state sk4 = sk_state sk2 /\ sk_shutdown sk4 = sk_shutdown sk2 /\ rcv_part sk4 = rcv_part sk3) by (subst sk4; by case_if_as Hs).
  clearbody sk4. destruct (mem_reclaim_frame sk4) as [m Em]. rewrite Em, state_change_spec. unfold rcv_part in E4. cbn in E4.
  destruct E4 as (E1 & E2 & [= E3 E4 E5 E6]).
  replace (if negb (sock_flag _ _) then _ else _) with (sk4 <| sk_forward_alloc := m |>) by (by case_if_as Hd).
  cbn. rewrite E1, E2, E3, E4, E5, E6. done.
Qed.

Lemma reset_spec {ST : StateLaws K} sk :
  let sk' := tcp_reset sk in
  sk_state sk' = TCP_CLOSE /\
  match sk_state sk with
  | TCP_CLOSE => sk' = sk
  | TCP_SYN_SENT => sk_err sk' = Some ECONNREFUSED
  | TCP_CLOSE_WAIT => sk_err sk' = Some EPIPE
  | _ => sk_err sk' = Some ECONNRESET
  end.
Proof using Type.
  cbn zeta. unfold tcp_reset. rewrite !error_report_spec. destruct (sk_state sk) eqn:E; cbn zeta; try done;
    (split; [by rewrite done_state|rewrite done_err; by case_if_as Hd]).
Qed.
(** A RST closes the socket in every state, with the error the application sees (ECONNREFUSED
    for a connection attempt, EPIPE after the peer's FIN, ECONNRESET otherwise); a socket that is
    closed already is left untouched. *)
Theorem tcp_reset_ok {ST : StateLaws K} sk :
  let sk' := tcp_reset sk in
  sk_state sk' = TCP_CLOSE /\
  match sk_state sk with
  | TCP_CLOSE => sk' = sk
  | TCP_SYN_SENT => sk_err sk' = Some ECONNREFUSED
  | TCP_CLOSE_WAIT => sk_err sk' = Some EPIPE
  | _ => sk_err sk' = Some ECONNRESET
  end.
Proof using Type. apply reset_spec. Qed.
End Properties.

(** ** Examples *)
Module Demo.
#[local] Existing Instance Rtt.Demo.dst_ops.
#[export] Instance tw : TimeWait linux := minisocks_time_wait (fun _ => None) (fun _ => Some Rtt.Demo.d0).

(** A segment as it arrives, and the socket of [Collapse.Demo] with an open window. *)
Definition arriving (p n : Z) : sk_buff :=
  (Collapse.Demo.piece 9 p n) <| data_off := 0 |> <| len := n + 20 |> <| skb_th; th_doff := 5 |>.
Definition sk_rcv : sock :=
  Collapse.Demo.sk_full <| sk_rcvbuf := 100000 |> <| tp; rcv_wnd := 10000 |> <| tp; rcv_wup := u32 Collapse.Demo.base1 |>
                        <| tp; rx_opt; sack_ok := 1 |>.
Definition f1 := Collapse.Demo.byte.
Definition b1 := Collapse.Demo.base1.

(** The segment that fills the gap brings rcv_nxt to the end of the first run. *)
Example gap_filled :
  option_map (fun sk => (rcv_nxt (tp sk), skb_id <$> sk_receive_queue sk, skb_id <$> out_of_order_queue (tp sk))) (tcp_data_queue sk_rcv (arriving (b1 + 130) 100))
  = Some (u32 (b1 + 290), [1%nat; 2%nat; 9%nat; 3%nat; 4%nat], [5%nat]).
Proof. vm_compute. reflexivity. Qed.

Lemma sk_rcv_inv : rcv_inv f1 b1 (b1 + 1000) b1 (b1 + 140) sk_rcv.
Proof. destruct Collapse.Demo.sk_full_inv. by split. Qed.

Lemma tcp_data_queue_ok_witness :
  let sk := sk_rcv in let skb := arriving (b1 + 130) 100 in let r := b1 + 140 in let p := b1 + 130 in let e := b1 + 230 in
  exists sk' c' r', tcp_data_queue sk skb = Some sk' /\ rcv_inv f1 b1 (b1 + 1000) c' r' sk' /\ th_all no_fin (out_of_order_queue (tp sk')) /\
    b1 <= c' /\ r <= r' /\
    (((p <= r < e -> 0 < tcp_receive_window (tp sk) -> e <= r') /\
      (r < p < r + tcp_receive_window (tp sk) -> r' = r /\ forall x, p <= x < e -> holds f1 (r + 1) (b1 + 1000) (out_of_order_queue (tp sk')) x)) \/
     ((sk_rcvbuf sk < sk_rmem_alloc sk \/ sk_forward_alloc sk < truesize skb) /\ exists sk1, memory sk1 = memory sk /\ tcp_try_rmem_schedule sk1 (truesize skb) = Some (false, sk'))).
Proof.
  cbv zeta. apply (tcp_data_queue_ok f1 b1 (b1 + 1000) b1 (b1 + 140) sk_rcv (arriving (b1 + 130) 100) (b1 + 130) (b1 + 230)); try done.
  - exact sk_rcv_inv.
  - by repeat constructor.
  - destruct (Collapse.Demo.piece_seg b1 9 (b1 + 130) 100); try done; by split.
Defined.
Lemma tcp_fin_ok_witness :
  sk_state (tcp_fin sk_rcv) = TCP_CLOSE_WAIT /\ out_of_order_queue (tp (tcp_fin sk_rcv)) = [] /\ has (sk_shutdown (tcp_fin sk_rcv)) RCV_SHUTDOWN = true /\
  (sk_state sk_rcv = TCP_FIN_WAIT2 \/ (sk_receive_queue (tcp_fin sk_rcv) = sk_receive_queue sk_rcv /\
   rcv_nxt (tp (tcp_fin sk_rcv)) = rcv_nxt (tp sk_rcv) /\ copied_seq (tp (tcp_fin sk_rcv)) = copied_seq (tp sk_rcv))).
Proof. exact (tcp_fin_ok sk_rcv). Defined.
Lemma tcp_reset_ok_witness : sk_state (tcp_reset sk_rcv) = TCP_CLOSE /\ sk_err (tcp_reset sk_rcv) = Some ECONNRESET.
Proof. exact (tcp_reset_ok sk_rcv). Defined.
End Demo.
