(* ===== verification/WriteQueue.v ===== *)
(** * The write queue and its accounting

    The state that SACK processing, loss recovery and ACK processing share: the buffers of the
    write queue with their tags (SACKED, RETRANS, LOST), the send head, and the counters of the
    TCP control block.  [score] says that they agree; [unsent] are the buffers from the send head
    on.  The lemmas here are about one buffer that changes, one that is removed, and the
    neighbours of a buffer; Scoreboard, Recovery and Ack build on them. *)

From S2P Require Import Prelude TcpTypes Kernel RcvTune Rtt.

(** ** Sent and unsent buffers *)
Fixpoint from_id (h : nat) (ids : list nat) : list nat :=
  match ids with
  | [] => []
  | i :: r => if Nat.eqb i h then ids else from_id h r
  end.
Definition unsent (sk : sock) : list nat :=
  match sk_send_head sk with
  | Some h => from_id h (skb_id <$> sk_write_queue sk)
  | None => []
  end.

Section Position.
Implicit Types (sk : sock) (b : sk_buff) (q : list sk_buff).

Lemma from_id_sub h ids i : i ∈ from_id h ids -> i ∈ ids.
Proof. induction ids as [|x ids IH]; cbn; [done|]. destruct (Nat.eqb x h); [done|]. intros H. apply elem_of_cons. right. by apply IH. Qed.
Lemma unsent_ext sk sk' : skb_id <$> sk_write_queue sk' = skb_id <$> sk_write_queue sk -> sk_send_head sk' = sk_send_head sk -> unsent sk' = unsent sk.
Proof. unfold unsent. by intros -> ->. Qed.

(** Buffers before the send head are sent. *)
Lemma from_id_prefix h p i r : NoDup (p ++ i :: r) -> h ∉ p -> i <> h -> i ∉ from_id h (p ++ i :: r).
Proof.
  induction p as [|x p IH]; cbn; intros Hnd Hp Hi.
  - rewrite (proj2 (Nat.eqb_neq i h) Hi). apply NoDup_cons in Hnd as [Hnd _]. intros H. by apply from_id_sub in H.
  - apply not_elem_of_cons in Hp as [Hx Hp]. rewrite (proj2 (Nat.eqb_neq x h)) by congruence. apply NoDup_cons in Hnd as [_ Hnd]. by apply IH.
Qed.
Lemma sent_prefix sk p i r : NoDup (skb_id <$> sk_write_queue sk) -> skb_id <$> sk_write_queue sk = p ++ i :: r ->
  (forall x, x ∈ p -> is_send_head sk x = false) -> is_send_head sk i = false -> i ∉ unsent sk.
Proof.
  intros Hnd Hq Hp Hi. unfold unsent, is_send_head in *. destruct (sk_send_head sk) as [h|]; [|by apply not_elem_of_nil]. rewrite Hq in *.
  apply from_id_prefix; [done| |].
  - intros Hin. specialize (Hp h Hin). apply bool_decide_eq_false in Hp. congruence.
  - apply bool_decide_eq_false in Hi. congruence.
Qed.

(** Neighbours. *)
Lemma after_id_split q i j : after_id q i = Some j -> exists l1 b c l2, q = l1 ++ b :: c :: l2 /\ skb_id b = i /\ skb_id c = j.
Proof.
  induction q as [|b q IH]; cbn; [done|]. destruct (Nat.eqb_spec (skb_id b) i) as [<-|].
  - destruct q as [|c q]; [done|]. intros [= <-]. by exists [], b, c, q.
  - intros H. destruct (IH H) as (l1 & b' & c & l2 & -> & ?). by exists (b :: l1), b', c, l2.
Qed.
Lemma after_id_at l1 b c l2 : NoDup (skb_id <$> (l1 ++ b :: c :: l2)) -> after_id (l1 ++ b :: c :: l2) (skb_id b) = Some (skb_id c).
Proof.
  induction l1 as [|x l1 IH]; cbn; intros Hnd; [by rewrite Nat.eqb_refl|]. apply NoDup_cons in Hnd as [Hni Hnd].
  rewrite (proj2 (Nat.eqb_neq (skb_id x) (skb_id b))); [by apply IH|]. intros He. apply Hni. apply list_elem_of_fmap. exists b. split; [exact He|].
  apply elem_of_app. right. apply elem_of_cons. by left.
Qed.
Lemma prev_next sk i j : NoDup (skb_id <$> sk_write_queue sk) -> tcp_write_queue_prev sk i = Some j -> tcp_write_queue_next sk j = Some i.
Proof.
  unfold tcp_write_queue_prev, tcp_write_queue_next. intros Hnd H. apply after_id_split in H as (l1 & b & c & l2 & Hq & <- & <-).
  assert (E : sk_write_queue sk = rev l2 ++ c :: b :: rev l1).
  { rewrite <- (rev_involutive (sk_write_queue sk)), Hq, rev_app_distr. cbn. by rewrite <- !app_assoc. }
  rewrite E in Hnd |- *. by apply after_id_at.
Qed.
Lemma next_in sk i j : tcp_write_queue_next sk i = Some j -> i ∈ skb_id <$> sk_write_queue sk /\ j ∈ skb_id <$> sk_write_queue sk.
Proof.
  intros H. apply after_id_split in H as (l1 & b & c & l2 & -> & <- & <-). rewrite fmap_app, !fmap_cons.
  split; apply elem_of_app; right; apply elem_of_cons; [by left|right]. apply elem_of_cons. by left.
Qed.
Lemma next_not_self sk i j : NoDup (skb_id <$> sk_write_queue sk) -> tcp_write_queue_next sk i = Some j -> i <> j.
Proof.
  intros Hnd H. apply after_id_split in H as (l1 & b & c & l2 & E & <- & <-). rewrite E, fmap_app, !fmap_cons in Hnd. apply NoDup_app in Hnd as (_ & _ & Hnd).
  apply NoDup_cons in Hnd as [Hni _]. intros He. apply Hni. apply elem_of_cons. left. exact He.
Qed.
Lemma prev_not_self sk i j : NoDup (skb_id <$> sk_write_queue sk) -> tcp_write_queue_prev sk i = Some j -> j <> i.
Proof. intros Hnd H. apply prev_next in H; [|done]. by eapply next_not_self. Qed.

(** The buffer after a sent one is sent or the send head; the one before it is sent. *)
Lemma from_id_next h l1 i j l2 : NoDup (l1 ++ i :: j :: l2) -> i ∉ from_id h (l1 ++ i :: j :: l2) -> j ∉ from_id h (l1 ++ i :: j :: l2) \/ j = h.
Proof.
  induction l1 as [|x l1 IH]; cbn; intros Hnd Hi.
  - destruct (Nat.eqb_spec i h) as [->|]; [by destruct Hi; apply elem_of_cons; left|]. destruct (Nat.eqb_spec j h); [by right|left].
    apply NoDup_cons in Hnd as [_ Hnd]. apply NoDup_cons in Hnd as [Hj _]. intros H. by apply from_id_sub in H.
  - apply NoDup_cons in Hnd as [Hx Hnd]. destruct (Nat.eqb_spec x h) as [->|]; [|by apply IH].
    destruct Hi. apply elem_of_cons. right. apply elem_of_app. right. apply elem_of_cons. by left.
Qed.
Lemma from_id_prev h l1 i j l2 : NoDup (l1 ++ i :: j :: l2) -> i ∈ from_id h (l1 ++ i :: j :: l2) -> j ∈ from_id h (l1 ++ i :: j :: l2).
Proof.
  induction l1 as [|x l1 IH]; cbn; intros Hnd Hi.
  - destruct (Nat.eqb_spec i h); [apply elem_of_cons; right; apply elem_of_cons; by left|]. apply NoDup_cons in Hnd as [Hn _]. destruct Hn. by apply (from_id_sub h (j :: l2)).
  - apply NoDup_cons in Hnd as [Hx Hnd]. destruct (Nat.eqb x h); [|by apply IH]. apply elem_of_cons. right. apply elem_of_app. right.
    apply elem_of_cons. right. apply elem_of_cons. by left.
Qed.

(** A position of a walk: sent, or the send head where the walk stops. *)
Definition at_sent sk (cur : option nat) : Prop := forall i, cur = Some i -> i ∉ unsent sk \/ is_send_head sk i = true.
Lemma at_sent_next sk i : NoDup (skb_id <$> sk_write_queue sk) -> i ∉ unsent sk -> at_sent sk (tcp_write_queue_next sk i).
Proof.
  intros Hnd Hi j Hj. apply after_id_split in Hj as (l1 & b & c & l2 & Hq & <- & <-). unfold unsent, is_send_head in *.
  destruct (sk_send_head sk) as [h|]; [|left; apply not_elem_of_nil]. rewrite Hq, fmap_app, !fmap_cons in *. destruct (from_id_next h _ _ _ _ Hnd Hi) as [?| ->]; [by left|right].
  by apply bool_decide_eq_true.
Qed.
Lemma sent_prev sk i j : NoDup (skb_id <$> sk_write_queue sk) -> i ∉ unsent sk -> tcp_write_queue_prev sk i = Some j -> j ∉ unsent sk.
Proof.
  intros Hnd Hi Hj Hin. apply prev_next in Hj; [|done]. apply Hi. apply after_id_split in Hj as (l1 & b & c & l2 & Hq & <- & <-). unfold unsent in *.
  destruct (sk_send_head sk) as [h|]; [|by apply elem_of_nil in Hin]. rewrite Hq, fmap_app, !fmap_cons in *. by apply from_id_prev.
Qed.
Lemma at_sent_head sk : NoDup (skb_id <$> sk_write_queue sk) -> at_sent sk (tcp_write_queue_head sk).
Proof.
  intros Hnd i Hi. destruct (is_send_head sk i) eqn:E; [by right|left]. unfold tcp_write_queue_head in Hi. destruct (sk_write_queue sk) as [|b q] eqn:Hq; [done|].
  injection Hi as <-. eapply (sent_prefix sk [] _ (skb_id <$> q)); rewrite ?Hq; try done. intros x Hx. by apply elem_of_nil in Hx.
Qed.
Lemma at_sent_ext sk sk' cur : unsent sk' = unsent sk -> sk_send_head sk' = sk_send_head sk -> at_sent sk cur -> at_sent sk' cur.
Proof. unfold at_sent, is_send_head. by intros -> ->. Qed.
Lemma at_sent_none sk : at_sent sk None.
Proof. by intros i H. Qed.
End Position.

(** ** Tags *)
#[global] Arguments Z.testbit : simpl never.
Section Tags.
Context {K : Kernel} {TL : TagLaws K}.

Lemma has_S x : has x TCPCB_SACKED_ACKED = Z.testbit x 0.
Proof. rewrite tag_sacked_acked. by apply has_pow2. Qed.
Lemma has_R x : has x TCPCB_SACKED_RETRANS = Z.testbit x 1.
Proof. rewrite tag_sacked_retrans. by apply has_pow2. Qed.
Lemma has_L x : has x TCPCB_LOST = Z.testbit x 2.
Proof. rewrite tag_lost. by apply has_pow2. Qed.
Lemma testbit_bset x f n : Z.testbit (bset x f) n = Z.testbit x n || Z.testbit f n.
Proof. apply Z.lor_spec. Qed.
Lemma testbit_bclr x f n : 0 <= n -> Z.testbit (bclr x f) n = Z.testbit x n && negb (Z.testbit f n).
Proof. intros Hn. unfold bclr. by rewrite Z.land_spec, Z.lnot_spec. Qed.

(** A word that holds exactly [SACKED] in its tag bits. *)
Definition only_S (x : Z) : Prop := Z.testbit x 0 = true /\ Z.testbit x 1 = false /\ Z.testbit x 2 = false.
Lemma tagbits_S x : Z.land x TCPCB_TAGBITS = TCPCB_SACKED_ACKED -> only_S x.
Proof.
  unfold only_S. rewrite tag_tagbits, tag_sacked_acked. intros H.
  assert (Hb : forall n, Z.testbit (Z.land x 7) n = Z.testbit (2 ^ 0) n) by (intros; by rewrite H).
  split_and!; [specialize (Hb 0)|specialize (Hb 1)|specialize (Hb 2)]; rewrite Z.land_spec in Hb; cbn in Hb; by rewrite andb_true_r in Hb.
Qed.
(** R without L. *)
Lemma retrans_only x : Z.land x (Z.lor TCPCB_LOST TCPCB_SACKED_RETRANS) = TCPCB_SACKED_RETRANS <-> Z.testbit x 1 = true /\ Z.testbit x 2 = false.
Proof.
  rewrite tag_lost, tag_sacked_retrans. change (Z.lor (2 ^ 2) (2 ^ 1)) with 6. change (2 ^ 1) with 2. split.
  - intros H. assert (Hb : forall n, Z.testbit (Z.land x 6) n = Z.testbit 2 n) by (intros; by rewrite H).
    split; [specialize (Hb 1)|specialize (Hb 2)]; rewrite Z.land_spec in Hb; cbn in Hb; by rewrite andb_true_r in Hb.
  - intros [H1 H2]. apply Z.bits_inj'. intros n Hn. rewrite Z.land_spec.
    destruct (decide (n = 1)) as [->|]; [by rewrite H1|]. destruct (decide (n = 2)) as [->|]; [by rewrite H2|].
    change 6 with (Z.lor (2 ^ 2) (2 ^ 1)). change 2 with (2 ^ 1). rewrite Z.lor_spec, !Z.pow2_bits_eqb by lia.
    rewrite !(proj2 (Z.eqb_neq _ _)) by lia. apply andb_false_r.
Qed.
End Tags.

(** Rewrites tests of tags to bits of the tag word. *)
Ltac tag_bits :=
  rewrite ?has_lor, ?has_S, ?has_R, ?has_L in *; rewrite ?testbit_bset in *; rewrite ?testbit_bclr in * by lia;
  rewrite ?testbit_bset in *; rewrite ?Z.lor_spec in *;
  rewrite ?tag_sacked_acked, ?tag_sacked_retrans, ?tag_lost in *; rewrite ?Z.pow2_bits_eqb in * by lia;
  cbn [Z.eqb Pos.eqb negb] in *; rewrite ?andb_true_r, ?andb_false_r, ?orb_true_r, ?orb_false_r in *.

(** ** One buffer of the queue *)
Section Buffers.
Implicit Types (sk : sock) (b : sk_buff) (q : list sk_buff).

(** Replacing one buffer of a queue. *)
Definition put q (i : nat) b : list sk_buff := (fun x => if Nat.eqb (skb_id x) i then b else x) <$> q.
Lemma put_absent q i b : i ∉ (skb_id <$> q) -> put q i b = q.
Proof.
  induction q as [|x q IH]; cbn; intros Hni; [done|]. apply not_elem_of_cons in Hni as [Hne Hni].
  destruct (Nat.eqb_spec (skb_id x) i); [congruence|]. f_equal. by apply IH.
Qed.
Lemma get_elem sk i b : wq_get sk i = Some b -> b ∈ sk_write_queue sk /\ skb_id b = i.
Proof. unfold wq_get. intros H. apply List.find_some in H as [Hin He]. apply Nat.eqb_eq in He. split; [by apply list_elem_of_In|done]. Qed.
Lemma sum_put c q i b b' : NoDup (skb_id <$> q) -> b ∈ q -> skb_id b = i -> sumZ c (put q i b') = sumZ c q - c b + c b'.
Proof.
  intros Hnd Hin <-. induction q as [|x q IH]; [by apply elem_of_nil in Hin|]. rewrite fmap_cons in Hnd. apply NoDup_cons in Hnd as [Hni Hnd].
  unfold put. rewrite fmap_cons. fold (put q (skb_id b) b'). cbn [sumZ]. apply elem_of_cons in Hin as [->|Hin].
  - rewrite Nat.eqb_refl, put_absent by done. lia.
  - destruct (Nat.eqb_spec (skb_id x) (skb_id b)) as [He|].
    + destruct Hni. apply list_elem_of_fmap. exists b. split; [exact He|done].
    + rewrite (IH Hnd Hin). lia.
Qed.
Lemma put_self q b : NoDup (skb_id <$> q) -> b ∈ q -> put q (skb_id b) b = q.
Proof.
  intros Hnd Hin. induction q as [|x q IH]; [done|]. rewrite fmap_cons in Hnd. apply NoDup_cons in Hnd as [Hni Hnd]. unfold put. rewrite fmap_cons. fold (put q (skb_id b) b). apply elem_of_cons in Hin as [->|Hin].
  - by rewrite Nat.eqb_refl, put_absent.
  - rewrite (IH Hnd Hin). destruct (Nat.eqb_spec (skb_id x) (skb_id b)) as [E|]; [|done]. exfalso. apply Hni. apply list_elem_of_fmap. by exists b.
Qed.
Lemma put_ids q i b' : skb_id b' = i -> skb_id <$> put q i b' = skb_id <$> q.
Proof. intros Hid. unfold put. rewrite <- list_fmap_compose. apply list_fmap_ext. intros k x _. cbn. destruct (Nat.eqb_spec (skb_id x) i); congruence. Qed.
Lemma put_ok P q i b' : Forall P q -> P b' -> Forall P (put q i b').
Proof. intros Hq Hb. apply Forall_fmap. eapply Forall_impl; [exact Hq|]. intros x Hx. cbn. by destruct (Nat.eqb _ _). Qed.
Lemma get_set sk i b' : skb_id b' = i -> is_Some (wq_get sk i) -> wq_get (wq_set sk i b') i = Some b'.
Proof.
  intros Hid [b Hb]. unfold wq_get, wq_set in *. cbn. induction (sk_write_queue sk) as [|x q IH]; [done|]. cbn in *.
  destruct (Nat.eqb_spec (skb_id x) i) as [He|Hne]; cbn.
  - by rewrite Hid, Nat.eqb_refl.
  - rewrite (proj2 (Nat.eqb_neq _ _) Hne). by apply IH.
Qed.
Lemma get_set_other sk i j b' : skb_id b' = i -> i <> j -> wq_get (wq_set sk i b') j = wq_get sk j.
Proof.
  intros Hid Hne. unfold wq_get, wq_set. cbn. induction (sk_write_queue sk) as [|x q IH]; [done|]. cbn.
  destruct (Nat.eqb_spec (skb_id x) i) as [He|]; cbn.
  - rewrite Hid, He, (proj2 (Nat.eqb_neq _ _) Hne). exact IH.
  - destruct (Nat.eqb_spec (skb_id x) j); [done|exact IH].
Qed.
Lemma put_twice q pi i p2 s2 p3 : pi <> i -> skb_id p2 = pi -> skb_id s2 = i -> put (put (put q pi p2) i s2) pi p3 = put (put q i s2) pi p3.
Proof.
  intros Hne H2 Hs. unfold put. rewrite <- !list_fmap_compose. apply list_fmap_ext. intros k x _. cbn.
  destruct (Nat.eqb_spec (skb_id x) pi) as [E|E].
  - rewrite H2, (proj2 (Nat.eqb_neq pi i) Hne), H2, Nat.eqb_refl. rewrite E, (proj2 (Nat.eqb_neq pi i) Hne), E, Nat.eqb_refl. done.
  - done.
Qed.
Lemma tcp_for_id sk o b : o ≫= wq_get sk = Some b -> o = Some (skb_id b) /\ wq_get sk (skb_id b) = Some b.
Proof. destruct o as [i|]; [|done]. cbn. intros H. pose proof (get_elem _ _ _ H) as [_ <-]. done. Qed.

(** Removing a buffer without packets. *)
Lemma sum_unlink c q i b : NoDup (skb_id <$> q) -> b ∈ q -> skb_id b = i ->
  sumZ c (List.filter (fun x => negb (Nat.eqb (skb_id x) i)) q) = sumZ c q - c b.
Proof.
  intros Hnd Hin <-. induction q as [|x q IH]; [by apply elem_of_nil in Hin|]. rewrite fmap_cons in Hnd. apply NoDup_cons in Hnd as [Hni Hnd].
  assert (Hrest : forall j, j ∉ (skb_id <$> q) -> sumZ c (List.filter (fun x => negb (Nat.eqb (skb_id x) j)) q) = sumZ c q).
  { clear. intros j. induction q as [|y q IH]; [done|]. rewrite fmap_cons. intros Hni. apply not_elem_of_cons in Hni as [Hne Hni]. cbn.
    destruct (Nat.eqb_spec (skb_id y) j); cbn; [congruence|]. rewrite IH by done. done. }
  cbn. apply elem_of_cons in Hin as [->|Hin].
  - rewrite Nat.eqb_refl. cbn. rewrite Hrest by done. lia.
  - destruct (Nat.eqb_spec (skb_id x) (skb_id b)) as [He|]; cbn.
    + destruct Hni. apply list_elem_of_fmap. exists b. split; [exact He|done].
    + rewrite (IH Hnd Hin). lia.
Qed.
Lemma filter_forall {A} (P : A -> Prop) (g : A -> bool) l : Forall P l -> Forall P (List.filter g l).
Proof. induction 1; cbn; [constructor|]. case_match; [by constructor|done]. Qed.
Lemma filter_ids g q : NoDup (skb_id <$> q) -> NoDup (skb_id <$> List.filter g q).
Proof.
  induction q as [|x q IH]; [done|]. rewrite fmap_cons. intros H. apply NoDup_cons in H as [Hni Hnd]. cbn. case_match; [|by apply IH].
  rewrite fmap_cons. apply NoDup_cons. split; [|by apply IH]. intros Hin. apply Hni. apply list_elem_of_fmap in Hin as (y & Hy & Hin).
  apply list_elem_of_fmap. exists y. split; [done|]. apply list_elem_of_In in Hin. apply List.filter_In in Hin as [Hin _]. by apply list_elem_of_In.
Qed.
Lemma get_unlink_other sk i j : i <> j -> wq_get (wq_unlink sk i) j = wq_get sk j.
Proof.
  intros Hne. unfold wq_get, wq_unlink. cbn. induction (sk_write_queue sk) as [|x q IH]; [done|]. cbn.
  destruct (Nat.eqb_spec (skb_id x) i) as [He|]; cbn.
  - rewrite He, (proj2 (Nat.eqb_neq _ _) Hne). exact IH.
  - destruct (Nat.eqb_spec (skb_id x) j); [done|exact IH].
Qed.
Lemma from_id_filter h i ids : i ∉ from_id h ids -> from_id h (List.filter (fun x => negb (Nat.eqb x i)) ids) = from_id h ids.
Proof.
  induction ids as [|x ids IH]; cbn; [done|]. destruct (Nat.eqb_spec x h) as [->|Hx].
  - intros Hni. apply not_elem_of_cons in Hni as [Hne Hni]. rewrite (proj2 (Nat.eqb_neq h i)) by congruence. cbn. rewrite Nat.eqb_refl. f_equal.
    clear IH Hne. induction ids as [|y ids IH]; [done|]. apply not_elem_of_cons in Hni as [Hne Hni]. cbn. rewrite (proj2 (Nat.eqb_neq y i)) by congruence. cbn. f_equal. by apply IH.
  - intros Hni. destruct (Nat.eqb x i); cbn; [by apply IH|]. rewrite (proj2 (Nat.eqb_neq x h) Hx). by apply IH.
Qed.
Lemma filter_fmap {A B} (f : A -> B) (p : B -> bool) l : f <$> List.filter (fun x => p (f x)) l = List.filter p (f <$> l).
Proof. induction l as [|x l IH]; [done|]. cbn. destruct (p (f x)); cbn; [f_equal|]; exact IH. Qed.
Lemma unsent_unlink sk i : i ∉ unsent sk -> unsent (wq_unlink sk i) = unsent sk.
Proof. unfold unsent. cbn. destruct (sk_send_head sk); [|done]. intros Hi. pose proof (filter_fmap skb_id (fun x => negb (Nat.eqb x i)) (sk_write_queue sk)) as E. etrans; [exact (f_equal (from_id n) E)|]. by apply from_id_filter. Qed.
Lemma unsent_set sk i b : skb_id b = i -> unsent (wq_set sk i b) = unsent sk.
Proof. intros Hid. apply unsent_ext; [|done]. exact (put_ids (sk_write_queue sk) i b Hid). Qed.
End Buffers.

(** ** The invariant

    The counters lost_out and retrans_out are the packets of the buffers with the corresponding
    tag.  packets_out is the number of sent packets, and sacked_out the number of SACKED ones, or
    they are too large: the packet count of a buffer is a 16 bit field, and SACKED buffers are
    merged without a check of its range.  No buffer is both SACKED and LOST; the sequence numbers of a
    buffer span its data (no SYN or FIN is in the queue), and an unsent buffer has no tag.  The hints, from
    which walks start, are within the sent buffers or at their end. *)
Section Score.
Context {K : Kernel}.
Implicit Types (sk : sock) (b : sk_buff) (q : list sk_buff).

(** The packets of the buffers with a tag, and of the sent ones. *)
Definition tagged (bit : Z) b : Z := if has (sacked b) bit then gso_segs b else 0.
Definition sent_segs (u : list nat) b : Z := if decide (skb_id b ∈ u) then 0 else gso_segs b.
Definition untagged b : Prop := has (sacked b) TCPCB_SACKED_ACKED = false /\ has (sacked b) TCPCB_SACKED_RETRANS = false /\ has (sacked b) TCPCB_LOST = false.
Record buf_ok (u : list nat) b : Prop := {
  bo_tags : has (sacked b) TCPCB_SACKED_ACKED && has (sacked b) TCPCB_LOST = false;
  bo_len : 0 <= len b;
  bo_segs : 0 <= gso_segs b;
  bo_size : 0 <= gso_size b;
  bo_unsent : skb_id b ∈ u -> untagged b;
  bo_span : u32 (end_seq b - seq b) = u32 (len b);
}.

(** The buffers that the control block points to and that walks start from. *)
Definition hints sk (n : nat) : option nat :=
  match n with
  | 0%nat => highest_sack (tp sk)
  | 1%nat => lost_skb_hint (tp sk)
  | _ => scoreboard_skb_hint (tp sk)
  end.

Record score sk : Prop := {
  sc_sacked : 0 <= sacked_out (tp sk) - sumZ (tagged TCPCB_SACKED_ACKED) (sk_write_queue sk) <= packets_out (tp sk) - sumZ (sent_segs (unsent sk)) (sk_write_queue sk);
  sc_lost : lost_out (tp sk) = sumZ (tagged TCPCB_LOST) (sk_write_queue sk);
  sc_retrans : retrans_out (tp sk) = sumZ (tagged TCPCB_SACKED_RETRANS) (sk_write_queue sk);
  sc_packets : sumZ (sent_segs (unsent sk)) (sk_write_queue sk) <= packets_out (tp sk) < 2 ^ 32;
  sc_ok : Forall (buf_ok (unsent sk)) (sk_write_queue sk);
  sc_nodup : NoDup (skb_id <$> sk_write_queue sk);
  sc_end : QUEUE_END ∉ skb_id <$> sk_write_queue sk;
  sc_hints : forall n, at_sent sk (hints sk n);
}.

(** What the invariant is about. *)
Definition q_part sk := (sk_write_queue sk, sk_send_head sk, packets_out (tp sk), hints sk).
Definition sb_part sk := (q_part sk, sacked_out (tp sk), lost_out (tp sk), retrans_out (tp sk)).
Lemma q_part_unsent sk sk' : q_part sk' = q_part sk -> unsent sk' = unsent sk.
Proof. unfold q_part. intros [= H1 H2 _ _]. apply unsent_ext; congruence. Qed.
Lemma sb_q_part sk sk' : sb_part sk' = sb_part sk -> q_part sk' = q_part sk.
Proof. intros E. exact (f_equal (fun p => fst (fst (fst p))) E). Qed.
Lemma score_ext sk sk' : sb_part sk' = sb_part sk -> score sk -> score sk'.
Proof.
  intros E. pose proof (q_part_unsent _ _ (sb_q_part _ _ E)) as Eu. unfold sb_part, q_part in E. injection E as H1 H2 H3 H4 H5 H6 H7.
  intros []. split; rewrite ?Eu, ?H1, ?H3, ?H4, ?H5, ?H6, ?H7; try done. intros n. by eapply at_sent_ext.
Qed.
Lemma get_part sk sk' i : q_part sk' = q_part sk -> wq_get sk' i = wq_get sk i.
Proof. unfold q_part, wq_get. by intros [= -> _ _ _]. Qed.
Lemma score_get sk i b : score sk -> wq_get sk i = Some b -> buf_ok (unsent sk) b.
Proof. intros [] Hb. apply get_elem in Hb as [Hin _]. rewrite Forall_forall in sc_ok0. by apply sc_ok0. Qed.

(** The packets with a tag are among the sent ones, so the counters do not wrap around. *)
Definition is_tag (bit : Z) : Prop := bit = TCPCB_SACKED_ACKED \/ bit = TCPCB_SACKED_RETRANS \/ bit = TCPCB_LOST.
Lemma sum_tagged u q bit : is_tag bit -> Forall (buf_ok u) q -> 0 <= sumZ (tagged bit) q <= sumZ (sent_segs u) q.
Proof.
  intros Ht. induction 1 as [|b q [] Hq IH]; cbn; [lia|]. assert (0 <= tagged bit b <= sent_segs u b); [|lia]. unfold tagged, sent_segs. case_decide as Hd; [|case_match; lia].
  destruct (bo_unsent0 Hd) as (H1 & H2 & H3). destruct Ht as [->|[->| ->]]; rewrite ?H1, ?H2, ?H3; lia.
Qed.
Lemma u32_tagged u q bit e : is_tag bit -> Forall (buf_ok u) q -> 0 <= e -> sumZ (sent_segs u) q + e < 2 ^ 32 -> u32 (sumZ (tagged bit) q + e) = sumZ (tagged bit) q + e.
Proof. intros Ht Hq He Hl. pose proof (sum_tagged u q bit Ht Hq). apply u32_small. unfold is_u32. lia. Qed.
Lemma score_tagged sk bit : is_tag bit -> score sk -> 0 <= sumZ (tagged bit) (sk_write_queue sk) <= sumZ (sent_segs (unsent sk)) (sk_write_queue sk).
Proof. intros Ht Hs. apply sum_tagged; [done|apply Hs]. Qed.
(** sacked_out, lost_out and retrans_out are at most packets_out. *)
Lemma score_le sk : score sk -> 0 <= sacked_out (tp sk) <= packets_out (tp sk) /\ 0 <= lost_out (tp sk) <= packets_out (tp sk) /\ 0 <= retrans_out (tp sk) <= packets_out (tp sk).
Proof.
  intros Hs. pose proof (score_tagged sk TCPCB_SACKED_ACKED ltac:(by left) Hs). pose proof (score_tagged sk TCPCB_SACKED_RETRANS ltac:(by right; left) Hs).
  pose proof (score_tagged sk TCPCB_LOST ltac:(by right; right) Hs). destruct Hs. lia.
Qed.
Definition u32_counters sk : Prop := is_u32 (sacked_out (tp sk)) /\ is_u32 (lost_out (tp sk)) /\ is_u32 (retrans_out (tp sk)).
Lemma score_u32 sk : score sk -> u32_counters sk.
Proof. intros Hs. pose proof (score_le sk Hs) as ([] & [] & []). pose proof (sc_packets _ Hs). unfold u32_counters, is_u32. lia. Qed.
(** The three counters of a queue with the same sent packets. *)
Lemma score_counters sk q d sacked lost retrans : score sk -> Forall (buf_ok (unsent sk)) q -> 0 <= d -> sumZ (sent_segs (unsent sk)) q + d <= packets_out (tp sk) ->
  sacked = u32 (sumZ (tagged TCPCB_SACKED_ACKED) q + d) -> lost = u32 (sumZ (tagged TCPCB_LOST) q) -> retrans = u32 (sumZ (tagged TCPCB_SACKED_RETRANS) q) ->
  sacked = sumZ (tagged TCPCB_SACKED_ACKED) q + d /\ lost = sumZ (tagged TCPCB_LOST) q /\ retrans = sumZ (tagged TCPCB_SACKED_RETRANS) q.
Proof.
  intros Hs Hq Hd Hp -> -> ->. pose proof (sc_packets _ Hs). pose proof (sum_tagged _ _ TCPCB_SACKED_ACKED ltac:(by left) Hq). pose proof (sum_tagged _ _ TCPCB_LOST ltac:(by right; right) Hq).
  pose proof (sum_tagged _ _ TCPCB_SACKED_RETRANS ltac:(by right; left) Hq). rewrite !u32_small by (unfold is_u32; lia). done.
Qed.

(** One buffer changes, and the counters with it. *)
Lemma score_set sk sk' i b b' : score sk -> wq_get sk i = Some b -> skb_id b' = i -> buf_ok (unsent sk) b' -> gso_segs b' = gso_segs b ->
  q_part sk' = q_part sk ->
  sacked_out (tp sk') = u32 (sacked_out (tp sk) + (tagged TCPCB_SACKED_ACKED b' - tagged TCPCB_SACKED_ACKED b)) ->
  lost_out (tp sk') = u32 (lost_out (tp sk) + (tagged TCPCB_LOST b' - tagged TCPCB_LOST b)) ->
  retrans_out (tp sk') = u32 (retrans_out (tp sk) + (tagged TCPCB_SACKED_RETRANS b' - tagged TCPCB_SACKED_RETRANS b)) ->
  score (wq_set sk' i b').
Proof.
  intros Hs Hb Hid Hok Hg Hq HS HL HR. pose proof Hs as []. destruct (get_elem _ _ _ Hb) as [Hin Hbi].
  assert (Hsum : forall c, sumZ c (put (sk_write_queue sk) i b') = sumZ c (sk_write_queue sk) - c b + c b') by (intros; by apply sum_put).
  pose proof (q_part_unsent _ _ Hq) as Eu. assert (Eu' : unsent (wq_set sk' i b') = unsent sk) by (by rewrite unsent_set). unfold q_part in Hq. injection Hq as Q1 Q2 Q3 Q4.
  assert (Hqok : Forall (buf_ok (unsent sk)) (put (sk_write_queue sk) i b')) by (by apply put_ok).
  assert (Hsent : sumZ (sent_segs (unsent sk)) (put (sk_write_queue sk) i b') = sumZ (sent_segs (unsent sk)) (sk_write_queue sk)) by (rewrite Hsum; unfold sent_segs; rewrite Hid, Hbi, Hg; lia).
  destruct (score_counters sk _ (sacked_out (tp sk) - sumZ (tagged TCPCB_SACKED_ACKED) (sk_write_queue sk)) (sacked_out (tp sk')) (lost_out (tp sk')) (retrans_out (tp sk')) Hs Hqok) as (C1 & C2 & C3);
    [lia|lia|rewrite HS, Hsum; f_equal; lia|rewrite HL, Hsum; f_equal; lia|rewrite HR, Hsum; f_equal; lia|].
  split; rewrite ?Eu'; cbn; rewrite ?Q1, ?Q3; fold (put (sk_write_queue sk) i b').
  - lia.
  - done.
  - done.
  - lia.
  - by apply put_ok.
  - by rewrite put_ids.
  - by rewrite put_ids.
  - intros n. eapply at_sent_ext; [exact Eu'|exact Q2|]. change (hints (wq_set sk' i b') n) with (hints sk' n). rewrite Q4. apply sc_hints0.
Qed.
Lemma score_keep_tags sk i b b' : score sk -> wq_get sk i = Some b -> skb_id b' = i -> sacked b' = sacked b -> gso_segs b' = gso_segs b -> buf_ok (unsent sk) b' ->
  score (wq_set sk i b').
Proof.
  intros Hs Hb Hid Ht Hg Hok. pose proof (score_u32 sk Hs) as (U1 & U2 & U3). eapply score_set; [exact Hs|exact Hb|done..| | |]; unfold tagged;
    rewrite Ht, Hg, Z.sub_diag, Z.add_0_r; symmetry; by apply u32_small.
Qed.
Lemma unlink_score sk i b : score sk -> wq_get sk i = Some b -> gso_segs b = 0 -> i ∉ unsent sk -> score (wq_unlink sk i).
Proof.
  intros Hs Hb Hz Hi. pose proof Hs as []. destruct (get_elem _ _ _ Hb) as [Hin Hid]. pose proof (unsent_unlink sk i Hi) as Eu.
  assert (Hz1 : forall bit, tagged bit b = 0) by (intros; unfold tagged; rewrite Hz; by case_match). assert (Hz2 : sent_segs (unsent sk) b = 0) by (unfold sent_segs; rewrite Hz; by case_match).
  split; rewrite ?Eu; cbn; try (rewrite !(sum_unlink _ _ i b) by done).
  - rewrite Hz1, Hz2. lia.
  - rewrite Hz1. lia.
  - rewrite Hz1. lia.
  - rewrite Hz2. lia.
  - by apply filter_forall.
  - by apply filter_ids.
  - intros H. apply sc_end0. apply list_elem_of_fmap in H as (y & Hy & H). apply list_elem_of_fmap. exists y. split; [done|]. apply list_elem_of_In in H. apply List.filter_In in H as [H _]. by apply list_elem_of_In.
  - intros n. eapply at_sent_ext; [exact Eu|done|]. apply sc_hints0.
Qed.
(** Some packets of a sent buffer leave it, and the counters with them. *)
Definition shrunk (bit : Z) b (n c : Z) : Z := if has (sacked b) bit then u32 (c - n) else c.
Lemma score_shrink sk sk' i b b' n : score sk -> wq_get sk i = Some b -> i ∉ unsent sk -> skb_id b' = i -> sacked b' = sacked b -> buf_ok (unsent sk) b' ->
  0 <= n -> gso_segs b = gso_segs b' + n -> sk_write_queue sk' = sk_write_queue sk -> sk_send_head sk' = sk_send_head sk -> (forall k, at_sent sk (hints sk' k)) ->
  packets_out (tp sk') = u32 (packets_out (tp sk) - n) -> sacked_out (tp sk') = shrunk TCPCB_SACKED_ACKED b n (sacked_out (tp sk)) ->
  lost_out (tp sk') = shrunk TCPCB_LOST b n (lost_out (tp sk)) -> retrans_out (tp sk') = shrunk TCPCB_SACKED_RETRANS b n (retrans_out (tp sk)) ->
  score (wq_set sk' i b').
Proof.
  intros Hs Hb Hi Hid Ht Hok Hn Hg Hq Hh Hhints HP HS HL HR. destruct (get_elem _ _ _ Hb) as [Hin Hbi]. pose proof (score_le sk Hs) as (L1 & L2 & L3).
  assert (Eu : unsent (wq_set sk' i b') = unsent sk) by (rewrite unsent_set by done; apply unsent_ext; congruence).
  assert (Hsum : forall c, sumZ c (put (sk_write_queue sk) i b') = sumZ c (sk_write_queue sk) - c b + c b') by (intros; apply sum_put; [apply Hs|done|done]).
  assert (Hqok : Forall (buf_ok (unsent sk)) (put (sk_write_queue sk) i b')) by (apply put_ok; [apply Hs|done]).
  assert (Hsent : sumZ (sent_segs (unsent sk)) (put (sk_write_queue sk) i b') = sumZ (sent_segs (unsent sk)) (sk_write_queue sk) - n)
    by (rewrite Hsum; unfold sent_segs; rewrite Hid, Hbi, !decide_False by done; lia).
  assert (Htag : forall bit, sumZ (tagged bit) (put (sk_write_queue sk) i b') = sumZ (tagged bit) (sk_write_queue sk) - (if has (sacked b) bit then n else 0))
    by (intros bit; rewrite Hsum; unfold tagged; rewrite Ht; destruct (has (sacked b) bit); lia).
  pose proof (sum_tagged _ _ TCPCB_SACKED_ACKED ltac:(by left) Hqok) as B1. pose proof (sum_tagged _ _ TCPCB_LOST ltac:(by right; right) Hqok) as B2. pose proof (sum_tagged _ _ TCPCB_SACKED_RETRANS ltac:(by right; left) Hqok) as B3.
  rewrite Htag in B1, B2, B3. destruct Hs. unfold shrunk in *. rewrite u32_small in HP by (unfold is_u32; lia).
  split; rewrite ?Eu; cbn; rewrite ?Hq; fold (put (sk_write_queue sk) i b'); rewrite ?Hsent, ?Htag, ?HP, ?HS, ?HL, ?HR; try done.
  - destruct (has (sacked b) TCPCB_SACKED_ACKED); [rewrite u32_small by (unfold is_u32; lia)|]; lia.
  - destruct (has (sacked b) TCPCB_LOST); [rewrite u32_small by (unfold is_u32; lia)|]; lia.
  - destruct (has (sacked b) TCPCB_SACKED_RETRANS); [rewrite u32_small by (unfold is_u32; lia)|]; lia.
  - lia.
  - by rewrite put_ids.
  - by rewrite put_ids.
  - intros k. eapply (at_sent_ext sk); [exact Eu|exact Hh|]. apply Hhints.
Qed.
(** Moving the hints. *)
Lemma score_hints sk sk' : score sk -> sk_write_queue sk' = sk_write_queue sk -> sk_send_head sk' = sk_send_head sk ->
  (packets_out (tp sk'), sacked_out (tp sk'), lost_out (tp sk'), retrans_out (tp sk')) = (packets_out (tp sk), sacked_out (tp sk), lost_out (tp sk), retrans_out (tp sk)) ->
  (forall n, at_sent sk (hints sk' n)) -> score sk'.
Proof.
  intros [] H1 H2 [= H3 H4 H5 H6] Hh. assert (Eu : unsent sk' = unsent sk) by (apply unsent_ext; congruence).
  split; rewrite ?Eu, ?H1, ?H3, ?H4, ?H5, ?H6; try done. intros n. by eapply at_sent_ext.
Qed.
Lemma score_highest sk h : score sk -> at_sent sk h -> score (sk <| tp; highest_sack := h |>).
Proof. intros Hs Hh. eapply score_hints; [exact Hs|done..|]. intros [|n]; [done|]. exact (sc_hints _ Hs (S n)). Qed.
Lemma score_lost_hint sk h : score sk -> at_sent sk h -> score (sk <| tp; lost_skb_hint := h |>).
Proof. intros Hs Hh. eapply score_hints; [exact Hs|done..|]. intros [|[|n]]; [exact (sc_hints _ Hs 0%nat)|done|exact (sc_hints _ Hs (S (S n)))]. Qed.
Lemma score_board_hint sk h : score sk -> at_sent sk h -> score (sk <| tp; scoreboard_skb_hint := h |>).
Proof. intros Hs Hh. eapply score_hints; [exact Hs|done..|]. intros [|[|n]]; [exact (sc_hints _ Hs 0%nat)|exact (sc_hints _ Hs 1%nat)|done]. Qed.
End Score.
