(* ===== verification/Xmit.v ===== *)
(** * What transmission does to the write queue

    tcp_output.c is not in the repository, but the code that is relies on it to split, merge, trim,
    retransmit and send the buffers of the write queue.  This file says what these functions do as
    steps on the queue, the tags and the counters: [resend] for a retransmission and [push] for new
    data.  A step names the buffers that change and the counters it adjusts; that the invariant
    [score] of WriteQueue.v holds afterwards is proved here.  The laws of Scoreboard, Cong and
    Established say that tcp_fragment, tcp_retransmit_skb, tcp_xmit_retransmit_queue and
    tcp_push_pending_frames are sequences of such steps; [linux_fragment], [linux_retransmit] and
    [linux_push] are concrete ones. *)

From stdpp Require Import relations.
From S2P Require Import Prelude TcpTypes Kernel RcvTune Rtt WriteQueue.

(** ** The place of the send head *)
Section Place.
Implicit Types (sk : sock) (l mid : list sk_buff).
Lemma from_id_skip h p r : h ∉ p -> from_id h (p ++ r) = from_id h r.
Proof.
  induction p as [|x p IH]; [done|]. intros H. apply not_elem_of_cons in H as [Hx H]. cbn. rewrite (proj2 (Nat.eqb_neq x h)) by congruence. by apply IH.
Qed.
Lemma from_id_hit h p r : h ∈ p -> from_id h (p ++ r) = from_id h p ++ r.
Proof.
  induction p as [|x p IH]; [by intros H; apply elem_of_nil in H|]. cbn. destruct (Nat.eqb_spec x h) as [->|Hx]; [done|]. intros H. apply elem_of_cons in H as [H|H]; [congruence|by apply IH].
Qed.
(** The send head is behind the sent buffers. *)
Lemma sent_mid sk l1 mid l2 h : sk_write_queue sk = l1 ++ mid ++ l2 -> mid <> [] -> Forall (fun b => skb_id b ∉ unsent sk) mid -> sk_send_head sk = Some h ->
  h ∉ skb_id <$> l1 ++ mid.
Proof.
  intros Hq Hne Hm Hh Hin. rewrite app_assoc in Hq. assert (Hu : unsent sk = from_id h ((skb_id <$> l1) ++ (skb_id <$> mid)) ++ (skb_id <$> l2)) by (unfold unsent; by rewrite Hh, Hq, fmap_app, from_id_hit, fmap_app).
  rewrite Hu in Hm. rewrite fmap_app in Hin.
  destruct (decide (h ∈ skb_id <$> l1)) as [H1|H1].
  - destruct mid as [|b mid]; [done|]. apply Forall_cons in Hm as [Hb _]. apply Hb. rewrite (from_id_hit h _ (skb_id <$> b :: mid)) by done. rewrite fmap_cons. set_solver.
  - rewrite from_id_skip in Hm by done. apply elem_of_app in Hin as [?|Hin]; [done|]. apply list_elem_of_fmap in Hin as (b & -> & Hb). rewrite Forall_forall in Hm. apply (Hm b Hb).
    apply elem_of_app. left. clear -Hb. induction mid as [|x mid IH]; [by apply elem_of_nil in Hb|]. cbn. destruct (Nat.eqb_spec (skb_id x) (skb_id b)) as [E|]; [set_solver|]. apply IH. apply elem_of_cons in Hb as [->|]; done.
Qed.
Lemma sent_unsent sk l1 mid l2 : sk_write_queue sk = l1 ++ mid ++ l2 -> mid <> [] -> Forall (fun b => skb_id b ∉ unsent sk) mid ->
  unsent sk = match sk_send_head sk with Some h => from_id h (skb_id <$> l2) | None => [] end.
Proof.
  intros Hq Hne Hm. destruct (sk_send_head sk) as [h|] eqn:Hh; [|unfold unsent; by rewrite Hh]. pose proof (sent_mid _ _ _ _ _ Hq Hne Hm Hh) as Hn.
  unfold unsent. rewrite Hh, Hq, app_assoc, fmap_app. by apply from_id_skip.
Qed.
End Place.

Section Steps.
Context {K : Kernel}.
Implicit Types (sk : sock) (a b c : sk_buff) (l : list sk_buff).

(** The sent buffers stay the same. *)
Definition kept sk sk' : Prop := score sk' /\ unsent sk' = unsent sk /\ sk_send_head sk' = sk_send_head sk.
Lemma kept_refl sk : score sk -> kept sk sk.
Proof using Type. by split. Qed.
Lemma kept_trans sk1 sk2 sk3 : kept sk1 sk2 -> kept sk2 sk3 -> kept sk1 sk3.
Proof using Type. intros (_ & ? & ?) (? & ? & ?). split_and!; [done|congruence..]. Qed.
Lemma kept_at sk sk' cur : kept sk sk' -> at_sent sk cur -> at_sent sk' cur.
Proof using Type. intros (_ & ? & ?). by apply at_sent_ext. Qed.
Lemma kept_part sk sk' : score sk -> sb_part sk' = sb_part sk -> kept sk sk'.
Proof using Type.
  intros Hs E. split; [by eapply score_ext|]. pose proof (sb_q_part _ _ E) as Eq. split; [by apply q_part_unsent|]. unfold q_part in Eq. by injection Eq.
Qed.

(** tcp_adjust_pcount: [d] packets with the tags [tags] are gone.  With Reno sacked_out counts
    duplicate ACKs; up to [d] of those that no buffer stands for go too.  There is no memory for 2^32
    packets. *)
Definition taken (bit tags d : Z) : Z := if has tags bit then d else 0.
Record adjusted sk sk' (tags d : Z) : Prop := {
  ad_packets : packets_out (tp sk') = u32 (packets_out (tp sk) - d);
  ad_room : packets_out (tp sk) - d < 2 ^ 32;
  ad_lost : lost_out (tp sk') = u32 (lost_out (tp sk) - taken TCPCB_LOST tags d);
  ad_retrans : retrans_out (tp sk') = u32 (retrans_out (tp sk) - taken TCPCB_SACKED_RETRANS tags d);
  ad_sacked : exists x, sacked_out (tp sk') = u32 (sacked_out (tp sk) - taken TCPCB_SACKED_ACKED tags d - x) /\
    (x = 0 \/ tcp_is_reno (tp sk) = true /\ 0 <= x <= sacked_out (tp sk) - sumZ (tagged TCPCB_SACKED_ACKED) (sk_write_queue sk));
}.
(** [b] is cut into [a] and the new buffer [c]. *)
Record cut b a c : Prop := {
  ct_id : skb_id a = skb_id b;
  ct_tags : sacked a = sacked b /\ sacked c = sacked b;
  ct_seq : seq a = seq b /\ end_seq c = end_seq b /\ end_seq a = seq c /\ seq c = u32 (seq b + len a);
  ct_len : 0 <= len a /\ 0 <= len c /\ len a + len c = len b;
  ct_segs : 0 <= gso_segs a /\ 0 <= gso_segs c /\ 0 <= gso_size a /\ 0 <= gso_size c;
}.
(** A new buffer: it is not in the queue, and nothing points to it. *)
Definition fresh_id sk (i : nat) : Prop := i ∉ skb_id <$> sk_write_queue sk /\ i <> QUEUE_END /\ sk_send_head sk <> Some i /\ forall n, hints sk n <> Some i.

(** What tcp_fragment does: buffer [i] becomes two, the first with [n] bytes. *)
Inductive split_at sk (i : nat) (n : Z) sk' : Prop :=
| split_intro l1 b l2 a c : sk_write_queue sk = l1 ++ b :: l2 -> skb_id b = i -> cut b a c -> len a = n -> fresh_id sk (skb_id c) ->
    sk_write_queue sk' = l1 ++ a :: c :: l2 -> sk_send_head sk' = sk_send_head sk -> hints sk' = hints sk ->
    adjusted sk sk' (sacked b) (gso_segs b - gso_segs a - gso_segs c) -> split_at sk i n sk'.

Inductive resend : sock -> sock -> Prop :=
| rs_other sk sk' : sb_part sk' = sb_part sk -> resend sk sk' (* timers, memory, congestion control *)
| rs_split sk sk' i n : i ∉ unsent sk -> split_at sk i n sk' -> resend sk sk'
| rs_recount sk sk' l1 b l2 n m : sk_write_queue sk = l1 ++ b :: l2 -> skb_id b ∉ unsent sk -> 0 <= n -> 0 <= m -> (* tcp_init_tso_segs *)
    sk_write_queue sk' = l1 ++ (b <| gso_segs := n |> <| gso_size := m |>) :: l2 -> sk_send_head sk' = sk_send_head sk -> hints sk' = hints sk ->
    adjusted sk sk' (sacked b) (gso_segs b - n) -> resend sk sk'
| rs_merge sk sk' l1 b c l2 b' : sk_write_queue sk = l1 ++ b :: c :: l2 -> skb_id b ∉ unsent sk -> skb_id c ∉ unsent sk -> has (sacked c) TCPCB_SACKED_ACKED = false -> (* tcp_collapse_retrans *)
    seq c = end_seq b -> skb_id b' = skb_id b -> sacked b' = bset (sacked b) (Z.land (sacked c) TCPCB_EVER_RETRANS) -> seq b' = seq b -> end_seq b' = end_seq c -> len b' = len b + len c -> gso_segs b' = gso_segs b -> gso_size b' = gso_size b ->
    sk_write_queue sk' = l1 ++ b' :: l2 -> sk_send_head sk' = sk_send_head sk ->
    highest_sack (tp sk') = (if decide (highest_sack (tp sk) = Some (skb_id c)) then Some (skb_id b) else highest_sack (tp sk)) -> lost_skb_hint (tp sk') = None -> scoreboard_skb_hint (tp sk') = None ->
    adjusted sk sk' (sacked c) (gso_segs c) -> resend sk sk'
| rs_trim sk sk' l1 b l2 b' n : sk_write_queue sk = l1 ++ b :: l2 -> skb_id b ∉ unsent sk -> 0 <= n <= len b -> (* a buffer of one packet *)
    skb_id b' = skb_id b -> sacked b' = sacked b -> gso_segs b' = gso_segs b -> gso_size b' = gso_size b -> end_seq b' = end_seq b -> seq b' = u32 (seq b + n) -> len b' = len b - n ->
    sk_write_queue sk' = l1 ++ b' :: l2 -> sk_send_head sk' = sk_send_head sk -> hints sk' = hints sk ->
    (packets_out (tp sk'), sacked_out (tp sk'), lost_out (tp sk'), retrans_out (tp sk')) = (packets_out (tp sk), sacked_out (tp sk), lost_out (tp sk), retrans_out (tp sk)) -> resend sk sk'
| rs_mark sk sk' l1 b l2 w s : sk_write_queue sk = l1 ++ b :: l2 -> skb_id b ∉ unsent sk -> has (sacked b) TCPCB_SACKED_RETRANS = false ->
    sk_write_queue sk' = l1 ++ (b <| sacked := bset (sacked b) TCPCB_RETRANS |> <| when_ := w |> <| ack_seq := s |>) :: l2 -> sk_send_head sk' = sk_send_head sk -> hints sk' = hints sk ->
    (packets_out (tp sk'), sacked_out (tp sk'), lost_out (tp sk')) = (packets_out (tp sk), sacked_out (tp sk), lost_out (tp sk)) -> retrans_out (tp sk') = u32 (retrans_out (tp sk) + gso_segs b) -> resend sk sk'.

(** New data: the send head moves on, and a buffer that is not sent yet may be cut first (the MTU
    probes of tcp_mtu_probe, which build a new buffer, are off). *)
Inductive push : sock -> sock -> Prop :=
| ps_other sk sk' : sb_part sk' = sb_part sk -> push sk sk'
| ps_cut sk sk' l1 b l2 a c : sk_write_queue sk = l1 ++ b :: l2 -> skb_id b ∈ unsent sk -> cut b a c -> fresh_id sk (skb_id c) ->
    sk_write_queue sk' = l1 ++ a :: c :: l2 -> sk_send_head sk' = sk_send_head sk -> hints sk' = hints sk ->
    (packets_out (tp sk'), sacked_out (tp sk'), lost_out (tp sk'), retrans_out (tp sk')) = (packets_out (tp sk), sacked_out (tp sk), lost_out (tp sk), retrans_out (tp sk)) -> push sk sk'
| ps_recount sk sk' l1 b l2 n m : sk_write_queue sk = l1 ++ b :: l2 -> skb_id b ∈ unsent sk -> 0 <= n -> 0 <= m ->
    sk_write_queue sk' = l1 ++ (b <| gso_segs := n |> <| gso_size := m |>) :: l2 -> sk_send_head sk' = sk_send_head sk -> hints sk' = hints sk ->
    (packets_out (tp sk'), sacked_out (tp sk'), lost_out (tp sk'), retrans_out (tp sk')) = (packets_out (tp sk), sacked_out (tp sk), lost_out (tp sk), retrans_out (tp sk)) -> push sk sk'
| ps_send sk sk' l1 b l2 w : sk_write_queue sk = l1 ++ b :: l2 -> sk_send_head sk = Some (skb_id b) ->
    sk_write_queue sk' = l1 ++ (b <| when_ := w |>) :: l2 -> sk_send_head sk' = skb_id <$> head l2 -> hints sk' = hints sk ->
    packets_out (tp sk') = u32 (packets_out (tp sk) + gso_segs b) -> packets_out (tp sk) + gso_segs b < 2 ^ 32 ->
    (sacked_out (tp sk'), lost_out (tp sk'), retrans_out (tp sk')) = (sacked_out (tp sk), lost_out (tp sk), retrans_out (tp sk)) -> push sk sk'.

(** ** Retransmission keeps the invariant *)

(** Sent buffers [mid] are replaced by [mid'], and the counters follow. *)
Record replaced sk sk' l1 mid mid' l2 : Prop := {
  rp_queue : sk_write_queue sk = l1 ++ mid ++ l2;
  rp_queue' : sk_write_queue sk' = l1 ++ mid' ++ l2;
  rp_head : sk_send_head sk' = sk_send_head sk;
  rp_some : mid <> [];
  rp_sent : Forall (fun b => skb_id b ∉ unsent sk) mid;
  rp_ids : NoDup (skb_id <$> mid') /\ forall i, i ∈ skb_id <$> mid' -> i ∈ skb_id <$> mid \/ fresh_id sk i;
  rp_ok : Forall (fun b => forall u, skb_id b ∉ u -> buf_ok u b) mid';
  rp_hints : forall n, at_sent sk (hints sk' n);
  rp_packets : packets_out (tp sk') = u32 (packets_out (tp sk) - (sumZ gso_segs mid - sumZ gso_segs mid'));
  rp_room : packets_out (tp sk) - (sumZ gso_segs mid - sumZ gso_segs mid') < 2 ^ 32;
  rp_lost : lost_out (tp sk') = u32 (lost_out (tp sk) - (sumZ (tagged TCPCB_LOST) mid - sumZ (tagged TCPCB_LOST) mid'));
  rp_retrans : retrans_out (tp sk') = u32 (retrans_out (tp sk) - (sumZ (tagged TCPCB_SACKED_RETRANS) mid - sumZ (tagged TCPCB_SACKED_RETRANS) mid'));
  rp_sacked : exists x, sacked_out (tp sk') = u32 (sacked_out (tp sk) - (sumZ (tagged TCPCB_SACKED_ACKED) mid - sumZ (tagged TCPCB_SACKED_ACKED) mid') - x) /\
    0 <= x <= sacked_out (tp sk) - sumZ (tagged TCPCB_SACKED_ACKED) (sk_write_queue sk);
}.
Lemma sum_sent u mid : Forall (fun b => skb_id b ∉ u) mid -> sumZ (sent_segs u) mid = sumZ gso_segs mid.
Proof using Type. induction 1 as [|b mid Hb _ IH]; [done|]. cbn. rewrite IH. unfold sent_segs. by rewrite decide_False. Qed.
Lemma replaced_ids sk sk' l1 mid mid' l2 : score sk -> replaced sk sk' l1 mid mid' l2 ->
  NoDup (skb_id <$> sk_write_queue sk') /\ QUEUE_END ∉ (skb_id <$> sk_write_queue sk') /\ (forall h, sk_send_head sk = Some h -> h ∉ skb_id <$> l1 ++ mid') /\
  forall i, i ∈ skb_id <$> mid' -> i ∉ skb_id <$> l2.
Proof using Type.
  intros Hs []. pose proof (sc_nodup _ Hs) as Hnd. pose proof (sc_end _ Hs) as Hend. rewrite rp_queue'0. rewrite rp_queue0, !fmap_app in Hnd, Hend. destruct rp_ids0 as [Hn Hi].
  apply NoDup_app in Hnd as (N1 & N12 & Hnd). apply NoDup_app in Hnd as (N2 & N23 & N3).
  assert (Hf : forall i, i ∈ skb_id <$> mid' -> i ∉ (skb_id <$> l1) /\ i ∉ (skb_id <$> l2) /\ i <> QUEUE_END /\ sk_send_head sk <> Some i).
  { intros i Hin. destruct (Hi i Hin) as [Hm|(F1 & F2 & F3 & _)].
    - split_and!; [intros H; apply (N12 i H); set_solver|by apply N23|intros ->; set_solver|]. intros Hh. pose proof (sent_mid _ _ _ _ _ rp_queue0 rp_some0 rp_sent0 Hh). rewrite fmap_app in *. set_solver.
    - rewrite rp_queue0, !fmap_app in F1. set_solver. }
  rewrite !fmap_app. split_and!.
  - apply NoDup_app. split_and!; [done| |apply NoDup_app; split_and!; [done| |done]].
    + intros i H1 H2. apply elem_of_app in H2 as [H2|H2]; [by destruct (Hf i H2)|apply (N12 i H1); set_solver].
    + intros i H1. by apply Hf.
  - intros H. apply elem_of_app in H as [H|H]; [set_solver|]. apply elem_of_app in H as [H|H]; [by destruct (Hf _ H) as (_ & _ & ? & _)|set_solver].
  - intros h Hh H. pose proof (sent_mid _ _ _ _ _ rp_queue0 rp_some0 rp_sent0 Hh). rewrite fmap_app in *. apply elem_of_app in H as [H|H]; [set_solver|]. by destruct (Hf _ H) as (_ & _ & _ & ?).
  - intros i Hin. by apply Hf.
Qed.

Lemma replaced_kept sk sk' l1 mid mid' l2 : score sk -> replaced sk sk' l1 mid mid' l2 -> kept sk sk'.
Proof using Type.
  intros Hs R. destruct (replaced_ids _ _ _ _ _ _ Hs R) as (I1 & I2 & I3 & I4). destruct R. pose proof (sent_unsent _ _ _ _ rp_queue0 rp_some0 rp_sent0) as Hu.
  assert (Hu' : unsent sk' = unsent sk).
  { rewrite Hu. unfold unsent. rewrite rp_head0. destruct (sk_send_head sk) as [h|]; [|done]. rewrite rp_queue'0, app_assoc, fmap_app. apply from_id_skip. by apply I3. }
  assert (Hsent : Forall (fun b => skb_id b ∉ unsent sk) mid').
  { apply Forall_forall. intros b Hb Hin. apply (I4 (skb_id b)); [apply list_elem_of_fmap; by exists b|]. rewrite Hu in Hin. destruct (sk_send_head sk); [by eapply from_id_sub|by apply elem_of_nil in Hin]. }
  pose proof (sc_ok _ Hs) as Hok. rewrite rp_queue0 in Hok. apply Forall_app in Hok as [O1 Hok]. apply Forall_app in Hok as [Om O2].
  assert (Om' : Forall (buf_ok (unsent sk)) mid') by (apply Forall_forall; intros b Hb; rewrite Forall_forall in rp_ok0, Hsent; apply rp_ok0; [done|by apply Hsent]).
  assert (Ok' : Forall (buf_ok (unsent sk)) (l1 ++ mid' ++ l2)) by (by rewrite !Forall_app).
  assert (E : forall w, sumZ w (l1 ++ mid' ++ l2) = sumZ w (sk_write_queue sk) - (sumZ w mid - sumZ w mid')) by (intros w; rewrite rp_queue0, !sumZ_app; lia).
  pose proof (sum_sent _ _ rp_sent0) as M1. pose proof (sum_sent _ _ Hsent) as M2.
  pose proof (sum_tagged _ _ TCPCB_SACKED_ACKED ltac:(by left) Ok') as B1. pose proof (sum_tagged _ _ TCPCB_LOST ltac:(by right; right) Ok') as B2. pose proof (sum_tagged _ _ TCPCB_SACKED_RETRANS ltac:(by right; left) Ok') as B3.
  rewrite !E, M1, M2 in B1, B2, B3. destruct Hs. destruct rp_sacked0 as (x & X1 & X2). rewrite sc_lost in rp_lost0. rewrite sc_retrans in rp_retrans0.
  rewrite u32_small in rp_packets0 by (unfold is_u32; lia). rewrite u32_small in rp_lost0 by (unfold is_u32; lia). rewrite u32_small in rp_retrans0 by (unfold is_u32; lia). rewrite u32_small in X1 by (unfold is_u32; lia).
  split; [|done]. split; rewrite ?Hu', ?rp_queue'0, ?E, ?M1, ?M2; try lia; try done.
  - by rewrite <- rp_queue'0.
  - by rewrite <- rp_queue'0.
  - intros n. by eapply at_sent_ext; [exact Hu'| |].
Qed.
Lemma adjusted_kept sk sk' l1 mid mid' l2 tags d : score sk -> adjusted sk sk' tags d -> sk_write_queue sk = l1 ++ mid ++ l2 -> sk_write_queue sk' = l1 ++ mid' ++ l2 ->
  sk_send_head sk' = sk_send_head sk -> mid <> [] -> Forall (fun b => skb_id b ∉ unsent sk) mid ->
  NoDup (skb_id <$> mid') -> (forall i, i ∈ skb_id <$> mid' -> i ∈ skb_id <$> mid \/ fresh_id sk i) ->
  Forall (fun b => forall u, skb_id b ∉ u -> buf_ok u b) mid' -> (forall n, at_sent sk (hints sk' n)) ->
  sumZ gso_segs mid - sumZ gso_segs mid' = d -> (forall bit, is_tag bit -> sumZ (tagged bit) mid - sumZ (tagged bit) mid' = taken bit tags d) -> kept sk sk'.
Proof using Type.
  intros Hs [] Hq Hq' Hh Hne Hm Hn Hi Ho Hhi Hd Ht. eapply (replaced_kept _ _ l1 mid mid' l2 Hs). split; try done; rewrite ?Ht, ?Hd; try done; try (by left); try (by right; left); try (by right; right).
  destruct ad_sacked0 as (x & E & Hx). exists x. split; [done|]. pose proof (sc_sacked _ Hs). destruct Hx as [->|[_ ?]]; lia.
Qed.
Lemma unadjusted sk sk' tags : score sk ->
  (packets_out (tp sk'), sacked_out (tp sk'), lost_out (tp sk'), retrans_out (tp sk')) = (packets_out (tp sk), sacked_out (tp sk), lost_out (tp sk), retrans_out (tp sk)) ->
  adjusted sk sk' tags 0.
Proof using Type.
  intros Hs [= H1 H2 H3 H4]. pose proof (score_u32 sk Hs) as (U1 & U2 & U3). pose proof (score_le sk Hs). pose proof (sc_packets _ Hs).
  assert (Et : forall bit, taken bit tags 0 = 0) by (intros; unfold taken; by case_match). split; rewrite ?Et, ?Z.sub_0_r; [|lia|..].
  - rewrite H1. symmetry. apply u32_small. unfold is_u32. lia.
  - rewrite H3. symmetry. by apply u32_small.
  - rewrite H4. symmetry. by apply u32_small.
  - exists 0. rewrite !Z.sub_0_r, H2. split; [|by left]. symmetry. by apply u32_small.
Qed.
Lemma hints_kept sk sk' : score sk -> hints sk' = hints sk -> forall n, at_sent sk (hints sk' n).
Proof using Type. intros Hs -> n. apply (sc_hints _ Hs). Qed.
Lemma mid_ok sk l1 b l2 : score sk -> sk_write_queue sk = l1 ++ b :: l2 -> buf_ok (unsent sk) b.
Proof using Type. intros Hs Hq. pose proof (sc_ok _ Hs) as H. rewrite Hq in H. apply Forall_app in H as [_ H]. by apply Forall_cons in H as [H _]. Qed.

(** A sent buffer with other numbers but the same tags. *)
Lemma buf_ok_like u b b' : buf_ok u b -> sacked b' = sacked b -> 0 <= len b' -> 0 <= gso_segs b' -> 0 <= gso_size b' -> u32 (end_seq b' - seq b') = u32 (len b') ->
  forall v, skb_id b' ∉ v -> buf_ok v b'.
Proof using Type. intros [] Ht Hl Hg Hz Hsp v Hv. split; rewrite ?Ht; try done. Qed.
Lemma cut_ok u b a c : buf_ok u b -> cut b a c -> Forall (fun x => forall v, skb_id x ∉ v -> buf_ok v x) [a; c].
Proof using Type.
  intros Hb []. destruct ct_tags0 as [T1 T2], ct_seq0 as (S1 & S2 & S3 & S4), ct_len0 as (L1 & L2 & L3), ct_segs0 as (G1 & G2 & Z1 & Z2). pose proof (bo_span _ _ Hb) as Hsp. apply Forall_cons. split; [|apply Forall_singleton].
  - eapply buf_ok_like; [exact Hb|done..|]. rewrite S1, S3, S4. clear. generalize (seq b), (len a). intros. warith.
  - eapply buf_ok_like; [exact Hb|done..|]. rewrite S2, S4. replace (len c) with (len b - len a) by lia. revert Hsp. clear. generalize (end_seq b), (seq b), (len b), (len a). intros. warith.
Qed.
Lemma tagged_same bit a b : sacked a = sacked b -> tagged bit a = taken bit (sacked b) (gso_segs a).
Proof using Type. unfold tagged, taken. by intros ->. Qed.
Lemma taken_sub bit tags x y : taken bit tags (x - y) = taken bit tags x - taken bit tags y.
Proof using Type. unfold taken. case_match; lia. Qed.
Lemma split_kept sk i n sk' : score sk -> i ∉ unsent sk -> split_at sk i n sk' -> kept sk sk'.
Proof using Type.
  intros Hs Hb [l1 b l2 a c Hq <- Hc _ Hf Hq' Hh Hhi Ha]. pose proof (ct_id _ _ _ Hc) as Ei. destruct (ct_tags _ _ _ Hc) as [T1 T2].
  eapply (adjusted_kept _ _ l1 [b] [a; c] l2); [exact Hs|exact Ha|done|done|done|done|by apply Forall_singleton| | |by eapply cut_ok; [eapply mid_ok|]|by apply hints_kept|cbn; lia|].
  - rewrite !fmap_cons, fmap_nil. apply NoDup_cons. split; [|apply NoDup_singleton]. intros E. apply list_elem_of_singleton in E. destruct Hf as [Hf _]. apply Hf. rewrite Hq, fmap_app, fmap_cons. replace (skb_id c) with (skb_id b) by congruence. set_solver.
  - intros i Hi. rewrite !fmap_cons, fmap_nil in Hi. cbn. apply elem_of_cons in Hi as [->|Hi]; [left; apply list_elem_of_singleton; congruence|]. apply list_elem_of_singleton in Hi as ->. by right.
  - intros bit _. cbn. rewrite !taken_sub, (tagged_same bit a b T1), (tagged_same bit c b T2), (tagged_same bit b b eq_refl). lia.
Qed.
Lemma split_keeps sk i n sk' j : split_at sk i n sk' -> is_Some (wq_get sk j) -> is_Some (wq_get sk' j).
Proof using Type.
  intros [l1 b l2 a c Hq _ Hc _ _ Hq' _ _ _] [x Hx]. apply get_elem in Hx as [Hx <-]. assert (Hy : exists y, y ∈ sk_write_queue sk' /\ skb_id y = skb_id x).
  { rewrite Hq in Hx. rewrite Hq'. apply elem_of_app in Hx as [Hx|Hx]; [exists x; set_solver|]. apply elem_of_cons in Hx as [->|Hx]; [exists a; split; [set_solver|apply Hc]|exists x; set_solver]. }
  destruct Hy as (y & Hy & Ey). unfold wq_get. destruct (List.find _ _) as [z|] eqn:E; [by eexists|]. eapply List.find_none in E; [|by apply list_elem_of_In]. cbn in E. rewrite Ey, Nat.eqb_refl in E. done.
Qed.
(** One sent buffer changes, but not its tags. *)
Lemma change_kept sk sk' l1 b l2 b' : score sk -> sk_write_queue sk = l1 ++ b :: l2 -> skb_id b ∉ unsent sk -> skb_id b' = skb_id b -> sacked b' = sacked b ->
  0 <= len b' -> 0 <= gso_segs b' -> 0 <= gso_size b' -> u32 (end_seq b' - seq b') = u32 (len b') ->
  sk_write_queue sk' = l1 ++ b' :: l2 -> sk_send_head sk' = sk_send_head sk -> hints sk' = hints sk -> adjusted sk sk' (sacked b) (gso_segs b - gso_segs b') -> kept sk sk'.
Proof using Type.
  intros Hs Hq Hb Ei Et Hl Hg Hz Hsp Hq' Hh Hhi Ha.
  eapply (adjusted_kept _ _ l1 [b] [b'] l2); [exact Hs|exact Ha|done|done|done|done|by apply Forall_singleton|apply NoDup_singleton| |apply Forall_singleton; eapply buf_ok_like; [by eapply mid_ok|done..]|by apply hints_kept|cbn; lia|].
  - intros i Hi. apply list_elem_of_fmap in Hi as (x & -> & Hx). apply list_elem_of_singleton in Hx as ->. left. apply list_elem_of_fmap. exists b. split; [exact Ei|apply elem_of_cons; by left].
  - intros bit _. cbn. rewrite taken_sub, (tagged_same bit b' b Et), (tagged_same bit b b eq_refl). lia.
Qed.
End Steps.

Section Kept.
Context {K : Kernel} {TL : TagLaws K}.
Implicit Types (sk : sock) (a b c : sk_buff) (l : list sk_buff).

(** EVER_RETRANS is no tag. *)
Lemma has_ever bit x y : is_tag bit -> has (bset x (Z.land y TCPCB_EVER_RETRANS)) bit = has x bit.
Proof using TL.
  assert (E : forall n, 0 <= n < 7 -> Z.testbit (bset x (Z.land y TCPCB_EVER_RETRANS)) n = Z.testbit x n).
  { intros n Hn. rewrite testbit_bset, Z.land_spec, tag_ever_retrans, Z.pow2_bits_eqb by lia. rewrite (proj2 (Z.eqb_neq 7 n)) by lia. by rewrite andb_false_r, orb_false_r. }
  intros [->|[->| ->]]; rewrite ?has_S, ?has_R, ?has_L; apply E; lia.
Qed.
Lemma has_marked bit x : is_tag bit -> bit <> TCPCB_SACKED_RETRANS -> has (bset x TCPCB_RETRANS) bit = has x bit.
Proof using TL.
  assert (E : forall n, 0 <= n < 7 -> n <> 1 -> Z.testbit (bset x TCPCB_RETRANS) n = Z.testbit x n).
  { intros n Hn H1. rewrite testbit_bset, tag_retrans, Z.lor_spec, tag_ever_retrans, tag_sacked_retrans, !Z.pow2_bits_eqb by lia. rewrite (proj2 (Z.eqb_neq 7 n)), (proj2 (Z.eqb_neq 1 n)) by lia. apply orb_false_r. }
  intros [->|[->| ->]] Hb; rewrite ?has_S, ?has_R, ?has_L; [apply E; lia|done|apply E; lia].
Qed.
Lemma has_marked_R x : has (bset x TCPCB_RETRANS) TCPCB_SACKED_RETRANS = true.
Proof using TL. rewrite has_R, testbit_bset, tag_retrans, Z.lor_spec, tag_ever_retrans, tag_sacked_retrans, !Z.pow2_bits_eqb by lia. apply orb_true_r. Qed.
Lemma mark_kept sk sk' l1 b l2 w s : score sk -> sk_write_queue sk = l1 ++ b :: l2 -> skb_id b ∉ unsent sk -> has (sacked b) TCPCB_SACKED_RETRANS = false ->
  sk_write_queue sk' = l1 ++ (b <| sacked := bset (sacked b) TCPCB_RETRANS |> <| when_ := w |> <| ack_seq := s |>) :: l2 -> sk_send_head sk' = sk_send_head sk -> hints sk' = hints sk ->
  (packets_out (tp sk'), sacked_out (tp sk'), lost_out (tp sk')) = (packets_out (tp sk), sacked_out (tp sk), lost_out (tp sk)) -> retrans_out (tp sk') = u32 (retrans_out (tp sk) + gso_segs b) -> kept sk sk'.
Proof using TL.
  intros Hs Hq Hb Hr Hq' Hh Hhi [= E1 E2 E3] E4. set (b' := b <| sacked := _ |> <| when_ := w |> <| ack_seq := s |>) in *. pose proof (score_u32 sk Hs) as (U1 & U2 & _). pose proof (sc_packets _ Hs). pose proof (score_le sk Hs).
  assert (Tag : forall bit, is_tag bit -> bit <> TCPCB_SACKED_RETRANS -> tagged bit b' = tagged bit b) by (intros bit Ht Hn; unfold tagged; cbn; by rewrite has_marked).
  assert (NS : TCPCB_SACKED_ACKED <> TCPCB_SACKED_RETRANS /\ TCPCB_LOST <> TCPCB_SACKED_RETRANS) by (rewrite tag_sacked_acked, tag_sacked_retrans, tag_lost; done). destruct NS as [NS NL].
  assert (IS : is_tag TCPCB_SACKED_ACKED) by (by left). assert (IL : is_tag TCPCB_LOST) by (by right; right).
  eapply (replaced_kept _ _ l1 [b] [b'] l2 Hs). split; try done; cbn [sumZ]; rewrite ?(Tag _ IS NS), ?(Tag _ IL NL).
  - by apply Forall_singleton.
  - split; [apply NoDup_singleton|]. intros i Hi. by left.
  - apply Forall_singleton. pose proof (mid_ok _ _ _ _ Hs Hq) as []. intros u Hu. split; try done. cbn. by rewrite !has_marked.
  - by apply hints_kept.
  - rewrite E1. change (gso_segs b') with (gso_segs b). symmetry. rewrite Z.sub_diag, Z.sub_0_r. apply u32_small. unfold is_u32. lia.
  - change (gso_segs b') with (gso_segs b). lia.
  - rewrite E3, Z.sub_diag, Z.sub_0_r. symmetry. by apply u32_small.
  - rewrite E4. f_equal. unfold tagged. cbn. rewrite has_marked_R, Hr. lia.
  - exists 0. rewrite E2, Z.sub_diag, !Z.sub_0_r. split; [symmetry; by apply u32_small|]. pose proof (sc_sacked _ Hs). lia.
Qed.
Lemma merge_kept sk sk' l1 b c l2 b' : score sk -> sk_write_queue sk = l1 ++ b :: c :: l2 -> skb_id b ∉ unsent sk -> skb_id c ∉ unsent sk ->
  seq c = end_seq b -> skb_id b' = skb_id b -> sacked b' = bset (sacked b) (Z.land (sacked c) TCPCB_EVER_RETRANS) -> seq b' = seq b -> end_seq b' = end_seq c -> len b' = len b + len c -> gso_segs b' = gso_segs b -> gso_size b' = gso_size b ->
  sk_write_queue sk' = l1 ++ b' :: l2 -> sk_send_head sk' = sk_send_head sk -> (forall n, at_sent sk (hints sk' n)) -> adjusted sk sk' (sacked c) (gso_segs c) -> kept sk sk'.
Proof using TL.
  intros Hs Hq Hb Hc Hseq Ei Et Es Ee El Eg Ez Hq' Hh Hhi Ha. pose proof (mid_ok _ _ _ _ Hs Hq) as Ob. assert (Oc : buf_ok (unsent sk) c) by (eapply (mid_ok _ (l1 ++ [b]) _ l2); [done|by rewrite <- app_assoc]).
  eapply (adjusted_kept _ _ l1 [b; c] [b'] l2); [exact Hs|exact Ha|done|done|done|done| |apply NoDup_singleton| | |done|cbn; lia|].
  - apply Forall_cons. split; [done|]. by apply Forall_singleton.
  - intros i Hi. apply list_elem_of_fmap in Hi as (x & -> & Hx). apply list_elem_of_singleton in Hx as ->. left. apply list_elem_of_fmap. exists b. split; [exact Ei|apply elem_of_cons; by left].
  - apply Forall_singleton. destruct Ob as [B1 B2 B3 B4 _ B6], Oc as [_ C2 _ _ _ C6]. intros u Hu. split; try done; try lia.
    + rewrite Et, !has_ever; [done|by right; right|by left].
    + rewrite Ee, Es, El. rewrite Hseq in C6. revert B6 C6. clear. generalize (end_seq b), (seq b), (end_seq c), (len b), (len c). intros. warith.
  - intros bit Ht. cbn. assert (E : tagged bit b' = tagged bit b) by (unfold tagged; by rewrite Et, Eg, has_ever). rewrite E, (tagged_same bit c c eq_refl). lia.
Qed.

(** Every step of a retransmission keeps the invariant and the place of the send head, and so do
    their sequences. *)
Lemma resend_kept sk sk' : score sk -> resend sk sk' -> kept sk sk'.
Proof using TL.
  intros Hs R. destruct R; [by apply kept_part|by eapply split_kept| | | |by eapply mark_kept].
  - pose proof (mid_ok _ _ _ _ Hs H) as []. by eapply (change_kept _ _ l1 b l2 _ Hs H H0); [..|exact H3| | |].
  - eapply merge_kept; try done. intros n. destruct n as [|[|n]]; cbn; [|rewrite H14|rewrite H15]; [|apply at_sent_none..]. rewrite H13. case_decide as E; [|exact (sc_hints _ Hs 0%nat)]. intros i [= <-]. by left.
  - pose proof (mid_ok _ _ _ _ Hs H) as []. eapply (change_kept _ _ l1 b l2 b' Hs H H0); [done|done|lia|lia|lia| |done|done|done|].
    + rewrite H6, H7, H8. revert bo_span. clear. generalize (end_seq b), (seq b), (len b). intros. warith.
    + rewrite H4, Z.sub_diag. by apply unadjusted.
Qed.
Lemma resends_kept sk sk' : score sk -> rtc resend sk sk' -> kept sk sk'.
Proof using TL.
  intros Hs R. induction R as [sk|sk1 sk2 sk3 R _ IH]; [by apply kept_refl|]. pose proof (resend_kept _ _ Hs R) as Hk. eapply kept_trans; [exact Hk|]. apply IH, Hk.
Qed.

End Kept.

(** ** New data keeps the invariant *)
Section Fresh.
Context {K : Kernel}.
Implicit Types (sk : sock) (a b c : sk_buff) (l : list sk_buff).

(** The buffers behind the send head; one of them is cut. *)
Lemma from_id_cut h p i t r : NoDup (p ++ i :: r) -> i ∈ from_id h (p ++ i :: r) -> exists s, from_id h (p ++ i :: r) = s ++ i :: r /\ from_id h (p ++ i :: t ++ r) = s ++ i :: t ++ r.
Proof using Type.
  intros Hnd Hi. destruct (decide (h ∈ p)) as [Hp|Hp]; [exists (from_id h p); by rewrite !from_id_hit|]. rewrite !from_id_skip in * by done. apply NoDup_app in Hnd as (_ & _ & Hnd). apply NoDup_cons in Hnd as [Hni _].
  exists []. cbn in *. destruct (Nat.eqb i h); [done|]. destruct Hni. by eapply from_id_sub.
Qed.
Lemma untagged_sum b bit : untagged b -> is_tag bit -> tagged bit b = 0.
Proof using Type. intros (H1 & H2 & H3) [->|[->| ->]]; unfold tagged; by rewrite ?H1, ?H2, ?H3. Qed.
Lemma sum_sent_ext u u' l : (forall b, b ∈ l -> (skb_id b ∈ u' <-> skb_id b ∈ u)) -> sumZ (sent_segs u') l = sumZ (sent_segs u) l.
Proof using Type.
  induction l as [|b l IH]; intros H; [done|]. cbn. rewrite IH by (intros; apply H; apply elem_of_cons; by right). f_equal. unfold sent_segs.
  destruct (H b) as [H1 H2]; [apply elem_of_cons; by left|]. destruct (decide (skb_id b ∈ u')), (decide (skb_id b ∈ u)); tauto || done.
Qed.
Lemma buf_ok_ext u u' b : (skb_id b ∈ u' -> skb_id b ∈ u) -> buf_ok u b -> buf_ok u' b.
Proof using Type. intros H []. split; auto. Qed.
Lemma buf_ok_fresh u b b' : buf_ok u b -> skb_id b ∈ u -> sacked b' = sacked b -> 0 <= len b' -> 0 <= gso_segs b' -> 0 <= gso_size b' -> u32 (end_seq b' - seq b') = u32 (len b') -> untagged b' /\ forall v, buf_ok v b'.
Proof using Type. intros [] Hu Ht Hl Hg Hz Hsp. assert (untagged b') by (unfold untagged; rewrite !Ht; by apply bo_unsent). split; [done|]. intros v. split; rewrite ?Ht; done. Qed.
(** A buffer that is not sent yet is replaced. *)
Lemma fresh_score sk sk' l1 b l2 a t : score sk -> sk_write_queue sk = l1 ++ b :: l2 -> skb_id b ∈ unsent sk -> skb_id a = skb_id b ->
  Forall (fun x => untagged x /\ forall u, buf_ok u x) (a :: t) -> NoDup (skb_id <$> t) -> Forall (fun x => fresh_id sk (skb_id x)) t ->
  sk_write_queue sk' = l1 ++ a :: t ++ l2 -> sk_send_head sk' = sk_send_head sk -> hints sk' = hints sk ->
  (packets_out (tp sk'), sacked_out (tp sk'), lost_out (tp sk'), retrans_out (tp sk')) = (packets_out (tp sk), sacked_out (tp sk), lost_out (tp sk), retrans_out (tp sk)) -> score sk'.
Proof using Type.
  intros Hs Hq Hb Ei Hok Hnt Hft Hq' Hh Hhi [= E1 E2 E3 E4]. pose proof (sc_nodup _ Hs) as Hnd. pose proof (mid_ok _ _ _ _ Hs Hq) as Ob. pose proof (bo_unsent _ _ Ob Hb) as Ub.
  assert (Hft' : forall i, i ∈ skb_id <$> t -> fresh_id sk i) by (intros i Hi; apply list_elem_of_fmap in Hi as (x & -> & Hx); rewrite Forall_forall in Hft; by apply Hft).
  destruct (sk_send_head sk) as [h|] eqn:Eh; [|unfold unsent in Hb; rewrite Eh in Hb; by apply elem_of_nil in Hb].
  assert (Q : skb_id <$> sk_write_queue sk' = (skb_id <$> l1) ++ skb_id b :: (skb_id <$> t) ++ (skb_id <$> l2)) by (rewrite Hq', fmap_app, fmap_cons, fmap_app; f_equal; f_equal; exact Ei).
  rewrite Hq, fmap_app, fmap_cons in Hnd. unfold unsent in Hb. rewrite Eh, Hq, fmap_app, fmap_cons in Hb. destruct (from_id_cut h _ _ (skb_id <$> t) _ Hnd Hb) as (s & U1 & U2).
  assert (U : unsent sk = s ++ skb_id b :: (skb_id <$> l2)) by (unfold unsent; by rewrite Eh, Hq, fmap_app, fmap_cons). assert (U' : unsent sk' = s ++ skb_id b :: (skb_id <$> t) ++ (skb_id <$> l2)) by (unfold unsent; by rewrite Hh, Q). clear U1 U2.
  assert (Hext : forall x, x ∈ sk_write_queue sk -> (skb_id x ∈ unsent sk' <-> skb_id x ∈ unsent sk)).
  { intros x Hx. rewrite U, U'. assert (Hn : skb_id x ∉ skb_id <$> t) by (intros Hi; destruct (Hft' _ Hi) as [F _]; apply F; apply list_elem_of_fmap; by exists x). set_solver. }
  assert (Hin : Forall (fun x => skb_id x ∈ unsent sk') (a :: t)).
  { apply Forall_cons. rewrite U'. split; [apply elem_of_app; right; apply elem_of_cons; left; exact Ei|]. apply Forall_forall. intros x Hx. apply elem_of_app. right. apply elem_of_cons. right. apply elem_of_app. left. apply list_elem_of_fmap. by exists x. }
  assert (Hs0 : sumZ (sent_segs (unsent sk')) (a :: t) = 0) by (clear -Hin; induction Hin as [|x l Hx _ IH]; [done|]; cbn [sumZ]; rewrite IH; unfold sent_segs; by rewrite decide_True).
  assert (Ht0 : forall bit, is_tag bit -> sumZ (tagged bit) (a :: t) = 0) by (intros bit Hbit; clear -Hok Hbit; induction Hok as [|x l [Hx _] _ IH]; [done|]; cbn [sumZ]; rewrite IH; by rewrite untagged_sum).
  assert (S : forall w, sumZ w (sk_write_queue sk') = sumZ w l1 + sumZ w (a :: t) + sumZ w l2) by (intros w; rewrite Hq'; change (l1 ++ a :: t ++ l2) with (l1 ++ (a :: t) ++ l2); rewrite !sumZ_app; lia).
  assert (T : forall bit, is_tag bit -> sumZ (tagged bit) (sk_write_queue sk') = sumZ (tagged bit) (sk_write_queue sk)) by (intros bit Hbit; rewrite S, Ht0, Hq, sumZ_app by done; cbn [sumZ]; rewrite (untagged_sum b) by done; lia).
  assert (P : sumZ (sent_segs (unsent sk')) (sk_write_queue sk') = sumZ (sent_segs (unsent sk)) (sk_write_queue sk)).
  { rewrite S, Hs0. assert (X : sent_segs (unsent sk) b = 0) by (unfold sent_segs; rewrite decide_True; [done|rewrite U; set_solver]). rewrite (sum_sent_ext (unsent sk)), (sum_sent_ext (unsent sk) _ l2), Hq, sumZ_app by (intros; apply Hext; rewrite Hq; set_solver). cbn [sumZ]. lia. }
  pose proof Hs as []. rewrite <- P, <- !T in * by (first [by left|by right; left|by right; right]). split; rewrite ?E1, ?E2, ?E3, ?E4, ?Q; try done.
  - rewrite Hq'. change (l1 ++ a :: t ++ l2) with (l1 ++ (a :: t) ++ l2). rewrite !Forall_app. split_and!; [|by eapply Forall_impl; [exact Hok|]; intros x [_ Hx]|];
      apply Forall_forall; intros x Hx; rewrite Forall_forall in sc_ok; (eapply buf_ok_ext; [apply Hext|apply sc_ok]); rewrite Hq; set_solver.
  - apply NoDup_app in Hnd as (N1 & N2 & Hnd). apply NoDup_cons in Hnd as [N3 N4]. assert (Hf : forall i, i ∈ skb_id <$> t -> i ∉ (skb_id <$> l1) /\ i <> skb_id b /\ i ∉ (skb_id <$> l2)) by (intros i Hi; destruct (Hft' _ Hi) as [F _]; rewrite Hq, fmap_app, fmap_cons in F; set_solver).
    apply NoDup_app. split_and!; [done|set_solver|]. apply NoDup_cons. split; [set_solver|]. apply NoDup_app. set_solver.
  - intros Hi. rewrite Hq, fmap_app, fmap_cons in sc_end. assert (Hf : QUEUE_END ∉ skb_id <$> t) by (intros Ht; by destruct (Hft' _ Ht) as (_ & ? & _)). set_solver.
  - intros n i Hi. rewrite Hhi in Hi. destruct (sc_hints n i Hi) as [Hu|Hu].
    + destruct (decide (i ∈ skb_id <$> t)) as [Ht|Ht]; [|left; rewrite U'; rewrite U in Hu; set_solver]. by destruct (Hft' _ Ht) as (_ & _ & _ & F); destruct (F n).
    + right. unfold is_send_head in *. by rewrite Hh, <- Eh.
Qed.
(** The send head moves on. *)
Lemma send_score sk sk' l1 b l2 w : score sk -> sk_write_queue sk = l1 ++ b :: l2 -> sk_send_head sk = Some (skb_id b) ->
  sk_write_queue sk' = l1 ++ (b <| when_ := w |>) :: l2 -> sk_send_head sk' = skb_id <$> head l2 -> hints sk' = hints sk ->
  packets_out (tp sk') = u32 (packets_out (tp sk) + gso_segs b) -> packets_out (tp sk) + gso_segs b < 2 ^ 32 ->
  (sacked_out (tp sk'), lost_out (tp sk'), retrans_out (tp sk')) = (sacked_out (tp sk), lost_out (tp sk), retrans_out (tp sk)) -> score sk'.
Proof using Type.
  intros Hs Hq Hh Hq' Hh' Hhi Hp Hroom [= E1 E2 E3]. pose proof (sc_nodup _ Hs) as Hnd. pose proof (mid_ok _ _ _ _ Hs Hq) as Ob. pose proof (sc_packets _ Hs). pose proof (score_le _ Hs). set (b' := b <| when_ := w |>) in *.
  rewrite u32_small in Hp by (unfold is_u32; pose proof (bo_segs _ _ Ob); lia).
  assert (Ids : skb_id <$> sk_write_queue sk' = skb_id <$> sk_write_queue sk) by (by rewrite Hq', Hq, !fmap_app). assert (Qi : skb_id <$> sk_write_queue sk = (skb_id <$> l1) ++ skb_id b :: (skb_id <$> l2)) by (by rewrite Hq, fmap_app).
  rewrite Qi in Hnd. apply NoDup_app in Hnd as (N1 & N2 & Hnd). apply NoDup_cons in Hnd as [N3 N4].
  assert (U : unsent sk = skb_id b :: (skb_id <$> l2)) by (unfold unsent; rewrite Hh, Qi, from_id_skip; [cbn; by rewrite Nat.eqb_refl|intros Hi; apply (N2 _ Hi); set_solver]).
  assert (U' : unsent sk' = skb_id <$> l2).
  { unfold unsent. rewrite Hh', Ids, Qi. destruct l2 as [|x l2]; [done|]. cbn [head fmap option_fmap option_map]. rewrite from_id_skip by (intros Hi; apply (N2 _ Hi); set_solver). cbn.
    rewrite (proj2 (Nat.eqb_neq _ _)) by (intros E; apply N3; rewrite E; set_solver). by rewrite Nat.eqb_refl. }
  assert (Hext : forall x, x ∈ l1 ++ l2 -> (skb_id x ∈ unsent sk' <-> skb_id x ∈ unsent sk)).
  { intros x Hx. rewrite U, U'. assert (skb_id x <> skb_id b); [|set_solver]. intros E. apply elem_of_app in Hx as [Hx|Hx]; [apply (N2 (skb_id x)); [apply list_elem_of_fmap; by exists x|set_solver]|]. apply N3. rewrite <- E. apply list_elem_of_fmap. by exists x. }
  assert (T : forall bit, sumZ (tagged bit) (sk_write_queue sk') = sumZ (tagged bit) (sk_write_queue sk)) by (intros bit; rewrite Hq', Hq, !sumZ_app; done).
  assert (P : sumZ (sent_segs (unsent sk')) (sk_write_queue sk') = sumZ (sent_segs (unsent sk)) (sk_write_queue sk) + gso_segs b).
  { rewrite Hq', Hq, !sumZ_app. cbn [sumZ]. rewrite (sum_sent_ext (unsent sk)), (sum_sent_ext (unsent sk) _ l2) by (intros; apply Hext; set_solver). unfold sent_segs at 2 5. change (skb_id b') with (skb_id b). change (gso_segs b') with (gso_segs b). rewrite decide_False, decide_True by (rewrite ?U, ?U'; set_solver). lia. }
  pose proof (bo_segs _ _ Ob). destruct Hs. split; rewrite ?E1, ?E2, ?E3, ?T, ?P, ?Ids; try done; try lia.
  - rewrite Hq'. rewrite Hq in sc_ok. rewrite !Forall_app in *. destruct sc_ok as [O1 O2]. apply Forall_cons in O2 as [_ O2]. rewrite Forall_forall in O1. rewrite Forall_forall in O2.
    split; [|apply Forall_cons; split]; [apply Forall_forall; intros x Hx|destruct Ob; split; try done; intros _; apply bo_unsent; rewrite U; apply elem_of_cons; by left|apply Forall_forall; intros x Hx]; (eapply buf_ok_ext; [apply Hext; set_solver|auto]).
  - intros n i Hi. rewrite Hhi in Hi. left. rewrite U'. destruct (sc_hints n i Hi) as [Hu|Hu]; [rewrite U in Hu; set_solver|]. unfold is_send_head in Hu. rewrite Hh in Hu. apply bool_decide_eq_true in Hu as [= <-]. done.
Qed.

Lemma push_score sk sk' : score sk -> push sk sk' -> score sk'.
Proof using Type.
  intros Hs R. destruct R; [by eapply score_ext| | |by eapply send_score].
  - pose proof (mid_ok _ _ _ _ Hs H) as Ob. pose proof (ct_id _ _ _ H1). destruct (ct_tags _ _ _ H1) as [T1 T2]. pose proof (cut_ok _ _ _ _ Ob H1) as Hc. apply Forall_cons in Hc as [Ha Hc]. apply Forall_cons in Hc as [Hc _].
    pose proof (Ha [] (not_elem_of_nil _)) as []. pose proof (Hc [] (not_elem_of_nil _)) as [].
    eapply (fresh_score _ _ l1 b l2 a [c] Hs H H0); [done| |apply NoDup_singleton|by apply Forall_singleton|done..]. apply Forall_cons. split; [|apply Forall_singleton]; by eapply buf_ok_fresh.
  - pose proof (mid_ok _ _ _ _ Hs H) as Ob. pose proof Ob as []. eapply (fresh_score _ _ l1 b l2 (b <| gso_segs := n |> <| gso_size := m |>) [] Hs H H0); [done| |apply NoDup_nil_2|by apply Forall_nil|done..].
    apply Forall_singleton. by eapply buf_ok_fresh.
Qed.
Lemma pushes_score sk sk' : score sk -> rtc push sk sk' -> score sk'.
Proof using Type. intros Hs R. induction R as [sk|sk1 sk2 sk3 R _ IH]; [done|]. by eapply IH, push_score. Qed.
End Fresh.

(** ** Concrete transmission

    The functions [linux_fragment], [linux_retransmit], [linux_xmit_queue] and [linux_push] of
    Kernel.v take such steps. *)
Module Concrete.
#[local] Existing Instance linux.
Implicit Types (sk : sock) (b : sk_buff).

Lemma get_split sk i b : wq_get sk i = Some b -> exists l1 l2, sk_write_queue sk = l1 ++ b :: l2 /\ skb_id b = i.
Proof. intros H. apply get_elem in H as [H <-]. apply list_elem_of_split in H as (l1 & l2 & H). by exists l1, l2. Qed.
Lemma ids_split l1 b l2 : NoDup (skb_id <$> l1 ++ b :: l2) -> (skb_id b ∉ skb_id <$> l1) /\ (skb_id b ∉ skb_id <$> l2).
Proof. rewrite fmap_app, fmap_cons. intros H. apply NoDup_app in H as (_ & H1 & H). apply NoDup_cons in H as [H _]. split; [|done]. intros Hi. apply (H1 _ Hi). apply elem_of_cons. by left. Qed.
Lemma put_split l1 b l2 b' : NoDup (skb_id <$> l1 ++ b :: l2) -> put (l1 ++ b :: l2) (skb_id b) b' = l1 ++ b' :: l2.
Proof.
  intros H. apply ids_split in H as [H1 H2]. unfold put. rewrite fmap_app, fmap_cons, Nat.eqb_refl. pose proof (put_absent l1 _ b' H1) as E1. pose proof (put_absent l2 _ b' H2) as E2. unfold put in E1, E2. by rewrite E1, E2.
Qed.
Lemma bind_absent l i (f : list sk_buff) : i ∉ (skb_id <$> l) -> l ≫= (fun x => if Nat.eqb (skb_id x) i then f else [x]) = l.
Proof.
  induction l as [|x l IH]; intros H; [done|]. rewrite fmap_cons in H. apply not_elem_of_cons in H as [H1 H2]. rewrite bind_cons, IH by done. by rewrite (proj2 (Nat.eqb_neq (skb_id x) i)) by congruence.
Qed.
Lemma bind_split l1 b l2 f : NoDup (skb_id <$> l1 ++ b :: l2) -> (l1 ++ b :: l2) ≫= (fun x => if Nat.eqb (skb_id x) (skb_id b) then f else [x]) = l1 ++ f ++ l2.
Proof. intros H. apply ids_split in H as [H1 H2]. by rewrite bind_app, bind_cons, Nat.eqb_refl, !bind_absent. Qed.
Lemma max_above i l : i ∈ l -> (i <= list_max l)%nat.
Proof. intros H. pose proof (proj1 (list_max_le l (list_max l)) (Nat.le_refl _)) as F. apply List.Forall_forall with (x := i) in F; [done|]. by apply list_elem_of_In. Qed.
Lemma fresh_ok sk : fresh_id sk (linux_fresh sk).
Proof.
  assert (E : forall i, i ∈ (skb_id <$> sk_write_queue sk) ++ (default 0%nat <$> [sk_send_head sk; highest_sack (tp sk); lost_skb_hint (tp sk); scoreboard_skb_hint (tp sk)]) -> i <> linux_fresh sk).
  { intros i Hi ->. apply max_above in Hi. unfold linux_fresh in Hi at 1. cbn in Hi. lia. }
  unfold fresh_id. split_and!.
  - intros H. apply (E (linux_fresh sk)); [|done]. apply elem_of_app. by left.
  - unfold QUEUE_END, linux_fresh. done.
  - intros H. apply (E (linux_fresh sk)); [|done]. apply elem_of_app. right. rewrite H. cbn. set_solver.
  - intros n H. apply (E (linux_fresh sk)); [|done]. apply elem_of_app. right. destruct n as [|[|n]]; cbn in H; rewrite H; cbn; set_solver.
Qed.
Lemma segs_pos n mss : 0 <= n -> 0 < mss -> 0 <= linux_segs n mss.
Proof. intros. unfold linux_segs. case_match; [lia|]. apply Z.div_pos; lia. Qed.
Lemma fragment_ok sk i n mss : score sk -> is_Some (wq_get sk i) -> let '(err, sk') := linux_fragment sk i n mss in
  (err = 0 /\ split_at sk i n sk') \/ (err < 0 /\ sb_part sk' = sb_part sk).
Proof.
  intros Hs [b Hb]. unfold linux_fragment. rewrite Hb. case_if_as H1; [by right|]. case_if_as H2; [by right|]. cbn zeta. case_if_as H3; [by right|]. left. split; [done|].
  apply orb_false_iff in H1 as [H0 H1]. apply Z.ltb_ge in H0, H1. apply Z.leb_gt in H2, H3. pose proof (score_get _ _ _ Hs Hb) as []. destruct (get_split _ _ _ Hb) as (l1 & l2 & Hq & <-). pose proof (sc_nodup _ Hs) as Hnd. rewrite Hq in Hnd.
  match goal with |- context [fun x => if Nat.eqb _ _ then [?a; ?c] else _] => eapply (split_intro _ _ _ _ l1 b l2 a c) end; [exact Hq|done| |reflexivity| |cbn; rewrite Hq; by apply bind_split|done|done|].
  - split; cbn; [done|done|done|lia|]. pose proof (segs_pos n mss). pose proof (segs_pos (len b - n) mss). lia.
  - cbn. apply fresh_ok.
  - split; cbn; [done|exact H3|done|done|]. exists 0. rewrite Z.sub_0_r. split; [done|by left].
Qed.
Lemma retransmit_ok sk i b : score sk -> wq_get sk i = Some b -> i ∉ unsent sk -> has (sacked b) TCPCB_SACKED_RETRANS = false -> resend sk (linux_retransmit sk (Some i)).
Proof.
  intros Hs Hb Hi Hr. unfold linux_retransmit. cbn [option_bind mbind]. rewrite Hb. destruct (get_split _ _ _ Hb) as (l1 & l2 & Hq & <-). pose proof (sc_nodup _ Hs) as Hnd. rewrite Hq in Hnd.
  eapply (rs_mark _ _ l1 b l2); [exact Hq|done|done|cbn; rewrite Hq; by apply put_split|done..].
Qed.
Lemma xmit_queue_ok sk : score sk -> rtc resend sk (linux_xmit_queue sk).
Proof.
  intros Hs. unfold linux_xmit_queue. destruct (List.find _ _) as [b|] eqn:E; [|done]. apply List.find_some in E as [E1 E2]. apply list_elem_of_In in E1. apply andb_true_iff in E2 as [E2 E3]. apply negb_true_iff in E3.
  pose proof (sc_ok _ Hs) as Ho. rewrite Forall_forall in Ho. specialize (Ho b E1). apply rtc_once. apply list_elem_of_split in E1 as (l1 & l2 & Hq). pose proof (sc_nodup _ Hs) as Hnd. rewrite Hq in Hnd.
  apply retransmit_ok with (b := b); [done| |intros Hi; destruct (bo_unsent _ _ Ho Hi) as (_ & _ & H); cbn in H; congruence|done].
  unfold wq_get. rewrite Hq. apply ids_split in Hnd as [Hnd _]. clear -Hnd. induction l1 as [|x l1 IH]; cbn; [by rewrite Nat.eqb_refl|]. rewrite fmap_cons in Hnd. apply not_elem_of_cons in Hnd as [H1 H2].
  rewrite (proj2 (Nat.eqb_neq (skb_id x) (skb_id b))) by congruence. by apply IH.
Qed.
Lemma push_ok sk : score sk -> rtc push sk (linux_push sk).
Proof.
  intros Hs. unfold linux_push. destruct (sk_send_head sk) as [h|] eqn:Hh; [|done]. cbn [option_bind mbind]. destruct (wq_get sk h) as [b|] eqn:Hb; [|done]. case_if_as H1; [done|]. apply Z.leb_gt in H1. destruct (get_split _ _ _ Hb) as (l1 & l2 & Hq & <-). pose proof (sc_nodup _ Hs) as Hnd. rewrite Hq in Hnd.
  apply rtc_once. eapply (ps_send _ _ l1 b l2); [exact Hq|done|cbn; rewrite Hq; by apply put_split| |done|done|done|done]. cbn. unfold tcp_write_queue_next. rewrite Hq.
  destruct l2 as [|c l2]; [|by rewrite after_id_at]. apply ids_split in Hnd as [Hnd _]. clear -Hnd. induction l1 as [|x l1 IH]; cbn; [by rewrite Nat.eqb_refl|]. rewrite fmap_cons in Hnd. apply not_elem_of_cons in Hnd as [H1 H2].
  rewrite (proj2 (Nat.eqb_neq (skb_id x) (skb_id b))) by congruence. by apply IH.
Qed.
End Concrete.
