(* ===== verification/Scoreboard.v ===== *)
(** * The SACK scoreboard

    net/ipv4/tcp_input.c, lines 956-1940: the tags of the buffers in the write queue (SACKED,
    RETRANS, LOST), the counters kept for them, and the processing of the SACK blocks of an
    incoming ACK.

    A pointer into the write queue is the buffer's [skb_id]; the end of the queue is [None] (the
    queue operations are in Kernel).  A BUG_ON is a result [None] of the functions that can reach
    one. *)

From Stdlib Require Import Sorting.Sorted.
From S2P Require Import Prelude TcpTypes Kernel RcvTune Rtt WriteQueue Xmit.

(** struct tcp_sacktag_state *)
Record tcp_sacktag_state := mk_sts { reord : Z; fack_count : Z; st_flag : Z }.
Definition eta_tcp_sacktag_state (r : tcp_sacktag_state) : tcp_sacktag_state := mk_sts (reord r) (fack_count r) (st_flag r).
#[export] Instance set_reord : Setter reord. Proof. solve_setter eta_tcp_sacktag_state. Defined.
#[export] Instance set_fack_count : Setter fack_count. Proof. solve_setter eta_tcp_sacktag_state. Defined.
#[export] Instance set_st_flag : Setter st_flag. Proof. solve_setter eta_tcp_sacktag_state. Defined.

Section Scoreboard.
Context {K : Kernel}.
Implicit Types (sk : sock) (skb : sk_buff) (t : tcp_sock) (st : tcp_sacktag_state).

Definition tcp_update_reordering sk (metric : Z) : sock :=
  if metric >? s32 (reordering (tp sk))
  then sk <| tp := tcp_disable_fack ((tp sk) <| reordering := Z.min TCP_MAX_REORDERING metric |>) |> else sk.

(** The sequence number of the buffer a hint points to. *)
Definition hint_seq sk (h : option nat) : option Z := h ≫= fun i => seq <$> wq_get sk i.

Definition tcp_verify_retransmit_hint sk skb : sock :=
  let sk := match hint_seq sk (retransmit_skb_hint (tp sk)) with
            | None => sk <| tp; retransmit_skb_hint := Some (skb_id skb) |>
            | Some s => if before (seq skb) s then sk <| tp; retransmit_skb_hint := Some (skb_id skb) |> else sk
            end in
  if (lost_out (tp sk) =? 0) || after (end_seq skb) (retransmit_high (tp sk))
  then sk <| tp; retransmit_high := end_seq skb |> else sk.

(** Tagging a buffer LOST and counting it. *)
Definition count_lost sk skb : sock :=
  if negb (has (sacked skb) (Z.lor TCPCB_LOST TCPCB_SACKED_ACKED)) then
    let sk := sk <| tp; lost_out := u32 (lost_out (tp sk) + tcp_skb_pcount skb) |> in
    wq_set sk (skb_id skb) (skb <| sacked := bset (sacked skb) TCPCB_LOST |>)
  else sk.
Definition tcp_skb_mark_lost sk skb : sock :=
  if negb (has (sacked skb) (Z.lor TCPCB_LOST TCPCB_SACKED_ACKED)) then count_lost (tcp_verify_retransmit_hint sk skb) skb else sk.
Definition tcp_skb_mark_lost_uncond_verify sk skb : sock := count_lost (tcp_verify_retransmit_hint sk skb) skb.

Definition tcp_is_sackblock_valid t (is_dsack : bool) (start_seq end_seq : Z) : bool :=
  if after end_seq (snd_nxt t) || negb (before start_seq end_seq) then false
  else if negb (before start_seq (snd_nxt t)) then false
  else if after start_seq (snd_una t) then true
  else if negb is_dsack || (undo_marker t =? 0) then false
  else if after end_seq (snd_una t) then false
  else if negb (before start_seq (undo_marker t)) then true
  else if negb (after end_seq (undo_marker t)) then false
  else negb (before start_seq (u32 (end_seq - max_window t))).

(** tcp_mark_lost_retrans; the walk over the queue, from the given buffers on. *)
Fixpoint lost_retrans_loop (ids : list nat) sk (cnt new_low_seq received_upto : Z) : sock * Z :=
  match ids with
  | [] => (sk, new_low_seq)
  | i :: ids =>
    match wq_get sk i with
    | None => (sk, new_low_seq)
    | Some skb =>
      if is_send_head sk i then (sk, new_low_seq)
      else if cnt =? retrans_out (tp sk) then (sk, new_low_seq)
      else if negb (after (end_seq skb) (snd_una (tp sk))) then lost_retrans_loop ids sk cnt new_low_seq received_upto
      else if negb (has (sacked skb) TCPCB_SACKED_RETRANS) then lost_retrans_loop ids sk cnt new_low_seq received_upto
      else if after received_upto (ack_seq skb) then
        let skb := skb <| sacked := bclr (sacked skb) TCPCB_SACKED_RETRANS |> in
        let sk := (wq_set sk i skb) <| tp; retrans_out := u32 (retrans_out (tp sk) - tcp_skb_pcount skb) |> in
        lost_retrans_loop ids (tcp_skb_mark_lost_uncond_verify sk skb) cnt new_low_seq received_upto
      else
        lost_retrans_loop ids sk (cnt + tcp_skb_pcount skb) (if before (ack_seq skb) new_low_seq then ack_seq skb else new_low_seq) received_upto
    end
  end.
Definition tcp_mark_lost_retrans sk : sock :=
  let received_upto := tcp_highest_sack_seq sk in
  if negb (tcp_is_fack (tp sk)) || (retrans_out (tp sk) =? 0) || negb (after received_upto (lost_retrans_low (tp sk)))
     || negb (ca_eqb (icsk_ca_state (icsk sk)) TCP_CA_Recovery) then sk else
  let '(sk, new_low_seq) := lost_retrans_loop (skb_id <$> sk_write_queue sk) sk 0 (snd_nxt (tp sk)) received_upto in
  if negb (retrans_out (tp sk) =? 0) then sk <| tp; lost_retrans_low := new_low_seq |> else sk.

(** tcp_check_dsack, on the blocks of the option in host order. *)
Definition tcp_check_dsack sk (ack_skb : sk_buff) (sp : list tcp_sack_block) (prior_snd_una : Z) : bool * sock :=
  let b0 := default blank_sack (sp !! 0%nat) in
  let dup_sack :=
    if before (start_seq b0) (ack_seq ack_skb) then true
    else if (1 <? length sp)%nat then
      let b1 := default blank_sack (sp !! 1%nat) in
      negb (after (sb_end_seq b0) (sb_end_seq b1)) && negb (before (start_seq b0) (start_seq b1))
    else false in
  let sk := if dup_sack then sk <| tp := tcp_dsack_seen (tp sk) |> else sk in
  let sk := if dup_sack && negb (undo_marker (tp sk) =? 0) && negb (undo_retrans (tp sk) =? 0)
               && negb (after (sb_end_seq b0) prior_snd_una) && after (sb_end_seq b0) (undo_marker (tp sk))
            then sk <| tp; undo_retrans := s32 (undo_retrans (tp sk) - 1) |> else sk in
  (dup_sack, sk).

(** tcp_match_skb_to_sack: positive, zero or a negative error. *)
Definition tcp_match_skb_to_sack sk skb (start_seq end_seq0 : Z) : Z * sock :=
  let in_sack := negb (after start_seq (seq skb)) && negb (before end_seq0 (end_seq skb)) in
  if (tcp_skb_pcount skb >? 1) && negb in_sack && after (end_seq skb) start_seq then
    let mss := tcp_skb_mss skb in
    let in_sack := negb (after start_seq (seq skb)) in
    let pkt_len := if negb in_sack then Z.max (u32 (start_seq - seq skb)) mss else u32 (end_seq0 - seq skb) in
    if in_sack && (pkt_len <? mss) then (-22, sk) else
    let new_len := pkt_len / mss * mss in
    let new_len := if (pkt_len >? mss) && negb in_sack && (new_len <? pkt_len) then new_len + mss else new_len in
    if (pkt_len >? mss) && negb in_sack && (pkt_len / mss * mss <? pkt_len) && (new_len >? len skb) then (0, sk) else
    let pkt_len := if pkt_len >? mss then new_len else pkt_len in
    let '(err, sk) := tcp_fragment sk (skb_id skb) pkt_len mss in
    if err <? 0 then (err, sk) else (b2z in_sack, sk)
  else (b2z in_sack, sk).

(** The parts of tcp_sacktag_one.  D-SACK for a retransmitted packet: *)
Definition account_dsack skb sk st (dup_sack : bool) : sock * tcp_sacktag_state :=
  if dup_sack && has (sacked skb) TCPCB_RETRANS then
    (if negb (undo_marker (tp sk) =? 0) && negb (undo_retrans (tp sk) =? 0) && after (end_seq skb) (undo_marker (tp sk))
     then sk <| tp; undo_retrans := s32 (undo_retrans (tp sk) - 1) |> else sk,
     if has (sacked skb) TCPCB_SACKED_ACKED then st <| reord := Z.min (fack_count st) (reord st) |> else st)
  else (sk, st).
(** A packet that is SACKed for the first time is no longer lost: *)
Definition clear_lost skb sk st (pcount : Z) : Z * sock * tcp_sacktag_state :=
  let tags := sacked skb in
  if has tags TCPCB_SACKED_RETRANS then
    if has tags TCPCB_LOST then
      (bclr tags (Z.lor TCPCB_LOST TCPCB_SACKED_RETRANS),
       sk <| tp; lost_out := u32 (lost_out (tp sk) - pcount) |> <| tp; retrans_out := u32 (retrans_out (tp sk) - pcount) |>, st)
    else (tags, sk, st)
  else
    let st :=
      if negb (has tags TCPCB_RETRANS) then
        let st := if before (seq skb) (tcp_highest_sack_seq sk) then st <| reord := Z.min (fack_count st) (reord st) |> else st in
        if negb (after (end_seq skb) (frto_highmark (tp sk))) then st <| st_flag := bset (st_flag st) FLAG_ONLY_ORIG_SACKED |> else st
      else st in
    if has tags TCPCB_LOST
    then (bclr tags TCPCB_LOST, sk <| tp; lost_out := u32 (lost_out (tp sk) - pcount) |>, st)
    else (tags, sk, st).
(** and it is counted. *)
Definition count_sacked skb sk (fack_count pcount : Z) : sock :=
  let sk := sk <| tp; sacked_out := u32 (sacked_out (tp sk) + pcount) |> in
  let fc := u32 (fack_count + pcount) in
  let sk := match hint_seq sk (lost_skb_hint (tp sk)) with
            | Some s => if negb (tcp_is_fack (tp sk)) && before (seq skb) s
                        then sk <| tp; lost_cnt_hint := s32 (lost_cnt_hint (tp sk) + pcount) |> else sk
            | None => sk
            end in
  if fc >? fackets_out (tp sk) then sk <| tp; fackets_out := fc |> else sk.

(** tcp_sacktag_one: the new tags; the caller stores them (or not). *)
Definition tcp_sacktag_one skb sk st (dup_sack : bool) (pcount : Z) : Z * sock * tcp_sacktag_state :=
  let tags := sacked skb in
  let '(sk, st) := account_dsack skb sk st dup_sack in
  if negb (after (end_seq skb) (snd_una (tp sk))) then (tags, sk, st) else
  let '(tags, sk, st) :=
    if negb (has tags TCPCB_SACKED_ACKED) then
      let '(tags, sk, st) := clear_lost skb sk st pcount in
      (bset tags TCPCB_SACKED_ACKED, count_sacked skb sk (fack_count st) pcount, st <| st_flag := bset (st_flag st) FLAG_DATA_SACKED |>)
    else (tags, sk, st) in
  if dup_sack && has tags TCPCB_SACKED_RETRANS
  then (bclr tags TCPCB_SACKED_RETRANS, sk <| tp; retrans_out := u32 (retrans_out (tp sk) - pcount) |>, st)
  else (tags, sk, st).

(** tcp_shifted_skb, after the bytes were moved from skb to prev: true when skb is gone. *)
Definition shifted_update prev skb (pcount shifted mss : Z) : sk_buff * sk_buff :=
  let prev := prev <| end_seq := u32 (end_seq prev + shifted) |> <| gso_segs := u16 (gso_segs prev + pcount) |> in
  let skb := skb <| seq := u32 (seq skb + shifted) |> <| gso_segs := gso_segs skb - pcount |> in
  let prev := if gso_size prev =? 0 then prev <| gso_size := u16 mss |> else prev in
  let skb := if gso_segs skb <=? 1 then skb <| gso_size := 0 |> else skb in
  (prev, skb).
(** The whole buffer was eaten: the hints move to prev, and the buffer is freed. *)
Definition shifted_eaten sk prev skb : sock :=
  let i := skb_id skb in
  let pi := skb_id prev in
  let sk := if is_hint (retransmit_skb_hint (tp sk)) i then sk <| tp; retransmit_skb_hint := Some pi |> else sk in
  let sk := if is_hint (scoreboard_skb_hint (tp sk)) i then sk <| tp; scoreboard_skb_hint := Some pi |> else sk in
  let sk := if is_hint (lost_skb_hint (tp sk)) i
            then sk <| tp; lost_skb_hint := Some pi |> <| tp; lost_cnt_hint := s32 (lost_cnt_hint (tp sk) - tcp_skb_pcount prev) |> else sk in
  let skb := skb <| tcp_flags := bset (tcp_flags skb) (tcp_flags prev) |> in
  let sk := wq_set sk i skb in
  let sk := if is_hint (highest_sack (tp sk)) i then tcp_advance_highest_sack sk skb else sk in
  sk_wmem_free_skb (wq_unlink sk i) skb.
Definition tcp_shifted_skb sk prev skb st (pcount shifted mss : Z) (dup_sack : bool) : option (bool * sock * tcp_sacktag_state) :=
  let i := skb_id skb in
  let pi := skb_id prev in
  if pcount =? 0 then None else
  let sk := if is_hint (lost_skb_hint (tp sk)) i then sk <| tp; lost_cnt_hint := s32 (lost_cnt_hint (tp sk) + pcount) |> else sk in
  if gso_segs skb <? pcount then None else
  let '(prev, skb) := shifted_update prev skb pcount shifted mss in
  let sk := wq_set (wq_set sk pi prev) i skb in
  let '(_, sk, st) := tcp_sacktag_one skb sk st dup_sack pcount in
  let prev := prev <| sacked := bset (sacked prev) (Z.land (sacked skb) TCPCB_EVER_RETRANS) |> in
  let sk := wq_set sk pi prev in
  if len skb >? 0 then
    if tcp_skb_pcount skb =? 0 then None else Some (false, sk, st)
  else Some (true, shifted_eaten sk prev skb, st).

Definition tcp_skb_seglen skb : Z := if tcp_skb_pcount skb =? 1 then len skb else tcp_skb_mss skb.
Definition skb_can_shift skb : bool := (skb_headlen skb =? 0) && skb_is_nonlinear skb.

(** tcp_shift_skb_data: NULL is [SdFallback], skb itself [SdNoop], prev [SdPrev]. *)
Inductive shift_data := SdFallback | SdNoop | SdPrev (prev : nat).

(** How much to shift: the length, the packet count and the mss. *)
Inductive shift_plan := SpFallback | SpNoop | SpBug | SpShift (n pcount mss : Z).
Definition shift_amount prev skb (start_seq end_seq0 : Z) : shift_plan :=
  if negb (after start_seq (seq skb)) && negb (before end_seq0 (end_seq skb)) then
    let mss := tcp_skb_seglen skb in
    if negb (mss =? tcp_skb_seglen prev) then SpFallback else SpShift (len skb) (tcp_skb_pcount skb) mss
  else if negb (after (end_seq skb) start_seq) then SpNoop
  else if tcp_skb_pcount skb <=? 1 then SpNoop
  else if after start_seq (seq skb) then SpFallback
  else
    let n := s32 (end_seq0 - seq skb) in
    if n <? 0 then SpBug
    else if n >? len skb then SpBug
    else
      let mss := tcp_skb_mss skb in
      if negb (mss =? tcp_skb_seglen prev) then SpFallback
      else if n =? mss then SpShift n 1 mss
      else if n <? mss then SpNoop
      else SpShift (n / mss * mss) (n / mss) mss.

(** The merge with the buffer after prev, once a whole buffer was eaten. *)
Definition shift_next sk (pi : nat) st (pcount mss : Z) : option (sock * tcp_sacktag_state * Z) :=
  if bool_decide (tcp_write_queue_tail sk = Some pi) then Some (sk, st, pcount) else
  match tcp_write_queue_next sk pi ≫= wq_get sk, wq_get sk pi with
  | Some skb, Some prev =>
    if negb (skb_can_shift skb) || is_send_head sk (skb_id skb)
       || negb (Z.land (sacked skb) TCPCB_TAGBITS =? TCPCB_SACKED_ACKED) || negb (mss =? tcp_skb_seglen skb)
    then Some (sk, st, pcount)
    else
      match skb_shift prev skb (len skb) with
      | None => Some (sk, st, pcount)
      | Some (prev, skb') =>
        match tcp_shifted_skb sk prev skb' st (tcp_skb_pcount skb) (len skb) mss false with
        | None => None
        | Some (_, sk, st) => Some (sk, st, pcount + tcp_skb_pcount skb)
        end
      end
  | _, _ => Some (sk, st, pcount)
  end.

Definition tcp_shift_skb_data sk skb st (start_seq end_seq0 : Z) (dup_sack : bool) : option (shift_data * sock * tcp_sacktag_state) :=
  let i := skb_id skb in
  let fallback := Some (SdFallback, sk, st) in
  if negb (sk_can_gso sk) then fallback
  else if negb dup_sack && (Z.land (sacked skb) (Z.lor TCPCB_LOST TCPCB_SACKED_RETRANS) =? TCPCB_SACKED_RETRANS) then fallback
  else if negb (skb_can_shift skb) then fallback
  else if negb (after (end_seq skb) (snd_una (tp sk))) then fallback
  else if bool_decide (tcp_write_queue_head sk = Some i) then fallback
  else
  match tcp_write_queue_prev sk i ≫= wq_get sk with
  | None => fallback
  | Some prev =>
    if negb (Z.land (sacked prev) TCPCB_TAGBITS =? TCPCB_SACKED_ACKED) then fallback else
    match shift_amount prev skb start_seq end_seq0 with
    | SpFallback => fallback
    | SpNoop => Some (SdNoop, sk, st)
    | SpBug => None
    | SpShift n pcount mss =>
      match skb_shift prev skb n with
      | None => fallback
      | Some (prev, skb) =>
        let pi := skb_id prev in
        match tcp_shifted_skb sk prev skb st pcount n mss dup_sack with
        | None => None
        | Some (false, sk, st) => Some (SdPrev pi, sk, st <| fack_count := fack_count st + pcount |>)
        | Some (true, sk, st) =>
          match shift_next sk pi st pcount mss with
          | None => None
          | Some (sk, st, pcount) => Some (SdPrev pi, sk, st <| fack_count := fack_count st + pcount |>)
          end
        end
      end
    end
  end.

(** One round of tcp_sacktag_walk.  The D-SACK block that follows is looked at first: the match,
    whether the buffer is a duplicate, and the socket. *)
Definition walk_dup sk skb (next_dup : option tcp_sack_block) (dup_sack_in : bool) : Z * bool * sock :=
  match next_dup with
  | Some d =>
    if before (seq skb) (sb_end_seq d) then
      let '(in_sack, sk) := tcp_match_skb_to_sack sk skb (start_seq d) (sb_end_seq d) in
      (in_sack, if in_sack >? 0 then true else dup_sack_in, sk)
    else (0, dup_sack_in, sk)
  | None => (0, dup_sack_in, sk)
  end.
(** Then the buffer is shifted ([WaShifted prev]: the walk goes on behind prev) or matched. *)
Inductive walk_act := WaShifted (prev : nat) | WaMatched (in_sack : Z).
Definition walk_shift sk skb st (start_seq0 end_seq0 : Z) (dup_sack : bool) (in_sack : Z) : option (walk_act * sock * tcp_sacktag_state) :=
  if in_sack <=? 0 then
    match tcp_shift_skb_data sk skb st start_seq0 end_seq0 dup_sack with
    | None => None
    | Some (SdPrev pi, sk, st) => Some (WaShifted pi, sk, st)
    | Some (SdNoop, sk, st) => Some (WaMatched 0, sk, st)
    | Some (SdFallback, sk, st) =>
      let '(in_sack, sk) := tcp_match_skb_to_sack sk skb start_seq0 end_seq0 in Some (WaMatched in_sack, sk, st)
    end
  else Some (WaMatched in_sack, sk, st).
(** A buffer in the block is tagged, and counted in any case. *)
Definition walk_tag sk skb st (dup_sack : bool) (in_sack : Z) : sock * tcp_sacktag_state :=
  let '(sk, st) :=
    if negb (in_sack =? 0) then
      let '(tags, sk, st) := tcp_sacktag_one skb sk st dup_sack (tcp_skb_pcount skb) in
      let sk := wq_set sk (skb_id skb) (skb <| sacked := tags |>) in
      (if negb (before (seq skb) (tcp_highest_sack_seq sk)) then tcp_advance_highest_sack sk skb else sk, st)
    else (sk, st) in
  (sk, st <| fack_count := fack_count st + tcp_skb_pcount skb |>).

(** tcp_sacktag_walk: the walk stops by itself at the end of the block; a buffer is visited a
    few times at most, as a rest of it can be left by a shift. *)
Fixpoint tcp_sacktag_walk (fuel : nat) (cur : option nat) sk (next_dup : option tcp_sack_block) st
    (start_seq0 end_seq0 : Z) (dup_sack_in : bool) : option (option nat * sock * tcp_sacktag_state) :=
  match fuel, cur ≫= wq_get sk with
  | O, _ | _, None => Some (cur, sk, st)
  | S fuel, Some skb =>
    let i := skb_id skb in
    if is_send_head sk i then Some (cur, sk, st)
    else if negb (before (seq skb) end_seq0) then Some (cur, sk, st)
    else
    let '(in_sack, dup_sack, sk) := walk_dup sk skb next_dup dup_sack_in in
    let skb := default skb (wq_get sk i) in
    match walk_shift sk skb st start_seq0 end_seq0 dup_sack in_sack with
    | None => None
    | Some (WaShifted pi, sk, st) =>
      tcp_sacktag_walk fuel (tcp_write_queue_next sk pi) sk next_dup st start_seq0 end_seq0 dup_sack_in
    | Some (WaMatched in_sack, sk, st) =>
      if in_sack <? 0 then Some (Some i, sk, st) else
      let '(sk, st) := walk_tag sk (default skb (wq_get sk i)) st dup_sack in_sack in
      tcp_sacktag_walk fuel (tcp_write_queue_next sk i) sk next_dup st start_seq0 end_seq0 dup_sack_in
    end
  end.

(** tcp_sacktag_skip *)
Fixpoint skip_loop (fuel : nat) (cur : option nat) sk st (skip_to_seq : Z) : option nat * tcp_sacktag_state :=
  match fuel, cur ≫= wq_get sk with
  | O, _ | _, None => (cur, st)
  | S fuel, Some skb =>
    if is_send_head sk (skb_id skb) then (cur, st)
    else if after (end_seq skb) skip_to_seq then (cur, st)
    else skip_loop fuel (tcp_write_queue_next sk (skb_id skb)) sk (st <| fack_count := fack_count st + tcp_skb_pcount skb |>) skip_to_seq
  end.
Definition tcp_sacktag_skip (cur : option nat) sk st (skip_to_seq : Z) : option nat * tcp_sacktag_state :=
  skip_loop (length (sk_write_queue sk)) cur sk st skip_to_seq.

Definition tcp_maybe_skipping_dsack (fuel : nat) (cur : option nat) sk (next_dup : option tcp_sack_block) st (skip_to_seq : Z)
    : option (option nat * sock * tcp_sacktag_state) :=
  match next_dup with
  | None => Some (cur, sk, st)
  | Some d =>
    if before (start_seq d) skip_to_seq then
      let '(cur, st) := tcp_sacktag_skip cur sk st (start_seq d) in
      tcp_sacktag_walk fuel cur sk None st (start_seq d) (sb_end_seq d) true
    else Some (cur, sk, st)
  end.

(** ** tcp_sacktag_write_queue *)

(** The blocks of the SACK option of a segment, in host order. *)
Fixpoint wire_blocks (n : nat) (bs : list Z) (ptr : Z) : list tcp_sack_block :=
  match n with
  | O => []
  | S n => mk_sack_block (get_be32 bs ptr) (get_be32 bs (ptr + 4)) :: wire_blocks n bs (ptr + 8)
  end.
Definition sack_option (ack_skb : sk_buff) : list tcp_sack_block :=
  let ptr := sacked ack_skb in
  let num_sacks := Z.min (Z.of_nat TCP_NUM_SACKS) (Z.shiftr (byte_at (bytes ack_skb) (ptr + 1) - TCPOLEN_SACK_BASE) 3) in
  wire_blocks (Z.to_nat num_sacks) (bytes ack_skb) (ptr + 2).

(** The first loop: the valid blocks, and first_sack_index. *)
Fixpoint collect_sacks (blocks : list tcp_sack_block) (i : nat) t (found_dup_sack : bool) (ack prior_snd_una : Z)
    (sp : list tcp_sack_block) (first_sack_index : Z) : list tcp_sack_block * Z :=
  match blocks with
  | [] => (sp, first_sack_index)
  | b :: blocks =>
    let dup_sack := (i =? 0)%nat && found_dup_sack in
    let next := collect_sacks blocks (S i) t found_dup_sack ack prior_snd_una in
    if negb (tcp_is_sackblock_valid t dup_sack (start_seq b) (sb_end_seq b)) then
      if negb dup_sack && negb (ack =? snd_una t) && negb (after (sb_end_seq b) (snd_una t)) then next sp first_sack_index
      else next sp (if (i =? 0)%nat then -1 else first_sack_index)
    else if negb (after (sb_end_seq b) prior_snd_una) then next sp first_sack_index
    else next (sp ++ [b]) first_sack_index
  end.

(** The bubble sort by start_seq, tracking the first block. *)
Fixpoint bubble_pass (n : nat) (sp : list tcp_sack_block) (j first : Z) : list tcp_sack_block * Z :=
  match n, sp with
  | S n, a :: b :: r =>
    if after (start_seq a) (start_seq b) then
      let '(r, first) := bubble_pass n (a :: r) (j + 1) (if j =? first then j + 1 else first) in (b :: r, first)
    else let '(r, first) := bubble_pass n (b :: r) (j + 1) first in (a :: r, first)
  | _, _ => (sp, first)
  end.
Fixpoint bubble_sort (i : nat) (sp : list tcp_sack_block) (first : Z) : list tcp_sack_block * Z :=
  match i with
  | O => (sp, first)
  | S i' => let '(sp, first) := bubble_pass i sp 0 first in bubble_sort i' sp first
  end.

(** Skipping the empty blocks at the head of the cache, and the ones that end too early. *)
Fixpoint skip_empty (cache : list tcp_sack_block) : list tcp_sack_block :=
  match cache with
  | c :: r => if (start_seq c =? 0) && (sb_end_seq c =? 0) then skip_empty r else cache
  | [] => []
  end.
Fixpoint skip_early (cache : list tcp_sack_block) (start_seq0 : Z) : list tcp_sack_block :=
  match cache with
  | c :: r => if negb (before start_seq0 (sb_end_seq c)) then skip_early r start_seq0 else cache
  | [] => []
  end.

(** Bounds the steps of a walk: every step leaves a buffer, splits one at a packet boundary or
    merges one, and at most a rest of the same buffer is looked at again. *)
Definition walk_fuel sk : nat := 4 * (length (sk_write_queue sk) + Z.to_nat (sumZ gso_segs (sk_write_queue sk))) + 4.

(** The main loop.  A block is first compared with the cached ones: where the walk starts
    ([BaWalk]), or the block is done ([BaAdvance]), or the next cached block is next
    ([BaContinue]), or the loop is left. *)
Inductive block_act := BaWalk (cur : option nat) | BaAdvance (cur : option nat) | BaContinue (cur : option nat) | BaBreak.
Definition block_entry sk st (cur : option nat) (start_seq0 : Z) : block_act * tcp_sacktag_state :=
  if negb (before start_seq0 (tcp_highest_sack_seq sk)) then
    match highest_sack (tp sk) with
    | None => (BaBreak, st)
    | Some h => let '(cur, st) := tcp_sacktag_skip (Some h) sk (st <| fack_count := fackets_out (tp sk) |>) start_seq0 in (BaWalk cur, st)
    end
  else let '(cur, st) := tcp_sacktag_skip cur sk st start_seq0 in (BaWalk cur, st).
Definition block_cached sk st (cur : option nat) (c : tcp_sack_block) (start_seq0 end_seq0 : Z) (next_dup : option tcp_sack_block) (dup_sack : bool)
    : option (block_act * sock * tcp_sacktag_state) :=
  let head_done :=
    if before start_seq0 (start_seq c) then
      let '(cur, st) := tcp_sacktag_skip cur sk st start_seq0 in
      tcp_sacktag_walk (walk_fuel sk) cur sk next_dup st start_seq0 (start_seq c) dup_sack
    else Some (cur, sk, st) in
  match head_done with
  | None => None
  | Some (cur, sk, st) =>
    if negb (after end_seq0 (sb_end_seq c)) then Some (BaAdvance cur, sk, st) else
    match tcp_maybe_skipping_dsack (walk_fuel sk) cur sk next_dup st (sb_end_seq c) with
    | None => None
    | Some (cur, sk, st) =>
      if tcp_highest_sack_seq sk =? sb_end_seq c then
        match highest_sack (tp sk) with
        | None => Some (BaBreak, sk, st)
        | Some h => Some (BaWalk (Some h), sk, st <| fack_count := fackets_out (tp sk) |>)
        end
      else let '(cur, st) := tcp_sacktag_skip cur sk st (sb_end_seq c) in Some (BaContinue cur, sk, st)
    end
  end.

(** [sp] are the blocks from index [i] on, [cache] the rest of recv_sack_cache.  Every round
    moves on in one of the two. *)
Fixpoint sack_blocks_loop (fuel : nat) (sp : list tcp_sack_block) (i : Z) (cache : list tcp_sack_block) (cur : option nat)
    sk st (found_dup_sack : bool) (first : Z) : option (sock * tcp_sacktag_state) :=
  match fuel, sp with
  | O, _ | _, [] => Some (sk, st)
  | S fuel, b :: rest =>
    let s := start_seq b in
    let e := sb_end_seq b in
    let dup_sack := found_dup_sack && (i =? first) in
    let next_dup := if found_dup_sack && (i + 1 =? first) then head rest else None in
    let st := if after e (high_seq (tp sk)) then st <| st_flag := bset (st_flag st) FLAG_DATA_LOST |> else st in
    let cache := skip_early cache s in
    let here := let '(act, st) := block_entry sk st cur s in Some (act, sk, st) in
    let '(act, later) :=
      match cache with
      | c :: later => if negb dup_sack && after e (start_seq c) then (block_cached sk st cur c s e next_dup dup_sack, later) else (here, cache)
      | [] => (here, cache)
      end in
    let walked :=
      match act with
      | Some (BaWalk cur, sk, st) =>
        match tcp_sacktag_walk (walk_fuel sk) cur sk next_dup st s e dup_sack with
        | None => None
        | Some (cur, sk, st) => Some (BaAdvance cur, sk, st)
        end
      | _ => act
      end in
    match act, walked with
    | _, None => None
    | _, Some (BaBreak, sk, st) => Some (sk, st)
    | _, Some (BaContinue cur, sk, st) => sack_blocks_loop fuel sp i later cur sk st found_dup_sack first
    | act, Some (BaAdvance cur, sk, st) | act, Some (BaWalk cur, sk, st) =>
      let st := if after e (frto_highmark (tp sk)) then st <| st_flag := bclr (st_flag st) FLAG_ONLY_ORIG_SACKED |> else st in
      let cache := match act with Some (BaAdvance _, _, _) => cache | _ => later end in
      sack_blocks_loop fuel rest (i + 1) cache cur sk st found_dup_sack first
    end
  end.

(** What follows the walk: the cache, lost retransmissions, reordering. *)
Definition sacktag_finish sk st (sp : list tcp_sack_block) : sock :=
  let sk := sk <| tp; recv_sack_cache := replicate (4 - length sp) blank_sack ++ sp |> in
  let sk := tcp_mark_lost_retrans sk in
  if (reord st <? fackets_out (tp sk)) && (negb (ca_eqb (icsk_ca_state (icsk sk)) TCP_CA_Loss) || negb (undo_marker (tp sk) =? 0))
     && ((frto_highmark (tp sk) =? 0) || after (snd_una (tp sk)) (frto_highmark (tp sk)))
  then tcp_update_reordering sk (s32 (fackets_out (tp sk) - reord st)) else sk.

(** The result is the flags of the ACK and the socket; [None] is a BUG_ON. *)
Definition tcp_sacktag_write_queue sk (ack_skb : sk_buff) (prior_snd_una : Z) : option (Z * sock) :=
  let blocks := sack_option ack_skb in
  let st := mk_sts (packets_out (tp sk)) 0 0 in
  let sk := if sacked_out (tp sk) =? 0 then tcp_highest_sack_reset (sk <| tp; fackets_out := 0 |>) else sk in
  let '(found_dup_sack, sk) := tcp_check_dsack sk ack_skb blocks prior_snd_una in
  let st := if found_dup_sack then st <| st_flag := bset (st_flag st) FLAG_DSACKING_ACK |> else st in
  if before (ack_seq ack_skb) (u32 (prior_snd_una - max_window (tp sk))) then Some (0, sk)
  else if packets_out (tp sk) =? 0 then Some (st_flag st, sk)
  else
    let '(sp, first) := collect_sacks blocks 0 (tp sk) found_dup_sack (ack_seq ack_skb) prior_snd_una [] 0 in
    let '(sp, first) := bubble_sort (Nat.pred (length sp)) sp first in
    let cache := if sacked_out (tp sk) =? 0 then [] else skip_empty (recv_sack_cache (tp sk)) in
    match sack_blocks_loop (length sp + length cache + 1) sp 0 cache (tcp_write_queue_head sk) sk st found_dup_sack first with
    | None => None
    | Some (sk, st) => Some (st_flag st, sacktag_finish sk st sp)
    end.
End Scoreboard.

(** ** Tagging one buffer *)
Section One.
Context {K : Kernel} {TL : TagLaws K}.
Implicit Types (sk : sock) (skb : sk_buff) (st : tcp_sacktag_state).

(** The effect of a change of tags from [x] to [y] on the counters, for [n] packets. *)
Record counted sk sk' (x y n : Z) : Prop := {
  ct_wq : q_part sk' = q_part sk;
  ct_S : sacked_out (tp sk') = u32 (sacked_out (tp sk) + n * (b2z (Z.testbit y 0) - b2z (Z.testbit x 0)));
  ct_R : retrans_out (tp sk') = u32 (retrans_out (tp sk) + n * (b2z (Z.testbit y 1) - b2z (Z.testbit x 1)));
  ct_L : lost_out (tp sk') = u32 (lost_out (tp sk) + n * (b2z (Z.testbit y 2) - b2z (Z.testbit x 2)));
}.
Lemma counted_refl sk sk' x n : u32_counters sk -> sb_part sk' = sb_part sk -> counted sk sk' x x n.
Proof using Type.
  intros (H1 & H2 & H3) E. pose proof (sb_q_part _ _ E) as Eq. unfold sb_part in E. injection E as _ _ _ _ E2 E3 E4. split; [done|..]; rewrite ?E2, ?E3, ?E4, Z.sub_diag, Z.mul_0_r, Z.add_0_r; symmetry; by apply u32_small.
Qed.
Lemma account_dsack_part skb sk st dup : sb_part (fst (account_dsack skb sk st dup)) = sb_part sk /\ snd_una (tp (fst (account_dsack skb sk st dup))) = snd_una (tp sk).
Proof using Type. unfold account_dsack. by cases_if. Qed.
Lemma count_sacked_part skb sk fc n : let sk' := count_sacked skb sk fc n in
  q_part sk' = q_part sk /\ sacked_out (tp sk') = u32 (sacked_out (tp sk) + n) /\ lost_out (tp sk') = lost_out (tp sk) /\ retrans_out (tp sk') = retrans_out (tp sk).
Proof using Type. unfold count_sacked. cbn zeta. destruct (hint_seq _ _); by cases_if. Qed.

Lemma clear_lost_spec skb sk st n : u32_counters sk -> Z.testbit (sacked skb) 0 = false ->
  let '(tags, sk', st') := clear_lost skb sk st n in
  counted sk sk' (sacked skb) tags n /\ Z.testbit tags 0 = false /\ Z.testbit tags 2 = false /\
  (Z.testbit (sacked skb) 1 = false \/ Z.testbit (sacked skb) 2 = true -> Z.testbit tags 1 = false).
Proof using TL.
  intros Hu HS. unfold clear_lost. set (x := sacked skb) in *. cbn zeta.
  rewrite !has_R, !has_L. destruct Hu as (U1 & U2 & U3).
  destruct (Z.testbit x 1) eqn:E1; destruct (Z.testbit x 2) eqn:E2; (split; [split|split_and!]); try done; cbn; tag_bits; rewrite ?HS, ?E1, ?E2; cbn;
    rewrite ?Z.mul_0_r, ?Z.add_0_r; try (by rewrite u32_small by done); try (f_equal; lia); try done.
Qed.

(** The whole of tcp_sacktag_one. *)
Lemma sacktag_one_spec skb sk st dup n : u32_counters sk -> Z.testbit (sacked skb) 0 && Z.testbit (sacked skb) 2 = false ->
  let '(tags, sk', st') := tcp_sacktag_one skb sk st dup n in
  counted sk sk' (sacked skb) tags n /\ Z.testbit tags 0 && Z.testbit tags 2 = false /\
  (after (end_seq skb) (snd_una (tp sk)) = true -> Z.testbit tags 0 = true /\
   (dup = true \/ Z.testbit (sacked skb) 1 = false \/ Z.testbit (sacked skb) 2 = true -> Z.testbit tags 1 = false)) /\
  (after (end_seq skb) (snd_una (tp sk)) = false -> tags = sacked skb).
Proof using TL.
  intros Hu Hv. unfold tcp_sacktag_one. set (x := sacked skb) in *. cbn zeta.
  pose proof (account_dsack_part skb sk st dup) as [Ep Eu]. destruct (account_dsack skb sk st dup) as [sk1 st1]. cbn [fst] in *. rewrite Eu.
  assert (Hu1 : u32_counters sk1) by (unfold u32_counters, sb_part in *; injection Ep as _ _ _ _ -> -> ->; done).
  destruct (after (end_seq skb) (snd_una (tp sk))); cbn [negb]; [|by split_and!; [apply counted_refl|..]].
  rewrite has_S. set (mid := if negb (Z.testbit x 0) then _ else _).
  assert (Hmid : let '(tags, sk2, _) := mid in counted sk sk2 x tags n /\ Z.testbit tags 0 = true /\ Z.testbit tags 2 = false /\
            (Z.testbit x 1 = false \/ Z.testbit x 2 = true -> Z.testbit tags 1 = false)).
  { subst mid. destruct (Z.testbit x 0) eqn:ES; cbn [negb].
    - cbn in Hv. split_and!; [by apply counted_refl|done|done|intros [?|?]; congruence].
    - pose proof (clear_lost_spec skb sk1 st1 n Hu1 ES) as Hc. destruct (clear_lost skb sk1 st1 n) as [[tags sk2] st2].
      destruct Hc as (Hc & Ht0 & Ht2 & Ht1). pose proof (count_sacked_part skb sk2 (fack_count st2) n) as (Q & C1 & C2 & C3).
      destruct Hc as [W HS HR HL]. pose proof (sb_q_part _ _ Ep) as E1. unfold sb_part in Ep. injection Ep as _ _ _ _ E2 E3 E4. fold x in HS, HR, HL, Ht1. split_and!.
      + split; [congruence|..]; rewrite ?C1, ?C2, ?C3, ?HS, ?HR, ?HL, ?E2, ?E3, ?E4, ?testbit_bset, ?tag_sacked_acked, ?Z.pow2_bits_eqb, ?Ht0, ?ES by lia; cbn;
          rewrite ?orb_false_r, ?u32_add_l; f_equal; lia.
      + tag_bits. done.
      + tag_bits. done.
      + intros H. specialize (Ht1 H). tag_bits. done. }
  destruct mid as [[tags sk2] st2]. destruct Hmid as (Hc & H0 & H2 & H1). rewrite has_R. destruct (dup && Z.testbit tags 1) eqn:Ed.
  - apply andb_true_iff in Ed as [-> Ed]. destruct Hc as [W HS HR HL]. split_and!.
    + split; cbn; [done|..]; rewrite ?HS, ?HR, ?HL; tag_bits; rewrite ?Ed; rewrite ?u32_sub_l; f_equal; cbn; lia.
    + tag_bits. rewrite H2. apply andb_false_r.
    + intros _. tag_bits. done.
    + done.
  - split_and!; [done|by rewrite H2, andb_false_r| |done]. intros _. split; [done|]. intros [->|H]; [done|by apply H1].
Qed.
End One.

(** ** Every step keeps the scoreboard *)

(** tcp_fragment cuts a sent buffer in two and counts the packets of the parts, or fails for lack
    of memory. *)
Class FragLaws {K : Kernel} : Prop := {
  fragment_splits sk i n mss : score sk -> is_Some (wq_get sk i) -> i ∉ unsent sk -> let '(err, sk') := tcp_fragment sk i n mss in
    (err = 0 /\ split_at sk i n sk') \/ (err < 0 /\ sb_part sk' = sb_part sk);
}.
Section Steps.
Context {K : Kernel} {TL : TagLaws K} {PL : PcountLaws K} {HL : HighSackLaws K} {SH : ShiftLaws K} {SL : SeqLaws K} {FR : FragLaws}.
Implicit Types (sk : sock) (skb b : sk_buff) (st : tcp_sacktag_state).

Lemma tagged_retag bit b tags : tagged bit (b <| sacked := tags |>) - tagged bit b = gso_segs b * (b2z (has tags bit) - b2z (has (sacked b) bit)).
Proof using Type. unfold tagged. cbn. destruct (has tags bit), (has (sacked b) bit); cbn; lia. Qed.
Lemma buf_ok_tags u b tags : buf_ok u b -> skb_id b ∉ u -> Z.testbit tags 0 && Z.testbit tags 2 = false -> buf_ok u (b <| sacked := tags |>).
Proof using TL. intros [] Hu H. split; cbn; try done. by rewrite has_S, has_L. Qed.
Lemma buf_ok_bits u b : buf_ok u b -> Z.testbit (sacked b) 0 && Z.testbit (sacked b) 2 = false.
Proof using TL. intros H. pose proof (bo_tags _ _ H) as Ht. by rewrite has_S, has_L in Ht. Qed.

(** Storing new tags that were counted. *)
Lemma score_retag sk sk' i b tags : score sk -> wq_get sk i = Some b -> i ∉ unsent sk -> counted sk sk' (sacked b) tags (gso_segs b) ->
  Z.testbit tags 0 && Z.testbit tags 2 = false -> score (wq_set sk' i (b <| sacked := tags |>)).
Proof using TL.
  intros Hs Hb Hi [W HS HR HLo] Hv. pose proof (get_elem _ _ _ Hb) as [_ Hid].
  eapply score_set; [done|exact Hb|exact Hid|apply buf_ok_tags; [by eapply score_get| |done]|done|done|..]; rewrite ?tagged_retag, ?has_S, ?has_R, ?has_L; try done.
  intros Hin. apply Hi. rewrite <- Hid. exact Hin.
Qed.

Lemma sacktag_store sk i b st dup : score sk -> wq_get sk i = Some b -> i ∉ unsent sk ->
  let '(tags, sk', _) := tcp_sacktag_one b sk st dup (tcp_skb_pcount b) in score (wq_set sk' i (b <| sacked := tags |>)) /\ q_part sk' = q_part sk.
Proof using TL PL.
  intros Hs Hb Hi. pose proof (sacktag_one_spec b sk st dup (tcp_skb_pcount b) (score_u32 sk Hs) (buf_ok_bits _ b (score_get _ _ _ Hs Hb))) as H.
  destruct (tcp_sacktag_one b sk st dup (tcp_skb_pcount b)) as [[tags sk'] st']. destruct H as (Hc & Hv & _ & _). rewrite pcount_spec in Hc.
  split; [by eapply score_retag|apply Hc].
Qed.

Lemma verify_hint_part sk b : sb_part (tcp_verify_retransmit_hint sk b) = sb_part sk.
Proof using Type. unfold tcp_verify_retransmit_hint. destruct (hint_seq _ _); by cases_if. Qed.
(** Tagging LOST keeps the queue as it is but for the tag. *)
Definition same_ids sk sk' : Prop :=
  skb_id <$> sk_write_queue sk' = skb_id <$> sk_write_queue sk /\ sk_send_head sk' = sk_send_head sk.
Lemma same_ids_unsent sk sk' : same_ids sk sk' -> unsent sk' = unsent sk.
Proof using Type. intros [H1 H2]. by apply unsent_ext. Qed.
Lemma same_ids_set sk i b : skb_id b = i -> same_ids sk (wq_set sk i b).
Proof using Type. intros Hid. split; [|done]. exact (put_ids _ _ _ Hid). Qed.
Lemma same_ids_part sk sk' : q_part sk' = q_part sk -> same_ids sk sk'.
Proof using Type. unfold q_part. intros [= H1 H2 _ _]. split; congruence. Qed.
Lemma same_ids_trans sk1 sk2 sk3 : same_ids sk1 sk2 -> same_ids sk2 sk3 -> same_ids sk1 sk3.
Proof using Type. intros [] []. split; congruence. Qed.

Lemma count_lost_score sk b : score sk -> wq_get sk (skb_id b) = Some b -> skb_id b ∉ unsent sk -> score (count_lost sk b) /\ same_ids sk (count_lost sk b).
Proof using TL PL.
  intros Hs Hb Hi. unfold count_lost. case_if_as Hc; [|done]. rewrite has_lor, has_L, has_S in Hc. apply negb_true_iff, orb_false_iff in Hc as [H2 H0].
  pose proof (score_u32 sk Hs) as (U1 & U2 & U3). split; [|split; [apply (put_ids (sk_write_queue sk)); reflexivity|done]]. eapply score_retag; [exact Hs|exact Hb|done| |].
  - split; cbn; [done|..]; tag_bits; rewrite ?H0, ?H2; cbn; rewrite ?pcount_spec, ?Z.sub_diag, ?Z.mul_0_r, ?Z.add_0_r; try (by rewrite u32_small). f_equal. lia.
  - tag_bits. by rewrite H0.
Qed.
Lemma mark_lost_uncond_score sk b : score sk -> wq_get sk (skb_id b) = Some b -> skb_id b ∉ unsent sk ->
  score (tcp_skb_mark_lost_uncond_verify sk b) /\ same_ids sk (tcp_skb_mark_lost_uncond_verify sk b).
Proof using TL PL.
  intros Hs Hb Hi. pose proof (verify_hint_part sk b) as E. pose proof (sb_q_part _ _ E) as Eq. unfold tcp_skb_mark_lost_uncond_verify.
  destruct (count_lost_score (tcp_verify_retransmit_hint sk b) b) as [H1 H2]; [by eapply score_ext|by rewrite (get_part _ _ _ Eq)|by rewrite (q_part_unsent _ _ Eq)|].
  split; [done|]. eapply same_ids_trans; [by apply same_ids_part|done].
Qed.
Lemma mark_lost_score sk b : score sk -> wq_get sk (skb_id b) = Some b -> skb_id b ∉ unsent sk -> score (tcp_skb_mark_lost sk b) /\ same_ids sk (tcp_skb_mark_lost sk b).
Proof using TL PL. intros Hs Hb Hi. unfold tcp_skb_mark_lost. case_if_as Hc; [|done]. by apply mark_lost_uncond_score. Qed.

(** A retransmission that is taken to be lost. *)
Lemma clear_retrans_score sk i b : score sk -> wq_get sk i = Some b -> i ∉ unsent sk -> has (sacked b) TCPCB_SACKED_RETRANS = true ->
  let b' := b <| sacked := bclr (sacked b) TCPCB_SACKED_RETRANS |> in
  score ((wq_set sk i b') <| tp; retrans_out := u32 (retrans_out (tp sk) - tcp_skb_pcount b') |>).
Proof using TL PL.
  intros Hs Hb Hi H4 b'. rewrite has_R in H4. pose proof (buf_ok_bits _ b (score_get _ _ _ Hs Hb)) as Hv. pose proof (score_u32 sk Hs) as (U1 & U2 & U3).
  change (score (wq_set (sk <| tp; retrans_out := u32 (retrans_out (tp sk) - tcp_skb_pcount b') |>) i b')).
  eapply score_retag; [exact Hs|exact Hb|done| |].
  - split; cbn; [done|..]; tag_bits; rewrite ?H4; cbn; rewrite ?pcount_spec, ?Z.sub_diag, ?Z.mul_0_r, ?Z.add_0_r; try (by rewrite u32_small). f_equal. cbn. lia.
  - tag_bits. done.
Qed.

Lemma lost_retrans_loop_score ids : forall p sk cnt low upto, score sk -> skb_id <$> sk_write_queue sk = p ++ ids ->
  (forall x, x ∈ p -> is_send_head sk x = false) -> score (fst (lost_retrans_loop ids sk cnt low upto)) /\ same_ids sk (fst (lost_retrans_loop ids sk cnt low upto)).
Proof using TL PL.
  induction ids as [|i ids IH]; intros p sk cnt low upto Hs Hq Hp; cbn; [done|]. destruct (wq_get sk i) as [b|] eqn:Hb; [|done].
  case_if_as H1; [done|]. assert (Hi : i ∉ unsent sk) by (eapply sent_prefix; [apply Hs|done..]).
  assert (Hq' : skb_id <$> sk_write_queue sk = (p ++ [i]) ++ ids) by (by rewrite <- app_assoc).
  assert (Hp' : forall x, x ∈ p ++ [i] -> is_send_head sk x = false).
  { intros x Hx. apply elem_of_app in Hx as [Hx|Hx]; [by apply Hp|]. apply list_elem_of_singleton in Hx as ->. done. }
  case_if_as H2; [done|]. case_if_as H3; [by eapply IH|]. case_if_as H4; [by eapply IH|]. case_if_as H5; [|by eapply IH].
  apply negb_false_iff in H4. pose proof (get_elem _ _ _ Hb) as [_ Hid]. pose proof (clear_retrans_score sk i b Hs Hb Hi H4) as Hs1. cbn zeta in Hs1.
  set (b' := b <| sacked := bclr (sacked b) TCPCB_SACKED_RETRANS |>) in *. set (sk1 := (wq_set sk i b') <| tp; retrans_out := _ |>) in *.
  assert (Hid' : skb_id b' = i) by exact Hid. assert (Hg : wq_get sk1 i = Some b') by (apply get_set; [done|by eexists]).
  assert (Hsame : same_ids sk sk1) by (by apply (same_ids_set sk i b')).
  destruct (mark_lost_uncond_score sk1 b') as [Hs2 Hsame2]; [done|by rewrite Hid'|rewrite Hid', (same_ids_unsent _ _ Hsame); done|].
  pose proof (same_ids_trans _ _ _ Hsame Hsame2) as E. pose proof E as [E1 E2].
  destruct (IH (p ++ [i]) (tcp_skb_mark_lost_uncond_verify sk1 b') cnt low upto Hs2) as [R1 R2]; [by rewrite E1|intros x Hx; unfold is_send_head; rewrite E2; by apply Hp'|]. split; [done|by eapply same_ids_trans].
Qed.
Lemma mark_lost_retrans_score sk : score sk -> score (tcp_mark_lost_retrans sk) /\ same_ids sk (tcp_mark_lost_retrans sk).
Proof using TL PL.
  intros Hs. unfold tcp_mark_lost_retrans. case_if_as Hc; [done|].
  pose proof (lost_retrans_loop_score (skb_id <$> sk_write_queue sk) [] sk 0 (snd_nxt (tp sk)) (tcp_highest_sack_seq sk) Hs eq_refl) as H.
  destruct (lost_retrans_loop _ _ _ _ _) as [sk' low]. cbn [fst] in H. destruct H as [H1 H2]; [intros x Hx; by apply elem_of_nil in Hx|].
  case_if_as Hr; [|done]. split; [by eapply score_ext; [|done]|exact H2].
Qed.

(** The part of tcp_shifted_skb that moves packets from a buffer to the one before it. *)
Lemma shift_packets sk sk' pi i prev0 skb0 prev skb tags n :
  score sk -> wq_get sk pi = Some prev0 -> wq_get sk i = Some skb0 -> pi ∉ unsent sk -> i ∉ unsent sk -> pi <> i -> skb_id prev = pi -> skb_id skb = i ->
  buf_ok (unsent sk) prev -> buf_ok (unsent sk) skb -> sacked skb = sacked skb0 -> gso_segs skb = gso_segs skb0 - n -> gso_segs prev = u16 (gso_segs prev0 + n) -> 0 <= n ->
  only_S (sacked prev) -> only_S (sacked prev0) -> only_S tags ->
  counted sk sk' (sacked skb0) tags n ->
  score (wq_set (wq_set sk' i skb) pi prev).
Proof using TL.
  intros Hs Hp Hb Hpu Hiu Hne Hpi Hi Hpok Hbok Htag Hsegs Hpsegs Hn (P0 & P1 & P2) (Q0 & Q1 & Q2) (T0 & T1 & T2) [W HS HR HLo]. pose proof Hs as [].
  destruct (get_elem _ _ _ Hp) as [Hpin Hpid]. destruct (get_elem _ _ _ Hb) as [Hbin Hbid].
  assert (Hq1 : NoDup (skb_id <$> put (sk_write_queue sk) i skb)) by (by rewrite put_ids).
  assert (Hpin1 : prev0 ∈ put (sk_write_queue sk) i skb).
  { unfold put. apply list_elem_of_fmap. exists prev0. split; [|done]. rewrite (proj2 (Nat.eqb_neq _ _)); [done|]. congruence. }
  assert (Hsum : forall c, sumZ c (put (put (sk_write_queue sk) i skb) pi prev) = sumZ c (sk_write_queue sk) - c skb0 + c skb - c prev0 + c prev).
  { intros c. rewrite (sum_put c _ pi prev0) by done. rewrite (sum_put c _ i skb0) by done. lia. }
  assert (Eu : unsent (wq_set (wq_set sk' i skb) pi prev) = unsent sk) by (rewrite !unsent_set by done; by apply q_part_unsent).
  unfold q_part in W. injection W as Hq Hh Hpk Hhi. set (q' := put (put (sk_write_queue sk) i skb) pi prev) in *.
  assert (Hqok : Forall (buf_ok (unsent sk)) q') by (by apply put_ok, Hpok; apply put_ok).
  (* the packets that the 16 bit count of prev loses *)
  set (w := gso_segs prev0 + n - gso_segs prev). pose proof (bo_segs _ _ (score_get _ _ _ Hs Hp)) as Hp0. assert (Hw : 0 <= w) by (unfold w; rewrite Hpsegs; warith).
  assert (Hsent : sumZ (sent_segs (unsent sk)) q' = sumZ (sent_segs (unsent sk)) (sk_write_queue sk) - w)
    by (rewrite Hsum; unfold sent_segs; rewrite Hpi, Hi, Hpid, Hbid, !decide_False by done; unfold w; lia).
  assert (HS' : sumZ (tagged TCPCB_SACKED_ACKED) q' = sumZ (tagged TCPCB_SACKED_ACKED) (sk_write_queue sk) + n * (1 - b2z (Z.testbit (sacked skb0) 0)) - w)
    by (rewrite Hsum; unfold tagged, w; rewrite !has_S, Htag, Hsegs, P0, Q0; destruct (Z.testbit (sacked skb0) 0); cbn; lia).
  assert (HR' : sumZ (tagged TCPCB_SACKED_RETRANS) q' = sumZ (tagged TCPCB_SACKED_RETRANS) (sk_write_queue sk) - n * b2z (Z.testbit (sacked skb0) 1))
    by (rewrite Hsum; unfold tagged; rewrite !has_R, Htag, Hsegs, P1, Q1; destruct (Z.testbit (sacked skb0) 1); cbn; lia).
  assert (HL' : sumZ (tagged TCPCB_LOST) q' = sumZ (tagged TCPCB_LOST) (sk_write_queue sk) - n * b2z (Z.testbit (sacked skb0) 2))
    by (rewrite Hsum; unfold tagged; rewrite !has_L, Htag, Hsegs, P2, Q2; destruct (Z.testbit (sacked skb0) 2); cbn; lia).
  destruct (score_counters sk q' (sacked_out (tp sk) - sumZ (tagged TCPCB_SACKED_ACKED) (sk_write_queue sk) + w) (sacked_out (tp sk')) (lost_out (tp sk')) (retrans_out (tp sk')) Hs Hqok) as (C1 & C2 & C3);
    [lia|lia|rewrite HS, T0; f_equal; cbn [b2z]; lia|rewrite HLo, T2; f_equal; cbn [b2z]; lia|rewrite HR, T1; f_equal; cbn [b2z]; lia|].
  split; rewrite ?Eu; cbn; rewrite ?Hq, ?Hpk; fold (put (sk_write_queue sk) i skb); fold (put (put (sk_write_queue sk) i skb) pi prev); fold q'.
  - lia.
  - done.
  - done.
  - lia.
  - done.
  - unfold q'. rewrite put_ids by done. by rewrite put_ids.
  - unfold q'. rewrite put_ids by done. by rewrite put_ids.
  - intros k. eapply at_sent_ext; [exact Eu|exact Hh|]. change (hints (wq_set (wq_set sk' i skb) pi prev) k) with (hints sk' k). rewrite Hhi. apply sc_hints.
Qed.

Lemma wmem_free_part sk b : sb_part (sk_wmem_free_skb sk b) = sb_part sk.
Proof using Type. unfold sk_wmem_free_skb, sk_mem_uncharge. by case_if_as Hc. Qed.
Lemma advance_score sk b : score sk -> skb_id b ∉ unsent sk -> score (tcp_advance_highest_sack sk b) /\ same_ids sk (tcp_advance_highest_sack sk b).
Proof using HL. intros Hs Hi. rewrite advance_highest_spec. split; [|done]. apply score_highest; [done|]. apply at_sent_next; [apply Hs|done]. Qed.

(** The buffer that was eaten leaves no packets behind, and prev stays as it is. *)
Lemma eaten_score sk prev skb : score sk -> wq_get sk (skb_id skb) = Some skb -> gso_segs skb = 0 -> skb_id skb ∉ unsent sk -> skb_id prev ∉ unsent sk -> skb_id prev <> skb_id skb ->
  let sk' := shifted_eaten sk prev skb in
  score sk' /\ wq_get sk' (skb_id prev) = wq_get sk (skb_id prev) /\ unsent sk' = unsent sk /\ sk_send_head sk' = sk_send_head sk.
Proof using HL.
  intros Hs Hb Hz Hi Hpi Hne. unfold shifted_eaten. set (i := skb_id skb) in *. set (pi := skb_id prev) in *. cbn zeta.
  set (sk4 := if is_hint (retransmit_skb_hint _) i then _ else _). assert (E4 : score sk4 /\ sk_write_queue sk4 = sk_write_queue sk /\ sk_send_head sk4 = sk_send_head sk)
    by (subst sk4; case_if_as H1; [|done]; split; [by eapply score_ext; [|exact Hs]|done]).
  clearbody sk4. destruct E4 as (Hs4 & Q4 & S4). assert (Hat : forall s, sk_write_queue s = sk_write_queue sk -> sk_send_head s = sk_send_head sk -> at_sent s (Some pi)).
  { intros s0 Q S j [= <-]. left. by rewrite (unsent_ext sk s0) by congruence. }
  set (sk5 := if is_hint (scoreboard_skb_hint _) i then _ else _). assert (E5 : score sk5 /\ sk_write_queue sk5 = sk_write_queue sk /\ sk_send_head sk5 = sk_send_head sk)
    by (subst sk5; case_if_as H1; [|done]; split; [apply score_board_hint; [done|by apply Hat]|done]).
  clearbody sk5. destruct E5 as (Hs5 & Q5 & S5).
  set (sk6 := if is_hint (lost_skb_hint _) i then _ else _). assert (E6 : score sk6 /\ sk_write_queue sk6 = sk_write_queue sk /\ sk_send_head sk6 = sk_send_head sk).
  { subst sk6. case_if_as H1; [|done]. split; [|done]. eapply score_ext; [|apply (score_lost_hint sk5 (Some pi)); [done|by apply Hat]]. done. }
  clearbody sk6. destruct E6 as (Hs6 & Q6 & S6). set (s7 := skb <| tcp_flags := _ |>). set (sk7 := wq_set sk6 i s7).
  assert (Hg6 : wq_get sk6 i = Some skb) by (unfold wq_get; rewrite Q6; exact Hb).
  assert (Hu6 : unsent sk6 = unsent sk) by (apply unsent_ext; congruence). assert (Hu7 : unsent sk7 = unsent sk) by (by rewrite <- Hu6; apply unsent_set).
  assert (Hs7 : score sk7) by (eapply score_keep_tags; [exact Hs6|exact Hg6|done|done|done|destruct (score_get _ _ _ Hs Hb); rewrite Hu6; by split]).
  assert (Hg7 : wq_get sk7 i = Some s7) by (apply get_set; [done|by eexists]).
  assert (Hp7 : wq_get sk7 pi = wq_get sk pi) by (subst sk7; rewrite get_set_other by (done || congruence); unfold wq_get; by rewrite Q6).
  assert (Hh7 : sk_send_head sk7 = sk_send_head sk) by (exact S6).
  clearbody sk7. set (sk8 := if is_hint (highest_sack _) i then _ else _). assert (E8 : score sk8 /\ unsent sk8 = unsent sk /\ sk_send_head sk8 = sk_send_head sk /\ sk_write_queue sk8 = sk_write_queue sk7).
  { subst sk8. case_if_as H1; [|done]. destruct (advance_score sk7 s7) as [H2 H3]; [done|by rewrite Hu7|]. split_and!; [done| | |].
    - by rewrite (same_ids_unsent _ _ H3).
    - destruct H3 as [_ H3]. congruence.
    - by rewrite advance_highest_spec. }
  destruct E8 as (Hs8 & Hu8 & Hh8 & Hq8). assert (Hi8 : i ∉ unsent sk8) by (by rewrite Hu8). pose proof (sb_q_part _ _ (wmem_free_part (wq_unlink sk8 i) s7)) as Ef.
  split_and!.
  - eapply score_ext; [apply wmem_free_part|]. eapply unlink_score; [done|unfold wq_get; rewrite Hq8; exact Hg7|done|done].
  - rewrite (get_part _ _ pi Ef), get_unlink_other by congruence. unfold wq_get. rewrite Hq8. exact Hp7.
  - rewrite (q_part_unsent _ _ Ef). by rewrite unsent_unlink.
  - unfold q_part in Ef. injection Ef as _ -> _ _. exact Hh8.
Qed.

(** The two buffers after the bytes and the packets were moved. *)
Record moved (u : list nat) prev0 skb0 (n shifted : Z) prev skb : Prop := {
  mv_pid : skb_id prev = skb_id prev0;
  mv_id : skb_id skb = skb_id skb0;
  mv_ptags : sacked prev = sacked prev0;
  mv_tags : sacked skb = sacked skb0;
  mv_psegs : gso_segs prev = u16 (gso_segs prev0 + n);
  mv_segs : gso_segs skb = gso_segs skb0 - n;
  mv_len : len skb = len skb0 - shifted;
  mv_end : end_seq skb = end_seq skb0;
  mv_pok : buf_ok u prev;
  mv_ok : buf_ok u skb;
}.
Lemma shift_moved u prev0 skb0 n shifted mss prev skb : skb_shift prev0 skb0 shifted = Some (prev, skb) -> buf_ok u prev0 -> buf_ok u skb0 ->
  skb_id prev0 ∉ u -> skb_id skb0 ∉ u -> 0 <= n <= gso_segs skb0 -> 0 <= shifted <= len skb0 ->
  let '(p, s) := shifted_update prev skb n shifted mss in moved u prev0 skb0 n shifted p s.
Proof using SH.
  intros Hsh Hp Hb Hpu Hbu Hn Hs. destruct Hp as [P1 P2 P3 P4 P5 P6]. destruct Hb as [B1 B2 B3 B4 B5 B6].
  pose proof (shift_prev _ _ _ _ _ Hsh) as Ep. pose proof (shift_skb _ _ _ _ _ Hsh) as Eb.
  assert (Hpp : u32 (u32 (end_seq prev0 + shifted) - seq prev0) = u32 (len prev0 + shifted)).
  { rewrite u32_sub_l. replace (end_seq prev0 + shifted - seq prev0) with (end_seq prev0 - seq prev0 + shifted) by lia. by rewrite <- u32_add_l, P6, u32_add_l. }
  assert (Hbb : u32 (end_seq skb0 - u32 (seq skb0 + shifted)) = u32 (len skb0 - shifted)).
  { rewrite u32_sub_r. replace (end_seq skb0 - (seq skb0 + shifted)) with (end_seq skb0 - seq skb0 - shifted) by lia. by rewrite <- u32_sub_l, B6, u32_sub_l. }
  pose proof (u16_range mss). pose proof (u16_range (gso_segs prev0 + n)). unfold is_u16 in *.
  unfold shifted_update. rewrite Ep, Eb. cbn zeta. cases_if; cbn; split; cbn; try done; (split; cbn; [done|lia|lia|lia|intros ?; contradiction|done]).
Qed.

(** What has to hold of the buffer that packets are taken from. *)
Definition shiftable sk (dup : bool) b : Prop :=
  only_S (sacked b) \/ (after (end_seq b) (snd_una (tp sk)) = true /\ (dup = true \/ Z.testbit (sacked b) 1 = false \/ Z.testbit (sacked b) 2 = true)).

Lemma sacktag_shiftable sk skb st dup n : u32_counters sk -> Z.testbit (sacked skb) 0 && Z.testbit (sacked skb) 2 = false -> shiftable sk dup skb ->
  let '(tags, sk', _) := tcp_sacktag_one skb sk st dup n in counted sk sk' (sacked skb) tags n /\ only_S tags.
Proof using TL.
  intros Hu Hv Hsh. pose proof (sacktag_one_spec skb sk st dup n Hu Hv) as H.
  destruct (tcp_sacktag_one skb sk st dup n) as [[tags sk'] st']. destruct H as (Hc & Hv' & Ha & Hb). split; [done|].
  destruct (after (end_seq skb) (snd_una (tp sk))) eqn:E.
  - destruct (Ha eq_refl) as [T0 T1]. rewrite T0 in Hv'. cbn in Hv'. split_and!; [done| |done].
    apply T1. destruct Hsh as [(_ & ? & _)|[_ ?]]; [by right; left|done].
  - rewrite (Hb eq_refl). destruct Hsh as [?|[? _]]; [done|congruence].
Qed.

(** Moving [n] packets to the buffer before, which stays SACKED and nothing else. *)
Lemma shifted_score sk st pi i prev0 skb0 prev skb n shifted mss dup r :
  score sk -> wq_get sk pi = Some prev0 -> wq_get sk i = Some skb0 -> pi ∉ unsent sk -> i ∉ unsent sk -> pi <> i -> skb_shift prev0 skb0 shifted = Some (prev, skb) ->
  only_S (sacked prev0) -> shiftable sk dup skb0 -> 0 <= n -> 0 <= shifted <= len skb0 -> (len skb0 - shifted <= 0 -> gso_segs skb0 = n) ->
  tcp_shifted_skb sk prev skb st n shifted mss dup = Some r ->
  score (snd (fst r)) /\ (exists p, wq_get (snd (fst r)) pi = Some p /\ only_S (sacked p)) /\
  unsent (snd (fst r)) = unsent sk /\ sk_send_head (snd (fst r)) = sk_send_head sk.
Proof using TL PL HL SH.
  intros Hs Hp Hb Hpu Hiu Hne Hsh Hpt Hsk Hn0 Hshift Hz.
  destruct (get_elem _ _ _ Hp) as [Hpin Hpid]. destruct (get_elem _ _ _ Hb) as [Hbin Hbid].
  assert (Fp : skb_id prev = pi) by (rewrite (shift_prev _ _ _ _ _ Hsh); exact Hpid).
  assert (Fb : skb_id skb = i /\ gso_segs skb = gso_segs skb0) by (rewrite (shift_skb _ _ _ _ _ Hsh); by split).
  destruct Fb as [Fb Fg]. unfold tcp_shifted_skb. rewrite Fp, Fb. case_if_as Hn; [done|]. clear Hn.
  set (sk1 := if is_hint _ i then _ else _). assert (E1 : sb_part sk1 = sb_part sk /\ snd_una (tp sk1) = snd_una (tp sk)) by (subst sk1; by case_if_as Hh).
  clearbody sk1. destruct E1 as [E1 Eu]. case_if_as Hlt; [done|]. apply Z.ltb_ge in Hlt. rewrite Fg in Hlt.
  pose proof (shift_moved (unsent sk) prev0 skb0 n shifted mss prev skb Hsh (score_get _ _ _ Hs Hp) (score_get _ _ _ Hs Hb)) as HU. rewrite Hpid, Hbid in HU. specialize (HU Hpu Hiu ltac:(lia) Hshift).
  destruct (shifted_update prev skb n shifted mss) as [p2 s2]. destruct HU. rewrite Hpid in mv_pid0. rewrite Hbid in mv_id0.
  set (skW := wq_set (wq_set sk1 pi p2) i s2).
  assert (Hc0 : u32_counters skW) by (pose proof (score_u32 sk Hs); unfold u32_counters, sb_part in *; injection E1 as _ _ _ _ E2 E3 E4; cbn; by rewrite E2, E3, E4).
  pose proof (sacktag_shiftable skW s2 st dup n Hc0 (buf_ok_bits _ _ mv_ok0)) as Htag. destruct (tcp_sacktag_one s2 skW st dup n) as [[tags sk2] st2].
  destruct Htag as [Hct Hot].
  { unfold shiftable. rewrite mv_tags0, mv_end0. change (snd_una (tp skW)) with (snd_una (tp sk1)). rewrite Eu. exact Hsk. }
  set (p3 := p2 <| sacked := _ |>). set (sk3 := wq_set sk2 pi p3).
  assert (P3 : only_S (sacked p3)).
  { subst p3. cbn. rewrite mv_ptags0. destruct Hpt as (T0 & T1 & T2). unfold only_S. rewrite !testbit_bset, !Z.land_spec, tag_ever_retrans, !Z.pow2_bits_eqb by lia.
    cbn [Z.eqb Pos.eqb]. by rewrite !andb_false_r, !orb_false_r. }
  assert (Hpok : buf_ok (unsent sk) p3).
  { apply buf_ok_tags; [done|by rewrite mv_pid0|]. destruct P3 as (_ & _ & H2). change (Z.testbit (sacked p3) 0 && Z.testbit (sacked p3) 2 = false). rewrite H2. apply andb_false_r. }
  pose proof (sb_q_part _ _ E1) as Eq1. pose proof (q_part_unsent _ _ Eq1) as Eu1.
  assert (Hs3 : score sk3 /\ same_ids sk sk3).
  { destruct Hct as [W C1 C2 C3]. unfold sb_part in E1. injection E1 as EQ EH EP EHi E2 E3 E4. cbn in C1, C2, C3. rewrite E2 in C1. rewrite E4 in C2. rewrite E3 in C3. rewrite mv_tags0 in C1, C2, C3.
    unfold q_part in W. injection W as W WH WP WHi. cbn in W, WH, WP. change (hints skW) with (hints sk1) in WHi.
    pose proof (shift_packets sk (sk2 <| sk_write_queue := sk_write_queue sk |>) pi i prev0 skb0 p3 s2 tags n) as Hsp.
    assert (Eall : sk_write_queue sk3 = put (put (sk_write_queue sk) i s2) pi p3) by (subst sk3; cbn; rewrite W, EQ; by apply put_twice). split.
    - eapply score_ext; [|apply Hsp; clear Hsp]; try done.
      + unfold sb_part, q_part. rewrite Eall. subst sk3. cbn. done.
      + split; try done. unfold q_part. apply (f_equal2 pair); [cbn; congruence|]. change (hints sk2 = hints sk). congruence.
    - split; [|subst sk3; cbn; congruence]. rewrite Eall. rewrite put_ids by done. by apply put_ids. }
  destruct Hs3 as [Hs3 Hsame3]. pose proof (same_ids_unsent _ _ Hsame3) as Hu3. assert (Hh3 : sk_send_head sk3 = sk_send_head sk) by apply Hsame3.
  assert (Hgi : wq_get sk2 i = Some s2 /\ is_Some (wq_get sk2 pi)).
  { destruct Hct as [W _ _ _]. rewrite !(get_part _ _ _ W). subst skW.
    assert (is_Some (wq_get sk1 pi) /\ is_Some (wq_get sk1 i)) as [S1 S2] by (rewrite !(get_part _ _ _ Eq1); by eauto).
    split; [apply get_set; [done|]; by rewrite get_set_other|]. rewrite get_set_other by (done || congruence). rewrite get_set by done. by eexists. }
  destruct Hgi as [Hgi Hgp]. assert (Hg3 : wq_get sk3 i = Some s2) by (subst sk3; by rewrite get_set_other).
  assert (Hp3 : wq_get sk3 pi = Some p3) by (by apply get_set). clearbody sk3. rewrite mv_len0.
  destruct (Z.gtb_spec (len skb0 - shifted) 0).
  { case_if_as Hzero; [done|]. intros [= <-]. by eauto 8. }
  intros [= <-]. cbn [fst snd]. destruct (eaten_score sk3 p3 s2) as (H1 & H2 & H3 & H4); try done.
  - by rewrite mv_id0.
  - rewrite mv_segs0, Hz by lia. lia.
  - by rewrite mv_id0, Hu3.
  - change (skb_id p2 ∉ unsent sk3). by rewrite mv_pid0, Hu3.
  - change (skb_id p2 <> skb_id s2). congruence.
  - split_and!; [done| |congruence|congruence]. exists p3. split; [|done]. rewrite <- Hp3, <- mv_pid0. exact H2.
Qed.

Lemma same_kept sk sk' : score sk' -> same_ids sk sk' -> kept sk sk'.
Proof using Type. intros Hs H. split_and!; [done|by apply same_ids_unsent|apply H]. Qed.

Lemma shift_next_score sk pi st pcount mss r : score sk -> pi ∉ unsent sk -> (exists p, wq_get sk pi = Some p /\ only_S (sacked p)) ->
  shift_next sk pi st pcount mss = Some r -> kept sk (fst (fst r)).
Proof using TL PL HL SH.
  intros Hs Hpu (p & Hp & Hpt). pose proof (kept_refl sk Hs) as Hk. unfold shift_next. case_if_as H0; [by intros [= <-]|].
  destruct (tcp_write_queue_next sk pi ≫= wq_get sk) as [b|] eqn:Hb; [|by intros [= <-]]. rewrite Hp.
  apply tcp_for_id in Hb as [Hnext Hb]. case_if_as H1; [by intros [= <-]|].
  apply orb_false_elim in H1 as [H1 Hmss]. apply orb_false_elim in H1 as [H1 Htag]. apply orb_false_elim in H1 as [_ Hsh]. apply negb_false_iff, Z.eqb_eq in Htag, Hmss.
  destruct (skb_shift p b (len b)) as [[p' b']|] eqn:Esh; [|by intros [= <-]].
  destruct (tcp_shifted_skb sk p' b' st (tcp_skb_pcount b) (len b) mss false) as [[[g sk'] st']|] eqn:E; [|done]. intros [= <-]. cbn.
  pose proof (score_get _ _ _ Hs Hb) as Hok. assert (Hnd : NoDup (skb_id <$> sk_write_queue sk)) by apply Hs.
  destruct (at_sent_next sk pi Hnd Hpu _ Hnext) as [Hbu|]; [|congruence].
  apply (shifted_score _ _ _ _ _ _ _ _ _ _ _ _ _ Hs Hp Hb Hpu Hbu) in E as (E & _ & E2 & E3); try done.
  - by eapply next_not_self.
  - left. by apply tagbits_S.
  - rewrite pcount_spec. apply Hok.
  - pose proof (bo_len _ _ Hok). lia.
  - by rewrite pcount_spec.
Qed.

(** How much tcp_shift_skb_data moves: everything with its packets, or less than everything. *)
Lemma shift_amount_ok u prev b s e n pcount mss : buf_ok u b -> skb_id b ∉ u -> shift_amount prev b s e = SpShift n pcount mss ->
  0 <= pcount /\ 0 <= n <= len b /\ (len b - n <= 0 -> gso_segs b = pcount).
Proof using PL SL.
  intros [_ Hl Hg Hz _ Hspan] Hu. unfold shift_amount. rewrite pcount_spec, mss_spec.
  destruct (after s (seq b)) eqn:Ha; cbn [negb andb].
  - case_if_as H1; [done|]. by case_if_as H2.
  - destruct (before e (end_seq b)) eqn:Hbe; cbn [negb].
    + case_if_as H1; [done|]. case_if_as H2; [done|]. set (m := s32 (e - seq b)).
      assert (Hne : m <> len b).
      { intros Heq. rewrite before_spec in Hbe. apply Z.ltb_lt in Hbe. subst m. revert Hspan Heq Hbe. clear. generalize (seq b) (end_seq b) (len b). intros. warith. }
      case_if_as H3; [done|]. case_if_as H4; [done|]. case_if_as H5; [done|]. apply Z.ltb_ge in H3. rewrite Z.gtb_ltb in H4. apply Z.ltb_ge in H4.
      case_if_as H6; [intros [= <- <- <-]; lia|]. case_if_as H7; [done|]. intros [= <- <- <-]. apply Z.ltb_ge in H7. apply Z.eqb_neq in H6.
      assert (m / gso_size b * gso_size b <= m /\ 0 <= m / gso_size b * gso_size b /\ 0 <= m / gso_size b).
      { destruct (decide (gso_size b = 0)) as [->|]; [rewrite Zdiv_0_r; lia|]. pose proof (Z.mul_div_le m (gso_size b) ltac:(lia)). pose proof (Z.div_pos m (gso_size b) ltac:(lia) ltac:(lia)). nia. }
      lia.
    + case_if_as H1; [done|]. intros [= <- <- <-]. lia.
Qed.

Lemma shift_skb_data_score sk b st s e dup r : score sk -> wq_get sk (skb_id b) = Some b -> skb_id b ∉ unsent sk ->
  tcp_shift_skb_data sk b st s e dup = Some r ->
  kept sk (snd (fst r)) /\ match fst (fst r) with SdPrev pi => pi ∉ unsent sk | _ => snd (fst r) = sk end.
Proof using TL PL HL SH SL.
  intros Hs Hb Hbu. unfold tcp_shift_skb_data. cbn zeta.
  assert (Hfb : forall d, match d with SdPrev _ => False | _ => True end -> Some (d, sk, st) = Some r -> kept sk (snd (fst r)) /\ match fst (fst r) with SdPrev pi => pi ∉ unsent sk | _ => snd (fst r) = sk end).
  { intros d Hd [= <-]. cbn. split; [by apply kept_refl|]. by destruct d. }
  case_if_as H1; [by apply Hfb|]. case_if_as H2; [by apply Hfb|]. case_if_as H3; [by apply Hfb|]. case_if_as H4; [by apply Hfb|]. case_if_as H5; [by apply Hfb|].
  destruct (tcp_write_queue_prev sk (skb_id b) ≫= wq_get sk) as [p|] eqn:Hp; [|by apply Hfb]. apply tcp_for_id in Hp as [Hprev Hp].
  case_if_as H6; [by apply Hfb|]. apply negb_false_iff, Z.eqb_eq in H6. apply negb_false_iff in H4.
  destruct (shift_amount p b s e) as [| | |n pcount mss] eqn:Ea; [by apply Hfb|by apply Hfb|done|].
  eapply shift_amount_ok in Ea as (Hpc & Hn & Hz); [|by eapply score_get|done].
  destruct (skb_shift p b n) as [[p' b']|] eqn:Esh; [|by apply Hfb].
  assert (Hpi : skb_id p' = skb_id p) by (rewrite (shift_prev _ _ _ _ _ Esh); done). rewrite Hpi.
  assert (Hnd : NoDup (skb_id <$> sk_write_queue sk)) by apply Hs. pose proof (sent_prev sk _ _ Hnd Hbu Hprev) as Hpu.
  destruct (tcp_shifted_skb sk p' b' st pcount n mss dup) as [[[g sk'] st']|] eqn:E; [|done].
  apply (shifted_score _ _ _ _ _ _ _ _ _ _ _ _ _ Hs Hp Hb Hpu Hbu) in E as (Hs' & Hp' & Hu' & Hh'); try done.
  - cbn in Hs', Hp', Hu', Hh'. destruct g.
    + destruct (shift_next sk' (skb_id p) st' pcount mss) as [[[sk2 st2] pc2]|] eqn:E2; [|done]. apply shift_next_score in E2; [|done|by rewrite Hu'|done].
      intros [= <-]. cbn. split; [|done]. by eapply kept_trans; [|exact E2].
    + intros [= <-]. cbn. by split.
  - by eapply prev_not_self.
  - by apply tagbits_S.
  - right. split; [done|]. destruct dup; [by left|right]. cbn in H2. apply Z.eqb_neq in H2.
    destruct (Z.testbit (sacked b) 1) eqn:E1; [|by left]. destruct (Z.testbit (sacked b) 2) eqn:E2'; [by right|]. destruct H2. by apply retrans_only.
Qed.

(** A buffer may be split. *)
Lemma fragment_kept sk i n mss : score sk -> is_Some (wq_get sk i) -> i ∉ unsent sk ->
  kept sk (snd (tcp_fragment sk i n mss)) /\ forall j, is_Some (wq_get sk j) -> is_Some (wq_get (snd (tcp_fragment sk i n mss)) j).
Proof using FR.
  intros Hs Hb Hi. pose proof (fragment_splits sk i n mss Hs Hb Hi) as H. destruct (tcp_fragment sk i n mss) as [err sk']. cbn [snd]. destruct H as [[_ H]|[_ H]].
  - split; [by eapply split_kept|]. intros j. by eapply split_keeps.
  - split; [by apply kept_part|]. intros j. by rewrite (get_part _ _ _ (sb_q_part _ _ H)).
Qed.
Lemma match_skb_score sk b s e j : score sk -> wq_get sk (skb_id b) = Some b -> skb_id b ∉ unsent sk -> let '(_, sk') := tcp_match_skb_to_sack sk b s e in
  kept sk sk' /\ (is_Some (wq_get sk j) -> is_Some (wq_get sk' j)).
Proof using FR.
  intros Hs Hg Hb. pose proof (kept_refl sk Hs). unfold tcp_match_skb_to_sack. cbn zeta. case_if_as H1; [|done]. case_if_as H2; [done|]. case_if_as H3; [done|].
  match goal with |- context [tcp_fragment sk ?i ?n ?m] => destruct (fragment_kept sk i n m Hs ltac:(by eexists) Hb) as [Hf Hk]; destruct (tcp_fragment sk i n m) as [err sk'] end.
  cbn [snd] in *. case_if_as H4; eauto.
Qed.

Lemma get_default sk sk' i b : wq_get sk i = Some b -> is_Some (wq_get sk' i) -> wq_get sk' i = Some (default b (wq_get sk' i)) /\ skb_id (default b (wq_get sk' i)) = i.
Proof using Type. intros Hb [b' Hb']. rewrite Hb'. cbn. split; [done|]. by destruct (get_elem _ _ _ Hb'). Qed.

(** The parts of a round of the walk. *)
Lemma walk_dup_score sk b nd dup : score sk -> wq_get sk (skb_id b) = Some b -> skb_id b ∉ unsent sk ->
  kept sk (snd (walk_dup sk b nd dup)) /\ is_Some (wq_get (snd (walk_dup sk b nd dup)) (skb_id b)).
Proof using FR.
  intros Hs Hb Hbu. pose proof (kept_refl sk Hs). unfold walk_dup. destruct nd as [d|]; [|cbn; by eauto]. case_if_as H3; [|cbn; by eauto].
  pose proof (match_skb_score sk b (start_seq d) (sb_end_seq d) (skb_id b) Hs Hb Hbu) as Hm.
  destruct (tcp_match_skb_to_sack sk b (start_seq d) (sb_end_seq d)) as [r0 sk0]. destruct Hm as [Hm1 Hm2]. cbn. eauto.
Qed.
Lemma walk_shift_score sk b st s e dup k r : score sk -> wq_get sk (skb_id b) = Some b -> skb_id b ∉ unsent sk -> walk_shift sk b st s e dup k = Some r ->
  kept sk (snd (fst r)) /\ match fst (fst r) with WaMatched _ => is_Some (wq_get (snd (fst r)) (skb_id b)) | WaShifted pi => pi ∉ unsent sk end.
Proof using TL PL HL SH SL FR.
  intros Hs Hb Hbu. pose proof (kept_refl sk Hs). unfold walk_shift. case_if_as H1; [|intros [= <-]; cbn; by eauto].
  destruct (tcp_shift_skb_data sk b st s e dup) as [[[d sk2] st2]|] eqn:Esh; [|done]. apply shift_skb_data_score in Esh as [Hs2 Hsame]; [|done..].
  cbn [fst snd] in Hs2, Hsame. destruct d as [| |pi].
  - subst sk2. pose proof (match_skb_score sk b s e (skb_id b) Hs Hb Hbu) as Hm. destruct (tcp_match_skb_to_sack sk b s e) as [r0 sk3]. destruct Hm.
    intros [= <-]. cbn. by eauto.
  - subst sk2. intros [= <-]. cbn. by eauto.
  - by intros [= <-].
Qed.
Lemma walk_tag_score sk b st dup k : score sk -> wq_get sk (skb_id b) = Some b -> skb_id b ∉ unsent sk -> kept sk (fst (walk_tag sk b st dup k)).
Proof using TL PL HL.
  intros Hs Hb Hbu. unfold walk_tag. case_if_as H1; [|by apply kept_refl]. pose proof (sacktag_store sk _ b st dup Hs Hb Hbu) as H. destruct (tcp_sacktag_one b sk st dup (tcp_skb_pcount b)) as [[tags sk1] st1].
  destruct H as [H Hq]. cbn [fst]. set (sk2 := wq_set sk1 (skb_id b) _) in *.
  assert (Hsame : same_ids sk sk2) by (eapply same_ids_trans; [by apply same_ids_part|by apply same_ids_set]).
  case_if_as Hc; [|by apply same_kept]. eapply kept_trans; [by apply same_kept|]. destruct (advance_score sk2 b) as [H3 H4]; [done|by rewrite (same_ids_unsent _ _ Hsame)|]. by apply same_kept.
Qed.

Lemma sacktag_walk_score fuel : forall cur sk nd st s e dup r, score sk -> at_sent sk cur ->
  tcp_sacktag_walk fuel cur sk nd st s e dup = Some r -> kept sk (snd (fst r)) /\ at_sent (snd (fst r)) (fst (fst r)).
Proof using TL PL HL SH SL FR.
  induction fuel as [|fuel IH]; intros cur sk nd st s e dup r Hs Hcur; pose proof (kept_refl sk Hs) as Hk; cbn [tcp_sacktag_walk]; [by intros [= <-]|].
  destruct (cur ≫= wq_get sk) as [b|] eqn:Hb; [|by intros [= <-]]. apply tcp_for_id in Hb as [-> Hb].
  case_if_as H1; [by intros [= <-]|]. case_if_as H2; [by intros [= <-]|].
  assert (Hbu : skb_id b ∉ unsent sk) by (destruct (Hcur _ eq_refl); [done|congruence]).
  pose proof (walk_dup_score sk b nd dup Hs Hb Hbu) as [Hk1 Hg1]. destruct (walk_dup sk b nd dup) as [[in_sack dup'] sk1]. cbn [snd] in Hk1, Hg1.
  destruct (get_default _ _ _ _ Hb Hg1) as [Hb1 Hid1]. set (b1 := default b (wq_get sk1 (skb_id b))) in *. pose proof Hb1 as Hb1'. rewrite <- Hid1 in Hb1'.
  assert (Hu1 : unsent sk1 = unsent sk) by apply Hk1.
  destruct (walk_shift sk1 b1 st s e dup' in_sack) as [[[act sk2] st2]|] eqn:Ew; [|done]. apply walk_shift_score in Ew as [Hk2 Hg2]; [|apply Hk1|done|by rewrite Hid1, Hu1].
  cbn [fst snd] in Hk2, Hg2. pose proof (kept_trans _ _ _ Hk1 Hk2) as Hk02. assert (Hs2 : score sk2) by apply Hk02. assert (Hu2 : unsent sk2 = unsent sk) by apply Hk02.
  assert (Hnd2 : NoDup (skb_id <$> sk_write_queue sk2)) by apply Hs2.
  destruct act as [pi|k].
  - intros E. apply IH in E as [E1 E2]; [|done|apply at_sent_next; [done|congruence]]. split; [by eapply kept_trans|done].
  - rewrite Hid1 in Hg2. case_if_as H3; [intros [= <-]; cbn; split; [done|by eapply kept_at]|].
    destruct (get_default _ _ _ _ Hb1 Hg2) as [Hb2 Hid2]. set (b2 := default b1 (wq_get sk2 (skb_id b))) in *. rewrite <- Hid2 in Hb2 at 1.
    pose proof (walk_tag_score sk2 b2 st2 dup' k Hs2 Hb2) as Hk3. rewrite Hid2, Hu2 in Hk3. specialize (Hk3 Hbu). destruct (walk_tag sk2 b2 st2 dup' k) as [sk3 st3]. cbn [fst] in Hk3.
    pose proof (kept_trans _ _ _ Hk02 Hk3) as Hk03. assert (Hs3 : score sk3) by apply Hk03.
    intros E. apply IH in E as [E1 E2]; [|done|]. { split; [by eapply kept_trans|done]. } apply at_sent_next; [apply Hs3|]. destruct Hk03 as (_ & Hu3 & _). by rewrite Hu3.
Qed.
Lemma sacktag_skip_at cur sk st s : score sk -> at_sent sk cur -> at_sent sk (fst (tcp_sacktag_skip cur sk st s)).
Proof using Type.
  intros Hs. unfold tcp_sacktag_skip. revert cur st. induction (length (sk_write_queue sk)) as [|n IH]; intros cur st Hcur; cbn [skip_loop]; [done|].
  destruct (cur ≫= wq_get sk) as [b|] eqn:Hb; [|done]. apply tcp_for_id in Hb as [-> Hb]. case_if_as H1; [done|]. case_if_as H2; [done|]. apply IH.
  apply at_sent_next; [apply Hs|]. destruct (Hcur _ eq_refl); [done|congruence].
Qed.
Lemma maybe_skipping_score fuel cur sk nd st s r : score sk -> at_sent sk cur -> tcp_maybe_skipping_dsack fuel cur sk nd st s = Some r ->
  kept sk (snd (fst r)) /\ at_sent (snd (fst r)) (fst (fst r)).
Proof using TL PL HL SH SL FR.
  intros Hs Hcur. pose proof (kept_refl sk Hs). unfold tcp_maybe_skipping_dsack. destruct nd as [d|]; [|by intros [= <-]]. case_if_as H1; [|by intros [= <-]].
  pose proof (sacktag_skip_at cur sk st (start_seq d) Hs Hcur). destruct (tcp_sacktag_skip cur sk st (start_seq d)) as [cur' st']. by apply sacktag_walk_score.
Qed.
(** The position a block leaves behind. *)
Definition act_at sk (a : block_act) : Prop :=
  match a with BaWalk cur | BaAdvance cur | BaContinue cur => at_sent sk cur | BaBreak => True end.
Lemma block_entry_at sk st cur s : score sk -> at_sent sk cur -> act_at sk (fst (block_entry sk st cur s)).
Proof using Type.
  intros Hs Hcur. unfold block_entry. case_if_as H1.
  - destruct (highest_sack (tp sk)) as [h|] eqn:Hh; [|done]. assert (Hat : at_sent sk (Some h)) by (rewrite <- Hh; exact (sc_hints _ Hs 0%nat)).
    pose proof (sacktag_skip_at (Some h) sk (st <| fack_count := fackets_out (tp sk) |>) s Hs Hat). by destruct (tcp_sacktag_skip _ _ _ _).
  - pose proof (sacktag_skip_at cur sk st s Hs Hcur). by destruct (tcp_sacktag_skip _ _ _ _).
Qed.
Lemma block_cached_score sk st cur c s e nd dup r : score sk -> at_sent sk cur -> block_cached sk st cur c s e nd dup = Some r ->
  kept sk (snd (fst r)) /\ act_at (snd (fst r)) (fst (fst r)).
Proof using TL PL HL SH SL FR.
  intros Hs Hcur. unfold block_cached. set (hd := if before s _ then _ else _).
  assert (Hhd : forall x, hd = Some x -> kept sk (snd (fst x)) /\ at_sent (snd (fst x)) (fst (fst x))).
  { intros x. subst hd. case_if_as H2; [|intros [= <-]; by split; [apply kept_refl|]]. pose proof (sacktag_skip_at cur sk st s Hs Hcur). destruct (tcp_sacktag_skip _ _ _ _) as [cu t]. by apply sacktag_walk_score. }
  destruct hd as [[[cu1 sk1] st1]|]; [|done]. destruct (Hhd _ eq_refl) as [Hk1 Ha1]. cbn in Hk1, Ha1. case_if_as H2; [by intros [= <-]|]. assert (Hs1 : score sk1) by apply Hk1.
  destruct (tcp_maybe_skipping_dsack _ _ _ _ _ _) as [[[cu2 sk2] st2]|] eqn:Em; [|done]. apply maybe_skipping_score in Em as [Hk2 Ha2]; [|done..]. cbn in Hk2, Ha2.
  pose proof (kept_trans _ _ _ Hk1 Hk2) as Hk. assert (Hs2 : score sk2) by apply Hk. case_if_as H3.
  - destruct (highest_sack (tp sk2)) as [h|] eqn:Hh; intros [= <-]; cbn; [|done]. split; [done|]. rewrite <- Hh. exact (sc_hints _ Hs2 0%nat).
  - pose proof (sacktag_skip_at cu2 sk2 st2 (sb_end_seq c) Hs2 Ha2). destruct (tcp_sacktag_skip _ _ _ _) as [cu t]. by intros [= <-].
Qed.

Lemma sack_blocks_score fuel : forall sp i cache cur sk st fd first r, score sk -> at_sent sk cur ->
  sack_blocks_loop fuel sp i cache cur sk st fd first = Some r -> kept sk (fst r).
Proof using TL PL HL SH SL FR.
  induction fuel as [|fuel IH]; intros sp i cache cur sk st fd first r Hs Hcur; pose proof (kept_refl sk Hs) as Hk; cbn [sack_blocks_loop]; [by intros [= <-]|].
  destruct sp as [|b rest]; [by intros [= <-]|]. cbn zeta.
  match goal with |- context [match ?x with (act, later) => _ end] => set (al := x) end.
  assert (Hal : forall r, fst al = Some r -> kept sk (snd (fst r)) /\ act_at (snd (fst r)) (fst (fst r))).
  { intros x. subst al. match goal with |- context [block_entry sk ?t cur ?s] => pose proof (block_entry_at sk t cur s Hs Hcur) as He; destruct (block_entry sk t cur s) as [a t'] end.
    destruct (skip_early _ _) as [|c later]; [by intros [= <-]|]. case_if_as H1; [by apply block_cached_score|by intros [= <-]]. }
  destruct al as [act later]. cbn [fst] in Hal. set (walked := match act with Some (BaWalk _, _, _) => _ | _ => _ end).
  assert (Hw : forall r, walked = Some r -> kept sk (snd (fst r)) /\ act_at (snd (fst r)) (fst (fst r))).
  { intros x. subst walked. destruct act as [[[a k0] t0]|]; [|done]. destruct (Hal _ eq_refl) as [Hk0 Ha0]. cbn in Hk0, Ha0. destruct a; try (by intros [= <-]).
    destruct (tcp_sacktag_walk _ _ _ _ _ _ _ _) as [[[cu k] t]|] eqn:Ew; [|done]. apply sacktag_walk_score in Ew as [Ew1 Ew2]; [|apply Hk0|done]. intros [= <-]. split; [by eapply kept_trans|done]. }
  destruct walked as [[[a sk1] st1]|]; [|done]. destruct (Hw _ eq_refl) as [Hk1 Ha1]. cbn in Hk1, Ha1. assert (Hs1 : score sk1) by apply Hk1.
  destruct a; try (intros E; apply IH in E; [by eapply kept_trans|done|done]). by intros [= <-].
Qed.

Lemma update_reordering_score sk m : score sk -> kept sk (tcp_update_reordering sk m).
Proof using Type.
  intros Hs. unfold tcp_update_reordering. case_if_as Hc; [|by apply kept_refl]. unfold tcp_disable_fack. split; [|split; [apply unsent_ext|]; by cases_if].
  cases_if; [eapply score_ext; [|apply (score_lost_hint sk None); [done|apply at_sent_none]]; done|by eapply score_ext; [|exact Hs]].
Qed.
Lemma finish_score sk st sp : score sk -> kept sk (sacktag_finish sk st sp).
Proof using TL PL.
  intros Hs. unfold sacktag_finish. cbn zeta. set (sk1 := sk <| tp; recv_sack_cache := _ |>). assert (K1 : kept sk sk1) by (by apply kept_part). eapply kept_trans; [exact K1|]. destruct K1 as [Hs1 _]. clearbody sk1.
  destruct (mark_lost_retrans_score sk1 Hs1) as [Hs2 Hi2]. pose proof (same_kept _ _ Hs2 Hi2) as K2. case_if_as Hc; [|done]. eapply kept_trans; [exact K2|]. by apply update_reordering_score.
Qed.

Lemma check_dsack_part sk ack sp una : sb_part (snd (tcp_check_dsack sk ack sp una)) = sb_part sk.
Proof using Type. unfold tcp_check_dsack. cbn zeta. by cases_if. Qed.
Lemma sacktag_reset_score sk : score sk -> kept sk (if sacked_out (tp sk) =? 0 then tcp_highest_sack_reset (sk <| tp; fackets_out := 0 |>) else sk).
Proof using HL.
  intros Hs. case_if_as Hc; [|by apply kept_refl]. rewrite highest_reset_spec. split; [|done]. apply score_highest; [by eapply score_ext; [|exact Hs]|]. exact (at_sent_head sk (sc_nodup _ Hs)).
Qed.
Lemma sacktag_write_queue_kept sk ack prior_snd_una flag sk' : score sk -> tcp_sacktag_write_queue sk ack prior_snd_una = Some (flag, sk') -> kept sk sk'.
Proof using TL PL HL SH SL FR.
  intros Hs. unfold tcp_sacktag_write_queue. cbn zeta. pose proof (sacktag_reset_score sk Hs) as K0. set (sk0 := if _ =? 0 then tcp_highest_sack_reset _ else _) in *. clearbody sk0.
  pose proof (check_dsack_part sk0 ack (sack_option ack) prior_snd_una) as H1. destruct (tcp_check_dsack _ _ _ _) as [dup sk1]. cbn [snd] in H1.
  pose proof (kept_trans _ _ _ K0 (kept_part _ _ (proj1 K0) H1)) as K1. assert (Hs1 : score sk1) by apply K1.
  case_if_as H2; [by intros [= _ <-]|]. case_if_as H3; [by intros [= _ <-]|].
  destruct (collect_sacks _ _ _ _ _ _ _ _) as [sp first]. destruct (bubble_sort _ _ _) as [sp' first'].
  destruct (sack_blocks_loop _ _ _ _ _ _ _ _ _) as [[sk2 st2]|] eqn:E; [|done]. apply sack_blocks_score in E as K2; [|done|apply at_sent_head; apply Hs1]. cbn [fst] in K2.
  intros [= _ <-]. eapply kept_trans; [exact K1|]. eapply kept_trans; [exact K2|]. apply finish_score, K2.
Qed.

(** C31. Processing the SACK blocks of an ACK keeps the scoreboard: whatever blocks the option
    holds (forged, overlapping, D-SACK), lost_out and retrans_out are the packets of the buffers
    tagged LOST and RETRANS, sacked_out and packets_out cover the SACKED and the sent packets, no buffer is both
    SACKED and LOST, and no unsent buffer is tagged, also when buffers are split, shifted into the
    one before, or merged with the next; what is not sent yet stays as it is.  This holds while
    neither a SYN nor a FIN is in the write queue ([score]; [shifted_loses_fin] shows what happens
    to a FIN); of tcp_fragment it is assumed that it cuts a buffer in two, or fails. *)
Theorem sacktag_write_queue_ok sk ack prior_snd_una flag sk' : score sk ->
  tcp_sacktag_write_queue sk ack prior_snd_una = Some (flag, sk') -> score sk' /\ unsent sk' = unsent sk /\ sk_send_head sk' = sk_send_head sk.
Proof using TL PL HL SH SL FR. apply sacktag_write_queue_kept. Qed.
End Steps.

(** ** Which blocks are accepted, and in which order *)
Section Blocks.
Context {K : Kernel} {SL : SeqLaws K}.
Implicit Types (b : tcp_sack_block) (sp : list tcp_sack_block).

(** A SACK block is accepted exactly when, in positions of the stream, it is not empty, ends in
    the data that was sent, and lies above snd_una; or, for a D-SACK with an undo in progress, below
    snd_una and above undo_marker or across it and not longer than the window. *)
Theorem sackblock_valid_iff t (dsack : bool) (una nxt um s e : Z) :
  snd_una t = u32 una -> snd_nxt t = u32 nxt -> undo_marker t = u32 um -> 0 <= max_window t <= 2 ^ 29 ->
  una <= nxt -> Forall (fun p => Z.abs (p - una) < 2 ^ 29) [nxt; um; s; e] ->
  tcp_is_sackblock_valid t dsack (u32 s) (u32 e) =
    (s <? e) && (e <=? nxt) &&
    ((una <? s) || dsack && negb (undo_marker t =? 0) && (e <=? una) && ((um <=? s) || (um <? e) && (e - max_window t <=? s))).
Proof using SL.
  intros Hu Hn Hm Hw Hle Hp. rewrite !Forall_cons in Hp. destruct Hp as (P1 & P2 & P3 & P4 & _).
  unfold tcp_is_sackblock_valid. rewrite Hu, Hn. destruct (undo_marker t =? 0); cbn [negb]; rewrite ?Hm, ?u32_sub_l, ?before_u32, ?after_u32 by lia;
    destruct dsack; cbn [negb andb orb];
    repeat (match goal with |- context [?x <? ?y] => destruct (Z.ltb_spec x y) | |- context [?x <=? ?y] => destruct (Z.leb_spec x y) end; cbn [negb andb orb]; try done; try lia).
Qed.

(** The position of a block above a base, for blocks less than 2^31 above it. *)
Definition above (base : Z) b : Z := u32 (start_seq b - base).
Lemma after_above base x y : above base x < 2 ^ 31 -> above base y < 2 ^ 31 -> after (start_seq x) (start_seq y) = (above base y <? above base x).
Proof using SL.
  unfold above. intros Hx Hy. rewrite after_spec, before_spec. generalize dependent (start_seq x). generalize dependent (start_seq y). intros u Hu v Hv.
  destruct (Z.ltb_spec (s32 (u - v)) 0), (Z.ltb_spec (u32 (u - base)) (u32 (v - base))); try done; exfalso; warith.
Qed.

Section Sort.
Context (base : Z).
Notation key := (above base).
Definition near sp : Prop := Forall (fun b => key b < 2 ^ 31) sp.
Lemma near_perm sp sp' : sp ≡ₚ sp' -> near sp -> near sp'.
Proof using Type. unfold near. intros H. by rewrite H. Qed.

(** A pass carries the largest of the first [n + 1] blocks to index [n]. *)
Lemma carried_le a (t l : list tcp_sack_block) m : a :: t ≡ₚ l ++ [m] -> Forall (fun x => key x <= key m) l -> key a <= key m.
Proof using Type.
  intros Ep Hm. assert (Hin : a ∈ l ++ [m]) by (rewrite <- Ep; apply elem_of_cons; by left). apply elem_of_app in Hin as [Hin|Hin].
  - rewrite Forall_forall in Hm. by apply Hm.
  - apply list_elem_of_singleton in Hin as ->. lia.
Qed.
Lemma pass_spec n : forall a r j f, (n <= length r)%nat -> near (a :: r) ->
  exists l m, fst (bubble_pass n (a :: r) j f) = l ++ m :: drop n r /\ a :: take n r ≡ₚ l ++ [m] /\ Forall (fun x => key x <= key m) l.
Proof using SL.
  induction n as [|n IH]; intros a r j f Hn Hnear; [by exists [], a; rewrite take_0|]. destruct r as [|b r]; [cbn in Hn; lia|].
  unfold near in Hnear. rewrite !Forall_cons in Hnear. destruct Hnear as (Ha & Hb & Hr). cbn [bubble_pass]. rewrite (after_above base) by done.
  destruct (Z.ltb_spec (key b) (key a)).
  - destruct (IH a r (j + 1) (if j =? f then j + 1 else f)) as (l & m & El & Ep & Hm); [cbn in Hn; lia|by constructor; [|done]|].
    destruct (bubble_pass n (a :: r) _ _) as [sp' f']. cbn in *. exists (b :: l), m. rewrite El. split_and!; [done|by rewrite Permutation_swap, Ep|].
    constructor; [|done]. pose proof (carried_le _ _ _ _ Ep Hm). lia.
  - destruct (IH b r (j + 1) f) as (l & m & El & Ep & Hm); [cbn in Hn; lia|by constructor; [|done]|].
    destruct (bubble_pass n (b :: r) _ _) as [sp' f']. cbn in *. exists (a :: l), m. rewrite El. split_and!; [done|by rewrite Ep|].
    constructor; [|done]. pose proof (carried_le _ _ _ _ Ep Hm). lia.
Qed.
Lemma sort_spec i : forall (p s : list tcp_sack_block) f, length p = S i -> near (p ++ s) -> StronglySorted (fun x y => key x <= key y) s ->
  Forall (fun x => Forall (fun y => key x <= key y) s) p ->
  fst (bubble_sort i (p ++ s) f) ≡ₚ p ++ s /\ StronglySorted (fun x y => key x <= key y) (fst (bubble_sort i (p ++ s) f)).
Proof using SL.
  induction i as [|i IH]; intros p s f Hl Hnear Hs Hp.
  - destruct p as [|a [|]]; try done. apply Forall_cons in Hp as [Ha _]. cbn. split; [done|by constructor].
  - destruct p as [|a p]; [done|]. injection Hl as Hl. cbn [bubble_sort app].
    destruct (pass_spec (S i) a (p ++ s) 0 f) as (l & m & El & Ep & Hm); [rewrite length_app; lia|done|].
    rewrite <- Hl in El at 2. rewrite drop_app_length in El. rewrite <- Hl in Ep. rewrite take_app_length in Ep.
    destruct (bubble_pass (S i) (a :: p ++ s) 0 f) as [sp f']. cbn [fst] in El. subst sp.
    assert (Hall : l ++ m :: s ≡ₚ a :: p ++ s) by (rewrite cons_middle, app_assoc; by rewrite <- Ep). rewrite <- Hall.
    rewrite Ep in Hp. apply Forall_app in Hp as [Hp1 Hp2]. apply Forall_cons in Hp2 as [Hp2 _]. apply IH.
    + apply Permutation_length in Ep. rewrite length_app in Ep. cbn in Ep. lia.
    + unfold near. by rewrite Hall.
    + by constructor.
    + rewrite Forall_forall in Hp1, Hm |- *. intros x Hx. constructor; [by apply Hm|by apply Hp1].
Qed.

(** The index follows the block: nothing that starts later is before it. *)
Definition tracked sp (j f : Z) x : Prop :=
  exists k : nat, f = j + Z.of_nat k /\ sp !! k = Some x /\ Forall (fun y => key y <= key x) (take k sp).
Lemma pass_passed n : forall sp j f, f < j -> snd (bubble_pass n sp j f) = f.
Proof using Type.
  induction n as [|n IH]; intros [|a [|b r]] j f Hf; try done. cbn [bubble_pass]. rewrite (proj2 (Z.eqb_neq j f)) by lia.
  case_if_as Hc; match goal with |- context [bubble_pass n ?l ?k ?g] => specialize (IH l k g ltac:(lia)); by destruct (bubble_pass n l k g) end.
Qed.
Lemma tracked_cons a sp j f x : key a <= key x -> tracked sp (j + 1) f x -> tracked (a :: sp) j f x.
Proof using Type. intros Ha (k & -> & Hk & Hall). exists (S k). split_and!; [lia|done|]. cbn. by constructor. Qed.
Lemma pass_tracked n x : forall sp j f, near sp -> tracked sp j f x -> tracked (fst (bubble_pass n sp j f)) j (snd (bubble_pass n sp j f)) x.
Proof using SL.
  induction n as [|n IH]; intros [|a [|b r]] j f Hnear Ht; try done. unfold near in Hnear. rewrite !Forall_cons in Hnear. destruct Hnear as (Ha & Hb & Hr).
  cbn [bubble_pass]. rewrite (after_above base) by done. destruct Ht as ([|k] & Ef & Hk & Hall).
  - injection Hk as ->. replace f with j by lia. rewrite Z.eqb_refl. destruct (Z.ltb_spec (key b) (key x)).
    + assert (H' : tracked (x :: r) (j + 1) (j + 1) x) by (exists 0%nat; split_and!; [lia|done|constructor]).
      apply IH in H'; [|by constructor]. destruct (bubble_pass n (x :: r) (j + 1) (j + 1)). apply tracked_cons; [lia|done].
    + pose proof (pass_passed n (b :: r) (j + 1) j ltac:(lia)) as Hf. destruct (bubble_pass n (b :: r) (j + 1) j). cbn in *. subst.
      exists 0%nat. split_and!; [lia|done|constructor].
  - cbn in Hk, Hall. apply Forall_cons in Hall as [Hax Hall]. rewrite (proj2 (Z.eqb_neq j f)) by lia. destruct (Z.ltb_spec (key b) (key a)).
    + assert (H' : tracked (a :: r) (j + 1) f x).
      { destruct k as [|k]; [cbn in Hk; injection Hk as ->; lia|]. cbn in Hall. apply Forall_cons in Hall as [Hbx Hall]. exists (S k). split_and!; [lia|done|]. cbn. by constructor. }
      apply IH in H'; [|by constructor]. destruct (bubble_pass n (a :: r) (j + 1) f). apply tracked_cons; [lia|done].
    + assert (H' : tracked (b :: r) (j + 1) f x) by (exists k; split_and!; [lia|done|done]).
      apply IH in H'; [|by constructor]. destruct (bubble_pass n (b :: r) (j + 1) f). by apply tracked_cons.
Qed.
Lemma pass_perm n : forall sp j f, fst (bubble_pass n sp j f) ≡ₚ sp.
Proof using Type.
  induction n as [|n IH]; intros [|a [|b r]] j f; try done. cbn [bubble_pass].
  case_if_as Hc; match goal with |- context [bubble_pass n ?l ?k ?g] => specialize (IH l k g); destruct (bubble_pass n l k g); cbn in * end; rewrite IH; [apply Permutation_swap|done].
Qed.
Lemma sort_tracked i x : forall sp f, near sp -> tracked sp 0 f x -> tracked (fst (bubble_sort i sp f)) 0 (snd (bubble_sort i sp f)) x.
Proof using SL.
  induction i as [|i IH]; intros sp f Hnear Ht; [done|]. cbn [bubble_sort]. pose proof (pass_tracked (S i) x sp 0 f Hnear Ht) as H1. pose proof (pass_perm (S i) sp 0 f) as H2.
  destruct (bubble_pass (S i) sp 0 f) as [sp' f']. cbn in H1, H2. apply IH; [|done]. unfold near. by rewrite H2.
Qed.

(** The blocks of a SACK option are walked in the order of the stream: the sort returns the same
    blocks in increasing order of their start, wherever the sequence numbers wrap, and
    first_sack_index follows the block that came first in the option (the one that may be a
    D-SACK). *)
Theorem sack_sort_ok b sp : near (b :: sp) ->
  let '(sp', first') := bubble_sort (length sp) (b :: sp) 0 in
  sp' ≡ₚ b :: sp /\ StronglySorted (fun x y => key x <= key y) sp' /\ 0 <= first' /\ sp' !! Z.to_nat first' = Some b.
Proof using SL.
  intros Hnear. pose proof (sort_spec (length sp) (b :: sp) [] 0) as H. rewrite app_nil_r in H.
  destruct H as [H1 H2]; [done|done|constructor|by apply Forall_true; constructor|].
  pose proof (sort_tracked (length sp) b (b :: sp) 0 Hnear) as H3. destruct (bubble_sort (length sp) (b :: sp) 0) as [sp' first'].
  destruct H3 as (k & Hk & Hb & _); [by exists 0%nat; split_and!; [done|done|constructor]|]. cbn [fst snd] in *. subst first'. replace (Z.to_nat (0 + Z.of_nat k)) with k by lia. split_and!; [done|done|lia|done].
Qed.
End Sort.
End Blocks.

(** ** A concrete queue *)
Module Demo.
#[local] Existing Instance linux.
#[export] Instance linux_frag : FragLaws.
Proof. split. intros sk i n mss Hs Hb _. exact (Concrete.fragment_ok sk i n mss Hs Hb). Qed.

(** A buffer of [n] packets of [size] bytes at [s]. *)
Definition sent_skb (id : nat) (s n size tags : Z) : sk_buff :=
  blank_skb <| skb_id := id |> <| seq := s |> <| end_seq := u32 (s + n * size) |> <| len := n * size |>
    <| gso_segs := n |> <| gso_size := if n =? 1 then 0 else size |> <| sacked := tags |>.
Definition base : Z := 2 ^ 32 - 150.
Definition queue : list sk_buff := [sent_skb 1 base 1 100 0; sent_skb 2 (u32 (base + 100)) 1 100 1; sent_skb 3 (u32 (base + 200)) 1 100 4; sent_skb 4 (u32 (base + 300)) 2 100 2].
Definition sk_sent : sock :=
  blank_sock <| sk_write_queue := queue |> <| tp; sacked_out := 1 |> <| tp; lost_out := 1 |> <| tp; retrans_out := 2 |> <| tp; packets_out := 5 |> <| tp; undo_marker := u32 (base + 100) |>
    <| tp; snd_una := base |> <| tp; snd_nxt := u32 (base + 500) |> <| tp; max_window := 65535 |> <| tp; fackets_out := 2 |> <| tp; highest_sack := Some 2%nat |>
    <| tp; recv_sack_cache := replicate 4 blank_sack |>.
Definition be (x : Z) : list Z := [Z.shiftr x 24; Z.land (Z.shiftr x 16) 255; Z.land (Z.shiftr x 8) 255; Z.land x 255].
(** An ACK of [base] with the given block. *)
Definition ack_with (s e : Z) : sk_buff :=
  blank_skb <| ack_seq := base |> <| sacked := 20 |> <| bytes := replicate 20 0 ++ [5; 10] ++ be s ++ be e |>.
Definition ack1 : sk_buff := ack_with (u32 (base + 200)) (u32 (base + 300)).
Definition after_ack1 : option (Z * sock) := tcp_sacktag_write_queue sk_sent ack1 base.

(** Buffer 3, which was LOST, was merged into buffer 2. *)
Example after_ack1_queue : (fun r => (skb_id <$> sk_write_queue (snd r), gso_segs <$> sk_write_queue (snd r), sacked_out (tp (snd r)), lost_out (tp (snd r)))) <$> after_ack1 =
  Some ([1; 2; 4]%nat, [1; 2; 2], 2, 0).
Proof. vm_compute. reflexivity. Qed.
(** A block that covers half of buffer 4 cuts it: buffer 5 is its second half. *)
Example half_sacked : (fun r => (skb_id <$> sk_write_queue (snd r), len <$> sk_write_queue (snd r), sacked <$> sk_write_queue (snd r), packets_out (tp (snd r)), sacked_out (tp (snd r)))) <$>
  tcp_sacktag_write_queue sk_sent (ack_with (u32 (base + 300)) (u32 (base + 400))) base = Some ([1; 2; 3; 4; 5]%nat, [100; 100; 100; 100; 100], [0; 1; 4; 3; 2], 5, 2).
Proof. vm_compute. reflexivity. Qed.
Lemma sent_skb_ok id s n size tags u : 0 <= n -> 0 <= size -> has tags 1 && has tags 4 = false -> id ∉ u -> buf_ok u (sent_skb id s n size tags).
Proof.
  intros Hn Hs Ht Hu. split; cbn; [done|nia|done|by destruct (n =? 1)|done|]. rewrite u32_sub_l. f_equal. lia.
Qed.
Lemma sk_sent_score : score sk_sent.
Proof.
  split; [|vm_compute; reflexivity..| | | | |].
  - split; vm_compute; discriminate.
  - split; vm_compute; [discriminate|reflexivity].
  - change (sk_write_queue sk_sent) with queue. change (unsent sk_sent) with (@nil nat). unfold queue.
    repeat (apply Forall_cons; split); [..|apply Forall_nil; exact I]; (apply sent_skb_ok; [lia|lia|reflexivity|apply not_elem_of_nil]).
  - apply (bool_decide_unpack _). vm_compute. exact I.
  - apply (bool_decide_unpack _). vm_compute. exact I.
  - intros n i _. left. apply not_elem_of_nil.
Defined.
Lemma sacktag_write_queue_ok_witness : score sk_sent /\ exists flag sk', after_ack1 = Some (flag, sk') /\ score sk'.
Proof.
  split; [exact sk_sent_score|]. destruct after_ack1 as [[flag sk']|] eqn:E; [|vm_compute in E; discriminate].
  exists flag, sk'. split; [reflexivity|]. exact (proj1 (sacktag_write_queue_ok sk_sent ack1 base flag sk' sk_sent_score E)).
Defined.
Lemma sackblock_valid_iff_witness :
  tcp_is_sackblock_valid (tp sk_sent) false (u32 (base + 200)) (u32 (base + 300)) = true.
Proof.
  assert (H1 : 0 <= max_window (tp sk_sent) <= 2 ^ 29) by (split; vm_compute; discriminate).
  assert (H2 : base <= base + 500) by (vm_compute; discriminate).
  assert (H3 : Forall (fun p => Z.abs (p - base) < 2 ^ 29) [base + 500; base + 100; base + 200; base + 300])
    by (repeat (apply Forall_cons; split); [vm_compute; reflexivity..|apply Forall_nil; exact I]).
  exact (eq_trans (sackblock_valid_iff (tp sk_sent) false base (base + 500) (base + 100) (base + 200) (base + 300)
    ltac:(vm_compute; reflexivity) ltac:(vm_compute; reflexivity) ltac:(vm_compute; reflexivity) H1 H2 H3) ltac:(vm_compute; reflexivity)).
Defined.
Lemma sack_sort_ok_witness :
  let b := mk_sack_block 10 20 in
  let '(sp', first') := bubble_sort 2 [b; mk_sack_block (2 ^ 32 - 5) 3; mk_sack_block 30 40] 0 in
  sp' ≡ₚ [b; mk_sack_block (2 ^ 32 - 5) 3; mk_sack_block 30 40] /\ sp' !! Z.to_nat first' = Some b.
Proof.
  cbn zeta. assert (Hn : near (2 ^ 32 - 100) [mk_sack_block 10 20; mk_sack_block (2 ^ 32 - 5) 3; mk_sack_block 30 40]) by (repeat constructor).
  pose proof (sack_sort_ok (2 ^ 32 - 100) _ _ Hn) as H. cbn [length] in H. destruct (bubble_sort _ _ _) as [sp' first']. destruct H as (H1 & _ & _ & H2). by split.
Defined.

(** ** Limits of the code *)

(** The packet count of a merged buffer is kept in 16 bits: a whole queue of small packets makes it
    wrap, here from 65535 + 2 to 1, while sacked_out is exact. *)
Definition many : list sk_buff := [sent_skb 1 1000 65535 8 1; sent_skb 2 (1000 + 65535 * 8) 2 8 0].
Definition sk_many : sock := blank_sock <| sk_write_queue := many |> <| tp; sacked_out := 65535 |> <| tp; packets_out := 65537 |> <| tp; snd_una := 1000 |>
  <| tp; snd_nxt := 1000 + 65537 * 8 |>.
Theorem shifted_count_wraps :
  match tcp_shift_skb_data sk_many (sent_skb 2 (1000 + 65535 * 8) 2 8 0) (mk_sts 0 0 0) (1000 + 65535 * 8) (1000 + 65537 * 8) false with
  | Some (SdPrev 1%nat, sk, _) => (gso_segs <$> sk_write_queue sk) = [1] /\ (len <$> sk_write_queue sk) = [65537 * 8] /\ sacked_out (tp sk) = 65537
  | _ => False
  end.
Proof. vm_compute. by split_and!. Qed.

(** The flags of an eaten buffer are lost with it: its FIN, and the sequence number of the FIN. *)
Definition fin_skb : sk_buff := (sent_skb 2 1100 1 100 0) <| end_seq := 1201 |> <| tcp_flags := 1 |>.
Definition sk_fin_sent : sock := blank_sock <| sk_write_queue := [sent_skb 1 1000 1 100 1; fin_skb] |> <| tp; sacked_out := 1 |> <| tp; packets_out := 2 |>
  <| tp; snd_una := 1000 |> <| tp; snd_nxt := 1201 |>.
Theorem shifted_loses_fin :
  match tcp_shift_skb_data sk_fin_sent fin_skb (mk_sts 0 0 0) 1100 1201 false with
  | Some (SdPrev 1%nat, sk, _) => (tcp_flags <$> sk_write_queue sk) = [0] /\ (end_seq <$> sk_write_queue sk) = [1200]
  | _ => False
  end.
Proof. vm_compute. by split_and!. Qed.
End Demo.

(** A block that starts in the last packet of a buffer, and not at its boundary, makes
    tcp_match_skb_to_sack cut the whole buffer off, which leaves an empty one behind it. *)
Section EmptyTail.
Context {K : Kernel} {SL : SeqLaws K} {PL : PcountLaws K}.
Theorem match_splits_whole_buffer sk b k s e : 1 < gso_segs b -> 0 < gso_size b -> 1 < k -> len b = k * gso_size b -> len b < 2 ^ 31 ->
  end_seq b = u32 (seq b + len b) -> len b - gso_size b < s < len b ->
  tcp_match_skb_to_sack sk b (u32 (seq b + s)) e = (let '(err, sk) := tcp_fragment sk (skb_id b) (len b) (gso_size b) in if err <? 0 then (err, sk) else (0, sk)).
Proof using PL SL.
  intros Hsegs Hsize Hk Hlen Hmax Hend Hs.
  assert (H0 : 0 < s < 2 ^ 31) by nia.
  assert (Ha : after (u32 (seq b + s)) (seq b) = true) by (rewrite after_spec, before_spec; apply Z.ltb_lt; clear - H0; generalize (seq b); intros; warith).
  assert (Hb : after (end_seq b) (u32 (seq b + s)) = true) by (rewrite Hend, after_u32 by lia; apply Z.ltb_lt; lia).
  assert (Hd : u32 (u32 (seq b + s) - seq b) = s) by (rewrite u32_sub_l; replace (seq b + s - seq b) with s by lia; apply u32_small; unfold is_u32; lia).
  assert (Hq : s / gso_size b = k - 1) by (symmetry; apply (Z.div_unique_pos s (gso_size b) (k - 1) (s - (k - 1) * gso_size b)); nia).
  unfold tcp_match_skb_to_sack. rewrite pcount_spec, mss_spec, Ha, Hb, Hd. cbn [negb andb].
  rewrite (proj2 (Z.gtb_lt _ _)) by lia. cbn [andb]. rewrite Z.max_l by nia. rewrite Hq.
  rewrite (proj2 (Z.gtb_lt s (gso_size b))) by nia. cbn [andb]. rewrite (proj2 (Z.ltb_lt ((k - 1) * gso_size b) s)) by nia. cbn [andb].
  replace ((k - 1) * gso_size b + gso_size b) with (len b) by lia. rewrite Z.gtb_ltb, Z.ltb_irrefl.
  destruct (tcp_fragment sk (skb_id b) (len b) (gso_size b)) as [err sk']. by case_if_as Hc.
Qed.
End EmptyTail.
