(* ===== verification/Recovery.v ===== *)
(** * Loss detection and the Loss state

    net/ipv4/tcp_input.c, lines 836-857 and 1946-2600: congestion window reduction (CWR), the
    emulation of SACK for Reno connections, F-RTO, entering the Loss state, the decision to
    recover, and the marking of lost buffers. *)

From S2P Require Import Prelude TcpTypes Kernel RcvTune Rtt WriteQueue Xmit Scoreboard.

(** tcp_for_write_queue(skb, sk), up to the send head, with what the loop accumulates. *)
Fixpoint for_sent {A} (f : sock -> A -> sk_buff -> sock * A) (ids : list nat) (sk : sock) (a : A) : sock * A :=
  match ids with
  | [] => (sk, a)
  | i :: ids =>
    match wq_get sk i with
    | None => (sk, a)
    | Some skb => if is_send_head sk i then (sk, a) else let '(sk, a) := f sk a skb in for_sent f ids sk a
    end
  end.
Definition tcp_for_write_queue {A} (f : sock -> A -> sk_buff -> sock * A) (sk : sock) (a : A) : sock * A :=
  for_sent f (skb_id <$> sk_write_queue sk) sk a.
(** A loop that only changes the buffers. *)
Definition tcp_for_sent (f : sock -> sk_buff -> sock) (sk : sock) : sock :=
  fst (tcp_for_write_queue (fun sk (_ : unit) skb => (f sk skb, ())) sk ()).

Section Recovery.
Context {K : Kernel}.
Implicit Types (sk : sock) (skb : sk_buff) (t : tcp_sock).

Definition set_tags sk skb (tags : Z) : sock := wq_set sk (skb_id skb) (skb <| sacked := tags |>).

Definition tcp_enter_cwr sk (set_ssthresh : bool) : sock :=
  let sk := sk <| tp; prior_ssthresh := 0 |> <| tp; bytes_acked := 0 |> in
  if ca_ltb (icsk_ca_state (icsk sk)) TCP_CA_CWR then
    let sk := sk <| tp; undo_marker := 0 |> in
    let sk := if set_ssthresh then sk <| tp; snd_ssthresh := ca_ssthresh sk |> else sk in
    let sk := sk <| tp; snd_cwnd := Z.min (snd_cwnd (tp sk)) (u32 (tcp_packets_in_flight (tp sk) + 1)) |> in
    let sk := sk <| tp; snd_cwnd_cnt := 0 |> <| tp; high_seq := snd_nxt (tp sk) |> <| tp; snd_cwnd_stamp := tcp_time_stamp |> in
    tcp_set_ca_state (sk <| tp := TCP_ECN_queue_cwr (tp sk) |>) TCP_CA_CWR
  else sk.

(** ** Reno: duplicate ACKs counted as SACKed packets *)
Definition tcp_limit_reno_sacked t : bool * tcp_sock :=
  let holes := Z.min (Z.max (lost_out t) 1) (packets_out t) in
  if u32 (sacked_out t + holes) >? packets_out t then (true, t <| sacked_out := u32 (packets_out t - holes) |>) else (false, t).
Definition tcp_check_reno_reordering sk (addend : Z) : sock :=
  let '(limited, t) := tcp_limit_reno_sacked (tp sk) in
  let sk := sk <| tp := t |> in
  if limited then tcp_update_reordering sk (s32 (packets_out (tp sk) + addend)) else sk.
Definition tcp_add_reno_sack sk : sock :=
  tcp_check_reno_reordering (sk <| tp; sacked_out := u32 (sacked_out (tp sk) + 1) |>) 0.
Definition tcp_remove_reno_sacks sk (acked : Z) : sock :=
  let sk := if acked >? 0 then
              if acked - 1 >=? sacked_out (tp sk) then sk <| tp; sacked_out := 0 |>
              else sk <| tp; sacked_out := u32 (sacked_out (tp sk) - (acked - 1)) |>
            else sk in
  tcp_check_reno_reordering sk acked.
Definition tcp_reset_reno_sack t : tcp_sock := t <| sacked_out := 0 |>.

(** ** F-RTO *)
Definition tcp_is_sackfrto t : bool := (sysctl_tcp_frto =? 2) && negb (tcp_is_reno t).
(** The walk over the buffers behind the head: has anything else been retransmitted? *)
Fixpoint frto_walk (ids : list nat) sk : bool :=
  match ids with
  | [] => true
  | i :: ids =>
    match wq_get sk i with
    | None => true
    | Some skb =>
      if is_send_head sk i then true
      else if has (sacked skb) TCPCB_RETRANS then false
      else if negb (has (sacked skb) TCPCB_SACKED_ACKED) then true
      else frto_walk ids sk
    end
  end.
Definition tcp_use_frto sk : bool :=
  if sysctl_tcp_frto =? 0 then false
  else if negb (mtup_probe_size (icsk sk) =? 0) then false
  else if tcp_is_sackfrto (tp sk) then true
  else if retrans_out (tp sk) >? 1 then false
  else frto_walk (skb_id <$> tail (sk_write_queue sk)) sk.

(** The head of the queue loses its SACKED_RETRANS tag. *)
Definition frto_head sk : sock :=
  match head (sk_write_queue sk) with
  | None => sk
  | Some skb =>
    let sk := if has (sacked skb) TCPCB_RETRANS then sk <| tp; undo_marker := 0 |> else sk in
    if has (sacked skb) TCPCB_SACKED_RETRANS
    then (set_tags sk skb (bclr (sacked skb) TCPCB_SACKED_RETRANS)) <| tp; retrans_out := u32 (retrans_out (tp sk) - tcp_skb_pcount skb) |>
    else sk
  end.
(** The reduction of ssthresh, once per window. *)
Definition frto_ssthresh sk : sock :=
  let ca := icsk_ca_state (icsk sk) in
  let in_frto := negb (frto_counter (tp sk) =? 0) in
  if negb in_frto && ca_leb ca TCP_CA_Disorder || (snd_una (tp sk) =? high_seq (tp sk))
     || (ca_eqb ca TCP_CA_Loss || in_frto) && (icsk_retransmits (icsk sk) =? 0) then
    let sk := sk <| tp; prior_ssthresh := tcp_current_ssthresh sk |> in
    let sk := if in_frto then sk <| tp; snd_ssthresh := ca_ssthresh (sk <| tp; snd_cwnd := 2 |>) |>
              else sk <| tp; snd_ssthresh := ca_ssthresh sk |> in
    tcp_ca_event sk CA_EVENT_FRTO
  else sk.
Definition tcp_enter_frto sk : sock :=
  let sk := frto_ssthresh sk in
  let sk := sk <| tp; undo_marker := snd_una (tp sk) |> <| tp; undo_retrans := 0 |> in
  let sk := frto_head sk in
  let sk := sk <| tp; snd_cwnd := Z.min (snd_cwnd (tp sk)) (u32 (tcp_packets_in_flight (tp sk) + 1)) |> in
  let ca := icsk_ca_state (icsk sk) in
  let sk :=
    if tcp_is_sackfrto (tp sk) && (negb (frto_counter (tp sk) =? 0) || ca_eqb ca TCP_CA_Recovery || ca_eqb ca TCP_CA_Loss)
       && after (high_seq (tp sk)) (snd_una (tp sk))
    then sk <| tp; frto_highmark := high_seq (tp sk) |> else sk <| tp; frto_highmark := snd_nxt (tp sk) |> in
  let sk := tcp_set_ca_state sk TCP_CA_Disorder in
  sk <| tp; high_seq := snd_nxt (tp sk) |> <| tp; frto_counter := 1 |>.

(** One buffer of tcp_enter_frto_loss; the flag is updated by the first one. *)
Definition frto_loss_skb sk (flag : Z) skb : sock * Z :=
  let tags := bclr (sacked skb) TCPCB_LOST in
  let '(sk, tags, flag) :=
    if (frto_counter (tp sk) =? 1) && negb (has flag FLAG_DATA_ACKED) then
      (if has tags TCPCB_SACKED_RETRANS then sk <| tp; retrans_out := u32 (retrans_out (tp sk) + tcp_skb_pcount skb) |> else sk,
       tags, bset flag FLAG_DATA_ACKED)
    else (if has tags TCPCB_RETRANS then sk <| tp; undo_marker := 0 |> else sk, bclr tags TCPCB_SACKED_RETRANS, flag) in
  if negb (has tags TCPCB_SACKED_ACKED) then
    let sk := sk <| tp; lost_out := u32 (lost_out (tp sk) + tcp_skb_pcount skb) |> <| tp; retransmit_high := end_seq skb |> in
    (set_tags sk skb (bset tags TCPCB_LOST), flag)
  else (set_tags sk skb tags, flag).
Definition tcp_enter_frto_loss sk (allowed_segments flag : Z) : sock :=
  let sk := sk <| tp; lost_out := 0 |> <| tp; retrans_out := 0 |> in
  let sk := if tcp_is_reno (tp sk) then sk <| tp := tcp_reset_reno_sack (tp sk) |> else sk in
  let '(sk, _) := tcp_for_write_queue frto_loss_skb sk flag in
  let sk := sk <| tp; snd_cwnd := u32 (tcp_packets_in_flight (tp sk) + allowed_segments) |> <| tp; snd_cwnd_cnt := 0 |>
               <| tp; snd_cwnd_stamp := tcp_time_stamp |> <| tp; frto_counter := 0 |> <| tp; bytes_acked := 0 |>
               <| tp; reordering := u8 (Z.min (reordering (tp sk)) sysctl_tcp_reordering) |> in
  let sk := tcp_set_ca_state sk TCP_CA_Loss in
  let sk := sk <| tp; high_seq := snd_nxt (tp sk) |> in
  sk <| tp := tcp_clear_all_retrans_hints (TCP_ECN_queue_cwr (tp sk)) |>.

(** ** The Loss state *)
Definition tcp_clear_retrans_partial t : tcp_sock :=
  t <| retrans_out := 0 |> <| lost_out := 0 |> <| undo_marker := 0 |> <| undo_retrans := 0 |>.
Definition tcp_clear_retrans t : tcp_sock := tcp_clear_retrans_partial t <| fackets_out := 0 |> <| sacked_out := 0 |>.

(** One buffer of tcp_enter_loss. *)
Definition loss_skb (how : bool) sk skb : sock :=
  let sk := if has (sacked skb) TCPCB_RETRANS then sk <| tp; undo_marker := 0 |> else sk in
  let tags := Z.land (sacked skb) (Z.lor (Z.lnot TCPCB_TAGBITS) TCPCB_SACKED_ACKED) in
  if negb (has tags TCPCB_SACKED_ACKED) || how then
    let sk := sk <| tp; lost_out := u32 (lost_out (tp sk) + tcp_skb_pcount skb) |> <| tp; retransmit_high := end_seq skb |> in
    set_tags sk skb (bset (bclr tags TCPCB_SACKED_ACKED) TCPCB_LOST)
  else set_tags sk skb tags.
(** What precedes the walk: the reduction of ssthresh and cwnd, and the counters. *)
Definition loss_prepare sk (how : bool) : sock :=
  let ca := icsk_ca_state (icsk sk) in
  let sk := if ca_leb ca TCP_CA_Disorder || (snd_una (tp sk) =? high_seq (tp sk)) || ca_eqb ca TCP_CA_Loss && (icsk_retransmits (icsk sk) =? 0)
            then let sk := sk <| tp; prior_ssthresh := tcp_current_ssthresh sk |> in
                 tcp_ca_event (sk <| tp; snd_ssthresh := ca_ssthresh sk |>) CA_EVENT_LOSS
            else sk in
  let sk := sk <| tp; snd_cwnd := 1 |> <| tp; snd_cwnd_cnt := 0 |> <| tp; snd_cwnd_stamp := tcp_time_stamp |> <| tp; bytes_acked := 0 |> in
  let sk := sk <| tp := tcp_clear_retrans_partial (tp sk) |> in
  let sk := if tcp_is_reno (tp sk) then sk <| tp := tcp_reset_reno_sack (tp sk) |> else sk in
  let sk := if negb how then sk <| tp; undo_marker := snd_una (tp sk) |> else sk <| tp; sacked_out := 0 |> <| tp; fackets_out := 0 |> in
  sk <| tp := tcp_clear_all_retrans_hints (tp sk) |>.
Definition tcp_enter_loss sk (how : bool) : sock :=
  let sk := tcp_for_sent (loss_skb how) (loss_prepare sk how) in
  let sk := sk <| tp; reordering := u8 (Z.min (reordering (tp sk)) sysctl_tcp_reordering) |> in
  let sk := tcp_set_ca_state sk TCP_CA_Loss in
  let sk := sk <| tp; high_seq := snd_nxt (tp sk) |> in
  sk <| tp := TCP_ECN_queue_cwr (tp sk) |> <| tp; frto_counter := 0 |>.
Definition tcp_check_sack_reneging sk (flag : Z) : bool * sock :=
  if has flag FLAG_SACK_RENEGING then
    let sk := tcp_enter_loss sk true in
    let sk := sk <| icsk; icsk_retransmits := u8 (icsk_retransmits (icsk sk) + 1) |> in
    let sk := tcp_retransmit_skb sk (tcp_write_queue_head sk) in
    (true, inet_csk_reset_xmit_timer sk ICSK_TIME_RETRANS (icsk_rto (icsk sk)) TCP_RTO_MAX)
  else (false, sk).

(** ** When to recover *)
Definition tcp_fackets_out t : Z := if tcp_is_reno t then s32 (sacked_out t + 1) else s32 (fackets_out t).
Definition tcp_dupack_heuristics t : Z := if tcp_is_fack t then s32 (fackets_out t) else s32 (sacked_out t + 1).
Definition tcp_skb_timedout sk skb : bool := u32 (tcp_time_stamp - when_ skb) >? icsk_rto (icsk sk).
Definition tcp_head_timedout sk : bool :=
  negb (packets_out (tp sk) =? 0) && match head (sk_write_queue sk) with Some skb => tcp_skb_timedout sk skb | None => false end.
Definition tcp_time_to_recover sk : bool :=
  let t := tp sk in
  if negb (frto_counter t =? 0) then false
  else if negb (lost_out t =? 0) then true
  else if tcp_dupack_heuristics t >? reordering t then true
  else if tcp_is_fack t && tcp_head_timedout sk then true
  else if (packets_out t <=? reordering t) && (sacked_out t >=? Z.max (packets_out t / 2) sysctl_tcp_reordering) && negb (tcp_may_send_now sk) then true
  else (thin_dupack t || sysctl_tcp_thin_dupack) && tcp_stream_is_thin t && (tcp_dupack_heuristics t >? 1) && tcp_is_sack t
       && bool_decide (sk_send_head sk = None).

(** ** Marking lost buffers *)
Fixpoint timeout_loop (fuel : nat) (cur : option nat) sk : option nat * sock :=
  match fuel, cur ≫= wq_get sk with
  | O, _ | _, None => (cur, sk)
  | S fuel, Some skb =>
    if is_send_head sk (skb_id skb) then (cur, sk)
    else if negb (tcp_skb_timedout sk skb) then (cur, sk)
    else let sk := tcp_skb_mark_lost sk skb in timeout_loop fuel (tcp_write_queue_next sk (skb_id skb)) sk
  end.
Definition tcp_timeout_skbs sk : sock :=
  if negb (tcp_is_fack (tp sk)) || negb (tcp_head_timedout sk) then sk else
  let cur := match scoreboard_skb_hint (tp sk) with Some h => Some h | None => tcp_write_queue_head sk end in
  let '(cur, sk) := timeout_loop (length (sk_write_queue sk)) cur sk in
  sk <| tp; scoreboard_skb_hint := Some (default QUEUE_END cur) |>.

(** The loop of tcp_mark_head_lost.  It splits a buffer at most once, and stops there or behind
    it, so twice the length of the queue is enough fuel. *)
Fixpoint head_lost_loop (fuel : nat) (cur : option nat) sk (cnt packets : Z) (mark_head : bool) : sock :=
  match fuel, cur ≫= wq_get sk with
  | O, _ | _, None => sk
  | S fuel, Some skb =>
    let i := skb_id skb in
    if is_send_head sk i then sk else
    let sk := sk <| tp; lost_skb_hint := Some i |> <| tp; lost_cnt_hint := cnt |> in
    if after (end_seq skb) (high_seq (tp sk)) then sk else
    let oldcnt := cnt in
    let cnt := if tcp_is_fack (tp sk) || tcp_is_reno (tp sk) || has (sacked skb) TCPCB_SACKED_ACKED then cnt + tcp_skb_pcount skb else cnt in
    let go_on sk skb cnt :=
      let sk := tcp_skb_mark_lost sk skb in
      if mark_head then sk else head_lost_loop fuel (tcp_write_queue_next sk i) sk cnt packets mark_head in
    if cnt >? packets then
      if tcp_is_sack (tp sk) && negb (tcp_is_fack (tp sk)) || (oldcnt >=? packets) then sk else
      let mss := gso_size skb in
      let '(err, sk) := tcp_fragment sk i (u32 ((packets - oldcnt) * mss)) mss in
      if err <? 0 then sk else go_on sk (default skb (wq_get sk i)) packets
    else go_on sk skb cnt
  end.
Definition tcp_mark_head_lost sk (packets : Z) (mark_head : bool) : sock :=
  let fuel := (2 * length (sk_write_queue sk) + 2)%nat in
  match lost_skb_hint (tp sk) with
  | Some h =>
    if mark_head && negb (bool_decide (tcp_write_queue_head sk = Some h)) then sk
    else head_lost_loop fuel (Some h) sk (lost_cnt_hint (tp sk)) packets mark_head
  | None => head_lost_loop fuel (tcp_write_queue_head sk) sk 0 packets mark_head
  end.
Definition tcp_update_scoreboard sk (fast_rexmit : bool) : sock :=
  let t := tp sk in
  let sk :=
    if tcp_is_reno t then tcp_mark_head_lost sk 1 true
    else if tcp_is_fack t then
      let lost := s32 (fackets_out t - reordering t) in
      tcp_mark_head_lost sk (if lost <=? 0 then 1 else lost) false
    else
      let sacked_upto := s32 (sacked_out t - reordering t) in
      if sacked_upto >=? 0 then tcp_mark_head_lost sk sacked_upto false
      else if fast_rexmit then tcp_mark_head_lost sk 1 true else sk in
  tcp_timeout_skbs sk.
End Recovery.

(** ** Walks that rebuild the counters

    Entering the Loss state clears counters and counts the buffers again while it sets their
    tags.  In between, a counter that was cleared lacks the packets of the buffers still to be
    visited: [owed].  [pays] are the counters (SACKED, RETRANS, LOST) that are rebuilt. *)
Record pays := mk_pays { pay_S : bool; pay_R : bool; pay_L : bool }.

Section Walk.
Context {K : Kernel} {TL : TagLaws K}.
Implicit Types (sk : sock) (b : sk_buff) (m : pays) (ids : list nat).

Definition owed (bit : Z) ids sk : Z := sumZ (fun b => if decide (skb_id b ∈ ids) then tagged bit b else 0) (sk_write_queue sk).
(** The socket with all counters paid. *)
Definition paid m ids sk : sock :=
  sk <| tp; sacked_out := u32 (sacked_out (tp sk) + (if pay_S m then owed TCPCB_SACKED_ACKED ids sk else 0)) |>
     <| tp; retrans_out := u32 (retrans_out (tp sk) + (if pay_R m then owed TCPCB_SACKED_RETRANS ids sk else 0)) |>
     <| tp; lost_out := u32 (lost_out (tp sk) + (if pay_L m then owed TCPCB_LOST ids sk else 0)) |>.

(** What a step does to the buffer [b]: new tags, and the counters that go with them. *)
Record retags m sk b sk1 (tags : Z) : Prop := {
  rt_part : q_part sk1 = q_part sk;
  rt_ok : Z.testbit tags 0 && Z.testbit tags 2 = false;
  rt_S : sacked_out (tp sk1) = u32 (sacked_out (tp sk) + gso_segs b * (b2z (Z.testbit tags 0) - if pay_S m then 0 else b2z (Z.testbit (sacked b) 0)));
  rt_R : retrans_out (tp sk1) = u32 (retrans_out (tp sk) + gso_segs b * (b2z (Z.testbit tags 1) - if pay_R m then 0 else b2z (Z.testbit (sacked b) 1)));
  rt_L : lost_out (tp sk1) = u32 (lost_out (tp sk) + gso_segs b * (b2z (Z.testbit tags 2) - if pay_L m then 0 else b2z (Z.testbit (sacked b) 2)));
}.

Lemma owed_cons bit i ids sk b : NoDup (skb_id <$> sk_write_queue sk) -> wq_get sk i = Some b -> i ∉ ids -> owed bit (i :: ids) sk = tagged bit b + owed bit ids sk.
Proof using Type.
  intros Hnd Hb Hi. destruct (get_elem _ _ _ Hb) as [Hin Hid]. unfold owed. clear Hb. induction (sk_write_queue sk) as [|x q IH]; [by apply elem_of_nil in Hin|].
  rewrite fmap_cons in Hnd. apply NoDup_cons in Hnd as [Hx Hnd]. cbn [sumZ]. apply elem_of_cons in Hin as [->|Hin].
  - rewrite decide_True by (rewrite Hid; apply elem_of_cons; by left). rewrite (decide_False (P := skb_id x ∈ ids)) by (by rewrite Hid).
    assert (E : sumZ (fun b => if decide (skb_id b ∈ i :: ids) then tagged bit b else 0) q = sumZ (fun b => if decide (skb_id b ∈ ids) then tagged bit b else 0) q); [|lia].
    apply sumZ_ext. apply Forall_forall. intros y Hy. destruct (decide (skb_id y ∈ ids)) as [Hd|Hd]; [by rewrite decide_True by (apply elem_of_cons; by right)|].
    rewrite decide_False; [done|]. intros H. apply elem_of_cons in H as [H|H]; [|done]. apply Hx. apply list_elem_of_fmap. exists y. split; [congruence|done].
  - rewrite (IH Hnd Hin). assert (Hne : skb_id x <> i) by (intros He; apply Hx; apply list_elem_of_fmap; exists b; split; [congruence|done]).
    destruct (decide (skb_id x ∈ ids)) as [Hd|Hd]; [rewrite decide_True by (apply elem_of_cons; by right)|rewrite decide_False; [|intros H; apply elem_of_cons in H as [H|H]; done]]; lia.
Qed.
Lemma owed_set bit ids sk sk1 i b : q_part sk1 = q_part sk -> skb_id b = i -> i ∉ ids -> owed bit ids (wq_set sk1 i b) = owed bit ids sk.
Proof using Type.
  intros Hq Hid Hi. unfold q_part in Hq. injection Hq as Hq _ _ _. unfold owed. cbn. rewrite Hq. clear Hq. induction (sk_write_queue sk) as [|x q IH]; [done|]. cbn [sumZ fmap list_fmap]. rewrite IH.
  destruct (Nat.eqb_spec (skb_id x) i) as [He|]; [|done]. rewrite !decide_False by congruence. done.
Qed.
Lemma tagged_mul bit b : tagged bit b = gso_segs b * b2z (has (sacked b) bit).
Proof using Type. unfold tagged. destruct (has _ _); cbn; lia. Qed.
(** One counter: what was owed for [b] is paid, or the difference is counted. *)
Lemma paid_counter (pay : bool) c c1 g n o rest : c1 = u32 (c + g * (n - if pay then 0 else o)) ->
  u32 (c1 + (if pay then rest else 0)) = u32 (u32 (c + (if pay then g * o + rest else 0)) + (g * n - g * o)).
Proof using Type. intros ->. rewrite !u32_add_l. f_equal. destruct pay; lia. Qed.
Lemma paid_step m sk i ids b sk1 tags : score (paid m (i :: ids) sk) -> wq_get sk i = Some b -> i ∉ unsent sk -> i ∉ ids -> retags m sk b sk1 tags ->
  score (paid m ids (wq_set sk1 i (b <| sacked := tags |>))).
Proof using TL.
  intros Hs Hb Hi Hni []. set (b' := b <| sacked := tags |>). destruct (get_elem _ _ _ Hb) as [_ Hid]. assert (Hid' : skb_id b' = i) by exact Hid.
  assert (Hnd : NoDup (skb_id <$> sk_write_queue sk)) by (exact (sc_nodup _ Hs)).
  set (sk2 := wq_set sk1 i b'). set (sk' := sk1 <| tp; sacked_out := sacked_out (tp (paid m ids sk2)) |> <| tp; retrans_out := retrans_out (tp (paid m ids sk2)) |> <| tp; lost_out := lost_out (tp (paid m ids sk2)) |>).
  assert (E : score (wq_set sk' i b')); [|by eapply score_ext; [|exact E]].
  assert (Ho : forall bit, owed bit (i :: ids) sk = gso_segs b * b2z (has (sacked b) bit) + owed bit ids sk) by (intros bit; rewrite <- tagged_mul; by apply owed_cons).
  assert (Ho' : forall bit, owed bit ids sk2 = owed bit ids sk) by (intros bit; by apply owed_set).
  assert (PS : sacked_out (tp sk') = u32 (sacked_out (tp sk1) + if pay_S m then owed TCPCB_SACKED_ACKED ids sk2 else 0)) by reflexivity.
  assert (PR : retrans_out (tp sk') = u32 (retrans_out (tp sk1) + if pay_R m then owed TCPCB_SACKED_RETRANS ids sk2 else 0)) by reflexivity.
  assert (PL : lost_out (tp sk') = u32 (lost_out (tp sk1) + if pay_L m then owed TCPCB_LOST ids sk2 else 0)) by reflexivity.
  assert (Hq' : q_part sk' = q_part sk) by exact rt_part0. clearbody sk'.
  eapply (score_set (paid m (i :: ids) sk)); [done|exact Hb|done|apply buf_ok_tags; [exact (score_get _ _ _ Hs Hb)|by rewrite Hid|done]|done|exact Hq'|..];
    rewrite ?PS, ?PR, ?PL, !tagged_mul; change (sacked b') with tags; change (gso_segs b') with (gso_segs b); rewrite Ho', ?has_S, ?has_R, ?has_L.
  - rewrite (paid_counter _ _ _ _ _ _ _ rt_S0). change (sacked_out (tp (paid m (i :: ids) sk))) with (u32 (sacked_out (tp sk) + if pay_S m then owed TCPCB_SACKED_ACKED (i :: ids) sk else 0)). by rewrite Ho, has_S.
  - rewrite (paid_counter _ _ _ _ _ _ _ rt_L0). change (lost_out (tp (paid m (i :: ids) sk))) with (u32 (lost_out (tp sk) + if pay_L m then owed TCPCB_LOST (i :: ids) sk else 0)). by rewrite Ho, has_L.
  - rewrite (paid_counter _ _ _ _ _ _ _ rt_R0). change (retrans_out (tp (paid m (i :: ids) sk))) with (u32 (retrans_out (tp sk) + if pay_R m then owed TCPCB_SACKED_RETRANS (i :: ids) sk else 0)). by rewrite Ho, has_R.
Qed.
Lemma paid_done m ids sk : u32_counters sk -> (forall b, b ∈ sk_write_queue sk -> skb_id b ∈ ids -> untagged b) -> score (paid m ids sk) -> score sk.
Proof using Type.
  intros (U1 & U2 & U3) Hun Hs. assert (Hz : forall bit, (forall b, untagged b -> tagged bit b = 0) -> owed bit ids sk = 0).
  { intros bit Hbit. unfold owed. assert (E : sumZ (fun b => if decide (skb_id b ∈ ids) then tagged bit b else 0) (sk_write_queue sk) = sumZ (fun _ => 0) (sk_write_queue sk)).
    - apply sumZ_ext. apply Forall_forall. intros b Hb. destruct (decide (skb_id b ∈ ids)); [by apply Hbit, Hun|done].
    - rewrite E. clear. induction (sk_write_queue sk); cbn; lia. }
  assert (HS : owed TCPCB_SACKED_ACKED ids sk = 0) by (apply Hz; intros b (H & _ & _); unfold tagged; by rewrite H).
  assert (HR : owed TCPCB_SACKED_RETRANS ids sk = 0) by (apply Hz; intros b (_ & H & _); unfold tagged; by rewrite H).
  assert (HLo : owed TCPCB_LOST ids sk = 0) by (apply Hz; intros b (_ & _ & H); unfold tagged; by rewrite H).
  eapply score_ext; [|exact Hs]. unfold sb_part. change (q_part (paid m ids sk)) with (q_part sk).
  change (sacked_out (tp (paid m ids sk))) with (u32 (sacked_out (tp sk) + if pay_S m then owed TCPCB_SACKED_ACKED ids sk else 0)).
  change (lost_out (tp (paid m ids sk))) with (u32 (lost_out (tp sk) + if pay_L m then owed TCPCB_LOST ids sk else 0)).
  change (retrans_out (tp (paid m ids sk))) with (u32 (retrans_out (tp sk) + if pay_R m then owed TCPCB_SACKED_RETRANS ids sk else 0)).
  rewrite HS, HR, HLo. assert (E : forall (p : bool) c, is_u32 c -> u32 (c + if p then 0 else 0) = c) by (intros [] c Hc; rewrite Z.add_0_r; by apply u32_small).
  by rewrite !E.
Qed.
Lemma get_some sk i : i ∈ skb_id <$> sk_write_queue sk -> is_Some (wq_get sk i).
Proof using Type.
  unfold wq_get. intros H. destruct (List.find (fun b => Nat.eqb (skb_id b) i) (sk_write_queue sk)) eqn:E; [by eexists|]. exfalso.
  apply list_elem_of_fmap in H as (b & Hb & Hin). eapply List.find_none in E; [|by apply list_elem_of_In]. apply Nat.eqb_neq in E. congruence.
Qed.
Lemma unsent_split sk p i r : skb_id <$> sk_write_queue sk = p ++ i :: r -> (forall x, x ∈ p -> is_send_head sk x = false) -> is_send_head sk i = true -> unsent sk = i :: r.
Proof using Type.
  intros Hq Hp Hi. unfold unsent, is_send_head in *. apply bool_decide_eq_true in Hi. rewrite Hi, Hq in *. clear Hq. induction p as [|x p IH]; cbn; [by rewrite Nat.eqb_refl|].
  assert (x <> i) by (specialize (Hp x ltac:(apply elem_of_cons; by left)); apply bool_decide_eq_false in Hp; congruence).
  rewrite (proj2 (Nat.eqb_neq x i)) by done. apply IH. intros y Hy. apply Hp. apply elem_of_cons. by right.
Qed.

(** A walk whose steps retag one buffer each and pay for it leaves the invariant, with tags that
    satisfy [P] on every sent buffer. *)
Section Loop.
Context {A : Type} (f : sock -> A -> sk_buff -> sock * A) (m : pays) (P : Z -> Prop).
Hypothesis f_retags : forall sk a b, u32_counters sk -> wq_get sk (skb_id b) = Some b ->
  exists sk1 tags, fst (f sk a b) = wq_set sk1 (skb_id b) (b <| sacked := tags |>) /\ retags m sk b sk1 tags /\ P tags.

Lemma for_sent_paid ids : forall p sk a, u32_counters sk -> score (paid m ids sk) -> skb_id <$> sk_write_queue sk = p ++ ids ->
  (forall x, x ∈ p -> is_send_head sk x = false) -> (forall b, b ∈ sk_write_queue sk -> skb_id b ∈ p -> P (sacked b)) ->
  let sk' := fst (for_sent f ids sk a) in
  score sk' /\ same_ids sk sk' /\ (forall b, b ∈ sk_write_queue sk' -> skb_id b ∉ unsent sk' -> P (sacked b)).
Proof using f_retags TL.
  induction ids as [|i ids IH]; intros p sk a Hu Hs Hq Hp HP; cbn [for_sent].
  - cbn [fst]. split_and!; [eapply paid_done; [done| |exact Hs]; intros b _ Hb; by apply elem_of_nil in Hb|done|]. intros b Hb _. apply HP; [done|].
    rewrite app_nil_r in Hq. rewrite <- Hq. apply list_elem_of_fmap. by exists b.
  - assert (Hnd : NoDup (skb_id <$> sk_write_queue sk)) by exact (sc_nodup _ Hs).
    destruct (get_some sk i) as [b Hb]; [rewrite Hq; apply elem_of_app; right; apply elem_of_cons; by left|]. rewrite Hb.
    destruct (get_elem _ _ _ Hb) as [_ Hid]. destruct (is_send_head sk i) eqn:Hi.
    + cbn [fst]. pose proof (unsent_split sk p i ids Hq Hp Hi) as Eu. split_and!; [|done|].
      * eapply paid_done; [done| |exact Hs]. intros x Hx Hin. pose proof (sc_ok _ Hs) as Hok. rewrite Forall_forall in Hok. apply (Hok x Hx). change (skb_id x ∈ unsent sk). by rewrite Eu.
      * intros x Hx Hn. apply HP; [done|]. assert (Hin : skb_id x ∈ p ++ i :: ids) by (rewrite <- Hq; apply list_elem_of_fmap; by exists x).
        apply elem_of_app in Hin as [?|?]; [done|]. by rewrite Eu in Hn.
    + assert (Hin : i ∉ unsent sk) by (by eapply sent_prefix). rewrite Hq in Hnd. apply NoDup_app in Hnd as (Hndp & Hdis & Hnd). apply NoDup_cons in Hnd as [Hni _].
      rewrite <- Hid in Hb. destruct (f_retags sk a b Hu Hb) as (sk1 & tags & Ef & Hr & HPt). rewrite Hid in Ef, Hb. destruct (f sk a b) as [sk2 a2]. cbn [fst] in Ef. subst sk2.
      set (b' := b <| sacked := tags |>). assert (Hid' : skb_id b' = i) by exact Hid. pose proof (paid_step m sk i ids b sk1 tags Hs Hb Hin Hni Hr) as Hs2. fold b' in Hs2.
      assert (Hsame : same_ids sk (wq_set sk1 i b')) by (eapply same_ids_trans; [apply same_ids_part, Hr|by apply same_ids_set]). destruct Hsame as [E1 E2].
      destruct (IH (p ++ [i]) (wq_set sk1 i b') a2) as (R1 & R2 & R3).
      * destruct Hr. unfold u32_counters. cbn. rewrite rt_S0, rt_R0, rt_L0. auto with net.
      * done.
      * by rewrite E1, <- app_assoc.
      * intros x Hx. unfold is_send_head. rewrite E2. apply elem_of_app in Hx as [Hx|Hx]; [by apply Hp|]. apply list_elem_of_singleton in Hx as ->. exact Hi.
      * intros x Hx Hxp. cbn in Hx. apply list_elem_of_fmap in Hx as (y & -> & Hy). destruct Hr as [W _ _ _ _]. unfold q_part in W. injection W as W _ _ _. rewrite W in Hy.
        destruct (Nat.eqb_spec (skb_id y) i) as [He|He]; [exact HPt|]. apply HP; [done|]. apply elem_of_app in Hxp as [Hxp|Hxp]; [done|]. apply list_elem_of_singleton in Hxp. done.
      * split_and!; [exact R1|eapply same_ids_trans; [|exact R2]; by split|exact R3].
Qed.
Lemma for_queue_paid sk a : u32_counters sk -> score (paid m (skb_id <$> sk_write_queue sk) sk) ->
  let sk' := fst (tcp_for_write_queue f sk a) in
  score sk' /\ same_ids sk sk' /\ (forall b, b ∈ sk_write_queue sk' -> skb_id b ∉ unsent sk' -> P (sacked b)).
Proof using f_retags TL. intros Hu Hs. by apply (for_sent_paid _ []); [..|intros x Hx; by apply elem_of_nil in Hx|intros b _ Hb; by apply elem_of_nil in Hb]. Qed.
End Loop.
End Walk.

(** ** Entering the Loss state *)
Section Loss.
Context {K : Kernel} {TL : TagLaws K} {PL : PcountLaws K} {SM : SackModeLaws K} {CL : CongLaws K} {CS : CaStateLaws K} {HI : HintLaws K} {FL : FlightLaws K}.
Implicit Types (sk : sock) (b : sk_buff) (m : pays).

(** The walk starts after the counters it rebuilds were cleared. *)
Lemma paid_start m sk0 sk : score sk0 -> sk_write_queue sk = sk_write_queue sk0 -> sk_send_head sk = sk_send_head sk0 -> packets_out (tp sk) = packets_out (tp sk0) ->
  (forall n, at_sent sk0 (hints sk n)) ->
  sacked_out (tp sk) = (if pay_S m then 0 else sacked_out (tp sk0)) -> retrans_out (tp sk) = (if pay_R m then 0 else retrans_out (tp sk0)) ->
  lost_out (tp sk) = (if pay_L m then 0 else lost_out (tp sk0)) ->
  u32_counters sk /\ score (paid m (skb_id <$> sk_write_queue sk) sk).
Proof using Type.
  intros Hs Hq Hh Hp Hhints HS HR HLo. pose proof (score_u32 _ Hs) as (U1 & U2 & U3). assert (E0 : is_u32 0) by (unfold is_u32; lia).
  assert (Eu : unsent sk = unsent sk0) by (apply unsent_ext; congruence).
  split; [unfold u32_counters; rewrite HS, HR, HLo; by destruct m as [[] [] []]|].
  assert (Ho : forall bit, owed bit (skb_id <$> sk_write_queue sk) sk = sumZ (tagged bit) (sk_write_queue sk0)).
  { intros bit. unfold owed. rewrite Hq. apply sumZ_ext. apply Forall_forall. intros b Hb. rewrite decide_True; [done|]. apply list_elem_of_fmap. by exists b. }
  pose proof (score_tagged sk0 TCPCB_SACKED_ACKED ltac:(by left) Hs). pose proof (score_tagged sk0 TCPCB_SACKED_RETRANS ltac:(by right; left) Hs). pose proof (score_tagged sk0 TCPCB_LOST ltac:(by right; right) Hs).
  destruct Hs. unfold paid. rewrite !Ho.
  split; change (unsent _) with (unsent sk); cbn; rewrite ?Hq, ?Hp, ?Eu; try done.
  - rewrite HS. destruct (pay_S m); rewrite u32_small by (unfold is_u32 in *; lia); lia.
  - rewrite HLo. destruct (pay_L m); rewrite u32_small by (unfold is_u32 in *; lia); lia.
  - rewrite HR. destruct (pay_R m); rewrite u32_small by (unfold is_u32 in *; lia); lia.
  - intros n. eapply (at_sent_ext sk0); [done|done|]. apply Hhints.
Qed.

(** What a walk leaves alone. *)
Lemma for_sent_keeps {A B} (g : sock -> B) (f : sock -> A -> sk_buff -> sock * A) ids : (forall sk a b, g (fst (f sk a b)) = g sk) ->
  forall sk a, g (fst (for_sent f ids sk a)) = g sk.
Proof using Type.
  intros Hf. induction ids as [|i ids IH]; intros sk a; cbn [for_sent]; [done|]. destruct (wq_get sk i) as [b|]; [|done]. case_match; [done|].
  pose proof (Hf sk a b) as E. destruct (f sk a b) as [sk1 a1]. cbn [fst] in E. by rewrite IH.
Qed.

(** The tags of a sent buffer in the Loss state: LOST, or SACKED if the SACKs are kept. *)
Definition loss_tags (how : bool) (x : Z) : Prop :=
  Z.testbit x 1 = false /\ (Z.testbit x 2 = true /\ Z.testbit x 0 = false \/ how = false /\ Z.testbit x 0 = true /\ Z.testbit x 2 = false).
Definition loss_pays (how : bool) : pays := mk_pays how true true.

Lemma mask_bits x n : Z.testbit (Z.land x (Z.lor (Z.lnot TCPCB_TAGBITS) TCPCB_SACKED_ACKED)) n = Z.testbit x n && (Z.testbit (Z.lnot 7) n || Z.testbit 1 n).
Proof using TL. by rewrite Z.land_spec, Z.lor_spec, tag_tagbits, tag_sacked_acked. Qed.
Lemma mask_0 x : Z.testbit (Z.land x (Z.lor (Z.lnot TCPCB_TAGBITS) TCPCB_SACKED_ACKED)) 0 = Z.testbit x 0.
Proof using TL. rewrite mask_bits. apply andb_true_r. Qed.
Lemma mask_1 x : Z.testbit (Z.land x (Z.lor (Z.lnot TCPCB_TAGBITS) TCPCB_SACKED_ACKED)) 1 = false.
Proof using TL. rewrite mask_bits. apply andb_false_r. Qed.
Lemma mask_2 x : Z.testbit (Z.land x (Z.lor (Z.lnot TCPCB_TAGBITS) TCPCB_SACKED_ACKED)) 2 = false.
Proof using TL. rewrite mask_bits. apply andb_false_r. Qed.
Lemma u32_keep c g : is_u32 c -> c = u32 (c + g * 0).
Proof using Type. intros H. rewrite Z.mul_0_r, Z.add_0_r. symmetry. by apply u32_small. Qed.

Lemma loss_skb_retags how sk b : u32_counters sk -> exists sk1 tags, loss_skb how sk b = wq_set sk1 (skb_id b) (b <| sacked := tags |>) /\
  retags (loss_pays how) sk b sk1 tags /\ loss_tags how tags.
Proof using TL PL.
  intros (U1 & U2 & U3). unfold loss_skb. set (sk0 := if has (sacked b) TCPCB_RETRANS then _ else sk). set (t := Z.land (sacked b) _).
  assert (E0 : sb_part sk0 = sb_part sk) by (unfold sk0; by case_match). clearbody sk0. pose proof (sb_q_part _ _ E0) as Eq. unfold sb_part in E0. injection E0 as _ _ _ _ ES EL ER.
  pose proof (mask_0 (sacked b)) as B0. pose proof (mask_1 (sacked b)) as B1. pose proof (mask_2 (sacked b)) as B2. fold t in B0, B1, B2. clearbody t. rewrite has_S, B0.
  case_if_as Hc; do 2 eexists; (split; [reflexivity|]); split.
  - assert (X0 : Z.testbit (bset (bclr t TCPCB_SACKED_ACKED) TCPCB_LOST) 0 = false) by (by tag_bits).
    assert (X1 : Z.testbit (bset (bclr t TCPCB_SACKED_ACKED) TCPCB_LOST) 1 = false) by (by tag_bits).
    assert (X2 : Z.testbit (bset (bclr t TCPCB_SACKED_ACKED) TCPCB_LOST) 2 = true) by (by tag_bits).
    split; cbn [pay_S pay_R pay_L loss_pays]; rewrite ?X0, ?X1, ?X2; [exact Eq|done|..]; cbn; rewrite ?ES, ?ER, ?EL, ?pcount_spec.
    + destruct how; cbn; [by apply u32_keep|]. apply orb_true_iff in Hc as [Hc|]; [|done]. apply negb_true_iff in Hc. rewrite Hc. by apply u32_keep.
    + by apply u32_keep.
    + f_equal. lia.
  - unfold loss_tags. tag_bits. split; [done|]. left. done.
  - apply orb_false_iff in Hc as [Hc ->]. apply negb_false_iff in Hc. split; cbn [pay_S pay_R pay_L loss_pays]; rewrite ?B0, ?B1, ?B2, ?Hc; [exact Eq|done|..]; rewrite ?ES, ?ER, ?EL; by apply u32_keep.
  - apply orb_false_iff in Hc as [Hc ->]. apply negb_false_iff in Hc. rewrite <- B0 in Hc. unfold loss_tags. auto.
Qed.

Lemma ca_event_only sk e : exists sk', tcp_ca_event sk e = cong_only sk sk'.
Proof using CL. eexists. apply ca_event_spec. Qed.
Lemma reno_ext t t' : rx_opt t' = rx_opt t -> tcp_is_reno t' = tcp_is_reno t.
Proof using SM. intros E. by rewrite !tcp_is_reno_spec, !tcp_is_sack_spec, E. Qed.

(** The emulated SACKs of Reno have no tags: without them the counters are those of the tags. *)
Definition without_reno sk : sock := if tcp_is_reno (tp sk) then sk <| tp := tcp_reset_reno_sack (tp sk) |> else sk.

(** The socket before the walk. *)
Record loss_start sk (how : bool) sk1 : Prop := {
  ls_wq : sk_write_queue sk1 = sk_write_queue sk;
  ls_head : sk_send_head sk1 = sk_send_head sk;
  ls_packets : packets_out (tp sk1) = packets_out (tp sk);
  ls_hints n : hints sk1 n = match n with O => highest_sack (tp sk) | _ => None end;
  ls_sacked : sacked_out (tp sk1) = if how then 0 else sacked_out (tp (without_reno sk));
  ls_lost : lost_out (tp sk1) = 0;
  ls_retrans : retrans_out (tp sk1) = 0;
  ls_cwnd : snd_cwnd (tp sk1) = 1;
  ls_nxt : snd_nxt (tp sk1) = snd_nxt (tp sk);
  ls_fackets : how = true -> fackets_out (tp sk1) = 0;
}.
Lemma loss_prepare_start sk how : loss_start sk how (loss_prepare sk how).
Proof using SM CL HI.
  unfold loss_prepare. match goal with |- context [if ?c then tcp_ca_event ?s ?e else sk] => set (sk0 := if c then tcp_ca_event s e else sk) end.
  assert (E : (sk_write_queue sk0, sk_send_head sk0, packets_out (tp sk0), highest_sack (tp sk0), sacked_out (tp sk0), snd_nxt (tp sk0), rx_opt (tp sk0)) =
    (sk_write_queue sk, sk_send_head sk, packets_out (tp sk), highest_sack (tp sk), sacked_out (tp sk), snd_nxt (tp sk), rx_opt (tp sk))).
  { unfold sk0. case_match; [|done]. match goal with |- context [tcp_ca_event ?s ?e] => destruct (ca_event_only s e) as [sk' ->] end. done. }
  clearbody sk0. injection E as Eq Eh Ep Ehs Es En Ex. set (r := tcp_is_reno _). assert (Er : r = tcp_is_reno (tp sk)) by (by apply reno_ext). clearbody r. subst r.
  rewrite clear_all_spec, clear_partial_spec.
  destruct (tcp_is_reno (tp sk)) eqn:Hr, how; split; intros; cbn; try done; first [by destruct n as [|[|?]]|unfold without_reno; by rewrite Hr].
Qed.

Lemma loss_prepare_opt sk how : (rx_opt (tp (loss_prepare sk how)), snd_una (tp (loss_prepare sk how))) = (rx_opt (tp sk), snd_una (tp sk)).
Proof using CL HI.
  unfold loss_prepare. match goal with |- context [if ?c then tcp_ca_event ?s ?e else sk] => set (sk0 := if c then tcp_ca_event s e else sk) end.
  assert (E : (rx_opt (tp sk0), snd_una (tp sk0)) = (rx_opt (tp sk), snd_una (tp sk))).
  { unfold sk0. case_match; [|done]. match goal with |- context [tcp_ca_event ?s ?e] => destruct (ca_event_only s e) as [sk' ->] end. done. }
  clearbody sk0. rewrite clear_all_spec, clear_partial_spec, <- E. by cases_if.
Qed.
(** The walk of tcp_enter_loss. *)
Lemma loss_walk_ok sk how : score (without_reno sk) -> let sk' := tcp_for_sent (loss_skb how) (loss_prepare sk how) in
  score sk' /\ same_ids sk sk' /\ (forall b, b ∈ sk_write_queue sk' -> skb_id b ∉ unsent sk' -> loss_tags how (sacked b)) /\
  (packets_out (tp sk'), retrans_out (tp sk'), snd_cwnd (tp sk'), snd_nxt (tp sk')) = (packets_out (tp sk), 0, 1, snd_nxt (tp sk)) /\
  (how = true -> sacked_out (tp sk') = 0 /\ fackets_out (tp sk') = 0).
Proof using TL PL SM CL HI.
  intros Hs. pose proof (loss_prepare_start sk how) as []. set (sk1 := loss_prepare sk how) in *. clearbody sk1.
  assert (Ew : sk_write_queue (without_reno sk) = sk_write_queue sk /\ sk_send_head (without_reno sk) = sk_send_head sk /\ packets_out (tp (without_reno sk)) = packets_out (tp sk)
               /\ hints (without_reno sk) 0 = highest_sack (tp sk)) by (unfold without_reno; by destruct (tcp_is_reno (tp sk))).
  destruct Ew as (W1 & W2 & W3 & W4).
  destruct (paid_start (loss_pays how) (without_reno sk) sk1 Hs) as [Hu Hp]; [by rewrite W1|by rewrite W2|by rewrite W3| |done|done|done|].
  { intros n. rewrite ls_hints0. destruct n as [|n]; [|apply at_sent_none]. rewrite <- W4. apply (sc_hints _ Hs). }
  set (f := fun (sk : sock) (_ : unit) (skb : sk_buff) => (loss_skb how sk skb, ())).
  destruct (for_queue_paid f (loss_pays how) (loss_tags how)) with (sk := sk1) (a := ()) as (R1 & R2 & R3); [|done|done|].
  { intros s a b Hs' Hb. by apply loss_skb_retags. }
  change (tcp_for_sent (loss_skb how) sk1) with (fst (tcp_for_write_queue f sk1 ())). cbn zeta. split_and!; [done| |done| |].
  - eapply same_ids_trans; [|exact R2]. split; congruence.
  - unfold tcp_for_write_queue. rewrite (for_sent_keeps (A := unit) (fun s : sock => (packets_out (tp s), retrans_out (tp s), snd_cwnd (tp s), snd_nxt (tp s)))); [congruence|].
    intros s [] b. cbn. unfold loss_skb. by cases_if.
  - intros ->. assert (E : (sacked_out (tp (fst (tcp_for_write_queue f sk1 ()))), fackets_out (tp (fst (tcp_for_write_queue f sk1 ())))) = (sacked_out (tp sk1), fackets_out (tp sk1))).
    { unfold tcp_for_write_queue. apply (for_sent_keeps (A := unit) (fun s : sock => (sacked_out (tp s), fackets_out (tp s)))). intros s a b. cbn. unfold loss_skb. by cases_if. }
    injection E as -> ->. by rewrite ls_sacked0, ls_fackets0.
Qed.

Lemma queue_cwr_part sk : sb_part (sk <| tp := TCP_ECN_queue_cwr (tp sk) |>) = sb_part sk.
Proof using Type. unfold TCP_ECN_queue_cwr. by case_match. Qed.

(** The packets that packets_out has too many, after the 16 bit count of a buffer wrapped around. *)
Definition surplus sk : Z := packets_out (tp sk) - sumZ (sent_segs (unsent sk)) (sk_write_queue sk).
(** Every sent buffer is either SACKED or LOST: only retransmissions are in flight. *)
Definition frto_tags (x : Z) : Prop := Z.testbit x 2 = negb (Z.testbit x 0).
Lemma loss_frto_tags how x : loss_tags how x -> frto_tags x.
Proof using Type. unfold frto_tags. by intros (_ & [[-> ->]|(_ & -> & ->)]). Qed.
Lemma only_retrans_in_flight sk : score sk -> (forall b, b ∈ sk_write_queue sk -> skb_id b ∉ unsent sk -> frto_tags (sacked b)) ->
  surplus sk = 0 -> tcp_packets_in_flight (tp sk) = retrans_out (tp sk).
Proof using TL FL.
  intros Hs Ht Hsu. pose proof (score_le _ Hs). destruct Hs as [sc_sacked sc_lost _ sc_packets sc_ok _ _ _]. rewrite in_flight_spec.
  assert (E : sumZ (sent_segs (unsent sk)) (sk_write_queue sk) = sumZ (tagged TCPCB_SACKED_ACKED) (sk_write_queue sk) + sumZ (tagged TCPCB_LOST) (sk_write_queue sk)).
  { revert sc_ok Ht. generalize (unsent sk) as u. clear - TL. intros u Hok Ht. induction Hok as [|b q Hb Hok IH]; cbn; [done|]. rewrite IH by (intros; apply Ht; [apply elem_of_cons; by right|done]).
    assert (sent_segs u b = tagged TCPCB_SACKED_ACKED b + tagged TCPCB_LOST b); [|lia]. unfold sent_segs, tagged. rewrite has_S, has_L. case_decide as Hd.
    - destruct (bo_unsent _ _ Hb Hd) as (H1 & _ & H3). rewrite has_S in H1. rewrite has_L in H3. rewrite H1, H3. lia.
    - rewrite (Ht b); [destruct (Z.testbit (sacked b) 0); cbn; lia|apply elem_of_cons; by left|done]. }
  unfold surplus in Hsu. rewrite u32_small; [|unfold is_u32]; lia.
Qed.

(** A retransmission timeout (tcp_enter_loss): the connection is in the Loss state with a window
    of one segment, every sent buffer is tagged LOST, or keeps its SACKED tag if the SACKs are
    trusted, the counters agree with the tags again, whether they come from SACK or from the
    emulation of Reno, nothing counts as in flight
    (but for packets that the 16 bit count of a buffer lost), and the episode ends when all that was
    sent is acknowledged. *)
Theorem enter_loss_ok sk how : score (without_reno sk) -> let sk' := tcp_enter_loss sk how in
  score sk' /\ unsent sk' = unsent sk /\
  (forall b, b ∈ sk_write_queue sk' -> skb_id b ∉ unsent sk' -> loss_tags how (sacked b)) /\
  retrans_out (tp sk') = 0 /\ (surplus sk' = 0 -> tcp_packets_in_flight (tp sk') = 0) /\ snd_cwnd (tp sk') = 1 /\ frto_counter (tp sk') = 0 /\
  icsk_ca_state (icsk sk') = TCP_CA_Loss /\ high_seq (tp sk') = snd_nxt (tp sk) /\ (how = true -> sacked_out (tp sk') = 0).
Proof using TL PL SM CL CS HI FL.
  intros Hs. unfold tcp_enter_loss. destruct (loss_walk_ok sk how Hs) as (R1 & R2 & R3 & [= R4 R5 R6 R7] & R8). set (sk1 := tcp_for_sent _ _) in *. clearbody sk1. rewrite set_ca_state_spec. cbn zeta.
  unfold TCP_ECN_queue_cwr. case_match; (split_and!; [by apply (score_ext sk1)|by apply same_ids_unsent|exact R3|exact R5| |exact R6|done|done|exact R7|intros Hh; by destruct (R8 Hh)]);
    (intros Hsu; rewrite only_retrans_in_flight; [exact R5|by apply (score_ext sk1)|intros b Hb Hn; eapply loss_frto_tags, R3; [exact Hb|exact Hn]|exact Hsu]).
Qed.

(** ** F-RTO *)

Definition frto_pays : pays := mk_pays false true true.
Lemma frto_loss_skb_retags sk flag b : u32_counters sk -> exists sk1 tags, fst (frto_loss_skb sk flag b) = wq_set sk1 (skb_id b) (b <| sacked := tags |>) /\
  retags frto_pays sk b sk1 tags /\ frto_tags tags.
Proof using TL PL.
  intros (U1 & U2 & U3). unfold frto_loss_skb.
  match goal with |- context [if ?c then (?u, ?v, ?w) else ?z] => destruct (if c then (u, v, w) else z) as [[sk0 t] flag'] eqn:Ex end.
  assert (H : q_part sk0 = q_part sk /\ sacked_out (tp sk0) = sacked_out (tp sk) /\ lost_out (tp sk0) = lost_out (tp sk) /\
    Z.testbit t 0 = Z.testbit (sacked b) 0 /\ Z.testbit t 2 = false /\ retrans_out (tp sk0) = u32 (retrans_out (tp sk) + gso_segs b * b2z (Z.testbit t 1))).
  { match type of Ex with (if ?c then _ else _) = _ => destruct c eqn:Hc end.
    - injection Ex as <- <- _. rewrite has_R. assert (E1 : Z.testbit (bclr (sacked b) TCPCB_LOST) 1 = Z.testbit (sacked b) 1) by (by tag_bits).
      assert (E0 : Z.testbit (bclr (sacked b) TCPCB_LOST) 0 = Z.testbit (sacked b) 0) by (by tag_bits). assert (E2 : Z.testbit (bclr (sacked b) TCPCB_LOST) 2 = false) by (by tag_bits).
      rewrite E0, E1, E2. destruct (Z.testbit (sacked b) 1); (split_and!; [done..|]); cbn; [rewrite pcount_spec; f_equal; lia|by apply u32_keep].
    - injection Ex as <- <- _. set (t := bclr (bclr _ _) _). assert (E1 : Z.testbit t 1 = false) by (unfold t; by tag_bits).
      assert (E0 : Z.testbit t 0 = Z.testbit (sacked b) 0) by (unfold t; by tag_bits). assert (E2 : Z.testbit t 2 = false) by (unfold t; by tag_bits).
      rewrite E0, E1, E2. case_match; (split_and!; [done..|by apply u32_keep]). }
  clear Ex. destruct H as (Hq & HS & HLo & T0 & T2 & HR). rewrite has_S, T0.
  destruct (Z.testbit (sacked b) 0) eqn:Hb; cbn [negb fst]; do 2 eexists; (split; [reflexivity|]); split.
  - split; cbn [pay_S pay_R pay_L frto_pays]; rewrite ?T0, ?T2, ?Hb; [exact Hq|done| |rewrite HR; f_equal; lia|]; rewrite ?HS, ?HLo; by apply u32_keep.
  - unfold frto_tags. by rewrite T0, T2.
  - assert (X0 : Z.testbit (bset t TCPCB_LOST) 0 = false) by (tag_bits; by rewrite T0). assert (X1 : Z.testbit (bset t TCPCB_LOST) 1 = Z.testbit t 1) by (by tag_bits).
    assert (X2 : Z.testbit (bset t TCPCB_LOST) 2 = true) by (by tag_bits).
    split; cbn [pay_S pay_R pay_L frto_pays]; rewrite ?X0, ?X1, ?X2, ?Hb; [exact Hq|done|..]; cbn; rewrite ?HS, ?HLo, ?HR, ?pcount_spec; [by apply u32_keep|f_equal; lia|f_equal; lia].
  - unfold frto_tags. tag_bits. rewrite T0. done.
Qed.
Lemma frto_walk_ok sk flag : score sk -> let sk1 := sk <| tp; lost_out := 0 |> <| tp; retrans_out := 0 |> in
  let sk' := fst (tcp_for_write_queue frto_loss_skb sk1 flag) in
  score sk' /\ same_ids sk sk' /\ (forall b, b ∈ sk_write_queue sk' -> skb_id b ∉ unsent sk' -> frto_tags (sacked b)) /\ (snd_nxt (tp sk'), rx_opt (tp sk'), snd_una (tp sk')) = (snd_nxt (tp sk), rx_opt (tp sk), snd_una (tp sk)).
Proof using TL PL.
  intros Hs sk1. destruct (paid_start frto_pays sk sk1 Hs) as [Hu Hp]; try done; [exact (sc_hints _ Hs)|].
  destruct (for_queue_paid frto_loss_skb frto_pays frto_tags) with (sk := sk1) (a := flag) as (R1 & R2 & R3); [intros s a b Hu' _; by apply frto_loss_skb_retags|done|done|].
  cbn zeta. split_and!; [done|exact R2|done|]. unfold tcp_for_write_queue. rewrite (for_sent_keeps (A := Z) (fun s : sock => (snd_nxt (tp s), rx_opt (tp s), snd_una (tp s)))); [done|].
  intros s a b. unfold frto_loss_skb. by cases_if.
Qed.

Lemma enter_frto_loss_facts sk allowed flag : score (without_reno sk) -> let sk' := tcp_enter_frto_loss sk allowed flag in
  kept sk sk' /\ same_ids sk sk' /\ rx_opt (tp sk') = rx_opt (tp sk) /\ snd_una (tp sk') = snd_una (tp sk) /\
  (forall b, b ∈ sk_write_queue sk' -> skb_id b ∉ unsent sk' -> frto_tags (sacked b)) /\
  (surplus sk' = 0 -> tcp_packets_in_flight (tp sk') = retrans_out (tp sk')) /\ snd_cwnd (tp sk') = u32 (tcp_packets_in_flight (tp sk') + allowed) /\
  frto_counter (tp sk') = 0 /\ icsk_ca_state (icsk sk') = TCP_CA_Loss /\ high_seq (tp sk') = snd_nxt (tp sk).
Proof using TL PL SM CS HI FL.
  intros Hs. unfold tcp_enter_frto_loss.
  match goal with |- context [if tcp_is_reno ?t then ?a else ?b] => assert (E : (if tcp_is_reno t then a else b) = (without_reno sk) <| tp; lost_out := 0 |> <| tp; retrans_out := 0 |>);
    [unfold without_reno; rewrite (reno_ext (tp sk)) by done; by case_match|rewrite E; clear E] end.
  pose proof (frto_walk_ok (without_reno sk) flag Hs) as H. cbn zeta in H. destruct (tcp_for_write_queue frto_loss_skb _ flag) as [sk1 ?]. cbn [fst] in H. destruct H as (R1 & R2 & R3 & [= R4 R5 R6]).
  rewrite set_ca_state_spec, clear_all_spec, clear_partial_spec. cbn zeta.
  assert (Hn : snd_nxt (tp (without_reno sk)) = snd_nxt (tp sk)) by (unfold without_reno; by case_match).
  assert (Ho : rx_opt (tp (without_reno sk)) = rx_opt (tp sk) /\ snd_una (tp (without_reno sk)) = snd_una (tp sk)) by (unfold without_reno; by case_match). destruct Ho as [Ho1 Ho2].
  assert (Hw : same_ids sk (without_reno sk)) by (unfold without_reno; by case_match).
  match goal with |- kept _ ?s /\ _ => set (sk' := s) end.
  assert (Hp : score sk' /\ unsent sk' = unsent sk1 /\ sk_write_queue sk' = sk_write_queue sk1 /\ 
    packets_out (tp sk') = packets_out (tp sk1) /\ sacked_out (tp sk') = sacked_out (tp sk1) /\ lost_out (tp sk') = lost_out (tp sk1) /\ retrans_out (tp sk') = retrans_out (tp sk1)).
  { unfold sk', TCP_ECN_queue_cwr. case_match; (split_and!; [|done..]); (eapply score_hints; [exact R1|done|done|done|]); intros [|[|n]]; try exact (at_sent_none _); exact (sc_hints _ R1 0%nat). }
  destruct Hp as (P1 & P2 & P3 & P4 & P5 & P6 & P7). pose proof (same_ids_trans _ _ _ Hw R2) as Hsame. rewrite P2, P3. split; [|split; [exact Hsame|split; [|split; [|split; [done|]]]]].
  - split; [done|]. split; [by rewrite P2, (same_ids_unsent _ _ Hsame)|]. transitivity (sk_send_head sk1); [done|apply Hsame].
  - rewrite <- Ho1, <- R5. unfold sk', TCP_ECN_queue_cwr. by case_match.
  - rewrite <- Ho2, <- R6. unfold sk', TCP_ECN_queue_cwr. by case_match.
  - split_and!.
    + intros Hsu. apply only_retrans_in_flight; [done|by rewrite P2, P3|done].
    + rewrite in_flight_spec, P4, P5, P6, P7, <- in_flight_spec. unfold sk', TCP_ECN_queue_cwr. by case_match.
    + unfold sk', TCP_ECN_queue_cwr. by case_match.
    + done.
    + rewrite <- Hn, <- R4. unfold sk', TCP_ECN_queue_cwr. by case_match.
Qed.
(** The F-RTO algorithm takes the timeout for genuine (tcp_enter_frto_loss): every sent buffer is
    LOST unless it is SACKED, the counters agree with the tags, only retransmissions are in
    flight, and the connection is in the Loss state until all that was sent is acknowledged. *)
Theorem enter_frto_loss_ok sk allowed flag : score (without_reno sk) -> let sk' := tcp_enter_frto_loss sk allowed flag in
  score sk' /\ unsent sk' = unsent sk /\
  (forall b, b ∈ sk_write_queue sk' -> skb_id b ∉ unsent sk' -> frto_tags (sacked b)) /\
  (surplus sk' = 0 -> tcp_packets_in_flight (tp sk') = retrans_out (tp sk')) /\ snd_cwnd (tp sk') = u32 (tcp_packets_in_flight (tp sk') + allowed) /\
  frto_counter (tp sk') = 0 /\ icsk_ca_state (icsk sk') = TCP_CA_Loss /\ high_seq (tp sk') = snd_nxt (tp sk).
Proof using TL PL SM CS HI FL. intros Hs. destruct (enter_frto_loss_facts sk allowed flag Hs) as ((H1 & H2 & _) & _ & _ & _ & H3). done. Qed.
End Loss.

(** ** Marking *)
Section Marking.
Context {K : Kernel} {TL : TagLaws K} {PL : PcountLaws K} {CL : CongLaws K} {CS : CaStateLaws K} {FL : FlightLaws K} {FR : FragLaws}.
Implicit Types (sk : sock) (b : sk_buff).

Lemma kept_lost_hint sk h n : score sk -> at_sent sk h -> kept sk (sk <| tp; lost_skb_hint := h |> <| tp; lost_cnt_hint := n |>).
Proof using Type. intros Hs Hh. eapply (kept_trans _ (sk <| tp; lost_skb_hint := h |>)); [split; [by apply score_lost_hint|done]|by apply kept_part; [apply score_lost_hint|]]. Qed.
Lemma kept_mark_lost sk b : score sk -> wq_get sk (skb_id b) = Some b -> skb_id b ∉ unsent sk -> kept sk (tcp_skb_mark_lost sk b) /\ at_sent (tcp_skb_mark_lost sk b) (tcp_write_queue_next (tcp_skb_mark_lost sk b) (skb_id b)).
Proof using TL PL.
  intros Hs Hb Hi. destruct (mark_lost_score sk b Hs Hb Hi) as [H1 H2]. pose proof (same_kept _ _ H1 H2) as Hk. split; [done|]. apply at_sent_next; [apply H1|]. by rewrite (same_ids_unsent _ _ H2).
Qed.
Lemma queue_end_sent sk : score sk -> at_sent sk (Some QUEUE_END).
Proof using Type.
  intros Hs i [= <-]. left. intros Hin. apply (sc_end _ Hs). unfold unsent in Hin. destruct (sk_send_head sk); [|by apply elem_of_nil in Hin]. by eapply from_id_sub.
Qed.

Lemma timeout_loop_kept fuel : forall cur sk, score sk -> at_sent sk cur -> let '(cur', sk') := timeout_loop fuel cur sk in kept sk sk' /\ at_sent sk' cur'.
Proof using TL PL.
  induction fuel as [|fuel IH]; intros cur sk Hs Hc; pose proof (kept_refl sk Hs) as Hk; cbn [timeout_loop]; [done|]. destruct (cur ≫= wq_get sk) as [b|] eqn:Hb; [|done].
  apply tcp_for_id in Hb as [-> Hb]. case_if_as H1; [done|]. case_if_as H2; [done|]. destruct (Hc _ eq_refl) as [Hi|]; [|congruence]. destruct (kept_mark_lost sk b Hs Hb Hi) as [K1 K2].
  pose proof (IH _ _ (proj1 K1) K2) as H. destruct (timeout_loop _ _ _) as [cur' sk']. destruct H. split; [by eapply kept_trans|done].
Qed.
Lemma timeout_skbs_kept sk : score sk -> kept sk (tcp_timeout_skbs sk).
Proof using TL PL.
  intros Hs. unfold tcp_timeout_skbs. case_if_as H1; [by apply kept_refl|].
  set (cur := match scoreboard_skb_hint (tp sk) with Some h => Some h | None => tcp_write_queue_head sk end).
  assert (Hc : at_sent sk cur) by (unfold cur; pose proof (sc_hints _ Hs 2%nat) as Hh; cbn in Hh; destruct (scoreboard_skb_hint (tp sk)); [exact Hh|apply at_sent_head, Hs]).
  pose proof (timeout_loop_kept (length (sk_write_queue sk)) cur sk Hs Hc) as H. destruct (timeout_loop _ _ _) as [cur' sk']. destruct H as [Hk Hc']. eapply kept_trans; [exact Hk|].
  split; [|done]. apply score_board_hint; [apply Hk|]. destruct cur'; [done|apply queue_end_sent, Hk].
Qed.

Lemma head_lost_loop_kept fuel : forall cur sk cnt packets one, score sk -> at_sent sk cur -> kept sk (head_lost_loop fuel cur sk cnt packets one).
Proof using TL PL FR.
  induction fuel as [|fuel IH]; intros cur sk cnt packets one Hs Hc; pose proof (kept_refl sk Hs) as Hk; cbn [head_lost_loop]; [done|]. destruct (cur ≫= wq_get sk) as [b|] eqn:Hb; [|done].
  apply tcp_for_id in Hb as [-> Hb]. cbn zeta. case_if_as H1; [done|]. destruct (Hc _ eq_refl) as [Hi|]; [|congruence].
  pose proof (kept_lost_hint sk (Some (skb_id b)) cnt Hs Hc) as Hk1. set (sk1 := sk <| tp; lost_skb_hint := _ |> <| tp; lost_cnt_hint := _ |>) in *.
  assert (Hb1 : wq_get sk1 (skb_id b) = Some b) by exact Hb. assert (Hi1 : skb_id b ∉ unsent sk1) by exact Hi. eapply kept_trans; [exact Hk1|]. destruct Hk1 as [Hs1 _]. clearbody sk1. clear Hb Hi Hk Hs Hc.
  pose proof (kept_refl sk1 Hs1) as Hk. case_if_as H2; [done|].
  assert (Hgo : forall sk2 b2 n, kept sk1 sk2 -> wq_get sk2 (skb_id b) = Some b2 -> skb_id b2 = skb_id b ->
    kept sk1 (if one then tcp_skb_mark_lost sk2 b2 else head_lost_loop fuel (tcp_write_queue_next (tcp_skb_mark_lost sk2 b2) (skb_id b)) (tcp_skb_mark_lost sk2 b2) n packets one)).
  { intros sk2 b2 n Hk2 Hb2 Hid. destruct (kept_mark_lost sk2 b2) as [K1 K2]; [apply Hk2|by rewrite Hid|rewrite Hid; destruct Hk2 as (_ & -> & _); exact Hi1|]. rewrite Hid in K2.
    eapply kept_trans; [exact Hk2|]. destruct one; [done|]. eapply kept_trans; [exact K1|]. apply IH; [apply K1|exact K2]. }
  case_if_as H3; [|by apply Hgo]. case_if_as H4; [done|].
  match goal with |- context [tcp_fragment sk1 _ ?n ?m] => destruct (fragment_kept sk1 (skb_id b) n m Hs1 ltac:(by eexists) Hi1) as [Hk2 F4]; specialize (F4 (skb_id b) ltac:(by eexists)) end.
  destruct (tcp_fragment _ _ _ _) as [err sk2]. cbn [snd] in *. case_if_as H5; [done|]. destruct (get_default sk1 sk2 _ _ Hb1 F4) as [G1 G2]. by apply Hgo.
Qed.
Lemma mark_head_lost_kept sk packets one : score sk -> kept sk (tcp_mark_head_lost sk packets one).
Proof using TL PL FR.
  intros Hs. unfold tcp_mark_head_lost. pose proof (sc_hints _ Hs 1%nat) as Hh. cbn in Hh. destruct (lost_skb_hint (tp sk)).
  - case_if_as H; [by apply kept_refl|by apply head_lost_loop_kept].
  - apply head_lost_loop_kept; [done|]. apply at_sent_head, Hs.
Qed.
Lemma update_scoreboard_kept sk fast : score sk -> kept sk (tcp_update_scoreboard sk fast).
Proof using TL PL FR.
  intros Hs. unfold tcp_update_scoreboard. cbn zeta. match goal with |- kept sk (tcp_timeout_skbs ?s) => assert (Hk : kept sk s) end.
  - cases_if; by first [apply mark_head_lost_kept|apply kept_refl].
  - eapply kept_trans; [exact Hk|]. apply timeout_skbs_kept, Hk.
Qed.

Lemma enter_cwr_part sk s : sb_part (tcp_enter_cwr sk s) = sb_part sk.
Proof using CS. unfold tcp_enter_cwr, TCP_ECN_queue_cwr. cbn zeta. case_if_as H1; [|done]. rewrite set_ca_state_spec. by cases_if. Qed.
Lemma send_head_unsent sk i : is_send_head sk i = true -> i ∈ skb_id <$> sk_write_queue sk -> i ∈ unsent sk.
Proof using Type.
  unfold is_send_head, unsent. intros H Hin. apply bool_decide_eq_true in H. rewrite H. clear H. induction (skb_id <$> sk_write_queue sk) as [|x l IH]; [done|]. cbn.
  destruct (Nat.eqb_spec x i) as [->|Hne]; [apply elem_of_cons; by left|]. apply elem_of_cons in Hin as [Hin|Hin]; [congruence|by apply IH].
Qed.
Lemma tagged_sent sk b : score sk -> b ∈ sk_write_queue sk -> ~ untagged b -> skb_id b ∉ unsent sk.
Proof using Type. intros Hs Hb Hu Hin. apply Hu. pose proof (sc_ok _ Hs) as Hok. rewrite Forall_forall in Hok. by apply (Hok b Hb). Qed.
Lemma frto_head_kept sk : score sk -> kept sk (frto_head sk).
Proof using TL PL.
  intros Hs. unfold frto_head. destruct (sk_write_queue sk) as [|b q] eqn:Hq; [by apply kept_refl|]. cbn [head]. set (sk1 := if has (sacked b) TCPCB_RETRANS then _ else sk).
  assert (Hk : kept sk sk1) by (apply kept_part; [done|]; unfold sk1; by case_match). assert (Hq1 : sk_write_queue sk1 = b :: q) by (unfold sk1; by case_match). clearbody sk1.
  case_if_as Hr; [|done]. eapply kept_trans; [exact Hk|]. destruct Hk as [Hs1 _]. assert (Hb : wq_get sk1 (skb_id b) = Some b) by (unfold wq_get; rewrite Hq1; cbn; by rewrite Nat.eqb_refl).
  assert (Hi : skb_id b ∉ unsent sk1) by (apply tagged_sent; [done|by destruct (get_elem _ _ _ Hb)|]; intros (_ & H & _); congruence).
  pose proof (clear_retrans_score sk1 _ b Hs1 Hb Hi Hr) as H. cbn zeta in H. rewrite pcount_spec in *. apply same_kept; [exact H|]. by apply (same_ids_set sk1).
Qed.
Lemma frto_head_rest sk : snd_nxt (tp (frto_head sk)) = snd_nxt (tp sk) /\ (forall b, head (sk_write_queue (frto_head sk)) = Some b -> has (sacked b) TCPCB_SACKED_RETRANS = false).
Proof using TL.
  unfold frto_head. destruct (sk_write_queue sk) as [|b q] eqn:Hq; cbn [head]; [rewrite Hq; done|]. set (sk1 := if has (sacked b) TCPCB_RETRANS then _ else sk).
  assert (E : snd_nxt (tp sk1) = snd_nxt (tp sk) /\ sk_write_queue sk1 = b :: q) by (unfold sk1; by case_match). clearbody sk1. destruct E as [E1 E2]. case_if_as Hr; (split; [exact E1|]).
  - intros b'. cbn. rewrite E2. cbn. rewrite Nat.eqb_refl. intros [= <-]. cbn. by tag_bits.
  - rewrite E2. by intros b' [= <-].
Qed.
Lemma frto_ssthresh_part sk : sb_part (frto_ssthresh sk) = sb_part sk /\ snd_nxt (tp (frto_ssthresh sk)) = snd_nxt (tp sk).
Proof using CL.
  unfold frto_ssthresh. cbn zeta. case_if_as H; [|done]. match goal with |- context [tcp_ca_event ?s ?e] => destruct (ca_event_only s e) as [sk' ->] end. by case_match.
Qed.
(** The first step of F-RTO after a timeout (tcp_enter_frto): the scoreboard stays consistent although the head
    loses its retransmission tag, the congestion window lets at most one more segment out, and
    the connection waits in Disorder for the ACKs that tell a spurious timeout. *)
Theorem enter_frto_ok sk : score sk -> let sk' := tcp_enter_frto sk in
  kept sk sk' /\ icsk_ca_state (icsk sk') = TCP_CA_Disorder /\ frto_counter (tp sk') = 1 /\ high_seq (tp sk') = snd_nxt (tp sk) /\
  snd_cwnd (tp sk') <= u32 (tcp_packets_in_flight (tp sk') + 1) /\
  (forall b, head (sk_write_queue sk') = Some b -> has (sacked b) TCPCB_SACKED_RETRANS = false).
Proof using TL PL CL CS FL.
  intros Hs. unfold tcp_enter_frto. destruct (frto_ssthresh_part sk) as [E En]. set (sk0 := frto_ssthresh sk) in *. clearbody sk0. cbn zeta.
  pose proof (kept_part sk sk0 Hs E) as K0.
  set (sk1 := sk0 <| tp; undo_marker := _ |> <| tp; undo_retrans := _ |>). assert (K1 : kept sk0 sk1) by (apply kept_part; [apply K0|done]).
  pose proof (frto_head_kept sk1 (proj1 K1)) as K2. destruct (frto_head_rest sk1) as [En2 Ht]. change (snd_nxt (tp sk1)) with (snd_nxt (tp sk0)) in En2. set (sk2 := frto_head sk1) in *. clearbody sk2.
  rewrite !set_ca_state_spec. case_match; (split_and!; [|done|done|by rewrite <- En, <- En2|rewrite !in_flight_spec; apply Z.le_min_r|exact Ht]);
    (eapply kept_trans; [exact K0|eapply kept_trans; [exact K1|eapply kept_trans; [exact K2|apply kept_part; [apply K2|done]]]]).
Qed.

(** ** Reno *)
Definition reno_holes (t : tcp_sock) : Z := Z.min (Z.max (lost_out t) 1) (packets_out t).
Lemma check_reno_spec sk n : is_u32 (packets_out (tp sk)) -> is_u32 (sacked_out (tp sk)) -> 0 <= lost_out (tp sk) -> sacked_out (tp sk) + packets_out (tp sk) < 2 ^ 32 ->
  let sk' := tcp_check_reno_reordering sk n in
  sacked_out (tp sk') = Z.min (sacked_out (tp sk)) (packets_out (tp sk) - reno_holes (tp sk)) /\ packets_out (tp sk') = packets_out (tp sk) /\ lost_out (tp sk') = lost_out (tp sk) /\ retrans_out (tp sk') = retrans_out (tp sk).
Proof using Type.
  intros Hp Hsk Hl Hb. unfold tcp_check_reno_reordering, tcp_limit_reno_sacked. fold (reno_holes (tp sk)).
  assert (Hh : 0 <= reno_holes (tp sk) <= packets_out (tp sk)) by (unfold reno_holes, is_u32 in *; lia).
  assert (Hu : forall s m, let s' := tcp_update_reordering s m in sacked_out (tp s') = sacked_out (tp s) /\ packets_out (tp s') = packets_out (tp s) /\ lost_out (tp s') = lost_out (tp s) /\ retrans_out (tp s') = retrans_out (tp s))
    by (intros s m; unfold tcp_update_reordering, tcp_disable_fack; cbn zeta; by cases_if).
  case_if_as Hc; cbn zeta.
  - match goal with |- context [tcp_update_reordering ?s ?m] => destruct (Hu s m) as (-> & -> & -> & ->) end. cbn. split_and!; try done. rewrite u32_small in Hc by (unfold is_u32 in *; lia). bool_arith. rewrite u32_small by (unfold is_u32 in *; lia). lia.
  - rewrite u32_small in Hc by (unfold is_u32 in *; lia). cbn. split_and!; try done. lia.
Qed.
(** Duplicate ACKs of a peer without SACK are counted as packets that left the network, but never so
    many that the holes the sender knows of would not fit into what was sent: after every
    duplicate ACK and every advance the packets in flight are counted without wrap-around. *)
Theorem reno_sacks_fit sk acked : is_u32 (packets_out (tp sk)) -> is_u32 (sacked_out (tp sk)) -> 0 <= lost_out (tp sk) <= packets_out (tp sk) -> 0 <= retrans_out (tp sk) ->
  0 <= acked -> sacked_out (tp sk) + 1 + packets_out (tp sk) + retrans_out (tp sk) < 2 ^ 32 ->
  forall sk', sk' = tcp_add_reno_sack sk \/ sk' = tcp_remove_reno_sacks sk acked ->
  let t := tp sk' in
  0 <= sacked_out t /\ sacked_out t + reno_holes t <= packets_out t /\ tcp_packets_in_flight t = packets_out t - (sacked_out t + lost_out t) + retrans_out t.
Proof using FL.
  intros Hp Hs Hl Hr Ha Hb sk' Hop. assert (Hc : exists sk1 n, sk' = tcp_check_reno_reordering sk1 n /\ is_u32 (sacked_out (tp sk1)) /\ sacked_out (tp sk1) <= sacked_out (tp sk) + 1 /\
    packets_out (tp sk1) = packets_out (tp sk) /\ lost_out (tp sk1) = lost_out (tp sk) /\ retrans_out (tp sk1) = retrans_out (tp sk)).
  { destruct Hop as [->| ->].
    - do 2 eexists. split; [reflexivity|]. cbn. unfold is_u32 in *. rewrite u32_small by (unfold is_u32; lia). split_and!; try done; lia.
    - unfold tcp_remove_reno_sacks. do 2 eexists. split; [reflexivity|]. cases_if; bool_arith; cbn; unfold is_u32 in *; split_and!; try done; try lia.
      all: rewrite Z.geb_leb in Hc0; bool_arith; rewrite u32_small by (unfold is_u32; lia); lia. }
  destruct Hc as (sk1 & n & -> & U1 & H1 & E1 & E2 & E3). destruct (check_reno_spec sk1 n) as (S1 & S2 & S3 & S4); [by rewrite E1|done|lia|lia|].
  cbn zeta. assert (Hh : reno_holes (tp (tcp_check_reno_reordering sk1 n)) = reno_holes (tp sk1)) by (unfold reno_holes; by rewrite S2, S3). rewrite in_flight_spec, Hh, S1, S2, S3, S4.
  assert (lost_out (tp sk1) <= reno_holes (tp sk1) <= packets_out (tp sk1)) by (unfold reno_holes, is_u32 in *; lia). unfold is_u32 in *. split_and!; [lia..|]. rewrite u32_small; [done|]. unfold is_u32. lia.
Qed.
End Marking.

Module Demo.
#[local] Existing Instance linux.
#[local] Existing Instance Scoreboard.Demo.linux_frag.
(** Four buffers (one SACKED, one LOST, one retransmitted) of a connection with FACK. *)
Definition sk_sack : sock := Scoreboard.Demo.sk_sent <| tp; rx_opt; sack_ok := 3 |> <| tp; snd_cwnd := 10 |> <| tp; reordering := 3 |>.
Lemma sk_sack_score : score sk_sack.
Proof. exact (score_ext Scoreboard.Demo.sk_sent sk_sack eq_refl Scoreboard.Demo.sk_sent_score). Defined.
Lemma sk_sack_without : score (without_reno sk_sack).
Proof. exact sk_sack_score. Defined.

(** All but the SACKED buffer are LOST, and the retransmission is forgotten. *)
Example after_loss : (sacked <$> sk_write_queue (tcp_enter_loss sk_sack false), lost_out (tp (tcp_enter_loss sk_sack false))) = ([4; 1; 4; 4], 4).
Proof. vm_compute. reflexivity. Qed.
Lemma enter_loss_ok_witness : score (without_reno sk_sack) /\ score (tcp_enter_loss sk_sack false) /\ snd_cwnd (tp (tcp_enter_loss sk_sack false)) = 1.
Proof. split; [exact sk_sack_without|]. destruct (enter_loss_ok sk_sack false sk_sack_without) as (H1 & _ & _ & _ & _ & H2 & _). split; [exact H1|exact H2]. Defined.
Lemma enter_frto_loss_ok_witness : score (without_reno sk_sack) /\ score (tcp_enter_frto_loss sk_sack 3 0).
Proof. split; [exact sk_sack_without|]. exact (proj1 (enter_frto_loss_ok sk_sack 3 0 sk_sack_without)). Defined.
Lemma enter_frto_ok_witness : score sk_sack /\ frto_counter (tp (tcp_enter_frto sk_sack)) = 1.
Proof. split; [exact sk_sack_score|]. exact (proj1 (proj2 (proj2 (enter_frto_ok sk_sack sk_sack_score)))). Defined.
Definition sk_reno : sock := blank_sock <| tp; packets_out := 5 |> <| tp; sacked_out := 4 |> <| tp; lost_out := 1 |> <| tp; retrans_out := 1 |>.
Lemma reno_sacks_fit_witness : let t := tp (tcp_add_reno_sack sk_reno) in sacked_out t = 4 /\ sacked_out t + reno_holes t <= packets_out t.
Proof.
  split; [vm_compute; reflexivity|]. assert (H1 : is_u32 5) by (split; vm_compute; [discriminate|reflexivity]). assert (H2 : is_u32 4) by (split; vm_compute; [discriminate|reflexivity]).
  exact (proj1 (proj2 (reno_sacks_fit sk_reno 0 H1 H2 ltac:(vm_compute; split; discriminate) ltac:(vm_compute; discriminate) ltac:(vm_compute; discriminate) ltac:(vm_compute; reflexivity) (tcp_add_reno_sack sk_reno) (or_introl eq_refl)))).
Defined.
End Demo.
