(* ===== verification/Cong.v ===== *)
(** * The congestion state machine

    net/ipv4/tcp_input.c, lines 2600-3170: moderation and undoing of the congestion window, the
    transitions between Open, Disorder, CWR, Recovery and Loss, the rate reduction of PRR, and
    tcp_fastretrans_alert, which every dubious ACK goes through. *)

From stdpp Require Import relations.
From S2P Require Import Prelude TcpTypes Kernel RcvTune Rtt WriteQueue Xmit Scoreboard Recovery.

Section Cong.
Context {K : Kernel}.
Implicit Types (sk : sock) (skb : sk_buff) (t : tcp_sock).

(** ** The congestion window *)
Definition tcp_moderate_cwnd t : tcp_sock :=
  t <| snd_cwnd := Z.min (snd_cwnd t) (u32 (tcp_packets_in_flight t + tcp_max_burst t)) |> <| snd_cwnd_stamp := tcp_time_stamp |>.
Definition tcp_cwnd_min sk : Z := match ca_min_cwnd with Some f => f sk | None => snd_ssthresh (tp sk) end.
Definition tcp_cwnd_down sk (flag : Z) : sock :=
  let decr := snd_cwnd_cnt (tp sk) + 1 in
  if has flag (Z.lor FLAG_ANY_PROGRESS FLAG_DSACKING_ACK) || tcp_is_reno (tp sk) && negb (has flag FLAG_NOT_DUP) then
    let sk := sk <| tp; snd_cwnd_cnt := Z.land decr 1 |> in
    let decr := Z.shiftr decr 1 in
    let sk := if negb (decr =? 0) && (snd_cwnd (tp sk) >? tcp_cwnd_min sk) then sk <| tp; snd_cwnd := u32 (snd_cwnd (tp sk) - decr) |> else sk in
    let sk := sk <| tp; snd_cwnd := Z.min (snd_cwnd (tp sk)) (u32 (tcp_packets_in_flight (tp sk) + 1)) |> in
    sk <| tp; snd_cwnd_stamp := tcp_time_stamp |>
  else sk.

(** ** Undoing a reduction *)
Definition tcp_packet_delayed t : bool :=
  (retrans_stamp t =? 0) || saw_tstamp (rx_opt t) && negb (rcv_tsecr (rx_opt t) =? 0) && before (rcv_tsecr (rx_opt t)) (retrans_stamp t).
Definition tcp_undo_cwr sk (undo_ssthresh : bool) : sock :=
  let sk :=
    if negb (prior_ssthresh (tp sk) =? 0) then
      let sk := sk <| tp; snd_cwnd := match ca_undo_cwnd with
                                      | Some f => f sk
                                      | None => Z.max (snd_cwnd (tp sk)) (u32 (Z.shiftl (snd_ssthresh (tp sk)) 1))
                                      end |> in
      if undo_ssthresh && (prior_ssthresh (tp sk) >? snd_ssthresh (tp sk))
      then sk <| tp := TCP_ECN_withdraw_cwr ((tp sk) <| snd_ssthresh := prior_ssthresh (tp sk) |>) |> else sk
    else sk <| tp; snd_cwnd := Z.max (snd_cwnd (tp sk)) (snd_ssthresh (tp sk)) |> in
  sk <| tp; snd_cwnd_stamp := tcp_time_stamp |>.
Definition tcp_may_undo t : bool := negb (undo_marker t =? 0) && ((undo_retrans t =? 0) || tcp_packet_delayed t).
Definition tcp_try_undo_recovery sk : bool * sock :=
  let sk := if tcp_may_undo (tp sk) then (tcp_undo_cwr sk true) <| tp; undo_marker := 0 |> else sk in
  if (snd_una (tp sk) =? high_seq (tp sk)) && tcp_is_reno (tp sk) then (true, sk <| tp := tcp_moderate_cwnd (tp sk) |>)
  else (false, tcp_set_ca_state sk TCP_CA_Open).
Definition tcp_try_undo_dsack sk : sock :=
  if negb (undo_marker (tp sk) =? 0) && (undo_retrans (tp sk) =? 0) then (tcp_undo_cwr sk true) <| tp; undo_marker := 0 |> else sk.
Definition tcp_any_retrans_done sk : bool :=
  negb (retrans_out (tp sk) =? 0) || match head (sk_write_queue sk) with Some skb => has (sacked skb) TCPCB_EVER_RETRANS | None => false end.
Definition tcp_try_undo_partial sk (acked : Z) : bool * sock :=
  let failed := tcp_is_reno (tp sk) || (tcp_fackets_out (tp sk) >? reordering (tp sk)) in
  if tcp_may_undo (tp sk) then
    let sk := if negb (tcp_any_retrans_done sk) then sk <| tp; retrans_stamp := 0 |> else sk in
    let sk := tcp_update_reordering sk (s32 (tcp_fackets_out (tp sk) + acked)) in
    (false, tcp_undo_cwr sk false)
  else (failed, sk).
(** One buffer of tcp_try_undo_loss. *)
Definition undo_loss_skb sk skb : sock := set_tags sk skb (bclr (sacked skb) TCPCB_LOST).
Definition tcp_try_undo_loss sk : bool * sock :=
  if tcp_may_undo (tp sk) then
    let sk := tcp_for_sent undo_loss_skb sk in
    let sk := sk <| tp := tcp_clear_all_retrans_hints (tp sk) |> <| tp; lost_out := 0 |> in
    let sk := (tcp_undo_cwr sk true) <| icsk; icsk_retransmits := 0 |> <| tp; undo_marker := 0 |> in
    (true, if tcp_is_sack (tp sk) then tcp_set_ca_state sk TCP_CA_Open else sk)
  else (false, sk).

(** ** Open, Disorder and CWR *)
Definition tcp_complete_cwr sk : sock :=
  let sk := if negb (undo_marker (tp sk) =? 0) then
              let sk := sk <| tp; snd_cwnd := if ca_eqb (icsk_ca_state (icsk sk)) TCP_CA_CWR then Z.min (snd_cwnd (tp sk)) (snd_ssthresh (tp sk)) else snd_ssthresh (tp sk) |> in
              sk <| tp; snd_cwnd_stamp := tcp_time_stamp |>
            else sk in
  tcp_ca_event sk CA_EVENT_COMPLETE_CWR.
Definition tcp_try_keep_open sk : sock :=
  let state := if negb (tcp_left_out (tp sk) =? 0) || tcp_any_retrans_done sk || negb (undo_marker (tp sk) =? 0) then TCP_CA_Disorder else TCP_CA_Open in
  if negb (ca_eqb (icsk_ca_state (icsk sk)) state) then
    let sk := tcp_set_ca_state sk state in sk <| tp; high_seq := snd_nxt (tp sk) |>
  else sk.
Definition tcp_try_to_open sk (flag : Z) : sock :=
  let sk := if (frto_counter (tp sk) =? 0) && negb (tcp_any_retrans_done sk) then sk <| tp; retrans_stamp := 0 |> else sk in
  let sk := if has flag FLAG_ECE then tcp_enter_cwr sk true else sk in
  if negb (ca_eqb (icsk_ca_state (icsk sk)) TCP_CA_CWR) then
    let sk := tcp_try_keep_open sk in sk <| tp := tcp_moderate_cwnd (tp sk) |>
  else tcp_cwnd_down sk flag.

(** ** MTU probing *)
Definition tcp_mtup_probe_failed sk : sock :=
  sk <| icsk; mtup_search_high := mtup_probe_size (icsk sk) - 1 |> <| icsk; mtup_probe_size := 0 |>.
Definition tcp_mtup_probe_success sk : sock :=
  let sk := sk <| tp; prior_ssthresh := tcp_current_ssthresh sk |> in
  let sk := sk <| tp; snd_cwnd := u32 (snd_cwnd (tp sk) * tcp_mss_to_mtu sk (mss_cache (tp sk))) / u32 (mtup_probe_size (icsk sk)) |> in
  let sk := sk <| tp; snd_cwnd_cnt := 0 |> <| tp; snd_cwnd_stamp := tcp_time_stamp |> in
  let sk := sk <| tp; snd_ssthresh := tcp_current_ssthresh sk |> in
  let sk := sk <| icsk; mtup_search_low := mtup_probe_size (icsk sk) |> <| icsk; mtup_probe_size := 0 |> in
  tcp_sync_mss sk (icsk_pmtu_cookie (icsk sk)).

(** One buffer of tcp_simple_retransmit: too large for the path, it is lost. *)
Definition simple_skb (mss : Z) sk skb : sock :=
  if (tcp_skb_seglen skb >? mss) && negb (has (sacked skb) TCPCB_SACKED_ACKED) then
    if has (sacked skb) TCPCB_SACKED_RETRANS then
      let skb := skb <| sacked := bclr (sacked skb) TCPCB_SACKED_RETRANS |> in
      let sk := (wq_set sk (skb_id skb) skb) <| tp; retrans_out := u32 (retrans_out (tp sk) - tcp_skb_pcount skb) |> in
      tcp_skb_mark_lost_uncond_verify sk skb
    else tcp_skb_mark_lost_uncond_verify sk skb
  else sk.
Definition tcp_simple_retransmit sk : sock :=
  let prior_lost := lost_out (tp sk) in
  let sk := tcp_for_sent (simple_skb (tcp_current_mss sk)) sk in
  let sk := sk <| tp := tcp_clear_retrans_hints_partial (tp sk) |> in
  if prior_lost =? lost_out (tp sk) then sk else
  let sk := if tcp_is_reno (tp sk) then sk <| tp := snd (tcp_limit_reno_sacked (tp sk)) |> else sk in
  let sk :=
    if negb (ca_eqb (icsk_ca_state (icsk sk)) TCP_CA_Loss) then
      let sk := sk <| tp; high_seq := snd_nxt (tp sk) |> in
      let sk := sk <| tp; snd_ssthresh := tcp_current_ssthresh sk |> <| tp; prior_ssthresh := 0 |> <| tp; undo_marker := 0 |> in
      tcp_set_ca_state sk TCP_CA_Loss
    else sk in
  tcp_xmit_retransmit_queue sk.

(** ** Proportional rate reduction *)
Definition prr_sndcnt t (newly_acked_sacked : Z) : Z :=
  let in_flight := tcp_packets_in_flight t in
  let delta := s32 (snd_ssthresh t - in_flight) in
  if in_flight >? snd_ssthresh t then
    let dividend := u64 (snd_ssthresh t * prr_delivered t + prior_cwnd t - 1) in
    s32 (dividend / prior_cwnd t - prr_out t)
  else Z.min delta (s32 (Z.max (s32 (prr_delivered t - prr_out t)) newly_acked_sacked + 1)).
Definition tcp_update_cwnd_in_recovery t (newly_acked_sacked : Z) (fast_rexmit : bool) : tcp_sock :=
  let sndcnt := Z.max (prr_sndcnt t newly_acked_sacked) (if fast_rexmit then 1 else 0) in
  t <| snd_cwnd := u32 (tcp_packets_in_flight t + sndcnt) |>.

(** ** tcp_fastretrans_alert *)

(** E. A state ends when high_seq is acknowledged; true: nothing else is to be done. *)
Definition alert_exit sk : bool * sock :=
  match icsk_ca_state (icsk sk) with
  | TCP_CA_Open => (false, sk <| tp; retrans_stamp := 0 |>)
  | ca =>
    if before (snd_una (tp sk)) (high_seq (tp sk)) then (false, sk) else
    match ca with
    | TCP_CA_Loss => tcp_try_undo_recovery (sk <| icsk; icsk_retransmits := 0 |>)
    | TCP_CA_CWR =>
      if negb (snd_una (tp sk) =? high_seq (tp sk)) then (false, tcp_set_ca_state (tcp_complete_cwr sk) TCP_CA_Open) else (false, sk)
    | TCP_CA_Disorder =>
      let sk := tcp_try_undo_dsack sk in
      if (undo_marker (tp sk) =? 0) || tcp_is_reno (tp sk) || negb (snd_una (tp sk) =? high_seq (tp sk))
      then (false, tcp_set_ca_state (sk <| tp; undo_marker := 0 |>) TCP_CA_Open) else (false, sk)
    | TCP_CA_Recovery =>
      let sk := if tcp_is_reno (tp sk) then sk <| tp := tcp_reset_reno_sack (tp sk) |> else sk in
      let '(done, sk) := tcp_try_undo_recovery sk in
      if done then (true, sk) else (false, tcp_complete_cwr sk)
    | TCP_CA_Open => (false, sk)
    end
  end.

(** Entering Recovery. *)
Definition alert_recover sk (flag : Z) : sock :=
  let sk := sk <| tp; high_seq := snd_nxt (tp sk) |> <| tp; prior_ssthresh := 0 |> <| tp; undo_marker := snd_una (tp sk) |>
               <| tp; undo_retrans := s32 (retrans_out (tp sk)) |> in
  let sk := if ca_ltb (icsk_ca_state (icsk sk)) TCP_CA_CWR then
              let sk := if negb (has flag FLAG_ECE) then sk <| tp; prior_ssthresh := tcp_current_ssthresh sk |> else sk in
              let sk := sk <| tp; snd_ssthresh := ca_ssthresh sk |> in
              sk <| tp := TCP_ECN_queue_cwr (tp sk) |>
            else sk in
  let sk := sk <| tp; bytes_acked := 0 |> <| tp; snd_cwnd_cnt := 0 |> <| tp; prior_cwnd := snd_cwnd (tp sk) |> <| tp; prr_delivered := 0 |> <| tp; prr_out := 0 |> in
  tcp_set_ca_state sk TCP_CA_Recovery.

(** The default case of F, in Open, Disorder and CWR: [inr] is the end of the function, [inl] goes on
    with do_lost and fast_rexmit. *)
Definition alert_open sk (flag : Z) (is_dupack do_lost : bool) : sock * bool * bool + sock :=
  let sk := if tcp_is_reno (tp sk) then
              let sk := if has flag FLAG_SND_UNA_ADVANCED then sk <| tp := tcp_reset_reno_sack (tp sk) |> else sk in
              if is_dupack then tcp_add_reno_sack sk else sk
            else sk in
  let sk := if ca_eqb (icsk_ca_state (icsk sk)) TCP_CA_Disorder then tcp_try_undo_dsack sk else sk in
  if negb (tcp_time_to_recover sk) then inr (tcp_try_to_open sk flag)
  else if ca_ltb (icsk_ca_state (icsk sk)) TCP_CA_CWR && negb (mtup_probe_size (icsk sk) =? 0) && (snd_una (tp sk) =? probe_seq_start (tp sk)) then
    let sk := tcp_mtup_probe_failed sk in
    inr (tcp_simple_retransmit (sk <| tp; snd_cwnd := u32 (snd_cwnd (tp sk) + 1) |>))
  else inl (alert_recover sk flag, do_lost, true).

(** F. What the state does with the ACK. *)
Definition alert_process sk (pkts_acked flag : Z) (is_dupack do_lost : bool) : sock * bool * bool + sock :=
  match icsk_ca_state (icsk sk) with
  | TCP_CA_Recovery =>
    if negb (has flag FLAG_SND_UNA_ADVANCED) then
      inl (if tcp_is_reno (tp sk) && is_dupack then tcp_add_reno_sack sk else sk, do_lost, false)
    else let '(do_lost, sk) := tcp_try_undo_partial sk pkts_acked in inl (sk, do_lost, false)
  | TCP_CA_Loss =>
    let sk := if has flag FLAG_DATA_ACKED then sk <| icsk; icsk_retransmits := 0 |> else sk in
    let sk := if tcp_is_reno (tp sk) && has flag FLAG_SND_UNA_ADVANCED then sk <| tp := tcp_reset_reno_sack (tp sk) |> else sk in
    let '(undone, sk) := tcp_try_undo_loss sk in
    if negb undone then inr (tcp_xmit_retransmit_queue (sk <| tp := tcp_moderate_cwnd (tp sk) |>))
    else if negb (ca_eqb (icsk_ca_state (icsk sk)) TCP_CA_Open) then inr sk
    else alert_open sk flag is_dupack do_lost
  | _ => alert_open sk flag is_dupack do_lost
  end.

(** The checks at the start: counters that cannot be right are cleared (with a warning), an ECE
    forbids undoing. *)
Definition alert_sanitize sk (flag : Z) : sock :=
  let sk := if (packets_out (tp sk) =? 0) && negb (sacked_out (tp sk) =? 0) then sk <| tp; sacked_out := 0 |> else sk in
  let sk := if (sacked_out (tp sk) =? 0) && negb (fackets_out (tp sk) =? 0) then sk <| tp; fackets_out := 0 |> else sk in
  if has flag FLAG_ECE then sk <| tp; prior_ssthresh := 0 |> else sk.
(** C. A notification of data loss, if it is valid. *)
Definition alert_data_lost sk (flag : Z) : sock :=
  let t := tp sk in
  if tcp_is_fack t && has flag FLAG_DATA_LOST && before (snd_una t) (high_seq t) && negb (ca_eqb (icsk_ca_state (icsk sk)) TCP_CA_Open) && (fackets_out t >? reordering t)
  then tcp_mark_head_lost sk (s32 (fackets_out t - reordering t)) false else sk.
(** What is left after F. *)
Definition alert_finish sk (newly_acked_sacked : Z) (do_lost fast_rexmit : bool) : sock :=
  let sk := if do_lost || tcp_is_fack (tp sk) && tcp_head_timedout sk then tcp_update_scoreboard sk fast_rexmit else sk in
  let sk := sk <| tp; prr_delivered := u32 (prr_delivered (tp sk) + newly_acked_sacked) |> in
  let sk := sk <| tp := tcp_update_cwnd_in_recovery (tp sk) newly_acked_sacked fast_rexmit |> in
  tcp_xmit_retransmit_queue sk.
Definition tcp_fastretrans_alert sk (pkts_acked newly_acked_sacked flag : Z) : sock :=
  let is_dupack := negb (has flag (Z.lor FLAG_SND_UNA_ADVANCED FLAG_NOT_DUP)) in
  let do_lost := is_dupack || has flag FLAG_DATA_SACKED && (tcp_fackets_out (tp sk) >? reordering (tp sk)) in
  let sk := alert_sanitize sk flag in
  let '(reneging, sk) := tcp_check_sack_reneging sk flag in
  if reneging then sk else
  let '(done, sk) := alert_exit (alert_data_lost sk flag) in
  if done then sk else
  match alert_process sk pkts_acked flag is_dupack do_lost with
  | inr sk => sk
  | inl (sk, do_lost, fast_rexmit) => alert_finish sk newly_acked_sacked do_lost fast_rexmit
  end.
End Cong.

(** ** Transmission, and the SACK mode

    A retransmission is a sequence of the steps of Xmit.v: it may cut, recount, merge or trim sent
    buffers, and marks and counts those it sends; the queue is searched for buffers that were not
    retransmitted since, and tcp_retransmit_skb expects such a one.  (tcp_trim_head does not
    count again when it shortens a buffer of several packets, which happens only if
    tcp_clean_rtx_queue had no memory for it: not covered.)  It leaves the options and the congestion state alone.
    Adapting the MSS leaves the queue alone; splitting a buffer leaves the control of the state
    machine alone. *)
Definition ctl (sk : sock) :=
  (rx_opt (tp sk), undo_marker (tp sk), undo_retrans (tp sk), retrans_stamp (tp sk), snd_una (tp sk), high_seq (tp sk), icsk_ca_state (icsk sk), mtup_probe_size (icsk sk)).
Class XmitLaws {K : Kernel} : Prop := {
  retransmit_steps sk i b : score sk -> wq_get sk i = Some b -> i ∉ unsent sk -> has (sacked b) TCPCB_SACKED_RETRANS = false -> rtc resend sk (tcp_retransmit_skb sk (Some i));
  retransmit_opt sk h : rx_opt (tp (tcp_retransmit_skb sk h)) = rx_opt (tp sk);
  retransmit_una sk h : snd_una (tp (tcp_retransmit_skb sk h)) = snd_una (tp sk);
  xmit_queue_steps sk : score sk -> rtc resend sk (tcp_xmit_retransmit_queue sk);
  xmit_queue_opt sk : rx_opt (tp (tcp_xmit_retransmit_queue sk)) = rx_opt (tp sk);
  xmit_queue_una sk : snd_una (tp (tcp_xmit_retransmit_queue sk)) = snd_una (tp sk);
  xmit_queue_ca sk : icsk_ca_state (icsk (tcp_xmit_retransmit_queue sk)) = icsk_ca_state (icsk sk);
  sync_mss_part sk m : sb_part (tcp_sync_mss sk m) = sb_part sk;
  sync_mss_opt sk m : rx_opt (tp (tcp_sync_mss sk m)) = rx_opt (tp sk);
  sync_mss_una sk m : snd_una (tp (tcp_sync_mss sk m)) = snd_una (tp sk);
  sync_mss_ca sk m : icsk_ca_state (icsk (tcp_sync_mss sk m)) = icsk_ca_state (icsk sk);
  fragment_ctl sk i n mss : ctl (snd (tcp_fragment sk i n mss)) = ctl sk;
}.

(** Walks over the sent buffers. *)
Section Walks.
Context {K : Kernel}.
Implicit Types (sk : sock) (b : sk_buff).

(** A walk whose steps keep the invariant and the buffers keeps it. *)
Lemma for_sent_kept {A} (f : sock -> A -> sk_buff -> sock * A) :
  (forall sk a b, score sk -> wq_get sk (skb_id b) = Some b -> skb_id b ∉ unsent sk -> score (fst (f sk a b)) /\ same_ids sk (fst (f sk a b))) ->
  forall ids p sk a, score sk -> skb_id <$> sk_write_queue sk = p ++ ids -> (forall x, x ∈ p -> is_send_head sk x = false) ->
  score (fst (for_sent f ids sk a)) /\ same_ids sk (fst (for_sent f ids sk a)).
Proof.
  intros Hf. induction ids as [|i ids IH]; intros p sk a Hs Hq Hp; cbn [for_sent]; [done|]. destruct (wq_get sk i) as [b|] eqn:Hb; [|done]. case_if_as Hi; [done|].
  pose proof (get_elem _ _ _ Hb) as [_ Hid]. assert (Hin : i ∉ unsent sk) by (eapply sent_prefix; [apply Hs|exact Hq|done|done]).
  rewrite <- Hid in Hb, Hin. destruct (Hf sk a b Hs Hb Hin) as [H1 H2]. destruct (f sk a b) as [sk1 a1]. cbn [fst] in *. pose proof H2 as [E1 E2].
  destruct (IH (p ++ [i]) sk1 a1) as [R1 R2]; [done|by rewrite E1, <- app_assoc| |].
  - intros x Hx. unfold is_send_head. rewrite E2. apply elem_of_app in Hx as [Hx|Hx]; [by apply Hp|]. apply list_elem_of_singleton in Hx as ->. exact Hi.
  - split; [done|]. by eapply same_ids_trans.
Qed.
Lemma tcp_for_sent_kept (f : sock -> sk_buff -> sock) sk :
  (forall sk b, score sk -> wq_get sk (skb_id b) = Some b -> skb_id b ∉ unsent sk -> score (f sk b) /\ same_ids sk (f sk b)) ->
  score sk -> kept sk (tcp_for_sent f sk).
Proof.
  intros Hf Hs. unfold tcp_for_sent, tcp_for_write_queue. destruct (for_sent_kept (fun sk (_ : unit) skb => (f sk skb, ()))) with (ids := skb_id <$> sk_write_queue sk) (p := @nil nat) (sk := sk) (a := ()) as [H1 H2];
    [intros s [] b; apply Hf|done|done|intros x Hx; by apply elem_of_nil in Hx|]. by apply same_kept.
Qed.
(** A walk commutes with a change of the socket that its steps do not see. *)
Lemma for_sent_commute {A} (f : sock -> A -> sk_buff -> sock * A) (c : sock -> sock) :
  (forall sk, sk_write_queue (c sk) = sk_write_queue sk /\ sk_send_head (c sk) = sk_send_head sk) ->
  (forall sk a b, f (c sk) a b = (c (fst (f sk a b)), snd (f sk a b))) ->
  forall ids sk a, for_sent f ids (c sk) a = (c (fst (for_sent f ids sk a)), snd (for_sent f ids sk a)).
Proof.
  intros Hc Hf. induction ids as [|i ids IH]; intros sk a; cbn [for_sent]; [done|]. unfold wq_get, is_send_head. destruct (Hc sk) as [-> ->].
  destruct (List.find _ _) as [b|]; [|done]. case_match; [done|]. rewrite Hf. destruct (f sk a b) as [sk1 a1]. apply IH.
Qed.
End Walks.

(** ** Every step keeps the scoreboard of a SACK connection *)
Section Keep.
Context {K : Kernel} {TL : TagLaws K} {PL : PcountLaws K} {SM : SackModeLaws K} {CL : CongLaws K} {CS : CaStateLaws K} {HI : HintLaws K} {FR : FragLaws} {XL : XmitLaws}.
Implicit Types (sk : sock) (b : sk_buff).

(** SACK was negotiated: the first bit of sack_ok. *)
Definition sacking sk : Prop := Z.testbit (sack_ok (rx_opt (tp sk))) 0 = true.
Lemma sacking_reno sk : sacking sk -> tcp_is_reno (tp sk) = false.
Proof using SM.
  unfold sacking. intros H. rewrite tcp_is_reno_spec, tcp_is_sack_spec, negb_involutive. apply Z.eqb_neq. intros E. rewrite E in H. by rewrite Z.bits_0 in H.
Qed.
Lemma sacking_sack sk : sacking sk -> tcp_is_sack (tp sk) = true.
Proof using SM. intros H. apply sacking_reno in H. rewrite tcp_is_reno_spec in H. by apply negb_false_iff in H. Qed.
(** A step that keeps the scoreboard, the SACK mode and the left edge of the window. *)
Definition step sk sk' : Prop := kept sk sk' /\ (sacking sk -> sacking sk') /\ snd_una (tp sk') = snd_una (tp sk).
Lemma step_refl sk : score sk -> step sk sk.
Proof using Type. intros Hs. by split; [apply kept_refl|]. Qed.
Lemma step_trans sk1 sk2 sk3 : step sk1 sk2 -> step sk2 sk3 -> step sk1 sk3.
Proof using Type. intros (H1 & H2 & H3) (H4 & H5 & H6). split; [by eapply kept_trans|]. split; [auto|congruence]. Qed.
Lemma step_sacking sk sk' : step sk sk' -> sacking sk -> sacking sk'.
Proof using Type. by intros (_ & ? & _). Qed.
Lemma step_score sk sk' : step sk sk' -> score sk'.
Proof using Type. by intros [[] _]. Qed.
(** A step that touches neither the queue and its counters nor the options. *)
Definition same_part sk sk' : Prop := sb_part sk' = sb_part sk /\ rx_opt (tp sk') = rx_opt (tp sk) /\ snd_una (tp sk') = snd_una (tp sk).
Lemma step_part sk sk' : score sk -> same_part sk sk' -> step sk sk'.
Proof using Type. intros Hs (E1 & E2 & E3). split; [by apply kept_part|]. split; [unfold sacking; by rewrite E2|done]. Qed.
Lemma part_trans sk1 sk2 sk3 : same_part sk1 sk2 -> same_part sk2 sk3 -> same_part sk1 sk3.
Proof using Type. intros (? & ? & ?) (? & ? & ?). split; [|split]; congruence. Qed.
Lemma part_refl sk : same_part sk sk.
Proof using Type. done. Qed.

Lemma xmit_queue_step sk : score sk -> step sk (tcp_xmit_retransmit_queue sk).
Proof using TL XL. intros Hs. split; [by apply resends_kept, xmit_queue_steps|]. split; [unfold sacking; by rewrite xmit_queue_opt|apply xmit_queue_una]. Qed.
Lemma retransmit_step sk i b : score sk -> wq_get sk i = Some b -> i ∉ unsent sk -> has (sacked b) TCPCB_SACKED_RETRANS = false -> step sk (tcp_retransmit_skb sk (Some i)).
Proof using TL XL. intros Hs Hb Hi Hr. split; [by eapply resends_kept, retransmit_steps|]. split; [unfold sacking; by rewrite retransmit_opt|apply retransmit_una]. Qed.
Lemma set_ca_part sk s : same_part sk (tcp_set_ca_state sk s).
Proof using CS. by rewrite set_ca_state_spec. Qed.
Lemma ca_event_part sk e : same_part sk (tcp_ca_event sk e).
Proof using CL. destruct (ca_event_only sk e) as [sk' ->]. done. Qed.
Lemma undo_cwr_part sk u : same_part sk (tcp_undo_cwr sk u).
Proof using Type. unfold tcp_undo_cwr. cbn zeta. by cases_if. Qed.
Lemma try_undo_dsack_part sk : same_part sk (tcp_try_undo_dsack sk).
Proof using Type. unfold tcp_try_undo_dsack. case_match; [|done]. exact (undo_cwr_part sk true). Qed.
Lemma try_undo_recovery_part sk : same_part sk (snd (tcp_try_undo_recovery sk)).
Proof using CS.
  unfold tcp_try_undo_recovery. set (sk1 := if tcp_may_undo (tp sk) then _ else sk). assert (E : same_part sk sk1) by (unfold sk1; case_match; [exact (undo_cwr_part sk true)|done]). clearbody sk1.
  cbn zeta. case_match; cbn [snd]; (eapply part_trans; [exact E|]); [done|apply set_ca_part].
Qed.
Lemma complete_cwr_part sk : same_part sk (tcp_complete_cwr sk).
Proof using CL. unfold tcp_complete_cwr. cbn zeta. eapply part_trans; [|apply ca_event_part]. by cases_if. Qed.
Lemma keep_open_part sk : same_part sk (tcp_try_keep_open sk).
Proof using CS. unfold tcp_try_keep_open. cbn zeta. case_if_as H; [|done]. exact (set_ca_part sk _). Qed.
Lemma enter_cwr_same sk s : same_part sk (tcp_enter_cwr sk s).
Proof using CS.
  split; [apply enter_cwr_part|]. unfold tcp_enter_cwr, TCP_ECN_queue_cwr. cbn zeta. case_if_as H; [|done]. rewrite set_ca_state_spec. by cases_if.
Qed.
Lemma cwnd_down_part sk flag : same_part sk (tcp_cwnd_down sk flag).
Proof using Type. unfold tcp_cwnd_down. cbn zeta. by cases_if. Qed.
Lemma try_to_open_part sk flag : same_part sk (tcp_try_to_open sk flag).
Proof using CS.
  unfold tcp_try_to_open. cbn zeta. set (sk1 := if (frto_counter (tp sk) =? 0) && _ then _ else sk). assert (E1 : same_part sk sk1) by (unfold sk1; by case_match). clearbody sk1.
  set (sk2 := if has flag FLAG_ECE then _ else sk1). assert (E2 : same_part sk1 sk2) by (unfold sk2; case_match; [apply enter_cwr_same|done]). clearbody sk2.
  eapply part_trans; [exact E1|eapply part_trans; [exact E2|]]. case_match; [|apply cwnd_down_part]. eapply part_trans; [apply (keep_open_part sk2)|done].
Qed.
Lemma recover_part sk flag : same_part sk (alert_recover sk flag).
Proof using CS. unfold alert_recover, TCP_ECN_queue_cwr. cbn zeta. eapply part_trans; [|apply set_ca_part]. by cases_if. Qed.
Lemma probe_success_part sk : same_part sk (tcp_mtup_probe_success sk).
Proof using XL. unfold tcp_mtup_probe_success. cbn zeta. split; [by rewrite sync_mss_part|split; [by rewrite sync_mss_opt|by rewrite sync_mss_una]]. Qed.
Lemma update_cwnd_part sk n f : same_part sk (sk <| tp := tcp_update_cwnd_in_recovery (tp sk) n f |>).
Proof using Type. done. Qed.

Lemma update_reordering_step sk m : score sk -> step sk (tcp_update_reordering sk m).
Proof using Type.
  intros Hs. split; [by apply update_reordering_score|]. split; [|unfold tcp_update_reordering, tcp_disable_fack; by cases_if]. unfold sacking, tcp_update_reordering, tcp_disable_fack. case_match; [|done]. intros Hb.
  assert (E : Z.testbit (bclr (sack_ok (rx_opt (tp sk))) 2) 0 = true) by (rewrite testbit_bclr by lia; by rewrite Hb). case_match; exact E.
Qed.
(** What marking keeps: the control of the state machine. *)
Lemma mark_lost_ctl sk b : ctl (tcp_skb_mark_lost sk b) = ctl sk.
Proof using Type. unfold tcp_skb_mark_lost, count_lost, tcp_verify_retransmit_hint. cbn zeta. destruct (hint_seq _ _); by cases_if. Qed.
Lemma timeout_loop_ctl fuel : forall cur sk, ctl (snd (timeout_loop fuel cur sk)) = ctl sk.
Proof using Type.
  induction fuel as [|fuel IH]; intros cur sk; cbn [timeout_loop]; [done|]. destruct (cur ≫= wq_get sk) as [b|]; [|done]. case_match; [done|]. case_match; [done|]. cbn zeta.
  rewrite <- (mark_lost_ctl sk b). apply IH.
Qed.
Lemma timeout_skbs_ctl sk : ctl (tcp_timeout_skbs sk) = ctl sk.
Proof using Type.
  unfold tcp_timeout_skbs. case_match; [done|]. match goal with |- context [timeout_loop ?n ?c sk] => pose proof (timeout_loop_ctl n c sk) as H0; destruct (timeout_loop n c sk) as [cur sk1] end. exact H0.
Qed.
Lemma head_lost_loop_ctl fuel : forall cur sk cnt packets one, ctl (head_lost_loop fuel cur sk cnt packets one) = ctl sk.
Proof using XL.
  induction fuel as [|fuel IH]; intros cur sk cnt packets one; cbn [head_lost_loop]; [done|]. destruct (cur ≫= wq_get sk) as [b|]; [|done]. cbn zeta. case_match; [done|].
  match goal with |- context [after _ (high_seq (tp ?s))] => set (sk1 := s) end. change (ctl sk) with (ctl sk1). clearbody sk1. case_match; [done|].
  assert (Hgo : forall sk2 b2 n, ctl sk2 = ctl sk1 -> ctl (if one then tcp_skb_mark_lost sk2 b2 else head_lost_loop fuel (tcp_write_queue_next (tcp_skb_mark_lost sk2 b2) (skb_id b)) (tcp_skb_mark_lost sk2 b2) n packets one) = ctl sk1)
    by (intros; destruct one; rewrite ?IH; by rewrite mark_lost_ctl).
  case_if_as Hc1; [|by apply Hgo]. case_if_as Hc2; [done|]. match goal with |- context [tcp_fragment sk1 ?i ?n ?m] => pose proof (fragment_ctl sk1 i n m) as F1; destruct (tcp_fragment sk1 i n m) as [err sk2] end.
  cbn [snd] in *. case_if_as Hc3; [done|by apply Hgo].
Qed.
Lemma mark_head_lost_ctl sk packets one : ctl (tcp_mark_head_lost sk packets one) = ctl sk.
Proof using XL. unfold tcp_mark_head_lost. destruct (lost_skb_hint (tp sk)); [case_match; [done|]|]; apply head_lost_loop_ctl. Qed.
Lemma update_scoreboard_ctl sk fast : ctl (tcp_update_scoreboard sk fast) = ctl sk.
Proof using XL. unfold tcp_update_scoreboard. cbn zeta. rewrite timeout_skbs_ctl. cases_if; first [apply mark_head_lost_ctl|done]. Qed.
Lemma ctl_step sk sk' : kept sk sk' -> ctl sk' = ctl sk -> step sk sk'.
Proof using Type.
  unfold ctl, step, sacking. intros Hk E. assert (E1 : rx_opt (tp sk') = rx_opt (tp sk)) by exact (f_equal (fun x => fst (fst (fst (fst (fst (fst (fst x))))))) E).
  split; [done|]. split; [by rewrite E1|]. exact (f_equal (fun x => snd (fst (fst (fst x)))) E).
Qed.
Lemma mark_head_lost_step sk packets one : score sk -> step sk (tcp_mark_head_lost sk packets one).
Proof using TL PL FR XL. intros Hs. apply ctl_step; [by apply mark_head_lost_kept|apply mark_head_lost_ctl]. Qed.
Lemma update_scoreboard_step sk fast : score sk -> step sk (tcp_update_scoreboard sk fast).
Proof using TL PL FR XL. intros Hs. apply ctl_step; [by apply update_scoreboard_kept|apply update_scoreboard_ctl]. Qed.

(** Undoing the marks of the Loss state. *)
Definition undo_pays : pays := mk_pays false false true.
Lemma undo_loss_retags sk b : u32_counters sk -> exists sk1 tags, undo_loss_skb sk b = wq_set sk1 (skb_id b) (b <| sacked := tags |>) /\
  retags undo_pays sk b sk1 tags /\ Z.testbit tags 2 = false.
Proof using TL.
  intros (U1 & U2 & U3). exists sk. eexists. split; [reflexivity|]. set (t := bclr _ _). assert (T0 : Z.testbit t 0 = Z.testbit (sacked b) 0) by (unfold t; by tag_bits).
  assert (T1 : Z.testbit t 1 = Z.testbit (sacked b) 1) by (unfold t; by tag_bits). assert (T2 : Z.testbit t 2 = false) by (unfold t; by tag_bits). split; [|done].
  split; cbn [pay_S pay_R pay_L undo_pays]; rewrite ?T0, ?T1, ?T2; [done|by rewrite andb_false_r|..]; rewrite ?Z.sub_diag; by apply u32_keep.
Qed.
Definition no_lost sk : sock := sk <| tp; lost_out := 0 |>.
Lemma undo_walk_ok sk : score sk -> let sk' := no_lost (tcp_for_sent undo_loss_skb sk) in
  kept sk sk' /\ (forall b, b ∈ sk_write_queue sk' -> skb_id b ∉ unsent sk' -> Z.testbit (sacked b) 2 = false) /\
  (rx_opt (tp sk'), icsk sk', snd_una (tp sk')) = (rx_opt (tp sk), icsk sk, snd_una (tp sk)).
Proof using TL.
  intros Hs. set (f := fun (sk : sock) (_ : unit) (skb : sk_buff) => (undo_loss_skb sk skb, ())).
  assert (E : no_lost (tcp_for_sent undo_loss_skb sk) = fst (tcp_for_write_queue f (no_lost sk) ())) by (unfold tcp_for_sent, tcp_for_write_queue; by rewrite (for_sent_commute f no_lost)).
  cbn zeta. rewrite E. destruct (paid_start undo_pays sk (no_lost sk) Hs) as [Hu Hp]; try done; [exact (sc_hints _ Hs)|].
  destruct (for_queue_paid f undo_pays (fun t => Z.testbit t 2 = false)) with (sk := no_lost sk) (a := ()) as (R1 & R2 & R3); [intros s a b Hu' _; by apply undo_loss_retags|done|done|].
  split_and!; [by apply same_kept|done|]. unfold tcp_for_write_queue. rewrite (for_sent_keeps (A := unit) (fun s : sock => (rx_opt (tp s), icsk s, snd_una (tp s)))); [done|by intros s [] b].
Qed.
Lemma clear_hints_score sk : score sk -> kept sk (sk <| tp := tcp_clear_all_retrans_hints (tp sk) |>) /\ kept sk (sk <| tp := tcp_clear_retrans_hints_partial (tp sk) |>).
Proof using HI.
  intros Hs. rewrite clear_all_spec, !clear_partial_spec. split; (split; [|done]); (eapply score_hints; [exact Hs|done..|]); intros [|[|n]]; try exact (at_sent_none _); exact (sc_hints _ Hs 0%nat).
Qed.
Lemma try_undo_loss_step sk : score sk -> step sk (snd (tcp_try_undo_loss sk)).
Proof using TL HI CS.
  intros Hs. unfold tcp_try_undo_loss. case_match; [|by apply step_refl]. cbn zeta. cbn [snd]. destruct (undo_walk_ok sk Hs) as (K1 & _ & [= E1 E2 E3]). cbn zeta in K1.
  set (sk1 := tcp_for_sent undo_loss_skb sk) in *. clearbody sk1.
  assert (S2 : step sk ((no_lost sk1) <| tp := tcp_clear_all_retrans_hints (tp (no_lost sk1)) |>)).
  { split; [eapply kept_trans; [exact K1|apply clear_hints_score, K1]|]. unfold sacking. rewrite clear_all_spec, clear_partial_spec. cbn. split; [by rewrite E1|exact E3]. }
  match goal with |- context [tcp_undo_cwr ?s true] => set (sk2 := s) end. assert (E : sk2 = (no_lost sk1) <| tp := tcp_clear_all_retrans_hints (tp (no_lost sk1)) |>) by (unfold sk2, no_lost; by rewrite !clear_all_spec, !clear_partial_spec).
  rewrite <- E in S2. clearbody sk2. clear E. pose proof (undo_cwr_part sk2 true) as Ep. eapply step_trans; [exact S2|]. apply step_part; [by apply step_score in S2|].
  case_match; [eapply part_trans; [|apply set_ca_part]|]; exact Ep.
Qed.

(** Retransmission after a change of the path MTU. *)
Lemma simple_skb_score mss sk b : score sk -> wq_get sk (skb_id b) = Some b -> skb_id b ∉ unsent sk -> score (simple_skb mss sk b) /\ same_ids sk (simple_skb mss sk b).
Proof using TL PL.
  intros Hs Hb Hi. unfold simple_skb. case_match; [|done]. case_if_as Hr; [|by apply mark_lost_uncond_score]. cbn zeta. pose proof (clear_retrans_score sk _ b Hs Hb Hi Hr) as Hs1. cbn zeta in Hs1.
  set (b' := b <| sacked := _ |>) in *. change (skb_id b') with (skb_id b) in *. set (sk1 := (wq_set sk (skb_id b) b') <| tp; retrans_out := _ |>) in *.
  assert (Hsame : same_ids sk sk1) by (by apply (same_ids_set sk)).
  destruct (mark_lost_uncond_score sk1 b' Hs1) as [R1 R2]; [apply get_set; [done|by eexists]|by rewrite (same_ids_unsent _ _ Hsame)|]. split; [done|by eapply same_ids_trans].
Qed.
Lemma clear_partial_step sk : score sk -> step sk (sk <| tp := tcp_clear_retrans_hints_partial (tp sk) |>).
Proof using HI. intros Hs. split; [by apply clear_hints_score|]. unfold sacking. by rewrite clear_partial_spec. Qed.
Lemma simple_retransmit_step sk : score sk -> sacking sk -> step sk (tcp_simple_retransmit sk).
Proof using TL PL SM CS HI XL.
  intros Hs Hsa. unfold tcp_simple_retransmit. cbn zeta. set (sk1 := tcp_for_sent _ sk).
  assert (S1 : step sk sk1).
  { split; [apply tcp_for_sent_kept; [|done]; intros; by apply simple_skb_score|]. unfold sacking. assert (E : (rx_opt (tp sk1), snd_una (tp sk1)) = (rx_opt (tp sk), snd_una (tp sk))).
    - unfold sk1, tcp_for_sent, tcp_for_write_queue. rewrite (for_sent_keeps (A := unit) (fun s : sock => (rx_opt (tp s), snd_una (tp s)))); [done|]. intros s [] b. cbn.
      unfold simple_skb, tcp_skb_mark_lost_uncond_verify, count_lost, tcp_verify_retransmit_hint. cbn zeta. repeat case_match; done.
    - injection E as E1 E2. by rewrite E1. }
  clearbody sk1. pose proof (step_trans _ _ _ S1 (clear_partial_step sk1 (step_score _ _ S1))) as S2. set (sk2 := sk1 <| tp := _ |>) in *. clearbody sk2.
  case_match; [done|]. rewrite (sacking_reno sk2) by (by apply (step_sacking _ _ S2)).
  eapply step_trans; [exact S2|]. match goal with |- step _ (tcp_xmit_retransmit_queue ?s) => assert (S3 : step sk2 s) by (apply step_part; [apply S2|]; case_match; [by rewrite set_ca_state_spec|done]) end.
  eapply step_trans; [exact S3|]. apply xmit_queue_step, (step_score _ _ S3).
Qed.

Lemma reset_timer_part sk what when max : same_part sk (inet_csk_reset_xmit_timer sk what when max).
Proof using Type. unfold inet_csk_reset_xmit_timer. by cases_if. Qed.
Lemma enter_loss_step sk how : score sk -> sacking sk -> step sk (tcp_enter_loss sk how).
Proof using TL PL SM CL CS HI.
  intros Hs Hsa. assert (Hw : without_reno sk = sk) by (unfold without_reno; by rewrite sacking_reno). assert (Hs' : score (without_reno sk)) by (by rewrite Hw).
  destruct (loss_walk_ok sk how Hs') as (R1 & R2 & _). assert (E : (rx_opt (tp (tcp_for_sent (loss_skb how) (loss_prepare sk how))), snd_una (tp (tcp_for_sent (loss_skb how) (loss_prepare sk how)))) = (rx_opt (tp sk), snd_una (tp sk))).
  { unfold tcp_for_sent, tcp_for_write_queue. rewrite (for_sent_keeps (A := unit) (fun s : sock => (rx_opt (tp s), snd_una (tp s)))); [apply loss_prepare_opt|]. intros s [] b. unfold loss_skb. cbn. by cases_if. }
  injection E as E1 E2. unfold tcp_enter_loss. set (sk1 := tcp_for_sent _ _) in *. clearbody sk1. cbn zeta. rewrite set_ca_state_spec.
  assert (S1 : step sk sk1) by (split; [by apply same_kept|]; unfold sacking; by rewrite E1). eapply step_trans; [exact S1|]. apply step_part; [done|]. unfold TCP_ECN_queue_cwr. by case_match.
Qed.
(** With FLAG_SACK_RENEGING, there is a sent buffer at the front of the queue. *)
Definition front_sent sk (flag : Z) : Prop := has flag FLAG_SACK_RENEGING = true -> exists i, tcp_write_queue_head sk = Some i /\ i ∉ unsent sk.
Lemma front_sent_ids sk sk' flag : same_ids sk sk' -> front_sent sk flag -> front_sent sk' flag.
Proof using Type.
  intros E H Hf. destruct (H Hf) as (i & Hi & Hn). exists i. rewrite (same_ids_unsent _ _ E). split; [|done]. destruct E as [E _]. unfold tcp_write_queue_head in *.
  destruct (sk_write_queue sk) as [|b q], (sk_write_queue sk') as [|b' q']; try done. rewrite !fmap_cons in E. cbn in *. injection E as E _. by rewrite E.
Qed.
Lemma part_ids sk sk' : same_part sk sk' -> same_ids sk sk'.
Proof using Type. intros [E _]. apply same_ids_part, sb_q_part, E. Qed.
(** After a loss, nothing counts as retransmitted. *)
Lemma loss_clears sk how : score sk -> sacking sk -> let sk' := tcp_enter_loss sk how in
  same_ids sk sk' /\ forall b, b ∈ sk_write_queue sk' -> skb_id b ∉ unsent sk' -> has (sacked b) TCPCB_SACKED_RETRANS = false.
Proof using TL PL SM CL CS HI.
  intros Hs Hsa. assert (Hw : without_reno sk = sk) by (unfold without_reno; by rewrite sacking_reno). destruct (loss_walk_ok sk how) as (_ & R2 & R3 & _); [by rewrite Hw|]. unfold tcp_enter_loss. set (sk1 := tcp_for_sent _ _) in *. clearbody sk1. cbn zeta. rewrite set_ca_state_spec.
  split; [exact R2|]. intros b Hb Hn. rewrite has_R. exact (proj1 (R3 b Hb Hn)).
Qed.
Lemma check_reneging_step sk flag : score sk -> sacking sk -> front_sent sk flag -> let '(r, sk') := tcp_check_sack_reneging sk flag in step sk sk' /\ (r = false -> sk' = sk).
Proof using TL PL SM CL CS HI XL.
  intros Hs Hsa Hf. unfold tcp_check_sack_reneging. case_if_as Hc; [|by split; [apply step_refl|]]. split; [|done]. cbn zeta. pose proof (enter_loss_step sk true Hs Hsa) as S1. destruct (loss_clears sk true Hs Hsa) as [Hi Hr].
  set (sk1 := tcp_enter_loss sk true) in *. destruct (front_sent_ids _ _ _ Hi Hf Hc) as (i & Hh & Hn). clearbody sk1. match goal with |- context [tcp_retransmit_skb ?s ?h] => set (sk2 := s) end.
  assert (S2 : step sk1 sk2) by (apply step_part; [apply S1|done]). assert (Hg : exists b, wq_get sk2 i = Some b /\ b ∈ sk_write_queue sk1 /\ skb_id b = i).
  { change (wq_get sk2 i) with (wq_get sk1 i). unfold tcp_write_queue_head, wq_get in *. destruct (sk_write_queue sk1) as [|b q]; [done|]. injection Hh as <-. exists b. cbn. rewrite Nat.eqb_refl. split_and!; [done|apply elem_of_cons; by left|done]. }
  destruct Hg as (b & Hg & Hb & Eb). change (tcp_write_queue_head sk2) with (tcp_write_queue_head sk1). rewrite Hh.
  pose proof (retransmit_step sk2 i b (step_score _ _ S2) Hg Hn ltac:(apply Hr; [done|by rewrite Eb])) as S3. set (sk3 := tcp_retransmit_skb sk2 _) in *. clearbody sk3.
  eapply step_trans; [exact S1|eapply step_trans; [exact S2|eapply step_trans; [exact S3|]]]. apply step_part; [apply S3|apply reset_timer_part].
Qed.

Lemma sanitize_part sk flag : score sk -> same_part sk (alert_sanitize sk flag).
Proof using Type.
  intros Hs. pose proof (score_le sk Hs) as (H1 & _ & _). unfold alert_sanitize. cbn zeta. rewrite (proj2 (andb_false_iff (packets_out (tp sk) =? 0) (negb (sacked_out (tp sk) =? 0)))); [by cases_if|].
  destruct (Z.eqb_spec (packets_out (tp sk)) 0) as [E|]; [right|by left]. apply negb_false_iff, Z.eqb_eq. lia.
Qed.
Lemma data_lost_step sk flag : score sk -> step sk (alert_data_lost sk flag).
Proof using TL PL FR XL. intros Hs. unfold alert_data_lost. cbn zeta. case_if_as H; [by apply mark_head_lost_step|by apply step_refl]. Qed.
Lemma exit_part sk : tcp_is_reno (tp sk) = false -> same_part sk (snd (alert_exit sk)).
Proof using CL CS.
  intros Hr. unfold alert_exit. rewrite Hr. destruct (icsk_ca_state (icsk sk)); [done|case_match; [done|]..].
  - cbn zeta. case_match; [|apply try_undo_dsack_part]. cbn [snd]. eapply part_trans; [apply try_undo_dsack_part|]. eapply part_trans; [|apply set_ca_part]. done.
  - case_match; [|done]. eapply part_trans; [apply complete_cwr_part|apply set_ca_part].
  - cbn zeta. pose proof (try_undo_recovery_part sk) as H0. destruct (tcp_try_undo_recovery sk) as [d sk1]. destruct d; [done|]. eapply part_trans; [exact H0|apply complete_cwr_part].
  - eapply part_trans; [|apply try_undo_recovery_part]. done.
Qed.

(** The result of F: the rest of the function keeps what it gets. *)
Definition process_ok sk (r : sock * bool * bool + sock) : Prop :=
  match r with inl (sk', _, _) => step sk sk' | inr sk' => step sk sk' end.
Lemma open_ok sk flag dup lost : score sk -> sacking sk -> process_ok sk (alert_open sk flag dup lost).
Proof using TL PL SM CS HI XL.
  intros Hs Hsa. unfold alert_open. rewrite (sacking_reno _ Hsa). cbn zeta. set (sk1 := if ca_eqb _ _ then tcp_try_undo_dsack sk else sk).
  assert (E1 : same_part sk sk1) by (unfold sk1; case_match; [apply try_undo_dsack_part|done]). pose proof (step_part _ _ Hs E1) as S1. clearbody sk1.
  case_match; [|case_match].
  - eapply step_trans; [exact S1|]. apply step_part; [apply S1|apply try_to_open_part].
  - set (sk2 := (tcp_mtup_probe_failed sk1) <| tp; snd_cwnd := _ |>). assert (S2 : step sk1 sk2) by (apply step_part; [apply S1|done]). eapply step_trans; [exact S1|]. eapply step_trans; [exact S2|].
    apply simple_retransmit_step; [apply S2|by apply (step_sacking _ _ S2), (step_sacking _ _ S1)].
  - eapply step_trans; [exact S1|]. apply step_part; [apply S1|apply recover_part].
Qed.
Lemma try_undo_partial_step sk n : score sk -> step sk (snd (tcp_try_undo_partial sk n)).
Proof using Type.
  intros Hs. unfold tcp_try_undo_partial. case_match; [|by apply step_refl]. cbn zeta. cbn [snd]. set (sk1 := if negb (tcp_any_retrans_done sk) then _ else sk).
  assert (S1 : step sk sk1) by (apply step_part; [done|unfold sk1; by case_match]). clearbody sk1. eapply step_trans; [exact S1|].
  eapply step_trans; [apply update_reordering_step, S1|]. apply step_part; [|apply undo_cwr_part]. eapply step_score, update_reordering_step, S1.
Qed.
Lemma alert_process_ok sk n flag dup lost : score sk -> sacking sk -> process_ok sk (alert_process sk n flag dup lost).
Proof using TL PL SM CS HI XL.
  intros Hs Hsa. unfold alert_process. rewrite (sacking_reno _ Hsa). destruct (icsk_ca_state (icsk sk)); try by apply open_ok.
  - case_match; [by apply step_refl|]. pose proof (try_undo_partial_step sk n Hs) as H0. by destruct (tcp_try_undo_partial sk n) as [d sk1].
  - cbn zeta. set (sk1 := if has flag FLAG_DATA_ACKED then _ else sk). assert (S1 : step sk sk1) by (apply step_part; [done|unfold sk1; by case_match]). clearbody sk1.
    rewrite (sacking_reno sk1) by (by apply (step_sacking _ _ S1)). cbn [andb]. pose proof (try_undo_loss_step sk1 (step_score _ _ S1)) as S2. destruct (tcp_try_undo_loss sk1) as [undone sk2]. cbn [snd] in S2.
    pose proof (step_trans _ _ _ S1 S2) as S3. case_match; [|case_match].
    + eapply step_trans; [exact S3|]. set (sk3 := sk2 <| tp := _ |>). assert (K3 : step sk2 sk3) by (apply step_part; [apply S3|done]). eapply step_trans; [exact K3|]. apply xmit_queue_step, (step_score _ _ K3).
    + exact S3.
    + pose proof (open_ok sk2 flag dup lost (step_score _ _ S3) ltac:(by apply (step_sacking _ _ S3))) as Ho. unfold process_ok in *. destruct (alert_open sk2 flag dup lost) as [[[sk4 ?] ?]|sk4]; by eapply step_trans.
Qed.
Lemma alert_finish_step sk n lost fast : score sk -> step sk (alert_finish sk n lost fast).
Proof using TL PL FR XL.
  intros Hs. unfold alert_finish. cbn zeta. set (sk1 := if _ || _ then tcp_update_scoreboard sk fast else sk). assert (K1 : step sk sk1) by (unfold sk1; case_match; [by apply update_scoreboard_step|by apply step_refl]).
  clearbody sk1. eapply step_trans; [exact K1|]. match goal with |- step _ (tcp_xmit_retransmit_queue ?s) => assert (K2 : step sk1 s) by (apply step_part; [apply K1|done]) end.
  eapply step_trans; [exact K2|]. apply xmit_queue_step, (step_score _ _ K2).
Qed.
(** Every dubious ACK keeps the scoreboard. *)
Lemma fastretrans_alert_keeps sk n newly flag : score sk -> sacking sk -> front_sent sk flag -> step sk (tcp_fastretrans_alert sk n newly flag).
Proof using TL PL SM CL CS HI FR XL.
  intros Hs Hsa Hf. unfold tcp_fastretrans_alert. cbn zeta. set (dup := negb _). set (lost := dup || _). clearbody dup lost. pose proof (step_part _ _ Hs (sanitize_part sk flag Hs)) as S1. pose proof (front_sent_ids _ _ _ (part_ids _ _ (sanitize_part sk flag Hs)) Hf) as Hf1.
  set (sk1 := alert_sanitize sk flag) in *. clearbody sk1. pose proof (check_reneging_step sk1 flag (step_score _ _ S1) ltac:(by apply (step_sacking _ _ S1)) Hf1) as H1. destruct (tcp_check_sack_reneging sk1 flag) as [[] sk2]; destruct H1 as [K1 E1];
    [by eapply step_trans|]. rewrite (E1 eq_refl). clear sk2 K1 E1. pose proof (step_trans _ _ _ S1 (data_lost_step sk1 flag (step_score _ _ S1))) as S2. set (sk2 := alert_data_lost sk1 flag) in *. clearbody sk2.
  assert (Hsa2 : sacking sk2) by (by apply (step_sacking _ _ S2)). pose proof (step_trans _ _ _ S2 (step_part _ _ (step_score _ _ S2) (exit_part sk2 (sacking_reno _ Hsa2)))) as S3. destruct (alert_exit sk2) as [done sk3]. cbn [snd] in S3.
  case_match; [exact S3|]. pose proof (alert_process_ok sk3 n flag dup lost (step_score _ _ S3) ltac:(by apply (step_sacking _ _ S3))) as H2. destruct (alert_process sk3 n flag dup lost) as [[[sk4 ?] ?]|sk4]; cbn [process_ok] in H2.
  - pose proof (step_trans _ _ _ S3 H2) as S4. eapply step_trans; [exact S4|]. apply alert_finish_step, (step_score _ _ S4).
  - by eapply step_trans.
Qed.

(** ** The state machine *)

(** The moves on a SACK connection: CWR, Recovery and Loss are held until high_seq is acknowledged
    ([acked]); Loss also ends when it is undone, and CWR may become Recovery.  Otherwise the ACK
    is judged anew: Open, Disorder or Recovery, and CWR only for an ECE or if it was CWR. *)
Inductive ca_step (acked undo ece : bool) : tcp_ca_state -> tcp_ca_state -> Prop :=
  | cs_hold s : acked = false -> s = TCP_CA_CWR \/ s = TCP_CA_Recovery \/ s = TCP_CA_Loss /\ undo = false -> ca_step acked undo ece s s
  | cs_recover : ca_step acked undo ece TCP_CA_CWR TCP_CA_Recovery
  | cs_judge s s' : ca_ltb s TCP_CA_CWR = true \/ acked = true \/ s = TCP_CA_Loss /\ undo = true ->
      s' = TCP_CA_Open \/ s' = TCP_CA_Disorder \/ s' = TCP_CA_Recovery \/ s' = TCP_CA_CWR /\ (ece = true \/ s = TCP_CA_CWR) -> ca_step acked undo ece s s'.

Definition st sk : tcp_ca_state := icsk_ca_state (icsk sk).
Definition acked sk : bool := negb (before (snd_una (tp sk)) (high_seq (tp sk))).

Lemma undo_cwr_icsk sk u : icsk (tcp_undo_cwr sk u) = icsk sk.
Proof using Type. unfold tcp_undo_cwr. cbn zeta. by cases_if. Qed.
Lemma undo_dsack_icsk sk : icsk (tcp_try_undo_dsack sk) = icsk sk.
Proof using Type. unfold tcp_try_undo_dsack. case_match; [|done]. exact (undo_cwr_icsk sk true). Qed.
Lemma update_reordering_icsk sk m : icsk (tcp_update_reordering sk m) = icsk sk.
Proof using Type. unfold tcp_update_reordering. by case_match. Qed.
Lemma complete_cwr_icsk sk : icsk (tcp_complete_cwr sk) = icsk sk.
Proof using CL. unfold tcp_complete_cwr. cbn zeta. match goal with |- context [tcp_ca_event ?s ?e] => destruct (ca_event_only s e) as [sk' ->] end. by cases_if. Qed.
Lemma sanitize_ctl sk flag : ctl (alert_sanitize sk flag) = ctl sk.
Proof using Type. unfold alert_sanitize. cbn zeta. by cases_if. Qed.
Lemma data_lost_ctl sk flag : ctl (alert_data_lost sk flag) = ctl sk.
Proof using XL. unfold alert_data_lost. cbn zeta. case_if_as H; [apply mark_head_lost_ctl|done]. Qed.

Lemma try_undo_recovery_sack sk : tcp_is_reno (tp sk) = false -> exists sk', tcp_try_undo_recovery sk = (false, sk') /\ icsk sk' = (icsk sk) <| icsk_ca_state := TCP_CA_Open |>.
Proof using CS SM.
  intros Hr. unfold tcp_try_undo_recovery. set (s1 := if tcp_may_undo (tp sk) then _ else sk).
  assert (E : tcp_is_reno (tp s1) = false /\ icsk s1 = icsk sk). { unfold s1. case_match; [|done]. split; [|exact (undo_cwr_icsk sk true)]. rewrite <- Hr. apply reno_ext. apply (undo_cwr_part sk true). }
  clearbody s1. destruct E as [E1 E2]. cbn zeta. rewrite E1, andb_false_r, set_ca_state_spec. eexists. split; [done|]. cbn. by rewrite E2.
Qed.
(** E: nothing, or the state ends. *)
Lemma exit_state sk : tcp_is_reno (tp sk) = false -> exists sk1, alert_exit sk = (false, sk1) /\ mtup_probe_size (icsk sk1) = mtup_probe_size (icsk sk) /\
  ((st sk = TCP_CA_Open /\ st sk1 = TCP_CA_Open) \/ (acked sk = false /\ sk1 = sk) \/
   (acked sk = true /\ (st sk1 = TCP_CA_Open \/ (st sk1 = st sk /\ (st sk = TCP_CA_CWR \/ st sk = TCP_CA_Disorder))))).
Proof using CL CS SM.
  intros Hr. unfold alert_exit, acked, st. rewrite Hr. destruct (before (snd_una (tp sk)) (high_seq (tp sk))); cbn [negb]; [|destruct (icsk_ca_state (icsk sk)) eqn:Hca].
  - destruct (icsk_ca_state (icsk sk)) eqn:Hca; eexists; (split; [reflexivity|]); (split; [done|]); [left|right; left..]; done.
  - eexists. split; [reflexivity|]. split; [done|]. by left.
  - cbn zeta. assert (Ei := undo_dsack_icsk sk). case_match; eexists; (split; [reflexivity|]); rewrite ?set_ca_state_spec; cbn; rewrite ?Ei; (split; [done|]); right; right; (split; [done|]); [by left|right; rewrite Hca; auto].
  - case_match; eexists; (split; [reflexivity|]); rewrite ?set_ca_state_spec; cbn; rewrite ?complete_cwr_icsk; (split; [done|]); right; right; (split; [done|]); [by left|right; rewrite Hca; auto].
  - cbn zeta. destruct (try_undo_recovery_sack sk Hr) as (sk' & -> & E). eexists. split; [reflexivity|]. rewrite complete_cwr_icsk, E. split; [done|]. right. right. split; [done|]. by left.
  - match goal with |- context [tcp_try_undo_recovery ?s] => destruct (try_undo_recovery_sack s Hr) as (sk' & U & E); rewrite U end. eexists. split; [reflexivity|]. rewrite E. split; [done|]. right. right. split; [done|]. by left.
Qed.
Definition result_sk (r : sock * bool * bool + sock) : sock := match r with inl (sk, _, _) => sk | inr sk => sk end.
Lemma enter_cwr_state sk s : st (tcp_enter_cwr sk s) = if ca_ltb (st sk) TCP_CA_CWR then TCP_CA_CWR else st sk.
Proof using CS. unfold tcp_enter_cwr, st. cbn zeta. cbn. case_if_as H; [|done]. by rewrite set_ca_state_spec. Qed.
Lemma keep_open_state sk : st (tcp_try_keep_open sk) = TCP_CA_Open \/ st (tcp_try_keep_open sk) = TCP_CA_Disorder.
Proof using CS.
  unfold tcp_try_keep_open, st. cbn zeta. set (s := if _ || _ || _ then _ else _). assert (Hs : s = TCP_CA_Open \/ s = TCP_CA_Disorder) by (unfold s; case_match; auto). clearbody s.
  destruct (ca_eqb (icsk_ca_state (icsk sk)) s) eqn:E; cbn [negb]; [|by rewrite set_ca_state_spec]. unfold ca_eqb in E. apply bool_decide_eq_true in E. by rewrite E.
Qed.
Lemma cwnd_down_icsk sk flag : icsk (tcp_cwnd_down sk flag) = icsk sk.
Proof using Type. unfold tcp_cwnd_down. cbn zeta. by cases_if. Qed.
(** In Open, Disorder or CWR. *)
Definition low sk : Prop := st sk = TCP_CA_Open \/ st sk = TCP_CA_Disorder \/ st sk = TCP_CA_CWR.
Definition judged (ece : bool) sk (s' : tcp_ca_state) : Prop :=
  s' = TCP_CA_Recovery \/ (st sk = TCP_CA_CWR /\ s' = TCP_CA_CWR) \/ (st sk <> TCP_CA_CWR /\ (s' = TCP_CA_Open \/ s' = TCP_CA_Disorder \/ s' = TCP_CA_CWR /\ ece = true)).
Lemma to_open_state sk flag : low sk -> judged (has flag FLAG_ECE) sk (st (tcp_try_to_open sk flag)).
Proof using CS.
  intros Hl. unfold tcp_try_to_open. cbn zeta. set (sk1 := if (frto_counter (tp sk) =? 0) && _ then _ else sk). assert (E1 : st sk1 = st sk) by (unfold sk1; by destruct ((frto_counter (tp sk) =? 0) && negb (tcp_any_retrans_done sk))). clearbody sk1.
  set (sk2 := if has flag FLAG_ECE then _ else sk1). assert (E2 : st sk2 = if has flag FLAG_ECE && ca_ltb (st sk) TCP_CA_CWR then TCP_CA_CWR else st sk)
    by (unfold sk2; destruct (has flag FLAG_ECE); [by rewrite enter_cwr_state, E1|exact E1]). clearbody sk2. fold (st sk2). unfold judged.
  destruct (ca_eqb (st sk2) TCP_CA_CWR) eqn:Ec; unfold ca_eqb in Ec; cbn [negb]; [apply bool_decide_eq_true in Ec|apply bool_decide_eq_false in Ec].
  - assert (Ed : st (tcp_cwnd_down sk2 flag) = TCP_CA_CWR) by (unfold st; rewrite cwnd_down_icsk; exact Ec). rewrite Ed. rewrite Ec in E2. destruct Hl as [Hl|[Hl|Hl]]; rewrite Hl in *; cbn in E2; [..|by right; left]; right; right; (split; [done|]); (destruct (has flag FLAG_ECE); [|done]); auto.
  - pose proof (keep_open_state sk2) as Hk. right. right. split; [|by destruct Hk as [Hk|Hk]; [left|right; left]]. intros H. rewrite H in E2. cbn in E2. rewrite andb_false_r in E2. done.
Qed.
Lemma open_state sk flag dup lost : tcp_is_reno (tp sk) = false -> mtup_probe_size (icsk sk) = 0 -> low sk -> judged (has flag FLAG_ECE) sk (st (result_sk (alert_open sk flag dup lost))).
Proof using CS.
  intros Hr Hm Hl. unfold alert_open. rewrite Hr. cbn zeta. set (sk1 := if ca_eqb _ _ then tcp_try_undo_dsack sk else sk). assert (Ei : icsk sk1 = icsk sk) by (unfold sk1; case_match; [apply undo_dsack_icsk|done]). clearbody sk1.
  case_if_as H1; cbn [result_sk].
  - pose proof (to_open_state sk1 flag) as H. unfold low, judged, st in *. rewrite Ei in H. by apply H.
  - rewrite Ei, Hm. cbn [Z.eqb negb]. rewrite andb_false_r. cbn [andb result_sk]. left. unfold alert_recover. cbn zeta. unfold st. by rewrite set_ca_state_spec.
Qed.
Lemma try_undo_partial_icsk sk n : icsk (snd (tcp_try_undo_partial sk n)) = icsk sk.
Proof using Type. unfold tcp_try_undo_partial. case_match; [|done]. cbn zeta. cbn [snd]. rewrite undo_cwr_icsk, update_reordering_icsk. by case_match. Qed.
Lemma try_undo_loss_spec sk : score sk -> sacking sk -> exists sk', tcp_try_undo_loss sk = (tcp_may_undo (tp sk), sk') /\ mtup_probe_size (icsk sk') = mtup_probe_size (icsk sk) /\
  st sk' = if tcp_may_undo (tp sk) then TCP_CA_Open else st sk.
Proof using TL HI SM CS.
  intros Hs Hsa. pose proof (step_sacking _ _ (try_undo_loss_step sk Hs) Hsa) as Ssa. unfold tcp_try_undo_loss in *. case_match; [|by eexists]. eexists. split; [reflexivity|]. cbn zeta in Ssa. cbn [snd] in Ssa.
  destruct (undo_walk_ok sk Hs) as (_ & _ & [= _ E2 _]). cbn in E2. set (sk1 := tcp_for_sent undo_loss_skb sk) in *. clearbody sk1.
  match type of Ssa with context [if tcp_is_sack (tp ?s) then _ else _] => set (sk2 := s) in * end. assert (Ei : icsk sk2 = (icsk sk) <| icsk_retransmits := 0 |>) by (unfold sk2; match goal with |- context [tcp_undo_cwr ?s true] => pose proof (undo_cwr_icsk s true) as Eu; destruct (tcp_undo_cwr s true) end; cbn in *; by rewrite Eu, E2).
  clearbody sk2. assert (Hk : tcp_is_sack (tp sk2) = true) by (destruct (tcp_is_sack (tp sk2)) eqn:E; [done|by rewrite (sacking_sack sk2) in E]). rewrite Hk, set_ca_state_spec. unfold st. cbn. by rewrite Ei.
Qed.
Lemma process_state sk n flag dup lost : score sk -> sacking sk -> mtup_probe_size (icsk sk) = 0 -> let s' := st (result_sk (alert_process sk n flag dup lost)) in
  (st sk = TCP_CA_Recovery /\ s' = TCP_CA_Recovery) \/ (st sk = TCP_CA_Loss /\ tcp_may_undo (tp sk) = false /\ s' = TCP_CA_Loss) \/
  (low sk /\ judged (has flag FLAG_ECE) sk s') \/
  (st sk = TCP_CA_Loss /\ tcp_may_undo (tp sk) = true /\ (s' = TCP_CA_Open \/ s' = TCP_CA_Disorder \/ s' = TCP_CA_Recovery \/ s' = TCP_CA_CWR /\ has flag FLAG_ECE = true)).
Proof using TL SM CS HI XL.
  intros Hs Hsa Hm. pose proof (sacking_reno _ Hsa) as Hr. assert (Hopen : low sk -> judged (has flag FLAG_ECE) sk (st (result_sk (alert_open sk flag dup lost)))) by (by apply open_state).
  unfold alert_process. rewrite Hr. fold (st sk). destruct (st sk) eqn:Hst; try (right; right; left; assert (Hl : low sk) by (unfold low; rewrite Hst; auto); split; [done|by apply Hopen]).
  - left. split; [done|]. case_match; [exact Hst|]. pose proof (try_undo_partial_icsk sk n) as E. destruct (tcp_try_undo_partial sk n) as [d sk1]. cbn in *. unfold st. by rewrite E.
  - cbn zeta. set (sk1 := if has flag FLAG_DATA_ACKED then _ else sk). assert (E1 : tp sk1 = tp sk /\ mtup_probe_size (icsk sk1) = 0 /\ st sk1 = st sk /\ score sk1) by (unfold sk1; case_match; [split_and!; [done..|by apply (score_ext sk)]|done]).
    clearbody sk1. destruct E1 as (E1 & Hm1 & Hst1 & Hs1). assert (Hsa1 : sacking sk1) by (unfold sacking; by rewrite E1). rewrite (sacking_reno _ Hsa1). cbn [andb]. rewrite <- E1.
    pose proof (step_sacking _ _ (try_undo_loss_step sk1 Hs1) Hsa1) as Hsa2. destruct (try_undo_loss_spec sk1 Hs1 Hsa1) as (sk2 & Eu & Hm2 & Hst2). rewrite Eu in *. cbn [snd] in Hsa2. destruct (tcp_may_undo (tp sk1)); cbn [negb].
    + right. right. right. split; [done|]. split; [done|]. fold (st sk2). rewrite Hst2. cbn [ca_eqb]. unfold ca_eqb. rewrite bool_decide_true by done. cbn [negb].
      pose proof (open_state sk2 flag dup lost (sacking_reno _ Hsa2) ltac:(congruence) ltac:(by left)) as H. unfold judged in H. destruct H as [H|[[H _]|(_ & [H|[H|H]])]]; [auto|congruence|auto..].
    + right. left. split; [done|]. split; [done|]. cbn [result_sk]. unfold st. rewrite xmit_queue_ca. cbn. fold (st sk2). by rewrite Hst2, Hst1, Hst.
Qed.
Lemma alert_finish_state sk n lost fast : st (alert_finish sk n lost fast) = st sk.
Proof using XL.
  unfold alert_finish, st. cbn zeta. rewrite xmit_queue_ca. case_match; [|done]. pose proof (update_scoreboard_ctl sk fast) as E. exact (f_equal (fun x => snd (fst x)) E).
Qed.
(** Case analysis of conjunctions and disjunctions. *)
Local Ltac split_ors := repeat match goal with H : _ /\ _ |- _ => destruct H | H : _ \/ _ |- _ => destruct H end; first [congruence|subst; auto 8].
(** Putting E and F together. *)
Lemma ca_step_of sk1 sk2 undo ece s' :
  ((st sk1 = TCP_CA_Open /\ st sk2 = TCP_CA_Open) \/ (acked sk1 = false /\ sk2 = sk1) \/
   (acked sk1 = true /\ (st sk2 = TCP_CA_Open \/ (st sk2 = st sk1 /\ (st sk1 = TCP_CA_CWR \/ st sk1 = TCP_CA_Disorder))))) ->
  ((st sk2 = TCP_CA_Recovery /\ s' = TCP_CA_Recovery) \/ (st sk2 = TCP_CA_Loss /\ tcp_may_undo (tp sk2) = false /\ s' = TCP_CA_Loss) \/ (low sk2 /\ judged ece sk2 s') \/
   (st sk2 = TCP_CA_Loss /\ tcp_may_undo (tp sk2) = true /\ (s' = TCP_CA_Open \/ s' = TCP_CA_Disorder \/ s' = TCP_CA_Recovery \/ s' = TCP_CA_CWR /\ ece = true))) ->
  (sk2 = sk1 -> undo = tcp_may_undo (tp sk2)) -> ca_step (acked sk1) undo ece (st sk1) s'.
Proof using Type.
  intros Hex Hp Hu. unfold low, judged in Hp. destruct Hex as [[E1 E2]|[[Ha ->]|(Ha & Hex)]].
  - apply cs_judge; [left; by rewrite E1|]. rewrite E2 in Hp. split_ors.
  - specialize (Hu eq_refl). subst undo. destruct Hp as [[E ->]|[(E & Hu & ->)|[[Hl Hj]|(E & Hu & Hj)]]]; [rewrite E; apply cs_hold; auto|rewrite E; apply cs_hold; auto| |rewrite E; apply cs_judge; split_ors].
    destruct Hl as [E|[E|E]]; rewrite E in *; [apply cs_judge; [by left|split_ors]..|]. destruct Hj as [->|[[_ ->]|[? _]]]; [apply cs_recover|apply cs_hold; auto|done].
  - apply cs_judge; [auto|]. destruct Hex as [E|[E H1]]; rewrite E in Hp; [split_ors|]. destruct H1 as [H1|H1]; rewrite H1 in *; split_ors.
Qed.
(** C35. The moves of the congestion state machine in tcp_fastretrans_alert: without reneging and without an
    MTU probe, an ACK of a SACK connection makes a [ca_step], whose guards are those of the
    sequence numbers and of the undo information when the ACK arrives.  The scoreboard, with neither
    SYN nor FIN in the write queue, stays consistent and the left edge of the window where it is;
    of the retransmissions it is assumed that they send buffers of the queue again, whole or cut. *)
Theorem fastretrans_alert_step sk n newly flag : score sk -> sacking sk -> has flag FLAG_SACK_RENEGING = false -> mtup_probe_size (icsk sk) = 0 ->
  let sk' := tcp_fastretrans_alert sk n newly flag in
  ca_step (acked sk) (tcp_may_undo (tp sk)) (has flag FLAG_ECE) (st sk) (st sk') /\ kept sk sk' /\ snd_una (tp sk') = snd_una (tp sk).
Proof using TL PL SM CL CS HI FR XL.
  intros Hs Hsa Hn Hm. split; [|by destruct (fastretrans_alert_keeps sk n newly flag Hs Hsa ltac:(unfold front_sent; congruence)) as (? & _ & ?)]. unfold tcp_fastretrans_alert. cbn zeta. set (dup := negb _). set (lost := dup || _). clearbody dup lost. unfold tcp_check_sack_reneging. rewrite Hn.
  pose proof (step_part _ _ Hs (sanitize_part sk flag Hs)) as S1. pose proof (data_lost_step _ flag (step_score _ _ S1)) as S2. pose proof (step_trans _ _ _ S1 S2) as S3. clear S1 S2.
  assert (Ec : ctl (alert_data_lost (alert_sanitize sk flag) flag) = ctl sk) by (by rewrite data_lost_ctl, sanitize_ctl). set (sk1 := alert_data_lost _ flag) in *. clearbody sk1.
  unfold ctl in Ec. injection Ec as X1 X2 X3 X4 X5 X6 X7 X8. assert (Hsa1 : sacking sk1) by (by apply (step_sacking _ _ S3)). assert (Ea : acked sk1 = acked sk) by (unfold acked; by rewrite X5, X6).
  assert (Eu : tcp_may_undo (tp sk1) = tcp_may_undo (tp sk)) by (unfold tcp_may_undo, tcp_packet_delayed; by rewrite X1, X2, X3, X4). fold (st sk1) in X7. fold (st sk) in X7. rewrite <- X7, <- Ea, <- Eu.
  pose proof (step_part _ _ (step_score _ _ S3) (exit_part sk1 (sacking_reno _ Hsa1))) as S4. destruct (exit_state sk1 (sacking_reno _ Hsa1)) as (sk2 & Ex & Hm2 & Hex). rewrite Ex in *. cbn [snd] in S4.
  pose proof (process_state sk2 n flag dup lost (step_score _ _ S4) ltac:(by apply (step_sacking _ _ S4)) ltac:(congruence)) as Hp. cbn zeta in Hp.
  assert (Ef : st match alert_process sk2 n flag dup lost with inr sk => sk | inl (sk, l, f) => alert_finish sk newly l f end = st (result_sk (alert_process sk2 n flag dup lost)))
    by (destruct (alert_process sk2 n flag dup lost) as [[[? ?] ?]|?]; [apply alert_finish_state|done]). rewrite Ef. clear Ef. set (s' := st (result_sk _)) in *. clearbody s'.
  apply (ca_step_of sk1 sk2); [done|done|by intros ->].
Qed.
End Keep.

(** ** The window during Recovery *)
Section Prr.
Context {K : Kernel} {CS : CaStateLaws K} {RL : RenoLaws K}.
Implicit Types (sk : sock) (t : tcp_sock).

(** The rounded-up share of ssthresh that belongs to the delivered part of the window. *)
Definition prr_share t : Z := (snd_ssthresh t * prr_delivered t + prior_cwnd t - 1) / prior_cwnd t.
Lemma prr_share_le t : 0 <= snd_ssthresh t -> 0 <= prr_delivered t <= prior_cwnd t -> 0 < prior_cwnd t -> 0 <= prr_share t <= snd_ssthresh t.
Proof using Type.
  intros Hs Hd Hp. unfold prr_share. split; [apply Z.div_pos; nia|]. apply Z.lt_succ_r. apply Z.div_lt_upper_bound; [done|]. nia.
Qed.
(** C40. Proportional rate reduction.  While more is in flight than ssthresh, the window lets out what keeps the
    packets sent in Recovery at the share of ssthresh that belongs to the delivered part of the
    window, so never more than ssthresh in all; below, it grows towards ssthresh and not beyond,
    by at most one packet more than was delivered.  A fast retransmit always gets its packet. *)
Theorem prr_bounds t newly (fast : bool) : 0 <= tcp_packets_in_flight t < 2 ^ 30 -> 0 <= snd_ssthresh t < 2 ^ 30 -> 0 <= prr_out t < 2 ^ 30 -> 0 < prior_cwnd t < 2 ^ 30 ->
  0 <= prr_delivered t <= prior_cwnd t -> 0 <= newly < 2 ^ 30 ->
  let flight := tcp_packets_in_flight t in
  let cwnd := snd_cwnd (tcp_update_cwnd_in_recovery t newly fast) in
  (if flight >? snd_ssthresh t
   then cwnd = flight + Z.max (prr_share t - prr_out t) (b2z fast) /\ prr_out t + (cwnd - flight) <= Z.max (snd_ssthresh t) (prr_out t + b2z fast)
   else flight <= cwnd <= Z.max (snd_ssthresh t) (flight + b2z fast) /\ cwnd - flight <= Z.max (prr_delivered t - prr_out t) newly + 1) /\
  flight + b2z fast <= cwnd.
Proof using Type.
  intros Hf Hs Ho Hc Hd Hn. cbn zeta. unfold tcp_update_cwnd_in_recovery. cbn [snd_cwnd set set_snd_cwnd]. cbn. unfold prr_sndcnt. cbn zeta. fold (b2z fast).
  assert (Hb : 0 <= b2z fast <= 1) by (destruct fast; cbn; lia). pose proof (prr_share_le t ltac:(lia) Hd ltac:(lia)) as Hsh. destruct (tcp_packets_in_flight t >? snd_ssthresh t) eqn:E.
  - assert (Eq : s32 (u64 (snd_ssthresh t * prr_delivered t + prior_cwnd t - 1) / prior_cwnd t - prr_out t) = prr_share t - prr_out t).
    { unfold prr_share in *. assert (0 <= snd_ssthresh t * prr_delivered t + prior_cwnd t - 1 < 2 ^ 64) by nia. assert (Hu : u64 (snd_ssthresh t * prr_delivered t + prior_cwnd t - 1) = snd_ssthresh t * prr_delivered t + prior_cwnd t - 1) by (unfold u64; by apply Z.mod_small).
      rewrite Hu. apply s32_small. lia. }
    rewrite Eq, u32_small by (unfold is_u32; lia). lia.
  - rewrite Z.gtb_ltb in E. apply Z.ltb_ge in E. rewrite (s32_small (prr_delivered t - prr_out t)) by lia. rewrite !s32_small by lia. rewrite u32_small by (unfold is_u32; lia). lia.
Qed.

(** Entering Recovery saves what an undo needs: when the reduction turns out to be wrong, then whatever the
    window did meanwhile, undoing brings back a threshold that is not below the one before
    Recovery, and a window that is at most one packet smaller than the one before. *)
Theorem recovery_undo_restores sk flag sk2 : ca_ltb (icsk_ca_state (icsk sk)) TCP_CA_CWR = true -> has flag FLAG_ECE = false ->
  0 < snd_cwnd (tp sk) < 2 ^ 31 -> 0 < snd_ssthresh (tp sk) ->
  prior_ssthresh (tp sk2) = prior_ssthresh (tp (alert_recover sk flag)) -> snd_ssthresh (tp sk2) = snd_ssthresh (tp (alert_recover sk flag)) ->
  let sk3 := tcp_undo_cwr sk2 true in
  snd_ssthresh (tp sk) <= snd_ssthresh (tp sk3) /\ snd_cwnd (tp sk) - 1 <= snd_cwnd (tp sk3) /\ snd_cwnd (tp sk2) <= snd_cwnd (tp sk3).
Proof using CS RL.
  intros Hca He Hc Hss. assert (Hp : prior_ssthresh (tp (alert_recover sk flag)) = Z.max (snd_ssthresh (tp sk)) (snd_cwnd (tp sk) / 2 + snd_cwnd (tp sk) / 4) /\
    snd_ssthresh (tp (alert_recover sk flag)) = Z.max (snd_cwnd (tp sk) / 2) 2).
  { unfold alert_recover. cbn zeta. rewrite set_ca_state_spec. cbn -[TCP_ECN_queue_cwr ca_ltb]. rewrite Hca, He. cbn -[TCP_ECN_queue_cwr ca_ltb]. unfold TCP_ECN_queue_cwr. rewrite current_ssthresh_spec by exact Hca. rewrite reno_ssthresh. by case_match. }
  destruct Hp as [-> ->]. intros H1 H2. cbn zeta. unfold tcp_undo_cwr. cbn zeta. rewrite reno_undo. rewrite H1. destruct (Z.eqb_spec (Z.max (snd_ssthresh (tp sk)) (snd_cwnd (tp sk) / 2 + snd_cwnd (tp sk) / 4)) 0) as [E|_]; [lia|].
  cbn [negb]. rewrite Z.shiftl_mul_pow2, H2 by lia. change (2 ^ 1) with 2. rewrite u32_small by (unfold is_u32; split; [|clear - Hc]; dlia).
  cbn [andb]. case_if_as Hg; cbn; rewrite ?H1, ?H2; cbn in Hg; rewrite ?H1, ?H2 in Hg; (split; [|split]); dlia.
Qed.
End Prr.

Module Demo.
#[local] Existing Instance linux.
#[local] Existing Instance Scoreboard.Demo.linux_frag.
#[export] Instance linux_xmit : XmitLaws.
Proof.
  assert (R : forall sk h, let sk' := linux_retransmit sk h in rx_opt (tp sk') = rx_opt (tp sk) /\ snd_una (tp sk') = snd_una (tp sk) /\ icsk sk' = icsk sk) by (intros sk h; unfold linux_retransmit; by case_match).
  assert (X : forall sk, let sk' := linux_xmit_queue sk in rx_opt (tp sk') = rx_opt (tp sk) /\ snd_una (tp sk') = snd_una (tp sk) /\ icsk sk' = icsk sk) by (intros sk; unfold linux_xmit_queue; case_match; [apply R|done]).
  split; intros; try done; try apply R; try apply X.
  - apply rtc_once. by eapply Concrete.retransmit_ok.
  - by apply Concrete.xmit_queue_ok.
  - cbn. by rewrite (proj2 (proj2 (X sk))).
  - cbn. unfold linux_fragment. destruct (wq_get sk i) as [b|]; [|done]. by cases_if.
Qed.
Notation sk_sack := Recovery.Demo.sk_sack.

(** A duplicate ACK of a connection in Disorder with three SACKed packets takes it to Recovery. *)
Definition sk_dis : sock := sk_sack <| icsk; icsk_ca_state := TCP_CA_Disorder |> <| tp; fackets_out := 5 |> <| tp; high_seq := u32 (Scoreboard.Demo.base + 500) |> <| tp; undo_marker := 0 |>
  <| tp; snd_ssthresh := 100 |>.
Definition sk_rec : sock := tcp_fastretrans_alert sk_dis 0 1 FLAG_DATA_SACKED.
Example sk_rec_state : (st sk_rec, snd_ssthresh (tp sk_rec), snd_cwnd (tp sk_rec), lost_out (tp sk_rec)) = (TCP_CA_Recovery, 5, 4, 4).
Proof. vm_compute. reflexivity. Qed.
(** The first buffer, now LOST, was retransmitted. *)
Example sk_rec_resent : (sacked <$> sk_write_queue sk_rec, retrans_out (tp sk_rec), retrans_out (tp sk_dis)) = ([134; 1; 4; 6], 3, 2).
Proof. vm_compute. reflexivity. Qed.
Lemma sk_dis_score : score sk_dis.
Proof. exact (score_ext sk_sack sk_dis eq_refl Recovery.Demo.sk_sack_score). Defined.
Lemma fastretrans_alert_step_witness : ca_step false false false TCP_CA_Disorder TCP_CA_Recovery /\ kept sk_dis sk_rec.
Proof.
  destruct (fastretrans_alert_step sk_dis 0 1 FLAG_DATA_SACKED sk_dis_score ltac:(vm_compute; reflexivity) ltac:(vm_compute; reflexivity) ltac:(vm_compute; reflexivity)) as (H1 & H2 & _).
  split; [|exact H2]. vm_compute in H1. exact H1.
Defined.
Definition t_prr : tcp_sock := blank_tcp <| packets_out := 20 |> <| snd_ssthresh := 10 |> <| prior_cwnd := 20 |> <| prr_delivered := 5 |> <| prr_out := 1 |>.
Lemma prr_bounds_witness : let cwnd := snd_cwnd (tcp_update_cwnd_in_recovery t_prr 1 false) in cwnd = 22 /\ 1 + (cwnd - 20) <= 10.
Proof.
  assert (E : tcp_packets_in_flight t_prr = 20) by reflexivity.
  assert (H1 : 0 <= tcp_packets_in_flight t_prr < 2 ^ 30) by (rewrite E; lia). assert (H2 : 0 <= snd_ssthresh t_prr < 2 ^ 30) by (cbn; lia). assert (H3 : 0 <= prr_out t_prr < 2 ^ 30) by (cbn; lia).
  assert (H4 : 0 < prior_cwnd t_prr < 2 ^ 30) by (cbn; lia). assert (H5 : 0 <= prr_delivered t_prr <= prior_cwnd t_prr) by (cbn; lia). assert (H6 : 0 <= 1 < 2 ^ 30) by lia.
  destruct (prr_bounds t_prr 1 false H1 H2 H3 H4 H5 H6) as [H _]. rewrite E in H. destruct H as [Ha Hb]. split; [vm_compute; reflexivity|exact Hb].
Defined.
Definition sk_open : sock := sk_dis <| icsk; icsk_ca_state := TCP_CA_Open |>.
Lemma recovery_undo_restores_witness : 100 <= snd_ssthresh (tp (tcp_undo_cwr (alert_recover sk_open 0) true)) /\ 9 <= snd_cwnd (tp (tcp_undo_cwr (alert_recover sk_open 0) true)).
Proof.
  assert (Hc : 0 < snd_cwnd (tp sk_open) < 2 ^ 31) by (change (snd_cwnd (tp sk_open)) with 10; lia). assert (Hs : 0 < snd_ssthresh (tp sk_open)) by (change (snd_ssthresh (tp sk_open)) with 100; lia).
  destruct (recovery_undo_restores sk_open 0 (alert_recover sk_open 0) eq_refl eq_refl Hc Hs eq_refl eq_refl) as (H1 & H2 & _).
  split; [exact H1|exact H2].
Defined.
End Demo.
