(* ===== verification/Ack.v ===== *)
(** * Processing of acknowledgments

    net/ipv4/tcp_input.c, lines 3258-3812: removing what is acknowledged from the write queue, the
    send window, the answer of F-RTO to the ACKs that follow a timeout, and tcp_ack. *)

From S2P Require Import Prelude TcpTypes Kernel RcvTune Rtt TcpOpt WriteQueue Xmit Scoreboard Recovery Cong.

(** What tcp_clean_rtx_queue accumulates. *)
Record clean_state := mk_clean { cl_flag : Z; cl_pkts_acked : Z; cl_reord : Z; cl_seq_rtt : Z; cl_ca_seq_rtt : Z; cl_last_ackt : Z }.

Section Ack.
Context {K : Kernel}.
Implicit Types (sk : sock) (skb : sk_buff) (t : tcp_sock) (c : clean_state).

(** ** The write queue *)

(** The whole buffer has not been acknowledged; [None] is a BUG(). *)
Definition tcp_tso_acked sk skb : option (Z * sock) :=
  if negb (after (end_seq skb) (snd_una (tp sk))) then None else
  let packets_acked := tcp_skb_pcount skb in
  let '(err, sk) := tcp_trim_head sk (skb_id skb) (u32 (snd_una (tp sk) - seq skb)) in
  if negb (err =? 0) then Some (0, sk) else
  let skb := default skb (wq_get sk (skb_id skb)) in
  let packets_acked := u32 (packets_acked - tcp_skb_pcount skb) in
  if negb (packets_acked =? 0) && ((tcp_skb_pcount skb =? 0) || negb (before (seq skb) (end_seq skb))) then None else Some (packets_acked, sk).

(** The round-trip samples and the reordering metric of one buffer; [tags] are its tags. *)
Definition clean_rtt skb (tags acked_pcount : Z) c : clean_state :=
  if has tags TCPCB_RETRANS then
    let flag := bset (cl_flag c) FLAG_RETRANS_DATA_ACKED in
    let flag := if has flag FLAG_DATA_ACKED || (acked_pcount >? 1) then bset flag FLAG_NONHEAD_RETRANS_ACKED else flag in
    mk_clean flag (cl_pkts_acked c) (cl_reord c) (-1) (-1) (cl_last_ackt c)
  else
    let ca_seq_rtt := s32 (tcp_time_stamp - when_ skb) in
    let seq_rtt := if cl_seq_rtt c <? 0 then ca_seq_rtt else cl_seq_rtt c in
    let reord := if negb (has tags TCPCB_SACKED_ACKED) then Z.min (cl_pkts_acked c) (cl_reord c) else cl_reord c in
    mk_clean (cl_flag c) (cl_pkts_acked c) reord seq_rtt ca_seq_rtt (tstamp skb).
(** The counters. *)
Definition clean_count sk (tags acked_pcount : Z) : sock :=
  let sk := if has tags TCPCB_RETRANS && has tags TCPCB_SACKED_RETRANS then sk <| tp; retrans_out := u32 (retrans_out (tp sk) - acked_pcount) |> else sk in
  let sk := if has tags TCPCB_SACKED_ACKED then sk <| tp; sacked_out := u32 (sacked_out (tp sk) - acked_pcount) |> else sk in
  let sk := if has tags TCPCB_LOST then sk <| tp; lost_out := u32 (lost_out (tp sk) - acked_pcount) |> else sk in
  sk <| tp; packets_out := u32 (packets_out (tp sk) - acked_pcount) |>.
Definition clean_flags skb c (acked_pcount : Z) : clean_state :=
  let flag := if negb (has (tcp_flags skb) TCPHDR_SYN) then bset (cl_flag c) FLAG_DATA_ACKED else bset (cl_flag c) FLAG_SYN_ACKED in
  mk_clean flag (u32 (cl_pkts_acked c + acked_pcount)) (cl_reord c) (cl_seq_rtt c) (cl_ca_seq_rtt c) (cl_last_ackt c).
Definition clean_syn sk skb : sock := if has (tcp_flags skb) TCPHDR_SYN then sk <| tp; retrans_stamp := 0 |> else sk.
(** The buffer leaves the queue. *)
Definition clean_unlink sk skb : sock :=
  let i := skb_id skb in
  let sk := sk_wmem_free_skb (wq_unlink sk i) skb in
  let sk := sk <| tp; scoreboard_skb_hint := None |> in
  let sk := if is_hint (retransmit_skb_hint (tp sk)) i then sk <| tp; retransmit_skb_hint := None |> else sk in
  if is_hint (lost_skb_hint (tp sk)) i then sk <| tp; lost_skb_hint := None |> else sk.
(** The loop; every round but the last removes the head of the queue. *)
Fixpoint clean_loop (fuel : nat) sk c : option (sock * clean_state) :=
  match fuel, head (sk_write_queue sk) with
  | O, _ | _, None => Some (sk, c)
  | S fuel, Some skb =>
    if is_send_head sk (skb_id skb) then Some (sk, c)
    else if after (end_seq skb) (snd_una (tp sk)) then
      if (tcp_skb_pcount skb =? 1) || negb (after (snd_una (tp sk)) (seq skb)) then Some (sk, c) else
      match tcp_tso_acked sk skb with
      | None => None
      | Some (acked_pcount, sk) =>
        if acked_pcount =? 0 then Some (sk, c)
        else Some (clean_syn (clean_count sk (sacked skb) acked_pcount) skb, clean_flags skb (clean_rtt skb (sacked skb) acked_pcount c) acked_pcount)
      end
    else
      let acked_pcount := tcp_skb_pcount skb in
      let c := clean_flags skb (clean_rtt skb (sacked skb) acked_pcount c) acked_pcount in
      let sk := clean_syn (clean_count sk (sacked skb) acked_pcount) skb in
      clean_loop fuel (clean_unlink sk skb) c
  end.

(** The sample for the congestion module, in microseconds. *)
Definition clean_rtt_us c : Z :=
  if negb (has (cl_flag c) FLAG_RETRANS_DATA_ACKED) then
    if ca_rtt_stamp && negb (cl_last_ackt c =? net_invalid_timestamp) then s32 (ktime_us_since (cl_last_ackt c))
    else if cl_ca_seq_rtt c >=? 0 then s32 (jiffies_to_usecs (cl_ca_seq_rtt c)) else -1
  else -1.
(** What follows when something was acknowledged. *)
Definition clean_acked sk c (prior_fackets prior_sacked : Z) : sock :=
  let sk := if negb (mtup_probe_size (icsk sk) =? 0) && negb (after (probe_seq_end (tp sk)) (snd_una (tp sk))) then tcp_mtup_probe_success sk else sk in
  let sk := tcp_ack_update_rtt sk (cl_flag c) (cl_seq_rtt c) in
  let sk := tcp_rearm_rto sk in
  let pkts_acked := cl_pkts_acked c in
  let sk :=
    if tcp_is_reno (tp sk) then tcp_remove_reno_sacks sk (s32 pkts_acked)
    else
      let sk := if cl_reord c <? prior_fackets then tcp_update_reordering sk (s32 (fackets_out (tp sk) - cl_reord c)) else sk in
      let delta := if tcp_is_fack (tp sk) then s32 pkts_acked else s32 (prior_sacked - sacked_out (tp sk)) in
      sk <| tp; lost_cnt_hint := s32 (lost_cnt_hint (tp sk) - Z.min (lost_cnt_hint (tp sk)) delta) |> in
  let sk := sk <| tp; fackets_out := u32 (fackets_out (tp sk) - Z.min pkts_acked (fackets_out (tp sk))) |> in
  match ca_pkts_acked with Some f => f sk pkts_acked (clean_rtt_us c) | None => sk end.
Definition tcp_clean_rtx_queue sk (prior_fackets prior_snd_una : Z) : option (Z * sock) :=
  let prior_sacked := sacked_out (tp sk) in
  match clean_loop (length (sk_write_queue sk)) sk (mk_clean 0 0 (packets_out (tp sk)) (-1) (-1) net_invalid_timestamp) with
  | None => None
  | Some (sk, c) =>
    let sk := if between (snd_up (tp sk)) prior_snd_una (snd_una (tp sk)) then sk <| tp; snd_up := snd_una (tp sk) |> else sk in
    let flag := match head (sk_write_queue sk) with
                | Some skb => if has (sacked skb) TCPCB_SACKED_ACKED then bset (cl_flag c) FLAG_SACK_RENEGING else cl_flag c
                | None => cl_flag c
                end in
    let c := mk_clean flag (cl_pkts_acked c) (cl_reord c) (cl_seq_rtt c) (cl_ca_seq_rtt c) (cl_last_ackt c) in
    Some (flag, if has flag FLAG_ACKED then clean_acked sk c prior_fackets prior_sacked else sk)
  end.

(** ** The send window *)
Definition tcp_ack_probe sk : sock :=
  match sk_send_head sk ≫= wq_get sk with
  | None => sk
  | Some skb =>
    if negb (after (end_seq skb) (tcp_wnd_end (tp sk))) then inet_csk_clear_xmit_timer (sk <| icsk; icsk_backoff := 0 |>) ICSK_TIME_PROBE0
    else inet_csk_reset_xmit_timer sk ICSK_TIME_PROBE0 (Z.min (u32 (Z.shiftl (icsk_rto (icsk sk)) (icsk_backoff (icsk sk)))) TCP_RTO_MAX) TCP_RTO_MAX
  end.
Definition tcp_ack_is_dubious sk (flag : Z) : bool :=
  negb (has flag FLAG_NOT_DUP) || has flag FLAG_CA_ALERT || negb (ca_eqb (icsk_ca_state (icsk sk)) TCP_CA_Open).
Definition tcp_may_raise_cwnd sk (flag : Z) : bool :=
  (negb (has flag FLAG_ECE) || (snd_cwnd (tp sk) <? snd_ssthresh (tp sk)))
  && negb (ca_eqb (icsk_ca_state (icsk sk)) TCP_CA_Recovery || ca_eqb (icsk_ca_state (icsk sk)) TCP_CA_CWR).
Definition tcp_ack_update_window sk skb (ack ack_seq : Z) : Z * sock :=
  let nwin := th_window (skb_th skb) in
  let nwin := if negb (th_syn (skb_th skb)) then u32 (Z.shiftl nwin (snd_wscale (rx_opt (tp sk)))) else nwin in
  let '(flag, sk) :=
    if tcp_may_update_window (tp sk) ack ack_seq nwin then
      let sk := sk <| tp := tcp_update_wl (tp sk) ack_seq |> in
      let sk :=
        if negb (snd_wnd (tp sk) =? nwin) then
          let sk := sk <| tp; snd_wnd := nwin |> <| tp; pred_flags := 0 |> in
          let sk := tcp_fast_path_check sk in
          if nwin >? max_window (tp sk) then tcp_sync_mss (sk <| tp; max_window := nwin |>) (icsk_pmtu_cookie (icsk sk)) else sk
        else sk in
      (FLAG_WIN_UPDATE, sk)
    else (0, sk) in
  (flag, sk <| tp; snd_una := ack |>).

(** ** F-RTO: the ACKs after a timeout *)
Definition tcp_conservative_spur_to_response t : tcp_sock :=
  let t := t <| snd_cwnd := Z.min (snd_cwnd t) (snd_ssthresh t) |> <| snd_cwnd_cnt := 0 |> <| bytes_acked := 0 |> in
  tcp_moderate_cwnd (TCP_ECN_queue_cwr t).
Definition tcp_ratehalving_spur_to_response sk : sock := tcp_enter_cwr sk false.
Definition tcp_undo_spur_to_response sk (flag : Z) : sock :=
  if has flag FLAG_ECE then tcp_ratehalving_spur_to_response sk else tcp_undo_cwr sk true.
(** The response to a spurious timeout. *)
Definition spur_to_response sk (flag : Z) : sock :=
  if sysctl_tcp_frto_response =? 2 then tcp_undo_spur_to_response sk flag
  else if sysctl_tcp_frto_response =? 1 then sk <| tp := tcp_conservative_spur_to_response (tp sk) |>
  else tcp_ratehalving_spur_to_response sk.
(** The checks that end F-RTO or this ACK: [Some sk] is the return of 1. *)
Definition frto_verdict sk (flag : Z) : option sock :=
  let n := frto_counter (tp sk) in
  if negb (before (snd_una (tp sk)) (frto_highmark (tp sk))) then Some (tcp_enter_frto_loss sk (if n =? 1 then 2 else 3) flag)
  else if negb (tcp_is_sackfrto (tp sk)) then
    if negb (has flag FLAG_ANY_PROGRESS) && has flag FLAG_NOT_DUP then Some sk
    else if negb (has flag FLAG_DATA_ACKED) then Some (tcp_enter_frto_loss sk (if n =? 1 then 0 else 3) flag)
    else None
  else if negb (has flag FLAG_DATA_ACKED) && (n =? 1) then
    Some (sk <| tp; snd_cwnd := Z.min (snd_cwnd (tp sk)) (tcp_packets_in_flight (tp sk)) |>)
  else if (n >=? 2) && (negb (has flag FLAG_FORWARD_PROGRESS) || has flag FLAG_DATA_SACKED && negb (has flag FLAG_ONLY_ORIG_SACKED)) then
    if negb (has flag FLAG_FORWARD_PROGRESS) && has flag FLAG_NOT_DUP then Some sk
    else Some (tcp_enter_frto_loss sk 3 flag)
  else None.
Definition tcp_process_frto sk (flag : Z) : bool * sock :=
  let sk := if has flag FLAG_DATA_ACKED then sk <| icsk; icsk_retransmits := 0 |> else sk in
  let sk := if has flag FLAG_NONHEAD_RETRANS_ACKED || (frto_counter (tp sk) >=? 2) && has flag FLAG_RETRANS_DATA_ACKED then sk <| tp; undo_marker := 0 |> else sk in
  match frto_verdict sk flag with
  | Some sk => (true, sk)
  | None =>
    if frto_counter (tp sk) =? 1 then
      let sk := sk <| tp; snd_cwnd := u32 (tcp_packets_in_flight (tp sk) + 2) |> <| tp; frto_counter := 2 |> in
      (true, if negb (tcp_may_send_now sk) then tcp_enter_frto_loss sk 2 flag else sk)
    else
      let sk := spur_to_response sk flag in
      (false, sk <| tp; frto_counter := 0 |> <| tp; undo_marker := 0 |>)
  end.

(** ** tcp_ack *)

(** Appropriate byte counting. *)
Definition ack_count_bytes sk (ack : Z) : sock :=
  if sysctl_tcp_abc then
    let n := u32 (ack - snd_una (tp sk)) in
    if ca_ltb (icsk_ca_state (icsk sk)) TCP_CA_CWR then sk <| tp; bytes_acked := u32 (bytes_acked (tp sk) + n) |>
    else if ca_eqb (icsk_ca_state (icsk sk)) TCP_CA_Loss then sk <| tp; bytes_acked := u32 (bytes_acked (tp sk) + Z.min n (mss_cache (tp sk))) |>
    else sk
  else sk.
(** The window, the SACK blocks and the ECE flag. *)
Definition ack_update sk skb (flag prior_snd_una : Z) : option (Z * sock) :=
  let ack := ack_seq skb in
  if negb (has flag FLAG_SLOWPATH) && after ack prior_snd_una then
    let sk := sk <| tp := tcp_update_wl (tp sk) (seq skb) |> <| tp; snd_una := ack |> in
    Some (bset flag FLAG_WIN_UPDATE, tcp_ca_event sk CA_EVENT_FAST_ACK)
  else
    let flag := if negb (seq skb =? end_seq skb) then bset flag FLAG_DATA else flag in
    let '(wflag, sk) := tcp_ack_update_window sk skb ack (seq skb) in
    let flag := bset flag wflag in
    match (if negb (sacked skb =? 0) then tcp_sacktag_write_queue sk skb prior_snd_una else Some (0, sk)) with
    | None => None
    | Some (sflag, sk) =>
      let flag := bset flag sflag in
      let flag := if TCP_ECN_rcv_ecn_echo (tp sk) (skb_th skb) then bset flag FLAG_ECE else flag in
      Some (flag, tcp_ca_event sk CA_EVENT_SLOW_ACK)
    end.
(** The congestion control part. *)
Definition ack_congestion sk (ack flag prior_in_flight prior_packets newly_acked_sacked : Z) : sock :=
  let '(frto_cwnd, sk) := if negb (frto_counter (tp sk) =? 0) then tcp_process_frto sk flag else (false, sk) in
  let sk := if before (frto_highmark (tp sk)) (snd_una (tp sk)) then sk <| tp; frto_highmark := 0 |> else sk in
  if tcp_ack_is_dubious sk flag then
    let sk := if has flag FLAG_DATA_ACKED && negb frto_cwnd && tcp_may_raise_cwnd sk flag then tcp_cong_avoid sk ack prior_in_flight else sk in
    tcp_fastretrans_alert sk (s32 (prior_packets - packets_out (tp sk))) newly_acked_sacked flag
  else if has flag FLAG_DATA_ACKED && negb frto_cwnd then tcp_cong_avoid sk ack prior_in_flight else sk.
(** An ACK within the window. *)
Definition ack_in_window sk skb (flag : Z) : option sock :=
  let prior_snd_una := snd_una (tp sk) in
  let prior_sacked := sacked_out (tp sk) in
  let ack := ack_seq skb in
  let flag := if after ack prior_snd_una then bset flag FLAG_SND_UNA_ADVANCED else flag in
  let sk := ack_count_bytes sk ack in
  let prior_fackets := fackets_out (tp sk) in
  let prior_in_flight := tcp_packets_in_flight (tp sk) in
  match ack_update sk skb flag prior_snd_una with
  | None => None
  | Some (flag, sk) =>
    let sk := sk <| sk_err_soft := 0 |> <| icsk; icsk_probes_out := 0 |> <| tp; rcv_tstamp := tcp_time_stamp |> in
    let prior_packets := packets_out (tp sk) in
    if prior_packets =? 0 then Some (if bool_decide (sk_send_head sk = None) then sk else tcp_ack_probe sk)
    else
      match tcp_clean_rtx_queue sk prior_fackets prior_snd_una with
      | None => None
      | Some (cflag, sk) =>
        let newly_acked_sacked := s32 ((prior_packets - prior_sacked) - (packets_out (tp sk) - sacked_out (tp sk))) in
        Some (ack_congestion sk ack (bset flag cflag) prior_in_flight prior_packets newly_acked_sacked)
      end
  end.
Definition tcp_ack sk skb (flag : Z) : option (Z * sock) :=
  let ack := ack_seq skb in
  let prior_snd_una := snd_una (tp sk) in
  if before ack prior_snd_una then
    if negb (sacked skb =? 0) then
      match tcp_sacktag_write_queue sk skb prior_snd_una with
      | None => None
      | Some (_, sk) => Some (0, if ca_eqb (icsk_ca_state (icsk sk)) TCP_CA_Open then tcp_try_keep_open sk else sk)
      end
    else Some (0, sk)
  else if after ack (snd_nxt (tp sk)) then Some (-1, sk)
  else (fun sk => (1, sk)) <$> ack_in_window sk skb flag.
End Ack.

(** ** The invariant of the write queue *)

(** tcp_trim_head: a buffer, which has at least [n] bytes, loses the first [n] of them and the
    packets they filled; nothing else changes but the memory accounting.  On an error nothing
    changes. *)
Record trimmed (b : sk_buff) (n : Z) (b' : sk_buff) : Prop := {
  tr_id : skb_id b' = skb_id b;
  tr_tags : sacked b' = sacked b;
  tr_end : end_seq b' = end_seq b;
  tr_seq : seq b' = u32 (seq b + n);
  tr_room : n <= len b;
  tr_len : len b' = len b - n;
  tr_segs : 0 <= gso_segs b' <= gso_segs b;
  tr_size : 0 <= gso_size b';
  tr_left : 1 < gso_segs b -> 0 < gso_segs b';
}.
Class TrimLaws {K : Kernel} : Prop := {
  trim_fail sk i n : fst (tcp_trim_head sk i n) <> 0 -> snd (tcp_trim_head sk i n) = sk;
  trim_ok sk i n b : wq_get sk i = Some b -> 0 <= gso_segs b -> 0 <= gso_size b -> fst (tcp_trim_head sk i n) = 0 -> exists b', trimmed b n b' /\
    let sk' := snd (tcp_trim_head sk i n) in
    sk' = (wq_set sk i b') <| sk_wmem_queued := sk_wmem_queued sk' |> <| sk_forward_alloc := sk_forward_alloc sk' |> <| sk_flags := sk_flags sk' |>;
}.

Section Clean.
Context {K : Kernel} {TL : TagLaws K} {PL : PcountLaws K} {SL : SeqLaws K} {TR : TrimLaws}.
Implicit Types (sk : sock) (b : sk_buff) (c : clean_state).

Lemma trimmed_ok u b n b' : buf_ok u b -> skb_id b ∉ u -> 0 <= n -> trimmed b n b' -> buf_ok u b'.
Proof using Type.
  intros [] Hu Hn []. split; rewrite ?tr_tags0; try done.
  - lia.
  - lia.
  - rewrite tr_id0. done.
  - rewrite tr_end0, tr_seq0, tr_len0. rewrite u32_sub_r. revert bo_span. clear. generalize (end_seq b), (seq b), (len b). intros. warith.
Qed.

(** The counters after [n] packets with these tags were acknowledged. *)
Lemma clean_count_spec sk b n : let sk' := clean_count sk (sacked b) n in
  packets_out (tp sk') = u32 (packets_out (tp sk) - n) /\ sacked_out (tp sk') = shrunk TCPCB_SACKED_ACKED b n (sacked_out (tp sk)) /\
  lost_out (tp sk') = shrunk TCPCB_LOST b n (lost_out (tp sk)) /\ retrans_out (tp sk') = shrunk TCPCB_SACKED_RETRANS b n (retrans_out (tp sk)).
Proof using TL.
  assert (Hr : has (sacked b) TCPCB_RETRANS && has (sacked b) TCPCB_SACKED_RETRANS = has (sacked b) TCPCB_SACKED_RETRANS) by (rewrite tag_retrans, has_lor; destruct (has (sacked b) TCPCB_SACKED_RETRANS); by rewrite ?andb_false_r).
  unfold clean_count, shrunk. rewrite Hr. cbn zeta. by cases_if.
Qed.
(** What it leaves alone. *)
Definition rest_part sk := (sk_write_queue sk, sk_send_head sk, hints sk, rx_opt (tp sk), snd_una (tp sk), icsk sk).
Lemma clean_count_rest sk tags n : rest_part (clean_count sk tags n) = rest_part sk.
Proof using Type. unfold clean_count. cbn zeta. by cases_if. Qed.
Lemma clean_syn_part sk b : sb_part (clean_syn sk b) = sb_part sk /\ rest_part (clean_syn sk b) = rest_part sk.
Proof using Type. unfold clean_syn. by case_match. Qed.

Lemma unlink_put q i b : skb_id b = i -> List.filter (fun x => negb (Nat.eqb (skb_id x) i)) (put q i b) = List.filter (fun x => negb (Nat.eqb (skb_id x) i)) q.
Proof using Type.
  intros Hid. induction q as [|x q IH]; cbn; [done|]. destruct (Nat.eqb_spec (skb_id x) i) as [E|E]; cbn; [rewrite Hid, Nat.eqb_refl; exact IH|].
  rewrite (proj2 (Nat.eqb_neq _ _) E). cbn. f_equal. exact IH.
Qed.
Lemma unlink_head sk b q : NoDup (skb_id <$> sk_write_queue sk) -> sk_write_queue sk = b :: q -> sk_write_queue (wq_unlink sk (skb_id b)) = q.
Proof using Type.
  intros Hnd Hq. unfold wq_unlink. cbn. rewrite Hq in *. cbn. rewrite Nat.eqb_refl. cbn. apply NoDup_cons in Hnd as [Hni _]. clear Hq. induction q as [|x q IH]; [done|]. cbn.
  apply not_elem_of_cons in Hni as [Hne Hni]. rewrite (proj2 (Nat.eqb_neq (skb_id x) (skb_id b))) by (intros E; apply Hne; symmetry; exact E). cbn. f_equal. by apply IH.
Qed.
(** A buffer that is acknowledged as a whole. *)
Lemma acked_score sk sk1 b : score sk -> wq_get sk (skb_id b) = Some b -> skb_id b ∉ unsent sk -> sk1 = clean_syn (clean_count sk (sacked b) (gso_segs b)) b -> score (wq_unlink sk1 (skb_id b)).
Proof using TL.
  intros Hs Hb Hi ->. set (sk1 := clean_syn _ b). destruct (clean_count_spec sk b (gso_segs b)) as (C1 & C2 & C3 & C4). destruct (clean_syn_part (clean_count sk (sacked b) (gso_segs b)) b) as [E1 E2]. fold sk1 in E1, E2.
  rewrite clean_count_rest in E2. unfold rest_part in E2. injection E2 as Q1 Q2 Q3 _ _ _. unfold sb_part in E1. injection E1 as _ _ P1 _ P2 P3 P4. set (b0 := b <| gso_segs := 0 |>).
  pose proof (score_get _ _ _ Hs Hb) as Hok. assert (Hok0 : buf_ok (unsent sk) b0) by (destruct Hok; split; try done; cbn; lia).
  assert (Hs0 : score (wq_set sk1 (skb_id b) b0)).
  { eapply (score_shrink sk sk1 _ b b0 (gso_segs b)); try done; [apply Hok|intros k; rewrite Q3; apply (sc_hints _ Hs)|by rewrite P1|by rewrite P2|by rewrite P3|by rewrite P4]. }
  assert (Eu : unsent (wq_set sk1 (skb_id b) b0) = unsent sk) by (rewrite unsent_set by done; apply unsent_ext; congruence).
  assert (H := unlink_score _ (skb_id b) b0 Hs0 ltac:(apply get_set; [done|unfold wq_get; rewrite Q1; eexists; exact Hb]) eq_refl ltac:(by rewrite Eu)).
  eapply score_ext; [|exact H]. unfold sb_part, q_part. cbn. fold (put (sk_write_queue sk1) (skb_id b) b0). by rewrite unlink_put.
Qed.
(** The parts of a socket that removing buffers leaves alone, and the queue. *)
Definition frame sk := (sk_write_queue sk, sk_send_head sk, rx_opt (tp sk), snd_una (tp sk), icsk sk).
Lemma clean_unlink_score sk b : score (wq_unlink sk (skb_id b)) -> score (clean_unlink sk b) /\ frame (clean_unlink sk b) = frame (wq_unlink sk (skb_id b)).
Proof using Type.
  intros Hs. unfold clean_unlink. cbn zeta. set (sk1 := sk_wmem_free_skb _ b). assert (Hs1 : score sk1) by (eapply score_ext; [apply wmem_free_part|done]).
  assert (E1 : frame sk1 = frame (wq_unlink sk (skb_id b))) by (unfold sk1, sk_wmem_free_skb, sk_mem_uncharge; by case_match). rewrite <- E1. clearbody sk1. clear E1.
  pose proof (score_board_hint sk1 None Hs1 (at_sent_none _)) as Hs2. change (frame sk1) with (frame (sk1 <| tp; scoreboard_skb_hint := None |>)). set (sk2 := sk1 <| tp; scoreboard_skb_hint := None |>) in *. clearbody sk2.
  set (sk3 := if is_hint (retransmit_skb_hint (tp sk2)) (skb_id b) then _ else sk2). assert (Hs3 : score sk3) by (unfold sk3; case_match; [by apply (score_ext sk2)|done]).
  assert (E3 : frame sk3 = frame sk2) by (unfold sk3; by case_match). rewrite <- E3. clearbody sk3. case_match; (split; [|done]); [|done]. apply score_lost_hint; [done|apply at_sent_none].
Qed.
Lemma segs_le sk b : score sk -> b ∈ sk_write_queue sk -> skb_id b ∉ unsent sk -> gso_segs b <= packets_out (tp sk).
Proof using Type.
  intros Hs Hb Hi. pose proof (sc_packets _ Hs) as Hp. assert (gso_segs b <= sumZ (sent_segs (unsent sk)) (sk_write_queue sk)); [|lia]. pose proof (sc_ok _ Hs) as Hok. clear Hp Hs. revert Hb Hok. generalize (unsent sk) as u, Hi. clear Hi.
  intros u Hi Hb Hok. induction Hok as [|x q Hx Hok IH]; [by apply elem_of_nil in Hb|]. cbn [sumZ]. assert (Hn : 0 <= sumZ (sent_segs u) q) by (apply sumZ_nonneg; eapply Forall_impl; [exact Hok|]; intros y [? ? ? ? ? ?]; unfold sent_segs; case_decide; lia).
  assert (Hnx : 0 <= sent_segs u x) by (destruct Hx; unfold sent_segs; case_decide; lia). apply elem_of_cons in Hb as [->|Hb]; [|specialize (IH Hb); lia]. unfold sent_segs at 1. rewrite decide_False by done. lia.
Qed.
(** A buffer of which a part is acknowledged: [b'] is what is left. *)
Lemma tso_acked_spec sk b n sk1 : score sk -> wq_get sk (skb_id b) = Some b -> skb_id b ∉ unsent sk -> tcp_tso_acked sk b = Some (n, sk1) ->
  exists b', 0 <= n /\ gso_segs b = gso_segs b' + n /\ skb_id b' = skb_id b /\ end_seq b' = end_seq b /\ sacked b' = sacked b /\ buf_ok (unsent sk) b' /\
    sb_part sk1 = sb_part (wq_set sk (skb_id b) b') /\ frame sk1 = frame (wq_set sk (skb_id b) b').
Proof using PL TR.
  intros Hs Hb Hi. pose proof (score_get _ _ _ Hs Hb) as Hok. destruct (get_elem _ _ _ Hb) as [Hin _]. pose proof (segs_le _ _ Hs Hin Hi) as Hle. pose proof (sc_packets _ Hs) as Hpk.
  unfold tcp_tso_acked. case_match; [done|]. set (m := u32 (snd_una (tp sk) - seq b)). pose proof (trim_fail sk (skb_id b) m) as Tf. pose proof (trim_ok sk (skb_id b) m b Hb (bo_segs _ _ Hok) (bo_size _ _ Hok)) as To.
  destruct (tcp_trim_head sk (skb_id b) m) as [err sk2]. cbn [fst snd] in *. destruct (Z.eqb_spec err 0) as [E|E]; cbn [negb].
  - destruct (To E) as (b' & Ht & Esk). set (sk' := wq_set sk (skb_id b) b') in *. assert (Ef : sb_part sk2 = sb_part sk' /\ frame sk2 = frame sk') by (by rewrite Esk). clear Esk. destruct Ef as [Ef1 Ef2].
    assert (Hg : wq_get sk2 (skb_id b) = Some b') by (rewrite (get_part sk' sk2) by (by apply sb_q_part); apply get_set; [apply Ht|by eexists]). rewrite Hg. cbn zeta. change (default b (Some b')) with b'. rewrite !pcount_spec.
    pose proof (trimmed_ok _ _ _ _ Hok Hi (proj1 (u32_range _)) Ht) as Hok'. destruct Ht. intros Hr. exists b'. assert (Hn : n = gso_segs b - gso_segs b' /\ sk1 = sk2).
    { assert (Hu : u32 (gso_segs b - gso_segs b') = gso_segs b - gso_segs b') by (apply u32_small; unfold is_u32; lia). rewrite Hu in Hr. case_match; [done|]. by injection Hr as <- <-. }
    destruct Hn as [-> ->]. split_and!; try done; lia.
  - intros [= <- <-]. rewrite (Tf E). exists b. assert (Eb : wq_set sk (skb_id b) b = sk).
    { unfold wq_set. assert (Hp : put (sk_write_queue sk) (skb_id b) b = sk_write_queue sk); [|unfold put in Hp; by rewrite Hp]. apply put_self; [apply Hs|done]. }
    rewrite Eb. split_and!; try done. lia.
Qed.
(** The buffers below snd_una are gone; the first that is left is not sent yet or reaches beyond. *)
Record cleaned sk sk' (acked rest : list sk_buff) : Prop := {
  cd_split : sk_write_queue sk = acked ++ rest;
  cd_acked : Forall (fun b => after (end_seq b) (snd_una (tp sk)) = false) acked;
  cd_ids : skb_id <$> sk_write_queue sk' = skb_id <$> rest;
  cd_ends : end_seq <$> sk_write_queue sk' = end_seq <$> rest;
  cd_head b : head (sk_write_queue sk') = Some b -> is_send_head sk' (skb_id b) = true \/ after (end_seq b) (snd_una (tp sk)) = true;
}.
Lemma cleaned_none sk : (forall b, head (sk_write_queue sk) = Some b -> is_send_head sk (skb_id b) = true \/ after (end_seq b) (snd_una (tp sk)) = true) -> cleaned sk sk [] (sk_write_queue sk).
Proof using Type. intros H. by split. Qed.
Lemma rest_frame sk sk' : rest_part sk' = rest_part sk -> frame sk' = frame sk.
Proof using Type. unfold rest_part, frame. by intros [= -> -> _ -> -> ->]. Qed.
(** One round with a partly acknowledged buffer. *)
Lemma partial_score sk b n sk1 : score sk -> wq_get sk (skb_id b) = Some b -> skb_id b ∉ unsent sk -> tcp_tso_acked sk b = Some (n, sk1) ->
  let sk' := if n =? 0 then sk1 else clean_syn (clean_count sk1 (sacked b) n) b in
  kept sk sk' /\ rx_opt (tp sk') = rx_opt (tp sk) /\ snd_una (tp sk') = snd_una (tp sk) /\
  exists b', sk_write_queue sk' = put (sk_write_queue sk) (skb_id b) b' /\ skb_id b' = skb_id b /\ end_seq b' = end_seq b.
Proof using TL PL TR.
  intros Hs Hb Hi Ht. destruct (tso_acked_spec _ _ _ _ Hs Hb Hi Ht) as (b' & Hn & Hg & Hid & He & Htag & Hok & Ep & Ef). cbn zeta.
  set (sk' := if n =? 0 then sk1 else _). assert (Hf : frame sk' = frame (wq_set sk (skb_id b) b')).
  { unfold sk'. case_match; [done|]. rewrite <- Ef. destruct (clean_syn_part (clean_count sk1 (sacked b) n) b) as [_ E]. rewrite clean_count_rest in E. exact (rest_frame _ _ E). }
  assert (Hsc : score sk').
  { unfold sk'. destruct (Z.eqb_spec n 0) as [->|Hn0].
    - eapply score_ext; [exact Ep|]. eapply score_keep_tags; [done|exact Hb|done|done|lia|done].
    - destruct (clean_syn_part (clean_count sk1 (sacked b) n) b) as [E _]. eapply score_ext; [exact E|]. clear E.
      assert (Ec : sb_part (clean_count sk1 (sacked b) n) = sb_part (wq_set (clean_count sk (sacked b) n) (skb_id b) b')).
      { destruct (clean_count_spec sk1 b n) as (A1 & A2 & A3 & A4). destruct (clean_count_spec sk b n) as (B1 & B2 & B3 & B4).
        pose proof (clean_count_rest sk1 (sacked b) n) as R1. pose proof (clean_count_rest sk (sacked b) n) as R0.
        set (s1 := clean_count sk1 (sacked b) n) in *. set (s0 := clean_count sk (sacked b) n) in *. clearbody s1 s0. unfold rest_part in R1, R0. injection R1 as R11 R12 R13 _ _ _. injection R0 as R01 R02 R03 _ _ _.
        unfold sb_part, q_part in Ep. injection Ep as E1 E2 E3 E4 E5 E6 E7. unfold sb_part, q_part. change (tp (wq_set s0 (skb_id b) b')) with (tp s0).
        change (hints (wq_set s0 (skb_id b) b')) with (hints s0). rewrite A1, A2, A3, A4, B1, B2, B3, B4, R11, R12, R13, R03, E1, E2, E3, E4, E5, E6, E7. unfold wq_set. cbn. by rewrite R01, R02. }
      eapply score_ext; [exact Ec|]. destruct (clean_count_spec sk b n) as (B1 & B2 & B3 & B4). pose proof (clean_count_rest sk (sacked b) n) as R0. set (s0 := clean_count sk (sacked b) n) in *. clearbody s0. unfold rest_part in R0. injection R0 as R01 R02 R03 _ _ _.
      eapply score_shrink; [exact Hs|exact Hb|done|done|done|done|exact Hn|done|done|done| |done|done|done|done]. intros k. rewrite R03. apply (sc_hints _ Hs). }
  clearbody sk'. unfold frame in Hf. injection Hf as F1 F2 F3 F4 F5. split_and!; [|done|done|by exists b']. split; [done|]. split; [|exact F2].
  apply unsent_ext; [|exact F2]. rewrite F1. exact (put_ids _ _ _ Hid).
Qed.
Lemma clean_loop_ok fuel : forall sk c sk' c', score sk -> (length (sk_write_queue sk) <= fuel)%nat -> clean_loop fuel sk c = Some (sk', c') ->
  kept sk sk' /\ rx_opt (tp sk') = rx_opt (tp sk) /\ snd_una (tp sk') = snd_una (tp sk) /\ exists acked rest, cleaned sk sk' acked rest.
Proof using TL PL TR.
  induction fuel as [|fuel IH]; intros sk c sk' c' Hs Hf; pose proof (kept_refl sk Hs) as Hk.
  - cbn. intros [= <- _]. split_and!; [done..|]. exists [], []. destruct (sk_write_queue sk) as [|x q] eqn:Hq; [|cbn in Hf; lia]. split; rewrite ?Hq; done.
  - cbn [clean_loop]. destruct (sk_write_queue sk) as [|b q] eqn:Hq; cbn [head].
    + intros [= <- _]. split_and!; [done..|]. exists [], []. split; rewrite ?Hq; done.
    + assert (Hb : wq_get sk (skb_id b) = Some b) by (unfold wq_get; rewrite Hq; cbn; by rewrite Nat.eqb_refl). case_if_as Hh.
      { intros [= <- _]. split_and!; [done..|]. exists [], (sk_write_queue sk). apply cleaned_none. rewrite Hq. intros x [= <-]. by left. }
      assert (Hi : skb_id b ∉ unsent sk) by (eapply (sent_prefix sk [] _ (skb_id <$> q)); [apply Hs|by rewrite Hq|intros x Hx; by apply elem_of_nil in Hx|done]).
      case_if_as Ha.
      { case_if_as Hp; [intros [= <- _]; split_and!; [done..|]; exists [], (sk_write_queue sk); apply cleaned_none; rewrite Hq; intros x [= <-]; by right|].
        destruct (tcp_tso_acked sk b) as [[n sk1]|] eqn:Ht; [|done]. destruct (partial_score sk b n sk1 Hs Hb Hi Ht) as (P1 & P2 & P3 & b' & P4 & P5 & P6). cbn zeta in *.
        intros Hr. assert (Er : sk' = if n =? 0 then sk1 else clean_syn (clean_count sk1 (sacked b) n) b) by (destruct (n =? 0); by injection Hr as <- _). rewrite <- Er in *. clear Er Hr.
        split_and!; [done..|]. exists [], (sk_write_queue sk). rewrite Hq in P4. cbn in P4. rewrite Nat.eqb_refl in P4. assert (Hnd : NoDup (skb_id <$> sk_write_queue sk)) by apply Hs. rewrite Hq in Hnd. apply NoDup_cons in Hnd as [Hni _].
        fold (put q (skb_id b) b') in P4. rewrite put_absent in P4 by done. split; rewrite ?P4, ?Hq; try done.
        - cbn. f_equal. exact P5.
        - cbn. f_equal. exact P6.
        - intros x [= <-]. right. by rewrite P6. }
      intros Hr. set (sk1 := clean_syn (clean_count sk (sacked b) (tcp_skb_pcount b)) b) in *. pose proof (acked_score sk sk1 b Hs Hb Hi ltac:(unfold sk1; by rewrite pcount_spec)) as Hs1.
      assert (Ef1 : frame sk1 = frame sk) by (unfold sk1; destruct (clean_syn_part (clean_count sk (sacked b) (tcp_skb_pcount b)) b) as [_ E]; rewrite clean_count_rest in E; exact (rest_frame _ _ E)).
      clearbody sk1. destruct (clean_unlink_score sk1 b Hs1) as [Hs2 Ef2]. assert (Hq1 : sk_write_queue sk1 = b :: q) by (unfold frame in Ef1; injection Ef1 as -> _ _ _ _; exact Hq).
      assert (Hq2 : sk_write_queue (clean_unlink sk1 b) = q).
      { unfold frame in Ef2. injection Ef2 as -> _ _ _ _. change (List.filter (fun x => negb (Nat.eqb (skb_id x) (skb_id b))) (sk_write_queue sk1)) with (sk_write_queue (wq_unlink sk1 (skb_id b))). apply unlink_head; [|done]. rewrite Hq1, <- Hq. apply Hs. }
      destruct (IH _ _ _ _ Hs2 ltac:(rewrite Hq2; cbn in Hf; lia) Hr) as (K2 & O2 & U2 & acked & rest & C).
      unfold frame in Ef1, Ef2. injection Ef1 as _ X1 X2 X3 _. injection Ef2 as _ Y1 Y2 Y3 _. cbn in Y1, Y2, Y3.
      assert (K1 : kept sk (clean_unlink sk1 b)).
      { split; [done|]. split; [|congruence]. transitivity (unsent (wq_unlink sk1 (skb_id b))); [apply unsent_ext; [|exact Y1]; rewrite Hq2; by rewrite unlink_head with (q := q); [|rewrite Hq1, <- Hq; apply Hs|]|].
        assert (Eu : unsent sk1 = unsent sk) by (apply unsent_ext; [by rewrite Hq1, Hq|done]). rewrite unsent_unlink by (by rewrite Eu). done. }
      split_and!; [by eapply kept_trans|congruence|congruence|]. exists (b :: acked), rest. destruct C. assert (Eu : snd_una (tp (clean_unlink sk1 b)) = snd_una (tp sk)) by congruence. rewrite Eu in *.
      split; [by rewrite Hq, <- Hq2, cd_split0|by apply Forall_cons|done|done|done].
Qed.
End Clean.

(** ** Reneging

    FLAG_SACK_RENEGING comes only from tcp_clean_rtx_queue, which found a SACKED buffer at the
    front of the queue: no other flag of an ACK includes it. *)
Section Calm.
Context {K : Kernel}.
Implicit Types (sk : sock) (b : sk_buff) (st : tcp_sacktag_state).

Definition calm (flag : Z) : Prop := has flag FLAG_SACK_RENEGING = false.
Lemma calm_bset x y : calm x -> calm y -> calm (bset x y).
Proof using Type. unfold calm. rewrite has_bset. by intros -> ->. Qed.
Lemma calm_bclr x y : calm x -> calm (bclr x y).
Proof using Type.
  unfold calm. change FLAG_SACK_RENEGING with (2 ^ 13). rewrite !has_pow2 by lia. intros H. rewrite testbit_bclr by lia. by rewrite H.
Qed.
Lemma calm_if (c : bool) x y : calm x -> calm y -> calm (if c then x else y).
Proof using Type. by destruct c. Qed.
Lemma dsack_calm b sk st dup : calm (st_flag st) -> calm (st_flag (snd (account_dsack b sk st dup))).
Proof using Type. intros H. unfold account_dsack. by cases_if. Qed.
Lemma clear_lost_calm b sk st n : calm (st_flag st) -> calm (st_flag (snd (clear_lost b sk st n))).
Proof using Type. intros H. unfold clear_lost. cbn zeta. cases_if; cbn; try done; by apply calm_bset. Qed.
Lemma sacktag_one_calm b sk st dup n : calm (st_flag st) -> calm (st_flag (snd (tcp_sacktag_one b sk st dup n))).
Proof using Type.
  intros H. unfold tcp_sacktag_one. pose proof (dsack_calm b sk st dup H) as H1. destruct (account_dsack b sk st dup) as [sk1 st1]. cbn [snd] in H1. case_if_as C1; [done|].
  destruct (negb (has (sacked b) TCPCB_SACKED_ACKED)); [|by cases_if]. pose proof (clear_lost_calm b sk1 st1 n H1) as H2. destruct (clear_lost b sk1 st1 n) as [[t sk2] st2]. cbn [snd] in H2. cases_if; by apply calm_bset.
Qed.
Lemma shifted_skb_calm sk prev b st n sh mss dup r : calm (st_flag st) -> tcp_shifted_skb sk prev b st n sh mss dup = Some r -> calm (st_flag (snd r)).
Proof using Type.
  intros H. unfold tcp_shifted_skb. case_if_as H1; [done|]. cbn zeta. case_if_as H2; [done|]. destruct (shifted_update _ _ _ _ _) as [p' b'].
  match goal with |- context [tcp_sacktag_one ?b ?s ?t ?d ?n] => pose proof (sacktag_one_calm b s t d n H) as E; destruct (tcp_sacktag_one b s t d n) as [[tags sk2] st2] end.
  case_if_as H3; [case_if_as H4; [done|]|]; by intros [= <-].
Qed.
Lemma shift_next_calm sk pi st n mss r : calm (st_flag st) -> shift_next sk pi st n mss = Some r -> calm (st_flag (snd (fst r))).
Proof using Type.
  intros H. unfold shift_next. case_if_as H1; [by intros [= <-]|]. destruct (tcp_write_queue_next sk pi ≫= wq_get sk) as [b|]; [|by intros [= <-]]. destruct (wq_get sk pi) as [p|]; [|by intros [= <-]].
  case_if_as H2; [by intros [= <-]|]. destruct (skb_shift p b (len b)) as [[p' b']|]; [|by intros [= <-]]. destruct (tcp_shifted_skb _ _ _ _ _ _ _ _) as [[[e sk1] st1]|] eqn:E; [|done].
  intros [= <-]. exact (shifted_skb_calm _ _ _ _ _ _ _ _ _ H E).
Qed.
Lemma shift_data_calm sk b st s e dup r : calm (st_flag st) -> tcp_shift_skb_data sk b st s e dup = Some r -> calm (st_flag (snd r)).
Proof using Type.
  intros H0. unfold tcp_shift_skb_data. cbn zeta. do 5 (case_if_as H; [by intros [= <-]|clear H]). destruct (tcp_write_queue_prev sk (skb_id b) ≫= wq_get sk) as [p|]; [|by intros [= <-]]. case_if_as H1; [by intros [= <-]|].
  destruct (shift_amount p b s e) as [| | |n pc mss]; [by intros [= <-]|by intros [= <-]|done|]. destruct (skb_shift p b n) as [[p' b']|]; [|by intros [= <-]].
  destruct (tcp_shifted_skb _ _ _ _ _ _ _ _) as [[[eaten sk1] st1]|] eqn:E; [|done]. apply shifted_skb_calm in E; [|done]. cbn [fst snd] in E. destruct eaten; [|by intros [= <-]].
  destruct (shift_next _ _ _ _ _) as [[[sk2 st2] pc2]|] eqn:E2; [|done]. apply shift_next_calm in E2; [|done]. by intros [= <-].
Qed.
Lemma walk_calm fuel : forall cur sk nd st s e dup r, calm (st_flag st) -> tcp_sacktag_walk fuel cur sk nd st s e dup = Some r -> calm (st_flag (snd r)).
Proof using Type.
  induction fuel as [|fuel IH]; intros cur sk nd st s e dup r H0; cbn [tcp_sacktag_walk]; [by intros [= <-]|]. destruct (cur ≫= wq_get sk) as [b|]; [|by intros [= <-]]. cbn zeta.
  case_if_as H1; [by intros [= <-]|]. case_if_as H2; [by intros [= <-]|]. destruct (walk_dup sk b nd dup) as [[k dup'] sk1]. set (b1 := default b _). clearbody b1. destruct (walk_shift sk1 b1 st s e dup' k) as [[[act sk2] st2]|] eqn:Ew; [|done].
  assert (E2 : calm (st_flag st2)).
  { revert Ew. unfold walk_shift. case_if_as H3; [|by intros [= _ _ <-]]. destruct (tcp_shift_skb_data _ _ _ _ _ _) as [[[d sk3] st3]|] eqn:E; [|done]. apply shift_data_calm in E; [|done].
    destruct d; [|by intros [= _ _ <-]|by intros [= _ _ <-]]. destruct (tcp_match_skb_to_sack _ _ _ _) as [k2 sk4]. by intros [= _ _ <-]. }
  clear Ew. destruct act as [pi|k2]; [by apply IH|]. case_if_as H3; [by intros [= <-]|]. set (b2 := default b1 _). clearbody b2.
  assert (Et : calm (st_flag (snd (walk_tag sk2 b2 st2 dup' k2)))).
  { unfold walk_tag. case_if_as H4; [|done]. pose proof (sacktag_one_calm b2 sk2 st2 dup' (tcp_skb_pcount b2) E2) as E. by destruct (tcp_sacktag_one _ _ _ _ _) as [[tags sk3] st3]. }
  destruct (walk_tag sk2 b2 st2 dup' k2) as [sk3 st3]. by apply IH.
Qed.
Lemma skip_calm cur sk st s : calm (st_flag st) -> calm (st_flag (snd (tcp_sacktag_skip cur sk st s))).
Proof using Type.
  unfold tcp_sacktag_skip. generalize (length (sk_write_queue sk)) as fuel. intros fuel. revert cur st. induction fuel as [|fuel IH]; intros cur st H; cbn [skip_loop]; [done|]. destruct (cur ≫= wq_get sk); [|done]. case_if_as H1; [done|]. case_if_as H2; [done|]. by apply IH.
Qed.
Lemma maybe_skipping_calm fuel cur sk nd st s r : calm (st_flag st) -> tcp_maybe_skipping_dsack fuel cur sk nd st s = Some r -> calm (st_flag (snd r)).
Proof using Type.
  intros H. unfold tcp_maybe_skipping_dsack. destruct nd as [d|]; [|by intros [= <-]]. case_if_as H1; [|by intros [= <-]]. pose proof (skip_calm cur sk st (start_seq d) H) as H2. destruct (tcp_sacktag_skip _ _ _ _). by apply walk_calm.
Qed.
Lemma block_cached_calm sk st cur blk s e nd dup r : calm (st_flag st) -> block_cached sk st cur blk s e nd dup = Some r -> calm (st_flag (snd r)).
Proof using Type.
  intros H. unfold block_cached. set (hd := if before s _ then _ else _). assert (Hhd : forall x, hd = Some x -> calm (st_flag (snd x))).
  { intros x. subst hd. case_if_as H2; [|by intros [= <-]]. pose proof (skip_calm cur sk st s H) as H3. destruct (tcp_sacktag_skip _ _ _ _). by apply walk_calm. }
  destruct hd as [[[cu1 sk1] st1]|]; [|done]. pose proof (Hhd _ eq_refl) as E1. cbn [fst snd] in E1. case_if_as H2; [by intros [= <-]|].
  destruct (tcp_maybe_skipping_dsack _ _ _ _ _ _) as [[[cu2 sk2] st2]|] eqn:Em; [|done]. apply maybe_skipping_calm in Em; [|done]. cbn [fst snd] in Em. case_if_as H3; [destruct (highest_sack _); by intros [= <-]|].
  pose proof (skip_calm cu2 sk2 st2 (sb_end_seq blk) Em) as H4. destruct (tcp_sacktag_skip _ _ _ _). by intros [= <-].
Qed.
Lemma block_entry_calm sk st cur s : calm (st_flag st) -> calm (st_flag (snd (block_entry sk st cur s))).
Proof using Type.
  intros H. unfold block_entry. case_if_as H1; [destruct (highest_sack _) as [h|]; [|done]|].
  - match goal with |- context [tcp_sacktag_skip (Some h) sk ?t s] => pose proof (skip_calm (Some h) sk t s H) as H2; destruct (tcp_sacktag_skip (Some h) sk t s) as [cu t1] end. exact H2.
  - pose proof (skip_calm cur sk st s H) as H2. destruct (tcp_sacktag_skip cur sk st s) as [cu t]. exact H2.
Qed.
Lemma blocks_calm fuel : forall sp i cache cur sk st fd first r, calm (st_flag st) -> sack_blocks_loop fuel sp i cache cur sk st fd first = Some r -> calm (st_flag (snd r)).
Proof using Type.
  induction fuel as [|fuel IH]; intros sp i cache cur sk st fd first r H0; cbn [sack_blocks_loop]; [by intros [= <-]|]. destruct sp as [|b rest]; [by intros [= <-]|]. cbn zeta.
  set (st1 := if after _ _ then _ else st). assert (C1 : calm (st_flag st1)) by (unfold st1; case_match; [by apply calm_bset|done]). clearbody st1.
  match goal with |- context [match ?x with (act, later) => _ end] => set (al := x) end.
  assert (Hal : forall r, fst al = Some r -> calm (st_flag (snd r))).
  { intros x. subst al. pose proof (block_entry_calm sk st1 cur (start_seq b) C1) as Ce. destruct (block_entry sk st1 cur _) as [a t']. cbn [snd] in Ce.
    destruct (skip_early _ _) as [|c later]; [by intros [= <-]|]. case_if_as H1; [by apply block_cached_calm|by intros [= <-]]. }
  destruct al as [act later]. cbn [fst] in Hal. set (walked := match act with Some (BaWalk _, _, _) => _ | _ => _ end).
  assert (Hw : forall r, walked = Some r -> calm (st_flag (snd r))).
  { intros x. subst walked. destruct act as [[[a k0] t0]|]; [|done]. pose proof (Hal _ eq_refl) as E0. destruct a; try (by intros [= <-]).
    destruct (tcp_sacktag_walk _ _ _ _ _ _ _ _) as [[[cu k] t]|] eqn:Ew; [|done]. apply walk_calm in Ew; [|done]. by intros [= <-]. }
  destruct walked as [[[a sk1] st2]|]; [|done]. pose proof (Hw _ eq_refl) as E1. cbn [fst snd] in E1.
  destruct a; try (apply IH; first [done|case_match; [by apply calm_bclr|done]]). by intros [= <-].
Qed.
Lemma sacktag_calm sk b una flag sk' : tcp_sacktag_write_queue sk b una = Some (flag, sk') -> calm flag.
Proof using Type.
  unfold tcp_sacktag_write_queue. cbn zeta. destruct (tcp_check_dsack _ _ _ _) as [dup sk0]. set (st1 := if dup then _ else _). assert (C1 : calm (st_flag st1)) by (unfold st1; by destruct dup).
  case_if_as H1; [by intros [= <- _]|]. case_if_as H2; [by intros [= <- _]|]. destruct (collect_sacks _ _ _ _ _ _ _ _) as [sp first]. destruct (bubble_sort _ _ _) as [sp' first'].
  destruct (sack_blocks_loop _ _ _ _ _ _ _ _ _) as [[sk2 st2]|] eqn:E; [|done]. apply blocks_calm in E; [|done]. by intros [= <- _].
Qed.
Lemma update_window_calm sk b ack aseq : calm (fst (tcp_ack_update_window sk b ack aseq)).
Proof using Type. unfold tcp_ack_update_window. cbn zeta. by destruct (tcp_may_update_window _ _ _ _). Qed.
Lemma ack_update_calm sk b flag una flag' sk' : calm flag -> ack_update sk b flag una = Some (flag', sk') -> calm flag'.
Proof using Type.
  intros Hf. unfold ack_update. cbn zeta. case_if_as H1; [intros [= <- _]; by apply calm_bset|]. pose proof (update_window_calm sk b (ack_seq b) (seq b)) as Hw. destruct (tcp_ack_update_window _ _ _ _) as [wf sk1]. cbn [fst] in Hw.
  set (r := if negb (sacked b =? 0) then _ else _). assert (Hr : forall f sk2, r = Some (f, sk2) -> calm f) by (intros f sk2; unfold r; case_match; [apply sacktag_calm|by intros [= <- _]]).
  destruct r as [[f sk2]|]; [|done]. specialize (Hr f sk2 eq_refl). set (f1 := if negb (seq b =? end_seq b) then _ else flag). assert (C1 : calm f1) by (unfold f1; case_match; [by apply calm_bset|done]). clearbody f1.
  intros [= <- _]. assert (C2 : calm (bset (bset f1 wf) f)) by (apply calm_bset; [by apply calm_bset|done]). case_match; [by apply calm_bset|done].
Qed.
(** The flags of the buffers that leave the queue. *)
Lemma clean_loop_calm fuel : forall sk c sk' c', calm (cl_flag c) -> clean_loop fuel sk c = Some (sk', c') -> calm (cl_flag c').
Proof using Type.
  assert (Hf : forall b c n t, calm (cl_flag c) -> calm (cl_flag (clean_flags b (clean_rtt b t n c) n))).
  { intros b c n t H. assert (H1 : calm (cl_flag (clean_rtt b t n c))) by (unfold clean_rtt; cbn zeta; cases_if; cbn; repeat apply calm_bset; done). unfold clean_flags. cbn. case_match; by apply calm_bset. }
  induction fuel as [|fuel IH]; intros sk c sk' c' H; cbn [clean_loop]; [by intros [= _ <-]|]. destruct (head (sk_write_queue sk)) as [b|]; [|by intros [= _ <-]]. case_if_as H1; [by intros [= _ <-]|]. case_if_as H2.
  - case_if_as H3; [by intros [= _ <-]|]. destruct (tcp_tso_acked sk b) as [[n sk1]|]; [|done]. case_if_as H4; [by intros [= _ <-]|]. intros [= _ <-]. by apply Hf.
  - cbn zeta. apply IH. by apply Hf.
Qed.
End Calm.

Section Keep.
Context {K : Kernel} {TL : TagLaws K} {PL : PcountLaws K} {SL : SeqLaws K} {SM : SackModeLaws K} {RL : RtoLaws K} {CL : CongLaws K} {CS : CaStateLaws K} {HI : HintLaws K}
  {HL : HighSackLaws K} {SH : ShiftLaws K} {FL : FlightLaws K} {DL : DeliverLaws K} {WL : WlLaws K} {FR : FragLaws} {XL : XmitLaws} {TR : TrimLaws}.
Implicit Types (sk : sock) (b : sk_buff) (c : clean_state).

Lemma ack_rtt_part sk flag rtt : same_part sk (tcp_ack_update_rtt sk flag rtt).
Proof using RL.
  assert (H : forall s r, same_part s (tcp_valid_rtt_meas s r)).
  { intros s r. unfold tcp_valid_rtt_meas, tcp_set_rto. cbn zeta. rewrite bound_rto_spec. set (s1 := tcp_rtt_estimator s r). assert (E : same_part s s1) by (unfold s1, tcp_rtt_estimator; cbn zeta; by cases_if). clearbody s1. by case_match. }
  unfold tcp_ack_update_rtt, tcp_ack_saw_tstamp, tcp_ack_no_tstamp. cases_if; first [apply H|done].
Qed.
Lemma rearm_rto_part sk : same_part sk (tcp_rearm_rto sk).
Proof using Type. unfold tcp_rearm_rto. case_match; [done|apply reset_timer_part]. Qed.
Lemma cong_only_part sk sk' : same_part sk (cong_only sk sk').
Proof using Type. done. Qed.
Lemma part_wq sk sk' : same_part sk sk' -> sk_write_queue sk' = sk_write_queue sk.
Proof using Type. intros (E & _ & _). exact (f_equal (fun p => fst (fst (fst (fst (fst (fst p)))))) E). Qed.
Lemma clean_acked_step sk c pf ps : score sk -> sacking sk -> step sk (clean_acked sk c pf ps) /\ sk_write_queue (clean_acked sk c pf ps) = sk_write_queue sk.
Proof using SM RL CL XL.
  intros Hs Hsa. unfold clean_acked. cbn zeta. set (sk1 := if _ && _ then tcp_mtup_probe_success sk else sk). assert (P1 : same_part sk sk1) by (unfold sk1; case_match; [apply probe_success_part|done]). clearbody sk1.
  pose proof (part_trans _ _ _ P1 (ack_rtt_part sk1 (cl_flag c) (cl_seq_rtt c))) as P2. set (sk2 := tcp_ack_update_rtt _ _ _) in *. clearbody sk2. pose proof (part_trans _ _ _ P2 (rearm_rto_part sk2)) as P3. set (sk3 := tcp_rearm_rto sk2) in *. clearbody sk3.
  pose proof (step_part _ _ Hs P3) as S3. rewrite (sacking_reno sk3) by (by apply (step_sacking _ _ S3)). set (sk4 := if cl_reord c <? pf then _ else sk3).
  assert (S4 : step sk3 sk4 /\ sk_write_queue sk4 = sk_write_queue sk3).
  { unfold sk4. case_match; [|split; [apply step_refl, S3|done]]. split; [apply update_reordering_step, S3|]. unfold tcp_update_reordering, tcp_disable_fack. by cases_if. }
  clearbody sk4. destruct S4 as [S4 Q4]. rewrite <- (part_wq _ _ P3), <- Q4. set (sk5 := sk4 <| tp; lost_cnt_hint := _ |> <| tp; fackets_out := _ |>). assert (P5 : same_part sk4 sk5) by done. clearbody sk5.
  assert (P6 : same_part sk4 match ca_pkts_acked with Some f => f sk5 (cl_pkts_acked c) (clean_rtt_us c) | None => sk5 end).
  { destruct ca_pkts_acked as [f|] eqn:Ef; [|done]. eapply part_trans; [exact P5|]. rewrite (pkts_acked_spec f _ _ _ Ef). apply cong_only_part. }
  split; [|exact (part_wq _ _ P6)]. eapply step_trans; [exact S3|]. eapply step_trans; [exact S4|]. apply step_part; [apply S4|exact P6].
Qed.
Lemma clean_rtx_queue_step sk pf una flag sk' : score sk -> sacking sk -> tcp_clean_rtx_queue sk pf una = Some (flag, sk') -> step sk sk' /\ front_sent sk' flag /\ exists acked rest, cleaned sk sk' acked rest.
Proof using TL PL SM RL CL XL TR.
  intros Hs Hsa. unfold tcp_clean_rtx_queue. cbn zeta. destruct (clean_loop _ sk _) as [[sk1 c1]|] eqn:Hl; [|done]. destruct (clean_loop_ok _ _ _ _ _ Hs (Nat.le_refl _) Hl) as (K1 & O1 & U1 & acked & rest & C).
  assert (S1 : step sk sk1) by (split; [done|]; unfold sacking; by rewrite O1). set (sk2 := if between _ _ _ then _ else sk1). assert (P2 : same_part sk1 sk2) by (unfold sk2; by case_match). clearbody sk2.
  pose proof (step_part _ _ (step_score _ _ S1) P2) as S2. intros [= <- <-]. set (c2 := mk_clean _ _ _ _ _ _). clearbody c2. match goal with |- context [if has ?f FLAG_ACKED then _ else _] => generalize (has f FLAG_ACKED) end. intros acks.
  assert (S3 : step sk2 (if acks then clean_acked sk2 c2 pf (sacked_out (tp sk)) else sk2) /\ sk_write_queue (if acks then clean_acked sk2 c2 pf (sacked_out (tp sk)) else sk2) = sk_write_queue sk2).
  { destruct acks; [|split; [apply step_refl, S2|done]]. apply clean_acked_step; [apply S2|]. by apply (step_sacking _ _ S2), (step_sacking _ _ S1). }
  destruct S3 as [S3 Q3]. set (sk3 := if acks then _ else sk2) in *. clearbody sk3. pose proof (step_trans _ _ _ S1 (step_trans _ _ _ S2 S3)) as S. split; [exact S|]. split.
  { intros Hf. pose proof (clean_loop_calm _ sk (mk_clean 0 0 (packets_out (tp sk)) (-1) (-1) net_invalid_timestamp) _ _ eq_refl Hl) as Hc. destruct (head (sk_write_queue sk2)) as [b|] eqn:Hb; [|by unfold calm in Hc; congruence]. destruct (has (sacked b) TCPCB_SACKED_ACKED) eqn:Hbs; [|by unfold calm in Hc; congruence].
    assert (Hq : head (sk_write_queue sk3) = Some b) by (by rewrite Q3). pose proof (sc_ok _ (step_score _ _ S)) as Ho. unfold tcp_write_queue_head. destruct (sk_write_queue sk3) as [|x q]; [done|]. injection Hq as ->. exists (skb_id b). split; [done|].
    apply Forall_cons in Ho as [Ho _]. intros Hi. destruct (bo_unsent _ _ Ho Hi) as [Hn _]. congruence. }
  exists acked, rest.
  assert (Eh : sk_send_head sk3 = sk_send_head sk1) by (destruct S as ((_ & _ & ->) & _); by destruct K1 as (_ & _ & ->)). destruct C. split; rewrite ?Q3, ?(part_wq _ _ P2); try done. unfold is_send_head in *. by rewrite Eh.
Qed.

(** The SACK walk leaves the options and the left edge of the window alone. *)
Definition opt_una sk := (rx_opt (tp sk), snd_una (tp sk)).
Lemma fragment_ou sk i n mss : opt_una (snd (tcp_fragment sk i n mss)) = opt_una sk.
Proof using XL.
  pose proof (fragment_ctl sk i n mss) as E. unfold opt_una. set (s := snd (tcp_fragment sk i n mss)) in *. clearbody s. unfold ctl in E. by injection E as -> _ _ _ -> _ _ _.
Qed.
Lemma match_skb_ou sk b s e : opt_una (snd (tcp_match_skb_to_sack sk b s e)) = opt_una sk.
Proof using XL.
  unfold tcp_match_skb_to_sack. cbn zeta. case_if_as H1; [|done]. case_if_as H2; [done|]. case_if_as H3; [done|].
  match goal with |- context [tcp_fragment sk ?i ?n ?m] => pose proof (fragment_ou sk i n m) as E; destruct (tcp_fragment sk i n m) as [err sk1] end. by case_if_as H4.
Qed.
Lemma sacktag_one_ou b sk st dup n : opt_una (snd (fst (tcp_sacktag_one b sk st dup n))) = opt_una sk.
Proof using Type.
  unfold tcp_sacktag_one, account_dsack. set (p := if dup && _ then _ else (sk, st)). assert (E : opt_una (fst p) = opt_una sk) by (unfold p; by cases_if). destruct p as [sk1 st1]. cbn [fst] in E. rewrite <- E. clear E.
  case_if_as H1; [done|]. set (q := if negb (has (sacked b) TCPCB_SACKED_ACKED) then _ else _). assert (E : opt_una (snd (fst q)) = opt_una sk1).
  { unfold q. case_if_as H2; [|done]. unfold clear_lost. cbn zeta. set (r := if has (sacked b) TCPCB_SACKED_RETRANS then _ else _). assert (E : opt_una (snd (fst r)) = opt_una sk1) by (unfold r; by cases_if).
    destruct r as [[t sk2] st2]. cbn in E. rewrite <- E. cbn [fst snd]. unfold count_sacked. cbn zeta. destruct (hint_seq _ _); by cases_if. }
  destruct q as [[t sk2] st2]. cbn [fst snd] in E. rewrite <- E. by case_if_as H3.
Qed.
Lemma advance_ou sk b : opt_una (tcp_advance_highest_sack sk b) = opt_una sk.
Proof using HL. by rewrite advance_highest_spec. Qed.
Lemma eaten_ou sk prev b : opt_una (shifted_eaten sk prev b) = opt_una sk.
Proof using HL.
  unfold shifted_eaten, sk_wmem_free_skb, sk_mem_uncharge. cbn zeta. rewrite advance_highest_spec. cases_if; done.
Qed.
Lemma shifted_skb_ou sk prev b st n sh mss dup r : tcp_shifted_skb sk prev b st n sh mss dup = Some r -> opt_una (snd (fst r)) = opt_una sk.
Proof using HL.
  unfold tcp_shifted_skb. case_if_as H1; [done|]. cbn zeta. set (sk1 := if is_hint _ _ then _ else sk). assert (E : opt_una sk1 = opt_una sk) by (unfold sk1; by case_match). rewrite <- E. clear E. clearbody sk1.
  case_if_as H2; [done|]. destruct (shifted_update _ _ _ _ _) as [p' b']. match goal with |- context [tcp_sacktag_one ?b ?s ?t ?d ?n] => pose proof (sacktag_one_ou b s t d n) as E; destruct (tcp_sacktag_one b s t d n) as [[tags sk2] st2] end.
  cbn [fst snd] in E. case_if_as H3; [case_if_as H4; [done|]|]; intros [= <-]; cbn [fst snd]; [exact E|rewrite eaten_ou; exact E].
Qed.
Lemma shift_next_ou sk pi st n mss r : shift_next sk pi st n mss = Some r -> opt_una (fst (fst r)) = opt_una sk.
Proof using HL.
  unfold shift_next. case_if_as H1; [by intros [= <-]|]. destruct (tcp_write_queue_next sk pi ≫= wq_get sk) as [b|]; [|by intros [= <-]]. destruct (wq_get sk pi) as [p|]; [|by intros [= <-]].
  case_if_as H2; [by intros [= <-]|]. destruct (skb_shift p b (len b)) as [[p' b']|]; [|by intros [= <-]]. destruct (tcp_shifted_skb _ _ _ _ _ _ _ _) as [[[e sk1] st1]|] eqn:E; [|done].
  intros [= <-]. exact (shifted_skb_ou _ _ _ _ _ _ _ _ _ E).
Qed.
Lemma shift_data_ou sk b st s e dup r : tcp_shift_skb_data sk b st s e dup = Some r -> opt_una (snd (fst r)) = opt_una sk.
Proof using HL.
  unfold tcp_shift_skb_data. cbn zeta. do 5 (case_if_as H; [by intros [= <-]|clear H]). destruct (tcp_write_queue_prev sk (skb_id b) ≫= wq_get sk) as [p|]; [|by intros [= <-]]. case_if_as H1; [by intros [= <-]|].
  destruct (shift_amount p b s e) as [| | |n pc mss]; [by intros [= <-]|by intros [= <-]|done|]. destruct (skb_shift p b n) as [[p' b']|]; [|by intros [= <-]].
  destruct (tcp_shifted_skb _ _ _ _ _ _ _ _) as [[[eaten sk1] st1]|] eqn:E; [|done]. apply shifted_skb_ou in E. cbn [fst snd] in E. destruct eaten; [|by intros [= <-]].
  destruct (shift_next _ _ _ _ _) as [[[sk2 st2] pc2]|] eqn:E2; [|done]. apply shift_next_ou in E2. intros [= <-]. cbn in *. congruence.
Qed.
Lemma walk_ou fuel : forall cur sk nd st s e dup r, tcp_sacktag_walk fuel cur sk nd st s e dup = Some r -> opt_una (snd (fst r)) = opt_una sk.
Proof using HL XL.
  induction fuel as [|fuel IH]; intros cur sk nd st s e dup r; cbn [tcp_sacktag_walk]; [by intros [= <-]|]. destruct (cur ≫= wq_get sk) as [b|]; [|by intros [= <-]]. cbn zeta.
  case_if_as H1; [by intros [= <-]|]. case_if_as H2; [by intros [= <-]|]. assert (Ed : opt_una (snd (walk_dup sk b nd dup)) = opt_una sk).
  { unfold walk_dup. destruct nd as [d|]; [|done]. case_if_as H3; [|done]. pose proof (match_skb_ou sk b (start_seq d) (sb_end_seq d)) as E. destruct (tcp_match_skb_to_sack _ _ _ _) as [k sk1]. exact E. }
  destruct (walk_dup sk b nd dup) as [[k dup'] sk1]. cbn [snd] in Ed. rewrite <- Ed. clear Ed. set (b1 := default b _). clearbody b1. destruct (walk_shift sk1 b1 st s e dup' k) as [[[act sk2] st2]|] eqn:Ew; [|done].
  assert (E2 : opt_una sk2 = opt_una sk1).
  { revert Ew. unfold walk_shift. case_if_as H3; [|by intros [= _ <- _]]. destruct (tcp_shift_skb_data _ _ _ _ _ _) as [[[d sk3] st3]|] eqn:E; [|done]. apply shift_data_ou in E. cbn [fst snd] in E. rewrite <- E.
    destruct d; [|by intros [= _ <- _]|by intros [= _ <- _]]. pose proof (match_skb_ou sk3 b1 s e) as Em. destruct (tcp_match_skb_to_sack _ _ _ _) as [k2 sk4]. intros [= _ <- _]. exact Em. }
  rewrite <- E2. clear E2 Ew. destruct act as [pi|k2]; [apply IH|]. case_if_as H3; [by intros [= <-]|]. set (b2 := default b1 _). clearbody b2.
  assert (Et : opt_una (fst (walk_tag sk2 b2 st2 dup' k2)) = opt_una sk2).
  { unfold walk_tag. case_if_as H4; [|done]. pose proof (sacktag_one_ou b2 sk2 st2 dup' (tcp_skb_pcount b2)) as E. destruct (tcp_sacktag_one _ _ _ _ _) as [[tags sk3] st3]. cbn [fst snd] in *. rewrite <- E. case_if_as H5; [|done]. by rewrite advance_ou. }
  destruct (walk_tag sk2 b2 st2 dup' k2) as [sk3 st3]. cbn [fst] in Et. rewrite <- Et. apply IH.
Qed.
Lemma maybe_skipping_ou fuel cur sk nd st s r : tcp_maybe_skipping_dsack fuel cur sk nd st s = Some r -> opt_una (snd (fst r)) = opt_una sk.
Proof using HL XL. unfold tcp_maybe_skipping_dsack. destruct nd as [d|]; [|by intros [= <-]]. case_if_as H1; [|by intros [= <-]]. destruct (tcp_sacktag_skip _ _ _ _). apply walk_ou. Qed.
Lemma block_cached_ou sk st cur blk s e nd dup r : block_cached sk st cur blk s e nd dup = Some r -> opt_una (snd (fst r)) = opt_una sk.
Proof using HL XL.
  unfold block_cached. set (hd := if before s _ then _ else _). assert (Hhd : forall x, hd = Some x -> opt_una (snd (fst x)) = opt_una sk).
  { intros x. subst hd. case_if_as H2; [|by intros [= <-]]. destruct (tcp_sacktag_skip _ _ _ _). apply walk_ou. }
  destruct hd as [[[cu1 sk1] st1]|]; [|done]. pose proof (Hhd _ eq_refl) as E1. cbn [fst snd] in E1. rewrite <- E1. case_if_as H2; [by intros [= <-]|].
  destruct (tcp_maybe_skipping_dsack _ _ _ _ _ _) as [[[cu2 sk2] st2]|] eqn:Em; [|done]. apply maybe_skipping_ou in Em. cbn [fst snd] in Em. rewrite <- Em. case_if_as H3; [destruct (highest_sack _)|destruct (tcp_sacktag_skip _ _ _ _)]; by intros [= <-].
Qed.
Lemma blocks_ou fuel : forall sp i cache cur sk st fd first r, sack_blocks_loop fuel sp i cache cur sk st fd first = Some r -> opt_una (fst r) = opt_una sk.
Proof using HL XL.
  induction fuel as [|fuel IH]; intros sp i cache cur sk st fd first r; cbn [sack_blocks_loop]; [by intros [= <-]|]. destruct sp as [|b rest]; [by intros [= <-]|]. cbn zeta.
  match goal with |- context [match ?x with (act, later) => _ end] => set (al := x) end.
  assert (Hal : forall r, fst al = Some r -> opt_una (snd (fst r)) = opt_una sk).
  { intros x. subst al. match goal with |- context [block_entry sk ?t cur ?s] => destruct (block_entry sk t cur s) as [a t'] end.
    destruct (skip_early _ _) as [|c later]; [by intros [= <-]|]. case_if_as H1; [apply block_cached_ou|by intros [= <-]]. }
  destruct al as [act later]. cbn [fst] in Hal. set (walked := match act with Some (BaWalk _, _, _) => _ | _ => _ end).
  assert (Hw : forall r, walked = Some r -> opt_una (snd (fst r)) = opt_una sk).
  { intros x. subst walked. destruct act as [[[a k0] t0]|]; [|done]. pose proof (Hal _ eq_refl) as E0. destruct a; try (by intros [= <-]).
    destruct (tcp_sacktag_walk _ _ _ _ _ _ _ _) as [[[cu k] t]|] eqn:Ew; [|done]. apply walk_ou in Ew. intros [= <-]. cbn in *. congruence. }
  destruct walked as [[[a sk1] st1]|]; [|done]. pose proof (Hw _ eq_refl) as E1. cbn [fst snd] in E1. destruct a; try (intros E; apply IH in E; congruence). by intros [= <-].
Qed.
Lemma lost_retrans_ou sk : opt_una (tcp_mark_lost_retrans sk) = opt_una sk.
Proof using Type.
  assert (Hl : forall ids s cnt low upto, opt_una (fst (lost_retrans_loop ids s cnt low upto)) = opt_una s).
  { induction ids as [|i ids IH]; intros s cnt low upto; cbn [lost_retrans_loop]; [done|]. destruct (wq_get s i) as [b|]; [|done]. do 2 (case_if_as H; [done|clear H]). do 2 (case_if_as H; [apply IH|clear H]). case_if_as H; [|apply IH].
    rewrite IH. unfold tcp_skb_mark_lost_uncond_verify, count_lost, tcp_verify_retransmit_hint. cbn zeta. destruct (hint_seq _ _); by cases_if. }
  unfold tcp_mark_lost_retrans. cbn zeta. case_if_as H; [done|]. match goal with |- context [lost_retrans_loop ?i ?s ?c ?l ?u] => pose proof (Hl i s c l u) as E; destruct (lost_retrans_loop i s c l u) as [sk1 low] end. by case_if_as H2.
Qed.
Lemma sacktag_step sk ack una flag sk' : score sk -> tcp_sacktag_write_queue sk ack una = Some (flag, sk') -> step sk sk'.
Proof using TL PL SL HL SH FR XL.
  intros Hs Hr. split; [by eapply sacktag_write_queue_kept|]. revert Hr. unfold tcp_sacktag_write_queue. cbn zeta. set (sk0 := if _ =? 0 then tcp_highest_sack_reset _ else sk).
  assert (E0 : opt_una sk0 = opt_una sk) by (unfold sk0; case_match; [by rewrite highest_reset_spec|done]). clearbody sk0.
  assert (E1 : (sacking sk0 -> sacking (snd (tcp_check_dsack sk0 ack (sack_option ack) una))) /\ snd_una (tp (snd (tcp_check_dsack sk0 ack (sack_option ack) una))) = snd_una (tp sk0)).
  { unfold tcp_check_dsack, tcp_dsack_seen, sacking. cbn zeta. cases_if; (split; [|done]); intros Hb; cbn; rewrite ?testbit_bset, ?Hb; done. }
  destruct (tcp_check_dsack _ _ _ _) as [dup sk1]. cbn [snd] in E1. destruct E1 as [Ea Eb]. unfold opt_una in E0. injection E0 as X1 X2.
  assert (E2 : (sacking sk -> sacking sk1) /\ snd_una (tp sk1) = snd_una (tp sk)) by (split; [intros H; apply Ea; unfold sacking; by rewrite X1|congruence]). clear Ea Eb X1 X2 sk0.
  case_if_as H2; [by intros [= _ <-]|]. case_if_as H3; [by intros [= _ <-]|]. destruct (collect_sacks _ _ _ _ _ _ _ _) as [sp first]. destruct (bubble_sort _ _ _) as [sp' first'].
  destruct (sack_blocks_loop _ _ _ _ _ _ _ _ _) as [[sk2 st2]|] eqn:E; [|done]. apply blocks_ou in E. cbn [fst] in E. intros [= _ <-]. unfold sacktag_finish. cbn zeta.
  match goal with |- context [tcp_mark_lost_retrans ?s] => pose proof (lost_retrans_ou s) as E4; set (sk4 := tcp_mark_lost_retrans s) in * end. change (opt_una (sk2 <| tp; recv_sack_cache := _ |>)) with (opt_una sk2) in E4. clearbody sk4.
  unfold opt_una in E, E4. injection E as Y1 Y2. injection E4 as Z1 Z2. destruct E2 as [Ea Eb]. assert (E5 : (sacking sk -> sacking sk4) /\ snd_una (tp sk4) = snd_una (tp sk)) by (split; [intros H; unfold sacking; rewrite Z1, Y1; by apply Ea|congruence]).
  case_if_as H4; [|done]. destruct E5 as [Ec Ed]. rewrite <- Ed. unfold tcp_update_reordering, tcp_disable_fack, sacking in *. split; [|by cases_if]. intros H. specialize (Ec H). case_match; [|done].
  assert (Eb' : Z.testbit (bclr (sack_ok (rx_opt (tp sk4))) 2) 0 = true) by (rewrite testbit_bclr by lia; by rewrite Ec). case_match; exact Eb'.
Qed.

(** F-RTO leaves the buffers where they are. *)
Definition in_place sk sk' : Prop := step sk sk' /\ same_ids sk sk'.
Lemma in_place_refl sk : score sk -> in_place sk sk.
Proof using Type. intros Hs. split; [by apply step_refl|done]. Qed.
Lemma in_place_trans sk1 sk2 sk3 : in_place sk1 sk2 -> in_place sk2 sk3 -> in_place sk1 sk3.
Proof using Type. intros [] []. split; [by eapply step_trans|by eapply same_ids_trans]. Qed.
Lemma in_place_part sk sk' : score sk -> same_part sk sk' -> in_place sk sk'.
Proof using Type. intros Hs E. split; [by apply step_part|by apply part_ids]. Qed.
Lemma frto_loss_step sk n flag : score sk -> sacking sk -> in_place sk (tcp_enter_frto_loss sk n flag).
Proof using TL PL SM CS HI FL.
  intros Hs Hsa. assert (Hw : without_reno sk = sk) by (unfold without_reno; by rewrite sacking_reno). destruct (enter_frto_loss_facts sk n flag ltac:(by rewrite Hw)) as (K1 & I1 & O1 & O2 & _). split; [|done]. split; [done|]. unfold sacking. by rewrite O1.
Qed.
Lemma frto_verdict_step sk flag sk' : score sk -> sacking sk -> frto_verdict sk flag = Some sk' -> in_place sk sk'.
Proof using TL PL SM CS HI FL.
  intros Hs Hsa. assert (Hl : forall n, in_place sk (tcp_enter_frto_loss sk n flag)) by (intros; by apply frto_loss_step). pose proof (in_place_refl sk Hs) as Hr. unfold frto_verdict. cbn zeta.
  assert (Hc : in_place sk (sk <| tp; snd_cwnd := Z.min (snd_cwnd (tp sk)) (tcp_packets_in_flight (tp sk)) |>)) by (by apply in_place_part).
  repeat (case_match; try done); by intros [= <-].
Qed.
Lemma spur_response_part sk flag : same_part sk (spur_to_response sk flag).
Proof using CS.
  unfold spur_to_response, tcp_undo_spur_to_response, tcp_ratehalving_spur_to_response. case_match; [case_match; [apply enter_cwr_same|apply undo_cwr_part]|]. case_match; [|apply enter_cwr_same].
  unfold tcp_conservative_spur_to_response, TCP_ECN_queue_cwr. cbn zeta. by case_match.
Qed.
Lemma process_frto_step sk flag : score sk -> sacking sk -> in_place sk (snd (tcp_process_frto sk flag)).
Proof using TL PL SM CS HI FL.
  intros Hs Hsa. unfold tcp_process_frto. cbn zeta. set (sk1 := if has flag FLAG_DATA_ACKED then _ else sk). assert (P1 : same_part sk sk1) by (unfold sk1; by case_match). clearbody sk1.
  set (sk2 := if _ || _ then sk1 <| tp; undo_marker := 0 |> else sk1). assert (P2 : same_part sk1 sk2) by (unfold sk2; by case_match). clearbody sk2.
  pose proof (in_place_part _ _ Hs (part_trans _ _ _ P1 P2)) as S2. assert (Hsa2 : sacking sk2) by (by apply (step_sacking _ _ (proj1 S2))). eapply in_place_trans; [exact S2|]. destruct S2 as [S2 _]. apply step_score in S2.
  destruct (frto_verdict sk2 flag) as [sk3|] eqn:Hv; [by eapply frto_verdict_step|]. case_match; cbn [snd].
  - set (sk3 := sk2 <| tp; snd_cwnd := _ |> <| tp; frto_counter := _ |>). assert (S3 : in_place sk2 sk3) by (by apply in_place_part). case_match; [|done]. eapply in_place_trans; [exact S3|]. apply frto_loss_step; [apply S3|by apply (step_sacking _ _ (proj1 S3))].
  - apply in_place_part; [done|]. eapply part_trans; [apply spur_response_part|done].
Qed.
Lemma cong_avoid_part sk ack n : same_part sk (tcp_cong_avoid sk ack n).
Proof using CL. unfold tcp_cong_avoid. by rewrite cong_avoid_spec. Qed.
Lemma ack_congestion_step sk ack flag pif pp newly : score sk -> sacking sk -> front_sent sk flag -> step sk (ack_congestion sk ack flag pif pp newly).
Proof using TL PL SM CL CS HI FL FR XL.
  intros Hs Hsa Hf. unfold ack_congestion. set (p := if negb (frto_counter (tp sk) =? 0) then _ else _). assert (S1 : in_place sk (snd p)) by (unfold p; case_match; [by apply process_frto_step|by apply in_place_refl]).
  destruct p as [fc sk1]. cbn [snd] in S1. set (sk2 := if before (frto_highmark (tp sk1)) _ then _ else sk1). assert (S2 : in_place sk1 sk2) by (apply in_place_part; [apply S1|unfold sk2; by case_match]). clearbody sk2.
  pose proof (in_place_trans _ _ _ S1 S2) as [S3 I3]. assert (Hsa3 : sacking sk2) by (by apply (step_sacking _ _ S3)). eapply step_trans; [exact S3|]. apply step_score in S3. apply (front_sent_ids _ _ _ I3) in Hf.
  assert (Hca : forall c : bool, in_place sk2 (if c then tcp_cong_avoid sk2 ack pif else sk2)) by (intros []; [apply in_place_part; [done|apply cong_avoid_part]|by apply in_place_refl]).
  case_match; [|apply Hca]. cbn zeta. match goal with |- context [if ?c then tcp_cong_avoid sk2 ack pif else sk2] => pose proof (Hca c) as [S4 I4]; set (sk4 := if c then _ else sk2) in * end. clearbody sk4.
  eapply step_trans; [exact S4|]. apply fastretrans_alert_keeps; [apply S4|by apply (step_sacking _ _ S4)|by apply (front_sent_ids _ _ _ I4)].
Qed.

(** The left edge of the window moves to [ack]; everything else about the queue stays. *)
Definition edge (ack : Z) sk sk' : Prop := kept sk sk' /\ (sacking sk -> sacking sk') /\ snd_una (tp sk') = ack.
Lemma edge_step ack sk1 sk2 sk3 : edge ack sk1 sk2 -> step sk2 sk3 -> edge ack sk1 sk3.
Proof using Type. intros (H1 & H2 & H3) (H4 & H5 & H6). split; [by eapply kept_trans|]. split; [auto|congruence]. Qed.
Lemma step_edge ack sk1 sk2 : score sk1 -> step sk1 sk2 -> edge ack sk1 (sk2 <| tp; snd_una := ack |>).
Proof using Type. intros Hs (H1 & H2 & _). split; [|by split]. eapply kept_trans; [exact H1|]. apply kept_part; [apply H1|done]. Qed.
Lemma update_window_edge sk b ack aseq : score sk -> edge ack sk (snd (tcp_ack_update_window sk b ack aseq)).
Proof using WL DL XL.
  intros Hs. unfold tcp_ack_update_window. cbn zeta. match goal with |- context [tcp_may_update_window _ _ _ ?n] => generalize n end. intros nwin.
  set (p := if tcp_may_update_window _ _ _ _ then _ else _). assert (P : same_part sk (snd p)).
  { unfold p. case_match; [|done]. cbn [snd]. rewrite update_wl_spec, fast_path_check_spec. case_match; [|done]. case_match; [|done]. split; [by rewrite sync_mss_part|]. split; [by rewrite sync_mss_opt|by rewrite sync_mss_una]. }
  destruct p as [flag sk1]. cbn [snd] in *. apply step_edge; [done|]. by apply step_part.
Qed.
Lemma ack_update_edge sk b flag una flag' sk' : score sk -> ack_update sk b flag una = Some (flag', sk') -> edge (ack_seq b) sk sk'.
Proof using TL PL SL CL HL SH WL DL FR XL.
  intros Hs. unfold ack_update. cbn zeta. case_if_as H1.
  - intros [= _ <-]. set (sk1 := sk <| tp := _ |> <| tp; snd_una := _ |>). assert (E1 : edge (ack_seq b) sk sk1) by (unfold sk1; rewrite update_wl_spec; split; [by apply kept_part|done]).
    eapply edge_step; [exact E1|]. apply step_part; [apply E1|apply ca_event_part].
  - pose proof (update_window_edge sk b (ack_seq b) (seq b) Hs) as E1. destruct (tcp_ack_update_window _ _ _ _) as [wflag sk1]. cbn [snd] in E1.
    set (r := if negb (sacked b =? 0) then _ else _). assert (S2 : forall f sk2, r = Some (f, sk2) -> step sk1 sk2).
    { intros f sk2. unfold r. case_match; [apply sacktag_step; apply E1|]. intros [= _ <-]. apply step_refl, E1. }
    destruct r as [[f sk2]|]; [|done]. specialize (S2 f sk2 eq_refl). intros [= _ <-]. eapply edge_step; [eapply edge_step; [exact E1|exact S2]|]. apply step_part; [apply S2|apply ca_event_part].
Qed.
Lemma ack_probe_part sk : same_part sk (tcp_ack_probe sk).
Proof using Type. unfold tcp_ack_probe. case_match; [|done]. case_match; [done|apply reset_timer_part]. Qed.
Lemma count_bytes_part sk ack : same_part sk (ack_count_bytes sk ack).
Proof using Type. unfold ack_count_bytes. cbn zeta. by cases_if. Qed.
Lemma ack_in_window_edge sk b flag sk' : score sk -> sacking sk -> calm flag -> ack_in_window sk b flag = Some sk' -> edge (ack_seq b) sk sk'.
Proof using TL PL SL SM RL CL CS HI HL SH FL DL WL FR XL TR.
  intros Hs Hsa Hf. unfold ack_in_window. cbn zeta. pose proof (step_part _ _ Hs (count_bytes_part sk (ack_seq b))) as S1. set (sk1 := ack_count_bytes sk (ack_seq b)) in *. clearbody sk1.
  destruct (ack_update _ _ _ _) as [[flag1 sk2]|] eqn:Hu; [|done]. pose proof (ack_update_calm _ _ _ _ _ _ (calm_if _ _ _ (calm_bset _ FLAG_SND_UNA_ADVANCED Hf eq_refl) Hf) Hu) as Hf1. apply ack_update_edge in Hu; [|apply S1].
  assert (E2 : edge (ack_seq b) sk sk2) by (destruct S1 as (A1 & A2 & _), Hu as (B1 & B2 & B3); split; [by eapply kept_trans|split; [auto|done]]).
  set (sk3 := sk2 <| sk_err_soft := 0 |> <| icsk; icsk_probes_out := 0 |> <| tp; rcv_tstamp := _ |>). assert (S3 : step sk2 sk3) by (apply step_part; [apply E2|done]).
  pose proof (edge_step _ _ _ _ E2 S3) as E3. clearbody sk3. assert (Hsa3 : sacking sk3) by (by apply E3). case_match.
  - intros [= <-]. eapply edge_step; [exact E3|]. case_match; [apply step_refl, E3|]. apply step_part; [apply E3|apply ack_probe_part].
  - destruct (tcp_clean_rtx_queue _ _ _) as [[cflag sk4]|] eqn:Hc; [|done]. apply clean_rtx_queue_step in Hc as (S4 & F4 & _); [|apply E3|done]. intros [= <-]. eapply edge_step; [exact E3|].
    eapply step_trans; [exact S4|]. apply ack_congestion_step; [apply S4|by apply (step_sacking _ _ S4)|]. intros Hr. apply F4. rewrite has_bset, Hf1 in Hr. exact Hr.
Qed.

(** The BUG_ONs of tcp_tso_acked are not reached from the loop. *)
Lemma tso_acked_total sk b : wq_get sk (skb_id b) = Some b -> buf_ok (unsent sk) b -> is_u32 (snd_una (tp sk)) -> after (end_seq b) (snd_una (tp sk)) = true -> (tcp_skb_pcount b =? 1) = false ->
  is_Some (tcp_tso_acked sk b).
Proof using PL SL TR.
  intros Hb Hok Hu Ha Hp. unfold tcp_tso_acked. rewrite Ha. cbn [negb]. set (m := u32 (snd_una (tp sk) - seq b)). pose proof (trim_ok sk (skb_id b) m b Hb (bo_segs _ _ Hok) (bo_size _ _ Hok)) as To.
  destruct (tcp_trim_head sk (skb_id b) m) as [err sk2]. cbn [fst snd] in *. destruct (Z.eqb_spec err 0) as [E|E]; cbn [negb]; [|by eexists].
  destruct (To E) as (b' & Ht & Esk). assert (Hg : wq_get sk2 (skb_id b) = Some b') by (rewrite Esk; apply (get_set sk); [apply Ht|by eexists]).
  rewrite Hg. cbn zeta. change (default b (Some b')) with b'. rewrite pcount_spec in *. apply Z.eqb_neq in Hp. destruct Ht.
  assert (Hs : before (seq b') (end_seq b') = true) by (rewrite tr_end0, tr_seq0, <- after_spec; unfold m; replace (u32 (seq b + u32 _)) with (snd_una (tp sk)); [done|]; rewrite u32_add_r; replace (seq b + (snd_una (tp sk) - seq b)) with (snd_una (tp sk)) by lia; by rewrite u32_small).
  rewrite Hs, pcount_spec. cbn [negb]. rewrite orb_false_r. case_if_as Hx; [|by eexists]. apply andb_true_iff in Hx as [Hx1 Hx2]. apply Z.eqb_eq in Hx2. apply negb_true_iff, Z.eqb_neq in Hx1. pose proof (bo_segs _ _ Hok).
  assert (gso_segs b = 0 -> False) by (intros Hz; apply Hx1; rewrite Hz, Hx2; done). specialize (tr_left0 ltac:(lia)). lia.
Qed.
Lemma clean_loop_total fuel : forall sk c, score sk -> is_u32 (snd_una (tp sk)) -> is_Some (clean_loop fuel sk c).
Proof using TL PL SL TR.
  induction fuel as [|fuel IH]; intros sk c Hs Hu; [by eexists|]. cbn [clean_loop]. destruct (sk_write_queue sk) as [|b q] eqn:Hq; cbn [head]; [by eexists|].
  assert (Hb : wq_get sk (skb_id b) = Some b) by (unfold wq_get; rewrite Hq; cbn; by rewrite Nat.eqb_refl). case_if_as Hh; [by eexists|].
  assert (Hi : skb_id b ∉ unsent sk) by (eapply (sent_prefix sk [] _ (skb_id <$> q)); [apply Hs|by rewrite Hq|intros x Hx; by apply elem_of_nil in Hx|done]). case_if_as Ha.
  - case_if_as Hp; [by eexists|]. apply orb_false_iff in Hp as [Hp _]. destruct (tso_acked_total sk b Hb (score_get _ _ _ Hs Hb) Hu Ha Hp) as [[n sk1] ->]. case_if_as Hn; by eexists.
  - set (sk1 := clean_syn (clean_count sk (sacked b) (tcp_skb_pcount b)) b). pose proof (acked_score sk sk1 b Hs Hb Hi ltac:(unfold sk1; by rewrite pcount_spec)) as Hs1.
    assert (Ef1 : frame sk1 = frame sk) by (unfold sk1; destruct (clean_syn_part (clean_count sk (sacked b) (tcp_skb_pcount b)) b) as [_ E]; rewrite clean_count_rest in E; exact (rest_frame _ _ E)).
    clearbody sk1. destruct (clean_unlink_score sk1 b Hs1) as [Hs2 Ef2]. apply IH; [done|]. unfold frame in Ef1, Ef2. injection Ef1 as _ _ _ X _. injection Ef2 as _ _ _ Y _. rewrite Y. change (is_u32 (snd_una (tp sk1))). by rewrite X.
Qed.
Lemma clean_rtx_queue_total sk pf una : score sk -> is_u32 (snd_una (tp sk)) -> is_Some (tcp_clean_rtx_queue sk pf una).
Proof using TL PL SL TR.
  intros Hs Hu. unfold tcp_clean_rtx_queue. cbn zeta. destruct (clean_loop_total (length (sk_write_queue sk)) sk (mk_clean 0 0 (packets_out (tp sk)) (-1) (-1) net_invalid_timestamp) Hs Hu) as [[sk1 c1] ->]. by eexists.
Qed.
Lemma ack_in_window_total sk b flag : score sk -> is_u32 (ack_seq b) -> sacked b = 0 -> is_Some (ack_in_window sk b flag).
Proof using TL PL SL CL HL SH WL DL FR XL TR.
  intros Hs Ha Hb. unfold ack_in_window. cbn zeta. pose proof (step_part _ _ Hs (count_bytes_part sk (ack_seq b))) as S1. set (sk1 := ack_count_bytes sk (ack_seq b)) in *. clearbody sk1.
  assert (Hu : forall f u, is_Some (ack_update sk1 b f u)) by (intros f u; unfold ack_update; cbn zeta; case_if_as H1; [by eexists|]; destruct (tcp_ack_update_window _ _ _ _) as [wf sk2]; rewrite Hb; by eexists).
  match goal with |- context [ack_update sk1 b ?f ?u] => destruct (Hu f u) as [[flag1 sk2] E] end. rewrite E. apply ack_update_edge in E; [|apply S1]. destruct E as ((Hs2 & _) & _ & Eu).
  set (sk3 := sk2 <| sk_err_soft := 0 |> <| icsk; icsk_probes_out := 0 |> <| tp; rcv_tstamp := _ |>). assert (S3 : step sk2 sk3) by (apply step_part; done). assert (Eu3 : snd_una (tp sk3) = ack_seq b) by exact Eu. clearbody sk3.
  case_if_as Hp; [by eexists|]. destruct (clean_rtx_queue_total sk3 (fackets_out (tp sk1)) (snd_una (tp sk)) (step_score _ _ S3) ltac:(by rewrite Eu3)) as [[cf sk4] ->]. by eexists.
Qed.

(** With SACK and the counters in agreement with the write queue, tcp_clean_rtx_queue returns
    (its BUG_ONs are not reached): exactly the buffers at the front of the queue that end at or
    below snd_una leave it, the first that stays is the send head or ends beyond snd_una, and the
    counters agree with what is left, a partly acknowledged TSO buffer included. *)
Theorem clean_rtx_queue_ok sk pf una : score sk -> sacking sk -> is_u32 (snd_una (tp sk)) ->
  exists flag sk', tcp_clean_rtx_queue sk pf una = Some (flag, sk') /\ score sk' /\ sk_send_head sk' = sk_send_head sk /\ snd_una (tp sk') = snd_una (tp sk) /\
    exists acked rest, cleaned sk sk' acked rest.
Proof using TL PL SL SM RL CL XL TR.
  intros Hs Hsa Hu. destruct (clean_rtx_queue_total sk pf una Hs Hu) as [[flag sk'] E]. exists flag, sk'. destruct (clean_rtx_queue_step _ _ _ _ _ Hs Hsa E) as (((H1 & _ & H2) & _ & H3) & _ & C). by split_and!.
Qed.

Lemma tcp_ack_step sk b flag : score sk -> sacking sk -> calm flag ->
  (forall r sk', tcp_ack sk b flag = Some (r, sk') ->
     score sk' /\ sacking sk' /\ sk_send_head sk' = sk_send_head sk /\
     if before (ack_seq b) (snd_una (tp sk)) then r = 0 /\ snd_una (tp sk') = snd_una (tp sk)
     else if after (ack_seq b) (snd_nxt (tp sk)) then r = -1 /\ sk' = sk
     else r = 1 /\ snd_una (tp sk') = ack_seq b) /\
  (is_u32 (ack_seq b) -> sacked b = 0 -> is_Some (tcp_ack sk b flag)).
Proof using TL PL SL SM RL CL CS HI HL SH FL DL WL FR XL TR.
  intros Hs Hsa. unfold tcp_ack. cbn zeta. split.
  - intros r sk'. case_if_as Hb.
    + assert (Hf : forall s, step sk s -> score s /\ sacking s /\ sk_send_head s = sk_send_head sk /\ 0 = 0 /\ snd_una (tp s) = snd_una (tp sk)) by (intros s ((A & _ & B) & C & D); split_and!; auto).
      case_if_as Ht; [|intros [= <- <-]; by apply Hf, step_refl]. destruct (tcp_sacktag_write_queue _ _ _) as [[sf sk1]|] eqn:E; [|done]. apply sacktag_step in E; [|done]. intros Hr. set (sk2 := if ca_eqb _ _ then _ else sk1) in Hr.
      assert (S2 : step sk1 sk2) by (apply step_part; [apply E|unfold sk2; case_match; [apply keep_open_part|done]]). clearbody sk2. injection Hr as <- <-. by apply Hf, (step_trans _ sk1).
    + case_if_as Ha; [by intros [= <- <-]|]. destruct (ack_in_window _ _ _) as [sk1|] eqn:E; [|done]. cbn. intros [= <- <-]. apply ack_in_window_edge in E as ((A & _ & B) & C & D); [|done..]. by split_and!; auto.
  - intros Hu Ht. case_if_as Hb; [rewrite Ht; by eexists|]. case_if_as Ha; [by eexists|]. destruct (ack_in_window_total sk b flag Hs Hu Ht) as [sk1 ->]. by eexists.
Qed.
(** C32. tcp_ack, on a connection with SACK, with no SYN or FIN in the write queue and counters that
    agree with it ([score]), for the flags it is called with (none of them claims reneging): an ACK
    of what was never sent is refused and changes nothing; an old ACK leaves snd_una alone; any
    other moves snd_una to the acknowledged number.  Whatever it does (SACK blocks that split and
    merge buffers, F-RTO, fast retransmit, the loss that reneging causes), the counters agree with
    the write queue afterwards, and an ACK without SACK blocks reaches no BUG.  Cutting a buffer and
    retransmitting are the steps of Xmit.v. *)
Theorem tcp_ack_ok sk b flag : score sk -> sacking sk -> calm flag ->
  (forall r sk', tcp_ack sk b flag = Some (r, sk') ->
     score sk' /\ sacking sk' /\ sk_send_head sk' = sk_send_head sk /\
     if before (ack_seq b) (snd_una (tp sk)) then r = 0 /\ snd_una (tp sk') = snd_una (tp sk)
     else if after (ack_seq b) (snd_nxt (tp sk)) then r = -1 /\ sk' = sk
     else r = 1 /\ snd_una (tp sk') = ack_seq b) /\
  (is_u32 (ack_seq b) -> sacked b = 0 -> is_Some (tcp_ack sk b flag)).
Proof using TL PL SL SM RL CL CS HI HL SH FL DL WL FR XL TR. apply tcp_ack_step. Qed.

Lemma sackfrto_opt t t' : rx_opt t' = rx_opt t -> tcp_is_sackfrto t' = tcp_is_sackfrto t.
Proof using SM. unfold tcp_is_sackfrto. intros E. by rewrite !tcp_is_reno_spec, !tcp_is_sack_spec, E. Qed.
(** When the checks let the ACK through; with a counter of 1 the window is opened by two. *)
Lemma frto_verdict_none sk flag : 1 <= frto_counter (tp sk) ->
  (2 <= frto_counter (tp sk) /\ frto_verdict sk flag = None <->
   2 <= frto_counter (tp sk) /\ before (snd_una (tp sk)) (frto_highmark (tp sk)) = true /\
     if tcp_is_sackfrto (tp sk) then has flag FLAG_FORWARD_PROGRESS = true /\ (has flag FLAG_DATA_SACKED = true -> has flag FLAG_ONLY_ORIG_SACKED = true)
     else has flag FLAG_DATA_ACKED = true).
Proof using Type.
  intros Hn. unfold frto_verdict. cbn zeta. assert (Hp : has flag FLAG_DATA_ACKED = true -> has flag FLAG_ANY_PROGRESS = true) by (unfold FLAG_ANY_PROGRESS, FLAG_FORWARD_PROGRESS, FLAG_ACKED; rewrite !has_lor; by intros ->).
  destruct (Z.eqb_spec (frto_counter (tp sk)) 1) as [E|E]; [rewrite E; split; intros [H _]; lia|]. assert (E2 : (frto_counter (tp sk) >=? 2) = true) by lia. rewrite E2, andb_false_r. cbn [andb].
  destruct (before _ _); cbn [negb]; [|intuition discriminate]. destruct (tcp_is_sackfrto (tp sk)); cbn [negb].
  - destruct (has flag FLAG_FORWARD_PROGRESS), (has flag FLAG_DATA_SACKED), (has flag FLAG_ONLY_ORIG_SACKED), (has flag FLAG_NOT_DUP); cbn; intuition discriminate.
  - destruct (has flag FLAG_DATA_ACKED); [rewrite (Hp eq_refl); cbn; intuition discriminate|]. destruct (has flag FLAG_ANY_PROGRESS), (has flag FLAG_NOT_DUP); cbn; intuition discriminate.
Qed.

(** F-RTO takes a timeout for spurious (and lets the sender go on as if it had not happened)
    exactly on a later ACK than the first, below frto_highmark, that acknowledges data or, with SACK-enhanced
    F-RTO, makes progress by segments that were never retransmitted; it then leaves F-RTO and
    forgets the undo information. *)
Theorem frto_spurious_iff sk flag : 1 <= frto_counter (tp sk) ->
  (fst (tcp_process_frto sk flag) = false <->
     2 <= frto_counter (tp sk) /\ before (snd_una (tp sk)) (frto_highmark (tp sk)) = true /\
     if tcp_is_sackfrto (tp sk) then has flag FLAG_FORWARD_PROGRESS = true /\ (has flag FLAG_DATA_SACKED = true -> has flag FLAG_ONLY_ORIG_SACKED = true)
     else has flag FLAG_DATA_ACKED = true) /\
  (fst (tcp_process_frto sk flag) = false -> frto_counter (tp (snd (tcp_process_frto sk flag))) = 0 /\ undo_marker (tp (snd (tcp_process_frto sk flag))) = 0).
Proof using SM.
  intros Hn. unfold tcp_process_frto. cbn zeta. set (sk1 := if has flag FLAG_DATA_ACKED then _ else sk). assert (P1 : tp sk1 = tp sk) by (unfold sk1; by case_match). clearbody sk1. rewrite P1.
  set (sk2 := if _ || _ then sk1 <| tp; undo_marker := 0 |> else sk1).
  assert (P2 : frto_counter (tp sk2) = frto_counter (tp sk) /\ snd_una (tp sk2) = snd_una (tp sk) /\ frto_highmark (tp sk2) = frto_highmark (tp sk) /\ rx_opt (tp sk2) = rx_opt (tp sk)) by (unfold sk2; case_match; cbn; by rewrite P1).
  clearbody sk2. destruct P2 as (E1 & E2 & E3 & E4). rewrite <- E1, <- E2, <- E3, <- (sackfrto_opt _ _ E4). rewrite <- E1 in Hn. rewrite <- (frto_verdict_none sk2 flag Hn). destruct (frto_verdict sk2 flag) as [sk3|]; [by split; [split; [|intros [_ ?]]|]|].
  destruct (Z.eqb_spec (frto_counter (tp sk2)) 1) as [E|E]; cbn [fst snd]; (split; [|done]); split; try done; [intros [H _]; lia|]. intros _. split; [lia|done].
Qed.
End Keep.

Module Demo.
#[local] Existing Instance linux.
#[local] Existing Instance Scoreboard.Demo.linux_frag.
#[local] Existing Instance Cong.Demo.linux_xmit.
#[export] Instance linux_trimming : TrimLaws.
Proof.
  split.
  - intros sk i n. cbn. unfold linux_trim. by repeat case_match.
  - intros sk i n b Hb Hs Hg. cbn. unfold linux_trim. rewrite Hb. cbn. case_match; [done|]. intros _. match goal with |- context [wq_set sk i ?x] => exists x end. split; [|by destruct sk].
    split; cbn; try done; try lia; case_match; try lia.
Qed.
Notation sk_sack := Recovery.Demo.sk_sack.

(** The first of the four buffers of [sk_sack] is acknowledged. *)
Definition ack_sk : sock := sk_sack <| tp; snd_una := u32 (Scoreboard.Demo.base + 100) |>.
Example ack_sk_cleaned : (fun r => (fst r, skb_id <$> sk_write_queue (snd r), packets_out (tp (snd r)))) <$> tcp_clean_rtx_queue ack_sk 0 Scoreboard.Demo.base =
  Some (Z.lor FLAG_DATA_ACKED FLAG_SACK_RENEGING, [2; 3; 4]%nat, 4).
Proof. vm_compute. reflexivity. Qed.
Lemma ack_sk_score : score ack_sk.
Proof. exact (score_ext sk_sack ack_sk eq_refl Recovery.Demo.sk_sack_score). Defined.
Lemma clean_rtx_queue_ok_witness : exists flag sk', tcp_clean_rtx_queue ack_sk 0 Scoreboard.Demo.base = Some (flag, sk') /\ score sk'.
Proof.
  destruct (clean_rtx_queue_ok ack_sk 0 Scoreboard.Demo.base ack_sk_score eq_refl ltac:(split; vm_compute; [discriminate|reflexivity])) as (flag & sk' & H1 & H2 & _).
  exists flag, sk'. split; [exact H1|exact H2].
Defined.
(** The same ACK through tcp_ack. *)
Definition ack2 : sk_buff := blank_skb <| ack_seq := u32 (Scoreboard.Demo.base + 100) |>.
Lemma tcp_ack_ok_witness : exists sk', tcp_ack sk_sack ack2 FLAG_SLOWPATH = Some (1, sk') /\ score sk' /\ snd_una (tp sk') = u32 (Scoreboard.Demo.base + 100).
Proof.
  destruct (tcp_ack_ok sk_sack ack2 FLAG_SLOWPATH Recovery.Demo.sk_sack_score eq_refl eq_refl) as [H1 H2].
  destruct (H2 ltac:(split; vm_compute; [discriminate|reflexivity]) eq_refl) as [[r sk'] E]. destruct (H1 r sk' E) as (Hs & _ & _ & Hr).
  change (r = 1 /\ snd_una (tp sk') = u32 (Scoreboard.Demo.base + 100)) in Hr. destruct Hr as [Hr Hu]. exists sk'. split; [rewrite <- Hr; exact E|split; [exact Hs|exact Hu]].
Defined.
(** The second ACK after a timeout acknowledges data that was not retransmitted. *)
Definition frto_sk : sock := sk_sack <| tp; frto_counter := 2 |> <| tp; frto_highmark := u32 (Scoreboard.Demo.base + 500) |>.
Lemma frto_spurious_iff_witness : fst (tcp_process_frto frto_sk FLAG_DATA_ACKED) = false /\ frto_counter (tp (snd (tcp_process_frto frto_sk FLAG_DATA_ACKED))) = 0.
Proof.
  destruct (frto_spurious_iff frto_sk FLAG_DATA_ACKED ltac:(vm_compute; discriminate)) as [H1 H2].
  assert (E : fst (tcp_process_frto frto_sk FLAG_DATA_ACKED) = false) by (apply H1; vm_compute; split_and?; try reflexivity; intros; discriminate).
  split; [exact E|exact (proj1 (H2 E))].
Defined.
End Demo.
