(* ===== verification/Frame.v ===== *)
(** * Functions that change only a part of a socket

    Most functions of the receive path change a few members of the socket and leave the rest
    alone.  A preorder on sockets says what is left alone; [along] lifts it to results of other
    shapes (a pair, an option of a pair), in which the class [HasSock] finds the socket.  The
    tactic [frame_go] follows the code of a function: its bindings, its branches, its updates of
    records and its calls of functions that the hint database knows to be in the relation. *)

From S2P Require Import Prelude TcpTypes.

Class HasSock (A : Type) := the_sock : A -> option sock.
#[export] Instance has_sock : HasSock sock := Some.
#[export] Instance has_left {A B} `{HasSock A} : HasSock (A * B) | 1 := fun p => the_sock (fst p).
#[export] Instance has_right {A B} `{HasSock B} : HasSock (A * B) | 2 := fun p => the_sock (snd p).
#[export] Instance has_option {A} `{HasSock A} : HasSock (option A) := fun o => match o with Some x => the_sock x | None => None end.
#[export] Instance has_sum {A B} `{HasSock A} `{HasSock B} : HasSock (A + B) := fun o => match o with inl x => the_sock x | inr x => the_sock x end.

(** A relation on sockets, and what it asks of a change of the TCP control block. *)
Class SockRel (R : relation sock) (T : relation tcp_sock) : Prop := {
  sr_refl sk : R sk sk;
  sr_trans sk1 sk2 sk3 : R sk1 sk2 -> R sk2 sk3 -> R sk1 sk3;
  sr_trefl t : T t t;
  sr_ttrans t1 t2 t3 : T t1 t2 -> T t2 t3 -> T t1 t3;
  sr_tp sk t : T (tp sk) t -> R sk (sk <| tp := t |>);
}.
Definition along (R : relation sock) {A} `{HasSock A} (sk : sock) (r : A) : Prop :=
  match the_sock r with Some sk' => R sk sk' | None => True end.

Section Along.
Context (R : relation sock) {T : relation tcp_sock} {SR : SockRel R T}.
Implicit Types (sk : sock).
Lemma along_refl sk : along R sk sk.
Proof using SR. exact (sr_refl sk). Qed.
Lemma along_step {A} `{HasSock A} sk sk1 (r : A) : along R sk sk1 -> along R sk1 r -> along R sk r.
Proof using SR. unfold along. cbn. destruct (the_sock r) as [sk'|]; [|done]. apply sr_trans. Qed.
Lemma along_tp sk sk1 t : along R sk sk1 -> T (tp sk1) t -> along R sk (sk1 <| tp := t |>).
Proof using SR. intros H1 H2. eapply along_step; [exact H1|]. by apply (sr_tp (R := R)). Qed.
Lemma along_let {A B} `{HasSock A} `{HasSock B} sk (e : A) (b : A -> B) : along R sk e -> (forall y, along R sk y -> along R sk (b y)) -> along R sk (b e).
Proof using Type. auto. Qed.
Lemma along_let_any {A B} `{HasSock B} sk (e : A) (b : A -> B) : (forall y, along R sk (b y)) -> along R sk (b e).
Proof using Type. auto. Qed.
End Along.

Create HintDb frame discriminated.
#[export] Hint Constants Opaque : frame.
#[export] Hint Variables Opaque : frame.

(** A change of the TCP control block by a function of it. *)
Ltac frame_tcp :=
  lazymatch goal with
  | |- ?T ?t ?t => exact (sr_trefl (T := T) t)
  | |- _ ?t (if ?c then _ else _) => destruct c; frame_tcp
  | |- ?T ?t (set _ _ ?t') => refine (sr_ttrans (T := T) t t' _ _ _); [|solve [generalize t'; intros; first [done | by split]]]; frame_tcp
  | |- ?T ?t _ => first [done | exact I | solve [eauto with frame] | refine (sr_ttrans (T := T) t _ _ _ _); [|solve [eauto with frame]]; frame_tcp]
  end.
(** A change of members that the relation does not look at. *)
Ltac frame_set s' := let x := fresh "x" in generalize s'; intros x; first [exact (conj eq_refl (fun H => H)) | by split].
Ltac frame_go :=
  cbv beta;
  lazymatch goal with
  | |- along ?R ?s ?s => exact (along_refl R s)
  | |- along ?R ?s None => exact I
  | |- along ?R ?s (Some ?x) => change (along R s x); frame_go
  | |- along ?R ?s (inl ?x) => change (along R s x); frame_go
  | |- along ?R ?s (inr ?x) => change (along R s x); frame_go
  | |- along ?R ?s (?a, ?b) => first [change (along R s a) | change (along R s b)]; frame_go
  | |- along ?R ?s (let x := ?e in @?b x) =>
      let y := fresh "y" in let H := fresh "Q" in
      tryif (let T := constr:(along R s e) in idtac)
      then (refine (along_let R s e b _ _); [|intros y H]; frame_go)
      else (refine (along_let_any R s e b _); intros y; frame_go)
  | |- along ?R ?s (match ?c with _ => _ end) =>
      tryif (let T := constr:(along R s c) in idtac)
      then (let H := fresh "Q" in assert (H : along R s c); [frame_go | destruct c; frame_go])
      else (let E := fresh "E" in destruct c eqn:E; frame_go)
  | |- along ?R ?s (set tp (fun _ => _) ?s') =>
      first [refine (along_step R s s' _ _ _); [|first [solve [frame_set s'] | solve [eauto with frame]]] | refine (along_tp R s s' _ _ _); [|solve [frame_tcp]]]; frame_go
  | |- along ?R ?s (set _ _ ?s') => refine (along_step R s s' _ _ _); [|first [solve [frame_set s'] | solve [eauto with frame]]]; frame_go
  | |- along ?R ?s ?x => first [assumption | refine (along_step R s _ _ _ _); [|solve [eauto with frame]]; frame_go]
  end.
