(* ===== verification/Quiet.v ===== *)
(** * ACK processing leaves the receiver alone

    The receiver's half of a connection, as far as the state machine and the receive queues need
    it: the state of the socket, its shutdown bits, the receive queue, the out-of-order queue,
    and the sequence numbers the receiver has read and received up to.  [quiet] says that a
    function keeps it, and that the window announced to the peer stays within 2^30 bytes; every
    function that tcp_ack calls is quiet. *)

From S2P Require Import Prelude TcpTypes Kernel RcvTune Rtt TcpOpt WriteQueue Xmit Scoreboard Recovery Cong Ack Frame.

(** ** The receiver's half *)
Definition rcv_side (sk : sock) := (sk_state sk, sk_shutdown sk, sk_receive_queue sk, out_of_order_queue (tp sk), copied_seq (tp sk), rcv_nxt (tp sk)).
Definition rcv_room (t : tcp_sock) : Z := s32 (rcv_wup t + rcv_wnd t - rcv_nxt t).
Definition rcv_kept (sk sk' : sock) : Prop :=
  rcv_side sk' = rcv_side sk /\ (rcv_room (tp sk) <= 2 ^ 30 -> rcv_room (tp sk') <= 2 ^ 30).
(** The same for the TCP control block alone. *)
Definition tquiet (t t' : tcp_sock) : Prop :=
  (out_of_order_queue t', copied_seq t', rcv_nxt t', rcv_wup t', rcv_wnd t') = (out_of_order_queue t, copied_seq t, rcv_nxt t, rcv_wup t, rcv_wnd t).
#[export] Instance rcv_kept_rel : SockRel rcv_kept tquiet.
Proof.
  split.
  - by split.
  - intros sk1 sk2 sk3 [E1 H1] [E2 H2]. split; [congruence|auto].
  - done.
  - unfold tquiet. congruence.
  - unfold rcv_kept, tquiet, rcv_side, rcv_room. cbn. intros sk t [= E2 E3 E4 E5 E6]. split; [by rewrite E2, E3, E4|]. by rewrite E4, E5, E6.
Qed.
Notation quiet := (along rcv_kept).
(** Most functions also leave the left edge of the send window alone. *)
Definition still (sk sk' : sock) : Prop :=
  (rcv_side sk', snd_una (tp sk')) = (rcv_side sk, snd_una (tp sk)) /\ (rcv_room (tp sk) <= 2 ^ 30 -> rcv_room (tp sk') <= 2 ^ 30).
Definition tstill (t t' : tcp_sock) : Prop :=
  (out_of_order_queue t', copied_seq t', rcv_nxt t', rcv_wup t', rcv_wnd t', snd_una t') = (out_of_order_queue t, copied_seq t, rcv_nxt t, rcv_wup t, rcv_wnd t, snd_una t).
#[export] Instance still_rel : SockRel still tstill.
Proof.
  split.
  - by split.
  - intros sk1 sk2 sk3 [E1 H1] [E2 H2]. split; [congruence|auto].
  - done.
  - unfold tstill. congruence.
  - unfold still, tstill, rcv_side, rcv_room. cbn. intros sk t [= E2 E3 E4 E5 E6 E7]. split; [by rewrite E2, E3, E4, E7|]. by rewrite E4, E5, E6.
Qed.
Notation steady := (along still).
Lemma steady_quiet {A} `{HasSock A} sk (r : A) : steady sk r -> quiet sk r.
Proof. unfold along. destruct (the_sock r) as [sk'|]; [|done]. intros [E Hr]. split; [exact (f_equal fst E)|done]. Qed.
Lemma tstill_quiet t t' : tstill t t' -> tquiet t t'.
Proof. intros E. exact (f_equal fst E). Qed.
Lemma steady_una {A} `{HasSock A} sk (r : A) sk' : steady sk r -> the_sock r = Some sk' -> snd_una (tp sk') = snd_una (tp sk).
Proof. unfold along. intros Hs E. rewrite E in Hs. destruct Hs as [Hs _]. exact (f_equal snd Hs). Qed.
#[export] Hint Resolve steady_quiet tstill_quiet : frame.


(** ** What the code outside of the repository keeps

    Transmission (new data, retransmissions, ACKs), splitting and trimming of buffers, and the
    callbacks touch the sender's half, but not snd_una, and the window, which they announce within its limit. *)
Class QuietLaws {K : Kernel} : Prop := {
  ql_fragment sk i n mss : steady sk (tcp_fragment sk i n mss);
  ql_trim sk i n : steady sk (tcp_trim_head sk i n);
  ql_retransmit sk h : steady sk (tcp_retransmit_skb sk h);
  ql_xmit sk : steady sk (tcp_xmit_retransmit_queue sk);
  ql_sync_mss sk m : steady sk (tcp_sync_mss sk m);
  ql_push sk : steady sk (tcp_push_pending_frames sk);
  ql_send_ack sk : steady sk (tcp_send_ack sk);
  ql_send_delayed_ack sk : steady sk (tcp_send_delayed_ack sk);
  ql_write_space sk : steady sk (sk_write_space sk);
  ql_sigurg sk : steady sk (sk_send_sigurg sk);
}.

Section Quiet.
Context {K : Kernel} {RL : RtoLaws K} {CL : CongLaws K} {CS : CaStateLaws K} {HI : HintLaws K} {HL : HighSackLaws K} {DL : DeliverLaws K} {WL : WlLaws K} {QL : QuietLaws}.
Implicit Types (sk : sock) (skb : sk_buff) (t : tcp_sock).

(** From the other laws of the interface. *)
Lemma q_ca_event sk e : steady sk (tcp_ca_event sk e).
Proof using CL. rewrite ca_event_spec. by split. Qed.
Lemma q_cong_avoid sk ack n : steady sk (tcp_cong_avoid sk ack n).
Proof using CL. unfold tcp_cong_avoid. rewrite cong_avoid_spec. by split. Qed.
Lemma q_pkts_acked f sk n rtt : ca_pkts_acked = Some f -> steady sk (f sk n rtt).
Proof using CL. intros E. rewrite (pkts_acked_spec f _ _ _ E). by split. Qed.
Lemma q_set_ca sk s : steady sk (tcp_set_ca_state sk s).
Proof using CS. rewrite set_ca_state_spec. by split. Qed.
Lemma q_advance sk b : steady sk (tcp_advance_highest_sack sk b).
Proof using HL. rewrite advance_highest_spec. by split. Qed.
Lemma q_high_reset sk : steady sk (tcp_highest_sack_reset sk).
Proof using HL. rewrite highest_reset_spec. by split. Qed.
Lemma q_hints_partial t : tstill t (tcp_clear_retrans_hints_partial t).
Proof using HI. by rewrite clear_partial_spec. Qed.
Lemma q_hints_all t : tstill t (tcp_clear_all_retrans_hints t).
Proof using HI. rewrite clear_all_spec. by rewrite clear_partial_spec. Qed.
Lemma q_update_wl t s : tstill t (tcp_update_wl t s).
Proof using WL. by rewrite update_wl_spec. Qed.
Lemma q_fast_path sk : steady sk (tcp_fast_path_check sk).
Proof using DL. rewrite fast_path_check_spec. by split. Qed.
Lemma q_bound_rto sk : steady sk (tcp_bound_rto sk).
Proof using RL. rewrite bound_rto_spec. frame_go. Qed.
#[local] Hint Resolve ql_fragment ql_trim ql_retransmit ql_xmit ql_sync_mss ql_push ql_send_ack ql_send_delayed_ack ql_write_space ql_sigurg : frame.
#[local] Hint Resolve q_ca_event q_cong_avoid q_set_ca q_advance q_high_reset q_hints_partial q_hints_all q_update_wl q_fast_path q_bound_rto : frame.

(** ** Scoreboard *)
Lemma q_wq_set sk i b : steady sk (wq_set sk i b).
Proof using Type. by split. Qed.
Lemma q_wq_unlink sk i : steady sk (wq_unlink sk i).
Proof using Type. by split. Qed.
Lemma q_wmem_free sk b : steady sk (sk_wmem_free_skb sk b).
Proof using Type. cbv delta [sk_wmem_free_skb sk_mem_uncharge sock_set_flag]. frame_go. Qed.
Lemma q_disable_fack t : tstill t (tcp_disable_fack t).
Proof using Type. unfold tcp_disable_fack. frame_tcp. Qed.
Lemma q_dsack_seen t : tstill t (tcp_dsack_seen t).
Proof using Type. unfold tcp_dsack_seen. frame_tcp. Qed.
#[local] Hint Resolve q_wq_set q_wq_unlink q_wmem_free q_disable_fack q_dsack_seen : frame.
Lemma q_update_reordering sk m : steady sk (tcp_update_reordering sk m).
Proof using Type. cbv delta [tcp_update_reordering]. frame_go. Qed.
Lemma q_verify_hint sk skb : steady sk (tcp_verify_retransmit_hint sk skb).
Proof using Type. cbv delta [tcp_verify_retransmit_hint]. frame_go. Qed.
Lemma q_count_lost sk skb : steady sk (count_lost sk skb).
Proof using Type. cbv delta [count_lost]. frame_go. Qed.
#[local] Hint Resolve q_update_reordering q_verify_hint q_count_lost : frame.
Lemma q_mark_lost sk skb : steady sk (tcp_skb_mark_lost sk skb).
Proof using Type. cbv delta [tcp_skb_mark_lost]. frame_go. Qed.
Lemma q_mark_lost_uncond sk skb : steady sk (tcp_skb_mark_lost_uncond_verify sk skb).
Proof using Type. cbv delta [tcp_skb_mark_lost_uncond_verify]. frame_go. Qed.
#[local] Hint Resolve q_mark_lost q_mark_lost_uncond : frame.
Lemma q_lost_retrans_loop ids : forall sk cnt low upto, steady sk (lost_retrans_loop ids sk cnt low upto).
Proof using Type. induction ids as [|i ids IH]; intros; cbn [lost_retrans_loop]; [exact (along_refl still _)|]. frame_go. Qed.
#[local] Hint Resolve q_lost_retrans_loop : frame.
Lemma q_mark_lost_retrans sk : steady sk (tcp_mark_lost_retrans sk).
Proof using Type. cbv delta [tcp_mark_lost_retrans]. frame_go. Qed.
Lemma q_check_dsack sk b sp una : steady sk (tcp_check_dsack sk b sp una).
Proof using Type. cbv delta [tcp_check_dsack]. frame_go. Qed.
Lemma q_match sk skb s e : steady sk (tcp_match_skb_to_sack sk skb s e).
Proof using QL. cbv delta [tcp_match_skb_to_sack]. frame_go. Qed.
Lemma q_account_dsack skb sk st d : steady sk (account_dsack skb sk st d).
Proof using Type. cbv delta [account_dsack]. frame_go. Qed.
Lemma q_clear_lost skb sk st n : steady sk (clear_lost skb sk st n).
Proof using Type. cbv delta [clear_lost]. frame_go. Qed.
Lemma q_count_sacked skb sk fc n : steady sk (count_sacked skb sk fc n).
Proof using Type. cbv delta [count_sacked]. frame_go. Qed.
#[local] Hint Resolve q_mark_lost_retrans q_check_dsack q_match q_account_dsack q_clear_lost q_count_sacked : frame.
Lemma q_sacktag_one skb sk st d n : steady sk (tcp_sacktag_one skb sk st d n).
Proof using Type. cbv delta [tcp_sacktag_one]. frame_go. Qed.
Lemma q_shifted_eaten sk p b : steady sk (shifted_eaten sk p b).
Proof using HL. cbv delta [shifted_eaten]. frame_go. Qed.
#[local] Hint Resolve q_sacktag_one q_shifted_eaten : frame.
Lemma q_shifted_skb sk p b st n l mss d : steady sk (tcp_shifted_skb sk p b st n l mss d).
Proof using HL. cbv delta [tcp_shifted_skb]. frame_go. Qed.
#[local] Hint Resolve q_shifted_skb : frame.
Lemma q_shift_next sk pi st n mss : steady sk (shift_next sk pi st n mss).
Proof using HL. cbv delta [shift_next]. frame_go. Qed.
#[local] Hint Resolve q_shift_next : frame.
Lemma q_shift_data sk skb st s e d : steady sk (tcp_shift_skb_data sk skb st s e d).
Proof using HL. cbv delta [tcp_shift_skb_data]. frame_go. Qed.
#[local] Hint Resolve q_shift_data : frame.
Lemma q_walk_dup sk skb nd d : steady sk (walk_dup sk skb nd d).
Proof using QL. cbv delta [walk_dup]. frame_go. Qed.
Lemma q_walk_shift sk skb st s e d i : steady sk (walk_shift sk skb st s e d i).
Proof using HL QL. cbv delta [walk_shift]. frame_go. Qed.
Lemma q_walk_tag sk skb st d i : steady sk (walk_tag sk skb st d i).
Proof using HL. cbv delta [walk_tag]. frame_go. Qed.
#[local] Hint Resolve q_walk_dup q_walk_shift q_walk_tag : frame.
Lemma q_walk fuel : forall cur sk nd st s e d, steady sk (tcp_sacktag_walk fuel cur sk nd st s e d).
Proof using HL QL. induction fuel as [|fuel IH]; intros; cbn [tcp_sacktag_walk]; [exact (along_refl still _)|]. frame_go. Qed.
#[local] Hint Resolve q_walk : frame.
Lemma q_skipping fuel cur sk nd st s : steady sk (tcp_maybe_skipping_dsack fuel cur sk nd st s).
Proof using HL QL. cbv delta [tcp_maybe_skipping_dsack]. frame_go. Qed.
#[local] Hint Resolve q_skipping : frame.
Lemma q_block_cached sk st cur c s e nd d : steady sk (block_cached sk st cur c s e nd d).
Proof using HL QL. cbv delta [block_cached]. frame_go. Qed.
#[local] Hint Resolve q_block_cached : frame.
Lemma q_blocks_loop fuel : forall sp i cache cur sk st f first, steady sk (sack_blocks_loop fuel sp i cache cur sk st f first).
Proof using HL QL. induction fuel as [|fuel IH]; intros; cbn [sack_blocks_loop]; [exact (along_refl still _)|]. frame_go. Qed.
#[local] Hint Resolve q_blocks_loop : frame.
Lemma q_sacktag_finish sk st sp : steady sk (sacktag_finish sk st sp).
Proof using Type. cbv delta [sacktag_finish]. frame_go. Qed.
#[local] Hint Resolve q_sacktag_finish : frame.
Lemma q_sacktag sk b una : steady sk (tcp_sacktag_write_queue sk b una).
Proof using HL QL. cbv delta [tcp_sacktag_write_queue]. frame_go. Qed.
#[local] Hint Resolve q_sacktag : frame.

(** ** Loss recovery *)
Lemma q_for_sent {A} (f : sock -> A -> sk_buff -> sock * A) ids : (forall sk a b, steady sk (f sk a b)) -> forall sk a, steady sk (for_sent f ids sk a).
Proof using Type. intros Hf. induction ids as [|i ids IH]; intros; cbn [for_sent]; [exact (along_refl still _)|]. frame_go. Qed.
Lemma q_for_write_queue {A} (f : sock -> A -> sk_buff -> sock * A) sk a : (forall sk a b, steady sk (f sk a b)) -> steady sk (tcp_for_write_queue f sk a).
Proof using Type. intros. by apply q_for_sent. Qed.
Lemma q_tcp_for_sent (f : sock -> sk_buff -> sock) sk : (forall sk b, steady sk (f sk b)) -> steady sk (tcp_for_sent f sk).
Proof using Type. intros Hf. refine (q_for_write_queue (fun s (_ : unit) b => (f s b, ())) sk () _). intros s [] b. exact (Hf s b). Qed.
Lemma q_ecn_queue t : tstill t (TCP_ECN_queue_cwr t).
Proof using Type. unfold TCP_ECN_queue_cwr. frame_tcp. Qed.
Lemma q_ecn_withdraw t : tstill t (TCP_ECN_withdraw_cwr t).
Proof using Type. by unfold TCP_ECN_withdraw_cwr. Qed.
Lemma q_reset_reno t : tstill t (tcp_reset_reno_sack t).
Proof using Type. by unfold tcp_reset_reno_sack. Qed.
Lemma q_clear_partial t : tstill t (tcp_clear_retrans_partial t).
Proof using Type. by unfold tcp_clear_retrans_partial. Qed.
Lemma q_limit_reno t : tstill t (snd (tcp_limit_reno_sacked t)).
Proof using Type. unfold tcp_limit_reno_sacked. cbn zeta. by case_match. Qed.
Lemma q_set_tags sk skb x : steady sk (set_tags sk skb x).
Proof using Type. by split. Qed.
Lemma q_reset_timer sk a b c : steady sk (inet_csk_reset_xmit_timer sk a b c).
Proof using Type. cbv delta [inet_csk_reset_xmit_timer]. frame_go. Qed.
Lemma q_clear_timer sk a : steady sk (inet_csk_clear_xmit_timer sk a).
Proof using Type. cbv delta [inet_csk_clear_xmit_timer]. frame_go. Qed.
#[local] Hint Resolve q_tcp_for_sent q_ecn_queue q_ecn_withdraw q_reset_reno q_clear_partial q_set_tags q_reset_timer q_clear_timer : frame.
Lemma q_enter_cwr sk b : steady sk (tcp_enter_cwr sk b).
Proof using CS. cbv delta [tcp_enter_cwr]. frame_go. Qed.
Lemma q_reno_reordering sk n : steady sk (tcp_check_reno_reordering sk n).
Proof using Type.
  unfold tcp_check_reno_reordering. pose proof (q_limit_reno (tp sk)) as H. destruct (tcp_limit_reno_sacked (tp sk)) as [l t]. cbn [snd] in H.
  pose proof (along_tp still sk sk t (along_refl still sk) H) as H1. frame_go.
Qed.
#[local] Hint Resolve q_enter_cwr q_reno_reordering : frame.
Lemma q_add_reno sk : steady sk (tcp_add_reno_sack sk).
Proof using Type. cbv delta [tcp_add_reno_sack]. frame_go. Qed.
Lemma q_remove_reno sk n : steady sk (tcp_remove_reno_sacks sk n).
Proof using Type. cbv delta [tcp_remove_reno_sacks]. frame_go. Qed.
Lemma q_frto_loss_skb sk flag skb : steady sk (frto_loss_skb sk flag skb).
Proof using Type. cbv delta [frto_loss_skb]. frame_go. Qed.
#[local] Hint Resolve q_add_reno q_remove_reno q_frto_loss_skb q_for_write_queue : frame.
Lemma q_frto_loss sk n flag : steady sk (tcp_enter_frto_loss sk n flag).
Proof using CS HI. cbv delta [tcp_enter_frto_loss]. frame_go. Qed.
Lemma q_loss_skb how sk skb : steady sk (loss_skb how sk skb).
Proof using Type. cbv delta [loss_skb]. frame_go. Qed.
Lemma q_loss_prepare sk how : steady sk (loss_prepare sk how).
Proof using CL HI. cbv delta [loss_prepare]. frame_go. Qed.
#[local] Hint Resolve q_frto_loss q_loss_skb q_loss_prepare : frame.
Lemma q_enter_loss sk how : steady sk (tcp_enter_loss sk how).
Proof using CL CS HI. cbv delta [tcp_enter_loss]. frame_go. Qed.
#[local] Hint Resolve q_enter_loss : frame.
Lemma q_reneging sk flag : steady sk (tcp_check_sack_reneging sk flag).
Proof using CL CS HI QL. cbv delta [tcp_check_sack_reneging]. frame_go. Qed.
Lemma q_timeout_loop fuel : forall cur sk, steady sk (timeout_loop fuel cur sk).
Proof using Type. induction fuel as [|fuel IH]; intros; cbn [timeout_loop]; [exact (along_refl still _)|]. frame_go. Qed.
#[local] Hint Resolve q_reneging q_timeout_loop : frame.
Lemma q_timeout_skbs sk : steady sk (tcp_timeout_skbs sk).
Proof using Type. cbv delta [tcp_timeout_skbs]. frame_go. Qed.
Lemma q_head_lost_loop fuel : forall cur sk cnt n m, steady sk (head_lost_loop fuel cur sk cnt n m).
Proof using QL. induction fuel as [|fuel IH]; intros; cbn [head_lost_loop]; [exact (along_refl still _)|]. frame_go. Qed.
#[local] Hint Resolve q_timeout_skbs q_head_lost_loop : frame.
Lemma q_mark_head sk n m : steady sk (tcp_mark_head_lost sk n m).
Proof using QL. cbv delta [tcp_mark_head_lost]. frame_go. Qed.
#[local] Hint Resolve q_mark_head : frame.
Lemma q_scoreboard sk b : steady sk (tcp_update_scoreboard sk b).
Proof using QL. cbv delta [tcp_update_scoreboard]. frame_go. Qed.
#[local] Hint Resolve q_scoreboard : frame.

(** ** The congestion state machine *)
Lemma q_moderate t : tstill t (tcp_moderate_cwnd t).
Proof using Type. by unfold tcp_moderate_cwnd. Qed.
Lemma q_cwnd_down sk flag : steady sk (tcp_cwnd_down sk flag).
Proof using Type. cbv delta [tcp_cwnd_down]. frame_go. Qed.
#[local] Hint Resolve q_moderate q_cwnd_down : frame.
Lemma q_undo_cwr sk b : steady sk (tcp_undo_cwr sk b).
Proof using Type. cbv delta [tcp_undo_cwr]. frame_go. Qed.
#[local] Hint Resolve q_undo_cwr : frame.
Lemma q_undo_recovery sk : steady sk (tcp_try_undo_recovery sk).
Proof using CS. cbv delta [tcp_try_undo_recovery]. frame_go. Qed.
Lemma q_undo_dsack sk : steady sk (tcp_try_undo_dsack sk).
Proof using Type. cbv delta [tcp_try_undo_dsack]. frame_go. Qed.
Lemma q_undo_partial sk n : steady sk (tcp_try_undo_partial sk n).
Proof using Type. cbv delta [tcp_try_undo_partial]. frame_go. Qed.
Lemma q_undo_loss_skb sk b : steady sk (undo_loss_skb sk b).
Proof using Type. by split. Qed.
#[local] Hint Resolve q_undo_recovery q_undo_dsack q_undo_partial q_undo_loss_skb : frame.
Lemma q_undo_loss sk : steady sk (tcp_try_undo_loss sk).
Proof using CS HI. cbv delta [tcp_try_undo_loss]. frame_go. Qed.
Lemma q_complete_cwr sk : steady sk (tcp_complete_cwr sk).
Proof using CL. cbv delta [tcp_complete_cwr]. frame_go. Qed.
Lemma q_keep_open sk : steady sk (tcp_try_keep_open sk).
Proof using CS. cbv delta [tcp_try_keep_open]. frame_go. Qed.
#[local] Hint Resolve q_undo_loss q_complete_cwr q_keep_open : frame.
Lemma q_to_open sk flag : steady sk (tcp_try_to_open sk flag).
Proof using CS. cbv delta [tcp_try_to_open]. frame_go. Qed.
Lemma q_probe_failed sk : steady sk (tcp_mtup_probe_failed sk).
Proof using Type. cbv delta [tcp_mtup_probe_failed]. frame_go. Qed.
Lemma q_probe_success sk : steady sk (tcp_mtup_probe_success sk).
Proof using QL. cbv delta [tcp_mtup_probe_success]. frame_go. Qed.
Lemma q_simple_skb mss sk b : steady sk (simple_skb mss sk b).
Proof using Type. cbv delta [simple_skb]. frame_go. Qed.
#[local] Hint Resolve q_to_open q_probe_failed q_probe_success q_simple_skb : frame.
#[local] Hint Resolve q_limit_reno : frame.
Lemma q_simple_retransmit sk : steady sk (tcp_simple_retransmit sk).
Proof using CS HI QL. cbv delta [tcp_simple_retransmit]. frame_go. Qed.
Lemma q_cwnd_recovery t n b : tstill t (tcp_update_cwnd_in_recovery t n b).
Proof using Type. by unfold tcp_update_cwnd_in_recovery. Qed.
#[local] Hint Resolve q_simple_retransmit q_cwnd_recovery : frame.
Lemma q_alert_exit sk : steady sk (alert_exit sk).
Proof using CL CS. cbv delta [alert_exit]. frame_go. Qed.
Lemma q_alert_recover sk flag : steady sk (alert_recover sk flag).
Proof using CS. cbv delta [alert_recover]. frame_go. Qed.
#[local] Hint Resolve q_alert_exit q_alert_recover : frame.
Lemma q_alert_open sk flag d l : steady sk (alert_open sk flag d l).
Proof using CS HI QL. cbv delta [alert_open]. frame_go. Qed.
#[local] Hint Resolve q_alert_open : frame.
Lemma q_alert_process sk n flag d l : steady sk (alert_process sk n flag d l).
Proof using CS HI QL. cbv delta [alert_process]. frame_go. Qed.
Lemma q_alert_sanitize sk flag : steady sk (alert_sanitize sk flag).
Proof using Type. cbv delta [alert_sanitize]. frame_go. Qed.
Lemma q_alert_data_lost sk flag : steady sk (alert_data_lost sk flag).
Proof using QL. cbv delta [alert_data_lost]. frame_go. Qed.
Lemma q_alert_finish sk n l f : steady sk (alert_finish sk n l f).
Proof using QL. cbv delta [alert_finish]. frame_go. Qed.
#[local] Hint Resolve q_alert_process q_alert_sanitize q_alert_data_lost q_alert_finish : frame.
Lemma q_fastretrans sk n m flag : steady sk (tcp_fastretrans_alert sk n m flag).
Proof using CL CS HI QL. cbv delta [tcp_fastretrans_alert]. frame_go. Qed.
#[local] Hint Resolve q_fastretrans : frame.

(** ** ACKs *)
Lemma q_tso_acked sk skb : steady sk (tcp_tso_acked sk skb).
Proof using QL. cbv delta [tcp_tso_acked]. frame_go. Qed.
Lemma q_clean_count sk x n : steady sk (clean_count sk x n).
Proof using Type. cbv delta [clean_count]. frame_go. Qed.
Lemma q_clean_syn sk skb : steady sk (clean_syn sk skb).
Proof using Type. cbv delta [clean_syn]. frame_go. Qed.
Lemma q_clean_unlink sk skb : steady sk (clean_unlink sk skb).
Proof using Type. cbv delta [clean_unlink]. frame_go. Qed.
#[local] Hint Resolve q_tso_acked q_clean_count q_clean_syn q_clean_unlink : frame.
Lemma q_clean_loop fuel : forall sk c, steady sk (clean_loop fuel sk c).
Proof using QL. induction fuel as [|fuel IH]; intros; cbn [clean_loop]; [exact (along_refl still _)|]. frame_go. Qed.
Lemma q_rtt_estimator sk m : steady sk (tcp_rtt_estimator sk m).
Proof using Type. unfold tcp_rtt_estimator. cbn zeta. by cases_if. Qed.
Lemma q_set_rto sk : steady sk (tcp_set_rto sk).
Proof using RL. cbv delta [tcp_set_rto]. frame_go. Qed.
#[local] Hint Resolve q_clean_loop q_rtt_estimator q_set_rto : frame.
Lemma q_rtt_meas sk r : steady sk (tcp_valid_rtt_meas sk r).
Proof using RL. cbv delta [tcp_valid_rtt_meas]. frame_go. Qed.
#[local] Hint Resolve q_rtt_meas : frame.
Lemma q_update_rtt sk flag r : steady sk (tcp_ack_update_rtt sk flag r).
Proof using RL. cbv delta [tcp_ack_update_rtt tcp_ack_saw_tstamp tcp_ack_no_tstamp]. frame_go. Qed.
Lemma q_rearm_rto sk : steady sk (tcp_rearm_rto sk).
Proof using Type. cbv delta [tcp_rearm_rto]. frame_go. Qed.
#[local] Hint Resolve q_update_rtt q_rearm_rto : frame.
#[local] Hint Resolve q_pkts_acked : frame.
Lemma q_clean_acked sk c pf ps : steady sk (clean_acked sk c pf ps).
Proof using RL CL QL. cbv delta [clean_acked]. frame_go. Qed.
#[local] Hint Resolve q_clean_acked : frame.
Lemma q_clean sk pf una : steady sk (tcp_clean_rtx_queue sk pf una).
Proof using RL CL QL. cbv delta [tcp_clean_rtx_queue]. frame_go. Qed.
Lemma q_ack_probe sk : steady sk (tcp_ack_probe sk).
Proof using Type. cbv delta [tcp_ack_probe]. frame_go. Qed.
Lemma q_ack_window sk skb ack aseq : quiet sk (tcp_ack_update_window sk skb ack aseq).
Proof using DL WL QL. cbv delta [tcp_ack_update_window]. frame_go. Qed.
Lemma q_conservative t : tstill t (tcp_conservative_spur_to_response t).
Proof using Type. unfold tcp_conservative_spur_to_response. cbn zeta. refine (sr_ttrans (T := tstill) t _ _ _ (q_moderate _)). refine (sr_ttrans (T := tstill) t _ _ _ (q_ecn_queue _)). done. Qed.
#[local] Hint Resolve q_clean q_ack_probe q_ack_window q_conservative : frame.
Lemma q_spur_to sk flag : steady sk (spur_to_response sk flag).
Proof using CS. cbv delta [spur_to_response tcp_undo_spur_to_response tcp_ratehalving_spur_to_response]. frame_go. Qed.
Lemma q_frto_verdict sk flag : steady sk (frto_verdict sk flag).
Proof using CS HI. cbv delta [frto_verdict]. frame_go. Qed.
#[local] Hint Resolve q_spur_to q_frto_verdict : frame.
Lemma q_process_frto sk flag : steady sk (tcp_process_frto sk flag).
Proof using CS HI. cbv delta [tcp_process_frto]. frame_go. Qed.
Lemma q_count_bytes sk ack : steady sk (ack_count_bytes sk ack).
Proof using Type. cbv delta [ack_count_bytes]. frame_go. Qed.
Lemma q_ack_update sk skb flag una : quiet sk (ack_update sk skb flag una).
Proof using CL HL DL WL QL. cbv delta [ack_update]. frame_go. Qed.
#[local] Hint Resolve q_process_frto q_count_bytes q_ack_update : frame.
Lemma q_ack_congestion sk ack flag a b c : steady sk (ack_congestion sk ack flag a b c).
Proof using CL CS HI QL. cbv delta [ack_congestion]. frame_go. Qed.
#[local] Hint Resolve q_ack_congestion : frame.
Lemma q_ack_in_window sk skb flag : quiet sk (ack_in_window sk skb flag).
Proof using RL CL CS HI HL DL WL QL. cbv delta [ack_in_window]. frame_go. Qed.

(** The whole of tcp_ack. *)
Lemma q_tcp_ack sk skb flag : quiet sk (tcp_ack sk skb flag).
Proof using RL CL CS HI HL DL WL QL.
  pose proof (q_ack_in_window sk skb flag) as H. unfold tcp_ack. cbn zeta. destruct (before _ _); [frame_go|]. destruct (after _ _); [frame_go|].
  destruct (ack_in_window sk skb flag); exact H.
Qed.

(** An ACK in the window moves the left edge to it, whatever is in the write queue. *)
Lemma ack_update_una sk skb flag una flag' sk' : ack_update sk skb flag una = Some (flag', sk') -> snd_una (tp sk') = ack_seq skb.
Proof using CL HL QL.
  unfold ack_update. cbn zeta. case_if_as H1.
  - intros [= _ <-]. by rewrite (steady_una _ _ _ (q_ca_event _ _) eq_refl).
  - assert (E1 : snd_una (tp (snd (tcp_ack_update_window sk skb (ack_seq skb) (seq skb)))) = ack_seq skb) by (unfold tcp_ack_update_window; cbn zeta; by destruct (if tcp_may_update_window _ _ _ _ then _ else _)).
    destruct (tcp_ack_update_window _ _ _ _) as [wf sk1]. cbn [snd] in E1. set (r := if negb (sacked skb =? 0) then _ else _). assert (E2 : forall f sk2, r = Some (f, sk2) -> snd_una (tp sk2) = ack_seq skb).
    { intros f sk2 Er. rewrite <- E1. apply (steady_una sk1 r sk2); [|by rewrite Er]. unfold r. case_match; [apply q_sacktag|exact (along_refl still sk1)]. }
    destruct r as [[f sk2]|]; [|done]. intros [= _ <-]. rewrite (steady_una _ _ _ (q_ca_event _ _) eq_refl). by eapply E2.
Qed.
Lemma ack_una sk skb flag r sk' : before (ack_seq skb) (snd_una (tp sk)) = false -> after (ack_seq skb) (snd_nxt (tp sk)) = false -> tcp_ack sk skb flag = Some (r, sk') ->
  r = 1 /\ snd_una (tp sk') = ack_seq skb.
Proof using RL CL CS HI HL QL.
  intros Hb Ha. unfold tcp_ack. cbn zeta. rewrite Hb, Ha. destruct (ack_in_window sk skb flag) as [sk0|] eqn:E; [|done]. cbn. intros [= <- <-]. split; [done|]. revert E. unfold ack_in_window. cbn zeta.
  destruct (ack_update _ _ _ _) as [[f sk1]|] eqn:Eu; [|done]. apply ack_update_una in Eu. set (sk2 := sk1 <| sk_err_soft := 0 |> <| icsk; icsk_probes_out := 0 |> <| tp; rcv_tstamp := _ |>). assert (E2 : snd_una (tp sk2) = ack_seq skb) by exact Eu. clearbody sk2. rewrite <- E2. case_if_as Hp.
  - intros [= <-]. case_match; [done|]. exact (steady_una _ _ _ (q_ack_probe sk2) eq_refl).
  - match goal with |- context [tcp_clean_rtx_queue sk2 ?x ?y] => pose proof (q_clean sk2 x y) as Hc; destruct (tcp_clean_rtx_queue sk2 x y) as [[cf sk3]|] eqn:Ec end; [|done]. intros [= <-]. rewrite (steady_una _ _ _ (q_ack_congestion _ _ _ _ _ _) eq_refl). exact (steady_una _ _ _ Hc eq_refl).
Qed.
End Quiet.
