(* ===== verification/Deliver.v ===== *)
(** * Receiving data leaves the sender alone

    The sender's half of a connection: the write queue, its counters and hints, and the sequence
    numbers of the sender.  [delivers] says that a function changes the state of the socket at
    most by the transitions of FINs, and keeps the sender's half as long as the sending direction
    is open; every function that tcp_data_queue calls does. *)

From stdpp Require Import relations.
From S2P Require Import Prelude TcpTypes Kernel RcvTune Rtt TcpOpt SackGen Minisocks Collapse DataQueue WriteQueue Frame.

(** ** The sender's half *)
Definition snd_part (sk : sock) := (sb_part sk, sack_ok (rx_opt (tp sk)), snd_una (tp sk), snd_nxt (tp sk), write_seq (tp sk)).
(** The states a FIN of the peer leads through while we can still send. *)
Definition sending (s : tcp_state) : bool :=
  match s with TCP_SYN_RECV | TCP_ESTABLISHED | TCP_CLOSE_WAIT => true | _ => false end.
Definition fin_steps : relation tcp_state := rtc (fun s s' => s' = fin_next s).
Definition delivers (sk sk' : sock) : Prop :=
  fin_steps (sk_state sk) (sk_state sk') /\ (sending (sk_state sk) = true -> snd_part sk' = snd_part sk).
Definition tsnd (t t' : tcp_sock) : Prop :=
  (packets_out t', sacked_out t', lost_out t', retrans_out t', highest_sack t', lost_skb_hint t', scoreboard_skb_hint t', sack_ok (rx_opt t'), snd_una t', snd_nxt t', write_seq t') =
  (packets_out t, sacked_out t, lost_out t, retrans_out t, highest_sack t, lost_skb_hint t, scoreboard_skb_hint t, sack_ok (rx_opt t), snd_una t, snd_nxt t, write_seq t).

Lemma sending_fin s s' : fin_steps s s' -> sending s = true -> sending s' = true.
Proof. induction 1 as [|s1 s2 s3 -> _ IH]; [done|]. intros H. apply IH. by destruct s1. Qed.
#[export] Instance delivers_rel : SockRel delivers tsnd.
Proof.
  split.
  - intros sk. split; [apply rtc_refl|done].
  - intros sk1 sk2 sk3 [E1 H1] [E2 H2]. split; [by etrans|]. intros H. rewrite H2; [by apply H1|]. by eapply sending_fin.
  - done.
  - unfold tsnd. congruence.
  - intros sk t. unfold tsnd, delivers, snd_part, sb_part, q_part, hints. intros [= E1 E2 E3 E4 E5 E6 E7 E8 E9 E10 E11]. split; [apply rtc_refl|]. intros _. cbn. by rewrite E1, E2, E3, E4, E5, E6, E7, E8, E9, E10, E11.
Qed.
Notation delivered := (along delivers).

(** Acknowledging does not change the sender's half, nor do the callbacks. *)
Class AckSendLaws {K : Kernel} : Prop := {
  sl_send_ack sk : snd_part (tcp_send_ack sk) = snd_part sk;
  sl_send_ack_state sk : sk_state (tcp_send_ack sk) = sk_state sk;
  sl_delayed_ack sk : snd_part (tcp_send_delayed_ack sk) = snd_part sk;
  sl_delayed_ack_state sk : sk_state (tcp_send_delayed_ack sk) = sk_state sk;
  sl_sigurg sk : snd_part (sk_send_sigurg sk) = snd_part sk;
  sl_sigurg_state sk : sk_state (sk_send_sigurg sk) = sk_state sk;
}.

Section Deliver.
Context {K : Kernel} {W : TimeWait K} {SM : SackModeLaws K} {FL : FreeLaws K} {ML : MemLaws K} {DL : DeliverLaws K} {ST : StateLaws K} {AL : AckSendLaws}.
Implicit Types (sk : sock) (skb : sk_buff) (t : tcp_sock).

Lemma delivers_same sk sk' : sk_state sk' = sk_state sk -> snd_part sk' = snd_part sk -> delivers sk sk'.
Proof using Type. intros E1 E2. split; [rewrite E1; apply rtc_refl|done]. Qed.
Lemma d_kfree sk b : delivered sk (kfree_skb sk b).
Proof using FL. rewrite kfree_skb_spec. by apply delivers_same. Qed.
Lemma d_kfree_all q : forall sk, delivered sk (foldl kfree_skb sk q).
Proof using FL. induction q as [|b q IH]; intros sk; cbn; [by apply delivers_same|]. exact (along_step delivers _ _ _ (d_kfree sk b) (IH _)). Qed.
Lemma d_reclaim_ sk : delivered sk (sk_mem_reclaim_ sk).
Proof using ML. rewrite mem_reclaim_spec. by apply delivers_same. Qed.
Lemma d_schedule_ sk n : delivered sk (sk_mem_schedule_ sk n).
Proof using ML. unfold along. cbn. rewrite mem_schedule_spec. by apply delivers_same. Qed.
Lemma d_data_ready sk : delivered sk (sk_data_ready sk).
Proof using DL. rewrite data_ready_spec. by apply delivers_same. Qed.
Lemma d_state_change sk : delivered sk (sk_state_change sk).
Proof using ST. rewrite state_change_spec. by apply delivers_same. Qed.
Lemma d_fast_path sk : delivered sk (tcp_fast_path_check sk).
Proof using DL. rewrite fast_path_check_spec. by apply delivers_same. Qed.
Lemma d_send_ack sk : delivered sk (tcp_send_ack sk).
Proof using AL. apply delivers_same; [apply sl_send_ack_state|apply sl_send_ack]. Qed.
Lemma d_delayed_ack sk : delivered sk (tcp_send_delayed_ack sk).
Proof using AL. apply delivers_same; [apply sl_delayed_ack_state|apply sl_delayed_ack]. Qed.
Lemma d_sigurg sk : delivered sk (sk_send_sigurg sk).
Proof using AL. apply delivers_same; [apply sl_sigurg_state|apply sl_sigurg]. Qed.
#[local] Hint Resolve d_kfree d_kfree_all d_reclaim_ d_schedule_ d_data_ready d_state_change d_fast_path d_send_ack d_delayed_ack d_sigurg : frame.

(** ** Memory *)
Lemma d_rmem_schedule sk n : delivered sk (sk_rmem_schedule sk n).
Proof using ML. cbv delta [sk_rmem_schedule]. frame_go. Qed.
Lemma d_reclaim sk : delivered sk (sk_mem_reclaim sk).
Proof using ML. cbv delta [sk_mem_reclaim]. frame_go. Qed.
Lemma d_charge sk n : delivered sk (sk_mem_charge sk n).
Proof using Type. cbv delta [sk_mem_charge]. frame_go. Qed.
#[local] Hint Resolve d_rmem_schedule d_reclaim d_charge : frame.
Lemma d_owner skb sk : delivered sk (skb_set_owner_r skb sk).
Proof using Type. cbv delta [skb_set_owner_r]. frame_go. Qed.
Lemma d_collapse_find q : forall sk s, delivered sk (collapse_find sk q s).
Proof using FL. induction q as [|b q IH]; intros; cbn [collapse_find]; frame_go. Qed.
Lemma d_collapse_copy q : forall sk n c s, delivered sk (collapse_copy sk n q c s).
Proof using FL. induction q as [|b q IH]; intros; cbn [collapse_copy]; frame_go. Qed.
#[local] Hint Resolve d_owner d_collapse_find d_collapse_copy : frame.
Lemma d_collapse_loop fuel : forall sk q s e, delivered sk (collapse_loop fuel sk q s e).
Proof using FL. induction fuel as [|fuel IH]; intros; cbn [collapse_loop]; frame_go. Qed.
#[local] Hint Resolve d_collapse_loop : frame.
Lemma d_collapse sk q s e : delivered sk (tcp_collapse sk q s e).
Proof using FL. cbv delta [tcp_collapse]. frame_go. Qed.
#[local] Hint Resolve d_collapse : frame.
Lemma d_collapse_ofo_loop q : forall sk seg s e, delivered sk (collapse_ofo_loop sk seg q s e).
Proof using FL. induction q as [|b q IH]; intros; cbn [collapse_ofo_loop]; frame_go. Qed.
#[local] Hint Resolve d_collapse_ofo_loop : frame.
Lemma d_collapse_ofo sk : delivered sk (tcp_collapse_ofo_queue sk).
Proof using FL. cbv delta [tcp_collapse_ofo_queue]. frame_go. Qed.
Lemma d_sack_reset sk : delivered sk (sk <| tp; rx_opt := tcp_sack_reset (rx_opt (tp sk)) |>).
Proof using SM. rewrite tcp_sack_reset_spec. by apply delivers_same. Qed.
#[local] Hint Resolve d_collapse_ofo d_sack_reset : frame.
Lemma d_prune_ofo sk : delivered sk (tcp_prune_ofo_queue sk).
Proof using SM FL ML. cbv delta [tcp_prune_ofo_queue]. frame_go. Qed.
Lemma d_clamp sk : delivered sk (tcp_clamp_window sk).
Proof using Type. cbv delta [tcp_clamp_window]. frame_go. Qed.
#[local] Hint Resolve d_prune_ofo d_clamp : frame.
Lemma d_prune sk : delivered sk (tcp_prune_queue sk).
Proof using SM FL ML. cbv delta [tcp_prune_queue]. frame_go. Qed.
#[local] Hint Resolve d_prune : frame.
Lemma d_try_rmem sk n : delivered sk (tcp_try_rmem_schedule sk n).
Proof using SM FL ML. cbv delta [tcp_try_rmem_schedule]. frame_go. Qed.
#[local] Hint Resolve d_try_rmem : frame.

(** ** Segments *)
Lemma d_dsack_set sk s e : delivered sk (tcp_dsack_set sk s e).
Proof using Type. cbv delta [tcp_dsack_set]. frame_go. Qed.
#[local] Hint Resolve d_dsack_set : frame.
Lemma d_dsack_extend sk s e : delivered sk (tcp_dsack_extend sk s e).
Proof using Type. cbv delta [tcp_dsack_extend]. frame_go. Qed.
Lemma d_incr_quickack sk : delivered sk (tcp_incr_quickack sk).
Proof using Type. cbv delta [tcp_incr_quickack]. frame_go. Qed.
#[local] Hint Resolve d_dsack_extend d_incr_quickack : frame.
Lemma d_quickack sk : delivered sk (tcp_enter_quickack_mode sk).
Proof using Type. cbv delta [tcp_enter_quickack_mode]. frame_go. Qed.
Lemma d_schedule_ack sk : delivered sk (inet_csk_schedule_ack sk).
Proof using Type. cbv delta [inet_csk_schedule_ack]. frame_go. Qed.
#[local] Hint Resolve d_quickack d_schedule_ack : frame.
Lemma d_send_dupack sk skb : delivered sk (tcp_send_dupack sk skb).
Proof using AL. cbv delta [tcp_send_dupack]. frame_go. Qed.
Lemma d_set_sacks t r : tsnd t (set_sacks t r).
Proof using Type. by destruct r. Qed.
#[local] Hint Resolve d_send_dupack d_set_sacks : frame.
Lemma d_coalesce t : tsnd t (tcp_sack_maybe_coalesce t).
Proof using Type. unfold tcp_sack_maybe_coalesce. cbn zeta. frame_tcp. Qed.
#[local] Hint Resolve d_coalesce : frame.
Lemma d_new_ofo sk s e : delivered sk (tcp_sack_new_ofo_skb sk s e).
Proof using Type. unfold tcp_sack_new_ofo_skb. cbn zeta. repeat case_match; apply (sr_tp (R := delivers)); frame_tcp. Qed.
Lemma d_sack_remove t : tsnd t (tcp_sack_remove t).
Proof using Type. unfold tcp_sack_remove. cbn zeta. destruct (out_of_order_queue t); [done|apply d_set_sacks]. Qed.
Lemma d_measure_mss sk skb : delivered sk (tcp_measure_rcv_mss sk skb).
Proof using Type. unfold tcp_measure_rcv_mss. cbn zeta. by cases_if; apply delivers_same. Qed.
Lemma d_rtt_update t n b : tsnd t (tcp_rcv_rtt_update t n b).
Proof using Type. unfold tcp_rcv_rtt_update. cbn zeta. by case_match. Qed.
#[local] Hint Resolve d_new_ofo d_sack_remove d_measure_mss d_rtt_update : frame.
Lemma d_rtt_measure t : tsnd t (tcp_rcv_rtt_measure t).
Proof using Type. unfold tcp_rcv_rtt_measure. cbn zeta. frame_tcp. Qed.
Lemma d_measure_ts sk skb : delivered sk (tcp_rcv_rtt_measure_ts sk skb).
Proof using Type. cbv delta [tcp_rcv_rtt_measure_ts]. frame_go. Qed.
Lemma d_grow_window sk skb : delivered sk (tcp_grow_window sk skb).
Proof using Type. cbv delta [tcp_grow_window]. frame_go. Qed.
Lemma d_check_ce sk skb : delivered sk (TCP_ECN_check_ce sk skb).
Proof using Type. unfold TCP_ECN_check_ce. cbn zeta. frame_go. Qed.
#[local] Hint Resolve d_rtt_measure d_measure_ts d_grow_window d_check_ce : frame.
Lemma d_event sk skb : delivered sk (tcp_event_data_recv sk skb).
Proof using ML. cbv delta [tcp_event_data_recv]. frame_go. Qed.
Lemma d_space_adjust sk : delivered sk (tcp_rcv_space_adjust sk).
Proof using Type. unfold tcp_rcv_space_adjust. cbn zeta. by cases_if; apply delivers_same. Qed.
#[local] Hint Resolve d_event d_space_adjust : frame.
Lemma d_fin_transition sk : delivered sk (fin_transition sk).
Proof using ST AL.
  unfold along, delivers. cbn. assert (H : fin_steps (sk_state sk) (fin_next (sk_state sk))) by (by apply rtc_once). unfold fin_transition.
  destruct (sk_state sk) eqn:E; cbn [fin_next] in H; rewrite ?set_state_spec, ?time_wait_done, ?done_state; (split; [by rewrite ?E|done]).
Qed.
#[local] Hint Resolve d_fin_transition : frame.
Lemma d_set_flag sk f : delivered sk (sock_set_flag sk f).
Proof using Type. by apply delivers_same. Qed.
#[local] Hint Resolve d_set_flag : frame.
Lemma d_fin sk : delivered sk (tcp_fin sk).
Proof using SM FL ML ST AL. cbv delta [tcp_fin]. frame_go. Qed.
#[local] Hint Resolve d_fin : frame.
Lemma d_ofo_loop fuel : forall sk d, delivered sk (ofo_loop fuel sk d).
Proof using SM FL ML ST AL. induction fuel as [|fuel IH]; intros; cbn [ofo_loop]; frame_go. Qed.
Lemma d_ofo_queue sk : delivered sk (tcp_ofo_queue sk).
Proof using SM FL ML ST AL. apply d_ofo_loop. Qed.
Lemma d_clean_covered q : forall sk e, delivered sk (clean_covered sk e q).
Proof using FL. induction q as [|b q IH]; intros; cbn [clean_covered]; frame_go. Qed.
Lemma d_add_sack sk s e : delivered sk (add_sack sk s e).
Proof using Type. cbv delta [add_sack]. frame_go. Qed.
#[local] Hint Resolve d_ofo_queue d_clean_covered d_add_sack : frame.
Lemma d_ofo_insert sk skb : delivered sk (ofo_insert sk skb).
Proof using FL. unfold ofo_insert. cbn zeta. frame_go. Qed.
#[local] Hint Resolve d_ofo_insert : frame.
Lemma d_queue_ofo sk skb : delivered sk (queue_ofo sk skb).
Proof using FL. cbv delta [queue_ofo]. frame_go. Qed.
Lemma d_out_of_window sk : delivered sk (out_of_window sk).
Proof using Type. cbv delta [out_of_window]. frame_go. Qed.
Lemma d_in_sequence sk skb n : delivered sk (in_sequence sk skb n).
Proof using SM FL ML DL ST AL. cbv delta [in_sequence]. frame_go. Qed.
#[local] Hint Resolve d_queue_ofo d_out_of_window d_in_sequence : frame.
Lemma d_queue_and_out sk skb n : delivered sk (queue_and_out sk skb n).
Proof using SM FL ML DL ST AL. cbv delta [queue_and_out]. frame_go. Qed.
Lemma d_ucopy sk skb : delivered sk (ucopy_data sk skb).
Proof using Type. cbv delta [ucopy_data]. frame_go. Qed.
Lemma d_accept_cwr t skb : tsnd t (TCP_ECN_accept_cwr t skb).
Proof using Type. unfold TCP_ECN_accept_cwr. by case_match. Qed.
#[local] Hint Resolve d_queue_and_out d_ucopy d_accept_cwr : frame.
Lemma d_data_queue sk skb : delivered sk (tcp_data_queue sk skb).
Proof using SM FL ML DL ST AL. cbv delta [tcp_data_queue]. frame_go. Qed.
End Deliver.
