(* ===== verification/Input.v ===== *)
(** * The receive procedure: urgent data, header prediction and the state machine

    net/ipv4/tcp_input.c, lines 4900-6006, and tcp_child_process of tcp_minisocks.c: what happens
    to a segment that was found to belong to a socket.

    The functions return [None] where the code reaches a BUG().  A buffer that is not charged to
    the socket is freed without an effect on it; sk_wake_async only sends a signal.  The sources
    are taken without CONFIG_NET_DMA, and for sockets without TCP cookie values. *)

From stdpp Require Import relations.
From S2P Require Import Prelude TcpTypes Kernel RcvTune Rtt TcpOpt SackGen Minisocks Collapse DataQueue WriteQueue Xmit Scoreboard Recovery Cong Ack Frame Quiet Deliver.

Definition TCP_HP_BITS : Z := Z.lnot (Z.lor TCP_RESERVED_BITS TCP_FLAG_PSH).

(** What the segment did to the connection: the result of the function, the socket, and the
    destination entry when its metrics were saved. *)
Record rcv_result (D : Type) := mk_rcv { rr_ret : Z; rr_sk : sock; rr_saved : option D }.
Arguments mk_rcv {D}. Arguments rr_ret {D}. Arguments rr_sk {D}. Arguments rr_saved {D}.

Section Input.
Context {K : Kernel} {W : TimeWait K} {D : Type} {O : DstOps D} (sk_dst_get : sock -> option D).
Implicit Types (sk : sock) (skb : sk_buff) (th : tcphdr) (t : tcp_sock).

(** ** The congestion window and the send buffer *)
Definition tcp_cwnd_application_limited sk : sock :=
  let sk :=
    match ca_eqb (icsk_ca_state (icsk sk)) TCP_CA_Open, sk_socket sk with
    | true, Some flags =>
      if negb (Z.testbit flags SOCK_NOSPACE) then
        let init_win := tcp_init_cwnd (tp sk) (sk_dst_get sk) in
        let win_used := Z.max (snd_cwnd_used (tp sk)) init_win in
        let sk := if win_used <? snd_cwnd (tp sk) then
                    let sk := sk <| tp; snd_ssthresh := tcp_current_ssthresh sk |> in
                    sk <| tp; snd_cwnd := Z.shiftr (u32 (snd_cwnd (tp sk) + win_used)) 1 |>
                  else sk in
        sk <| tp; snd_cwnd_used := 0 |>
      else sk
    | _, _ => sk
    end in
  sk <| tp; snd_cwnd_stamp := tcp_time_stamp |>.

Definition tcp_should_expand_sndbuf sk : bool :=
  if has (sk_userlocks sk) SOCK_SNDBUF_LOCK then false
  else if tcp_memory_pressure then false
  else if tcp_memory_allocated >=? sysctl_tcp_mem0 then false
  else if packets_out (tp sk) >=? snd_cwnd (tp sk) then false
  else true.
Definition tcp_new_space sk : sock :=
  let sk :=
    if tcp_should_expand_sndbuf sk then
      let sndmem := s32 (SKB_TRUESIZE (u32 (Z.max (mss_clamp (rx_opt (tp sk))) (mss_cache (tp sk)) + MAX_TCP_HEADER))) in
      let demanded := s32 (Z.max (snd_cwnd (tp sk)) (reordering (tp sk) + 1)) in
      let sndmem := s32 (sndmem * (2 * demanded)) in
      let sk := if sndmem >? sk_sndbuf sk then sk <| sk_sndbuf := Z.min sndmem sysctl_tcp_wmem2 |> else sk in
      sk <| tp; snd_cwnd_stamp := tcp_time_stamp |>
    else sk in
  sk_write_space sk.
Definition tcp_check_space sk : sock :=
  if sock_flag sk SOCK_QUEUE_SHRUNK then
    let sk := sock_reset_flag sk SOCK_QUEUE_SHRUNK in
    match sk_socket sk with
    | Some flags => if Z.testbit flags SOCK_NOSPACE then tcp_new_space sk else sk
    | None => sk
    end
  else sk.
Definition tcp_data_snd_check sk : sock := tcp_check_space (tcp_push_pending_frames sk).

(** ** Acknowledging *)

(** __tcp_ack_snd_check *)
Definition tcp_ack_snd_check_ sk (ofo_possible : bool) : sock :=
  if ((u32 (rcv_nxt (tp sk) - rcv_wup (tp sk)) >? ack_rcv_mss (icsk sk)) && (tcp_select_window_ sk >=? rcv_wnd (tp sk)))
     || tcp_in_quickack_mode sk
     || (ofo_possible && negb (bool_decide (out_of_order_queue (tp sk) = [])))
  then tcp_send_ack sk else tcp_send_delayed_ack sk.
Definition tcp_ack_snd_check sk : sock :=
  if negb (inet_csk_ack_scheduled sk) then sk else tcp_ack_snd_check_ sk true.

(** ** Urgent data *)
Definition urg_pointer th : Z :=
  let ptr := th_urg_ptr th in
  let ptr := if negb (ptr =? 0) && negb sysctl_tcp_stdurg then ptr - 1 else ptr in
  u32 (ptr + th_seq th).
(** The last byte read was urgent: it is taken out of the stream. *)
Definition urg_skip sk : sock :=
  if (urg_seq (tp sk) =? copied_seq (tp sk)) && negb (urg_data (tp sk) =? 0)
     && negb (sock_flag sk SOCK_URGINLINE) && negb (copied_seq (tp sk) =? rcv_nxt (tp sk)) then
    let sk := sk <| tp; copied_seq := u32 (copied_seq (tp sk) + 1) |> in
    match sk_receive_queue sk with
    | skb :: rest => if negb (before (copied_seq (tp sk)) (end_seq skb)) then kfree_skb (sk <| sk_receive_queue := rest |>) skb else sk
    | [] => sk
    end
  else sk.
Definition tcp_check_urg sk th : sock :=
  let ptr := urg_pointer th in
  if after (copied_seq (tp sk)) ptr then sk
  else if before ptr (rcv_nxt (tp sk)) then sk
  else if negb (urg_data (tp sk) =? 0) && negb (after ptr (urg_seq (tp sk))) then sk
  else
    let sk := sk_send_sigurg sk in
    let sk := urg_skip sk in
    sk <| tp; urg_data := TCP_URG_NOTYET |> <| tp; urg_seq := ptr |> <| tp; pred_flags := 0 |>.
Definition tcp_urg sk skb : option sock :=
  let th := skb_th skb in
  let sk := if th_urg th then tcp_check_urg sk th else sk in
  if urg_data (tp sk) =? TCP_URG_NOTYET then
    let ptr := u32 (urg_seq (tp sk) - th_seq th + th_doff th * 4 - b2z (th_syn th)) in
    if ptr <? len skb then
      match skb_copy_bits skb ptr 1 with
      | [tmp] =>
        let sk := sk <| tp; urg_data := Z.lor TCP_URG_VALID tmp |> in
        Some (if negb (sock_flag sk SOCK_DEAD) then sk_data_ready sk else sk)
      | _ => None
      end
    else Some sk
  else Some sk.

(** ** Checks of a segment *)

(** The copy to the reader that waits in recvmsg: true is no error. *)
Definition tcp_copy_to_iovec sk skb (hlen : Z) : bool * sock :=
  let chunk := s32 (len skb - hlen) in
  let ok := if skb_csum_unnecessary skb then skb_copy_datagram_iovec sk skb hlen chunk else skb_copy_and_csum_datagram_iovec sk skb hlen in
  if ok then
    let sk := sk <| tp; ucopy_len := s32 (ucopy_len (tp sk) - chunk) |> <| tp; copied_seq := u32 (copied_seq (tp sk) + chunk) |> in
    (true, tcp_rcv_space_adjust sk)
  else (false, sk).
(** __tcp_checksum_complete_user: the bottom halves are enabled meanwhile for a process *)
Definition tcp_checksum_complete_user_ skb : bool := tcp_checksum_complete_ skb.
Definition tcp_checksum_complete_user skb : bool := negb (skb_csum_unnecessary skb) && tcp_checksum_complete_user_ skb.

(** PAWS and the sequence number; parsing the options also notes where the SACK option is. *)
Definition tcp_validate_incoming sk skb : Z * sock * sk_buff :=
  let th := skb_th skb in
  let '(has_options, st) := tcp_fast_parse_options skb (rx_opt (tp sk)) None in
  let sk := sk <| tp; rx_opt := ps_opt st |> in
  let skb := skb <| sacked := ps_sacked st |> in
  if has_options && saw_tstamp (rx_opt (tp sk)) && tcp_paws_discard sk skb && negb (th_rst th) then (0, tcp_send_dupack sk skb, skb)
  else if negb (tcp_sequence (tp sk) (seq skb) (end_seq skb)) then (0, if negb (th_rst th) then tcp_send_dupack sk skb else sk, skb)
  else if th_rst th then (0, tcp_reset sk, skb)
  else
    let sk := sk <| tp := tcp_replace_ts_recent (tp sk) (seq skb) |> in
    if th_syn th && negb (before (seq skb) (rcv_nxt (tp sk))) then (-1, tcp_reset sk, skb) else (1, sk, skb).

(** ** ESTABLISHED *)
Definition skb_pull skb (n : Z) : sk_buff := skb <| data_off := data_off skb + n |> <| len := u32 (len skb - n) |>.

(** From the label step5 on. *)
Definition established_step5 sk skb : option (Z * sock) :=
  match (if th_ack (skb_th skb) then tcp_ack sk skb FLAG_SLOWPATH else Some (1, sk)) with
  | None => None
  | Some (r, sk) =>
    if r <? 0 then Some (0, sk) else
    let sk := tcp_rcv_rtt_measure_ts sk skb in
    match tcp_urg sk skb with
    | None => None
    | Some sk =>
      match tcp_data_queue sk skb with
      | None => None
      | Some sk => Some (0, tcp_ack_snd_check (tcp_data_snd_check sk))
      end
    end
  end.
(** From the label slow_path on. *)
Definition established_slow sk skb (ln : Z) : option (Z * sock) :=
  if (ln <? Z.shiftl (th_doff (skb_th skb)) 2) || tcp_checksum_complete_user skb then Some (0, sk) else
  let '(res, sk, skb) := tcp_validate_incoming sk skb in
  if res <=? 0 then Some (- res, sk) else established_step5 sk skb.

(** The predicted segment. *)
Definition hp_match sk skb : bool :=
  (Z.land (tcp_flag_word (skb_th skb)) TCP_HP_BITS =? pred_flags (tp sk))
  && (seq skb =? rcv_nxt (tp sk)) && negb (after (ack_seq skb) (snd_nxt (tp sk))).
Definition hp_stamped t : bool := tcp_header_len t =? sizeof_tcphdr + TCPOLEN_TSTAMP_ALIGNED.
(** The timestamp of a predicted segment: false is the slow path. *)
Definition hp_timestamp sk skb : bool * sock :=
  if hp_stamped (tp sk) then
    let '(ok, o) := tcp_parse_aligned_timestamp (rx_opt (tp sk)) (bytes skb) in
    let sk := sk <| tp; rx_opt := o |> in
    if negb ok then (false, sk)
    else if s32 (rcv_tsval o - ts_recent o) <? 0 then (false, sk) else (true, sk)
  else (true, sk).
Definition hp_store_ts sk : sock :=
  if hp_stamped (tp sk) && (rcv_nxt (tp sk) =? rcv_wup (tp sk)) then sk <| tp := tcp_store_ts_recent (tp sk) |> else sk.
(** The direct copy of predicted data to a reader. *)
Definition hp_to_user sk skb (ln : Z) : bool * sock :=
  let hl := tcp_header_len (tp sk) in
  if (copied_seq (tp sk) =? rcv_nxt (tp sk)) && (u32 (ln - hl) <=? u32 (ucopy_len (tp sk))) then
    let '(eaten, sk) := if (ucopy_task (tp sk) =? current) && sk_owned sk then tcp_copy_to_iovec sk skb hl else (false, sk) in
    (eaten, if eaten then (tcp_rcv_rtt_measure_ts (hp_store_ts sk) skb) <| tp; rcv_nxt := end_seq skb |> else sk)
  else (false, sk).
(** After the data is delivered: the ACK it carries and the one it asks for. *)
Definition hp_acked sk skb (eaten : bool) : option (Z * sock) :=
  let sk := tcp_event_data_recv sk (skb_pull skb (tcp_header_len (tp sk))) in
  let wake sk := if eaten then sk else sk_data_ready sk in
  if negb (ack_seq skb =? snd_una (tp sk)) then
    match tcp_ack sk skb FLAG_DATA with
    | None => None
    | Some (_, sk) =>
      let sk := tcp_data_snd_check sk in
      Some (0, wake (if negb (inet_csk_ack_scheduled sk) then sk else tcp_ack_snd_check_ sk false))
    end
  else Some (0, wake (tcp_ack_snd_check_ sk false)).
(** Predicted data. *)
Definition hp_data sk skb (ln : Z) : option (Z * sock) :=
  let '(eaten, sk) := hp_to_user sk skb ln in
  if eaten then hp_acked sk skb true
  else if tcp_checksum_complete_user skb then Some (0, sk)
  else
    let sk := tcp_rcv_rtt_measure_ts (hp_store_ts sk) skb in
    if s32 (truesize skb) >? sk_forward_alloc sk then established_step5 sk skb
    else
      let sk := sk <| sk_receive_queue := sk_receive_queue sk ++ [skb_pull skb (tcp_header_len (tp sk))] |> in
      let sk := skb_set_owner_r skb sk in
      hp_acked (sk <| tp; rcv_nxt := end_seq skb |>) skb false.
(** A predicted pure ACK. *)
Definition hp_ack sk skb : option (Z * sock) :=
  let sk := hp_store_ts sk in
  (fun r => (0, tcp_data_snd_check (snd r))) <$> tcp_ack sk skb 0.

Definition tcp_rcv_established sk skb (ln : Z) : option (Z * sock) :=
  let sk := sk <| tp; rx_opt; saw_tstamp := false |> in
  if hp_match sk skb then
    let '(predicted, sk) := hp_timestamp sk skb in
    if negb predicted then established_slow sk skb ln
    else
      let hl := tcp_header_len (tp sk) in
      if ln <=? hl then (if ln =? hl then hp_ack sk skb else Some (0, sk))
      else hp_data sk skb ln
  else established_slow sk skb ln.

(** ** SYN-SENT *)
Definition synsent_undo sk (saved_clamp : Z) : sock :=
  sk <| tp; rx_opt := tcp_clear_options (rx_opt (tp sk)) |> <| tp; rx_opt; mss_clamp := saved_clamp |>.
(** The window and the options that the SYN-ACK brings. *)
Definition synsent_options sk skb : sock :=
  let sk := sk <| tp; snd_wnd := th_window (skb_th skb) |> in
  let sk := sk <| tp := tcp_init_wl (tp sk) (seq skb) |> in
  let sk := if negb (wscale_ok (rx_opt (tp sk))) then
              sk <| tp; rx_opt; rcv_wscale := 0 |> <| tp; rx_opt; snd_wscale := 0 |> <| tp; window_clamp := Z.min (window_clamp (tp sk)) 65535 |>
            else sk in
  let sk := if saw_tstamp (rx_opt (tp sk)) then
              let sk := sk <| tp; rx_opt; tstamp_ok := true |> <| tp; tcp_header_len := sizeof_tcphdr + TCPOLEN_TSTAMP_ALIGNED |> in
              let sk := sk <| tp; advmss := u16 (advmss (tp sk) - TCPOLEN_TSTAMP_ALIGNED) |> in
              sk <| tp := tcp_store_ts_recent (tp sk) |>
            else sk <| tp; tcp_header_len := sizeof_tcphdr |> in
  let sk := if tcp_is_sack (tp sk) && sysctl_tcp_fack then sk <| tp := tcp_enable_fack (tp sk) |> else sk in
  let sk := tcp_mtup_init sk in
  let sk := tcp_sync_mss sk (icsk_pmtu_cookie (icsk sk)) in
  tcp_initialize_rcv_mss sk.
(** The sequence numbers. *)
Definition synsent_accept sk skb : sock :=
  let sk := sk <| tp; rcv_nxt := u32 (seq skb + 1) |> <| tp; rcv_wup := u32 (seq skb + 1) |> in
  let sk := synsent_options sk skb in
  sk <| tp; copied_seq := rcv_nxt (tp sk) |>.
(** The metrics, the congestion module, the buffers and the fast path of the new connection. *)
Definition synsent_setup sk : sock :=
  let sk := rebuild_header sk in
  let sk := tcp_init_metrics sk (sk_dst_get sk) in
  let sk := tcp_init_congestion_control sk in
  let sk := sk <| tp; lsndtime := tcp_time_stamp |> in
  let sk := tcp_init_buffer_space sk in
  let sk := if sock_flag sk SOCK_KEEPOPEN then inet_csk_reset_keepalive_timer sk (keepalive_time_when (tp sk)) else sk in
  let sk := if snd_wscale (rx_opt (tp sk)) =? 0 then sk <| tp := tcp_fast_path_on_ (tp sk) (snd_wnd (tp sk)) |> else sk <| tp; pred_flags := 0 |> in
  if negb (sock_flag sk SOCK_DEAD) then sk_state_change sk else sk.
Definition synsent_established sk : sock := synsent_setup (tcp_set_state sk TCP_ESTABLISHED).
(** The ACK of the SYN-ACK, now or with the first data. *)
Definition synsent_reply sk : Z * sock :=
  if negb (sk_write_pending sk =? 0) || negb (rskq_defer_accept (icsk sk) =? 0) || negb (ack_pingpong (icsk sk) =? 0) then
    let sk := inet_csk_schedule_ack sk in
    let sk := sk <| icsk; ack_lrcvtime := tcp_time_stamp |> <| icsk; ack_ato := TCP_ATO_MIN |> in
    let sk := tcp_enter_quickack_mode (tcp_incr_quickack sk) in
    (0, inet_csk_reset_xmit_timer sk ICSK_TIME_DACK TCP_DELACK_MAX TCP_RTO_MAX)
  else (-1, tcp_send_ack sk).
(** A SYN without ACK: both ends connect at the same time. *)
Definition crossed_stamp sk : sock :=
  if saw_tstamp (rx_opt (tp sk)) then
    let sk := sk <| tp; rx_opt; tstamp_ok := true |> in
    let sk := sk <| tp := tcp_store_ts_recent (tp sk) |> in
    sk <| tp; tcp_header_len := sizeof_tcphdr + TCPOLEN_TSTAMP_ALIGNED |>
  else sk <| tp; tcp_header_len := sizeof_tcphdr |>.
Definition crossed_answer sk skb : sock :=
  let sk := sk <| tp; snd_wnd := th_window (skb_th skb) |> <| tp; snd_wl1 := seq skb |> in
  let sk := sk <| tp; max_window := snd_wnd (tp sk) |> in
  let sk := sk <| tp := TCP_ECN_rcv_syn (tp sk) (skb_th skb) |> in
  let sk := tcp_mtup_init sk in
  let sk := tcp_sync_mss sk (icsk_pmtu_cookie (icsk sk)) in
  tcp_send_synack (tcp_initialize_rcv_mss sk).
Definition synsent_crossed sk skb : sock :=
  let sk := crossed_stamp (tcp_set_state sk TCP_SYN_RECV) in
  let sk := sk <| tp; rcv_nxt := u32 (seq skb + 1) |> <| tp; rcv_wup := u32 (seq skb + 1) |> in
  crossed_answer sk skb.

(** 1 asks the caller for a reset, -1 to go on with the segment. *)
Definition tcp_rcv_synsent_state_process sk skb : option (Z * sock) :=
  let th := skb_th skb in
  let saved_clamp := mss_clamp (rx_opt (tp sk)) in
  let st := tcp_parse_options skb (rx_opt (tp sk)) None false in
  let sk := sk <| tp; rx_opt := ps_opt st |> in
  let skb := skb <| sacked := ps_sacked st |> in
  if th_ack th then
    if negb (ack_seq skb =? snd_nxt (tp sk)) then Some (1, synsent_undo sk saved_clamp)
    else if saw_tstamp (rx_opt (tp sk)) && negb (rcv_tsecr (rx_opt (tp sk)) =? 0)
            && negb (between (rcv_tsecr (rx_opt (tp sk))) (retrans_stamp (tp sk)) tcp_time_stamp)
    then Some (1, synsent_undo sk saved_clamp)
    else if th_rst th then Some (0, tcp_reset sk)
    else if negb (th_syn th) then Some (0, synsent_undo sk saved_clamp)
    else
      let sk := sk <| tp := TCP_ECN_rcv_synack (tp sk) th |> in
      let sk := sk <| tp; snd_wl1 := seq skb |> in
      (fun r => synsent_reply (synsent_established (synsent_accept (snd r) skb))) <$> tcp_ack sk skb FLAG_SLOWPATH
  else if th_rst th then Some (0, synsent_undo sk saved_clamp)
  else if negb (ts_recent_stamp (rx_opt (tp sk)) =? 0) && saw_tstamp (rx_opt (tp sk)) && tcp_paws_reject (rx_opt (tp sk)) false
  then Some (0, synsent_undo sk saved_clamp)
  else if th_syn th then Some (0, synsent_crossed sk skb)
  else Some (0, synsent_undo sk saved_clamp).

(** ** The other states *)

(** Data beyond rcv_nxt arrives for a socket that nobody reads from. *)
Definition new_data sk skb : bool :=
  negb (end_seq skb =? seq skb) && after (u32 (end_seq skb - b2z (th_fin (skb_th skb)))) (rcv_nxt (tp sk)).
(** What step 5 decides: return, discard (with the metrics that were saved), or go on. *)
Inductive ack_outcome := AoReturn (ret : Z) (sk : sock) | AoDiscard (sk : sock) (saved : option D) | AoGo (sk : sock).

Definition synrecv_setup sk skb : sock :=
  let sk := sk <| tp; snd_una := ack_seq skb |> <| tp; snd_wnd := u32 (Z.shiftl (th_window (skb_th skb)) (snd_wscale (rx_opt (tp sk)))) |> in
  let sk := sk <| tp := tcp_init_wl (tp sk) (seq skb) |> in
  let sk := if tstamp_ok (rx_opt (tp sk)) then sk <| tp; advmss := u16 (advmss (tp sk) - TCPOLEN_TSTAMP_ALIGNED) |> else sk in
  let sk := rebuild_header sk in
  let sk := tcp_init_metrics sk (sk_dst_get sk) in
  let sk := tcp_init_congestion_control sk in
  let sk := sk <| tp; lsndtime := tcp_time_stamp |> in
  let sk := tcp_mtup_init sk in
  let sk := tcp_initialize_rcv_mss sk in
  let sk := tcp_init_buffer_space sk in
  sk <| tp := tcp_fast_path_on (tp sk) |>.
Definition synrecv_established sk skb : sock :=
  let sk := sk <| tp; copied_seq := rcv_nxt (tp sk) |> in
  synrecv_setup (sk_state_change (tcp_set_state sk TCP_ESTABLISHED)) skb.
(** Our FIN is acknowledged. *)
Definition finwait1_acked sk skb : ack_outcome :=
  let sk := tcp_set_state sk TCP_FIN_WAIT2 in
  let sk := sk <| sk_shutdown := bset (sk_shutdown sk) SEND_SHUTDOWN |> in
  if negb (sock_flag sk SOCK_DEAD) then AoGo (sk_state_change sk)
  else if (linger2 (tp sk) <? 0) || new_data sk skb then AoReturn 1 (tcp_done sk)
  else
    let tmo := tcp_fin_time sk in
    if tmo >? TCP_TIMEWAIT_LEN then AoGo (inet_csk_reset_keepalive_timer sk (tmo - TCP_TIMEWAIT_LEN))
    else if th_fin (skb_th skb) || sk_owned sk then AoGo (inet_csk_reset_keepalive_timer sk tmo)
    else AoDiscard (time_wait sk TCP_FIN_WAIT2 tmo) None.
Definition state_acked sk skb (acceptable : bool) : ack_outcome :=
  let fin_acked := snd_una (tp sk) =? write_seq (tp sk) in
  match sk_state sk with
  | TCP_SYN_RECV => if acceptable then AoGo (synrecv_established sk skb) else AoReturn 1 sk
  | TCP_FIN_WAIT1 => if fin_acked then finwait1_acked sk skb else AoGo sk
  | TCP_CLOSING => if fin_acked then AoDiscard (time_wait sk TCP_TIME_WAIT 0) None else AoGo sk
  | TCP_LAST_ACK => if fin_acked then AoDiscard (tcp_done sk) (tcp_update_metrics sk (sk_dst_get sk)) else AoGo sk
  | _ => AoGo sk
  end.

(** Step 7, the text of the segment: [inl] is the reset of a socket that was shut down. *)
Definition state_text sk skb : option (sock + sock) :=
  let queue := inr <$> tcp_data_queue sk skb in
  let shut := if has (sk_shutdown sk) RCV_SHUTDOWN && new_data sk skb then Some (inl (tcp_reset sk)) else queue in
  match sk_state sk with
  | TCP_CLOSE_WAIT | TCP_CLOSING | TCP_LAST_ACK => if negb (before (seq skb) (rcv_nxt (tp sk))) then Some (inr sk) else shut
  | TCP_FIN_WAIT1 | TCP_FIN_WAIT2 => shut
  | TCP_ESTABLISHED => queue
  | _ => Some (inr sk)
  end.
Definition state_text_done sk skb : option (rcv_result D) :=
  match tcp_urg sk skb with
  | None => None
  | Some sk =>
    match state_text sk skb with
    | None => None
    | Some (inl sk) => Some (mk_rcv 1 sk None)
    | Some (inr sk) => Some (mk_rcv 0 (if bool_decide (sk_state sk = TCP_CLOSE) then sk else tcp_ack_snd_check (tcp_data_snd_check sk)) None)
    end
  end.

(** From step 5 on. *)
Definition state_step5 sk skb : option (rcv_result D) :=
  if th_ack (skb_th skb) then
    match tcp_ack sk skb FLAG_SLOWPATH with
    | None => None
    | Some (r, sk) =>
      match state_acked sk skb (r >? 0) with
      | AoReturn ret sk => Some (mk_rcv ret sk None)
      | AoDiscard sk saved => Some (mk_rcv 0 sk saved)
      | AoGo sk => state_text_done sk skb
      end
    end
  else Some (mk_rcv 0 sk None).

Definition tcp_rcv_state_process sk skb : option (rcv_result D) :=
  let th := skb_th skb in
  let sk := sk <| tp; rx_opt; saw_tstamp := false |> in
  match sk_state sk with
  | TCP_CLOSE => Some (mk_rcv 0 sk None)
  | TCP_LISTEN =>
    if th_ack th then Some (mk_rcv 1 sk None)
    else if th_rst th then Some (mk_rcv 0 sk None)
    else if th_syn th then
      let '(r, sk) := conn_request sk skb in
      Some (mk_rcv (if r <? 0 then 1 else 0) sk None)
    else Some (mk_rcv 0 sk None)
  | TCP_SYN_SENT =>
    match tcp_rcv_synsent_state_process sk skb with
    | None => None
    | Some (queued, sk) =>
      if queued >=? 0 then Some (mk_rcv queued sk None)
      else (fun sk => mk_rcv 0 (tcp_data_snd_check sk) None) <$> tcp_urg sk skb
    end
  | _ =>
    let '(res, sk, skb) := tcp_validate_incoming sk skb in
    if res <=? 0 then Some (mk_rcv (- res) sk None) else state_step5 sk skb
  end.

(** A segment for a new child socket: it is processed, or left to the owner of the child. *)
Inductive child_result := ChildDone (r : rcv_result D) (wake_parent : bool) | ChildBacklog (skb : sk_buff).
Definition tcp_child_process (child : sock) skb : option child_result :=
  if negb (sk_owned child) then
    (fun r => ChildDone r (bool_decide (sk_state child = TCP_SYN_RECV) && negb (bool_decide (sk_state (rr_sk r) = TCP_SYN_RECV)))) <$> tcp_rcv_state_process child skb
  else Some (ChildBacklog skb).
End Input.

(** ** The connection's halves

    Setting up a connection, like transmission, leaves the receiver's half alone. *)
Class SetupLaws {K : Kernel} : Prop := {
  ul_mtup sk : along still sk (tcp_mtup_init sk);
  ul_rebuild sk : along still sk (rebuild_header sk);
  ul_congestion sk : along still sk (tcp_init_congestion_control sk);
  ul_synack sk : along still sk (tcp_send_synack sk);
  ul_keepalive sk n : along still sk (inet_csk_reset_keepalive_timer sk n);
  ul_conn_request sk skb : along rcv_kept sk (conn_request sk skb);
  ul_init_wl t s : tstill t (tcp_init_wl t s);
  ul_enable_fack t : tstill t (tcp_enable_fack t);
  ul_fast_path t : tstill t (tcp_fast_path_on t);
  ul_fast_path_ t n : tstill t (tcp_fast_path_on_ t n);
}.
#[local] Hint Resolve ql_fragment ql_sync_mss ql_push ql_send_ack ql_send_delayed_ack ql_write_space ql_sigurg q_tcp_ack q_fast_path : frame.
#[local] Hint Resolve ul_mtup ul_rebuild ul_congestion ul_synack ul_keepalive ul_conn_request ul_init_wl ul_enable_fack ul_fast_path ul_fast_path_ : frame.

Section Halves.
Context {K : Kernel} {RL : RtoLaws K} {CL : CongLaws K} {CS : CaStateLaws K} {HI : HintLaws K} {HL : HighSackLaws K} {DL : DeliverLaws K} {WL : WlLaws K} {QL : QuietLaws} {UL : SetupLaws}.
Context {W : TimeWait K} {D : Type} {O : DstOps D} (sk_dst_get : sock -> option D).
Implicit Types (sk : sock) (skb : sk_buff) (t : tcp_sock).

Lemma q_new_space sk : steady sk (tcp_new_space sk).
Proof using QL. cbv delta [tcp_new_space]. frame_go. Qed.
#[local] Hint Resolve q_new_space : frame.
Lemma q_check_space sk : steady sk (tcp_check_space sk).
Proof using QL. cbv delta [tcp_check_space sock_reset_flag]. frame_go. Qed.
#[local] Hint Resolve q_check_space : frame.
Lemma q_snd_check sk : steady sk (tcp_data_snd_check sk).
Proof using QL. cbv delta [tcp_data_snd_check]. frame_go. Qed.
Lemma q_ack_snd_check_ sk b : steady sk (tcp_ack_snd_check_ sk b).
Proof using QL. cbv delta [tcp_ack_snd_check_]. frame_go. Qed.
#[local] Hint Resolve q_snd_check q_ack_snd_check_ : frame.
Lemma q_ack_snd_check sk : steady sk (tcp_ack_snd_check sk).
Proof using QL. cbv delta [tcp_ack_snd_check]. frame_go. Qed.
#[local] Hint Resolve q_ack_snd_check : frame.

(** *** Setting up *)
Lemma q_metrics_reset sk dst : steady sk (init_metrics_reset sk dst).
Proof using Type. cbv delta [init_metrics_reset]. frame_go. Qed.
#[local] Hint Resolve q_metrics_reset q_disable_fack q_set_rto : frame.
Lemma q_init_metrics sk dst : steady sk (tcp_init_metrics sk dst).
Proof using RL. cbv delta [tcp_init_metrics]. frame_go. Qed.
Lemma q_fixup_rcvbuf sk : steady sk (tcp_fixup_rcvbuf sk).
Proof using Type. cbv delta [tcp_fixup_rcvbuf]. frame_go. Qed.
Lemma q_fixup_sndbuf sk : steady sk (tcp_fixup_sndbuf sk).
Proof using Type. cbv delta [tcp_fixup_sndbuf]. frame_go. Qed.
#[local] Hint Resolve q_init_metrics q_fixup_rcvbuf q_fixup_sndbuf : frame.
Lemma q_buffer_space sk : steady sk (tcp_init_buffer_space sk).
Proof using Type. cbv delta [tcp_init_buffer_space]. frame_go. Qed.
Lemma q_init_rcv_mss sk : steady sk (tcp_initialize_rcv_mss sk).
Proof using Type. cbv delta [tcp_initialize_rcv_mss]. frame_go. Qed.
Lemma q_store_ts t : tstill t (tcp_store_ts_recent t).
Proof using Type. done. Qed.
Lemma q_ecn_syn t th : tstill t (TCP_ECN_rcv_syn t th).
Proof using Type. unfold TCP_ECN_rcv_syn. by case_match. Qed.
#[local] Hint Resolve q_buffer_space q_init_rcv_mss q_store_ts q_ecn_syn : frame.
Lemma q_synsent_options sk skb : steady sk (synsent_options sk skb).
Proof using QL UL. cbv delta [synsent_options]. frame_go. Qed.
Lemma q_incr_quickack sk : steady sk (tcp_incr_quickack sk).
Proof using Type. cbv delta [tcp_incr_quickack]. frame_go. Qed.
#[local] Hint Resolve q_incr_quickack : frame.
Lemma q_quickack_mode sk : steady sk (tcp_enter_quickack_mode sk).
Proof using Type. cbv delta [tcp_enter_quickack_mode]. frame_go. Qed.
Lemma q_sched_ack sk : steady sk (inet_csk_schedule_ack sk).
Proof using Type. cbv delta [inet_csk_schedule_ack]. frame_go. Qed.
#[local] Hint Resolve q_quickack_mode q_sched_ack q_reset_timer : frame.
Lemma q_synsent_reply sk : steady sk (synsent_reply sk).
Proof using QL. cbv delta [synsent_reply]. frame_go. Qed.
Lemma q_crossed_stamp sk : steady sk (crossed_stamp sk).
Proof using Type. cbv delta [crossed_stamp]. frame_go. Qed.
Lemma q_crossed_answer sk skb : steady sk (crossed_answer sk skb).
Proof using QL UL. cbv delta [crossed_answer]. frame_go. Qed.
Context {ST : StateLaws K}.
Lemma q_state_change sk : steady sk (sk_state_change sk).
Proof using ST. rewrite state_change_spec. by split. Qed.
#[local] Hint Resolve q_state_change : frame.
Lemma q_synsent_setup sk : steady sk (synsent_setup sk_dst_get sk).
Proof using RL UL ST. cbv delta [synsent_setup]. frame_go. Qed.
Lemma q_synrecv_setup sk skb : quiet sk (synrecv_setup sk_dst_get sk skb).
Proof using RL UL ST. cbv delta [synrecv_setup]. frame_go. Qed.

(** ** SYN-SENT *)
Lemma quiet_state {A} `{HasSock A} sk (r : A) sk' : quiet sk r -> the_sock r = Some sk' -> sk_state sk' = sk_state sk.
Proof using Type. unfold along. intros Hq E. rewrite E in Hq. destruct Hq as [Hq _]. unfold rcv_side in Hq. by injection Hq as -> _ _ _ _ _. Qed.
Lemma quiet_nxt sk sk' : quiet sk sk' -> sk_state sk' = sk_state sk /\ rcv_nxt (tp sk') = rcv_nxt (tp sk) /\ copied_seq (tp sk') = copied_seq (tp sk).
Proof using Type. intros [Hq _]. unfold rcv_side in Hq. by injection Hq as -> _ _ _ -> ->. Qed.
Lemma steady_nxt sk sk' : steady sk sk' -> sk_state sk' = sk_state sk /\ rcv_nxt (tp sk') = rcv_nxt (tp sk) /\ copied_seq (tp sk') = copied_seq (tp sk) /\ snd_una (tp sk') = snd_una (tp sk).
Proof using Type. intros Hq. pose proof (steady_una _ _ _ Hq eq_refl). destruct (quiet_nxt _ _ (steady_quiet _ _ Hq)) as (? & ? & ?). done. Qed.
Lemma reset_synsent sk : sk_state sk = TCP_SYN_SENT -> sk_state (tcp_reset sk) = TCP_CLOSE /\ sk_err (tcp_reset sk) = Some ECONNREFUSED.
Proof using ST. intros E. unfold tcp_reset. rewrite E, done_state, done_err, error_report_spec. by case_match. Qed.
Lemma synsent_accept_nxt sk skb : let sk' := synsent_accept sk skb in sk_state sk' = sk_state sk /\ rcv_nxt (tp sk') = u32 (seq skb + 1) /\ copied_seq (tp sk') = u32 (seq skb + 1) /\ snd_una (tp sk') = snd_una (tp sk).
Proof using QL UL.
  cbn zeta. unfold synsent_accept. cbn zeta. set (sk1 := sk <| tp; rcv_nxt := _ |> <| tp; rcv_wup := _ |>). destruct (steady_nxt sk1 _ (q_synsent_options sk1 skb)) as (E1 & E2 & E3 & E4).
  set (sk2 := synsent_options sk1 skb) in *. clearbody sk2. cbn. by rewrite E1, E2, E4.
Qed.
(** The connection that a SYN-ACK establishes. *)
Lemma synsent_final sk skb r sk' : synsent_reply (synsent_established sk_dst_get (synsent_accept sk skb)) = (r, sk') ->
  (r = 0 \/ r = -1) /\ sk_state sk' = TCP_ESTABLISHED /\ rcv_nxt (tp sk') = u32 (seq skb + 1) /\ copied_seq (tp sk') = u32 (seq skb + 1) /\ snd_una (tp sk') = snd_una (tp sk).
Proof using RL QL UL ST.
  destruct (synsent_accept_nxt sk skb) as (_ & E2 & E3 & E4). set (sk1 := synsent_accept sk skb) in *. clearbody sk1. unfold synsent_established.
  destruct (steady_nxt _ _ (q_synsent_setup (tcp_set_state sk1 TCP_ESTABLISHED))) as (F1 & F2 & F3 & F4). set (sk2 := synsent_setup _ _) in *. clearbody sk2. rewrite set_state_spec in F1, F2, F3, F4. cbn in F1, F2, F3, F4.
  intros E. pose proof (q_synsent_reply sk2) as Hq. assert (Hr : r = 0 \/ r = -1) by (unfold synsent_reply in E; case_match; injection E as <- _; auto). rewrite E in Hq. destruct (steady_nxt sk2 sk' Hq) as (G1 & G2 & G3 & G4). split_and!; [done|congruence..].
Qed.
Lemma crossed_final sk skb : let sk' := synsent_crossed sk skb in sk_state sk' = TCP_SYN_RECV /\ rcv_nxt (tp sk') = u32 (seq skb + 1) /\ snd_una (tp sk') = snd_una (tp sk).
Proof using QL UL ST.
  cbn zeta. unfold synsent_crossed. cbn zeta. destruct (steady_nxt _ _ (q_crossed_stamp (tcp_set_state sk TCP_SYN_RECV))) as (E1 & _ & _ & E4). set (sk1 := crossed_stamp _) in *. clearbody sk1.
  set (sk2 := sk1 <| tp; rcv_nxt := _ |> <| tp; rcv_wup := _ |>). destruct (steady_nxt sk2 _ (q_crossed_answer sk2 skb)) as (F1 & F2 & _ & F4). rewrite F1, F2, F4. change (sk_state sk2) with (sk_state sk1). change (snd_una (tp sk2)) with (snd_una (tp sk1)). by rewrite E1, E4, set_state_spec.
Qed.

(** The ACK of a segment in SYN-SENT does not acknowledge our SYN, or echoes a timestamp that we
    cannot have sent. *)
Definition synsent_bad_ack sk skb : bool :=
  let o := ps_opt (tcp_parse_options skb (rx_opt (tp sk)) None false) in
  negb (ack_seq skb =? snd_nxt (tp sk)) || (saw_tstamp o && negb (rcv_tsecr o =? 0) && negb (between (rcv_tsecr o) (retrans_stamp (tp sk)) tcp_time_stamp)).
(** A timestamp older than the one remembered from the last connection. *)
Definition synsent_old sk skb : bool :=
  let o := ps_opt (tcp_parse_options skb (rx_opt (tp sk)) None false) in
  negb (ts_recent_stamp o =? 0) && saw_tstamp o && tcp_paws_reject o false.
(** The state after a segment in SYN-SENT (RFC 793, page 66). *)
Definition synsent_next sk skb : tcp_state :=
  let th := skb_th skb in
  if th_ack th then
    if synsent_bad_ack sk skb then TCP_SYN_SENT else if th_rst th then TCP_CLOSE else if th_syn th then TCP_ESTABLISHED else TCP_SYN_SENT
  else if th_rst th || synsent_old sk skb then TCP_SYN_SENT else if th_syn th then TCP_SYN_RECV else TCP_SYN_SENT.

(** The options when a segment is dropped: those of the segment are parsed, but cleared, and the
    clamp of the MSS is restored. *)
Definition synsent_cleared sk skb : tcp_options_received :=
  (tcp_clear_options (ps_opt (tcp_parse_options skb (rx_opt (tp sk)) None false))) <| mss_clamp := mss_clamp (rx_opt (tp sk)) |>.
Lemma synsent_step sk skb r sk' : sk_state sk = TCP_SYN_SENT -> tcp_rcv_synsent_state_process sk_dst_get sk skb = Some (r, sk') ->
  sk_state sk' = synsent_next sk skb /\
  (r = 1 <-> th_ack (skb_th skb) && synsent_bad_ack sk skb = true) /\
  match synsent_next sk skb with
  | TCP_ESTABLISHED => rcv_nxt (tp sk') = u32 (seq skb + 1) /\ copied_seq (tp sk') = rcv_nxt (tp sk') /\ ack_seq skb = snd_nxt (tp sk) /\
      (before (ack_seq skb) (snd_una (tp sk)) = false -> after (ack_seq skb) (snd_nxt (tp sk)) = false -> snd_una (tp sk') = ack_seq skb)
  | TCP_SYN_RECV => rcv_nxt (tp sk') = u32 (seq skb + 1) /\ snd_una (tp sk') = snd_una (tp sk)
  | TCP_SYN_SENT => sk' = sk <| tp; rx_opt := synsent_cleared sk skb |>
  | TCP_CLOSE => sk_err sk' = Some ECONNREFUSED
  | _ => True
  end.
Proof using RL CL CS HI HL QL UL ST.
  intros Hs. unfold tcp_rcv_synsent_state_process, synsent_next, synsent_old. pose (bad := synsent_bad_ack sk skb). cbn zeta. fold bad. unfold synsent_bad_ack in bad. cbn zeta in bad.
  set (st := tcp_parse_options skb (rx_opt (tp sk)) None false) in *. set (sk1 := sk <| tp; rx_opt := ps_opt st |>). change (ps_opt st) with (rx_opt (tp sk1)) in bad.
  change (ps_opt st) with (rx_opt (tp sk1)). set (skb1 := skb <| sacked := ps_sacked st |>). set (undo := synsent_undo sk1 (mss_clamp (rx_opt (tp sk)))).
  assert (Hu : sk_state undo = TCP_SYN_SENT /\ undo = sk <| tp; rx_opt := synsent_cleared sk skb |>) by done.
  clearbody undo. destruct Hu as [Hu1 Hu2]. assert (Hs1 : sk_state sk1 = TCP_SYN_SENT) by done. change (seq skb1) with (seq skb). destruct (th_ack (skb_th skb)).
  - assert (Eb : bad = negb (ack_seq skb =? snd_nxt (tp sk1)) || (saw_tstamp (rx_opt (tp sk1)) && negb (rcv_tsecr (rx_opt (tp sk1)) =? 0) && negb (between (rcv_tsecr (rx_opt (tp sk1))) (retrans_stamp (tp sk1)) tcp_time_stamp))) by done.
    change (ack_seq skb1) with (ack_seq skb). clearbody bad. destruct (Z.eqb_spec (ack_seq skb) (snd_nxt (tp sk1))) as [Ea|]; cbn [negb] in Eb |- *; [|cbn in Eb; subst bad; by intros [= <- <-]]. cbn [orb] in Eb. rewrite <- Eb.
    destruct bad; [by intros [= <- <-]|]. destruct (th_rst (skb_th skb)); [pose proof (reset_synsent sk1 Hs1) as [Er Er2]; set (rs := tcp_reset sk1) in *; clearbody rs; by intros [= <- <-]|]. destruct (th_syn (skb_th skb)); cbn [negb]; [|by intros [= <- <-]].
    destruct (tcp_ack _ _ _) as [[r0 sk2]|] eqn:Ek; [|done]. cbn [fmap option_fmap option_map snd]. intros [= E]. apply (synsent_final sk2 skb1) in E as (E1 & E2 & E3 & E4 & E5). split_and!; [done|split; [lia|done]|done|congruence|exact Ea|].
    intros Hb Ha. rewrite E5. apply ack_una in Ek as [_ Ek]; [exact Ek|rewrite <- Hb|rewrite <- Ha]; unfold TCP_ECN_rcv_synack; by case_match.
  - clearbody bad. set (old := _ && _ && tcp_paws_reject _ _). clearbody old. destruct (th_rst (skb_th skb)); [by intros [= <- <-]|]. destruct old; [by intros [= <- <-]|]. cbn [orb].
    destruct (th_syn (skb_th skb)); [|by intros [= <- <-]]. destruct (crossed_final sk1 skb1) as (E1 & E2 & E3). set (cs := synsent_crossed sk1 skb1) in *. clearbody cs. by intros [= <- <-].
Qed.

(** ** The state of the socket *)
Definition stays (sk sk' : sock) : Prop := sk_state sk' = sk_state sk.
Definition any_tcp (t t' : tcp_sock) : Prop := True.
#[local] Instance stays_rel : SockRel stays any_tcp.
Proof using Type. split; unfold stays, any_tcp; try done. congruence. Qed.
Lemma quiet_stays {A} `{HasSock A} sk (r : A) : quiet sk r -> along stays sk r.
Proof using Type. unfold along. destruct (the_sock r); [|done]. intros [Hq _]. unfold rcv_side in Hq. unfold stays. by injection Hq as -> _ _ _ _ _. Qed.
Context {FL : FreeLaws K}.
Lemma s_kfree sk b : along stays sk (kfree_skb sk b).
Proof using FL. by rewrite kfree_skb_spec. Qed.
Lemma s_data_ready sk : along stays sk (sk_data_ready sk).
Proof using DL. by rewrite data_ready_spec. Qed.
#[local] Hint Resolve s_kfree s_data_ready quiet_stays : frame.
Lemma s_urg_skip sk : along stays sk (urg_skip sk).
Proof using FL. cbv delta [urg_skip]. frame_go. Qed.
#[local] Hint Resolve s_urg_skip : frame.
Lemma s_check_urg sk th : along stays sk (tcp_check_urg sk th).
Proof using FL QL. cbv delta [tcp_check_urg]. frame_go. Qed.
#[local] Hint Resolve s_check_urg : frame.
Lemma s_urg sk skb : along stays sk (tcp_urg sk skb).
Proof using DL FL QL. cbv delta [tcp_urg]. frame_go. Qed.

(** Validation leaves the receiver's half alone, or closes the socket. *)
Lemma q_dsack_set sk s e : quiet sk (tcp_dsack_set sk s e).
Proof using Type. cbv delta [tcp_dsack_set]. frame_go. Qed.
#[local] Hint Resolve q_dsack_set : frame.
Lemma q_send_dupack sk skb : quiet sk (tcp_send_dupack sk skb).
Proof using QL. cbv delta [tcp_send_dupack]. frame_go. Qed.
Lemma q_replace_ts t s : tquiet t (tcp_replace_ts_recent t s).
Proof using Type. unfold tcp_replace_ts_recent. by repeat case_match. Qed.
Lemma reset_state sk : sk_state (tcp_reset sk) = TCP_CLOSE.
Proof using ST. unfold tcp_reset. destruct (sk_state sk) eqn:E; by rewrite ?done_state, ?E. Qed.
Context {WN : WindowLaws K}.
Lemma sequence_opt t o s e : tcp_sequence (t <| rx_opt := o |>) s e = tcp_sequence t s e.
Proof using WN. unfold tcp_sequence. by rewrite !receive_window_spec. Qed.

(** What validation decides: [true] is a segment to process. *)
Inductive validated sk skb : Z -> sock -> Prop :=
  | va_process sk' : rcv_side sk' = rcv_side sk -> tcp_sequence (tp sk) (seq skb) (end_seq skb) = true -> th_rst (skb_th skb) = false ->
      (th_syn (skb_th skb) = true -> before (seq skb) (rcv_nxt (tp sk)) = true) -> validated sk skb 1 sk'
  | va_discard sk' : rcv_side sk' = rcv_side sk -> tcp_sequence (tp sk) (seq skb) (end_seq skb) && th_rst (skb_th skb) = false -> validated sk skb 0 sk'
  | va_reset sk' : sk_state sk' = TCP_CLOSE -> tcp_sequence (tp sk) (seq skb) (end_seq skb) = true -> th_rst (skb_th skb) = true -> validated sk skb 0 sk'
  | va_syn sk' : sk_state sk' = TCP_CLOSE -> tcp_sequence (tp sk) (seq skb) (end_seq skb) = true -> th_syn (skb_th skb) = true ->
      before (seq skb) (rcv_nxt (tp sk)) = false -> validated sk skb (-1) sk'.
Lemma validate_cases sk skb : let '(res, sk', skb') := tcp_validate_incoming sk skb in validated sk skb res sk' /\ skb' = skb <| sacked := sacked skb' |>.
Proof using QL ST WN.
  unfold tcp_validate_incoming. destruct (tcp_fast_parse_options skb (rx_opt (tp sk)) None) as [has_opt st]. cbn zeta. set (sk1 := sk <| tp; rx_opt := ps_opt st |>). set (skb1 := skb <| sacked := ps_sacked st |>).
  assert (Eb : skb1 = skb <| sacked := sacked skb1 |>) by done. assert (Es : tcp_sequence (tp sk1) (seq skb1) (end_seq skb1) = tcp_sequence (tp sk) (seq skb) (end_seq skb)) by exact (sequence_opt (tp sk) (ps_opt st) (seq skb) (end_seq skb)).
  assert (Er : rcv_side sk1 = rcv_side sk) by done. assert (En : rcv_nxt (tp sk1) = rcv_nxt (tp sk)) by done. rewrite Es. change (seq skb1) with (seq skb). pose proof (q_send_dupack sk1 skb1) as [Hd _]. rewrite Er in Hd.
  set (paws := _ && _ && tcp_paws_discard sk1 skb1). clearbody paws. set (dup := tcp_send_dupack sk1 skb1) in *. clearbody dup.
  destruct (th_rst (skb_th skb)) eqn:Hr; cbn [negb]; rewrite ?andb_false_r, ?andb_true_r.
  - destruct (tcp_sequence (tp sk) (seq skb) (end_seq skb)) eqn:Hs; cbn [negb]; (split; [|done]); [apply va_reset; [apply reset_state|done..]|]. apply va_discard; [done|]. by rewrite Hs.
  - destruct paws; [split; [|done]; apply va_discard; [done|]; by rewrite Hr, andb_false_r|].
    destruct (tcp_sequence (tp sk) (seq skb) (end_seq skb)) eqn:Hs; cbn [negb]; [|split; [|done]; apply va_discard; [done|]; by rewrite Hs].
    pose proof (sr_tp (R := rcv_kept) sk1 _ (q_replace_ts (tp sk1) (seq skb))) as [Ht _]. rewrite Er in Ht. set (sk2 := sk1 <| tp := _ |>) in *. clearbody sk2. assert (En2 : rcv_nxt (tp sk2) = rcv_nxt (tp sk)) by (unfold rcv_side in Ht; by injection Ht). rewrite En2.
    destruct (th_syn (skb_th skb)) eqn:Hy; cbn [andb]; [|split; [|done]; by apply va_process; [..|rewrite Hy]]. destruct (before (seq skb) (rcv_nxt (tp sk))) eqn:Hb; cbn [negb]; (split; [|done]); [by apply va_process|].
    apply va_syn; [apply reset_state|done..].
Qed.

(** The steps of RFC 793 that an arriving segment can cause, besides those of a FIN: [acc] says
    that its ACK is acceptable, [fin] that our FIN is acknowledged. *)
Inductive ack_edge (th : tcphdr) (acc fin : bool) : tcp_state -> tcp_state -> Prop :=
  | ae_same s : ack_edge th acc fin s s
  | ae_synack : th_syn th = true -> th_ack th = true -> ack_edge th acc fin TCP_SYN_SENT TCP_ESTABLISHED
  | ae_crossed : th_syn th = true -> th_ack th = false -> ack_edge th acc fin TCP_SYN_SENT TCP_SYN_RECV
  | ae_accepted : th_ack th = true -> acc = true -> ack_edge th acc fin TCP_SYN_RECV TCP_ESTABLISHED
  | ae_fin_acked : th_ack th = true -> fin = true -> ack_edge th acc fin TCP_FIN_WAIT1 TCP_FIN_WAIT2.
(** One direction is shut down already, and our FIN is out. *)
Definition half_closed (s : tcp_state) : bool :=
  match s with TCP_FIN_WAIT1 | TCP_FIN_WAIT2 | TCP_CLOSE_WAIT | TCP_CLOSING | TCP_LAST_ACK => true | _ => false end.
Definition fin_sent (s : tcp_state) : bool := match s with TCP_FIN_WAIT1 | TCP_CLOSING | TCP_LAST_ACK => true | _ => false end.
Inductive rcv_step skb (acc fin : bool) : tcp_state -> tcp_state -> Prop :=
  | rs_edge s s1 s2 : ack_edge (skb_th skb) acc fin s s1 -> fin_steps s1 s2 -> rcv_step skb acc fin s s2
  | rs_reset s : s <> TCP_LISTEN -> th_rst (skb_th skb) = true \/ th_syn (skb_th skb) = true -> rcv_step skb acc fin s TCP_CLOSE
  | rs_closed s : fin_sent s = true -> th_ack (skb_th skb) = true -> fin = true -> rcv_step skb acc fin s TCP_CLOSE
  | rs_shut s : half_closed s = true -> th_ack (skb_th skb) = true -> end_seq skb <> seq skb -> rcv_step skb acc fin s TCP_CLOSE.
Lemma rcv_same skb acc fin s : rcv_step skb acc fin s s.
Proof using Type. apply (rs_edge skb acc fin s s s); [apply ae_same|apply rtc_refl]. Qed.

Context {SM : SackModeLaws K} {ML : MemLaws K} {AL : AckSendLaws}.

Lemma finwait1_states sk skb : th_ack (skb_th skb) = true ->
  match finwait1_acked (D := D) sk skb with
  | AoReturn _ sk' | AoDiscard sk' _ => sk_state sk' = TCP_CLOSE
  | AoGo sk' => sk_state sk' = TCP_FIN_WAIT2
  end.
Proof using UL ST.
  intros _. unfold finwait1_acked. cbn zeta. set (sk1 := (tcp_set_state sk TCP_FIN_WAIT2) <| sk_shutdown := _ |>). assert (E1 : sk_state sk1 = TCP_FIN_WAIT2) by (unfold sk1; by rewrite set_state_spec). clearbody sk1.
  assert (Hk : forall n, sk_state (inet_csk_reset_keepalive_timer sk1 n) = TCP_FIN_WAIT2) by (intros n; rewrite <- E1; by eapply quiet_state; [apply steady_quiet, ul_keepalive|]).
  repeat match goal with |- context [if ?c then _ else _] => destruct c end; rewrite ?state_change_spec, ?done_state, ?time_wait_done, ?done_state; first [done|apply Hk].
Qed.
Lemma state_acked_states sk skb acc : th_ack (skb_th skb) = true ->
  match state_acked sk_dst_get sk skb acc with
  | AoReturn _ sk' | AoDiscard sk' _ => rcv_step skb acc (snd_una (tp sk) =? write_seq (tp sk)) (sk_state sk) (sk_state sk')
  | AoGo sk' => ack_edge (skb_th skb) acc (snd_una (tp sk) =? write_seq (tp sk)) (sk_state sk) (sk_state sk')
  end.
Proof using RL QL UL ST.
  intros Ha. unfold state_acked. cbn zeta. pose proof (finwait1_states sk skb Ha) as Hf.
  destruct (sk_state sk) eqn:Es; rewrite ?Es; try apply ae_same.
  - destruct acc; rewrite ?Es; [|apply rcv_same]. unfold synrecv_established. cbn zeta. destruct (quiet_nxt _ _ (q_synrecv_setup (sk_state_change (tcp_set_state (sk <| tp; copied_seq := rcv_nxt (tp sk) |>) TCP_ESTABLISHED)) skb)) as (-> & _ & _).
    rewrite state_change_spec, set_state_spec. by apply ae_accepted.
  - destruct (snd_una (tp sk) =? write_seq (tp sk)); rewrite ?Es; [|apply ae_same]. destruct (finwait1_acked sk skb); rewrite Hf; [by apply rs_closed|by apply rs_closed|by apply ae_fin_acked].
  - destruct (snd_una (tp sk) =? write_seq (tp sk)); rewrite ?Es; [|apply ae_same]. rewrite done_state. by apply rs_closed.
  - destruct (snd_una (tp sk) =? write_seq (tp sk)); rewrite ?Es; [|apply ae_same]. rewrite time_wait_done, done_state. by apply rs_closed.
Qed.
Lemma state_text_states sk skb : match state_text sk skb with
  | None => True
  | Some (inl sk') => sk_state sk' = TCP_CLOSE /\ half_closed (sk_state sk) = true /\ end_seq skb <> seq skb
  | Some (inr sk') => fin_steps (sk_state sk) (sk_state sk')
  end.
Proof using DL ST FL SM ML AL.
  unfold state_text. cbn zeta. pose proof (d_data_queue sk skb) as Hd. assert (Hq : forall r : option (sock + sock), r = inr <$> tcp_data_queue sk skb -> match r with None => True | Some (inl _) => False | Some (inr sk') => fin_steps (sk_state sk) (sk_state sk') end).
  { intros r ->. destruct (tcp_data_queue sk skb); [apply Hd|done]. }
  specialize (Hq _ eq_refl). set (queue := inr <$> tcp_data_queue sk skb) in *. clearbody queue. assert (Hr : fin_steps (sk_state sk) (sk_state sk)) by apply rtc_refl.
  assert (Hq' : match queue with None => True | Some (inl sk') => sk_state sk' = TCP_CLOSE /\ half_closed (sk_state sk) = true /\ end_seq skb <> seq skb | Some (inr sk') => fin_steps (sk_state sk) (sk_state sk') end) by (by destruct queue as [[]|]).
  pose proof (reset_state sk) as Hc. assert (Hn : forall b, b && new_data sk skb = true -> end_seq skb <> seq skb) by (unfold new_data; intros b; rewrite !andb_true_iff; intros [_ [H _]]; apply negb_true_iff in H; lia). set (shut := new_data sk skb) in *. clearbody shut. set (rst := tcp_reset sk) in *. clearbody rst. destruct (sk_state sk) eqn:Es; cbn [half_closed] in *; repeat case_match; simplify_eq; try done; first [by rewrite Es|split_and!; [done..|by eapply Hn]].
Qed.
Lemma text_done_step sk skb r : state_text_done (D := D) sk skb = Some r -> fin_steps (sk_state sk) (sk_state (rr_sk r)) \/ (sk_state (rr_sk r) = TCP_CLOSE /\ half_closed (sk_state sk) = true /\ end_seq skb <> seq skb).
Proof using DL ST FL SM ML AL QL.
  unfold state_text_done. pose proof (s_urg sk skb) as Hu. destruct (tcp_urg sk skb) as [sk1|]; [|done]. change (sk_state sk1 = sk_state sk) in Hu. rewrite <- Hu. pose proof (state_text_states sk1 skb) as Ht. destruct (state_text sk1 skb) as [[sk2|sk2]|]; [..|done].
  - intros [= <-]. by right.
  - intros [= <-]. left. cbn. case_match; [done|]. etrans; [exact Ht|]. assert (E : sk_state (tcp_ack_snd_check (tcp_data_snd_check sk2)) = sk_state sk2); [|rewrite E; apply rtc_refl].
    eapply quiet_state; [|reflexivity]. apply steady_quiet. refine (along_step still _ _ _ (q_snd_check sk2) (q_ack_snd_check _)).
Qed.
Lemma half_closed_edge th acc fin s s1 : ack_edge th acc fin s s1 -> half_closed s1 = true -> half_closed s = true.
Proof using Type. by destruct 1. Qed.
(** What the ACK that a segment carries does, and what it says about ours. *)
Definition ack_good (a : option (Z * sock)) : bool := match a with Some (r, _) => r >? 0 | None => false end.
Definition ack_fin (a : option (Z * sock)) : bool := match a with Some (_, sk) => snd_una (tp sk) =? write_seq (tp sk) | None => false end.
Lemma state_step5_step sk skb r (a := tcp_ack sk skb FLAG_SLOWPATH) : state_step5 sk_dst_get sk skb = Some r -> rcv_step skb (ack_good a) (ack_fin a) (sk_state sk) (sk_state (rr_sk r)).
Proof using RL CL CS HI HL DL WL QL UL ST FL SM ML AL.
  unfold state_step5. destruct (th_ack (skb_th skb)) eqn:Ha; [|intros [= <-]; apply rcv_same]. subst a. pose proof (q_tcp_ack sk skb FLAG_SLOWPATH) as Hq. destruct (tcp_ack sk skb FLAG_SLOWPATH) as [[a sk1]|]; [|done]. cbn [ack_good ack_fin].
  assert (E1 : sk_state sk1 = sk_state sk) by (by eapply quiet_state; [exact Hq|]). rewrite <- E1. pose proof (state_acked_states sk1 skb (a >? 0) Ha) as Hs. destruct (state_acked _ _ _ _) as [ret sk2|sk2 saved|sk2]; [intros [= <-]; exact Hs..|].
  intros Ht. apply text_done_step in Ht as [Ht|(-> & Ht & Hn)]; [by eapply rs_edge|]. apply rs_shut; [by eapply half_closed_edge|done..].
Qed.

(** ** The state machine *)
Lemma synsent_edge sk skb acc fin r sk' : sk_state sk = TCP_SYN_SENT -> tcp_rcv_synsent_state_process sk_dst_get sk skb = Some (r, sk') -> rcv_step skb acc fin TCP_SYN_SENT (sk_state sk').
Proof using RL CL CS HI HL QL UL ST.
  intros Hs E. apply synsent_step in E as (-> & _ & _); [|done]. unfold synsent_next. repeat match goal with |- context [if ?c then _ else _] => destruct c eqn:? end; try apply rcv_same.
  - by apply rs_reset; [|left].
  - apply (rs_edge _ _ _ _ TCP_ESTABLISHED _); [by apply ae_synack|apply rtc_refl].
  - apply (rs_edge _ _ _ _ TCP_SYN_RECV _); [by apply ae_crossed|apply rtc_refl].
Qed.
Lemma validated_step sk skb acc fin res sk' : sk_state sk <> TCP_LISTEN -> validated sk skb res sk' -> res <= 0 -> rcv_step skb acc fin (sk_state sk) (sk_state sk').
Proof using Type.
  intros Hl H Hr. destruct H as [sk' Es|sk' Es|sk' ->|sk' ->]; [lia| |apply rs_reset; auto..]. unfold rcv_side in Es. injection Es as -> _ _ _ _ _. apply rcv_same.
Qed.
(** The ACK as tcp_rcv_state_process sees it, after validation. *)
Definition ack_result sk skb : option (Z * sock) :=
  let v := tcp_validate_incoming (sk <| tp; rx_opt; saw_tstamp := false |>) skb in tcp_ack v.1.2 v.2 FLAG_SLOWPATH.
Lemma rcv_step_tagged skb n acc fin s s' : rcv_step (skb <| sacked := n |>) acc fin s s' -> rcv_step skb acc fin s s'.
Proof using Type. destruct 1; [by eapply rs_edge|by apply rs_reset|by apply rs_closed|by apply rs_shut]. Qed.
Lemma synchronized_step sk skb r (v := tcp_validate_incoming sk skb) (a := tcp_ack v.1.2 v.2 FLAG_SLOWPATH) : sk_state sk <> TCP_LISTEN ->
  (if v.1.1 <=? 0 then Some (mk_rcv (- v.1.1) v.1.2 None) else state_step5 sk_dst_get v.1.2 v.2) = Some r -> rcv_step skb (ack_good a) (ack_fin a) (sk_state sk) (sk_state (rr_sk r)).
Proof using RL CL CS HI HL DL WL QL UL ST FL SM ML AL WN.
  intros Hl. subst v a. pose proof (validate_cases sk skb) as Hv. destruct (tcp_validate_incoming sk skb) as [[res sk1] skb1]. cbn [fst snd]. destruct Hv as [Hv Eb]. destruct (res <=? 0) eqn:Hr.
  - intros [= <-]. eapply validated_step; [done|exact Hv|lia].
  - intros E. apply state_step5_step in E. destruct Hv as [sk' Es|sk' Es|sk' _|sk' _]; [|lia..]. unfold rcv_side in Es. injection Es as <- _ _ _ _ _. set (acc := ack_good _) in *. set (fin := ack_fin _) in *. clearbody acc fin. rewrite Eb in E. by apply rcv_step_tagged in E.
Qed.

(** C1. tcp_rcv_state_process moves a socket only along the edges of RFC 793: from SYN-SENT a SYN
    with ACK leads to ESTABLISHED and one without to SYN-RECEIVED; only an acceptable ACK takes
    SYN-RECEIVED to ESTABLISHED, and only the ACK of our FIN takes FIN-WAIT-1 to FIN-WAIT-2 or
    closes a socket whose FIN is out; after that the FINs that come in order lead along their
    transitions; a reset or an unexpected SYN closes any socket but a listening one, and text for
    a socket that is shut down closes it. *)
Theorem rcv_state_process_step sk skb r : tcp_rcv_state_process sk_dst_get sk skb = Some r ->
  rcv_step skb (ack_good (ack_result sk skb)) (ack_fin (ack_result sk skb)) (sk_state sk) (sk_state (rr_sk r)).
Proof using RL CL CS HI HL DL WL QL UL ST FL SM ML AL WN.
  unfold tcp_rcv_state_process, ack_result. cbn zeta. set (sk0 := sk <| tp; rx_opt; saw_tstamp := false |>). assert (E0 : sk_state sk0 = sk_state sk) by done. clearbody sk0. rewrite <- E0.
  pose proof (synchronized_step sk0 skb r) as Hsync. cbn zeta in Hsync. set (a := tcp_ack _ _ _) in *. clearbody a. assert (Hv : forall v : Z * sock * sk_buff, (let '(res, sk1, skb1) := v in if res <=? 0 then Some (mk_rcv (- res) sk1 None) else state_step5 sk_dst_get sk1 skb1) = (if v.1.1 <=? 0 then Some (mk_rcv (- v.1.1) v.1.2 None) else state_step5 sk_dst_get v.1.2 v.2)) by (by intros [[]]).
  rewrite <- Hv in Hsync. destruct (sk_state sk0) eqn:Es; try (apply Hsync; done).
  - destruct (tcp_rcv_synsent_state_process sk_dst_get sk0 skb) as [[q sk1]|] eqn:E1; [|done]. apply (synsent_edge sk0 skb (ack_good a) (ack_fin a)) in E1; [|done]. destruct (q >=? 0); [by intros [= <-]|].
    pose proof (s_urg sk1 skb) as Hu. destruct (tcp_urg sk1 skb) as [sk2|]; [|done]. change (sk_state sk2 = sk_state sk1) in Hu. intros [= <-]. cbn [rr_sk]. rewrite (quiet_state _ _ _ (steady_quiet _ _ (q_snd_check sk2)) eq_refl). by rewrite Hu.
  - intros [= <-]. cbn [rr_sk]. rewrite Es. apply rcv_same.
  - pose proof (ul_conn_request sk0 skb) as Hc. destruct (conn_request sk0 skb) as [c sk1]. change (quiet sk0 sk1) in Hc. pose proof (quiet_state _ _ _ Hc eq_refl) as E1.
    repeat match goal with |- context [if ?c then Some _ else _] => destruct c end; intros [= <-]; cbn [rr_sk]; rewrite ?E1, Es; apply rcv_same.
Qed.

(** ** Header prediction

    The word that the prediction flags are compared with, split at its fields. *)
Lemma land_split k h l mh ml : 0 <= k -> 0 <= l < 2 ^ k -> 0 <= ml < 2 ^ k -> Z.land (h * 2 ^ k + l) (mh * 2 ^ k + ml) = Z.land h mh * 2 ^ k + Z.land l ml.
Proof using Type.
  intros Hk Hl Hm. assert (Hd : forall a b, 0 <= b < 2 ^ k -> Z.shiftr (a * 2 ^ k + b) k = a) by (intros a b Hb; rewrite Z.shiftr_div_pow2, Z.div_add_l, Z.div_small; lia).
  assert (Hr : forall a b, 0 <= b < 2 ^ k -> Z.land (a * 2 ^ k + b) (Z.ones k) = b) by (intros a b Hb; rewrite Z.land_ones, Z.add_comm, Z_mod_plus_full, Z.mod_small; lia).
  set (x := Z.land _ _). rewrite (Z.div_mod x (2 ^ k)) at 1 by lia. rewrite Z.mul_comm. f_equal; unfold x.
  - by rewrite <- Z.shiftr_div_pow2, Z.shiftr_land, !Hd by done.
  - rewrite <- Z.land_ones by done. rewrite <- (Z.land_diag (Z.ones k)) at 1. rewrite <- (Hr h l Hl) at 2. rewrite <- (Hr mh ml Hm) at 2. rewrite !Z.land_assoc. f_equal. rewrite <- !Z.land_assoc. f_equal. apply Z.land_comm.
Qed.
(** The members of a header fit their fields. *)
Definition th_fields (th : tcphdr) : Prop := 0 <= th_doff th < 16 /\ 0 <= th_res1 th < 16 /\ is_u16 (th_window th).
Definition high_flags (th : tcphdr) : Z := b2z (th_cwr th) * 8 + b2z (th_ece th) * 4 + b2z (th_urg th) * 2 + b2z (th_ack th).
Definition low_flags (th : tcphdr) : Z := b2z (th_rst th) * 4 + b2z (th_syn th) * 2 + b2z (th_fin th).
Lemma hp_word th : th_fields th -> Z.land (tcp_flag_word th) TCP_HP_BITS = th_doff th * 2 ^ 28 + high_flags th * 2 ^ 20 + (low_flags th * 2 ^ 16 + th_window th).
Proof using Type.
  intros (Hd & Hr & Hw). unfold is_u16 in Hw. assert (Hb : forall b, 0 <= b2z b <= 1) by (by intros []). assert (Hh : 0 <= high_flags th < 2 ^ 4) by (unfold high_flags; repeat match goal with |- context [b2z ?b] => pose proof (Hb b); generalize dependent (b2z b); intros end; lia).
  assert (Hl : 0 <= low_flags th < 2 ^ 3) by (unfold low_flags; repeat match goal with |- context [b2z ?b] => pose proof (Hb b); generalize dependent (b2z b); intros end; lia). pose proof (Hb (th_psh th)) as Hp.
  assert (E : tcp_flag_word th = (th_doff th * 2 ^ 4 + th_res1 th) * 2 ^ 24 + (high_flags th * 2 ^ 20 + (b2z (th_psh th) * 2 ^ 19 + (low_flags th * 2 ^ 16 + th_window th)))) by (unfold tcp_flag_word, high_flags, low_flags, TCP_FLAG_CWR, TCP_FLAG_ECE, TCP_FLAG_URG, TCP_FLAG_ACK, TCP_FLAG_PSH, TCP_FLAG_RST, TCP_FLAG_SYN, TCP_FLAG_FIN; lia).
  assert (E2 : TCP_HP_BITS = (-1 * 2 ^ 4 + 0) * 2 ^ 24 + (15 * 2 ^ 20 + (0 * 2 ^ 19 + Z.ones 19))) by done. assert (H19 : Z.ones 19 = 2 ^ 19 - 1) by done.
  rewrite E, E2, !land_split by lia. change (-1) with (Z.ones (-1)) at 1. rewrite Z.land_0_r. rewrite (Z.land_ones _ 19) by lia. change 15 with (Z.ones 4). rewrite (Z.land_ones _ 4) by lia. change (Z.ones (-1)) with (-1). rewrite Z.land_m1_r, Z.land_0_r, !Z.mod_small by lia. lia.
Qed.
(** The prediction flags as __tcp_fast_path_on sets them, for a window of [wnd]. *)
Definition predicted t (wnd : Z) : Prop := pred_flags t = tcp_header_len t * 2 ^ 26 + TCP_FLAG_ACK + wnd /\ is_u16 wnd /\ 0 <= tcp_header_len t < 64.
(** A plain segment: the expected header length and window, ACK and no other flag but PSH, the next
    sequence number, and an ACK of something that was sent. *)
Definition plain_header sk skb (wnd : Z) : Prop :=
  th_doff (skb_th skb) * 4 = tcp_header_len (tp sk) /\ th_window (skb_th skb) = wnd /\ th_ack (skb_th skb) = true /\
  th_syn (skb_th skb) = false /\ th_fin (skb_th skb) = false /\ th_rst (skb_th skb) = false /\ th_urg (skb_th skb) = false /\ th_ece (skb_th skb) = false /\ th_cwr (skb_th skb) = false /\
  seq skb = rcv_nxt (tp sk) /\ after (ack_seq skb) (snd_nxt (tp sk)) = false.
Lemma hp_fields sk skb wnd : th_fields (skb_th skb) -> predicted (tp sk) wnd -> hp_match sk skb = true <-> plain_header sk skb wnd.
Proof using Type.
  intros Hf (Ep & Hw & Hl). unfold hp_match, plain_header. rewrite hp_word by done. rewrite Ep. destruct Hf as (Hd & _ & Hw2). unfold is_u16 in Hw, Hw2. rewrite !andb_true_iff. unfold high_flags, low_flags, TCP_FLAG_ACK. split.
  - intros [[E1 E2] E3]. apply Z.eqb_eq in E1, E2. apply negb_true_iff in E3. assert (Hb : forall b, 0 <= b2z b <= 1) by (by intros []).
    assert (Hz : forall b, (b2z b = 0 -> b = false) /\ (b2z b = 1 -> b = true)) by (by intros []).
    pose proof (Hz (th_cwr (skb_th skb))). pose proof (Hz (th_ece (skb_th skb))). pose proof (Hz (th_urg (skb_th skb))). pose proof (Hz (th_ack (skb_th skb))). pose proof (Hz (th_rst (skb_th skb))). pose proof (Hz (th_syn (skb_th skb))). pose proof (Hz (th_fin (skb_th skb))).
    repeat match goal with H : context [b2z ?b] |- _ => lazymatch goal with _ : 0 <= b2z b <= 1 |- _ => fail | _ => pose proof (Hb b) end end.
    split_and!; try done; try lia; match goal with H : _ /\ _ |- ?g => apply H; lia end.
  - intros (H1 & H2 & -> & -> & -> & -> & -> & -> & -> & -> & ->). rewrite Z.eqb_refl. split; [split; [|done]|done]. apply Z.eqb_eq. cbn [b2z]. lia.
Qed.

(** What in-order data does to the receiver's half when nothing waits out of order. *)
Definition appended sk skb := (sk_state sk, sk_shutdown sk, sk_receive_queue sk ++ [pull_header skb], @nil sk_buff, copied_seq (tp sk), end_seq skb).
Definition side_kept (sk sk' : sock) : Prop := rcv_side sk' = rcv_side sk.
Definition side_tcp (t t' : tcp_sock) : Prop := (out_of_order_queue t', copied_seq t', rcv_nxt t') = (out_of_order_queue t, copied_seq t, rcv_nxt t).
#[local] Instance side_rel : SockRel side_kept side_tcp.
Proof using Type.
  split; unfold side_kept, side_tcp; try done; [congruence..|]. unfold rcv_side. cbn. intros sk t [= -> -> ->]. done.
Qed.
Lemma quiet_side {A} `{HasSock A} sk (r : A) : quiet sk r -> along side_kept sk r.
Proof using Type. unfold along. destruct (the_sock r); [|done]. by intros []. Qed.
Lemma side_fast_path sk : along side_kept sk (tcp_fast_path_check sk).
Proof using DL. by rewrite fast_path_check_spec. Qed.
Lemma side_data_ready sk : along side_kept sk (sk_data_ready sk).
Proof using DL. by rewrite data_ready_spec. Qed.
Lemma side_set_sacks t r : side_tcp t (set_sacks t r).
Proof using Type. by destruct r. Qed.
Lemma side_sack_remove t : side_tcp t (tcp_sack_remove t).
Proof using Type. unfold tcp_sack_remove. cbn zeta. destruct (out_of_order_queue t); [done|apply side_set_sacks]. Qed.
Lemma side_schedule_ack sk : along side_kept sk (inet_csk_schedule_ack sk).
Proof using Type. cbv delta [inet_csk_schedule_ack]. frame_go. Qed.
Lemma side_incr sk : along side_kept sk (tcp_incr_quickack sk).
Proof using Type. cbv delta [tcp_incr_quickack]. frame_go. Qed.
#[local] Hint Resolve side_fast_path side_data_ready side_sack_remove side_schedule_ack side_incr : frame.
Lemma side_quickack sk : along side_kept sk (tcp_enter_quickack_mode sk).
Proof using Type. cbv delta [tcp_enter_quickack_mode]. frame_go. Qed.
#[local] Hint Resolve side_quickack : frame.
Lemma side_measure_mss sk skb : along side_kept sk (tcp_measure_rcv_mss sk skb).
Proof using Type. unfold tcp_measure_rcv_mss. cbn zeta. by repeat match goal with |- context [if ?c then _ else _] => destruct c end. Qed.
Lemma side_rtt_update t n b : side_tcp t (tcp_rcv_rtt_update t n b).
Proof using Type. unfold tcp_rcv_rtt_update. cbn zeta. by case_match. Qed.
#[local] Hint Resolve side_measure_mss side_rtt_update : frame.
Lemma side_rtt_measure t : side_tcp t (tcp_rcv_rtt_measure t).
Proof using Type. unfold tcp_rcv_rtt_measure. cbn zeta. frame_tcp. Qed.
Lemma side_measure_ts sk skb : along side_kept sk (tcp_rcv_rtt_measure_ts sk skb).
Proof using Type. cbv delta [tcp_rcv_rtt_measure_ts]. frame_go. Qed.
Lemma side_reclaim_ sk : along side_kept sk (sk_mem_reclaim_ sk).
Proof using ML. by rewrite mem_reclaim_spec. Qed.
#[local] Hint Resolve side_rtt_measure side_measure_ts side_reclaim_ : frame.
Lemma side_reclaim sk : along side_kept sk (sk_mem_reclaim sk).
Proof using ML. cbv delta [sk_mem_reclaim]. frame_go. Qed.
Lemma side_grow sk skb : along side_kept sk (tcp_grow_window sk skb).
Proof using Type. cbv delta [tcp_grow_window]. frame_go. Qed.
Lemma side_ce sk skb : along side_kept sk (TCP_ECN_check_ce sk skb).
Proof using Type. unfold TCP_ECN_check_ce. cbn zeta. frame_go. Qed.
#[local] Hint Resolve side_reclaim side_grow side_ce : frame.
Lemma side_event sk skb : along side_kept sk (tcp_event_data_recv sk skb).
Proof using ML. cbv delta [tcp_event_data_recv]. frame_go. Qed.
Lemma side_charge sk n : along side_kept sk (sk_mem_charge sk n).
Proof using Type. cbv delta [sk_mem_charge]. frame_go. Qed.
#[local] Hint Resolve side_event side_charge : frame.
Lemma side_owner skb sk : along side_kept sk (skb_set_owner_r skb sk).
Proof using Type. cbv delta [skb_set_owner_r]. frame_go. Qed.
Lemma side_store sk : along side_kept sk (hp_store_ts sk).
Proof using Type. unfold hp_store_ts. by case_match. Qed.
#[local] Hint Resolve side_owner side_store quiet_side q_tcp_ack q_snd_check q_ack_snd_check_ : frame.
Lemma side_acked sk skb eaten : along side_kept sk (hp_acked sk skb eaten).
Proof using RL CL CS HI HL DL WL QL ML.
  unfold hp_acked. cbn zeta. pose proof (side_event sk (skb_pull skb (tcp_header_len (tp sk)))) as H1. set (sk1 := tcp_event_data_recv _ _) in *. clearbody sk1. refine (along_step side_kept _ _ _ H1 _).
  assert (Hw : forall s, along side_kept sk1 s -> along side_kept sk1 (if eaten then s else sk_data_ready s)) by (intros s Hs; destruct eaten; [done|]; by rewrite data_ready_spec).
  assert (Hn : forall s, along side_kept sk1 s -> along side_kept sk1 (tcp_ack_snd_check_ s false)) by (intros s Hs; refine (along_step side_kept _ _ _ Hs _); apply quiet_side, steady_quiet, q_ack_snd_check_).
  destruct (negb _); [|apply Hw, Hn, (along_refl side_kept)]. pose proof (quiet_side _ _ (q_tcp_ack sk1 skb FLAG_DATA)) as H2. destruct (tcp_ack sk1 skb FLAG_DATA) as [[r sk2]|]; [|exact I].
  apply Hw. assert (H3 : along side_kept sk1 (tcp_data_snd_check sk2)) by (refine (along_step side_kept sk1 sk2 _ H2 _); apply quiet_side, steady_quiet, q_snd_check). destruct (negb _); [exact H3|by apply Hn].
Qed.

Lemma fast_appends sk skb ln r sk' : hp_to_user sk skb ln = (false, sk) -> tcp_checksum_complete_user skb = false -> s32 (truesize skb) <= sk_forward_alloc sk ->
  out_of_order_queue (tp sk) = [] -> th_doff (skb_th skb) * 4 = tcp_header_len (tp sk) ->
  hp_data sk skb ln = Some (r, sk') -> rcv_side sk' = appended sk skb.
Proof using RL CL CS HI HL DL WL QL ML.
  intros Ho Hc Hm Hq Hh. unfold hp_data. rewrite Ho, Hc. cbn zeta.
  set (sk1 := tcp_rcv_rtt_measure_ts _ _). assert (H1 : side_kept sk sk1) by exact (along_step side_kept _ _ _ (side_store sk) (side_measure_ts _ skb)).
  assert (E1 : sk_forward_alloc sk1 = sk_forward_alloc sk /\ tcp_header_len (tp sk1) = tcp_header_len (tp sk)).
  { unfold sk1, tcp_rcv_rtt_measure_ts, tcp_rcv_rtt_update, hp_store_ts. cbn zeta. by repeat match goal with |- context [if ?c then _ else _] => destruct c end. }
  clearbody sk1. destruct E1 as [E1 E2]. replace (s32 (truesize skb) >? sk_forward_alloc sk1) with false by lia.
  set (sk2 := sk1 <| sk_receive_queue := _ |>). pose proof (side_owner skb sk2) as H3. set (sk3 := skb_set_owner_r skb sk2) in *. clearbody sk3. set (sk4 := sk3 <| tp; rcv_nxt := _ |>).
  pose proof (side_acked sk4 skb false) as H4. intros E4. rewrite E4 in H4. change (rcv_side sk' = rcv_side sk4) in H4. rewrite H4. unfold side_kept, along in *. cbn in H3. subst sk2 sk4. unfold rcv_side in *. cbn in *. unfold appended.
  injection H3 as -> -> -> -> -> _. injection H1 as -> -> F1 F2 -> F3. rewrite F1, F2, Hq, E2, <- Hh. done.
Qed.
Lemma slow_appends sk skb : sk_owned sk = false -> sk_rmem_alloc sk <= sk_rcvbuf sk -> truesize skb <= sk_forward_alloc sk ->
  out_of_order_queue (tp sk) = [] -> seq skb = rcv_nxt (tp sk) -> seq skb <> end_seq skb -> tcp_receive_window (tp sk) <> 0 -> th_fin (skb_th skb) = false ->
  exists sk', tcp_data_queue sk skb = Some sk' /\ rcv_side sk' = appended sk skb.
Proof using DL ML WN.
  intros Ho Hm Hf Hq Es Hn Hw Hfin. unfold tcp_data_queue. replace (seq skb =? end_seq skb) with false by lia. cbn zeta. set (sk0 := sk <| tp := TCP_ECN_accept_cwr _ _ |> <| tp; rx_opt; dsack := false |>).
  assert (H0 : rcv_side sk0 = rcv_side sk /\ tcp_receive_window (tp sk0) = tcp_receive_window (tp sk) /\ (sk_owned sk0, sk_rmem_alloc sk0, sk_rcvbuf sk0, sk_forward_alloc sk0) = (sk_owned sk, sk_rmem_alloc sk, sk_rcvbuf sk, sk_forward_alloc sk)).
  { unfold sk0, TCP_ECN_accept_cwr. rewrite !receive_window_spec. by case_match. }
  clearbody sk0. destruct H0 as (H0 & E0 & [= E1 E2 E3 E4]). assert (F : rcv_nxt (tp sk0) = rcv_nxt (tp sk) /\ out_of_order_queue (tp sk0) = []) by (unfold rcv_side in H0; injection H0 as _ _ _ -> _ ->; done). destruct F as [F1 F2].
  change (seq (pull_header skb)) with (seq skb). replace (seq skb =? rcv_nxt (tp sk0)) with true by lia. replace (tcp_receive_window (tp sk0) =? 0) with false by lia.
  unfold ucopy_data. rewrite E1, Ho, !andb_false_r. cbn [andb Z.leb Z.compare]. unfold queue_and_out. change (truesize (pull_header skb)) with (truesize skb). cbn [Z.ltb Z.compare]. rewrite rmem_granted by lia. eexists. split; [done|].
  pose proof (side_owner (pull_header skb) sk0) as H3. set (sk1 := skb_set_owner_r _ _) in *. clearbody sk1. change (rcv_side sk1 = rcv_side sk0) in H3. unfold in_sequence. cbn zeta. change (th_fin (skb_th (pull_header skb))) with (th_fin (skb_th skb)). rewrite Hfin. change (end_seq (pull_header skb)) with (end_seq skb).
  set (sk2 := sk1 <| sk_receive_queue := _ |> <| tp; rcv_nxt := _ |>). assert (H2 : rcv_side sk2 = appended sk skb).
  { subst sk2. rewrite H0 in H3. unfold appended, rcv_side in *. cbn. injection H3 as -> -> -> -> -> _. by rewrite Hq. }
  clearbody sk2. set (sk3 := if negb _ then tcp_event_data_recv _ _ else _). assert (H4 : rcv_side sk3 = appended sk skb) by (subst sk3; case_match; [rewrite <- H2; apply side_event|done]). clearbody sk3.
  assert (F3 : out_of_order_queue (tp sk3) = []) by (unfold rcv_side, appended in H4; by injection H4). rewrite F3. set (sk4 := if negb _ then sk3 <| tp := _ |> else _). assert (H5 : rcv_side sk4 = appended sk skb) by (subst sk4; case_match; [rewrite <- H4; exact (sr_tp (R := side_kept) sk3 _ (side_sack_remove _))|done]). clearbody sk4.
  rewrite <- H5. rewrite data_ready_spec. cbn [Z.gtb Z.compare]. rewrite <- (side_fast_path sk4). by case_match.
Qed.

(** C2. Header prediction.  With the flags that __tcp_fast_path_on sets, the test for the fast path of
    tcp_rcv_established succeeds for a segment exactly if it has the expected header length and
    window, the next sequence number, an ACK of something that was sent, and ACK and no other flag
    but PSH.  Such a segment with data and a right checksum, arriving while no process reads from
    the socket, with memory available, an open window and nothing waiting out of order, leaves the receiver's half of the connection exactly
    as tcp_data_queue, the general path, does. *)
Theorem header_prediction_ok sk skb wnd : th_fields (skb_th skb) -> predicted (tp sk) wnd ->
  (hp_match sk skb = true <-> plain_header sk skb wnd) /\
  (hp_match sk skb = true -> sk_owned sk = false -> tcp_checksum_complete_user skb = false -> s32 (truesize skb) = truesize skb -> truesize skb <= sk_forward_alloc sk -> sk_rmem_alloc sk <= sk_rcvbuf sk ->
   out_of_order_queue (tp sk) = [] -> seq skb <> end_seq skb -> tcp_receive_window (tp sk) <> 0 -> forall ln r sk', hp_data sk skb ln = Some (r, sk') ->
   exists sk2, tcp_data_queue sk skb = Some sk2 /\ rcv_side sk2 = rcv_side sk' /\ rcv_side sk' = appended sk skb).
Proof using RL CL CS HI HL DL WL QL ML WN.
  intros Hf Hp. split; [by apply hp_fields|]. intros Hm Ho Hc Ht Ha Hr Hq Hn Hw ln r sk' E. destruct (proj1 (hp_fields sk skb wnd Hf Hp) Hm) as (E1 & _ & _ & _ & E2 & _ & _ & _ & _ & E3 & _).
  assert (Hu : hp_to_user sk skb ln = (false, sk)) by (unfold hp_to_user; cbn zeta; rewrite Ho, andb_false_r; by case_match). apply fast_appends in E; [|rewrite ?Ht; done..]. destruct (slow_appends sk skb) as (sk2 & F1 & F2); [done..|]. exists sk2. split_and!; [done|congruence|done].
Qed.

(** ** SYN-SENT and validation *)

(** C33. In SYN-SENT the next state is the one of RFC 793: a bad ACK asks the caller for a reset and
    changes nothing but the options, a good one with RST closes the socket (ECONNREFUSED), with SYN
    establishes it, a SYN without ACK is a simultaneous open; rcv_nxt (and copied_seq, when
    established) is then taken from the segment, the ACK of the SYN moves snd_una to snd_nxt (a simultaneous open leaves it
    alone), and every segment that is dropped leaves the socket as it was, but for the
    options, which are cleared, with the clamp of the MSS restored. *)
Theorem synsent_ok {SL : SeqLaws K} sk skb r sk' : sk_state sk = TCP_SYN_SENT -> before (snd_nxt (tp sk)) (snd_una (tp sk)) = false -> tcp_rcv_synsent_state_process sk_dst_get sk skb = Some (r, sk') ->
  sk_state sk' = synsent_next sk skb /\
  (r = 1 <-> th_ack (skb_th skb) && synsent_bad_ack sk skb = true) /\
  match synsent_next sk skb with
  | TCP_ESTABLISHED => rcv_nxt (tp sk') = u32 (seq skb + 1) /\ copied_seq (tp sk') = u32 (seq skb + 1) /\ snd_una (tp sk') = snd_nxt (tp sk)
  | TCP_SYN_RECV => rcv_nxt (tp sk') = u32 (seq skb + 1) /\ snd_una (tp sk') = snd_una (tp sk)
  | TCP_SYN_SENT => sk' = sk <| tp; rx_opt := synsent_cleared sk skb |>
  | TCP_CLOSE => sk_err sk' = Some ECONNREFUSED
  | _ => False
  end.
Proof using RL CL CS HI HL QL UL ST.
  intros Hs Hb E. apply synsent_step in E as (H1 & H2 & H3); [|done]. split; [done|]; split; [exact H2|]. destruct (synsent_next sk skb) eqn:En; try done; try (by unfold synsent_next in En; repeat case_match).
  destruct H3 as (H3 & H4 & H5 & H6). rewrite H5 in H6. split_and!; [done|congruence|]. apply H6; [done|apply after_irrefl].
Qed.

Lemma validate_accepts sk skb : let '(has_opt, st) := tcp_fast_parse_options skb (rx_opt (tp sk)) None in
  has_opt && saw_tstamp (ps_opt st) = false -> tcp_sequence (tp sk) (seq skb) (end_seq skb) = true -> th_rst (skb_th skb) = false -> th_syn (skb_th skb) = false ->
  (tcp_validate_incoming sk skb).1.1 = 1.
Proof using WN.
  unfold tcp_validate_incoming. destruct (tcp_fast_parse_options _ _ _) as [has_opt st]. intros Ho Hs Hr Hy. cbn zeta. rewrite Hr, Hy. set (sk1 := sk <| tp; rx_opt := ps_opt st |>). change (rx_opt (tp sk1)) with (ps_opt st). rewrite Ho. cbn [andb].
  change (tcp_sequence (tp sk1)) with (tcp_sequence ((tp sk) <| rx_opt := ps_opt st |>)). rewrite sequence_opt. change (seq (skb <| sacked := ps_sacked st |>)) with (seq skb). change (end_seq (skb <| sacked := ps_sacked st |>)) with (end_seq skb). by rewrite Hs.
Qed.

(** C34. tcp_validate_incoming decides as RFC 793 (page 69) asks: a segment is only processed when it is in the window, carries no RST, and a SYN only below
    rcv_nxt; a segment outside of the window never changes the receiver's half, whatever its
    flags; a RST in the window, and a SYN at or beyond rcv_nxt in it, close the socket, the
    latter with a reset for the peer.  A segment in the window without RST, SYN and timestamp is
    always processed. *)
Theorem validate_incoming_ok sk skb :
  (let '(res, sk', skb') := tcp_validate_incoming sk skb in validated sk skb res sk' /\ skb' = skb <| sacked := sacked skb' |>) /\
  (let '(has_opt, st) := tcp_fast_parse_options skb (rx_opt (tp sk)) None in
   has_opt && saw_tstamp (ps_opt st) = false -> tcp_sequence (tp sk) (seq skb) (end_seq skb) = true -> th_rst (skb_th skb) = false -> th_syn (skb_th skb) = false ->
   (tcp_validate_incoming sk skb).1.1 = 1).
Proof using QL ST WN. split; [apply validate_cases|apply validate_accepts]. Qed.
Lemma validated_outside sk skb (v : Z * sock * sk_buff) : (let '(res, sk', skb') := v in validated sk skb res sk' /\ skb' = skb <| sacked := sacked skb' |>) ->
  tcp_sequence (tp sk) (seq skb) (end_seq skb) = false -> rcv_side v.1.2 = rcv_side sk.
Proof using Type. destruct v as [[res sk'] skb']. cbn [fst snd]. intros [H _] Hs. destruct H; congruence. Qed.
End Halves.

Module Demo.
#[local] Existing Instance linux.
#[local] Existing Instance Rtt.Demo.dst_ops.
#[local] Existing Instance DataQueue.Demo.tw.
#[export] Instance linux_quiet : QuietLaws.
Proof.
  split; intros; try (by split); unfold along; cbn; unfold linux_fragment, linux_trim, linux_xmit_queue, linux_retransmit, linux_push; by repeat case_match; split.
Qed.
#[export] Instance linux_setup : SetupLaws.
Proof. split; intros; by split. Qed.
#[export] Instance linux_ack_send : AckSendLaws.
Proof. by split. Qed.
Definition route (_ : sock) : option Rtt.Demo.dst := Some Rtt.Demo.d0.
Definition base : Z := 5000.

(** A socket that waits for the ACK of its SYN, and the SYN-ACK. *)
Definition sk_syn : sock := blank_sock <| sk_state := TCP_SYN_SENT |> <| tp; snd_una := base |> <| tp; snd_nxt := base + 1 |> <| tp; write_seq := base + 1 |>.
Definition synack : sk_buff := blank_skb <| seq := 700 |> <| end_seq := 701 |> <| ack_seq := base + 1 |> <| skb_th; th_syn := true |> <| skb_th; th_ack := true |> <| skb_th; th_doff := 5 |>.
Definition sk_est : sock := match tcp_rcv_synsent_state_process route sk_syn synack with Some r => snd r | None => sk_syn end.
Example sk_est_state : (sk_state sk_est, rcv_nxt (tp sk_est), snd_una (tp sk_est)) = (TCP_ESTABLISHED, 701, base + 1).
Proof. vm_compute. reflexivity. Qed.
Lemma synsent_ok_witness : sk_state sk_est = TCP_ESTABLISHED /\ rcv_nxt (tp sk_est) = 701 /\ copied_seq (tp sk_est) = 701 /\ snd_una (tp sk_est) = base + 1.
Proof.
  assert (Es : tcp_rcv_synsent_state_process route sk_syn synack = Some (-1, sk_est)) by (vm_compute; reflexivity).
  assert (Hb : before (snd_nxt (tp sk_syn)) (snd_una (tp sk_syn)) = false) by (vm_compute; reflexivity).
  destruct (synsent_ok route sk_syn synack (-1) sk_est eq_refl Hb Es) as (H1 & _ & H2).
  assert (E : synsent_next sk_syn synack = TCP_ESTABLISHED) by (vm_compute; reflexivity). rewrite E in H1, H2. destruct H2 as (H2 & H3 & H4). assert (F : u32 (seq synack + 1) = 701) by reflexivity. rewrite F in H2, H3. split; [exact H1|split; [exact H2|split; [exact H3|exact H4]]].
Defined.
Lemma rcv_state_process_step_witness : rcv_step synack (ack_good (ack_result sk_syn synack)) (ack_fin (ack_result sk_syn synack)) TCP_SYN_SENT TCP_ESTABLISHED.
Proof.
  destruct (tcp_rcv_state_process route sk_syn synack) as [r|] eqn:E; [|vm_compute in E; discriminate]. pose proof (rcv_state_process_step route sk_syn synack r E) as H.
  assert (Es : option_map (fun r => sk_state (rr_sk r)) (tcp_rcv_state_process route sk_syn synack) = Some TCP_ESTABLISHED) by (vm_compute; reflexivity).
  rewrite E in Es. cbn [option_map] in Es. injection Es as Es. rewrite Es in H. exact H.
Defined.

(** Two segments for the established socket: data in order, and a reset far outside the window. *)
Definition sk_open : sock := sk_est <| tp; rcv_wnd := 10000 |>.
Definition text1 : sk_buff := blank_skb <| seq := 701 |> <| end_seq := 801 |> <| ack_seq := base + 1 |> <| skb_th; th_ack := true |> <| skb_th; th_doff := 5 |>.
Definition far_rst : sk_buff := text1 <| seq := 900000 |> <| end_seq := 900000 |> <| skb_th; th_rst := true |>.
Lemma validate_incoming_ok_witness : (tcp_validate_incoming sk_open text1).1.1 = 1 /\ rcv_side (tcp_validate_incoming sk_open far_rst).1.2 = rcv_side sk_open.
Proof.
  split.
  - apply (proj2 (validate_incoming_ok sk_open text1)); vm_compute; reflexivity.
  - apply (validated_outside sk_open far_rst _ (proj1 (validate_incoming_ok sk_open far_rst))). vm_compute. reflexivity.
Defined.

(** Predicted data for the socket of [DataQueue.Demo], without the buffers out of order. *)
Notation b1 := DataQueue.Demo.b1.
Definition sk_pred : sock :=
  DataQueue.Demo.sk_rcv <| tp; out_of_order_queue := [] |> <| tp; tcp_header_len := 20 |> <| tp; pred_flags := 20 * 2 ^ 26 + TCP_FLAG_ACK + 500 |> <| sk_forward_alloc := 100000 |>.
Definition text2 : sk_buff := (DataQueue.Demo.arriving (b1 + 140) 100) <| skb_th; th_ack := true |> <| skb_th; th_window := 500 |>.
Lemma header_prediction_ok_witness : exists sk' sk2, hp_data sk_pred text2 120 = Some (0, sk') /\ tcp_data_queue sk_pred text2 = Some sk2 /\ rcv_side sk2 = rcv_side sk' /\ rcv_side sk' = appended sk_pred text2.
Proof.
  destruct (hp_data sk_pred text2 120) as [[r sk']|] eqn:E; [|vm_compute in E; discriminate].
  assert (Er : option_map fst (hp_data sk_pred text2 120) = Some 0) by (vm_compute; reflexivity). rewrite E in Er. cbn in Er. injection Er as ->.
  destruct (header_prediction_ok sk_pred text2 500) as [_ H0]; [split_and!; vm_compute; try reflexivity; split_and?; try discriminate; reflexivity|split_and!; vm_compute; try reflexivity; split_and?; try discriminate; reflexivity|].
  destruct (H0 ltac:(vm_compute; reflexivity) ltac:(vm_compute; reflexivity) ltac:(vm_compute; reflexivity) ltac:(vm_compute; reflexivity) ltac:(vm_compute; discriminate) ltac:(vm_compute; discriminate) ltac:(vm_compute; reflexivity) ltac:(vm_compute; discriminate) ltac:(vm_compute; discriminate) 120 0 sk' E) as (sk2 & H1 & H2).
  exists sk', sk2. split; [reflexivity|split; [exact H1|exact H2]].
Defined.
End Demo.
