(* ===== verification/Established.v ===== *)
(** * An established connection

    tcp_rcv_established as a whole: a segment without SYN and FIN keeps both halves of an
    established connection, the stream that the receive queues carry and the accounting of the
    write queue, on the fast path and on the slow one. *)

From stdpp Require Import relations.
From S2P Require Import Prelude TcpTypes Kernel RcvTune Rtt TcpOpt SackGen Minisocks Collapse DataQueue WriteQueue Xmit Scoreboard Recovery Cong Ack Frame Quiet Deliver Input.

(** Sending what waits in the write queue moves the send head on, and may cut what is not sent yet
    ([push] of Xmit.v; MTU probes, which build a new buffer, are off); the write_space callback
    wakes the writers. *)
Class PushLaws {K : Kernel} : Prop := {
  pl_push sk : score sk -> rtc push sk (tcp_push_pending_frames sk);
  pl_push_sack sk : sack_ok (rx_opt (tp (tcp_push_pending_frames sk))) = sack_ok (rx_opt (tp sk));
  pl_write_space sk : snd_part (sk_write_space sk) = snd_part sk;
}.
(** The sender's half is in order: data can be sent, and the counters agree with the queue. *)
Definition alive {K : Kernel} (sk : sock) : Prop := sending (sk_state sk) = true /\ score sk /\ sacking sk.
Definition keeps {K : Kernel} (sk sk' : sock) : Prop := alive sk -> alive sk'.
#[export] Instance keeps_rel {K : Kernel} : SockRel keeps tsnd.
Proof.
  split; unfold keeps; auto; [done|unfold tsnd; congruence|]. unfold tsnd. intros sk t [= E1 E2 E3 E4 E5 E6 E7 E8 E9 E10 E11] (H1 & H2 & H3).
  split_and!; [done| |unfold sacking in *; cbn; by rewrite E8]. eapply score_ext; [|exact H2]. unfold sb_part, q_part, hints. cbn. by rewrite E1, E2, E3, E4, E5, E6, E7.
Qed.
Lemma alive_part {K : Kernel} sk sk' : sending (sk_state sk) = sending (sk_state sk') -> snd_part sk' = snd_part sk -> alive sk -> alive sk'.
Proof.
  intros E Ep (H1 & H2 & H3). assert (E1 : sb_part sk' = sb_part sk) by exact (f_equal (fun p => p.1.1.1.1) Ep). assert (E2 : sack_ok (rx_opt (tp sk')) = sack_ok (rx_opt (tp sk))) by exact (f_equal (fun p => p.1.1.1.2) Ep).
  split_and!; [congruence|by eapply score_ext|unfold sacking in *; by rewrite E2].
Qed.

Section Established.
Context {K : Kernel} {TL : TagLaws K} {PL : PcountLaws K} {SL : SeqLaws K} {SM : SackModeLaws K} {RL : RtoLaws K} {CL : CongLaws K} {CS : CaStateLaws K} {HI : HintLaws K} {HL : HighSackLaws K}
  {SH : ShiftLaws K} {FI : FlightLaws K} {FL : FreeLaws K} {ML : MemLaws K} {DL : DeliverLaws K} {WL : WlLaws K} {WN : WindowLaws K} {ST : StateLaws K} {FR : FragLaws} {XL : XmitLaws} {TR : TrimLaws} {QL : QuietLaws} {AL : AckSendLaws} {PU : PushLaws}.
Context {W : TimeWait K}.
Implicit Types (sk : sock) (skb : sk_buff) (t : tcp_sock).

(** ** The sender's half *)
Lemma k_delivered {A} `{HasSock A} sk (r : A) : along delivers sk r -> along keeps sk r.
Proof using Type.
  unfold along. destruct (the_sock r) as [sk'|]; [|done]. intros [H1 H2] Ha. apply (alive_part sk); [|apply H2, Ha|done]. by rewrite (sending_fin _ _ H1 (proj1 Ha)), (proj1 Ha).
Qed.
Lemma k_same sk sk' : sk_state sk' = sk_state sk -> snd_part sk' = snd_part sk -> along keeps sk sk'.
Proof using Type. intros E Ep Ha. apply (alive_part sk); [by rewrite E|done..]. Qed.
Lemma k_tcp_ack sk skb flag : calm flag -> along keeps sk (tcp_ack sk skb flag).
Proof using TL PL SL SM RL CL CS HI HL SH FI DL WL FR XL TR QL.
  intros Hf. pose proof (q_tcp_ack sk skb flag) as Hq. destruct (tcp_ack sk skb flag) as [[r sk']|] eqn:E; [|done]. intros (H1 & H2 & H3). pose proof (quiet_state _ _ _ Hq eq_refl) as Es.
  apply (proj1 (tcp_ack_step sk skb flag H2 H3 Hf)) in E as (E1 & E2 & _). split_and!; [by rewrite Es|done..].
Qed.
Lemma k_push sk : along keeps sk (tcp_push_pending_frames sk).
Proof using QL PU.
  intros (H1 & H2 & H3). split_and!; [by rewrite (quiet_state _ _ _ (steady_quiet _ _ (ql_push sk)) eq_refl)|by eapply pushes_score, pl_push|]. unfold sacking in *. by rewrite pl_push_sack.
Qed.
Lemma k_write_space sk : along keeps sk (sk_write_space sk).
Proof using QL PU. apply k_same; [by rewrite (quiet_state _ _ _ (steady_quiet _ _ (ql_write_space sk)) eq_refl)|apply pl_write_space]. Qed.
Lemma k_reset_flag sk f : along keeps sk (sock_reset_flag sk f).
Proof using Type. by apply k_same. Qed.
#[local] Hint Extern 0 (calm _) => reflexivity : frame.
#[local] Hint Resolve k_tcp_ack k_push k_write_space k_reset_flag : frame.
#[local] Hint Extern 5 (along keeps ?s (set _ _ ?s)) => (generalize s; intros; apply k_same; reflexivity) : frame.
Lemma k_new_space sk : along keeps sk (tcp_new_space sk).
Proof using QL PU. cbv delta [tcp_new_space]. frame_go. Qed.
#[local] Hint Resolve k_new_space : frame.
Lemma k_check_space sk : along keeps sk (tcp_check_space sk).
Proof using QL PU. cbv delta [tcp_check_space]. frame_go. Qed.
#[local] Hint Resolve k_check_space : frame.
Lemma k_snd_check sk : along keeps sk (tcp_data_snd_check sk).
Proof using QL PU. cbv delta [tcp_data_snd_check]. frame_go. Qed.
Lemma k_send_ack sk : along keeps sk (tcp_send_ack sk).
Proof using AL. apply k_delivered, d_send_ack. Qed.
Lemma k_delayed_ack sk : along keeps sk (tcp_send_delayed_ack sk).
Proof using AL. apply k_delivered, d_delayed_ack. Qed.
#[local] Hint Resolve k_snd_check k_send_ack k_delayed_ack : frame.
Lemma k_ack_snd_check_ sk b : along keeps sk (tcp_ack_snd_check_ sk b).
Proof using AL. cbv delta [tcp_ack_snd_check_]. frame_go. Qed.
#[local] Hint Resolve k_ack_snd_check_ : frame.
Lemma k_ack_snd_check sk : along keeps sk (tcp_ack_snd_check sk).
Proof using AL. cbv delta [tcp_ack_snd_check]. frame_go. Qed.
Lemma k_kfree sk b : along keeps sk (kfree_skb sk b).
Proof using FL. apply k_delivered, d_kfree. Qed.
Lemma k_sigurg sk : along keeps sk (sk_send_sigurg sk).
Proof using AL. apply k_delivered, d_sigurg. Qed.
Lemma k_data_ready sk : along keeps sk (sk_data_ready sk).
Proof using DL. apply k_delivered, d_data_ready. Qed.
#[local] Hint Resolve k_ack_snd_check k_kfree k_sigurg k_data_ready : frame.
Lemma k_urg_skip sk : along keeps sk (urg_skip sk).
Proof using FL. cbv delta [urg_skip]. frame_go. Qed.
#[local] Hint Resolve k_urg_skip : frame.
Lemma k_check_urg sk th : along keeps sk (tcp_check_urg sk th).
Proof using FL AL. cbv delta [tcp_check_urg]. frame_go. Qed.
#[local] Hint Resolve k_check_urg : frame.
Lemma k_urg sk skb : along keeps sk (tcp_urg sk skb).
Proof using FL AL DL. cbv delta [tcp_urg]. frame_go. Qed.
Lemma k_measure_ts sk skb : along keeps sk (tcp_rcv_rtt_measure_ts sk skb).
Proof using Type. apply k_delivered, d_measure_ts. Qed.
Lemma k_event sk skb : along keeps sk (tcp_event_data_recv sk skb).
Proof using ML. apply k_delivered, d_event. Qed.
Lemma k_data_queue sk skb : along keeps sk (tcp_data_queue sk skb).
Proof using SM FL ML DL ST AL. apply k_delivered, d_data_queue. Qed.
#[local] Hint Resolve k_urg k_measure_ts k_event k_data_queue : frame.

(** Options of an established connection do not change whether SACK is used. *)
Lemma parse_sack_ok skb o hvp : sack_ok (ps_opt (tcp_parse_options skb o hvp true)) = sack_ok o.
Proof using Type.
  unfold tcp_parse_options. apply (parse_loop_inv (fun st => sack_ok (ps_opt st) = sack_ok o)); [|done].
  intros ptr opcode opsize st E. unfold parse_option. cbn [negb]. rewrite ?andb_false_r. cbn [andb]. cbn zeta. by repeat match goal with |- context [if ?c then _ else _] => destruct c end.
Qed.
Lemma fast_parse_sack_ok skb o hvp : sack_ok (ps_opt (tcp_fast_parse_options skb o hvp).2) = sack_ok o.
Proof using Type.
  unfold tcp_fast_parse_options. cbn zeta. case_match; [done|]. case_match; [|apply parse_sack_ok]. unfold tcp_parse_aligned_timestamp. cbn zeta. destruct (get_be32 _ _ =? _); [done|apply parse_sack_ok].
Qed.
Lemma k_rx_opt sk o : sack_ok o = sack_ok (rx_opt (tp sk)) -> along keeps sk (sk <| tp; rx_opt := o |>).
Proof using Type. intros E. apply k_same; [done|]. unfold snd_part. cbn. by rewrite E. Qed.
(** The segment closes the socket: it is a reset, or a SYN in the window. *)
Definition shut_by skb sk' : Prop := sk_state sk' = TCP_CLOSE /\ (th_rst (skb_th skb) = true \/ th_syn (skb_th skb) = true).
Lemma validate_alive sk skb : alive sk -> let '(res, sk', skb') := tcp_validate_incoming sk skb in alive sk' \/ (res <= 0 /\ shut_by skb sk').
Proof using ST AL.
  intros Ha. unfold tcp_validate_incoming. pose proof (fast_parse_sack_ok skb (rx_opt (tp sk)) None) as Eo. destruct (tcp_fast_parse_options _ _ _) as [has_opt st]. cbn [snd] in Eo. cbn zeta.
  pose proof (k_rx_opt sk (ps_opt st) Eo Ha) as Ha1. set (sk1 := sk <| tp; rx_opt := ps_opt st |>) in *. clearbody sk1. set (skb1 := skb <| sacked := ps_sacked st |>). clearbody skb1.
  pose proof (k_delivered _ _ (d_send_dupack sk1 skb1) Ha1) as Hd. set (dup := tcp_send_dupack sk1 skb1) in *. clearbody dup.
  case_if_as Hp; [by left|]. case_if_as Hq; [left; by case_match|]. case_if_as Ht; [right; split; [lia|]; split; [apply reset_state|by left]|].
  assert (Hr : alive (sk1 <| tp := tcp_replace_ts_recent (tp sk1) (seq skb1) |>)).
  { revert Ha1. apply (sr_tp (R := keeps)). unfold tcp_replace_ts_recent. by repeat case_match. }
  set (sk2 := sk1 <| tp := _ |>) in *. clearbody sk2. case_if_as Hy; [right; split; [lia|]; split; [apply reset_state|right; by apply andb_true_iff in Hy as [? _]]|by left].
Qed.
Lemma k_step5 sk skb : along keeps sk (established_step5 sk skb).
Proof using TL PL SL SM RL CL CS HI HL SH FI FL ML DL WL ST FR XL TR QL AL PU. cbv delta [established_step5]. frame_go. Qed.
#[local] Hint Resolve k_step5 : frame.
(** The segment has closed the socket, or the sender's half is in order. *)
Definition fine skb (r : option (Z * sock)) : Prop := match r with Some (_, sk') => shut_by skb sk' \/ alive sk' | None => True end.
Lemma keeps_fine sk skb r : alive sk -> along keeps sk r -> fine skb r.
Proof using Type. destruct r as [[ret sk']|]; [|done]. right. auto. Qed.
Lemma slow_fine sk skb ln : alive sk -> fine skb (established_slow sk skb ln).
Proof using TL PL SL SM RL CL CS HI HL SH FI FL ML DL WL ST FR XL TR QL AL PU.
  intros Ha. unfold established_slow. case_match; [by right|]. pose proof (validate_alive sk skb Ha) as Hv. destruct (tcp_validate_incoming sk skb) as [[res sk1] skb1]. destruct (Z.leb_spec res 0) as [Hr|Hr]; [destruct Hv as [Hv|[_ Hv]]; [by right|by left]|].
  destruct Hv as [Hv|[Hv _]]; [|lia]. by eapply keeps_fine; [|apply k_step5].
Qed.
Lemma k_store sk : along keeps sk (hp_store_ts sk).
Proof using Type. unfold hp_store_ts. case_match; [|exact (along_refl keeps sk)]. by apply (sr_tp (R := keeps)). Qed.
Lemma k_space_adjust sk : along keeps sk (tcp_rcv_space_adjust sk).
Proof using Type. apply k_delivered, d_space_adjust. Qed.
#[local] Hint Resolve k_store k_space_adjust : frame.
Lemma k_to_iovec sk skb n : along keeps sk (tcp_copy_to_iovec sk skb n).
Proof using Type. cbv delta [tcp_copy_to_iovec]. frame_go. Qed.
#[local] Hint Resolve k_to_iovec : frame.
Lemma k_to_user sk skb ln : along keeps sk (hp_to_user sk skb ln).
Proof using Type. cbv delta [hp_to_user]. frame_go. Qed.
#[local] Hint Resolve k_to_user : frame.
Lemma k_acked sk skb eaten : along keeps sk (hp_acked sk skb eaten).
Proof using TL PL SL SM RL CL CS HI HL SH FI ML DL WL FR XL TR QL AL PU.
  unfold hp_acked. cbn zeta. refine (along_step keeps sk (tcp_event_data_recv sk (skb_pull skb (tcp_header_len (tp sk)))) _ (k_event _ _) _). set (sk1 := tcp_event_data_recv _ _). clearbody sk1.
  assert (Hw : forall s, along keeps sk1 s -> along keeps sk1 (if eaten then s else sk_data_ready s)) by (intros s Hs; destruct eaten; [done|]; by rewrite data_ready_spec).
  assert (Hn : forall s, along keeps sk1 s -> along keeps sk1 (tcp_ack_snd_check_ s false)) by (intros s Hs; refine (along_step keeps _ _ _ Hs _); apply k_ack_snd_check_).
  case_if_as Hu; [|apply Hw, Hn, (along_refl keeps)]. pose proof (k_tcp_ack sk1 skb FLAG_DATA eq_refl) as H2. destruct (tcp_ack sk1 skb FLAG_DATA) as [[r sk2]|]; [|exact I].
  apply Hw. assert (H3 : along keeps sk1 (tcp_data_snd_check sk2)) by (refine (along_step keeps sk1 sk2 _ H2 _); apply k_snd_check). case_if_as Hs; [exact H3|by apply Hn].
Qed.
Lemma k_owner skb sk : along keeps sk (skb_set_owner_r skb sk).
Proof using Type. apply k_delivered, d_owner. Qed.
#[local] Hint Resolve k_acked k_owner : frame.
Lemma k_hp_data sk skb ln : along keeps sk (hp_data sk skb ln).
Proof using TL PL SL SM RL CL CS HI HL SH FI FL ML DL WL ST FR XL TR QL AL PU. cbv delta [hp_data]. frame_go. Qed.
Lemma k_hp_ack sk skb : along keeps sk (hp_ack sk skb).
Proof using TL PL SL SM RL CL CS HI HL SH FI DL WL FR XL TR QL PU.
  unfold hp_ack. cbn zeta. refine (along_step keeps _ _ _ (k_store sk) _). pose proof (k_tcp_ack (hp_store_ts sk) skb 0 eq_refl) as H. destruct (tcp_ack _ _ _) as [[r sk1]|]; [|done].
  refine (along_step keeps _ sk1 _ H _). exact (k_snd_check sk1).
Qed.
Lemma aligned_sack_ok o bs : sack_ok (tcp_parse_aligned_timestamp o bs).2 = sack_ok o.
Proof using Type. unfold tcp_parse_aligned_timestamp. cbn zeta. by case_if_as Ht. Qed.
Lemma k_timestamp sk skb : along keeps sk (hp_timestamp sk skb).
Proof using Type.
  unfold hp_timestamp. case_if_as Hs; [|exact (along_refl keeps sk)]. pose proof (aligned_sack_ok (rx_opt (tp sk)) (bytes skb)) as E. destruct (tcp_parse_aligned_timestamp _ _) as [ok o]. cbn [snd] in E. cbn zeta.
  pose proof (k_rx_opt sk o E) as H. set (sk1 := sk <| tp; rx_opt := o |>) in *. clearbody sk1. case_if_as Ho; [exact H|]. by case_if_as Ht.
Qed.
Lemma established_fine sk skb ln : alive sk -> fine skb (tcp_rcv_established sk skb ln).
Proof using TL PL SL SM RL CL CS HI HL SH FI FL ML DL WL ST FR XL TR QL AL PU.
  intros Ha. unfold tcp_rcv_established. cbn zeta. set (sk0 := sk <| tp; rx_opt; saw_tstamp := false |>) in *. assert (Ha0 : alive sk0) by exact (k_same sk sk0 eq_refl eq_refl Ha). clearbody sk0.
  case_if_as Hm; [|by apply slow_fine]. pose proof (k_timestamp sk0 skb) as Ht. destruct (hp_timestamp sk0 skb) as [predicted sk1]. pose proof (Ht Ha0) as Ha1. case_if_as Hp; [by apply slow_fine|].
  case_if_as Hl; [case_if_as He|]; [eapply keeps_fine; [exact Ha1|apply k_hp_ack]|by right|eapply keeps_fine; [exact Ha1|apply k_hp_data]].
Qed.

(** ** The receiver's half *)
Context (f : Z -> Z) (lo hi : Z) (Hwin : hi - lo <= 2 ^ 30).
(** The stream is in order up to [c] (read) and [r] (received), the window within its limit. *)
Definition flows (c r : Z) sk : Prop := rcv_inv f lo hi c r sk /\ th_all no_fin (out_of_order_queue (tp sk)) /\ rcv_room (tp sk) <= 2 ^ 30.
Lemma flows_quiet c r sk sk' : quiet sk sk' -> flows c r sk -> flows c r sk'.
Proof using Type.
  intros [E Hr] (H1 & H2 & H3). unfold rcv_side in E. injection E as _ _ E3 E4 E5 E6. split_and!; [|by rewrite E4|auto]. eapply rcv_inv_ext; [|exact H1]. unfold rcv_part. congruence.
Qed.
Lemma flows_window c r sk : flows c r sk -> 0 <= tcp_receive_window (tp sk) <= 2 ^ 30.
Proof using WN. intros (_ & _ & H). rewrite receive_window_spec. unfold rcv_room in H. lia. Qed.
(** The urgent byte is skipped: the reader goes on behind it. *)
Lemma flows_urg_skip c r sk : flows c r sk -> exists c', c <= c' /\ flows c' r (urg_skip sk).
Proof using SL FL Hwin.
  intros Hf. pose proof Hf as (Hi & Hth & Hr). unfold urg_skip. case_if_as Hu; [|exists c; split; [lia|done]]. apply andb_true_iff in Hu as [_ Hu]. apply negb_true_iff, Z.eqb_neq in Hu. destruct Hi as [E1 E2 E3 E4 E5].
  assert (Hcr : c + 1 <= r) by (destruct (decide (c = r)) as [->|]; [congruence|lia]). exists (c + 1). split; [lia|]. cbn zeta. rewrite E1, u32_add_l. set (sk1 := sk <| tp; copied_seq := u32 (c + 1) |>).
  assert (Hs : stream f lo hi (c + 1) (sk_receive_queue sk) r) by (replace r with (Z.max (c + 1) r) by lia; eapply stream_advance; [|exact E4]; lia).
  assert (Hk : flows (c + 1) r sk1) by (split_and!; [split; try done; lia|done|done]). change (sk_receive_queue sk1) with (sk_receive_queue sk). destruct (sk_receive_queue sk) as [|b rest] eqn:Eq; [done|]. change (copied_seq (tp sk1)) with (u32 (c + 1)).
  destruct Hs as (p & e & Hb & Hp & Hs). pose proof Hb as []. rewrite seg_end, before_u32 by lia. destruct (Z.ltb_spec (c + 1) e); cbn [negb]; [done|]. rewrite Z.max_l in Hs by lia.
  rewrite kfree_skb_spec. split_and!; [split; try done; lia|done|done].
Qed.
Lemma flows_check_urg c r sk th : flows c r sk -> exists c', c <= c' /\ flows c' r (tcp_check_urg sk th).
Proof using SL FL QL Hwin.
  intros Hf. unfold tcp_check_urg. cbn zeta. assert (Hsame : exists c', c <= c' /\ flows c' r sk) by (exists c; split; [lia|done]).
  case_if_as H1; [done|]. case_if_as H2; [done|]. case_if_as H3; [done|]. apply (flows_quiet _ _ _ (sk_send_sigurg sk)) in Hf; [|apply steady_quiet, ql_sigurg]. apply flows_urg_skip in Hf as (c' & Hc & Hf). set (sk1 := urg_skip _) in *. clearbody sk1.
  exists c'. split; [done|]. eapply flows_quiet; [|exact Hf]. by split.
Qed.
Lemma flows_urg c r sk skb sk' : flows c r sk -> tcp_urg sk skb = Some sk' -> exists c', c <= c' /\ flows c' r sk'.
Proof using SL FL QL DL Hwin.
  intros Hf. unfold tcp_urg. cbn zeta. assert (H1 : exists c', c <= c' /\ flows c' r (if th_urg (skb_th skb) then tcp_check_urg sk (skb_th skb) else sk)) by (case_if_as Hu; [by apply flows_check_urg|exists c; split; [lia|done]]).
  set (sk1 := if th_urg _ then _ else sk) in *. clearbody sk1. case_if_as H2; [|intros [= <-]; done]. case_if_as H3; [|intros [= <-]; done]. destruct (skb_copy_bits _ _ _) as [|b [|]]; [done| |done]. rewrite data_ready_spec. destruct H1 as (c' & Hc & Hf').
  intros [= <-]. exists c'. split; [done|]. eapply flows_quiet; [|exact Hf']. by case_match; split.
Qed.

(** Where the stream stands after a segment. *)
Definition good (c r : Z) sk : Prop := exists c' r', c <= c' /\ r <= r' /\ rcv_inv f lo hi c' r' sk /\ th_all no_fin (out_of_order_queue (tp sk)).
Lemma good_side c r sk sk' : rcv_side sk' = rcv_side sk -> good c r sk -> good c r sk'.
Proof using Type.
  intros E (c' & r' & H1 & H2 & H3 & H4). exists c', r'. unfold rcv_side in E. injection E as _ _ E3 E4 E5 E6. split_and!; [done..| |by rewrite E4]. eapply rcv_inv_ext; [|exact H3]. unfold rcv_part. congruence.
Qed.
Lemma flows_good c c' r sk : c <= c' -> flows c' r sk -> good c r sk.
Proof using Type. intros Hc (H1 & H2 & _). exists c', r. split_and!; [done|lia|done..]. Qed.
Lemma good_le c c' r sk : c <= c' -> good c' r sk -> good c r sk.
Proof using Type. intros Hc (c1 & r1 & H1 & H2 & H). exists c1, r1. split_and!; [lia|done|apply H..]. Qed.

(** A segment with the stream's bytes from [p] to [e]. *)
Record carries skb (p e : Z) : Prop := {
  ca_seg : seg f lo hi (pull_header skb) p e;
  ca_plain : plain skb;
  ca_len : is_u32 (len skb);
  ca_off : 0 <= data_off skb /\ data_off skb + len skb <= Z.of_nat (length (bytes skb));
  ca_ack : is_u32 (ack_seq skb);
}.
Lemma carries_sacked skb n p e : carries skb p e -> carries (skb <| sacked := n |>) p e.
Proof using Type. intros []. split; try done. destruct ca_seg0. by split. Qed.
Lemma data_queue_good c r sk skb p e : flows c r sk -> carries skb p e -> exists sk', tcp_data_queue sk skb = Some sk' /\ good c r sk'.
Proof using SL FL ML DL WN Hwin.
  intros Hf [Hs Hp _ _ _]. destruct (decide (p < e)) as [Hpe|Hpe].
  - destruct (data_queue_outcome f lo hi Hwin c r sk skb p e) as (sk' & c' & r' & E & Hi & Hth & Hc & Hr & _); [apply Hf|apply Hf|done..|by eapply flows_window|]. exists sk'. split; [done|]. exists c', r'. by split_and!.
  - exists sk. split; [|eapply flows_good; [|done]; lia]. unfold tcp_data_queue. pose proof Hs as []. assert (p = e) as -> by lia. change (seq (pull_header skb)) with (seq skb) in seg_seq. change (end_seq (pull_header skb)) with (end_seq skb) in seg_end.
    rewrite seg_seq, seg_end, Z.eqb_refl. done.
Qed.
Lemma q_rtt_update t n b : tquiet t (tcp_rcv_rtt_update t n b).
Proof using Type. unfold tcp_rcv_rtt_update. cbn zeta. by case_if_as Hs. Qed.
#[local] Hint Resolve q_rtt_update : frame.
Lemma q_measure_ts sk skb : quiet sk (tcp_rcv_rtt_measure_ts sk skb).
Proof using Type. cbv delta [tcp_rcv_rtt_measure_ts]. frame_go. Qed.
Lemma q_store sk : quiet sk (hp_store_ts sk).
Proof using Type. unfold hp_store_ts. case_if_as Hs; by split. Qed.

(** From step 5 on: the stream, and that no BUG is reached without SACK blocks. *)
Lemma step5_good c r sk skb p e ret sk' : flows c r sk -> carries skb p e -> established_step5 sk skb = Some (ret, sk') -> good c r sk'.
Proof using SL RL CL CS HI HL FL ML DL WL WN QL Hwin.
  intros Hf Hs. unfold established_step5. assert (Ha : quiet sk (if th_ack (skb_th skb) then tcp_ack sk skb FLAG_SLOWPATH else Some (1, sk))) by (case_if_as Ht; [apply q_tcp_ack|by split]).
  destruct (if th_ack _ then _ else _) as [[a sk1]|]; [|done]. pose proof (flows_quiet c r sk sk1 Ha Hf) as Hf1. case_if_as Hneg; [intros [= <- <-]; eapply flows_good; [|done]; lia|].
  cbn zeta. pose proof (flows_quiet _ _ _ _ (q_measure_ts sk1 skb) Hf1) as Hf2. set (sk2 := tcp_rcv_rtt_measure_ts sk1 skb) in *. clearbody sk2. destruct (tcp_urg sk2 skb) as [sk3|] eqn:Eu; [|done]. apply (flows_urg c r) in Eu as (c' & Hc & Hf3); [|done].
  destruct (data_queue_good c' r sk3 skb p e Hf3 Hs) as (sk4 & -> & Hg). intros [= <- <-]. eapply good_le; [exact Hc|]. eapply good_side; [|exact Hg].
  destruct (steady_quiet _ _ (along_step still _ _ _ (q_snd_check sk4) (q_ack_snd_check _))) as [E _]. exact E.
Qed.
Lemma urg_total sk skb p e : carries skb p e -> is_Some (tcp_urg sk skb).
Proof using Type.
  intros [_ _ Hl Ho _]. unfold tcp_urg. cbn zeta. set (sk1 := if th_urg _ then _ else sk). clearbody sk1. case_if_as H1; [|by eexists]. set (ptr := u32 _). assert (Hp : 0 <= ptr) by (apply u32_range). clearbody ptr. case_if_as H2; [|by eexists]. apply Z.ltb_lt in H2.
  unfold skb_copy_bits. assert (Hd : (Z.to_nat (data_off skb + ptr) < length (bytes skb))%nat) by lia. destruct (lookup_lt_is_Some_2 _ _ Hd) as [x Hx]. rewrite (drop_S _ x _ Hx). cbn. by eexists.
Qed.
Lemma step5_total c r sk skb p e : flows c r sk -> alive sk -> carries skb p e -> sacked skb = 0 -> is_Some (established_step5 sk skb).
Proof using TL PL SL SM RL CL CS HI HL SH FI FL ML DL WL WN FR XL TR QL Hwin.
  intros Hf Ha Hs Hn. unfold established_step5. assert (Hq : quiet sk (if th_ack (skb_th skb) then tcp_ack sk skb FLAG_SLOWPATH else Some (1, sk))) by (case_if_as Ht; [apply q_tcp_ack|by split]).
  assert (Ht : is_Some (if th_ack (skb_th skb) then tcp_ack sk skb FLAG_SLOWPATH else Some (1, sk))) by (case_if_as Ht; [apply (proj2 (tcp_ack_step sk skb FLAG_SLOWPATH (proj1 (proj2 Ha)) (proj2 (proj2 Ha)) eq_refl)); [apply Hs|done]|by eexists]).
  destruct Ht as [[a sk1] Et]. rewrite Et in *. pose proof (flows_quiet c r sk sk1 Hq Hf) as Hf1. case_if_as Hneg; [by eexists|]. cbn zeta. pose proof (flows_quiet _ _ _ _ (q_measure_ts sk1 skb) Hf1) as Hf2. set (sk2 := tcp_rcv_rtt_measure_ts sk1 skb) in *. clearbody sk2.
  destruct (urg_total sk2 skb p e Hs) as [sk3 Eu]. rewrite Eu. apply (flows_urg c r) in Eu as (c' & Hc & Hf3); [|done]. destruct (data_queue_good c' r sk3 skb p e Hf3 Hs) as (sk4 & -> & _). by eexists.
Qed.

(** *** The slow path *)
Lemma validate_process sk skb : let '(res, sk', skb') := tcp_validate_incoming sk skb in res = 1 -> quiet sk sk'.
Proof using QL.
  unfold tcp_validate_incoming. destruct (tcp_fast_parse_options _ _ _) as [has_opt st]. cbn zeta. case_if_as H1; [done|]. case_if_as H2; [done|]. case_if_as H3; [done|]. case_if_as H4; [done|]. intros _.
  assert (Hq : quiet sk (sk <| tp; rx_opt := ps_opt st |>)) by (by split). refine (along_step rcv_kept _ _ _ Hq _). apply (sr_tp (R := rcv_kept)). apply q_replace_ts.
Qed.
Lemma slow_good c r sk skb ln p e ret sk' : flows c r sk -> carries skb p e -> established_slow sk skb ln = Some (ret, sk') -> sk_state sk' = TCP_CLOSE \/ good c r sk'.
Proof using SL RL CL CS HI HL FL ML DL WL WN ST QL Hwin.
  intros Hf Hs. unfold established_slow. case_if_as Hd; [intros [= <- <-]; right; eapply flows_good; [|done]; lia|]. pose proof (validate_cases sk skb) as Hv. pose proof (validate_process sk skb) as Hp. destruct (tcp_validate_incoming sk skb) as [[res sk1] skb1]. destruct Hv as [Hv Eb].
  assert (Hg : good c r sk) by (eapply flows_good; [|done]; lia). destruct Hv as [sk1 E|sk1 E|sk1 E|sk1 E]; cbn [Z.leb Z.compare]; [|intros [= <- <-]; by first [by left|right; eapply good_side]..].
  intros E5. right. apply (step5_good c r _ _ p e) in E5; [done|by eapply flows_quiet; [apply Hp|]|]. rewrite Eb. by apply carries_sacked.
Qed.
Lemma slow_total c r sk skb ln p e : flows c r sk -> alive sk -> carries skb p e -> ps_sacked (tcp_fast_parse_options skb (rx_opt (tp sk)) None).2 = 0 -> is_Some (established_slow sk skb ln).
Proof using TL PL SL SM RL CL CS HI HL SH FI FL ML DL WL WN ST FR XL TR QL AL Hwin.
  intros Hf Ha Hs Hn. unfold established_slow. case_if_as Hd; [by eexists|]. pose proof (validate_process sk skb) as Hp. pose proof (validate_alive sk skb Ha) as Hv. pose proof (validate_cases sk skb) as Hc.
  assert (Es : (tcp_validate_incoming sk skb).2 = skb <| sacked := ps_sacked (tcp_fast_parse_options skb (rx_opt (tp sk)) None).2 |>).
  { unfold tcp_validate_incoming. destruct (tcp_fast_parse_options _ _ _) as [ho st]. cbn zeta. case_if_as H1; [done|]. case_if_as H2; [done|]. case_if_as H3; [done|]. by case_if_as H4. }
  destruct (tcp_validate_incoming sk skb) as [[res sk1] skb1]. cbn [snd] in Es. destruct Hc as [Hc _]. destruct (Z.leb_spec res 0) as [Hr|Hr]; [by eexists|]. destruct Hv as [Hv|[Hv _]]; [|lia].
  assert (res = 1) as -> by (destruct Hc; lia). apply (step5_total c r _ _ p e); [by eapply flows_quiet; [apply Hp|]|done|rewrite Es; by apply carries_sacked|by rewrite Es].
Qed.
(** *** The fast path

    The prediction flags are off, or predict data while nothing waits out of order. *)
Definition pred_ok sk : Prop := pred_flags (tp sk) = 0 \/ (exists wnd, predicted (tp sk) wnd) /\ out_of_order_queue (tp sk) = [].
Lemma predicted_order c r sk skb p e : flows c r sk -> carries skb p e -> pred_ok sk -> th_fields (skb_th skb) -> 5 <= th_doff (skb_th skb) -> hp_match sk skb = true ->
  p = r /\ th_doff (skb_th skb) * 4 = tcp_header_len (tp sk) /\ out_of_order_queue (tp sk) = [].
Proof using Hwin.
  intros (Hi & _) [Hs _ _ _ _] [H0|[[wnd Hp] Hq]] Hf Hd Hm.
  - unfold hp_match in Hm. rewrite hp_word, H0, !andb_true_iff in Hm by done. destruct Hm as [[E _] _]. apply Z.eqb_eq in E. destruct Hf as (_ & _ & Hw). unfold is_u16 in Hw.
    assert (Hb : forall b, 0 <= b2z b <= 1) by (by intros []). assert (0 <= high_flags (skb_th skb)) by (unfold high_flags; repeat match goal with |- context [b2z ?b] => pose proof (Hb b); generalize dependent (b2z b); intros end; lia).
    assert (0 <= low_flags (skb_th skb)) by (unfold low_flags; repeat match goal with |- context [b2z ?b] => pose proof (Hb b); generalize dependent (b2z b); intros end; lia). lia.
  - destruct (proj1 (hp_fields sk skb wnd Hf Hp) Hm) as (E1 & _ & _ & _ & _ & _ & _ & _ & _ & E2 & _). split_and!; [|done..]. destruct Hi as [_ E3 E4 _ _]. pose proof Hs as []. change (seq (pull_header skb)) with (seq skb) in seg_seq. rewrite E2, E3 in seg_seq. clear - seg_seq Hwin E4 seg_lo seg_le seg_hi. warith.
Qed.
Lemma pulled_len skb p e : carries skb p e -> th_doff (skb_th skb) * 4 <= len skb -> 0 <= th_doff (skb_th skb) -> len skb - th_doff (skb_th skb) * 4 = e - p.
Proof using Type.
  intros [Hs [Hp1 Hp2] Hl _ _] Hd H0. pose proof (seg_len _ _ _ _ _ _ Hs) as [_ E]. change (skb_th (pull_header skb)) with (skb_th skb) in E. rewrite Hp1, Hp2 in E. change (len (pull_header skb)) with (u32 (len skb - th_doff (skb_th skb) * 4)) in E. rewrite u32_small in E by (unfold is_u32 in *; lia). cbn in E. lia.
Qed.
(** The reader gets the data: both ends of the stream move to its end. *)
Lemma to_user_good c r sk skb ln e sk' : flows c r sk -> carries skb r e -> out_of_order_queue (tp sk) = [] -> th_doff (skb_th skb) * 4 = tcp_header_len (tp sk) -> tcp_header_len (tp sk) <= len skb -> 0 <= th_doff (skb_th skb) ->
  hp_to_user sk skb ln = (true, sk') -> good c r sk'.
Proof using Hwin.
  intros (Hi & Hth & _) Hs Hq Hh Hl H0. pose proof (pulled_len skb r e Hs) as El. rewrite Hh in El. specialize (El Hl H0). destruct Hs as [Hs _ _ _ _]. pose proof Hs as []. change (end_seq (pull_header skb)) with (end_seq skb) in seg_end. destruct Hi as [E1 E2 E3 E4 E5].
  unfold hp_to_user. cbn zeta. case_if_as Hc; [|done]. apply andb_true_iff in Hc as [Hc _]. apply Z.eqb_eq in Hc. assert (c = r) as -> by (rewrite E1, E2 in Hc; clear - Hc Hwin E3; warith).
  case_if_as Ho; [|done]. unfold tcp_copy_to_iovec. cbn zeta. case_if_as Hok; [|done]. rewrite El, s32_small by lia. set (sk1 := sk <| tp; ucopy_len := _ |> <| tp; copied_seq := _ |>). pose proof (rcv_space_adjust_part sk1) as Ep. set (sk2 := tcp_rcv_space_adjust sk1) in *. clearbody sk2.
  destruct (along_step rcv_kept _ _ _ (q_store sk2) (q_measure_ts _ skb)) as [Es _]. set (sk3 := tcp_rcv_rtt_measure_ts _ _) in *. clearbody sk3. intros [= <-].
  unfold rcv_part in Ep. injection Ep as F1 F2 F3 F4. unfold rcv_side in Es. injection Es as _ _ G1 G2 G3 G4. subst sk1. cbn in F1, F2, F3. exists e, e. split_and!; [lia..| |cbn; rewrite G2, F2, Hq; constructor].
  split; cbn; rewrite ?G1, ?G2, ?G3, ?F1, ?F2, ?F3, ?Hq; try done; [rewrite E1, u32_add_l; f_equal; lia|lia|]. replace e with (Z.max e r) at 2 by lia. eapply stream_advance; [|exact E4]. lia.
Qed.
Lemma to_user_refused sk skb ln sk' : hp_to_user sk skb ln = (false, sk') -> sk' = sk.
Proof using Type.
  unfold hp_to_user. cbn zeta. case_if_as Hc; [|by intros [= <-]]. case_if_as Ho; [|by intros [= <-]]. unfold tcp_copy_to_iovec. cbn zeta. case_if_as Hk; [done|by intros [= <-]].
Qed.
Lemma appended_good c r sk skb e sk' : flows c r sk -> carries skb r e -> out_of_order_queue (tp sk) = [] -> rcv_side sk' = appended sk skb -> good c r sk'.
Proof using Type.
  intros (Hi & Hth & _) [Hs _ _ _ _] Hq E. pose proof Hs as []. destruct Hi as [E1 E2 E3 E4 E5]. unfold rcv_side, appended in E. injection E as _ _ F1 F2 F3 F4. exists c, e. split_and!; [lia..| |rewrite F2; constructor].
  split; rewrite ?F1, ?F2, ?F3, ?F4; try done; [lia|]. eapply stream_app; [exact E4|]. exists r, e. split_and!; [done|lia|]. cbn. lia.
Qed.
Lemma hp_data_good c r sk skb ln e ret sk' : flows c r sk -> carries skb r e -> out_of_order_queue (tp sk) = [] -> th_doff (skb_th skb) * 4 = tcp_header_len (tp sk) -> tcp_header_len (tp sk) <= len skb -> 0 <= th_doff (skb_th skb) ->
  hp_data sk skb ln = Some (ret, sk') -> good c r sk'.
Proof using SL RL CL CS HI HL FL ML DL WL WN QL Hwin.
  intros Hf Hs Hq Hh Hl H0. pose proof (fast_appends sk skb ln ret sk') as Ha. unfold hp_data in *. destruct (hp_to_user sk skb ln) as [eaten sk1] eqn:Eu. destruct eaten.
  - apply (to_user_good c r sk skb ln e) in Eu; [|done..]. pose proof (side_acked sk1 skb true) as Hk. intros E. rewrite E in Hk. exact (good_side c r sk1 sk' Hk Eu).
  - apply to_user_refused in Eu as ->. case_if_as Hc; [intros [= <- <-]; eapply flows_good; [|done]; lia|]. cbn zeta in *. set (sk2 := tcp_rcv_rtt_measure_ts _ _) in *. assert (Hf2 : flows c r sk2) by (eapply flows_quiet; [exact (along_step rcv_kept _ _ _ (q_store sk) (q_measure_ts _ skb))|done]).
    assert (Em : sk_forward_alloc sk2 = sk_forward_alloc sk) by (unfold sk2, tcp_rcv_rtt_measure_ts, tcp_rcv_rtt_update, hp_store_ts; cbn zeta; by repeat match goal with |- context [if ?c then _ else _] => destruct c end).
    clearbody sk2. destruct (s32 (truesize skb) >? sk_forward_alloc sk2) eqn:Hm; [by apply step5_good with r e|]. intros E. apply (appended_good c r sk skb e); [done..|]. rewrite ?Hc, ?Hm in Ha. apply Ha; [done|done|lia|done..].
Qed.
Lemma hp_ack_good c r sk skb ret sk' : flows c r sk -> hp_ack sk skb = Some (ret, sk') -> good c r sk'.
Proof using RL CL CS HI HL DL WL QL.
  intros Hf. unfold hp_ack. cbn zeta. pose proof (q_tcp_ack (hp_store_ts sk) skb 0) as Hq. destruct (tcp_ack _ _ _) as [[a sk1]|]; [|done]. intros [= <- <-]. eapply (flows_good c c); [lia|]. eapply flows_quiet; [|exact Hf].
  exact (along_step rcv_kept _ _ _ (q_store sk) (along_step rcv_kept (hp_store_ts sk) sk1 _ Hq (steady_quiet _ _ (q_snd_check sk1)))).
Qed.
Lemma timestamp_same sk skb : let '(_, sk') := hp_timestamp sk skb in exists o, sk' = sk <| tp; rx_opt := o |>.
Proof using Type.
  unfold hp_timestamp. assert (E : exists o, sk = sk <| tp; rx_opt := o |>) by (exists (rx_opt (tp sk)); by destruct sk as [??????????????????? []]). case_if_as Hs; [|done]. destruct (tcp_parse_aligned_timestamp _ _) as [ok o]. cbn zeta. case_if_as Ho; [by eexists|]. case_if_as Ht; by eexists.
Qed.
Lemma established_good c r sk skb p e ret sk' : flows c r sk -> carries skb p e -> pred_ok sk -> th_fields (skb_th skb) -> 5 <= th_doff (skb_th skb) ->
  tcp_rcv_established sk skb (len skb) = Some (ret, sk') -> sk_state sk' = TCP_CLOSE \/ good c r sk'.
Proof using SL RL CL CS HI HL FL ML DL WL WN ST QL Hwin.
  intros Hf Hs Hp Ht Hd. unfold tcp_rcv_established. cbn zeta. set (sk0 := sk <| tp; rx_opt; saw_tstamp := false |>). assert (Hf0 : flows c r sk0) by (eapply flows_quiet; [|exact Hf]; by split). assert (Hp0 : pred_ok sk0) by exact Hp. clearbody sk0.
  case_if_as Hm; [|by apply slow_good with p e]. destruct (predicted_order c r sk0 skb p e Hf0 Hs Hp0 Ht Hd Hm) as (-> & Hh & Hq). pose proof (timestamp_same sk0 skb) as Hk. destruct (hp_timestamp sk0 skb) as [ok sk1]. destruct Hk as [o ->]. set (sk1 := sk0 <| tp; rx_opt := o |>).
  assert (Hf1 : flows c r sk1) by (eapply flows_quiet; [|exact Hf0]; by split). assert (Hh1 : th_doff (skb_th skb) * 4 = tcp_header_len (tp sk1)) by exact Hh. assert (Hq1 : out_of_order_queue (tp sk1) = []) by exact Hq. clearbody sk1.
  case_if_as Ho; [by apply slow_good with r e|]. case_if_as Hl; [case_if_as He; [intros E; right; by eapply hp_ack_good|intros [= <- <-]; right; eapply flows_good; [|done]; lia]|]. intros E. right. eapply hp_data_good; [..|exact E]; try done; lia.
Qed.
(** Without SACK blocks no BUG is reached. *)
Lemma ack_total sk skb flag : calm flag -> alive sk -> is_u32 (ack_seq skb) -> sacked skb = 0 -> is_Some (tcp_ack sk skb flag).
Proof using TL PL SL SM RL CL CS HI HL SH FI DL WL FR XL TR. intros Hf (_ & H1 & H2). by apply tcp_ack_step. Qed.
Lemma acked_total sk skb eaten : alive sk -> is_u32 (ack_seq skb) -> sacked skb = 0 -> is_Some (hp_acked sk skb eaten).
Proof using TL PL SL SM RL CL CS HI HL SH FI ML DL WL FR XL TR.
  intros Ha Hu Hn. unfold hp_acked. cbn zeta. pose proof (k_event sk (skb_pull skb (tcp_header_len (tp sk))) Ha) as Ha1. set (sk1 := tcp_event_data_recv _ _) in *. clearbody sk1.
  case_if_as Hc; [|by eexists]. destruct (ack_total sk1 skb FLAG_DATA eq_refl Ha1 Hu Hn) as [[a sk2] ->]. by eexists.
Qed.
Lemma hp_data_total c r sk skb ln p e : flows c r sk -> alive sk -> carries skb p e -> sacked skb = 0 -> is_Some (hp_data sk skb ln).
Proof using TL PL SL SM RL CL CS HI HL SH FI FL ML DL WL WN FR XL TR QL Hwin.
  intros Hf Ha Hs Hn. unfold hp_data. pose proof (k_to_user sk skb ln) as Hk. destruct (hp_to_user sk skb ln) as [eaten sk1] eqn:Eu. specialize (Hk Ha). destruct eaten; [apply acked_total; [done|apply Hs|done]|].
  apply to_user_refused in Eu as ->. case_if_as Hc; [by eexists|]. cbn zeta. pose proof (flows_quiet c r _ _ (along_step rcv_kept _ _ _ (q_store sk) (q_measure_ts _ skb)) Hf) as Hf2. pose proof (along_step keeps _ _ _ (k_store sk) (k_measure_ts _ skb) Ha) as Ha2. set (sk2 := tcp_rcv_rtt_measure_ts _ _) in *. clearbody sk2.
  case_if_as Hm; [by eapply step5_total|]. apply acked_total; [|apply Hs|done]. set (sk3 := sk2 <| sk_receive_queue := _ |>). assert (Ha3 : alive sk3) by exact (k_same sk2 sk3 eq_refl eq_refl Ha2). pose proof (k_owner skb sk3 Ha3) as Ha4. set (sk4 := skb_set_owner_r skb sk3) in *. clearbody sk4.
  by refine (k_same sk4 _ _ _ Ha4).
Qed.
Lemma hp_ack_total sk skb : alive sk -> is_u32 (ack_seq skb) -> sacked skb = 0 -> is_Some (hp_ack sk skb).
Proof using TL PL SL SM RL CL CS HI HL SH FI DL WL FR XL TR.
  intros Ha Hu Hn. unfold hp_ack. cbn zeta. destruct (ack_total (hp_store_ts sk) skb 0 eq_refl) as [[a sk1] ->]; [by apply k_store|done..|]. by eexists.
Qed.
(** The segment carries no SACK blocks, whatever the options were before. *)
Definition no_sack skb : Prop := sacked skb = 0 /\ forall o, ps_sacked (tcp_fast_parse_options skb o None).2 = 0.
Lemma established_total c r sk skb ln p e : flows c r sk -> alive sk -> carries skb p e -> no_sack skb -> is_Some (tcp_rcv_established sk skb ln).
Proof using TL PL SL SM RL CL CS HI HL SH FI FL ML DL WL WN ST FR XL TR QL AL Hwin.
  intros Hf Ha Hs [Hn1 Hn2]. unfold tcp_rcv_established. cbn zeta. set (sk0 := sk <| tp; rx_opt; saw_tstamp := false |>). assert (Hf0 : flows c r sk0) by (eapply flows_quiet; [|exact Hf]; by split). assert (Ha0 : alive sk0) by exact (k_same sk sk0 eq_refl eq_refl Ha). clearbody sk0.
  case_if_as Hm; [|by apply slow_total with c r p e]. pose proof (timestamp_same sk0 skb) as Hk. pose proof (k_timestamp sk0 skb) as Ht. destruct (hp_timestamp sk0 skb) as [ok sk1]. specialize (Ht Ha0). destruct Hk as [o E].
  assert (Hf1 : flows c r sk1) by (eapply flows_quiet; [|exact Hf0]; rewrite E; by split). clear E. case_if_as Ho; [by apply slow_total with c r p e|]. case_if_as Hl; [case_if_as He; [apply hp_ack_total; [done|apply Hs|done]|by eexists]|by apply hp_data_total with c r p e].
Qed.

(** C4. A segment without SYN and FIN on an established connection with SACK, which has no FIN in its
    out-of-order queue and neither SYN nor FIN in its write queue, with the stream's bytes from
    [p] to [e] and any flags, options and ACK otherwise, through header prediction or the slow
    path, urgent data, ACK processing, fast retransmit and the out-of-order queue: the socket is
    closed, by a segment with RST, or both halves of the connection are in order afterwards: the receive
    queue carries the peer's stream without a gap from copied_seq to rcv_nxt, neither of which
    moves back, and the packet counters agree with the write queue.  Without SACK blocks the
    segment reaches no BUG. *)
Theorem rcv_established_ok c r sk skb p e : rcv_inv f lo hi c r sk -> th_all no_fin (out_of_order_queue (tp sk)) -> rcv_room (tp sk) <= 2 ^ 30 -> pred_ok sk -> alive sk ->
  carries skb p e -> th_fields (skb_th skb) -> 5 <= th_doff (skb_th skb) ->
  (forall ret sk', tcp_rcv_established sk skb (len skb) = Some (ret, sk') ->
     sk_state sk' = TCP_CLOSE /\ th_rst (skb_th skb) = true \/
     (sending (sk_state sk') = true /\ score sk' /\ sacking sk' /\
      exists c' r', c <= c' /\ r <= r' /\ rcv_inv f lo hi c' r' sk' /\ th_all no_fin (out_of_order_queue (tp sk')))) /\
  (no_sack skb -> is_Some (tcp_rcv_established sk skb (len skb))).
Proof using TL PL SL SM RL CL CS HI HL SH FI FL ML DL WL WN ST FR XL TR QL AL PU Hwin.
  intros Hi Hth Hr Hp Ha Hs Ht Hd. assert (Hf : flows c r sk) by done. split; [|by eapply established_total].
  intros ret sk' E. pose proof (established_fine sk skb (len skb) Ha) as H1. rewrite E in H1. destruct H1 as [[H1 [H2|H2]]|(H1 & H2 & H3)]; [by left|pose proof (ca_plain _ _ _ Hs) as Hl; unfold plain in Hl; intuition congruence|]. apply (established_good c r _ _ p e) in E as [E|E]; [rewrite E in H1; done|right; split_and!; done|done..].
Qed.
End Established.

Module Demo.
#[local] Existing Instance linux.
#[local] Existing Instance Rtt.Demo.dst_ops.
#[local] Existing Instance DataQueue.Demo.tw.
#[local] Existing Instance Scoreboard.Demo.linux_frag.
#[local] Existing Instance Cong.Demo.linux_xmit.
#[local] Existing Instance Ack.Demo.linux_trimming.
#[local] Existing Instance Input.Demo.linux_quiet.
#[local] Existing Instance Input.Demo.linux_ack_send.
#[export] Instance linux_pushes : PushLaws.
Proof. split; intros; [by apply Concrete.push_ok|cbn; unfold linux_push; by repeat case_match|done]. Qed.
Notation sk_rcv := DataQueue.Demo.sk_rcv.
Notation sk_sack := Recovery.Demo.sk_sack.
Notation b1 := DataQueue.Demo.b1.

(** The receiver's half of [DataQueue.Demo] with the sender's half of [Recovery.Demo]. *)
Definition sk_conn : sock :=
  sk_sack <| sk_receive_queue := sk_receive_queue sk_rcv |> <| tp; out_of_order_queue := out_of_order_queue (tp sk_rcv) |>
          <| tp; copied_seq := copied_seq (tp sk_rcv) |> <| tp; rcv_nxt := rcv_nxt (tp sk_rcv) |>
          <| tp; rcv_wnd := 10000 |> <| tp; rcv_wup := u32 b1 |> <| sk_rcvbuf := 100000 |>.
(** The segment that fills the gap acknowledges the first buffer. *)
Definition text3 : sk_buff := (DataQueue.Demo.arriving (b1 + 130) 100) <| skb_th; th_ack := true |> <| ack_seq := u32 (Scoreboard.Demo.base + 100) |>.
Example conn_result : (fun r => (rcv_nxt (tp (snd r)), snd_una (tp (snd r)), packets_out (tp (snd r)))) <$> tcp_rcv_established sk_conn text3 (len text3)
  = Some (u32 (b1 + 290), u32 (Scoreboard.Demo.base + 100), 4).
Proof. vm_compute. reflexivity. Qed.
(** With data that waits in the queue, it is sent. *)
Definition sk_more : sock := sk_conn <| sk_write_queue := sk_write_queue sk_conn ++ [Scoreboard.Demo.sent_skb 5 (u32 (Scoreboard.Demo.base + 500)) 1 100 0] |> <| sk_send_head := Some 5%nat |>.
Example conn_sends : (fun r => (skb_id <$> sk_write_queue (snd r), sk_send_head (snd r), packets_out (tp (snd r)))) <$> tcp_rcv_established sk_more text3 (len text3) = Some ([2; 3; 4; 5]%nat, None, 5).
Proof. vm_compute. reflexivity. Qed.
Lemma sk_conn_inv : rcv_inv DataQueue.Demo.f1 b1 (b1 + 1000) b1 (b1 + 140) sk_conn.
Proof. exact (rcv_inv_ext _ _ _ _ _ sk_rcv sk_conn eq_refl DataQueue.Demo.sk_rcv_inv). Qed.
Lemma sk_conn_alive : alive sk_conn.
Proof. split; [reflexivity|split; [exact (score_ext sk_sack sk_conn eq_refl Recovery.Demo.sk_sack_score)|reflexivity]]. Qed.
Lemma text3_carries : carries DataQueue.Demo.f1 b1 (b1 + 1000) text3 (b1 + 130) (b1 + 230).
Proof.
  split; [destruct (Collapse.Demo.piece_seg b1 9 (b1 + 130) 100); try done; by split|done|split; vm_compute; done|split; vm_compute; done|split; vm_compute; done].
Qed.
Lemma rcv_established_ok_witness : exists sk', tcp_rcv_established sk_conn text3 (len text3) = Some (0, sk') /\ score sk' /\
  exists c' r', b1 + 140 <= r' /\ rcv_inv DataQueue.Demo.f1 b1 (b1 + 1000) c' r' sk'.
Proof.
  destruct (rcv_established_ok DataQueue.Demo.f1 b1 (b1 + 1000) ltac:(lia) b1 (b1 + 140) sk_conn text3 (b1 + 130) (b1 + 230)) as [H1 H2];
    [exact sk_conn_inv|repeat constructor|vm_compute; discriminate|left; reflexivity|exact sk_conn_alive|exact text3_carries|split_and!; vm_compute; try reflexivity; split_and?; try discriminate; reflexivity|vm_compute; discriminate|].
  destruct H2 as [[ret sk'] E]; [split; [reflexivity|intros o; reflexivity]|].
  assert (Er : option_map (fun r => (fst r, sk_state (snd r))) (tcp_rcv_established sk_conn text3 (len text3)) = Some (0, TCP_ESTABLISHED)) by (vm_compute; reflexivity).
  rewrite E in Er. cbn [option_map fst snd] in Er. injection Er as -> Es. destruct (H1 0 sk' E) as [[H3 _]|(_ & H3 & _ & c' & r' & _ & H4 & H5 & _)]; [rewrite Es in H3; discriminate|].
  exists sk'. split; [exact E|split; [exact H3|]]. exists c', r'. split; [exact H4|exact H5].
Defined.
End Demo.
