(* ===== verification/Hashtables.v ===== *)
(** * Socket hash tables and local ports

    net/ipv4/inet_hashtables.c, include/net/inet_hashtables.h, inet_ehashfn of
    include/net/inet_sock.h, and the port allocation of net/ipv4/inet_connection_sock.c: the table
    of connections (one chain for full sockets and one for TIME-WAIT sockets in each bucket), the
    table of listening sockets, and the table of bound local ports.

    Sockets and bind buckets are shared between the tables, so the model keeps the pointers: [socks]
    and [tbs] are the heaps, chains are lists of identifiers (the head of a chain first).  The
    functions are taken as they run under the locks of the chains: reference counts, the restart of
    a lookup that met a moved socket, and statistics are left out.  The code for TIME-WAIT sockets
    (inet_timewait_sock.c) and the hash functions of other files are fields of the class [HashEnv]. *)

From stdpp Require Import gmap.
From S2P Require Import Prelude TcpTypes.

(** The members of struct sock, struct inet_sock and struct inet_connection_sock that identify a
    socket in the tables; a TIME-WAIT socket has the same ones.  [sk_linked] says that sk_node is on
    a chain.  Addresses and the ports inet_sport and inet_dport are in network order. *)
#[projections(primitive)]
Record inet_sock := mk_inet_sock {
  sk_net : Z;
  sk_family : Z;
  isk_state : tcp_state;
  sk_reuse : bool;
  sk_bound_dev_if : Z;
  sk_ipv6only : bool;
  inet_rcv_saddr : Z;
  inet_daddr : Z;
  inet_num : Z;
  inet_sport : Z;
  inet_dport : Z;
  sk_hash : Z;
  sk_linked : bool;
  icsk_bind_hash : option nat
}.
Definition eta_inet_sock (r : inet_sock) : inet_sock :=
  mk_inet_sock (sk_net r) (sk_family r) (isk_state r) (sk_reuse r) (sk_bound_dev_if r) (sk_ipv6only r) (inet_rcv_saddr r) (inet_daddr r) (inet_num r) (inet_sport r) (inet_dport r) (sk_hash r) (sk_linked r) (icsk_bind_hash r).
#[export] Instance set_sk_net : Setter sk_net. Proof. solve_setter eta_inet_sock. Defined.
#[export] Instance set_sk_family : Setter sk_family. Proof. solve_setter eta_inet_sock. Defined.
#[export] Instance set_isk_state : Setter isk_state. Proof. solve_setter eta_inet_sock. Defined.
#[export] Instance set_sk_reuse : Setter sk_reuse. Proof. solve_setter eta_inet_sock. Defined.
#[export] Instance set_sk_bound_dev_if : Setter sk_bound_dev_if. Proof. solve_setter eta_inet_sock. Defined.
#[export] Instance set_sk_ipv6only : Setter sk_ipv6only. Proof. solve_setter eta_inet_sock. Defined.
#[export] Instance set_inet_rcv_saddr : Setter inet_rcv_saddr. Proof. solve_setter eta_inet_sock. Defined.
#[export] Instance set_inet_daddr : Setter inet_daddr. Proof. solve_setter eta_inet_sock. Defined.
#[export] Instance set_inet_num : Setter inet_num. Proof. solve_setter eta_inet_sock. Defined.
#[export] Instance set_inet_sport : Setter inet_sport. Proof. solve_setter eta_inet_sock. Defined.
#[export] Instance set_inet_dport : Setter inet_dport. Proof. solve_setter eta_inet_sock. Defined.
#[export] Instance set_sk_hash : Setter sk_hash. Proof. solve_setter eta_inet_sock. Defined.
#[export] Instance set_sk_linked : Setter sk_linked. Proof. solve_setter eta_inet_sock. Defined.
#[export] Instance set_icsk_bind_hash : Setter icsk_bind_hash. Proof. solve_setter eta_inet_sock. Defined.

(** struct inet_bind_bucket: a local port and the sockets that are bound to it. *)
#[projections(primitive)]
Record inet_bind_bucket := mk_bind_bucket {
  ib_net : Z;
  port : Z;
  fastreuse : Z;
  num_owners : Z;
  owners : list nat
}.
Definition eta_inet_bind_bucket (r : inet_bind_bucket) : inet_bind_bucket :=
  mk_bind_bucket (ib_net r) (port r) (fastreuse r) (num_owners r) (owners r).
#[export] Instance set_ib_net : Setter ib_net. Proof. solve_setter eta_inet_bind_bucket. Defined.
#[export] Instance set_port : Setter port. Proof. solve_setter eta_inet_bind_bucket. Defined.
#[export] Instance set_fastreuse : Setter fastreuse. Proof. solve_setter eta_inet_bind_bucket. Defined.
#[export] Instance set_num_owners : Setter num_owners. Proof. solve_setter eta_inet_bind_bucket. Defined.
#[export] Instance set_owners : Setter owners. Proof. solve_setter eta_inet_bind_bucket. Defined.

(** struct inet_ehash_bucket *)
#[projections(primitive)]
Record inet_ehash_bucket := mk_ehash_bucket {
  chain : list nat;
  twchain : list nat
}.
Definition eta_inet_ehash_bucket (r : inet_ehash_bucket) : inet_ehash_bucket :=
  mk_ehash_bucket (chain r) (twchain r).
#[export] Instance set_chain : Setter chain. Proof. solve_setter eta_inet_ehash_bucket. Defined.
#[export] Instance set_twchain : Setter twchain. Proof. solve_setter eta_inet_ehash_bucket. Defined.

(** struct inet_hashinfo, with the sockets and the buckets its pointers lead to. *)
#[projections(primitive)]
Record inet_hashinfo := mk_hashinfo {
  socks : gmap nat inet_sock;
  tbs : gmap nat inet_bind_bucket;
  ehash : list inet_ehash_bucket;
  ehash_mask : Z;
  bhash : list (list nat);
  bhash_size : Z;
  listening_hash : list (list nat);
  bsockets : Z
}.
Definition eta_inet_hashinfo (r : inet_hashinfo) : inet_hashinfo :=
  mk_hashinfo (socks r) (tbs r) (ehash r) (ehash_mask r) (bhash r) (bhash_size r) (listening_hash r) (bsockets r).
#[export] Instance set_socks : Setter socks. Proof. solve_setter eta_inet_hashinfo. Defined.
#[export] Instance set_tbs : Setter tbs. Proof. solve_setter eta_inet_hashinfo. Defined.
#[export] Instance set_ehash : Setter ehash. Proof. solve_setter eta_inet_hashinfo. Defined.
#[export] Instance set_ehash_mask : Setter ehash_mask. Proof. solve_setter eta_inet_hashinfo. Defined.
#[export] Instance set_bhash : Setter bhash. Proof. solve_setter eta_inet_hashinfo. Defined.
#[export] Instance set_bhash_size : Setter bhash_size. Proof. solve_setter eta_inet_hashinfo. Defined.
#[export] Instance set_listening_hash : Setter listening_hash. Proof. solve_setter eta_inet_hashinfo. Defined.
#[export] Instance set_bsockets : Setter bsockets. Proof. solve_setter eta_inet_hashinfo. Defined.

Class HashEnv := {
  jhash_3words : Z -> Z -> Z -> Z -> Z;
  inet_ehash_secret : Z;
  net_hash_mix : Z -> Z;
  secure_ipv4_port_ephemeral : Z -> Z -> Z -> Z;
  inet_is_reserved_local_port : Z -> bool;
  local_ports_low : Z;
  local_ports_high : Z;
  net_random : nat -> Z; (* the value of each call *)
  bind_bucket_alloc : gmap nat inet_bind_bucket -> option nat; (* kmem_cache_alloc *)
  twsk_unique : nat -> nat -> bool -> bool; (* socket, TIME-WAIT socket, twp is not NULL *)
  inet_twsk_unhash : inet_hashinfo -> nat -> inet_hashinfo;
  inet_twsk_bind_unhash : inet_hashinfo -> nat -> inet_hashinfo;
  inet_twsk_deschedule : inet_hashinfo -> nat -> inet_hashinfo;
}.

Section Hashtables.
Context {E : HashEnv}.
Implicit Types (h : inet_hashinfo) (sk : inet_sock) (tb : inet_bind_bucket).

(** ** Hash functions *)
Definition htons (x : Z) : Z := Z.lor (Z.shiftl (Z.land x 255) 8) (Z.shiftr x 8).
Definition inet_ehashfn (net laddr lport faddr fport : Z) : Z :=
  jhash_3words laddr faddr (Z.lor (Z.shiftl lport 16) fport) (u32 (inet_ehash_secret + net_hash_mix net)).
Definition inet_sk_ehashfn sk : Z := inet_ehashfn (sk_net sk) (inet_rcv_saddr sk) (inet_num sk) (inet_daddr sk) (inet_dport sk).
Definition inet_ehash_slot h (hash : Z) : nat := Z.to_nat (Z.land hash (ehash_mask h)).
Definition inet_bhashfn (net lport size : Z) : nat := Z.to_nat (Z.land (lport + net_hash_mix net) (size - 1)).
Definition INET_LHTABLE_SIZE : Z := 32.
Definition inet_lhashfn (net num : Z) : nat := Z.to_nat (Z.land (num + net_hash_mix net) (INET_LHTABLE_SIZE - 1)).
Definition inet_sk_listen_hashfn sk : nat := inet_lhashfn (sk_net sk) (inet_num sk).
Definition inet_hashinfo_init h : inet_hashinfo := h <| bsockets := 0 |> <| listening_hash := replicate (Z.to_nat INET_LHTABLE_SIZE) [] |>.

(** ** Lists of sockets *)
Definition sk_unhashed sk : bool := negb (sk_linked sk).
Definition upd_sock h (i : nat) (g : inet_sock -> inet_sock) : inet_hashinfo := h <| socks := alter g i (socks h) |>.
Definition upd_tb h (b : nat) (g : inet_bind_bucket -> inet_bind_bucket) : inet_hashinfo := h <| tbs := alter g b (tbs h) |>.
Definition on_sock h (i : nat) (p : inet_sock -> bool) : bool := match socks h !! i with Some sk => p sk | None => false end.
Definition find_sock h (p : inet_sock -> bool) (l : list nat) : option nat := List.find (fun i => on_sock h i p) l.
Definition ehash_at h (hash : Z) : inet_ehash_bucket := default (mk_ehash_bucket [] []) (ehash h !! inet_ehash_slot h hash).
Definition bhash_at h (net lport : Z) : list nat := default [] (bhash h !! inet_bhashfn net lport (bhash_size h)).
(** __sk_nulls_add_node_rcu to a chain of the table of connections, or of listening sockets *)
Definition ehash_add h (i : nat) (hash : Z) : inet_hashinfo :=
  upd_sock (h <| ehash := alter (fun b => b <| chain := i :: chain b |>) (inet_ehash_slot h hash) (ehash h) |>) i (fun sk => sk <| sk_linked := true |>).
Definition listen_add h (i : nat) (slot : nat) : inet_hashinfo :=
  upd_sock (h <| listening_hash := alter (cons i) slot (listening_hash h) |>) i (fun sk => sk <| sk_linked := true |>).
Definition drop_id (i : nat) (l : list nat) : list nat := List.filter (fun j => negb (Nat.eqb j i)) l.
(** __sk_nulls_del_node_init_rcu: the node is taken off the chain it is on *)
Definition sk_nulls_del_node_init h (i : nat) : inet_hashinfo :=
  upd_sock (h <| ehash := (fun b => b <| chain := drop_id i (chain b) |>) <$> ehash h |> <| listening_hash := drop_id i <$> listening_hash h |>) i (fun sk => sk <| sk_linked := false |>).

(** ** Matching *)

(** On a little-endian 64-bit machine: the two ports, and the two addresses, are compared at once
    with the adjacent members of the socket. *)
Definition INET_COMBINED_PORTS (sport dport : Z) : Z := Z.lor (Z.shiftl dport 16) sport.
Definition INET_ADDR_COOKIE (saddr daddr : Z) : Z := Z.lor (Z.shiftl daddr 32) saddr.
Definition sk_addrpair sk : Z := Z.lor (Z.shiftl (inet_rcv_saddr sk) 32) (inet_daddr sk).
Definition sk_portpair sk : Z := Z.lor (Z.shiftl (inet_num sk) 16) (inet_dport sk).
Definition INET_MATCH sk (net hash cookie ports dif : Z) : bool :=
  (sk_hash sk =? hash) && (sk_net sk =? net) && (sk_addrpair sk =? cookie) && (sk_portpair sk =? ports)
  && ((sk_bound_dev_if sk =? 0) || (sk_bound_dev_if sk =? dif)).
(** The variant for 32-bit machines compares member by member. *)
Definition INET_MATCH32 sk (net hash saddr daddr ports dif : Z) : bool :=
  (sk_hash sk =? hash) && (sk_net sk =? net) && (inet_daddr sk =? saddr) && (inet_rcv_saddr sk =? daddr) && (sk_portpair sk =? ports)
  && ((sk_bound_dev_if sk =? 0) || (sk_bound_dev_if sk =? dif)).

(** ** Lookup *)
Definition PF_INET : Z := 2.
Definition compute_score sk (net hnum daddr dif : Z) : Z :=
  if (sk_net sk =? net) && (inet_num sk =? hnum) && negb (sk_ipv6only sk) then
    let score := if sk_family sk =? PF_INET then 1 else 0 in
    if negb (inet_rcv_saddr sk =? 0) && negb (inet_rcv_saddr sk =? daddr) then -1 else
    let score := if negb (inet_rcv_saddr sk =? 0) then score + 2 else score in
    if negb (sk_bound_dev_if sk =? 0) && negb (sk_bound_dev_if sk =? dif) then -1 else
    if negb (sk_bound_dev_if sk =? 0) then score + 2 else score
  else -1.
Definition score_of h (net hnum daddr dif : Z) (i : nat) : Z := match socks h !! i with Some sk => compute_score sk net hnum daddr dif | None => -1 end.
(** The walk over a chain of listening sockets: the result and its score. *)
Definition listener_step h (net hnum daddr dif : Z) (best : option nat * Z) (i : nat) : option nat * Z :=
  let score := score_of h net hnum daddr dif i in if score >? snd best then (Some i, score) else best.
Definition inet_lookup_listener_ h (net daddr hnum dif : Z) : option nat :=
  fst (fold_left (listener_step h net hnum daddr dif) (default [] (listening_hash h !! inet_lhashfn net hnum)) (None, -1)).
Definition inet_lookup_established_ h (net saddr sport daddr hnum dif : Z) : option nat :=
  let acookie := INET_ADDR_COOKIE saddr daddr in
  let ports := INET_COMBINED_PORTS sport hnum in
  let hash := inet_ehashfn net daddr hnum saddr sport in
  let head := ehash_at h hash in
  match find_sock h (fun sk => INET_MATCH sk net hash acookie ports dif) (chain head) with
  | Some i => Some i
  | None => find_sock h (fun sk => INET_MATCH sk net hash acookie ports dif) (twchain head)
  end.
Definition inet_lookup_ h (net saddr sport daddr dport dif : Z) : option nat :=
  let hnum := htons dport in
  match inet_lookup_established_ h net saddr sport daddr hnum dif with
  | Some i => Some i
  | None => inet_lookup_listener_ h net daddr hnum dif
  end.

(** ** Bound ports *)
Definition inet_bind_bucket_create h (net snum : Z) : option (nat * inet_hashinfo) :=
  match bind_bucket_alloc (tbs h) with
  | Some b => Some (b, h <| tbs := <[b := mk_bind_bucket net snum 0 0 []]> (tbs h) |> <| bhash := alter (cons b) (inet_bhashfn net snum (bhash_size h)) (bhash h) |>)
  | None => None
  end.
Definition inet_bind_bucket_destroy h (b : nat) : inet_hashinfo :=
  match tbs h !! b with
  | Some tb => match owners tb with [] => h <| tbs := delete b (tbs h) |> <| bhash := drop_id b <$> bhash h |> | _ => h end
  | None => h
  end.
Definition inet_bind_hash h (i b : nat) (snum : Z) : inet_hashinfo :=
  let h := h <| bsockets := bsockets h + 1 |> in
  let h := upd_sock h i (fun sk => sk <| inet_num := snum |>) in
  let h := upd_tb h b (fun tb => tb <| owners := i :: owners tb |> <| num_owners := num_owners tb + 1 |>) in
  upd_sock h i (fun sk => sk <| icsk_bind_hash := Some b |>).
(** __inet_put_port *)
Definition inet_put_port h (i : nat) : inet_hashinfo :=
  match icsk_bind_hash <$> socks h !! i with
  | Some (Some b) =>
    let h := h <| bsockets := bsockets h - 1 |> in
    let h := upd_tb h b (fun tb => tb <| owners := drop_id i (owners tb) |> <| num_owners := num_owners tb - 1 |>) in
    let h := upd_sock h i (fun sk => sk <| icsk_bind_hash := None |> <| inet_num := 0 |>) in
    inet_bind_bucket_destroy h b
  | _ => h (* NULL *)
  end.
(** inet_bind_bucket_for_each with the test that all its users make *)
Definition find_tb h (net snum : Z) : option nat :=
  List.find (fun b => match tbs h !! b with Some tb => (ib_net tb =? net) && (port tb =? snum) | None => false end) (bhash_at h net snum).
Definition inet_inherit_port h (i child : nat) : option inet_hashinfo :=
  match socks h !! i, socks h !! child with
  | Some sk, Some ch =>
    let snum := inet_num ch in
    match icsk_bind_hash sk with
    | Some b =>
      let found := match tbs h !! b with
                   | Some tb => if negb (port tb =? snum) then
                                  match find_tb h (sk_net sk) snum with Some b => Some (b, h) | None => inet_bind_bucket_create h (sk_net sk) snum end
                                else Some (b, h)
                   | None => None
                   end in
      (fun r => inet_bind_hash (snd r) child (fst r) snum) <$> found
    | None => None
    end
  | _, _ => None
  end.

(** ** bind() *)

(** The sockets [sk] and [sk2] cannot share a port. *)
Definition bind_clash sk sk2 : bool :=
  negb (sk_ipv6only sk2)
  && ((sk_bound_dev_if sk =? 0) || (sk_bound_dev_if sk2 =? 0) || (sk_bound_dev_if sk =? sk_bound_dev_if sk2))
  && (negb (sk_reuse sk) || negb (sk_reuse sk2) || st_eqb (isk_state sk2) TCP_LISTEN)
  && ((inet_rcv_saddr sk2 =? 0) || (inet_rcv_saddr sk =? 0) || (inet_rcv_saddr sk2 =? inet_rcv_saddr sk)).
Definition inet_csk_bind_conflict h (i : nat) sk tb : bool :=
  match find_sock h (bind_clash sk) (drop_id i (owners tb)) with Some _ => true | None => false end.
Definition inet_get_local_port_range : Z * Z := (local_ports_low, local_ports_high).
(** SO_REUSEADDR counts, and the socket is not listening. *)
Definition may_share sk : bool := sk_reuse sk && negb (st_eqb (isk_state sk) TCP_LISTEN).

(** The do-while loop: a free port, a port to share at once, or the end of the range with the best
    port to share so far (smallest_size is -1 for none). *)
Inductive port_search := PortFree (rover : Z) | PortShare (snum smallest_size : Z) | PortEnd (smallest_rover smallest_size : Z).
Fixpoint search_port (remaining : nat) h sk (low high rover smallest_rover smallest_size : Z) : port_search :=
  match remaining with
  | O => PortEnd smallest_rover smallest_size
  | S remaining =>
    let next := if rover + 1 >? high then low else rover + 1 in
    if inet_is_reserved_local_port rover then search_port remaining h sk low high next smallest_rover smallest_size
    else match find_tb h (sk_net sk) rover ≫= (fun b => tbs h !! b) with
    | None => PortFree rover
    | Some tb =>
      if (fastreuse tb >? 0) && may_share sk && ((num_owners tb <? smallest_size) || (smallest_size =? -1)) then
        if bsockets h >? high - low + 1 then PortShare rover (num_owners tb)
        else search_port remaining h sk low high next rover (num_owners tb)
      else search_port remaining h sk low high next smallest_rover smallest_size
    end
  end.

(** From tb_not_found on, with the bucket. *)
Definition adjust_fastreuse sk tb : inet_bind_bucket :=
  match owners tb with
  | [] => tb <| fastreuse := if may_share sk then 1 else 0 |>
  | _ => if negb (fastreuse tb =? 0) && negb (may_share sk) then tb <| fastreuse := 0 |> else tb
  end.
Definition bind_success h (i b : nat) sk (snum : Z) : Z * inet_hashinfo :=
  (0, match icsk_bind_hash sk with None => inet_bind_hash h i b snum | Some _ => h end).
Definition bind_bucket h (i b : nat) sk (snum : Z) : Z * inet_hashinfo := bind_success (upd_tb h b (adjust_fastreuse sk)) i b sk snum.
Definition bind_new h (i : nat) sk (snum : Z) : Z * inet_hashinfo :=
  match inet_bind_bucket_create h (sk_net sk) snum with Some (b, h) => bind_bucket h i b sk snum | None => (1, h) end.
(** From have_snum on: [None] is the jump back to again. *)
Definition bind_port h (i : nat) sk (snum smallest_size : Z) (retry : bool) : option (Z * inet_hashinfo) :=
  match find_tb h (sk_net sk) snum with
  | None => Some (bind_new h i sk snum)
  | Some b =>
    match tbs h !! b with
    | None => None
    | Some tb =>
      match owners tb with
      | [] => Some (bind_bucket h i b sk snum)
      | _ =>
        if (fastreuse tb >? 0) && may_share sk && (smallest_size =? -1) then Some (bind_success h i b sk snum)
        else if inet_csk_bind_conflict h i sk tb then
          if may_share sk && negb (smallest_size =? -1) && retry then None else Some (1, h)
        else Some (bind_bucket h i b sk snum)
      end
    end
  end.
(** A port of the system's choice; [attempts] more tries. *)
Fixpoint get_any_port (attempts : nat) h (i : nat) sk : Z * inet_hashinfo :=
  let '(low, high) := inet_get_local_port_range in
  let remaining := high - low + 1 in
  let rover := net_random attempts mod remaining + low in
  let again := match attempts with O => (1, h) | S attempts => get_any_port attempts h i sk end in
  let share snum size := match bind_port h i sk snum size (negb (Nat.eqb attempts 0)) with Some r => r | None => again end in
  match search_port (Z.to_nat remaining) h sk low high rover rover (-1) with
  | PortFree snum => bind_new h i sk snum
  | PortShare snum size => share snum size
  | PortEnd snum size => if negb (size =? -1) then share snum size else (1, h)
  end.
Definition inet_csk_get_port h (i : nat) (snum : Z) : Z * inet_hashinfo :=
  match socks h !! i with
  | None => (1, h)
  | Some sk => if snum =? 0 then get_any_port 5 h i sk else default (1, h) (bind_port h i sk snum (-1) false)
  end.

(** ** Adding and removing sockets *)

(** __inet_hash_nolisten *)
Definition inet_hash_nolisten h (i : nat) (tw : option nat) : inet_hashinfo :=
  match socks h !! i with
  | None => h
  | Some sk =>
    let hash := inet_sk_ehashfn sk in
    let h := ehash_add (upd_sock h i (fun sk => sk <| sk_hash := hash |>)) i hash in
    match tw with Some t => inet_twsk_unhash h t | None => h end
  end.
(** __inet_hash *)
Definition inet_hash_ h (i : nat) : inet_hashinfo :=
  match socks h !! i with
  | None => h
  | Some sk => if negb (st_eqb (isk_state sk) TCP_LISTEN) then inet_hash_nolisten h i None else listen_add h i (inet_sk_listen_hashfn sk)
  end.
Definition inet_hash h (i : nat) : inet_hashinfo :=
  if on_sock h i (fun sk => negb (st_eqb (isk_state sk) TCP_CLOSE)) then inet_hash_ h i else h.
Definition inet_unhash h (i : nat) : inet_hashinfo := if on_sock h i sk_unhashed then h else sk_nulls_del_node_init h i.

(** ** connect() *)

(** __inet_check_established: the table and the TIME-WAIT socket that gives way, or [None] for
    -EADDRNOTAVAIL.  [twp] says that the caller takes the TIME-WAIT socket. *)
Definition check_unique h (i : nat) (lport hash : Z) (tw : option nat) (twp : bool) : inet_hashinfo * option nat :=
  let h := upd_sock h i (fun sk => sk <| inet_num := lport |> <| inet_sport := htons lport |> <| sk_hash := hash |>) in
  let h := ehash_add h i hash in
  let h := match tw with Some t => inet_twsk_unhash h t | None => h end in
  match tw with
  | Some t => if twp then (h, tw) else (inet_twsk_deschedule h t, None)
  | None => (h, None)
  end.
Definition inet_check_established h (i : nat) (lport : Z) (twp : bool) : option (inet_hashinfo * option nat) :=
  match socks h !! i with
  | None => None
  | Some sk =>
    let daddr := inet_rcv_saddr sk in
    let saddr := inet_daddr sk in
    let dif := sk_bound_dev_if sk in
    let acookie := INET_ADDR_COOKIE saddr daddr in
    let ports := INET_COMBINED_PORTS (inet_dport sk) lport in
    let hash := inet_ehashfn (sk_net sk) daddr lport saddr (inet_dport sk) in
    let same sk2 := INET_MATCH sk2 (sk_net sk) hash acookie ports dif in
    let head := ehash_at h hash in
    match find_sock h same (twchain head) with
    | Some tw => if twsk_unique i tw twp then Some (check_unique h i lport hash (Some tw) twp) else None
    | None =>
      match find_sock h same (chain head) with
      | Some _ => None
      | None => Some (check_unique h i lport hash None twp)
      end
    end
  end.
Definition inet_sk_port_offset sk : Z := secure_ipv4_port_ephemeral (inet_rcv_saddr sk) (inet_daddr sk) (inet_dport sk).

(** The loop over the ports: the round, the port, its bucket, the table and the TIME-WAIT socket. *)
Fixpoint connect_port (n : nat) h (i : nat) (net round low remaining offset : Z) : option (Z * Z * nat * inet_hashinfo * option nat) :=
  match n with
  | O => None
  | S n =>
    let next := connect_port n h i net (round + 1) low remaining offset in
    let snum := low + u32 (round + offset) mod remaining in
    if inet_is_reserved_local_port snum then next
    else match find_tb h net snum with
    | Some b =>
      if match tbs h !! b with Some tb => fastreuse tb >=? 0 | None => true end then next
      else match inet_check_established h i snum true with
      | Some (h, tw) => Some (round, snum, b, h, tw)
      | None => next
      end
    | None =>
      match inet_bind_bucket_create h net snum with
      | None => None
      | Some (b, h) => Some (round, snum, b, upd_tb h b (fun tb => tb <| fastreuse := -1 |>), None)
      end
    end
  end.
(** __inet_hash_connect with the static variable hint: 0, or [None] for -EADDRNOTAVAIL. *)
Definition connect_bind h (i : nat) (snum : Z) (b : nat) (tw : option nat) : inet_hashinfo :=
  let h := inet_bind_hash h i b snum in
  let h := if on_sock h i sk_unhashed then inet_hash_nolisten (upd_sock h i (fun sk => sk <| inet_sport := htons snum |>)) i tw else h in
  match tw with Some t => inet_twsk_deschedule (inet_twsk_bind_unhash h t) t | None => h end.
Definition inet_hash_connect_ h (i : nat) (port_offset hint : Z) : option inet_hashinfo * Z :=
  match socks h !! i with
  | None => (None, hint)
  | Some sk =>
    if inet_num sk =? 0 then
      let '(low, high) := inet_get_local_port_range in
      let remaining := high - low + 1 in
      match connect_port (Z.to_nat remaining) h i (sk_net sk) 1 low remaining (u32 (hint + port_offset)) with
      | None => (None, hint)
      | Some (round, snum, b, h, tw) => (Some (connect_bind h i snum b tw), u32 (hint + round))
      end
    else
      let sole := match icsk_bind_hash sk ≫= (fun b => tbs h !! b) with Some tb => bool_decide (owners tb = [i]) | None => false end in
      if sole then (Some (inet_hash_nolisten h i None), hint) else (fst <$> inet_check_established h i (inet_num sk) false, hint)
  end.
Definition inet_hash_connect h (i : nat) (hint : Z) : option inet_hashinfo * Z :=
  match socks h !! i with Some sk => inet_hash_connect_ h i (inet_sk_port_offset sk) hint | None => (None, hint) end.
End Hashtables.

(** ** Matching

    Two numbers packed into one word. *)
Lemma pack_add k a b : 0 <= k -> 0 <= b < 2 ^ k -> Z.lor (Z.shiftl a k) b = a * 2 ^ k + b.
Proof.
  intros Hk Hb. rewrite <- Z.add_lor_land, Z.shiftl_mul_pow2 by done. enough (Z.land (a * 2 ^ k) b = 0) by lia. apply Z.bits_inj'. intros n Hn. rewrite Z.land_spec, Z.bits_0.
  destruct (Z.ltb_spec n k); [by rewrite Z.mul_pow2_bits_low|]. rewrite <- (Z.mod_small b (2 ^ k)), Z.mod_pow2_bits_high, andb_false_r by lia. done.
Qed.
Lemma pack_eqb k a b a' b' : 0 <= k -> 0 <= b < 2 ^ k -> 0 <= b' < 2 ^ k -> (Z.lor (Z.shiftl a k) b =? Z.lor (Z.shiftl a' k) b') = (a =? a') && (b =? b').
Proof.
  intros Hk Hb Hb'. rewrite !pack_add by done. destruct (Z.eqb_spec a a') as [->|Ha]; cbn [andb]; [destruct (Z.eqb_spec b b'), (Z.eqb_spec (a' * 2 ^ k + b) (a' * 2 ^ k + b')); lia|].
  apply Z.eqb_neq. nia.
Qed.

Lemma land_le x m : 0 <= m -> 0 <= Z.land x m <= m.
Proof.
  intros Hm. assert (0 <= Z.land x m) by (apply Z.land_nonneg; auto). split; [done|]. pose proof (Z.sub_land_same_l m x) as E. rewrite (Z.land_comm m x) in E. assert (0 <= Z.land m (Z.lnot x)) by (apply Z.land_nonneg; auto). lia.
Qed.

Section Tables.
Context {E : HashEnv}.
Implicit Types (h : inet_hashinfo) (sk : inet_sock) (tb : inet_bind_bucket) (i j b : nat).

(** The members fit their widths. *)
Definition wf_sock sk : Prop := is_u32 (inet_rcv_saddr sk) /\ is_u32 (inet_daddr sk) /\ is_u16 (inet_num sk) /\ is_u16 (inet_dport sk).
(** The socket is the end of the connection from [saddr], [sport] to [daddr], [hnum]. *)
Definition same_flow (net saddr sport daddr hnum dif : Z) sk : bool :=
  (sk_net sk =? net) && (inet_daddr sk =? saddr) && (inet_rcv_saddr sk =? daddr) && (inet_num sk =? hnum) && (inet_dport sk =? sport)
  && ((sk_bound_dev_if sk =? 0) || (sk_bound_dev_if sk =? dif)).
Lemma match_flow sk net hash saddr sport daddr hnum dif : wf_sock sk -> is_u32 saddr -> is_u16 sport ->
  INET_MATCH sk net hash (INET_ADDR_COOKIE saddr daddr) (INET_COMBINED_PORTS sport hnum) dif = (sk_hash sk =? hash) && same_flow net saddr sport daddr hnum dif sk.
Proof.
  intros (H1 & H2 & H3 & H4) Ha Hp. unfold INET_MATCH, same_flow, sk_addrpair, sk_portpair, INET_ADDR_COOKIE, INET_COMBINED_PORTS. unfold is_u32, is_u16 in *. rewrite !pack_eqb by lia.
  destruct (sk_hash sk =? hash), (sk_net sk =? net), (inet_daddr sk =? saddr), (inet_rcv_saddr sk =? daddr), (inet_num sk =? hnum), (inet_dport sk =? sport), (sk_bound_dev_if sk =? 0); done.
Qed.
(** The comparison of both addresses, and of both ports, as one word on 64-bit machines is
    equivalent to the comparison member by member of 32-bit machines, and both to equality of the
    four-tuple. *)
Theorem inet_match_equiv sk net hash saddr sport daddr hnum dif : wf_sock sk -> is_u32 saddr -> is_u16 sport ->
  let ports := INET_COMBINED_PORTS sport hnum in
  INET_MATCH sk net hash (INET_ADDR_COOKIE saddr daddr) ports dif = INET_MATCH32 sk net hash saddr daddr ports dif /\
  (INET_MATCH sk net hash (INET_ADDR_COOKIE saddr daddr) ports dif = true <->
   sk_hash sk = hash /\ sk_net sk = net /\ inet_daddr sk = saddr /\ inet_rcv_saddr sk = daddr /\ inet_num sk = hnum /\ inet_dport sk = sport /\
   (sk_bound_dev_if sk = 0 \/ sk_bound_dev_if sk = dif)).
Proof.
  intros Hw Ha Hp ports. split.
  - destruct Hw as (H1 & H2 & _). unfold INET_MATCH, INET_MATCH32, sk_addrpair, INET_ADDR_COOKIE. unfold is_u32 in *. rewrite pack_eqb by lia. destruct (inet_daddr sk =? saddr), (inet_rcv_saddr sk =? daddr); by rewrite ?andb_false_r, ?andb_true_r.
  - unfold ports. rewrite match_flow by done. unfold same_flow. rewrite !andb_true_iff, orb_true_iff, !Z.eqb_eq. tauto.
Qed.

(** ** The tables of connections *)
Definition hashed h i : Prop := exists s hd, ehash h !! s = Some hd /\ i ∈ chain hd.
Definition tw_hashed h i : Prop := exists s hd, ehash h !! s = Some hd /\ i ∈ twchain hd.
Definition listening h i : Prop := exists s l, listening_hash h !! s = Some l /\ i ∈ l.
(** A socket on a chain is in the right bucket. *)
Record placed h (s : nat) i : Prop := {
  pl_sock : exists sk, socks h !! i = Some sk /\ wf_sock sk /\ sk_hash sk = inet_sk_ehashfn sk /\ s = inet_ehash_slot h (sk_hash sk) /\ sk_linked sk = true;
}.
Record hash_inv h : Prop := {
  hi_mask : 0 <= ehash_mask h /\ length (ehash h) = S (Z.to_nat (ehash_mask h));
  hi_lsize : length (listening_hash h) = Z.to_nat INET_LHTABLE_SIZE;
  hi_chain : forall s hd i, ehash h !! s = Some hd -> i ∈ chain hd \/ i ∈ twchain hd -> placed h s i;
  hi_listen : forall s l i, listening_hash h !! s = Some l -> i ∈ l -> exists sk, socks h !! i = Some sk /\ s = inet_sk_listen_hashfn sk /\ sk_linked sk = true;
}.
Lemma slot_lt h x : 0 <= ehash_mask h -> length (ehash h) = S (Z.to_nat (ehash_mask h)) -> (inet_ehash_slot h x < length (ehash h))%nat.
Proof. intros H1 H2. unfold inet_ehash_slot. pose proof (land_le x (ehash_mask h) H1). lia. Qed.

Lemma find_sock_some h p l i : find_sock h p l = Some i -> i ∈ l /\ exists sk, socks h !! i = Some sk /\ p sk = true.
Proof. intros H. apply List.find_some in H as [H1 H2]. split; [by apply list_elem_of_In|]. unfold on_sock in H2. destruct (socks h !! i) as [sk|]; [by exists sk|done]. Qed.
Lemma find_sock_none h p l i sk : find_sock h p l = None -> i ∈ l -> socks h !! i = Some sk -> p sk = false.
Proof. intros H Hi Hs. apply list_elem_of_In in Hi. pose proof (List.find_none _ _ H i Hi) as Hn. cbn in Hn. unfold on_sock in Hn. by rewrite Hs in Hn. Qed.

(** A search of one of the two chains of the right bucket searches them all. *)
Lemma chain_flow h net saddr sport daddr hnum dif (sel : inet_ehash_bucket -> list nat) r : hash_inv h -> is_u32 saddr -> is_u16 sport -> (forall hd j, j ∈ sel hd -> j ∈ chain hd \/ j ∈ twchain hd) ->
  let hash := inet_ehashfn net daddr hnum saddr sport in
  let flow := same_flow net saddr sport daddr hnum dif in
  find_sock h (fun sk => INET_MATCH sk net hash (INET_ADDR_COOKIE saddr daddr) (INET_COMBINED_PORTS sport hnum) dif) (sel (ehash_at h hash)) = r ->
  match r with
  | Some i => exists s hd, ehash h !! s = Some hd /\ i ∈ sel hd /\ exists sk, socks h !! i = Some sk /\ flow sk = true
  | None => forall j sk s hd, ehash h !! s = Some hd -> j ∈ sel hd -> socks h !! j = Some sk -> flow sk = false
  end.
Proof.
  intros [[Hm1 Hm2] _ Hc _] Ha Hp Hsel hash flow. set (m := fun sk => INET_MATCH sk net hash _ _ dif). intros <-. destruct (lookup_lt_is_Some_2 (ehash h) (inet_ehash_slot h hash)) as [hd Hd]; [by apply slot_lt|]. unfold ehash_at. rewrite Hd. cbn [default from_option id].
  assert (Hin : forall j sk s hd', ehash h !! s = Some hd' -> j ∈ sel hd' -> socks h !! j = Some sk -> m sk = flow sk /\ (flow sk = true -> hd' = hd)).
  { intros j sk s hd' Hs Hj Hk. destruct (Hc s hd' j Hs (Hsel _ _ Hj)) as [(sk' & E1 & Hw & E2 & E3 & _)]. rewrite Hk in E1. injection E1 as <-. unfold m. rewrite match_flow by done. fold flow. assert (Ef : flow sk = true -> sk_hash sk = hash).
    { unfold flow, same_flow. rewrite !andb_true_iff, !Z.eqb_eq. intros [[[[[F1 F2] F3] F4] F5] _]. rewrite E2. unfold inet_sk_ehashfn. by rewrite F1, F2, F3, F4, F5. }
    split; [destruct (flow sk); [rewrite Ef by done; by rewrite Z.eqb_refl|by rewrite andb_false_r]|]. intros Hf. rewrite Ef in E3 by done. subst s. congruence. }
  destruct (find_sock h m (sel hd)) as [i|] eqn:E1.
  - apply find_sock_some in E1 as [E1 (sk & E2 & E3)]. exists (inet_ehash_slot h hash), hd. destruct (Hin i sk _ hd Hd E1 E2) as [Em _]. split_and!; [done..|]. exists sk. by rewrite <- Em.
  - intros j sk s hd' Hs Hj Hk. destruct (flow sk) eqn:Efl; [|done]. destruct (Hin j sk s hd' Hs Hj Hk) as [Em Eh]. rewrite (Eh Efl) in Hj. rewrite <- Efl, <- Em. by eapply find_sock_none.
Qed.
Lemma lookup_established_spec h net saddr sport daddr hnum dif : hash_inv h -> is_u32 saddr -> is_u16 sport ->
  let flow := same_flow net saddr sport daddr hnum dif in
  match inet_lookup_established_ h net saddr sport daddr hnum dif with
  | Some i => (exists sk, socks h !! i = Some sk /\ flow sk = true) /\
              (hashed h i \/ (tw_hashed h i /\ forall j sk, hashed h j -> socks h !! j = Some sk -> flow sk = false))
  | None => forall j sk, hashed h j \/ tw_hashed h j -> socks h !! j = Some sk -> flow sk = false
  end.
Proof.
  intros Hi Ha Hp flow. pose proof (fun sel r => chain_flow h net saddr sport daddr hnum dif sel r Hi Ha Hp) as Hcf. cbn zeta in Hcf. fold flow in Hcf. clearbody flow. unfold inet_lookup_established_. cbn zeta.
  destruct (find_sock _ _ (chain _)) as [i|] eqn:F1; [destruct (Hcf chain (Some i) ltac:(auto) F1) as (s & hd & E1 & E2 & E3); split; [done|left; by exists s, hd]|]. pose proof (Hcf chain None ltac:(auto) F1) as H1.
  assert (Hn : forall j sk, hashed h j -> socks h !! j = Some sk -> flow sk = false) by (intros j sk (s & hd & Hs & Hj); by apply (H1 j sk s hd)).
  destruct (find_sock _ _ (twchain _)) as [i|] eqn:F2; [destruct (Hcf twchain (Some i) ltac:(auto) F2) as (s & hd & E1 & E2 & E3); split; [done|right; split; [by exists s, hd|done]]|]. pose proof (Hcf twchain None ltac:(auto) F2) as H2.
  intros j sk [Hj|(s & hd & Hs & Hj)]; [by apply Hn|by apply (H2 j sk s hd)].
Qed.
(** C29. Looking up a connection: the result is a socket of the table with this four-tuple, a full
    socket before any TIME-WAIT socket; and when there is none, no socket of the table has it. *)
Theorem lookup_established_ok h net saddr sport daddr hnum dif : hash_inv h -> is_u32 saddr -> is_u16 sport ->
  let flow := same_flow net saddr sport daddr hnum dif in
  match inet_lookup_established_ h net saddr sport daddr hnum dif with
  | Some i => (exists sk, socks h !! i = Some sk /\ flow sk = true) /\
              (hashed h i \/ (tw_hashed h i /\ forall j sk, hashed h j -> socks h !! j = Some sk -> flow sk = false))
  | None => forall j sk, hashed h j \/ tw_hashed h j -> socks h !! j = Some sk -> flow sk = false
  end.
Proof. apply lookup_established_spec. Qed.

(** ** Listening sockets *)
Lemma listener_fold h net hnum daddr dif l : forall best, let r := fold_left (listener_step h net hnum daddr dif) l best in
  (r = best \/ exists i, i ∈ l /\ r = (Some i, score_of h net hnum daddr dif i) /\ snd best < snd r) /\ snd best <= snd r /\ forall j, j ∈ l -> score_of h net hnum daddr dif j <= snd r.
Proof.
  induction l as [|x l IH]; intros best; cbn [fold_left]; [split_and!; [by left|done|intros j Hj; by apply not_elem_of_nil in Hj]|]. cbn zeta. destruct (IH (listener_step h net hnum daddr dif best x)) as (H1 & H2 & H3).
  set (r := fold_left _ _ _) in *. clearbody r. unfold listener_step in H1, H2. cbn zeta in H1, H2. assert (Hx : snd best <= snd r /\ score_of h net hnum daddr dif x <= snd r) by (destruct (Z.gtb_spec (score_of h net hnum daddr dif x) (snd best)); cbn in H2; lia).
  split_and!; [|lia|intros j [->|Hj]%elem_of_cons; [lia|by apply H3]]. destruct (Z.gtb_spec (score_of h net hnum daddr dif x) (snd best)) as [Hg|Hg]; destruct H1 as [->|(i & Hi & -> & Hb)]; cbn [snd] in *;
    [right; exists x; split_and!; [left|done|lia]|right; exists i; split_and!; [by right|done|lia]|by left|right; exists i; split_and!; [by right|done|lia]].
Qed.
Lemma lookup_listener_spec h net daddr hnum dif : hash_inv h ->
  let score := score_of h net hnum daddr dif in
  match inet_lookup_listener_ h net daddr hnum dif with
  | Some i => listening h i /\ 0 <= score i /\ forall j, listening h j -> score j <= score i
  | None => forall j, listening h j -> score j < 0
  end.
Proof.
  intros [_ Hs _ Hl] score. unfold inet_lookup_listener_. assert (Hr : (inet_lhashfn net hnum < length (listening_hash h))%nat).
  { rewrite Hs. unfold inet_lhashfn, INET_LHTABLE_SIZE. pose proof (land_le (hnum + net_hash_mix net) (32 - 1)). lia. }
  destruct (lookup_lt_is_Some_2 _ _ Hr) as [l El]. rewrite El. cbn [default from_option id]. destruct (listener_fold h net hnum daddr dif l (None, -1)) as (H1 & H2 & H3). set (r := fold_left _ _ _) in *. clearbody r. cbn [snd] in H2.
  assert (Hall : forall j, listening h j -> score j <= snd r).
  { intros j (s & l' & E1 & Hj). destruct (Hl s l' j E1 Hj) as (sk & E2 & E3 & _). destruct (decide (0 <= score j)) as [Hp|]; [|lia]. apply H3. unfold score, score_of in Hp. rewrite E2 in Hp. unfold compute_score in Hp.
    destruct ((sk_net sk =? net) && (inet_num sk =? hnum) && negb (sk_ipv6only sk)) eqn:Ec; [|lia]. rewrite !andb_true_iff, !Z.eqb_eq in Ec. destruct Ec as [[F1 F2] _]. unfold inet_sk_listen_hashfn in E3. rewrite F1, F2 in E3. subst s. congruence. }
  destruct H1 as [->|(i & Hi & -> & Hb)]; cbn [fst snd] in *; [intros j Hj; specialize (Hall j Hj); lia|]. split_and!; [by exists (inet_lhashfn net hnum), l|unfold score; lia|done].
Qed.
(** Looking up a listening socket returns one with the highest score of all listening sockets of
    the host (a socket bound to the address or the device is preferred), and nothing only when no
    listening socket accepts the address, the port and the device. *)
Theorem lookup_listener_ok h net daddr hnum dif : hash_inv h ->
  let score := score_of h net hnum daddr dif in
  match inet_lookup_listener_ h net daddr hnum dif with
  | Some i => listening h i /\ 0 <= score i /\ forall j, listening h j -> score j <= score i
  | None => forall j, listening h j -> score j < 0
  end.
Proof. apply lookup_listener_spec. Qed.
End Tables.

(** ** Adding and removing *)
Section Linking.
Context {E : HashEnv}.
Implicit Types (h : inet_hashinfo) (sk : inet_sock) (tb : inet_bind_bucket) (i j b : nat).

Definition off_chain h i : Prop := ~ hashed h i /\ ~ tw_hashed h i /\ ~ listening h i.
Lemma upd_sock_other h i j g : i <> j -> socks (upd_sock h i g) !! j = socks h !! j.
Proof. intros H. unfold upd_sock. cbn. by apply lookup_alter_ne. Qed.
Lemma upd_sock_same h i g : socks (upd_sock h i g) !! i = g <$> socks h !! i.
Proof. unfold upd_sock. cbn. apply lookup_alter_eq. Qed.
(** A change of a socket on no chain. *)
Lemma upd_off_inv h i g : off_chain h i -> hash_inv h -> hash_inv (upd_sock h i g).
Proof.
  intros (H1 & H2 & H3) [Hm Hs Hc Hl]. split; [done|done| |].
  - intros s hd j Hd Hj. destruct (Hc s hd j Hd Hj) as [(sk & E1 & E2)]. split. exists sk. rewrite upd_sock_other; [done|]. intros ->. destruct Hj as [Hj|Hj]; [apply H1|apply H2]; by exists s, hd.
  - intros s l j Hd Hj. destruct (Hl s l j Hd Hj) as (sk & E1 & E2). exists sk. rewrite upd_sock_other; [done|]. intros ->. apply H3. by exists s, l.
Qed.
Lemma find_sock_off h i g p l : i ∉ l -> find_sock (upd_sock h i g) p l = find_sock h p l.
Proof.
  unfold find_sock. induction l as [|x l IH]; [done|]. intros Hn. apply not_elem_of_cons in Hn as [Hn1 Hn2]. cbn [List.find]. unfold on_sock at 1 3. rewrite upd_sock_other by done. case_match; by rewrite ?IH.
Qed.
Lemma ehash_at_in h hash : 0 <= ehash_mask h -> length (ehash h) = S (Z.to_nat (ehash_mask h)) -> ehash h !! inet_ehash_slot h hash = Some (ehash_at h hash).
Proof. intros H1 H2. destruct (lookup_lt_is_Some_2 (ehash h) (inet_ehash_slot h hash)) as [hd Hd]; [by apply slot_lt|]. unfold ehash_at. by rewrite Hd. Qed.
Lemma lookup_off h i g net saddr sport daddr hnum dif : hash_inv h -> off_chain h i ->
  inet_lookup_established_ (upd_sock h i g) net saddr sport daddr hnum dif = inet_lookup_established_ h net saddr sport daddr hnum dif.
Proof.
  intros [[Hm1 Hm2] _ _ _] (H1 & H2 & _). unfold inet_lookup_established_. cbn zeta. set (hash := inet_ehashfn _ _ _ _ _). change (ehash_at (upd_sock h i g) hash) with (ehash_at h hash). pose proof (ehash_at_in h hash Hm1 Hm2) as Hd.
  rewrite !find_sock_off; [done|..]; intros Hi; [apply H2|apply H1]; by exists (inet_ehash_slot h hash), (ehash_at h hash).
Qed.
Lemma drop_id_out i l : i ∉ l -> drop_id i l = l.
Proof.
  unfold drop_id. induction l as [|x l IH]; [done|]. intros Hn. apply not_elem_of_cons in Hn as [Hn1 Hn2]. cbn [List.filter]. destruct (Nat.eqb_spec x i); [congruence|]. cbn. by rewrite IH.
Qed.
Lemma drop_id_in i j l : j ∈ drop_id i l <-> j ∈ l /\ j <> i.
Proof. unfold drop_id. rewrite !list_elem_of_In, List.filter_In. by rewrite negb_true_iff, Nat.eqb_neq. Qed.

(** *** The chains after an insertion *)
Lemma ehash_add_lookup h i hash s hd : ehash (ehash_add h i hash) !! s = Some hd ->
  exists hd0, ehash h !! s = Some hd0 /\ twchain hd = twchain hd0 /\ chain hd = if decide (s = inet_ehash_slot h hash) then i :: chain hd0 else chain hd0.
Proof.
  unfold ehash_add, upd_sock. cbn. destruct (decide (s = inet_ehash_slot h hash)) as [->|Hn].
  - rewrite list_lookup_alter_eq. destruct (ehash h !! _) as [hd0|]; [|done]. cbn. intros [= <-]. by exists hd0.
  - rewrite list_lookup_alter_ne by done. intros Hd. by exists hd.
Qed.
Lemma ehash_add_inv h i sk : hash_inv h -> socks h !! i = Some sk -> wf_sock sk -> sk_hash sk = inet_sk_ehashfn sk -> hash_inv (ehash_add h i (sk_hash sk)).
Proof.
  intros [Hm Hs Hc Hl] Hi Hw Hh. split; [|done| |].
  - unfold ehash_add, upd_sock. cbn. by rewrite length_alter.
  - intros s hd j Hd Hj. apply ehash_add_lookup in Hd as (hd0 & Hd & E1 & E2). rewrite E1, E2 in Hj. assert (Hj' : j = i /\ s = inet_ehash_slot h (sk_hash sk) \/ (j ∈ chain hd0 \/ j ∈ twchain hd0)).
    { destruct Hj as [Hj|Hj]; [|by right; right]. destruct (decide _); [|by right; left]. apply elem_of_cons in Hj as [->|Hj]; [by left|by right; left]. }
    assert (Hp : forall k sk1, socks h !! k = Some sk1 -> socks (ehash_add h i (sk_hash sk)) !! k = Some (if decide (k = i) then sk1 <| sk_linked := true |> else sk1)).
    { intros k sk1 Hk. unfold ehash_add. destruct (decide (k = i)) as [->|Hn]; [rewrite upd_sock_same; cbn; by rewrite Hk|rewrite upd_sock_other by done; done]. }
    split. destruct Hj' as [[-> ->]|Hj'].
    + exists (sk <| sk_linked := true |>). rewrite (Hp i sk Hi). by rewrite decide_True.
    + destruct (Hc s hd0 j Hd Hj') as [(sk1 & F1 & F2 & F3 & F4 & F5)]. rewrite (Hp j sk1 F1). destruct (decide (j = i)); by eexists.
  - intros s l j Hd Hj. destruct (Hl s l j Hd Hj) as (sk1 & F1 & F2 & F3). unfold ehash_add. destruct (decide (i = j)) as [->|Hn]; [rewrite upd_sock_same; cbn; rewrite F1; by eexists|rewrite upd_sock_other by done; by exists sk1].
Qed.
Lemma listen_add_inv h i sk : hash_inv h -> socks h !! i = Some sk -> hash_inv (listen_add h i (inet_sk_listen_hashfn sk)).
Proof.
  intros [Hm Hs Hc Hl] Hi. assert (Hp : forall k sk1, socks h !! k = Some sk1 -> socks (listen_add h i (inet_sk_listen_hashfn sk)) !! k = Some (if decide (k = i) then sk1 <| sk_linked := true |> else sk1)).
  { intros k sk1 Hk. unfold listen_add. destruct (decide (k = i)) as [->|Hn]; [rewrite upd_sock_same; cbn; by rewrite Hk|rewrite upd_sock_other by done; done]. }
  split; [done| | |].
  - unfold listen_add, upd_sock. cbn. by rewrite length_alter.
  - intros s hd j Hd Hj. destruct (Hc s hd j Hd Hj) as [(sk1 & F1 & F2 & F3 & F4 & F5)]. split. rewrite (Hp j sk1 F1). destruct (decide (j = i)); by eexists.
  - intros s l j Hd Hj. unfold listen_add, upd_sock in Hd. cbn in Hd. assert (Hj' : j = i /\ s = inet_sk_listen_hashfn sk \/ exists l0, listening_hash h !! s = Some l0 /\ j ∈ l0).
    { destruct (decide (s = inet_sk_listen_hashfn sk)) as [->|Hn]; [|rewrite list_lookup_alter_ne in Hd by done; right; by exists l]. rewrite list_lookup_alter_eq in Hd. destruct (listening_hash h !! _) as [l0|]; [|done]. cbn in Hd. injection Hd as <-. apply elem_of_cons in Hj as [->|Hj]; [by left|right; by exists l0]. }
    destruct Hj' as [[-> ->]|(l0 & Hl0 & Hj')]; [rewrite (Hp i sk Hi); rewrite decide_True by done; by eexists|]. destruct (Hl s l0 j Hl0 Hj') as (sk1 & F1 & F2 & F3). rewrite (Hp j sk1 F1). destruct (decide (j = i)); by eexists.
Qed.

(** *** Hashing and unhashing *)
Lemma drop_all_off (L : list (list nat)) i : (forall s l, L !! s = Some l -> i ∉ l) -> drop_id i <$> L = L.
Proof. intros H. rewrite <- (list_fmap_id L) at 2. apply list_fmap_ext. intros s l Hl. apply drop_id_out. by apply (H s). Qed.
Lemma drop_hd_off (L : list inet_ehash_bucket) i : (forall s hd, L !! s = Some hd -> i ∉ chain hd) -> (fun hd => hd <| chain := drop_id i (chain hd) |>) <$> L = L.
Proof. intros H. rewrite <- (list_fmap_id L) at 2. apply list_fmap_ext. intros s hd Hl. pose proof (drop_id_out i (chain hd) (H s hd Hl)) as Ed. change (mk_ehash_bucket (drop_id i (chain hd)) (twchain hd) = hd). by rewrite Ed. Qed.
Lemma off_chains h i : off_chain h i -> (forall s hd, ehash h !! s = Some hd -> i ∉ chain hd) /\ (forall s l, listening_hash h !! s = Some l -> i ∉ l).
Proof. intros (H1 & _ & H3). split; [intros s hd Hd Hi; apply H1; by exists s, hd|intros s l Hd Hi; apply H3; by exists s, l]. Qed.
Lemma drop_head i l : i ∉ l -> drop_id i (i :: l) = l.
Proof. intros H. unfold drop_id. cbn. rewrite Nat.eqb_refl. cbn. by apply drop_id_out. Qed.
Lemma unlink_ehash h i hash : off_chain h i -> sk_nulls_del_node_init (ehash_add h i hash) i = upd_sock h i (fun sk => sk <| sk_linked := true |> <| sk_linked := false |>).
Proof.
  intros Ho. destruct (off_chains h i Ho) as [H1 H3]. unfold sk_nulls_del_node_init, ehash_add, upd_sock. cbn. unfold set, set_socks, set_ehash, set_listening_hash. cbn. rewrite (drop_all_off (listening_hash h) i H3). f_equal.
  - by rewrite alter_alter_eq.
  - rewrite <- (drop_hd_off (ehash h) i H1) at 2. apply list_eq. intros s. rewrite !list_lookup_fmap. destruct (decide (s = inet_ehash_slot h hash)) as [->|Hn]; [|by rewrite list_lookup_alter_ne]. rewrite list_lookup_alter_eq. destruct (ehash h !! _) as [hd|] eqn:Hd; [|done].
    cbn. f_equal. pose proof (drop_head i (chain hd) (H1 _ _ Hd)) as E1. pose proof (drop_id_out i (chain hd) (H1 _ _ Hd)) as E2. change (mk_ehash_bucket (drop_id i (i :: chain hd)) (twchain hd) = mk_ehash_bucket (drop_id i (chain hd)) (twchain hd)). by rewrite E1, E2.
Qed.
Lemma unlink_listen h i slot : off_chain h i -> sk_nulls_del_node_init (listen_add h i slot) i = upd_sock h i (fun sk => sk <| sk_linked := true |> <| sk_linked := false |>).
Proof.
  intros Ho. destruct (off_chains h i Ho) as [H1 H3]. unfold sk_nulls_del_node_init, listen_add, upd_sock. cbn. unfold set, set_socks, set_ehash, set_listening_hash. cbn. f_equal.
  - by rewrite alter_alter_eq.
  - exact (drop_hd_off (ehash h) i H1).
  - rewrite <- (drop_all_off (listening_hash h) i H3) at 2. apply list_eq. intros s. rewrite !list_lookup_fmap. destruct (decide (s = slot)) as [->|Hn]; [|by rewrite list_lookup_alter_ne]. rewrite list_lookup_alter_eq. destruct (listening_hash h !! _) as [l|] eqn:Hd; [|done].
    cbn. f_equal. rewrite drop_id_out by (by apply (H3 slot)). pose proof (drop_head i l (H3 _ _ Hd)) as E1. exact E1.
Qed.
Lemma off_upd h i j g : off_chain h j -> off_chain (upd_sock h i g) j.
Proof. done. Qed.
(** A socket is found by its own addresses right after it was added. *)
Lemma added_found h i sk : 0 <= ehash_mask h -> length (ehash h) = S (Z.to_nat (ehash_mask h)) -> socks h !! i = Some sk -> wf_sock sk -> sk_hash sk = inet_sk_ehashfn sk ->
  inet_lookup_established_ (ehash_add h i (sk_hash sk)) (sk_net sk) (inet_daddr sk) (inet_dport sk) (inet_rcv_saddr sk) (inet_num sk) (sk_bound_dev_if sk) = Some i.
Proof.
  intros Hm Hl Hi Hw Hh. unfold inet_lookup_established_. cbn zeta. fold (inet_sk_ehashfn sk). rewrite <- Hh. set (h1 := ehash_add h i (sk_hash sk)). assert (Ei : socks h1 !! i = Some (sk <| sk_linked := true |>)) by (unfold h1, ehash_add; rewrite upd_sock_same; cbn; by rewrite Hi).
  assert (Ec : chain (ehash_at h1 (sk_hash sk)) = i :: chain (ehash_at h (sk_hash sk))).
  { unfold ehash_at. change (inet_ehash_slot h1 (sk_hash sk)) with (inet_ehash_slot h (sk_hash sk)). unfold h1, ehash_add, upd_sock. cbn. rewrite list_lookup_alter_eq. destruct (lookup_lt_is_Some_2 (ehash h) (inet_ehash_slot h (sk_hash sk))) as [hd Hd]; [by apply slot_lt|]. by rewrite Hd. }
  rewrite Ec. unfold find_sock at 1. cbn [List.find]. unfold on_sock at 1. rewrite Ei. destruct Hw as (W1 & W2 & W3 & W4). rewrite match_flow; [|exact (conj W1 (conj W2 (conj W3 W4)))|exact W2|exact W4]. unfold same_flow. cbn. by rewrite !Z.eqb_refl, orb_true_r.
Qed.

Lemma inet_hash_eq h i sk : socks h !! i = Some sk -> isk_state sk <> TCP_CLOSE ->
  inet_hash h i = if st_eqb (isk_state sk) TCP_LISTEN then listen_add h i (inet_sk_listen_hashfn sk)
                  else ehash_add (upd_sock h i (fun s => s <| sk_hash := inet_sk_ehashfn sk |>)) i (inet_sk_ehashfn sk).
Proof.
  intros Hi Hc. unfold inet_hash, on_sock, inet_hash_, inet_hash_nolisten. rewrite Hi. unfold st_eqb at 1. rewrite bool_decide_eq_false_2 by done. cbn [negb]. by destruct (st_eqb (isk_state sk) TCP_LISTEN).
Qed.
Lemma listen_added h i sk : hash_inv h -> listening (listen_add h i (inet_sk_listen_hashfn sk)) i.
Proof.
  intros [_ Hl _ _]. exists (inet_sk_listen_hashfn sk). unfold listen_add, upd_sock. cbn. rewrite list_lookup_alter_eq. destruct (lookup_lt_is_Some_2 (listening_hash h) (inet_sk_listen_hashfn sk)) as [l El]; [|rewrite El; cbn; exists (i :: l); split; [done|left]].
  rewrite Hl. unfold inet_sk_listen_hashfn, inet_lhashfn, INET_LHTABLE_SIZE. pose proof (land_le (inet_num sk + net_hash_mix (sk_net sk)) (32 - 1)). lia.
Qed.

(** Hashing a socket that is on no chain makes it the one that lookups by its addresses return
    (a listening socket: one of the listening sockets), and unhashing it brings every lookup back
    to what it was; both keep the tables consistent. *)
Theorem hash_unhash_roundtrip h i sk : hash_inv h -> off_chain h i -> socks h !! i = Some sk -> wf_sock sk -> isk_state sk <> TCP_CLOSE ->
  let h1 := inet_hash h i in
  let h2 := inet_unhash h1 i in
  hash_inv h1 /\ hash_inv h2 /\ off_chain h2 i /\
  (if st_eqb (isk_state sk) TCP_LISTEN then listening h1 i
   else inet_lookup_established_ h1 (sk_net sk) (inet_daddr sk) (inet_dport sk) (inet_rcv_saddr sk) (inet_num sk) (sk_bound_dev_if sk) = Some i) /\
  forall net saddr sport daddr hnum dif, inet_lookup_established_ h2 net saddr sport daddr hnum dif = inet_lookup_established_ h net saddr sport daddr hnum dif.
Proof.
  intros Hv Ho Hi Hw Hc. cbn zeta. rewrite (inet_hash_eq h i sk Hi Hc). destruct (st_eqb (isk_state sk) TCP_LISTEN).
  - assert (E2 : inet_unhash (listen_add h i (inet_sk_listen_hashfn sk)) i = upd_sock h i (fun sk => sk <| sk_linked := true |> <| sk_linked := false |>)).
    { rewrite <- unlink_listen with (slot := inet_sk_listen_hashfn sk) by done. unfold inet_unhash, on_sock. unfold listen_add at 1. rewrite upd_sock_same. cbn. by rewrite Hi. }
    rewrite E2. split_and!; [by apply listen_add_inv|by apply upd_off_inv|apply Ho..| |intros; by apply lookup_off]. by apply listen_added.
  - set (sk1 := sk <| sk_hash := inet_sk_ehashfn sk |>). set (h0 := upd_sock h i _). assert (Ho0 : off_chain h0 i) by done. assert (Hv0 : hash_inv h0) by (by apply upd_off_inv).
    assert (Hi0 : socks h0 !! i = Some sk1) by (unfold h0; by rewrite upd_sock_same, Hi). change (inet_sk_ehashfn sk) with (sk_hash sk1). assert (E2 : inet_unhash (ehash_add h0 i (sk_hash sk1)) i = upd_sock h0 i (fun sk => sk <| sk_linked := true |> <| sk_linked := false |>)).
    { rewrite <- unlink_ehash with (hash := sk_hash sk1) by done. unfold inet_unhash, on_sock. unfold ehash_add at 1. rewrite upd_sock_same. cbn [socks set set_ehash]. rewrite Hi0. done. }
    rewrite E2. split_and!; [by apply ehash_add_inv|by apply upd_off_inv|apply Ho..| |].
    + apply (added_found h0 i sk1); [apply Hv|apply Hv|done|done|done].
    + intros. rewrite lookup_off by done. by apply lookup_off.
Qed.
End Linking.

(** ** Bound ports *)
Section Binding.
Context {E : HashEnv}.
Implicit Types (h : inet_hashinfo) (sk : inet_sock) (tb : inet_bind_bucket) (i j b : nat).

(** One bucket for each bound port, and owners and buckets refer to each other. *)
Record bind_inv h : Prop := {
  bi_size : 0 < bhash_size h /\ length (bhash h) = Z.to_nat (bhash_size h);
  bi_all : forall b tb, tbs h !! b = Some tb -> b ∈ bhash_at h (ib_net tb) (port tb);
  bi_uniq : forall b1 b2 tb1 tb2, tbs h !! b1 = Some tb1 -> tbs h !! b2 = Some tb2 -> ib_net tb1 = ib_net tb2 -> port tb1 = port tb2 -> b1 = b2;
  bi_owner : forall b tb i, tbs h !! b = Some tb -> i ∈ owners tb -> exists sk, socks h !! i = Some sk /\ icsk_bind_hash sk = Some b /\ sk_net sk = ib_net tb /\ inet_num sk = port tb;
  bi_bound : forall i sk b, socks h !! i = Some sk -> icsk_bind_hash sk = Some b -> exists tb, tbs h !! b = Some tb /\ i ∈ owners tb;
  bi_dup : forall b tb, tbs h !! b = Some tb -> NoDup (owners tb);
}.
(** A bucket marked for sharing has only owners that may share, but for those outside of [P]. *)
Definition fast_ok (P : nat -> Prop) h : Prop :=
  forall b tb j sk, tbs h !! b = Some tb -> fastreuse tb > 0 -> j ∈ owners tb -> P j -> socks h !! j = Some sk -> may_share sk = true.

Lemma find_tb_some h net snum b : find_tb h net snum = Some b -> exists tb, tbs h !! b = Some tb /\ ib_net tb = net /\ port tb = snum.
Proof. intros H. apply List.find_some in H as [_ H]. destruct (tbs h !! b) as [tb|]; [|done]. apply andb_true_iff in H as [H1 H2]. apply Z.eqb_eq in H1, H2. by exists tb. Qed.
Lemma find_tb_none h net snum b tb : bind_inv h -> find_tb h net snum = None -> tbs h !! b = Some tb -> ib_net tb = net -> port tb = snum -> False.
Proof.
  intros Hv Hf Hb <- <-. pose proof (bi_all h Hv b tb Hb) as Hin. apply list_elem_of_In in Hin. pose proof (List.find_none _ _ Hf b Hin) as Hn. cbn in Hn. rewrite Hb, !Z.eqb_refl in Hn. done.
Qed.
Lemma bslot_lt h net snum : bind_inv h -> (inet_bhashfn net snum (bhash_size h) < length (bhash h))%nat.
Proof. intros Hv. destruct (bi_size h Hv) as [H1 H2]. rewrite H2. unfold inet_bhashfn. pose proof (land_le (snum + net_hash_mix net) (bhash_size h - 1)). lia. Qed.

Context (alloc_fresh : forall m b, bind_bucket_alloc m = Some b -> m !! b = None).

Lemma create_ok h net snum b h' : bind_inv h -> find_tb h net snum = None -> inet_bind_bucket_create h net snum = Some (b, h') ->
  bind_inv h' /\ tbs h' !! b = Some (mk_bind_bucket net snum 0 0 []) /\ socks h' = socks h /\ forall b' tb', b' <> b -> tbs h' !! b' = Some tb' -> tbs h !! b' = Some tb'.
Proof using alloc_fresh.
  intros Hv Hf. unfold inet_bind_bucket_create. destruct (bind_bucket_alloc (tbs h)) as [b0|] eqn:Ea; [|done]. intros [= -> <-]. apply alloc_fresh in Ea. set (tb0 := mk_bind_bucket net snum 0 0 []).
  assert (Hl : forall b' tb', <[b:=tb0]> (tbs h) !! b' = Some tb' -> (b' = b /\ tb' = tb0) \/ (b' <> b /\ tbs h !! b' = Some tb')).
  { intros b' tb'. destruct (decide (b' = b)) as [->|Hn]; [rewrite lookup_insert_eq; intros [= <-]; by left|rewrite lookup_insert_ne by done; by right]. }
  split_and!; [|by cbn; rewrite lookup_insert_eq|done|intros b' tb' Hn Hb; by destruct (Hl b' tb' Hb) as [[]|[]]].
  pose proof Hv as [Hs Ha Hu Ho Hb Hd]. split; cbn.
  - by rewrite length_alter.
  - intros b' tb' Hb'. unfold bhash_at. cbn. destruct (Hl b' tb' Hb') as [[-> ->]|[Hn Hb2]].
    + cbn. rewrite list_lookup_alter_eq. destruct (lookup_lt_is_Some_2 (bhash h) (inet_bhashfn net snum (bhash_size h))) as [l El]; [by apply bslot_lt|]. rewrite El. cbn. left.
    + specialize (Ha b' tb' Hb2). unfold bhash_at in Ha. destruct (decide (inet_bhashfn net snum (bhash_size h) = inet_bhashfn (ib_net tb') (port tb') (bhash_size h))) as [Eq|Hne]; [|by rewrite list_lookup_alter_ne].
      rewrite Eq, list_lookup_alter_eq. destruct (bhash h !! _) as [l|]; [|by apply not_elem_of_nil in Ha]. cbn in *. by right.
  - intros b1 b2 tb1 tb2 H1 H2 E1 E2. destruct (Hl b1 tb1 H1) as [[-> ->]|[N1 H1']], (Hl b2 tb2 H2) as [[-> ->]|[N2 H2']]; [done| | |by eapply Hu]; exfalso; cbn in E1, E2; [eapply (find_tb_none h net snum b2 tb2)|eapply (find_tb_none h net snum b1 tb1)]; done.
  - intros b' tb' i Hb' Hi. destruct (Hl b' tb' Hb') as [[-> ->]|[Hn Hb2]]; [by apply not_elem_of_nil in Hi|by eapply Ho].
  - intros i sk b' Hi Hk. destruct (Hb i sk b' Hi Hk) as (tb' & H1 & H2). exists tb'. split; [|done]. rewrite lookup_insert_ne; [done|]. intros <-. congruence.
  - intros b' tb' Hb'. destruct (Hl b' tb' Hb') as [[-> ->]|[Hn Hb2]]; [constructor|by eapply Hd].
Qed.

Lemma upd_tb_lookup h b g b' tb' : tbs (upd_tb h b g) !! b' = Some tb' -> exists tb, tbs h !! b' = Some tb /\ tb' = if decide (b' = b) then g tb else tb.
Proof.
  unfold upd_tb. cbn. destruct (decide (b' = b)) as [->|Hn]; [rewrite lookup_alter_eq; destruct (tbs h !! b) as [tb|]; [|done]; cbn; intros [= <-]; by exists tb|]. rewrite lookup_alter_ne by done. intros Hb. by exists tb'.
Qed.
Lemma upd_tb_same h b g tb : tbs h !! b = Some tb -> tbs (upd_tb h b g) !! b = Some (g tb).
Proof. intros Hb. unfold upd_tb. cbn. by rewrite lookup_alter_eq, Hb. Qed.
(** The sharing mark of a bucket is not part of its identity. *)
Lemma upd_fast_inv h b g : (forall tb, (ib_net (g tb), port (g tb), owners (g tb)) = (ib_net tb, port tb, owners tb)) -> bind_inv h -> bind_inv (upd_tb h b g).
Proof.
  intros Hg [Hs Ha Hu Ho Hb Hd]. assert (Hl : forall b' tb', tbs (upd_tb h b g) !! b' = Some tb' -> exists tb, tbs h !! b' = Some tb /\ ib_net tb' = ib_net tb /\ port tb' = port tb /\ owners tb' = owners tb).
  { intros b' tb' H. apply upd_tb_lookup in H as (tb & H1 & ->). exists tb. case_decide; [|done]. pose proof (Hg tb) as E1. injection E1 as -> -> ->. done. }
  split; [done|..].
  - intros b' tb' H. destruct (Hl b' tb' H) as (tb & H1 & -> & -> & _). by apply Ha.
  - intros b1 b2 tb1 tb2 H1 H2 E1 E2. destruct (Hl b1 tb1 H1) as (tb1' & H1' & F1 & G1 & _), (Hl b2 tb2 H2) as (tb2' & H2' & F2 & G2 & _). eapply Hu; [exact H1'|exact H2'|congruence..].
  - intros b' tb' i H Hi. destruct (Hl b' tb' H) as (tb & H1 & -> & -> & E3). rewrite E3 in Hi. by eapply Ho.
  - intros i sk b' Hi Hk. destruct (Hb i sk b' Hi Hk) as (tb & H1 & H2). unfold upd_tb. cbn. destruct (decide (b' = b)) as [->|Hn]; [rewrite lookup_alter_eq, H1|rewrite lookup_alter_ne by done; by exists tb]. exists (g tb). split; [done|]. pose proof (Hg tb) as E1. injection E1 as _ _ ->. done.
  - intros b' tb' H. destruct (Hl b' tb' H) as (tb & H1 & _ & _ & ->). by eapply Hd.
Qed.
Lemma bind_hash_socks h i b snum j : socks (inet_bind_hash h i b snum) !! j = if decide (j = i) then (fun sk => sk <| inet_num := snum |> <| icsk_bind_hash := Some b |>) <$> socks h !! j else socks h !! j.
Proof.
  unfold inet_bind_hash, upd_tb, upd_sock. cbn. destruct (decide (j = i)) as [->|Hn]; [|by rewrite !lookup_alter_ne]. rewrite !lookup_alter_eq. by destruct (socks h !! i).
Qed.
Lemma bind_hash_tbs h i b snum : tbs (inet_bind_hash h i b snum) = alter (fun tb => tb <| owners := i :: owners tb |> <| num_owners := num_owners tb + 1 |>) b (tbs h).
Proof. done. Qed.
Lemma bind_hash_ok h i b sk tb : bind_inv h -> tbs h !! b = Some tb -> socks h !! i = Some sk -> icsk_bind_hash sk = None -> sk_net sk = ib_net tb -> bind_inv (inet_bind_hash h i b (port tb)).
Proof.
  intros [Hs Ha Hu Ho Hb Hd] Ht Hi Hn En. set (g := fun tb => tb <| owners := i :: owners tb |> <| num_owners := num_owners tb + 1 |>). assert (Hl : forall b' tb', tbs (inet_bind_hash h i b (port tb)) !! b' = Some tb' -> exists tb0, tbs h !! b' = Some tb0 /\ tb' = if decide (b' = b) then g tb0 else tb0) by (intros b' tb' H; exact (upd_tb_lookup h b g b' tb' H)).
  assert (Hno : forall b' tb', tbs h !! b' = Some tb' -> i ∉ owners tb'). { intros b' tb' H Hin. destruct (Ho b' tb' i H Hin) as (sk' & H1 & H2 & _). congruence. }
  split; [done|..].
  - intros b' tb' H. destruct (Hl b' tb' H) as (tb0 & H1 & ->). change (b' ∈ bhash_at h (ib_net (if decide (b' = b) then g tb0 else tb0)) (port (if decide (b' = b) then g tb0 else tb0))). by case_decide; apply (Ha b' tb0).
  - intros b1 b2 tb1 tb2 H1 H2 E1 E2. destruct (Hl b1 tb1 H1) as (tb1' & H1' & ->), (Hl b2 tb2 H2) as (tb2' & H2' & ->). eapply Hu; [exact H1'|exact H2'|by repeat case_decide|by repeat case_decide].
  - intros b' tb' j H Hj. destruct (Hl b' tb' H) as (tb0 & H1 & ->). rewrite bind_hash_socks. case_decide as Hbb; [subst b'; assert (tb0 = tb) as -> by congruence; apply elem_of_cons in Hj as [->|Hj]|].
    + rewrite decide_True by done. rewrite Hi. cbn. by eexists.
    + destruct (Ho b tb j H1 Hj) as (sk' & F1 & F2 & F3 & F4). rewrite decide_False; [by exists sk'|]. intros ->. by apply (Hno b tb).
    + destruct (Ho b' tb0 j H1 Hj) as (sk' & F1 & F2 & F3 & F4). rewrite decide_False; [by exists sk'|]. intros ->. by apply (Hno b' tb0).
  - intros j sk' b' Hj Hk. rewrite bind_hash_socks in Hj. rewrite bind_hash_tbs. case_decide as Hji.
    + subst j. rewrite Hi in Hj. cbn in Hj. injection Hj as <-. cbn in Hk. injection Hk as <-. rewrite lookup_alter_eq, Ht. eexists. split; [done|left].
    + destruct (Hb j sk' b' Hj Hk) as (tb0 & H1 & H2). destruct (decide (b' = b)) as [->|Hbb]; [rewrite lookup_alter_eq, H1; eexists; split; [done|by right]|rewrite lookup_alter_ne by done; by exists tb0].
  - intros b' tb' H. destruct (Hl b' tb' H) as (tb0 & H1 & ->). case_decide; [|by eapply Hd]. apply NoDup_cons. split; [by apply (Hno b' tb0)|by eapply Hd].
Qed.

(** *** bind() *)

(** The socket is bound to a port that [P] allows, and shares it with nobody it clashes with. *)
Definition granted i sk (P : Z -> Prop) h' : Prop :=
  bind_inv h' /\ fast_ok (fun _ => True) h' /\
  exists b tb sk', socks h' !! i = Some sk' /\ icsk_bind_hash sk' = Some b /\ tbs h' !! b = Some tb /\ P (port tb) /\ inet_num sk' = port tb /\
    forall j skj, j ∈ owners tb -> j <> i -> socks h' !! j = Some skj -> bind_clash sk skj = false.
Definition no_clash h i sk tb : Prop := forall j skj, j ∈ owners tb -> j <> i -> socks h !! j = Some skj -> bind_clash sk skj = false.
Definition rebinds sk (snum : Z) : Prop := icsk_bind_hash sk = None \/ inet_num sk = snum.

Lemma bind_success_granted h i b sk tb (P : Z -> Prop) : bind_inv h -> fast_ok (fun j => j <> i) h -> socks h !! i = Some sk -> tbs h !! b = Some tb -> sk_net sk = ib_net tb -> rebinds sk (port tb) ->
  (fastreuse tb > 0 -> may_share sk = true) -> no_clash h i sk tb -> P (port tb) -> granted i sk P (snd (bind_success h i b sk (port tb))).
Proof.
  intros Hv Hf Hi Hb En Hr Hm Hc HP. unfold bind_success. cbn [snd]. destruct (icsk_bind_hash sk) as [b0|] eqn:Ek.
  - destruct Hr as [Hr|Hr]; [congruence|]. destruct (bi_bound h Hv i sk b0 Hi Ek) as (tb0 & H1 & H2). destruct (bi_owner h Hv b0 tb0 i H1 H2) as (sk0 & F1 & _ & F2 & F3). rewrite Hi in F1. injection F1 as <-.
    assert (b0 = b) as -> by (eapply (bi_uniq h Hv); [exact H1|exact Hb|congruence..]). assert (tb0 = tb) as -> by congruence. split_and!; [done| |exists b, tb, sk; by split_and!].
    intros b' tb' j skj G1 G2 G3 _ G4. destruct (decide (j = i)) as [->|Hj]; [|by eapply Hf]. destruct (bi_owner h Hv b' tb' i G1 G3) as (sk1 & L1 & L2 & _). rewrite Hi in L1, G4. injection L1 as <-. injection G4 as <-. rewrite Ek in L2. injection L2 as <-. rewrite Hb in G1. injection G1 as <-. by apply Hm.
  - split_and!; [by eapply bind_hash_ok| |].
    + intros b' tb' j skj G1 G2 G3 _ G4. rewrite bind_hash_socks in G4. rewrite bind_hash_tbs in G1. assert (Hin : exists tb0, tbs h !! b' = Some tb0 /\ fastreuse tb0 > 0 /\ (j ∈ owners tb0 \/ (j = i /\ b' = b))).
      { destruct (decide (b' = b)) as [->|Hn]; [rewrite lookup_alter_eq, Hb in G1; cbn in G1; injection G1 as <-; cbn in G2, G3; exists tb; split_and!; [done|done|apply elem_of_cons in G3 as [->|G3]; [by right|by left]]|rewrite lookup_alter_ne in G1 by done; exists tb'; by split_and!; auto]. }
      destruct Hin as (tb0 & L1 & L2 & L3). case_decide as Hj; [subst j; rewrite Hi in G4; cbn in G4; injection G4 as <-; destruct L3 as [L3|[_ ->]]|].
      * destruct (bi_owner h Hv b' tb0 i L1 L3) as (sk1 & M1 & M2 & _). congruence.
      * change (may_share sk = true). apply Hm. congruence.
      * destruct L3 as [L3|[L3 _]]; [|done]. by eapply Hf.
    + exists b, (tb <| owners := i :: owners tb |> <| num_owners := num_owners tb + 1 |>), (sk <| inet_num := port tb |> <| icsk_bind_hash := Some b |>). rewrite bind_hash_socks, decide_True, Hi, bind_hash_tbs, lookup_alter_eq, Hb by done. split_and!; [done..|].
      intros j skj Hj Hne Hk. cbn in Hj. apply elem_of_cons in Hj as [->|Hj]; [done|]. rewrite bind_hash_socks, decide_False in Hk by done. by eapply Hc.
Qed.
Lemma adjust_fields sk tb : (ib_net (adjust_fastreuse sk tb), port (adjust_fastreuse sk tb), owners (adjust_fastreuse sk tb)) = (ib_net tb, port tb, owners tb).
Proof. unfold adjust_fastreuse. destruct (owners tb) eqn:Eo; [cbn; by rewrite Eo|]. case_match; cbn; by rewrite Eo. Qed.
Lemma adjust_shared sk tb : fastreuse (adjust_fastreuse sk tb) > 0 -> may_share sk = true /\ (owners tb <> [] -> fastreuse tb > 0).
Proof.
  unfold adjust_fastreuse. destruct (owners tb) eqn:Eo; cbn; [destruct (may_share sk); [done|cbn; lia]|]. destruct (Z.eqb_spec (fastreuse tb) 0), (may_share sk); cbn; try done; lia.
Qed.
Lemma bind_bucket_granted h i b sk tb (P : Z -> Prop) : bind_inv h -> fast_ok (fun j => j <> i) h -> socks h !! i = Some sk -> tbs h !! b = Some tb -> sk_net sk = ib_net tb -> rebinds sk (port tb) ->
  no_clash h i sk tb -> P (port tb) -> granted i sk P (snd (bind_bucket h i b sk (port tb))).
Proof.
  intros Hv Hf Hi Hb En Hr Hc HP. unfold bind_bucket. pose proof (adjust_fields sk tb) as Ea. injection Ea as E1 E2 E3. pose proof (upd_tb_same h b (adjust_fastreuse sk) tb Hb) as Hb1. rewrite <- E2. apply bind_success_granted; [apply upd_fast_inv; [apply adjust_fields|done]| |done|done|congruence|by rewrite E2|by intros [? _]%adjust_shared|unfold no_clash; rewrite E3; exact Hc|by rewrite E2].
  intros b' tb' j skj G1 G2 G3 G4 G5. apply upd_tb_lookup in G1 as (tb0 & G1 & ->). case_decide as Hbb; [|by eapply Hf]. subst b'. assert (tb0 = tb) as -> by congruence. apply adjust_shared in G2 as [_ G2]. rewrite E3 in G3. eapply Hf; [exact Hb| |exact G3|done|exact G5]. apply G2. intros Eo. rewrite Eo in G3. by apply not_elem_of_nil in G3.
Qed.
Lemma bind_new_granted h i sk snum (P : Z -> Prop) : bind_inv h -> fast_ok (fun j => j <> i) h -> socks h !! i = Some sk -> rebinds sk snum -> find_tb h (sk_net sk) snum = None -> P snum ->
  let '(ret, h') := bind_new h i sk snum in (ret = 0 /\ granted i sk P h') \/ (ret = 1 /\ h' = h /\ bind_bucket_alloc (tbs h) = None).
Proof using alloc_fresh.
  intros Hv Hf Hi Hr Hn HP. unfold bind_new. destruct (inet_bind_bucket_create h (sk_net sk) snum) as [[b h1]|] eqn:Ec.
  - left. destruct (create_ok h (sk_net sk) snum b h1 Hv Hn Ec) as (Hv1 & Hb & Es & Ho). set (tb := mk_bind_bucket (sk_net sk) snum 0 0 []) in *. split; [done|]. change snum with (port tb). change (0, _).2 with (bind_bucket h1 i b sk (port tb)).2. apply (bind_bucket_granted h1 i b sk tb P); [done| |by rewrite Es|done|done|done|intros j skj Hj; by apply not_elem_of_nil in Hj|done].
    intros b' tb' j skj G1 G2 G3 G4 G5. destruct (decide (b' = b)) as [->|Hne]; [rewrite Hb in G1; injection G1 as <-; by apply not_elem_of_nil in G3|]. rewrite Es in G5. eapply Hf; eauto.
  - right. unfold inet_bind_bucket_create in Ec. by destruct (bind_bucket_alloc (tbs h)).
Qed.

Lemma conflict_false h i sk tb : inet_csk_bind_conflict h i sk tb = false -> no_clash h i sk tb.
Proof.
  unfold inet_csk_bind_conflict. destruct (find_sock _ _ _) eqn:Ef; [done|]. intros _ j skj Hj Hne Hk. eapply find_sock_none; [exact Ef| |exact Hk]. by apply drop_id_in.
Qed.
Lemma conflict_true h i sk tb : inet_csk_bind_conflict h i sk tb = true -> exists j skj, j ∈ owners tb /\ j <> i /\ socks h !! j = Some skj /\ bind_clash sk skj = true.
Proof.
  unfold inet_csk_bind_conflict. destruct (find_sock _ _ _) as [j|] eqn:Ef; [|done]. intros _. apply find_sock_some in Ef as [Hj (skj & H1 & H2)]. apply drop_id_in in Hj as [Hj Hne]. by exists j, skj.
Qed.
(** The mark decides what a walk over the owners would: sharing is no clash. *)
Lemma shared_no_clash h i sk tb : (forall j skj, j ∈ owners tb -> j <> i -> socks h !! j = Some skj -> may_share skj = true) -> may_share sk = true -> no_clash h i sk tb.
Proof.
  intros Ho Hm j skj Hj Hne Hk. specialize (Ho j skj Hj Hne Hk). unfold may_share in *. apply andb_true_iff in Hm as [Hm _], Ho as [Ho1 Ho2]. apply negb_true_iff in Ho2. unfold bind_clash. rewrite Hm, Ho1, Ho2. cbn. by rewrite !andb_false_r.
Qed.
Lemma no_clash_conflict h i sk tb : no_clash h i sk tb -> inet_csk_bind_conflict h i sk tb = false.
Proof. intros Hn. destruct (inet_csk_bind_conflict h i sk tb) eqn:Ec; [|done]. apply conflict_true in Ec as (j & skj & H1 & H2 & H3 & H4). by rewrite (Hn j skj H1 H2 H3) in H4. Qed.

(** What the port's owners have against the socket. *)
Definition refused_port h i sk (snum : Z) : Prop :=
  bind_bucket_alloc (tbs h) = None \/
  exists b tb j skj, find_tb h (sk_net sk) snum = Some b /\ tbs h !! b = Some tb /\ j ∈ owners tb /\ j <> i /\ socks h !! j = Some skj /\ bind_clash sk skj = true.
Lemma bind_port_ok h i sk snum size retry (P : Z -> Prop) : bind_inv h -> fast_ok (fun j => j <> i) h -> socks h !! i = Some sk -> rebinds sk snum -> P snum ->
  match bind_port h i sk snum size retry with
  | Some (ret, h') => (ret = 0 /\ granted i sk P h') \/ (ret = 1 /\ h' = h /\ refused_port h i sk snum)
  | None => retry = true
  end.
Proof using alloc_fresh.
  intros Hv Hf Hi Hr HP. unfold bind_port. destruct (find_tb h (sk_net sk) snum) as [b|] eqn:Et.
  - pose proof (find_tb_some h _ _ _ Et) as (tb & Hb & En & Ep). rewrite Hb. subst snum. assert (Hbb : no_clash h i sk tb -> 0 = 0 /\ granted i sk P (bind_bucket h i b sk (port tb)).2) by (intros Hc; split; [done|]; by apply bind_bucket_granted).
    assert (Hbb2 : no_clash h i sk tb -> let '(ret, h') := bind_bucket h i b sk (port tb) in (ret = 0 /\ granted i sk P h') \/ (ret = 1 /\ h' = h /\ refused_port h i sk (port tb))) by (intros Hc; left; by apply Hbb).
    destruct (owners tb) as [|o os] eqn:Eo; [apply Hbb2; intros j skj Hj; rewrite Eo in Hj; by apply not_elem_of_nil in Hj|]. case_if_as Hs.
    + left. split; [done|]. apply andb_true_iff in Hs as [Hs _]. apply andb_true_iff in Hs as [Hs Hm]. apply Z.gtb_lt in Hs. apply bind_success_granted; try done. apply shared_no_clash; [|done]. intros j skj Hj Hne Hk. eapply Hf; [exact Hb|lia|done..].
    + case_if_as Hc; [|by apply Hbb2, conflict_false]. case_if_as Ha; [by apply andb_true_iff in Ha as [_ Ha]|]. right. split_and!; [done..|]. right. apply conflict_true in Hc as (j & skj & H1 & H2 & H3 & H4). exists b, tb, j, skj. by split_and!.
  - pose proof (bind_new_granted h i sk snum P Hv Hf Hi Hr Et HP) as Hb. destruct (bind_new h i sk snum) as [ret h']. destruct Hb as [Hb|(H1 & H2 & H3)]; [by left|right; split_and!; [done..|by left]].
Qed.

(** The port that is found lies in the range and is not reserved. *)
Definition port_in (low high : Z) (p : Z) : Prop := low <= p <= high /\ inet_is_reserved_local_port p = false.
Lemma search_port_ok h sk low high n : low <= high -> forall rover sr size, low <= rover <= high -> (size <> -1 -> port_in low high sr) ->
  match search_port n h sk low high rover sr size with
  | PortFree p => port_in low high p /\ (forall b, find_tb h (sk_net sk) p = Some b -> tbs h !! b = None)
  | PortShare p size' => port_in low high p
  | PortEnd p size' => size' <> -1 -> port_in low high p
  end.
Proof.
  intros Hlh. induction n as [|n IH]; intros rover sr size Hro Hsr; cbn [search_port]; [done|]. cbn zeta. set (next := if rover + 1 >? high then low else rover + 1). assert (Hnx : low <= next <= high) by (unfold next; destruct (Z.gtb_spec (rover + 1) high); lia). clearbody next.
  case_if_as Hres; [by apply IH|]. destruct (find_tb h (sk_net sk) rover ≫= (fun b => tbs h !! b)) as [tb|] eqn:Et; [|split; [done|intros b Hb; by rewrite Hb in Et]].
  case_if_as Hs; [|by apply IH]. case_if_as Hbs; [done|]. by apply IH.
Qed.
Definition any_port i sk h (r : Z * inet_hashinfo) : Prop :=
  (fst r = 0 /\ granted i sk (port_in local_ports_low local_ports_high) (snd r)) \/ (fst r = 1 /\ snd r = h).
Lemma share_port_ok h i sk snum size retry again : bind_inv h -> fast_ok (fun j => j <> i) h -> socks h !! i = Some sk -> icsk_bind_hash sk = None -> port_in local_ports_low local_ports_high snum -> (retry = true -> any_port i sk h again) ->
  any_port i sk h (match bind_port h i sk snum size retry with Some r => r | None => again end).
Proof using alloc_fresh.
  intros Hv Hf Hi Hk HP Hag. pose proof (bind_port_ok h i sk snum size retry _ Hv Hf Hi (or_introl Hk) HP) as Hb. destruct (bind_port _ _ _ _ _ _) as [[ret h']|]; [|by apply Hag]. unfold any_port. cbn. destruct Hb as [Hb|(H1 & H2 & _)]; auto.
Qed.
Lemma get_any_ok h i sk n : bind_inv h -> fast_ok (fun j => j <> i) h -> socks h !! i = Some sk -> icsk_bind_hash sk = None -> local_ports_low <= local_ports_high -> any_port i sk h (get_any_port n h i sk).
Proof using alloc_fresh.
  intros Hv Hf Hi Hk Hlh. assert (Hfail : any_port i sk h (1, h)) by (by right).
  assert (Hstep : forall x retry again, (retry = true -> any_port i sk h again) -> let share snum size := match bind_port h i sk snum size retry with Some r => r | None => again end in
    any_port i sk h (match search_port (Z.to_nat (local_ports_high - local_ports_low + 1)) h sk local_ports_low local_ports_high (x mod (local_ports_high - local_ports_low + 1) + local_ports_low) (x mod (local_ports_high - local_ports_low + 1) + local_ports_low) (-1) with
      | PortFree snum => bind_new h i sk snum | PortShare snum size => share snum size | PortEnd snum size => if negb (size =? -1) then share snum size else (1, h) end)).
  { intros x retry again Hag share. set (rover := x mod _ + _). assert (Hro : local_ports_low <= rover <= local_ports_high) by (unfold rover; pose proof (Z.mod_pos_bound x (local_ports_high - local_ports_low + 1)); lia). clearbody rover.
    pose proof (search_port_ok h sk local_ports_low local_ports_high (Z.to_nat (local_ports_high - local_ports_low + 1)) Hlh rover rover (-1) Hro ltac:(lia)) as Hs. destruct (search_port _ _ _ _ _ _ _ _) as [p|p size|p size].
    - destruct Hs as [HP Hn]. assert (Et : find_tb h (sk_net sk) p = None) by (destruct (find_tb h (sk_net sk) p) as [b|] eqn:Et; [|done]; pose proof (find_tb_some h _ _ _ Et) as (tb & Hb & _); by rewrite (Hn b eq_refl) in Hb).
      pose proof (bind_new_granted h i sk p _ Hv Hf Hi (or_introl Hk) Et HP) as Hb. destruct (bind_new h i sk p) as [ret h']. unfold any_port. cbn. destruct Hb as [Hb|(H1 & H2 & _)]; auto.
    - by apply share_port_ok.
    - case_if_as Hz; [|done]. apply negb_true_iff, Z.eqb_neq in Hz. apply share_port_ok; auto. }
  induction n as [|n IH]; cbn [get_any_port]; cbv beta iota zeta delta [inet_get_local_port_range]; apply Hstep; [done|auto].
Qed.

Lemma get_port_spec h i sk snum : bind_inv h -> fast_ok (fun j => j <> i) h -> socks h !! i = Some sk ->
  icsk_bind_hash sk = None \/ (inet_num sk = snum /\ snum <> 0) -> local_ports_low <= local_ports_high ->
  let '(ret, h') := inet_csk_get_port h i snum in
  (ret = 0 /\ granted i sk (fun p => if snum =? 0 then port_in local_ports_low local_ports_high p else p = snum) h') \/
  (ret = 1 /\ h' = h /\ (snum <> 0 -> refused_port h i sk snum)).
Proof using alloc_fresh.
  intros Hv Hf Hi Hr Hlh. unfold inet_csk_get_port. rewrite Hi. destruct (Z.eqb_spec snum 0) as [->|Hn].
  - pose proof (get_any_ok h i sk 5 Hv Hf Hi) as Ha. destruct (get_any_port 5 h i sk) as [ret h']. destruct Ha as [Ha|[H1 H2]]; [by destruct Hr as [?|[_ ?]]|done|by left|right; by split_and!].
  - pose proof (bind_port_ok h i sk snum (-1) false (fun p => p = snum) Hv Hf Hi) as Hb. specialize (Hb ltac:(unfold rebinds; tauto) eq_refl). destruct (bind_port _ _ _ _ _ _) as [[ret h']|]; [|done]. cbn [default from_option id]. destruct Hb as [Hb|(H1 & H2 & H3)]; auto.
Qed.
(** bind() and listen() get a port safely: on success the socket is bound to the port it asked
    for, or to one of the local port range that is not reserved; no other owner of the port clashes
    with it by the rules of address reuse (also where the sharing mark of the bucket spares the
    walk over the owners), and buckets, owners and marks are consistent.  On failure nothing has
    changed, and a given port is only refused for lack of memory or because of an owner that
    clashes.  The mark may be stale for the socket itself, as it is while listen() asks again. *)
Theorem get_port_ok h i sk snum : bind_inv h -> fast_ok (fun j => j <> i) h -> socks h !! i = Some sk ->
  icsk_bind_hash sk = None \/ (inet_num sk = snum /\ snum <> 0) -> local_ports_low <= local_ports_high ->
  let '(ret, h') := inet_csk_get_port h i snum in
  (ret = 0 /\ granted i sk (fun p => if snum =? 0 then port_in local_ports_low local_ports_high p else p = snum) h') \/
  (ret = 1 /\ h' = h /\ (snum <> 0 -> refused_port h i sk snum)).
Proof using alloc_fresh. apply get_port_spec. Qed.
(** The sharing mark of a bucket is equivalent to the walk over its owners: where it lets a
    socket pass, no owner clashes with it. *)
Theorem fastreuse_equiv h i b tb sk : fast_ok (fun j => j <> i) h -> tbs h !! b = Some tb -> fastreuse tb > 0 -> may_share sk = true -> inet_csk_bind_conflict h i sk tb = false.
Proof. intros Hf Hb Hp Hm. apply no_clash_conflict, shared_no_clash; [|done]. intros j skj Hj Hne Hk. by eapply Hf. Qed.

(** *** Giving a port back *)
Lemma destroy_inv h b : bind_inv h -> bind_inv (inet_bind_bucket_destroy h b).
Proof.
  intros Hv. unfold inet_bind_bucket_destroy. destruct (tbs h !! b) as [tb|] eqn:Hb; [|done]. destruct (owners tb) eqn:Eo; [|done]. pose proof Hv as [Hs Ha Hu Ho Hbo Hd].
  assert (Hl : forall b' tb', delete b (tbs h) !! b' = Some tb' -> b' <> b /\ tbs h !! b' = Some tb') by (intros b' tb' H; by apply lookup_delete_Some in H as [? ?]).
  split; cbn.
  - by rewrite length_fmap.
  - intros b' tb' H. apply Hl in H as [Hn H]. specialize (Ha b' tb' H). unfold bhash_at in *. cbn. rewrite list_lookup_fmap. destruct (bhash h !! _) as [l|]; [|by apply not_elem_of_nil in Ha]. cbn in *. by apply drop_id_in.
  - intros b1 b2 tb1 tb2 H1 H2. apply Hl in H1 as [_ H1], H2 as [_ H2]. by apply Hu.
  - intros b' tb' i H. apply Hl in H as [_ H]. by apply Ho.
  - intros i sk b' Hi Hk. destruct (Hbo i sk b' Hi Hk) as (tb' & H1 & H2). exists tb'. split; [|done]. rewrite lookup_delete_ne; [done|]. intros <-. rewrite Hb in H1. injection H1 as <-. rewrite Eo in H2. by apply not_elem_of_nil in H2.
  - intros b' tb' H. apply Hl in H as [_ H]. by eapply Hd.
Qed.
Lemma NoDup_drop i l : NoDup l -> NoDup (drop_id i l).
Proof. intros H. apply NoDup_ListNoDup in H. apply NoDup_ListNoDup. by apply List.NoDup_filter. Qed.
Lemma unbind_inv h i sk b g g' : bind_inv h -> socks h !! i = Some sk -> icsk_bind_hash sk = Some b -> icsk_bind_hash (g' sk) = None ->
  (forall tb, (ib_net (g tb), port (g tb), owners (g tb)) = (ib_net tb, port tb, drop_id i (owners tb))) -> bind_inv (upd_sock (upd_tb h b g) i g').
Proof.
  intros Hv Hi Hk Hg' Hg. assert (Hl : forall b' tb', tbs (upd_tb h b g) !! b' = Some tb' -> exists tb0, tbs h !! b' = Some tb0 /\ ib_net tb' = ib_net tb0 /\ port tb' = port tb0 /\ owners tb' = if decide (b' = b) then drop_id i (owners tb0) else owners tb0).
  { intros b' tb' H. apply upd_tb_lookup in H as (tb0 & H1 & ->). exists tb0. case_decide; [|done]. pose proof (Hg tb0) as E1. injection E1 as -> -> ->. done. }
  assert (Hso : forall j, j <> i -> socks (upd_sock (upd_tb h b g) i g') !! j = socks h !! j) by (intros j Hj; by rewrite upd_sock_other).
  pose proof Hv as [Hs Ha Hu Ho Hbo Hd]. assert (Hot : forall b' tb' j, tbs h !! b' = Some tb' -> j ∈ owners tb' -> b' <> b -> j <> i). { intros b' tb' j H Hj Hn ->. destruct (Ho b' tb' i H Hj) as (sk' & F1 & F2 & _). congruence. }
  split; [done|..].
  - intros b' tb' H. destruct (Hl b' tb' H) as (tb0 & H1 & -> & -> & _). by apply (Ha b' tb0).
  - intros b1 b2 tb1 tb2 H1 H2 E1 E2. destruct (Hl b1 tb1 H1) as (tb1' & H1' & F1 & G1 & _), (Hl b2 tb2 H2) as (tb2' & H2' & F2 & G2 & _). eapply Hu; [exact H1'|exact H2'|congruence..].
  - intros b' tb' j H Hj. destruct (Hl b' tb' H) as (tb0 & H1 & -> & -> & Eo). rewrite Eo in Hj. assert (Hj' : j ∈ owners tb0 /\ j <> i) by (case_decide as Hbb; [by apply drop_id_in|by split; [|eapply Hot]]). destruct Hj' as [Hj' Hji]. rewrite (Hso j Hji). destruct (Ho _ tb0 j H1 Hj') as (sk' & F1 & F2 & F3 & F4). by exists sk'.
  - intros j sk' b' Hj Hkj. destruct (decide (j = i)) as [->|Hji]; [rewrite upd_sock_same in Hj; cbn in Hj; rewrite Hi in Hj; injection Hj as <-; congruence|]. rewrite (Hso j Hji) in Hj. destruct (Hbo j sk' b' Hj Hkj) as (tb0 & H1 & H2). change (tbs (upd_sock (upd_tb h b g) i g')) with (alter g b (tbs h)).
    destruct (decide (b' = b)) as [->|Hbb]; [rewrite lookup_alter_eq, H1; exists (g tb0); split; [done|]; pose proof (Hg tb0) as E1; injection E1 as _ _ ->; by apply drop_id_in|rewrite lookup_alter_ne by done; by exists tb0].
  - intros b' tb' H. destruct (Hl b' tb' H) as (tb0 & H1 & _ & _ & ->). case_decide; [apply NoDup_drop|]; by eapply Hd.
Qed.
Lemma sole_owner h i sk b tb : bind_inv h -> socks h !! i = Some sk -> icsk_bind_hash sk = Some b -> tbs h !! b = Some tb -> drop_id i (owners tb) = [] <-> owners tb = [i].
Proof.
  intros Hv Hi Hk Hb. destruct (bi_bound h Hv i sk b Hi Hk) as (tb0 & F1 & F2). assert (tb0 = tb) as -> by congruence. pose proof (bi_dup h Hv b tb Hb) as Hdup. split.
  - intros Hd. assert (Hall : forall j, j ∈ owners tb -> j = i) by (intros j Hj; destruct (decide (j = i)); [done|]; exfalso; assert (j ∈ drop_id i (owners tb)) as Hin by (by apply drop_id_in); rewrite Hd in Hin; by apply not_elem_of_nil in Hin).
    destruct (owners tb) as [|x [|y l]]; [by apply not_elem_of_nil in F2|by rewrite (Hall x ltac:(left))|]. exfalso. apply NoDup_cons in Hdup as [Hdup _]. apply Hdup. rewrite (Hall x ltac:(left)), (Hall y ltac:(right; left)). left.
  - intros ->. unfold drop_id. cbn. by rewrite Nat.eqb_refl.
Qed.
(** Giving a port back: the socket is bound no more, every other binding is as before, the
    bucket goes away with its last owner and only then. *)
Theorem put_port_ok h i sk b tb : bind_inv h -> socks h !! i = Some sk -> icsk_bind_hash sk = Some b -> tbs h !! b = Some tb ->
  let h' := inet_put_port h i in
  bind_inv h' /\ bsockets h' = bsockets h - 1 /\ icsk_bind_hash <$> socks h' !! i = Some None /\ (forall j, j <> i -> socks h' !! j = socks h !! j) /\
  (forall b', b' <> b -> tbs h' !! b' = tbs h !! b') /\ (tbs h' !! b = None <-> owners tb = [i]).
Proof.
  intros Hv Hi Hk Hb. cbn zeta. unfold inet_put_port. rewrite Hi. change (icsk_bind_hash <$> Some sk) with (Some (icsk_bind_hash sk)). rewrite Hk. cbn zeta. set (h1 := h <| bsockets := bsockets h - 1 |>). set (g := fun tb => tb <| owners := drop_id i (owners tb) |> <| num_owners := num_owners tb - 1 |>). set (h2 := upd_tb h1 b g). set (h3 := upd_sock h2 i _).
  assert (Hv1 : bind_inv h1) by (by destruct Hv). assert (Hso : forall j, j <> i -> socks h3 !! j = socks h !! j) by (intros j Hj; unfold h3; by rewrite upd_sock_other).
  assert (Hsi : socks h3 !! i = Some (sk <| icsk_bind_hash := None |> <| inet_num := 0 |>)) by (unfold h3; rewrite upd_sock_same; cbn; by rewrite Hi).
  assert (Hv3 : bind_inv h3) by (by eapply (unbind_inv h1 i sk b)).
  assert (Eb : tbs h3 !! b = Some (g tb)) by (change (tbs h3) with (alter g b (tbs h)); by rewrite lookup_alter_eq, Hb). assert (Hob : forall b', b' <> b -> tbs h3 !! b' = tbs h !! b') by (intros b' Hn; change (tbs h3) with (alter g b (tbs h)); by rewrite lookup_alter_ne).
  assert (Hsole : owners (g tb) = [] <-> owners tb = [i]) by (by eapply (sole_owner h i sk b)).
  assert (Ebs : bsockets h3 = bsockets h - 1) by done. clearbody h3. pose proof (destroy_inv h3 b Hv3) as Hv4. unfold inet_bind_bucket_destroy in *. rewrite Eb in *. destruct (owners (g tb)) eqn:Eo; cbn [tbs socks bsockets set set_tbs set_bhash] in *.
  - split_and!; [done|done|cbn; by rewrite Hsi|exact Hso|intros b' Hn; cbn; rewrite lookup_delete_ne by done; by apply Hob|cbn; rewrite lookup_delete_eq; tauto].
  - split_and!; [done|done|by rewrite Hsi|exact Hso|exact Hob|]. rewrite Eb. split; [done|]. intros Ho%Hsole. done.
Qed.
End Binding.

(** ** connect() *)

(** What inet_timewait_sock.c does to the tables. *)
Definition unlink_tw (h : inet_hashinfo) (t : nat) : inet_hashinfo :=
  upd_sock (h <| ehash := (fun hd => hd <| twchain := drop_id t (twchain hd) |>) <$> ehash h |>) t (fun sk => sk <| sk_linked := false |>).
Definition unbind_tw (h : inet_hashinfo) (t : nat) : inet_hashinfo :=
  match icsk_bind_hash <$> socks h !! t with
  | Some (Some b) => inet_bind_bucket_destroy (upd_sock (upd_tb h b (fun tb => tb <| owners := drop_id t (owners tb) |>)) t (fun sk => sk <| icsk_bind_hash := None |>)) b
  | _ => h
  end.
Class HashLaws (E : HashEnv) : Prop := {
  alloc_fresh m b : bind_bucket_alloc m = Some b -> m !! b = None;
  tw_unhash_spec h t : inet_twsk_unhash h t = unlink_tw h t;
  tw_bind_spec h t : inet_twsk_bind_unhash h t = unbind_tw h t;
  tw_deschedule_spec h t : inet_twsk_deschedule h t = unbind_tw (unlink_tw h t) t;
}.

Section Connect.
Context {E : HashEnv} {L : HashLaws E}.
Implicit Types (h : inet_hashinfo) (sk : inet_sock) (tb : inet_bind_bucket) (i j b t : nat).

Definition on_table h i : Prop := hashed h i \/ tw_hashed h i.
(** The four-tuple. *)
Definition flow_key sk := (sk_net sk, inet_rcv_saddr sk, inet_num sk, inet_daddr sk, inet_dport sk).
(** No two sockets of the table have the same four-tuple. *)
Definition unique_flows h : Prop := forall i j ski skj, on_table h i -> on_table h j -> socks h !! i = Some ski -> socks h !! j = Some skj -> flow_key ski = flow_key skj -> i = j.
(** The sockets of the table own a port, but for those outside of [P]. *)
Definition all_bound (P : nat -> Prop) h : Prop := forall i sk, on_table h i -> P i -> socks h !! i = Some sk -> icsk_bind_hash sk <> None.
Definition tw_apart h : Prop := forall i, tw_hashed h i -> ~ hashed h i /\ ~ listening h i.
Record conn (P : nat -> Prop) h : Prop := {
  ci_hash : hash_inv h;
  ci_bind : bind_inv h;
  ci_uniq : unique_flows h;
  ci_bound : all_bound P h;
  ci_apart : tw_apart h;
}.
Definition conn_inv h : Prop := conn (fun _ => True) h.

(** What the tables are sorted by; a change of the rest of the sockets, or of a socket on no chain,
    leaves them alone. *)
Definition table_id sk := (flow_key sk, sk_hash sk, sk_linked sk).
Definition same_tables h h' : Prop :=
  ehash h' = ehash h /\ ehash_mask h' = ehash_mask h /\ listening_hash h' = listening_hash h /\ forall j, off_chain h j \/ table_id <$> socks h' !! j = table_id <$> socks h !! j.
Lemma on_table_off h j : on_table h j -> ~ off_chain h j.
Proof. unfold on_table, off_chain. tauto. Qed.
Lemma listening_off h j : listening h j -> ~ off_chain h j.
Proof. unfold off_chain. tauto. Qed.
Lemma same_off h h' j : same_tables h h' -> off_chain h' j <-> off_chain h j.
Proof. intros (H1 & _ & H3 & _). unfold off_chain, hashed, tw_hashed, listening. by rewrite H1, H3. Qed.
Lemma same_table_sock h h' j sk' : same_tables h h' -> ~ off_chain h j -> socks h' !! j = Some sk' -> exists sk, socks h !! j = Some sk /\ table_id sk' = table_id sk.
Proof. intros (_ & _ & _ & H) Hof Hj. destruct (H j) as [?|H']; [done|]. rewrite Hj in H'. destruct (socks h !! j) as [sk|]; [|done]. cbn in H'. injection H' as H'. exists sk. split; [done|]. unfold table_id, flow_key. congruence. Qed.
Lemma same_tables_sym h h' : same_tables h h' -> same_tables h' h.
Proof. intros Hs. pose proof Hs as (H1 & H2 & H3 & H4). split_and!; [done..|]. intros j. rewrite (same_off h h' j Hs). destruct (H4 j); [by left|by right]. Qed.
Lemma same_tables_trans h1 h2 h3 : same_tables h1 h2 -> same_tables h2 h3 -> same_tables h1 h3.
Proof.
  intros H H'. pose proof H as (A1 & A2 & A3 & A4). pose proof H' as (B1 & B2 & B3 & B4). split_and!; [congruence..|]. intros j. destruct (A4 j) as [?|A]; [by left|]. destruct (B4 j) as [B|B]; [left; by apply (same_off h1 h2 j H)|right; congruence].
Qed.
Lemma same_on_table h h' j : same_tables h h' -> on_table h' j <-> on_table h j.
Proof. intros (H1 & _). unfold on_table, hashed, tw_hashed. by rewrite H1. Qed.
Lemma same_hash_inv h h' : same_tables h h' -> hash_inv h -> hash_inv h'.
Proof.
  intros Hs [Hm Hl Hc Hli]. pose proof Hs as (H1 & H2 & H3 & _). apply same_tables_sym in Hs. assert (Hof : forall j, ~ off_chain h j -> ~ off_chain h' j) by (intros j; by rewrite (same_off h' h j Hs)). split; [by rewrite H1, H2|by rewrite H3| |].
  - rewrite H1. intros s hd j Hd Hj. assert (Hj' : on_table h j) by (destruct Hj as [Hj|Hj]; [left|right]; by exists s, hd). destruct (Hc s hd j Hd Hj) as [(sk & F1 & (W1 & W2 & W3 & W4) & F2 & F3 & F4)]. destruct (same_table_sock h' h j sk Hs (Hof j (on_table_off h j Hj')) F1) as (sk' & G & Gt). unfold table_id, flow_key in Gt. injection Gt as T1 T2 T3 T4 T5 T6 T7.
    split. exists sk'. unfold wf_sock, inet_sk_ehashfn, inet_ehash_slot in *. rewrite H2, <- T1, <- T2, <- T3, <- T4, <- T5, <- T6, <- T7. by split_and!.
  - rewrite H3. intros s l j Hd Hj. destruct (Hli s l j Hd Hj) as (sk & F1 & F2 & F3). assert (Hj' : listening h j) by (by exists s, l). destruct (same_table_sock h' h j sk Hs (Hof j (listening_off h j Hj')) F1) as (sk' & G & Gt). unfold table_id, flow_key in Gt. injection Gt as T1 T2 T3 T4 T5 T6 T7. exists sk'. unfold inet_sk_listen_hashfn in *. rewrite <- T1, <- T3, <- T7. by split_and!.
Qed.
Lemma same_unique h h' : same_tables h h' -> unique_flows h -> unique_flows h'.
Proof.
  intros Hs Hu i j ski skj Hi Hj Ei Ej Ek. rewrite (same_on_table h h') in Hi, Hj by done. destruct (same_table_sock h h' i ski Hs (on_table_off h i Hi) Ei) as (si & F1 & T1), (same_table_sock h h' j skj Hs (on_table_off h j Hj) Ej) as (sj & F2 & T2). apply (Hu i j si sj); [done..|]. unfold table_id in *. congruence.
Qed.
Lemma same_apart h h' : same_tables h h' -> tw_apart h -> tw_apart h'.
Proof. intros (H1 & _ & H3 & _). unfold tw_apart, tw_hashed, hashed, listening. by rewrite H1, H3. Qed.
Lemma upd_off_same h i g : off_chain h i -> same_tables h (upd_sock h i g).
Proof. intros Ho. split_and!; [done..|]. intros j. destruct (decide (i = j)) as [->|Hn]; [by left|right; by rewrite upd_sock_other]. Qed.
Lemma conn_same P h h' : conn P h -> same_tables h h' -> bind_inv h' -> (forall j sk, on_table h j -> P j -> socks h' !! j = Some sk -> icsk_bind_hash sk <> None) -> conn P h'.
Proof.
  intros [H1 H2 H3 H4 H5] Hs Hb Ha. split; [by eapply same_hash_inv|done|by eapply same_unique| |by eapply same_apart]. intros j sk Hj. apply Ha. by apply (same_on_table h h').
Qed.

(** The bindings of the sockets. *)
Definition binding sk := (fun b => (b, sk_net sk, inet_num sk)) <$> icsk_bind_hash sk.
Definition same_binds h h' : Prop := (tbs h', bhash h', bhash_size h') = (tbs h, bhash h, bhash_size h) /\ forall j, socks h' !! j ≫= binding = socks h !! j ≫= binding.
Lemma same_bind_inv h h' : same_binds h h' -> bind_inv h -> bind_inv h'.
Proof.
  intros [Ht Hs] [H1 H2 H3 H4 H5 H6]. injection Ht as Ht Hb Hz. split; rewrite ?Ht, ?Hb, ?Hz; [done| |done| | |done].
  - intros b tb H. unfold bhash_at. rewrite Hb, Hz. by apply H2.
  - intros b tb j H Hj. destruct (H4 b tb j H Hj) as (sk & F1 & F2 & F3 & F4). specialize (Hs j). rewrite F1 in Hs. cbn in Hs. unfold binding in Hs at 2. rewrite F2 in Hs. destruct (socks h' !! j) as [sk'|]; [|done]. cbn in Hs. unfold binding in Hs. destruct (icsk_bind_hash sk') as [b'|] eqn:Eb; [|done]. cbn in Hs. injection Hs as -> E1 E2. exists sk'. split_and!; congruence.
  - intros j sk b Hj Hk. specialize (Hs j). rewrite Hj in Hs. cbn in Hs. unfold binding in Hs at 1. rewrite Hk in Hs. cbn in Hs. destruct (socks h !! j) as [sk0|] eqn:Ej; [|done]. cbn in Hs. unfold binding in Hs. destruct (icsk_bind_hash sk0) as [b0|] eqn:Eb; [|done]. cbn in Hs. injection Hs as <- _ _. by eapply H5.
Qed.

(** *** Replacing a TIME-WAIT socket *)
Lemma unlink_tw_lookup h t s hd : ehash (unlink_tw h t) !! s = Some hd -> exists hd0, ehash h !! s = Some hd0 /\ chain hd = chain hd0 /\ twchain hd = drop_id t (twchain hd0).
Proof. unfold unlink_tw, upd_sock. cbn. rewrite list_lookup_fmap. destruct (ehash h !! s) as [hd0|]; [|done]. cbn. intros [= <-]. by exists hd0. Qed.
Lemma unlink_tw_table h t j : on_table (unlink_tw h t) j -> hashed h j \/ (tw_hashed h j /\ j <> t).
Proof.
  intros [(s & hd & Hd & Hj)|(s & hd & Hd & Hj)]; apply unlink_tw_lookup in Hd as (hd0 & Hd & E1 & E2); [rewrite E1 in Hj; left; by exists s, hd0|]. rewrite E2 in Hj. apply drop_id_in in Hj as [Hj Hn]. right. split; [by exists s, hd0|done].
Qed.
Lemma unlink_tw_hashed h t j : hashed (unlink_tw h t) j <-> hashed h j.
Proof.
  split; [intros (s & hd & Hd & Hj); apply unlink_tw_lookup in Hd as (hd0 & Hd & E1 & _); rewrite E1 in Hj; by exists s, hd0|]. intros (s & hd & Hd & Hj). exists s, (hd <| twchain := drop_id t (twchain hd) |>). split; [|done]. unfold unlink_tw, upd_sock. cbn. by rewrite list_lookup_fmap, Hd.
Qed.
Lemma unlink_tw_socks h t j : socks (unlink_tw h t) !! j = if decide (j = t) then (fun sk => sk <| sk_linked := false |>) <$> socks h !! j else socks h !! j.
Proof. unfold unlink_tw, upd_sock. cbn. destruct (decide (j = t)) as [->|Hn]; [by rewrite lookup_alter_eq|by rewrite lookup_alter_ne]. Qed.
(** [t] is on no other chain than its own. *)
Lemma unlink_tw_inv h t : hash_inv h -> ~ hashed h t -> ~ listening h t -> hash_inv (unlink_tw h t).
Proof.
  intros [Hm Hs Hc Hl] Hn1 Hn2. split; [unfold unlink_tw, upd_sock; cbn; by rewrite length_fmap|done| |].
  - intros s hd j Hd Hj. apply unlink_tw_lookup in Hd as (hd0 & Hd & E1 & E2). rewrite E1, E2, drop_id_in in Hj. assert (Hjt : j <> t) by (intros ->; destruct Hj as [Hj|[_ ?]]; [|done]; apply Hn1; by exists s, hd0).
    destruct (Hc s hd0 j Hd ltac:(tauto)) as [(skj & F)]. split. exists skj. by rewrite unlink_tw_socks, decide_False.
  - intros s l j Hd Hj. destruct (Hl s l j Hd Hj) as (skj & F). exists skj. rewrite unlink_tw_socks, decide_False; [done|]. intros ->. apply Hn2. by exists s, l.
Qed.

Definition swap h i (hash : Z) (tw : option nat) : inet_hashinfo := match tw with Some t => inet_twsk_unhash (ehash_add h i hash) t | None => ehash_add h i hash end.
Lemma ehash_add_table h i hash j : on_table (ehash_add h i hash) j -> j = i \/ on_table h j.
Proof.
  intros [(s & hd & Hd & Hj)|(s & hd & Hd & Hj)]; apply ehash_add_lookup in Hd as (hd0 & Hd & E1 & E2); [rewrite E2 in Hj|rewrite E1 in Hj; right; right; by exists s, hd0]. case_decide; [apply elem_of_cons in Hj as [->|Hj]; [by left|]|]; right; left; by exists s, hd0.
Qed.
Lemma ehash_add_tw h i hash j : tw_hashed (ehash_add h i hash) j -> tw_hashed h j.
Proof. intros (s & hd & Hd & Hj). apply ehash_add_lookup in Hd as (hd0 & Hd & E1 & _). rewrite E1 in Hj. by exists s, hd0. Qed.
Lemma ehash_add_in h i hash : hash_inv h -> hashed (ehash_add h i hash) i.
Proof.
  intros [[Hm1 Hm2] _ _ _]. destruct (lookup_lt_is_Some_2 (ehash h) (inet_ehash_slot h hash)) as [hd Hd]; [by apply slot_lt|]. exists (inet_ehash_slot h hash), (hd <| chain := i :: chain hd |>). split; [|left]. unfold ehash_add, upd_sock. cbn. by rewrite list_lookup_alter_eq, Hd.
Qed.
Lemma ehash_add_socks h i hash j : socks (ehash_add h i hash) !! j = if decide (j = i) then (fun sk => sk <| sk_linked := true |>) <$> socks h !! j else socks h !! j.
Proof. unfold ehash_add, upd_sock. cbn. destruct (decide (j = i)) as [->|Hn]; [by rewrite lookup_alter_eq|by rewrite lookup_alter_ne]. Qed.
(** Everything but the chains of connections is left alone. *)
Record swapped h i sk (tw : option nat) h' : Prop := {
  sw_hash : hash_inv h';
  sw_uniq : unique_flows h';
  sw_apart : tw_apart h';
  sw_in : hashed h' i;
  sw_table : forall j, on_table h' j -> j = i \/ (on_table h j /\ tw <> Some j);
  sw_self : socks h' !! i = Some (sk <| sk_linked := true |>);
  sw_other : forall j, j <> i -> tw <> Some j -> socks h' !! j = socks h !! j;
  sw_tw : forall t, tw = Some t -> socks h' !! t = (fun sk => sk <| sk_linked := false |>) <$> socks h !! t;
  sw_bind : (tbs h', bhash h', bhash_size h', bsockets h') = (tbs h, bhash h, bhash_size h, bsockets h);
  sw_listen : listening_hash h' = listening_hash h;
}.
Lemma swap_ok h i sk tw : hash_inv h -> unique_flows h -> tw_apart h -> off_chain h i -> socks h !! i = Some sk -> wf_sock sk -> sk_hash sk = inet_sk_ehashfn sk ->
  (forall j skj, on_table h j -> socks h !! j = Some skj -> flow_key skj = flow_key sk -> tw = Some j) -> (forall t, tw = Some t -> tw_hashed h t) ->
  swapped h i sk tw (swap h i (sk_hash sk) tw).
Proof using L.
  intros Hv Hu Hd Ho Hi Hw Hh Hk Ht. pose proof (ehash_add_inv h i sk Hv Hi Hw Hh) as Hv1. pose proof (ehash_add_in h i (sk_hash sk) Hv) as Hin. set (h1 := ehash_add h i (sk_hash sk)) in *.
  assert (Hnt : forall t, tw = Some t -> t <> i) by (intros t Et ->; destruct Ho as (_ & Ho & _); by apply Ho, Ht).
  assert (Hself : socks h1 !! i = Some (sk <| sk_linked := true |>)) by (unfold h1; by rewrite ehash_add_socks, decide_True, Hi).
  assert (Hoth : forall j, j <> i -> socks h1 !! j = socks h !! j) by (intros j Hj; unfold h1; by rewrite ehash_add_socks, decide_False).
  assert (Hap : tw_apart h1). { intros j Hj. pose proof (ehash_add_tw h i _ j Hj) as Hj'. destruct (Hd j Hj') as [D1 D2]. split; [|done]. intros Hc. destruct (ehash_add_table h i _ j (or_introl Hc)) as [->|Hc']; [by destruct Ho as (_ & Ho & _)|]. destruct Hc as (s & hd & Hs & Hc). apply ehash_add_lookup in Hs as (hd0 & Hs & _ & E2). rewrite E2 in Hc. case_decide; [apply elem_of_cons in Hc as [->|Hc]; [by destruct Ho as (_ & Ho & _)|]|]; apply D1; by exists s, hd0. }
  unfold swap. fold h1. destruct tw as [t|].
  - rewrite tw_unhash_spec. pose proof (Ht t eq_refl) as Htt. pose proof (Hnt t eq_refl) as Hti. assert (Htt1 : tw_hashed h1 t). { destruct Htt as (s & hd & Hs & Hj). destruct (decide (s = inet_ehash_slot h (sk_hash sk))) as [->|Hne]; [exists (inet_ehash_slot h (sk_hash sk)), (hd <| chain := i :: chain hd |>)|exists s, hd]; (split; [|done]); unfold h1, ehash_add, upd_sock; cbn; [by rewrite list_lookup_alter_eq, Hs|by rewrite list_lookup_alter_ne]. }
    destruct (Hap t Htt1) as [A1 A2]. assert (Htab : forall j, on_table (unlink_tw h1 t) j -> j = i \/ (on_table h j /\ Some t <> Some j)).
    { intros j Hj. apply unlink_tw_table in Hj. assert (Hjt : j <> t) by (destruct Hj as [Hj|[_ ?]]; [by intros ->|done]). destruct (ehash_add_table h i (sk_hash sk) j) as [?|?]; [unfold on_table; fold h1; tauto|by left|right; split; [done|congruence]]. }
    assert (Hso : forall j, j <> t -> socks (unlink_tw h1 t) !! j = socks h1 !! j) by (intros j Hj; by rewrite unlink_tw_socks, decide_False).
    split; [by apply unlink_tw_inv| | |by apply unlink_tw_hashed|exact Htab|by rewrite Hso|intros j Hj1 Hj2; rewrite Hso by congruence; by apply Hoth|intros t' [= <-]; rewrite unlink_tw_socks, decide_True by done; by rewrite Hoth|done|done].
    + intros j1 j2 s1 s2 T1 T2 E1 E2 Ek. destruct (Htab j1 T1) as [->|[T1' N1]], (Htab j2 T2) as [->|[T2' N2]]; [done|..].
      * rewrite Hso, Hself in E1 by done. injection E1 as <-. exfalso. apply N2. destruct (decide (j2 = i)) as [->|Hn]; [destruct Ho as (O1 & O2 & _); by destruct T2'|]. rewrite Hso, Hoth in E2 by congruence. by apply (Hk j2 s2).
      * rewrite Hso, Hself in E2 by done. injection E2 as <-. exfalso. apply N1. destruct (decide (j1 = i)) as [->|Hn]; [destruct Ho as (O1 & O2 & _); by destruct T1'|]. rewrite Hso, Hoth in E1 by congruence. by apply (Hk j1 s1).
      * rewrite Hso in E1, E2 by congruence. assert (Hni : forall j, on_table h j -> j <> i) by (intros j Hj ->; destruct Ho as (O1 & O2 & _); by destruct Hj). rewrite Hoth in E1, E2 by auto. by apply (Hu j1 j2 s1 s2).
    + intros j Hj. assert (Hj1 : tw_hashed h1 j) by (destruct (unlink_tw_table h1 t j (or_intror Hj)) as [Hj2|[Hj2 _]]; [|done]; destruct Hj as (s & hd & Hs & Hj); apply unlink_tw_lookup in Hs as (hd0 & Hs & _ & E2); rewrite E2 in Hj; apply drop_id_in in Hj as [Hj _]; by exists s, hd0). rewrite unlink_tw_hashed. exact (Hap j Hj1).
  - assert (Htab : forall j, on_table h1 j -> j = i \/ (on_table h j /\ None <> Some j)) by (intros j Hj; destruct (ehash_add_table h i _ j Hj); [by left|by right]).
    split; [done| |done|done|exact Htab|done|by intros j Hj _; apply Hoth|done|done|done].
    assert (Hni : forall j, on_table h j -> j <> i) by (intros j Hj ->; destruct Ho as (O1 & O2 & _); by destruct Hj). intros j1 j2 s1 s2 T1 T2 E1 E2 Ek. destruct (Htab j1 T1) as [->|[T1' _]], (Htab j2 T2) as [->|[T2' _]]; [done|..].
    + rewrite Hself in E1. injection E1 as <-. rewrite Hoth in E2 by auto. by specialize (Hk j2 s2 T2' E2 (eq_sym Ek)).
    + rewrite Hself in E2. injection E2 as <-. rewrite Hoth in E1 by auto. by specialize (Hk j1 s1 T1' E1 Ek).
    + rewrite Hoth in E1, E2 by auto. by apply (Hu j1 j2 s1 s2).
Qed.
End Connect.

Section Connecting.
Context {E : HashEnv} {L : HashLaws E}.
Implicit Types (h : inet_hashinfo) (sk : inet_sock) (tb : inet_bind_bucket) (i j b t : nat) (P : nat -> Prop).

Lemma swapped_conn P h i sk tw h' : conn P h -> swapped h i sk tw h' -> socks h !! i = Some sk -> (P i -> icsk_bind_hash sk <> None) -> conn P h'.
Proof.
  intros [H1 H2 H3 H4 H5] [S1 S2 S3 S4 S5 S6 S7 S8 S9 _] Hi Hb. split; [done| |done| |done].
  - apply (same_bind_inv h); [|done]. injection S9 as T1 T2 T3 _. split; [by rewrite T1, T2, T3|]. intros j. destruct (decide (j = i)) as [->|Hji]; [by rewrite S6, Hi|]. destruct (decide (tw = Some j)) as [Et|Et]; [rewrite (S8 j Et); by destruct (socks h !! j)|by rewrite S7].
  - intros j skj Hj HP Hk. destruct (decide (j = i)) as [->|Hji]; [rewrite S6 in Hk; injection Hk as <-; by apply Hb|]. destruct (S5 j Hj) as [?|[Hj' Hn]]; [done|]. rewrite S7 in Hk by done. by eapply H4.
Qed.
(** A TIME-WAIT socket that left its chain leaves its port. *)
Definition keeps_conn P t h h' : Prop := conn P h' /\ same_tables h h' /\ forall j, j <> t -> socks h' !! j = socks h !! j.
Lemma keeps_conn_refl P t h : conn P h -> keeps_conn P t h h.
Proof. intros Hc. unfold keeps_conn, same_tables. split_and!; auto. Qed.
Lemma keeps_conn_trans P t h1 h2 h3 : keeps_conn P t h1 h2 -> keeps_conn P t h2 h3 -> keeps_conn P t h1 h3.
Proof. intros (A1 & A2 & A3) (B1 & B2 & B3). split_and!; [done|by eapply same_tables_trans|intros j Hj; by rewrite B3, A3]. Qed.
Lemma off_keeps P t h h' : conn P h -> off_chain h t -> same_tables h h' -> bind_inv h' -> (forall j, j <> t -> socks h' !! j = socks h !! j) -> keeps_conn P t h h'.
Proof.
  intros Hc Ho Hs Hb Hj. split_and!; [|done..]. apply (conn_same P h); [done..|]. intros j sk Ht HP Hk. rewrite Hj in Hk by (intros ->; by apply (on_table_off h t Ht)). by eapply (ci_bound P h Hc).
Qed.
Lemma unlink_off_ehash h t : off_chain h t -> ehash (unlink_tw h t) = ehash h.
Proof.
  intros (_ & Ho & _). unfold unlink_tw, upd_sock. cbn. rewrite <- (list_fmap_id (ehash h)) at 2. apply list_fmap_ext. intros s hd Hd. pose proof (drop_id_out t (twchain hd)) as Ed. change (mk_ehash_bucket (chain hd) (drop_id t (twchain hd)) = hd). rewrite Ed; [done|]. intros Ht. apply Ho. by exists s, hd.
Qed.
Lemma unlink_tw_keeps P h t : conn P h -> off_chain h t -> keeps_conn P t h (unlink_tw h t).
Proof.
  intros Hc Ho. assert (Hso : forall j, j <> t -> socks (unlink_tw h t) !! j = socks h !! j) by (intros j Hj; by rewrite unlink_tw_socks, decide_False). apply off_keeps; [done..| | |done].
  - split_and!; [by apply unlink_off_ehash|done|done|]. intros j. destruct (decide (j = t)) as [->|Hj]; [by left|right; by rewrite Hso].
  - apply (same_bind_inv h); [|apply Hc]. split; [done|]. intros j. destruct (decide (j = t)) as [->|Hj]; [|by rewrite Hso]. rewrite unlink_tw_socks, decide_True by done. by destruct (socks h !! t).
Qed.
Lemma destroy_frame h b : socks (inet_bind_bucket_destroy h b) = socks h /\ ehash (inet_bind_bucket_destroy h b) = ehash h /\ ehash_mask (inet_bind_bucket_destroy h b) = ehash_mask h /\ listening_hash (inet_bind_bucket_destroy h b) = listening_hash h.
Proof. unfold inet_bind_bucket_destroy. destruct (tbs h !! b) as [tb|]; [|done]. by destruct (owners tb). Qed.
Lemma unbind_tw_keeps P h t : conn P h -> off_chain h t -> keeps_conn P t h (unbind_tw h t).
Proof.
  intros Hc Ho. unfold unbind_tw. destruct (socks h !! t) as [sk|] eqn:Hi; [|by apply keeps_conn_refl]. change (icsk_bind_hash <$> Some sk) with (Some (icsk_bind_hash sk)). destruct (icsk_bind_hash sk) as [b|] eqn:Hk; [|by apply keeps_conn_refl].
  set (h1 := upd_sock _ t _). pose proof (destroy_frame h1 b) as (F1 & F2 & F3 & F4). assert (Hso : forall j, j <> t -> socks (inet_bind_bucket_destroy h1 b) !! j = socks h !! j) by (intros j Hj; rewrite F1; unfold h1; by rewrite upd_sock_other).
  apply off_keeps; [done..| |apply destroy_inv; by eapply (unbind_inv h t sk b _ _ (ci_bind P h Hc))|done]. split_and!; [by rewrite F2|by rewrite F3|by rewrite F4|]. intros j. destruct (decide (j = t)) as [->|Hj]; [by left|right; by rewrite Hso].
Qed.
Lemma deschedule_keeps P h t : conn P h -> off_chain h t -> keeps_conn P t h (inet_twsk_deschedule h t).
Proof using L.
  intros Hc Ho. rewrite tw_deschedule_spec. pose proof (unlink_tw_keeps P h t Hc Ho) as H1. eapply keeps_conn_trans; [exact H1|]. destruct H1 as (H1 & H2 & _). apply unbind_tw_keeps; [done|by apply (same_off h)].
Qed.
Lemma swapped_off h i sk t h' : tw_apart h -> off_chain h i -> swapped h i sk (Some t) h' -> tw_hashed h t -> off_chain h' t.
Proof.
  intros Ha Ho Hs Ht. destruct (Ha t Ht) as [_ Hl]. assert (Hti : t <> i) by (intros ->; by destruct Ho as (_ & Ho & _)). assert (Hn : ~ on_table h' t) by (intros Hn; destruct (sw_table _ _ _ _ _ Hs t Hn) as [?|[_ ?]]; done). unfold on_table in Hn. unfold off_chain, listening. rewrite (sw_listen _ _ _ _ _ Hs). unfold listening in Hl. tauto.
Qed.

(** *** The four-tuple of a connection to be *)
Definition flow_of sk (lport : Z) := flow_key (sk <| inet_num := lport |>).
(** No socket of the table is bound to another device than [sk]. *)
Definition dev_ok h sk : Prop := forall j skj, on_table h j -> socks h !! j = Some skj -> sk_bound_dev_if skj = 0 \/ sk_bound_dev_if skj = sk_bound_dev_if sk.
Lemma same_flow_key sk lport skj : sk_bound_dev_if skj = 0 \/ sk_bound_dev_if skj = sk_bound_dev_if sk ->
  same_flow (sk_net sk) (inet_daddr sk) (inet_dport sk) (inet_rcv_saddr sk) lport (sk_bound_dev_if sk) skj = true <-> flow_key skj = flow_of sk lport.
Proof.
  intros Hd. unfold same_flow, flow_of, flow_key. cbn. rewrite !andb_true_iff, orb_true_iff, !Z.eqb_eq. split; [intros [[[[[-> ->] ->] ->] ->] _]; done|]. intros [= -> -> -> -> ->]. tauto.
Qed.
Definition claimed sk (lport : Z) := sk <| inet_num := lport |> <| inet_sport := htons lport |> <| sk_hash := inet_sk_ehashfn (sk <| inet_num := lport |>) |>.
Lemma claim_ok P h i sk g : conn P h -> off_chain h i -> socks h !! i = Some sk -> binding (g sk) = binding sk -> conn P (upd_sock h i g).
Proof.
  intros Hc Ho Hi Hg. apply (conn_same P h); [done|by apply upd_off_same| |].
  - apply (same_bind_inv h); [|apply Hc]. split; [done|]. intros j. destruct (decide (i = j)) as [->|Hj]; [rewrite upd_sock_same, Hi; exact Hg|by rewrite upd_sock_other].
  - intros j skj Ht HP Hj. rewrite upd_sock_other in Hj by (intros ->; by apply (on_table_off h j Ht)). by eapply (ci_bound P h Hc).
Qed.
(** Adding a socket whose four-tuple is only that of the TIME-WAIT socket to be replaced. *)
Lemma chain_link_ok P h i sk sk' g tw : conn P h -> off_chain h i -> socks h !! i = Some sk -> g sk = sk' -> wf_sock sk' -> sk_hash sk' = inet_sk_ehashfn sk' ->
  (forall j skj, on_table h j -> socks h !! j = Some skj -> flow_key skj = flow_key sk' -> tw = Some j) -> (forall t, tw = Some t -> tw_hashed h t) -> binding sk' = binding sk -> (P i -> icsk_bind_hash sk <> None) ->
  swapped (upd_sock h i g) i sk' tw (swap (upd_sock h i g) i (sk_hash sk') tw) /\ conn P (swap (upd_sock h i g) i (sk_hash sk') tw).
Proof using L.
  intros Hc Ho Hi Hg Hw Hh Hk Ht Hb HP. assert (Hc1 : conn P (upd_sock h i g)) by (apply (claim_ok P h i sk); [done..|by rewrite Hg]). assert (Hi1 : socks (upd_sock h i g) !! i = Some sk') by (rewrite upd_sock_same, Hi; cbn; by rewrite Hg).
  assert (Hsw : swapped (upd_sock h i g) i sk' tw (swap (upd_sock h i g) i (sk_hash sk') tw)).
  { destruct Hc1. apply swap_ok; try done. intros j skj Hj Ej. rewrite upd_sock_other in Ej by (intros ->; by apply (on_table_off h j Hj)). by apply (Hk j skj). }
  split; [done|]. eapply swapped_conn; [exact Hc1|exact Hsw|done|]. intros HPi. specialize (HP HPi). unfold binding in Hb. destruct (icsk_bind_hash sk), (icsk_bind_hash sk'); done.
Qed.

(** *** The check of the four-tuple *)
Lemma flow_search P h i sk lport (sel : inet_ehash_bucket -> list nat) r : conn P h -> wf_sock sk -> dev_ok h sk -> (forall hd j, j ∈ sel hd -> j ∈ chain hd \/ j ∈ twchain hd) ->
  let hash := inet_ehashfn (sk_net sk) (inet_rcv_saddr sk) lport (inet_daddr sk) (inet_dport sk) in
  find_sock h (fun sk2 => INET_MATCH sk2 (sk_net sk) hash (INET_ADDR_COOKIE (inet_daddr sk) (inet_rcv_saddr sk)) (INET_COMBINED_PORTS (inet_dport sk) lport) (sk_bound_dev_if sk)) (sel (ehash_at h hash)) = r ->
  match r with
  | Some j => exists s hd skj, ehash h !! s = Some hd /\ j ∈ sel hd /\ socks h !! j = Some skj /\ flow_key skj = flow_of sk lport
  | None => forall j skj s hd, ehash h !! s = Some hd -> j ∈ sel hd -> socks h !! j = Some skj -> flow_key skj <> flow_of sk lport
  end.
Proof.
  intros Hc (_ & Hw1 & _ & Hw2) Hd Hsel hash Hf. pose proof (chain_flow h _ _ _ _ lport (sk_bound_dev_if sk) sel r (ci_hash P h Hc) Hw1 Hw2 Hsel Hf) as Hr.
  assert (Hkey : forall j skj s hd, ehash h !! s = Some hd -> j ∈ sel hd -> socks h !! j = Some skj -> sk_bound_dev_if skj = 0 \/ sk_bound_dev_if skj = sk_bound_dev_if sk).
  { intros j skj s hd Hs Hj. apply Hd. destruct (Hsel hd j Hj); [left|right]; by exists s, hd. }
  destruct r as [j|].
  - destruct Hr as (s & hd & Hs & Hj & skj & Ej & Hfl). exists s, hd, skj. split_and!; [done..|]. apply same_flow_key in Hfl; [done|]. by eapply Hkey.
  - intros j skj s hd Hs Hj Ej Ek. apply same_flow_key in Ek; [|by eapply Hkey]. by rewrite (Hr j skj s hd Hs Hj Ej) in Ek.
Qed.
(** The four-tuple is taken. *)
Definition flow_taken h sk (lport : Z) : Prop := exists j skj, on_table h j /\ socks h !! j = Some skj /\ flow_key skj = flow_of sk lport.
Definition linked P h i sk (lport : Z) (tw : option nat) h' : Prop :=
  exists h0, swapped h0 i (claimed sk lport) tw h' /\ conn P h' /\ tbs h' = tbs h /\ (forall t, tw = Some t -> off_chain h' t /\ t <> i).
Lemma check_established_ok P h i sk lport twp : conn P h -> off_chain h i -> socks h !! i = Some sk -> wf_sock sk -> is_u16 lport -> dev_ok h sk ->
  (icsk_bind_hash sk = None \/ inet_num sk = lport) -> (P i -> icsk_bind_hash sk <> None) ->
  match inet_check_established h i lport twp with
  | Some (h', tw) => exists tw0 h0, linked P h i sk lport tw0 h0 /\ (h', tw) = if twp then (h0, tw0) else (match tw0 with Some t => inet_twsk_deschedule h0 t | None => h0 end, None)
  | None => flow_taken h sk lport
  end.
Proof using L.
  intros Hc Ho Hi Hw Hp Hd Hb HP. unfold inet_check_established. rewrite Hi. cbn zeta. set (hash := inet_ehashfn _ _ _ _ _). pose proof (fun sel r => flow_search P h i sk lport sel r Hc Hw Hd) as Hfs. cbn zeta in Hfs. fold hash in Hfs.
  assert (Hw1 : wf_sock (claimed sk lport)) by (destruct Hw as (W1 & W2 & W3 & W4); by split_and!).
  assert (Hbi : binding (claimed sk lport) = binding sk) by (unfold binding, claimed; cbn; destruct Hb as [-> | ->]; done).
  assert (Hl : forall tw, (forall j skj, on_table h j -> socks h !! j = Some skj -> flow_key skj = flow_of sk lport -> tw = Some j) -> (forall t, tw = Some t -> tw_hashed h t) ->
    linked P h i sk lport tw (swap (upd_sock h i (fun sk => sk <| inet_num := lport |> <| inet_sport := htons lport |> <| sk_hash := hash |>)) i hash tw)).
  { intros tw Hk Ht. set (g := fun sk => sk <| inet_num := lport |> <| inet_sport := htons lport |> <| sk_hash := hash |>). destruct (chain_link_ok P h i sk (claimed sk lport) g tw Hc Ho Hi eq_refl Hw1 eq_refl Hk Ht Hbi HP) as [S1 S2]. change hash with (sk_hash (claimed sk lport)). exists (upd_sock h i g). split_and!; [done|done|by pose proof (sw_bind _ _ _ _ _ S1) as Eb; injection Eb as Eb _ _ _; exact Eb|].
    intros t ->. specialize (Ht t eq_refl). split; [|intros ->; by destruct Ho as (_ & Ho & _)]. apply (swapped_off (upd_sock h i g) i (claimed sk lport)); [apply Hc|done|done|done]. }
  destruct (find_sock _ _ (twchain _)) as [t|] eqn:F1.
  - destruct (Hfs twchain (Some t) ltac:(auto) F1) as (s & hd & skt & Hs & Ht & Et & Ek). assert (Htw : tw_hashed h t) by (by exists s, hd). destruct (twsk_unique i t twp); [|exists t, skt; split_and!; [by right|done..]].
    assert (Hlt : linked P h i sk lport (Some t) _) by (apply (Hl (Some t)); [intros j skj Hj Ej Ekj; f_equal; apply (ci_uniq P h Hc t j skt skj); [by right|done..|congruence]|intros ? [= <-]; done]).
    unfold check_unique. cbn zeta. destruct twp; exists (Some t); eexists; (split; [exact Hlt|done]).
  - pose proof (Hfs twchain None ltac:(auto) F1) as H1. destruct (find_sock _ _ (chain _)) as [j|] eqn:F2.
    + destruct (Hfs chain (Some j) ltac:(auto) F2) as (s & hd & skj & Hs & Hj & Ej & Ek). exists j, skj. split_and!; [left; by exists s, hd|done..].
    + pose proof (Hfs chain None ltac:(auto) F2) as H2. assert (Hlt : linked P h i sk lport None _) by (apply (Hl None); [intros j skj [(s & hd & Hs & Hj)|(s & hd & Hs & Hj)] Ej Ek; exfalso; [by eapply H2|by eapply H1]|done]).
      unfold check_unique. cbn zeta. exists None. eexists. split; [exact Hlt|by destruct twp].
Qed.

(** *** The choice of a port *)
Definition port_new h net (snum : Z) b h' : Prop := find_tb h net snum = None /\ exists h0, inet_bind_bucket_create h net snum = Some (b, h0) /\ h' = upd_tb h0 b (fun tb => tb <| fastreuse := -1 |>).
Definition port_old h i net (snum : Z) b h' (tw : option nat) : Prop := find_tb h net snum = Some b /\ inet_check_established h i snum true = Some (h', tw).
Lemma connect_port_ok h i net low high offset n : low <= high -> forall round,
  match connect_port n h i net round low (high - low + 1) offset with
  | Some (_, snum, b, h', tw) => port_in low high snum /\ ((tw = None /\ port_new h net snum b h') \/ port_old h i net snum b h' tw)
  | None => True
  end.
Proof.
  intros Hlh. induction n as [|n IH]; intros round; cbn [connect_port]; [done|]. cbn zeta. set (snum := low + _ mod _). assert (Hs : low <= snum <= high) by (unfold snum; pose proof (Z.mod_pos_bound (u32 (round + offset)) (high - low + 1)); lia). clearbody snum.
  case_if_as Hr; [apply IH|]. destruct (find_tb h net snum) as [b|] eqn:Ef.
  - case_if_as Hq; [apply IH|]. destruct (inet_check_established h i snum true) as [[h' tw]|] eqn:Ec; [|apply IH]. split; [done|right; by split].
  - destruct (inet_bind_bucket_create h net snum) as [[b h0]|] eqn:Ec; [|done]. split; [done|left]. split; [done|]. split; [done|by exists h0].
Qed.

(** The connection of [i] is in the table. *)
Definition connected h' i (Q : Z -> Prop) : Prop := conn_inv h' /\ hashed h' i /\ exists sk', socks h' !! i = Some sk' /\ Q (inet_num sk').
Lemma connected_keeps t h h' i Q : connected h i Q -> keeps_conn (fun _ => True) t h h' -> t <> i -> connected h' i Q.
Proof.
  intros (H1 & H2 & sk' & H3 & H4) (K1 & (K2 & _) & K3) Hn. split_and!; [done|unfold hashed; by rewrite K2|]. exists sk'. split; [|done]. by rewrite K3.
Qed.
Lemma bind_hash_same h i b sk snum : socks h !! i = Some sk -> off_chain h i \/ inet_num sk = snum -> same_tables h (inet_bind_hash h i b snum).
Proof.
  intros Hi Ho. split_and!; [done..|]. intros j. rewrite bind_hash_socks. case_decide as Hj; [subst j|by right]. destruct Ho as [Ho|<-]; [by left|right]. by rewrite Hi.
Qed.
Lemma bind_hash_conn h i b tb sk : conn (fun j => j <> i) h -> socks h !! i = Some sk -> off_chain h i \/ inet_num sk = port tb -> icsk_bind_hash sk = None -> tbs h !! b = Some tb -> sk_net sk = ib_net tb -> conn_inv (inet_bind_hash h i b (port tb)).
Proof.
  intros Hc Hi Ho Hn Hb Hnet. pose proof (bind_hash_same h i b sk (port tb) Hi Ho) as Hs. assert (Hv : bind_inv (inet_bind_hash h i b (port tb))) by (apply (bind_hash_ok h i b sk); [apply Hc|done..]).
  destruct Hc as [H1 H2 H3 H4 H5]. split; [by eapply same_hash_inv|done|by eapply same_unique| |by eapply same_apart].
  intros j skj Hj _ Hk. rewrite bind_hash_socks in Hk. apply (same_on_table h) in Hj; [|done]. case_decide as Hji; [subst j; rewrite Hi in Hk; cbn in Hk; injection Hk as <-; done|by eapply H4].
Qed.
Lemma nolisten_ok h i sk (Q : Z -> Prop) : Q (inet_num sk) -> conn_inv h -> off_chain h i -> socks h !! i = Some sk -> wf_sock sk -> icsk_bind_hash sk <> None -> (forall j skj, on_table h j -> socks h !! j = Some skj -> flow_key skj <> flow_key sk) ->
  connected (inet_hash_nolisten h i None) i Q.
Proof using L.
  intros HQ Hc Ho Hi Hw Hb Hk. unfold inet_hash_nolisten. rewrite Hi. set (sk' := sk <| sk_hash := inet_sk_ehashfn sk |>). destruct (chain_link_ok _ h i sk sk' (fun s => s <| sk_hash := inet_sk_ehashfn sk |>) None Hc Ho Hi eq_refl Hw eq_refl) as [S1 S2]; [|done|done|done|].
  - intros j skj Hj Ej Ek. by destruct (Hk j skj Hj Ej).
  - split_and!; [exact S2|apply (sw_in _ _ _ _ _ S1)|]. eexists. split; [apply (sw_self _ _ _ _ _ S1)|done].
Qed.
(** A socket of the table with the local port [snum] owns the bucket of the port. *)
Lemma flow_bound h j skj : conn_inv h -> on_table h j -> socks h !! j = Some skj -> exists b tb, tbs h !! b = Some tb /\ icsk_bind_hash skj = Some b /\ j ∈ owners tb /\ ib_net tb = sk_net skj /\ port tb = inet_num skj.
Proof.
  intros Hc Hj Ej. pose proof (ci_bound _ h Hc j skj Hj I Ej) as Hn. destruct (icsk_bind_hash skj) as [b|] eqn:Eb; [|done]. destruct (bi_bound h (ci_bind _ h Hc) j skj b Ej Eb) as (tb & H1 & H2). destruct (bi_owner h (ci_bind _ h Hc) b tb j H1 H2) as (sk' & F1 & _ & F2 & F3). rewrite Ej in F1. injection F1 as <-. by exists b, tb.
Qed.
Lemma connect_new_ok h i sk snum b h' : conn_inv h -> off_chain h i -> socks h !! i = Some sk -> wf_sock sk -> is_u16 snum -> sk_linked sk = false -> icsk_bind_hash sk = None -> port_new h (sk_net sk) snum b h' ->
  connected (connect_bind h' i snum b None) i (fun p => p = snum).
Proof using L.
  intros Hc Ho Hi Hw Hp Hl Hn (Hf & h0 & Hcr & ->). destruct (create_ok alloc_fresh h (sk_net sk) snum b h0 (ci_bind _ h Hc) Hf Hcr) as (Hv & Hb & Hso & _). set (h1 := upd_tb h0 b _). set (tb := mk_bind_bucket (sk_net sk) snum 0 0 []) in *.
  assert (Hs1 : same_tables h h1). { unfold inet_bind_bucket_create in Hcr. destruct (bind_bucket_alloc (tbs h)); [|done]. injection Hcr as _ <-. split_and!; [done..|]. intros j. by right. }
  assert (Hi1 : socks h1 !! i = Some sk) by (change (socks h0 !! i = Some sk); by rewrite Hso). set (tb1 := mk_bind_bucket (sk_net sk) snum (-1) 0 []). assert (Hb1 : tbs h1 !! b = Some tb1) by (exact (upd_tb_same h0 b _ tb Hb)).
  assert (Hc1 : conn_inv h1). { apply (conn_same _ h); [done|done|by apply upd_fast_inv|]. intros j skj Hj _ Ek. change (socks h0 !! j = Some skj) in Ek. rewrite Hso in Ek. by eapply (ci_bound _ h Hc). }
  set (h2 := inet_bind_hash h1 i b snum). assert (Hs2 : same_tables h1 h2) by (apply (bind_hash_same h1 i b sk); [done|left; by apply (same_off h)]). assert (Ho2 : off_chain h2 i) by (apply (same_off h1); [done|by apply (same_off h)]).
  assert (Hc2 : conn_inv h2) by (unfold h2; change snum with (port tb1); apply (bind_hash_conn h1 i b tb1 sk); [destruct Hc1 as [? ? ? Hbd ?]; split; try done; intros j skj Hj _; by apply Hbd|done|left; by apply (same_off h)|done..]).
  assert (Hi2 : socks h2 !! i = Some (sk <| inet_num := snum |> <| icsk_bind_hash := Some b |>)) by (unfold h2; by rewrite bind_hash_socks, decide_True, Hi1). unfold connect_bind. fold h2. cbn zeta. unfold on_sock. rewrite Hi2. change (sk_unhashed _) with (negb (sk_linked sk)). rewrite Hl. cbn [negb].
  set (sk2 := sk <| inet_num := snum |> <| icsk_bind_hash := Some b |>) in *. set (h3 := upd_sock h2 i _). assert (Hi3 : socks h3 !! i = Some (sk2 <| inet_sport := htons snum |>)) by (unfold h3; by rewrite upd_sock_same, Hi2).
  apply (nolisten_ok h3 i (sk2 <| inet_sport := htons snum |>)); [done|by apply (claim_ok _ h2 i sk2)|done|done|destruct Hw as (W1 & W2 & W3 & W4); by split_and!|done|].
  intros j skj Hj Ej Ek. change (on_table h2 j) in Hj. assert (Hji : j <> i) by (intros ->; by apply (on_table_off h2 i Hj)). unfold h3 in Ej. rewrite upd_sock_other in Ej by done. unfold h2 in Ej. rewrite bind_hash_socks, decide_False in Ej by done. change (socks h0 !! j = Some skj) in Ej. rewrite Hso in Ej.
  apply (same_on_table h1) in Hj; [|done]. apply (same_on_table h) in Hj; [|done]. destruct (flow_bound h j skj Hc Hj Ej) as (b' & tb' & G1 & _ & _ & G2 & G3). unfold flow_key, sk2 in Ek. cbn in Ek. injection Ek as E1 _ E3 _ _. apply (find_tb_none h (sk_net sk) snum b' tb'); [apply Hc|done|done|congruence..].
Qed.
Lemma connect_old_ok h i sk snum b h' tw : conn_inv h -> off_chain h i -> socks h !! i = Some sk -> wf_sock sk -> is_u16 snum -> dev_ok h sk -> icsk_bind_hash sk = None -> port_old h i (sk_net sk) snum b h' tw ->
  connected (connect_bind h' i snum b tw) i (fun p => p = snum).
Proof using L.
  intros Hc Ho Hi Hw Hp Hd Hn (Hf & Hck). destruct (find_tb_some h _ _ _ Hf) as (tb & Hb & En & Ep). assert (Hc0 : conn (fun j => j <> i) h) by (destruct Hc as [? ? ? Hbd ?]; split; try done; intros j skj Hj _; by apply Hbd).
  pose proof (check_established_ok _ h i sk snum true Hc0 Ho Hi Hw Hp Hd (or_introl Hn) ltac:(done)) as Hk. rewrite Hck in Hk. destruct Hk as (tw0 & h1 & (h0 & Hsw & Hc1 & Et & Htw) & Eq). injection Eq as -> ->.
  pose proof (sw_self _ _ _ _ _ Hsw) as Hi1. assert (Hb1 : tbs h1 !! b = Some tb) by (by rewrite Et). set (h2 := inet_bind_hash h1 i b snum). assert (Hs2 : same_tables h1 h2) by (apply (bind_hash_same h1 i b ((claimed sk snum) <| sk_linked := true |>)); [done|by right]).
  assert (Hc2 : conn_inv h2) by (unfold h2; rewrite <- Ep; apply (bind_hash_conn h1 i b tb ((claimed sk snum) <| sk_linked := true |>)); try done; by right).
  assert (Hi2 : socks h2 !! i = Some ((claimed sk snum) <| sk_linked := true |> <| inet_num := snum |> <| icsk_bind_hash := Some b |>)) by (unfold h2; by rewrite bind_hash_socks, decide_True, Hi1).
  assert (Hcn : connected h2 i (fun p => p = snum)). { split_and!; [done|destruct Hs2 as (Hs2 & _); unfold hashed; rewrite Hs2; apply (sw_in _ _ _ _ _ Hsw)|]. eexists. by split. }
  unfold connect_bind. fold h2. cbn zeta. unfold on_sock. rewrite Hi2. change (sk_unhashed _) with false. cbn iota. destruct tw0 as [t|]; [|done]. destruct (Htw t eq_refl) as [Hof Hti]. apply (same_off h1 h2) in Hof; [|done].
  rewrite tw_bind_spec. pose proof (unbind_tw_keeps _ h2 t Hc2 Hof) as K1. pose proof K1 as (K2 & K3 & _). apply (connected_keeps t h2); [done| |done]. eapply keeps_conn_trans; [exact K1|]. apply deschedule_keeps; [done|by apply (same_off h2)].
Qed.

Lemma hash_connect_spec h i sk hint : conn_inv h -> off_chain h i -> socks h !! i = Some sk -> wf_sock sk -> sk_linked sk = false -> dev_ok h sk ->
  (inet_num sk = 0 <-> icsk_bind_hash sk = None) -> 0 <= local_ports_low <= local_ports_high -> local_ports_high < 2 ^ 16 ->
  match fst (inet_hash_connect h i hint) with
  | Some h' => connected h' i (fun p => if inet_num sk =? 0 then port_in local_ports_low local_ports_high p else p = inet_num sk)
  | None => inet_num sk <> 0 -> flow_taken h sk (inet_num sk)
  end.
Proof using L.
  intros Hc Ho Hi Hw Hl Hd Hn [Hlo Hlh] Hhi. unfold inet_hash_connect. rewrite Hi. unfold inet_hash_connect_. rewrite Hi. destruct (Z.eqb_spec (inet_num sk) 0) as [Hz|Hz].
  - apply Hn in Hz as Hb. unfold inet_get_local_port_range. cbn iota zeta. set (offset := u32 _). clearbody offset. pose proof (connect_port_ok h i (sk_net sk) local_ports_low local_ports_high offset (Z.to_nat (local_ports_high - local_ports_low + 1)) Hlh 1) as Hp.
    destruct (connect_port _ _ _ _ _ _ _ _) as [[[[[round snum] b] h'] tw]|]; [|cbn; intros Hnz; by destruct Hnz]. cbn [fst]. destruct Hp as [Hin Hp]. assert (Hs : is_u16 snum) by (destruct Hin as [Hin _]; unfold is_u16; lia). assert (Hcn : connected (connect_bind h' i snum b tw) i (fun p => p = snum)) by (destruct Hp as [[-> Hp]|Hp]; [by apply (connect_new_ok h i sk)|by apply (connect_old_ok h i sk)]).
    destruct Hcn as (C1 & C2 & sk' & C3 & C4). split_and!; [done..|]. exists sk'. split; [done|]. by rewrite C4.
  - cbn zeta. destruct (icsk_bind_hash sk) as [b|] eqn:Eb; [|tauto]. destruct (bi_bound h (ci_bind _ h Hc) i sk b Hi Eb) as (tb & Ht & Hin). cbn [mbind option_bind]. rewrite Ht. case_bool_decide as Hso; cbn [fst].
    + apply (nolisten_ok h i sk); [done..|by rewrite Eb|]. intros j skj Hj Ej Ek. destruct (flow_bound h j skj Hc Hj Ej) as (b' & tb' & G1 & G2 & G3 & G4 & G5). unfold flow_key in Ek. injection Ek as E1 _ E3 _ _. destruct (bi_owner h (ci_bind _ h Hc) b tb i Ht Hin) as (sk0 & F1 & _ & F2 & F3). rewrite Hi in F1. injection F1 as <-.
      assert (b' = b) as -> by (eapply (bi_uniq h (ci_bind _ h Hc)); [exact G1|exact Ht|congruence..]). assert (tb' = tb) as -> by congruence. rewrite Hso in G3. apply list_elem_of_singleton in G3 as ->. by apply (on_table_off h i Hj).
    + assert (Hu : is_u16 (inet_num sk)) by apply Hw. pose proof (check_established_ok _ h i sk (inet_num sk) false Hc Ho Hi Hw Hu Hd (or_intror eq_refl) ltac:(intros _; by rewrite Eb)) as Hk. destruct (inet_check_established h i (inet_num sk) false) as [[h' tw]|]; cbn [fst fmap option_fmap option_map]; [|done].
      destruct Hk as (tw0 & h1 & (h0 & Hsw & Hc1 & _ & Htw) & Eq). injection Eq as -> ->. assert (Hcn : connected h1 i (fun p => p = inet_num sk)) by (split_and!; [done|apply (sw_in _ _ _ _ _ Hsw)|eexists; split; [apply (sw_self _ _ _ _ _ Hsw)|done]]). destruct tw0 as [t|]; [|done]. destruct (Htw t eq_refl) as [Hof Hti]. apply (connected_keeps t h1); [done| |done]. by apply deschedule_keeps.
Qed.
(** Connecting a socket that is on no chain: when it succeeds the socket is in the table of
    connections, still no two sockets there have the same four-tuple, and chains, buckets and owners
    are consistent; the local port is the one the socket was bound to, or lies in the range of local
    ports and is not reserved.  A bound socket is refused only when its four-tuple is taken.  The
    sockets of the table are taken to be bound to no other device than the socket itself. *)
Theorem hash_connect_ok h i sk hint : conn_inv h -> off_chain h i -> socks h !! i = Some sk -> wf_sock sk -> sk_linked sk = false -> dev_ok h sk ->
  (inet_num sk = 0 <-> icsk_bind_hash sk = None) -> 0 <= local_ports_low <= local_ports_high -> local_ports_high < 2 ^ 16 ->
  match fst (inet_hash_connect h i hint) with
  | Some h' => connected h' i (fun p => if inet_num sk =? 0 then port_in local_ports_low local_ports_high p else p = inet_num sk)
  | None => inet_num sk <> 0 -> flow_taken h sk (inet_num sk)
  end.
Proof using L. apply hash_connect_spec. Qed.

(** *** A free port is found *)
Lemma connect_port_hit h i net low remaining offset p n : inet_is_reserved_local_port p = false -> find_tb h net p = None -> bind_bucket_alloc (tbs h) <> None ->
  forall round, (exists r, round <= r < round + Z.of_nat n /\ low + u32 (r + offset) mod remaining = p) -> connect_port n h i net round low remaining offset <> None.
Proof.
  intros Hr Hf Ha. induction n as [|n IH]; intros round (r & Hin & Hp); cbn [connect_port]; [lia|]. cbn zeta. destruct (Z.eqb_spec r round) as [->|Hne].
  - rewrite Hp, Hr, Hf. unfold inet_bind_bucket_create. by destruct (bind_bucket_alloc (tbs h)).
  - assert (Hnx : connect_port n h i net (round + 1) low remaining offset <> None) by (apply IH; exists r; split; [lia|done]). set (snum := low + _). clearbody snum. case_if_as Hx; [done|]. destruct (find_tb h net snum) as [b|].
    + case_if_as Hq; [done|]. by destruct (inet_check_established h i snum true) as [[h' tw]|].
    + unfold inet_bind_bucket_create. by destruct (bind_bucket_alloc (tbs h)).
Qed.
(** As long as a port of the range is neither reserved nor bound, and there is memory for its
    bucket, connect() finds a port: the rounds of the loop visit every port of the range when the
    sum of offset and round does not pass 2^32. *)
Theorem connect_finds_port h i sk hint p : socks h !! i = Some sk -> inet_num sk = 0 -> port_in local_ports_low local_ports_high p -> find_tb h (sk_net sk) p = None -> bind_bucket_alloc (tbs h) <> None ->
  u32 (hint + inet_sk_port_offset sk) + (local_ports_high - local_ports_low + 1) < 2 ^ 32 -> is_Some (fst (inet_hash_connect h i hint)).
Proof.
  intros Hi Hz [Hp Hres] Hf Ha Ho. unfold inet_hash_connect. rewrite Hi. unfold inet_hash_connect_. rewrite Hi, Hz, Z.eqb_refl. unfold inet_get_local_port_range. cbn iota zeta. set (rem := local_ports_high - local_ports_low + 1) in *. set (offset := u32 _) in *. assert (Hoff : 0 <= offset) by (unfold offset, u32; apply Z.mod_pos_bound; lia). clearbody offset.
  pose proof (connect_port_hit h i (sk_net sk) local_ports_low rem offset p (Z.to_nat rem) Hres Hf Ha 1) as Hh. destruct (connect_port _ _ _ _ _ _ _ _) as [[[[[round snum] b] h'] tw]|]; [by eexists|]. exfalso. apply Hh; [|done].
  set (k := (p - local_ports_low - 1 - offset) mod rem). assert (Hk : 0 <= k < rem) by (apply Z.mod_pos_bound; lia). exists (1 + k). split; [lia|]. unfold u32. rewrite (Z.mod_small (1 + k + offset)) by lia. unfold k. replace (1 + _ mod rem + offset) with ((p - local_ports_low - 1 - offset) mod rem + (1 + offset)) by lia.
  rewrite Z.add_mod_idemp_l by lia. replace (p - local_ports_low - 1 - offset + (1 + offset)) with (p - local_ports_low) by lia. rewrite Z.mod_small; lia.
Qed.
End Connecting.

(** ** A host with a listening socket, a connection and a TIME-WAIT socket *)
Module Demo.
#[local] Instance env : HashEnv := {|
  jhash_3words a b c d := u32 (a + b + c + d);
  inet_ehash_secret := 7;
  net_hash_mix _ := 0;
  secure_ipv4_port_ephemeral _ _ _ := 3;
  inet_is_reserved_local_port p := p =? 32770;
  local_ports_low := 32768;
  local_ports_high := 32771;
  net_random n := Z.of_nat n;
  bind_bucket_alloc m := Some (fresh (dom m));
  twsk_unique _ _ _ := true;
  inet_twsk_unhash := unlink_tw;
  inet_twsk_bind_unhash := unbind_tw;
  inet_twsk_deschedule h t := unbind_tw (unlink_tw h t) t;
|}.
#[local] Instance laws : HashLaws env.
Proof. split; [|done..]. intros m b [= <-]. apply not_elem_of_dom, is_fresh. Qed.

Definition net : Z := 1.
Definition here : Z := 16777226. (* 10.0.0.1 *)
Definition there : Z := 33554442. (* 10.0.0.2 *)
Definition sock (st : tcp_state) (reuse : bool) (saddr daddr num dport : Z) (linked : bool) (b : option nat) : inet_sock :=
  mk_inet_sock net PF_INET st reuse 0 false saddr daddr num (htons num) dport (u32 (saddr + daddr + Z.lor (Z.shiftl num 16) dport + 7)) linked b.
Definition listener := sock TCP_LISTEN false 0 0 80 0 true (Some 0%nat).
Definition peer := sock TCP_ESTABLISHED false here there 80 5000 true (Some 0%nat).
Definition client := sock TCP_SYN_SENT true here there 0 (htons 80) false None.
Definition waiting := sock TCP_TIME_WAIT true here there 32768 (htons 80) true (Some 1%nat).
Definition host : inet_hashinfo := mk_hashinfo
  (list_to_map [(0%nat, listener); (1%nat, peer); (2%nat, client); (3%nat, waiting)])
  (list_to_map [(0%nat, mk_bind_bucket net 80 0 2 [1%nat; 0%nat]); (1%nat, mk_bind_bucket net 32768 (-1) 0 [3%nat])])
  [mk_ehash_bucket [] []; mk_ehash_bucket [] []; mk_ehash_bucket [] []; mk_ehash_bucket [1%nat] [3%nat]] 3
  [[1%nat; 0%nat]; []; []; []] 4 (replicate 16 [] ++ [[0%nat]] ++ replicate 15 []) 2.

(** The entries of the tables, one by one. *)
Lemma host_socks i sk : socks host !! i = Some sk -> (i = 0%nat /\ sk = listener) \/ (i = 1%nat /\ sk = peer) \/ (i = 2%nat /\ sk = client) \/ (i = 3%nat /\ sk = waiting).
Proof. intros H. apply elem_of_list_to_map_2 in H. rewrite !elem_of_cons in H. destruct H as [H|[H|[H|[H|H]]]]; [injection H as -> ->; tauto..|by apply not_elem_of_nil in H]. Qed.
Lemma host_tbs b tb : tbs host !! b = Some tb -> (b = 0%nat /\ tb = mk_bind_bucket net 80 0 2 [1%nat; 0%nat]) \/ (b = 1%nat /\ tb = mk_bind_bucket net 32768 (-1) 0 [3%nat]).
Proof. intros H. apply elem_of_list_to_map_2 in H. rewrite !elem_of_cons in H. destruct H as [H|[H|H]]; [injection H as -> ->; tauto..|by apply not_elem_of_nil in H]. Qed.
Lemma host_ehash s hd : ehash host !! s = Some hd -> (s <> 3%nat /\ hd = mk_ehash_bucket [] []) \/ (s = 3%nat /\ hd = mk_ehash_bucket [1%nat] [3%nat]).
Proof. destruct s as [|[|[|[|s]]]]; cbn; intros H; try (injection H as <-; auto); done. Qed.
Lemma host_listen s l j : listening_hash host !! s = Some l -> j ∈ l -> s = 16%nat /\ j = 0%nat.
Proof.
  intros H Hj. do 32 (destruct s as [|s]; [cbn in H; injection H as <-; try (by apply not_elem_of_nil in Hj); apply list_elem_of_singleton in Hj as ->; done|]). done.
Qed.
Lemma host_hashed j : hashed host j -> j = 1%nat.
Proof. intros (s & hd & H & Hj). apply host_ehash in H as [[_ ->]|[_ ->]]; [by apply not_elem_of_nil in Hj|by apply list_elem_of_singleton in Hj]. Qed.
Lemma host_tw j : tw_hashed host j -> j = 3%nat.
Proof. intros (s & hd & H & Hj). apply host_ehash in H as [[_ ->]|[_ ->]]; [by apply not_elem_of_nil in Hj|by apply list_elem_of_singleton in Hj]. Qed.
Lemma host_listening j : listening host j -> j = 0%nat.
Proof. intros (s & l & H & Hj). by apply (host_listen s l j H) in Hj as []. Qed.
Lemma wf_all i sk : socks host !! i = Some sk -> wf_sock sk.
Proof. intros H. apply host_socks in H as [[-> ->]|[[-> ->]|[[-> ->]|[-> ->]]]]; vm_compute; intuition discriminate. Qed.
Lemma host_hash_inv : hash_inv host.
Proof.
  split; [vm_compute; intuition discriminate|done| |].
  - intros s hd j H Hj. apply host_ehash in H as [[_ ->]|[-> ->]]; [destruct Hj as [Hj|Hj]; by apply not_elem_of_nil in Hj|]. split. destruct Hj as [Hj|Hj]; apply list_elem_of_singleton in Hj as ->; [exists peer; split_and!; [done|by apply (wf_all 1)|vm_compute; reflexivity..]|exists waiting; split_and!; [done|by apply (wf_all 3)|vm_compute; reflexivity..]].
  - intros s l j H Hj. apply (host_listen s l j H) in Hj as [-> ->]. by exists listener.
Qed.
Lemma host_bind_inv : bind_inv host.
Proof.
  split; [done|..].
  - intros b tb H. apply host_tbs in H as [[-> ->]|[-> ->]]; vm_compute; [right; left|left].
  - intros b1 b2 tb1 tb2 H1 H2. apply host_tbs in H1 as [[-> ->]|[-> ->]], H2 as [[-> ->]|[-> ->]]; done.
  - intros b tb i H Hi. apply host_tbs in H as [[-> ->]|[-> ->]]; cbn in Hi; rewrite !elem_of_cons, elem_of_nil in Hi; destruct Hi as [->|Hi]; [by exists peer|destruct Hi as [->|[]]; by exists listener|by exists waiting|done].
  - intros i sk b H Hk. apply host_socks in H as [[-> ->]|[[-> ->]|[[-> ->]|[-> ->]]]]; cbn in Hk; try discriminate Hk; injection Hk as <-; eexists; (split; [reflexivity|cbn; rewrite !elem_of_cons; tauto]).
  - intros b tb H. apply host_tbs in H as [[-> ->]|[-> ->]]; cbn; by apply (bool_decide_unpack _).
Qed.
Lemma host_conn : conn_inv host.
Proof.
  assert (Ht : forall j sk, on_table host j -> socks host !! j = Some sk -> (j = 1%nat /\ sk = peer) \/ (j = 3%nat /\ sk = waiting)) by (intros j sk [Hj|Hj] Hk; [apply host_hashed in Hj as ->|apply host_tw in Hj as ->]; injection Hk as <-; tauto).
  split; [apply host_hash_inv|apply host_bind_inv|..].
  - intros i j ski skj Hi Hj Ei Ej Ek. destruct (Ht i ski Hi Ei) as [[-> ->]|[-> ->]], (Ht j skj Hj Ej) as [[-> ->]|[-> ->]]; try done; discriminate Ek.
  - intros i sk Hi _ Ei. by destruct (Ht i sk Hi Ei) as [[-> ->]|[-> ->]].
  - intros i Hi. apply host_tw in Hi as ->. split; intros H; [by apply host_hashed in H|by apply host_listening in H].
Qed.
Lemma client_off : off_chain host 2.
Proof. split_and!; intros H; [by apply host_hashed in H|by apply host_tw in H|by apply host_listening in H]. Qed.

Lemma inet_match_equiv_witness : INET_MATCH peer net (sk_hash peer) (INET_ADDR_COOKIE there here) (INET_COMBINED_PORTS 5000 80) 2 = INET_MATCH32 peer net (sk_hash peer) there here (INET_COMBINED_PORTS 5000 80) 2.
Proof. refine (proj1 (inet_match_equiv peer net (sk_hash peer) there 5000 here 80 2 _ _ _)); [by apply (wf_all 1)|vm_compute; intuition discriminate..]. Defined.
Lemma lookup_established_ok_witness : inet_lookup_established_ host net there 5000 here 80 2 = Some 1%nat /\ exists sk, socks host !! 1%nat = Some sk /\ same_flow net there 5000 here 80 2 sk = true.
Proof.
  pose proof (lookup_established_ok host net there 5000 here 80 2 host_hash_inv ltac:(vm_compute; intuition discriminate) ltac:(vm_compute; intuition discriminate)) as H. assert (E : inet_lookup_established_ host net there 5000 here 80 2 = Some 1%nat) by (vm_compute; reflexivity). split; [exact E|]. cbn zeta in H. rewrite E in H. exact (proj1 H).
Defined.
Lemma lookup_listener_ok_witness : inet_lookup_listener_ host net here 80 2 = Some 0%nat /\ listening host 0.
Proof.
  pose proof (lookup_listener_ok host net here 80 2 host_hash_inv) as H. assert (E : inet_lookup_listener_ host net here 80 2 = Some 0%nat) by (vm_compute; reflexivity). split; [exact E|]. cbn zeta in H. rewrite E in H. exact (proj1 H).
Defined.
Lemma hash_unhash_roundtrip_witness : inet_lookup_established_ (inet_hash host 2) net there (htons 80) here 0 0 = Some 2%nat /\ hash_inv (inet_unhash (inet_hash host 2) 2).
Proof.
  pose proof (hash_unhash_roundtrip host 2 client host_hash_inv client_off eq_refl (wf_all 2 client eq_refl) ltac:(discriminate)) as H. destruct H as (_ & H2 & _ & H4 & _). split; [exact H4|exact H2].
Defined.
Lemma host_fast P : fast_ok P host.
Proof. intros b tb j sk H Hp. apply host_tbs in H as [[-> ->]|[-> ->]]; cbn in Hp; lia. Qed.
Lemma get_port_ok_witness : fst (inet_csk_get_port host 2 0) = 0 /\ granted 2 client (port_in 32768 32771) (snd (inet_csk_get_port host 2 0)).
Proof.
  pose proof (get_port_ok (@alloc_fresh env laws) host 2 client 0 host_bind_inv (host_fast _) eq_refl (or_introl eq_refl) ltac:(vm_compute; discriminate)) as H. assert (E : fst (inet_csk_get_port host 2 0) = 0) by (vm_compute; reflexivity).
  destruct (inet_csk_get_port host 2 0) as [ret h']. cbn [fst snd] in *. split; [exact E|]. destruct H as [[_ H]|[H _]]; [exact H|]. rewrite E in H. discriminate H.
Defined.
Lemma put_port_ok_witness : bind_inv (inet_put_port host 3) /\ tbs (inet_put_port host 3) !! 1%nat = None.
Proof.
  pose proof (put_port_ok host 3 waiting 1 (mk_bind_bucket net 32768 (-1) 0 [3%nat]) host_bind_inv eq_refl eq_refl eq_refl) as (H1 & _ & _ & _ & _ & H6). split; [exact H1|]. apply H6. reflexivity.
Defined.
(** The client takes the place of the TIME-WAIT socket. *)
Lemma hash_connect_ok_witness : exists h', fst (inet_hash_connect host 2 0) = Some h' /\ connected h' 2 (port_in 32768 32771).
Proof.
  assert (Hd : dev_ok host client) by (intros j skj _ H; left; by apply host_socks in H as [[-> ->]|[[-> ->]|[[-> ->]|[-> ->]]]]).
  pose proof (hash_connect_ok host 2 client 0 host_conn client_off eq_refl (wf_all 2 client eq_refl) eq_refl Hd ltac:(done) ltac:(vm_compute; intuition discriminate) ltac:(vm_compute; reflexivity)) as H.
  destruct (fst (inet_hash_connect host 2 0)) as [h'|] eqn:E; [exists h'; split; [reflexivity|exact H]|]. vm_compute in E. discriminate E.
Defined.
Lemma connect_finds_port_witness : is_Some (fst (inet_hash_connect host 2 0)).
Proof.
  apply (connect_finds_port host 2 client 0 32769); [reflexivity|reflexivity|split; [vm_compute; intuition discriminate|reflexivity]|vm_compute; reflexivity|discriminate|vm_compute; reflexivity].
Defined.
End Demo.
