(* ===== verification/Md5.v ===== *)
(** * TCP MD5 signatures

    net/ipv4/tcp_ipv4.c, CONFIG_TCP_MD5SIG (RFC 2385): the keys of a socket, an array indexed by the
    address of the peer that grows by one slot at a time, with a hold on the global pool of crypto
    transforms while there are keys; the signature of a segment; and the check of an incoming one.

    The crypto layer and tcp_md5_hash_header, tcp_md5_hash_skb_data, tcp_md5_hash_key (tcp.c) are
    the fields of the class [Crypto]; whether an allocation succeeds is an argument. *)

From stdpp Require Import gmap.
From S2P Require Import Prelude TcpTypes Kernel TcpOpt.

(** struct tcp4_md5sig_key *)
Record tcp4_md5sig_key := mk_key4 { addr : Z; key : list Z; keylen : Z }.
(** struct tcp_md5sig_info: the slots that were allocated, and how many are in use. *)
#[projections(primitive)]
Record tcp_md5sig_info := mk_md5sig_info {
  keys4 : list tcp4_md5sig_key;
  entries4 : nat;
  alloced4 : nat
}.
Definition eta_tcp_md5sig_info (r : tcp_md5sig_info) : tcp_md5sig_info := mk_md5sig_info (keys4 r) (entries4 r) (alloced4 r).
#[export] Instance set_keys4 : Setter keys4. Proof. solve_setter eta_tcp_md5sig_info. Defined.
#[export] Instance set_entries4 : Setter entries4. Proof. solve_setter eta_tcp_md5sig_info. Defined.
#[export] Instance set_alloced4 : Setter alloced4. Proof. solve_setter eta_tcp_md5sig_info. Defined.
(** The member md5sig_info of a socket, and the number of holds on the pool (tcp_md5sig_users). *)
#[projections(primitive)]
Record md5_state := mk_md5_state {
  md5sig_info : option tcp_md5sig_info;
  md5sig_users : Z
}.
Definition eta_md5_state (r : md5_state) : md5_state := mk_md5_state (md5sig_info r) (md5sig_users r).
#[export] Instance set_md5sig_info : Setter md5sig_info. Proof. solve_setter eta_md5_state. Defined.
#[export] Instance set_md5sig_users : Setter md5sig_users. Proof. solve_setter eta_md5_state. Defined.

(** ** Keys *)

(** The loops over the entries in use: the index of the key for an address. *)
Fixpoint key_index (n : nat) (keys : list tcp4_md5sig_key) (a : Z) : option nat :=
  match n, keys with
  | S n, k :: keys => if addr k =? a then Some 0%nat else S <$> key_index n keys a
  | _, _ => None
  end.
Definition tcp_v4_md5_do_lookup (s : md5_state) (a : Z) : option tcp4_md5sig_key :=
  match md5sig_info s with
  | None => None
  | Some m => if Nat.eqb (entries4 m) 0 then None else key_index (entries4 m) (keys4 m) a ≫= (fun i => keys4 m !! i)
  end.
Definition upd_info (s : md5_state) (f : tcp_md5sig_info -> tcp_md5sig_info) : md5_state := s <| md5sig_info := f <$> md5sig_info s |>.
(** tcp_alloc_md5sig_pool and tcp_free_md5sig_pool *)
Definition pool_hold (s : md5_state) : md5_state := s <| md5sig_users := md5sig_users s + 1 |>.
Definition pool_drop (s : md5_state) : md5_state := s <| md5sig_users := md5sig_users s - 1 |>.

(** The success of the allocations of tcp_v4_md5_do_add: the structure, the pool, the array. *)
Record add_mem := mk_add_mem { mem_info : bool; mem_pool : bool; mem_keys : bool }.
(** A new array with a free slot [uninit] at its end. *)
Definition grow_keys (uninit : tcp4_md5sig_key) (m : tcp_md5sig_info) : tcp_md5sig_info :=
  m <| keys4 := take (entries4 m) (keys4 m) ++ [uninit] |> <| alloced4 := S (alloced4 m) |>.
(** The last part: a new entry in the array. *)
Definition append_key (m : tcp_md5sig_info) (k : tcp4_md5sig_key) : tcp_md5sig_info :=
  m <| keys4 := <[entries4 m := k]> (keys4 m) |> <| entries4 := S (entries4 m) |>.
Definition md5_new_entry (uninit : tcp4_md5sig_key) (mem : add_mem) (s : md5_state) (m : tcp_md5sig_info) (k : tcp4_md5sig_key) : option errno * md5_state :=
  let first := Nat.eqb (entries4 m) 0 in
  if first && negb (mem_pool mem) then (Some ENOMEM, s) else
  let s := if first then pool_hold s else s in
  if Nat.eqb (alloced4 m) (entries4 m) then
    if negb (mem_keys mem) then (Some ENOMEM, if first then pool_drop s else s)
    else (None, s <| md5sig_info := Some (append_key (grow_keys uninit m) k) |>)
  else (None, s <| md5sig_info := Some (append_key m k) |>).
Definition tcp_v4_md5_do_add (uninit : tcp4_md5sig_key) (mem : add_mem) (s : md5_state) (a : Z) (newkey : list Z) (newkeylen : Z) : option errno * md5_state :=
  let k := mk_key4 a newkey newkeylen in
  match tcp_v4_md5_do_lookup s a with
  | Some _ => (None, upd_info s (fun m => match key_index (entries4 m) (keys4 m) a with Some i => m <| keys4 := <[i := k]> (keys4 m) |> | None => m end))
  | None =>
    match md5sig_info s with
    | Some m => md5_new_entry uninit mem s m k
    | None =>
      if negb (mem_info mem) then (Some ENOMEM, s)
      else let m := mk_md5sig_info [] 0 0 in md5_new_entry uninit mem (s <| md5sig_info := Some m |>) m k
    end
  end.
(** memmove of the entries above [i], which leaves a copy of the last one behind *)
Definition remove_key (i : nat) (m : tcp_md5sig_info) : tcp_md5sig_info :=
  let n := entries4 m in (* already decremented *)
  m <| keys4 := take i (keys4 m) ++ take (n - i) (drop (S i) (keys4 m)) ++ drop n (keys4 m) |>.
Definition tcp_v4_md5_do_del (s : md5_state) (a : Z) : option errno * md5_state :=
  match md5sig_info s with
  | None => (Some ENOENT, s)
  | Some m =>
    match key_index (entries4 m) (keys4 m) a with
    | None => (Some ENOENT, s)
    | Some i =>
      let m := m <| entries4 := Nat.pred (entries4 m) |> in
      if Nat.eqb (entries4 m) 0 then (None, pool_drop (s <| md5sig_info := Some (m <| keys4 := [] |> <| alloced4 := 0%nat |>) |>))
      else if negb (Nat.eqb (entries4 m) i) then (None, s <| md5sig_info := Some (remove_key i m) |>)
      else (None, s <| md5sig_info := Some m |>)
    end
  end.
Definition tcp_v4_clear_md5_list (s : md5_state) : md5_state :=
  match md5sig_info s with
  | None => s
  | Some m =>
    let s := if Nat.eqb (entries4 m) 0 then s else pool_drop s in
    s <| md5sig_info := Some (mk_md5sig_info [] 0 0) |>
  end.

(** setsockopt(TCP_MD5SIG): the command as it was read from the user ([None]: -EFAULT). *)
Record tcp_md5sig := mk_md5sig { tcpm_family : Z; tcpm_addr : Z; tcpm_key : list Z; tcpm_keylen : Z }.
Definition AF_INET : Z := 2.
Definition TCP_MD5SIG_MAXKEYLEN : Z := 80.
Definition tcp_v4_parse_md5_keys (uninit : tcp4_md5sig_key) (mem : add_mem) (mem_dup : bool) (s : md5_state) (short : bool) (cmd : option tcp_md5sig) : option errno * md5_state :=
  if short then (Some EINVAL, s) else
  match cmd with
  | None => (Some EFAULT, s)
  | Some cmd =>
    if negb (tcpm_family cmd =? AF_INET) then (Some EINVAL, s)
    else if tcpm_keylen cmd =? 0 then
      match md5sig_info s with None => (Some ENOENT, s) | Some _ => tcp_v4_md5_do_del s (tcpm_addr cmd) end
    else if tcpm_keylen cmd >? TCP_MD5SIG_MAXKEYLEN then (Some EINVAL, s)
    else
      let add s := if negb mem_dup then (Some ENOMEM, s)
                   else tcp_v4_md5_do_add uninit mem s (tcpm_addr cmd) (take (Z.to_nat (tcpm_keylen cmd)) (tcpm_key cmd)) (tcpm_keylen cmd) in
      match md5sig_info s with
      | Some _ => add s
      | None => if negb (mem_info mem) then (Some EINVAL, s) else add (s <| md5sig_info := Some (mk_md5sig_info [] 0 0) |>)
      end
  end.

(** ** The keys as a map *)
Definition in_use (m : tcp_md5sig_info) : list tcp4_md5sig_key := take (entries4 m) (keys4 m).
(** The abstract state: the key for each address. *)
Definition key_for (l : list tcp4_md5sig_key) (a : Z) : option (list Z * Z) := (fun k => (key k, keylen k)) <$> List.find (fun k => addr k =? a) l.
Definition keys_of (s : md5_state) (a : Z) : option (list Z * Z) := md5sig_info s ≫= (fun m => key_for (in_use m) a).
Record info_ok (m : tcp_md5sig_info) : Prop := {
  io_alloc : length (keys4 m) = alloced4 m;
  io_fits : (entries4 m <= alloced4 m)%nat;
  io_dup : NoDup (addr <$> in_use m);
}.
(** The socket holds the pool exactly while it has keys; [base] counts the holds of the others. *)
Record md5_inv (base : Z) (s : md5_state) : Prop := {
  mi_info : forall m, md5sig_info s = Some m -> info_ok m;
  mi_pool : md5sig_users s = base + match md5sig_info s with Some m => if Nat.eqb (entries4 m) 0 then 0 else 1 | None => 0 end;
}.

Lemma key_index_some n l a i : key_index n l a = Some i -> exists k, take n l !! i = Some k /\ addr k = a.
Proof.
  revert l i. induction n as [|n IH]; intros [|x l] i H; try discriminate. cbn in H. destruct (Z.eqb_spec (addr x) a); [injection H as <-; by exists x|]. destruct (key_index n l a) as [j|] eqn:Ej; [|discriminate]. cbn in H. injection H as <-. by apply IH.
Qed.
Lemma key_index_none n l a k : key_index n l a = None -> k ∈ take n l -> addr k <> a.
Proof.
  revert l. induction n as [|n IH]; intros [|x l] H Hk; cbn in *; try by apply not_elem_of_nil in Hk. destruct (Z.eqb_spec (addr x) a); [discriminate|]. destruct (key_index n l a) as [j|] eqn:Ej; [discriminate|]. apply elem_of_cons in Hk as [->|Hk]; [done|by apply (IH l)].
Qed.
Lemma key_for_app l l' a : key_for (l ++ l') a = match key_for l a with Some v => Some v | None => key_for l' a end.
Proof. unfold key_for. induction l as [|x l IH]; [done|]. cbn. by destruct (addr x =? a). Qed.
Lemma key_for_none l a : key_for l a = None <-> a ∉ addr <$> l.
Proof.
  unfold key_for. induction l as [|x l IH]; cbn; [by split; [intros _; apply not_elem_of_nil|]|]. rewrite not_elem_of_cons, <- IH. destruct (Z.eqb_spec (addr x) a); split; [done|by intros [? _]|done|by intros [_ ?]].
Qed.
(** An entry at its place in the array. *)
Lemma key_for_at l1 k l2 a : addr k ∉ addr <$> l1 -> key_for (l1 ++ k :: l2) a = if addr k =? a then Some (key k, keylen k) else key_for (l1 ++ l2) a.
Proof.
  intros Hn. rewrite !key_for_app. unfold key_for at 2. cbn. destruct (Z.eqb_spec (addr k) a) as [<-|Hk]; [|done]. by rewrite (proj2 (key_for_none l1 (addr k)) Hn).
Qed.
Lemma lookup_spec s a : (forall m, md5sig_info s = Some m -> info_ok m) -> (fun k => (key k, keylen k)) <$> tcp_v4_md5_do_lookup s a = keys_of s a.
Proof.
  intros Hv. unfold tcp_v4_md5_do_lookup, keys_of. destruct (md5sig_info s) as [m|]; [|done]. cbn [mbind option_bind]. destruct (Nat.eqb_spec (entries4 m) 0) as [E0|_]; [unfold in_use; by rewrite E0|].
  destruct (key_index (entries4 m) (keys4 m) a) as [i|] eqn:Ei; cbn [mbind option_bind].
  - destruct (key_index_some _ _ _ _ Ei) as (k & Hk & <-). pose proof (io_dup m (Hv m eq_refl)) as Hd. pose proof Hk as Hk'. apply lookup_take_Some in Hk' as [Hk' _]. rewrite Hk'. cbn. apply list_elem_of_split_length in Hk as (l1 & l2 & El & _). fold (in_use m) in El. rewrite El in Hd |- *. rewrite fmap_app in Hd. cbn in Hd. rewrite key_for_at, Z.eqb_refl; [done|].
    apply NoDup_app in Hd as (_ & Hd & _). intros Hin. apply (Hd _ Hin). left.
  - cbn. symmetry. apply key_for_none. intros Hin. apply list_elem_of_fmap in Hin as (k & -> & Hk). by apply (key_index_none _ _ _ k Ei).
Qed.

(** *** Updates of the array *)
Lemma use_replace m i k k0 : in_use m !! i = Some k0 -> in_use (m <| keys4 := <[i := k]> (keys4 m) |>) = take i (in_use m) ++ k :: drop (S i) (in_use m).
Proof. intros H. unfold in_use in *. cbn. pose proof (lookup_lt_Some _ _ _ H) as Hl. rewrite length_take in Hl. rewrite take_insert_lt by lia. apply insert_take_drop. rewrite length_take. lia. Qed.
Lemma use_grow u m : info_ok m -> in_use (grow_keys u m) = in_use m.
Proof. intros [H1 H2 _]. unfold in_use, grow_keys. cbn. rewrite take_app_le by (rewrite length_take; lia). by rewrite take_take, Nat.min_id. Qed.
Lemma use_append m k : (entries4 m < length (keys4 m))%nat -> in_use (append_key m k) = in_use m ++ [k].
Proof. intros H. unfold in_use, append_key. cbn. rewrite (take_S_r _ _ k), take_insert_ge by (try apply list_lookup_insert_eq; lia). done. Qed.
Lemma use_remove m i : (i < entries4 m)%nat -> (entries4 m < length (keys4 m))%nat -> in_use (remove_key i m) = take i (in_use m) ++ take (entries4 m - i) (drop (S i) (keys4 m)).
Proof.
  intros Hi Hn. unfold in_use, remove_key. cbn. rewrite app_assoc, take_app_le by (rewrite length_app, !length_take, length_drop; lia). rewrite take_ge by (rewrite length_app, !length_take, length_drop; lia). rewrite take_take, Nat.min_l by lia. done.
Qed.
Lemma append_ok m k : info_ok m -> (entries4 m < length (keys4 m))%nat -> addr k ∉ addr <$> in_use m -> info_ok (append_key m k) /\ forall b, key_for (in_use (append_key m k)) b = if addr k =? b then Some (key k, keylen k) else key_for (in_use m) b.
Proof.
  intros [H1 H2 H3] Hl Hn. rewrite use_append by done. split; [|intros b; rewrite key_for_at by done; by rewrite app_nil_r]. split; [unfold append_key; cbn; by rewrite length_insert|unfold append_key; cbn; lia|]. rewrite use_append, fmap_app by done. apply NoDup_app. split_and!; [done| |apply NoDup_singleton].
  intros x Hx Hk. apply list_elem_of_singleton in Hk as ->. done.
Qed.
Lemma grow_ok u m : info_ok m -> alloced4 m = entries4 m -> info_ok (grow_keys u m) /\ (entries4 (grow_keys u m) < length (keys4 (grow_keys u m)))%nat.
Proof.
  intros Hv Ha. pose proof Hv as [H1 H2 H3]. assert (El : length (keys4 (grow_keys u m)) = S (entries4 m)) by (unfold grow_keys; cbn; rewrite length_app, length_take; cbn; lia). split; [|rewrite El; unfold grow_keys; cbn; lia]. split; [rewrite El; unfold grow_keys; cbn; lia|unfold grow_keys; cbn; lia|by rewrite use_grow].
Qed.

(** *** The operations *)

(** The outcome of an operation: the map becomes [upd], or there is an error and it stays. *)
Definition md5_outcome (base : Z) (s : md5_state) (upd : Z -> option (list Z * Z)) (r : option errno * md5_state) : Prop :=
  md5_inv base (snd r) /\ forall b, keys_of (snd r) b = match fst r with None => upd b | Some _ => keys_of s b end.
Lemma new_entry_ok u mem base s m k : md5_inv base s -> md5sig_info s = Some m -> addr k ∉ addr <$> in_use m ->
  md5_outcome base s (fun b => if addr k =? b then Some (key k, keylen k) else keys_of s b) (md5_new_entry u mem s m k).
Proof.
  intros [H1 H2] Hm Hn. specialize (H1 m Hm). rewrite Hm in H2. unfold md5_new_entry. assert (Hks : forall b, keys_of s b = key_for (in_use m) b) by (intros b; unfold keys_of; by rewrite Hm). assert (Hinv : md5_inv base s) by (split; [intros m' Hm'; congruence|by rewrite Hm]).
  case_if_as Hp; [by split|]. set (s1 := if Nat.eqb (entries4 m) 0 then pool_hold s else s). assert (Eu : md5sig_users s1 = base + 1) by (unfold s1; destruct (Nat.eqb (entries4 m) 0); unfold pool_hold; cbn; lia). assert (Em : md5sig_info s1 = Some m) by (unfold s1; by destruct (Nat.eqb (entries4 m) 0)).
  assert (Hok : forall m', info_ok m' -> (entries4 m' < length (keys4 m'))%nat -> in_use m' = in_use m ->
    md5_outcome base s (fun b => if addr k =? b then Some (key k, keylen k) else keys_of s b) (None, s1 <| md5sig_info := Some (append_key m' k) |>)).
  { intros m' Hv Hl Eq. destruct (append_ok m' k Hv Hl) as [A1 A2]; [by rewrite Eq|]. split; cbn [fst snd]; [split; [intros m2 E2; cbn in E2; injection E2 as <-; done|cbn; lia]|]. intros b. change (key_for (in_use (append_key m' k)) b = if addr k =? b then Some (key k, keylen k) else keys_of s b). rewrite A2, Eq. by rewrite Hks. }
  destruct (Nat.eqb_spec (alloced4 m) (entries4 m)) as [Ha|Ha].
  - destruct (mem_keys mem); cbn [negb].
    + destruct (grow_ok u m H1 Ha) as [G1 G2]. apply Hok; [done..|]. by apply use_grow.
    + split; cbn [fst snd]; [|intros b; unfold s1, keys_of; by destruct (Nat.eqb (entries4 m) 0)]. unfold s1. destruct (Nat.eqb (entries4 m) 0) eqn:E0; [|done]. split; [intros m' Hm'; cbn in Hm'; congruence|]. unfold pool_drop, pool_hold. cbn. rewrite Hm, E0. lia.
  - apply Hok; [done| |done]. destruct H1 as [G1 G2 _]. lia.
Qed.
Lemma do_add_ok u mem base s a nk nl : md5_inv base s -> md5_outcome base s (fun b => if a =? b then Some (nk, nl) else keys_of s b) (tcp_v4_md5_do_add u mem s a nk nl).
Proof.
  intros Hv. pose proof Hv as [H1 H2]. unfold tcp_v4_md5_do_add. pose proof (lookup_spec s a H1) as Hl. destruct (tcp_v4_md5_do_lookup s a) as [k0|] eqn:El.
  - unfold tcp_v4_md5_do_lookup in El. destruct (md5sig_info s) as [m|] eqn:Em; [|discriminate]. specialize (H1 m eq_refl). destruct (Nat.eqb (entries4 m) 0) eqn:Hz; [discriminate|]. destruct (key_index (entries4 m) (keys4 m) a) as [i|] eqn:Ei; [|discriminate]. destruct (key_index_some _ _ _ _ Ei) as (k & Hk & Ea). fold (in_use m) in Hk.
    set (k' := mk_key4 a nk nl). set (m' := m <| keys4 := <[i := k']> (keys4 m) |>). pose proof (use_replace m i k' k Hk) as Eu. fold m' in Eu. pose proof (take_drop_middle _ _ _ Hk) as Es. pose proof (io_dup m H1) as Hd. rewrite <- Es, fmap_app in Hd. cbn in Hd.
    assert (Hn : a ∉ addr <$> take i (in_use m)) by (apply NoDup_app in Hd as (_ & Hd & _); intros Hin; apply (Hd a Hin); rewrite <- Ea; left).
    unfold upd_info. rewrite Em. cbn [fmap option_fmap option_map]. rewrite Ei. fold k' m'. split; cbn [fst snd].
    + split; [intros m2 E2; injection E2 as <-|cbn; rewrite Hz; exact H2]. destruct H1 as [G1 G2 G3]. split; [cbn; by rewrite length_insert|done|]. rewrite Eu, fmap_app. cbn. by rewrite <- Ea.
    + intros b. change (key_for (in_use m') b = if a =? b then Some (nk, nl) else keys_of s b). rewrite Eu, key_for_at by done. change (addr k') with a. unfold keys_of. rewrite Em. cbn [mbind option_bind]. destruct (Z.eqb_spec a b) as [|Hb]; [done|]. rewrite <- Es at 3. rewrite key_for_at by (by rewrite Ea). rewrite Ea. by rewrite (proj2 (Z.eqb_neq a b) Hb).
  - cbn in Hl. destruct (md5sig_info s) as [m|] eqn:Em; [|].
    + apply (new_entry_ok u mem base s m (mk_key4 a nk nl) Hv Em). apply key_for_none. unfold keys_of in Hl. rewrite Em in Hl. by symmetry.
    + destruct (mem_info mem); cbn [negb]; [|by split]. set (s0 := s <| md5sig_info := Some (mk_md5sig_info [] 0 0) |>). destruct (new_entry_ok u mem base s0 (mk_md5sig_info [] 0 0) (mk_key4 a nk nl)) as [A1 A2]; [split; [intros m E2; injection E2 as <-; split; [done|done|constructor]|exact H2]|done|apply not_elem_of_nil|].
      split; [exact A1|]. intros b. rewrite A2. unfold keys_of. rewrite Em. done.
Qed.
Lemma key_for_drop l i k a b : l !! i = Some k -> addr k = a -> NoDup (addr <$> l) -> key_for (take i l ++ drop (S i) l) b = if a =? b then None else key_for l b.
Proof.
  intros Hk <- Hd. pose proof (take_drop_middle _ _ _ Hk) as Es. rewrite <- Es, fmap_app in Hd. cbn in Hd. apply NoDup_app in Hd as (_ & Hd1 & Hd2). apply NoDup_cons in Hd2 as [Hd2 _].
  assert (Hn : addr k ∉ addr <$> take i l) by (intros Hin; apply (Hd1 _ Hin); left). rewrite <- Es at 3. rewrite key_for_at by done. destruct (Z.eqb_spec (addr k) b) as [<-|]; [|done]. apply key_for_none. rewrite fmap_app, elem_of_app. tauto.
Qed.
Lemma NoDup_drop_one l i : NoDup (addr <$> l) -> NoDup (addr <$> (take i l ++ drop (S i) l)).
Proof.
  intros Hd. destruct (l !! i) as [k|] eqn:Hk; [|apply lookup_ge_None in Hk; rewrite take_ge, drop_ge, app_nil_r by lia; done]. rewrite <- (take_drop_middle _ _ _ Hk), fmap_app in Hd. rewrite fmap_app. cbn in Hd. rewrite NoDup_app, NoDup_cons in *. destruct Hd as (H1 & H2 & _ & H3). split_and!; [done| |done]. intros x Hx Hx2. apply (H2 x Hx). by right.
Qed.
(** What is in use after an entry was taken out. *)
Lemma del_in_use m i : info_ok m -> (i < entries4 m)%nat -> let m' := m <| entries4 := Nat.pred (entries4 m) |> in
  in_use (if Nat.eqb (entries4 m') i then m' else remove_key i m') = take i (in_use m) ++ drop (S i) (in_use m).
Proof.
  intros [H1 H2 _] Hi m'. assert (Em : entries4 m' = Nat.pred (entries4 m)) by done. destruct (Nat.eqb_spec (entries4 m') i) as [Ei|Hn].
  - unfold in_use. rewrite (drop_ge (take _ _)) by (rewrite length_take; lia). rewrite app_nil_r, take_take, Nat.min_l, Ei by lia. done.
  - rewrite use_remove by (change (keys4 m') with (keys4 m); lia). change (in_use m') with (take (entries4 m') (keys4 m)). change (keys4 m') with (keys4 m). unfold in_use. rewrite !take_take, !Nat.min_l by lia. f_equal. rewrite skipn_firstn_comm. f_equal. lia.
Qed.
Lemma remove_ok m i : info_ok m -> (i < entries4 m)%nat -> let m' := m <| entries4 := Nat.pred (entries4 m) |> in info_ok (if Nat.eqb (entries4 m') i then m' else remove_key i m').
Proof.
  intros Hv Hi m'. pose proof (del_in_use m i Hv Hi) as Eu. fold m' in Eu. pose proof Hv as [H1 H2 H3]. split; [| |rewrite Eu; by apply NoDup_drop_one].
  - destruct (Nat.eqb (entries4 m') i); [done|]. unfold remove_key. cbn. rewrite !length_app, !length_take, !length_drop. lia.
  - destruct (Nat.eqb (entries4 m') i); unfold remove_key; cbn; lia.
Qed.
Lemma do_del_ok base s a : md5_inv base s -> md5_outcome base s (fun b => if a =? b then None else keys_of s b) (tcp_v4_md5_do_del s a) /\ (fst (tcp_v4_md5_do_del s a) = None <-> keys_of s a <> None).
Proof.
  intros Hv. pose proof Hv as [H1 H2]. unfold tcp_v4_md5_do_del. unfold keys_of at 2. destruct (md5sig_info s) as [m|] eqn:Em; [|by split]. specialize (H1 m eq_refl). cbn [mbind option_bind]. destruct (key_index (entries4 m) (keys4 m) a) as [i|] eqn:Ei.
  - destruct (key_index_some _ _ _ _ Ei) as (k & Hk & Ea). fold (in_use m) in Hk. assert (Hi : (i < entries4 m)%nat) by (pose proof (lookup_lt_Some _ _ _ Hk) as Hl; unfold in_use in Hl; rewrite length_take in Hl; lia).
    assert (Hhas : key_for (in_use m) a <> None) by (rewrite key_for_none; intros Hn; apply Hn; rewrite <- Ea; apply list_elem_of_fmap_2, (list_elem_of_lookup_2 _ i _ Hk)).
    assert (Hz : Nat.eqb (entries4 m) 0 = false) by (apply Nat.eqb_neq; lia). rewrite Hz in H2. pose proof (del_in_use m i H1 Hi) as Eu. pose proof (remove_ok m i H1 Hi) as Hr. cbn zeta in *. set (m' := m <| entries4 := Nat.pred (entries4 m) |>) in *. assert (En : entries4 m' = Nat.pred (entries4 m)) by done.
    assert (Hkd : forall b, key_for (take i (in_use m) ++ drop (S i) (in_use m)) b = if a =? b then None else keys_of s b) by (intros b; rewrite (key_for_drop _ i k a) by (done || apply H1); unfold keys_of; by rewrite Em).
    destruct (Nat.eqb (entries4 m') 0) eqn:E0; [|destruct (Nat.eqb (entries4 m') i) eqn:Eq; cbn [negb]]; (split; [|by split]); split; cbn [fst snd].
    + apply Nat.eqb_eq in E0. rewrite En in E0. split; [intros m2 E2; injection E2 as <-; split; [done|cbn; lia|unfold in_use; cbn; rewrite take_nil; constructor]|]. unfold pool_drop. cbn. rewrite E0. cbn. lia.
    + intros b. rewrite <- Hkd. apply Nat.eqb_eq in E0. assert (Ei0 : i = 0%nat) by lia. unfold keys_of, in_use. cbn. rewrite take_nil. rewrite drop_ge by (rewrite length_take; lia). rewrite Ei0. done.
    + split; [intros m2 E2; injection E2 as <-; done|]. cbn [md5sig_users md5sig_info set set_md5sig_info]. change (md5sig_users s = base + (if Nat.eqb (entries4 m') 0 then 0 else 1)). by rewrite E0.
    + intros b. change (key_for (in_use m') b = if a =? b then None else keys_of s b). by rewrite Eu.
    + split; [intros m2 E2; injection E2 as <-; done|]. change (md5sig_users s = base + (if Nat.eqb (entries4 m') 0 then 0 else 1)). by rewrite E0.
    + intros b. change (key_for (in_use (remove_key i m')) b = if a =? b then None else keys_of s b). by rewrite Eu.
  - split; [by split|]. cbn. split; [done|]. intros Hn. destruct Hn. apply key_for_none. intros Hin. apply list_elem_of_fmap in Hin as (k & -> & Hk). by apply (key_index_none _ _ _ k Ei).
Qed.
Lemma clear_ok base s : md5_inv base s -> md5_inv base (tcp_v4_clear_md5_list s) /\ forall b, keys_of (tcp_v4_clear_md5_list s) b = None.
Proof.
  intros [H1 H2]. unfold tcp_v4_clear_md5_list. destruct (md5sig_info s) as [m|] eqn:Em; [|split; [by split; rewrite ?Em|intros b; unfold keys_of; by rewrite Em]]. split; [|done]. split; [intros m' E2; injection E2 as <-; split; [done|done|constructor]|]. cbn. destruct (Nat.eqb (entries4 m) 0); unfold pool_drop; cbn; lia.
Qed.

(** C14. The keys of a socket behave as a map from addresses to keys under every request of
    setsockopt(TCP_MD5SIG): a key replaces the one for its address, an empty key deletes it (and
    reports -ENOENT when there is none), the other addresses keep their keys, and an error, also
    one of the allocations on the way, leaves the map as it was.  Looking up a key reads the map,
    closing the socket empties it, and the pool of transforms is held exactly while there are
    keys. *)
Theorem md5_keys_ok u mem dup base s short cmd : md5_inv base s ->
  (forall a, (fun k => (key k, keylen k)) <$> tcp_v4_md5_do_lookup s a = keys_of s a) /\
  (md5_inv base (tcp_v4_clear_md5_list s) /\ forall a, keys_of (tcp_v4_clear_md5_list s) a = None) /\
  let r := tcp_v4_parse_md5_keys u mem dup s short (Some cmd) in
  let new := if tcpm_keylen cmd =? 0 then None else Some (take (Z.to_nat (tcpm_keylen cmd)) (tcpm_key cmd), tcpm_keylen cmd) in
  md5_inv base (snd r) /\ (forall b, keys_of (snd r) b = match fst r with None => if tcpm_addr cmd =? b then new else keys_of s b | Some _ => keys_of s b end) /\
  (fst r = Some ENOENT -> keys_of s (tcpm_addr cmd) = None) /\ (fst r = None -> new = None -> keys_of s (tcpm_addr cmd) <> None).
Proof.
  intros Hv. pose proof Hv as [H1 H2]. split; [intros a; by apply lookup_spec|]. split; [by apply clear_ok|]. cbn zeta. unfold tcp_v4_parse_md5_keys. destruct short; [by split_and!|]. case_if_as Hf; [by split_and!|]. destruct (tcpm_keylen cmd =? 0) eqn:Ez.
  - destruct (do_del_ok base s (tcpm_addr cmd) Hv) as [[D1 D2] D3]. destruct (md5sig_info s) as [m|] eqn:Em; [|split_and!; [done|done|intros _; unfold keys_of; by rewrite Em|done]]. split_and!; [done|exact D2| |by intros F _; apply D3]. intros F. destruct (keys_of s (tcpm_addr cmd)) eqn:Ek; [|done]. assert (fst (tcp_v4_md5_do_del s (tcpm_addr cmd)) = None) as F' by (by apply D3). congruence.
  - case_if_as Hl; [by split_and!|]. destruct dup; cbn [negb].
    + assert (Hadd : forall s0, md5_inv base s0 -> (forall b, keys_of s0 b = keys_of s b) -> let r := tcp_v4_md5_do_add u mem s0 (tcpm_addr cmd) (take (Z.to_nat (tcpm_keylen cmd)) (tcpm_key cmd)) (tcpm_keylen cmd) in
        md5_inv base (snd r) /\ (forall b, keys_of (snd r) b = match fst r with None => if tcpm_addr cmd =? b then Some (take (Z.to_nat (tcpm_keylen cmd)) (tcpm_key cmd), tcpm_keylen cmd) else keys_of s b | Some _ => keys_of s b end) /\ fst r <> Some ENOENT).
      { intros s0 Hv0 Hk0. destruct (do_add_ok u mem base s0 (tcpm_addr cmd) (take (Z.to_nat (tcpm_keylen cmd)) (tcpm_key cmd)) (tcpm_keylen cmd) Hv0) as [A1 A2]. split_and!; [done|intros b; rewrite A2, Hk0; done|]. unfold tcp_v4_md5_do_add, md5_new_entry. repeat case_match; done. }
      destruct (md5sig_info s) as [m|] eqn:Em; [destruct (Hadd s Hv ltac:(done)) as (A1 & A2 & A3); split_and!; [done|exact A2|done|done]|]. destruct (mem_info mem); cbn [negb]; [|by split_and!].
      destruct (Hadd (s <| md5sig_info := Some (mk_md5sig_info [] 0 0) |>)) as (A1 & A2 & A3); [split; [intros m E2; injection E2 as <-; split; [done|done|constructor]|exact H2]|intros b; unfold keys_of; by rewrite Em|]. split_and!; [done|exact A2|done|done].
    + destruct (md5sig_info s) as [m|] eqn:Em; [by split_and!|]. destruct (mem_info mem); cbn [negb]; [|by split_and!]. split_and!; [split; [intros m E2; injection E2 as <-; split; [done|done|constructor]|exact H2]|intros b; unfold keys_of; by rewrite Em|done|done].
Qed.

(** ** Signatures *)

(** The crypto transform and the parts of a segment that tcp.c feeds to it; an error is [None]. *)
Class Crypto := {
  hash_desc : Type;
  tcp_get_md5sig_pool : bool;
  crypto_hash_init : option hash_desc;
  crypto_hash_update : hash_desc -> list Z -> option hash_desc;
  crypto_hash_final : hash_desc -> option (list Z);
  tcp_md5_hash_header : hash_desc -> tcphdr -> option hash_desc;
  tcp_md5_hash_skb_data : hash_desc -> sk_buff -> Z -> option hash_desc;
  tcp_md5_hash_key : hash_desc -> list Z -> Z -> option hash_desc;
}.

Section Signatures.
Context {K : Kernel} {C : Crypto}.
Implicit Types (skb : sk_buff) (th : tcphdr) (k : tcp4_md5sig_key) (s : md5_state) (d : hash_desc).

(** The bytes of a word in memory, little-endian; addresses are words in network order. *)
Definition le32 (x : Z) : list Z := [u8 x; u8 (x / 2 ^ 8); u8 (x / 2 ^ 16); u8 (x / 2 ^ 24)].
Definition IPPROTO_TCP : Z := 6.
Definition tcp_v4_md5_hash_pseudoheader d (daddr saddr nbytes : Z) : option hash_desc :=
  crypto_hash_update d (le32 saddr ++ le32 daddr ++ [0; IPPROTO_TCP] ++ be16 nbytes).
(** The result of a hash function: the return value 0 or 1, and the buffer. *)
Definition md5_result (r : option (list Z)) : bool * list Z := match r with Some h => (false, h) | None => (true, replicate 16 0) end.
Definition tcp_v4_md5_hash_hdr k (daddr saddr : Z) th : bool * list Z :=
  md5_result (if negb tcp_get_md5sig_pool then None else
    d ← crypto_hash_init;
    d ← tcp_v4_md5_hash_pseudoheader d daddr saddr (Z.shiftl (th_doff th) 2);
    d ← tcp_md5_hash_header d th;
    d ← tcp_md5_hash_key d (key k) (keylen k);
    crypto_hash_final d).
(** Where the addresses come from: the socket, the request, or the packet itself. *)
Inductive md5_source := FromSock (saddr daddr : Z) | FromReq (loc rmt : Z) | FromPacket (saddr daddr : Z).
Definition md5_addrs (src : md5_source) : Z * Z := match src with FromSock s d => (s, d) | FromReq l r => (l, r) | FromPacket s d => (s, d) end.
Definition tcp_v4_md5_hash_skb k (src : md5_source) skb : bool * list Z :=
  let th := skb_th skb in
  let '(saddr, daddr) := md5_addrs src in
  md5_result (if negb tcp_get_md5sig_pool then None else
    d ← crypto_hash_init;
    d ← tcp_v4_md5_hash_pseudoheader d daddr saddr (len skb);
    d ← tcp_md5_hash_header d th;
    d ← tcp_md5_hash_skb_data d skb (Z.shiftl (th_doff th) 2);
    d ← tcp_md5_hash_key d (key k) (keylen k);
    crypto_hash_final d).
(** The 16 bytes at an offset of the segment. *)
Definition signature_at skb (loc : Z) : list Z := take 16 (drop (Z.to_nat loc) (bytes skb)).
(** True: the segment is dropped. *)
Definition tcp_v4_inbound_md5_hash s skb (saddr daddr : Z) : bool :=
  let hash_expected := tcp_v4_md5_do_lookup s saddr in
  let hash_location := tcp_parse_md5sig_option (skb_th skb) (bytes skb) in
  match hash_expected, hash_location with
  | None, None => false
  | Some _, None => true
  | None, Some _ => true
  | Some k, Some loc =>
    let '(genhash, newhash) := tcp_v4_md5_hash_skb k (FromPacket saddr daddr) skb in
    genhash || negb (bool_decide (signature_at skb loc = newhash))
  end.

(** RFC 2385: the data of a segment is signed from the end of its header on. *)
Class CryptoLaws : Prop := {
  skb_data_spec d skb skb' n : len skb = len skb' -> drop (Z.to_nat n) (bytes skb) = drop (Z.to_nat n) (bytes skb') -> tcp_md5_hash_skb_data d skb n = tcp_md5_hash_skb_data d skb' n;
}.

(** C15. Signing and checking: a segment that the peer signed for its own addresses with the key
    that we hold for it is accepted, where the signature was written into the options after it was
    computed; in general a segment is accepted exactly when we have no key for its source and it
    bears no signature, or we have one and the signature is that of the segment under it. *)
Theorem md5_sign_verify {L : CryptoLaws} base s skb saddr daddr : md5_inv base s ->
  let loc := tcp_parse_md5sig_option (skb_th skb) (bytes skb) in
  (tcp_v4_inbound_md5_hash s skb saddr daddr = false <->
     (keys_of s saddr = None /\ loc = None) \/
     exists k l, keys_of s saddr = Some (key k, keylen k) /\ loc = Some l /\ tcp_v4_md5_hash_skb k (FromPacket saddr daddr) skb = (false, signature_at skb l)) /\
  (forall k skb0 l, keys_of s saddr = Some (key k, keylen k) -> loc = Some l ->
     skb_th skb0 = skb_th skb -> len skb0 = len skb -> drop (Z.to_nat (Z.shiftl (th_doff (skb_th skb)) 2)) (bytes skb0) = drop (Z.to_nat (Z.shiftl (th_doff (skb_th skb)) 2)) (bytes skb) ->
     tcp_v4_md5_hash_skb k (FromSock saddr daddr) skb0 = (false, signature_at skb l) ->
     tcp_v4_inbound_md5_hash s skb saddr daddr = false).
Proof.
  intros [H1 _] loc. unfold tcp_v4_inbound_md5_hash. fold loc. pose proof (lookup_spec s saddr H1) as Hl.
  assert (Hks : forall k k', key k = key k' -> keylen k = keylen k' -> tcp_v4_md5_hash_skb k (FromPacket saddr daddr) skb = tcp_v4_md5_hash_skb k' (FromPacket saddr daddr) skb) by (intros k k' E1 E2; unfold tcp_v4_md5_hash_skb; by rewrite E1, E2).
  assert (Hiff : match tcp_v4_md5_do_lookup s saddr with
    | Some k => match loc with Some loc0 => let '(genhash, newhash) := tcp_v4_md5_hash_skb k (FromPacket saddr daddr) skb in genhash || negb (bool_decide (signature_at skb loc0 = newhash)) | None => true end
    | None => match loc with Some _ => true | None => false end end = false <->
    (keys_of s saddr = None /\ loc = None) \/ exists k l, keys_of s saddr = Some (key k, keylen k) /\ loc = Some l /\ tcp_v4_md5_hash_skb k (FromPacket saddr daddr) skb = (false, signature_at skb l)).
  { destruct (tcp_v4_md5_do_lookup s saddr) as [k|]; cbn in Hl; rewrite <- Hl; destruct loc as [l|]; [|split; [done|intros [[? _]|(k' & l & _ & ? & _)]; done]|split; [done|intros [[_ ?]|(k' & l' & ? & _)]; done]|split; [by left|done]].
    destruct (tcp_v4_md5_hash_skb k (FromPacket saddr daddr) skb) as [g h] eqn:Eh. rewrite orb_false_iff, negb_false_iff, bool_decide_eq_true. split.
    - intros [-> <-]. right. exists k, l. by rewrite Eh.
    - intros [[? _]|(k' & l' & Ek & El & Ehk)]; [done|]. injection Ek as E1 E2. injection El as <-. rewrite <- (Hks k k' E1 E2), Eh in Ehk. injection Ehk as -> ->. done. }
  split; [exact Hiff|]. intros k skb0 l Hk El Et Elen Ed Eh. apply Hiff. right. exists k, l. split_and!; [done..|]. rewrite <- Eh. unfold tcp_v4_md5_hash_skb. cbn [md5_addrs]. rewrite Et, Elen. destruct (negb tcp_get_md5sig_pool); [done|]. f_equal.
  destruct crypto_hash_init as [d|]; [|done]. cbn. destruct (tcp_v4_md5_hash_pseudoheader d daddr saddr (len skb)) as [d1|]; [|done]. cbn. destruct (tcp_md5_hash_header d1 (skb_th skb)) as [d2|]; [|done]. cbn. by rewrite (skb_data_spec d2 skb skb0).
Qed.
End Signatures.

Module Demo.
#[local] Existing Instance linux.
(** A toy transform that sums up the bytes. *)
#[local] Instance toy : Crypto := {|
  hash_desc := list Z;
  tcp_get_md5sig_pool := true;
  crypto_hash_init := Some [];
  crypto_hash_update d b := Some (d ++ b);
  crypto_hash_final d := Some (replicate 16 (u8 (sumZ id d)));
  tcp_md5_hash_header d th := Some (d ++ [th_seq th; th_ack_seq th; th_doff th]);
  tcp_md5_hash_skb_data d skb n := Some (d ++ drop (Z.to_nat n) (bytes skb));
  tcp_md5_hash_key d k n := Some (d ++ take (Z.to_nat n) k);
|}.
#[local] Instance toy_laws : CryptoLaws.
Proof. split. intros d skb skb' n _ E. cbn. by rewrite E. Qed.

Definition peer : Z := 33554442. (* 10.0.0.2 *)
Definition us : Z := 16777226.
Definition free_slot := mk_key4 0 [] 0.
Definition enough := mk_add_mem true true true.
Definition cmd := mk_md5sig AF_INET peer [11; 12; 13; 0; 0] 3.
Definition empty := mk_md5_state None 0.
Definition keyed := snd (tcp_v4_parse_md5_keys free_slot enough true empty false (Some cmd)).
Lemma empty_inv : md5_inv 0 empty.
Proof. by split. Qed.
Lemma md5_keys_ok_witness : md5_inv 0 keyed /\ keys_of keyed peer = Some ([11; 12; 13], 3).
Proof.
  destruct (md5_keys_ok free_slot enough true 0 empty false cmd empty_inv) as (_ & _ & H1 & H2 & _). split; [exact H1|]. rewrite H2. vm_compute. reflexivity.
Defined.
Definition th := blank_th <| th_seq := 7 |> <| th_doff := 10 |>.
Definition unsigned := blank_skb <| skb_th := th |> <| bytes := replicate 20 0 ++ [1; 1; 19; 18] ++ replicate 16 0 ++ [65; 66] |> <| len := 42 |>.
Definition k := mk_key4 peer [11; 12; 13] 3.
Definition signed := unsigned <| bytes := replicate 20 0 ++ [1; 1; 19; 18] ++ snd (tcp_v4_md5_hash_skb k (FromSock peer us) unsigned) ++ [65; 66] |>.
Lemma keyed_inv : md5_inv 0 keyed.
Proof. split; [|reflexivity]. intros m E. vm_compute in E. injection E as <-. split; [reflexivity|cbn; lia|]. cbn. apply NoDup_singleton. Qed.
Lemma md5_sign_verify_witness : tcp_v4_inbound_md5_hash keyed signed peer us = false.
Proof.
  apply (proj2 (md5_sign_verify 0 keyed signed peer us keyed_inv) k unsigned 24); vm_compute; reflexivity.
Defined.
End Demo.
