(* ===== verification/Reply.v ===== *)
(** * Replies without a socket

    net/ipv4/tcp_ipv4.c: the resets and acknowledgements that are sent for a segment that belongs
    to no full socket (tcp_v4_send_reset, tcp_v4_send_ack and its users), and the fields of the TCP
    control block that tcp_v4_rcv fills in for an arriving segment.  The theorems follow a reply to
    the peer, into the model of its side (tcp_input.c). *)

From S2P Require Import Prelude TcpTypes Kernel ReqQueue Rtt TcpOpt Minisocks DataQueue Md5 Input.

(** The members of the IP header, and of the packet that carries a segment, that the code uses;
    ports and addresses in network order.  [pk_local]: the route of the packet is RTN_LOCAL. *)
Record iphdr := mk_iphdr { ip_saddr : Z; ip_daddr : Z; ip_ttl : Z; ip_tos : Z }.
Record packet := mk_packet { pk_skb : sk_buff; pk_iph : iphdr; pk_source : Z; pk_dest : Z; pk_net : Z; pk_iif : Z; pk_local : bool }.
(** The segment given to ip_send_reply, and its arguments. *)
#[projections(primitive)]
Record tcp_reply := mk_reply {
  rp_source : Z;
  rp_dest : Z;
  rp_th : tcphdr;
  rp_opt : list Z; (* bytes *)
  rp_len : Z;
  rp_to : Z;
  rp_tos : Z;
  rp_nosrccheck : bool;
  rp_dev : Z
}.

Class ReplyEnv := { TCPOLEN_MD5SIG_ALIGNED : Z }.

Section Reply.
Context {K : Kernel} {C : Crypto} {R : ReplyEnv}.
Implicit Types (skb : sk_buff) (p : packet) (tw : timewait_sock) (req : request_sock).

(** From tcp_v4_rcv *)
Definition tcp_v4_fill_cb skb (dsfield : Z) : sk_buff :=
  let th := skb_th skb in
  skb <| seq := th_seq th |> <| end_seq := u32 (th_seq th + b2z (th_syn th) + b2z (th_fin th) + len skb - th_doff th * 4) |>
      <| ack_seq := th_ack_seq th |> <| when_ := 0 |> <| ip_dsfield := dsfield |> <| sacked := 0 |>.

Definition option_word (kind length : Z) : Z := Z.lor (Z.lor (Z.lor (Z.shiftl TCPOPT_NOP 24) (Z.shiftl TCPOPT_NOP 16)) (Z.shiftl kind 8)) length.
(** The signature at the end of the options: the header counts it before it is hashed. *)
Definition md5_option (key : option tcp4_md5sig_key) (to from : Z) (th : tcphdr) (opt : list Z) (ln : Z) : tcphdr * list Z * Z :=
  match key with
  | None => (th, opt, ln)
  | Some k =>
    let ln := ln + TCPOLEN_MD5SIG_ALIGNED in
    let th := th <| th_doff := ln / 4 |> in
    (th, opt ++ be32 (option_word TCPOPT_MD5SIG TCPOLEN_MD5SIG) ++ snd (tcp_v4_md5_hash_hdr k to from th), ln)
  end.

(** [sk]: the keys of the socket and its member transparent, where there is a socket. *)
Definition tcp_v4_send_reset (sk : option (md5_state * bool)) p : option tcp_reply :=
  let skb := pk_skb p in
  let th := skb_th skb in
  if th_rst th then None
  else if negb (pk_local p) then None
  else
    let rth := blank_th <| th_doff := sizeof_tcphdr / 4 |> <| th_rst := true |> in
    let rth := if th_ack th then rth <| th_seq := th_ack_seq th |>
               else rth <| th_ack := true |> <| th_ack_seq := u32 (th_seq th + b2z (th_syn th) + b2z (th_fin th) + len skb - Z.shiftl (th_doff th) 2) |> in
    let key := sk ≫= (fun s => tcp_v4_md5_do_lookup (fst s) (ip_daddr (pk_iph p))) in
    let '(rth, opt, ln) := md5_option key (ip_saddr (pk_iph p)) (ip_daddr (pk_iph p)) rth [] sizeof_tcphdr in
    Some (mk_reply (pk_dest p) (pk_source p) rth opt ln (ip_saddr (pk_iph p)) (ip_tos (pk_iph p)) (match sk with Some s => snd s | None => false end) 0).

Definition tcp_v4_send_ack p (seq ack win ts oif : Z) (key : option tcp4_md5sig_key) (nosrccheck : bool) (tos : Z) : tcp_reply :=
  let '(opt, ln) := if negb (ts =? 0) then (be32 (option_word TCPOPT_TIMESTAMP TCPOLEN_TIMESTAMP) ++ be32 tcp_time_stamp ++ be32 ts, sizeof_tcphdr + TCPOLEN_TSTAMP_ALIGNED)
                    else ([], sizeof_tcphdr) in
  let rth := blank_th <| th_doff := ln / 4 |> <| th_seq := seq |> <| th_ack_seq := ack |> <| th_ack := true |> <| th_window := u16 win |> in
  let '(rth, opt, ln) := md5_option key (ip_saddr (pk_iph p)) (ip_daddr (pk_iph p)) rth opt ln in
  mk_reply (pk_dest p) (pk_source p) rth opt ln (ip_saddr (pk_iph p)) tos nosrccheck oif.
(** The members of struct inet_timewait_sock that only the reply uses. *)
Record tw_reply := mk_tw_reply { tw_bound_dev_if : Z; tw_md5_key : option tcp4_md5sig_key; tw_transparent : bool; tw_tos : Z }.
Definition tcp_v4_timewait_ack tw (x : tw_reply) p : tcp_reply :=
  tcp_v4_send_ack p (tw_snd_nxt tw) (tw_rcv_nxt tw) (Z.shiftr (tw_rcv_wnd tw) (tw_rcv_wscale tw)) (tw_ts_recent tw)
    (tw_bound_dev_if x) (tw_md5_key x) (tw_transparent x) (tw_tos x).
Definition tcp_v4_reqsk_send_ack (s : md5_state) (no_srccheck : bool) p req : tcp_reply :=
  tcp_v4_send_ack p (u32 (snt_isn req + 1)) (u32 (rcv_isn req + 1)) (req_rcv_wnd req) (req_ts_recent req) 0
    (tcp_v4_md5_do_lookup s (ip_daddr (pk_iph p))) no_srccheck (ip_tos (pk_iph p)).
End Reply.

(** ** The reply at the peer *)
Section Peer.
Context {K : Kernel} {C : Crypto} {R : ReplyEnv}.
Implicit Types (skb : sk_buff) (p : packet) (sk : sock) (r : tcp_reply).

(** The reply as it arrives: the bytes of its header, its options, and the control block. *)
Definition arrived (hdr : list Z) r : sk_buff := tcp_v4_fill_cb (blank_skb <| skb_th := rp_th r |> <| bytes := hdr ++ rp_opt r |> <| len := rp_len r |>) 0.

(** The reset for a segment, without keys. *)
Definition reset_th skb : tcphdr :=
  let th := skb_th skb in
  let rth := blank_th <| th_doff := 5 |> <| th_rst := true |> in
  if th_ack th then rth <| th_seq := th_ack_seq th |> else rth <| th_ack := true |> <| th_ack_seq := u32 (th_seq th + b2z (th_syn th) + b2z (th_fin th) + len skb - Z.shiftl (th_doff th) 2) |>.
Lemma send_reset_none p : th_rst (skb_th (pk_skb p)) = false -> pk_local p = true ->
  tcp_v4_send_reset None p = Some (mk_reply (pk_dest p) (pk_source p) (reset_th (pk_skb p)) [] sizeof_tcphdr (ip_saddr (pk_iph p)) (ip_tos (pk_iph p)) false 0).
Proof. intros Hr Hl. unfold tcp_v4_send_reset. cbn zeta. rewrite Hr, Hl. cbn. unfold reset_th. by destruct (th_ack (skb_th (pk_skb p))). Qed.
Lemma reset_parse skb o hvp estab : th_doff (skb_th skb) = 5 -> ps_opt (tcp_parse_options skb o hvp estab) = o <| saw_tstamp := false |>.
Proof. intros Hd. unfold tcp_parse_options. rewrite Hd. done. Qed.

Context {W : TimeWait K} {D : Type} {O : DstOps D} (sk_dst_get : sock -> option D) {ST : StateLaws K} {SL : SeqLaws K} {WN : WindowLaws K}.

(** The socket [sk] of the peer sent the segment: its SYN, or a segment that acknowledges all that
    it received. *)
Definition syn_of sk skb : Prop :=
  sk_state sk = TCP_SYN_SENT /\ th_syn (skb_th skb) = true /\ th_ack (skb_th skb) = false /\ th_fin (skb_th skb) = false /\ len skb = th_doff (skb_th skb) * 4 /\ snd_nxt (tp sk) = u32 (th_seq (skb_th skb) + 1).
Definition ack_of sk skb : Prop :=
  th_ack (skb_th skb) = true /\ is_u32 (rcv_nxt (tp sk)) /\ th_ack_seq (skb_th skb) = rcv_nxt (tp sk) /\ before (rcv_nxt (tp sk)) (rcv_wup (tp sk)) = false.
Lemma syn_refused sk skb hdr r : syn_of sk skb -> rp_th r = reset_th skb -> tcp_rcv_synsent_state_process sk_dst_get sk (arrived hdr r) = Some (0, tcp_reset (sk <| tp; rx_opt; saw_tstamp := false |>)).
Proof using Type.
  intros (Hs & Hsyn & Ha & Hf & Hl & Hn) Er. unfold reset_th in Er. rewrite Ha, Hsyn, Hf, Hl in Er. unfold tcp_rcv_synsent_state_process. cbn zeta. assert (Et : skb_th (arrived hdr r) = rp_th r) by done. rewrite Et, reset_parse by (by rewrite Et, Er). rewrite Er. cbn [th_ack th_rst set set_th_ack set_th_ack_seq set_th_rst set_th_doff blank_th].
  change (ack_seq _) with (th_ack_seq (rp_th r)). rewrite Er. cbn. replace (th_seq (skb_th skb) + 1 + 0 + th_doff (skb_th skb) * 4 - Z.shiftl (th_doff (skb_th skb)) 2) with (th_seq (skb_th skb) + 1) by (rewrite Z.shiftl_mul_pow2; lia). rewrite <- Hn, Z.eqb_refl. done.
Qed.
Lemma ack_reset sk skb hdr r : ack_of sk skb -> rp_th r = reset_th skb -> rp_len r = sizeof_tcphdr -> let '(res, sk', _) := tcp_validate_incoming sk (arrived hdr r) in res = 0 /\ sk' = tcp_reset (sk <| tp; rx_opt; saw_tstamp := false |>).
Proof using D sk_dst_get SL WN.
  intros (Ha & Hu & Hq & Hb) Er El. unfold reset_th in Er. rewrite Ha in Er. assert (Et : skb_th (arrived hdr r) = rp_th r) by done. assert (Ed : th_doff (rp_th r) = 5) by (by rewrite Er).
  assert (Ef : tcp_fast_parse_options (arrived hdr r) (rx_opt (tp sk)) None = (false, mk_parse ((rx_opt (tp sk)) <| saw_tstamp := false |>) 0 None)) by (unfold tcp_fast_parse_options; rewrite Et, Ed; done). unfold tcp_validate_incoming. rewrite Ef, Et. cbn zeta. cbn [andb ps_opt ps_sacked].
  set (sk1 := sk <| tp; rx_opt := _ |>). set (skb1 := (arrived hdr r) <| sacked := 0 |>). assert (Es : seq skb1 = rcv_nxt (tp sk)) by (change (seq skb1) with (th_seq (rp_th r)); rewrite Er; exact Hq).
  assert (Ee : end_seq skb1 = rcv_nxt (tp sk)). { change (end_seq skb1) with (u32 (th_seq (rp_th r) + b2z (th_syn (rp_th r)) + b2z (th_fin (rp_th r)) + rp_len r - th_doff (rp_th r) * 4)). rewrite Er, El. cbn. rewrite Hq. unfold sizeof_tcphdr. rewrite <- (u32_small (rcv_nxt (tp sk)) Hu) at 2. f_equal. lia. }
  assert (Hin : tcp_sequence (tp sk1) (seq skb1) (end_seq skb1) = true).
  { unfold tcp_sequence. rewrite Es, Ee. change (rcv_wup (tp sk1)) with (rcv_wup (tp sk)). rewrite Hb. cbn [negb andb]. rewrite receive_window_spec, after_spec, before_spec. change (rcv_nxt (tp sk1)) with (rcv_nxt (tp sk)). set (w := Z.max 0 _). assert (Hw : 0 <= w < 2 ^ 31) by (unfold w; pose proof (s32_range (rcv_wup (tp sk1) + rcv_wnd (tp sk1) - rcv_nxt (tp sk))); lia). clearbody w. apply negb_true_iff, Z.ltb_ge. warith. }
  rewrite Hin. cbn [negb]. assert (Hrst : th_rst (rp_th r) = true) by (by rewrite Er). rewrite Hrst. done.
Qed.
(** C11. Resets for a segment of no socket: tcp_v4_send_reset makes one exactly when the segment is no
    reset itself and was addressed to this host; the reset goes back to where the segment came
    from and carries no data.  A peer in SYN-SENT whose SYN this was learns that the connection was
    refused; a peer in ESTABLISHED whose segment acknowledged just what it had received (and has
    announced) finds the reset acceptable and closes, with ECONNRESET.  Both without MD5 keys, which
    are checked before. *)
Theorem reset_reaches_peer p :
  (tcp_v4_send_reset None p = None <-> th_rst (skb_th (pk_skb p)) = true \/ pk_local p = false) /\
  forall r, tcp_v4_send_reset None p = Some r ->
    rp_to r = ip_saddr (pk_iph p) /\ rp_dest r = pk_source p /\ rp_source r = pk_dest p /\ rp_len r = sizeof_tcphdr /\ th_rst (rp_th r) = true /\
    forall sk hdr, let skb := arrived hdr r in
      (syn_of sk (pk_skb p) -> exists sk', tcp_rcv_synsent_state_process sk_dst_get sk skb = Some (0, sk') /\ sk_state sk' = TCP_CLOSE /\ sk_err sk' = Some ECONNREFUSED) /\
      (ack_of sk (pk_skb p) -> sk_state sk = TCP_ESTABLISHED -> exists sk' skb', tcp_validate_incoming sk skb = (0, sk', skb') /\ sk_state sk' = TCP_CLOSE /\ sk_err sk' = Some ECONNRESET).
Proof using ST SL WN.
  pose proof (send_reset_none p) as Hn. destruct (th_rst (skb_th (pk_skb p))) eqn:Hr; [split; [split; [by left|intros _; unfold tcp_v4_send_reset; by rewrite Hr]|intros r E; unfold tcp_v4_send_reset in E; by rewrite Hr in E]|].
  destruct (pk_local p) eqn:Hl; [|split; [split; [by right|intros _; unfold tcp_v4_send_reset; by rewrite Hr, Hl]|intros r E; unfold tcp_v4_send_reset in E; by rewrite Hr, Hl in E]]. rewrite (Hn eq_refl eq_refl). split; [split; [done|by intros [?|?]]|]. intros r E. injection E as <-. split_and!; [done..|cbn; unfold reset_th; by destruct (th_ack (skb_th (pk_skb p)))|].
  intros sk hdr skb. set (r := mk_reply _ _ _ _ _ _ _ _ _) in skb. split.
  - intros Hs. pose proof Hs as (E1 & _). exists (tcp_reset (sk <| tp; rx_opt; saw_tstamp := false |>)). split; [by apply (syn_refused sk (pk_skb p))|]. destruct (reset_spec (sk <| tp; rx_opt; saw_tstamp := false |>)) as [R1 R2]. change (sk_state (sk <| tp; rx_opt; saw_tstamp := false |>)) with (sk_state sk) in R2. rewrite E1 in R2. done.
  - intros Ha Hs. pose proof (ack_reset sk (pk_skb p) hdr r Ha eq_refl eq_refl) as Hv. fold skb in Hv. destruct (tcp_validate_incoming sk skb) as [[res sk'] skb']. destruct Hv as [-> ->]. eexists _, skb'. split; [done|]. destruct (reset_spec (sk <| tp; rx_opt; saw_tstamp := false |>)) as [R1 R2]. change (sk_state (sk <| tp; rx_opt; saw_tstamp := false |>)) with (sk_state sk) in R2. rewrite Hs in R2. done.
Qed.
End Peer.

(** ** Acknowledgements *)
Section Acks.
Context {K : Kernel} {C : Crypto} {R : ReplyEnv} {OL : OptLaws K}.
Implicit Types (p : packet) (tw : timewait_sock) (o : tcp_options_received).

Lemma option_word_spec : option_word TCPOPT_TIMESTAMP TCPOLEN_TIMESTAMP = 16844810.
Proof using OL. unfold option_word. by rewrite opt_nop, opt_timestamp, olen_timestamp. Qed.
(** The timestamp option of the ACK, read by the peer. *)
Lemma stamp_parsed hdr ts o : length hdr = 20%nat -> is_u32 ts -> is_u32 tcp_time_stamp ->
  tcp_parse_aligned_timestamp o (hdr ++ be32 (option_word TCPOPT_TIMESTAMP TCPOLEN_TIMESTAMP) ++ be32 tcp_time_stamp ++ be32 ts) = (true, o <| saw_tstamp := true |> <| rcv_tsval := tcp_time_stamp |> <| rcv_tsecr := ts |>).
Proof using OL.
  intros Hl Ht Hn. unfold tcp_parse_aligned_timestamp. fold (option_word TCPOPT_TIMESTAMP TCPOLEN_TIMESTAMP). rewrite option_word_spec. set (w := be32 16844810).
  assert (E0 : sizeof_tcphdr = Z.of_nat (length hdr) + 0) by (rewrite Hl; done). cbn zeta. assert (E : forall i b, 0 <= i -> get_be32 (hdr ++ b) (sizeof_tcphdr + i) = get_be32 b i) by (intros i b Hi; rewrite E0, <- Z.add_assoc, get_be32_app_r by lia; done).
  assert (Ew : forall b i, 0 <= i -> get_be32 (w ++ b) (4 + i) = get_be32 b i) by (intros b i Hi; rewrite <- (get_be32_app_r w b i) by done; done).
  rewrite <- (Z.add_0_r sizeof_tcphdr) at 1. rewrite !E by lia. unfold w at 1. rewrite get_be32_be32 by (unfold is_u32; lia). rewrite Z.eqb_refl. change 4 with (4 + 0). rewrite (Ew _ 0) by lia. change 8 with (4 + 4). rewrite (Ew _ 4) by lia.
  rewrite get_be32_be32 by done. change (get_be32 (be32 tcp_time_stamp ++ be32 ts) 4) with (get_be32 (be32 tcp_time_stamp ++ be32 ts) (Z.of_nat (length (be32 tcp_time_stamp)) + 0)). rewrite get_be32_app_r by lia. rewrite <- (app_nil_r (be32 ts)), get_be32_be32 by done. done.
Qed.
(** The ACK that a TIME-WAIT socket sends acknowledges what it received, from where it stopped
    sending, and offers its scaled window; when timestamps are in use the peer reads our clock and
    the echo of its last timestamp out of it, on its fast path. *)
Theorem timewait_ack_ok hdr tw x p o : length hdr = 20%nat -> is_u32 (tw_ts_recent tw) -> is_u32 tcp_time_stamp -> tw_md5_key x = None -> tstamp_ok o = true ->
  let r := tcp_v4_timewait_ack tw x p in
  let skb := arrived hdr r in
  rp_to r = ip_saddr (pk_iph p) /\ rp_dest r = pk_source p /\ th_ack (rp_th r) = true /\ th_rst (rp_th r) = false /\
  seq skb = tw_snd_nxt tw /\ ack_seq skb = tw_rcv_nxt tw /\ th_window (rp_th r) = u16 (Z.shiftr (tw_rcv_wnd tw) (tw_rcv_wscale tw)) /\ end_seq skb = u32 (seq skb) /\
  tcp_fast_parse_options skb o None =
    if tw_ts_recent tw =? 0 then (false, mk_parse (o <| saw_tstamp := false |>) 0 None)
    else (true, mk_parse (o <| saw_tstamp := true |> <| rcv_tsval := tcp_time_stamp |> <| rcv_tsecr := tw_ts_recent tw |>) 0 None).
Proof using OL.
  intros Hl Ht Hn Hk Ho. cbn zeta. unfold tcp_v4_timewait_ack, tcp_v4_send_ack. rewrite Hk. destruct (Z.eqb_spec (tw_ts_recent tw) 0) as [E0|E0]; cbn [negb md5_option].
  - split_and!; try done. change (u32 (tw_snd_nxt tw + 0 + 0 + 20 - 5 * 4) = u32 (tw_snd_nxt tw)). f_equal. lia.
  - rewrite olen_tstamp_aligned. split_and!; try done; [change (u32 (tw_snd_nxt tw + 0 + 0 + 32 - 8 * 4) = u32 (tw_snd_nxt tw)); f_equal; lia|].
    unfold tcp_fast_parse_options. rewrite olen_tstamp_aligned. set (r := mk_reply _ _ _ _ _ _ _ _ _). set (skb := arrived hdr r). assert (Ed : th_doff (skb_th skb) = 8) by done. rewrite Ed, Ho. change (8 =? sizeof_tcphdr / 4) with false. change (8 =? (sizeof_tcphdr + 12) / 4) with true. cbn [andb].
    assert (Eb : bytes skb = hdr ++ be32 (option_word TCPOPT_TIMESTAMP TCPOLEN_TIMESTAMP) ++ be32 tcp_time_stamp ++ be32 (tw_ts_recent tw)) by done. rewrite Eb, stamp_parsed by done. done.
Qed.
End Acks.

Module Demo.
#[local] Existing Instance linux.
#[local] Existing Instance Md5.Demo.toy.
#[local] Existing Instance Rtt.Demo.dst_ops.
#[local] Existing Instance DataQueue.Demo.tw.
#[export] Instance env : ReplyEnv := {| TCPOLEN_MD5SIG_ALIGNED := 20 |}.
Notation sk_syn := Input.Demo.sk_syn.
(** The SYN of a client for a port that nobody listens on, and a segment of a lost connection. *)
Definition syn_seg := blank_skb <| skb_th; th_syn := true |> <| skb_th; th_seq := Input.Demo.base |> <| skb_th; th_doff := 5 |> <| len := 20 |>.
Definition from_peer skb := mk_packet skb (mk_iphdr Md5.Demo.peer Md5.Demo.us 64 0) 1000 20480 1 2 true.
Definition refusal := default (mk_reply 0 0 blank_th [] 0 0 0 false 0) (tcp_v4_send_reset None (from_peer syn_seg)).
Lemma reset_reaches_peer_witness : exists sk', tcp_rcv_synsent_state_process Input.Demo.route sk_syn (arrived (replicate 20 0) refusal) = Some (0, sk') /\ sk_state sk' = TCP_CLOSE /\ sk_err sk' = Some ECONNREFUSED.
Proof.
  destruct (reset_reaches_peer Input.Demo.route (from_peer syn_seg)) as [_ H]. destruct (H refusal ltac:(vm_compute; reflexivity)) as (_ & _ & _ & _ & _ & H6). apply (proj1 (H6 sk_syn (replicate 20 0))). vm_compute. repeat split.
Defined.
Definition tw := mk_tw TCP_TIME_WAIT 0 7 500 900 65536 77 5.
Lemma timewait_ack_ok_witness : ack_seq (arrived (replicate 20 0) (tcp_v4_timewait_ack tw (mk_tw_reply 0 None false 0) (from_peer syn_seg))) = 500.
Proof.
  assert (H77 : is_u32 (tw_ts_recent tw)) by (unfold is_u32; cbn; lia). assert (Hnow : is_u32 tcp_time_stamp) by (vm_compute; intuition discriminate).
  destruct (timewait_ack_ok (replicate 20 0) tw (mk_tw_reply 0 None false 0) (from_peer syn_seg) (blank_opt <| tstamp_ok := true |>) ltac:(reflexivity) H77 Hnow ltac:(reflexivity) ltac:(vm_compute; reflexivity)) as (_ & _ & _ & _ & _ & H & _). exact H.
Defined.
(** A reset for a socket with a key for the peer is not signed: the key is looked up by the
    destination of the segment, which is our own address. *)
Example reset_key_own_address : rp_opt <$> tcp_v4_send_reset (Some (Md5.Demo.keyed, false)) (from_peer syn_seg) = Some [] /\ tcp_v4_md5_do_lookup Md5.Demo.keyed Md5.Demo.peer <> None.
Proof. vm_compute. split; [reflexivity|discriminate]. Qed.
End Demo.
