(* ===== verification/Icmp.v ===== *)
(** * ICMP errors

    net/ipv4/tcp_ipv4.c: tcp_v4_err, do_pmtu_discovery.  An ICMP message quotes the first bytes of a
    segment that this host sent; the socket that sent it learns about the error, or lowers its path
    MTU, when the quoted sequence number is one that is in flight.  RFC 1122 (4.2.3.9) and RFC 5927
    say that such a message, which anybody can forge, must not abort a connection.

    The table of error codes, the routing code and the retransmission timer are fields of the class
    [IcmpEnv]. *)

From S2P Require Import Prelude TcpTypes Kernel ReqQueue RcvTune Rtt SackGen DataQueue WriteQueue Scoreboard Recovery Cong Ack Frame Quiet Input Md5 Reply.

(** A full socket: the TCP socket, the queue of a listening one, its keys, and the members of
    struct inet_sock that the entry points look at. *)
#[projections(primitive)]
Record full_sock := mk_full {
  fs_sk : sock;
  fs_queue : listener;
  fs_md5 : md5_state;
  min_ttl : Z;
  recverr : bool;
  pmtudisc : Z;
  transparent : bool;
  sk_backlog : list sk_buff;
  backlog_len : Z (* sk_backlog.len *)
}.
Definition eta_full_sock (r : full_sock) : full_sock := mk_full (fs_sk r) (fs_queue r) (fs_md5 r) (min_ttl r) (recverr r) (pmtudisc r) (transparent r) (sk_backlog r) (backlog_len r).
#[export] Instance set_fs_sk : Setter fs_sk. Proof. solve_setter eta_full_sock. Defined.
#[export] Instance set_fs_queue : Setter fs_queue. Proof. solve_setter eta_full_sock. Defined.
#[export] Instance set_fs_md5 : Setter fs_md5. Proof. solve_setter eta_full_sock. Defined.
#[export] Instance set_sk_backlog : Setter sk_backlog. Proof. solve_setter eta_full_sock. Defined.
#[export] Instance set_backlog_len : Setter backlog_len. Proof. solve_setter eta_full_sock. Defined.

Inductive icmp_type := ICMP_SOURCE_QUENCH | ICMP_PARAMETERPROB | ICMP_DEST_UNREACH | ICMP_TIME_EXCEEDED | ICMP_OTHER.
(** The message: the quoted IP header and ports (in network order) and sequence number, and the MTU
    that comes with ICMP_FRAG_NEEDED. *)
Record icmp_msg := mk_icmp { ic_type : icmp_type; ic_code : Z; ic_iph : iphdr; ic_source : Z; ic_dest : Z; ic_seq : Z; ic_info : Z }.

Class IcmpEnv := {
  errno_code : errno -> Z;
  icmp_err_convert : Z -> errno;
  NR_ICMP_UNREACH : Z;
  ICMP_NET_UNREACH : Z;
  ICMP_HOST_UNREACH : Z;
  ICMP_FRAG_NEEDED : Z;
  IP_PMTUDISC_DONT : Z;
  dst_update_pmtu : sock -> Z -> option Z; (* the MTU of the route after dst->ops->update_pmtu, if there is a route *)
  ip_dont_fragment : sock -> bool;
  tcp_retransmit_timer : sock -> sock;
  jhash_2words : Z -> Z -> Z -> Z;
}.

Section Icmp.
Context {K : Kernel} {E : IcmpEnv}.
Implicit Types (sk : sock) (f : full_sock) (m : icmp_msg).

Definition do_pmtu_discovery f (mtu : Z) : full_sock :=
  let sk := fs_sk f in
  if st_eqb (sk_state sk) TCP_LISTEN then f else
  match dst_update_pmtu sk mtu with
  | None => f
  | Some pmtu =>
    let sk := if (mtu <? pmtu) && ip_dont_fragment sk then sk <| sk_err_soft := errno_code EMSGSIZE |> else sk in
    if negb (pmtudisc f =? IP_PMTUDISC_DONT) && (icsk_pmtu_cookie (icsk sk) >? pmtu)
    then f <| fs_sk := tcp_simple_retransmit (tcp_sync_mss sk pmtu) |>
    else f <| fs_sk := sk |>
  end.

(** The backoff of the timer is undone by one step; an empty write queue is a BUG. *)
Definition icmp_backoff sk : option sock :=
  let sk := sk <| icsk; icsk_backoff := u8 (icsk_backoff (icsk sk) - 1) |> in
  let sk := sk <| icsk; icsk_rto := u32 (Z.shiftl (if negb (srtt (tp sk) =? 0) then tcp_set_rto_ (tp sk) else TCP_TIMEOUT_INIT) (icsk_backoff (icsk sk))) |> in
  let sk := tcp_bound_rto sk in
  match tcp_write_queue_head sk ≫= wq_get sk with
  | None => None
  | Some skb =>
    let remaining := u32 (icsk_rto (icsk sk) - Z.min (icsk_rto (icsk sk)) (u32 (tcp_time_stamp - when_ skb))) in
    Some (if negb (remaining =? 0) then inet_csk_reset_xmit_timer sk ICSK_TIME_RETRANS remaining TCP_RTO_MAX else tcp_retransmit_timer sk)
  end.
(** The second switch, with the error. *)
Definition icmp_report f m (err : errno) : full_sock :=
  let sk := fs_sk f in
  match sk_state sk with
  | TCP_LISTEN =>
    if sk_owned sk then f else
    match inet_csk_search_req jhash_2words (fs_queue f) (ic_dest m) (ip_daddr (ic_iph m)) (ip_saddr (ic_iph m)) with
    | None => f
    | Some (req, prev) =>
      if match reqs (fs_queue f) !! req with Some r => negb (ic_seq m =? snt_isn r) | None => true end then f
      else f <| fs_queue := snd (inet_csk_reqsk_queue_drop (fs_queue f) req prev) |>
    end
  | TCP_SYN_SENT | TCP_SYN_RECV =>
    if negb (sk_owned sk) then f <| fs_sk := tcp_done (sk_error_report (sk <| sk_err := Some err |>)) |>
    else f <| fs_sk := sk <| sk_err_soft := errno_code err |> |>
  | _ =>
    if negb (sk_owned sk) && recverr f then f <| fs_sk := sk_error_report (sk <| sk_err := Some err |>) |>
    else f <| fs_sk := sk <| sk_err_soft := errno_code err |> |>
  end.
Definition icmp_reverts sk m : bool :=
  ((ic_code m =? ICMP_NET_UNREACH) || (ic_code m =? ICMP_HOST_UNREACH)) && (ic_seq m =? snd_una (tp sk))
  && negb (icsk_retransmits (icsk sk) =? 0) && negb (icsk_backoff (icsk sk) =? 0) && negb (sk_owned sk).
(** tcp_v4_err for the socket that was found, which is not in TIME-WAIT. *)
Definition icmp_sock f m : option full_sock :=
  let sk := fs_sk f in
  if st_eqb (sk_state sk) TCP_CLOSE then Some f
  else if ip_ttl (ic_iph m) <? min_ttl f then Some f
  else if negb (st_eqb (sk_state sk) TCP_LISTEN) && negb (between (ic_seq m) (snd_una (tp sk)) (snd_nxt (tp sk))) then Some f
  else
    match ic_type m with
    | ICMP_SOURCE_QUENCH | ICMP_OTHER => Some f
    | ICMP_PARAMETERPROB => Some (icmp_report f m EPROTO)
    | ICMP_TIME_EXCEEDED => Some (icmp_report f m EHOSTUNREACH)
    | ICMP_DEST_UNREACH =>
      if ic_code m >? NR_ICMP_UNREACH then Some f
      else if ic_code m =? ICMP_FRAG_NEEDED then Some (if negb (sk_owned sk) then do_pmtu_discovery f (ic_info m) else f)
      else
        let err := icmp_err_convert (ic_code m) in
        if icmp_reverts sk m then (fun sk => icmp_report (f <| fs_sk := sk |>) m err) <$> icmp_backoff sk
        else Some (icmp_report f m err)
    end.

(** ** What a message can do *)
Context {RL : RtoLaws K} {CS : CaStateLaws K} {HI : HintLaws K} {QL : QuietLaws} {ST : StateLaws K}.

(** The retransmission timer is due: the timeout has passed since the first buffer was sent. *)
Definition timer_due sk : Prop := exists b, head (sk_write_queue sk) = Some b /\ u32 (icsk_rto (icsk sk) - Z.min (icsk_rto (icsk sk)) (u32 (tcp_time_stamp - when_ b))) = 0.
Lemma backoff_kept sk sk' : icmp_backoff sk = Some sk' -> quiet sk sk' \/ exists sk1, quiet sk sk1 /\ timer_due sk1 /\ sk' = tcp_retransmit_timer sk1.
Proof using RL.
  unfold icmp_backoff. cbn zeta. set (sk1 := tcp_bound_rto _). assert (H1 : quiet sk sk1) by (unfold sk1; rewrite bound_rto_spec; case_if_as Hb; by split). clearbody sk1. destruct (tcp_write_queue_head sk1 ≫= wq_get sk1) as [skb|] eqn:Eh; [|done].
  assert (Eb : head (sk_write_queue sk1) = Some skb) by (revert Eh; unfold tcp_write_queue_head, wq_get; destruct (sk_write_queue sk1) as [|b q]; [done|]; cbn; by rewrite Nat.eqb_refl).
  intros [= <-]. case_if_as Hr; [left; apply (along_step rcv_kept (T := tquiet) _ sk1); [done|by split]|]. right. exists sk1. split; [done|]. split; [|done]. exists skb. split; [done|]. by apply negb_false_iff, Z.eqb_eq in Hr.
Qed.
Lemma pmtu_kept f mtu : along rcv_kept (fs_sk f) (fs_sk (do_pmtu_discovery f mtu)) /\ fs_queue (do_pmtu_discovery f mtu) = fs_queue f.
Proof using CS HI QL.
  unfold do_pmtu_discovery. cbn zeta. case_if_as Hl; [by split; [split|]|]. destruct (dst_update_pmtu (fs_sk f) mtu) as [pmtu|]; [|by split; [split|]]. set (sk1 := if (mtu <? pmtu) && ip_dont_fragment (fs_sk f) then (fs_sk f) <| sk_err_soft := errno_code EMSGSIZE |> else fs_sk f). assert (H1 : quiet (fs_sk f) sk1) by (unfold sk1; case_if_as Hs; by split). clearbody sk1. case_if_as Hc; (split; [|done]); [|exact H1].
  change (quiet (fs_sk f) (tcp_simple_retransmit (tcp_sync_mss sk1 pmtu))). apply (along_step rcv_kept (T := tquiet) _ (tcp_sync_mss sk1 pmtu)); [|apply steady_quiet, q_simple_retransmit]. by apply (along_step rcv_kept (T := tquiet) _ sk1), steady_quiet, ql_sync_mss.
Qed.

(** What a message does to a socket in each state. *)
Definition icmp_syn f f' : Prop :=
  fs_queue f' = fs_queue f /\ (quiet (fs_sk f) (fs_sk f') \/ sk_owned (fs_sk f) = false /\ sk_state (fs_sk f') = TCP_CLOSE /\ is_Some (sk_err (fs_sk f'))).
Definition icmp_effect f m f' : Prop :=
  let sk := fs_sk f in
  let sk' := fs_sk f' in
  match sk_state sk with
  | TCP_LISTEN => quiet sk sk' /\
      (fs_queue f' = fs_queue f \/
       exists req prev r, inet_csk_search_req jhash_2words (fs_queue f) (ic_dest m) (ip_daddr (ic_iph m)) (ip_saddr (ic_iph m)) = Some (req, prev) /\
         reqs (fs_queue f) !! req = Some r /\ snt_isn r = ic_seq m /\ fs_queue f' = snd (inet_csk_reqsk_queue_drop (fs_queue f) req prev))
  | TCP_SYN_SENT | TCP_SYN_RECV => icmp_syn f f'
  | _ => fs_queue f' = fs_queue f /\ quiet sk sk'
  end.
Lemma effect_same f m f' : fs_queue f' = fs_queue f -> quiet (fs_sk f) (fs_sk f') -> icmp_effect f m f'.
Proof using Type. intros Hq Hs. unfold icmp_effect, icmp_syn. cbn zeta. destruct (sk_state (fs_sk f)); auto. Qed.
Lemma report_effect f m err sk : quiet (fs_sk f) sk -> (sk = fs_sk f \/ sk_owned (fs_sk f) = false) -> icmp_effect f m (icmp_report (f <| fs_sk := sk |>) m err).
Proof using ST.
  intros Hk Ho. assert (Es : sk_state sk = sk_state (fs_sk f)) by (destruct Hk as [Hk _]; by injection Hk). set (f1 := f <| fs_sk := sk |>). assert (Hn : forall e, quiet (fs_sk f) (sk <| sk_err_soft := e |>)) by (intros e; destruct Hk as [K1 K2]; by split). assert (He : forall e, quiet (fs_sk f) (sk_error_report (sk <| sk_err := e |>))) by (intros e; rewrite error_report_spec; destruct Hk as [K1 K2]; by split).
  unfold icmp_report. change (fs_sk f1) with sk. change (fs_queue f1) with (fs_queue f). rewrite Es. assert (Hd : negb (sk_owned sk) = true -> icmp_syn f (f1 <| fs_sk := tcp_done (sk_error_report (sk <| sk_err := Some err |>)) |>)).
  { intros Hc. split; [done|]. right. change (fs_sk (set fs_sk _ f1)) with (tcp_done (sk_error_report (sk <| sk_err := Some err |>))). rewrite error_report_spec, done_state, done_err. split_and!; [|done|by eexists]. destruct Ho as [->|Ho]; [by apply negb_true_iff|done]. }
  destruct (sk_state (fs_sk f)) eqn:Est; try (case_if_as Hc; (apply effect_same; [done|apply Hn || apply He])).
  - case_if_as Hc; [|apply effect_same; [done|apply Hn]]. unfold icmp_effect. rewrite Est. by apply Hd.
  - case_if_as Hc; [|apply effect_same; [done|apply Hn]]. unfold icmp_effect. rewrite Est. by apply Hd.
  - case_if_as Hc; [by apply effect_same|]. destruct (inet_csk_search_req _ _ _ _ _) as [[req prev]|] eqn:Eq; [|by apply effect_same]. destruct (reqs (fs_queue f) !! req) as [r|] eqn:Er; [|by apply effect_same]. case_if_as Hi; [by apply effect_same|]. unfold icmp_effect. rewrite Est. split; [done|]. right. exists req, prev, r. apply negb_false_iff, Z.eqb_eq in Hi. by split_and!.
Qed.
(** C10. ICMP errors by themselves do not abort a connection: a message that does not quote a sequence
    number in flight changes nothing at all; one that does leaves the state, the receive queues and
    the window of a connection past the handshake alone.  A socket in SYN-SENT or SYN-RECV is closed
    with the error unless a process holds its lock; of a listening socket only the request with this
    initial sequence number is dropped.  The one exception: a network or host unreachable message
    that takes back a step of the backoff, after which the retransmission timer is due, runs the
    timer; then the message has this effect on what the timer leaves.  The BUG for an empty write
    queue is out of reach for a socket that, while it retransmits, has something in its write queue. *)
Theorem icmp_cannot_abort f m :
  (forall f', icmp_sock f m = Some f' ->
     (icmp_effect f m f' \/
      icmp_reverts (fs_sk f) m = true /\ exists sk1, quiet (fs_sk f) sk1 /\ timer_due sk1 /\ icmp_effect (f <| fs_sk := tcp_retransmit_timer sk1 |>) m f') /\
     (sk_state (fs_sk f) <> TCP_LISTEN -> between (ic_seq m) (snd_una (tp (fs_sk f))) (snd_nxt (tp (fs_sk f))) = false -> f' = f)) /\
  ((icsk_retransmits (icsk (fs_sk f)) <> 0 -> sk_write_queue (fs_sk f) <> []) -> is_Some (icmp_sock f m)).
Proof using RL CS HI QL ST.
  assert (Hr : forall f err, icmp_effect f m (icmp_report f m err)) by (intros f0 err; apply (report_effect f0 m err (fs_sk f0)); [by split|by left]). assert (Hs : icmp_effect f m f) by (apply effect_same; [done|by split]). split.
  - intros f' E1. split.
    + revert E1. unfold icmp_sock. cbn zeta. case_if_as H1; [intros [= <-]; by left|]. case_if_as H2; [intros [= <-]; by left|]. case_if_as H3; [intros [= <-]; by left|]. destruct (ic_type m); try (intros [= <-]; left; done). case_if_as H4; [intros [= <-]; by left|]. case_if_as H5; [intros [= <-]; left; case_if_as Ho; [|done]; destruct (pmtu_kept f (ic_info m)); by apply effect_same|].
      case_if_as H6; [|intros [= <-]; by left]. destruct (icmp_backoff (fs_sk f)) as [sk|] eqn:Eb; [|done]. cbn. intros [= <-]. assert (Ho : sk_owned (fs_sk f) = false) by (unfold icmp_reverts in H6; rewrite !andb_true_iff in H6; by apply negb_true_iff, H6). destruct (backoff_kept _ _ Eb) as [Hk|(sk1 & Hk & Hd & ->)].
      * left. apply report_effect; [done|by right].
      * right. split; [done|]. exists sk1. split_and!; [done|done|]. apply Hr.
    + intros Hl Hb. revert E1. unfold icmp_sock. cbn zeta. case_if_as H1; [by intros [= <-]|]. case_if_as H2; [by intros [= <-]|]. rewrite Hb. unfold st_eqb at 1. rewrite (bool_decide_eq_false_2 _ Hl). cbn. by intros [= <-].
  - intros Hq. unfold icmp_sock. cbn zeta. case_if_as H1; [by eexists|]. case_if_as H2; [by eexists|]. case_if_as H3; [by eexists|]. destruct (ic_type m); try by eexists. case_if_as H4; [by eexists|]. case_if_as H5; [by eexists|]. case_if_as H6; [|by eexists]. unfold icmp_reverts in H6. rewrite !andb_true_iff in H6. destruct H6 as [[[_ H6] _] _]. apply negb_true_iff, Z.eqb_neq in H6. specialize (Hq H6).
    unfold icmp_backoff. cbn zeta. set (sk1 := tcp_bound_rto _). assert (Ew : sk_write_queue sk1 = sk_write_queue (fs_sk f)) by (unfold sk1; rewrite bound_rto_spec; by case_if_as Hb). clearbody sk1. unfold tcp_write_queue_head, wq_get. rewrite Ew. destruct (sk_write_queue (fs_sk f)) as [|b q]; [done|]. cbn. rewrite Nat.eqb_refl. by eexists.
Qed.
End Icmp.

Module Demo.
#[local] Existing Instance linux.
#[local] Existing Instance Input.Demo.linux_quiet.
#[export] Instance env : IcmpEnv := {|
  errno_code e := match e with EPROTO => 71 | EHOSTUNREACH => 113 | ENETUNREACH => 101 | EMSGSIZE => 90 | ECONNREFUSED => 111 | _ => 92 end;
  icmp_err_convert c := if c =? 0 then ENETUNREACH else if c =? 1 then EHOSTUNREACH else ECONNREFUSED;
  NR_ICMP_UNREACH := 15; ICMP_NET_UNREACH := 0; ICMP_HOST_UNREACH := 1; ICMP_FRAG_NEEDED := 4; IP_PMTUDISC_DONT := 0;
  dst_update_pmtu _ mtu := Some (Z.max 552 mtu);
  ip_dont_fragment _ := true;
  tcp_retransmit_timer sk := sk;
  jhash_2words := ReqQueue.Demo.jh;
|}.
Notation base := Scoreboard.Demo.base.
Definition conn := mk_full (Recovery.Demo.sk_sack <| sk_state := TCP_ESTABLISHED |> <| icsk; icsk_retransmits := 2 |> <| icsk; icsk_backoff := 2 |>) ReqQueue.Demo.q0 (mk_md5_state None 0) 0 false 1 false [] 0.
(** The network went away under the first segment in flight; a forged message about a later one. *)
Definition unreachable (seq : Z) := mk_icmp ICMP_DEST_UNREACH ICMP_NET_UNREACH (mk_iphdr Md5.Demo.us Md5.Demo.peer 64 0) 80 5000 seq 0.
Definition told := default conn (icmp_sock conn (unreachable (snd_una (tp (fs_sk conn))))).
Example told_backoff : icsk_backoff (icsk (fs_sk told)) = 1 /\ sk_err_soft (fs_sk told) = 101.
Proof. vm_compute. split; reflexivity. Qed.
Lemma icmp_cannot_abort_witness : sk_state (fs_sk told) = TCP_ESTABLISHED /\ icmp_sock conn (unreachable (u32 (base - 7))) = Some conn.
Proof.
  split.
  - destruct (icmp_cannot_abort conn (unreachable (snd_una (tp (fs_sk conn))))) as [H1 H2]. destruct H2 as [f' E]; [intros _; vm_compute; discriminate|]. unfold told. rewrite E. destruct (H1 f' E) as [[H3|(_ & sk1 & H4 & _ & H3)] _].
    + unfold icmp_effect in H3. change (sk_state (fs_sk conn)) with TCP_ESTABLISHED in H3. destruct H3 as [_ [H3 _]]. by injection H3.
    + assert (Es : sk_state sk1 = TCP_ESTABLISHED) by (destruct H4 as [H4 _]; by injection H4). unfold icmp_effect in H3. cbn zeta in H3. change (sk_state (fs_sk (conn <| fs_sk := tcp_retransmit_timer sk1 |>))) with (sk_state sk1) in H3. rewrite Es in H3. destruct H3 as [_ [H3 _]]. cbn. transitivity (sk_state sk1); [by injection H3|exact Es].
  - destruct (icmp_cannot_abort conn (unreachable (u32 (base - 7)))) as [H1 H2]. destruct H2 as [f' E]; [intros _; vm_compute; discriminate|]. rewrite E. f_equal. apply (proj2 (H1 f' E)); [discriminate|vm_compute; reflexivity].
Defined.
End Demo.
