(* ===== verification/Listen.v ===== *)
(** * A listening socket

    net/ipv4/tcp_ipv4.c: tcp_v4_conn_request, which answers a SYN, tcp_v4_send_synack, and
    tcp_v4_hnd_req, which finds the request or the connection that a segment for a listening socket
    belongs to.  The theorems: what is stored for a SYN, that a flood of them stores no more than the
    table holds, and that the handshake that starts with the SYN-ACK can be completed.

    IP options, the console message about a SYN flood and the statistics are left out.  TCP cookie
    transactions (RFC 6013) are modelled as far as this code takes part in them. *)

From stdpp Require Import gmap.
From S2P Require Import Prelude TcpTypes Kernel ReqQueue Rtt TcpOpt Minisocks Hashtables Md5 Reply Icmp.

(** The members of struct tcp_sock for TCP cookie transactions, and struct tcp_extend_values, which
    goes with the SYN-ACK. *)
Record ct_values := mk_ct { cookie_out_never : bool; cookie_in_always : bool; cookie_desired : option Z }.
Record tcp_extend_values := mk_ext { ext_bakery : list Z; ext_plus : Z; ext_out_never : bool; ext_in_always : bool }.

(** Code outside of the repository: the routing code and the peers, the SYN cookies, the request
    sockets, the construction of the SYN-ACK (with the request that it may change) and its
    transmission. *)
Class ListenEnv (D : Type) := {
  sysctl_tcp_syncookies : bool;
  sysctl_max_syn_backlog : Z;
  sysctl_tcp_cookie_size : Z;
  COOKIE_DIGEST_WORDS : Z;
  rt_bcast_mcast : packet -> bool; (* skb_rtable(skb)->rt_flags & (RTCF_BROADCAST | RTCF_MULTICAST) *)
  inet_reqsk_alloc : gmap nat request_sock -> option nat;
  fresh_req : request_sock; (* what the memory of a new request holds *)
  fresh_opt : tcp_options_received; (* the options on the stack *)
  tcp_openreq_init : request_sock -> tcp_options_received -> packet -> request_sock;
  security_inet_conn_request : sock -> packet -> request_sock -> bool;
  TCP_ECN_create_request : request_sock -> tcphdr -> request_sock;
  cookie_v4_init_sequence : packet -> Z -> Z * Z; (* the sequence number and the MSS *)
  tcp_cookie_generator : option (list Z); (* the bakery *)
  inet_csk_route_req : sock -> request_sock -> option (D * Z); (* the route and its destination *)
  rt_get_peer : D -> Z -> option inet_peer;
  secure_tcp_sequence_number : Z -> Z -> Z -> Z -> Z;
  tcp_make_synack : sock -> D -> request_sock -> tcp_extend_values -> option sk_buff * request_sock;
  ip_build_and_send_pkt : sk_buff -> Z -> Z -> Z; (* after net_xmit_eval *)
  cookie_v4_check : full_sock -> packet -> req_verdict * listener; (* may make a child out of the cookie *)
}.

Section Listen.
Context {K : Kernel} {C : Crypto} {I : IcmpEnv} {H : HashEnv} {D : Type} {O : DstOps D} {E : ListenEnv D}.
Implicit Types (sk : sock) (f : full_sock) (q : listener) (p : packet) (r : request_sock) (o : tcp_options_received).

Definition tcp_v4_init_sequence p : Z := secure_tcp_sequence_number (ip_daddr (pk_iph p)) (ip_saddr (pk_iph p)) (pk_dest p) (pk_source p).
Definition tcp_syn_flood_action : bool := sysctl_tcp_syncookies.

(** The error, the SYN-ACK that left, and the request. *)
Definition tcp_v4_send_synack sk (dst : option D) r (ext : tcp_extend_values) : Z * option sk_buff * request_sock :=
  match (match dst with Some d => Some d | None => fst <$> inet_csk_route_req sk r end) with
  | None => (-1, None, r)
  | Some d =>
    let '(skb, r) := tcp_make_synack sk d r ext in
    match skb with
    | None => (-1, None, r)
    | Some skb => (ip_build_and_send_pkt skb (loc_addr r) (rmt_addr r), Some skb, r)
    end
  end.
Definition tcp_v4_rtx_synack sk r (ext : tcp_extend_values) : Z * option sk_buff * request_sock := tcp_v4_send_synack sk None r ext.

(** The bytes [m] are added to those of the bakery from [n] on. *)
Definition xor_from (b : list Z) (n : nat) (m : list Z) : list Z := take n b ++ zip_with Z.lxor (drop n b) m ++ drop (n + length m) b.
(** The TCP cookie of the SYN: drop it, or the values for the SYN-ACK, with whether they have our
    cookie. *)
Definition syn_cookie_pair (c : ct_values) p (st : parse_state) : option (bool * tcp_extend_values) :=
  let o := ps_opt st in
  if (cookie_plus o >? 0) && saw_tstamp o && negb (cookie_out_never c)
     && ((sysctl_tcp_cookie_size >? 0) || match cookie_desired c with Some d => d >? 0 | None => false end) then
    match tcp_cookie_generator with
    | None => None
    | Some bakery =>
      let l := Z.to_nat (cookie_plus o - TCPOLEN_COOKIE_BASE) in
      let theirs := take l (drop (Z.to_nat (default 0 (ps_hvp st))) (bytes (pk_skb p))) in
      let mess := le32 (ip_daddr (pk_iph p)) ++ le32 (ip_saddr (pk_iph p)) ++ theirs in
      Some (true, mk_ext (xor_from bakery (Z.to_nat (COOKIE_DIGEST_WORDS * 4)) mess) (cookie_plus o) false (cookie_in_always c))
    end
  else if negb (cookie_in_always c) then Some (false, mk_ext [] 0 true (cookie_in_always c))
  else None.

(** The last timestamp of the peer, or the last quarter of the backlog: drop the SYN, or go on with
    the route that was looked up. *)
Definition syn_proven sk q p r o : option (option D) :=
  let saddr := ip_saddr (pk_iph p) in
  let route := if saw_tstamp o && sysctl_tw_recycle then inet_csk_route_req sk r else None in
  let peer := match route with Some (d, daddr) => if daddr =? saddr then rt_get_peer d daddr else None | None => None end in
  match peer with
  | Some pe =>
    if (u32 (u32 get_seconds - tcp_ts_stamp pe) <? TCP_PAWS_MSL) && (s32 (tcp_ts pe - req_ts_recent r) >? TCP_PAWS_WINDOW) then None
    else Some (fst <$> route)
  | None =>
    if negb sysctl_tcp_syncookies && (sysctl_max_syn_backlog - reqsk_queue_len q <? Z.shiftr sysctl_max_syn_backlog 2)
       && match route with Some (d, _) => dst_metric d RTAX_RTT =? 0 | None => true end then None
    else Some (fst <$> route)
  end.

(** The options of the SYN; hash_location is not initialised. *)
Definition syn_options sk p (hvp : option Z) : parse_state :=
  let tmp_opt := (tcp_clear_options fresh_opt) <| mss_clamp := TCP_MSS_DEFAULT |> <| user_mss := user_mss (rx_opt (tp sk)) |> in
  tcp_parse_options (pk_skb p) tmp_opt hvp false.
(** The request for a SYN, before an initial sequence number is chosen. *)
Definition syn_request p o : request_sock :=
  let r := tcp_openreq_init fresh_req o p in
  r <| loc_addr := ip_daddr (pk_iph p) |> <| rmt_addr := ip_saddr (pk_iph p) |>.
(** From the allocation on; [Some] is a request to be hashed.  The queue is only read. *)
Definition syn_answer sk q (c : ct_values) p (want_cookie : bool) (hvp : option Z) : option request_sock * option sk_buff :=
  let isn := when_ (pk_skb p) in
  let st := syn_options sk p hvp in
  match syn_cookie_pair c p st with
  | None => (None, None)
  | Some (paired, ext) =>
    let want_cookie := want_cookie && negb paired in
    let o := ps_opt st in
    let o := if want_cookie && negb (saw_tstamp o) then tcp_clear_options o else o in
    let o := o <| tstamp_ok := saw_tstamp o |> in
    let r := syn_request p o in
    if security_inet_conn_request sk p r then (None, None)
    else
      let r := if negb want_cookie || tstamp_ok o then TCP_ECN_create_request r (skb_th (pk_skb p)) else r in
      let chosen :=
        if want_cookie then let '(s, m) := cookie_v4_init_sequence p (req_mss r) in Some (s, r <| req_mss := m |>, None)
        else if isn =? 0 then (fun dst => (tcp_v4_init_sequence p, r, dst)) <$> syn_proven sk q p r o
        else Some (isn, r, None) in
      match chosen with
      | None => (None, None)
      | Some (isn, r, dst) =>
        let r := r <| snt_isn := isn |> <| snt_synack := tcp_time_stamp |> in
        let '(err, sent, r) := tcp_v4_send_synack sk dst r ext in
        if negb (err =? 0) || want_cookie then (None, sent) else (Some r, sent)
      end
  end.

(** The socket and the SYN-ACK that was sent. *)
Definition tcp_v4_conn_request (c : ct_values) (hvp : option Z) f p : full_sock * option sk_buff :=
  let sk := fs_sk f in
  let q := fs_queue f in
  if rt_bcast_mcast p then (f, None) else
  let full := reqsk_queue_is_full q && (when_ (pk_skb p) =? 0) in
  let want_cookie := full && tcp_syn_flood_action in
  if full && negb want_cookie then (f, None)
  else if sk_acceptq_is_full q && (reqsk_queue_len_young q >? 1) then (f, None)
  else
    match inet_reqsk_alloc (reqs q) with
    | None => (f, None)
    | Some x =>
      let '(res, sent) := syn_answer sk q c p want_cookie hvp in
      match res with
      | None => (f, sent) (* reqsk_free *)
      | Some r =>
        let q := q <| reqs := <[x := r]> (reqs q) |> in
        (f <| fs_queue := snd (inet_csk_reqsk_queue_hash_add jhash_2words jiffies q x TCP_TIMEOUT_INIT) |>, sent)
      end
    end.

(** The request or the connection that a segment for a listening socket belongs to. *)
Definition tcp_v4_hnd_req (syn_recv_sock : sock -> sk_buff -> request_sock -> option nat) (g : tcp_options_received) (h : inet_hashinfo) f p : req_result :=
  let q := fs_queue f in
  let saddr := ip_saddr (pk_iph p) in
  let daddr := ip_daddr (pk_iph p) in
  match inet_csk_search_req jhash_2words q (pk_source p) saddr daddr with
  | Some (req, prev) => tcp_check_req syn_recv_sock g (fs_sk f) (pk_skb p) q req prev
  | None =>
    match inet_lookup_established_ h (pk_net p) saddr (pk_source p) daddr (htons (pk_dest p)) (pk_iif p) with
    | Some nsk => mk_rr (if on_sock h nsk (fun s => st_eqb (isk_state s) TCP_TIME_WAIT) then RvNull else RvChild nsk) q []
    | None => if negb (th_syn (skb_th (pk_skb p))) then let '(v, q) := cookie_v4_check f p in mk_rr v q [] else mk_rr RvListener q []
    end
  end.
End Listen.

(** ** The documented behaviour of the code outside *)

(** What identifies the request of a SYN. *)
Definition req_id (r : request_sock) := (loc_addr r, loc_port r, rmt_addr r, rmt_port r, rcv_isn r).
(** The SYN-ACK for a request. *)
Definition answers (skb : sk_buff) (r : request_sock) : Prop :=
  th_syn (skb_th skb) = true /\ th_ack (skb_th skb) = true /\ th_seq (skb_th skb) = snt_isn r /\ th_ack_seq (skb_th skb) = u32 (rcv_isn r + 1).
Class ListenLaws {D : Type} (E : ListenEnv D) : Prop := {
  ll_alloc m x : inet_reqsk_alloc m = Some x -> m !! x = None;
  ll_openreq r o p : rcv_isn (tcp_openreq_init r o p) = seq (pk_skb p) /\ rmt_port (tcp_openreq_init r o p) = pk_source p /\ loc_port (tcp_openreq_init r o p) = pk_dest p;
  ll_ecn r th : req_id (TCP_ECN_create_request r th) = req_id r;
  ll_synack sk d r ext : let '(skb, r') := tcp_make_synack sk d r ext in
    req_id r' = req_id r /\ snt_isn r' = snt_isn r /\ forall s, skb = Some s -> answers s r;
}.

Section Answer.
Context {K : Kernel} {C : Crypto} {I : IcmpEnv} {H : HashEnv} {D : Type} {O : DstOps D} {E : ListenEnv D} {L : ListenLaws E}.
Implicit Types (sk : sock) (f : full_sock) (q : listener) (p : packet) (r : request_sock) (o : tcp_options_received).

Definition syn_id p := (ip_daddr (pk_iph p), pk_dest p, ip_saddr (pk_iph p), pk_source p, seq (pk_skb p)).
Lemma syn_request_id p o : req_id (syn_request p o) = syn_id p.
Proof using L. unfold syn_request, req_id, syn_id. destruct (ll_openreq fresh_req o p) as (E1 & E2 & E3). cbn. by rewrite E1, E2, E3. Qed.
Lemma send_synack_ok sk dst r ext err sent r' : tcp_v4_send_synack sk dst r ext = (err, sent, r') ->
  req_id r' = req_id r /\ snt_isn r' = snt_isn r /\ (err = 0 -> sent <> None) /\ (forall s, sent = Some s -> answers s r').
Proof using L.
  unfold tcp_v4_send_synack. destruct (match dst with Some d => Some d | None => fst <$> inet_csk_route_req sk r end) as [d|]; [|by intros [= <- <- <-]]. pose proof (ll_synack sk d r ext) as Hs. destruct (tcp_make_synack sk d r ext) as [skb r1]. destruct Hs as (H1 & H2 & H3).
  destruct skb as [skb|]; intros [= <- <- <-]; (split_and!; [done..|]); [|done]. intros s [= <-]. destruct (H3 skb eq_refl) as (A1 & A2 & A3 & A4). unfold answers. rewrite A1, A2, A3, A4, H2. unfold req_id in H1. by injection H1 as _ _ _ _ ->.
Qed.

(** TCP cookie transactions are off for this socket. *)
Definition ct_off (c : ct_values) : Prop := cookie_out_never c = true \/ sysctl_tcp_cookie_size <= 0 /\ cookie_desired c = None.
Lemma pair_off c p st paired ext : ct_off c -> syn_cookie_pair c p st = Some (paired, ext) -> paired = false.
Proof using Type.
  unfold syn_cookie_pair. intros Hc. case_if_as Ho; [exfalso|case_if_as Hi; [by intros [= <- _]|done]]. rewrite !andb_true_iff in Ho. destruct Ho as [[_ Hn] Ho]. destruct Hc as [Hc|[Hc1 Hc2]]; [by rewrite Hc in Hn|]. rewrite Hc2 in Ho. lia.
Qed.

(** What a SYN is answered with: a request that is stored is that of the SYN and of the SYN-ACK; a
    SYN cookie is not stored. *)
Lemma syn_answer_ok sk q c p w hvp res sent : syn_answer sk q c p w hvp = (res, sent) ->
  (forall r, res = Some r -> req_id r = syn_id p /\ exists s, sent = Some s /\ answers s r) /\
  (ct_off c -> w = true -> res = None /\ forall s, sent = Some s -> exists mss, th_seq (skb_th s) = fst (cookie_v4_init_sequence p mss) /\ th_ack_seq (skb_th s) = u32 (seq (pk_skb p) + 1)).
Proof using L.
  unfold syn_answer. cbn zeta. destruct (syn_cookie_pair c p (syn_options sk p hvp)) as [[paired ext]|] eqn:Ep; [|by intros [= <- <-]]. set (wc := w && negb paired). set (o := set tstamp_ok _ _). case_if_as Hs; [by intros [= <- <-]|]. set (r0 := if negb wc || tstamp_ok o then _ else _). assert (Hr0 : req_id r0 = syn_id p) by (unfold r0; case_if_as He; [rewrite ll_ecn|]; apply syn_request_id). clearbody r0.
  set (chosen := if wc then _ else _). assert (Hch : forall isn r1 dst, chosen = Some (isn, r1, dst) -> req_id r1 = syn_id p /\ (wc = true -> exists mss, isn = fst (cookie_v4_init_sequence p mss))).
  { unfold chosen. intros isn r1 dst. destruct wc; [destruct (cookie_v4_init_sequence p (req_mss r0)) as [s m] eqn:Ec; intros [= <- <- <-]; split; [done|]; intros _; exists (req_mss r0); by rewrite Ec|]. case_if_as Hz; [destruct (syn_proven sk q p r0 o) as [d|]; [|done]; cbn; intros [= <- <- <-]|intros [= <- <- <-]]; done. }
  clearbody chosen. destruct chosen as [[[isn r1] dst]|]; [|by intros [= <- <-]]. destruct (Hch isn r1 dst eq_refl) as [H1 H2]. set (r2 := r1 <| snt_isn := isn |> <| snt_synack := tcp_time_stamp |>). destruct (tcp_v4_send_synack sk dst r2 ext) as [[err s] r3] eqn:Es. destruct (send_synack_ok _ _ _ _ _ _ _ Es) as (S1 & S2 & S3 & S4). assert (Hid : req_id r3 = syn_id p) by (by rewrite S1).
  assert (Hck : ct_off c -> w = true -> wc = true) by (intros Hc ->; unfold wc; by rewrite (pair_off _ _ _ _ _ Hc Ep)). case_if_as Hw; intros [= <- <-].
  - split; [done|]. intros Hc Hwt. split; [done|]. intros s' Hs'. destruct (H2 (Hck Hc Hwt)) as [mss Hm]. exists mss. destruct (S4 s' Hs') as (_ & _ & A3 & A4). rewrite A3, A4, S2. unfold req_id, syn_id in Hid. injection Hid as _ _ _ _ ->. done.
  - apply orb_false_iff in Hw as [He Hwc]. apply negb_false_iff, Z.eqb_eq in He. split; [|intros Hc Hwt; by rewrite (Hck Hc Hwt) in Hwc]. intros r [= <-]. split; [done|]. destruct s as [s|]; [|by destruct (S3 He)]. exists s. split; [done|by apply S4].
Qed.

(** ** The queue *)
Notation jh := jhash_2words.
Lemma fresh_rep q l T A x r : rep jh q l T A -> reqs q !! x = None -> rep jh (q <| reqs := <[x := r]> (reqs q) |>) l T A /\ x ∉ concat T ++ A.
Proof using Type.
  intros Hr Hx. assert (Hn : x ∉ concat T ++ A).
  { intros [(i & b & Hi & Hb)%elem_of_concat|Ha]%elem_of_app; [destruct (rep_bucket_req _ _ _ _ _ _ x Hr Hi Hb); congruence|]. destruct (chain_dom _ _ _ _ (shape_accept _ _ _ _ _ _ (rep_shape _ _ _ _ _ Hr)) Ha) as [d Hd]. unfold nexts in Hd. by rewrite Hx in Hd. }
  assert (Hz : forall z, z ∈ concat T ++ A -> <[x := r]> (reqs q) !! z = reqs q !! z) by (intros z Hz; rewrite lookup_insert_ne; [done|by intros <-]). split; [|done]. destruct Hr as [R1 R2 R3 R4 R5 R6]. split; cbn; try done.
  - eapply shape_ext; [|exact R2]. intros z Hi. unfold nexts. by rewrite Hz.
  - rewrite R5. apply sumZ_ext, Forall_forall. intros z Hi. unfold young. rewrite Hz; [done|]. apply elem_of_app. by left.
  - intros i b z r' Hi Hb. rewrite Hz by (apply elem_of_app; left; apply elem_of_concat; by exists i, b). by apply (R6 i b).
Qed.
(** What hashing leaves of the request and of the listener. *)
Lemma hash_add_kept q l T A x r j t : rep jh q l T A -> reqs q !! x = Some r ->
  let q' := snd (inet_csk_reqsk_queue_hash_add jh j q x t) in
  (exists r', reqs q' !! x = Some r' /\ req_id r' = req_id r /\ snt_isn r' = snt_isn r /\ retrans r' = 0 /\ req_rcv_wnd r' = req_rcv_wnd r) /\
  (lq_state q', lq_defer_accept q') = (lq_state q, lq_defer_accept q) /\
  (forall l', listen_opt q' = Some l' -> max_qlen_log l' = max_qlen_log l /\ nr_table_entries l' = nr_table_entries l).
Proof using Type.
  intros Hr Hx. unfold inet_csk_reqsk_queue_hash_add. rewrite (rep_lopt _ _ _ _ _ Hr), Hx. cbn. unfold upd_lopt, upd_req. cbn. rewrite (rep_lopt _ _ _ _ _ Hr). cbn. split_and!; [|done|by intros l' [= <-]]. rewrite lookup_alter_eq, Hx. cbn. by eexists.
Qed.

(** The request [x] of the SYN [p] is in the table, and [skb] is its SYN-ACK. *)
Record stored f p (T : list (list nat)) (A : list nat) (k : Z) f' (skb : sk_buff) (x : nat) : Prop := {
  so_new : reqs (fs_queue f) !! x = None;
  so_req : exists r, reqs (fs_queue f') !! x = Some r /\ req_id r = syn_id p /\ answers skb r /\ retrans r = 0;
  so_rep : exists i b l', T !! i = Some b /\ rep jh (fs_queue f') l' (<[i := x :: b]> T) A /\ table_ok l' k /\
    inet_csk_search_req jh (fs_queue f') (pk_source p) (ip_saddr (pk_iph p)) (ip_daddr (pk_iph p)) = Some (x, PSlot i);
  so_rest : fs_sk f' = fs_sk f /\ lq_state (fs_queue f') = lq_state (fs_queue f) /\ lq_defer_accept (fs_queue f') = lq_defer_accept (fs_queue f);
}.
Lemma store_ok f p l T A k x r skb : rep jh (fs_queue f) l T A -> table_ok l k -> reqs (fs_queue f) !! x = None -> req_id r = syn_id p -> answers skb r ->
  stored f p T A k (f <| fs_queue := snd (inet_csk_reqsk_queue_hash_add jh jiffies ((fs_queue f) <| reqs := <[x := r]> (reqs (fs_queue f)) |>) x TCP_TIMEOUT_INIT) |>) skb x.
Proof using Type.
  intros Hr Ht Hx Hid Ha. destruct (fresh_rep _ _ _ _ x r Hr Hx) as [Hr1 Hn]. set (q1 := (fs_queue f) <| reqs := <[x := r]> (reqs (fs_queue f)) |>) in *. assert (Hx1 : reqs q1 !! x = Some r) by apply lookup_insert_eq.
  destruct (hash_add_kept q1 l T A x r jiffies TCP_TIMEOUT_INIT Hr1 Hx1) as ((r' & K1 & K2 & K3 & K4 & _) & K5 & K6). destruct (hash_add_search jh q1 l T A x r jiffies TCP_TIMEOUT_INIT k Hr1 Ht Hx1 Hn) as (Hs & b & l' & Hb & Hr'). cbn zeta in *. set (q' := snd _) in *.
  unfold req_id, syn_id in Hid. injection Hid as I1 I0 I2 I3 I4. split; [done|exists r'; split_and!; [done|by rewrite K2; unfold req_id, syn_id; rewrite I1, I0, I2, I3, I4| |done]| |injection K5 as E1 E2; split_and!; [done|exact E1|exact E2]].
  - destruct Ha as (A1 & A2 & A3 & A4). unfold req_id in K2. injection K2 as _ _ _ _ J4. split_and!; [done..|by rewrite K3|by rewrite J4].
  - set (i := inet_synq_hash _ _ _ _ _) in *. exists i, b, l'. rewrite I1, I2, I3 in Hs. split_and!; [done..| |done]. destruct (K6 l' (rep_lopt _ _ _ _ _ Hr')) as [M1 M2]. destruct Ht as (T1 & T2 & T3). split_and!; [lia..|by rewrite M2|by rewrite M1].
Qed.
Lemma conn_request_spec c hvp f p l T A k : rep jh (fs_queue f) l T A -> table_ok l k ->
  let '(f', sent) := tcp_v4_conn_request c hvp f p in
  (f' = f \/ exists skb x, sent = Some skb /\ stored f p T A k f' skb x) /\
  (ct_off c -> when_ (pk_skb p) = 0 -> 2 ^ k <= Z.of_nat (length (concat T)) ->
     f' = f /\ forall skb, sent = Some skb -> sysctl_tcp_syncookies = true /\ exists mss, th_seq (skb_th skb) = fst (cookie_v4_init_sequence p mss)).
Proof using L.
  intros Hr Ht. unfold tcp_v4_conn_request. cbn zeta. case_if_as Hb; [by split; [left|]|]. set (full := reqsk_queue_is_full (fs_queue f) && (when_ (pk_skb p) =? 0)). assert (Hfull : when_ (pk_skb p) = 0 -> 2 ^ k <= Z.of_nat (length (concat T)) -> full = true).
  { intros Hw Hl. unfold full. rewrite Hw, andb_true_r. apply (reqsk_queue_is_full_iff jh _ l k T A Hr Ht). destruct Ht as (_ & -> & _). done. }
  clearbody full. case_if_as Hf; [by split; [left|]|]. case_if_as Hq; [by split; [left|]|]. destruct (inet_reqsk_alloc (reqs (fs_queue f))) as [x|] eqn:Ex; [|by split; [left|]]. apply ll_alloc in Ex. destruct (syn_answer (fs_sk f) (fs_queue f) c p (full && tcp_syn_flood_action) hvp) as [res sent] eqn:Es. destruct (syn_answer_ok _ _ _ _ _ _ _ _ Es) as [S1 S2].
  assert (Hk : when_ (pk_skb p) = 0 -> 2 ^ k <= Z.of_nat (length (concat T)) -> full && tcp_syn_flood_action = true) by (intros Hw Hl; rewrite (Hfull Hw Hl) in *; by apply negb_false_iff in Hf).
  destruct res as [r|].
  - destruct (S1 r eq_refl) as [I1 (s & -> & Ha)]. split; [right; exists s, x; split; [done|by eapply store_ok]|]. intros Hc Hw Hl. destruct (S2 Hc (Hk Hw Hl)) as [? _]. done.
  - split; [by left|]. intros Hc Hw Hl. split; [done|]. intros skb Hskb. pose proof (Hk Hw Hl) as Hk1. split; [by apply andb_true_iff in Hk1 as [_ Hk1]|]. destruct (S2 Hc Hk1) as [_ S3]. destruct (S3 skb Hskb) as (mss & Hm & _). by exists mss.
Qed.
(** C8. The answer to a SYN: either nothing is kept of it, or exactly one new request, with the
    addresses and the sequence number of the SYN and the sequence number of the SYN-ACK that was
    sent, which is found again by these addresses; every other request and the accept queue stay
    as they are.  When the table is full nothing is kept, whether the SYN is dropped or answered
    with a cookie, so that a flood of SYNs stores at most as many requests as the table has
    buckets (for a socket that does not take part in TCP cookie transactions, and SYNs that do not
    reopen a connection in TIME-WAIT). *)
Theorem conn_request_ok c hvp f p l T A k : rep jh (fs_queue f) l T A -> table_ok l k ->
  let '(f', sent) := tcp_v4_conn_request c hvp f p in
  (f' = f \/ exists skb x, sent = Some skb /\ stored f p T A k f' skb x) /\
  (ct_off c -> when_ (pk_skb p) = 0 -> 2 ^ k <= Z.of_nat (length (concat T)) ->
     f' = f /\ forall skb, sent = Some skb -> sysctl_tcp_syncookies = true /\ exists mss, th_seq (skb_th skb) = fst (cookie_v4_init_sequence p mss)).
Proof using L. apply conn_request_spec. Qed.

(** ** The third segment of the handshake *)

(** [p2] is the peer's ACK of the SYN-ACK [skb] that answered its SYN [p]. *)
Record third p (skb : sk_buff) (p2 : packet) : Prop := {
  td_from : (ip_daddr (pk_iph p2), ip_saddr (pk_iph p2), pk_source p2) = (ip_daddr (pk_iph p), ip_saddr (pk_iph p), pk_source p);
  td_flags : th_ack (skb_th (pk_skb p2)) = true /\ th_syn (skb_th (pk_skb p2)) = false /\ th_rst (skb_th (pk_skb p2)) = false;
  td_plain : th_doff (skb_th (pk_skb p2)) = 5;
  td_seq : seq (pk_skb p2) = th_ack_seq (skb_th skb);
  td_ack : ack_seq (pk_skb p2) = u32 (th_seq (skb_th skb) + 1);
}.
Lemma check_req_child srs g sk skb q x prev r child : reqs q !! x = Some r -> th_ack (skb_th skb) = true -> th_syn (skb_th skb) = false -> th_rst (skb_th skb) = false -> th_doff (skb_th skb) = 5 ->
  seq skb = u32 (rcv_isn r + 1) -> ack_seq skb = u32 (snt_isn r + 1) -> tcp_s_data_size (tp sk) = 0 -> retrans r = 0 -> lq_defer_accept q = 0 -> srs sk skb r = Some child ->
  tcp_check_req srs g sk skb q x prev = mk_rr (RvChild child) (reqsk_queue_add (snd (reqsk_queue_removed (reqsk_queue_unlink q x prev) x)) x child) [].
Proof using Type.
  intros Hx Ha Hs Hr Hd Hseq Hack Hsz Hre Hdef Hc. unfold tcp_check_req. rewrite Hx. unfold req_parse. rewrite Hd. change (5 >? Z.shiftr sizeof_tcphdr 2) with false. cbn zeta iota. change (saw_tstamp (g <| saw_tstamp := false |>)) with false. rewrite Ha, Hs, Hr. cbn [andb negb orb]. rewrite andb_false_r. cbn [andb].
  rewrite Hack, Hsz, Z.add_0_r, Z.eqb_refl. cbn [negb]. unfold tcp_in_window. rewrite Hseq, Z.eqb_refl. cbn [negb]. replace (if u32 (rcv_isn r + 1) =? rcv_isn r then false else false) with false by (by case_if_as Hq). rewrite Hre, Hdef. cbn [andb Z.ltb Z.eqb negb Z.compare]. rewrite Hx. cbn [default from_option id]. rewrite Hc. destruct (reqsk_queue_removed _ x) as [n q3]. done.
Qed.
Lemma moved_state q x prev child : lq_state (reqsk_queue_add (snd (reqsk_queue_removed (reqsk_queue_unlink q x prev) x)) x child) = lq_state q.
Proof using Type.
  unfold reqsk_queue_add, reqsk_queue_removed, reqsk_queue_unlink, write_prev, upd_req, upd_lopt, sk_acceptq_added. cbn zeta. by destruct prev; repeat case_match.
Qed.
(** C7. The three-way handshake completes: when the SYN was stored, the peer's plain ACK of the SYN-ACK
    (no options; no deferred accept and no TCP cookie data on the socket) finds the request, and,
    when syn_recv_sock makes a child for it, moves the request with the child to the end of the
    accept queue; the table of requests is again what it was before the SYN; and accept(), called
    once for each child that is ahead and once more, returns those first and then this child, and
    leaves the queue empty. *)
Theorem handshake_completes c hvp f p f1 skb l T A k srs g h p2 child : rep jh (fs_queue f) l T A -> table_ok l k ->
  tcp_v4_conn_request c hvp f p = (f1, Some skb) -> f1 <> f -> third p skb p2 ->
  lq_state (fs_queue f) = TCP_LISTEN -> lq_defer_accept (fs_queue f) = 0 -> tcp_s_data_size (tp (fs_sk f)) = 0 -> (forall r, req_id r = syn_id p -> srs (fs_sk f) (pk_skb p2) r = Some child) ->
  let r := tcp_v4_hnd_req srs g h f1 p2 in
  rr_verdict r = RvChild child /\ rr_actions r = [] /\
  exists l' x, rep jh (rr_queue r) l' T (A ++ [x]) /\ reqs (rr_queue r) !! x ≫= req_sk = Some child /\
    forall MAX calls, length calls = S (length A) -> exists q', accepts MAX (rr_queue r) calls = Some (((fun y => inr (reqs (rr_queue r) !! y ≫= req_sk)) <$> A) ++ [inr (Some child)], q') /\ rep jh q' l' T [].
Proof using L.
  intros Hr Ht Hq Hne [P1 (P2 & P3 & P4) P5 P6 P7] Hl Hd Hz Hs. pose proof (conn_request_spec c hvp f p l T A k Hr Ht) as Hc. rewrite Hq in Hc. destruct Hc as [[?|(skb' & x & [= <-] & [S1 (r & S2 & S3 & (A1 & A2 & A3 & A4) & S4) (i & b & l1 & S5 & S6 & S7 & S8) (S9 & S10 & S11)])] _]; [done|]. injection P1 as J1 J2 J3.
  assert (Hx : req_id r = syn_id p) by exact S3. unfold req_id, syn_id in S3. injection S3 as I1 I0 I2 I3 I4. assert (Ec : tcp_check_req srs g (fs_sk f1) (pk_skb p2) (fs_queue f1) x (PSlot i) = mk_rr (RvChild child) (reqsk_queue_add (snd (reqsk_queue_removed (reqsk_queue_unlink (fs_queue f1) x (PSlot i)) x)) x child) []).
  { apply (check_req_child srs g _ _ _ _ _ r); [done..| | | |done|by rewrite S11|rewrite S9; by apply Hs]; [by rewrite P6|by rewrite P7, A3|by rewrite S9]. }
  assert (Er : tcp_v4_hnd_req srs g h f1 p2 = mk_rr (RvChild child) (reqsk_queue_add (snd (reqsk_queue_removed (reqsk_queue_unlink (fs_queue f1) x (PSlot i)) x)) x child) []) by (unfold tcp_v4_hnd_req; rewrite J1, J2, J3, S8; exact Ec). rewrite Er. cbn zeta. cbn [rr_verdict rr_queue rr_actions]. split_and!; [done..|].
  assert (Hi : <[i := x :: b]> T !! i = Some ([] ++ x :: b)) by (apply list_lookup_insert_eq; by eapply lookup_lt_Some). destruct (move_rep (jh := jh) (fs_queue f1) l1 _ A i [] x b child S6 Hi) as (l2 & M1 & M2); [by eexists|]. change (link i []) with (PSlot i) in M1, M2. cbn [app] in M1. rewrite list_insert_insert_eq, list_insert_id in M1 by done. exists l2, x. split_and!; [done..|]. intros MAX calls Hn. destruct (accepts_all jh MAX l2 T (A ++ [x]) _ calls M1) as (q' & Q1 & Q2); [by rewrite moved_state, S10|rewrite length_app; cbn; lia|]. exists q'. split; [|done]. rewrite Q1, fmap_app. cbn [fmap list_fmap]. by rewrite M2.
Qed.
End Answer.

Module Demo.
#[local] Existing Instance linux.
#[local] Existing Instance Md5.Demo.toy.
#[local] Existing Instance Icmp.Demo.env.
#[local] Existing Instance Hashtables.Demo.env.
#[local] Existing Instance Rtt.Demo.dst_ops.
(** A host without SYN cookies; memory for one more request. *)
#[export] Instance host : ListenEnv Rtt.Demo.dst := {|
  sysctl_tcp_syncookies := false; sysctl_max_syn_backlog := 128; sysctl_tcp_cookie_size := 0; COOKIE_DIGEST_WORDS := 5;
  rt_bcast_mcast _ := false;
  inet_reqsk_alloc m := if decide (m !! 100%nat = None) then Some 100%nat else None;
  fresh_req := ReqQueue.Demo.req; fresh_opt := blank_opt;
  tcp_openreq_init r o p := r <| rcv_isn := seq (pk_skb p) |> <| rmt_port := pk_source p |> <| loc_port := pk_dest p |> <| req_mss := mss_clamp o |> <| req_rcv_wnd := 0 |>;
  security_inet_conn_request _ _ _ := false;
  TCP_ECN_create_request r _ := r;
  cookie_v4_init_sequence p mss := (77, mss); tcp_cookie_generator := None;
  inet_csk_route_req _ r := Some (Rtt.Demo.d0, rmt_addr r); rt_get_peer _ _ := None;
  secure_tcp_sequence_number a b c d := u32 (a + b + c + d);
  tcp_make_synack _ _ r _ :=
    (Some (blank_skb <| skb_th; th_syn := true |> <| skb_th; th_ack := true |> <| skb_th; th_seq := snt_isn r |> <| skb_th; th_ack_seq := u32 (rcv_isn r + 1) |>), r <| req_rcv_wnd := 5840 |>);
  ip_build_and_send_pkt _ _ _ := 0;
  cookie_v4_check f _ := (RvListener, fs_queue f);
|}.
#[export] Instance host_laws : ListenLaws host.
Proof. split; intros; cbn in *; [by case_decide; simplify_eq|done..|]. split_and!; [done..|]. by intros s [= <-]. Qed.
Definition ct := mk_ct true false None.
Definition listening := mk_full (blank_sock <| sk_state := TCP_LISTEN |>) ReqQueue.Demo.q0 Md5.Demo.empty 0 false 1 false [] 0.
Definition syn := Reply.Demo.from_peer (tcp_v4_fill_cb Reply.Demo.syn_seg 0).
Definition asked := tcp_v4_conn_request ct None listening syn.
Definition synack := default blank_skb (snd asked).
Lemma conn_request_ok_witness : exists skb x, snd asked = Some skb /\ stored listening syn ReqQueue.Demo.T0 [] 4 (fst asked) skb x.
Proof.
  pose proof (conn_request_ok (I := Icmp.Demo.env) ct None listening syn ReqQueue.Demo.l0 ReqQueue.Demo.T0 [] 4 ReqQueue.Demo.q0_rep ReqQueue.Demo.table0) as H. unfold asked. destruct (tcp_v4_conn_request ct None listening syn) as [f' sent] eqn:E. destruct H as [[->|H] _]; [|exact H]. exfalso. assert (F : bool_decide (reqs (fs_queue (fst (tcp_v4_conn_request ct None listening syn))) !! 100%nat = None) = false) by (vm_compute; reflexivity). rewrite E in F. vm_compute in F. discriminate.
Defined.
(** The peer's ACK, and the child 42. *)
Definition ack := Reply.Demo.from_peer (blank_skb <| skb_th; th_ack := true |> <| skb_th; th_doff := 5 |> <| seq := th_ack_seq (skb_th synack) |> <| ack_seq := u32 (th_seq (skb_th synack) + 1) |>).
Definition srs (_ : sock) (_ : sk_buff) (_ : request_sock) : option nat := Some 42%nat.
Lemma handshake_completes_witness : exists q', accepts 100 (rr_queue (tcp_v4_hnd_req srs blank_opt Hashtables.Demo.host (fst asked) ack)) [(0, [])] = Some ([inr (Some 42%nat)], q') /\ exists l, rep ReqQueue.Demo.jh q' l ReqQueue.Demo.T0 [].
Proof.
  destruct (handshake_completes (I := Icmp.Demo.env) ct None listening syn (fst asked) synack ReqQueue.Demo.l0 ReqQueue.Demo.T0 [] 4 srs blank_opt Hashtables.Demo.host ack 42 ReqQueue.Demo.q0_rep ReqQueue.Demo.table0) as (_ & _ & l' & x & _ & _ & H); [vm_compute; reflexivity| |by split|reflexivity..|].
  - intros E. assert (F : bool_decide (reqs (fs_queue (fst asked)) !! 100%nat = None) = false) by (vm_compute; reflexivity). rewrite E in F. vm_compute in F. discriminate.
  - destruct (H 100 [(0, [])] eq_refl) as (q' & H1 & H2). exists q'. split; [exact H1|]. exists l'. exact H2.
Defined.

(** A host with SYN cookies and TCP cookies, whose queue is full: a SYN with a TCP cookie is stored all
    the same, as want_cookie is cleared for it. *)
Definition cookies : ListenEnv Rtt.Demo.dst := {|
  sysctl_tcp_syncookies := true; sysctl_max_syn_backlog := 128; sysctl_tcp_cookie_size := 8; COOKIE_DIGEST_WORDS := 5;
  rt_bcast_mcast := rt_bcast_mcast; inet_reqsk_alloc := inet_reqsk_alloc; fresh_req := fresh_req; fresh_opt := fresh_opt; tcp_openreq_init := tcp_openreq_init;
  security_inet_conn_request := security_inet_conn_request; TCP_ECN_create_request := TCP_ECN_create_request; cookie_v4_init_sequence := cookie_v4_init_sequence;
  tcp_cookie_generator := Some (replicate 64 0);
  inet_csk_route_req := inet_csk_route_req; rt_get_peer := rt_get_peer; secure_tcp_sequence_number := secure_tcp_sequence_number; tcp_make_synack := tcp_make_synack;
  ip_build_and_send_pkt := ip_build_and_send_pkt; cookie_v4_check := cookie_v4_check;
|}.
Definition full_queue := upd_lopt ReqQueue.Demo.q0 (fun l => l <| qlen := 16 |>).
Definition cookie_syn := Reply.Demo.from_peer (blank_skb <| skb_th; th_syn := true |> <| skb_th; th_doff := 11 |> <| len := 44 |>
  <| bytes := replicate 20 0 ++ [1; 1; 8; 10; 0; 0; 0; 1; 0; 0; 0; 0; 253; 10; 1; 2; 3; 4; 5; 6; 7; 8; 1; 1] |>).
Example tcp_cookie_passes_limit :
  let f := fst (tcp_v4_conn_request (E := cookies) (mk_ct false false None) None (listening <| fs_queue := full_queue |>) cookie_syn) in
  reqsk_queue_is_full full_queue = true /\ qlen <$> listen_opt (fs_queue f) = Some 17.
Proof. vm_compute. split; reflexivity. Qed.
End Demo.
