(* ===== verification/Child.v ===== *)
(** * The child socket of a handshake

    net/ipv4/tcp_ipv4.c: tcp_v4_syn_recv_sock makes a socket out of a request: the TCP part
    (tcp_minisocks.c), the addresses and ports (with inet_csk_clone), the route, the MD5 key of the
    peer, the port that it inherits from the listening socket, and its place in the table of
    connections.  IP options, the capabilities of the route and inet_id are left out. *)

From stdpp Require Import gmap.
From S2P Require Import Prelude TcpTypes Kernel ReqQueue RcvTune Rtt TcpOpt Minisocks Frame Quiet Input Hashtables Md5 Reply Icmp Listen.

(** The routing code, and the memory that tcp_v4_md5_do_add finds. *)
Class ChildEnv (D : Type) := {
  inet_csk_route_child_sock : sock -> request_sock -> option D;
  sk_setup_caps : sock -> D -> sock;
  dst_mtu : D -> Z;
  dst_metric_advmss : D -> Z;
  uninit_key : tcp4_md5sig_key;
  child_key_mem : option add_mem; (* None: kmemdup of the key failed *)
}.

Section Child.
Context {K : Kernel} {H : HashEnv} {D : Type} {E : ChildEnv D}.
Implicit Types (sk : sock) (f : full_sock) (r : request_sock) (h : inet_hashinfo) (i n : nat).

(** The addresses and ports: inet_csk_clone, and the assignments to newinet.  sk_clone leaves the
    new socket on no chain. *)
Definition child_inet (isk : inet_sock) r : inet_sock :=
  let isk := isk <| sk_linked := false |> in
  let isk := isk <| isk_state := TCP_SYN_RECV |> <| icsk_bind_hash := None |> <| inet_dport := rmt_port r |> <| inet_num := htons (loc_port r) |> <| inet_sport := loc_port r |> in
  isk <| inet_daddr := rmt_addr r |> <| inet_rcv_saddr := loc_addr r |>.
(** From sk_setup_caps to total_retrans. *)
Definition child_route sk r (d : D) newsk : sock :=
  let newsk := tcp_sync_mss (tcp_mtup_init (sk_setup_caps newsk d)) (dst_mtu d) in
  let newsk := newsk <| tp; advmss := u16 (dst_metric_advmss d) |> in
  let um := user_mss (rx_opt (tp sk)) in
  let newsk := if negb (um =? 0) && (um <? advmss (tp newsk)) then newsk <| tp; advmss := um |> else newsk in
  let newsk := tcp_initialize_rcv_mss newsk in
  let newsk := if negb (snt_synack r =? 0) then tcp_valid_rtt_meas newsk (u32 (tcp_time_stamp - snt_synack r)) else newsk in
  newsk <| tp; total_retrans := retrans r |>.
(** The key of the peer; tcp_create_openreq_child starts without keys. *)
Definition child_keys (s : md5_state) r : md5_state :=
  let new := s <| md5sig_info := None |> in
  match tcp_v4_md5_do_lookup s (rmt_addr r), child_key_mem with
  | Some k, Some mem => snd (tcp_v4_md5_do_add uninit_key mem new (rmt_addr r) (take (Z.to_nat (keylen k)) (key k)) (keylen k))
  | _, _ => new
  end.
(** The accept queue is cleared, the backlog is empty. *)
Definition child_full f (newsk : sock) r : full_sock :=
  let q := (fs_queue f) <| reqs := ∅ |> <| rskq_accept_head := None |> <| rskq_accept_tail := None |> <| lq_defer_accept := 0 |> <| listen_opt := None |> <| lq_state := TCP_SYN_RECV |> in
  f <| fs_sk := newsk |> <| fs_queue := q |> <| fs_md5 := child_keys (fs_md5 f) r |> <| sk_backlog := [] |> <| backlog_len := 0 |>.

(** [i] is the listening socket, [n] the memory of the new one.  The child, and the tables. *)
Definition tcp_v4_syn_recv_sock h i n f (skb : sk_buff) r : option (full_sock * inet_hashinfo) :=
  let sk := fs_sk f in
  if sk_acceptq_is_full (fs_queue f) then None else
  match tcp_create_openreq_child sk r skb, socks h !! i with
  | Some newsk, Some isk =>
    match inet_csk_route_child_sock newsk r with
    | None => None
    | Some d =>
      let h := h <| socks := <[n := child_inet isk r]> (socks h) |> in
      (fun h => (child_full f (child_route sk r d newsk) r, inet_hash_nolisten h n None)) <$> inet_inherit_port h i n
    end
  | _, _ => None
  end.
End Child.

(** ** The tables *)
Section Tables.
Context {K : Kernel} {H : HashEnv} {L : HashLaws H} {D : Type} {E : ChildEnv D}.
Implicit Types (isk : inet_sock) (f : full_sock) (r : request_sock) (h : inet_hashinfo) (i j n b : nat).

Lemma unknown_off h n : hash_inv h -> socks h !! n = None -> off_chain h n.
Proof using Type.
  intros [_ _ Hc Hl] Hn. split_and!; [intros (s & hd & Hs & Hi); destruct (Hc s hd n Hs (or_introl Hi)) as [(sk & E1 & _)]|intros (s & hd & Hs & Hi); destruct (Hc s hd n Hs (or_intror Hi)) as [(sk & E1 & _)]|intros (s & l & Hs & Hi); destruct (Hl s l n Hs Hi) as (sk & E1 & _)]; congruence.
Qed.
(** A socket in new memory, on no chain and without a port. *)
Lemma new_sock_conn h n isk : conn_inv h -> socks h !! n = None -> icsk_bind_hash isk = None -> conn_inv (h <| socks := <[n := isk]> (socks h) |>) /\ same_tables h (h <| socks := <[n := isk]> (socks h) |>).
Proof using Type.
  intros Hc Hn Hb. pose proof (unknown_off h n (ci_hash _ h Hc) Hn) as Ho. set (h1 := h <| socks := _ |>). assert (Hs : forall j, j <> n -> socks h1 !! j = socks h !! j) by (intros j Hj; unfold h1; cbn; by rewrite lookup_insert_ne). assert (Hi : socks h1 !! n = Some isk) by apply lookup_insert_eq.
  assert (Hst : same_tables h h1) by (split_and!; [done..|]; intros j; destruct (decide (j = n)) as [->|Hj]; [by left|right; by rewrite Hs]). split; [|done]. apply (conn_same _ h); [done..| |].
  - apply (same_bind_inv h); [|apply Hc]. split; [done|]. intros j. destruct (decide (j = n)) as [->|Hj]; [|by rewrite Hs]. rewrite Hi, Hn. cbn. unfold binding. by rewrite Hb.
  - intros j sk Hj _ Hk. assert (Hjn : j <> n) by (intros ->; by apply (on_table_off h n Hj)). rewrite Hs in Hk by done. by eapply (ci_bound _ h Hc).
Qed.

(** [h'] is [h] with the socket [n], [ch] so far, bound to its port. *)
Record inherited h n ch h' : Prop := {
  in_conn : conn_inv h';
  in_tables : same_tables h h';
  in_self : exists b, socks h' !! n = Some (ch <| icsk_bind_hash := Some b |>);
  in_other : forall j, j <> n -> socks h' !! j = socks h !! j;
}.
Lemma bind_inherited h n ch b tb : conn_inv h -> off_chain h n -> socks h !! n = Some ch -> icsk_bind_hash ch = None -> tbs h !! b = Some tb -> sk_net ch = ib_net tb -> inet_num ch = port tb -> inherited h n ch (inet_bind_hash h n b (inet_num ch)).
Proof using Type.
  intros Hc Ho Hi Hn Hb Hnet Hp. rewrite Hp. split.
  - apply (bind_hash_conn h n b tb ch); [|done|by left|done..]. destruct Hc as [? ? ? Hbd ?]. split; try done. intros j skj Hj _. by apply Hbd.
  - apply (bind_hash_same h n b ch); [done|by left].
  - exists b. rewrite bind_hash_socks, decide_True, Hi by done. cbn. f_equal. rewrite <- Hp. done.
  - intros j Hj. by rewrite bind_hash_socks, decide_False.
Qed.
Lemma create_conn h net snum b h' : conn_inv h -> find_tb h net snum = None -> inet_bind_bucket_create h net snum = Some (b, h') ->
  conn_inv h' /\ same_tables h h' /\ socks h' = socks h /\ exists tb, tbs h' !! b = Some tb /\ ib_net tb = net /\ port tb = snum.
Proof using L.
  intros Hc Hf Hcr. destruct (create_ok alloc_fresh h net snum b h' (ci_bind _ h Hc) Hf Hcr) as (Hv & Hb & Hso & _). assert (Hs : same_tables h h') by (unfold inet_bind_bucket_create in Hcr; destruct (bind_bucket_alloc (tbs h)); [|done]; injection Hcr as _ <-; split_and!; [done..|]; intros j; by right).
  split_and!; [|done|done|by eexists]. apply (conn_same _ h); [done..|]. intros j skj Hj _ Ek. rewrite Hso in Ek. by eapply (ci_bound _ h Hc).
Qed.
Lemma inherit_ok h i n isk ch h' : conn_inv h -> off_chain h n -> socks h !! i = Some isk -> socks h !! n = Some ch -> sk_net ch = sk_net isk -> icsk_bind_hash ch = None -> inet_inherit_port h i n = Some h' -> inherited h n ch h'.
Proof using L.
  intros Hc Ho Hi Hn Hnet Hb. unfold inet_inherit_port. rewrite Hi, Hn. cbn zeta. destruct (icsk_bind_hash isk) as [b|] eqn:Eb; [|done]. destruct (tbs h !! b) as [tb|] eqn:Et; [|done].
  destruct (bi_bound h (ci_bind _ h Hc) i isk b Hi Eb) as (tb' & E1 & Hio). rewrite Et in E1. injection E1 as <-. destruct (bi_owner h (ci_bind _ h Hc) b tb i Et Hio) as (sk' & F1 & _ & F2 & _). rewrite Hi in F1. injection F1 as <-. case_if_as Hp.
  - destruct (find_tb h (sk_net isk) (inet_num ch)) as [b1|] eqn:Ef; cbn.
    + intros [= <-]. destruct (find_tb_some _ _ _ _ Ef) as (tb1 & G1 & G2 & G3). by apply (bind_inherited h n ch b1 tb1); try congruence.
    + destruct (inet_bind_bucket_create h (sk_net isk) (inet_num ch)) as [[b1 h1]|] eqn:Ecr; [|done]. cbn. intros [= <-]. destruct (create_conn _ _ _ _ _ Hc Ef Ecr) as (C1 & C2 & C3 & tb1 & C4 & C5 & C6).
      destruct (bind_inherited h1 n ch b1 tb1) as [I1 I2 I3 I4]; [done|by apply (same_off h)|by rewrite C3|done|done|congruence|done|]. split; [done|by eapply same_tables_trans|done|]. intros j Hj. by rewrite I4, C3.
  - cbn. intros [= <-]. apply negb_false_iff, Z.eqb_eq in Hp. apply (bind_inherited h n ch b tb); congruence.
Qed.
End Tables.

(** ** The child *)
Section Born.
Context {K : Kernel} {H : HashEnv} {L : HashLaws H} {D : Type} {E : ChildEnv D} {QL : QuietLaws} {SU : SetupLaws} {RL : RtoLaws K} {Ca : CaStateLaws K} {Ch : ChildLaws K}.
Implicit Types (isk : inet_sock) (f : full_sock) (sk newsk : sock) (r : request_sock) (h : inet_hashinfo) (i j n b : nat).

Definition child_wf r : Prop := is_u32 (loc_addr r) /\ is_u32 (rmt_addr r) /\ is_u16 (htons (loc_port r)) /\ is_u16 (rmt_port r).
Lemma route_quiet sk r (d : D) newsk : (forall s : sock, quiet s (sk_setup_caps s d)) -> quiet newsk (child_route sk r d newsk).
Proof using QL SU RL.
  intros Hs. unfold child_route. cbn zeta. set (s1 := tcp_sync_mss _ _). assert (H1 : quiet newsk s1).
  { unfold s1. eapply (along_step rcv_kept); [apply Hs|]. eapply (along_step rcv_kept); [apply steady_quiet, ul_mtup|]. apply steady_quiet, ql_sync_mss. }
  clearbody s1. match goal with |- context [tcp_initialize_rcv_mss ?s] => set (s2 := s) end. assert (H2 : quiet newsk s2) by (eapply (along_step rcv_kept); [exact H1|]; unfold s2; case_if_as Hu; by split). clearbody s2. set (s3 := if negb (snt_synack r =? 0) then _ else _). assert (H3 : quiet newsk s3).
  { eapply (along_step rcv_kept); [exact H2|]. eapply (along_step rcv_kept); [apply steady_quiet, q_init_rcv_mss|]. unfold s3. case_if_as Hy; [apply steady_quiet, q_rtt_meas|by split]. }
  clearbody s3. eapply (along_step rcv_kept); [exact H3|]. by split.
Qed.
Lemma keys_child base s r (a : Z) : md5_inv base s -> keys_of (child_keys s r) a = None \/ a = rmt_addr r /\ exists k l, keys_of s a = Some (k, l) /\ keys_of (child_keys s r) a = Some (take (Z.to_nat l) k, l).
Proof using Type.
  intros Hv. unfold child_keys. cbn zeta. destruct Hv as [Hv _]. pose proof (lookup_spec s (rmt_addr r) Hv) as Hl. set (new := s <| md5sig_info := None |>). assert (Hn : keys_of new a = None) by done.
  destruct (tcp_v4_md5_do_lookup s (rmt_addr r)) as [k|]; [|by left]. destruct child_key_mem as [mem|]; [|by left]. assert (Hv' : md5_inv (md5sig_users s) new) by (split; [done|cbn; lia]).
  destruct (do_add_ok uninit_key mem _ new (rmt_addr r) (take (Z.to_nat (keylen k)) (key k)) (keylen k) Hv') as [_ A2]. rewrite A2. destruct (fst _) as [e|]; [by left|]. destruct (Z.eqb_spec (rmt_addr r) a) as [<-|]; [right|by left]. split; [done|]. exists (key k), (keylen k). rewrite <- Hl. done.
Qed.
Lemma hash_found h n ch b : conn_inv h -> off_chain h n -> socks h !! n = Some (ch <| icsk_bind_hash := Some b |>) -> wf_sock ch ->
  (forall j skj, on_table h j -> socks h !! j = Some skj -> flow_key skj <> flow_key ch) ->
  conn_inv (inet_hash_nolisten h n None) /\ inet_lookup_established_ (inet_hash_nolisten h n None) (sk_net ch) (inet_daddr ch) (inet_dport ch) (inet_rcv_saddr ch) (inet_num ch) (sk_bound_dev_if ch) = Some n /\
  socks (inet_hash_nolisten h n None) !! n ≫= icsk_bind_hash = Some b /\ forall j, j <> n -> socks (inet_hash_nolisten h n None) !! j = socks h !! j.
Proof using L.
  intros Hc Ho Hi Hw Hk. set (sk := ch <| icsk_bind_hash := Some b |>) in *. split; [by apply (nolisten_ok h n sk (fun _ => True))|]. unfold inet_hash_nolisten. rewrite Hi. cbn zeta. set (h1 := upd_sock h n _). assert (Hi1 : socks h1 !! n = Some (sk <| sk_hash := inet_sk_ehashfn sk |>)) by (unfold h1; by rewrite upd_sock_same, Hi). destruct Hc as [[[Hm Hl] _ _ _] _ _ _ _]. split_and!.
  - exact (added_found h1 n (sk <| sk_hash := inet_sk_ehashfn sk |>) Hm Hl Hi1 Hw eq_refl).
  - by rewrite ehash_add_socks, decide_True, Hi1.
  - intros j Hj. rewrite ehash_add_socks, decide_False by done. unfold h1. by rewrite upd_sock_other.
Qed.
(** C9. The child of a handshake takes its place: for a request whose four-tuple no connection has,
    the tables stay consistent, the new socket owns the local port and is what the next segment of
    the peer finds, every other socket is as it was, and the child starts in SYN-RECV with nothing
    received but the SYN, and with no key but that of its peer. *)
Theorem syn_recv_sock_ok base h i n isk f skb r dif c h' : conn_inv h -> socks h !! i = Some isk -> socks h !! n = None -> child_wf r -> md5_inv base (fs_md5 f) -> (forall s (d : D), quiet s (sk_setup_caps s d)) ->
  inet_lookup_established_ h (sk_net isk) (rmt_addr r) (rmt_port r) (loc_addr r) (htons (loc_port r)) dif = None ->
  (forall j skj, on_table h j -> socks h !! j = Some skj -> sk_bound_dev_if skj = 0 \/ sk_bound_dev_if skj = dif) ->
  tcp_v4_syn_recv_sock h i n f skb r = Some (c, h') ->
  conn_inv h' /\ inet_lookup_established_ h' (sk_net isk) (rmt_addr r) (rmt_port r) (loc_addr r) (htons (loc_port r)) (sk_bound_dev_if isk) = Some n /\
  (exists b tb, socks h' !! n ≫= icsk_bind_hash = Some b /\ tbs h' !! b = Some tb /\ port tb = htons (loc_port r)) /\ (forall j, j <> n -> socks h' !! j = socks h !! j) /\
  (sk_state (fs_sk c), rcv_nxt (tp (fs_sk c)), copied_seq (tp (fs_sk c)), out_of_order_queue (tp (fs_sk c))) = (TCP_SYN_RECV, u32 (rcv_isn r + 1), u32 (rcv_isn r + 1), []) /\
  (forall a, keys_of (fs_md5 c) a = None \/ a = rmt_addr r /\ exists k l, keys_of (fs_md5 f) a = Some (k, l) /\ keys_of (fs_md5 c) a = Some (take (Z.to_nat l) k, l)).
Proof using L QL SU RL Ca Ch.
  intros Hc Hi Hn (W1 & W2 & W3 & W4) Hv Hq Hlk Hdev. unfold tcp_v4_syn_recv_sock. cbn zeta. case_if_as Hf; [done|]. destruct (tcp_create_openreq_child (fs_sk f) r skb) as [newsk|] eqn:Ecr; [|done]. rewrite Hi. destruct (inet_csk_route_child_sock newsk r) as [d|]; [|done]. set (ch := child_inet isk r). set (h1 := h <| socks := <[n := ch]> (socks h) |>). destruct (inet_inherit_port h1 i n) as [h2|] eqn:Ei; [|done]. cbn. intros [= <- <-].
  destruct (new_sock_conn h n ch Hc Hn eq_refl) as [Hc1 Hs1]. fold h1 in Hc1, Hs1. assert (Ho1 : off_chain h1 n) by (apply (same_off h); [done|by apply unknown_off; [apply Hc|]]). assert (Hi1 : socks h1 !! i = Some isk) by (unfold h1; cbn; rewrite lookup_insert_ne; [done|congruence]). assert (Hn1 : socks h1 !! n = Some ch) by apply lookup_insert_eq.
  destruct (inherit_ok h1 i n isk ch h2 Hc1 Ho1 Hi1 Hn1 eq_refl eq_refl Ei) as [I1 I2 (b & I3) I4]. assert (Hno : forall j skj, on_table h j -> socks h !! j = Some skj -> flow_key skj <> flow_key ch).
  { intros j skj Hj Ej Ek. pose proof (lookup_established_spec h (sk_net isk) (rmt_addr r) (rmt_port r) (loc_addr r) (htons (loc_port r)) dif (ci_hash _ h Hc) W2 W4) as Hl. cbn zeta in Hl. rewrite Hlk in Hl. specialize (Hl j skj Hj Ej). unfold flow_key in Ek. injection Ek as K1 K2 K3 K4 K5. unfold same_flow in Hl. rewrite K1, K2, K3, K4, K5 in Hl. change (sk_net ch) with (sk_net isk) in Hl. change (inet_rcv_saddr ch) with (loc_addr r) in Hl. change (inet_num ch) with (htons (loc_port r)) in Hl. change (inet_daddr ch) with (rmt_addr r) in Hl. change (inet_dport ch) with (rmt_port r) in Hl. rewrite !Z.eqb_refl in Hl. cbn [andb] in Hl. apply orb_false_iff in Hl as [Hl1 Hl2]. destruct (Hdev j skj Hj Ej); lia. }
  destruct (hash_found h2 n ch b I1) as (J1 & J2 & J3 & J4); [by apply (same_off h1)|done|by split_and!| |].
  { intros j skj Hj Ej. apply (same_on_table h1) in Hj; [|done]. apply (same_on_table h) in Hj; [|done]. assert (Hjn : j <> n) by (intros ->; apply (on_table_off h n Hj), unknown_off; [apply Hc|done]). rewrite I4 in Ej by done. unfold h1 in Ej. cbn in Ej. rewrite lookup_insert_ne in Ej by done. by apply (Hno j). }
  split_and!; [done|exact J2| | | |intros a; by apply (keys_child base)].
  - destruct (socks (inet_hash_nolisten h2 n None) !! n) as [skn|] eqn:En; [|done]. cbn in J3. destruct (bi_bound _ (ci_bind _ _ J1) n skn b En J3) as (tb & T1 & T2). destruct (bi_owner _ (ci_bind _ _ J1) b tb n T1 T2) as (sk' & F1 & _ & _ & F3). exists b, tb. split_and!; [done..|]. rewrite <- F3. assert (Hsk : inet_num sk' = inet_num ch); [|exact Hsk]. unfold inet_hash_nolisten in F1. rewrite I3 in F1. rewrite ehash_add_socks, decide_True, upd_sock_same, I3 in F1 by done. cbn in F1. by injection F1 as <-.
  - intros j Hj. rewrite J4, I4 by done. unfold h1. cbn. by rewrite lookup_insert_ne.
  - destruct (openreq_child_spec (fs_sk f) r skb newsk Ecr) as (O1 & O2 & O3 & _ & _ & _ & _ & _ & _ & _ & _ & O4 & _). destruct (route_quiet (fs_sk f) r d newsk ltac:(intros s0; apply Hq)) as [Q1 _]. change (fs_sk (child_full f (child_route (fs_sk f) r d newsk) r)) with (child_route (fs_sk f) r d newsk). set (born := child_route (fs_sk f) r d newsk) in *. clearbody born. unfold rcv_side in Q1. injection Q1 as Q1 Q2 Q3 Q4 Q5 Q6. by rewrite Q1, Q4, Q5, Q6, O1, O2, O3, O4.
Qed.
End Born.

Module Demo.
#[local] Existing Instance linux.
#[local] Existing Instance Hashtables.Demo.env.
#[local] Existing Instance Hashtables.Demo.laws.
#[local] Existing Instance Input.Demo.linux_quiet.
#[local] Existing Instance Input.Demo.linux_setup.
#[local] Instance routes : ChildEnv Rtt.Demo.dst := {|
  inet_csk_route_child_sock _ _ := Some Rtt.Demo.d0;
  sk_setup_caps sk _ := sk; dst_mtu _ := 1500; dst_metric_advmss _ := 1460;
  uninit_key := Md5.Demo.free_slot; child_key_mem := Some Md5.Demo.enough;
|}.
Notation host := Hashtables.Demo.host.
(** A request for the server of [Hashtables.Demo], which has a key for the peer. *)
Definition req := ReqQueue.Demo.req <| loc_addr := Hashtables.Demo.here |> <| loc_port := htons 80 |> <| rmt_addr := Hashtables.Demo.there |> <| rmt_port := 6000 |>.
Definition server := Listen.Demo.listening <| fs_md5 := Md5.Demo.keyed |>.
Definition born := tcp_v4_syn_recv_sock host 0 9 server blank_skb req.
Example born_key : (fun r => keys_of (fs_md5 (fst r)) Hashtables.Demo.there) <$> born = Some (Some ([11; 12; 13], 3)).
Proof. vm_compute. reflexivity. Qed.
Lemma syn_recv_sock_ok_witness : exists c h', born = Some (c, h') /\ sk_state (fs_sk c) = TCP_SYN_RECV /\ inet_lookup_established_ h' Hashtables.Demo.net Hashtables.Demo.there 6000 Hashtables.Demo.here 80 0 = Some 9%nat.
Proof.
  destruct born as [[c h']|] eqn:E; [|vm_compute in E; discriminate]. exists c, h'. split; [reflexivity|].
  destruct (syn_recv_sock_ok 0 host 0 9 Hashtables.Demo.listener server blank_skb req 0 c h') as (_ & H2 & _ & _ & H3 & _); [exact Hashtables.Demo.host_conn|reflexivity|reflexivity|split_and!; vm_compute; intuition discriminate|exact Md5.Demo.keyed_inv|by split|vm_compute; reflexivity| |exact E|].
  - intros j skj _ Hj. left. destruct (Hashtables.Demo.host_socks j skj Hj) as [[_ ->]|[[_ ->]|[[_ ->]|[_ ->]]]]; reflexivity.
  - split; [congruence|exact H2].
Defined.
End Demo.
