(* ===== verification/Ipv4.v ===== *)
(** * The entry points of IPv4

    net/ipv4/tcp_ipv4.c: tcp_v4_rcv gives every segment that arrives to a socket, to its backlog or
    to a TIME-WAIT bucket, or answers it; tcp_v4_do_rcv processes it under the lock of the socket;
    tcp_v4_err does the first for ICMP messages.  sk_add_backlog is in include/net/sock.h.

    The checksum flags of the buffer, the packet filter, IPsec and the prequeue are fields of
    [RcvEnv]. *)

From stdpp Require Import gmap.
From S2P Require Import Prelude TcpTypes Kernel ReqQueue RcvTune Rtt TcpOpt SackGen Minisocks DataQueue Frame Quiet Input Hashtables Md5 Reply Icmp Listen.

(** The checksum of a received buffer: skb->ip_summed and skb->csum. *)
Inductive ip_summed := CHECKSUM_NONE | CHECKSUM_UNNECESSARY | CHECKSUM_COMPLETE | CHECKSUM_PARTIAL.
Record csum_state := mk_csum { cs_summed : ip_summed; cs_csum : Z }.

Class RcvEnv := {
  pkt_host : packet -> bool; (* skb->pkt_type == PACKET_HOST *)
  pskb_may_pull : packet -> Z -> bool;
  tcp_v4_check : Z -> Z -> Z -> Z -> Z;
  csum_tcpudp_nofold : Z -> Z -> Z -> Z -> Z -> Z;
  skb_checksum_complete_ : packet -> Z -> bool; (* __skb_checksum_complete, from skb->csum *)
  skb_steal_sock : packet -> option nat;
  xfrm4_policy_check : option nat -> packet -> bool;
  sk_filter : full_sock -> packet -> option packet; (* None: refused; the filter may trim the packet *)
  tcp_prequeue : full_sock -> sk_buff -> option full_sock; (* Some: the segment waits for the reader *)
}.

(** A TIME-WAIT bucket with what its reply uses, and the peer of its address. *)
Record tw_entry := mk_tw_entry { twe_tw : timewait_sock; twe_reply : tw_reply; twe_peer : option inet_peer }.
(** The sockets of the host, under the names that the tables have for them. *)
Record host := mk_host { hs_tables : inet_hashinfo; hs_full : gmap nat full_sock; hs_tw : gmap nat tw_entry }.
(** Who takes the segment: the socket itself, its prequeue or its backlog. *)
Inductive taken := ToSocket | ToPrequeue (f : full_sock) | ToBacklog (f : full_sock).
Record rcv_out := mk_out { ro_tables : inet_hashinfo; ro_tw : gmap nat tw_entry; ro_reply : option tcp_reply; ro_to : option (nat * packet * taken) }.

Section Rcv.
Context {K : Kernel} {C : Crypto} {R : ReplyEnv} {I : IcmpEnv} {H : HashEnv} {V : RcvEnv}.
Implicit Types (hs : host) (f : full_sock) (p : packet) (i : nat) (h : inet_hashinfo).

(** ** The backlog *)
Definition sk_rcvqueues_full f : bool := u32 (backlog_len f + sk_rmem_alloc (fs_sk f)) >? u32 (sk_rcvbuf (fs_sk f)).
Definition sk_add_backlog f (skb : sk_buff) : option full_sock :=
  if sk_rcvqueues_full f then None (* -ENOBUFS *)
  else Some (f <| sk_backlog := sk_backlog f ++ [skb] |> <| backlog_len := s32 (backlog_len f + truesize skb) |>).

(** ** Checksums *)
Definition csum_unnecessary (c : csum_state) : bool := match cs_summed c with CHECKSUM_UNNECESSARY | CHECKSUM_PARTIAL => true | _ => false end.
(** true: the checksum is wrong *)
Definition tcp_v4_checksum_init p (c : csum_state) : bool * csum_state :=
  let saddr := ip_saddr (pk_iph p) in
  let daddr := ip_daddr (pk_iph p) in
  let partial :=
    let c := mk_csum (cs_summed c) (csum_tcpudp_nofold saddr daddr (len (pk_skb p)) IPPROTO_TCP 0) in
    if len (pk_skb p) <=? 76 then (skb_checksum_complete_ p (cs_csum c), c) else (false, c) in
  match cs_summed c with
  | CHECKSUM_COMPLETE => if tcp_v4_check (len (pk_skb p)) saddr daddr (cs_csum c) =? 0 then (false, mk_csum CHECKSUM_UNNECESSARY (cs_csum c)) else partial
  | _ => partial
  end.
Definition tcp_checksum_complete (skb : sk_buff) : bool := negb (skb_csum_unnecessary skb) && tcp_checksum_complete_ skb.
Definition seg_damaged p : bool := (len (pk_skb p) <? Z.shiftl (th_doff (skb_th (pk_skb p))) 2) || tcp_checksum_complete (pk_skb p).

(** ** Demultiplexing *)
Definition discard_it hs : rcv_out := mk_out (hs_tables hs) (hs_tw hs) None None.
Definition no_tcp_socket hs p : rcv_out :=
  if negb (xfrm4_policy_check None p) then discard_it hs
  else if seg_damaged p then discard_it hs
  else mk_out (hs_tables hs) (hs_tw hs) (tcp_v4_send_reset None p) None.
(** What is done to the bucket [i]: it may be taken off the tables, and is freed then. *)
Definition tw_actions hs i (e : tw_entry) (r : tw_result) : host :=
  let e := mk_tw_entry (twr_tw r) (twe_reply e) (twr_peer r) in
  if existsb (fun a => match a with TwDeschedule => true | _ => false end) (twr_actions r)
  then mk_host (inet_twsk_deschedule (hs_tables hs) i) (hs_full hs) (delete i (hs_tw hs))
  else mk_host (hs_tables hs) (hs_full hs) (<[i := e]> (hs_tw hs)).
(** The full socket [i] takes the segment. *)
Definition give_to hs i f p : rcv_out :=
  if ip_ttl (pk_iph p) <? min_ttl f then discard_it hs
  else if negb (xfrm4_policy_check (Some i) p) then discard_it hs
  else match sk_filter f p with
       | None => discard_it hs
       | Some p =>
         let out t := mk_out (hs_tables hs) (hs_tw hs) None (Some (i, p, t)) in
         if negb (sk_owned (fs_sk f)) then match tcp_prequeue f (pk_skb p) with Some f => out (ToPrequeue f) | None => out ToSocket end
         else match sk_add_backlog f (pk_skb p) with Some f => out (ToBacklog f) | None => discard_it hs end
       end.
(** From the label process on; [None] is a loop that did not end after [n] rounds. *)
Fixpoint process (n : nat) (g : tcp_options_received) hs i p : option rcv_out :=
  match n with
  | O => None
  | S n =>
    if on_sock (hs_tables hs) i (fun s => st_eqb (isk_state s) TCP_TIME_WAIT) then
      if negb (xfrm4_policy_check None p) then Some (discard_it hs)
      else if seg_damaged p then Some (discard_it hs)
      else match hs_tw hs !! i with
           | None => Some (discard_it hs)
           | Some e =>
             let r := tcp_timewait_state_process g (twe_tw e) (pk_skb p) (twe_peer e) in
             let hs := tw_actions hs i e r in
             let ack := mk_out (hs_tables hs) (hs_tw hs) (Some (tcp_v4_timewait_ack (twr_tw r) (twe_reply e) p)) None in
             match twr_status r with
             | TCP_TW_SYN =>
               match inet_lookup_listener_ (hs_tables hs) (pk_net p) (ip_daddr (pk_iph p)) (htons (pk_dest p)) (pk_iif p) with
               | Some i2 =>
                 let hs := mk_host (inet_twsk_deschedule (hs_tables hs) i) (hs_full hs) (delete i (hs_tw hs)) in
                 process n g hs i2 (mk_packet ((pk_skb p) <| when_ := twr_when r |>) (pk_iph p) (pk_source p) (pk_dest p) (pk_net p) (pk_iif p) (pk_local p))
               | None => Some ack
               end
             | TCP_TW_ACK => Some ack
             | TCP_TW_RST => Some (no_tcp_socket hs p)
             | TCP_TW_SUCCESS => Some (discard_it hs)
             end
           end
    else match hs_full hs !! i with Some f => Some (give_to hs i f p) | None => Some (discard_it hs) end
  end.
(** [n]: the rounds of the loop that are allowed. *)
Definition tcp_v4_rcv (n : nat) (g : tcp_options_received) (c : csum_state) (dsfield : Z) hs p : option rcv_out :=
  let th := skb_th (pk_skb p) in
  if negb (pkt_host p) then Some (discard_it hs)
  else if negb (pskb_may_pull p sizeof_tcphdr) then Some (discard_it hs)
  else if th_doff th <? sizeof_tcphdr / 4 then Some (discard_it hs)
  else if negb (pskb_may_pull p (th_doff th * 4)) then Some (discard_it hs)
  else if negb (csum_unnecessary c) && fst (tcp_v4_checksum_init p c) then Some (discard_it hs)
  else
    let p := mk_packet (tcp_v4_fill_cb (pk_skb p) dsfield) (pk_iph p) (pk_source p) (pk_dest p) (pk_net p) (pk_iif p) (pk_local p) in
    let found := match skb_steal_sock p with
                 | Some i => Some i
                 | None => inet_lookup_ (hs_tables hs) (pk_net p) (ip_saddr (pk_iph p)) (pk_source p) (ip_daddr (pk_iph p)) (pk_dest p) (pk_iif p)
                 end in
    match found with None => Some (no_tcp_socket hs p) | Some i => process n g hs i p end.

(** An ICMP message for a socket of the host: the socket [i] as it is afterwards; [Some None] is a
    message that changes nothing, [None] the BUG of icmp_sock. *)
Definition tcp_v4_err hs (m : icmp_msg) (net iif ln ihl : Z) : option (option (nat * full_sock)) :=
  if ln <? Z.shiftl ihl 2 + 8 then Some None
  else match inet_lookup_ (hs_tables hs) net (ip_daddr (ic_iph m)) (ic_dest m) (ip_saddr (ic_iph m)) (ic_source m) iif with
       | None => Some None
       | Some i =>
         if on_sock (hs_tables hs) i (fun s => st_eqb (isk_state s) TCP_TIME_WAIT) then Some None
         else match hs_full hs !! i with None => Some None | Some f => (fun f => Some (i, f)) <$> icmp_sock f m end
       end.
End Rcv.

(** ** What the code does with a segment *)
Section Demux.
Context {K : Kernel} {C : Crypto} {R : ReplyEnv} {I : IcmpEnv} {H : HashEnv} {L : HashLaws H} {V : RcvEnv}.
Implicit Types (hs : host) (f : full_sock) (p : packet) (i j : nat) (h : inet_hashinfo) (o : rcv_out).

(** The tables are consistent, and each chain has sockets in the right states. *)
Record host_ok hs : Prop := {
  ho_hash : hash_inv (hs_tables hs);
  ho_full : forall i, hashed (hs_tables hs) i -> isk_state <$> socks (hs_tables hs) !! i <> Some TCP_TIME_WAIT;
  ho_tw : forall i, tw_hashed (hs_tables hs) i -> isk_state <$> socks (hs_tables hs) !! i = Some TCP_TIME_WAIT;
  ho_listen : forall i, listening (hs_tables hs) i -> isk_state <$> socks (hs_tables hs) !! i = Some TCP_LISTEN;
  ho_sock : forall i, hashed (hs_tables hs) i \/ listening (hs_tables hs) i -> is_Some (hs_full hs !! i);
  ho_bucket : forall i, tw_hashed (hs_tables hs) i -> is_Some (hs_tw hs !! i);
}.
(** The addresses of the segment are those of the socket. *)
Definition addressed h p i : Prop := exists s, socks h !! i = Some s /\ same_flow (pk_net p) (ip_saddr (pk_iph p)) (pk_source p) (ip_daddr (pk_iph p)) (htons (pk_dest p)) (pk_iif p) s = true.
Definition conn_free h p : Prop := forall j, hashed h j -> ~ addressed h p j.
Definition tw_free h p : Prop := forall j, tw_hashed h j -> ~ addressed h p j.
(** The listening sockets that accept the destination of the segment have a score; [i] has the highest. *)
Definition pk_score h p i : Z := score_of h (pk_net p) (htons (pk_dest p)) (ip_daddr (pk_iph p)) (pk_iif p) i.
Definition best_listener h p i : Prop := listening h i /\ 0 <= pk_score h p i /\ forall j, listening h j -> pk_score h p j <= pk_score h p i.
Definition no_listener h p : Prop := forall j, listening h j -> pk_score h p j < 0.
(** [i] is the right socket for a segment: its connection; or the listening socket of highest score,
    when no connection, or only one in TIME-WAIT, has these addresses. *)
Definition right_socket h p i : Prop := hashed h i /\ addressed h p i \/ best_listener h p i /\ conn_free h p.
(** A reply goes back to the peer; a reset does not answer a reset. *)
Definition reply_ok p o : Prop := forall r, ro_reply o = Some r -> rp_to r = ip_saddr (pk_iph p) /\ ro_to o = None /\ (th_rst (rp_th r) = true -> th_rst (skb_th (pk_skb p)) = false).
(** Only the bucket [i] is changed, or taken off the tables. *)
Definition tw_kept hs i o : Prop := (ro_tables o = hs_tables hs \/ ro_tables o = inet_twsk_deschedule (hs_tables hs) i) /\ forall j, j <> i -> ro_tw o !! j = hs_tw hs !! j.
Definition given o i : Prop := ro_to o = None \/ exists p t, ro_to o = Some (i, p, t).

Lemma give_to_ok hs i f p : let o := give_to hs i f p in ro_tables o = hs_tables hs /\ ro_tw o = hs_tw hs /\ ro_reply o = None /\ given o i.
Proof using Type. unfold give_to, given. cbn zeta. repeat (case_match; [|]); cbn; split_and!; eauto. Qed.
Lemma no_socket_ok hs p : let o := no_tcp_socket hs p in ro_tables o = hs_tables hs /\ ro_tw o = hs_tw hs /\ ro_to o = None /\ reply_ok p o.
Proof using Type.
  unfold no_tcp_socket, reply_ok. cbn zeta. case_if_as H1; [done|]. case_if_as H2; [done|]. split_and!; [done..|]. cbn. intros r Er. unfold tcp_v4_send_reset in Er. destruct (th_rst (skb_th (pk_skb p))); [done|]. destruct (pk_local p); [|done]. cbn in Er. by injection Er as <-.
Qed.
Definition tw_state h i : bool := on_sock h i (fun s => st_eqb (isk_state s) TCP_TIME_WAIT).
Lemma tw_state_spec h i : tw_state h i = true <-> isk_state <$> socks h !! i = Some TCP_TIME_WAIT.
Proof using Type. unfold tw_state, on_sock, st_eqb. destruct (socks h !! i) as [s|]; [|done]. cbn. rewrite bool_decide_eq_true. split; [intros E1; f_equal; exact E1|intros E1; by injection E1]. Qed.
Lemma deschedule_other h t j : j <> t -> socks (inet_twsk_deschedule h t) !! j = socks h !! j.
Proof using L.
  intros Hj. rewrite tw_deschedule_spec. assert (Hu : forall h0, socks (unbind_tw h0 t) !! j = socks h0 !! j).
  { intros h0. unfold unbind_tw. destruct (icsk_bind_hash <$> socks h0 !! t) as [[b|]|]; [|done..]. destruct (destroy_frame (upd_sock (upd_tb h0 b (fun tb => tb <| owners := drop_id t (owners tb) |>)) t (fun sk => sk <| icsk_bind_hash := None |>)) b) as [-> _]. by rewrite upd_sock_other. }
  rewrite Hu. unfold unlink_tw. by rewrite upd_sock_other.
Qed.
Lemma tw_syn_plain g tw skb peer : twr_status (tcp_timewait_state_process g tw skb peer) = TCP_TW_SYN -> twr_actions (tcp_timewait_state_process g tw skb peer) = [].
Proof using Type. unfold tcp_timewait_state_process, timewait_fin_wait2. destruct (tw_parse g tw skb) as [o pr]. repeat case_match; done. Qed.
Lemma ack_no_rst tw x p : rp_to (tcp_v4_timewait_ack tw x p) = ip_saddr (pk_iph p) /\ th_rst (rp_th (tcp_v4_timewait_ack tw x p)) = false.
Proof using Type. unfold tcp_v4_timewait_ack, tcp_v4_send_ack, md5_option. by destruct (negb (tw_ts_recent tw =? 0)), (tw_md5_key x). Qed.
Lemma tw_actions_kept hs i e r : let hs' := tw_actions hs i e r in (hs_tables hs' = hs_tables hs \/ hs_tables hs' = inet_twsk_deschedule (hs_tables hs) i) /\ hs_full hs' = hs_full hs /\ forall j, j <> i -> hs_tw hs' !! j = hs_tw hs !! j.
Proof using Type. unfold tw_actions. cbn zeta. case_if_as Hd; (split_and!; [auto..|]); intros j Hj; cbn; [by rewrite lookup_delete_ne|by rewrite lookup_insert_ne]. Qed.

(** The outcome for the socket [i] that was looked up. *)
Record demuxed hs p i o : Prop := {
  dm_kept : tw_kept hs i o;
  dm_reply : reply_ok p o;
  dm_to : forall j p' t, ro_to o = Some (j, p', t) -> is_Some (hs_full hs !! j) /\
    (j = i /\ tw_state (hs_tables hs) i = false \/ tw_state (hs_tables hs) i = true /\ inet_lookup_listener_ (hs_tables hs) (pk_net p) (ip_daddr (pk_iph p)) (htons (pk_dest p)) (pk_iif p) = Some j);
}.
Lemma demux_kept hs p i o : ro_tables o = hs_tables hs -> ro_tw o = hs_tw hs -> ro_to o = None -> reply_ok p o -> demuxed hs p i o.
Proof using Type. intros H1 H2 H3 H4. split; [split; [by left|intros j _; by rewrite H2]|done|by rewrite H3]. Qed.
Lemma process_full n g hs i p : tw_state (hs_tables hs) i = false -> exists o, process (S n) g hs i p = Some o /\ ro_tables o = hs_tables hs /\ ro_tw o = hs_tw hs /\ ro_reply o = None /\ (forall j p' t, ro_to o = Some (j, p', t) -> j = i /\ is_Some (hs_full hs !! i)).
Proof using Type.
  intros Hs. cbn [process]. fold (tw_state (hs_tables hs) i). rewrite Hs. destruct (hs_full hs !! i) as [f|]; [|eexists; split; [reflexivity|done]]. destruct (give_to_ok hs i f p) as (G1 & G2 & G3 & G4). eexists. split; [reflexivity|]. split_and!; [done..|]. intros j p' t Ej. destruct G4 as [G4|(p1 & t1 & G4)]; rewrite G4 in Ej; [done|]. injection Ej as <- <- <-. split; [done|by eexists].
Qed.
Lemma process_ok g hs i p : host_ok hs -> (tw_state (hs_tables hs) i = true -> tw_hashed (hs_tables hs) i) -> exists o, process 2 g hs i p = Some o /\ demuxed hs p i o.
Proof using L.
  intros Ho Ht. destruct (tw_state (hs_tables hs) i) eqn:Es.
  2:{ destruct (process_full 1 g hs i p Es) as (o & E1 & E2 & E3 & E4 & E5). exists o. split; [done|]. split; [split; [by left|intros j _; by rewrite E3]|intros r Er; by rewrite E4 in Er|]. intros j p' t Ej. destruct (E5 j p' t Ej) as [-> Hf]. split; [done|by left]. }
  remember 1%nat as n1 eqn:En1. cbn [process]. fold (tw_state (hs_tables hs) i). rewrite Es. assert (Hd : demuxed hs p i (discard_it hs)) by (by apply demux_kept). case_if_as H1; [by eexists|]. case_if_as H2; [by eexists|]. destruct (hs_tw hs !! i) as [e|]; [|by eexists].
  pose proof (tw_syn_plain g (twe_tw e) (pk_skb p) (twe_peer e)) as Hsyn. set (r := tcp_timewait_state_process g (twe_tw e) (pk_skb p) (twe_peer e)) in *. cbn zeta. destruct (tw_actions_kept hs i e r) as (K1 & K2 & K3). set (hs1 := tw_actions hs i e r) in *.
  assert (Hack : forall tw x, demuxed hs p i (mk_out (hs_tables hs1) (hs_tw hs1) (Some (tcp_v4_timewait_ack tw x p)) None)).
  { intros tw x. destruct (ack_no_rst tw x p) as [A1 A2]. split; [by split|intros r0 [= <-]; split_and!; [done..|by rewrite A2]|done]. }
  destruct (twr_status r) eqn:Er.
  - eexists. split; [reflexivity|]. by split.
  - eexists. split; [reflexivity|]. destruct (no_socket_ok hs1 p) as (N1 & N2 & N3 & N4). split; [split; [by rewrite N1|by rewrite N2]|done|by rewrite N3].
  - eexists. split; [reflexivity|]. apply Hack.
  - assert (Et : hs_tables hs1 = hs_tables hs) by (unfold hs1, tw_actions; by rewrite (Hsyn eq_refl)). rewrite Et. destruct (inet_lookup_listener_ (hs_tables hs) (pk_net p) (ip_daddr (pk_iph p)) (htons (pk_dest p)) (pk_iif p)) as [i2|] eqn:El; [|eexists; split; [reflexivity|]; pose proof (Hack (twr_tw r) (twe_reply e)) as Ha; by rewrite Et in Ha].
    set (hs2 := mk_host _ _ _). set (p2 := mk_packet _ _ _ _ _ _ _). pose proof (lookup_listener_spec (hs_tables hs) (pk_net p) (ip_daddr (pk_iph p)) (htons (pk_dest p)) (pk_iif p) (ho_hash hs Ho)) as Hl. cbn zeta in Hl. rewrite El in Hl. destruct Hl as [Hl _]. pose proof (ho_listen hs Ho i2 Hl) as Hst. apply tw_state_spec in Es. assert (Hne : i2 <> i) by (intros ->; congruence).
    assert (Hs2 : tw_state (hs_tables hs2) i2 = false) by (apply not_true_is_false; rewrite tw_state_spec; unfold hs2; cbn; rewrite deschedule_other by done; congruence). subst n1. destruct (process_full 0 g hs2 i2 p2 Hs2) as (o & E1 & E2 & E3 & E4 & E5). exists o. split; [done|]. split.
    + split; [right; by rewrite E2|]. intros j Hj. rewrite E3. unfold hs2. cbn. rewrite lookup_delete_ne by done. by apply K3.
    + intros r0 Hr0. by rewrite E4 in Hr0.
    + intros j p' t Ej. destruct (E5 j p' t Ej) as [-> Hf]. unfold hs2 in Hf. cbn in Hf. rewrite K2 in Hf. split; [done|]. right. split; [by apply tw_state_spec|done].
Qed.
(** ** Who must have the segment *)

(** The segment passes the checks at the entry: it is for this host, its header and options are there
    and its checksum is not known to be wrong. *)
Definition whole (c : csum_state) p : bool :=
  pkt_host p && pskb_may_pull p sizeof_tcphdr && (sizeof_tcphdr / 4 <=? th_doff (skb_th (pk_skb p))) && pskb_may_pull p (th_doff (skb_th (pk_skb p)) * 4) && (csum_unnecessary c || negb (fst (tcp_v4_checksum_init p c))).
Definition with_skb p (skb : sk_buff) : packet := mk_packet skb (pk_iph p) (pk_source p) (pk_dest p) (pk_net p) (pk_iif p) (pk_local p).
Definition stamped (ds : Z) p : packet := with_skb p (tcp_v4_fill_cb (pk_skb p) ds).
(** The socket [i] lets the segment in, as [p']. *)
Definition lets_in i f p p' : Prop := min_ttl f <= ip_ttl (pk_iph p) /\ xfrm4_policy_check (Some i) p = true /\ sk_filter f p = Some p'.
(** The socket [i] has the segment if it lets it in: at once, through its prequeue or, while a process
    owns the socket, at the end of its backlog; only a full backlog loses it. *)
Definition reached i f p (to : option (nat * packet * taken)) : Prop :=
  (forall p', lets_in i f p p' ->
    match sk_owned (fs_sk f), tcp_prequeue f (pk_skb p') with
    | false, None => to = Some (i, p', ToSocket)
    | false, Some f' => to = Some (i, p', ToPrequeue f')
    | true, _ => if sk_rcvqueues_full f then to = None else exists f', to = Some (i, p', ToBacklog f') /\ sk_backlog f' = sk_backlog f ++ [pk_skb p'] /\ fs_sk f' = fs_sk f
    end) /\
  ((forall p', ~ lets_in i f p p') -> to = None).
(** The bucket [i] answers the segment as tcp_timewait_state_process decides; a SYN that may open the
    connection again takes the bucket off the tables and goes to the listening socket. *)
Definition tw_answer (g : tcp_options_received) hs p i (e : tw_entry) o : Prop :=
  let r := tcp_timewait_state_process g (twe_tw e) (pk_skb p) (twe_peer e) in
  let acked := ro_reply o = Some (tcp_v4_timewait_ack (twr_tw r) (twe_reply e) p) /\ ro_to o = None in
  match twr_status r with
  | TCP_TW_SUCCESS => ro_reply o = None /\ ro_to o = None
  | TCP_TW_RST => ro_reply o = tcp_v4_send_reset None p /\ ro_to o = None
  | TCP_TW_ACK => acked
  | TCP_TW_SYN =>
    no_listener (hs_tables hs) p /\ acked \/
    exists j f, best_listener (hs_tables hs) p j /\ hs_full hs !! j = Some f /\ reached j f (with_skb p ((pk_skb p) <| when_ := twr_when r |>)) (ro_to o) /\ ro_reply o = None /\ ro_tables o = inet_twsk_deschedule (hs_tables hs) i /\ ro_tw o !! i = None
  end.
(** What becomes of a segment that passes the checks at the entry. *)
Record delivered g hs p o : Prop := {
  dl_conn : ~ conn_free (hs_tables hs) p -> exists i f, hashed (hs_tables hs) i /\ addressed (hs_tables hs) p i /\ hs_full hs !! i = Some f /\ reached i f p (ro_to o) /\ ro_reply o = None;
  dl_listen : conn_free (hs_tables hs) p -> tw_free (hs_tables hs) p -> ~ no_listener (hs_tables hs) p -> exists i f, best_listener (hs_tables hs) p i /\ hs_full hs !! i = Some f /\ reached i f p (ro_to o) /\ ro_reply o = None;
  dl_none : conn_free (hs_tables hs) p -> tw_free (hs_tables hs) p -> no_listener (hs_tables hs) p -> ro_to o = None /\ ro_reply o = if xfrm4_policy_check None p && negb (seg_damaged p) then tcp_v4_send_reset None p else None;
  dl_tw : conn_free (hs_tables hs) p -> ~ tw_free (hs_tables hs) p -> exists i e, tw_hashed (hs_tables hs) i /\ addressed (hs_tables hs) p i /\ hs_tw hs !! i = Some e /\
    if xfrm4_policy_check None p && negb (seg_damaged p) then tw_answer g hs p i e o else o = discard_it hs;
}.
(** Nothing else happens: who is given it, what is answered, and which bucket may change. *)
Record confined hs p o : Prop := {
  rt_reply : reply_ok p o;
  rt_to : forall j p' t, ro_to o = Some (j, p', t) -> is_Some (hs_full hs !! j) /\ right_socket (hs_tables hs) p j;
  rt_kept : ro_tables o = hs_tables hs /\ ro_tw o = hs_tw hs \/ exists i, tw_hashed (hs_tables hs) i /\ addressed (hs_tables hs) p i /\ tw_kept hs i o;
}.
Definition routed g (c : csum_state) (ds : Z) hs p o : Prop := confined hs p o /\ if whole c p then delivered g hs (stamped ds p) o else o = discard_it hs.

Lemma give_to_reached hs i f p : reached i f p (ro_to (give_to hs i f p)).
Proof using Type.
  unfold reached, give_to. split.
  - intros p' (T1 & T2 & T3). rewrite (proj2 (Z.ltb_ge _ _) T1), T2, T3. cbn [negb]. destruct (sk_owned (fs_sk f)); cbn [negb]; [|by destruct (tcp_prequeue f (pk_skb p'))]. unfold sk_add_backlog. destruct (sk_rcvqueues_full f); [done|]. by eexists.
  - intros Hn. case_if_as H1; [done|]. case_if_as H2; [done|]. destruct (sk_filter f p) as [p'|] eqn:Ef; [|done]. destruct (Hn p'). split_and!; [by apply Z.ltb_ge|by apply negb_false_iff|done].
Qed.
Lemma process_sock n g hs i f p : tw_state (hs_tables hs) i = false -> hs_full hs !! i = Some f -> process (S n) g hs i p = Some (give_to hs i f p).
Proof using Type. intros Hs Hf. cbn [process]. fold (tw_state (hs_tables hs) i). by rewrite Hs, Hf. Qed.
Lemma listening_state hs i : host_ok hs -> listening (hs_tables hs) i -> tw_state (hs_tables hs) i = false.
Proof using Type. intros Ho Hi. apply not_true_is_false. rewrite tw_state_spec. by rewrite (ho_listen hs Ho i Hi). Qed.
Lemma conn_state hs i : host_ok hs -> hashed (hs_tables hs) i -> tw_state (hs_tables hs) i = false.
Proof using Type. intros Ho Hi. apply not_true_is_false. rewrite tw_state_spec. by apply ho_full. Qed.
Lemma lookup_listener_best hs p : host_ok hs -> match inet_lookup_listener_ (hs_tables hs) (pk_net p) (ip_daddr (pk_iph p)) (htons (pk_dest p)) (pk_iif p) with Some i => best_listener (hs_tables hs) p i | None => no_listener (hs_tables hs) p end.
Proof using L. intros Ho. exact (lookup_listener_spec (hs_tables hs) (pk_net p) (ip_daddr (pk_iph p)) (htons (pk_dest p)) (pk_iif p) (ho_hash hs Ho)). Qed.
(** Looking up the addresses of the segment finds its connection first, then its bucket. *)
Lemma lookup_conn hs p : host_ok hs -> is_u32 (ip_saddr (pk_iph p)) -> is_u16 (pk_source p) ->
  match inet_lookup_established_ (hs_tables hs) (pk_net p) (ip_saddr (pk_iph p)) (pk_source p) (ip_daddr (pk_iph p)) (htons (pk_dest p)) (pk_iif p) with
  | Some i => addressed (hs_tables hs) p i /\ (hashed (hs_tables hs) i \/ tw_hashed (hs_tables hs) i /\ conn_free (hs_tables hs) p)
  | None => conn_free (hs_tables hs) p /\ tw_free (hs_tables hs) p
  end.
Proof using L.
  intros Ho Ha Hp. pose proof (lookup_established_spec (hs_tables hs) (pk_net p) (ip_saddr (pk_iph p)) (pk_source p) (ip_daddr (pk_iph p)) (htons (pk_dest p)) (pk_iif p) (ho_hash hs Ho) Ha Hp) as He. cbn zeta in He.
  destruct (inet_lookup_established_ _ _ _ _ _ _ _) as [i|].
  - destruct He as [Hf [Hi|[Hi Hn]]]; (split; [exact Hf|]); [by left|right; split; [done|]]. intros j Hj (sk & S1 & S2). by rewrite (Hn j sk Hj S1) in S2.
  - split; intros j Hj (sk & S1 & S2); rewrite (He j sk) in S2; auto; done.
Qed.
Lemma no_socket_reply hs p : ro_reply (no_tcp_socket hs p) = if xfrm4_policy_check None p && negb (seg_damaged p) then tcp_v4_send_reset None p else None.
Proof using Type. unfold no_tcp_socket. by destruct (xfrm4_policy_check None p), (seg_damaged p). Qed.
Lemma process_tw g hs i e p : host_ok hs -> tw_state (hs_tables hs) i = true -> hs_tw hs !! i = Some e ->
  exists o, process 2 g hs i p = Some o /\ if xfrm4_policy_check None p && negb (seg_damaged p) then tw_answer g hs p i e o else o = discard_it hs.
Proof using L.
  intros Ho Hs He. remember 1%nat as n1 eqn:En1. cbn [process]. fold (tw_state (hs_tables hs) i). rewrite Hs, He. destruct (xfrm4_policy_check None p) eqn:Hx; [|by eexists]. destruct (seg_damaged p) eqn:Hd; [by eexists|]. cbn [negb andb]. unfold tw_answer. pose proof (tw_syn_plain g (twe_tw e) (pk_skb p) (twe_peer e)) as Hsyn. set (r := tcp_timewait_state_process g (twe_tw e) (pk_skb p) (twe_peer e)) in *. cbn zeta. destruct (tw_actions_kept hs i e r) as (_ & K2 & _).
  destruct (twr_status r); [by eexists| |by eexists|].
  - eexists. split; [reflexivity|]. rewrite no_socket_reply, Hx, Hd. split; [done|apply no_socket_ok].
  - assert (Et : hs_tables (tw_actions hs i e r) = hs_tables hs) by (unfold tw_actions; by rewrite (Hsyn eq_refl)). rewrite Et, K2. pose proof (lookup_listener_best hs p Ho) as Hl. destruct (inet_lookup_listener_ _ _ _ _ _) as [j|]; [|eexists; split; [reflexivity|by left]].
    destruct (ho_sock hs Ho j) as [f Hf]; [right; apply Hl|]. set (hs2 := mk_host _ _ _). assert (Hne : j <> i) by (intros ->; rewrite (listening_state hs i Ho (proj1 Hl)) in Hs; done). subst n1. rewrite (process_sock 0 g hs2 j f); [|apply not_true_is_false; rewrite tw_state_spec; unfold hs2; cbn; rewrite deschedule_other by done; rewrite (ho_listen hs Ho j (proj1 Hl)); done|done].
    eexists. split; [reflexivity|]. right. exists j, f. set (p2 := mk_packet _ _ _ _ _ _ _). destruct (give_to_ok hs2 j f p2) as (G1 & G2 & G3 & _). split_and!; [done|done|apply give_to_reached|done|by rewrite G1|rewrite G2; apply lookup_delete_eq].
Qed.
Lemma conn_delivered g hs p i f : hashed (hs_tables hs) i -> addressed (hs_tables hs) p i -> hs_full hs !! i = Some f -> delivered g hs p (give_to hs i f p).
Proof using Type.
  intros Hi Ha Hf. assert (Hc : ~ conn_free (hs_tables hs) p) by (intros Hn; exact (Hn i Hi Ha)). split; [|intros; contradiction..]. intros _. exists i, f. split_and!; [done..|apply give_to_reached|apply give_to_ok].
Qed.
Lemma give_to_confined hs p i f : hs_full hs !! i = Some f -> right_socket (hs_tables hs) p i -> confined hs p (give_to hs i f p).
Proof using Type.
  intros Hf Hr. destruct (give_to_ok hs i f p) as (G1 & G2 & G3 & G4). split; [intros r Er; by rewrite G3 in Er| |by left]. intros j p' t Ej. destruct G4 as [G4|(p1 & t1 & G4)]; rewrite G4 in Ej; [done|]. injection Ej as <- <- <-. split; [by eexists|done].
Qed.
Lemma tw_confined g hs p i : host_ok hs -> tw_hashed (hs_tables hs) i -> addressed (hs_tables hs) p i -> conn_free (hs_tables hs) p -> exists o, process 2 g hs i p = Some o /\ confined hs p o.
Proof using L.
  intros Ho Hi Ha Hn. destruct (process_ok g hs i p Ho (fun _ => Hi)) as (o & E1 & [D1 D2 D3]). exists o. split; [done|]. split; [done| |right; by exists i]. apply (ho_tw hs Ho), tw_state_spec in Hi. intros j p' t Ej. destruct (D3 j p' t Ej) as [Hj [[-> Hs]|[_ El]]]; [congruence|]. split; [done|]. right. split; [|done]. pose proof (lookup_listener_best hs p Ho) as Hl. by rewrite El in Hl.
Qed.
Lemma tw_routed g hs p i : host_ok hs -> tw_hashed (hs_tables hs) i -> addressed (hs_tables hs) p i -> conn_free (hs_tables hs) p -> exists o, process 2 g hs i p = Some o /\ confined hs p o /\ delivered g hs p o.
Proof using L.
  intros Ho Hi Ha Hn. destruct (ho_bucket hs Ho i Hi) as [e He]. destruct (tw_confined g hs p i Ho Hi Ha Hn) as (o & E1 & Hc). destruct (process_tw g hs i e p Ho) as (o' & E2 & Hw); [by apply tw_state_spec, ho_tw|done|]. rewrite E1 in E2. injection E2 as <-. exists o. split; [done|]. split; [done|]. assert (Ht : ~ tw_free (hs_tables hs) p) by (intros Hf; exact (Hf i Hi Ha)).
  split; [intros; contradiction..|]. intros _ _. by exists i, e.
Qed.
Lemma lookup_routed g hs p : host_ok hs -> is_u32 (ip_saddr (pk_iph p)) -> is_u16 (pk_source p) ->
  exists o, match inet_lookup_ (hs_tables hs) (pk_net p) (ip_saddr (pk_iph p)) (pk_source p) (ip_daddr (pk_iph p)) (pk_dest p) (pk_iif p) with None => Some (no_tcp_socket hs p) | Some i => process 2 g hs i p end = Some o /\ confined hs p o /\ delivered g hs p o.
Proof using L.
  intros Ho Ha Hp. unfold inet_lookup_. cbn zeta. pose proof (lookup_conn hs p Ho Ha Hp) as He. pose proof (lookup_listener_best hs p Ho) as Hl. destruct (inet_lookup_established_ _ _ _ _ _ _ _) as [i|]; [destruct He as [Hf [Hi|[Hi Hn]]]; [|by apply tw_routed]|destruct He as [Hn Ht]; destruct (inet_lookup_listener_ _ _ _ _ _) as [i|]].
  - destruct (ho_sock hs Ho i (or_introl Hi)) as [f Ef]. rewrite (process_sock 1 g hs i f p) by (done || by apply conn_state). eexists. split; [reflexivity|]. split; [by apply give_to_confined; [|left]|by apply conn_delivered].
  - destruct (ho_sock hs Ho i (or_intror (proj1 Hl))) as [f Ef]. rewrite (process_sock 1 g hs i f p) by (done || (apply listening_state; [done|apply Hl])). eexists. split; [reflexivity|]. split; [by apply give_to_confined; [|right]|]. split; [intros; contradiction| |intros _ _ Hno; destruct Hl as (L1 & L2 & _); specialize (Hno i L1); lia|intros; contradiction]. intros _ _ _. exists i, f. split_and!; [done..|apply give_to_reached|apply give_to_ok].
  - eexists. split; [reflexivity|]. destruct (no_socket_ok hs p) as (N1 & N2 & N3 & N4). split; [split; [done|by rewrite N3|by left]|]. split; [intros; contradiction..| |intros; contradiction]. intros _ _ _. split; [done|apply no_socket_reply].
Qed.
(** C5. Every segment finds its way: tcp_v4_rcv ends after at most two rounds of its loop.  A segment
    that passes the checks at the entry is given to a connection with its addresses when there is
    one; else, when there is no TIME-WAIT bucket with them, to the listening socket of the highest
    score; when there is none, it is answered with a reset.  The socket has it at once, in its
    prequeue or at the end of its backlog, unless its TTL limit, the policy or the filter refuses it
    or the backlog is full.  A TIME-WAIT bucket answers as tcp_timewait_state_process decides, and a
    SYN that may open the connection again removes the bucket and goes to the listening socket.  A
    segment that fails the checks is discarded.  A reply goes to the sender, no reset answers a
    reset, and nothing else changes but the bucket with these addresses. *)
Theorem rcv_demux_ok g c ds hs p : host_ok hs -> is_u32 (ip_saddr (pk_iph p)) -> is_u16 (pk_source p) -> (forall p', skb_steal_sock p' = None) ->
  exists o, tcp_v4_rcv 2 g c ds hs p = Some o /\ routed g c ds hs p o.
Proof using L.
  intros Ho Ha Hp Hst. assert (Hdrop : confined hs p (discard_it hs)) by (split; [done..|by left]). unfold routed, whole, tcp_v4_rcv. cbn zeta. rewrite Z.leb_antisym.
  destruct (pkt_host p); [|by eexists]. destruct (pskb_may_pull p sizeof_tcphdr); [|by eexists]. destruct (th_doff _ <? _); [by eexists|]. destruct (pskb_may_pull p _); [|by eexists]. cbn [negb andb]. destruct (csum_unnecessary c), (fst (tcp_v4_checksum_init p c)); cbn [negb andb orb]; try (by eexists).
  all: rewrite Hst; destruct (lookup_routed g hs (stamped ds p) Ho Ha Hp) as (o & E1 & [R1 R2 R3] & Hd); exists o; (split; [exact E1|]); (split; [|exact Hd]); by split.
Qed.
End Demux.

(** ** Under the lock of the socket *)

(** The socket afterwards, the child that took the segment, the reset for it, the SYN-ACK for a SYN,
    and what tcp_check_req and tcp_rcv_state_process ask for. *)
Record do_out (D : Type) := mk_do {
  do_full : full_sock;
  do_child : option (nat * child_result (D := D));
  do_reset : option tcp_reply;
  do_synack : option sk_buff;
  do_actions : list req_action;
  do_saved : option D
}.
Arguments mk_do {D}. Arguments do_full {D}. Arguments do_child {D}. Arguments do_reset {D}. Arguments do_synack {D}. Arguments do_actions {D}. Arguments do_saved {D}.

Section DoRcv.
Context {K : Kernel} {W : TimeWait K} {C : Crypto} {R : ReplyEnv} {I : IcmpEnv} {H : HashEnv} {D : Type} {O : DstOps D} {E : ListenEnv D}.
Context (sk_dst_get : sock -> option D).
Implicit Types (f : full_sock) (p : packet) (h : inet_hashinfo).

Definition reset_of f p : option tcp_reply := tcp_v4_send_reset (Some (fs_md5 f, transparent f)) p.
Definition discard_seg f : do_out D := mk_do f None None None [] None.
(** tcp_rcv_state_process calls conn_request for a SYN in LISTEN; what that does to the queue of the
    socket is tcp_v4_conn_request. *)
Definition wants_request f p : bool :=
  let th := skb_th (pk_skb p) in st_eqb (sk_state (fs_sk f)) TCP_LISTEN && negb (th_ack th) && negb (th_rst th) && th_syn th.
Definition do_state (c : ct_values) (hvp : option Z) f p (acts : list req_action) : option (do_out D) :=
  let '(f, synack) := if wants_request f p then tcp_v4_conn_request c hvp f p else (f, None) in
  match tcp_rcv_state_process sk_dst_get (fs_sk f) (pk_skb p) with
  | None => None
  | Some r =>
    let f := f <| fs_sk := rr_sk r |> in
    Some (mk_do f None (if negb (rr_ret r =? 0) then reset_of f p else None) synack acts (rr_saved r))
  end.
(** The segment for the child [n]; its lock is held by nobody else when it is new. *)
Definition do_child_seg f (n : nat) (ch : full_sock) p (acts : list req_action) : option (do_out D) :=
  match tcp_child_process sk_dst_get (fs_sk ch) (pk_skb p) with
  | None => None
  | Some res =>
    let ret := match res with ChildDone r _ => rr_ret r | ChildBacklog _ => 0 end in
    let ch := match res with ChildDone r _ => ch <| fs_sk := rr_sk r |> | ChildBacklog _ => ch end in
    Some (mk_do f (Some (n, res)) (if negb (ret =? 0) then reset_of ch p else None) None acts None)
  end.
(** [srs] is syn_recv_sock, [child_at] the socket that it made or that the tables have. *)
Definition tcp_v4_do_rcv (srs : sock -> sk_buff -> request_sock -> option nat) (g : tcp_options_received) (c : ct_values) (hvp : option Z) h (child_at : nat -> option full_sock) f p : option (do_out D) :=
  let skb := pk_skb p in
  if tcp_v4_inbound_md5_hash (fs_md5 f) skb (ip_saddr (pk_iph p)) (ip_daddr (pk_iph p)) then Some (discard_seg f)
  else if st_eqb (sk_state (fs_sk f)) TCP_ESTABLISHED then
    match tcp_rcv_established (fs_sk f) skb (len skb) with
    | None => None
    | Some (ret, sk) => let f := f <| fs_sk := sk |> in Some (mk_do f None (if negb (ret =? 0) then reset_of f p else None) None [] None)
    end
  else if (len skb <? th_doff (skb_th skb) * 4) || tcp_checksum_complete skb then Some (discard_seg f)
  else if st_eqb (sk_state (fs_sk f)) TCP_LISTEN then
    let r := tcp_v4_hnd_req srs g h f p in
    let f := f <| fs_queue := rr_queue r |> in
    match rr_verdict r with
    | RvNull => Some (mk_do f None None None (rr_actions r) None)
    | RvChild n => match child_at n with None => None | Some ch => do_child_seg f n ch p (rr_actions r) end
    | RvListener => do_state c hvp f p (rr_actions r)
    end
  else do_state c hvp f p [].

(** ** A listening socket is safe *)
Context {L : ListenLaws E} {SU : SetupLaws}.
(** The queue of a listening socket is consistent. *)
Definition queue_ok (q : listener) : Prop := exists l T A k, rep jhash_2words q l T A /\ table_ok l k.
(** The number of buckets and the limit stay what they are. *)
Definition lopt_shape (q : listener) := (fun l => (max_qlen_log l, nr_table_entries l)) <$> listen_opt q.
Lemma shape_upd_lopt q g : (forall l, (max_qlen_log (g l), nr_table_entries (g l)) = (max_qlen_log l, nr_table_entries l)) -> lopt_shape (upd_lopt q g) = lopt_shape q.
Proof using Type. intros Hg. unfold lopt_shape, upd_lopt. cbn. destruct (listen_opt q) as [l|]; [|done]. cbn. by rewrite Hg. Qed.
Lemma shape_unlink q x prev : lopt_shape (reqsk_queue_unlink q x prev) = lopt_shape q.
Proof using Type. unfold reqsk_queue_unlink, write_prev. destruct prev; [by apply shape_upd_lopt|done]. Qed.
Lemma shape_removed q x : lopt_shape (snd (reqsk_queue_removed q x)) = lopt_shape q.
Proof using Type. unfold reqsk_queue_removed. cbn zeta. cbn [snd]. rewrite shape_upd_lopt by done. case_if_as Hy; [by apply shape_upd_lopt|done]. Qed.
Lemma shape_drop q x prev : lopt_shape (snd (inet_csk_reqsk_queue_drop q x prev)) = lopt_shape q.
Proof using Type. unfold inet_csk_reqsk_queue_drop. pose proof (shape_removed (reqsk_queue_unlink q x prev) x) as Hr. destruct (reqsk_queue_removed _ x) as [n q1]. cbn [snd] in *. rewrite shape_unlink in Hr. exact Hr. Qed.
Lemma shape_moved q x prev child : lopt_shape (reqsk_queue_add (snd (reqsk_queue_removed (reqsk_queue_unlink q x prev) x)) x child) = lopt_shape q.
Proof using Type.
  rewrite <- (shape_unlink q x prev), <- (shape_removed (reqsk_queue_unlink q x prev) x). set (q1 := snd _). clearbody q1. unfold reqsk_queue_add, upd_req, sk_acceptq_added. cbn zeta. by repeat case_match.
Qed.
Lemma shape_check_req srs g sk skb q x prev : lopt_shape (rr_queue (tcp_check_req srs g sk skb q x prev)) = lopt_shape q.
Proof using Type.
  unfold tcp_check_req. destruct (reqs q !! x) as [r|]; [|done]. destruct (req_parse g skb r) as [o pr]. cbn zeta. case_if_as H1; [done|]. case_if_as H2; [done|]. case_if_as H3; [done|]. set (q1 := if saw_tstamp o && negb (after _ _) then _ else q). assert (E1 : lopt_shape q1 = lopt_shape q) by (unfold q1; by case_if_as Hq). clearbody q1. case_if_as H4; [cbn [rr_queue]; by rewrite shape_drop|]. case_if_as H5; [done|]. case_if_as H6; [exact E1|].
  match goal with |- context [srs sk skb (default r (reqs ?u !! x))] => set (q2 := u) end. assert (E2 : lopt_shape q2 = lopt_shape q) by (unfold q2; cases_if; exact E1). clearbody q2. destruct (srs sk skb _) as [child|].
  - pose proof (shape_moved q2 x prev child) as Hm. destruct (reqsk_queue_removed (reqsk_queue_unlink q2 x prev) x) as [n q3]. cbn [snd] in Hm. cbn [rr_queue]. by rewrite Hm.
  - case_if_as H7; [exact E2|]. cbn [rr_queue]. by rewrite shape_drop.
Qed.
Lemma shape_table q q' l l' k : lopt_shape q' = lopt_shape q -> listen_opt q = Some l -> listen_opt q' = Some l' -> table_ok l k -> table_ok l' k.
Proof using Type. unfold lopt_shape. intros Hs E1 E2. rewrite E1, E2 in Hs. cbn in Hs. injection Hs as M1 M2. intros (T1 & T2 & T3). split_and!; [lia..|by rewrite M2|by rewrite M1]. Qed.
Lemma check_req_queue srs g sk skb q rport raddr laddr x prev : queue_ok q -> inet_csk_search_req jhash_2words q rport raddr laddr = Some (x, prev) -> queue_ok (rr_queue (tcp_check_req srs g sk skb q x prev)).
Proof using Type.
  intros (l & T & A & k & Hr & Ht) Hs. pose proof (synq_search_complete jhash_2words q l T A rport raddr laddr k Hr Ht) as Hc. rewrite Hs in Hc. destruct Hc as (i & l1 & l2 & Hi & -> & _). destruct (rep_bucket_req _ _ _ _ _ _ x Hr Hi) as [rq Hx]; [apply elem_of_app; right; by left|].
  destruct (check_req_spec srs g sk skb q l T A i l1 l2 x rq Hr Hi Hx) as [(l' & T' & A' & Hr' & _) _]. exists l', T', A', k. split; [done|]. eapply shape_table; [apply shape_check_req|apply Hr|apply Hr'|done].
Qed.

Lemma conn_request_queue c hvp f p : queue_ok (fs_queue f) -> let f' := fst (tcp_v4_conn_request c hvp f p) in fs_sk f' = fs_sk f /\ queue_ok (fs_queue f').
Proof using L.
  intros (l & T & A & k & Hr & Ht). pose proof (conn_request_spec c hvp f p l T A k Hr Ht) as Hc. cbn zeta. destruct (tcp_v4_conn_request c hvp f p) as [f' sent]. cbn [fst]. destruct Hc as [[->|(skb & x & _ & [_ _ (i & b & l' & _ & S1 & S2 & _) (S3 & _)])] _]; [split; [done|by exists l, T, A, k]|]. split; [done|]. by exists l', (<[i := x :: b]> T), A, k.
Qed.
Lemma listen_process sk skb : sk_state sk = TCP_LISTEN -> exists r, tcp_rcv_state_process sk_dst_get sk skb = Some r /\ quiet sk (rr_sk r).
Proof using SU.
  intros Hs. unfold tcp_rcv_state_process. cbn zeta. set (sk1 := sk <| tp; rx_opt; saw_tstamp := false |>). assert (E1 : sk_state sk1 = TCP_LISTEN) by done. rewrite E1. assert (Hq : quiet sk sk1) by (by split). case_if_as H1; [by eexists|]. case_if_as H2; [by eexists|]. case_if_as H3; [|by eexists]. pose proof (ul_conn_request sk1 skb) as Hc. destruct (conn_request sk1 skb) as [r sk2]. eexists. split; [reflexivity|]. change (quiet sk sk2). exact (along_step rcv_kept (T := tquiet) sk sk1 sk2 Hq Hc).
Qed.
Lemma reset_of_ok f p r : reset_of f p = Some r -> th_rst (skb_th (pk_skb p)) = false.
Proof using Type. unfold reset_of, tcp_v4_send_reset. by destruct (th_rst (skb_th (pk_skb p))). Qed.
Lemma do_state_listen c hvp f p acts : sk_state (fs_sk f) = TCP_LISTEN -> queue_ok (fs_queue f) ->
  exists o, do_state c hvp f p acts = Some o /\ quiet (fs_sk f) (fs_sk (do_full o)) /\ queue_ok (fs_queue (do_full o)) /\ do_child o = None /\ (forall r, do_reset o = Some r -> th_rst (skb_th (pk_skb p)) = false).
Proof using L SU.
  intros Hs Hq. unfold do_state. destruct (if wants_request f p then tcp_v4_conn_request c hvp f p else (f, None)) as [f1 sent] eqn:E1. assert (Hf : fs_sk f1 = fs_sk f /\ queue_ok (fs_queue f1)) by (pose proof (conn_request_queue c hvp f p Hq) as Hc; destruct (wants_request f p); [cbn zeta in Hc; rewrite E1 in Hc; exact Hc|injection E1 as <- _; done]). destruct Hf as [Hf1 Hf2].
  destruct (listen_process (fs_sk f1) (pk_skb p)) as (r & Er & Hk); [by rewrite Hf1|]. rewrite Er. eexists. split; [reflexivity|]. cbn [do_full do_child do_reset]. split_and!; [change (quiet (fs_sk f) (rr_sk r)); by rewrite <- Hf1|exact Hf2|done|]. intros r0. case_if_as Hz; [apply reset_of_ok|done].
Qed.
Lemma hnd_req_queue srs g h f p : (forall f p, queue_ok (fs_queue f) -> queue_ok (snd (cookie_v4_check f p))) -> queue_ok (fs_queue f) -> queue_ok (rr_queue (tcp_v4_hnd_req srs g h f p)).
Proof using Type.
  intros Hc Hq. unfold tcp_v4_hnd_req. cbn zeta. destruct (inet_csk_search_req _ _ _ _ _) as [[x prev]|] eqn:Es; [by eapply check_req_queue|]. destruct (inet_lookup_established_ _ _ _ _ _ _ _); [done|]. case_if_as Hy; [|done]. pose proof (Hc f p Hq) as H1. destruct (cookie_v4_check f p). exact H1.
Qed.
End DoRcv.

Module Demo.
#[local] Existing Instance linux.
#[local] Existing Instance Md5.Demo.toy.
#[local] Existing Instance Reply.Demo.env.
#[local] Existing Instance Icmp.Demo.env.
#[local] Existing Instance Hashtables.Demo.env.
#[local] Existing Instance Hashtables.Demo.laws.
#[local] Existing Instance Rtt.Demo.dst_ops.
#[local] Existing Instance DataQueue.Demo.tw.
#[local] Existing Instance Listen.Demo.host.
#[local] Existing Instance Input.Demo.linux_setup.
#[local] Instance plain : RcvEnv := {|
  pkt_host _ := true; pskb_may_pull p n := n <=? len (pk_skb p);
  tcp_v4_check _ _ _ _ := 0; csum_tcpudp_nofold _ _ _ _ _ := 0; skb_checksum_complete_ _ _ := false;
  skb_steal_sock _ := None; xfrm4_policy_check _ _ := true; sk_filter _ p := Some p; tcp_prequeue _ _ := None;
|}.
Notation tables := Hashtables.Demo.host.
(** The server, a connection and a TIME-WAIT bucket of [Hashtables.Demo]. *)
Definition hs := mk_host tables {[0%nat := Listen.Demo.listening; 1%nat := Icmp.Demo.conn]} {[3%nat := mk_tw_entry Reply.Demo.tw (mk_tw_reply 0 None false 0) None]}.
Definition seg (skb : sk_buff) (sport dport : Z) := mk_packet skb (mk_iphdr Hashtables.Demo.there Hashtables.Demo.here 64 0) sport dport Hashtables.Demo.net 2 true.
Definition text := seg (blank_skb <| skb_th; th_ack := true |> <| skb_th; th_doff := 5 |> <| len := 120 |>) 5000 (htons 80).
Definition csum := mk_csum CHECKSUM_NONE 0.
Lemma hs_ok : host_ok hs.
Proof.
  split; [exact Hashtables.Demo.host_hash_inv|intros i Hi; by apply Hashtables.Demo.host_hashed in Hi as ->|intros i Hi; by apply Hashtables.Demo.host_tw in Hi as ->|intros i Hi; by apply Hashtables.Demo.host_listening in Hi as -> |intros i [Hi|Hi]; [apply Hashtables.Demo.host_hashed in Hi as ->|apply Hashtables.Demo.host_listening in Hi as ->]; by eexists|intros i Hi; apply Hashtables.Demo.host_tw in Hi as ->; by eexists].
Qed.
(** The segment of the connection, one for a port that nobody listens on, and the SYN that reopens
    the connection in TIME-WAIT: it goes to the listening socket of its port, or is acknowledged. *)
Example text_to : (fun o => fst <$> (fst <$> ro_to o)) <$> tcp_v4_rcv 2 blank_opt csum 0 hs text = Some (Some 1%nat).
Proof. vm_compute. reflexivity. Qed.
Example stray_reset : (fun o => (th_rst ∘ rp_th <$> ro_reply o, fst <$> (fst <$> ro_to o))) <$> tcp_v4_rcv 2 blank_opt csum 0 hs (seg (pk_skb text) 5000 (htons 81)) = Some (Some true, None).
Proof. vm_compute. reflexivity. Qed.
Lemma conn_known : ~ conn_free tables (stamped 0 text).
Proof.
  intros Hn. apply (Hn 1%nat); [|eexists; split; vm_compute; reflexivity]. pose proof (lookup_established_spec tables Hashtables.Demo.net Hashtables.Demo.there 5000 Hashtables.Demo.here 80 2 Hashtables.Demo.host_hash_inv ltac:(vm_compute; intuition discriminate) ltac:(vm_compute; intuition discriminate)) as H. cbn zeta in H. replace (inet_lookup_established_ _ _ _ _ _ _ _) with (Some 1%nat) in H by (vm_compute; reflexivity). destruct H as [_ [H|[H _]]]; [exact H|by apply Hashtables.Demo.host_tw in H].
Qed.
Lemma rcv_demux_ok_witness : exists o, tcp_v4_rcv 2 blank_opt csum 0 hs text = Some o /\ routed blank_opt csum 0 hs text o /\ ro_to o = Some (1%nat, stamped 0 text, ToSocket).
Proof.
  destruct (rcv_demux_ok blank_opt csum 0 hs text) as (o & E & Hr); [exact hs_ok|vm_compute; intuition discriminate|vm_compute; intuition discriminate|reflexivity|]. exists o. split; [exact E|]. split; [exact Hr|]. destruct Hr as [_ Hd]. change (whole csum text) with true in Hd. destruct (dl_conn _ _ _ _ Hd conn_known) as (i & f & Hi & _ & Hf & [Hto _] & _). apply Hashtables.Demo.host_hashed in Hi as ->. injection Hf as <-. apply (Hto (stamped 0 text)). split; [vm_compute; discriminate|split; reflexivity].
Defined.
Lemma queue0 : queue_ok (fs_queue Listen.Demo.listening).
Proof. exists ReqQueue.Demo.l0, ReqQueue.Demo.T0, [], 4. split; [exact ReqQueue.Demo.q0_rep|exact ReqQueue.Demo.table0]. Qed.
End Demo.
