(* ===== verification/Proc.v ===== *)
(** * Listing the sockets: /proc/net/tcp

    net/ipv4/tcp_ipv4.c: the iterator behind /proc/net/tcp.  It walks the chains of listening sockets
    with their half-open connections, and then the chains of connections and of TIME-WAIT sockets;
    between two read() calls it keeps a bucket and an offset in it, and seeks to that place again.
    The theorems: it lists every socket exactly once, under the right number, and continues where
    it stopped.

    Locks are left out: the tables do not change while the iterator looks at them.  The walks are
    those of the code, along the chains of the tables and the links of the requests; a bound on the
    number of steps stands for the loops of the code that end when a socket is found. *)

From stdpp Require Import gmap.
From S2P Require Import Prelude TcpTypes Kernel ReqQueue Hashtables.

Inductive seq_state := TCP_SEQ_STATE_LISTENING | TCP_SEQ_STATE_OPENREQ | TCP_SEQ_STATE_ESTABLISHED | TCP_SEQ_STATE_TIME_WAIT.
(** struct tcp_iter_state (net/tcp.h), but for the user that is printed. *)
#[projections(primitive)]
Record tcp_iter_state := mk_iter {
  it_state : seq_state;
  syn_wait_sk : nat;
  it_bucket : nat;
  it_offset : nat;
  it_sbucket : nat;
  it_num : nat;
  last_pos : nat
}.
Definition eta_tcp_iter_state (r : tcp_iter_state) : tcp_iter_state := mk_iter (it_state r) (syn_wait_sk r) (it_bucket r) (it_offset r) (it_sbucket r) (it_num r) (last_pos r).
#[export] Instance set_it_state : Setter it_state. Proof. solve_setter eta_tcp_iter_state. Defined.
#[export] Instance set_syn_wait_sk : Setter syn_wait_sk. Proof. solve_setter eta_tcp_iter_state. Defined.
#[export] Instance set_it_bucket : Setter it_bucket. Proof. solve_setter eta_tcp_iter_state. Defined.
#[export] Instance set_it_offset : Setter it_offset. Proof. solve_setter eta_tcp_iter_state. Defined.
#[export] Instance set_it_sbucket : Setter it_sbucket. Proof. solve_setter eta_tcp_iter_state. Defined.
#[export] Instance set_it_num : Setter it_num. Proof. solve_setter eta_tcp_iter_state. Defined.
#[export] Instance set_last_pos : Setter last_pos. Proof. solve_setter eta_tcp_iter_state. Defined.
(** What the iterator points to: a socket, a request or a TIME-WAIT socket. *)
Inductive entry := ESk (i : nat) | ERq (x : nat) | ETw (t : nat).
Inductive seq_v := SEQ_START_TOKEN | Entry (e : entry).

(** The tables, the queues of the listening sockets, and the network and family that are listed. *)
Record view := mk_view { vw_tables : inet_hashinfo; vw_queue : nat -> option listener; vw_net : Z; vw_family : Z; rsk_family : request_sock -> Z }.

Section Walk.
Context (v : view).
Implicit Types (st : tcp_iter_state) (i x : nat) (l : list nat).
Notation h := (vw_tables v).

(** What follows [i] on a chain: sk_nulls_next, tw_next *)
Fixpoint chain_after l i : list nat :=
  match l with
  | [] => []
  | j :: l => if Nat.eqb j i then l else chain_after l i
  end.
Definition lchain (b : nat) : list nat := default [] (listening_hash h !! b).
Definition echain (b : nat) : inet_ehash_bucket := default (mk_ehash_bucket [] []) (ehash h !! b).
Definition in_net i : bool := on_sock h i (fun s => sk_net s =? vw_net v).
Definition in_family i : bool := on_sock h i (fun s => sk_family s =? vw_family v).

(** ** Requests *)
(** The inner loop over the links of a bucket. *)
Fixpoint scan_req (n : nat) (q : listener) (req : option nat) : option nat :=
  match n, req with
  | S n, Some x =>
    match reqs q !! x with
    | Some r => if rsk_family v r =? vw_family v then Some x else scan_req n q (dl_next r)
    | None => None
    end
  | _, _ => None
  end.
(** The outer loop, from the request [req] of the bucket [sb] on: the bucket and the request. *)
Fixpoint scan_table (n : nat) (q : listener) (lo : listen_sock) (req : option nat) (sb : nat) : nat * option nat :=
  match n with
  | O => (sb, None)
  | S n =>
    match scan_req (S (size (reqs q))) q req with
    | Some x => (sb, Some x)
    | None =>
      let sb := S sb in
      if Nat.leb (nr_table_entries lo) sb then (sb, None) else scan_table n q lo (default None (syn_table lo !! sb)) sb
    end
  end.
Definition scan_from st (q : listener) (req : option nat) : tcp_iter_state * option entry :=
  match listen_opt q with
  | None => (st, None)
  | Some lo => let '(sb, x) := scan_table (nr_table_entries lo) q lo req (it_sbucket st) in (st <| it_sbucket := sb |>, ERq <$> x)
  end.
Definition req_len i : Z := match vw_queue v i with Some q => reqsk_queue_len q | None => 0 end.
(** The label start_req *)
Definition start_req st i : tcp_iter_state * option entry :=
  let st := st <| syn_wait_sk := i |> <| it_state := TCP_SEQ_STATE_OPENREQ |> <| it_sbucket := 0%nat |> in
  match vw_queue v i with
  | None => (st, None)
  | Some q => scan_from st q (lo ← listen_opt q; default None (syn_table lo !! 0%nat))
  end.

(** ** Listening sockets *)
(** The label get_sk, for the rest of a chain *)
Fixpoint get_sk l st : tcp_iter_state * option entry :=
  match l with
  | [] => (st, None)
  | i :: l =>
    if negb (in_net i) then get_sk l st
    else if in_family i then (st, Some (ESk i))
    else if negb (req_len i =? 0) then
      let '(st, e) := start_req st i in
      match e with Some e => (st, Some e) | None => get_sk l (st <| it_state := TCP_SEQ_STATE_LISTENING |>) end
    else get_sk l st
  end.
(** ... and the buckets that follow *)
Fixpoint get_buckets (n : nat) l st : tcp_iter_state * option entry :=
  match get_sk l st with
  | (st, Some e) => (st, Some e)
  | (st, None) =>
    let st := st <| it_offset := 0%nat |> <| it_bucket := S (it_bucket st) |> in
    match n with
    | O => (st, None)
    | S n => if Nat.ltb (it_bucket st) (Z.to_nat INET_LHTABLE_SIZE) then get_buckets n (lchain (it_bucket st)) st else (st, None)
    end
  end.
Notation LH := (Z.to_nat INET_LHTABLE_SIZE).
Definition listening_get_next st (cur : option entry) : tcp_iter_state * option entry :=
  match cur with
  | None => get_buckets LH (lchain (it_bucket st)) (st <| it_offset := 0%nat |>)
  | Some e =>
    let st := st <| it_num := S (it_num st) |> <| it_offset := S (it_offset st) |> in
    let chain := lchain (it_bucket st) in
    let after st i := get_buckets LH (chain_after chain i) (st <| it_state := TCP_SEQ_STATE_LISTENING |>) in
    match it_state st, e with
    | TCP_SEQ_STATE_OPENREQ, ERq x =>
      match vw_queue v (syn_wait_sk st) with
      | None => (st, None)
      | Some q =>
        let '(st, e) := scan_from st q (r ← reqs q !! x; dl_next r) in
        match e with Some e => (st, Some e) | None => after st (syn_wait_sk st) end
      end
    | _, ESk i =>
      if negb (req_len i =? 0) then
        let '(st, e) := start_req st i in
        match e with Some e => (st, Some e) | None => after st i end
      else get_buckets LH (chain_after chain i) st
    | _, _ => (st, None)
    end
  end.
(** The loop of listening_get_idx, with the position that is left. *)
Fixpoint listening_skip (pos : nat) st (rc : option entry) : tcp_iter_state * option entry * nat :=
  match rc, pos with
  | Some e, S pos => let '(st, rc) := listening_get_next st (Some e) in listening_skip pos st rc
  | _, _ => (st, rc, pos)
  end.
Definition listening_get_idx st (pos : nat) : tcp_iter_state * option entry * nat :=
  let st := st <| it_bucket := 0%nat |> <| it_offset := 0%nat |> in
  let '(st, rc) := listening_get_next st None in listening_skip pos st rc.

(** ** Connections *)
Definition shown i : bool := in_family i && in_net i.
Definition empty_bucket (b : nat) : bool := match chain (echain b), twchain (echain b) with [], [] => true | _, _ => false end.
Definition EH : nat := S (Z.to_nat (ehash_mask h)).
(** The loop of established_get_first *)
Fixpoint first_buckets (n : nat) st : tcp_iter_state * option entry :=
  match n with
  | O => (st, None)
  | S n =>
    if Nat.leb EH (it_bucket st) then (st, None)
    else
      let next st := first_buckets n (st <| it_bucket := S (it_bucket st) |>) in
      if empty_bucket (it_bucket st) then next st
      else match List.find shown (chain (echain (it_bucket st))) with
           | Some i => (st, Some (ESk i))
           | None =>
             let st := st <| it_state := TCP_SEQ_STATE_TIME_WAIT |> in
             match List.find shown (twchain (echain (it_bucket st))) with
             | Some t => (st, Some (ETw t))
             | None => next (st <| it_state := TCP_SEQ_STATE_ESTABLISHED |>)
             end
           end
  end.
Definition established_get_first st : tcp_iter_state * option entry := first_buckets (S EH) (st <| it_offset := 0%nat |>).
(** The next bucket that is not empty *)
Fixpoint skip_empty_buckets (n b : nat) : nat :=
  match n with
  | O => b
  | S n => if Nat.ltb b EH && empty_bucket b then skip_empty_buckets n (S b) else b
  end.
(** From sk_nulls_for_each_from on, for the rest [l] of a chain *)
Fixpoint next_from (n : nat) l st : tcp_iter_state * option entry :=
  match List.find shown l with
  | Some i => (st, Some (ESk i))
  | None =>
    let st := st <| it_state := TCP_SEQ_STATE_TIME_WAIT |> in
    match n with O => (st, None) | S n => next_tw n (twchain (echain (it_bucket st))) st end
  end
(** The label get_tw *)
with next_tw (n : nat) l st : tcp_iter_state * option entry :=
  match List.find shown l with
  | Some t => (st, Some (ETw t))
  | None =>
    let st := st <| it_state := TCP_SEQ_STATE_ESTABLISHED |> <| it_offset := 0%nat |> <| it_bucket := skip_empty_buckets EH (S (it_bucket st)) |> in
    if Nat.leb EH (it_bucket st) then (st, None)
    else match n with O => (st, None) | S n => next_from n (chain (echain (it_bucket st))) st end
  end.
Definition established_get_next st (cur : entry) : tcp_iter_state * option entry :=
  let st := st <| it_num := S (it_num st) |> <| it_offset := S (it_offset st) |> in
  match it_state st, cur with
  | TCP_SEQ_STATE_TIME_WAIT, ETw t => next_tw (2 * EH) (chain_after (twchain (echain (it_bucket st))) t) st
  | _, ESk i => next_from (2 * EH) (chain_after (chain (echain (it_bucket st))) i) st
  | _, _ => (st, None)
  end.
Fixpoint established_skip (pos : nat) st (rc : option entry) : tcp_iter_state * option entry :=
  match rc, pos with
  | Some e, S pos => let '(st, rc) := established_get_next st e in established_skip pos st rc
  | _, _ => (st, rc)
  end.
Definition established_get_idx st (pos : nat) : tcp_iter_state * option entry :=
  let '(st, rc) := established_get_first (st <| it_bucket := 0%nat |>) in established_skip pos st rc.

(** ** The whole list *)
Definition tcp_get_idx st (pos : nat) : tcp_iter_state * option entry :=
  let '(st, rc, pos) := listening_get_idx (st <| it_state := TCP_SEQ_STATE_LISTENING |>) pos in
  match rc with
  | Some e => (st, Some e)
  | None => established_get_idx (st <| it_state := TCP_SEQ_STATE_ESTABLISHED |>) pos
  end.
(** The case of connections; [None] is the offset -1, and the loop ends with the list then. *)
Definition ehash_count : nat := sum_list_with (fun hd => length (chain hd) + length (twchain hd))%nat (ehash h).
Definition seek_established st (offset : option nat) : tcp_iter_state * option entry :=
  let st := st <| it_state := TCP_SEQ_STATE_ESTABLISHED |> in
  if Nat.leb EH (it_bucket st) then (st, None)
  else let '(st, rc) := established_get_first st in
       established_skip (match offset with Some n => n | None => ehash_count end) st rc.
Definition seek_listening st (offset : nat) : tcp_iter_state * option entry :=
  if Nat.leb LH (it_bucket st) then (st, None)
  else
    let '(st, rc) := listening_get_next (st <| it_state := TCP_SEQ_STATE_LISTENING |>) None in
    let '(st, rc, more) := listening_skip offset st rc in
    match rc with
    | Some e => (st, Some e)
    | None => seek_established (st <| it_bucket := 0%nat |>) (match more with O => None | S n => Some n end)
    end.
Definition tcp_seek_last_pos st : tcp_iter_state * option entry :=
  let '(st', rc) := match it_state st with
                    | TCP_SEQ_STATE_OPENREQ | TCP_SEQ_STATE_LISTENING => seek_listening st (it_offset st)
                    | _ => seek_established st (Some (it_offset st))
                    end in
  (st' <| it_num := it_num st |>, rc).
Definition tcp_seq_start st (pos : nat) : tcp_iter_state * option seq_v :=
  let again := if negb (Nat.eqb pos 0) && Nat.eqb pos (last_pos st) then tcp_seek_last_pos st else (st, None) in
  let '(st, rc) :=
    match again with
    | (st, Some e) => (st, Some (Entry e))
    | (st, None) =>
      let st := st <| it_state := TCP_SEQ_STATE_LISTENING |> <| it_num := 0%nat |> <| it_bucket := 0%nat |> <| it_offset := 0%nat |> in
      match pos with O => (st, Some SEQ_START_TOKEN) | S p => let '(st, rc) := tcp_get_idx st p in (st, Entry <$> rc) end
    end in
  (st <| last_pos := pos |>, rc).
(** The result, and the position after it *)
Definition tcp_seq_next st (cur : seq_v) (pos : nat) : tcp_iter_state * option seq_v * nat :=
  let '(st, rc) :=
    match cur with
    | SEQ_START_TOKEN => tcp_get_idx st 0
    | Entry e =>
      match it_state st with
      | TCP_SEQ_STATE_OPENREQ | TCP_SEQ_STATE_LISTENING =>
        match listening_get_next st (Some e) with
        | (st, Some e) => (st, Some e)
        | (st, None) => established_get_first (st <| it_state := TCP_SEQ_STATE_ESTABLISHED |> <| it_bucket := 0%nat |> <| it_offset := 0%nat |>)
        end
      | _ => established_get_next st e
      end
    end in
  (st <| last_pos := S pos |>, Entry <$> rc, S pos).
(** tcp_seq_open: the private state starts as zeros *)
Definition tcp_seq_open : tcp_iter_state := mk_iter TCP_SEQ_STATE_LISTENING 0 0 0 0 0 0.
(** What tcp4_seq_show prints: the heading, or a line with its number for an object of one of the
    three types.  [None] is a pointer to an object read as one of another type. *)
Inductive seq_line := Heading | Tcp4_sock (num i : nat) | Openreq4 (num sk x : nat) | Timewait4 (num t : nat).
Definition tcp4_seq_show st (cur : seq_v) : option seq_line :=
  match cur with
  | SEQ_START_TOKEN => Some Heading
  | Entry e =>
    match it_state st, e with
    | (TCP_SEQ_STATE_LISTENING | TCP_SEQ_STATE_ESTABLISHED), ESk i => Some (Tcp4_sock (it_num st) i)
    | TCP_SEQ_STATE_OPENREQ, ERq x => Some (Openreq4 (it_num st) (syn_wait_sk st) x)
    | TCP_SEQ_STATE_TIME_WAIT, ETw t => Some (Timewait4 (it_num st) t)
    | _, _ => None
    end
  end.
(** The calls a reader makes: start at any position, and next while there is an entry. *)
Inductive seq_op := Op_start (pos : nat) | Op_next.
Definition seq_step (s : tcp_iter_state * option seq_v * nat) (o : seq_op) : tcp_iter_state * option seq_v * nat :=
  match o, s with
  | Op_start pos, (st, _, _) => let '(st, rc) := tcp_seq_start st pos in (st, rc, pos)
  | Op_next, (st, Some cur, pos) => tcp_seq_next st cur pos
  | Op_next, _ => s
  end.
Definition seq_run (pos : nat) (ops : list seq_op) : tcp_iter_state * option seq_v * nat := fold_left seq_step ops (seq_step (tcp_seq_open, None, 0%nat) (Op_start pos)).
(** Reading on from [cur] to the end. *)
Fixpoint seq_listing (n : nat) st (cur : seq_v) (pos : nat) : list (option seq_line) :=
  match n with
  | O => []
  | S n =>
    let '(st, rc, pos) := tcp_seq_next st cur pos in
    match rc with Some cur => tcp4_seq_show st cur :: seq_listing n st cur pos | None => [] end
  end.
End Walk.

(** ** The list of all sockets *)
Section Listing.
Context (v : view) (tbl : nat -> list (list nat)).
Implicit Types (st : tcp_iter_state) (i x : nat) (l : list nat).
Notation h := (vw_tables v).
Notation LH := (Z.to_nat INET_LHTABLE_SIZE).
Notation EH := (EH v).

(** A request that is listed, of the socket [i]. *)
Definition req_shown i x : bool := match vw_queue v i ≫= (fun q => reqs q !! x) with Some r => rsk_family v r =? vw_family v | None => false end.
Definition req_list i l : list entry := ERq <$> List.filter (req_shown i) l.
(** The entries of a listening socket: itself and the half-open connections of its table [tbl i]. *)
Definition sock_entries i : list entry := if in_net v i then (if in_family v i then [ESk i] else []) ++ req_list i (concat (tbl i)) else [].
Definition chain_entries l : list entry := l ≫= sock_entries.
(** The entries of a bucket of connections. *)
Definition bucket_entries (hd : inet_ehash_bucket) : list entry := (ESk <$> List.filter (shown v) (chain hd)) ++ (ETw <$> List.filter (shown v) (twchain hd)).
(** From bucket [b] on *)
Definition listening_from (b : nat) : list entry := drop b (listening_hash h) ≫= chain_entries.
Definition established_from (b : nat) : list entry := drop b (ehash h) ≫= bucket_entries.
Definition all_entries : list entry := listening_from 0 ++ established_from 0.

(** The tables hold still, and are in order: no socket is twice on a chain, and the table of each
    listening socket is [tbl]. *)
Record view_ok : Prop := {
  vo_lsize : length (listening_hash h) = LH;
  vo_esize : length (ehash h) = EH;
  vo_lnodup : forall b l, listening_hash h !! b = Some l -> NoDup l;
  vo_enodup : forall b hd, ehash h !! b = Some hd -> NoDup (chain hd) /\ NoDup (twchain hd);
  vo_queue : forall b l i, listening_hash h !! b = Some l -> i ∈ l -> exists q jh lo A, vw_queue v i = Some q /\ rep jh q lo (tbl i) A /\ (0 < nr_table_entries lo)%nat;
}.
Context (Hv : view_ok).

(** *** Chains *)
Lemma chain_after_app l1 i l2 : i ∉ l1 -> chain_after (l1 ++ i :: l2) i = l2.
Proof using Type. induction l1 as [|j l1 IH]; cbn; [by rewrite Nat.eqb_refl|]. intros Hn. apply not_elem_of_cons in Hn as [H1 H2]. destruct (Nat.eqb_spec j i); [congruence|by apply IH]. Qed.
Lemma find_shown (p : nat -> bool) l : match List.find p l with Some i => exists l1 l2, l = l1 ++ i :: l2 /\ List.filter p l = i :: List.filter p l2 /\ List.filter p l1 = [] /\ p i = true | None => List.filter p l = [] end.
Proof using Type.
  induction l as [|j l IH]; [done|]. cbn. destruct (p j) eqn:Ej; [by exists [], l|]. destruct (List.find p l) as [i|]; [|done]. destruct IH as (l1 & l2 & -> & E1 & E2 & E3). exists (j :: l1), l2. cbn. rewrite Ej. done.
Qed.

(** *** Requests *)
Lemma scan_req_find i q n p l : vw_queue v i = Some q -> ReqQueue.chain (nexts (reqs q)) p l -> (length l < n)%nat -> scan_req v n q p = List.find (req_shown i) l.
Proof using Type.
  intros Hq. revert n p. induction l as [|x l IH]; intros n p Hc Hn; [cbn in Hc; subst p; by destruct n|]. destruct Hc as (-> & p' & Hx & Hc). destruct n as [|n]; [cbn in Hn; lia|]. cbn [scan_req List.find]. unfold req_shown at 1. rewrite Hq. cbn. unfold nexts in Hx. destruct (reqs q !! x) as [r|]; [|done]. cbn in Hx. injection Hx as <-. case_match; [done|]. apply IH; [done|cbn in Hn; lia].
Qed.
Lemma req_list_app i l1 l2 : req_list i (l1 ++ l2) = req_list i l1 ++ req_list i l2.
Proof using Type. unfold req_list. by rewrite List.filter_app, fmap_app. Qed.
Lemma drop_bucket {B} (T : list (list B)) n b : T !! n = Some b -> concat (drop n T) = b ++ concat (drop (S n) T).
Proof using Type. intros Hn. by rewrite (drop_S T b n Hn). Qed.
(** The request [x] of bucket [sb], with the entries of the table that follow it. *)
Definition req_at i (sb x : nat) (R : list entry) : Prop := exists b1 b2, tbl i !! sb = Some (b1 ++ x :: b2) /\ R = req_list i (b2 ++ concat (drop (S sb) (tbl i))).
Lemma scan_table_ok i q jh lo A : vw_queue v i = Some q -> rep jh q lo (tbl i) A -> forall n sb p pre b, tbl i !! sb = Some (pre ++ b) -> ReqQueue.chain (nexts (reqs q)) p b -> (nr_table_entries lo <= sb + n)%nat ->
  match scan_table v n q lo p sb with
  | (sb', Some x) => exists R, req_at i sb' x R /\ req_list i (b ++ concat (drop (S sb) (tbl i))) = ERq x :: R
  | (_, None) => req_list i (b ++ concat (drop (S sb) (tbl i))) = []
  end.
Proof using Type.
  intros Hq Hr. induction n as [|n IH]; intros sb p pre b Hb Hc Hn; [apply lookup_lt_Some in Hb; rewrite (rep_nr _ _ _ _ _ Hr) in Hb; lia|]. cbn [scan_table]. pose proof (rep_fuel _ _ _ _ _ _ Hr Hb) as Hf. rewrite length_app in Hf. rewrite (scan_req_find i q _ p b Hq Hc) by lia. pose proof (find_shown (req_shown i) b) as Hs. destruct (List.find (req_shown i) b) as [x|].
  - destruct Hs as (l1 & l2 & -> & E1 & _). exists (req_list i (l2 ++ concat (drop (S sb) (tbl i)))). split; [exists (pre ++ l1), l2; split; [by rewrite Hb, <- app_assoc|done]|]. rewrite (req_list_app i (l1 ++ x :: l2)), (req_list_app i l2). unfold req_list at 1. by rewrite E1.
  - assert (E1 : req_list i b = []) by (unfold req_list; by rewrite Hs). rewrite req_list_app, E1. cbn [app]. destruct (Nat.leb_spec (nr_table_entries lo) (S sb)) as [Hle|Hlt]; [rewrite drop_ge by (rewrite (rep_nr _ _ _ _ _ Hr); lia); done|].
    destruct (lookup_lt_is_Some_2 (tbl i) (S sb)) as [b' Hb']; [by rewrite (rep_nr _ _ _ _ _ Hr)|]. destruct (shape_slot _ _ _ _ _ _ _ _ (rep_shape _ _ _ _ _ Hr) Hb') as (p' & Hp' & Hc'). rewrite Hp'. cbn [default from_option id]. rewrite (drop_bucket _ _ _ Hb'). apply (IH (S sb) p' []); [done..|lia].
Qed.

(** *** Listening sockets *)
Definition same_place st st' : Prop := (it_bucket st', it_offset st', it_num st', last_pos st') = (it_bucket st, it_offset st, it_num st, last_pos st).
Lemma queue_at b i : i ∈ lchain v b -> exists q jh lo A, vw_queue v i = Some q /\ rep jh q lo (tbl i) A /\ (0 < nr_table_entries lo)%nat.
Proof using Hv. unfold lchain. destruct (listening_hash h !! b) as [l|] eqn:El; [|by intros ?%elem_of_nil]. intros Hi. by apply (vo_queue Hv b l). Qed.
Lemma start_req_ok st b i : i ∈ lchain v b ->
  match start_req v st i with
  | (st', Some e) => exists x R, e = ERq x /\ it_state st' = TCP_SEQ_STATE_OPENREQ /\ syn_wait_sk st' = i /\ req_at i (it_sbucket st') x R /\ req_list i (concat (tbl i)) = ERq x :: R /\ same_place st st'
  | (st', None) => req_list i (concat (tbl i)) = [] /\ same_place st st'
  end.
Proof using Hv.
  intros Hi. destruct (queue_at b i Hi) as (q & jh & lo & A & Hq & Hr & Hn). unfold start_req, scan_from. cbn zeta. rewrite Hq, (rep_lopt _ _ _ _ _ Hr). destruct (lookup_lt_is_Some_2 (tbl i) 0%nat) as [b0 Hb0]; [by rewrite (rep_nr _ _ _ _ _ Hr)|]. destruct (shape_slot _ _ _ _ _ _ _ _ (rep_shape _ _ _ _ _ Hr) Hb0) as (p0 & Hp0 & Hc0).
  cbn [mbind option_bind]. rewrite Hp0. cbn [default from_option id it_sbucket set set_it_sbucket set_it_state set_syn_wait_sk]. pose proof (scan_table_ok i q jh lo A Hq Hr (nr_table_entries lo) 0%nat p0 [] b0 Hb0 Hc0 ltac:(lia)) as Hs. rewrite <- (drop_bucket _ _ _ Hb0), drop_0 in Hs. destruct (scan_table v _ q lo p0 0%nat) as [sb [x|]].
  - destruct Hs as (R & H1 & H2). cbn. by exists x, R.
  - by cbn.
Qed.
Lemma req_len_zero b i : i ∈ lchain v b -> req_len v i = 0 -> req_list i (concat (tbl i)) = [].
Proof using Hv.
  intros Hi. destruct (queue_at b i Hi) as (q & jh & lo & A & Hq & Hr & _). unfold req_len, reqsk_queue_len. rewrite Hq, (rep_lopt _ _ _ _ _ Hr), (rep_qlen _ _ _ _ _ Hr). intros Hz. destruct (concat (tbl i)); [done|cbn in Hz; lia].
Qed.
(** The iterator points to [e]; [R] is what follows on the same chain. *)
Definition lpos st e (R : list entry) : Prop :=
  match e with
  | ESk i => it_state st = TCP_SEQ_STATE_LISTENING /\ exists l1 l2, lchain v (it_bucket st) = l1 ++ i :: l2 /\ R = req_list i (concat (tbl i)) ++ chain_entries l2
  | ERq x => it_state st = TCP_SEQ_STATE_OPENREQ /\ exists l1 l2 R0, lchain v (it_bucket st) = l1 ++ syn_wait_sk st :: l2 /\ req_at (syn_wait_sk st) (it_sbucket st) x R0 /\ R = R0 ++ chain_entries l2
  | ETw _ => False
  end.
Lemma chain_entries_cons i l : chain_entries (i :: l) = sock_entries i ++ chain_entries l.
Proof using Type. done. Qed.
Lemma get_sk_ok l : forall pre st, lchain v (it_bucket st) = pre ++ l -> it_state st = TCP_SEQ_STATE_LISTENING ->
  match get_sk v l st with
  | (st', Some e) => same_place st st' /\ exists R, lpos st' e R /\ chain_entries l = e :: R
  | (st', None) => same_place st st' /\ it_state st' = TCP_SEQ_STATE_LISTENING /\ chain_entries l = []
  end.
Proof using Hv.
  induction l as [|i l IH]; intros pre st Hc Hs; [done|]. assert (Hc' : lchain v (it_bucket st) = (pre ++ [i]) ++ l) by (by rewrite <- app_assoc). assert (Hi : i ∈ lchain v (it_bucket st)) by (rewrite Hc; apply elem_of_app; right; by left). cbn [get_sk]. rewrite chain_entries_cons. unfold sock_entries. destruct (in_net v i); cbn [negb]; [|by apply (IH (pre ++ [i]))]. destruct (in_family v i).
  - split; [done|]. eexists. split; [|reflexivity]. split; [done|]. by exists pre, l.
  - cbn [app]. case_if_as Hz.
    + pose proof (start_req_ok st _ i Hi) as Hr. destruct (start_req v st i) as [st1 [e|]].
      * destruct Hr as (x & R & -> & H1 & H2 & H3 & H4 & H5). split; [done|]. rewrite H4. eexists. split; [|reflexivity]. split; [done|]. exists pre, l, R. rewrite H2. split_and!; [|done|done]. unfold same_place in H5. injection H5 as E1 _ _ _. by rewrite E1.
      * destruct Hr as [H1 H2]. rewrite H1. cbn [app]. pose proof (IH (pre ++ [i]) (st1 <| it_state := TCP_SEQ_STATE_LISTENING |>)) as Hl. assert (Hp : same_place st (st1 <| it_state := TCP_SEQ_STATE_LISTENING |>)) by exact H2. unfold same_place in Hp. injection Hp as E1 E2 E3 E4. change (it_bucket (st1 <| it_state := TCP_SEQ_STATE_LISTENING |>)) with (it_bucket st1) in Hl. rewrite E1 in Hl. specialize (Hl Hc' eq_refl). unfold same_place in *. destruct (get_sk v l (st1 <| it_state := TCP_SEQ_STATE_LISTENING |>)) as [st2 [e|]]; destruct Hl as [Hl1 Hl2]; (split; [rewrite Hl1; exact H2|done]).
    + apply negb_false_iff, Z.eqb_eq in Hz. rewrite (req_len_zero _ i Hi Hz). by apply (IH (pre ++ [i])).
Qed.
(** The entries of the bucket of [st], and of the buckets after it. *)
Definition lafter st : list entry := listening_from (S (it_bucket st)).
Lemma from_bucket b : (b < LH)%nat -> listening_from b = chain_entries (lchain v b) ++ listening_from (S b).
Proof using Hv. intros Hb. destruct (lookup_lt_is_Some_2 (listening_hash h) b) as [l Hl]; [by rewrite (vo_lsize Hv)|]. unfold listening_from, lchain. by rewrite (drop_S _ l b Hl), Hl. Qed.
Lemma from_end b : (LH <= b)%nat -> listening_from b = [].
Proof using Hv. intros Hb. unfold listening_from. by rewrite drop_ge by (rewrite (vo_lsize Hv); lia). Qed.
(** Where a walk ends that starts with the rest [l] of the chain of [st]. *)
Definition landed (l : list nat) st st' e (R : list entry) : Prop :=
  lpos st' e R /\ (it_bucket st' < LH)%nat /\ it_num st' = it_num st /\ last_pos st' = last_pos st /\ chain_entries l ++ lafter st = e :: R ++ lafter st' /\
  (it_bucket st' = it_bucket st /\ it_offset st' = it_offset st /\ chain_entries l = e :: R \/ it_offset st' = 0%nat /\ chain_entries l = [] /\ chain_entries (lchain v (it_bucket st')) = e :: R).
Lemma get_buckets_ok n : forall l pre st, lchain v (it_bucket st) = pre ++ l -> it_state st = TCP_SEQ_STATE_LISTENING -> (it_bucket st < LH)%nat -> (LH <= it_bucket st + n)%nat ->
  match get_buckets v n l st with
  | (st', Some e) => exists R, landed l st st' e R
  | (st', None) => chain_entries l ++ lafter st = [] /\ it_num st' = it_num st
  end.
Proof using Hv.
  induction n as [|n IH]; intros l pre st Hc Hs Hb Hn; [lia|]. cbn [get_buckets]. pose proof (get_sk_ok l pre st Hc Hs) as Hg. destruct (get_sk v l st) as [st1 [e|]].
  - destruct Hg as [Hp (R & H1 & H2)]. unfold same_place in Hp. injection Hp as E1 E2 E3 E4. exists R. split_and!; [done|by rewrite E1|done|done|unfold lafter; by rewrite E1, H2|left; done].
  - destruct Hg as (Hp & H1 & H2). unfold same_place in Hp. injection Hp as E1 E2 E3 E4. set (st2 := st1 <| it_offset := 0%nat |> <| it_bucket := S (it_bucket st1) |>). assert (Eb : it_bucket st2 = S (it_bucket st)) by (unfold st2; cbn; by rewrite E1). rewrite H2. cbn [app]. destruct (Nat.ltb_spec (it_bucket st2) LH) as [Hlt|Hge].
    + pose proof (IH (lchain v (it_bucket st2)) [] st2 eq_refl H1 Hlt ltac:(lia)) as Hg. destruct (get_buckets v n (lchain v (it_bucket st2)) st2) as [st3 [e|]].
      * destruct Hg as (R & G1 & G2 & G3 & G4 & G5 & G6). exists R. unfold landed. rewrite H2. cbn [app]. assert (El : lafter st = chain_entries (lchain v (it_bucket st2)) ++ lafter st2) by (unfold lafter; rewrite <- Eb; by apply from_bucket). split_and!; [done|done|by rewrite G3|by rewrite G4|by rewrite El|]. right. destruct G6 as [(F1 & F2 & F3)|(F1 & _ & F3)]; [rewrite F1, F2; done|done].
      * destruct Hg as [G1 G2]. split; [|by rewrite G2]. unfold lafter. rewrite <- Eb. by rewrite from_bucket.
    + split; [|done]. unfold lafter. apply from_end. lia.
Qed.
(** ... with its place in the bucket. *)
Definition linv st e (R : list entry) : Prop :=
  lpos st e R /\ (it_bucket st < LH)%nat /\ exists pre, chain_entries (lchain v (it_bucket st)) = pre ++ e :: R /\ length pre = it_offset st.
(** One step, from the rest [R] of the chain. *)
Definition lstep st (R : list entry) (r : tcp_iter_state * option entry) : Prop :=
  match r with
  | (st', Some e') => exists R', linv st' e' R' /\ it_num st' = S (it_num st) /\ last_pos st' = last_pos st /\ R ++ lafter st = e' :: R' ++ lafter st' /\ (R <> [] -> it_bucket st' = it_bucket st /\ it_offset st' = S (it_offset st))
  | (st', None) => R ++ lafter st = [] /\ it_num st' = S (it_num st)
  end.
Definition bumped st st' : Prop := (it_bucket st', it_offset st', it_num st', last_pos st') = (it_bucket st, S (it_offset st), S (it_num st), last_pos st).
Lemma bumped_same st st1 st2 : bumped st st1 -> same_place st1 st2 -> bumped st st2.
Proof using Type. unfold bumped, same_place. intros H1 H2. by rewrite H2. Qed.
Lemma step_after st st1 e R pre l2 n : bumped st st1 -> it_state st1 = TCP_SEQ_STATE_LISTENING -> (it_bucket st < LH)%nat -> (LH <= it_bucket st + n)%nat -> lchain v (it_bucket st) = pre ++ l2 -> R = chain_entries l2 ->
  (exists p0, chain_entries (lchain v (it_bucket st)) = p0 ++ e :: R /\ length p0 = it_offset st) -> lstep st R (get_buckets v n l2 st1).
Proof using Hv.
  intros Hb Hs Hlt Hn Hc -> (p0 & P1 & P2). unfold bumped in Hb. injection Hb as B1 B2 B3 B4. pose proof (get_buckets_ok n l2 pre st1) as Hg. rewrite B1 in Hg. specialize (Hg Hc Hs Hlt Hn). unfold lafter in Hg. rewrite B1 in Hg. fold (lafter st) in Hg. unfold lstep. destruct (get_buckets v n l2 st1) as [st2 [e'|]]; [|destruct Hg as [G1 G2]; split; [done|by rewrite G2]].
  destruct Hg as (R' & G1 & G2 & G3 & G4 & G5 & G6). unfold lafter in G5. rewrite B1 in G5. exists R'. split_and!; [|by rewrite G3|by rewrite G4|exact G5|].
  - split_and!; [done..|]. destruct G6 as [(F1 & F2 & F3)|(F1 & F2 & F3)]; [|exists []; by rewrite F3, F1]. exists (p0 ++ [e]). rewrite F1, F2, B1, B2, P1, F3, <- app_assoc. split; [done|]. rewrite length_app. cbn. lia.
  - intros Hne. destruct G6 as [(F1 & F2 & F3)|(F1 & F2 & F3)]; [|done]. by rewrite F1, F2, B1, B2.
Qed.
(** The next one is a request of the same socket. *)
Lemma step_req st st1 e x R0 l1 l2 : bumped st st1 -> it_state st1 = TCP_SEQ_STATE_OPENREQ -> (it_bucket st < LH)%nat -> lchain v (it_bucket st) = l1 ++ syn_wait_sk st1 :: l2 -> req_at (syn_wait_sk st1) (it_sbucket st1) x R0 ->
  (exists p0, chain_entries (lchain v (it_bucket st)) = p0 ++ e :: ERq x :: R0 ++ chain_entries l2 /\ length p0 = it_offset st) -> lstep st (ERq x :: R0 ++ chain_entries l2) (st1, Some (ERq x)).
Proof using Type.
  intros Hb Hs Hlt Hc Hr (p0 & P1 & P2). unfold bumped in Hb. injection Hb as B1 B2 B3 B4. exists (R0 ++ chain_entries l2). split_and!; [|done|done|unfold lafter; by rewrite B1|done]. split_and!; [split; [done|]; exists l1, l2, R0; by rewrite B1|by rewrite B1|]. exists (p0 ++ [e]). rewrite B1, B2, P1, <- app_assoc. split; [done|]. rewrite length_app. cbn. lia.
Qed.
Lemma lchain_nodup b : NoDup (lchain v b).
Proof using Hv. unfold lchain. destruct (listening_hash h !! b) as [l|] eqn:El; [by apply (vo_lnodup Hv b)|constructor]. Qed.
Lemma after_split b l1 i l2 : lchain v b = l1 ++ i :: l2 -> chain_after (lchain v b) i = l2.
Proof using Hv. intros El. pose proof (lchain_nodup b) as Hn. rewrite El in Hn |- *. apply chain_after_app. apply NoDup_app in Hn as (_ & Hn & _). intros Hi. apply (Hn i Hi). by left. Qed.
Lemma scan_from_ok st i q x R0 : i ∈ lchain v (it_bucket st) -> vw_queue v i = Some q -> req_at i (it_sbucket st) x R0 ->
  match scan_from v st q (r ← reqs q !! x; dl_next r) with
  | (st', Some e) => exists y R1, e = ERq y /\ R0 = ERq y :: R1 /\ req_at i (it_sbucket st') y R1 /\ same_place st st' /\ it_state st' = it_state st /\ syn_wait_sk st' = syn_wait_sk st
  | (st', None) => R0 = [] /\ same_place st st' /\ syn_wait_sk st' = syn_wait_sk st
  end.
Proof using Hv.
  intros Hi Hq (b1 & b2 & Hb & ->). destruct (queue_at _ i Hi) as (q' & jh & lo & A & Hq' & Hr & _). rewrite Hq in Hq'. injection Hq' as <-. unfold scan_from. rewrite (rep_lopt _ _ _ _ _ Hr). destruct (shape_slot _ _ _ _ _ _ _ _ (rep_shape _ _ _ _ _ Hr) Hb) as (p & _ & Hc).
  replace (b1 ++ x :: b2) with ((b1 ++ [x]) ++ b2) in Hc, Hb by (by rewrite <- app_assoc). apply chain_app in Hc. rewrite last_snoc in Hc. assert (Ep : (r ← reqs q !! x; dl_next r) = default None (nexts (reqs q) x)) by (unfold nexts; by destruct (reqs q !! x)). rewrite Ep. set (p' := default None (nexts (reqs q) x)) in *. clearbody p'. pose proof (scan_table_ok i q jh lo A Hq Hr (nr_table_entries lo) (it_sbucket st) p' (b1 ++ [x]) b2 Hb Hc ltac:(lia)) as Hs.
  destruct (scan_table v _ q lo p' (it_sbucket st)) as [sb [y|]]; cbn; [|by split_and!]. destruct Hs as (R1 & S1 & S2). exists y, R1. by split_and!.
Qed.
Lemma lnext_ok st e R : linv st e R -> lstep st R (listening_get_next v st (Some e)).
Proof using Hv.
  intros (Hp & Hlt & Hpre). unfold listening_get_next. set (st1 := st <| it_num := S (it_num st) |> <| it_offset := S (it_offset st) |>). assert (Hb1 : bumped st st1) by done. assert (Eb : it_bucket st1 = it_bucket st) by done. change (it_state st1) with (it_state st). rewrite Eb. destruct e as [i|x|t]; [| |done].
  - destruct Hp as (Hs & l1 & l2 & Hc & ->). rewrite Hs, (after_split _ _ _ _ Hc). assert (Hi : i ∈ lchain v (it_bucket st)) by (rewrite Hc; apply elem_of_app; right; by left). assert (Hc' : lchain v (it_bucket st) = (l1 ++ [i]) ++ l2) by (by rewrite <- app_assoc). case_if_as Hz.
    + pose proof (start_req_ok st1 _ i Hi) as Hr. destruct (start_req v st1 i) as [st2 [e|]].
      * destruct Hr as (x & R & -> & H1 & H2 & H3 & H4 & H5). assert (Hb2 : bumped st st2) by exact (bumped_same _ _ _ Hb1 H5). rewrite H4 in *. cbn [app] in *. apply (step_req st st2 (ESk i) x R l1); [done..|by rewrite H2|by rewrite H2|done].
      * destruct Hr as [H1 H2]. assert (Hb2 : bumped st (st2 <| it_state := TCP_SEQ_STATE_LISTENING |>)) by exact (bumped_same _ _ _ Hb1 H2). rewrite H1 in *. cbn [app] in *. apply (step_after st _ (ESk i) _ (l1 ++ [i]) l2); [done|done|done|lia|done|done|done].
    + apply negb_false_iff, Z.eqb_eq in Hz. rewrite (req_len_zero _ i Hi Hz) in *. cbn [app] in *. apply (step_after st st1 (ESk i) _ (l1 ++ [i]) l2); [done|exact Hs|done|lia|done|done|done].
  - destruct Hp as (Hs & l1 & l2 & R0 & Hc & Hr & ->). rewrite Hs. assert (Hi : syn_wait_sk st ∈ lchain v (it_bucket st)) by (rewrite Hc; apply elem_of_app; right; by left). change (syn_wait_sk st1) with (syn_wait_sk st). destruct (queue_at _ _ Hi) as (q & _ & _ & _ & Hq & _). rewrite Hq. pose proof (scan_from_ok st1 (syn_wait_sk st) q x R0 Hi Hq Hr) as Hf. destruct (scan_from v st1 q _) as [st2 [e|]].
    + destruct Hf as (y & R1 & -> & -> & F1 & F2 & F3 & F4). assert (Hb2 : bumped st st2) by exact (bumped_same _ _ _ Hb1 F2). cbn [app] in *. apply (step_req st st2 (ERq x) y R1 l1); [done|by rewrite F3|done|rewrite F4; exact Hc|rewrite F4; exact F1|done].
    + destruct Hf as (-> & F1 & F2). assert (Hb2 : bumped st (st2 <| it_state := TCP_SEQ_STATE_LISTENING |>)) by exact (bumped_same _ _ _ Hb1 F1). rewrite F2. change (syn_wait_sk st1) with (syn_wait_sk st). rewrite (after_split _ _ _ _ Hc). cbn [app] in *. apply (step_after st _ (ERq x) _ (l1 ++ [syn_wait_sk st]) l2); [done|done|done|lia|by rewrite <- app_assoc|done|done].
Qed.
Lemma lfirst_ok st : it_state st = TCP_SEQ_STATE_LISTENING -> (it_bucket st < LH)%nat ->
  match listening_get_next v st None with
  | (st', Some e) => exists R, linv st' e R /\ it_num st' = it_num st /\ listening_from (it_bucket st) = e :: R ++ lafter st' /\ (chain_entries (lchain v (it_bucket st)) <> [] -> it_bucket st' = it_bucket st /\ it_offset st' = 0%nat)
  | (st', None) => listening_from (it_bucket st) = [] /\ it_num st' = it_num st
  end.
Proof using Hv.
  intros Hs Hlt. unfold listening_get_next. set (st1 := st <| it_offset := 0%nat |>). pose proof (get_buckets_ok LH (lchain v (it_bucket st)) [] st1 eq_refl Hs Hlt) as Hg. change (it_bucket st1) with (it_bucket st) in Hg. rewrite from_bucket by done. fold (lafter st). specialize (Hg ltac:(lia)). destruct (get_buckets v LH (lchain v (it_bucket st)) st1) as [st2 [e|]]; [|done]. destruct Hg as (R & G1 & G2 & G3 & G4 & G5 & G6). exists R. split_and!; [|done|exact G5|].
  - split_and!; [done..|]. exists []. destruct G6 as [(F1 & F2 & F3)|(F1 & F2 & F3)]; [rewrite F1, F2; split; [exact F3|done]|by rewrite F3, F1].
  - intros Hne. destruct G6 as [(F1 & F2 & F3)|(F1 & F2 & F3)]; [done|by rewrite F2 in Hne].
Qed.

(** *** Connections *)
Definition sk_list l : list entry := ESk <$> List.filter (shown v) l.
Definition tw_list l : list entry := ETw <$> List.filter (shown v) l.
Definition epos st e (R : list entry) : Prop :=
  match e with
  | ESk i => it_state st = TCP_SEQ_STATE_ESTABLISHED /\ exists l1 l2, chain (echain v (it_bucket st)) = l1 ++ i :: l2 /\ R = sk_list l2 ++ tw_list (twchain (echain v (it_bucket st)))
  | ETw t => it_state st = TCP_SEQ_STATE_TIME_WAIT /\ exists l1 l2, twchain (echain v (it_bucket st)) = l1 ++ t :: l2 /\ R = tw_list l2
  | ERq _ => False
  end.
Definition eafter st : list entry := established_from (S (it_bucket st)).
Definition ended st : Prop := it_state st = TCP_SEQ_STATE_ESTABLISHED /\ (EH <= it_bucket st)%nat.
Lemma efrom_bucket b : (b < EH)%nat -> established_from b = bucket_entries (echain v b) ++ established_from (S b).
Proof using Hv. intros Hb. destruct (lookup_lt_is_Some_2 (ehash h) b) as [l Hl]; [by rewrite (vo_esize Hv)|]. unfold established_from, echain. by rewrite (drop_S _ l b Hl), Hl. Qed.
Lemma efrom_end b : (EH <= b)%nat -> established_from b = [].
Proof using Hv. intros Hb. unfold established_from. by rewrite drop_ge by (rewrite (vo_esize Hv); lia). Qed.
Lemma empty_bucket_ok b : empty_bucket v b = true -> bucket_entries (echain v b) = [].
Proof using Type. unfold empty_bucket, bucket_entries. by destruct (chain (echain v b)), (twchain (echain v b)). Qed.
Lemma find_sk l : match List.find (shown v) l with Some i => exists l1 l2, l = l1 ++ i :: l2 /\ sk_list l = ESk i :: sk_list l2 | None => sk_list l = [] end.
Proof using Type. pose proof (find_shown (shown v) l) as Hf. unfold sk_list. destruct (List.find _ l) as [i|]; [|by rewrite Hf]. destruct Hf as (l1 & l2 & -> & E & _). exists l1, l2. by rewrite E. Qed.
Lemma find_tw l : match List.find (shown v) l with Some i => exists l1 l2, l = l1 ++ i :: l2 /\ tw_list l = ETw i :: tw_list l2 | None => tw_list l = [] end.
Proof using Type. pose proof (find_shown (shown v) l) as Hf. unfold tw_list. destruct (List.find _ l) as [i|]; [|by rewrite Hf]. destruct Hf as (l1 & l2 & -> & E & _). exists l1, l2. by rewrite E. Qed.
(** Where a walk ends; [E] is the rest of the bucket of [st]. *)
Definition elanded (E : list entry) st (r : tcp_iter_state * option entry) : Prop :=
  it_num (fst r) = it_num st /\ last_pos (fst r) = last_pos st /\
  match r with
  | (st', Some e) => exists R, epos st' e R /\ (it_bucket st' < EH)%nat /\ E ++ eafter st = e :: R ++ eafter st' /\
      (it_bucket st' = it_bucket st /\ it_offset st' = it_offset st /\ E = e :: R \/ it_offset st' = 0%nat /\ bucket_entries (echain v (it_bucket st')) = e :: R)
  | (st', None) => E ++ eafter st = [] /\ ended st'
  end.
Lemma elanded_same E st st1 r : same_place st st1 -> elanded E st1 r -> elanded E st r.
Proof using Type. unfold same_place, elanded, eafter. intros Hp. injection Hp as E1 E2 E3 E4. by rewrite E1, E2, E3, E4. Qed.
(** Nothing is left in the bucket, and the walk goes on at the bucket of [st1]. *)
Lemma elanded_on st st1 r : it_num st1 = it_num st -> last_pos st1 = last_pos st -> it_offset st1 = 0%nat -> (it_bucket st1 < EH)%nat -> eafter st = established_from (it_bucket st1) -> elanded (bucket_entries (echain v (it_bucket st1))) st1 r -> elanded [] st r.
Proof using Hv.
  intros E1 E2 E3 Hlt Ha (H1 & H2 & H3). unfold elanded. rewrite H1, H2, Ha. cbn [app]. rewrite efrom_bucket by done. fold (eafter st1). split_and!; [done..|]. destruct r as [st' [e|]]; [|done]. destruct H3 as (R & F1 & F2 & F3 & F4). exists R. split_and!; [done..|]. right. destruct F4 as [(G1 & G2 & G3)|G]; [|done]. by rewrite G1, G2.
Qed.
Lemma elanded_end st st1 : it_num st1 = it_num st -> last_pos st1 = last_pos st -> ended st1 -> eafter st = established_from (it_bucket st1) -> elanded [] st (st1, None).
Proof using Hv. intros E1 E2 He Ha. split; [done|]. split; [done|]. split; [|done]. rewrite Ha. cbn [app]. apply efrom_end, He. Qed.
Lemma skip_empty_buckets_ok n : forall b, established_from b = established_from (skip_empty_buckets v n b) /\ (b <= skip_empty_buckets v n b)%nat.
Proof using Hv.
  induction n as [|n IH]; intros b; cbn [skip_empty_buckets]; [done|]. destruct (Nat.ltb_spec b EH) as [Hlt|Hge]; cbn [andb]; [|done]. destruct (empty_bucket v b) eqn:Eb; [|done]. destruct (IH (S b)) as [E1 E2]. rewrite <- E1, efrom_bucket, (empty_bucket_ok _ Eb) by done. split; [done|lia].
Qed.
Lemma found_sk st l1 i l2 : it_state st = TCP_SEQ_STATE_ESTABLISHED -> (it_bucket st < EH)%nat -> chain (echain v (it_bucket st)) = l1 ++ i :: l2 ->
  elanded (ESk i :: sk_list l2 ++ tw_list (twchain (echain v (it_bucket st)))) st (st, Some (ESk i)).
Proof using Type. intros Hs Hb Hc. split; [done|]. split; [done|]. eexists. split_and!; [split; [done|by exists l1, l2]|done|done|by left]. Qed.
Lemma found_tw st st1 l1 t l2 : it_state st1 = TCP_SEQ_STATE_TIME_WAIT -> same_place st st1 -> (it_bucket st < EH)%nat -> twchain (echain v (it_bucket st)) = l1 ++ t :: l2 -> elanded (ETw t :: tw_list l2) st (st1, Some (ETw t)).
Proof using Type.
  unfold same_place. intros Hs Hp Hb Hc. injection Hp as E1 E2 E3 E4. split; [done|]. split; [done|]. exists (tw_list l2). unfold eafter. rewrite E1. split_and!; [split; [done|]; exists l1, l2; by rewrite E1|done|done|by left].
Qed.
Lemma first_buckets_ok n : forall st, it_state st = TCP_SEQ_STATE_ESTABLISHED -> it_offset st = 0%nat -> (it_bucket st < EH)%nat -> (EH <= it_bucket st + n)%nat -> elanded (bucket_entries (echain v (it_bucket st))) st (first_buckets v n st).
Proof using Hv.
  induction n as [|n IH]; intros st Hs Ho Hb Hn; [lia|]. cbn [first_buckets]. rewrite (proj2 (Nat.leb_gt _ _) Hb).
  assert (Hnext : forall st1, it_state st1 = TCP_SEQ_STATE_ESTABLISHED -> same_place st st1 -> elanded [] st (first_buckets v n (st1 <| it_bucket := S (it_bucket st1) |>))).
  { intros st1 Hs1 Hp. unfold same_place in Hp. injection Hp as E1 E2 E3 E4. set (st2 := st1 <| it_bucket := S (it_bucket st1) |>). assert (Eb : it_bucket st2 = S (it_bucket st)) by (unfold st2; cbn; by rewrite E1). assert (Ha : eafter st = established_from (it_bucket st2)) by (by rewrite Eb). destruct (Nat.ltb_spec (it_bucket st2) EH) as [Hlt|Hge].
    - apply (elanded_on st st2); [done|done|cbn; by rewrite E2|done|done|]. apply IH; [done|cbn; by rewrite E2|done|lia].
    - assert (Er : first_buckets v n st2 = (st2, None)) by (destruct n; cbn [first_buckets]; [done|by rewrite (proj2 (Nat.leb_le _ _) Hge)]). rewrite Er. by apply elanded_end. }
  destruct (empty_bucket v (it_bucket st)) eqn:Ee; [rewrite (empty_bucket_ok _ Ee); by apply Hnext|]. unfold bucket_entries. fold (sk_list (chain (echain v (it_bucket st)))). fold (tw_list (twchain (echain v (it_bucket st)))).
  pose proof (find_sk (chain (echain v (it_bucket st)))) as Hf. destruct (List.find (shown v) (chain (echain v (it_bucket st)))) as [i|]; [destruct Hf as (l1 & l2 & Hc & ->); by apply (found_sk st l1)|]. rewrite Hf. cbn [app]. change (it_bucket (st <| it_state := TCP_SEQ_STATE_TIME_WAIT |>)) with (it_bucket st).
  pose proof (find_tw (twchain (echain v (it_bucket st)))) as Ht. destruct (List.find (shown v) (twchain (echain v (it_bucket st)))) as [t|]; [destruct Ht as (l1 & l2 & Hc & ->); by apply (found_tw st _ l1)|]. rewrite Ht. by apply (Hnext (st <| it_state := TCP_SEQ_STATE_TIME_WAIT |> <| it_state := TCP_SEQ_STATE_ESTABLISHED |>)).
Qed.
Lemma next_ok n : (forall l pre st, it_state st = TCP_SEQ_STATE_ESTABLISHED -> (it_bucket st < EH)%nat -> (2 * (EH - it_bucket st) <= S n)%nat -> chain (echain v (it_bucket st)) = pre ++ l ->
    elanded (sk_list l ++ tw_list (twchain (echain v (it_bucket st)))) st (next_from v n l st)) /\
  (forall l pre st, it_state st = TCP_SEQ_STATE_TIME_WAIT -> (it_bucket st < EH)%nat -> (2 * (EH - it_bucket st) <= S (S n))%nat -> twchain (echain v (it_bucket st)) = pre ++ l -> elanded (tw_list l) st (next_tw v n l st)).
Proof using Hv.
  induction n as [|n [IH1 IH2]]; (split; intros l pre st Hs Hb Hn Hc; [cbn [next_from]; pose proof (find_sk l) as Hf|cbn [next_tw]; pose proof (find_tw l) as Hf]).
  all: destruct (List.find (shown v) l) as [i|]; [destruct Hf as (l1 & l2 & -> & ->); rewrite app_assoc in Hc; first [by apply (found_sk st (pre ++ l1))|by apply (found_tw st st (pre ++ l1))]|rewrite Hf; cbn [app]].
  1: lia.
  2: { apply (elanded_same _ st (st <| it_state := TCP_SEQ_STATE_TIME_WAIT |>)); [done|]. apply (IH2 _ []); cbn; done || lia. }
  all: set (st1 := st <| it_state := TCP_SEQ_STATE_ESTABLISHED |> <| it_offset := 0%nat |> <| it_bucket := skip_empty_buckets v EH (S (it_bucket st)) |>); destruct (skip_empty_buckets_ok EH (S (it_bucket st))) as [Ha Hle]; fold (eafter st) in Ha; change (skip_empty_buckets v EH (S (it_bucket st))) with (it_bucket st1) in Ha, Hle.
  all: destruct (Nat.leb_spec EH (it_bucket st1)) as [Hge|Hlt]; [by apply elanded_end|].
  - lia.
  - apply (elanded_on st st1); [done..|]. unfold bucket_entries. apply (IH1 _ []); [done|done|lia|done].
Qed.
(** ... with its place in the bucket. *)
Definition einv st e (R : list entry) : Prop :=
  epos st e R /\ (it_bucket st < EH)%nat /\ exists pre, bucket_entries (echain v (it_bucket st)) = pre ++ e :: R /\ length pre = it_offset st.
(** The walk stands at the head of [L], of the connections or of the listening sockets. *)
Definition ereach (L : list entry) (n : nat) (r : tcp_iter_state * option entry) : Prop :=
  it_num (fst r) = n /\ match r with (st', Some e) => exists R, einv st' e R /\ L = e :: R ++ eafter st' | (st', None) => L = [] /\ ended st' end.
Definition lreach (L : list entry) (n : nat) (r : tcp_iter_state * option entry) : Prop :=
  it_num (fst r) = n /\ match r with (st', Some e) => exists R, linv st' e R /\ L = e :: R ++ lafter st' | (st', None) => L = [] end.
(** A step from the entry [e] of [st] that lands in the same bucket or at the head of a later one. *)
Lemma elanded_step st st1 e E r : bumped st st1 -> (exists pre, bucket_entries (echain v (it_bucket st)) = pre ++ e :: E /\ length pre = it_offset st) -> elanded E st1 r -> ereach (E ++ eafter st) (S (it_num st)) r.
Proof using Type.
  unfold bumped. intros Hb (pre & P1 & P2) (H1 & _ & H3). injection Hb as B1 B2 B3 B4. unfold eafter in H3. rewrite B1 in H3. split; [by rewrite H1|]. destruct r as [st' [e'|]]; [|done]. destruct H3 as (R & F1 & F2 & F3 & F4). exists R. split; [|exact F3]. split_and!; [done..|]. destruct F4 as [(G1 & G2 & G3)|[G1 G2]]; [|exists []; by rewrite G1, G2]. exists (pre ++ [e]). rewrite G1, G2, B2, P1, G3, length_app, <- app_assoc. split; [done|cbn; lia].
Qed.
Lemma enodup b : NoDup (chain (echain v b)) /\ NoDup (twchain (echain v b)).
Proof using Hv. unfold echain. destruct (ehash h !! b) as [hd|] eqn:El; [by apply (vo_enodup Hv b)|split; constructor]. Qed.
Lemma enext_ok st e R : einv st e R -> ereach (R ++ eafter st) (S (it_num st)) (established_get_next v st e).
Proof using Hv.
  intros (Hp & Hb & Hpre). unfold established_get_next. set (st1 := st <| it_num := S (it_num st) |> <| it_offset := S (it_offset st) |>). assert (Hb1 : bumped st st1) by done. change (it_state st1) with (it_state st). change (it_bucket st1) with (it_bucket st). destruct (enodup (it_bucket st)) as [N1 N2]. destruct e as [i|x|t]; [|done|].
  - destruct Hp as (Hs & l1 & l2 & Hc & ->). rewrite Hs, Hc, chain_after_app by (rewrite Hc in N1; apply NoDup_app in N1 as (_ & N1 & _); intros Hi; apply (N1 i Hi); by left). apply (elanded_step st st1 (ESk i)); [done..|]. refine (proj1 (next_ok (2 * EH)) l2 (l1 ++ [i]) st1 Hs Hb _ _); [change (it_bucket st1) with (it_bucket st); lia|by rewrite <- app_assoc].
  - destruct Hp as (Hs & l1 & l2 & Hc & ->). rewrite Hs, Hc, chain_after_app by (rewrite Hc in N2; apply NoDup_app in N2 as (_ & N2 & _); intros Hi; apply (N2 t Hi); by left). apply (elanded_step st st1 (ETw t)); [done..|]. refine (proj2 (next_ok (2 * EH)) l2 (l1 ++ [t]) st1 Hs Hb _ _); [change (it_bucket st1) with (it_bucket st); lia|by rewrite <- app_assoc].
Qed.
Lemma efirst_ok st : it_state st = TCP_SEQ_STATE_ESTABLISHED -> ereach (established_from (it_bucket st)) (it_num st) (established_get_first v st).
Proof using Hv.
  intros Hs. unfold established_get_first. set (st1 := st <| it_offset := 0%nat |>). destruct (Nat.ltb_spec (it_bucket st) EH) as [Hlt|Hge].
  - rewrite efrom_bucket by done. destruct (first_buckets_ok (S EH) st1 Hs eq_refl Hlt ltac:(lia)) as (H1 & _ & H3). split; [done|]. destruct (first_buckets v (S EH) st1) as [st' [e|]]; [|done]. destruct H3 as (R & F1 & F2 & F3 & F4). exists R. split; [|done]. split_and!; [done..|]. exists []. destruct F4 as [(G1 & G2 & G3)|[G1 G2]]; [by rewrite G1, G2|by rewrite G1, G2].
  - cbn [first_buckets]. change (it_bucket st1) with (it_bucket st). rewrite (proj2 (Nat.leb_le _ _) Hge). split; [done|]. split; [by apply efrom_end|done].
Qed.
Lemma eskip_ok pos : forall L n st rc, ereach L n (st, rc) -> ereach (drop pos L) (n + Nat.min pos (length L)) (established_skip v pos st rc).
Proof using Hv.
  induction pos as [|pos IH]; intros L n st rc Hr; [rewrite drop_0, Nat.min_0_l, Nat.add_0_r; by destruct rc|]. destruct rc as [e|]; cbn [established_skip].
  - destruct Hr as (Hn & R & H1 & ->). pose proof (enext_ok st e R H1) as Hx. destruct (established_get_next v st e) as [st' rc]. apply IH in Hx. cbn [drop length]. cbn in Hn. rewrite <- Nat.succ_min_distr, Nat.add_succ_r, <- Hn. exact Hx.
  - destruct Hr as (Hn & -> & He). rewrite drop_nil. cbn [length]. rewrite Nat.min_0_r, Nat.add_0_r. done.
Qed.
Lemma lnext_reach st e R : linv st e R -> lreach (R ++ lafter st) (S (it_num st)) (listening_get_next v st (Some e)).
Proof using Hv. intros Hi. pose proof (lnext_ok st e R Hi) as Hx. unfold lstep, lreach in *. destruct (listening_get_next v st (Some e)) as [st' [e'|]]; [|by destruct Hx]. destruct Hx as (R' & H1 & H2 & H3 & H4 & _). split; [done|by exists R']. Qed.
Lemma lskip_ok pos : forall L n st rc, lreach L n (st, rc) -> lreach (drop pos L) (n + Nat.min pos (length L)) (fst (listening_skip v pos st rc)) /\ snd (listening_skip v pos st rc) = (pos - length L)%nat.
Proof using Hv.
  induction pos as [|pos IH]; intros L n st rc Hr; [rewrite drop_0, Nat.min_0_l, Nat.add_0_r; by destruct rc|]. destruct rc as [e|]; cbn [listening_skip].
  - destruct Hr as (Hn & R & H1 & ->). pose proof (lnext_reach st e R H1) as Hx. destruct (listening_get_next v st (Some e)) as [st' rc]. apply IH in Hx as [Hx1 Hx2]. cbn [drop length]. cbn in Hn. rewrite <- Nat.succ_min_distr, Nat.add_succ_r, <- Hn. split; [exact Hx1|]. rewrite Hx2. lia.
  - destruct Hr as (Hn & ->). rewrite drop_nil. cbn [length fst snd]. rewrite Nat.min_0_r, Nat.add_0_r, Nat.sub_0_r. done.
Qed.

(** *** The whole list *)
(** The iterator points to [e], and [rest] follows. *)
Definition at_entry st e (rest : list entry) : Prop := exists R, linv st e R /\ rest = R ++ lafter st ++ established_from 0 \/ einv st e R /\ rest = R ++ eafter st.
Definition reach (L : list entry) (n : nat) (r : tcp_iter_state * option entry) : Prop :=
  it_num (fst r) = n /\ match r with (st', Some e) => exists rest, at_entry st' e rest /\ L = e :: rest | (st', None) => L = [] /\ ended st' end.
Lemma ereach_reach L n r : ereach L n r -> reach L n r.
Proof using Type. intros [Hn Hr]. split; [done|]. destruct r as [st' [e|]]; [|done]. destruct Hr as (R & H1 & ->). eexists. split; [|reflexivity]. exists R. by right. Qed.
Lemma lreach_reach L n st e : lreach L n (st, Some e) -> reach (L ++ established_from 0) n (st, Some e).
Proof using Type. intros [Hn (R & H1 & ->)]. split; [done|]. exists (R ++ lafter st ++ established_from 0). split; [exists R; by left|]. cbn. by rewrite <- app_assoc. Qed.
Lemma lfirst_reach st : it_state st = TCP_SEQ_STATE_LISTENING -> (it_bucket st < LH)%nat -> lreach (listening_from (it_bucket st)) (it_num st) (listening_get_next v st None).
Proof using Hv. intros Hs Hb. pose proof (lfirst_ok st Hs Hb) as Hx. unfold lreach. destruct (listening_get_next v st None) as [st' [e|]]; [|by destruct Hx]. destruct Hx as (R & H1 & H2 & H3 & _). split; [done|by exists R]. Qed.
Lemma get_idx_ok st pos : reach (drop pos all_entries) (it_num st + Nat.min pos (length all_entries)) (tcp_get_idx v st pos).
Proof using Hv.
  unfold tcp_get_idx, listening_get_idx. set (st1 := _ <| it_bucket := 0%nat |> <| it_offset := 0%nat |>). assert (Hlh : (0 < LH)%nat) by (vm_compute; lia). pose proof (lfirst_reach st1 eq_refl Hlh) as Hf. destruct (listening_get_next v st1 None) as [st2 rc]. apply (lskip_ok pos) in Hf as [Hr Hp]. destruct (listening_skip v pos st2 rc) as [[st3 rc'] pos']. cbn [fst snd] in Hr, Hp. change (it_bucket st1) with 0%nat in Hr, Hp. change (it_num st1) with (it_num st) in Hr. unfold all_entries. rewrite length_app. set (L := listening_from 0) in *. destruct rc' as [e|].
  - assert (Hlt : (pos < length L)%nat) by (destruct Hr as (_ & R & _ & E); apply (f_equal length) in E; rewrite length_drop in E; cbn in E; lia). rewrite drop_app_le by lia. replace (Nat.min pos (length L + _)) with (Nat.min pos (length L)) by lia. by apply lreach_reach.
  - destruct Hr as [Hn E]. assert (Hge : (length L <= pos)%nat) by (apply (f_equal length) in E; rewrite length_drop in E; cbn in E; lia). rewrite drop_app_ge by lia. cbn in Hn. unfold established_get_idx. set (st4 := _ <| it_bucket := 0%nat |>). pose proof (efirst_ok st4 eq_refl) as Hf. destruct (established_get_first v st4) as [st5 rc']. apply (eskip_ok pos') in Hf. rewrite Hp in Hf |- *. apply ereach_reach. change (it_num st4) with (it_num st3) in Hf. rewrite Hn in Hf. replace (it_num st + Nat.min pos _)%nat with (it_num st + Nat.min pos (length L) + Nat.min (pos - length L) (length (established_from 0)))%nat by lia. exact Hf.
Qed.
Lemma seek_est_ok st e R st1 : einv st e R -> it_bucket st1 = it_bucket st -> reach (e :: R ++ eafter st) (it_num st1 + it_offset st) (seek_established v st1 (Some (it_offset st))).
Proof using Hv.
  intros (Hp & Hb & pre & P1 & P2) Eb. unfold seek_established. set (st2 := st1 <| it_state := TCP_SEQ_STATE_ESTABLISHED |>). change (it_bucket st2) with (it_bucket st1). rewrite Eb, (proj2 (Nat.leb_gt _ _) Hb). pose proof (efirst_ok st2 eq_refl) as Hf. destruct (established_get_first v st2) as [st3 rc]. apply (eskip_ok (it_offset st)) in Hf. change (it_bucket st2) with (it_bucket st1) in Hf. rewrite Eb, (efrom_bucket _ Hb), P1, <- P2, <- app_assoc, drop_app_length, length_app in Hf. rewrite <- P2. replace (Nat.min _ _) with (length pre) in Hf by lia. by apply ereach_reach.
Qed.
Lemma seek_ok st e rest : at_entry st e rest -> reach (e :: rest) (it_num st) (tcp_seek_last_pos v st).
Proof using Hv.
  intros (R & [[Hl ->]|[He ->]]); unfold tcp_seek_last_pos.
  - assert (Hs : match it_state st with TCP_SEQ_STATE_OPENREQ | TCP_SEQ_STATE_LISTENING => seek_listening v st (it_offset st) | _ => seek_established v st (Some (it_offset st)) end = seek_listening v st (it_offset st)) by (destruct Hl as (Hp & _); destruct e; [destruct Hp as [-> _]|destruct Hp as [-> _]|done]; done). rewrite Hs. destruct Hl as (Hp & Hb & pre & P1 & P2). unfold seek_listening. rewrite (proj2 (Nat.leb_gt _ _) Hb). set (st1 := st <| it_state := TCP_SEQ_STATE_LISTENING |>).
    pose proof (lfirst_reach st1 eq_refl Hb) as Hf. destruct (listening_get_next v st1 None) as [st2 rc]. apply (lskip_ok (it_offset st)) in Hf as [Hf _]. destruct (listening_skip v (it_offset st) st2 rc) as [[st3 rc'] more]. cbn [fst] in Hf. change (it_bucket st1) with (it_bucket st) in Hf. rewrite (from_bucket _ Hb), P1, <- P2, <- app_assoc, drop_app_length in Hf. destruct rc' as [e'|]; [|by destruct Hf]. destruct Hf as (_ & R' & H1 & [= <- E]). split; [done|]. exists (R ++ lafter st ++ established_from 0). split; [|done]. exists R'. left. split; [exact H1|]. cbn in E. rewrite !app_assoc. fold (lafter st) in E. by rewrite E.
  - assert (Hs : match it_state st with TCP_SEQ_STATE_OPENREQ | TCP_SEQ_STATE_LISTENING => seek_listening v st (it_offset st) | _ => seek_established v st (Some (it_offset st)) end = seek_established v st (Some (it_offset st))) by (destruct He as (Hp & _); destruct e; [destruct Hp as [-> _]|done|destruct Hp as [-> _]]; done). rewrite Hs. destruct (seek_est_ok st e R st He eq_refl) as [_ Hr]. destruct (seek_established v st (Some (it_offset st))) as [st' [e'|]]; [|by destruct Hr]. split; [done|exact Hr].
Qed.

(** *** The calls of seq_file *)
(** What stands at position [pos] of the file. *)
Definition entry_at (pos : nat) : option seq_v := match pos with O => Some SEQ_START_TOKEN | S k => Entry <$> all_entries !! k end.
(** The place kept between two reads. *)
Definition iter_ok st : Prop :=
  match last_pos st with
  | O => True
  | S k => match all_entries !! k with Some e => at_entry st e (drop (S k) all_entries) /\ it_num st = k | None => ended st end
  end.
Definition seq_inv (s : tcp_iter_state * option seq_v * nat) : Prop :=
  let '(st, cur, pos) := s in iter_ok st /\ cur = entry_at pos /\ last_pos st = pos /\ it_num st = Nat.min (pred pos) (length all_entries).
Lemma reach_at k st rc n : reach (drop k all_entries) n (st, rc) -> rc = all_entries !! k /\ match rc with Some e => at_entry st e (drop (S k) all_entries) | None => ended st end.
Proof using Type.
  intros [_ Hr]. destruct rc as [e|].
  - destruct Hr as (rest & H1 & E). assert (Hk : all_entries !! k = Some e) by (rewrite <- (Nat.add_0_r k), <- lookup_drop, E; done). split; [done|]. rewrite (drop_S _ _ _ Hk) in E. by injection E as ->.
  - destruct Hr as [E He]. split; [|done]. symmetry. apply lookup_ge_None. apply (f_equal length) in E. rewrite length_drop in E. cbn in E. lia.
Qed.
(** A walk that stands at the entry [k] is in order at the position [S k]. *)
Lemma reach_inv k st rc : reach (drop k all_entries) (Nat.min k (length all_entries)) (st, rc) -> seq_inv (st <| last_pos := S k |>, Entry <$> rc, S k).
Proof using Type.
  intros Hr. pose proof Hr as [Hn _]. apply reach_at in Hr as [-> Hr]. cbn in Hn. split; [|split; [done|split; [done|exact Hn]]]. cbn. destruct (all_entries !! k) as [e|] eqn:Ek; [|exact Hr]. split; [exact Hr|]. change (it_num st = k). apply lookup_lt_Some in Ek. lia.
Qed.
Lemma start_inv st pos : iter_ok st -> seq_inv (let '(st', rc) := tcp_seq_start v st pos in (st', rc, pos)).
Proof using Hv.
  intros Hi. unfold tcp_seq_start. set (again := if _ && _ then _ else _).
  assert (Ha : (exists st' e k, again = (st', Some e) /\ pos = S k /\ reach (drop k all_entries) (Nat.min k (length all_entries)) (st', Some e)) \/ exists st', again = (st', None)).
  { unfold again. destruct pos as [|k]; [right; by exists st|]. destruct (Nat.eqb_spec (S k) (last_pos st)) as [E|_]; cbn; [|right; by exists st]. unfold iter_ok in Hi. rewrite <- E in Hi. destruct (all_entries !! k) as [e|] eqn:Ek.
    - destruct Hi as [Hi Hn]. pose proof (seek_ok _ _ _ Hi) as Hs. left. destruct (tcp_seek_last_pos v st) as [st' [e'|]]; [|by destruct Hs as (_ & [=] & _)]. exists st', e', k. split_and!; [done..|]. rewrite (drop_S _ _ _ Ek). rewrite Hn in Hs. apply lookup_lt_Some in Ek. by rewrite Nat.min_l by lia.
    - destruct Hi as [Hs Hb]. right. unfold tcp_seek_last_pos, seek_established. rewrite Hs. change (it_bucket (st <| it_state := TCP_SEQ_STATE_ESTABLISHED |>)) with (it_bucket st). rewrite (proj2 (Nat.leb_le _ _) Hb). by eexists. }
  destruct Ha as [(st' & e & k & -> & -> & Hr)|[st' ->]]; [exact (reach_inv k st' (Some e) Hr)|]. set (st1 := st' <| it_state := TCP_SEQ_STATE_LISTENING |> <| it_num := 0%nat |> <| it_bucket := 0%nat |> <| it_offset := 0%nat |>). destruct pos as [|k]; [done|]. pose proof (get_idx_ok st1 k) as Hg. destruct (tcp_get_idx v st1 k) as [st2 rc]. exact (reach_inv k st2 rc Hg).
Qed.
Lemma next_inv st cur pos : seq_inv (st, Some cur, pos) -> seq_inv (tcp_seq_next v st cur pos).
Proof using Hv.
  intros (Hi & Hc & Hl & Hn). unfold tcp_seq_next. destruct pos as [|k].
  - injection Hc as ->. pose proof (get_idx_ok st 0) as Hg. destruct (tcp_get_idx v st 0) as [st' rc]. apply (reach_inv 0). cbn in Hn. by rewrite Hn in Hg.
  - cbn in Hc. unfold iter_ok in Hi. rewrite Hl in Hi. destruct (all_entries !! k) as [e|] eqn:Ek; [|done]. injection Hc as ->. destruct Hi as [(R & Hp) Hk]. apply lookup_lt_Some in Ek as Hlen.
    set (r := match it_state st with TCP_SEQ_STATE_OPENREQ | TCP_SEQ_STATE_LISTENING => _ | _ => _ end). assert (Hr : reach (drop (S k) all_entries) (Nat.min (S k) (length all_entries)) r); [|destruct r as [st' rc]; exact (reach_inv (S k) st' rc Hr)]. rewrite Nat.min_l by lia. destruct Hp as [[Hp ->]|[Hp ->]]; rewrite <- Hk.
    + pose proof (lnext_reach st e R Hp) as Hx. unfold r. assert (Hs : it_state st = TCP_SEQ_STATE_LISTENING \/ it_state st = TCP_SEQ_STATE_OPENREQ) by (destruct Hp as (Hp & _); destruct e; [left; apply Hp|right; apply Hp|done]). clear r. destruct Hs as [-> | ->]; (destruct (listening_get_next v st (Some e)) as [st' [e'|]]; [rewrite app_assoc; by apply lreach_reach|]; destruct Hx as [Hx E]; rewrite app_assoc, E; cbn in Hx; rewrite <- Hx; cbn [app]; apply ereach_reach; exact (efirst_ok (st' <| it_state := TCP_SEQ_STATE_ESTABLISHED |> <| it_bucket := 0%nat |> <| it_offset := 0%nat |>) eq_refl)).
    + pose proof (enext_ok st e R Hp) as Hx. unfold r. assert (Hs : it_state st = TCP_SEQ_STATE_ESTABLISHED \/ it_state st = TCP_SEQ_STATE_TIME_WAIT) by (destruct Hp as (Hp & _); destruct e; [left; apply Hp|done|right; apply Hp]). clear r. destruct Hs as [-> | ->]; by apply ereach_reach.
Qed.
Lemma run_inv pos ops : seq_inv (seq_run v pos ops).
Proof using Hv.
  unfold seq_run. assert (H0 : seq_inv (seq_step v (tcp_seq_open, None, 0%nat) (Op_start pos))) by (by apply start_inv). revert H0. generalize (seq_step v (tcp_seq_open, None, 0%nat) (Op_start pos)). induction ops as [|o ops IH]; intros s Hs; [done|]. cbn [fold_left]. apply IH. destruct o as [p|]; destruct s as [[st cur] p0]; cbn [seq_step].
  - apply start_inv, Hs.
  - destruct cur as [cur|]; [by apply next_inv|done].
Qed.
(** The line of an entry: a request with the socket it belongs to. *)
Definition line_of (num : nat) e (l : seq_line) : Prop :=
  match e with
  | ESk i => l = Tcp4_sock num i
  | ERq x => exists i, l = Openreq4 num i x /\ x ∈ concat (tbl i)
  | ETw t => l = Timewait4 num t
  end.
Lemma show_ok st e rest : at_entry st e rest -> exists ln, tcp4_seq_show st (Entry e) = Some ln /\ line_of (it_num st) e ln.
Proof using Type.
  intros (R & [[(Hp & _) _]|[(Hp & _) _]]); destruct e as [i|x|t]; try done; destruct Hp as [Hs Hp]; cbn [tcp4_seq_show]; rewrite Hs; eexists; (split; [reflexivity|]); try done.
  destruct Hp as (l1 & l2 & R0 & _ & (b1 & b2 & Hb & _) & _). exists (syn_wait_sk st). split; [done|]. apply elem_of_concat. exists (it_sbucket st), (b1 ++ x :: b2). split; [done|]. apply elem_of_app. right. by left.
Qed.
Lemma show_inv st e pos : seq_inv (st, Some (Entry e), pos) -> exists ln, tcp4_seq_show st (Entry e) = Some ln /\ line_of (pred pos) e ln.
Proof using Type.
  intros (Hi & Hc & Hl & Hn). destruct pos as [|k]; [done|]. cbn in Hc. unfold iter_ok in Hi. rewrite Hl in Hi. destruct (all_entries !! k) as [e'|]; [|done]. injection Hc as <-. destruct Hi as [Ha Hk]. destruct (show_ok _ _ _ Ha) as (l & E & Hl'). exists l. split; [done|]. by rewrite Hk in Hl'.
Qed.
Lemma listing_inv n : forall st cur pos, seq_inv (st, Some cur, pos) -> (length all_entries - pos < n)%nat -> Forall2 (fun ke ln => exists ln', ln = Some ln' /\ line_of (fst ke) (snd ke) ln') (imap (fun k e => ((pos + k)%nat, e)) (drop pos all_entries)) (seq_listing v n st cur pos).
Proof using Hv.
  induction n as [|n IH]; intros st cur pos Hs Hn; [lia|]. cbn [seq_listing]. pose proof (next_inv st cur pos Hs) as Hx. assert (Ep : snd (tcp_seq_next v st cur pos) = S pos) by (unfold tcp_seq_next; by destruct (match cur with SEQ_START_TOKEN => _ | _ => _ end)). destruct (tcp_seq_next v st cur pos) as [[st' rc] pos']. cbn in Ep. subst pos'. pose proof Hx as (_ & Hc & _). cbn in Hc. destruct (all_entries !! pos) as [e|] eqn:Ek.
  - cbn in Hc. subst rc. rewrite (drop_S _ _ _ Ek). cbn [imap]. constructor; [rewrite Nat.add_0_r; exact (show_inv st' e (S pos) Hx)|]. apply lookup_lt_Some in Ek. specialize (IH st' (Entry e) (S pos) Hx ltac:(lia)). erewrite imap_ext; [exact IH|]. intros k y _. cbn. f_equal. lia.
  - cbn in Hc. subst rc. apply lookup_ge_None in Ek. by rewrite drop_ge.
Qed.

(** The place in /proc/net/tcp is right however the file is read.  After any sequence of
    tcp_seq_start at arbitrary positions and of tcp_seq_next, the iterator stands at the entry of its
    position in the list of all sockets (the listening sockets with their half-open connections, then
    the connections and TIME-WAIT sockets of each bucket), or has none when the position is past the
    end; the number that is printed is the position; and resuming by bucket and offset, which the
    code does when it is asked for the last position again, leads to the same entry as counting. *)
Theorem seq_position_ok pos ops : let '(st, cur, p) := seq_run v pos ops in cur = entry_at p /\ (forall e, cur = Some (Entry e) -> S (it_num st) = p).
Proof using Hv.
  pose proof (run_inv pos ops) as Hi. destruct (seq_run v pos ops) as [[st cur] p]. destruct Hi as (_ & -> & _ & Hn). split; [done|]. intros e He. destruct p as [|k]; [done|]. cbn in He. destruct (all_entries !! k) as [e'|] eqn:Ek; [|done]. apply lookup_lt_Some in Ek. cbn in Hn. lia.
Qed.
(** C13. tcp4_seq_show reads each pointer as what it points to: in every state the calls lead to, the
    state of the iterator tells the type of the object (a socket, a request or a TIME-WAIT socket), and
    the socket kept for a request is one whose table has the request. *)
Theorem seq_show_typed pos ops st e p : seq_run v pos ops = (st, Some (Entry e), p) -> exists ln, tcp4_seq_show st (Entry e) = Some ln /\ line_of (pred p) e ln.
Proof using Hv. intros E. pose proof (run_inv pos ops) as Hi. rewrite E in Hi. by apply show_inv in Hi. Qed.
(** C12. Reading from the start ends, and prints every socket once: the lines after the heading are
    those of the list of all sockets, in order and numbered from 0. *)
Theorem seq_listing_complete st0 n : (length all_entries < n)%nat -> let '(st, cur) := tcp_seq_start v st0 0 in
  exists tok, cur = Some tok /\ tcp4_seq_show st tok = Some Heading /\ Forall2 (fun ke ln => exists ln', ln = Some ln' /\ line_of (fst ke) (snd ke) ln') (imap pair all_entries) (seq_listing v n st tok 0).
Proof using Hv.
  intros Hn. exists SEQ_START_TOKEN. split_and!; [done..|]. apply (listing_inv n _ SEQ_START_TOKEN 0); [done|lia].
Qed.
End Listing.


(** ** Witnesses *)
Module Demo.
Definition vw : view := mk_view Hashtables.Demo.host (fun i => if Nat.eqb i 0 then Some ReqQueue.Demo.q1 else None) Hashtables.Demo.net PF_INET (fun _ => PF_INET).
Definition tb (i : nat) : list (list nat) := ReqQueue.Demo.T1.
Lemma vw_ok : view_ok vw tb.
Proof.
  split; [done|done| | |].
  - intros b l Hl. apply list_elem_of_lookup_2 in Hl. cbn in Hl. rewrite !elem_of_cons in Hl. repeat destruct Hl as [->|Hl]; try apply NoDup_nil_2; try apply NoDup_singleton. by apply elem_of_nil in Hl.
  - intros b hd [[_ ->]|[_ ->]]%Hashtables.Demo.host_ehash; cbn; split; try apply NoDup_nil_2; apply NoDup_singleton.
  - intros b l i Hl Hi. assert (i = 0%nat) as ->. { apply list_elem_of_lookup_2 in Hl. cbn in Hl. rewrite !elem_of_cons in Hl. repeat destruct Hl as [->|Hl]; try by apply elem_of_nil in Hi. - by apply list_elem_of_singleton in Hi. - by apply elem_of_nil in Hl. }
    exists ReqQueue.Demo.q1, ReqQueue.Demo.jh, ReqQueue.Demo.l1, []. split_and!; [done|apply ReqQueue.Demo.q1_rep|cbn; lia].
Qed.
(** A socket that listens, a request of its table, a connection and a TIME-WAIT socket. *)
Example vw_entries : all_entries vw tb = [ESk 0; ERq 7; ESk 1; ETw 3].
Proof. by vm_compute. Qed.
Example vw_listing : seq_listing vw 9 (fst (tcp_seq_start vw tcp_seq_open 0)) SEQ_START_TOKEN 0 = [Some (Tcp4_sock 0 0); Some (Openreq4 1 0 7); Some (Tcp4_sock 2 1); Some (Timewait4 3 3)].
Proof. by vm_compute. Qed.
Lemma seq_position_ok_witness : let '(st, cur, p) := seq_run vw 0 [Op_next; Op_next; Op_start 2; Op_next; Op_next] in cur = entry_at vw tb p /\ p = 4%nat /\ S (it_num st) = p.
Proof.
  pose proof (seq_position_ok vw tb vw_ok 0 [Op_next; Op_next; Op_start 2; Op_next; Op_next]) as H. assert (E : seq_run vw 0 [Op_next; Op_next; Op_start 2; Op_next; Op_next] = (mk_iter TCP_SEQ_STATE_TIME_WAIT 0 3 1 16 3 4, Some (Entry (ETw 3)), 4%nat)) by (by vm_compute). rewrite E in H |- *. destruct H as [H1 H2]. split; [exact H1|]. split; [reflexivity|exact (H2 _ eq_refl)].
Defined.
Lemma seq_show_typed_witness : exists st p ln, seq_run vw 2 [] = (st, Some (Entry (ERq 7)), p) /\ tcp4_seq_show st (Entry (ERq 7)) = Some ln /\ line_of tb 1 (ERq 7) ln.
Proof.
  assert (E : seq_run vw 2 [] = (mk_iter TCP_SEQ_STATE_OPENREQ 0 16 1 2 1 2, Some (Entry (ERq 7)), 2%nat)) by (by vm_compute). destruct (seq_show_typed vw tb vw_ok 2 [] _ _ _ E) as (ln & H1 & H2). eexists _, _, ln. split; [exact E|by split].
Defined.
Lemma seq_listing_complete_witness : exists st tok, tcp_seq_start vw tcp_seq_open 0 = (st, Some tok) /\ length (seq_listing vw 5 st tok 0) = 4%nat.
Proof.
  pose proof (seq_listing_complete vw tb vw_ok tcp_seq_open 5 ltac:(vm_compute; lia)) as H. destruct (tcp_seq_start vw tcp_seq_open 0) as [st cur]. destruct H as (tok & -> & _ & H). exists st, tok. split; [done|]. by rewrite <- (Forall2_length _ _ _ H).
Defined.
End Demo.
