(* ===== verification/Connect.v ===== *)
(** * The active open

    net/ipv4/tcp_ipv4.c: tcp_v4_connect, which routes the connection, chooses the addresses and the
    port, puts the socket into the table of connections and starts the handshake, and
    tcp_twsk_unique, which lets a TIME-WAIT socket with the same four-tuple give way.

    The routing code, tcp_connect (tcp_output.c) and what tcp_set_state (tcp.c) does to the tables
    are outside of the repository: fields of the class [ConnEnv].  The capabilities of the route and
    the statistics are left out. *)

From stdpp Require Import gmap.
From S2P Require Import Prelude TcpTypes Kernel ReqQueue Minisocks Hashtables Md5 Reply Icmp Listen Child.

Record sockaddr_in := mk_sin { sin_family : Z; sin_addr : Z; sin_port : Z }.
(** struct ip_options: the strict or loose source route, its first hop, and the length. *)
Record ip_options := mk_ip_options { srr : bool; faddr : Z; optlen : Z }.
(** The socket, and the members of struct inet_sock that the tables do not look at. *)
#[projections(primitive)]
Record conn_sock := mk_conn_sock {
  cn_sk : sock;
  inet_saddr : Z;
  inet_id : Z;
  icsk_ext_hdr_len : Z;
  inet_opt : option ip_options;
  bindport_lock : bool (* sk_userlocks & SOCK_BINDPORT_LOCK *)
}.
Definition eta_conn_sock (r : conn_sock) : conn_sock := mk_conn_sock (cn_sk r) (inet_saddr r) (inet_id r) (icsk_ext_hdr_len r) (inet_opt r) (bindport_lock r).
#[export] Instance set_cn_sk : Setter cn_sk. Proof. solve_setter eta_conn_sock. Defined.
#[export] Instance set_inet_saddr : Setter inet_saddr. Proof. solve_setter eta_conn_sock. Defined.
#[export] Instance set_inet_id : Setter inet_id. Proof. solve_setter eta_conn_sock. Defined.
#[export] Instance set_icsk_ext_hdr_len : Setter icsk_ext_hdr_len. Proof. solve_setter eta_conn_sock. Defined.
#[export] Instance set_bindport_lock : Setter bindport_lock. Proof. solve_setter eta_conn_sock. Defined.

Class ConnEnv (D : Type) := {
  sizeof_sockaddr_in : Z;
  sysctl_tcp_tw_reuse : bool;
  ip_route_connect : Z -> Z -> Z -> Z -> Z -> errno + (D * Z * Z); (* next hop, source, device, ports: the route, and fl4->daddr and fl4->saddr *)
  rt_multi : D -> bool; (* rt->rt_flags & (RTCF_MULTICAST | RTCF_BROADCAST) *)
  ip_route_newports : D -> Z -> Z -> Z -> Z -> errno + D;
  tcp_connect : sock -> option errno * sock;
  tcp_set_state_tables : inet_hashinfo -> nat -> bool -> tcp_state -> inet_hashinfo; (* with SOCK_BINDPORT_LOCK *)
}.

Section Active.
Context {K : Kernel} {H : HashEnv} {D : Type} {LE : ListenEnv D} {CE : ChildEnv D} {E : ConnEnv D}.
(** The TIME-WAIT sockets of the table. *)
Context (tws : nat -> timewait_sock).
Implicit Types (sk : sock) (c : conn_sock) (h : inet_hashinfo) (isk : inet_sock) (i : nat).

(** [twp] says that the caller takes the TIME-WAIT socket.  The socket when the return value is 1. *)
Definition tw_may_go (tw : timewait_sock) (twp : bool) : bool :=
  negb (tw_ts_recent_stamp tw =? 0) && (negb twp || (sysctl_tcp_tw_reuse && (u64 (get_seconds - tw_ts_recent_stamp tw) >? 1))).
Definition tcp_twsk_unique sk (tw : timewait_sock) (twp : bool) : option sock :=
  if tw_may_go tw twp then
    let sk := sk <| tp; write_seq := u32 (tw_snd_nxt tw + 65535 + 2) |> in
    let sk := if write_seq (tp sk) =? 0 then sk <| tp; write_seq := 1 |> else sk in
    Some (sk <| tp; rx_opt; ts_recent := tw_ts_recent tw |> <| tp; rx_opt; ts_recent_stamp := tw_ts_recent_stamp tw |>)
  else None.
(** The TIME-WAIT socket that gave way to [i] in __inet_hash_connect, and whether by the loop over the
    ports. *)
Definition recycled h i (hint : Z) : option (nat * bool) :=
  match socks h !! i with
  | None => None
  | Some sk =>
    if inet_num sk =? 0 then
      let '(low, high) := inet_get_local_port_range in
      match connect_port (Z.to_nat (high - low + 1)) h i (sk_net sk) 1 low (high - low + 1) (u32 (hint + inet_sk_port_offset sk)) with
      | Some (_, _, _, _, Some t) => Some (t, true)
      | _ => None
      end
    else
      let sole := match icsk_bind_hash sk ≫= (fun b => tbs h !! b) with Some tb => bool_decide (owners tb = [i]) | None => false end in
      if sole then None
      else
        let hash := inet_ehashfn (sk_net sk) (inet_rcv_saddr sk) (inet_num sk) (inet_daddr sk) (inet_dport sk) in
        let same (isk2 : inet_sock) := INET_MATCH isk2 (sk_net sk) hash (INET_ADDR_COOKIE (inet_daddr sk) (inet_rcv_saddr sk)) (INET_COMBINED_PORTS (inet_dport sk) (inet_num sk)) (sk_bound_dev_if sk) in
        (fun t => (t, false)) <$> find_sock h same (twchain (ehash_at h hash))
  end.
(** inet_hash_connect with its calls of tcp_twsk_unique, which leave their marks in the socket when
    they return 1. *)
Definition hash_connect h i (hint : Z) sk : option inet_hashinfo * Z * sock :=
  let '(r, hint') := inet_hash_connect h i hint in
  (r, hint', match r, recycled h i hint with Some _, Some (t, twp) => default sk (tcp_twsk_unique sk (tws t) twp) | _, _ => sk end).

(** From the route to the peer table: what is inherited from an earlier connection *)
Definition connect_stamps isk sk (rt : D) (fl_daddr daddr : Z) : sock :=
  let sk := if negb (ts_recent_stamp (rx_opt (tp sk)) =? 0) && negb (inet_daddr isk =? daddr)
            then sk <| tp; rx_opt; ts_recent := 0 |> <| tp; rx_opt; ts_recent_stamp := 0 |> <| tp; write_seq := 0 |> else sk in
  if sysctl_tw_recycle && (ts_recent_stamp (rx_opt (tp sk)) =? 0) && (fl_daddr =? daddr) then
    match rt_get_peer rt fl_daddr with
    | Some pe => if u32 (u32 get_seconds - tcp_ts_stamp pe) <=? TCP_PAWS_MSL then sk <| tp; rx_opt; ts_recent_stamp := tcp_ts_stamp pe |> <| tp; rx_opt; ts_recent := tcp_ts pe |> else sk
    | None => sk
    end
  else sk.
(** The label failure *)
Definition connect_failure h i c (err : errno) (hint : Z) : option errno * inet_hashinfo * conn_sock * Z :=
  (Some err, upd_sock (tcp_set_state_tables h i (bindport_lock c) TCP_CLOSE) i (fun isk => isk <| inet_dport := 0 |>), c <| cn_sk := (tcp_set_state (cn_sk c) TCP_CLOSE) <| sk_route_caps := 0 |> |>, hint).
(** From the socket in the tables on *)
Definition connect_commit h i c (rt : D) (orig_sport orig_dport dport hint : Z) : option errno * inet_hashinfo * conn_sock * Z :=
  match socks h !! i with
  | None => connect_failure h i c EINVAL hint (* not reached: [i] is a socket *)
  | Some isk =>
    match ip_route_newports rt orig_sport orig_dport (inet_sport isk) (inet_dport isk) with
    | inl err => connect_failure h i c err hint
    | inr rt =>
      let sk := sk_setup_caps (cn_sk c) rt in
      let sk := if write_seq (tp sk) =? 0 then sk <| tp; write_seq := secure_tcp_sequence_number (inet_saddr c) (inet_daddr isk) (inet_sport isk) dport |> else sk in
      let c := c <| inet_id := u16 (Z.lxor (write_seq (tp sk)) jiffies) |> in
      let '(err, sk) := tcp_connect sk in
      let c := c <| cn_sk := sk |> in
      match err with Some err => connect_failure h i c err hint | None => (None, h, c, hint) end
    end
  end.
(** The error, the tables, the socket and the static variable hint of __inet_hash_connect. *)
Definition tcp_v4_connect h i c (usin : sockaddr_in) (addr_len hint : Z) : option errno * inet_hashinfo * conn_sock * Z :=
  let fail e := (Some e, h, c, hint) in
  if addr_len <? sizeof_sockaddr_in then fail EINVAL
  else if negb (sin_family usin =? PF_INET) then fail EAFNOSUPPORT
  else
    let srr := match inet_opt c with Some o => srr o | None => false end in
    let nexthop := match inet_opt c with Some o => if srr then faddr o else sin_addr usin | None => sin_addr usin end in
    match socks h !! i with
    | None => fail EINVAL
    | Some isk =>
      if srr && (sin_addr usin =? 0) then fail EINVAL
      else match ip_route_connect nexthop (inet_saddr c) (sk_bound_dev_if isk) (inet_sport isk) (sin_port usin) with
      | inl err => fail err
      | inr (rt, fl_daddr, fl_saddr) =>
        if rt_multi rt then fail ENETUNREACH
        else
          let daddr := if srr then sin_addr usin else fl_daddr in
          let c := if inet_saddr c =? 0 then c <| inet_saddr := fl_saddr |> else c in
          let sk := connect_stamps isk (cn_sk c) rt fl_daddr daddr in
          let c := c <| icsk_ext_hdr_len := match inet_opt c with Some o => optlen o | None => 0 end |> in
          let sk := sk <| tp; rx_opt; mss_clamp := TCP_MSS_DEFAULT |> in
          let h := upd_sock h i (fun isk => isk <| inet_rcv_saddr := inet_saddr c |> <| inet_dport := sin_port usin |> <| inet_daddr := daddr |>) in
          let sk := tcp_set_state sk TCP_SYN_SENT in
          let h := tcp_set_state_tables h i (bindport_lock c) TCP_SYN_SENT in
          let '(r, hint, sk) := hash_connect h i hint sk in
          let c := c <| cn_sk := sk |> in
          match r with
          | None => connect_failure h i c EADDRNOTAVAIL hint
          | Some h => connect_commit h i c rt (inet_sport isk) (sin_port usin) (sin_port usin) hint
          end
      end
    end.
End Active.

(** Documented behaviour: tcp_set_state records the state; with TCP_CLOSE it unhashes the socket and
    releases a port that was not chosen by the user.  The routing code gives IPv4 addresses. *)
Class ConnLaws {D : Type} {K : Kernel} {H : HashEnv} (E : ConnEnv D) (tws : nat -> timewait_sock) : Prop := {
  tables_close h i lock : tcp_set_state_tables h i lock TCP_CLOSE =
    (let h := inet_unhash h i in let h := if lock then h else inet_put_port h i in upd_sock h i (fun isk => isk <| isk_state := TCP_CLOSE |>));
  tables_syn_sent h i lock : tcp_set_state_tables h i lock TCP_SYN_SENT = upd_sock h i (fun isk => isk <| isk_state := TCP_SYN_SENT |>);
  route_addrs a b c d e rt x y : ip_route_connect a b c d e = inr (rt, x, y) -> is_u32 x /\ is_u32 y;
  unique_spec i t twp : twsk_unique i t twp = tw_may_go (tws t) twp;
}.

(** ** The tables *)
Section Tables.
Context {H : HashEnv} {L : HashLaws H}.
Implicit Types (h : inet_hashinfo) (sk : inet_sock) (i j : nat).

(** What connecting and closing leave alone in a socket. *)
Definition addr_of sk := (sk_net sk, isk_state sk, sk_bound_dev_if sk, inet_rcv_saddr sk, inet_daddr sk, inet_dport sk).
Definition same_addrs h h' : Prop := forall j, addr_of <$> socks h' !! j = addr_of <$> socks h !! j.
Lemma addrs_refl h : same_addrs h h.
Proof using Type. done. Qed.
Lemma addrs_trans h1 h2 h3 : same_addrs h1 h2 -> same_addrs h2 h3 -> same_addrs h1 h3.
Proof using Type. intros H1 H2 j. by rewrite H2. Qed.
Lemma addrs_upd h i g : (forall sk, addr_of (g sk) = addr_of sk) -> same_addrs h (upd_sock h i g).
Proof using Type. intros Hg j. destruct (decide (i = j)) as [->|Hj]; [|by rewrite upd_sock_other]. rewrite upd_sock_same. destruct (socks h !! j) as [sk|]; [|done]. cbn. by rewrite Hg. Qed.
Lemma addrs_socks h h' : socks h' = socks h -> same_addrs h h'.
Proof using Type. intros E j. by rewrite E. Qed.
Lemma addrs_ehash_add h i hash : same_addrs h (ehash_add h i hash).
Proof using Type. intros j. rewrite ehash_add_socks. case_decide; [|done]. by destruct (socks h !! j). Qed.
Lemma addrs_bind h i b snum : same_addrs h (inet_bind_hash h i b snum).
Proof using Type. intros j. rewrite bind_hash_socks. case_decide; [|done]. by destruct (socks h !! j). Qed.
Lemma addrs_unlink_tw h t : same_addrs h (unlink_tw h t).
Proof using Type. intros j. rewrite unlink_tw_socks. case_decide; [|done]. by destruct (socks h !! j). Qed.
Lemma addrs_unbind_tw h t : same_addrs h (unbind_tw h t).
Proof using Type.
  unfold unbind_tw. destruct (icsk_bind_hash <$> socks h !! t) as [[b|]|]; [|done..]. set (h1 := upd_sock _ t _). intros j. destruct (destroy_frame h1 b) as (-> & _). revert j. change (same_addrs h h1). eapply addrs_trans; [|by apply addrs_upd]. by apply addrs_socks.
Qed.
Lemma addrs_nolisten h i tw : same_addrs h (inet_hash_nolisten h i tw).
Proof using L.
  unfold inet_hash_nolisten. destruct (socks h !! i) as [sk|]; [|done]. cbn zeta. destruct tw as [t|]; [rewrite tw_unhash_spec; eapply addrs_trans; [|apply addrs_unlink_tw]|]; (eapply addrs_trans; [|apply addrs_ehash_add]; by apply addrs_upd).
Qed.
Lemma addrs_check h i lport twp h' tw : inet_check_established h i lport twp = Some (h', tw) -> same_addrs h h'.
Proof using L.
  unfold inet_check_established. destruct (socks h !! i) as [sk|]; [|done]. cbn zeta. set (hash := inet_ehashfn _ _ _ _ _). assert (Hu : forall tw, same_addrs h (fst (check_unique h i lport hash tw twp))).
  { intros tw'. unfold check_unique. cbn zeta. set (h1 := ehash_add _ i hash). assert (H1 : same_addrs h h1) by (eapply addrs_trans; [|apply addrs_ehash_add]; by apply addrs_upd). destruct tw' as [t|]; [|done]. rewrite tw_unhash_spec, tw_deschedule_spec. destruct twp; cbn [fst]; [|eapply addrs_trans; [|apply addrs_unbind_tw]; eapply addrs_trans; [|apply addrs_unlink_tw]]; (eapply addrs_trans; [exact H1|apply addrs_unlink_tw]). }
  assert (Hd : forall tw', Some (check_unique h i lport hash tw' twp) = Some (h', tw) -> same_addrs h h') by (intros tw' E; specialize (Hu tw'); destruct (check_unique h i lport hash tw' twp); by injection E as <- <-).
  destruct (find_sock h _ (twchain _)) as [t|]; [case_if_as Hq; [apply Hd|done]|]. destruct (find_sock h _ (chain _)); [done|apply Hd].
Qed.
Lemma addrs_connect_port n h i net low remaining offset : forall round, match connect_port n h i net round low remaining offset with Some (_, _, _, h', _) => same_addrs h h' | None => True end.
Proof using L.
  induction n as [|n IH]; intros round; cbn [connect_port]; [done|]. cbn zeta. set (snum := low + _). clearbody snum. case_if_as Hr; [apply IH|]. destruct (find_tb h net snum) as [b|].
  - case_if_as Hf; [apply IH|]. destruct (inet_check_established h i snum true) as [[h' tw]|] eqn:Ec; [by eapply addrs_check|apply IH].
  - unfold inet_bind_bucket_create. destruct (bind_bucket_alloc (tbs h)); [|done]. by apply addrs_socks.
Qed.
Lemma addrs_connect h i hint h' : fst (inet_hash_connect h i hint) = Some h' -> same_addrs h h'.
Proof using L.
  unfold inet_hash_connect. destruct (socks h !! i) as [sk|] eqn:Hi; [|done]. unfold inet_hash_connect_. rewrite Hi. case_if_as Hz.
  - unfold inet_get_local_port_range. cbn iota zeta. set (low := local_ports_low). set (rem := local_ports_high - low + 1). set (offset := u32 _). pose proof (addrs_connect_port (Z.to_nat rem) h i (sk_net sk) low rem offset 1) as Hp. destruct (connect_port _ _ _ _ _ _ _ _) as [[[[[round snum] b] h1] tw]|]; [|done]. cbn. intros [= <-]. eapply addrs_trans; [exact Hp|]. unfold connect_bind. cbn zeta.
    set (h2 := inet_bind_hash h1 i b snum). assert (H2 : same_addrs h1 h2) by apply addrs_bind. set (h3 := if on_sock h2 i sk_unhashed then _ else _). assert (H3 : same_addrs h1 h3) by (unfold h3; case_if_as Hs; [|done]; eapply addrs_trans; [exact H2|]; eapply addrs_trans; [|apply addrs_nolisten]; by apply addrs_upd).
    destruct tw as [t|]; [|done]. rewrite tw_bind_spec, tw_deschedule_spec. eapply addrs_trans; [exact H3|]. eapply addrs_trans; [apply addrs_unbind_tw|]. eapply addrs_trans; [apply addrs_unlink_tw|apply addrs_unbind_tw].
  - cbn zeta. case_if_as Hs; cbn [fst]; [intros [= <-]; apply addrs_nolisten|]. destruct (inet_check_established h i (inet_num sk) false) as [[h1 tw]|] eqn:Ec; [|done]. cbn. intros [= <-]. by eapply addrs_check.
Qed.

(** *** Taking a socket off its chain *)
Lemma del_lookup h i s hd : ehash (sk_nulls_del_node_init h i) !! s = Some hd -> exists hd0, ehash h !! s = Some hd0 /\ chain hd = drop_id i (chain hd0) /\ twchain hd = twchain hd0.
Proof using Type. unfold sk_nulls_del_node_init, upd_sock. cbn. rewrite list_lookup_fmap. destruct (ehash h !! s) as [hd0|]; [|done]. cbn. intros [= <-]. by exists hd0. Qed.
Lemma del_listen h i s l : listening_hash (sk_nulls_del_node_init h i) !! s = Some l -> exists l0, listening_hash h !! s = Some l0 /\ l = drop_id i l0.
Proof using Type. unfold sk_nulls_del_node_init, upd_sock. cbn. rewrite list_lookup_fmap. destruct (listening_hash h !! s) as [l0|]; [|done]. cbn. intros [= <-]. by exists l0. Qed.
Lemma del_hashed h i j : hashed (sk_nulls_del_node_init h i) j -> hashed h j /\ j <> i.
Proof using Type. intros (s & hd & Hd & Hj). apply del_lookup in Hd as (hd0 & Hd & E1 & _). rewrite E1, drop_id_in in Hj. destruct Hj as [Hj Hn]. split; [by exists s, hd0|done]. Qed.
Lemma del_tw h i j : tw_hashed (sk_nulls_del_node_init h i) j -> tw_hashed h j.
Proof using Type. intros (s & hd & Hd & Hj). apply del_lookup in Hd as (hd0 & Hd & _ & E1). rewrite E1 in Hj. by exists s, hd0. Qed.
Lemma del_listening h i j : listening (sk_nulls_del_node_init h i) j -> listening h j /\ j <> i.
Proof using Type. intros (s & l & Hd & Hj). apply del_listen in Hd as (l0 & Hd & ->). apply drop_id_in in Hj as [Hj Hn]. split; [by exists s, l0|done]. Qed.
Lemma del_socks h i j : socks (sk_nulls_del_node_init h i) !! j = if decide (j = i) then (fun sk => sk <| sk_linked := false |>) <$> socks h !! j else socks h !! j.
Proof using Type. unfold sk_nulls_del_node_init, upd_sock. cbn. destruct (decide (j = i)) as [->|Hn]; [by rewrite lookup_alter_eq|by rewrite lookup_alter_ne]. Qed.
Lemma del_hash_inv h i : hash_inv h -> ~ tw_hashed h i -> hash_inv (sk_nulls_del_node_init h i).
Proof using Type.
  intros [Hm Hs Hc Hl] Hn. split; [unfold sk_nulls_del_node_init, upd_sock; cbn; by rewrite length_fmap|unfold sk_nulls_del_node_init, upd_sock; cbn; by rewrite length_fmap| |].
  - intros s hd j Hd Hj. apply del_lookup in Hd as (hd0 & Hd & E1 & E2). rewrite E1, E2, drop_id_in in Hj. assert (Hji : j <> i) by (intros ->; destruct Hj as [[_ ?]|Hj]; [done|]; apply Hn; by exists s, hd0). destruct (Hc s hd0 j Hd ltac:(tauto)) as [(skj & F)]. split. exists skj. by rewrite del_socks, decide_False.
  - intros s l j Hd Hj. apply del_listen in Hd as (l0 & Hd & ->). apply drop_id_in in Hj as [Hj Hji]. destruct (Hl s l0 j Hd Hj) as (skj & F). exists skj. by rewrite del_socks, decide_False.
Qed.
(** Off its chain: [i] is on none, and everybody else is as before. *)
Record closed_sock h i sk h' : Prop := {
  cl_conn : conn_inv h';
  cl_off : off_chain h' i;
  cl_self : socks h' !! i = Some sk;
  cl_other : forall j, j <> i -> socks h' !! j = socks h !! j;
}.
Lemma unhash_ok h i sk : conn_inv h -> hashed h i \/ off_chain h i /\ sk_linked sk = false -> socks h !! i = Some sk -> closed_sock h i (sk <| sk_linked := false |>) (inet_unhash h i).
Proof using Type.
  intros Hc Hh Hi. unfold inet_unhash, on_sock. rewrite Hi. unfold sk_unhashed. destruct Hh as [Hh|[Ho Hl]].
  - assert (Htw : ~ tw_hashed h i) by (intros Ht; by destruct (ci_apart _ h Hc i Ht)). pose proof Hh as (s & hd & Hd & Hin). destruct (hi_chain h (ci_hash _ h Hc) s hd i Hd (or_introl Hin)) as [(sk0 & F1 & _ & _ & _ & F2)]. rewrite Hi in F1. injection F1 as <-. rewrite F2. cbn [negb].
    assert (Hso : forall j, j <> i -> socks (sk_nulls_del_node_init h i) !! j = socks h !! j) by (intros j Hj; by rewrite del_socks, decide_False). assert (Hon : forall j, on_table (sk_nulls_del_node_init h i) j -> on_table h j /\ j <> i) by (intros j [[Hj Hn]%del_hashed|Hj%del_tw]; [split; [by left|done]|split; [by right|congruence]]).
    split; [|split_and!; [by intros [_ ?]%del_hashed|by intros Ht%del_tw|by intros [_ ?]%del_listening]|by rewrite del_socks, decide_True, Hi|done]. destruct Hc as [H1 H2 H3 H4 H5]. split.
    + by apply del_hash_inv.
    + apply (same_bind_inv h); [|done]. split; [done|]. intros j. rewrite del_socks. case_decide; [|done]. by destruct (socks h !! j).
    + intros j1 j2 s1 s2 [J1 N1]%Hon [J2 N2]%Hon. rewrite !Hso by done. by apply H3.
    + intros j skj [Hj Hn]%Hon _. rewrite Hso by done. by apply H4.
    + intros j Hj%del_tw. destruct (H5 j Hj) as [A1 A2]. split; [by intros [? _]%del_hashed|by intros [? _]%del_listening].
  - rewrite Hl. cbn [negb]. assert (Es : sk <| sk_linked := false |> = sk) by (rewrite <- Hl; done). split; [done|done|by rewrite Es|done].
Qed.
Lemma put_closed h i sk h1 lock : closed_sock h i sk h1 -> exists sk', closed_sock h i sk' (if lock : bool then h1 else inet_put_port h1 i) /\ addr_of sk' = addr_of sk /\ icsk_bind_hash sk' = (if lock then icsk_bind_hash sk else None) /\ sk_linked sk' = sk_linked sk.
Proof using Type.
  intros Hcl. pose proof Hcl as [Hc Ho Hi Hj]. destruct lock; [by exists sk|]. destruct (icsk_bind_hash sk) as [b|] eqn:Eb; [|exists sk; unfold inet_put_port; rewrite Hi; cbn; by rewrite Eb].
  destruct (bi_bound h1 (ci_bind _ h1 Hc) i sk b Hi Eb) as (tb & Ht & _). destruct (put_port_ok h1 i sk b tb (ci_bind _ h1 Hc) Hi Eb Ht) as (P1 & _ & _ & P4 & _). exists (sk <| icsk_bind_hash := None |> <| inet_num := 0 |>). assert (Hs : same_tables h1 (inet_put_port h1 i) /\ socks (inet_put_port h1 i) !! i = Some (sk <| icsk_bind_hash := None |> <| inet_num := 0 |>)).
  { unfold inet_put_port in P4 |- *. rewrite Hi in P4 |- *. change (icsk_bind_hash <$> Some sk) with (Some (icsk_bind_hash sk)) in P4 |- *. rewrite Eb in P4 |- *. cbn zeta in P4 |- *. set (h2 := upd_sock _ i _) in *. destruct (destroy_frame h2 b) as (F1 & F2 & F3 & F4). split; [|rewrite F1; unfold h2; rewrite upd_sock_same; cbn; by rewrite Hi]. split_and!; [by rewrite F2|by rewrite F3|by rewrite F4|]. intros j. destruct (decide (j = i)) as [->|Hn]; [by left|right; by rewrite P4]. }
  destruct Hs as [Hs Hsi]. split; [|done]. destruct (off_keeps _ i h1 (inet_put_port h1 i) Hc Ho Hs P1 P4) as (K1 & K2 & K3). split; [done|by apply (same_off h1)|done|]. intros j Hn. rewrite P4 by done. by apply Hj.
Qed.
Lemma upd_closed h i sk h1 g : closed_sock h i sk h1 -> binding (g sk) = binding sk -> closed_sock h i (g sk) (upd_sock h1 i g).
Proof using Type.
  intros [Hc Ho Hi Hj] Hg. split; [by apply (claim_ok _ h1 i sk)|by apply off_upd|by rewrite upd_sock_same, Hi|]. intros j Hn. rewrite upd_sock_other by done. by apply Hj.
Qed.
End Tables.

(** ** Connecting *)
Section Opened.
Context {K : Kernel} {SL : StateLaws K} {H : HashEnv} {L : HashLaws H} {D : Type} {LE : ListenEnv D} {CE : ChildEnv D} {E : ConnEnv D} (tws : nat -> timewait_sock) {CL : ConnLaws E tws}.
Implicit Types (sk : sock) (c : conn_sock) (h : inet_hashinfo) (isk : inet_sock) (i j : nat).

(** A socket of the table is what a segment with its addresses finds. *)
Lemma table_found h i isk : conn_inv h -> hashed h i -> socks h !! i = Some isk -> inet_lookup_established_ h (sk_net isk) (inet_daddr isk) (inet_dport isk) (inet_rcv_saddr isk) (inet_num isk) (sk_bound_dev_if isk) = Some i.
Proof using Type.
  intros Hc Hh Hi. assert (Ht : on_table h i) by (by left). pose proof Hh as (s & hd & Hs & Hin). destruct (hi_chain h (ci_hash _ h Hc) s hd i Hs (or_introl Hin)) as [(sk0 & F1 & (W1 & W2 & W3 & W4) & _)]. rewrite Hi in F1. injection F1 as <-. pose proof (lookup_established_spec h (sk_net isk) (inet_daddr isk) (inet_dport isk) (inet_rcv_saddr isk) (inet_num isk) (sk_bound_dev_if isk) (ci_hash _ h Hc) W2 W4) as Hl. cbn zeta in Hl.
  destruct (inet_lookup_established_ h _ _ _ _ _ _) as [j|].
  - destruct Hl as [(skj & Hj & Hf) Hl]. assert (Hjt : on_table h j) by (destruct Hl as [?|[? _]]; [by left|by right]). f_equal. apply (ci_uniq _ h Hc j i skj isk); [done..|]. unfold same_flow in Hf. rewrite !andb_true_iff, !Z.eqb_eq in Hf. unfold flow_key. destruct Hf as [[[[[E1 E2] E3] E4] E5] _]. congruence.
  - specialize (Hl i isk Ht Hi). assert (Hf : same_flow (sk_net isk) (inet_daddr isk) (inet_dport isk) (inet_rcv_saddr isk) (inet_num isk) (sk_bound_dev_if isk) isk = true) by (apply (same_flow_key isk (inet_num isk) isk); [by right|done]). congruence.
Qed.
(** The label failure leaves a closed socket on no chain. *)
Definition failed h' i c c' : Prop :=
  conn_inv h' /\ off_chain h' i /\ sk_state (cn_sk c') = TCP_CLOSE /\
  exists isk', socks h' !! i = Some isk' /\ isk_state isk' = TCP_CLOSE /\ inet_dport isk' = 0 /\ sk_linked isk' = false /\ (bindport_lock c = false -> icsk_bind_hash isk' = None).
Lemma failure_ok h i isk c err hint : conn_inv h -> hashed h i \/ off_chain h i /\ sk_linked isk = false -> socks h !! i = Some isk -> let '(e', h', c', _) := connect_failure h i c err hint in e' = Some err /\ failed h' i c c'.
Proof using SL CL.
  intros Hc Hh Hi. unfold connect_failure. rewrite tables_close. cbn zeta iota. split; [done|]. pose proof (unhash_ok h i isk Hc Hh Hi) as H1. destruct (put_closed h i _ _ (bindport_lock c) H1) as (s2 & H2 & A2 & B2 & L2).
  pose (g1 := fun s : inet_sock => s <| isk_state := TCP_CLOSE |>). pose (g2 := fun s : inet_sock => s <| inet_dport := 0 |>). destruct (upd_closed h i _ _ g2 (upd_closed h i s2 _ g1 H2 eq_refl) eq_refl) as [C1 C2 C3 _]. split; [exact C1|]. split; [exact C2|]. split; [cbn; by rewrite set_state_spec|]. eexists. split; [exact C3|]. split_and!; [done|done|exact L2|]. intros Hb. rewrite Hb in B2. exact B2.
Qed.
(** C16. The active open.  On success the socket is in SYN-SENT and in the table of connections, which
    stays consistent and without two sockets of the same four-tuple; it has the address and port that
    were asked for, the source address it was bound to or that of the route, and the port it was bound
    to or one of the range that is not reserved; and the answer of the peer finds it.  An error in the
    arguments or of the route changes nothing; after any later one the socket is closed and on no
    chain, has no peer, and has given back a port that the user did not choose.  (While no connection
    in the table is bound to another device than this socket, [dev_ok]: with SO_BINDTODEVICE two
    sockets may have the same four-tuple.) *)
Theorem tcp_v4_connect_ok h i isk c usin addr_len hint err h' c' hint' : conn_inv h -> off_chain h i -> socks h !! i = Some isk -> sk_linked isk = false -> dev_ok h isk -> (inet_num isk = 0 <-> icsk_bind_hash isk = None) ->
  is_u16 (inet_num isk) -> is_u32 (inet_saddr c) -> is_u32 (sin_addr usin) -> is_u16 (sin_port usin) -> 0 <= local_ports_low <= local_ports_high -> local_ports_high < 2 ^ 16 ->
  tcp_v4_connect tws h i c usin addr_len hint = (err, h', c', hint') ->
  match err with
  | None => conn_inv h' /\ exists isk', socks h' !! i = Some isk' /\ (isk_state isk', inet_rcv_saddr isk', inet_dport isk') = (TCP_SYN_SENT, inet_saddr c', sin_port usin) /\
      (inet_saddr c <> 0 -> inet_saddr c' = inet_saddr c) /\ (if inet_num isk =? 0 then port_in local_ports_low local_ports_high (inet_num isk') else inet_num isk' = inet_num isk) /\
      inet_lookup_established_ h' (sk_net isk) (inet_daddr isk') (inet_dport isk') (inet_rcv_saddr isk') (inet_num isk') (sk_bound_dev_if isk) = Some i
  | Some _ => (h', c', hint') = (h, c, hint) \/ failed h' i c c'
  end.
Proof using SL L CL.
  intros Hc Ho Hi Hl Hd Hn W1 W2 W3 W4 Hr1 Hr2. unfold tcp_v4_connect. cbn zeta. case_if_as Ha; [intros [= <- <- <- <-]; by left|]. case_if_as Hf; [intros [= <- <- <- <-]; by left|]. rewrite Hi. case_if_as Hs; [intros [= <- <- <- <-]; by left|]. destruct (ip_route_connect _ _ _ _ _) as [e|[[rt fd] fs]] eqn:Er; [intros [= <- <- <- <-]; by left|]. case_if_as Hm; [intros [= <- <- <- <-]; by left|].
  apply route_addrs in Er as [Hfd Hfs]. set (daddr := if _ : bool then sin_addr usin else fd). assert (Hda : is_u32 daddr) by (unfold daddr; by case_if_as Hq). clearbody daddr. set (c1 := if inet_saddr c =? 0 then c <| inet_saddr := fs |> else c). assert (Hc1 : is_u32 (inet_saddr c1) /\ (inet_saddr c <> 0 -> inet_saddr c1 = inet_saddr c) /\ bindport_lock c1 = bindport_lock c) by (unfold c1; case_if_as Hz; [apply Z.eqb_eq in Hz|]; split_and!; done).
  destruct Hc1 as (V1 & V2 & V3). clearbody c1. match goal with |- context [c1 <| icsk_ext_hdr_len := ?x |>] => set (c2 := c1 <| icsk_ext_hdr_len := x |>) end. set (isk1 := isk <| inet_rcv_saddr := inet_saddr c1 |> <| inet_dport := sin_port usin |> <| inet_daddr := daddr |> <| isk_state := TCP_SYN_SENT |>).
  rewrite tables_syn_sent. change (inet_saddr c2) with (inet_saddr c1). set (h0 := upd_sock h i _). set (h1 := upd_sock h0 i _). assert (Hc0 : closed_sock h i isk h) by (by split). pose (g1 := fun s : inet_sock => s <| inet_rcv_saddr := inet_saddr c1 |> <| inet_dport := sin_port usin |> <| inet_daddr := daddr |>). pose (g2 := fun s : inet_sock => s <| isk_state := TCP_SYN_SENT |>). assert (H1 : closed_sock h i isk1 h1) by exact (upd_closed h i (g1 isk) h0 g2 (upd_closed h i isk h g1 Hc0 eq_refl) eq_refl).
  assert (Eh : ehash h1 = ehash h) by done. clearbody h1. clear h0. destruct H1 as [K1 K2 K3 K4].
  assert (Hd1 : dev_ok h1 isk1) by (intros j skj Hj Ej; assert (Hji : j <> i) by (intros ->; by apply (on_table_off h1 i)); rewrite K4 in Ej by done; apply (Hd j); [|done]; unfold on_table, hashed, tw_hashed in *; by rewrite <- Eh).
  unfold hash_connect. pose proof (hash_connect_spec h1 i isk1 hint K1 K2 K3 ltac:(by split_and!) Hl Hd1 Hn Hr1 Hr2) as Hh. pose proof (addrs_connect h1 i hint) as Had. destruct (inet_hash_connect h1 i hint) as [r hint1]. cbn [fst] in Hh, Had. match goal with |- context [c2 <| cn_sk := ?x |>] => set (c3 := c2 <| cn_sk := x |>) end. assert (Hc3 : inet_saddr c3 = inet_saddr c1 /\ bindport_lock c3 = bindport_lock c) by done. clearbody c3. destruct Hc3 as [Es Eb]. destruct r as [h2|].
  - destruct Hh as (G1 & G2 & isk2 & G3 & G4). specialize (Had h2 eq_refl i). rewrite K3, G3 in Had. cbn in Had. injection Had as A1 A2 A3 A4 A5 A6. unfold connect_commit. rewrite G3. assert (Hfail : forall e hint2 c4, bindport_lock c4 = bindport_lock c -> connect_failure h2 i c4 e hint2 = (err, h', c', hint') -> is_Some err /\ failed h' i c c').
    { intros e hint2 c4 Eb4 Eq. pose proof (failure_ok h2 i isk2 c4 e hint2 G1 (or_introl G2) G3) as Hx. rewrite Eq in Hx. destruct Hx as [-> Hx]. split; [done|]. unfold failed in *. by rewrite Eb4 in Hx. }
    destruct (ip_route_newports _ _ _ _ _) as [e|rt']; [intros Eq; apply (Hfail e hint1 c3 Eb) in Eq as [[e' ->] Hx]; by right|]. cbn zeta. set (sk4 := if write_seq _ =? 0 then _ else _). destruct (tcp_connect sk4) as [[e|] sk5]; [intros Eq; apply Hfail in Eq as [[e' ->] Hx]; [by right|done]|]. intros Eq. injection Eq as <- <- <- <-. split; [done|]. exists isk2. split; [done|]. split_and!.
    + change ((isk_state isk2, inet_rcv_saddr isk2, inet_dport isk2) = (TCP_SYN_SENT, inet_saddr c3, sin_port usin)). rewrite Es. by f_equal; [f_equal|].
    + intros Hx. change (inet_saddr c3 = inet_saddr c). rewrite Es. by apply V2.
    + exact G4.
    + assert (Ef := table_found h2 i isk2 G1 G2 G3). rewrite A1, A3 in Ef. exact Ef.
  - intros Eq. pose proof (failure_ok h1 i isk1 c3 EADDRNOTAVAIL hint1 K1 (or_intror (conj K2 Hl)) K3) as Hx. rewrite Eq in Hx. destruct Hx as [-> Hx]. right. unfold failed in *. by rewrite Eb in Hx.
Qed.

(** *** Taking the place of a TIME-WAIT socket *)
Lemma check_tw h i lport h' t : inet_check_established h i lport true = Some (h', Some t) -> twsk_unique i t true = true.
Proof using Type.
  unfold inet_check_established. destruct (socks h !! i) as [isk|]; [|done]. cbn zeta. destruct (find_sock h _ (twchain _)) as [t'|].
  - destruct (twsk_unique i t' true) eqn:Eu; [|done]. unfold check_unique. cbn. intros Eq. by injection Eq as _ ->.
  - by destruct (find_sock h _ (chain _)).
Qed.
Lemma connect_port_tw n h i net low remaining offset : forall round, match connect_port n h i net round low remaining offset with Some (_, _, _, _, Some t) => twsk_unique i t true = true | _ => True end.
Proof using Type.
  induction n as [|n IH]; intros round; cbn [connect_port]; [done|]. cbn zeta. set (snum := low + _). clearbody snum. case_if_as Hr; [apply IH|]. destruct (find_tb h net snum) as [b|]; [|by destruct (inet_bind_bucket_create h net snum) as [[b h1]|]].
  case_if_as Hf; [apply IH|]. destruct (inet_check_established h i snum true) as [[h' [t|]]|] eqn:Ec; [by eapply check_tw|done|apply IH].
Qed.
Lemma recycled_unique h i hint h' t twp : fst (inet_hash_connect h i hint) = Some h' -> recycled h i hint = Some (t, twp) -> twsk_unique i t twp = true.
Proof using Type.
  unfold inet_hash_connect, recycled. destruct (socks h !! i) as [isk|] eqn:Hi; [|done]. unfold inet_hash_connect_. rewrite Hi. case_if_as Hz.
  - intros _. unfold inet_get_local_port_range. cbn iota zeta. pose proof (connect_port_tw (Z.to_nat (local_ports_high - local_ports_low + 1)) h i (sk_net isk) local_ports_low (local_ports_high - local_ports_low + 1) (u32 (hint + inet_sk_port_offset isk)) 1) as Hp. destruct (connect_port _ _ _ _ _ _ _ _) as [[[[[round snum] b] h1] [t'|]]|]; [|done..]. intros Eq. by injection Eq as -> <-.
  - cbn zeta. set (sole := match _ ≫= _ with Some _ => _ | None => _ end). destruct sole; [done|]. unfold inet_check_established. rewrite Hi. cbn zeta. destruct (find_sock h _ (twchain _)) as [t'|]; [|done]. destruct (twsk_unique i t' false) eqn:Eu; [|done]. intros _ Eq. cbn in Eq. by injection Eq as -> <-.
Qed.
(** C17. Reusing the four-tuple of a TIME-WAIT socket is safe: the socket goes only when the peer used
    timestamps (and, when the port was not asked for, reuse is enabled and more than a second has
    passed since the last one); the new connection starts with a sequence number beyond every one of the
    old connection and of a window of 65535 after it, not 0, and with the last timestamp of the peer,
    so that PAWS drops old segments. *)
Theorem recycle_safe h i hint sk h' t twp : fst (inet_hash_connect h i hint) = Some h' -> recycled h i hint = Some (t, twp) ->
  let '(_, _, sk') := hash_connect tws h i hint sk in
  s32 (write_seq (tp sk') - tw_snd_nxt (tws t)) > 65535 /\ write_seq (tp sk') <> 0 /\ ts_recent (rx_opt (tp sk')) = tw_ts_recent (tws t) /\ ts_recent_stamp (rx_opt (tp sk')) = tw_ts_recent_stamp (tws t) /\
  tw_ts_recent_stamp (tws t) <> 0 /\ (twp = true -> sysctl_tcp_tw_reuse = true /\ 1 < u64 (get_seconds - tw_ts_recent_stamp (tws t))).
Proof using CL.
  intros Hh Hr. pose proof (recycled_unique _ _ _ _ _ _ Hh Hr) as Hu. rewrite unique_spec in Hu. unfold hash_connect. destruct (inet_hash_connect h i hint) as [r hint']. cbn in Hh. subst r. rewrite Hr. unfold tcp_twsk_unique. rewrite Hu. cbn zeta. cbn [default from_option id]. unfold tw_may_go in Hu. apply andb_true_iff in Hu as [U1 U2]. apply negb_true_iff, Z.eqb_neq in U1.
  set (sk1 := sk <| tp; write_seq := _ |>). assert (E1 : write_seq (tp sk1) = u32 (tw_snd_nxt (tws t) + 65535 + 2)) by done. clearbody sk1. set (sk2 := if write_seq (tp sk1) =? 0 then _ else sk1). assert (E2 : s32 (write_seq (tp sk2) - tw_snd_nxt (tws t)) > 65535 /\ write_seq (tp sk2) <> 0).
  { assert (Ew : write_seq (tp sk2) = if write_seq (tp sk1) =? 0 then 1 else write_seq (tp sk1)) by (unfold sk2; by case_if_as Hq). rewrite Ew, E1. unfold u32, s32. set (n := tw_snd_nxt (tws t)). destruct (Z.eqb_spec ((n + 65535 + 2) mod 2 ^ 32) 0) as [Hz|Hz]; (split; [Z.div_mod_to_equations; lia|done]). }
  clearbody sk2. destruct E2 as [E2 E3]. split_and!; [exact E2|exact E3|done|done|done|]. intros ->. cbn in U2. apply andb_true_iff in U2 as [U2 U3]. split; [done|]. lia.
Qed.
End Opened.

Module Demo.
#[local] Existing Instance linux.
#[local] Existing Instance Hashtables.Demo.env.
#[local] Existing Instance Hashtables.Demo.laws.
#[local] Existing Instance Listen.Demo.host.
#[local] Existing Instance Child.Demo.routes.
Notation host := Hashtables.Demo.host.
Notation here := Hashtables.Demo.here.
Notation there := Hashtables.Demo.there.
Definition tws (t : nat) : timewait_sock := mk_tw TCP_TIME_WAIT 60000 0 1 5000 1000 77 500.
#[local] Instance outside : ConnEnv Rtt.Demo.dst := {|
  sizeof_sockaddr_in := 16; sysctl_tcp_tw_reuse := true;
  ip_route_connect hop src _ _ _ := if hop =? there then inr (Rtt.Demo.d0, there, here) else inl ENETUNREACH;
  rt_multi _ := false;
  ip_route_newports d _ _ _ _ := inr d;
  tcp_connect sk := (None, sk);
  tcp_set_state_tables h i lock s := match s with
    | TCP_CLOSE => let h := inet_unhash h i in let h := if lock : bool then h else inet_put_port h i in upd_sock h i (fun isk => isk <| isk_state := TCP_CLOSE |>)
    | s => upd_sock h i (fun isk => isk <| isk_state := s |>) end;
|}.
#[local] Instance outside_ok : ConnLaws outside tws.
Proof.
  split; [done|done| |by intros i t []]. intros a b c d e rt x y. cbn. case_if_as Hq; [|done]. intros Eq. injection Eq as <- <- <-. vm_compute; intuition discriminate.
Qed.
Definition c0 : conn_sock := mk_conn_sock blank_sock 0 0 0 None false.
Definition dest : sockaddr_in := mk_sin PF_INET there (htons 80).
(** The client takes the place of the TIME-WAIT socket with the port 32768. *)
Example connects : let '(err, h', c', _) := tcp_v4_connect tws host 2 c0 dest 16 0 in
  err = None /\ inet_num <$> socks h' !! 2%nat = Some 32768 /\ write_seq (tp (cn_sk c')) = 70537 /\ inet_saddr c' = here.
Proof. vm_compute. split_and!; reflexivity. Qed.
Lemma host_dev sk : dev_ok host sk.
Proof. intros j skj _ Hj. left. by apply Hashtables.Demo.host_socks in Hj as [[-> ->]|[[-> ->]|[[-> ->]|[-> ->]]]]. Qed.
Lemma tcp_v4_connect_ok_witness : exists h' c' hint', tcp_v4_connect tws host 2 c0 dest 16 0 = (None, h', c', hint') /\ conn_inv h' /\ inet_lookup_established_ h' Hashtables.Demo.net there (htons 80) here 32768 0 = Some 2%nat.
Proof.
  assert (E1 : fst (fst (fst (tcp_v4_connect tws host 2 c0 dest 16 0))) = None) by (vm_compute; reflexivity). assert (E2 : (fun s => (inet_daddr s, inet_dport s, inet_rcv_saddr s, inet_num s)) <$> socks (snd (fst (fst (tcp_v4_connect tws host 2 c0 dest 16 0)))) !! 2%nat = Some (there, htons 80, here, 32768)) by (vm_compute; reflexivity).
  destruct (tcp_v4_connect tws host 2 c0 dest 16 0) as [[[err h'] c'] hint'] eqn:E. cbn [fst snd] in E1, E2. subst err. exists h', c', hint'. split; [reflexivity|].
  pose proof (tcp_v4_connect_ok tws host 2 Hashtables.Demo.client c0 dest 16 0 None h' c' hint' Hashtables.Demo.host_conn Hashtables.Demo.client_off eq_refl eq_refl (host_dev _) ltac:(done) ltac:(vm_compute; intuition discriminate) ltac:(vm_compute; intuition discriminate) ltac:(vm_compute; intuition discriminate) ltac:(vm_compute; intuition discriminate) ltac:(vm_compute; intuition discriminate) ltac:(vm_compute; reflexivity) E) as (H1 & isk' & H2 & _ & _ & _ & H3).
  split; [exact H1|]. rewrite H2 in E2. cbn [fmap option_fmap option_map] in E2. injection E2 as F1 F2 F3 F4. rewrite F1, F2, F3, F4 in H3. exact H3.
Defined.
Definition ready : inet_hashinfo := upd_sock host 2 (fun isk => isk <| inet_rcv_saddr := here |> <| inet_daddr := there |> <| inet_dport := htons 80 |>).
Lemma recycle_safe_witness : recycled ready 2 0 = Some (3%nat, true) /\ s32 (write_seq (tp (snd (hash_connect tws ready 2 0 blank_sock))) - 5000) > 65535.
Proof.
  assert (E1 : is_Some (fst (inet_hash_connect ready 2 0))) by (vm_compute; eauto). assert (E2 : recycled ready 2 0 = Some (3%nat, true)) by (vm_compute; reflexivity). split; [exact E2|]. destruct E1 as [h' E1].
  pose proof (recycle_safe tws ready 2 0 blank_sock h' 3 true E1 E2) as H. destruct (hash_connect tws ready 2 0 blank_sock) as [[r hint'] sk']. destruct H as [H _]. exact H.
Defined.
End Demo.
