(* ===== verification/Reroute.v ===== *)
(** * A connection that loses its route

    net/ipv4/af_inet.c: inet_sk_rebuild_header, which looks for a new route before a segment is
    sent again, and inet_sk_reselect_saddr, which may give a connection that is still being opened
    another source address and moves it in the table of connections; __sk_prot_rehash
    (include/net/sock.h).  The theorem: the socket stays in the table, where the answer of the peer
    finds it under its new address, as long as no other socket has the new four-tuple.  The code does
    not check that ([duplicate]).

    The routing code is a field of [ConnEnv] and of [RouteEnv]. *)

From stdpp Require Import gmap.
From S2P Require Import Prelude TcpTypes Kernel ReqQueue Minisocks Hashtables Md5 Reply Icmp Listen Child Connect.

Class RouteEnv (D : Type) := {
  sk_dst_check : sock -> bool * sock; (* __sk_dst_check: whether there is a route, and the socket, from which a stale one is taken *)
  ip_route_output_ports : Z -> Z -> Z -> Z -> Z -> errno + D; (* destination, source, ports, device *)
  sysctl_ip_dynaddr : Z;
}.
Class RouteLaws {D : Type} (R : RouteEnv D) (C : ChildEnv D) (O : ConnEnv D) : Prop := {
  dst_check_state sk : sk_state (snd (sk_dst_check sk)) = sk_state sk;
  connect_saddr hop src dev sport dport d fd fs : ip_route_connect hop src dev sport dport = inr (d, fd, fs) -> is_u32 fs;
}.

Section Reroute.
Context {K : Kernel} {H : HashEnv} {D : Type} {IE : IcmpEnv} {CE : ChildEnv D} {E : ConnEnv D} {R : RouteEnv D}.
Implicit Types (sk : sock) (c : conn_sock) (h : inet_hashinfo) (isk : inet_sock) (i : nat).

Definition sk_prot_rehash h i : inet_hashinfo := inet_hash (inet_unhash h i) i.
(** The next hop: the peer, or the first hop of a source route. *)
Definition route_daddr c isk : Z := match inet_opt c with Some o => if srr o then faddr o else inet_daddr isk | None => inet_daddr isk end.
Definition inet_sk_reselect_saddr h i isk c : option errno * inet_hashinfo * conn_sock :=
  let old_saddr := inet_saddr c in
  match ip_route_connect (route_daddr c isk) 0 (sk_bound_dev_if isk) (inet_sport isk) (inet_dport isk) with
  | inl err => (Some err, h, c)
  | inr (rt, _, new_saddr) =>
    let c := c <| cn_sk := sk_setup_caps (cn_sk c) rt |> in
    if new_saddr =? old_saddr then (None, h, c)
    else
      let c := c <| inet_saddr := new_saddr |> in
      let h := upd_sock h i (fun isk => isk <| inet_rcv_saddr := new_saddr |>) in
      (None, sk_prot_rehash h i, c)
  end.
(** [bindaddr_lock] is sk_userlocks & SOCK_BINDADDR_LOCK. *)
Definition inet_sk_rebuild_header h i isk c (bindaddr_lock : bool) : option errno * inet_hashinfo * conn_sock :=
  let '(ok, sk) := sk_dst_check (cn_sk c) in
  let c := c <| cn_sk := sk |> in
  if ok then (None, h, c)
  else
    match ip_route_output_ports (route_daddr c isk) (inet_saddr c) (inet_dport isk) (inet_sport isk) (sk_bound_dev_if isk) with
    | inr rt => (None, h, c <| cn_sk := sk_setup_caps (cn_sk c) rt |>)
    | inl err =>
      let c := c <| cn_sk := (cn_sk c) <| sk_route_caps := 0 |> |> in
      let soft e c := c <| cn_sk := (cn_sk c) <| sk_err_soft := errno_code e |> |> in
      if (sysctl_ip_dynaddr =? 0) || negb (st_eqb (sk_state (cn_sk c)) TCP_SYN_SENT) || bindaddr_lock then (Some err, h, soft err c)
      else match inet_sk_reselect_saddr h i isk c with
           | (Some err, h, c) => (Some err, h, soft err c)
           | (None, h, c) => (None, h, c)
           end
    end.
End Reroute.

Section Moved.
Context {K : Kernel} {H : HashEnv} {L : HashLaws H} {D : Type} {IE : IcmpEnv} {CE : ChildEnv D} {E : ConnEnv D} {R : RouteEnv D} {RL : RouteLaws R CE E}.
Implicit Types (sk : sock) (c : conn_sock) (h : inet_hashinfo) (isk : inet_sock) (i j : nat).

Lemma upd_comm h i (f g : inet_sock -> inet_sock) : (forall isk, f (g isk) = g (f isk)) -> upd_sock (upd_sock h i g) i f = upd_sock (upd_sock h i f) i g.
Proof using Type.
  intros Hc. assert (Ha : alter f i (alter g i (socks h)) = alter g i (alter f i (socks h))); [|unfold upd_sock; cbn; by rewrite Ha]. apply map_eq. intros j. destruct (decide (j = i)) as [->|Hj]; [rewrite !lookup_alter_eq|by rewrite !lookup_alter_ne by done]. destruct (socks h !! i); cbn; [by rewrite Hc|done].
Qed.
(** A change of the addresses can be made before or after the socket leaves its chain. *)
Lemma unhash_upd h i g : (forall isk, sk_linked (g isk) = sk_linked isk) -> (forall isk, (g isk) <| sk_linked := false |> = g (isk <| sk_linked := false |>)) -> inet_unhash (upd_sock h i g) i = upd_sock (inet_unhash h i) i g.
Proof using Type.
  intros Hg Hc. assert (Hd : sk_nulls_del_node_init (upd_sock h i g) i = upd_sock (sk_nulls_del_node_init h i) i g) by (unfold sk_nulls_del_node_init; rewrite <- upd_comm; [reflexivity|exact Hc]).
  unfold inet_unhash, on_sock. rewrite upd_sock_same, Hd. destruct (socks h !! i) as [isk|]; cbn [fmap option_fmap option_map]; [|done]. unfold sk_unhashed. rewrite Hg. by destruct (negb (sk_linked isk)).
Qed.
(** [h'] is [h] with the socket [i] under the local address [a]. *)
Record moved h i isk (a : Z) h' : Prop := {
  mv_conn : conn_inv h';
  mv_found : inet_lookup_established_ h' (sk_net isk) (inet_daddr isk) (inet_dport isk) a (inet_num isk) (sk_bound_dev_if isk) = Some i;
  mv_other : forall j, j <> i -> socks h' !! j = socks h !! j;
  mv_port : exists isk', socks h' !! i = Some isk' /\ flow_key isk' = flow_key (isk <| inet_rcv_saddr := a |>) /\ icsk_bind_hash isk' = icsk_bind_hash isk;
}.
Lemma bind_same isk b : icsk_bind_hash isk = Some b -> isk <| icsk_bind_hash := Some b |> = isk.
Proof using Type. by intros <-. Qed.
Lemma unhash_on h i j : on_table (inet_unhash h i) j -> on_table h j.
Proof using Type. unfold inet_unhash. case_match; [done|]. intros [[Hj _]%del_hashed|Hj%del_tw]; [by left|by right]. Qed.
Lemma rehash_ok h i isk a : conn_inv h -> hashed h i -> socks h !! i = Some isk -> isk_state isk = TCP_SYN_SENT -> is_u32 a -> (forall j skj, j <> i -> on_table h j -> socks h !! j = Some skj -> flow_key skj <> flow_key (isk <| inet_rcv_saddr := a |>)) ->
  moved h i isk a (sk_prot_rehash (upd_sock h i (fun isk => isk <| inet_rcv_saddr := a |>)) i).
Proof using L.
  intros Hc Hh Hi Hs Ha Hu. unfold sk_prot_rehash. rewrite unhash_upd by done. set (g := fun s : inet_sock => s <| inet_rcv_saddr := a |>). pose proof Hh as (s & hd & Hd & Hin). destruct (hi_chain h (ci_hash _ h Hc) s hd i Hd (or_introl Hin)) as [(sk0 & F1 & (W1 & W2 & W3 & W4) & _)]. rewrite Hi in F1. injection F1 as <-.
  pose proof (upd_closed h i _ _ g (unhash_ok h i isk Hc (or_introl Hh) Hi) eq_refl) as [C1 C2 C3 C4]. set (h1 := upd_sock (inet_unhash h i) i g) in *. set (ch := g (isk <| sk_linked := false |>)) in *.
  destruct (icsk_bind_hash isk) as [b|] eqn:Eb; [|by destruct (ci_bound _ h Hc i isk (or_introl Hh) I Hi)]. assert (Ec : ch <| icsk_bind_hash := Some b |> = ch) by (by apply bind_same).
  assert (Eh : inet_hash h1 i = inet_hash_nolisten h1 i None) by (unfold inet_hash, inet_hash_, on_sock; rewrite C3; unfold ch, g; cbn; by rewrite Hs). rewrite Eh. destruct (hash_found h1 i ch b C1 C2) as (J1 & J2 & J3 & J4); [by rewrite Ec|done| |].
  - intros j skj Hj Ej. assert (Hji : j <> i) by (intros ->; by apply (on_table_off h1 i Hj)). rewrite C4 in Ej by done. apply (Hu j skj Hji); [by apply (unhash_on h i)|done].
  - split; [done|exact J2|intros j Hj; rewrite J4 by done; by apply C4|]. exists (ch <| sk_hash := inet_sk_ehashfn ch |> <| sk_linked := true |>). split; [|by split]. unfold inet_hash_nolisten. rewrite C3. cbn zeta. rewrite ehash_add_socks, decide_True by done. by rewrite upd_sock_same, C3.
Qed.

(** The socket with the route that it has kept, or that was found for its address: nothing else changes. *)
Definition same_place c isk c' : Prop :=
  let sk := snd (sk_dst_check (cn_sk c)) in
  if fst (sk_dst_check (cn_sk c)) then c' = c <| cn_sk := sk |>
  else match ip_route_output_ports (route_daddr c isk) (inet_saddr c) (inet_dport isk) (inet_sport isk) (sk_bound_dev_if isk) with
       | inr rt => c' = c <| cn_sk := sk_setup_caps sk rt |>
       | inl _ => exists rt fd, ip_route_connect (route_daddr c isk) 0 (sk_bound_dev_if isk) (inet_sport isk) (inet_dport isk) = inr (rt, fd, inet_saddr c) /\ c' = c <| cn_sk := sk_setup_caps (sk <| sk_route_caps := 0 |>) rt |>
       end.
(** The socket with the new source address [a] and the route from it. *)
Definition new_place c isk (a : Z) c' : Prop :=
  exists rt fd, ip_route_connect (route_daddr c isk) 0 (sk_bound_dev_if isk) (inet_sport isk) (inet_dport isk) = inr (rt, fd, a) /\
    c' = c <| cn_sk := sk_setup_caps ((snd (sk_dst_check (cn_sk c))) <| sk_route_caps := 0 |>) rt |> <| inet_saddr := a |>.
(** C25. A new route.  On an error of inet_sk_rebuild_header the tables are as before, and the socket,
    from which __sk_dst_check has taken the stale route, differs only in that its capabilities
    are cleared (sk_route_caps) and the error is kept for the user (sk_err_soft).  Without an error
    either the tables and the address are as before and the socket has its old route, or the one
    found for its address; or it was in SYN-SENT and without an address chosen by the user, had no
    route from its old address, and sysctl_ip_dynaddr allows to change it: it has the new address and
    its route then, and, if no other socket has the four-tuple with the new address, the tables are
    consistent, the socket has kept its port, and the answer of the peer to the new address finds
    it. *)
Theorem rebuild_header_ok h i isk c lock err h' c' : conn_inv h -> hashed h i -> socks h !! i = Some isk -> isk_state isk = sk_state (cn_sk c) ->
  (forall d fd a, ip_route_connect (route_daddr c isk) 0 (sk_bound_dev_if isk) (inet_sport isk) (inet_dport isk) = inr (d, fd, a) -> forall j skj, j <> i -> on_table h j -> socks h !! j = Some skj -> flow_key skj <> flow_key (isk <| inet_rcv_saddr := a |>)) ->
  inet_sk_rebuild_header h i isk c lock = (err, h', c') ->
  match err with
  | Some e => h' = h /\ c' = c <| cn_sk := (snd (sk_dst_check (cn_sk c))) <| sk_route_caps := 0 |> <| sk_err_soft := errno_code e |> |>
  | None => h' = h /\ same_place c isk c' \/
      sysctl_ip_dynaddr <> 0 /\ sk_state (cn_sk c) = TCP_SYN_SENT /\ lock = false /\ inet_saddr c' <> inet_saddr c /\ new_place c isk (inet_saddr c') c' /\ moved h i isk (inet_saddr c') h'
  end.
Proof using L RL.
  intros Hc Hh Hi Hst Hu. unfold inet_sk_rebuild_header, same_place, new_place. pose proof (dst_check_state (cn_sk c)) as Hk. destruct (sk_dst_check (cn_sk c)) as [ok sk]. cbn [fst snd] in *. destruct ok; [intros Hr; injection Hr as <- <- <-; by left|].
  change (route_daddr (c <| cn_sk := sk |>) isk) with (route_daddr c isk). change (inet_saddr (c <| cn_sk := sk |>)) with (inet_saddr c). destruct (ip_route_output_ports _ _ _ _ _) as [e|rt]; [|intros Hr; injection Hr as <- <- <-; by left]. case_match eqn:Hcond; [intros Hr; injection Hr as <- <- <-; done|]. rewrite !orb_false_iff, negb_false_iff in Hcond. destruct Hcond as [[Hdyn Hsyn] Hlock]. unfold st_eqb in Hsyn. apply bool_decide_eq_true in Hsyn.
  unfold inet_sk_reselect_saddr. change (route_daddr (set _ _ _) isk) with (route_daddr c isk). destruct (ip_route_connect _ _ _ _ _) as [e1|[[rt fd] a]] eqn:Er; [intros Hr; injection Hr as <- <- <-; done|]. destruct (a =? _) eqn:Ea; intros Hr; injection Hr as <- <- <-; [left|right].
  - apply Z.eqb_eq in Ea. cbn in Ea. subst a. split; [done|]. by exists rt, fd.
  - apply Z.eqb_neq in Ea, Hdyn. cbn in Hsyn. split_and!; [done|congruence|done|exact Ea|by exists rt, fd|]. apply rehash_ok; [done..|congruence|by eapply connect_saddr|]. intros j skj. by eapply Hu.
Qed.
End Moved.

Module Demo.
#[local] Existing Instance linux.
#[local] Existing Instance Hashtables.Demo.env.
#[local] Existing Instance Hashtables.Demo.laws.
#[local] Existing Instance Icmp.Demo.env.
#[local] Existing Instance Child.Demo.routes.
Notation here := Hashtables.Demo.here.
Notation there := Hashtables.Demo.there.
Definition moved_to : Z := 50331658. (* 10.0.0.3 *)
(** The host has got another address. *)
#[local] Instance outside : ConnEnv Rtt.Demo.dst := {|
  sizeof_sockaddr_in := 16; sysctl_tcp_tw_reuse := true;
  ip_route_connect hop src _ _ _ := inr (Rtt.Demo.d0, there, moved_to);
  rt_multi _ := false;
  ip_route_newports d _ _ _ _ := inr d;
  tcp_connect sk := (None, sk);
  tcp_set_state_tables h i _ s := h;
|}.
#[local] Instance routes : RouteEnv Rtt.Demo.dst := {|
  sk_dst_check sk := (false, sk);
  ip_route_output_ports _ src _ _ _ := if src =? moved_to then inr Rtt.Demo.d0 else inl ENETUNREACH;
  sysctl_ip_dynaddr := 1;
|}.
#[local] Instance routes_ok : RouteLaws routes Child.Demo.routes outside.
Proof. split; [done|]. intros a b c d e rt x y. cbn. intros Eq. injection Eq as _ _ <-. vm_compute; intuition discriminate. Qed.
(** The connection of [Hashtables.Demo] while it is being opened. *)
Definition opening : inet_hashinfo := upd_sock Hashtables.Demo.host 1 (fun isk => isk <| isk_state := TCP_SYN_SENT |>).
Definition isk1 : inet_sock := Hashtables.Demo.peer <| isk_state := TCP_SYN_SENT |>.
Definition c1 : conn_sock := mk_conn_sock (blank_sock <| sk_state := TCP_SYN_SENT |>) here 0 0 None false.
Lemma opening_conn : conn_inv opening.
Proof.
  pose proof Hashtables.Demo.host_conn as Hc. assert (Hs : forall j, socks opening !! j = if decide (j = 1%nat) then Some isk1 else socks Hashtables.Demo.host !! j) by (intros j; unfold opening; case_decide as Hj; [subst j; by rewrite upd_sock_same|by rewrite upd_sock_other]). apply (conn_same _ Hashtables.Demo.host); [done| | |].
  - split_and!; [done..|]. intros j. right. rewrite Hs. case_decide as Hj; [subst j; reflexivity|done].
  - apply (same_bind_inv Hashtables.Demo.host); [|apply Hc]. split; [done|]. intros j. rewrite Hs. case_decide as Hj; [subst j; reflexivity|done].
  - intros j sk Hj _. rewrite Hs. case_decide as Hn; [intros Hk; by injection Hk as <-|]. by apply (ci_bound _ _ Hc).
Qed.
Definition rerouted := inet_sk_rebuild_header opening 1 isk1 c1 false.
Lemma rebuild_header_ok_witness : exists h' c', rerouted = (None, h', c') /\ inet_saddr c' = moved_to /\ conn_inv h' /\ inet_lookup_established_ h' Hashtables.Demo.net there 5000 moved_to 80 0 = Some 1%nat.
Proof.
  assert (E1 : fst (fst rerouted) = None /\ inet_saddr (snd rerouted) = moved_to) by (vm_compute; split; reflexivity). destruct rerouted as [[err h'] c'] eqn:Er. cbn [fst snd] in E1. destruct E1 as [-> E2]. exists h', c'. split; [reflexivity|]. split; [exact E2|].
  destruct (rebuild_header_ok opening 1 isk1 c1 false None h' c') as [[_ (rt & fd & Hno & _)]|(_ & _ & _ & _ & _ & [M1 M2 _ _])]; [exact opening_conn| |reflexivity|reflexivity| |exact Er|vm_compute in Hno; discriminate|rewrite E2 in M2; split; [exact M1|exact M2]].
  - exists 3%nat. eexists. split; [reflexivity|]. left.
  - intros d fd a Ha j skj Hj _ Ej. injection Ha as _ _ <-. unfold opening in Ej. rewrite upd_sock_other in Ej by done. by apply Hashtables.Demo.host_socks in Ej as [[-> ->]|[[-> ->]|[[-> ->]|[-> ->]]]].
Defined.
(** Another connection to the same peer, from the same port of the other address: after the move two
    sockets have one four-tuple, and one of them is never found again. *)
Definition busy : inet_hashinfo := inet_hash_nolisten (opening <| socks := <[4%nat := isk1 <| inet_rcv_saddr := moved_to |> <| sk_linked := false |>]> (socks opening) |>) 4 None.
Example duplicate : let '(err, h', _) := inet_sk_rebuild_header busy 1 isk1 c1 false in
  err = None /\ flow_key <$> socks h' !! 1%nat = flow_key <$> socks h' !! 4%nat /\ inet_lookup_established_ busy Hashtables.Demo.net there 5000 moved_to 80 0 = Some 4%nat /\ inet_lookup_established_ h' Hashtables.Demo.net there 5000 moved_to 80 0 = Some 1%nat.
Proof. vm_compute. split_and!; reflexivity. Qed.
End Demo.
