(* ===== verification/Socket.v ===== *)
(** * The socket calls

    net/ipv4/af_inet.c: bind(), listen(), connect(), accept(), shutdown() and getsockname() on a stream
    socket, as they come from the system calls.  struct socket has a state of its own
    (SS_UNCONNECTED to SS_DISCONNECTING) beside the TCP state of the sock.

    The calls are modelled for one socket [i] of the tables; what other processes and the network do
    while connect() sleeps is given by the list of its wake-ups.  tcp_disconnect, tcp_shutdown
    (tcp.c) and the routing code are outside of the repository: fields of the class [SockEnv].  The
    cached route and the locks are left out. *)

From stdpp Require Import gmap.
From S2P Require Import Prelude TcpTypes Kernel ReqQueue Minisocks DataQueue Deliver Input Hashtables Md5 Reply Icmp Listen Child Connect.

Inductive socket_state := SS_FREE | SS_UNCONNECTED | SS_CONNECTING | SS_CONNECTED | SS_DISCONNECTING.
#[export] Instance socket_state_eq_dec : EqDecision socket_state.
Proof. solve_decision. Defined.
(** struct socket, with the sock behind it: the TCP socket, its accept queue, and more members of
    struct inet_sock. *)
#[projections(primitive)]
Record inet_socket := mk_socket {
  so_state : socket_state;
  so_stream : bool; (* type is SOCK_STREAM *)
  so_conn : conn_sock;
  so_queue : listener;
  bindaddr_lock : bool; (* sk_userlocks & SOCK_BINDADDR_LOCK *)
  freebind : bool; (* freebind or transparent *)
  sk_sndtimeo : Z
}.
Definition eta_inet_socket (r : inet_socket) : inet_socket := mk_socket (so_state r) (so_stream r) (so_conn r) (so_queue r) (bindaddr_lock r) (freebind r) (sk_sndtimeo r).
#[export] Instance set_so_state : Setter so_state. Proof. solve_setter eta_inet_socket. Defined.
#[export] Instance set_so_conn : Setter so_conn. Proof. solve_setter eta_inet_socket. Defined.
#[export] Instance set_so_queue : Setter so_queue. Proof. solve_setter eta_inet_socket. Defined.
#[export] Instance set_bindaddr_lock : Setter bindaddr_lock. Proof. solve_setter eta_inet_socket. Defined.

Inductive addr_type := RTN_LOCAL | RTN_MULTICAST | RTN_BROADCAST | RTN_OTHER.
#[export] Instance addr_type_eq_dec : EqDecision addr_type.
Proof. solve_decision. Defined.
Definition AF_UNSPEC : Z := 0.
Definition PROT_SOCK : Z := 1024.

Class SockEnv := {
  inet_addr_type : Z -> Z -> addr_type;
  sysctl_ip_nonlocal_bind : bool;
  roundup_pow_of_two : Z -> Z;
  sizeof_sa_family : Z;
  MAX_SCHEDULE_TIMEOUT : Z;
  tcp_disconnect : inet_hashinfo -> nat -> inet_socket -> option errno * inet_hashinfo * inet_socket;
  tcp_shutdown : sock -> Z -> sock;
}.
(** One wake-up in connect(): the time that is left, the tables and the socket as found, and whether a
    signal is pending. *)
Record connect_wake := mk_cwake { cw_timeo : Z; cw_tables : inet_hashinfo; cw_sock : inet_socket; cw_signal : bool }.

Section Calls.
Context {K : Kernel} {H : HashEnv} {D : Type} {LE : ListenEnv D} {CE : ChildEnv D} {CO : ConnEnv D} {E : SockEnv}.
Context (tws : nat -> timewait_sock).
Implicit Types (h : inet_hashinfo) (s : inet_socket) (i : nat).

Definition so_sk s : sock := cn_sk (so_conn s).
Definition st_of s : tcp_state := sk_state (so_sk s).
Definition on_sk s (g : sock -> sock) : inet_socket := s <| so_conn := (so_conn s) <| cn_sk := g (so_sk s) |> |>.
(** sk->sk_state = st *)
Definition put_state s (st : tcp_state) : inet_socket := (on_sk s (fun sk => sk <| sk_state := st |>)) <| so_queue := (so_queue s) <| lq_state := st |> |>.
Definition put_isk_state h i (st : tcp_state) : inet_hashinfo := upd_sock h i (fun isk => isk <| isk_state := st |>).
Definition num_of h i : Z := match socks h !! i with Some isk => inet_num isk | None => 0 end.

(** *** bind() *)
Definition inet_autobind h i : option errno * inet_hashinfo :=
  if num_of h i =? 0 then
    let '(ret, h) := inet_csk_get_port h i 0 in
    if negb (ret =? 0) then (Some EAGAIN, h) else (None, upd_sock h i (fun isk => isk <| inet_sport := htons (inet_num isk) |>))
  else (None, h).
(** [cap] is capable(CAP_NET_BIND_SERVICE). *)
Definition inet_bind h i s (addr : sockaddr_in) (addr_len : Z) (cap : bool) : option errno * inet_hashinfo * inet_socket :=
  if addr_len <? sizeof_sockaddr_in then (Some EINVAL, h, s)
  else if negb (sin_family addr =? PF_INET) && (negb (sin_family addr =? AF_UNSPEC) || negb (sin_addr addr =? 0)) then (Some EAFNOSUPPORT, h, s)
  else match socks h !! i with
  | None => (Some EINVAL, h, s)
  | Some isk =>
    let chk_addr_ret := inet_addr_type (sk_net isk) (sin_addr addr) in
    if negb sysctl_ip_nonlocal_bind && negb (freebind s) && negb (sin_addr addr =? 0) && bool_decide (chk_addr_ret = RTN_OTHER) then (Some EADDRNOTAVAIL, h, s)
    else
      let snum := htons (sin_port addr) in
      if negb (snum =? 0) && (snum <? PROT_SOCK) && negb cap then (Some EACCES, h, s)
      else if negb (st_eqb (st_of s) TCP_CLOSE) || negb (inet_num isk =? 0) then (Some EINVAL, h, s)
      else
        let set_saddr a s := s <| so_conn := (so_conn s) <| inet_saddr := a |> |> in
        let h := upd_sock h i (fun isk => isk <| inet_rcv_saddr := sin_addr addr |>) in
        let s := set_saddr (sin_addr addr) s in
        let s := if bool_decide (chk_addr_ret = RTN_MULTICAST) || bool_decide (chk_addr_ret = RTN_BROADCAST) then set_saddr 0 s else s in
        let '(ret, h) := inet_csk_get_port h i snum in
        if negb (ret =? 0) then (Some EADDRINUSE, upd_sock h i (fun isk => isk <| inet_rcv_saddr := 0 |>), set_saddr 0 s)
        else
          let s := if negb (sin_addr addr =? 0) then s <| bindaddr_lock := true |> else s in
          let s := if negb (snum =? 0) then s <| so_conn := (so_conn s) <| bindport_lock := true |> |> else s in
          (None, upd_sock h i (fun isk => isk <| inet_sport := htons (inet_num isk) |> <| inet_daddr := 0 |> <| inet_dport := 0 |>), s)
  end.

(** *** listen() *)
Definition inet_csk_delack_init (sk : sock) : sock :=
  sk <| icsk; ack_pending := 0 |> <| icsk; ack_quick := 0 |> <| icsk; ack_pingpong := 0 |> <| icsk; ack_blocked := 0 |> <| icsk; ack_ato := 0 |>
     <| icsk; ack_timeout := 0 |> <| icsk; ack_lrcvtime := 0 |> <| icsk; ack_last_seg_size := 0 |> <| icsk; ack_rcv_mss := 0 |>.
(** inet_csk_listen_start with the tables: the socket asks for its port as a listening one.
    [mem] and [rnd] are the allocation and the random seed of the SYN table. *)
Definition csk_listen_start h i s (nr rnd : Z) (mem : bool) : option errno * inet_hashinfo * inet_socket :=
  match reqsk_queue_alloc roundup_pow_of_two sysctl_max_syn_backlog mem rnd (so_queue s) nr with
  | inl e => (Some e, h, s)
  | inr q =>
    let s := s <| so_queue := q <| sk_max_ack_backlog := 0 |> <| sk_ack_backlog := 0 |> |> in
    let s := on_sk s inet_csk_delack_init in
    let s := put_state s TCP_LISTEN in
    let h := put_isk_state h i TCP_LISTEN in
    let '(ret, h) := inet_csk_get_port h i (num_of h i) in
    if ret =? 0 then (None, inet_hash (upd_sock h i (fun isk => isk <| inet_sport := htons (inet_num isk) |>)) i, s)
    else (Some EADDRINUSE, put_isk_state h i TCP_CLOSE, put_state s TCP_CLOSE)
  end.
Definition inet_listen h i s (backlog rnd : Z) (mem : bool) : option errno * inet_hashinfo * inet_socket :=
  if negb (bool_decide (so_state s = SS_UNCONNECTED)) || negb (so_stream s) then (Some EINVAL, h, s)
  else if negb (st_eqb (st_of s) TCP_CLOSE || st_eqb (st_of s) TCP_LISTEN) then (Some EINVAL, h, s)
  else
    let '(err, h, s) := if negb (st_eqb (st_of s) TCP_LISTEN) then csk_listen_start h i s backlog rnd mem else (None, h, s) in
    match err with
    | Some e => (Some e, h, s)
    | None => (None, h, s <| so_queue := (so_queue s) <| sk_max_ack_backlog := u16 backlog |> |>)
    end.

(** *** connect() *)
Definition opening (st : tcp_state) : bool := match st with TCP_SYN_SENT | TCP_SYN_RECV => true | _ => false end.
(** Along the wake-ups; [None]: it still sleeps. *)
Fixpoint inet_wait_for_connect (ws : list connect_wake) (timeo : Z) (sig : bool) h s : option (Z * bool * inet_hashinfo * inet_socket) :=
  if opening (st_of s) then
    match ws with
    | [] => None
    | w :: ws => if cw_signal w || (cw_timeo w =? 0) then Some (cw_timeo w, cw_signal w, cw_tables w, cw_sock w) else inet_wait_for_connect ws (cw_timeo w) (cw_signal w) (cw_tables w) (cw_sock w)
    end
  else Some (timeo, sig, h, s).
(** The socket after disconnect(), with the state of the outcome *)
Definition disconnect h i s : option errno * inet_hashinfo * inet_socket :=
  let '(err, h, s) := tcp_disconnect h i s in (err, h, s <| so_state := match err with Some _ => SS_DISCONNECTING | None => SS_UNCONNECTED end |>).
(** After the wait *)
Definition connect_finish h i s : option errno * inet_hashinfo * inet_socket :=
  if st_eqb (st_of s) TCP_CLOSE then
    let err := match sk_err (so_sk s) with Some e => e | None => ECONNABORTED end in
    let '(_, h, s) := disconnect h i (on_sk s (fun sk => sk <| sk_err := None |>)) in
    (Some err, h, s)
  else (None, h, s <| so_state := SS_CONNECTED |>).
(** From the timeout on, with the error for a connection that is not there yet *)
Definition connect_wait h i s (err : errno) (noblock sig : bool) (ws : list connect_wake) : option (option errno * inet_hashinfo * inet_socket) :=
  let timeo := if noblock then 0 else sk_sndtimeo s in
  if opening (st_of s) then
    if timeo =? 0 then Some (Some err, h, s)
    else match inet_wait_for_connect ws timeo sig h s with
    | None => None
    | Some (rest, sig, h, s) =>
      if rest =? 0 then Some (Some err, h, s)
      else if sig then Some (Some (sock_intr_errno MAX_SCHEDULE_TIMEOUT timeo), h, s)
      else Some (connect_finish h i s)
    end
  else Some (connect_finish h i s).
(** [sig]: a signal is pending.  The last result is the hint of __inet_hash_connect. *)
Definition inet_stream_connect h i s (uaddr : sockaddr_in) (addr_len hint : Z) (noblock sig : bool) (ws : list connect_wake) : option (option errno * inet_hashinfo * inet_socket) * Z :=
  if addr_len <? sizeof_sa_family then (Some (Some EINVAL, h, s), hint)
  else if sin_family uaddr =? AF_UNSPEC then (Some (disconnect h i s), hint)
  else match so_state s with
  | SS_CONNECTED => (Some (Some EISCONN, h, s), hint)
  | SS_CONNECTING => (connect_wait h i s EALREADY noblock sig ws, hint)
  | SS_UNCONNECTED =>
    if negb (st_eqb (st_of s) TCP_CLOSE) then (Some (Some EISCONN, h, s), hint)
    else
      let '(err, h, c, hint) := tcp_v4_connect tws h i (so_conn s) uaddr addr_len hint in
      let s := s <| so_conn := c |> in
      match err with
      | Some e => (Some (Some e, h, s), hint)
      | None => (connect_wait h i (s <| so_state := SS_CONNECTING |>) EINPROGRESS noblock sig ws, hint)
      end
  | SS_FREE | SS_DISCONNECTING => (Some (Some EINVAL, h, s), hint)
  end.

(** *** accept(), shutdown(), getsockname() *)
(** The child, and the state of the new struct socket. *)
Definition inet_accept s (timeo : Z) (ws : list wakeup) : option ((errno + option nat * socket_state) * inet_socket) :=
  match inet_csk_accept MAX_SCHEDULE_TIMEOUT (so_queue s) timeo ws with
  | None => None
  | Some (inl e, q) => Some (inl e, s <| so_queue := q |>)
  | Some (inr child, q) => Some (inr (child, SS_CONNECTED), s <| so_queue := q |>)
  end.
Definition inet_shutdown h i s (how : Z) : option errno * inet_hashinfo * inet_socket :=
  let how := s32 (how + 1) in
  if negb (Z.land how (Z.lnot SHUTDOWN_MASK) =? 0) || (how =? 0) then (Some EINVAL, h, s)
  else
    let s := if bool_decide (so_state s = SS_CONNECTING) then
               s <| so_state := if opening (st_of s) || st_eqb (st_of s) TCP_CLOSE then SS_DISCONNECTING else SS_CONNECTED |>
             else s in
    let shut s := on_sk s (fun sk => tcp_shutdown (sk <| sk_shutdown := Z.lor (sk_shutdown sk) how |>) how) in
    let '(err, h, s) :=
      match st_of s with
      | TCP_LISTEN => if Z.land how RCV_SHUTDOWN =? 0 then (None, h, s) else disconnect h i s
      | TCP_SYN_SENT => disconnect h i s
      | TCP_CLOSE => (Some ENOTCONN, h, shut s)
      | _ => (None, h, shut s)
      end in
    (err, h, on_sk s sk_state_change).
(** [peer] is 0 for getsockname(), 1 for getpeername(), and 2 from within the kernel. *)
Definition inet_getname h i s (peer : Z) : errno + Z * Z :=
  match socks h !! i with
  | None => inl EINVAL
  | Some isk =>
    if negb (peer =? 0) then
      if (inet_dport isk =? 0) || ((st_eqb (st_of s) TCP_CLOSE || st_eqb (st_of s) TCP_SYN_SENT) && (peer =? 1)) then inl ENOTCONN
      else inr (inet_daddr isk, inet_dport isk)
    else inr (if inet_rcv_saddr isk =? 0 then inet_saddr (so_conn s) else inet_rcv_saddr isk, inet_sport isk)
  end.
End Calls.

(** Documented behaviour: tcp_disconnect leaves a closed socket, or with an error the socket as it was;
    tcp_shutdown starts to close a connection; tcp_connect sends the SYN. *)
Class SockLaws {D : Type} {K : Kernel} (CO : ConnEnv D) (CE : ChildEnv D) (E : SockEnv) : Prop := {
  disconnect_states h i s : let '(err, _, s') := tcp_disconnect h i s in
    match err with
    | None => sk_state (so_sk s') = TCP_CLOSE /\ lq_state (so_queue s') = TCP_CLOSE
    | Some _ => sk_state (so_sk s') = sk_state (so_sk s) /\ lq_state (so_queue s') = lq_state (so_queue s)
    end;
  shutdown_listen sk how : sk_state (tcp_shutdown sk how) = TCP_LISTEN <-> sk_state sk = TCP_LISTEN;
  shutdown_close sk how : sk_state sk = TCP_CLOSE -> sk_state (tcp_shutdown sk how) = TCP_CLOSE;
  connect_state sk : sk_state (snd (tcp_connect sk)) = sk_state sk;
  caps_state sk (d : D) : sk_state (sk_setup_caps sk d) = sk_state sk;
}.

(** ** States *)
Section States.
Context {K : Kernel} {SL : StateLaws K} {H : HashEnv} {D : Type} {LE : ListenEnv D} {CE : ChildEnv D} {CO : ConnEnv D} {E : SockEnv} {L : SockLaws CO CE E}.
Context (tws : nat -> timewait_sock).
Implicit Types (h : inet_hashinfo) (s : inet_socket) (i : nat).

(** What segments and timers do to a socket while no call runs: its state moves along the diagram of
    RFC 793 as an arriving segment moves it, or the connection is given up. *)
Inductive net_edge : tcp_state -> tcp_state -> Prop :=
  | ne_segment skb acc fin st st' : rcv_step skb acc fin st st' -> net_edge st st'
  | ne_timeout st : st <> TCP_LISTEN -> net_edge st TCP_CLOSE.
Definition net_moves s s' : Prop := so_state s' = so_state s /\ lq_state (so_queue s') = lq_state (so_queue s) /\ rtc net_edge (st_of s) (st_of s').
Fixpoint woken s (ws : list connect_wake) : Prop := match ws with [] => True | w :: ws => net_moves s (cw_sock w) /\ woken (cw_sock w) ws end.
(** The socket that waits in connect(). *)
Definition waiting h i s (uaddr : sockaddr_in) (addr_len hint : Z) : inet_socket :=
  match so_state s with
  | SS_UNCONNECTED => let '(_, _, c, _) := tcp_v4_connect tws h i (so_conn s) uaddr addr_len hint in s <| so_conn := c |> <| so_state := SS_CONNECTING |>
  | _ => s
  end.
(** A call, or a move of the network. *)
Inductive api_step i : inet_hashinfo * inet_socket -> inet_hashinfo * inet_socket -> Prop :=
  | as_bind h s addr len cap e h' s' : inet_bind h i s addr len cap = (e, h', s') -> api_step i (h, s) (h', s')
  | as_listen h s backlog rnd mem e h' s' : inet_listen h i s backlog rnd mem = (e, h', s') -> api_step i (h, s) (h', s')
  | as_connect h s uaddr len hint noblock sig ws e h' s' hint' : woken (waiting h i s uaddr len hint) ws ->
      inet_stream_connect tws h i s uaddr len hint noblock sig ws = (Some (e, h', s'), hint') -> api_step i (h, s) (h', s')
  | as_accept h s timeo ws r s' : Forall (fun w => lq_state (w_sock w) = lq_state (so_queue s)) ws -> inet_accept s timeo ws = Some (r, s') -> api_step i (h, s) (h, s')
  | as_shutdown h s how e h' s' : inet_shutdown h i s how = (e, h', s') -> api_step i (h, s) (h', s')
  | as_net h s h' s' : net_moves s s' -> api_step i (h, s) (h', s').

(** An unconnected socket is closed or listens, and only such a one listens (or one that tcp_disconnect
    failed on). *)
Record api_ok s : Prop := {
  ao_queue : st_of s = TCP_LISTEN <-> lq_state (so_queue s) = TCP_LISTEN;
  ao_free : so_state s = SS_UNCONNECTED -> st_of s = TCP_CLOSE \/ st_of s = TCP_LISTEN;
  ao_listen : st_of s = TCP_LISTEN -> so_state s = SS_UNCONNECTED \/ so_state s = SS_DISCONNECTING;
}.
Lemma net_edge_spec st st' : net_edge st st' -> (st' = TCP_LISTEN <-> st = TCP_LISTEN) /\ (st = TCP_CLOSE -> st' = TCP_CLOSE).
Proof using Type.
  destruct 1 as [skb acc fin st st' Hs|st Hn]; [|by split]. destruct Hs as [st st1 st2 He Hf|st Hl _|st Hx _ _|st Hx _ _].
  - assert (H1 : (st1 = TCP_LISTEN <-> st = TCP_LISTEN) /\ (st = TCP_CLOSE -> st1 = TCP_CLOSE)) by (by destruct He). clear He. induction Hf as [st1|st1 st3 st2 -> _ IH]; [done|]. apply IH. destruct H1 as [H1 H2]. split; [rewrite <- H1; by destruct st1|]. intros Hc. by rewrite (H2 Hc).
  - by split.
  - by destruct st.
  - by destruct st.
Qed.
Lemma net_moves_ok s s' : net_moves s s' -> (st_of s' = TCP_LISTEN <-> st_of s = TCP_LISTEN) /\ (st_of s = TCP_CLOSE -> st_of s' = TCP_CLOSE).
Proof using Type.
  intros (_ & _ & Hr). induction Hr as [st|st st1 st2 H1 _ [IH1 IH2]]; [done|]. apply net_edge_spec in H1 as [E1 E2]. split; [by rewrite IH1|auto].
Qed.
Lemma net_api s s' : net_moves s s' -> api_ok s -> api_ok s'.
Proof using Type.
  intros Hn [A1 A2 A3]. destruct (net_moves_ok s s' Hn) as [N1 N2]. destruct Hn as (E1 & E2 & _). split; rewrite ?E1, ?E2.
  - by rewrite N1.
  - intros Hs. destruct (A2 Hs); [left; auto|right; by apply N1].
  - intros Hs. by apply A3, N1.
Qed.
(** Not listening, and not unconnected. *)
Lemma api_plain s : so_state s <> SS_UNCONNECTED -> st_of s <> TCP_LISTEN -> lq_state (so_queue s) <> TCP_LISTEN -> api_ok s.
Proof using Type. intros H1 H2 H3. by split. Qed.
Lemma api_closed s : st_of s = TCP_CLOSE -> lq_state (so_queue s) <> TCP_LISTEN -> api_ok s.
Proof using Type. intros H1 H2. split; rewrite H1; [done|by left|done]. Qed.
Lemma put_closed_ok s : api_ok (put_state s TCP_CLOSE).
Proof using Type. by apply api_closed. Qed.
Lemma same_api s s' : api_ok s -> so_state s' = so_state s -> st_of s' = st_of s -> lq_state (so_queue s') = lq_state (so_queue s) -> api_ok s'.
Proof using Type. intros [A1 A2 A3] E1 E2 E3. split; by rewrite ?E1, ?E2, ?E3. Qed.
Lemma bind_api h i s addr len cap e h' s' : inet_bind h i s addr len cap = (e, h', s') -> api_ok s -> api_ok s'.
Proof using Type.
  intros Eb Ha. apply (same_api s); [done|..]; (unfold inet_bind in Eb; repeat case_match; simplify_eq; done).
Qed.
Lemma listen_api h i s backlog rnd mem e h' s' : inet_listen h i s backlog rnd mem = (e, h', s') -> api_ok s -> api_ok s'.
Proof using Type.
  unfold inet_listen. case_if_as H1; [by intros [= <- <- <-]|]. apply orb_false_iff in H1 as [H1 _]. apply negb_false_iff, bool_decide_eq_true in H1. case_if_as H2; [by intros [= <- <- <-]|]. destruct (st_eqb (st_of s) TCP_LISTEN); cbn [negb]; [intros [= <- <- <-] Ha; by apply (same_api s)|].
  unfold csk_listen_start. destruct (reqsk_queue_alloc _ _ _ _ _ _) as [er|q]; [by intros [= <- <- <-]|]. cbn zeta. destruct (inet_csk_get_port _ _ _) as [ret h1]. case_if_as H3; [|intros [= <- <- <-] _; apply put_closed_ok]. intros [= <- <- <-] _. split; [done|by right|left; exact H1].
Qed.
Lemma disconnect_api h i s e h' s' : disconnect h i s = (e, h', s') -> api_ok s -> api_ok s' /\ (e = None -> st_of s' = TCP_CLOSE) /\ (so_state s' = SS_UNCONNECTED <-> e = None) /\ so_state s' <> SS_CONNECTED /\ so_state s' <> SS_CONNECTING.
Proof using L.
  unfold disconnect. pose proof (disconnect_states h i s) as Hd. destruct (tcp_disconnect h i s) as [[err h1] s1]. intros [= <- <- <-] [A1 A2 A3]. destruct err as [er|]; destruct Hd as [D1 D2].
  - split; [|done]. split; [change (st_of s1 = TCP_LISTEN <-> lq_state (so_queue s1) = TCP_LISTEN); unfold st_of in *; by rewrite D1, D2|done|by right].
  - split; [|done]. apply api_closed; [exact D1|]. change (lq_state (so_queue s1) <> TCP_LISTEN). by rewrite D2.
Qed.
Lemma finish_api h i s e h' s' : connect_finish h i s = (e, h', s') -> api_ok s -> st_of s <> TCP_LISTEN -> api_ok s'.
Proof using L.
  unfold connect_finish. case_if_as Hc.
  - destruct (disconnect h i _) as [[er h1] s1] eqn:Ed. intros [= <- <- <-] Ha _. eapply (disconnect_api h i _ er h1 s1 Ed). by apply (same_api s).
  - intros [= <- <- <-] [A1 A2 A3] Hl. apply api_plain; [done|exact Hl|]. change (lq_state (so_queue s) <> TCP_LISTEN). by rewrite <- A1.
Qed.
Lemma wait_ok ws : forall timeo sig h s, woken s ws -> match inet_wait_for_connect ws timeo sig h s with Some (timeo', sig', _, s') => net_moves s s' /\ (opening (st_of s') = true -> timeo' = 0 \/ sig' = true) | None => True end.
Proof using Type.
  induction ws as [|w ws IH]; intros timeo sig h s Hw; cbn [inet_wait_for_connect].
  - destruct (opening (st_of s)) eqn:Eo; [done|]. split; [split_and!; done|congruence].
  - destruct (opening (st_of s)) eqn:Eo; [|split; [split_and!; done|congruence]]. destruct Hw as [Hn Hw]. case_if_as Hs.
    + split; [done|]. intros _. apply orb_true_iff in Hs as [Hs|Hs]; [by right|left; lia].
    + specialize (IH (cw_timeo w) (cw_signal w) (cw_tables w) (cw_sock w) Hw). destruct (inet_wait_for_connect ws _ _ _ _) as [[[[t' sg'] h'] s']|]; [|done]. destruct IH as [(N1 & N2 & N3) IH]. destruct Hn as (M1 & M2 & M3). split; [split_and!; [congruence|congruence|by etrans]|done].
Qed.
(** The state of the socket after tcp_v4_connect. *)
Lemma twsk_state sk tw twp : sk_state (default sk (tcp_twsk_unique sk tw twp)) = sk_state sk.
Proof using Type. unfold tcp_twsk_unique. case_if_as Hm; [|done]. cbn zeta. by case_if_as Hz. Qed.
Lemma failure_state h i c e hint : let '(err, _, c', _) := connect_failure h i c e hint in err = Some e /\ sk_state (cn_sk c') = TCP_CLOSE.
Proof using SL. unfold connect_failure. cbn. by rewrite set_state_spec. Qed.
Lemma connect_states h i c uaddr len hint err h' c' hint' : tcp_v4_connect tws h i c uaddr len hint = (err, h', c', hint') ->
  match err with Some _ => c' = c \/ sk_state (cn_sk c') = TCP_CLOSE | None => sk_state (cn_sk c') = TCP_SYN_SENT end.
Proof using SL L.
  assert (Hfail : forall h0 i0 c0 e0 hint0, connect_failure h0 i0 c0 e0 hint0 = (err, h', c', hint') -> is_Some err /\ sk_state (cn_sk c') = TCP_CLOSE) by (intros h0 i0 c0 e0 hint0 Eq; pose proof (failure_state h0 i0 c0 e0 hint0) as Hx; rewrite Eq in Hx; destruct Hx as [-> Hx]; done).
  unfold tcp_v4_connect. cbn zeta. case_if_as H1; [intros [= <- <- <- <-]; by left|]. case_if_as H2; [intros [= <- <- <- <-]; by left|]. destruct (socks h !! i) as [isk|]; [|intros [= <- <- <- <-]; by left]. case_if_as H3; [intros [= <- <- <- <-]; by left|]. destruct (ip_route_connect _ _ _ _ _) as [er|[[rt fd] fs]]; [intros [= <- <- <- <-]; by left|]. case_if_as H4; [intros [= <- <- <- <-]; by left|].
  unfold hash_connect. destruct (inet_hash_connect _ i hint) as [r hint1]. match goal with |- context [_ <| cn_sk := match r with Some _ => ?a | None => ?b end |>] => set (sk1 := match r with Some _ => a | None => b end) end. assert (Es : sk_state sk1 = TCP_SYN_SENT).
  { unfold sk1. destruct r; [|by rewrite set_state_spec]. destruct (recycled _ i hint) as [[t twp]|]; [rewrite twsk_state|]; by rewrite set_state_spec. }
  clearbody sk1. match goal with |- context [_ <| cn_sk := sk1 |>] => set (c1 := _ <| cn_sk := sk1 |>) end. assert (Ec : sk_state (cn_sk c1) = TCP_SYN_SENT) by exact Es. clearbody c1. destruct r as [h2|]; [|intros Eq; apply Hfail in Eq as [[e' ->] Hx]; by right].
  unfold connect_commit. destruct (socks h2 !! i) as [isk2|]; [|intros Eq; apply Hfail in Eq as [[e' ->] Hx]; by right]. destruct (ip_route_newports _ _ _ _ _) as [er|rt']; [intros Eq; apply Hfail in Eq as [[e' ->] Hx]; by right|]. cbn zeta. set (sk2 := if write_seq _ =? 0 then _ else _). assert (E2 : sk_state sk2 = TCP_SYN_SENT) by (unfold sk2; case_if_as Hw; [change (sk_state (sk_setup_caps (cn_sk c1) rt') = TCP_SYN_SENT)|]; by rewrite caps_state).
  pose proof (connect_state sk2) as E3. destruct (tcp_connect sk2) as [[er|] sk3]; [intros Eq; apply Hfail in Eq as [[e' ->] Hx]; by right|]. intros [= <- <- <- <-]. cbn in E3 |- *. congruence.
Qed.
(** connect(): what it returns, and the states it leaves. *)
Definition synchronized (st : tcp_state) : bool := negb (opening st) && negb (st_eqb st TCP_CLOSE) && negb (st_eqb st TCP_LISTEN).
Definition connect_outcome s (err : option errno) s' : Prop :=
  api_ok s' /\
  match err with
  | None => so_state s' = SS_CONNECTED /\ synchronized (st_of s') = true
  | Some _ => so_state s' = SS_CONNECTED -> s' = s
  end.
Lemma finish_outcome s0 h i s e h' s' : connect_finish h i s = (e, h', s') -> api_ok s -> st_of s <> TCP_LISTEN -> opening (st_of s) = false -> connect_outcome s0 e s'.
Proof using L.
  intros Ef Ha Hl Ho. split; [by apply (finish_api h i s e h')|]. unfold connect_finish in Ef. destruct (st_eqb (st_of s) TCP_CLOSE) eqn:Hc.
  - destruct (disconnect h i _) as [[er h1] s1] eqn:Ed. injection Ef as <- <- <-. destruct (disconnect_api h i _ er h1 s1 Ed) as (_ & _ & _ & Hn & _); [by apply (same_api s)|done].
  - injection Ef as <- <- <-. split; [done|]. change (synchronized (st_of s) = true). unfold synchronized. rewrite Ho, Hc. cbn. unfold st_eqb. by rewrite bool_decide_eq_false_2.
Qed.
Lemma wait_outcome s0 h i s err noblock sig ws e h' s' : connect_wait h i s err noblock sig ws = Some (e, h', s') -> woken s ws -> api_ok s -> so_state s = SS_CONNECTING -> connect_outcome s0 e s'.
Proof using L.
  intros Ew Hw Ha Hs. assert (Hl : st_of s <> TCP_LISTEN) by (intros Hl; destruct (ao_listen s Ha Hl); congruence). unfold connect_wait in Ew. cbn zeta in Ew. set (timeo := if noblock then 0 else sk_sndtimeo s) in Ew. destruct (opening (st_of s)) eqn:Eo; [|apply (inj Some) in Ew; by apply (finish_outcome s0 h i s e h')].
  destruct (timeo =? 0); [injection Ew as <- <- <-; split; [done|congruence]|]. pose proof (wait_ok ws timeo sig h s Hw) as Hk. destruct (inet_wait_for_connect ws timeo sig h s) as [[[[left' sg] h1] s1]|] eqn:Ei; [|done]. destruct Hk as [Hn Ho]. pose proof (net_api s s1 Hn Ha) as Ha1. assert (Hs1 : so_state s1 = SS_CONNECTING) by (destruct Hn as (-> & _); done). assert (Hl1 : st_of s1 <> TCP_LISTEN) by (intros Hl1; destruct (ao_listen s1 Ha1 Hl1); congruence).
  destruct (Z.eqb_spec left' 0) as [|Hq]; [injection Ew as <- <- <-; split; [done|congruence]|]. destruct sg; [injection Ew as <- <- <-; split; [done|congruence]|]. apply (inj Some) in Ew. apply (finish_outcome s0 h1 i s1 e h'); [done..|].
  destruct (opening (st_of s1)); [|done]. destruct (Ho eq_refl); [lia|done].
Qed.
Lemma stream_connect_outcome h i s uaddr len hint noblock sig ws e h' s' hint' : inet_stream_connect tws h i s uaddr len hint noblock sig ws = (Some (e, h', s'), hint') -> woken (waiting h i s uaddr len hint) ws -> api_ok s -> sin_family uaddr <> AF_UNSPEC -> connect_outcome s e s'.
Proof using SL L.
  unfold inet_stream_connect. intros Ec Hw Ha Hf. rewrite (proj2 (Z.eqb_neq _ _) Hf) in Ec. destruct (len <? sizeof_sa_family); [injection Ec as <- <- <- <-; by split|]. unfold waiting in Hw. destruct (so_state s) eqn:Es; [injection Ec as <- <- <- <-; by split| |injection Ec as Ec _; by eapply (wait_outcome s)|injection Ec as <- <- <- <-; by split|injection Ec as <- <- <- <-; by split].
  destruct (negb (st_eqb (st_of s) TCP_CLOSE)) eqn:Hc; [injection Ec as <- <- <- <-; by split|]. apply negb_false_iff, bool_decide_eq_true in Hc. destruct (tcp_v4_connect tws h i (so_conn s) uaddr len hint) as [[[err h1] c1] hint1] eqn:Et. apply connect_states in Et. assert (Hq : lq_state (so_queue s) <> TCP_LISTEN) by (rewrite <- (ao_queue s Ha), Hc; done). destruct err as [er|].
  - injection Ec as <- <- <- <-. split; [|cbn; congruence]. apply api_closed; [|exact Hq]. destruct Et as [->|Et]; [exact Hc|exact Et].
  - injection Ec as Ec _. eapply (wait_outcome s); [exact Ec|exact Hw| |done]. apply api_plain; [done| |exact Hq]. unfold st_of, so_sk. cbn. by rewrite Et.
Qed.
Lemma csk_wait_state ws st : Forall (fun w => lq_state (w_sock w) = st) ws -> forall M timeo e q', inet_csk_wait_for_connect M ws timeo = Some (e, q') -> lq_state q' = st.
Proof using Type.
  induction 1 as [|w ws Hw _ IH]; intros M timeo e q'; cbn [inet_csk_wait_for_connect]; [done|]. cbn zeta. repeat (case_match; [intros [= <- <-]; exact Hw|]). apply IH.
Qed.
Lemma csk_accept_state M q timeo ws r q' : Forall (fun w => lq_state (w_sock w) = lq_state q) ws -> inet_csk_accept M q timeo ws = Some (r, q') -> lq_state q' = lq_state q.
Proof using Type.
  intros Hw. assert (Ht : forall q0, lq_state q0 = lq_state q -> match reqsk_queue_get_child q0 with Some (child, q1) => Some (@inr errno _ child, q1) | None => None end = Some (r, q') -> lq_state q' = lq_state q).
  { intros q0 E0. destruct (reqsk_queue_get_child q0) as [[c q1]|] eqn:Eg; [|done]. intros [= _ <-]. by rewrite (get_child_state _ _ _ Eg). }
  unfold inet_csk_accept. cbn zeta. case_if_as H1; [by intros [= _ <-]|]. case_if_as H2; [|by apply Ht]. case_if_as H3; [by intros [= _ <-]|]. destruct (inet_csk_wait_for_connect M ws timeo) as [[[e|] q1]|] eqn:Ew; [|by apply Ht, (csk_wait_state ws _ Hw M timeo None)|done]. intros [= _ <-]. by apply (csk_wait_state ws _ Hw M timeo (Some e)).
Qed.
Lemma accept_api s timeo ws r s' : Forall (fun w => lq_state (w_sock w) = lq_state (so_queue s)) ws -> inet_accept s timeo ws = Some (r, s') -> api_ok s -> api_ok s'.
Proof using Type.
  intros Hw Ea Ha. unfold inet_accept in Ea. destruct (inet_csk_accept MAX_SCHEDULE_TIMEOUT (so_queue s) timeo ws) as [[r0 q]|] eqn:Ei; [|done]. apply csk_accept_state in Ei; [|done]. destruct r0 as [er|child]; injection Ea as _ <-; by apply (same_api s).
Qed.
(** shutdown() of a socket that neither listens nor waits for a SYN-ACK. *)
Lemma shut_api s sk1 how : api_ok s -> st_of s <> TCP_LISTEN -> sk_state sk1 = st_of s -> api_ok (on_sk (on_sk s (fun _ => tcp_shutdown sk1 how)) sk_state_change).
Proof using SL L.
  intros Ha Hl Hs. pose proof (shutdown_listen sk1 how) as S1. pose proof (shutdown_close sk1 how) as S2. rewrite Hs in S1, S2. unfold on_sk, st_of, so_sk in *. cbn. rewrite state_change_spec. destruct Ha as [A1 A2 A3]. unfold st_of, so_sk in *. split; unfold st_of, so_sk; cbn.
  - by rewrite S1.
  - intros Hu. destruct (A2 Hu) as [Hc|Hc]; [left; by apply S2|by destruct Hl].
  - intros Hx. by apply S1 in Hx.
Qed.
Lemma change_api s : api_ok s -> api_ok (on_sk s sk_state_change).
Proof using SL. intros Ha. apply (same_api s); [done|done| |done]. unfold on_sk, st_of, so_sk. cbn. by rewrite state_change_spec. Qed.
Lemma shutdown_api h i s how e h' s' : inet_shutdown h i s how = (e, h', s') -> api_ok s -> api_ok s'.
Proof using SL L.
  unfold inet_shutdown. cbn zeta. set (how1 := s32 (how + 1)). case_if_as Hh; [by intros [= <- <- <-]|]. intros Es Ha. set (s1 := if bool_decide (so_state s = SS_CONNECTING) then _ else _) in Es. assert (Ha1 : api_ok s1).
  { unfold s1. case_bool_decide as Hc; [|done]. assert (Hl : st_of s <> TCP_LISTEN) by (intros Hl; destruct (ao_listen s Ha Hl); congruence). apply api_plain; [cbn; by case_if_as Ho|exact Hl|]. change (lq_state (so_queue s) <> TCP_LISTEN). by rewrite <- (ao_queue s Ha). }
  clearbody s1. clear s Ha. assert (Hd : forall e1 h1 s2, disconnect h i s1 = (e1, h1, s2) -> api_ok (on_sk s2 sk_state_change)) by (intros e1 h1 s2 Ed; by apply change_api; destruct (disconnect_api h i s1 e1 h1 s2 Ed Ha1)).
  destruct (st_of s1) eqn:Est; try (injection Es as <- <- <-; apply (shut_api s1 _ how1 Ha1); [by rewrite Est|done]).
  - destruct (disconnect h i s1) as [[e1 h1] s2]. injection Es as <- <- <-. by eapply Hd.
  - destruct (Z.land how1 RCV_SHUTDOWN =? 0); [injection Es as <- <- <-; by apply change_api|]. destruct (disconnect h i s1) as [[e1 h1] s2]. injection Es as <- <- <-. by eapply Hd.
Qed.
Lemma api_step_ok i w w' : api_step i w w' -> api_ok (snd w) -> api_ok (snd w').
Proof using SL L.
  destruct 1 as [h s addr len cap e h' s' Eb|h s backlog rnd mem e h' s' El|h s uaddr len hint noblock sig ws e h' s' hint' Hw Ec|h s timeo ws r s' Hw Ea|h s how e h' s' Es|h s h' s' Hn]; cbn [snd]; intros Ha.
  - by eapply bind_api.
  - by eapply listen_api.
  - destruct (Z.eq_dec (sin_family uaddr) AF_UNSPEC) as [Hf|Hf]; [|by destruct (stream_connect_outcome _ _ _ _ _ _ _ _ _ _ _ _ _ Ec Hw Ha Hf)]. unfold inet_stream_connect in Ec. rewrite Hf, Z.eqb_refl in Ec. destruct (len <? sizeof_sa_family); [by injection Ec as <- <- <- <-|]. injection Ec as Ec _. by destruct (disconnect_api _ _ _ _ _ _ Ec Ha).
  - by eapply accept_api.
  - by eapply shutdown_api.
  - by eapply net_api.
Qed.
Lemma api_run_ok i w w' : rtc (api_step i) w w' -> api_ok (snd w) -> api_ok (snd w').
Proof using SL L. induction 1 as [w|w w1 w' H1 _ IH]; [done|]. intros Ha. apply IH. by eapply api_step_ok. Qed.

(** C18. The state of the struct socket and the TCP state agree, whatever sequence of bind(), listen(),
    connect(), accept() and shutdown() a process makes and whatever the network does in between: an
    unconnected socket is closed or listens, and a listening socket is never connected or
    connecting.  (Another process that uses the same socket while connect() sleeps is left out.) *)
Theorem socket_states_ok i h s h' s' : so_state s = SS_UNCONNECTED -> st_of s = TCP_CLOSE -> lq_state (so_queue s) = TCP_CLOSE -> rtc (api_step i) (h, s) (h', s') ->
  (so_state s' = SS_UNCONNECTED -> st_of s' = TCP_CLOSE \/ st_of s' = TCP_LISTEN) /\ (st_of s' = TCP_LISTEN -> so_state s' = SS_UNCONNECTED \/ so_state s' = SS_DISCONNECTING).
Proof using SL L.
  intros H1 H2 H3 Hr. assert (Ha : api_ok (snd (h, s))) by (apply api_closed; cbn; [done|by rewrite H3]). destruct (api_run_ok i _ _ Hr Ha) as [_ A2 A3]. done.
Qed.
(** C19. connect() tells the truth, for a process that has the socket for itself during its sleep (only
    the network acts on it) and does not ask for a disconnect with AF_UNSPEC.  It returns 0 only when the connection is there: the TCP state is
    past the handshake and not closed, and the socket is marked connected; when it returns an error
    the socket is not marked connected, unless it was so before and nothing has changed.  This holds
    on every path: blocking and not, with a timeout, a signal, a reset or a failure. *)
Theorem stream_connect_ok h i s uaddr len hint noblock sig ws e h' s' hint' : api_ok s -> sin_family uaddr <> AF_UNSPEC -> woken (waiting h i s uaddr len hint) ws ->
  inet_stream_connect tws h i s uaddr len hint noblock sig ws = (Some (e, h', s'), hint') ->
  match e with
  | None => so_state s' = SS_CONNECTED /\ synchronized (st_of s') = true
  | Some _ => so_state s' = SS_CONNECTED -> s' = s
  end.
Proof using SL L. intros Ha Hf Hw Ec. by destruct (stream_connect_outcome _ _ _ _ _ _ _ _ _ _ _ _ _ Ec Hw Ha Hf). Qed.
End States.

(** ** Ports *)
Section Ports.
Context {H : HashEnv} {L : HashLaws H}.
Implicit Types (h : inet_hashinfo) (isk : inet_sock) (i j b : nat).

(** Nothing but the port of [i] and the buckets has changed. *)
Record ported h i h' : Prop := {
  pt_chains : (ehash h', ehash_mask h', listening_hash h') = (ehash h, ehash_mask h, listening_hash h);
  pt_other : forall j, j <> i -> socks h' !! j = socks h !! j;
  pt_self : forall isk, socks h !! i = Some isk -> exists p bd, socks h' !! i = Some (isk <| inet_num := p |> <| icsk_bind_hash := bd |>);
}.
Lemma ported_same h i h' : (ehash h', ehash_mask h', listening_hash h', socks h') = (ehash h, ehash_mask h, listening_hash h, socks h) -> ported h i h'.
Proof using Type. intros [= E1 E2 E3 E4]. split; [by rewrite E1, E2, E3|intros j _; by rewrite E4|]. intros isk Hi. exists (inet_num isk), (icsk_bind_hash isk). by rewrite E4. Qed.
Lemma bind_success_ported h0 h i b isk snum : (ehash h, ehash_mask h, listening_hash h, socks h) = (ehash h0, ehash_mask h0, listening_hash h0, socks h0) -> ported h0 i (snd (bind_success h i b isk snum)).
Proof using Type.
  intros Eq. unfold bind_success. cbn [snd]. destruct (icsk_bind_hash isk); [by apply ported_same|]. injection Eq as E1 E2 E3 E4. split; [change ((ehash h, ehash_mask h, listening_hash h) = (ehash h0, ehash_mask h0, listening_hash h0)); by rewrite E1, E2, E3| |].
  - intros j Hj. by rewrite bind_hash_socks, decide_False, E4.
  - intros isk0 Hi. exists snum, (Some b). rewrite bind_hash_socks, decide_True, E4, Hi by done. done.
Qed.
Lemma bind_bucket_ported h0 h i b isk snum : (ehash h, ehash_mask h, listening_hash h, socks h) = (ehash h0, ehash_mask h0, listening_hash h0, socks h0) -> ported h0 i (snd (bind_bucket h i b isk snum)).
Proof using Type. intros Eq. by apply bind_success_ported. Qed.
Lemma bind_new_ported h i isk snum : ported h i (snd (bind_new h i isk snum)).
Proof using Type. unfold bind_new, inet_bind_bucket_create. destruct (bind_bucket_alloc (tbs h)) as [b|]; [|by apply ported_same]. by apply bind_bucket_ported. Qed.
Lemma bind_port_ported h i isk snum size retry : match bind_port h i isk snum size retry with Some r => ported h i (snd r) | None => True end.
Proof using Type.
  unfold bind_port. destruct (find_tb h (sk_net isk) snum) as [b|]; [|apply bind_new_ported]. destruct (tbs h !! b) as [tb|]; [|done]. destruct (owners tb); [by apply bind_bucket_ported|]. case_if_as H1; [by apply bind_success_ported|]. case_if_as H2; [|by apply bind_bucket_ported]. case_if_as H3; [done|by apply ported_same].
Qed.
Lemma get_any_ported n : forall h i isk, ported h i (snd (get_any_port n h i isk)).
Proof using Type.
  induction n as [|n IH]; intros h i isk; cbn [get_any_port]; unfold inet_get_local_port_range; cbn iota zeta; (destruct (search_port _ _ _ _ _ _ _ _) as [rover|snum size|snum size]; [apply bind_new_ported| |]); try (case_if_as Hs; [|by apply ported_same]);
    match goal with |- context [bind_port h i isk ?p ?z ?r] => pose proof (bind_port_ported h i isk p z r) as Hb; destruct (bind_port h i isk p z r) as [r0|]; [exact Hb|] end; first [apply IH|by apply ported_same].
Qed.
Lemma get_port_ported h i snum : ported h i (snd (inet_csk_get_port h i snum)).
Proof using Type.
  unfold inet_csk_get_port. destruct (socks h !! i) as [isk|]; [|by apply ported_same]. case_if_as Hz; [apply get_any_ported|]. pose proof (bind_port_ported h i isk snum (-1) false) as Hb. destruct (bind_port _ _ _ _ _ _) as [r|]; [exact Hb|by apply ported_same].
Qed.
Lemma ported_tables h i h' : ported h i h' -> off_chain h i -> same_tables h h'.
Proof using Type. intros [P1 P2 _] Ho. injection P1 as E1 E2 E3. split_and!; [done..|]. intros j. destruct (decide (j = i)) as [->|Hj]; [by left|right; by rewrite P2]. Qed.

(** A change of a socket that the ports do not depend on. *)
Lemma upd_fast h i g P : (forall isk, may_share (g isk) = may_share isk) -> fast_ok P h -> fast_ok P (upd_sock h i g).
Proof using Type.
  intros Hg Hf b tb j isk Hb Hp Hj HP Hk. destruct (decide (i = j)) as [->|Hn]; [|rewrite upd_sock_other in Hk by done; by eapply Hf]. rewrite upd_sock_same in Hk. destruct (socks h !! j) as [isk0|] eqn:E0; [|done]. injection Hk as <-. rewrite Hg. by eapply Hf.
Qed.
Lemma upd_bind_inv h i g : (forall isk, binding (g isk) = binding isk) -> bind_inv h -> bind_inv (upd_sock h i g).
Proof using Type.
  intros Hg Hv. apply (same_bind_inv h); [|done]. split; [done|]. intros j. destruct (decide (i = j)) as [->|Hn]; [|by rewrite upd_sock_other]. rewrite upd_sock_same. destruct (socks h !! j) as [isk|]; [|done]. exact (Hg isk).
Qed.
Lemma granted_upd i isk P h g : (forall x, binding (g x) = binding x) -> (forall x, may_share (g x) = may_share x) -> (forall x, (inet_num (g x), icsk_bind_hash (g x)) = (inet_num x, icsk_bind_hash x)) -> granted i isk P h -> granted i isk P (upd_sock h i g).
Proof using Type.
  intros G1 G2 G3 (H1 & H2 & b & tb & sk' & F1 & F2 & F3 & F4 & F5 & F6). split_and!; [by apply upd_bind_inv|by apply upd_fast|]. pose proof (G3 sk') as Eg. injection Eg as E1 E2. exists b, tb, (g sk'). rewrite upd_sock_same, F1. split_and!; [done|by rewrite E2|done|done|by rewrite E1|]. intros j skj Hj Hn Hk. rewrite upd_sock_other in Hk by done. by eapply F6.
Qed.
End Ports.

(** ** bind() and listen() *)
Section Server.
Context {K : Kernel} {H : HashEnv} {L : HashLaws H} {D : Type} {LE : ListenEnv D} {CO : ConnEnv D} {E : SockEnv}.
Implicit Types (h : inet_hashinfo) (s : inet_socket) (isk : inet_sock) (i j : nat).

(** C20. bind().  On success the socket has the address and the port that were asked for, or an
    unreserved port of the local range; no other owner of the port clashes with it; it was closed and had
    no port; and a port below 1024 was allowed to the process.  When the port is taken, or there is no
    memory, the socket has no address and no port; any other error changes nothing. *)
Theorem inet_bind_ok h i isk s addr len cap err h' s' (snum := htons (sin_port addr)) (isk1 := isk <| inet_rcv_saddr := sin_addr addr |>) : bind_inv h -> fast_ok (fun _ => True) h -> socks h !! i = Some isk -> (inet_num isk = 0 -> icsk_bind_hash isk = None) -> local_ports_low <= local_ports_high ->
  inet_bind h i s addr len cap = (err, h', s') ->
  match err with
  | None => granted i isk1 (fun p => if snum =? 0 then port_in local_ports_low local_ports_high p else p = snum) h' /\ (snum = 0 \/ 1024 <= snum \/ cap = true) /\ st_of s = TCP_CLOSE /\ inet_num isk = 0 /\
      (exists isk', socks h' !! i = Some isk' /\ (inet_rcv_saddr isk', inet_sport isk', inet_daddr isk', inet_dport isk') = (sin_addr addr, htons (inet_num isk'), 0, 0)) /\ (forall j, j <> i -> socks h' !! j = socks h !! j)
  | Some EADDRINUSE => bind_inv h' /\ (forall j, j <> i -> socks h' !! j = socks h !! j) /\ inet_saddr (so_conn s') = 0 /\
      (exists isk', socks h' !! i = Some isk' /\ (inet_rcv_saddr isk', inet_num isk', icsk_bind_hash isk') = (0, 0, None)) /\ (snum <> 0 -> refused_port (upd_sock h i (fun x => x <| inet_rcv_saddr := sin_addr addr |>)) i isk1 snum)
  | Some _ => h' = h /\ s' = s
  end.
Proof using L.
  intros Hv Hf Hi Hn Hlh. unfold inet_bind. case_if_as H1; [intros [= <- <- <-]; done|]. case_if_as H2; [intros [= <- <- <-]; done|]. rewrite Hi. cbn zeta. case_if_as H3; [intros [= <- <- <-]; done|]. fold snum. case_if_as H4; [intros [= <- <- <-]; done|]. case_if_as H5; [intros [= <- <- <-]; done|].
  apply orb_false_iff in H5 as [H5 H6]. apply negb_false_iff, bool_decide_eq_true in H5. apply negb_false_iff, Z.eqb_eq in H6. specialize (Hn H6). pose (g1 := fun x : inet_sock => x <| inet_rcv_saddr := sin_addr addr |>). set (h1 := upd_sock h i _). assert (Hi1 : socks h1 !! i = Some isk1) by (unfold h1; by rewrite upd_sock_same, Hi).
  assert (Hv1 : bind_inv h1) by (exact (upd_bind_inv h i g1 ltac:(done) Hv)). assert (Hf1 : fast_ok (fun j => j <> i) h1) by (intros b tb j skj Hb Hp Hj _; exact (upd_fast h i g1 (fun _ => True) ltac:(done) Hf b tb j skj Hb Hp Hj I)). assert (Ho1 : forall j, j <> i -> socks h1 !! j = socks h !! j) by (intros j Hj; unfold h1; by rewrite upd_sock_other).
  change (upd_sock h i (fun x => x <| inet_rcv_saddr := sin_addr addr |>)) with h1. clearbody h1. pose proof (get_port_spec alloc_fresh h1 i isk1 snum Hv1 Hf1 Hi1 (or_introl Hn) Hlh) as Hg. pose proof (get_port_ported h1 i snum) as [_ P2 P3]. destruct (P3 isk1 Hi1) as (p & bd & P4). destruct (inet_csk_get_port h1 i snum) as [ret h2]. cbn [snd] in P2, P4. set (s1 := if bool_decide _ || bool_decide _ then _ else _). clearbody s1. destruct Hg as [[-> Hg]|(-> & -> & Hg)]; cbn [Z.eqb negb].
  - pose (g2 := fun x : inet_sock => x <| inet_sport := htons (inet_num x) |> <| inet_daddr := 0 |> <| inet_dport := 0 |>). intros Eq. injection Eq as <- <- _. split; [exact (granted_upd i isk1 _ h2 g2 ltac:(done) ltac:(done) ltac:(done) Hg)|]. split_and!; [|done|done| |].
    + destruct (Z.eqb_spec snum 0); [by left|]. cbn in H4. destruct (Z.ltb_spec snum PROT_SOCK) as [Hlt|Hge]; [|right; left; exact Hge]. cbn in H4. right. right. by destruct cap.
    + exists (g2 (isk1 <| inet_num := p |> <| icsk_bind_hash := bd |>)). rewrite upd_sock_same, P4. done.
    + intros j Hj. rewrite upd_sock_other by done. by rewrite P2, Ho1.
  - pose (g2 := fun x : inet_sock => x <| inet_rcv_saddr := 0 |>). intros Eq. injection Eq as <- <- <-. split; [exact (upd_bind_inv h1 i g2 ltac:(done) Hv1)|]. split_and!; [|done| |exact Hg].
    + intros j Hj. rewrite upd_sock_other by done. by apply Ho1.
    + exists (g2 isk1). rewrite upd_sock_same, Hi1. split; [done|]. change ((0, inet_num isk, icsk_bind_hash isk) = (0, 0, None)). by rewrite H6, Hn.
Qed.

(** The tables of a socket that listens. *)
Lemma listen_add_binds h i slot : bind_inv h -> bind_inv (listen_add h i slot).
Proof using Type.
  intros Hv. apply (same_bind_inv h); [|done]. split; [done|]. intros j. unfold listen_add. destruct (decide (i = j)) as [->|Hn]; [rewrite upd_sock_same|by rewrite upd_sock_other]. cbn. by destruct (socks h !! j).
Qed.
Definition serves h' i isk : Prop :=
  hash_inv h' /\ bind_inv h' /\ listening h' i /\
  exists isk', socks h' !! i = Some isk' /\ isk_state isk' = TCP_LISTEN /\ inet_sport isk' = htons (inet_num isk') /\ icsk_bind_hash isk' <> None /\
    (if inet_num isk =? 0 then port_in local_ports_low local_ports_high (inet_num isk') else inet_num isk' = inet_num isk) /\
    forall b tb j skj, icsk_bind_hash isk' = Some b -> tbs h' !! b = Some tb -> j ∈ owners tb -> j <> i -> socks h' !! j = Some skj -> bind_clash (isk <| isk_state := TCP_LISTEN |>) skj = false.
(** The port is asked for as a listening socket, and the socket is put into its table. *)
Lemma listen_tables h i isk : conn_inv h -> fast_ok (fun _ => True) h -> off_chain h i -> socks h !! i = Some isk -> (inet_num isk = 0 <-> icsk_bind_hash isk = None) -> local_ports_low <= local_ports_high ->
  let h1 := put_isk_state h i TCP_LISTEN in
  let '(ret, h2) := inet_csk_get_port h1 i (num_of h1 i) in
  if ret =? 0 then serves (inet_hash (upd_sock h2 i (fun x => x <| inet_sport := htons (inet_num x) |>)) i) i isk else h2 = h1.
Proof using L.
  intros Hc Hf Ho Hi Hn Hlh h1. pose (g1 := fun x : inet_sock => x <| isk_state := TCP_LISTEN |>). set (isk1 := isk <| isk_state := TCP_LISTEN |>). assert (Hi1 : socks h1 !! i = Some isk1) by (unfold h1, put_isk_state; by rewrite upd_sock_same, Hi). assert (En : num_of h1 i = inet_num isk) by (unfold num_of; by rewrite Hi1). rewrite En.
  assert (Hv1 : bind_inv h1) by (exact (upd_bind_inv h i g1 ltac:(done) (ci_bind _ h Hc))). assert (Hf1 : fast_ok (fun j => j <> i) h1) by (intros b tb j skj Hb Hp Hj Hne Hk; unfold h1, put_isk_state in Hk; rewrite upd_sock_other in Hk by done; by apply (Hf b tb j)). assert (Ho1 : off_chain h1 i) by (by apply off_upd). assert (Hh1 : hash_inv h1) by (by apply upd_off_inv; [|apply Hc]). clearbody h1.
  assert (Hr : icsk_bind_hash isk1 = None \/ inet_num isk1 = inet_num isk /\ inet_num isk <> 0) by (destruct (Z.eq_dec (inet_num isk) 0) as [Hz|Hz]; [left; by apply Hn|by right]). pose proof (get_port_spec alloc_fresh h1 i isk1 (inet_num isk) Hv1 Hf1 Hi1 Hr Hlh) as Hg. pose proof (get_port_ported h1 i (inet_num isk)) as Hp. destruct (inet_csk_get_port h1 i (inet_num isk)) as [ret h2]. cbn [snd] in Hp. destruct Hg as [[-> Hg]|(-> & -> & _)]; cbn [Z.eqb]; [|done].
  pose proof (ported_tables h1 i h2 Hp Ho1) as Hs. destruct Hp as [_ _ P3]. destruct (P3 isk1 Hi1) as (p & bd & P4). pose (g2 := fun x : inet_sock => x <| inet_sport := htons (inet_num x) |>). apply (granted_upd i isk1 _ h2 g2 ltac:(done) ltac:(done) ltac:(done)) in Hg. set (h3 := upd_sock h2 i g2) in *. change (upd_sock h2 i (fun x => x <| inet_sport := htons (inet_num x) |>)) with h3. set (isk3 := g2 (isk1 <| inet_num := p |> <| icsk_bind_hash := bd |>)). assert (Hi3 : socks h3 !! i = Some isk3) by (unfold h3; by rewrite upd_sock_same, P4).
  assert (Hh3 : hash_inv h3) by (apply upd_off_inv; [by apply (same_off h1)|by apply (same_hash_inv h1)]). clearbody h3. destruct Hg as (G1 & _ & b & tb & sk' & F1 & F2 & F3 & F4 & F5 & F6). rewrite Hi3 in F1. injection F1 as <-. rewrite (inet_hash_eq h3 i isk3 Hi3) by done. change (st_eqb (isk_state isk3) TCP_LISTEN) with true. cbn iota. split; [by apply listen_add_inv|]. split; [by apply listen_add_binds|]. split; [by apply listen_added|]. exists (isk3 <| sk_linked := true |>).
  split; [unfold listen_add; rewrite upd_sock_same; cbn; by rewrite Hi3|]. split; [done|]. split; [done|]. split; [change (icsk_bind_hash isk3 <> None); by rewrite F2|]. split; [change (inet_num (isk3 <| sk_linked := true |>)) with (inet_num isk3); rewrite F5; exact F4|]. intros b' tb' j skj Eb Et Hj Hne Hk. assert (Eb' : icsk_bind_hash isk3 = Some b') by exact Eb. rewrite F2 in Eb'. injection Eb' as <-. assert (Et' : tbs h3 !! b = Some tb') by exact Et. rewrite F3 in Et'. injection Et' as <-. unfold listen_add in Hk. rewrite upd_sock_other in Hk by done. by apply (F6 j skj).
Qed.
End Server.

Module Demo.
#[local] Existing Instance linux.
#[local] Existing Instance Hashtables.Demo.env.
#[local] Existing Instance Hashtables.Demo.laws.
#[local] Existing Instance Listen.Demo.host.
#[local] Existing Instance Child.Demo.routes.
#[local] Existing Instance Connect.Demo.outside.
Notation host := Hashtables.Demo.host.
Notation here := Hashtables.Demo.here.
Notation tws := Connect.Demo.tws.
#[local] Instance calls : SockEnv := {|
  inet_addr_type _ a := if a =? here then RTN_LOCAL else RTN_OTHER; sysctl_ip_nonlocal_bind := false;
  roundup_pow_of_two := ReqQueue.Demo.round; sizeof_sa_family := 2; MAX_SCHEDULE_TIMEOUT := 1000000;
  tcp_disconnect h i s := (None, h, put_state s TCP_CLOSE);
  tcp_shutdown sk _ := sk;
|}.
#[local] Instance calls_ok : SockLaws Connect.Demo.outside Child.Demo.routes calls.
Proof. by split. Qed.
Definition s0 : inet_socket := mk_socket SS_UNCONNECTED true (Connect.Demo.c0 <| cn_sk := blank_sock <| sk_state := TCP_CLOSE |> |>) (ReqQueue.Demo.blank <| lq_state := TCP_CLOSE |>) false false 500.
Definition local (p : Z) : sockaddr_in := mk_sin PF_INET here (htons p).
Lemma s0_closed : st_of s0 = TCP_CLOSE.
Proof. vm_compute. reflexivity. Qed.
(** A port below 1024 is refused without the capability, and one that a server listens on is taken. *)
Example bind_errors : (fst (fst (inet_bind host 2 s0 (local 22) 16 false)), fst (fst (inet_bind host 2 s0 (local 80) 16 true)), fst (fst (inet_bind host 2 s0 (mk_sin PF_INET 5 0) 16 true))) = (Some EACCES, Some EADDRINUSE, Some EADDRNOTAVAIL).
Proof. vm_compute. reflexivity. Qed.
Lemma inet_bind_ok_witness : exists h' s', inet_bind host 2 s0 (local 8080) 16 false = (None, h', s') /\ granted 2 (Hashtables.Demo.client <| inet_rcv_saddr := here |>) (fun p => p = 8080) h'.
Proof.
  assert (E1 : fst (fst (inet_bind host 2 s0 (local 8080) 16 false)) = None) by (vm_compute; reflexivity). destruct (inet_bind host 2 s0 (local 8080) 16 false) as [[err h'] s'] eqn:E. cbn in E1. subst err. exists h', s'. split; [reflexivity|].
  exact (proj1 (inet_bind_ok host 2 Hashtables.Demo.client s0 (local 8080) 16 false None h' s' Hashtables.Demo.host_bind_inv (Hashtables.Demo.host_fast _) eq_refl ltac:(reflexivity) ltac:(vm_compute; discriminate) E)).
Defined.
(** bind() and then listen(). *)
Lemma socket_states_ok_witness : exists h' s', rtc (api_step tws 2) (host, s0) (h', s') /\ st_of s' = TCP_LISTEN /\ (so_state s' = SS_UNCONNECTED \/ so_state s' = SS_DISCONNECTING).
Proof.
  destruct (inet_bind host 2 s0 (local 8080) 16 false) as [[e1 h1] s1] eqn:E1. destruct (inet_listen h1 2 s1 5 9 true) as [[e2 h2] s2] eqn:E2. assert (Hl : st_of s2 = TCP_LISTEN) by (vm_compute in E1; injection E1 as <- <- <-; vm_compute in E2; injection E2 as <- <- <-; reflexivity).
  assert (Hr : rtc (api_step tws 2) (host, s0) (h2, s2)) by (eapply rtc_l; [eapply as_bind; exact E1|]; eapply rtc_once, as_listen; exact E2). exists h2, s2. split; [exact Hr|]. split; [exact Hl|]. exact (proj2 (socket_states_ok tws 2 host s0 h2 s2 eq_refl s0_closed eq_refl Hr) Hl).
Defined.
(** A blocking connect(), woken up by the SYN-ACK. *)
Definition asleep : inet_socket := waiting tws host 2 s0 Connect.Demo.dest 16 0.
Definition synack : sk_buff := blank_skb <| skb_th; th_syn := true |> <| skb_th; th_ack := true |>.
Definition answered : connect_wake := mk_cwake 400 host (on_sk asleep (fun sk => sk <| sk_state := TCP_ESTABLISHED |>)) false.
Lemma stream_connect_ok_witness : exists h' s' hint', inet_stream_connect tws host 2 s0 Connect.Demo.dest 16 0 false false [answered] = (Some (None, h', s'), hint') /\ so_state s' = SS_CONNECTED /\ st_of s' = TCP_ESTABLISHED.
Proof.
  assert (E1 : (fun r => (fst (fst r), st_of (snd r))) <$> fst (inet_stream_connect tws host 2 s0 Connect.Demo.dest 16 0 false false [answered]) = Some (None, TCP_ESTABLISHED)) by (vm_compute; reflexivity). destruct (inet_stream_connect tws host 2 s0 Connect.Demo.dest 16 0 false false [answered]) as [[[[e h'] s']|] hint'] eqn:E; [|discriminate E1]. cbn in E1. injection E1 as -> E1. exists h', s', hint'. split; [reflexivity|]. split; [|exact E1].
  assert (Ha : api_ok s0) by (apply api_closed; [exact s0_closed|discriminate]). assert (Hw : woken asleep [answered]).
  { split; [|exact I]. split; [reflexivity|]. split; [reflexivity|]. apply rtc_once. assert (Es : st_of asleep = TCP_SYN_SENT) by (vm_compute; reflexivity). rewrite Es. apply (ne_segment synack true false). apply (rs_edge synack true false TCP_SYN_SENT TCP_ESTABLISHED TCP_ESTABLISHED); [by apply ae_synack|apply rtc_refl]. }
  exact (proj1 (stream_connect_ok tws host 2 s0 Connect.Demo.dest 16 0 false false [answered] None h' s' hint' Ha ltac:(discriminate) Hw E)).
Defined.
(** Another process that disconnects the sleeping socket and makes it listen: connect() returns 0, and
    a listening socket is marked connected. *)
Definition stolen : connect_wake := mk_cwake 400 host ((put_state asleep TCP_LISTEN) <| so_state := SS_UNCONNECTED |>) false.
Example connect_stolen : (fun r => (fst (fst r), st_of (snd r), so_state (snd r))) <$> fst (inet_stream_connect tws host 2 s0 Connect.Demo.dest 16 0 false false [stolen]) = Some (None, TCP_LISTEN, SS_CONNECTED).
Proof. vm_compute. reflexivity. Qed.
End Demo.
