(* ===== verification/Life.v ===== *)
(** * The end of sockets

    tcp_v4_destroy_sock (net/ipv4/tcp_ipv4.c), inet_csk_destroy_sock and inet_csk_listen_stop
    (net/ipv4/inet_connection_sock.c), and the teardown of the SYN table (net/core/request_sock.c):
    a listening socket that is closed takes its half-open connections with it, and the connections
    that nobody accepted.  The theorem: nothing is left behind, the tables stay consistent, and none
    of the checks of the code (WARN_ON) fires.  A socket is freed with its last reference; the tables
    hold none.

    The timers, the congestion module, the TCP cookie values, the pages of sendmsg() and the IPsec
    policy are released by code that is not in the repository; tcp_disconnect (tcp.c) is a field of
    the class [LifeEnv]. *)

From stdpp Require Import gmap.
From S2P Require Import Prelude TcpTypes Kernel ReqQueue Hashtables Md5 Reply Icmp Connect.

(** The sockets with their tables, the references on them (sk_refcnt, less those of the timers, which
    go with the timers), the counters tcp_sockets_allocated and orphan_count, the holds on
    the pool of MD5 transforms, and whether a WARN_ON has fired. *)
#[projections(primitive)]
Record net_state := mk_net {
  nt_tables : inet_hashinfo;
  nt_socks : gmap nat full_sock;
  nt_refs : gmap nat Z;
  nt_alloc : Z;
  nt_orphans : Z;
  nt_pool : Z;
  nt_warn : bool
}.
Definition eta_net_state (r : net_state) : net_state := mk_net (nt_tables r) (nt_socks r) (nt_refs r) (nt_alloc r) (nt_orphans r) (nt_pool r) (nt_warn r).
#[export] Instance set_nt_tables : Setter nt_tables. Proof. solve_setter eta_net_state. Defined.
#[export] Instance set_nt_socks : Setter nt_socks. Proof. solve_setter eta_net_state. Defined.
#[export] Instance set_nt_refs : Setter nt_refs. Proof. solve_setter eta_net_state. Defined.
#[export] Instance set_nt_alloc : Setter nt_alloc. Proof. solve_setter eta_net_state. Defined.
#[export] Instance set_nt_orphans : Setter nt_orphans. Proof. solve_setter eta_net_state. Defined.
#[export] Instance set_nt_pool : Setter nt_pool. Proof. solve_setter eta_net_state. Defined.
#[export] Instance set_nt_warn : Setter nt_warn. Proof. solve_setter eta_net_state. Defined.

Class LifeEnv := {
  tcp_disconnect_sk : net_state -> nat -> net_state;
}.

Section Ends.
Context {H : HashEnv} {E : LifeEnv}.
Implicit Types (n : net_state) (f : full_sock) (q : listener) (i c : nat).

Definition upd_full n i (g : full_sock -> full_sock) : net_state := n <| nt_socks := alter g i (nt_socks n) |>.
Definition warn_on n (b : bool) : net_state := n <| nt_warn := nt_warn n || b |>.

(** The queues, the keys and the port of the socket. *)
Definition tcp_v4_destroy_sock n i : net_state :=
  match nt_socks n !! i with
  | None => n
  | Some f =>
    let sk := (fs_sk f) <| sk_write_queue := [] |> <| sk_send_head := None |> <| tp; out_of_order_queue := [] |> in
    let md5 := (fs_md5 f) <| md5sig_users := nt_pool n |> in
    let md5 := match md5sig_info md5 with Some _ => (tcp_v4_clear_md5_list md5) <| md5sig_info := None |> | None => md5 end in
    let n := upd_full n i (fun f => f <| fs_sk := sk |> <| fs_md5 := md5 |>) in
    let n := n <| nt_pool := md5sig_users md5 |> in
    let h := nt_tables n in
    let n := if match socks h !! i ≫= icsk_bind_hash with Some _ => true | None => false end then n <| nt_tables := inet_put_port h i |> else n in
    n <| nt_alloc := nt_alloc n - 1 |>
  end.
Definition sock_free n i : net_state :=
  n <| nt_socks := delete i (nt_socks n) |> <| nt_refs := delete i (nt_refs n) |> <| nt_tables := (nt_tables n) <| socks := delete i (socks (nt_tables n)) |> |>.
Definition sock_hold n i : net_state := n <| nt_refs := alter (Z.add 1) i (nt_refs n) |>.
Definition sock_put n i : net_state :=
  let n := n <| nt_refs := alter (fun k => k - 1) i (nt_refs n) |> in
  if bool_decide (nt_refs n !! i = Some 0) then sock_free n i else n.
Definition inet_csk_destroy_sock n i : net_state :=
  match nt_socks n !! i, socks (nt_tables n) !! i with
  | Some f, Some isk =>
    let n := warn_on n (negb (st_eqb (sk_state (fs_sk f)) TCP_CLOSE)) in
    let n := warn_on n (negb (sock_flag (fs_sk f) SOCK_DEAD)) in
    let n := warn_on n (negb (sk_unhashed isk)) in
    let n := warn_on n (negb (inet_num isk =? 0) && match icsk_bind_hash isk with None => true | Some _ => false end) in
    let n := tcp_v4_destroy_sock n i in
    let n := n <| nt_orphans := nt_orphans n - 1 |> in
    sock_put n i
  | _, _ => n
  end.
Definition sock_orphan f : full_sock := f <| fs_sk := (sock_set_flag (fs_sk f) SOCK_DEAD) <| sk_socket := None |> |>.

(** A connection that nobody accepted. *)
Definition stop_child n child : net_state :=
  let n := warn_on n (match nt_socks n !! child with Some f => sk_owned (fs_sk f) | None => false end) in
  let n := sock_hold n child in
  let n := tcp_disconnect_sk n child in
  let n := upd_full n child sock_orphan in
  let n := n <| nt_orphans := nt_orphans n + 1 |> in
  let n := inet_csk_destroy_sock n child in
  sock_put n child.
(** The loop over the accept queue of a listening socket; [q] is its queue. *)
Fixpoint stop_children (fuel : nat) n q (acc_req : option nat) : net_state * listener :=
  match fuel, acc_req with
  | S fuel, Some x =>
    match reqs q !! x with
    | Some r =>
      match req_sk r with
      | Some child =>
        let n := stop_child n child in
        let q := reqsk_free (sk_acceptq_removed q) x in
        stop_children fuel n q (dl_next r)
      | None => (n, q)
      end
    | None => (n, q)
    end
  | _, _ => (n, q)
  end.
Definition inet_csk_listen_stop n i : net_state :=
  match nt_socks n !! i with
  | None => n
  | Some f =>
    let '(acc_req, q) := reqsk_queue_yank_acceptq (fs_queue f) in
    let '(qlen, q) := reqsk_queue_destroy q in
    let n := warn_on n (negb (qlen =? 0)) in
    let '(n, q) := stop_children (size (reqs q)) n q acc_req in
    let n := warn_on n (negb (sk_ack_backlog q =? 0)) in
    upd_full n i (fun f => f <| fs_queue := q |>)
  end.
End Ends.

(** ** The SYN table *)
Section Table.
Implicit Types (q : listener) (m : gmap nat request_sock) (b : list nat) (T : list (list nat)).

(** Requests leave the heap one by one. *)
Definition without m (xs : list nat) : gmap nat request_sock := foldl (fun m x => delete x m) m xs.
Lemma without_lookup xs : forall m x, without m xs !! x = if decide (x ∈ xs) then None else m !! x.
Proof.
  induction xs as [|y xs IH]; intros m x; [done|]. change (without m (y :: xs)) with (without (delete y m) xs). rewrite IH. destruct (decide (x = y)) as [->|Hn]; [rewrite lookup_delete_eq, (decide_True (P := y ∈ y :: xs)) by left; by case_decide|]. rewrite lookup_delete_ne by done. destruct (decide (x ∈ xs)) as [Hx|Hx]; [by rewrite decide_True by (by right)|]. rewrite decide_False; [done|]. intros [?|?]%elem_of_cons; done.
Qed.
Lemma without_app m xs ys : without m (xs ++ ys) = without (without m xs) ys.
Proof. apply foldl_app. Qed.
Lemma chain_without m p b xs : (forall x, x ∈ b -> x ∉ xs) -> ReqQueue.chain (nexts m) p b -> ReqQueue.chain (nexts (without m xs)) p b.
Proof. intros Hd. apply chain_ext. intros x Hx. unfold nexts. rewrite without_lookup, decide_False by (by apply Hd). done. Qed.
Lemma destroy_bucket_ok b : forall fuel q k p, ReqQueue.chain (nexts (reqs q)) p b -> NoDup b -> (length b <= fuel)%nat -> destroy_bucket fuel q k p = (k - Z.of_nat (length b), q <| reqs := without (reqs q) b |>).
Proof.
  induction b as [|x b IH]; intros fuel q k p Hc Hn Hf; [cbn in Hc; subst p; destruct fuel; cbn; by rewrite Z.sub_0_r|]. destruct fuel as [|fuel]; [cbn in Hf; lia|]. destruct Hc as (-> & p' & Hp & Hc). apply NoDup_cons in Hn as [Hx Hn]. cbn [destroy_bucket]. unfold nexts in Hp. destruct (reqs q !! x) as [r|]; [|done]. cbn in Hp. injection Hp as <-. cbn [mbind option_bind].
  rewrite (IH fuel (reqsk_free q x)); [|apply (chain_without (reqs q) _ b [x]); [|exact Hc]|done|cbn in Hf; lia].
  - f_equal. cbn [length]. lia.
  - intros y Hy [->|Hz]%elem_of_cons; [done|by apply elem_of_nil in Hz].
Qed.
Lemma destroy_slots_ok T : forall slots q k, Forall2 (fun p b => ReqQueue.chain (nexts (reqs q)) p b) slots T -> NoDup (concat T) -> destroy_slots q k slots = (k - Z.of_nat (length (concat T)), q <| reqs := without (reqs q) (concat T) |>).
Proof.
  induction T as [|b T IH]; intros slots q k Hs Hn; [apply Forall2_nil_inv_r in Hs as ->; cbn; by rewrite Z.sub_0_r|]. apply Forall2_cons_inv_r in Hs as (p & slots' & Hc & Hs & ->). cbn [concat] in *. apply NoDup_app in Hn as (N1 & N2 & N3). cbn [destroy_slots]. rewrite (destroy_bucket_ok b _ q k p Hc N1) by (by apply (chain_size _ p)). rewrite IH; [|..|done].
  - rewrite length_app. f_equal; [lia|]. change (reqs (q <| reqs := without (reqs q) b |>)) with (without (reqs q) b). by rewrite <- without_app.
  - apply Forall2_same_length_lookup_2; [by eapply Forall2_length|]. intros j p0 b0 Hp0 Hb0. apply (chain_without (reqs q)); [|by eapply (Forall2_lookup_lr _ _ _ j p0 b0 Hs)]. intros x Hx Hxb. apply (N2 x Hxb). apply elem_of_concat. by exists j, b0.
Qed.
(** The teardown frees every request of the table, and counts them right. *)
Lemma queue_destroy_ok jh q l T A : rep jh q l T A -> let q0 := q <| rskq_accept_head := None |> in
  reqsk_queue_destroy q0 = (0, q0 <| listen_opt := None |> <| reqs := without (reqs q) (concat T) |>).
Proof.
  intros Hr q0. unfold reqsk_queue_destroy. change (listen_opt q0) with (listen_opt q). rewrite (rep_lopt _ _ _ _ _ Hr). cbn zeta. pose proof (rep_qlen _ _ _ _ _ Hr) as Hq. destruct (Z.eqb_spec (qlen l) 0) as [Hz|Hz].
  - destruct (concat T) as [|x xs]; [done|]. cbn in Hq. lia.
  - rewrite (destroy_slots_ok T (syn_table l) (q0 <| listen_opt := None |>)).
    + rewrite Hq, Z.sub_diag. done.
    + apply Forall2_same_length_lookup_2; [|intros j p b Hp Hb; by apply (shape_table _ _ _ _ _ _ (rep_shape _ _ _ _ _ Hr) j)]. apply (shape_len _ _ _ _ _ _ (rep_shape _ _ _ _ _ Hr)).
    + pose proof (shape_nodup _ _ _ _ _ _ (rep_shape _ _ _ _ _ Hr)) as Hn. by apply NoDup_app in Hn as (Hn & _ & _).
Qed.
End Table.

(** ** Closing a connection *)
Section Closing.
Context {H : HashEnv} {E : LifeEnv}.
Implicit Types (n : net_state) (h : inet_hashinfo) (isk : inet_sock) (f : full_sock) (q : listener) (i j c : nat).

(** The chains of the other sockets. *)
Definition keeps_chains c h h' : Prop := forall j, j <> c -> (hashed h j -> hashed h' j) /\ (off_chain h j -> off_chain h' j).
Lemma keeps_trans c h1 h2 h3 : keeps_chains c h1 h2 -> keeps_chains c h2 h3 -> keeps_chains c h1 h3.
Proof using Type. intros K1 K2 j Hj. destruct (K1 j Hj), (K2 j Hj). auto. Qed.
Lemma keeps_same c h h' : ehash h' = ehash h -> listening_hash h' = listening_hash h -> keeps_chains c h h'.
Proof using Type. intros E1 E2 j _. unfold off_chain, hashed, tw_hashed, listening. by rewrite E1, E2. Qed.
Lemma keeps_unhash c h : keeps_chains c h (inet_unhash h c).
Proof using Type.
  intros j Hj. unfold inet_unhash. destruct (on_sock h c sk_unhashed); [done|]. split.
  - intros (s & hd & Hs & Hin). exists s, (hd <| chain := drop_id c (chain hd) |>). split; [unfold sk_nulls_del_node_init, upd_sock; cbn; by rewrite list_lookup_fmap, Hs|]. by apply drop_id_in.
  - intros (O1 & O2 & O3). split_and!; [by intros [? _]%del_hashed|by intros ?%del_tw|by intros [? _]%del_listening].
Qed.
Lemma keeps_put c h : keeps_chains c h (inet_put_port h c).
Proof using Type.
  unfold inet_put_port. destruct (icsk_bind_hash <$> socks h !! c) as [[b|]|]; [|by apply keeps_same..]. cbn zeta. set (h1 := upd_sock _ c _). destruct (destroy_frame h1 b) as (_ & F2 & _ & F4). apply keeps_same; [by rewrite F2|by rewrite F4].
Qed.
(** A socket without a port has the port 0. *)
Definition bound_ok isk : Prop := icsk_bind_hash isk = None -> inet_num isk = 0.
Lemma put_bound h i isk isk' : socks h !! i = Some isk -> bound_ok isk -> socks (inet_put_port h i) !! i = Some isk' -> bound_ok isk'.
Proof using Type.
  intros Hi Hb. unfold inet_put_port. rewrite Hi. change (icsk_bind_hash <$> Some isk) with (Some (icsk_bind_hash isk)). destruct (icsk_bind_hash isk) as [b|] eqn:Eb; [|rewrite Hi; intros [= <-]; exact Hb]. cbn zeta. set (h1 := upd_sock _ i _). destruct (destroy_frame h1 b) as (-> & _). unfold h1. rewrite upd_sock_same. cbn. rewrite Hi. by intros [= <-].
Qed.
(** A socket on no chain and without a port can go. *)
Lemma free_conn h i isk : conn_inv h -> off_chain h i -> socks h !! i = Some isk -> icsk_bind_hash isk = None -> conn_inv (h <| socks := delete i (socks h) |>).
Proof using Type.
  intros Hc Ho Hi Hb. set (h1 := h <| socks := _ |>). assert (Hs : forall j, j <> i -> socks h1 !! j = socks h !! j) by (intros j Hj; unfold h1; cbn; by rewrite lookup_delete_ne). assert (Hd : socks h1 !! i = None) by apply lookup_delete_eq.
  apply (conn_same _ h); [done|split_and!; [done..|]; intros j; destruct (decide (j = i)) as [->|Hj]; [by left|right; by rewrite Hs]| |].
  - apply (same_bind_inv h); [|apply Hc]. split; [done|]. intros j. destruct (decide (j = i)) as [->|Hj]; [|by rewrite Hs]. rewrite Hi, Hd. cbn. unfold binding. by rewrite Hb.
  - intros j sk Hj _ Hk. assert (Hji : j <> i) by (intros ->; by apply (on_table_off h i Hj)). rewrite Hs in Hk by done. by eapply (ci_bound _ h Hc).
Qed.

(** A connection in the accept queue: no system call owns it, and it is in the table of
    connections, or the peer has reset it already. *)
Record child_ready n c f isk : Prop := {
  cr_full : nt_socks n !! c = Some f;
  cr_sock : socks (nt_tables n) !! c = Some isk;
  cr_owned : sk_owned (fs_sk f) = false;
  cr_chain : hashed (nt_tables n) c \/ off_chain (nt_tables n) c /\ sk_linked isk = false;
  cr_bound : bound_ok isk;
  cr_state : sk_state (fs_sk f) = TCP_CLOSE -> sk_linked isk = false;
}.
(** tcp_disconnect (tcp.c) closes the socket: it leaves its chain, gives back its port unless the
    user chose it, and forgets the peer. *)
Definition disconnected h c (lock : bool) (a : Z) : inet_hashinfo :=
  let h := inet_unhash h c in
  upd_sock (if lock then h else inet_put_port h c) c (fun s => s <| isk_state := TCP_CLOSE |> <| inet_dport := 0 |> <| inet_rcv_saddr := a |>).
Class LifeLaws : Prop := {
  disconnect_spec n c f isk : child_ready n c f isk -> exists lock a f',
    tcp_disconnect_sk n c = n <| nt_tables := disconnected (nt_tables n) c lock a |> <| nt_socks := <[c := f']> (nt_socks n) |> /\
    sk_state (fs_sk f') = TCP_CLOSE /\ fs_md5 f' = fs_md5 f;
}.

Lemma disconnected_ok h c isk lock a : conn_inv h -> hashed h c \/ off_chain h c /\ sk_linked isk = false -> socks h !! c = Some isk -> bound_ok isk ->
  exists isk', closed_sock h c isk' (disconnected h c lock a) /\ bound_ok isk' /\ sk_linked isk' = false /\ keeps_chains c h (disconnected h c lock a).
Proof using Type.
  intros Hc Hh Hi Hb. unfold disconnected. cbn zeta. pose proof (unhash_ok h c isk Hc Hh Hi) as H1. destruct (put_closed h c _ _ lock H1) as (s2 & H2 & _ & _ & L2). eexists. split; [apply (upd_closed h c s2 _ _ H2); done|]. split_and!; [|exact L2|].
  - assert (B2 : bound_ok s2); [|exact B2]. destruct lock; [|by eapply (put_bound _ c _ _ (cl_self _ _ _ _ H1)), H2]. pose proof (cl_self _ _ _ _ H1) as S1. rewrite (cl_self _ _ _ _ H2) in S1. injection S1 as ->. exact Hb.
  - apply (keeps_trans _ _ (inet_unhash h c)); [apply keeps_unhash|]. apply (keeps_trans _ _ (if lock then inet_unhash h c else inet_put_port (inet_unhash h c) c)); [destruct lock; [done|apply keeps_put]|by apply keeps_same].
Qed.

(** The hold of a socket on the pool of MD5 transforms. *)
Definition pool_hold f : Z := match md5sig_info (fs_md5 f) with Some m => if Nat.eqb (entries4 m) 0 then 0 else 1 | None => 0 end.
Lemma destroy_pool f users : let md5 := (fs_md5 f) <| md5sig_users := users |> in
  md5sig_users (match md5sig_info md5 with Some _ => (tcp_v4_clear_md5_list md5) <| md5sig_info := None |> | None => md5 end) = users - pool_hold f.
Proof using Type.
  cbn zeta. unfold tcp_v4_clear_md5_list, pool_hold, pool_drop. cbn. destruct (md5sig_info (fs_md5 f)) as [m|]; cbn; [|lia]. destruct (Nat.eqb (entries4 m) 0); cbn; lia.
Qed.
Lemma destroy_sock_ok h0 n c f isk : nt_socks n !! c = Some f -> closed_sock h0 c isk (nt_tables n) -> exists g isk' h',
  tcp_v4_destroy_sock n c = n <| nt_tables := h' |> <| nt_socks := alter g c (nt_socks n) |> <| nt_pool := nt_pool n - pool_hold f |> <| nt_alloc := nt_alloc n - 1 |> /\
  closed_sock h0 c isk' h' /\ icsk_bind_hash isk' = None /\ keeps_chains c (nt_tables n) h'.
Proof using Type.
  intros Hf Hcl. unfold tcp_v4_destroy_sock. rewrite Hf. cbn zeta. pose proof (destroy_pool f (nt_pool n)) as Hp. cbn zeta in Hp. set (md5 := match md5sig_info _ with Some _ => _ | None => _ end) in *. rewrite Hp. unfold upd_full. set (g := fun f0 : full_sock => _). exists g. clearbody g. cbn. rewrite (cl_self _ _ _ _ Hcl). change (Some isk ≫= icsk_bind_hash) with (icsk_bind_hash isk). destruct (icsk_bind_hash isk) as [b|] eqn:Eb.
  - destruct (put_closed h0 c isk _ false Hcl) as (isk' & H2 & _ & B2 & _). exists isk', (inet_put_port (nt_tables n) c). split_and!; [done|exact H2|exact B2|apply keeps_put].
  - exists isk, (nt_tables n). split_and!; [done|done|done|by apply keeps_same].
Qed.
Lemma warn_off n b : b = false -> warn_on n b = n.
Proof using Type. intros ->. unfold warn_on. by rewrite orb_false_r. Qed.
Lemma destroy_csk_ok h0 n c f isk : nt_socks n !! c = Some f -> nt_refs n !! c = Some 2 -> closed_sock h0 c isk (nt_tables n) -> bound_ok isk -> sk_linked isk = false -> sk_state (fs_sk f) = TCP_CLOSE -> sock_flag (fs_sk f) SOCK_DEAD = true -> exists g isk' h',
  inet_csk_destroy_sock n c = n <| nt_tables := h' |> <| nt_socks := alter g c (nt_socks n) |> <| nt_refs := alter (fun k => k - 1) c (nt_refs n) |> <| nt_pool := nt_pool n - pool_hold f |> <| nt_alloc := nt_alloc n - 1 |> <| nt_orphans := nt_orphans n - 1 |> /\
  closed_sock h0 c isk' h' /\ icsk_bind_hash isk' = None /\ keeps_chains c (nt_tables n) h'.
Proof using Type.
  intros Hf Hr Hcl Hb Hl Hs Hd. unfold inet_csk_destroy_sock. rewrite Hf, (cl_self _ _ _ _ Hcl), Hs, Hd. unfold sk_unhashed. rewrite Hl. assert (Hw : negb (inet_num isk =? 0) && match icsk_bind_hash isk with Some _ => false | None => true end = false) by (destruct (icsk_bind_hash isk) eqn:Eb; [by rewrite andb_false_r|by rewrite (Hb Eb)]). rewrite Hw. cbn zeta. rewrite !warn_off by done.
  destruct (destroy_sock_ok h0 n c f isk Hf Hcl) as (g & isk' & h' & -> & Q1 & Q2 & Q3). exists g, isk', h'. split_and!; [|done..]. unfold sock_put. cbn. rewrite lookup_alter_eq, Hr. cbn. rewrite bool_decide_eq_false_2 by done. done.
Qed.

(** [n'] is [n] without the socket [c]; only the listener's counters and tables differ. *)
Record child_gone n c f n' : Prop := {
  cg_conn : conn_inv (nt_tables n');
  cg_chains : keeps_chains c (nt_tables n) (nt_tables n');
  cg_socks : forall j, socks (nt_tables n') !! j = if decide (j = c) then None else socks (nt_tables n) !! j;
  cg_full : nt_socks n' = delete c (nt_socks n);
  cg_refs : nt_refs n' = delete c (nt_refs n);
  cg_count : (nt_alloc n', nt_orphans n', nt_pool n', nt_warn n') = (nt_alloc n - 1, nt_orphans n, nt_pool n - pool_hold f, nt_warn n);
}.
Context {EL : LifeLaws}.
Lemma stop_child_ok n c f isk : conn_inv (nt_tables n) -> child_ready n c f isk -> nt_refs n !! c = Some 1 -> child_gone n c f (stop_child n c).
Proof using EL.
  intros Hc Hr Hk. pose proof Hr as [R1 R2 R3 R4 R5 R6]. unfold stop_child. rewrite R1, R3. rewrite warn_off by done. cbn zeta. set (n0 := sock_hold _ c). assert (Hr0 : child_ready n0 c f isk) by (by split).
  destruct (disconnect_spec n0 c f isk Hr0) as (lock & a & f' & -> & S1 & S2). destruct (disconnected_ok (nt_tables n) c isk lock a Hc R4 R2 R5) as (isk1 & D1 & D2 & D3 & D4). cbn. unfold upd_full. cbn. set (n1 := _ <| nt_orphans := _ |>). assert (Hf1 : nt_socks n1 !! c = Some (sock_orphan f')) by (unfold n1; cbn; by rewrite lookup_alter_eq, lookup_insert_eq).
  destruct (destroy_csk_ok (nt_tables n) n1 c (sock_orphan f') isk1 Hf1) as (g & isk2 & h' & -> & Q1 & Q2 & Q3); [unfold n1; cbn; by rewrite lookup_alter_eq, Hk|exact D1|done|done|exact S1| |].
  - unfold sock_orphan, sock_flag, sock_set_flag. cbn. by rewrite Z.setbit_eqb.
  - unfold sock_put. cbn. rewrite !lookup_alter_eq, Hk. cbn. rewrite bool_decide_eq_true_2 by done. unfold sock_free. split; cbn.
    + eapply free_conn; [apply Q1|apply Q1|apply Q1|done].
    + apply (keeps_trans _ _ (nt_tables n1)); [exact D4|]. apply (keeps_trans _ _ h'); [exact Q3|by apply keeps_same].
    + intros j. destruct (decide (j = c)) as [->|Hj]; [apply lookup_delete_eq|]. rewrite lookup_delete_ne by done. by apply Q1.
    + by rewrite !delete_alter_eq, delete_insert_eq.
    + by rewrite !delete_alter_eq.
    + assert (pool_hold (sock_orphan f') = pool_hold f) as -> by (unfold pool_hold; cbn; by rewrite S2). f_equal. f_equal. f_equal. lia.
Qed.

(** ** Closing a listening socket *)
Definition hold_of n c : Z := from_option pool_hold 0 (nt_socks n !! c).
(** [n'] is [n] without the sockets [cs]. *)
Definition gone {A} (cs : list nat) (m m' : gmap nat A) : Prop := forall j, m' !! j = if decide (j ∈ cs) then None else m !! j.
Record children_gone n (cs : list nat) n' : Prop := {
  gn_conn : conn_inv (nt_tables n');
  gn_socks : gone cs (socks (nt_tables n)) (socks (nt_tables n'));
  gn_full : gone cs (nt_socks n) (nt_socks n');
  gn_refs : gone cs (nt_refs n) (nt_refs n');
  gn_count : (nt_alloc n', nt_orphans n', nt_pool n', nt_warn n') = (nt_alloc n - Z.of_nat (length cs), nt_orphans n, nt_pool n - sumZ (hold_of n) cs, nt_warn n);
}.
Lemma gone_cons {A} c cs (m m1 m2 : gmap nat A) : gone [c] m m1 -> gone cs m1 m2 -> gone (c :: cs) m m2.
Proof using Type.
  intros G1 G2 j. rewrite (G2 j), (G1 j). destruct (decide (j = c)) as [->|Hj]; [rewrite (decide_True (P := c ∈ [c])), (decide_True (P := c ∈ c :: cs)) by left; by case_decide|].
  rewrite (decide_False (P := j ∈ [c])) by (by rewrite list_elem_of_singleton). destruct (decide (j ∈ cs)); [by rewrite decide_True by (by right)|]. rewrite decide_False; [done|]. by rewrite elem_of_cons; intros [?|?].
Qed.
Lemma gone_one {A} c (m : gmap nat A) : gone [c] m (delete c m).
Proof using Type. intros j. destruct (decide (j = c)) as [->|Hj]; [by rewrite lookup_delete_eq, decide_True by left|]. rewrite lookup_delete_ne, decide_False by (done || by rewrite list_elem_of_singleton). done. Qed.
(** The other children are as before. *)
Lemma ready_kept n c f n' c' f' isk' : child_gone n c f n' -> c' <> c -> child_ready n c' f' isk' -> child_ready n' c' f' isk'.
Proof using Type.
  intros [_ G2 G3 G4 _ _] Hn [R1 R2 R3 R4 R5 R6]. split; [by rewrite G4, lookup_delete_ne|by rewrite G3, decide_False|done| |done|done]. destruct (G2 c' Hn) as [K1 K2]. destruct R4 as [?|[? ?]]; [left; auto|right; auto].
Qed.
Definition closable n c : Prop := nt_refs n !! c = Some 1 /\ exists f isk, child_ready n c f isk.
Definition request_of q (x c : nat) : Prop := req_sk <$> reqs q !! x = Some (Some c).
Lemma stop_children_ok cs : forall fuel n q p A, conn_inv (nt_tables n) -> ReqQueue.chain (nexts (reqs q)) p A -> NoDup A -> (length A <= fuel)%nat -> sk_ack_backlog q = Z.of_nat (length A) -> Z.of_nat (length A) < 2 ^ 16 ->
  Forall2 (request_of q) A cs -> NoDup cs -> Forall (closable n) cs ->
  exists n', stop_children fuel n q p = (n', q <| sk_ack_backlog := 0 |> <| reqs := without (reqs q) A |>) /\ children_gone n cs n'.
Proof using EL.
  induction cs as [|c cs IH]; intros fuel n q p A Hc Hch Hnd Hfu Hb Hlt Hrq Hdc Hcl.
  - apply Forall2_nil_inv_r in Hrq as ->. cbn in Hch. subst p. exists n. split; [change (Z.of_nat (length [])) with 0 in Hb; rewrite <- Hb; by destruct fuel|]. split; [done|done|done|done|cbn; rewrite !Z.sub_0_r; done].
  - apply Forall2_cons_inv_r in Hrq as (x & A' & Hx & Hrq & ->). destruct fuel as [|fuel]; [cbn in Hfu; lia|]. destruct Hch as (-> & p' & Hp & Hch). apply NoDup_cons in Hnd as [Hnx Hnd]. apply NoDup_cons in Hdc as [Hnc Hdc]. apply Forall_cons in Hcl as [(Hk & f & isk & Hr) Hcl]. cbn [stop_children]. unfold nexts in Hp. unfold request_of in Hx. destruct (reqs q !! x) as [r|]; [|done]. cbn in Hp, Hx. injection Hp as <-. injection Hx as Hx. cbn beta iota. assert (Hx1 : req_sk r = Some c) by exact Hx. rewrite Hx1.
    pose proof (stop_child_ok n c f isk Hc Hr Hk) as Hg. set (q1 := reqsk_free (sk_acceptq_removed q) x). destruct (IH fuel (stop_child n c) q1 (dl_next r) A') as (n' & -> & Hn'); [by destruct Hg|apply (chain_without (reqs q) _ A' [x]); [|exact Hch]|done|cbn in Hfu; lia| |cbn in Hlt; lia| |done| |].
    + intros y Hy. rewrite list_elem_of_singleton. by intros ->.
    + unfold q1, reqsk_free, sk_acceptq_removed. cbn. rewrite Hb. cbn [length]. unfold u16. rewrite Z.mod_small by (cbn in Hlt; lia). lia.
    + apply Forall2_same_length_lookup_2; [by eapply Forall2_length|]. intros k y c' Hy Hc'. unfold request_of, q1, reqsk_free. cbn. rewrite lookup_delete_ne; [by apply (Forall2_lookup_lr _ _ _ k y c' Hrq)|]. intros ->. by apply Hnx, (list_elem_of_lookup_2 _ k).
    + apply Forall_forall. intros c' Hc'. destruct (proj1 (Forall_forall _ _) Hcl c' Hc') as (Hk' & f' & isk' & Hr'). assert (c' <> c) by (by intros ->). split; [by rewrite (cg_refs _ _ _ _ Hg), lookup_delete_ne|]. exists f', isk'. by eapply ready_kept.
    + exists n'. split; [done|]. destruct Hn' as [N1 N2 N3 N4 N5], Hg as [G1 G2 G3 G4 G5 G6]. rewrite G4 in N3. rewrite G5 in N4. split; [done| |eapply gone_cons; [apply gone_one|done]..|].
      * eapply gone_cons; [|exact N2]. intros j. rewrite G3. by case_decide; case_decide as Hj; rewrite list_elem_of_singleton in Hj.
      * rewrite N5. injection G6 as -> -> -> ->. assert (sumZ (hold_of (stop_child n c)) cs = sumZ (hold_of n) cs) as -> by (apply sumZ_ext, Forall_forall; intros j Hj; unfold hold_of; rewrite G4, lookup_delete_ne; [done|by intros ->]). cbn [sumZ length]. unfold hold_of at 2. rewrite (cr_full _ _ _ _ Hr). cbn. f_equal. f_equal; [f_equal; lia|lia].
Qed.
(** The queue of a closed listener: no table, no FIFO, and all the requests freed. *)
Definition emptied q (xs : list nat) : listener := q <| rskq_accept_head := None |> <| listen_opt := None |> <| sk_ack_backlog := 0 |> <| reqs := without (reqs q) xs |>.
Lemma request_without q xs A cs : (forall x, x ∈ A -> x ∉ xs) -> Forall2 (request_of q) A cs -> forall q', reqs q' = without (reqs q) xs -> Forall2 (request_of q') A cs.
Proof using Type.
  intros Hd Hr q' Eq. apply Forall2_same_length_lookup_2; [by eapply Forall2_length|]. intros k y c Hy Hc. unfold request_of. rewrite Eq, without_lookup, decide_False by (by apply Hd, (list_elem_of_lookup_2 _ k)). by apply (Forall2_lookup_lr _ _ _ k y c Hr).
Qed.
(** C22. Closing a listening socket.  Every connection that nobody accepted is disconnected and freed:
    it is in no table, it owns no port, its keys and its place in the counters are given back.  The
    half-open connections and all the requests are freed, and the queue is empty.  No other socket
    changes, the tables stay consistent, the orphans are counted right, and no WARN_ON fires: the
    table's count of requests and the backlog come out at zero. *)
Theorem listen_stop_ok jh n i f l T A cs : conn_inv (nt_tables n) -> nt_socks n !! i = Some f -> rep jh (fs_queue f) l T A ->
  sk_ack_backlog (fs_queue f) = Z.of_nat (length A) -> Z.of_nat (length A) < 2 ^ 16 -> Forall2 (request_of (fs_queue f)) A cs -> NoDup cs -> i ∉ cs -> Forall (closable n) cs ->
  children_gone (upd_full n i (fun f => f <| fs_queue := emptied (fs_queue f) (concat T ++ A) |>)) cs (inet_csk_listen_stop n i).
Proof using EL.
  intros Hc Hf Hrep Hb Hlt Hrq Hdc Hic Hcl. unfold inet_csk_listen_stop. rewrite Hf. unfold reqsk_queue_yank_acceptq. cbn beta iota zeta. set (q := fs_queue f) in *. rewrite (queue_destroy_ok jh q l T A Hrep). cbn beta iota zeta. rewrite warn_off by done.
  pose proof (rep_shape _ _ _ _ _ Hrep) as Hsh. pose proof (shape_nodup _ _ _ _ _ _ Hsh) as Hnd. apply NoDup_app in Hnd as (_ & Hdj & HndA). assert (HdA : forall x, x ∈ A -> x ∉ concat T) by (intros x Hx Hx'; by apply (Hdj x)).
  set (q1 := _ <| reqs := _ |>). assert (Hch : ReqQueue.chain (nexts (reqs q1)) (rskq_accept_head q) A) by (apply chain_without; [done|apply Hsh]).
  destruct (stop_children_ok cs (size (reqs q1)) n q1 (rskq_accept_head q) A) as (n' & -> & Hg); [done|exact Hch|done|by eapply chain_size|done|done|by eapply (request_without q (concat T))|done|done|].
  cbn beta iota zeta. rewrite warn_off by done. destruct Hg as [G1 G2 G3 G4 G5]. split; [done|done| |done|].
  - intros j. specialize (G3 j). unfold upd_full. cbn. destruct (decide (j = i)) as [->|Hj].
    + rewrite !lookup_alter_eq, G3, !decide_False, Hf by done. cbn. unfold emptied. by rewrite without_app.
    + rewrite !lookup_alter_ne by done. exact G3.
  - cbn. rewrite G5. f_equal. f_equal. f_equal. apply sumZ_ext, Forall_forall. intros c Hc'. unfold hold_of, upd_full. cbn. rewrite lookup_alter_ne; [done|by intros ->].
Qed.
End Closing.

Module Demo.
#[local] Existing Instance Hashtables.Demo.env.
#[local] Instance kernel : LifeEnv := {|
  tcp_disconnect_sk n c :=
    match nt_socks n !! c with
    | Some f => n <| nt_tables := disconnected (nt_tables n) c false 0 |> <| nt_socks := <[c := f <| fs_sk := (fs_sk f) <| sk_state := TCP_CLOSE |> |>]> (nt_socks n) |>
    | None => n
    end;
|}.
#[local] Instance kernel_laws : LifeLaws.
Proof. split. intros n c f isk Hr. cbn. rewrite (cr_full _ _ _ _ Hr). eexists false, 0, _. by split. Qed.

(** The server of [Hashtables.Demo] with one half-open connection, and one, with an MD5 key, that
    waits to be accepted. *)
Definition blank : listener := ReqQueue.Demo.blank <| reqs := {[7%nat := ReqQueue.Demo.req; 8%nat := ReqQueue.Demo.req]} |>.
Definition q0 : listener := match reqsk_queue_alloc ReqQueue.Demo.round 128 true 9 blank 5 with inr q => q | inl _ => blank end.
Definition q1 : listener := snd (inet_csk_reqsk_queue_hash_add ReqQueue.Demo.jh 0 q0 7 3000).
Definition q2 : listener := reqsk_queue_add q1 8 1.
Lemma waiting_rep : rep ReqQueue.Demo.jh q2 ReqQueue.Demo.l1 ReqQueue.Demo.T1 [8%nat].
Proof.
  assert (R0 : rep ReqQueue.Demo.jh q0 ReqQueue.Demo.l0 ReqQueue.Demo.T0 []).
  { destruct (alloc_rep ReqQueue.Demo.jh ReqQueue.Demo.round 128 9 blank 5 ReqQueue.Demo.round_ok) as (q & l & k & E & _ & _ & _ & Hr & _); [lia..|].
    assert (q = q0) as -> by (unfold q0; by rewrite E). assert (l = ReqQueue.Demo.l0) as -> by (pose proof (rep_lopt _ _ _ _ _ Hr) as H; vm_compute in H; by injection H as <-). exact Hr. }
  destruct (hash_add_rep (jh := ReqQueue.Demo.jh) q0 _ _ [] 7 ReqQueue.Demo.req 0 3000 R0 eq_refl) as (b & l & r & Eb & Hr & _).
  { vm_compute. by intros ?%elem_of_nil. }
  { vm_compute. lia. }
  fold q1 in Hr. assert (b = []) as -> by (vm_compute in Eb; by injection Eb). assert (l = ReqQueue.Demo.l1) as -> by (pose proof (rep_lopt _ _ _ _ _ Hr) as H; vm_compute in H; by injection H as <-).
  apply (accept_add_rep q1 _ _ [] 8 1 Hr); [vm_compute; by eexists|]. vm_compute. by intros [?|?%elem_of_nil]%elem_of_cons.
Qed.
Definition server := mk_full (blank_sock <| sk_state := TCP_LISTEN |>) q2 Md5.Demo.empty 0 false 1 false [] 0.
Definition child := server <| fs_sk := blank_sock <| sk_state := TCP_ESTABLISHED |> |> <| fs_queue := blank |> <| fs_md5 := Md5.Demo.keyed |>.
Definition host := mk_net Hashtables.Demo.host (list_to_map [(0%nat, server); (1%nat, child)]) (list_to_map [(0%nat, 1); (1%nat, 1)]) 2 0 1 false.
Definition stopped := inet_csk_listen_stop host 0.
Example stopped_counts : (nt_alloc stopped, nt_orphans stopped, nt_pool stopped, nt_warn stopped) = (1, 0, 0, false) /\ bool_decide (dom (socks (nt_tables stopped)) = ({[0%nat; 2%nat; 3%nat]} : gset nat)) = true.
Proof. split; vm_compute; reflexivity. Qed.
Lemma listen_stop_ok_witness : conn_inv (nt_tables stopped) /\ nt_socks stopped !! 1%nat = None /\ nt_pool stopped = 0.
Proof.
  destruct (listen_stop_ok ReqQueue.Demo.jh host 0 server ReqQueue.Demo.l1 ReqQueue.Demo.T1 [8%nat] [1%nat]) as [G1 _ G3 _ G5]; [exact Hashtables.Demo.host_conn|reflexivity|exact waiting_rep|reflexivity|reflexivity|repeat constructor|repeat constructor; by intros ?%elem_of_nil|by intros [?|?%elem_of_nil]%elem_of_cons| |].
  - constructor; [|constructor]. split; [reflexivity|]. exists child, Hashtables.Demo.peer. split; [reflexivity|reflexivity|reflexivity| |by intros ?|by intros ?]. left. exists 3%nat. eexists. split; [reflexivity|]. left.
  - split; [exact G1|]. split; [exact (G3 1%nat)|]. exact (f_equal (fun t => snd (fst t)) G5).
Defined.
End Demo.
