(* ===== verification/Syscall.v ===== *)
(** * The system-call layer

    net/socket.c: the system calls of sockets on file descriptors.  Descriptors, files, sockets and
    the modules that own their protocols are counted; the theorems say that no path of a call that runs
    alone, with or without an error, loses or invents a reference, and that a message is only sent to an address
    that the security module has approved.

    The state is a [sys]: the table of descriptors of the process, the open files, the sockets (struct
    socket with its inode), the reference counts of modules, the registered families, the option
    memory charged to sockets (sk_omem_alloc), the user memory [U] and the state of the protocols [P].
    The file system, module loading, copies from and to user space, the security hooks and the
    protocols are the class [Sys]; what is assumed of the first three is [SysLaws].  The protocols are
    those whose messages carry no descriptors, as all of AF_INET: the passing of open files with
    SCM_RIGHTS (AF_UNIX) is left out.  [sy_oops] says
    that a NULL pointer was used.  The 32-bit compatibility interface, ioctl(), asynchronous I/O and
    poll() are left out; a function returns an int, which is negative for an error. *)

From stdpp Require Import gmap.
From S2P Require Import Prelude.

Definition EPERM : Z := 1.
Definition EBADF : Z := 9.
Definition ENOMEM : Z := 12.
Definition EFAULT : Z := 14.
Definition EEXIST : Z := 17.
Definition EINVAL : Z := 22.
Definition ENFILE : Z := 23.
Definition ENOTSOCK : Z := 88.
Definition EMSGSIZE : Z := 90.
Definition EAFNOSUPPORT : Z := 97.
Definition ECONNABORTED : Z := 103.
Definition ENOBUFS : Z := 105.
Definition EAGAIN : Z := 11.
Definition NPROTO : Z := 40.
Definition SOCK_MAX : Z := 11.
Definition SOCK_PACKET : Z := 10.
Definition PF_INET : Z := 2.
Definition PF_PACKET : Z := 17.
Definition SOCK_TYPE_MASK : Z := 15.
Definition SOCK_NONBLOCK : Z := 2048. (* = O_NONBLOCK *)
Definition SOCK_CLOEXEC : Z := 524288. (* = O_CLOEXEC *)
Definition O_RDWR : Z := 2.
Definition SOL_SOCKET : Z := 1.
Definition MSG_DONTWAIT : Z := 64.
Definition MSG_OOB : Z := 1.
Definition MSG_WAITFORONE : Z := 65536.
Definition MSG_CMSG_CLOEXEC : Z := 1073741824.
Definition sizeof_sockaddr_storage : Z := 128.
Definition sizeof_ctl : Z := 36. (* struct cmsghdr and 20 bytes *)
Definition sizeof_iovec : Z := 16.
Definition UIO_FASTIOV : Z := 8.
Definition UIO_MAXIOV : Z := 1024.
Definition INT_MAX : Z := 2147483647.
Definition UINT_MAX : Z := 4294967295.

(** A slot of the table of descriptors; [FdReserved] between get_unused_fd and fd_install. *)
Inductive fd_slot := FdReserved | FdOpen (f : nat).
#[export] Instance fd_slot_eq_dec : EqDecision fd_slot.
Proof. solve_decision. Defined.
#[projections(primitive)]
Record file := mk_file { f_count : Z; f_flags : Z; f_sock : option nat (* private_data, where f_op is socket_file_ops *) }.
Definition eta_file (r : file) : file := mk_file (f_count r) (f_flags r) (f_sock r).
#[export] Instance set_f_count : Setter f_count. Proof. solve_setter eta_file. Defined.
#[projections(primitive)]
Record socket := mk_socket { so_type : Z; so_ops : option nat; so_file : option nat }.
Definition eta_socket (r : socket) : socket := mk_socket (so_type r) (so_ops r) (so_file r).
#[export] Instance set_so_type : Setter so_type. Proof. solve_setter eta_socket. Defined.
#[export] Instance set_so_ops : Setter so_ops. Proof. solve_setter eta_socket. Defined.
#[export] Instance set_so_file : Setter so_file. Proof. solve_setter eta_socket. Defined.
Record net_proto_family := mk_family { family : Z; pf_owner : nat; pf_id : nat }.

(** struct msghdr as the user passes it, and with the name and the control data in the kernel. *)
Record msghdr := mk_msghdr { msg_name : Z; msg_namelen : Z; msg_iov : Z; msg_iovlen : Z; msg_control : Z; msg_controllen : Z }.
Record kmsg := mk_kmsg { km_name : option (list Z); km_namelen : Z; km_iov : list (Z * Z); km_control : list Z; km_flags : Z }.
(** What a protocol's recvmsg() returns: the error or length, the name, msg_flags and the length of the
    control data. *)
Record recvd := mk_recvd { rd_err : Z; rd_name : list Z; rd_flags : Z; rd_control : Z }.
(** Where the members of a struct mmsghdr are in user memory. *)
Record msg_fields := mk_fields { at_namelen : Z; at_flags : Z; at_controllen : Z; at_len : Z }.
(** What the security module is asked. *)
Inductive hook := HBind (x : nat) (a : list Z) | HListen (x : nat) (backlog : Z) | HAccept (x y : nat) | HConnect (x : nat) (a : list Z) | HGetsockname (x : nat) | HGetpeername (x : nat)
  | HSetsockopt (x : nat) (level name : Z) | HGetsockopt (x : nat) (level name : Z) | HShutdown (x : nat) (how : Z) | HSendmsg (x : nat) (m : kmsg) (size : Z) | HRecvmsg (x : nat) (size flags : Z)
  | HCreate (family type protocol : Z) (kern : bool) | HPostCreate (x : nat) (family type protocol : Z) (kern : bool).

Section Layer.
Context {P U : Type}.

#[projections(primitive)]
Record sys := mk_sys {
  fdt : gmap Z fd_slot;
  files : gmap nat file;
  sockets : gmap nat socket;
  mod_refs : nat -> Z;
  net_families : gmap Z net_proto_family;
  sockets_in_use : Z;
  omem : nat -> Z;
  sy_proto : P;
  sy_user : U;
  sy_oops : bool
}.
Definition eta_sys (r : sys) : sys := mk_sys (fdt r) (files r) (sockets r) (mod_refs r) (net_families r) (sockets_in_use r) (omem r) (sy_proto r) (sy_user r) (sy_oops r).
#[export] Instance set_fdt : Setter fdt. Proof. solve_setter eta_sys. Defined.
#[export] Instance set_files : Setter files. Proof. solve_setter eta_sys. Defined.
#[export] Instance set_sockets : Setter sockets. Proof. solve_setter eta_sys. Defined.
#[export] Instance set_mod_refs : Setter mod_refs. Proof. solve_setter eta_sys. Defined.
#[export] Instance set_net_families : Setter net_families. Proof. solve_setter eta_sys. Defined.
#[export] Instance set_sockets_in_use : Setter sockets_in_use. Proof. solve_setter eta_sys. Defined.
#[export] Instance set_omem : Setter omem. Proof. solve_setter eta_sys. Defined.
#[export] Instance set_sy_proto : Setter sy_proto. Proof. solve_setter eta_sys. Defined.
#[export] Instance set_sy_user : Setter sy_user. Proof. solve_setter eta_sys. Defined.
#[export] Instance set_sy_oops : Setter sy_oops. Proof. solve_setter eta_sys. Defined.
Implicit Types (s : sys) (x f m o : nat) (fd : Z).

Class Sys := {
  (* files and descriptors *)
  get_unused_fd_flags : sys -> Z -> Z * sys;
  put_unused_fd : sys -> Z -> sys;
  fd_install : sys -> Z -> nat -> sys;
  fget : sys -> Z -> option nat * sys;
  fget_light : sys -> Z -> option (nat * bool) * sys; (* the file and fput_needed *)
  fput : sys -> nat -> sys;
  fput_light : sys -> nat -> bool -> sys;
  sys_close : sys -> Z -> Z * sys;
  new_inode_pseudo : sys -> option nat;
  d_alloc_pseudo : sys -> bool;
  alloc_file : sys -> option nat;
  (* modules *)
  request_module : sys -> Z -> sys;
  try_module_get : sys -> nat -> bool * sys;
  module_get : sys -> nat -> sys; (* __module_get *)
  module_put : sys -> nat -> sys;
  (* user memory; [None] is -EFAULT *)
  get_user : U -> Z -> option Z;
  put_user : U -> Z -> Z -> option U;
  copy_from_user : U -> Z -> Z -> option (list Z);
  copy_to_user : U -> Z -> list Z -> option U;
  get_msghdr : U -> Z -> option msghdr;
  msg_field : Z -> msg_fields;
  get_timespec : U -> Z -> option (Z * Z);
  put_timespec : U -> Z -> Z * Z -> option U;
  poll_select_set_timeout : P -> Z * Z -> option (Z * Z); (* the end time; None is an error *)
  time_left : P -> Z * Z -> Z * Z; (* the end time less ktime_get_ts() *)
  sizeof_mmsghdr : Z;
  audit_sockaddr : list Z -> Z;
  verify_iovec : U -> msghdr -> bool -> Z * option (list Z) * list (Z * Z); (* total length or error, name, vector *)
  sock_kmalloc : sys -> nat -> Z -> option sys;
  sock_kfree_s : sys -> nat -> Z -> sys;
  (* the security module *)
  security : hook -> Z;
  (* the families and their operations *)
  somaxconn : P -> nat -> Z;
  pf_create : nat -> P -> nat -> Z -> Z -> bool -> Z * option nat * P;
  ops_owner : nat -> nat;
  ops_release : nat -> P -> nat -> P;
  ops_bind : nat -> P -> nat -> list Z -> Z * P;
  ops_connect : nat -> P -> nat -> list Z -> Z -> Z * P;
  ops_listen : nat -> P -> nat -> Z -> Z * P;
  ops_accept : nat -> P -> nat -> nat -> Z -> Z * P;
  ops_socketpair : nat -> P -> nat -> nat -> Z * P;
  ops_getname : nat -> P -> nat -> Z -> Z * list Z;
  ops_shutdown : nat -> P -> nat -> Z -> Z * P;
  ops_setsockopt : nat -> P -> U -> nat -> Z -> Z -> Z -> Z -> Z * P;
  ops_getsockopt : nat -> P -> U -> nat -> Z -> Z -> Z -> Z -> Z * P * U;
  sock_setsockopt : P -> U -> nat -> Z -> Z -> Z -> Z * P;
  sock_getsockopt : P -> U -> nat -> Z -> Z -> Z -> Z * P * U;
  (* messages without ancillary descriptors (SCM_RIGHTS, which AF_INET does not have): the state of
     the protocol and the user memory are all that a message can change *)
  ops_sendmsg : nat -> P -> U -> nat -> kmsg -> Z -> Z * P;
  ops_recvmsg : nat -> P -> U -> nat -> list (Z * Z) -> Z -> Z -> Z -> recvd * P * U;
  sock_error : P -> nat -> Z * P;
  set_sk_err : P -> nat -> Z -> P;
}.
Context {E : Sys}.

Definition oops s : sys := s <| sy_oops := true |>.
Definition upd_so s x (g : socket -> socket) : sys := s <| sockets := alter g x (sockets s) |>.
(** sock->ops->... *)
Definition with_ops s x (k : nat -> Z * sys) : Z * sys :=
  match sockets s !! x ≫= so_ops with
  | Some o => k o
  | None => (0, oops s)
  end.
Definition on_proto s (r : Z * P) : Z * sys := (r.1, s <| sy_proto := r.2 |>).

(** ** Addresses *)
Definition move_addr_to_kernel (u : U) (uaddr ulen : Z) : Z * list Z :=
  if (ulen <? 0) || (sizeof_sockaddr_storage <? ulen) then (- EINVAL, [])
  else if ulen =? 0 then (0, [])
  else match copy_from_user u uaddr ulen with
       | None => (- EFAULT, [])
       | Some kaddr => (audit_sockaddr kaddr, kaddr)
       end.
Definition move_addr_to_user (u : U) (kaddr : list Z) (uaddr ulen : Z) : Z * U :=
  let klen := Z.of_nat (length kaddr) in
  match get_user u ulen with
  | None => (- EFAULT, u)
  | Some len =>
    let len := if klen <? len then klen else len in
    if (len <? 0) || (sizeof_sockaddr_storage <? len) then (- EINVAL, u)
    else
      let put u := match put_user u ulen klen with None => (- EFAULT, u) | Some u => (0, u) end in
      if len =? 0 then put u
      else if negb (audit_sockaddr kaddr =? 0) then (- ENOMEM, u)
      else match copy_to_user u uaddr (take (Z.to_nat len) kaddr) with
           | None => (- EFAULT, u)
           | Some u => put u
           end
  end.

(** ** Sockets and their files *)
Definition sock_alloc s : option (nat * sys) :=
  match new_inode_pseudo s with
  | None => None
  | Some x => Some (x, s <| sockets := <[x := mk_socket 0 None None]> (sockets s) |> <| sockets_in_use := sockets_in_use s + 1 |>)
  end.
Definition sock_release s x : sys :=
  match sockets s !! x with
  | None => oops s
  | Some so =>
    let s := match so_ops so with
             | Some o => module_put (upd_so (s <| sy_proto := ops_release o (sy_proto s) x |>) x (fun so => so <| so_ops := None |>)) (ops_owner o)
             | None => s
             end in
    let s := s <| sockets_in_use := sockets_in_use s - 1 |> in
    match so_file so with
    | None => s <| sockets := delete x (sockets s) |> (* iput *)
    | Some _ => upd_so s x (fun so => so <| so_file := None |>)
    end
  end.
Definition sock_close s (inode : option nat) : sys := match inode with None => s | Some x => sock_release s x end.
Definition sock_alloc_file s x (flags : Z) : Z * option nat * sys :=
  let '(fd, s) := get_unused_fd_flags s flags in
  if fd <? 0 then (fd, None, s)
  else if negb (d_alloc_pseudo s) then (- ENOMEM, None, put_unused_fd s fd)
  else match alloc_file s with
       | None => (- ENFILE, None, put_unused_fd s fd)
       | Some f =>
         let s := s <| files := <[f := mk_file 1 (Z.lor O_RDWR (Z.land flags SOCK_NONBLOCK)) (Some x)]> (files s) |> in
         (fd, Some f, upd_so s x (fun so => so <| so_file := Some f |>))
       end.
Definition sock_map_fd s x (flags : Z) : Z * sys :=
  let '(fd, newfile, s) := sock_alloc_file s x flags in
  match newfile with Some f => (fd, fd_install s fd f) | None => (fd, s) end.
Definition sock_from_file s f : option nat := files s !! f ≫= f_sock.
Definition sockfd_lookup s fd : Z * option nat * sys :=
  let '(r, s) := fget s fd in
  match r with
  | None => (- EBADF, None, s)
  | Some f =>
    match sock_from_file s f with
    | Some x => (0, Some x, s)
    | None => (- ENOTSOCK, None, fput s f)
    end
  end.
Definition sockfd_lookup_light s fd : Z * option (nat * bool) * sys :=
  let '(r, s) := fget_light s fd in
  match r with
  | None => (- EBADF, None, s)
  | Some (f, fput_needed) =>
    match sock_from_file s f with
    | Some x => (- EBADF, Some (x, fput_needed), s)
    | None => (- ENOTSOCK, None, fput_light s f fput_needed)
    end
  end.
(** fput_light(sock->file, fput_needed) *)
Definition put_sock s x (fput_needed : bool) : sys :=
  match sockets s !! x ≫= so_file with
  | Some f => fput_light s f fput_needed
  | None => oops s
  end.
(** The frame of the calls on one descriptor. *)
Definition with_sockfd s fd (body : sys -> nat -> Z * sys) : Z * sys :=
  let '(err, r, s) := sockfd_lookup_light s fd in
  match r with
  | None => (err, s)
  | Some (x, fput_needed) => let '(err, s) := body s x in (err, put_sock s x fput_needed)
  end.

(** ** Families and socket() *)
Definition sock_register s (ops : net_proto_family) : Z * sys :=
  if NPROTO <=? family ops then (- ENOBUFS, s)
  else match net_families s !! family ops with
       | Some _ => (- EEXIST, s)
       | None => (0, s <| net_families := <[family ops := ops]> (net_families s) |>)
       end.
(** [None]: BUG_ON *)
Definition sock_unregister s (fam : Z) : option sys :=
  if (fam <? 0) || (NPROTO <=? fam) then None else Some (s <| net_families := delete fam (net_families s) |>).
(** The label out_module_put. *)
Definition create_failed s x m (err : Z) : Z * option nat * sys := (err, None, sock_release (module_put (upd_so s x (fun so => so <| so_ops := None |>)) m) x).
Definition sock_create_ s (fam type protocol : Z) (kern : bool) : Z * option nat * sys :=
  if (fam <? 0) || (NPROTO <=? fam) then (- EAFNOSUPPORT, None, s)
  else if (type <? 0) || (SOCK_MAX <=? type) then (- EINVAL, None, s)
  else
    let fam := if (fam =? PF_INET) && (type =? SOCK_PACKET) then PF_PACKET else fam in
    let err := security (HCreate fam type protocol kern) in
    if negb (err =? 0) then (err, None, s)
    else match sock_alloc s with
         | None => (- ENFILE, None, s)
         | Some (x, s) =>
           let s := upd_so s x (fun so => so <| so_type := type |>) in
           let s := match net_families s !! fam with None => request_module s fam | Some _ => s end in
           match net_families s !! fam with
           | None => (- EAFNOSUPPORT, None, sock_release s x)
           | Some pf =>
             let '(ok, s) := try_module_get s (pf_owner pf) in
             if negb ok then (- EAFNOSUPPORT, None, sock_release s x)
             else
               let '(err, ops, p) := pf_create (pf_id pf) (sy_proto s) x type protocol kern in
               let s := upd_so (s <| sy_proto := p |>) x (fun so => so <| so_ops := ops |>) in
               if err <? 0 then create_failed s x (pf_owner pf) err
               else match ops with
                    | None => (0, None, oops s)
                    | Some o =>
                      let '(ok, s) := try_module_get s (ops_owner o) in
                      if negb ok then create_failed s x (pf_owner pf) (- EAFNOSUPPORT)
                      else
                        let s := module_put s (pf_owner pf) in
                        let err := security (HPostCreate x fam type protocol kern) in
                        if negb (err =? 0) then (err, None, sock_release s x) else (0, Some x, s)
                    end
           end
         end.
Definition sock_create s (fam type protocol : Z) : Z * option nat * sys := sock_create_ s fam type protocol false.
Definition sock_create_kern s (fam type protocol : Z) : Z * option nat * sys := sock_create_ s fam type protocol true.
Definition sock_create_lite s (fam type protocol : Z) : Z * option nat * sys :=
  let err := security (HCreate fam type protocol true) in
  if negb (err =? 0) then (err, None, s)
  else match sock_alloc s with
       | None => (- ENOMEM, None, s)
       | Some (x, s) =>
         let s := upd_so s x (fun so => so <| so_type := type |>) in
         let err := security (HPostCreate x fam type protocol true) in
         if negb (err =? 0) then (err, None, sock_release s x) else (0, Some x, s)
       end.
(** kernel_accept, for a socket [x] with the family, type and protocol of its struct sock. *)
Definition kernel_accept s x (fam type protocol flags : Z) : Z * option nat * sys :=
  let '(err, newsock, s) := sock_create_lite s fam type protocol in
  match newsock with
  | None => (err, None, s)
  | Some y =>
    match sockets s !! x ≫= so_ops with
    | None => (0, None, oops s)
    | Some o =>
      let '(err, p) := ops_accept o (sy_proto s) x y flags in
      let s := s <| sy_proto := p |> in
      if err <? 0 then (err, None, sock_release s y)
      else (err, Some y, module_get (upd_so s y (fun so => so <| so_ops := Some o |>)) (ops_owner o))
    end
  end.
Definition bad_flags (flags : Z) : bool := negb (Z.land flags (Z.lnot (Z.lor SOCK_CLOEXEC SOCK_NONBLOCK)) =? 0).
Definition sys_socket s (fam type protocol : Z) : Z * sys :=
  let flags := Z.land type (Z.lnot SOCK_TYPE_MASK) in
  if bad_flags flags then (- EINVAL, s)
  else
    let '(retval, sock, s) := sock_create s fam (Z.land type SOCK_TYPE_MASK) protocol in
    if retval <? 0 then (retval, s)
    else match sock with
         | None => (retval, oops s)
         | Some x =>
           let '(retval, s) := sock_map_fd s x (Z.land flags (Z.lor SOCK_CLOEXEC SOCK_NONBLOCK)) in
           if retval <? 0 then (retval, sock_release s x) else (retval, s)
         end.
(** The second half of socketpair(): the files of the two sockets. *)
Definition pair_files s x1 x2 (flags usockvec : Z) : Z * sys :=
  let '(fd1, newfile1, s) := sock_alloc_file s x1 flags in
  match newfile1 with
  | None => (fd1, sock_release (sock_release s x2) x1)
  | Some f1 =>
    let '(fd2, newfile2, s) := sock_alloc_file s x2 flags in
    match newfile2 with
    | None => (fd2, sock_release (put_unused_fd (fput s f1) fd1) x2)
    | Some f2 =>
      let s := fd_install (fd_install s fd1 f1) fd2 f2 in
      let close s err := (err, (sys_close (sys_close s fd2).2 fd1).2) in
      match put_user (sy_user s) usockvec fd1 with
      | None => close s (- EFAULT)
      | Some u =>
        let s := s <| sy_user := u |> in
        match put_user u (usockvec + 4) fd2 with
        | None => close s (- EFAULT)
        | Some u => (0, s <| sy_user := u |>)
        end
      end
    end
  end.
Definition sys_socketpair s (fam type protocol usockvec : Z) : Z * sys :=
  let flags := Z.land type (Z.lnot SOCK_TYPE_MASK) in
  if bad_flags flags then (- EINVAL, s)
  else
    let type := Z.land type SOCK_TYPE_MASK in
    let '(err, sock1, s) := sock_create s fam type protocol in
    if err <? 0 then (err, s)
    else match sock1 with
         | None => (err, oops s)
         | Some x1 =>
           let '(err, sock2, s) := sock_create s fam type protocol in
           if err <? 0 then (err, sock_release s x1)
           else match sock2 with
                | None => (err, oops s)
                | Some x2 =>
                  let '(err, s) := with_ops s x1 (fun o => on_proto s (ops_socketpair o (sy_proto s) x1 x2)) in
                  if err <? 0 then (err, sock_release (sock_release s x2) x1)
                  else pair_files s x1 x2 flags usockvec
                end
         end.

(** ** Calls on a descriptor *)
(** sock->file->f_flags *)
Definition flags_of s x : Z := match sockets s !! x with Some so => match so_file so with Some f => from_option f_flags 0 (files s !! f) | None => 0 end | None => 0 end.
Definition sys_bind s fd (umyaddr addrlen : Z) : Z * sys :=
  with_sockfd s fd (fun s x =>
    let '(err, address) := move_addr_to_kernel (sy_user s) umyaddr addrlen in
    if err <? 0 then (err, s)
    else
      let err := security (HBind x address) in
      if negb (err =? 0) then (err, s) else with_ops s x (fun o => on_proto s (ops_bind o (sy_proto s) x address))).
Definition sys_listen s fd (backlog : Z) : Z * sys :=
  with_sockfd s fd (fun s x =>
    let max := somaxconn (sy_proto s) x in
    let backlog := if max <? u32 backlog then max else backlog in
    let err := security (HListen x backlog) in
    if negb (err =? 0) then (err, s) else with_ops s x (fun o => on_proto s (ops_listen o (sy_proto s) x backlog))).
Definition sys_connect s fd (uservaddr addrlen : Z) : Z * sys :=
  with_sockfd s fd (fun s x =>
    let '(err, address) := move_addr_to_kernel (sy_user s) uservaddr addrlen in
    if err <? 0 then (err, s)
    else
      let err := security (HConnect x address) in
      if negb (err =? 0) then (err, s)
      else with_ops s x (fun o => on_proto s (ops_connect o (sy_proto s) x address (flags_of s x)))).
(** What accept4() does once the new socket has its file; an error takes the label out_fd. *)
Definition accept_file s x y (upeer_sockaddr upeer_addrlen : Z) : Z * sys :=
  let err := security (HAccept x y) in
  if negb (err =? 0) then (err, s)
  else
    let '(err, s) := with_ops s x (fun o => on_proto s (ops_accept o (sy_proto s) x y (flags_of s x))) in
    if err <? 0 then (err, s)
    else if upeer_sockaddr =? 0 then (0, s)
    else with_ops s y (fun o =>
      let '(err, address) := ops_getname o (sy_proto s) y 2 in
      if err <? 0 then (- ECONNABORTED, s)
      else let '(err, u) := move_addr_to_user (sy_user s) address upeer_sockaddr upeer_addrlen in (err, s <| sy_user := u |>)).
Definition sys_accept4 s fd (upeer_sockaddr upeer_addrlen flags : Z) : Z * sys :=
  if bad_flags flags then (- EINVAL, s)
  else with_sockfd s fd (fun s x =>
    match sock_alloc s with
    | None => (- ENFILE, s)
    | Some (y, s) =>
      match sockets s !! x with
      | None => (0, oops s)
      | Some so =>
        let s := upd_so s y (fun so' => so' <| so_type := so_type so |> <| so_ops := so_ops so |>) in
        match so_ops so with
        | None => (0, oops s)
        | Some o =>
          let s := module_get s (ops_owner o) in
          let '(newfd, newfile, s) := sock_alloc_file s y flags in
          match newfile with
          | None => (newfd, sock_release s y)
          | Some nf =>
            let '(err, s) := accept_file s x y upeer_sockaddr upeer_addrlen in
            if err <? 0 then (err, put_unused_fd (fput s nf) newfd) else (newfd, fd_install s newfd nf)
          end
        end
      end
    end).
Definition sys_accept s fd (upeer_sockaddr upeer_addrlen : Z) : Z * sys := sys_accept4 s fd upeer_sockaddr upeer_addrlen 0.
(** getsockname() and getpeername() *)
Definition name_to_user s x (peer usockaddr usockaddr_len : Z) : Z * sys :=
  with_ops s x (fun o =>
    let '(err, address) := ops_getname o (sy_proto s) x peer in
    if negb (err =? 0) then (err, s)
    else let '(err, u) := move_addr_to_user (sy_user s) address usockaddr usockaddr_len in (err, s <| sy_user := u |>)).
Definition sys_getsockname s fd (usockaddr usockaddr_len : Z) : Z * sys :=
  with_sockfd s fd (fun s x =>
    let err := security (HGetsockname x) in
    if negb (err =? 0) then (err, s) else name_to_user s x 0 usockaddr usockaddr_len).
Definition sys_getpeername s fd (usockaddr usockaddr_len : Z) : Z * sys :=
  with_sockfd s fd (fun s x =>
    let err := security (HGetpeername x) in
    if negb (err =? 0) then (err, s) else name_to_user s x 1 usockaddr usockaddr_len).
Definition sys_setsockopt s fd (level optname optval optlen : Z) : Z * sys :=
  if optlen <? 0 then (- EINVAL, s)
  else with_sockfd s fd (fun s x =>
    let err := security (HSetsockopt x level optname) in
    if negb (err =? 0) then (err, s)
    else if level =? SOL_SOCKET then on_proto s (sock_setsockopt (sy_proto s) (sy_user s) x optname optval optlen)
    else with_ops s x (fun o => on_proto s (ops_setsockopt o (sy_proto s) (sy_user s) x level optname optval optlen))).
Definition on_both s (r : Z * P * U) : Z * sys := let '(err, p, u) := r in (err, s <| sy_proto := p |> <| sy_user := u |>).
Definition sys_getsockopt s fd (level optname optval optlen : Z) : Z * sys :=
  with_sockfd s fd (fun s x =>
    let err := security (HGetsockopt x level optname) in
    if negb (err =? 0) then (err, s)
    else if level =? SOL_SOCKET then on_both s (sock_getsockopt (sy_proto s) (sy_user s) x optname optval optlen)
    else with_ops s x (fun o => on_both s (ops_getsockopt o (sy_proto s) (sy_user s) x level optname optval optlen))).
Definition sys_shutdown s fd (how : Z) : Z * sys :=
  with_sockfd s fd (fun s x =>
    let err := security (HShutdown x how) in
    if negb (err =? 0) then (err, s) else with_ops s x (fun o => on_proto s (ops_shutdown o (sy_proto s) x how))).

(** ** Messages *)
Definition sock_sendmsg_nosec s x (msg : kmsg) (size : Z) : Z * sys := with_ops s x (fun o => on_proto s (ops_sendmsg o (sy_proto s) (sy_user s) x msg size)).
Definition sock_sendmsg s x (msg : kmsg) (size : Z) : Z * sys :=
  let err := security (HSendmsg x msg size) in
  if negb (err =? 0) then (err, s) else sock_sendmsg_nosec s x msg size.
Definition dontwait s x (flags : Z) : Z := if Z.land (flags_of s x) SOCK_NONBLOCK =? 0 then flags else Z.lor flags MSG_DONTWAIT.
Definition sys_sendto s fd (buff len flags addr addr_len : Z) : Z * sys :=
  let len := if INT_MAX <? len then INT_MAX else len in
  with_sockfd s fd (fun s x =>
    let '(err, address) := if addr =? 0 then (0, []) else move_addr_to_kernel (sy_user s) addr addr_len in
    if err <? 0 then (err, s)
    else
      let msg := mk_kmsg (if addr =? 0 then None else Some address) (if addr =? 0 then 0 else addr_len) [(buff, len)] [] (dontwait s x flags) in
      sock_sendmsg s x msg len).
Definition sys_send s fd (buff len flags : Z) : Z * sys := sys_sendto s fd buff len flags 0 0.

(** The last address that a sendmmsg() has sent to. *)
Record used_address := mk_used { ua_name : list Z; ua_len : Z }.
(** The control data of a message: the buffer on the stack or one charged to the socket. *)
Definition send_control s x (h : msghdr) : (Z + list Z) * bool * sys :=
  let ctl_len := msg_controllen h in
  if ctl_len =? 0 then (inr [], false, s)
  else
    let '(r, s) := if sizeof_ctl <? ctl_len then (sock_kmalloc s x ctl_len, s) else (Some s, s) in
    match r with
    | None => (inl (- ENOBUFS), false, s)
    | Some s =>
      match copy_from_user (sy_user s) (msg_control h) ctl_len with
      | None => (inl (- EFAULT), sizeof_ctl <? ctl_len, s)
      | Some ctl => (inr ctl, sizeof_ctl <? ctl_len, s)
      end
    end.
(** The message itself; the address is remembered when [used] is there and the call succeeds. *)
Definition send_it s x (msg : kmsg) (total_len : Z) (used : option used_address) : Z * option used_address * sys :=
  let same := match used, km_name msg with
              | Some u, Some name => if ua_len u =? km_namelen msg then bool_decide (take (Z.to_nat (ua_len u)) (ua_name u) = take (Z.to_nat (ua_len u)) name) else false
              | _, _ => false
              end in
  if same then let '(err, s) := sock_sendmsg_nosec s x msg total_len in (err, used, s)
  else
    let '(err, s) := sock_sendmsg s x msg total_len in
    let used := match used with
                | Some u => if 0 <=? err then Some (mk_used (match km_name msg with Some name => name | None => ua_name u end) (km_namelen msg)) else used
                | None => None
                end in
    (err, used, s).
Definition sys_sendmsg_ s x (msg flags : Z) (used : option used_address) : Z * option used_address * sys :=
  match get_msghdr (sy_user s) msg with
  | None => (- EFAULT, used, s)
  | Some h =>
    if UIO_MAXIOV <? msg_iovlen h then (- EMSGSIZE, used, s)
    else
      let iov_size := msg_iovlen h * sizeof_iovec in
      let big := UIO_FASTIOV <? msg_iovlen h in
      match (if big then sock_kmalloc s x iov_size else Some s) with
      | None => (- ENOMEM, used, s)
      | Some s =>
        let '(err, used, s) :=
          let '(err, name, iov) := verify_iovec (sy_user s) h false in
          if err <? 0 then (err, used, s)
          else if INT_MAX <? msg_controllen h then (- ENOBUFS, used, s)
          else
            let '(ctl, charged, s) := send_control s x h in
            let '(err', used, s) :=
              match ctl with
              | inl e => (e, used, s)
              | inr ctl => send_it s x (mk_kmsg name (msg_namelen h) iov ctl (dontwait s x flags)) err used
              end in
            (err', used, if charged : bool then sock_kfree_s s x (msg_controllen h) else s) in
        (err, used, if big then sock_kfree_s s x iov_size else s)
      end
  end.
Definition sys_sendmsg s fd (msg flags : Z) : Z * sys :=
  with_sockfd s fd (fun s x => let '(err, _, s) := sys_sendmsg_ s x msg flags None in (err, s)).
(** The loop of sendmmsg(): the number of datagrams, the error of the last one and the addresses. *)
Fixpoint sendmmsg_loop (n : nat) s x (entry flags : Z) (used : option used_address) : nat * Z * sys :=
  match n with
  | O => (O, 0, s)
  | S n =>
    let '(err, used, s) := sys_sendmsg_ s x entry flags used in
    if err <? 0 then (O, err, s)
    else match put_user (sy_user s) (at_len (msg_field entry)) err with
         | None => (O, - EFAULT, s)
         | Some u => let '(k, err, s) := sendmmsg_loop n (s <| sy_user := u |>) x (entry + sizeof_mmsghdr) flags used in (S k, err, s)
         end
  end.
Definition sys_sendmmsg s fd (mmsg vlen flags : Z) : Z * sys :=
  let vlen := if UIO_MAXIOV <? vlen then UIO_MAXIOV else vlen in
  with_sockfd s fd (fun s x =>
    let '(datagrams, err, s) := sendmmsg_loop (Z.to_nat vlen) s x mmsg flags (Some (mk_used [] UINT_MAX)) in
    (if Nat.eqb datagrams 0 then err else Z.of_nat datagrams, s)).

Definition sock_recvmsg_nosec s x (iov : list (Z * Z)) (size flags msg_flags : Z) : recvd * sys :=
  match sockets s !! x ≫= so_ops with
  | None => (mk_recvd 0 [] 0 0, oops s)
  | Some o => let '(r, p, u) := ops_recvmsg o (sy_proto s) (sy_user s) x iov size flags msg_flags in (r, s <| sy_proto := p |> <| sy_user := u |>)
  end.
Definition sock_recvmsg s x (iov : list (Z * Z)) (size flags msg_flags : Z) : recvd * sys :=
  let err := security (HRecvmsg x size flags) in
  if negb (err =? 0) then (mk_recvd err [] msg_flags 0, s) else sock_recvmsg_nosec s x iov size flags msg_flags.
Definition sys_recvfrom s fd (ubuf size flags addr addr_len : Z) : Z * sys :=
  let size := if INT_MAX <? size then INT_MAX else size in
  with_sockfd s fd (fun s x =>
    let '(r, s) := sock_recvmsg s x [(ubuf, size)] size (dontwait s x flags) 0 in
    if (0 <=? rd_err r) && negb (addr =? 0) then
      let '(err2, u) := move_addr_to_user (sy_user s) (rd_name r) addr addr_len in
      (if err2 <? 0 then err2 else rd_err r, s <| sy_user := u |>)
    else (rd_err r, s)).
Definition sys_recv s fd (ubuf size flags : Z) : Z * sys := sys_recvfrom s fd ubuf size flags 0 0.
(** __sys_recvmsg after the protocol has delivered: the name, the flags and the control length go to
    the user. *)
Definition recv_report s (at_msg : msg_fields) (uaddr : Z) (r : recvd) : Z * sys :=
  let '(err, u) := if uaddr =? 0 then (0, sy_user s) else move_addr_to_user (sy_user s) (rd_name r) uaddr (at_namelen at_msg) in
  let s := s <| sy_user := u |> in
  if err <? 0 then (err, s)
  else match put_user (sy_user s) (at_flags at_msg) (rd_flags r) with
       | None => (- EFAULT, s)
       | Some u =>
         let s := s <| sy_user := u |> in
         match put_user u (at_controllen at_msg) (rd_control r) with
         | None => (- EFAULT, s)
         | Some u => (rd_err r, s <| sy_user := u |>)
         end
       end.
Definition sys_recvmsg_ s x (msg flags : Z) (nosec : bool) : Z * Z * sys :=
  match get_msghdr (sy_user s) msg with
  | None => (- EFAULT, 0, s)
  | Some h =>
    if UIO_MAXIOV <? msg_iovlen h then (- EMSGSIZE, 0, s)
    else
      let iov_size := msg_iovlen h * sizeof_iovec in
      let big := UIO_FASTIOV <? msg_iovlen h in
      match (if big then sock_kmalloc s x iov_size else Some s) with
      | None => (- ENOMEM, 0, s)
      | Some s =>
        let '(err, mflags, s) :=
          let '(err, _, iov) := verify_iovec (sy_user s) h true in
          if err <? 0 then (err, 0, s)
          else
            let '(r, s) := (if nosec then sock_recvmsg_nosec else sock_recvmsg) s x iov err (dontwait s x flags) (Z.land flags MSG_CMSG_CLOEXEC) in
            if rd_err r <? 0 then (rd_err r, rd_flags r, s)
            else let '(err, s) := recv_report s (msg_field msg) (msg_name h) r in (err, rd_flags r, s) in
        (err, mflags, if big then sock_kfree_s s x iov_size else s)
      end
  end.
Definition sys_recvmsg s fd (msg flags : Z) : Z * sys :=
  with_sockfd s fd (fun s x => let '(err, _, s) := sys_recvmsg_ s x msg flags false in (err, s)).
(** The loop of recvmmsg(): the number of datagrams, the last error and the time that is left. *)
Fixpoint recvmmsg_loop (n : nat) s x (entry flags : Z) (first : bool) (end_time : option (Z * Z)) (tleft : Z * Z) : nat * Z * (Z * Z) * sys :=
  match n with
  | O => (O, 0, tleft, s)
  | S n =>
    let '(err, mflags, s) := sys_recvmsg_ s x entry (Z.land flags (Z.lnot MSG_WAITFORONE)) (negb first) in
    if err <? 0 then (O, err, tleft, s)
    else match put_user (sy_user s) (at_len (msg_field entry)) err with
         | None => (O, - EFAULT, tleft, s)
         | Some u =>
           let s := s <| sy_user := u |> in
           let flags := if Z.land flags MSG_WAITFORONE =? 0 then flags else Z.lor flags MSG_DONTWAIT in
           let tleft := match end_time with Some e => let '(sec, nsec) := time_left (sy_proto s) e in if sec <? 0 then (0, 0) else (sec, nsec) | None => tleft end in
           let stop := match end_time with Some _ => (tleft.1 =? 0) && (tleft.2 =? 0) | None => false end in
           if stop || negb (Z.land mflags MSG_OOB =? 0) then (1%nat, 0, tleft, s)
           else let '(k, err, tleft, s) := recvmmsg_loop n s x (entry + sizeof_mmsghdr) flags false end_time tleft in (S k, err, tleft, s)
         end
  end.
(** The end of recvmmsg(), which puts the file first and stores an error in the socket afterwards. *)
Definition recvmmsg_finish s x (fput_needed : bool) (datagrams : nat) (err : Z) : Z * sys :=
  let s := put_sock s x fput_needed in
  if err =? 0 then (Z.of_nat datagrams, s)
  else if Nat.eqb datagrams 0 then (err, s)
  else if err =? - EAGAIN then (Z.of_nat datagrams, s)
  else match sockets s !! x with
       | None => (Z.of_nat datagrams, oops s)
       | Some _ => (Z.of_nat datagrams, s <| sy_proto := set_sk_err (sy_proto s) x (- err) |>)
       end.
Definition sys_recvmmsg_ s fd (mmsg vlen flags : Z) (timeout : option (Z * Z)) : Z * (Z * Z) * sys :=
  let end_time := match timeout with Some t => Some (poll_select_set_timeout (sy_proto s) t) | None => None end in
  match end_time with
  | Some None => (- EINVAL, (0, 0), s)
  | _ =>
    let end_time := match end_time with Some e => e | None => None end in
    let tleft := match timeout with Some t => t | None => (0, 0) end in
    let '(err, r, s) := sockfd_lookup_light s fd in
    match r with
    | None => (err, tleft, s)
    | Some (x, fput_needed) =>
      let '(err, p) := sock_error (sy_proto s) x in
      let s := s <| sy_proto := p |> in
      let '(datagrams, err, tleft, s) := if negb (err =? 0) then (O, err, tleft, s) else recvmmsg_loop (Z.to_nat vlen) s x mmsg flags true end_time tleft in
      let '(err, s) := recvmmsg_finish s x fput_needed datagrams err in
      (err, tleft, s)
    end
  end.
Definition sys_recvmmsg s fd (mmsg vlen flags timeout : Z) : Z * sys :=
  if timeout =? 0 then let '(err, _, s) := sys_recvmmsg_ s fd mmsg vlen flags None in (err, s)
  else match get_timespec (sy_user s) timeout with
       | None => (- EFAULT, s)
       | Some t =>
         let '(datagrams, tleft, s) := sys_recvmmsg_ s fd mmsg vlen flags (Some t) in
         if 0 <? datagrams then
           match put_timespec (sy_user s) timeout tleft with
           | None => (- EFAULT, s)
           | Some u => (datagrams, s <| sy_user := u |>)
           end
         else (datagrams, s)
       end.

(** ** The calls and their multiplexer *)
Inductive call :=
  | Socket (fam type protocol : Z) | Bind (fd addr len : Z) | Connect (fd addr len : Z) | Listen (fd backlog : Z) | Accept4 (fd addr len flags : Z)
  | Getsockname (fd addr len : Z) | Getpeername (fd addr len : Z) | Socketpair (fam type protocol vec : Z) | Sendto (fd buff len flags addr alen : Z)
  | Recvfrom (fd buf size flags addr alen : Z) | Shutdown (fd how : Z) | Setsockopt (fd level name val len : Z) | Getsockopt (fd level name val len : Z)
  | Sendmsg (fd msg flags : Z) | Recvmsg (fd msg flags : Z) | Recvmmsg (fd mmsg vlen flags timeout : Z) | Sendmmsg (fd mmsg vlen flags : Z).
Definition do_call s (c : call) : Z * sys :=
  match c with
  | Socket fam type protocol => sys_socket s fam type protocol
  | Bind fd addr len => sys_bind s fd addr len
  | Connect fd addr len => sys_connect s fd addr len
  | Listen fd backlog => sys_listen s fd backlog
  | Accept4 fd addr len flags => sys_accept4 s fd addr len flags
  | Getsockname fd addr len => sys_getsockname s fd addr len
  | Getpeername fd addr len => sys_getpeername s fd addr len
  | Socketpair fam type protocol vec => sys_socketpair s fam type protocol vec
  | Sendto fd buff len flags addr alen => sys_sendto s fd buff len flags addr alen
  | Recvfrom fd buf size flags addr alen => sys_recvfrom s fd buf size flags addr alen
  | Shutdown fd how => sys_shutdown s fd how
  | Setsockopt fd level name val len => sys_setsockopt s fd level name val len
  | Getsockopt fd level name val len => sys_getsockopt s fd level name val len
  | Sendmsg fd msg flags => sys_sendmsg s fd msg flags
  | Recvmsg fd msg flags => sys_recvmsg s fd msg flags
  | Recvmmsg fd mmsg vlen flags timeout => sys_recvmmsg s fd mmsg vlen flags timeout
  | Sendmmsg fd mmsg vlen flags => sys_sendmmsg s fd mmsg vlen flags
  end.
Definition nargs : list Z := [0; 3; 3; 3; 2; 3; 3; 3; 4; 4; 4; 6; 6; 2; 5; 5; 3; 3; 4; 5; 4].
Definition long_at (bs : list Z) (i : nat) : Z := foldr (fun b acc => b + 256 * acc) 0 (take 8 (drop (8 * i) bs)).
(** The switch of sys_socketcall on the words of the argument block; int and unsigned parameters take
    the low half of a word. *)
Definition socketcall_args (nr : Z) (a : nat -> Z) : call :=
  let i k := s32 (a k) in let u k := u32 (a k) in
  if nr =? 1 then Socket (i 0%nat) (i 1%nat) (i 2%nat)
  else if nr =? 2 then Bind (i 0%nat) (a 1%nat) (i 2%nat)
  else if nr =? 3 then Connect (i 0%nat) (a 1%nat) (i 2%nat)
  else if nr =? 4 then Listen (i 0%nat) (i 1%nat)
  else if nr =? 5 then Accept4 (i 0%nat) (a 1%nat) (a 2%nat) 0
  else if nr =? 6 then Getsockname (i 0%nat) (a 1%nat) (a 2%nat)
  else if nr =? 7 then Getpeername (i 0%nat) (a 1%nat) (a 2%nat)
  else if nr =? 8 then Socketpair (i 0%nat) (i 1%nat) (i 2%nat) (a 3%nat)
  else if nr =? 9 then Sendto (i 0%nat) (a 1%nat) (a 2%nat) (u 3%nat) 0 0
  else if nr =? 10 then Recvfrom (i 0%nat) (a 1%nat) (a 2%nat) (u 3%nat) 0 0
  else if nr =? 11 then Sendto (i 0%nat) (a 1%nat) (a 2%nat) (u 3%nat) (a 4%nat) (i 5%nat)
  else if nr =? 12 then Recvfrom (i 0%nat) (a 1%nat) (a 2%nat) (u 3%nat) (a 4%nat) (a 5%nat)
  else if nr =? 13 then Shutdown (i 0%nat) (i 1%nat)
  else if nr =? 14 then Setsockopt (i 0%nat) (i 1%nat) (i 2%nat) (a 3%nat) (i 4%nat)
  else if nr =? 15 then Getsockopt (i 0%nat) (i 1%nat) (i 2%nat) (a 3%nat) (a 4%nat)
  else if nr =? 16 then Sendmsg (i 0%nat) (a 1%nat) (u 2%nat)
  else if nr =? 17 then Recvmsg (i 0%nat) (a 1%nat) (u 2%nat)
  else if nr =? 18 then Accept4 (i 0%nat) (a 1%nat) (a 2%nat) (i 3%nat)
  else if nr =? 19 then Recvmmsg (i 0%nat) (a 1%nat) (u 2%nat) (u 3%nat) (a 4%nat)
  else Sendmmsg (i 0%nat) (a 1%nat) (u 2%nat) (u 3%nat).
Definition sys_socketcall s (nr args : Z) : Z * sys :=
  if (nr <? 1) || (20 <? nr) then (- EINVAL, s)
  else
    let len := 8 * nth (Z.to_nat nr) nargs 0 in
    if 48 <? len then (- EINVAL, s)
    else match copy_from_user (sy_user s) args len with
         | None => (- EFAULT, s)
         | Some a => do_call s (socketcall_args nr (long_at a))
         end.

(** ** What is assumed of the rest of the kernel *)

(** The last reference to a file releases it and then its inode. *)
Definition drop_file s f : sys :=
  match files s !! f with
  | None => oops s
  | Some fl =>
    if f_count fl =? 1 then
      let s := sock_close s (f_sock fl) in
      let s := s <| files := delete f (files s) |> in
      match f_sock fl with Some x => s <| sockets := delete x (sockets s) |> | None => s end
    else s <| files := <[f := fl <| f_count := f_count fl - 1 |>]> (files s) |>
  end.
Definition hold_file s f : sys := s <| files := alter (fun fl => fl <| f_count := f_count fl + 1 |>) f (files s) |>.
Definition add_at (B : nat -> Z) (k : nat) (d : Z) : nat -> Z := fun j => if decide (j = k) then B j + d else B j.
Definition mod_add s m (d : Z) : sys := s <| mod_refs := add_at (mod_refs s) m d |>.
Definition charge s x (d : Z) : sys := s <| omem := add_at (omem s) x d |>.
Class SysLaws : Prop := {
  get_unused_spec s flags : let '(fd, s') := get_unused_fd_flags s flags in fd < 0 /\ s' = s \/ 0 <= fd /\ fdt s !! fd = None /\ s' = s <| fdt := <[fd := FdReserved]> (fdt s) |>;
  put_unused_spec s fd : put_unused_fd s fd = s <| fdt := delete fd (fdt s) |>;
  fd_install_spec s fd f : fd_install s fd f = s <| fdt := <[fd := FdOpen f]> (fdt s) |>;
  fget_spec s fd : fget s fd = match fdt s !! fd with Some (FdOpen f) => (Some f, hold_file s f) | _ => (None, s) end;
  fget_light_spec s fd : exists needed : bool, fget_light s fd = match fdt s !! fd with Some (FdOpen f) => (Some (f, needed), if needed then hold_file s f else s) | _ => (None, s) end;
  fput_spec s f : fput s f = drop_file s f;
  fput_light_spec s f (needed : bool) : fput_light s f needed = if needed then drop_file s f else s;
  sys_close_spec s fd f : fdt s !! fd = Some (FdOpen f) -> (sys_close s fd).2 = drop_file (s <| fdt := delete fd (fdt s) |>) f;
  inode_fresh s x : new_inode_pseudo s = Some x -> sockets s !! x = None;
  file_fresh s f : alloc_file s = Some f -> files s !! f = None;
  request_module_spec s fam : exists fams p, request_module s fam = s <| net_families := fams |> <| sy_proto := p |>;
  try_get_spec s m : exists b : bool, try_module_get s m = (b, if b then mod_add s m 1 else s);
  module_get_spec s m : module_get s m = mod_add s m 1;
  module_put_spec s m : module_put s m = mod_add s m (-1);
  kmalloc_spec s x n s' : sock_kmalloc s x n = Some s' -> s' = charge s x n;
  kfree_spec s x n : sock_kfree_s s x n = charge s x (- n);
  hook_neg h : security h <= 0;
  create_spec i p x type protocol kern err ops p' : pf_create i p x type protocol kern = (err, ops, p') -> err <= 0 /\ (err = 0 -> ops <> None);
}.
Context {L : SysLaws}.

(** ** Counting *)
Definition cnt {A B} `{Countable A} (p : B -> bool) (M : gmap A B) : Z := Z.of_nat (size (filter (fun kv => p kv.2 = true) M)).
Section Count.
Context {A B : Type} `{Countable A} (p : B -> bool).
Implicit Types (M : gmap A B) (k : A) (v : B).
Lemma cnt_insert M k v : M !! k = None -> cnt p (<[k := v]> M) = cnt p M + b2z (p v).
Proof using Type.
  intros Hk. unfold cnt. destruct (p v) eqn:Ep.
  - rewrite map_filter_insert_True by done. rewrite map_size_insert_None by (by apply map_lookup_filter_None_2; left). cbn. lia.
  - rewrite map_filter_insert_False, delete_id by (cbn; done || congruence). cbn. lia.
Qed.
Lemma cnt_delete M k v : M !! k = Some v -> cnt p (delete k M) = cnt p M - b2z (p v).
Proof using Type. intros Hk. rewrite <- (insert_delete_id M k v Hk) at 2. rewrite cnt_insert by apply lookup_delete_eq. lia. Qed.
Lemma cnt_replace M k v v' : M !! k = Some v -> cnt p (<[k := v']> M) = cnt p M - b2z (p v) + b2z (p v').
Proof using Type. intros Hk. rewrite <- insert_delete_eq. rewrite cnt_insert by apply lookup_delete_eq. by rewrite (cnt_delete M k v). Qed.
Lemma cnt_alter M k v g : M !! k = Some v -> cnt p (alter g k M) = cnt p M - b2z (p v) + b2z (p (g v)).
Proof using Type. intros Hk. assert (alter g k M = <[k := g v]> M) as -> by (apply map_eq; intros j; destruct (decide (j = k)) as [->|]; [by rewrite lookup_alter_eq, lookup_insert_eq, Hk|by rewrite lookup_alter_ne, lookup_insert_ne]). by apply cnt_replace. Qed.
Lemma cnt_nonneg M : 0 <= cnt p M.
Proof using Type. unfold cnt. lia. Qed.
Lemma cnt_pos M k v : M !! k = Some v -> p v = true -> 0 < cnt p M.
Proof using Type. intros Hk Hp. pose proof (cnt_delete M k v Hk) as Hd. pose proof (cnt_nonneg (delete k M)). rewrite Hp in Hd. cbn in Hd. lia. Qed.
End Count.

(** ** The invariant *)
Definition is_open f (e : fd_slot) : bool := bool_decide (e = FdOpen f).
Definition owned m (so : socket) : bool := match so_ops so with Some o => bool_decide (ops_owner o = m) | None => false end.
(** Every reference is accounted for: a file by the descriptors that point to it and [X] holds from
    elsewhere; a module by its sockets and [B] other users; a socket by its file, but for the sockets
    [K] that the kernel uses without one.  The descriptors [R] are reserved. *)
Record inv (B : nat -> Z) (R : gset Z) (K : gset nat) (X : nat -> Z) s : Prop := {
  iv_open fd f : fdt s !! fd = Some (FdOpen f) -> is_Some (files s !! f);
  iv_res fd : fdt s !! fd = Some FdReserved <-> fd ∈ R;
  iv_count f fl : files s !! f = Some fl -> f_count fl = X f + cnt (is_open f) (fdt s) /\ 0 < f_count fl;
  iv_hold f : 0 <= X f /\ (files s !! f = None -> X f = 0);
  iv_sock f fl x : files s !! f = Some fl -> f_sock fl = Some x -> exists so, sockets s !! x = Some so /\ so_file so = Some f /\ so_ops so <> None;
  iv_file x so : sockets s !! x = Some so -> match so_file so with Some f => exists fl, files s !! f = Some fl /\ f_sock fl = Some x | None => x ∈ K end;
  iv_kern x : x ∈ K -> exists so, sockets s !! x = Some so /\ so_file so = None;
  iv_mods m : mod_refs s m = B m + cnt (owned m) (sockets s);
  iv_use : sockets_in_use s = Z.of_nat (size (sockets s));
  iv_oops : sy_oops s = false;
}.
(** Nothing but the protocols and the user memory has changed. *)
Record quiet s s' : Prop := {
  qu_fdt : fdt s' = fdt s;
  qu_files : files s' = files s;
  qu_socks : sockets s' = sockets s;
  qu_mods : forall m, mod_refs s' m = mod_refs s m;
  qu_use : sockets_in_use s' = sockets_in_use s;
  qu_omem : forall x, omem s' x = omem s x;
  qu_oops : sy_oops s' = sy_oops s;
}.
Lemma quiet_refl s : quiet s s.
Proof using Type. by split. Qed.
Lemma quiet_trans s1 s2 s3 : quiet s1 s2 -> quiet s2 s3 -> quiet s1 s3.
Proof using Type. intros [] []. split; try congruence; intros; etransitivity; eauto. Qed.
Lemma quiet_proto s p : quiet s (s <| sy_proto := p |>).
Proof using Type. by split. Qed.
Lemma quiet_user s u : quiet s (s <| sy_user := u |>).
Proof using Type. by split. Qed.
Lemma quiet_fams s fams : quiet s (s <| net_families := fams |>).
Proof using Type. by split. Qed.
Implicit Types (B X : nat -> Z) (R : gset Z) (K : gset nat).
Lemma quiet_inv B R K X s s' : quiet s s' -> inv B R K X s -> inv B R K X s'.
Proof using Type. intros [Q1 Q2 Q3 Q4 Q5 Q6 Q7] [H1 H2 H3 H4 H5 H6 H7 H8 H9 H10]. split; rewrite ?Q1, ?Q2, ?Q3, ?Q5, ?Q7; try done. intros m. by rewrite Q4. Qed.
Lemma inv_ext B R K X s B' R' K' X' : inv B R K X s -> (forall m, B' m = B m) -> R' = R -> K' = K -> (forall f, X' f = X f) -> inv B' R' K' X' s.
Proof using Type. intros [H1 H2 H3 H4 H5 H6 H7 H8 H9 H10] HB -> -> HX. split; try done; intros; rewrite ?HB, ?HX; auto. Qed.
Lemma add_at_eq B k d : add_at B k d k = B k + d.
Proof using Type. unfold add_at. by rewrite decide_True. Qed.
Lemma add_at_ne B k d j : j <> k -> add_at B k d j = B j.
Proof using Type. intros. unfold add_at. by rewrite decide_False. Qed.
Lemma inv_mod B R K X s m d : inv B R K X s -> inv (add_at B m d) R K X (mod_add s m d).
Proof using Type. intros [H1 H2 H3 H4 H5 H6 H7 H8 H9 H10]. split; try done. intros j. cbn. unfold add_at. case_decide; rewrite H8; lia. Qed.

(** A new socket, and one without a file that changes its operations. *)
Lemma inv_alloc B R K X s x s' : inv B R K X s -> sock_alloc s = Some (x, s') -> inv B R ({[x]} ∪ K) X s' /\ x ∉ K /\ sockets s' !! x = Some (mk_socket 0 None None) /\ fdt s' = fdt s /\ omem s' = omem s /\ (forall y, y <> x -> sockets s' !! y = sockets s !! y).
Proof using L.
  unfold sock_alloc. intros [H1 H2 H3 H4 H5 H6 H7 H8 H9 H10] Ha. destruct (new_inode_pseudo s) as [x'|] eqn:En; [|done]. injection Ha as -> <-. apply inode_fresh in En. assert (Hn : x ∉ K) by (intros (so & E1 & _)%H7; congruence).
  split; [|split_and!; [done|cbn; by rewrite lookup_insert_eq|done|done|intros y Hy; cbn; by rewrite lookup_insert_ne]]. split; cbn; try done.
  - intros f fl y Hf Hy. destruct (H5 f fl y Hf Hy) as (so & E1 & E2). exists so. rewrite lookup_insert_ne by congruence. done.
  - intros y so. destruct (decide (y = x)) as [->|Hne]; [rewrite lookup_insert_eq; intros [= <-]; cbn; set_solver|]. rewrite lookup_insert_ne by done. intros Hy. specialize (H6 y so Hy). destruct (so_file so); [done|set_solver].
  - intros y Hy. destruct (decide (y = x)) as [->|Hne]; [rewrite lookup_insert_eq; by eexists|]. rewrite lookup_insert_ne by done. apply H7. set_solver.
  - intros m. rewrite cnt_insert, H8 by done. cbn. lia.
  - rewrite map_size_insert_None, H9 by done. lia.
Qed.
Lemma inv_upd B R K X s x so g : inv B R K X s -> x ∈ K -> sockets s !! x = Some so -> so_file (g so) = None -> inv (fun m => B m + b2z (owned m so) - b2z (owned m (g so))) R K X (upd_so s x g).
Proof using Type.
  intros [H1 H2 H3 H4 H5 H6 H7 H8 H9 H10] Hx Hs Hg. unfold upd_so. split; cbn; try done.
  - intros f fl y Hf Hy. destruct (H5 f fl y Hf Hy) as (so' & E1 & E2 & E3). assert (y <> x) by (intros ->; destruct (H7 x Hx) as (so2 & F1 & F2); congruence). rewrite lookup_alter_ne by done. by exists so'.
  - intros y so'. destruct (decide (y = x)) as [->|Hne]; [rewrite lookup_alter_eq, Hs; intros [= <-]; by rewrite Hg|]. rewrite lookup_alter_ne by done. apply H6.
  - intros y Hy. destruct (decide (y = x)) as [->|Hne]; [rewrite lookup_alter_eq, Hs; by eexists|]. rewrite lookup_alter_ne by done. by apply H7.
  - intros m. rewrite (cnt_alter _ _ x so) by done. rewrite H8. lia.
  - rewrite H9. f_equal. rewrite <- !size_dom. by rewrite dom_alter_L.
Qed.
(** A socket without a file is freed. *)
Lemma inv_remove B R K X s x so : inv B R K X s -> x ∈ K -> sockets s !! x = Some so -> inv (fun m => B m + b2z (owned m so)) R (K ∖ {[x]}) X (s <| sockets := delete x (sockets s) |> <| sockets_in_use := sockets_in_use s - 1 |>).
Proof using L.
  intros [H1 H2 H3 H4 H5 H6 H7 H8 H9 H10] Hx Hs. destruct (H7 x Hx) as (so2 & F1 & F2). rewrite Hs in F1. injection F1 as <-. split; cbn; try done.
  - intros f fl y Hf Hy. destruct (H5 f fl y Hf Hy) as (so' & E1 & E2 & E3). rewrite lookup_delete_ne by congruence. by exists so'.
  - intros y so'. destruct (decide (y = x)) as [->|Hne]; [by rewrite lookup_delete_eq|]. rewrite lookup_delete_ne by done. intros Hy. specialize (H6 y so' Hy). destruct (so_file so'); [done|set_solver].
  - intros y Hy. rewrite lookup_delete_ne by set_solver. apply H7. set_solver.
  - intros m. rewrite (cnt_delete _ _ x so), H8 by done. lia.
  - rewrite map_size_delete_Some by (by rewrite Hs). rewrite H9. assert (size (sockets s) <> 0%nat) by (intros E0%map_size_empty_inv; by rewrite E0, lookup_empty in Hs). lia.
Qed.
Lemma inv_release B R K X s x : inv B R K X s -> x ∈ K -> inv B R (K ∖ {[x]}) X (sock_release s x) /\ fdt (sock_release s x) = fdt s /\ omem (sock_release s x) = omem s /\ (forall y, y <> x -> sockets (sock_release s x) !! y = sockets s !! y).
Proof using L.
  intros Hi Hx. destruct (iv_kern _ _ _ _ _ Hi x Hx) as (so & Hs & Hf). unfold sock_release. rewrite Hs, Hf. destruct (so_ops so) as [o|] eqn:Eo; cbn zeta.
  - rewrite module_put_spec. split; [|split_and!; [done|done|]]; [|intros y Hy; cbn; rewrite lookup_delete_ne by done; by rewrite lookup_alter_ne].
    set (g := fun so0 : socket => so0 <| so_ops := None |>). set (s1 := s <| sy_proto := _ |>). assert (I1 : inv B R K X s1) by (by apply (quiet_inv _ _ _ _ s)).
    pose proof (inv_mod _ _ _ _ _ (ops_owner o) (-1) (inv_upd _ _ _ _ _ x so g I1 Hx Hs Hf)) as I2. eapply inv_ext; [eapply (inv_remove _ _ _ _ _ x (g so) I2 Hx)|..]; [cbn; by rewrite lookup_alter_eq, Hs| |done|done|done].
    intros m. unfold add_at, owned. cbn. rewrite Eo. repeat case_decide; repeat case_bool_decide; cbn; congruence || lia.
  - split; [|split_and!; [done|done|]]; [|intros y Hy; cbn; by rewrite lookup_delete_ne]. eapply inv_ext; [eapply (inv_remove _ _ _ _ _ x so Hi Hx Hs)|..]; [|done|done|done]. intros m. unfold owned. rewrite Eo. cbn. lia.
Qed.

(** Files: reserving a descriptor, making, holding, installing and dropping a file. *)
Lemma inv_reserve B R K X s fd : inv B R K X s -> fdt s !! fd = None -> inv B ({[fd]} ∪ R) K X (s <| fdt := <[fd := FdReserved]> (fdt s) |>).
Proof using Type.
  intros [H1 H2 H3 H4 H5 H6 H7 H8 H9 H10] Hn. split; cbn; try done.
  - intros fd' f. destruct (decide (fd' = fd)) as [->|Hne]; [by rewrite lookup_insert_eq|]. rewrite lookup_insert_ne by done. apply H1.
  - intros fd'. rewrite elem_of_union, elem_of_singleton, <- H2. destruct (decide (fd' = fd)) as [->|Hne]; [rewrite lookup_insert_eq; tauto|]. rewrite lookup_insert_ne by done. tauto.
  - intros f fl Hf. rewrite cnt_insert by done. destruct (H3 f fl Hf) as [E1 E2]. cbn. rewrite Z.add_0_r. done.
Qed.
Lemma inv_unreserve B R K X s fd : inv B R K X s -> fd ∈ R -> inv B (R ∖ {[fd]}) K X (s <| fdt := delete fd (fdt s) |>).
Proof using Type.
  intros [H1 H2 H3 H4 H5 H6 H7 H8 H9 H10] Hr. pose proof Hr as Hfd. apply H2 in Hfd. split; cbn; try done.
  - intros fd' f. destruct (decide (fd' = fd)) as [->|Hne]; [by rewrite lookup_delete_eq|]. rewrite lookup_delete_ne by done. apply H1.
  - intros fd'. rewrite elem_of_difference, elem_of_singleton, <- H2. destruct (decide (fd' = fd)) as [->|Hne]; [rewrite lookup_delete_eq; naive_solver|]. rewrite lookup_delete_ne by done. tauto.
  - intros f fl Hf. rewrite (cnt_delete _ _ fd FdReserved) by done. destruct (H3 f fl Hf) as [E1 E2]. cbn. rewrite Z.sub_0_r. done.
Qed.
Lemma inv_install B R K X s fd f : inv B R K X s -> fd ∈ R -> 0 < X f -> inv B (R ∖ {[fd]}) K (add_at X f (-1)) (s <| fdt := <[fd := FdOpen f]> (fdt s) |>).
Proof using Type.
  intros [H1 H2 H3 H4 H5 H6 H7 H8 H9 H10] Hr Hx. pose proof Hr as Hfd. apply H2 in Hfd. assert (Hfl : is_Some (files s !! f)) by (destruct (files s !! f) eqn:E1; [done|]; destruct (H4 f) as [_ E2]; specialize (E2 E1); lia). split; cbn; try done.
  - intros fd' f'. destruct (decide (fd' = fd)) as [->|Hne]; [rewrite lookup_insert_eq; by intros [= <-]|]. rewrite lookup_insert_ne by done. apply H1.
  - intros fd'. rewrite elem_of_difference, elem_of_singleton, <- H2. destruct (decide (fd' = fd)) as [->|Hne]; [rewrite lookup_insert_eq; naive_solver|]. rewrite lookup_insert_ne by done. tauto.
  - intros f' fl Hf. rewrite (cnt_replace _ _ fd FdReserved) by done. destruct (H3 f' fl Hf) as [E1 E2]. split; [|done]. rewrite E1. unfold add_at, is_open. cbn. repeat case_decide; repeat case_bool_decide; cbn; congruence || lia.
  - intros f'. destruct (H4 f') as [E1 E2]. unfold add_at. case_decide as Ed; [subst f'; split; [lia|]; intros E3; destruct Hfl; congruence|done].
Qed.
Lemma inv_hold B R K X s f : inv B R K X s -> is_Some (files s !! f) -> inv B R K (add_at X f 1) (hold_file s f).
Proof using Type.
  intros [H1 H2 H3 H4 H5 H6 H7 H8 H9 H10] [fl0 Hfl]. unfold hold_file. split; cbn; try done.
  - intros fd' f' Hfd. destruct (decide (f' = f)) as [->|Hne]; [rewrite lookup_alter_eq, Hfl; by eexists|]. rewrite lookup_alter_ne by done. by eapply H1.
  - intros f' fl. destruct (decide (f' = f)) as [->|Hne]; [rewrite lookup_alter_eq, Hfl, add_at_eq; intros [= <-]; cbn; destruct (H3 f fl0 Hfl); lia|]. rewrite lookup_alter_ne, add_at_ne by done. apply H3.
  - intros f'. destruct (H4 f') as [E1 E2]. destruct (decide (f' = f)) as [->|Hne]; [rewrite lookup_alter_eq, Hfl, add_at_eq; split; [lia|done]|]. by rewrite lookup_alter_ne, add_at_ne by done.
  - intros f' fl x. destruct (decide (f' = f)) as [->|Hne]; [rewrite lookup_alter_eq, Hfl; intros [= <-]; apply (H5 f fl0 x Hfl)|]. rewrite lookup_alter_ne by done. apply H5.
  - intros x so Hs. specialize (H6 x so Hs). destruct (so_file so) as [f'|]; [|done]. destruct H6 as (fl & E1 & E2). destruct (decide (f' = f)) as [->|Hne]; [rewrite lookup_alter_eq, Hfl; rewrite Hfl in E1; injection E1 as <-; by eexists|]. rewrite lookup_alter_ne by done. by exists fl.
Qed.
(** A file for a socket that has none, with one hold. *)
Lemma inv_new_file B R K X s x so f flags : inv B R K X s -> x ∈ K -> sockets s !! x = Some so -> so_ops so <> None -> files s !! f = None ->
  inv B R (K ∖ {[x]}) (add_at X f 1) (upd_so (s <| files := <[f := mk_file 1 flags (Some x)]> (files s) |>) x (fun so => so <| so_file := Some f |>)).
Proof using L.
  intros [H1 H2 H3 H4 H5 H6 H7 H8 H9 H10] Hx Hs Ho Hf. destruct (H7 x Hx) as (so2 & F1 & F2). rewrite Hs in F1. injection F1 as <-. assert (Hno : cnt (is_open f) (fdt s) = 0).
  { destruct (Z.eq_dec (cnt (is_open f) (fdt s)) 0) as [?|Hc]; [done|]. exfalso. unfold cnt in Hc. assert (Hne : filter (fun kv => is_open f kv.2 = true) (fdt s) <> ∅) by (intros E0; rewrite E0, map_size_empty in Hc; done). apply map_choose in Hne as (fd & e & He). apply map_lookup_filter_Some in He as [He1 He2]. cbn in He2. apply bool_decide_eq_true in He2 as ->. destruct (H1 fd f He1). congruence. }
  unfold upd_so. split; cbn; try done.
  - intros fd' f' Hfd. destruct (decide (f' = f)) as [->|Hne]; [rewrite lookup_insert_eq; by eexists|]. rewrite lookup_insert_ne by done. by eapply H1.
  - intros f' fl. destruct (decide (f' = f)) as [->|Hne]; [rewrite lookup_insert_eq, add_at_eq; intros [= <-]; cbn; destruct (H4 f) as [_ E0]; rewrite E0, Hno by done; lia|]. rewrite lookup_insert_ne, add_at_ne by done. apply H3.
  - intros f'. destruct (H4 f') as [E1 E2]. destruct (decide (f' = f)) as [->|Hne]; [rewrite lookup_insert_eq, add_at_eq; split; [lia|done]|]. by rewrite lookup_insert_ne, add_at_ne by done.
  - intros f' fl y. destruct (decide (f' = f)) as [->|Hne]; [rewrite lookup_insert_eq; intros [= <-] [= <-]; rewrite lookup_alter_eq, Hs; by eexists|]. rewrite lookup_insert_ne by done. intros Hf' Hy. destruct (H5 f' fl y Hf' Hy) as (so' & E1 & E2 & E3). rewrite lookup_alter_ne by congruence. by exists so'.
  - intros y so'. destruct (decide (y = x)) as [->|Hne]; [rewrite lookup_alter_eq, Hs; intros [= <-]; cbn; rewrite lookup_insert_eq; by eexists|]. rewrite lookup_alter_ne by done. intros Hy. specialize (H6 y so' Hy). destruct (so_file so') as [f'|]; [|set_solver]. destruct H6 as (fl & E1 & E2). rewrite lookup_insert_ne by congruence. by exists fl.
  - intros y Hy. rewrite lookup_alter_ne by set_solver. apply H7. set_solver.
  - intros m. rewrite (cnt_alter _ _ x so) by done. rewrite H8. change (owned m (so <| so_file := Some f |>)) with (owned m so). lia.
  - rewrite H9. f_equal. rewrite <- !size_dom. by rewrite dom_alter_L.
Qed.
Lemma inv_last_sock B R K X s f fl x so : inv B R K X s -> files s !! f = Some fl -> f_sock fl = Some x -> sockets s !! x = Some so -> X f = 1 -> cnt (is_open f) (fdt s) = 0 ->
  inv (fun m => B m + b2z (owned m so)) R K (add_at X f (-1)) (s <| files := delete f (files s) |> <| sockets := delete x (sockets s) |> <| sockets_in_use := sockets_in_use s - 1 |>).
Proof using L.
  intros [H1 H2 H3 H4 H5 H6 H7 H8 H9 H10] Hf Hx Hs HX Hc. destruct (H5 f fl x Hf Hx) as (so' & F1 & F2 & F3). rewrite Hs in F1. injection F1 as <-. split; cbn; try done.
  - intros fd f' Hfd. destruct (decide (f' = f)) as [->|Hne]; [|rewrite lookup_delete_ne by done; by eapply H1]. exfalso. pose proof (cnt_pos (is_open f) _ fd (FdOpen f) Hfd) as Hp. unfold is_open in Hp at 1. rewrite bool_decide_eq_true_2 in Hp by done. specialize (Hp eq_refl). lia.
  - intros f' fl'. destruct (decide (f' = f)) as [->|Hne]; [by rewrite lookup_delete_eq|]. rewrite lookup_delete_ne, add_at_ne by done. apply H3.
  - intros f'. destruct (H4 f') as [E1 E2]. destruct (decide (f' = f)) as [->|Hne]; [rewrite add_at_eq, HX; split; [lia|done]|]. by rewrite lookup_delete_ne, add_at_ne by done.
  - intros f' fl' y. destruct (decide (f' = f)) as [->|Hne]; [by rewrite lookup_delete_eq|]. rewrite lookup_delete_ne by done. intros Hf' Hy. destruct (H5 f' fl' y Hf' Hy) as (so' & E1 & E2 & E3). rewrite lookup_delete_ne by congruence. by exists so'.
  - intros y so'. destruct (decide (y = x)) as [->|Hne]; [by rewrite lookup_delete_eq|]. rewrite lookup_delete_ne by done. intros Hy. specialize (H6 y so' Hy). destruct (so_file so') as [f'|]; [|done]. destruct H6 as (fl' & E1 & E2). rewrite lookup_delete_ne by congruence. by exists fl'.
  - intros y Hy. destruct (H7 y Hy) as (so' & E1 & E2). rewrite lookup_delete_ne by congruence. by exists so'.
  - intros m. rewrite (cnt_delete _ _ x so), H8 by done. lia.
  - rewrite map_size_delete_Some by (by rewrite Hs). rewrite H9. assert (size (sockets s) <> 0%nat) by (intros E0%map_size_empty_inv; by rewrite E0, lookup_empty in Hs). lia.
Qed.
Lemma inv_last_other B R K X s f fl : inv B R K X s -> files s !! f = Some fl -> f_sock fl = None -> X f = 1 -> cnt (is_open f) (fdt s) = 0 -> inv B R K (add_at X f (-1)) (s <| files := delete f (files s) |>).
Proof using L.
  intros [H1 H2 H3 H4 H5 H6 H7 H8 H9 H10] Hf Hx HX Hc. split; cbn; try done.
  - intros fd f' Hfd. destruct (decide (f' = f)) as [->|Hne]; [|rewrite lookup_delete_ne by done; by eapply H1]. exfalso. pose proof (cnt_pos (is_open f) _ fd (FdOpen f) Hfd) as Hp. unfold is_open in Hp at 1. rewrite bool_decide_eq_true_2 in Hp by done. specialize (Hp eq_refl). lia.
  - intros f' fl'. destruct (decide (f' = f)) as [->|Hne]; [by rewrite lookup_delete_eq|]. rewrite lookup_delete_ne, add_at_ne by done. apply H3.
  - intros f'. destruct (H4 f') as [E1 E2]. destruct (decide (f' = f)) as [->|Hne]; [rewrite add_at_eq, HX; split; [lia|done]|]. by rewrite lookup_delete_ne, add_at_ne by done.
  - intros f' fl' y. destruct (decide (f' = f)) as [->|Hne]; [by rewrite lookup_delete_eq|]. rewrite lookup_delete_ne by done. apply H5.
  - intros y so' Hy. specialize (H6 y so' Hy). destruct (so_file so') as [f'|]; [|done]. destruct H6 as (fl' & E1 & E2). rewrite lookup_delete_ne by congruence. by exists fl'.
Qed.
(** The rest of the state after a reference to [f] is dropped. *)
Record dropped f s s' : Prop := {
  dr_fdt : fdt s' = fdt s;
  dr_omem : omem s' = omem s;
  dr_socks : forall y so, sockets s !! y = Some so -> so_file so <> Some f -> sockets s' !! y = Some so;
}.
Lemma inv_drop B R K X s f : inv B R K X s -> 0 < X f -> inv B R K (add_at X f (-1)) (drop_file s f) /\ dropped f s (drop_file s f).
Proof using L.
  intros Hi HX. destruct (files s !! f) as [fl|] eqn:Hf; [|exfalso; destruct (iv_hold _ _ _ _ _ Hi f) as [_ E2]; specialize (E2 Hf); lia]. unfold drop_file. rewrite Hf. destruct (iv_count _ _ _ _ _ Hi f fl Hf) as [E1 E2]. pose proof (cnt_nonneg (is_open f) (fdt s)) as Hc. destruct (Z.eqb_spec (f_count fl) 1) as [H1|H1].
  - assert (HX1 : X f = 1) by lia. assert (Hc0 : cnt (is_open f) (fdt s) = 0) by lia. destruct (f_sock fl) as [x|] eqn:Ex; cbn [sock_close]; [|split; [by eapply inv_last_other|by split]].
    destruct (iv_sock _ _ _ _ _ Hi f fl x Hf Ex) as (so & S1 & S2 & S3). unfold sock_release. rewrite S1, S2. destruct (so_ops so) as [o|] eqn:Eo; [|done]. cbn zeta. rewrite module_put_spec. split.
    + set (s1 := s <| sy_proto := ops_release o (sy_proto s) x |>). assert (I1 : inv B R K X s1) by (by apply (quiet_inv _ _ _ _ s)). pose proof (inv_mod _ _ _ _ _ (ops_owner o) (-1) (inv_last_sock _ _ _ _ s1 f fl x so I1 Hf Ex S1 HX1 Hc0)) as I2.
      eapply inv_ext; [eapply (quiet_inv _ _ _ _ _ _ _ I2)|intros m; unfold add_at, owned; rewrite Eo; repeat case_decide; repeat case_bool_decide; cbn; congruence || lia|done|done|done]. Unshelve. split; cbn; try done. by rewrite !delete_alter_eq.
    + split; cbn; [done|done|]. intros y so' Hy Hne. rewrite lookup_delete_ne, !lookup_alter_ne by congruence. done.
  - split; [|by split]. destruct Hi as [I1 I2 I3 I4 I5 I6 I7 I8 I9 I10]. split; cbn; try done.
    + intros fd f' Hfd. destruct (decide (f' = f)) as [->|Hne]; [rewrite lookup_insert_eq; by eexists|]. rewrite lookup_insert_ne by done. by eapply I1.
    + intros f' fl'. destruct (decide (f' = f)) as [->|Hne]; [rewrite lookup_insert_eq, add_at_eq; intros [= <-]; cbn; lia|]. rewrite lookup_insert_ne, add_at_ne by done. apply I3.
    + intros f'. destruct (I4 f') as [F1 F2]. destruct (decide (f' = f)) as [->|Hne]; [rewrite lookup_insert_eq, add_at_eq; split; [lia|done]|]. by rewrite lookup_insert_ne, add_at_ne by done.
    + intros f' fl' y. destruct (decide (f' = f)) as [->|Hne]; [rewrite lookup_insert_eq; intros [= <-]; apply (I5 f fl y Hf)|]. rewrite lookup_insert_ne by done. apply I5.
    + intros y so Hs. specialize (I6 y so Hs). destruct (so_file so) as [f'|]; [|done]. destruct I6 as (fl' & F1 & F2). destruct (decide (f' = f)) as [->|Hne]; [rewrite lookup_insert_eq; eexists; split; [done|]; cbn; congruence|]. rewrite lookup_insert_ne by done. by exists fl'.
Qed.
(** A descriptor of a file is closed: its reference becomes a hold, which is dropped. *)
Lemma inv_uninstall B R K X s fd f : inv B R K X s -> fdt s !! fd = Some (FdOpen f) -> inv B R K (add_at X f 1) (s <| fdt := delete fd (fdt s) |>).
Proof using L.
  intros [H1 H2 H3 H4 H5 H6 H7 H8 H9 H10] Hfd. destruct (H1 fd f Hfd) as [fl0 Hfl]. split; cbn; try done.
  - intros fd' f'. destruct (decide (fd' = fd)) as [->|Hne]; [by rewrite lookup_delete_eq|]. rewrite lookup_delete_ne by done. apply H1.
  - intros fd'. rewrite <- H2. destruct (decide (fd' = fd)) as [->|Hne]; [rewrite lookup_delete_eq, Hfd; done|]. by rewrite lookup_delete_ne.
  - intros f' fl Hf. rewrite (cnt_delete _ _ fd (FdOpen f)) by done. destruct (H3 f' fl Hf) as [E1 E2]. split; [|done]. rewrite E1. unfold add_at, is_open. cbn. repeat case_decide; repeat case_bool_decide; cbn; congruence || lia.
  - intros f'. destruct (H4 f') as [E1 E2]. unfold add_at. case_decide as Ed; [subst f'; split; [lia|]; congruence|done].
Qed.
Lemma inv_close B R K X s fd f : inv B R K X s -> fdt s !! fd = Some (FdOpen f) -> inv B R K X (sys_close s fd).2 /\ fdt (sys_close s fd).2 = delete fd (fdt s) /\ omem (sys_close s fd).2 = omem s.
Proof using L.
  intros Hi Hfd. rewrite (sys_close_spec s fd f Hfd). pose proof (iv_hold _ _ _ _ _ Hi f) as [Hx _]. destruct (inv_drop _ _ _ _ _ f (inv_uninstall _ _ _ _ _ fd f Hi Hfd)) as [I1 [D1 D2 _]]; [rewrite add_at_eq; lia|]. split_and!; [|by rewrite D1|by rewrite D2].
  eapply inv_ext; [exact I1|done|done|done|]. intros j. unfold add_at. repeat case_decide; lia.
Qed.

(** ** The functions of the layer *)
Record with_file B R K X s x (fd : Z) f s' : Prop := {
  wf_fd : 0 <= fd;
  wf_new : fdt s !! fd = None;
  wf_fdt : fdt s' = <[fd := FdReserved]> (fdt s);
  wf_inv : inv B ({[fd]} ∪ R) (K ∖ {[x]}) (add_at X f 1) s';
  wf_omem : forall y, omem s' y = omem s y;
  wf_fresh : files s !! f = None;
  wf_socks : forall y, sockets s' !! y = if decide (y = x) then (fun so => so <| so_file := Some f |>) <$> sockets s !! y else sockets s !! y;
}.
Lemma alloc_file_ok B R K X s x so flags : inv B R K X s -> x ∈ K -> sockets s !! x = Some so -> so_ops so <> None ->
  let '(fd, r, s') := sock_alloc_file s x flags in match r with None => fd < 0 /\ quiet s s' | Some f => with_file B R K X s x fd f s' end.
Proof using L.
  intros Hi Hx Hs Ho. unfold sock_alloc_file. pose proof (get_unused_spec s flags) as Hg. destruct (get_unused_fd_flags s flags) as [fd s1]. destruct Hg as [[Hl ->]|(Hl & Hn & ->)]; [rewrite (proj2 (Z.ltb_lt _ _) Hl); by split|]. rewrite (proj2 (Z.ltb_ge _ _) Hl). set (s1 := s <| fdt := _ |>).
  assert (Hq : quiet s (put_unused_fd s1 fd)) by (rewrite put_unused_spec; split; cbn; try done; by rewrite delete_insert_id). destruct (d_alloc_pseudo s1); cbn [negb]; [|by split]. destruct (alloc_file s1) as [f|] eqn:Ef; [|by split]. apply file_fresh in Ef. split; [done|done|done| |done|exact Ef|].
  - by apply (inv_new_file _ _ _ _ s1 x so); [apply inv_reserve|..].
  - intros y. cbn. case_decide as Hy; [subst y; by rewrite lookup_alter_eq|by rewrite lookup_alter_ne].
Qed.
(** sock_map_fd and the like: the file goes into the table. *)
Lemma install_ok B R K X s x fd f s' : with_file B R K X s x fd f s' -> fd ∉ R -> 0 <= X f -> inv B R (K ∖ {[x]}) X (fd_install s' fd f) /\ fdt (fd_install s' fd f) = <[fd := FdOpen f]> (fdt s).
Proof using L.
  intros [W1 W2 W3 W4 W5 _ W6] Hr HX. rewrite fd_install_spec. split; [|cbn; by rewrite W3, insert_insert_eq]. eapply inv_ext; [apply (inv_install _ _ _ _ _ fd f W4); [set_solver|rewrite add_at_eq; lia]|done|set_solver|done|]. intros j. unfold add_at. repeat case_decide; lia.
Qed.
(** The file is given up, with the socket. *)
Lemma giveup_ok B R K X s x fd f s' : with_file B R K X s x fd f s' -> forall s2, quiet s' s2 -> fd ∉ R -> 0 <= X f -> let s3 := put_unused_fd (fput s2 f) fd in inv B R (K ∖ {[x]}) X s3 /\ fdt s3 = fdt s /\ (forall y, omem s3 y = omem s y) /\ (forall y so, sockets s !! y = Some so -> so_file so <> Some f -> y <> x -> sockets s3 !! y = Some so).
Proof using L.
  intros [W1 W2 W3 W4 W5 _ W6] s2 Hq Hr HX. cbn zeta. rewrite put_unused_spec, fput_spec. apply (quiet_inv _ _ _ _ _ _ Hq) in W4. destruct (inv_drop _ _ _ _ _ f W4) as [I1 [D1 D2 D3]]; [rewrite add_at_eq; lia|]. split_and!.
  - eapply inv_ext; [apply (inv_unreserve _ _ _ _ _ fd I1); set_solver|done|set_solver|done|]. intros j. unfold add_at. repeat case_decide; lia.
  - cbn. rewrite D1, (qu_fdt _ _ Hq), W3. by apply delete_insert_id.
  - intros y. cbn. by rewrite D2, (qu_omem _ _ Hq), W5.
  - intros y so Hy Hne Hyx. cbn. apply D3; [|done]. by rewrite (qu_socks _ _ Hq), W6, decide_False.
Qed.

(** The calls that work on one descriptor. *)
Definition ready s x f : Prop := exists so, sockets s !! x = Some so /\ so_file so = Some f /\ so_ops so <> None.
Lemma lookup_ok B R K X s fd : inv B R K X s -> let '(err, r, s') := sockfd_lookup_light s fd in fdt s' = fdt s /\ omem s' = omem s /\
  match r with
  | None => err < 0 /\ inv B R K X s'
  | Some (x, needed) => exists f, fdt s !! fd = Some (FdOpen f) /\ ready s' x f /\ sockets s' = sockets s /\ inv B R K (if needed : bool then add_at X f 1 else X) s'
  end.
Proof using L.
  intros Hi. unfold sockfd_lookup_light. destruct (fget_light_spec s fd) as [needed ->]. destruct (fdt s !! fd) as [[|f]|] eqn:Hfd; [by split_and!| |by split_and!]. destruct (iv_open _ _ _ _ _ Hi fd f Hfd) as [fl Hf]. set (s1 := if needed then hold_file s f else s).
  assert (I1 : inv B R K (if needed then add_at X f 1 else X) s1) by (unfold s1; destruct needed; [by apply inv_hold|done]). assert (Hsf : sock_from_file s1 f = f_sock fl) by (unfold sock_from_file, s1; destruct needed; cbn; [by rewrite lookup_alter_eq, Hf|by rewrite Hf]). assert (Es : sockets s1 = sockets s /\ fdt s1 = fdt s /\ omem s1 = omem s) by (unfold s1; by destruct needed). destruct Es as (Es & Ef & Eo). rewrite Hsf. clearbody s1.
  destruct (f_sock fl) as [x|] eqn:Ex.
  - split_and!; [done|done|]. exists f. split_and!; [done| |done|done]. destruct (iv_sock _ _ _ _ _ Hi f fl x Hf Ex) as (so & S1 & S2 & S3). exists so. by rewrite Es.
  - rewrite fput_light_spec. destruct needed; [|by split_and!]. pose proof (iv_hold _ _ _ _ _ Hi f) as [Hx _]. destruct (inv_drop _ _ _ _ _ f I1) as [I2 [D1 D2 _]]; [rewrite add_at_eq; lia|]. split_and!; [by rewrite D1|by rewrite D2|done|]. eapply inv_ext; [exact I2|done|done|done|]. intros j. unfold add_at. repeat case_decide; lia.
Qed.
(** What a call may do with the state: nothing is lost, and descriptors only come. *)
Record result B R K X s (n : nat) (r : Z) s' : Prop := {
  rs_inv : inv B R K X s';
  rs_omem : forall x, omem s' x = omem s x;
  rs_fdt : fdt s ⊆ fdt s';
  rs_count : size (fdt s') = (size (fdt s) + (if (r <? 0)%Z then 0 else n))%nat;
}.
Lemma quiet_result B R K X s r s' : inv B R K X s -> quiet s s' -> result B R K X s 0 r s'.
Proof using Type. intros Hi Hq. split; [by eapply quiet_inv|apply Hq|by rewrite (qu_fdt _ _ Hq)|rewrite (qu_fdt _ _ Hq); destruct (r <? 0); lia]. Qed.
Lemma result_err B R K X s n r s' : r < 0 -> result B R K X s 0 r s' -> result B R K X s n r s'.
Proof using Type. intros Hr [R1 R2 R3 R4]. split; [done|done|done|]. rewrite (proj2 (Z.ltb_lt _ _) Hr) in *. lia. Qed.
Lemma put_sock_ok B R K X s n r s1 s2 x f (needed : bool) : inv B R K X s -> fdt s1 = fdt s -> omem s1 = omem s -> ready s2 x f -> result B R K (if needed then add_at X f 1 else X) s1 n r s2 -> result B R K X s n r (put_sock s2 x needed).
Proof using L.
  intros Hi Ef Eo (so & S1 & S2 & _) [R1 R2 R3 R4]. unfold put_sock. rewrite S1. change (Some so ≫= so_file) with (so_file so). rewrite S2, fput_light_spec. destruct needed.
  - pose proof (iv_hold _ _ _ _ _ Hi f) as [Hx _]. destruct (inv_drop _ _ _ _ _ f R1) as [I2 [D1 D2 _]]; [rewrite add_at_eq; lia|]. split; [|intros y; rewrite D2, R2, Eo; done|rewrite D1, <- Ef; done|by rewrite D1, R4, Ef]. eapply inv_ext; [exact I2|done|done|done|]. intros j. unfold add_at. repeat case_decide; lia.
  - split; [done|intros y; by rewrite R2, Eo|by rewrite <- Ef|by rewrite R4, Ef].
Qed.
Lemma with_sockfd_ok B R K X s fd n body : inv B R K X s ->
  (forall X' s1 x f, inv B R K X' s1 -> ready s1 x f -> fdt s1 !! fd = Some (FdOpen f) -> let '(r, s2) := body s1 x in result B R K X' s1 n r s2 /\ ready s2 x f) ->
  let '(r, s') := with_sockfd s fd body in result B R K X s n r s'.
Proof using L.
  intros Hi Hb. unfold with_sockfd. pose proof (lookup_ok B R K X s fd Hi) as Hl. destruct (sockfd_lookup_light s fd) as [[err [[x needed]|]] s1]; destruct Hl as (E1 & E2 & Hl).
  - destruct Hl as (f & Hfd & Hr & _ & I1). specialize (Hb _ s1 x f I1 Hr ltac:(by rewrite E1)). destruct (body s1 x) as [r s2]. destruct Hb as [Hb Hr2]. by eapply put_sock_ok.
  - destruct Hl as [He I1]. split; [done|by intros; rewrite E2|by rewrite E1|rewrite E1, (proj2 (Z.ltb_lt _ _) He); lia].
Qed.
(** Most bodies are quiet. *)
Lemma with_sockfd_quiet B R K X s fd body : inv B R K X s -> (forall s1 x f, ready s1 x f -> quiet s1 (body s1 x).2) -> let '(r, s') := with_sockfd s fd body in result B R K X s 0 r s'.
Proof using L.
  intros Hi Hb. apply with_sockfd_ok; [done|]. intros X' s1 x f I1 Hr _. specialize (Hb s1 x f Hr). destruct (body s1 x) as [r s2]. cbn in Hb. split; [by apply quiet_result|]. unfold ready. rewrite (qu_socks _ _ Hb). exact Hr.
Qed.
Lemma with_ops_quiet s x f k : ready s x f -> (forall o, quiet s (k o).2) -> quiet s (with_ops s x k).2.
Proof using Type. intros (so & S1 & S2 & S3) Hk. unfold with_ops. rewrite S1. change (Some so ≫= so_ops) with (so_ops so). destruct (so_ops so) as [o|]; [apply Hk|done]. Qed.

(** A socket is made, or nothing has happened. *)
Record created B R K X s (err : Z) (r : option nat) s' : Prop := {
  cd_fdt : fdt s' = fdt s;
  cd_omem : omem s' = omem s;
  cd_keep : forall y, y ∈ K -> sockets s' !! y = sockets s !! y;
  cd_made : match r with
            | None => err < 0 /\ inv B R K X s'
            | Some x => err = 0 /\ x ∉ K /\ inv B R ({[x]} ∪ K) X s' /\ exists so, sockets s' !! x = Some so /\ so_ops so <> None
            end;
}.
(** The socket [x] that is made goes away again. *)
Record unmade B R K X s x s' : Prop := {
  um_inv : inv B R K X s';
  um_fdt : fdt s' = fdt s;
  um_omem : omem s' = omem s;
  um_keep : forall y, y <> x -> sockets s' !! y = sockets s !! y;
}.
Lemma release_new B R K X s x : inv B R ({[x]} ∪ K) X s -> x ∉ K -> unmade B R K X s x (sock_release s x).
Proof using L.
  intros Hi Hx. destruct (inv_release _ _ _ _ _ x Hi) as (I1 & E1 & E2 & E3); [set_solver|]. split; [|done|done|done]. eapply inv_ext; [exact I1|done|done|set_solver|done].
Qed.
Lemma create_failed_ok B R K X s x so m err : inv (fun j => add_at B m 1 j - b2z (owned j so)) R ({[x]} ∪ K) X s -> x ∉ K -> sockets s !! x = Some so -> so_file so = None -> unmade B R K X s x (create_failed s x m err).2.
Proof using L.
  intros Hi Hx Hs Hf. unfold create_failed. cbn [snd]. rewrite module_put_spec. set (g := fun so0 : socket => so0 <| so_ops := None |>). pose proof (inv_mod _ _ _ _ _ m (-1) (inv_upd _ _ _ _ _ x so g Hi ltac:(set_solver) Hs Hf)) as I1.
  destruct (release_new B R K X (mod_add (upd_so s x g) m (-1)) x) as [U1 U2 U3 U4]; [|done|].
  - eapply inv_ext; [exact I1|intros j; unfold add_at; cbn; repeat case_decide; lia|done|done|done].
  - split; [done|by rewrite U2|by rewrite U3|]. intros y Hy. rewrite U4 by done. cbn. by rewrite lookup_alter_ne.
Qed.
Lemma sock_create_ok B R K X s fam type protocol kern : inv B R K X s -> let '(err, r, s') := sock_create_ s fam type protocol kern in created B R K X s err r s'.
Proof using L.
  intros Hi. unfold sock_create_. case_if_as Hc1; [by split|]. case_if_as Hc2; [by split|]. cbn zeta. set (fam' := if _ && _ then PF_PACKET else fam). clearbody fam'. pose proof (hook_neg (HCreate fam' type protocol kern)) as Hh. case_if_as Hc3; [split; try done; split; [|done]; apply negb_true_iff, Z.eqb_neq in Hc3; lia|].
  destruct (sock_alloc s) as [[x s1]|] eqn:Ea; [|by split]. destruct (inv_alloc _ _ _ _ _ _ _ Hi Ea) as (I1 & Hx & Hs1 & Ef1 & Eo1 & Ek1). set (s2 := upd_so s1 x _). assert (I2 : inv B R ({[x]} ∪ K) X s2) by (eapply inv_ext; [apply (inv_upd _ _ _ _ _ x _ (fun so => so <| so_type := type |>) I1 ltac:(set_solver) Hs1 eq_refl)|intros j; cbn; lia|done..]). assert (Hs2 : sockets s2 !! x = Some (mk_socket type None None)) by (unfold s2; cbn; by rewrite lookup_alter_eq, Hs1). assert (Ek2 : forall y, y ∈ K -> sockets s2 !! y = sockets s !! y) by (intros y Hy; unfold s2; cbn; rewrite lookup_alter_ne, Ek1; [done|by intros ->..]).
  set (s3 := match net_families s2 !! fam' with Some _ => s2 | None => request_module s2 fam' end). assert (Hq : exists fams p, s3 = s2 <| net_families := fams |> <| sy_proto := p |>) by (unfold s3; destruct (net_families s2 !! fam'); [by exists (net_families s2), (sy_proto s2)|apply request_module_spec]). assert (E3 : sockets s3 = sockets s2 /\ fdt s3 = fdt s /\ omem s3 = omem s) by (destruct Hq as (fams & p & ->); split_and!; [done|exact Ef1|exact Eo1]). assert (I3 : inv B R ({[x]} ∪ K) X s3) by (destruct Hq as (fams & p & ->); by apply (quiet_inv _ _ _ _ s2)). destruct E3 as (E31 & E32 & E33). clear Hq. clearbody s3. rewrite <- E31 in Hs2, Ek2.
  assert (Hrel : forall err, err < 0 -> created B R K X s err None (sock_release s3 x)) by (intros err He; destruct (release_new B R K X s3 x I3 Hx) as [U1 U2 U3 U4]; split; [by rewrite U2|by rewrite U3|intros y Hy; rewrite U4; [by apply Ek2|by intros ->]|done]).
  destruct (net_families s3 !! fam') as [pf|]; [|by apply Hrel]. destruct (try_get_spec s3 (pf_owner pf)) as [[|] ->]; cbn [negb]; [|by apply Hrel]. set (s4 := mod_add s3 (pf_owner pf) 1). pose proof (inv_mod _ _ _ _ _ (pf_owner pf) 1 I3 : inv _ _ _ _ s4) as I4.
  destruct (pf_create (pf_id pf) (sy_proto s4) x type protocol kern) as [[err ops] p] eqn:Ec. destruct (create_spec _ _ _ _ _ _ _ _ _ Ec) as [Hle Hops]. set (s5 := upd_so (s4 <| sy_proto := p |>) x _).
  assert (I5 : inv (fun j => add_at B (pf_owner pf) 1 j - b2z (owned j (mk_socket type ops None))) R ({[x]} ∪ K) X s5) by (eapply inv_ext; [apply (inv_upd _ _ _ _ (s4 <| sy_proto := p |>) x _ (fun so => so <| so_ops := ops |>) (quiet_inv _ _ _ _ _ _ (quiet_proto s4 p) I4) ltac:(set_solver) Hs2 eq_refl)|intros j; unfold owned; cbn; lia|done..]). assert (Hs5 : sockets s5 !! x = Some (mk_socket type ops None)) by (unfold s5; cbn; by rewrite lookup_alter_eq, Hs2). assert (Ek5 : forall y, y ∈ K -> sockets s5 !! y = sockets s !! y) by (intros y Hy; unfold s5; cbn; rewrite lookup_alter_ne; [by apply Ek2|by intros ->]).
  assert (Hcf : forall e, e < 0 -> let '(err, r, s') := create_failed s5 x (pf_owner pf) e in created B R K X s err r s') by (intros e He; destruct (create_failed_ok B R K X s5 x _ (pf_owner pf) e I5 Hx Hs5 eq_refl) as [U1 U2 U3 U4]; unfold create_failed in *; cbn in U1, U2, U3, U4; split; [rewrite U2; exact E32|rewrite U3; exact E33|intros y Hy; rewrite U4; [by apply Ek5|by intros ->]|done]).
  destruct (Z.ltb_spec err 0) as [He|He]; [by apply Hcf|]. assert (err = 0) as -> by lia. destruct ops as [o|]; [|by specialize (Hops eq_refl)]. destruct (try_get_spec s5 (ops_owner o)) as [[|] ->]; cbn [negb]; [|by apply Hcf]. rewrite module_put_spec. set (s6 := mod_add (mod_add s5 _ 1) _ (-1)).
  assert (I6 : inv B R ({[x]} ∪ K) X s6) by (eapply inv_ext; [apply inv_mod, inv_mod, I5|intros j; unfold add_at, owned; cbn; repeat case_decide; repeat case_bool_decide; cbn; congruence || lia|done..]). pose proof (hook_neg (HPostCreate x fam' type protocol kern)) as Hh2. case_if_as Hc4.
  - destruct (release_new B R K X s6 x I6 Hx) as [U1 U2 U3 U4]. split; [rewrite U2; exact E32|rewrite U3; exact E33|intros y Hy; rewrite U4; [by apply Ek5|by intros ->]|]. split; [|done]. apply negb_true_iff, Z.eqb_neq in Hc4. lia.
  - split; [exact E32|exact E33|exact Ek5|]. split_and!; [done|done|exact I6|]. eexists. split; [exact Hs5|done].
Qed.

Lemma result_refl B R K X s n r : inv B R K X s -> r < 0 -> result B R K X s n r s.
Proof using Type. intros Hi Hr. apply result_err; [done|]. by apply quiet_result. Qed.
Lemma not_reserved B R K X s fd : inv B R K X s -> fdt s !! fd = None -> fd ∉ R.
Proof using Type. intros Hi Hn Hr. apply (iv_res _ _ _ _ _ Hi) in Hr. congruence. Qed.
(** An error after which only the table is as before. *)
Lemma result_same B R K X s n r s' : r < 0 -> inv B R K X s' -> fdt s' = fdt s -> (forall y, omem s' y = omem s y) -> result B R K X s n r s'.
Proof using Type. intros Hr Hi Ef Eo. split; [done|done|by rewrite Ef|rewrite Ef, (proj2 (Z.ltb_lt _ _) Hr); lia]. Qed.
Lemma union_minus K x : x ∉ K -> ({[x]} ∪ K) ∖ {[x]} = K.
Proof using Type. clear. set_solver. Qed.
Lemma socket_ok B R K X s fam type protocol : inv B R K X s -> let '(r, s') := sys_socket s fam type protocol in result B R K X s 1 r s'.
Proof using L.
  intros Hi. unfold sys_socket, sock_create. case_if_as Hb; [by apply result_refl|]. pose proof (sock_create_ok B R K X s fam (Z.land type SOCK_TYPE_MASK) protocol false Hi) as Hc. destruct (sock_create_ s _ _ _ _) as [[err [x|]] s1]; destruct Hc as [C1 C2 C3 C4]; [|destruct C4 as [He I1]; rewrite (proj2 (Z.ltb_lt _ _) He); apply result_same; [done|done|done|by rewrite C2]]. destruct C4 as (-> & Hx & I1 & so & Hs & Ho). cbn [Z.ltb Z.compare].
  unfold sock_map_fd. pose proof (alloc_file_ok B R _ X s1 x so (Z.land (Z.land type (Z.lnot SOCK_TYPE_MASK)) (Z.lor SOCK_CLOEXEC SOCK_NONBLOCK)) I1 ltac:(set_solver) Hs Ho) as Ha. destruct (sock_alloc_file s1 x _) as [[fd [f|]] s2].
  - rewrite (proj2 (Z.ltb_ge _ _) (wf_fd _ _ _ _ _ _ _ _ _ Ha)). pose proof (wf_new _ _ _ _ _ _ _ _ _ Ha) as Hn. destruct (install_ok _ _ _ _ _ _ _ _ _ Ha (not_reserved _ _ _ _ _ _ I1 Hn) (proj1 (iv_hold _ _ _ _ _ I1 f))) as [I2 F2]. rewrite (union_minus K x Hx) in I2. rewrite C1 in F2, Hn. split; [done| |rewrite F2; by apply insert_subseteq|rewrite F2, map_size_insert_None, (proj2 (Z.ltb_ge _ _) (wf_fd _ _ _ _ _ _ _ _ _ Ha)) by done; lia].
    intros y. rewrite fd_install_spec. cbn. by rewrite (wf_omem _ _ _ _ _ _ _ _ _ Ha), C2.
  - destruct Ha as [Hl Hq]. rewrite (proj2 (Z.ltb_lt _ _) Hl). destruct (release_new B R K X s2 x (quiet_inv _ _ _ _ _ _ Hq I1) Hx) as [U1 U2 U3 U4]. apply result_same; [done|done|by rewrite U2, (qu_fdt _ _ Hq)|intros y; by rewrite U3, (qu_omem _ _ Hq), C2].
Qed.
(** The second half of accept4() only talks to the protocols and the user. *)
Lemma accept_file_quiet s x y f g addr len : ready s x f -> ready s y g -> quiet s (accept_file s x y addr len).2.
Proof using Type.
  intros Hx Hy. unfold accept_file. case_if_as Hc1; [apply quiet_refl|]. pose proof (with_ops_quiet s x f (fun o => on_proto s (ops_accept o (sy_proto s) x y (flags_of s x))) Hx ltac:(intros o; apply quiet_proto)) as Hq. destruct (with_ops s x _) as [err s1]. cbn in Hq. case_if_as Hc2; [done|]. case_if_as Hc3; [done|]. eapply quiet_trans; [exact Hq|]. eapply (with_ops_quiet _ _ g); [unfold ready; by rewrite (qu_socks _ _ Hq)|]. intros o. destruct (ops_getname o (sy_proto s1) y 2) as [e a]. case_if_as Hc4; [apply quiet_refl|]. destruct (move_addr_to_user _ _ _ _) as [e2 u]. apply quiet_user.
Qed.
Lemma with_file_ready B R K X s x fd f s' : with_file B R K X s x fd f s' -> forall so, sockets s !! x = Some so -> so_ops so <> None -> ready s' x f.
Proof using Type. intros [_ _ _ _ _ _ W6] so Hs Ho. eexists. rewrite W6, decide_True, Hs by done. by cbn. Qed.
Lemma with_file_quiet B R K X s x fd f s' s'' : with_file B R K X s x fd f s' -> quiet s' s'' -> with_file B R K X s x fd f s''.
Proof using Type. intros [W1 W2 W3 W4 W5 Wf W6] Hq. split; [done|done|by rewrite (qu_fdt _ _ Hq)|by eapply quiet_inv|intros y; by rewrite (qu_omem _ _ Hq)|done|intros y; by rewrite (qu_socks _ _ Hq)]. Qed.
Lemma accept_ok B R K X s fd addr len flags : inv B R K X s -> let '(r, s') := sys_accept4 s fd addr len flags in result B R K X s 1 r s'.
Proof using L.
  intros Hi. unfold sys_accept4. case_if_as Hb; [by apply result_refl|]. apply with_sockfd_ok; [done|]. clear Hi s X. intros X s x f Hi Hr Hfd. destruct (sock_alloc s) as [[y s1]|] eqn:Ea; [|split; [by apply result_refl|done]]. destruct (inv_alloc _ _ _ _ _ _ _ Hi Ea) as (I1 & Hy & Hs1 & Ef1 & Eo1 & Ek1). pose proof Hr as (so & S1 & S2 & S3).
  assert (Hxy : x <> y) by (intros ->; apply iv_kern with (x := y) in I1 as (so' & F1 & F2); [|set_solver]; rewrite Hs1 in F1; injection F1 as <-; unfold sock_alloc in Ea; destruct (new_inode_pseudo s) eqn:En; [|done]; injection Ea as -> _; apply inode_fresh in En; congruence). rewrite Ek1, S1 by done. destruct (so_ops so) as [o|] eqn:Eo; [|done]. rewrite module_get_spec. set (gy := fun so' : socket => _). set (s2 := mod_add _ _ 1).
  assert (Hs2 : sockets s2 !! y = Some (mk_socket (so_type so) (Some o) None)) by (unfold s2; cbn; by rewrite lookup_alter_eq, Hs1). assert (I2 : inv B R ({[y]} ∪ K) X s2) by (eapply inv_ext; [apply inv_mod, (inv_upd _ _ _ _ s1 y _ gy I1 ltac:(set_solver) Hs1 eq_refl)|intros j; unfold add_at, owned; cbn; repeat case_decide; repeat case_bool_decide; cbn; congruence || lia|done..]). assert (Hr2 : ready s2 x f) by (exists so; unfold s2; cbn; rewrite lookup_alter_ne, Ek1 by done; split_and!; [done|done|congruence]).
  assert (Ef2 : fdt s2 = fdt s) by exact Ef1. assert (Eo2 : omem s2 = omem s) by exact Eo1. clearbody s2. pose proof (alloc_file_ok B R _ X s2 y _ flags I2 ltac:(set_solver) Hs2 ltac:(done)) as Hal. destruct (sock_alloc_file s2 y flags) as [[nfd [nf|]] s3].
  - pose proof (with_file_ready _ _ _ _ _ _ _ _ _ Hal _ Hs2 ltac:(done)) as Hry. assert (Hrx : ready s3 x f) by (destruct Hr2 as (so2 & T1 & T2 & T3); exists so2; by rewrite (wf_socks _ _ _ _ _ _ _ _ _ Hal), decide_False). pose proof (accept_file_quiet s3 x y f nf addr len Hrx Hry) as Hq. destruct (accept_file s3 x y addr len) as [err s4]. cbn in Hq. pose proof (wf_new _ _ _ _ _ _ _ _ _ Hal) as Hn. pose proof (not_reserved _ _ _ _ _ _ I2 Hn) as Hnr. pose proof (proj1 (iv_hold _ _ _ _ _ I2 nf)) as HX.
    assert (Hrx2 : ready s4 x f) by (unfold ready; by rewrite (qu_socks _ _ Hq)). assert (Hnf : f <> nf) by (intros ->; destruct (iv_open _ _ _ _ _ I2 fd nf) as [? F1]; [by rewrite Ef2|]; rewrite (wf_fresh _ _ _ _ _ _ _ _ _ Hal) in F1; done). case_if_as He.
    + destruct (giveup_ok _ _ _ _ _ _ _ _ _ Hal s4 Hq Hnr HX) as (G1 & G2 & G3 & G4). rewrite (union_minus K y Hy) in G1. split; [apply result_same; [by apply Z.ltb_lt|done|by rewrite G2|intros z; by rewrite G3, Eo2]|]. destruct Hr2 as (so2 & T1 & T2 & T3). exists so2. split_and!; [apply G4; [done|congruence|done]|done|done].
    + destruct (install_ok _ _ _ _ _ _ _ _ _ (with_file_quiet _ _ _ _ _ _ _ _ _ _ Hal Hq) Hnr HX) as [G1 G2]. rewrite (union_minus K y Hy) in G1. pose proof (wf_fd _ _ _ _ _ _ _ _ _ Hal) as Hp. rewrite Ef2 in G2, Hn. split.
      * split; [done|intros z; rewrite fd_install_spec; cbn; by rewrite (qu_omem _ _ Hq), (wf_omem _ _ _ _ _ _ _ _ _ Hal), Eo2|rewrite G2; by apply insert_subseteq|rewrite G2, map_size_insert_None, (proj2 (Z.ltb_ge _ _) Hp) by done; lia].
      * rewrite fd_install_spec. exact Hrx2.
  - destruct Hal as [Hl Hq]. destruct (release_new B R K X s3 y (quiet_inv _ _ _ _ _ _ Hq I2) Hy) as [U1 U2 U3 U4]. split; [apply result_same; [done|done|by rewrite U2, (qu_fdt _ _ Hq)|intros z; by rewrite U3, (qu_omem _ _ Hq), Eo2]|]. unfold ready. rewrite U4, (qu_socks _ _ Hq) by done. exact Hr2.
Qed.

(** Two files are installed. *)
Lemma install_two B R K X s1 x1 fd1 f1 s2 x2 fd2 f2 s3 : x1 ∉ K -> x2 ∉ K -> x1 <> x2 -> inv B R ({[x2]} ∪ ({[x1]} ∪ K)) X s1 -> with_file B R ({[x2]} ∪ ({[x1]} ∪ K)) X s1 x1 fd1 f1 s2 -> with_file B ({[fd1]} ∪ R) ({[x2]} ∪ K) (add_at X f1 1) s2 x2 fd2 f2 s3 ->
  let s4 := fd_install (fd_install s3 fd1 f1) fd2 f2 in inv B R K X s4 /\ fdt s4 = <[fd2 := FdOpen f2]> (<[fd1 := FdOpen f1]> (fdt s1)) /\ (forall y, omem s4 y = omem s1 y) /\ fdt s1 !! fd1 = None /\ fdt s1 !! fd2 = None /\ fd1 <> fd2.
Proof using L.
  intros Hx1 Hx2 Hne Hi [W1 W2 W3 W4 W5 Wf W6] [V1 V2 V3 V4 V5 Vf V6]. cbn zeta. rewrite !fd_install_spec. assert (Hfd : fd1 <> fd2) by (intros ->; by rewrite W3, lookup_insert_eq in V2). assert (Hn2 : fdt s1 !! fd2 = None) by (by rewrite W3, lookup_insert_ne in V2). pose proof (not_reserved _ _ _ _ _ _ Hi W2) as R1. pose proof (not_reserved _ _ _ _ _ _ Hi Hn2) as R2. pose proof (proj1 (iv_hold _ _ _ _ _ Hi f1)) as X1. pose proof (proj1 (iv_hold _ _ _ _ _ Hi f2)) as X2.
  assert (I3 : inv B ({[fd2]} ∪ ({[fd1]} ∪ R)) K (add_at (add_at X f1 1) f2 1) s3) by (eapply inv_ext; [exact V4|done|done|clear - Hx2; set_solver|done]).
  pose proof (inv_install _ _ _ _ _ fd1 f1 I3 ltac:(clear; set_solver) ltac:(unfold add_at; repeat case_decide; lia)) as I4. pose proof (inv_install _ _ _ _ _ fd2 f2 I4 ltac:(clear - Hfd; set_solver) ltac:(unfold add_at; repeat case_decide; lia)) as I5. split_and!; [|cbn|intros y; cbn; by rewrite V5, W5|done|done|done].
  - eapply inv_ext; [exact I5|done|clear - R1 R2 Hfd; set_solver|done|]. intros j. unfold add_at. repeat case_decide; lia.
  - rewrite V3, W3. apply map_eq. intros k. rewrite !lookup_insert. by repeat case_decide.
Qed.
(** The two sockets of a pair are released. *)
Lemma release_two B R K X s x1 x2 : x1 ∉ K -> x2 ∉ {[x1]} ∪ K -> inv B R ({[x2]} ∪ ({[x1]} ∪ K)) X s -> let s' := sock_release (sock_release s x2) x1 in inv B R K X s' /\ fdt s' = fdt s /\ omem s' = omem s.
Proof using L.
  intros H1 H2 Hi. cbn zeta. destruct (release_new _ _ _ _ _ x2 Hi H2) as [U1 U2 U3 _]. destruct (release_new _ _ _ _ _ x1 U1 H1) as [V1 V2 V3 _]. split_and!; [done|by rewrite V2|by rewrite V3].
Qed.
Lemma pair_files_ok B R K X s x1 x2 so1 so2 flags vec : inv B R ({[x2]} ∪ ({[x1]} ∪ K)) X s -> x1 ∉ K -> x2 ∉ {[x1]} ∪ K -> sockets s !! x1 = Some so1 -> so_ops so1 <> None -> sockets s !! x2 = Some so2 -> so_ops so2 <> None -> let '(r, s') := pair_files s x1 x2 flags vec in result B R K X s 2 r s'.
Proof using L.
  intros Hi H1 H2 Hs1 Ho1 Hs2 Ho2. assert (Hne : x1 <> x2) by (clear - H2; set_solver). assert (H2k : x2 ∉ K) by (clear - H2; set_solver). unfold pair_files. pose proof (alloc_file_ok _ _ _ _ s x1 so1 flags Hi ltac:(clear; set_solver) Hs1 Ho1) as Ha. destruct (sock_alloc_file s x1 flags) as [[fd1 [f1|]] s1].
  2: { destruct Ha as [Hl Hq]. destruct (release_two B R K X s1 x1 x2 H1 H2 (quiet_inv _ _ _ _ _ _ Hq Hi)) as (I1 & E1 & E2). apply result_same; [done|done|by rewrite E1, (qu_fdt _ _ Hq)|intros y; by rewrite E2, (qu_omem _ _ Hq)]. }
  pose proof (wf_inv _ _ _ _ _ _ _ _ _ Ha) as I1. replace (({[x2]} ∪ ({[x1]} ∪ K)) ∖ {[x1]}) with ({[x2]} ∪ K) in I1 by (clear - H1 Hne; set_solver). assert (Hs2' : sockets s1 !! x2 = Some so2) by (by rewrite (wf_socks _ _ _ _ _ _ _ _ _ Ha), decide_False).
  pose proof (alloc_file_ok _ _ _ _ s1 x2 so2 flags I1 ltac:(clear; set_solver) Hs2' Ho2) as Ha2. destruct (sock_alloc_file s1 x2 flags) as [[fd2 [f2|]] s2].
  2: { destruct Ha2 as [Hl Hq]. destruct (giveup_ok _ _ _ _ _ _ _ _ _ Ha s2 Hq (not_reserved _ _ _ _ _ _ Hi (wf_new _ _ _ _ _ _ _ _ _ Ha)) (proj1 (iv_hold _ _ _ _ _ Hi f1))) as (G1 & G2 & G3 & _). replace (({[x2]} ∪ ({[x1]} ∪ K)) ∖ {[x1]}) with ({[x2]} ∪ K) in G1 by (clear - H1 Hne; set_solver).
       destruct (release_new _ _ _ _ _ x2 G1 H2k) as [U1 U2 U3 _]. apply result_same; [done|done|by rewrite U2, G2|intros y; by rewrite U3, G3]. }
  destruct (install_two B R K X s x1 fd1 f1 s1 x2 fd2 f2 s2 H1 H2k Hne Hi Ha Ha2) as (I4 & F4 & O4 & N1 & N2 & N3). set (s4 := fd_install (fd_install s2 fd1 f1) fd2 f2) in *. clearbody s4.
  assert (Hcl : forall s5 err, quiet s4 s5 -> err < 0 -> result B R K X s 2 err (sys_close (sys_close s5 fd2).2 fd1).2).
  { intros s5 err Hq He. assert (F5 : fdt s5 = <[fd2 := FdOpen f2]> (<[fd1 := FdOpen f1]> (fdt s))) by (by rewrite (qu_fdt _ _ Hq)). destruct (inv_close B R K X s5 fd2 f2 (quiet_inv _ _ _ _ _ _ Hq I4)) as (J1 & J2 & J3); [by rewrite F5, lookup_insert_eq|]. rewrite F5, delete_insert_id in J2 by (by rewrite lookup_insert_ne). destruct (inv_close B R K X _ fd1 f1 J1) as (L1 & L2 & L3); [by rewrite J2, lookup_insert_eq|].
    apply result_same; [done|done|by rewrite L2, J2, delete_insert_id|intros y; by rewrite L3, J3, (qu_omem _ _ Hq)]. }
  destruct (put_user (sy_user s4) vec fd1) as [u|]; [|by apply Hcl]. cbn zeta. destruct (put_user u (vec + 4) fd2) as [u2|]; [|by apply Hcl]. split; [by apply (quiet_inv _ _ _ _ s4)|done|cbn; rewrite F4; etransitivity; [apply (insert_subseteq _ fd1 (FdOpen f1)); done|apply insert_subseteq; by rewrite lookup_insert_ne]|cbn; rewrite F4, !map_size_insert_None; [lia|done|by rewrite lookup_insert_ne]].
Qed.
Lemma result_base B R K X s s1 n r s' : fdt s1 = fdt s -> (forall y, omem s1 y = omem s y) -> result B R K X s1 n r s' -> result B R K X s n r s'.
Proof using Type. intros Ef Eo [R1 R2 R3 R4]. split; [done|intros y; by rewrite R2|by rewrite <- Ef|by rewrite R4, Ef]. Qed.
Lemma socketpair_ok B R K X s fam type protocol vec : inv B R K X s -> let '(r, s') := sys_socketpair s fam type protocol vec in result B R K X s 2 r s'.
Proof using L.
  intros Hi. unfold sys_socketpair, sock_create. case_if_as Hb; [by apply result_refl|]. pose proof (sock_create_ok B R K X s fam (Z.land type SOCK_TYPE_MASK) protocol false Hi) as Hc. destruct (sock_create_ s _ _ _ _) as [[err [x1|]] s1]; destruct Hc as [C1 C2 C3 C4]; [|destruct C4 as [He I1]; rewrite (proj2 (Z.ltb_lt _ _) He); apply result_same; [done|done|done|by rewrite C2]]. destruct C4 as (-> & Hx1 & I1 & so1 & Hs1 & Ho1). cbn [Z.ltb Z.compare].
  pose proof (sock_create_ok B R _ X s1 fam (Z.land type SOCK_TYPE_MASK) protocol false I1) as Hd. destruct (sock_create_ s1 _ _ _ _) as [[err [x2|]] s2]; destruct Hd as [D1 D2 D3 D4]; [|destruct D4 as [He I2]; rewrite (proj2 (Z.ltb_lt _ _) He); destruct (release_new _ _ _ _ _ x1 I2 Hx1) as [U1 U2 U3 _]; apply result_same; [done|done|by rewrite U2, D1, C1|intros y; by rewrite U3, D2, C2]]. destruct D4 as (-> & Hx2 & I2 & so2 & Hs2 & Ho2). cbn [Z.ltb Z.compare].
  assert (Hs1' : sockets s2 !! x1 = Some so1) by (rewrite D3; [done|clear; set_solver]). unfold with_ops. rewrite Hs1'. change (Some so1 ≫= so_ops) with (so_ops so1). destruct (so_ops so1) as [o|] eqn:Eo; [|done]. destruct (ops_socketpair o (sy_proto s2) x1 x2) as [err p]. unfold on_proto. cbn [fst snd]. set (s3 := s2 <| sy_proto := p |>). assert (I3 : inv B R ({[x2]} ∪ ({[x1]} ∪ K)) X s3) by (by apply (quiet_inv _ _ _ _ s2)). case_if_as He.
  - destruct (release_two B R K X s3 x1 x2 Hx1 Hx2 I3) as (J1 & J2 & J3). apply result_same; [by apply Z.ltb_lt|done|rewrite J2; cbn; by rewrite D1, C1|intros y; rewrite J3; cbn; by rewrite D2, C2].
  - pose proof (pair_files_ok B R K X s3 x1 x2 so1 so2 (Z.land type (Z.lnot SOCK_TYPE_MASK)) vec I3 Hx1 Hx2 Hs1' ltac:(congruence) Hs2 Ho2) as Hp. destruct (pair_files s3 x1 x2 _ vec) as [r s4]. eapply result_base; [| |exact Hp]; [cbn; by rewrite D1, C1|intros y; cbn; by rewrite D2, C2].
Qed.

(** Option memory is given back. *)
Lemma uncharged s x n s' : quiet (charge s x n) s' -> quiet s (sock_kfree_s s' x n).
Proof using L. intros [Q1 Q2 Q3 Q4 Q5 Q6 Q7]. rewrite kfree_spec. split; try done. intros y. cbn. unfold add_at. rewrite Q6. cbn. unfold add_at. case_decide; lia. Qed.
Lemma ready_quiet s s' x f : quiet s s' -> ready s x f -> ready s' x f.
Proof using Type. intros Hq. unfold ready. by rewrite (qu_socks _ _ Hq). Qed.
Lemma ready_charge s x n y f : ready s y f -> ready (charge s x n) y f.
Proof using Type. done. Qed.
Lemma charged_quiet (big : bool) s x n s1 s2 : (if big then sock_kmalloc s x n else Some s) = Some s1 -> quiet s1 s2 -> quiet s (if big then sock_kfree_s s2 x n else s2).
Proof using L. destruct big; [intros E1 Hq; apply kmalloc_spec in E1; subst s1; by apply uncharged|intros [= ->]; done]. Qed.
Lemma charged_ready (big : bool) s x n s1 y f : (if big then sock_kmalloc s x n else Some s) = Some s1 -> ready s y f -> ready s1 y f.
Proof using L. destruct big; [intros E1; apply kmalloc_spec in E1; by subst s1|by intros [= ->]]. Qed.
Lemma sendmsg_nosec_quiet s x f (m : kmsg) n : ready s x f -> quiet s (sock_sendmsg_nosec s x m n).2.
Proof using Type. intros Hr. apply (with_ops_quiet s x f); [done|]. intros o. apply quiet_proto. Qed.
Lemma sendmsg_quiet s x f (m : kmsg) n : ready s x f -> quiet s (sock_sendmsg s x m n).2.
Proof using Type. intros Hr. unfold sock_sendmsg. case_if_as Hc; [apply quiet_refl|by eapply sendmsg_nosec_quiet]. Qed.
Lemma send_it_quiet s x f (m : kmsg) n used : ready s x f -> quiet s (send_it s x m n used).2.
Proof using Type.
  intros Hr. unfold send_it. cbn zeta. case_if_as Hc.
  - pose proof (sendmsg_nosec_quiet s x f m n Hr) as Hq. by destruct (sock_sendmsg_nosec s x m n).
  - pose proof (sendmsg_quiet s x f m n Hr) as Hq. by destruct (sock_sendmsg s x m n).
Qed.
Lemma send_control_ok s x f h : ready s x f -> let '(ctl, charged, s1) := send_control s x h in ready s1 x f /\ forall s2, quiet s1 s2 -> quiet s (if charged then sock_kfree_s s2 x (msg_controllen h) else s2).
Proof using L.
  intros Hr. unfold send_control. case_if_as Hz; [by split|]. destruct (sizeof_ctl <? msg_controllen h) eqn:Eb.
  - destruct (sock_kmalloc s x (msg_controllen h)) as [s1|] eqn:Ek; [|by split]. pose proof (charged_quiet true s x (msg_controllen h) s1) as Hq. pose proof (charged_ready true s x (msg_controllen h) s1 x f Ek Hr) as Hr1. destruct (copy_from_user _ _ _); split; [done|intros s2; by apply Hq|done|intros s2; by apply Hq].
  - destruct (copy_from_user _ _ _); by split.
Qed.
Lemma sys_sendmsg_quiet s x f msg flags used : ready s x f -> quiet s (sys_sendmsg_ s x msg flags used).2.
Proof using L.
  intros Hr. unfold sys_sendmsg_. destruct (get_msghdr (sy_user s) msg) as [h|]; [|apply quiet_refl]. case_if_as Hc1; [apply quiet_refl|]. cbn zeta. set (big := UIO_FASTIOV <? msg_iovlen h). clearbody big. destruct (if big then sock_kmalloc s x (msg_iovlen h * sizeof_iovec) else Some s) as [s1|] eqn:Eb; [|apply quiet_refl]. pose proof (charged_ready _ _ _ _ _ _ _ Eb Hr) as Hr1.
  set (body := let '(err, name, iov) := verify_iovec (sy_user s1) h false in _). assert (Hq : quiet s1 body.2); [|destruct body as [[err used'] s2]; by eapply charged_quiet]. unfold body. clear body. destruct (verify_iovec (sy_user s1) h false) as [[err name] iov]. case_if_as Hc2; [apply quiet_refl|]. case_if_as Hc3; [apply quiet_refl|].
  pose proof (send_control_ok s1 x f h Hr1) as Hs. destruct (send_control s1 x h) as [[ctl charged] s2]. destruct Hs as [Hr2 Hs]. destruct ctl as [e|ctl]; [apply Hs, quiet_refl|]. pose proof (send_it_quiet s2 x f (mk_kmsg name (msg_namelen h) iov ctl (dontwait s2 x flags)) err used Hr2) as Hq. destruct (send_it s2 x _ err used) as [[err' used'] s3]. by apply Hs.
Qed.
Lemma sendmmsg_quiet n : forall s x f entry flags used, ready s x f -> quiet s (sendmmsg_loop n s x entry flags used).2.
Proof using L.
  induction n as [|n IH]; intros s x f entry flags used Hr; cbn [sendmmsg_loop]; [apply quiet_refl|]. pose proof (sys_sendmsg_quiet s x f entry flags used Hr) as Hq. destruct (sys_sendmsg_ s x entry flags used) as [[err used'] s1]. cbn in Hq. case_if_as Hc; [done|]. destruct (put_user _ _ _) as [u|]; [|done]. match goal with |- context [sendmmsg_loop n ?a x ?b ?c ?d] => pose proof (IH a x f b c d (ready_quiet _ _ _ _ Hq Hr)) as Hq2; destruct (sendmmsg_loop n a x b c d) as [[k err2] s2] end. cbn in *. eapply quiet_trans; [exact Hq|]. eapply quiet_trans; [apply quiet_user|exact Hq2].
Qed.
Lemma recvmsg_nosec_quiet s x f iov n flags mf : ready s x f -> quiet s (sock_recvmsg_nosec s x iov n flags mf).2.
Proof using Type.
  intros (so & S1 & S2 & S3). unfold sock_recvmsg_nosec. rewrite S1. change (Some so ≫= so_ops) with (so_ops so). destruct (so_ops so) as [o|]; [|done]. destruct (ops_recvmsg _ _ _ _ _ _ _ _) as [[r p] u]. by split.
Qed.
Lemma recvmsg_quiet s x f iov n flags mf : ready s x f -> quiet s (sock_recvmsg s x iov n flags mf).2.
Proof using Type. intros Hr. unfold sock_recvmsg. case_if_as Hc; [apply quiet_refl|by eapply recvmsg_nosec_quiet]. Qed.
Lemma recv_report_quiet s fs a r : quiet s (recv_report s fs a r).2.
Proof using Type.
  unfold recv_report. destruct (if a =? 0 then _ else _) as [err u]. case_if_as Hc; [apply quiet_user|]. destruct (put_user _ _ _) as [u1|]; [|apply quiet_user]. cbn zeta. destruct (put_user u1 _ _) as [u2|]; by split.
Qed.
Lemma sys_recvmsg_quiet s x f msg flags nosec : ready s x f -> quiet s (sys_recvmsg_ s x msg flags nosec).2.
Proof using L.
  intros Hr. unfold sys_recvmsg_. destruct (get_msghdr (sy_user s) msg) as [h|]; [|apply quiet_refl]. case_if_as Hc1; [apply quiet_refl|]. cbn zeta. set (big := UIO_FASTIOV <? msg_iovlen h). clearbody big. destruct (if big then sock_kmalloc s x (msg_iovlen h * sizeof_iovec) else Some s) as [s1|] eqn:Eb; [|apply quiet_refl]. pose proof (charged_ready _ _ _ _ _ _ _ Eb Hr) as Hr1.
  set (body := let '(err, _, iov) := verify_iovec (sy_user s1) h true in _). assert (Hq : quiet s1 body.2); [|destruct body as [[err mf] s2]; by eapply charged_quiet]. unfold body. clear body. destruct (verify_iovec (sy_user s1) h true) as [[err name] iov]. case_if_as Hc2; [apply quiet_refl|].
  assert (Hq : quiet s1 ((if nosec then sock_recvmsg_nosec else sock_recvmsg) s1 x iov err (dontwait s1 x flags) (Z.land flags MSG_CMSG_CLOEXEC)).2) by (destruct nosec; [by eapply recvmsg_nosec_quiet|by eapply recvmsg_quiet]). destruct ((if nosec then _ else _) s1 x iov err _ _) as [r s2]. cbn in Hq. case_if_as Hc3; [done|]. pose proof (recv_report_quiet s2 (msg_field msg) (msg_name h) r) as Hq2. destruct (recv_report s2 _ _ r) as [e s3]. by eapply quiet_trans.
Qed.
Lemma recvmmsg_quiet n : forall s x f entry flags first et tl, ready s x f -> quiet s (recvmmsg_loop n s x entry flags first et tl).2.
Proof using L.
  induction n as [|n IH]; intros s x f entry flags first et tl Hr; cbn [recvmmsg_loop]; [apply quiet_refl|]. pose proof (sys_recvmsg_quiet s x f entry (Z.land flags (Z.lnot MSG_WAITFORONE)) (negb first) Hr) as Hq. destruct (sys_recvmsg_ s x entry _ _) as [[err mf] s1]. cbn in Hq. case_if_as Hc; [done|]. destruct (put_user _ _ _) as [u|]; [|done]. cbn zeta. case_if_as Hs; [eapply quiet_trans; [exact Hq|apply quiet_user]|].
  match goal with |- context [recvmmsg_loop n ?a x ?b ?c false et ?d] => pose proof (IH a x f b c false et d (ready_quiet _ _ _ _ Hq Hr)) as Hq2; destruct (recvmmsg_loop n a x b c false et d) as [[[k e] l] s2] end. cbn in *. eapply quiet_trans; [exact Hq|]. eapply quiet_trans; [apply quiet_user|exact Hq2].
Qed.

(** ** No call leaks *)
(** While a descriptor keeps it open, dropping a hold frees nothing. *)
Lemma drop_open B R K X s fd f : inv B R K X s -> 0 < X f -> fdt s !! fd = Some (FdOpen f) -> sockets (drop_file s f) = sockets s.
Proof using Type.
  intros Hi HX Hfd. destruct (iv_open _ _ _ _ _ Hi fd f Hfd) as [fl Hf]. unfold drop_file. rewrite Hf. destruct (iv_count _ _ _ _ _ Hi f fl Hf) as [E1 _]. pose proof (cnt_pos (is_open f) _ fd (FdOpen f) Hfd ltac:(by apply bool_decide_eq_true_2)) as Hc. by rewrite (proj2 (Z.eqb_neq _ _)) by lia.
Qed.
Lemma finish_ok B R K X s0 s1 s x f fd (needed : bool) k err : inv B R K X s0 -> fdt s1 = fdt s0 -> omem s1 = omem s0 -> ready s1 x f -> fdt s1 !! fd = Some (FdOpen f) -> inv B R K (if needed then add_at X f 1 else X) s1 -> quiet s1 s -> let '(r, s') := recvmmsg_finish s x needed k err in result B R K X s0 0 r s'.
Proof using L.
  intros Hi Ef Eo Hr Hfd I1 Hq. pose proof (ready_quiet _ _ _ _ Hq Hr) as Hr2. pose proof (quiet_inv _ _ _ _ _ _ Hq I1) as I2. assert (Hres : forall r, result B R K X s0 0 r (put_sock s x needed)) by (intros r; eapply (put_sock_ok B R K X s0 0 r s1); [done..|by apply quiet_result]).
  unfold recvmmsg_finish. cbn zeta. set (s2 := put_sock s x needed) in *. case_if_as H1; [apply Hres|]. case_if_as H2; [apply Hres|]. case_if_as H3; [apply Hres|].
  assert (Hs : sockets s2 = sockets s). { destruct Hr2 as (so & S1 & S2 & _). unfold s2, put_sock. rewrite S1. change (Some so ≫= so_file) with (so_file so). rewrite S2, fput_light_spec. destruct needed; [|done]. apply (drop_open B R K _ s fd f I2); [rewrite add_at_eq; pose proof (proj1 (iv_hold _ _ _ _ _ Hi f)); lia|by rewrite (qu_fdt _ _ Hq)]. }
  destruct Hr2 as (so & S1 & _). rewrite Hs, S1. pose proof (Hres (Z.of_nat k)) as [R1 R2 R3 R4]. split; [by apply (quiet_inv _ _ _ _ s2)|done|done|done].
Qed.
Lemma sys_recvmmsg_ok B R K X s fd mmsg vlen flags t : inv B R K X s -> let '(r, _, s') := sys_recvmmsg_ s fd mmsg vlen flags t in result B R K X s 0 r s'.
Proof using L.
  intros Hi. unfold sys_recvmmsg_. cbn zeta. destruct (match t with Some _ => _ | None => _ end) as [[et|]|] eqn:Et; [|by apply result_refl|].
  all: pose proof (lookup_ok B R K X s fd Hi) as Hl; destruct (sockfd_lookup_light s fd) as [[err [[x needed]|]] s1]; destruct Hl as (E1 & E2 & Hl); [|destruct Hl as [He I1]; apply result_same; [done|done|done|by rewrite E2]].
  all: destruct Hl as (f & Hfd & Hr & _ & I1); destruct (sock_error (sy_proto s1) x) as [e p]; cbn zeta; match goal with |- context [if negb (e =? 0) then ?a else ?b] => set (lp := if negb (e =? 0) then a else b) end.
  all: assert (Hq : quiet s1 lp.2) by (unfold lp; destruct (negb (e =? 0)); [apply quiet_proto|eapply quiet_trans; [apply (quiet_proto s1 p)|by apply (recvmmsg_quiet _ _ _ f)]]); destruct lp as [[[k er] tl] s2]; cbn in Hq.
  all: pose proof (finish_ok B R K X s s1 s2 x f fd needed k er Hi E1 E2 Hr ltac:(by rewrite E1) I1 Hq) as Hfin; by destruct (recvmmsg_finish s2 x needed k er).
Qed.
Definition new_fds (c : call) : nat := match c with Socket _ _ _ | Accept4 _ _ _ _ => 1 | Socketpair _ _ _ _ => 2 | _ => 0 end.
Lemma recvmmsg_ok B R K X s fd mmsg vlen flags timeout : inv B R K X s -> let '(r, s') := sys_recvmmsg s fd mmsg vlen flags timeout in result B R K X s 0 r s'.
Proof using L.
  intros Hi. unfold sys_recvmmsg. case_if_as Ht; [pose proof (sys_recvmmsg_ok B R K X s fd mmsg vlen flags None Hi) as Hr; by destruct (sys_recvmmsg_ s fd mmsg vlen flags None) as [[r l] s']|]. destruct (get_timespec (sy_user s) timeout) as [t|]; [|by apply result_refl]. pose proof (sys_recvmmsg_ok B R K X s fd mmsg vlen flags (Some t) Hi) as Hr. destruct (sys_recvmmsg_ s fd mmsg vlen flags (Some t)) as [[r l] s']. case_if_as Hp; [|done].
  destruct Hr as [R1 R2 R3 R4]. assert (Hc : size (fdt s') = size (fdt s)) by (rewrite R4; destruct (r <? 0); lia). destruct (put_timespec _ _ _) as [u|]; (split; [by apply (quiet_inv _ _ _ _ s')|done|done|]); change (fdt (s' <| sy_user := u |>)) with (fdt s') || idtac; rewrite Hc; by destruct (_ <? 0)%Z; rewrite Nat.add_0_r.
Qed.
(** A body asks the security module and calls the protocol. *)
Ltac quiet_go f :=
  repeat first
    [ apply quiet_refl | apply quiet_proto | apply quiet_user
    | match goal with
      | |- quiet _ (snd (if ?b then _ else _)) => destruct b
      | |- quiet _ (snd (with_ops _ _ _)) => apply (with_ops_quiet _ _ f); [assumption|intros ?]
      | |- quiet _ (snd (on_both _ ?r)) => destruct r as [[? ?] ?]; by split
      | |- quiet _ (snd (let '(_, _) := ?r in _)) => destruct r
      end ].
(** C27. A system call on sockets leaks or loses no reference, on success and on every error, when no other
    thread closes the descriptors meanwhile and the messages of the protocol carry no descriptors
    (SCM_RIGHTS).  When every file is counted by
    its descriptors and the holds [X], every module by its sockets and [B] other users, and every socket
    has its file or belongs to the kernel ([K]), then all that holds again after the call, whatever
    fails on the way: no descriptor stays reserved, no file, socket, module reference or option memory
    is left behind, and no NULL pointer is used.  No descriptor is lost or redirected; an error adds
    none, and socket() and accept() add one, socketpair() two. *)
Theorem syscall_no_leak B K X s c : inv B ∅ K X s -> let '(r, s') := do_call s c in result B ∅ K X s (new_fds c) r s'.
Proof using L.
  intros Hi. destruct c; cbn [do_call new_fds].
  1: by apply socket_ok.
  4: by apply accept_ok.
  6: by apply socketpair_ok.
  13: by apply recvmmsg_ok.
  all: try (unfold sys_setsockopt; case_if_as Hl; [by apply result_refl|]).
  all: apply with_sockfd_quiet; [done|]; intros s1 x f Hr; cbn zeta.
  1-5, 8-10: unfold name_to_user; quiet_go f.
  - case_match. case_if_as He; [apply quiet_refl|]. by apply (sendmsg_quiet _ _ f).
  - set (q := if INT_MAX <? size then INT_MAX else size). pose proof (recvmsg_quiet s1 x f [(buf, q)] q (dontwait s1 x flags) 0 Hr) as Hq. destruct (sock_recvmsg s1 x _ _ _ _) as [r s2]. cbn in Hq. case_if_as Ha; [|done]. destruct (move_addr_to_user _ _ _ _) as [e u]. eapply quiet_trans; [exact Hq|apply quiet_user].
  - pose proof (sys_sendmsg_quiet s1 x f msg flags None Hr) as Hq. by destruct (sys_sendmsg_ s1 x msg flags None) as [[e u] s2].
  - pose proof (sys_recvmsg_quiet s1 x f msg flags false Hr) as Hq. by destruct (sys_recvmsg_ s1 x msg flags false) as [[e u] s2].
  - match goal with |- context [sendmmsg_loop ?a s1 x ?b ?c ?d] => pose proof (sendmmsg_quiet a s1 x f b c d Hr) as Hq; destruct (sendmmsg_loop a s1 x b c d) as [[k e] s2] end. exact Hq.
Qed.

(** The same for a connection that the kernel accepts for itself: the new socket is one of the
    kernel's, with its module held, or there is none. *)
Lemma kernel_accept_ok B R K X s x so fam type protocol flags : inv B R K X s -> sockets s !! x = Some so -> so_ops so <> None ->
  let '(err, r, s') := kernel_accept s x fam type protocol flags in fdt s' = fdt s /\ omem s' = omem s /\ match r with None => err < 0 /\ inv B R K X s' | Some y => 0 <= err /\ y ∉ K /\ inv B R ({[y]} ∪ K) X s' end.
Proof using L.
  intros Hi Hs Ho. unfold kernel_accept, sock_create_lite. cbn zeta. pose proof (hook_neg (HCreate fam type protocol true)) as Hh. destruct (Z.eqb_spec (security (HCreate fam type protocol true)) 0) as [E0|E0]; cbn [negb]; [|split_and!; [done..|lia|done]]. destruct (sock_alloc s) as [[y s1]|] eqn:Ea; [|by split_and!]. destruct (inv_alloc _ _ _ _ _ _ _ Hi Ea) as (I1 & Hy & Hs1 & Ef1 & Eo1 & Ek1).
  assert (Hxy : x <> y) by (intros ->; unfold sock_alloc in Ea; destruct (new_inode_pseudo s) eqn:En; [|done]; injection Ea as -> _; apply inode_fresh in En; congruence). set (s2 := upd_so s1 y _). assert (I2 : inv B R ({[y]} ∪ K) X s2) by (eapply inv_ext; [apply (inv_upd _ _ _ _ _ y _ (fun so => so <| so_type := type |>) I1 ltac:(set_solver) Hs1 eq_refl)|intros j; cbn; lia|done..]). assert (Hs2 : sockets s2 !! y = Some (mk_socket type None None)) by (unfold s2; cbn; by rewrite lookup_alter_eq, Hs1).
  pose proof (hook_neg (HPostCreate y fam type protocol true)) as Hh2. destruct (Z.eqb_spec (security (HPostCreate y fam type protocol true)) 0) as [E1|E1]; cbn [negb]; [|destruct (release_new B R K X s2 y I2 Hy) as [U1 U2 U3 _]; split_and!; [by rewrite U2|by rewrite U3|lia|done]].
  assert (Hx2 : sockets s2 !! x = Some so) by (unfold s2; cbn; by rewrite lookup_alter_ne, Ek1). rewrite Hx2. change (Some so ≫= so_ops) with (so_ops so). destruct (so_ops so) as [o|] eqn:Eo; [|done]. destruct (ops_accept o (sy_proto s2) x y flags) as [err p]. set (s3 := s2 <| sy_proto := p |>). assert (I3 : inv B R ({[y]} ∪ K) X s3) by (by apply (quiet_inv _ _ _ _ s2)). destruct (Z.ltb_spec err 0) as [He|He].
  - destruct (release_new B R K X s3 y I3 Hy) as [U1 U2 U3 _]. split_and!; [by rewrite U2|by rewrite U3|done|done].
  - rewrite module_get_spec. split_and!; [done|done|done|done|]. eapply inv_ext; [apply inv_mod, (inv_upd _ _ _ _ s3 y _ (fun so => so <| so_ops := Some o |>) I3 ltac:(set_solver) Hs2 eq_refl)|intros j; unfold add_at, owned; cbn; repeat case_decide; repeat case_bool_decide; cbn; congruence || lia|done..].
Qed.

(** ** The security module is asked *)

(** verify_iovec() copies the name of a message into the kernel, where there is one. *)
Class IovecLaws : Prop := {
  verify_name u h err name iov : verify_iovec u h false = (err, name, iov) -> 0 <= err ->
    match name with Some a => Z.of_nat (length a) = msg_namelen h /\ 0 < msg_namelen h <= sizeof_sockaddr_storage | None => msg_namelen h = 0 end;
}.
Context {IL : IovecLaws}.
(** The security module has let [x] send to the address of [m]. *)
Definition approved x (m : kmsg) : Prop := exists (m' : kmsg) n, km_name m' = km_name m /\ km_namelen m' = km_namelen m /\ security (HSendmsg x m' n) = 0.
Definition used_ok x (used : option used_address) : Prop :=
  match used with
  | None => True
  | Some u => ua_len u = UINT_MAX \/ ua_len u = 0 \/ Z.of_nat (length (ua_name u)) = ua_len u /\ exists (m : kmsg) n, km_name m = Some (ua_name u) /\ km_namelen m = ua_len u /\ security (HSendmsg x m n) = 0
  end.
Section Approved.
Variable I : P -> Prop.
Hypothesis send_I : forall o p u x (m : kmsg) n, approved x m -> I p -> I (ops_sendmsg o p u x m n).2.
Lemma nosec_I s x (m : kmsg) n : approved x m -> I (sy_proto s) -> I (sy_proto (sock_sendmsg_nosec s x m n).2).
Proof using send_I. intros Ha Hp. unfold sock_sendmsg_nosec, with_ops. destruct (sockets s !! x ≫= so_ops) as [o|]; [by apply send_I|done]. Qed.
Lemma send_it_I s x (m : kmsg) n used : match km_name m with Some a => Z.of_nat (length a) = km_namelen m /\ 0 < km_namelen m <= sizeof_sockaddr_storage | None => km_namelen m = 0 end ->
  used_ok x used -> I (sy_proto s) -> let '(err, used', s') := send_it s x m n used in used_ok x used' /\ I (sy_proto s').
Proof using send_I L.
  intros Hm Hu Hp. unfold send_it. set (same := match used with Some u => _ | None => _ end). destruct same eqn:Es.
  - subst same. destruct used as [u|]; [|done]. destruct (km_name m) as [a|] eqn:Em; [|done]. apply andb_true_iff in Es as [E1%Z.eqb_eq E2%bool_decide_eq_true]. destruct Hm as [M1 M2]. unfold used_ok in Hu. destruct Hu as [Hu|[Hu|(U1 & m' & n' & U2 & U3 & U4)]]; [unfold UINT_MAX, sizeof_sockaddr_storage in *; lia|lia|].
    assert (Ha : approved x m) by (exists m', n'; rewrite Em; split_and!; [|lia|done]; rewrite U2; f_equal; rewrite !take_ge in E2 by lia; done). pose proof (nosec_I s x m n Ha Hp) as Hn. destruct (sock_sendmsg_nosec s x m n) as [err s']. split; [|done]. right. right. split; [done|]. by exists m', n'.
  - unfold sock_sendmsg. cbn zeta. pose proof (hook_neg (HSendmsg x m n)) as Hh. destruct (Z.eqb_spec (security (HSendmsg x m n)) 0) as [E0|E0]; cbn [negb].
    + assert (Ha : approved x m) by (by exists m, n). pose proof (nosec_I s x m n Ha Hp) as Hn. destruct (sock_sendmsg_nosec s x m n) as [err s']. split; [|done]. destruct used as [u|]; [|done]. case_if_as He; [|done]. unfold used_ok. cbn. destruct (km_name m) as [a|] eqn:Em; [|by right; left]. right. right. split; [by destruct Hm|]. by exists m, n.
    + split; [|done]. destruct used as [u|]; [|done]. case_if_as He; [apply Z.leb_le in He; lia|done].
Qed.
Lemma sendmsg_I s x msg flags used : used_ok x used -> I (sy_proto s) -> let '(err, used', s') := sys_sendmsg_ s x msg flags used in used_ok x used' /\ I (sy_proto s').
Proof using send_I L IL.
  intros Hu Hp. unfold sys_sendmsg_. destruct (get_msghdr (sy_user s) msg) as [h|]; [|done]. case_if_as Hc1; [done|]. cbn zeta. set (big := UIO_FASTIOV <? msg_iovlen h). clearbody big. destruct (if big then sock_kmalloc s x (msg_iovlen h * sizeof_iovec) else Some s) as [s1|] eqn:Eb; [|done]. assert (Hp1 : I (sy_proto s1)) by (destruct big; [apply kmalloc_spec in Eb; by subst s1|by injection Eb as <-]).
  set (body := let '(err, name, iov) := verify_iovec (sy_user s1) h false in _). assert (Hb : used_ok x body.1.2 /\ I (sy_proto body.2)); [|destruct body as [[err used'] s2]; destruct Hb; destruct big; [rewrite kfree_spec|]; done]. unfold body. clear body. destruct (verify_iovec (sy_user s1) h false) as [[err name] iov] eqn:Ev. destruct (Z.ltb_spec err 0) as [He|He]; [done|]. pose proof (verify_name _ _ _ _ _ Ev He) as Hn. case_if_as Hc3; [done|].
  destruct (send_control s1 x h) as [[ctl charged] s2] eqn:Ec. assert (Hp2 : I (sy_proto s2)). { revert Ec. unfold send_control. case_if_as Hz; [by intros [= _ _ <-]|]. case_if_as Hs; [|destruct (copy_from_user _ _ _); by intros [= _ _ <-]]. destruct (sock_kmalloc s1 x _) as [s1'|] eqn:Ek; [|by intros [= _ _ <-]]. apply kmalloc_spec in Ek. subst s1'. destruct (copy_from_user _ _ _); by intros [= _ _ <-]. }
  destruct ctl as [e|ctl]; [cbn; split; [done|]; destruct charged; [by rewrite kfree_spec|done]|]. pose proof (send_it_I s2 x (mk_kmsg name (msg_namelen h) iov ctl (dontwait s2 x flags)) err used Hn Hu Hp2) as Hs. destruct (send_it s2 x _ err used) as [[err' used'] s3]. destruct Hs as [S1 S2]. cbn. split; [done|]. destruct charged; [by rewrite kfree_spec|done].
Qed.
Lemma sendmmsg_I n : forall s x entry flags used, used_ok x used -> I (sy_proto s) -> I (sy_proto (sendmmsg_loop n s x entry flags used).2).
Proof using send_I L IL.
  induction n as [|n IH]; intros s x entry flags used Hu Hp; cbn [sendmmsg_loop]; [done|]. pose proof (sendmsg_I s x entry flags used Hu Hp) as Hs. destruct (sys_sendmsg_ s x entry flags used) as [[err used'] s1]. destruct Hs as [S1 S2]. case_if_as Hc; [done|]. destruct (put_user _ _ _) as [u|]; [|done]. match goal with |- context [sendmmsg_loop n ?a x ?b ?c ?d] => pose proof (IH a x b c d S1 S2) as Hq; destruct (sendmmsg_loop n a x b c d) as [[k err2] s2] end. exact Hq.
Qed.
Hypothesis release_I : forall o p x, I p -> I (ops_release o p x).
Lemma drop_I s f : I (sy_proto s) -> I (sy_proto (drop_file s f)).
Proof using release_I L.
  intros Hp. unfold drop_file. destruct (files s !! f) as [fl|]; [|done]. case_if_as Hc; [|done]. assert (Hs : I (sy_proto (sock_close s (f_sock fl)))); [|by destruct (f_sock fl)]. destruct (f_sock fl) as [x|]; [|done]. cbn. unfold sock_release. destruct (sockets s !! x) as [so|]; [|done]. cbn zeta. assert (H1 : I (sy_proto (match so_ops so with Some o => module_put (upd_so (s <| sy_proto := ops_release o (sy_proto s) x |>) x (fun so => so <| so_ops := None |>)) (ops_owner o) | None => s end))) by (destruct (so_ops so) as [o|]; [rewrite module_put_spec; by apply release_I|done]). by destruct (so_file so).
Qed.
Lemma with_sockfd_I s fd body : I (sy_proto s) -> (forall s x, I (sy_proto s) -> I (sy_proto (body s x).2)) -> I (sy_proto (with_sockfd s fd body).2).
Proof using release_I L.
  intros Hp Hb. unfold with_sockfd, sockfd_lookup_light. destruct (fget_light_spec s fd) as [needed ->]. destruct (fdt s !! fd) as [[|f]|]; [done| |done]. set (s1 := if needed then hold_file s f else s). assert (H1 : I (sy_proto s1)) by (unfold s1; by destruct needed). clearbody s1. destruct (sock_from_file s1 f) as [x|]; [|cbn; rewrite fput_light_spec; destruct needed; [by apply drop_I|done]]. specialize (Hb s1 x H1). destruct (body s1 x) as [err s2]. cbn in *. unfold put_sock. destruct (sockets s2 !! x ≫= so_file) as [f'|]; [|done]. rewrite fput_light_spec. destruct needed; [by apply drop_I|done].
Qed.
End Approved.
Definition is_send (c : call) : bool := match c with Sendto _ _ _ _ _ _ | Sendmsg _ _ _ | Sendmmsg _ _ _ _ => true | _ => false end.
(** C28. A protocol is only asked to send to addresses that the security module has approved for the
    socket: whatever property of its state the protocols keep when they send to approved addresses, and
    when they release a socket, send(), sendto(), sendmsg() and sendmmsg() keep, also where sendmmsg()
    does not ask again because the address is that of an earlier message. *)
Theorem sends_approved (I : P -> Prop) s c : is_send c = true -> (forall o p u x (m : kmsg) n, approved x m -> I p -> I (ops_sendmsg o p u x m n).2) -> (forall o p x, I p -> I (ops_release o p x)) ->
  I (sy_proto s) -> I (sy_proto (do_call s c).2).
Proof using L IL.
  intros Hc Hs Hr Hp. destruct c; try discriminate; unfold do_call, sys_sendto, sys_sendmsg, sys_sendmmsg; cbn zeta; apply (with_sockfd_I I Hr); try done; intros s1 x Hp1.
  - destruct (if addr =? 0 then _ else _) as [err a] eqn:Ea. case_if_as He; [done|]. unfold sock_sendmsg. cbn zeta. match goal with |- context [security (HSendmsg x ?m ?n)] => set (msg := m); pose proof (nosec_I I Hs s1 x msg n) as Hn; destruct (Z.eqb_spec (security (HSendmsg x msg n)) 0) as [E0|E0] end; cbn [negb]; [apply Hn; [by eexists msg, _|done]|done].
  - pose proof (sendmsg_I I Hs s1 x msg flags None Logic.I Hp1) as Hx. destruct (sys_sendmsg_ s1 x msg flags None) as [[err u] s2]. by destruct Hx.
  - match goal with |- context [sendmmsg_loop ?n s1 x ?b ?c ?d] => pose proof (sendmmsg_I I Hs n s1 x b c d ltac:(by left) Hp1) as Hx; destruct (sendmmsg_loop n s1 x b c d) as [[k err2] s2] end. exact Hx.
Qed.

(** ** The multiplexer *)
Definition call_nr (c : call) : Z :=
  match c with
  | Socket _ _ _ => 1 | Bind _ _ _ => 2 | Connect _ _ _ => 3 | Listen _ _ => 4 | Accept4 _ _ _ _ => 18 | Getsockname _ _ _ => 6 | Getpeername _ _ _ => 7 | Socketpair _ _ _ _ => 8
  | Sendto _ _ _ _ _ _ => 11 | Recvfrom _ _ _ _ _ _ => 12 | Shutdown _ _ => 13 | Setsockopt _ _ _ _ _ => 14 | Getsockopt _ _ _ _ _ => 15 | Sendmsg _ _ _ => 16 | Recvmsg _ _ _ => 17
  | Recvmmsg _ _ _ _ _ => 19 | Sendmmsg _ _ _ _ => 20
  end.
(** The arguments with their types: pointers and sizes are words, the others are int or unsigned. *)
Inductive arg := Int (z : Z) | Uint (z : Z) | Word (z : Z).
Definition call_args (c : call) : list arg :=
  match c with
  | Socket a b d => [Int a; Int b; Int d] | Bind a b d => [Int a; Word b; Int d] | Connect a b d => [Int a; Word b; Int d] | Listen a b => [Int a; Int b]
  | Accept4 a b d e => [Int a; Word b; Word d; Int e] | Getsockname a b d => [Int a; Word b; Word d] | Getpeername a b d => [Int a; Word b; Word d]
  | Socketpair a b d e => [Int a; Int b; Int d; Word e] | Sendto a b d e g h => [Int a; Word b; Word d; Uint e; Word g; Int h] | Recvfrom a b d e g h => [Int a; Word b; Word d; Uint e; Word g; Word h]
  | Shutdown a b => [Int a; Int b] | Setsockopt a b d e g => [Int a; Int b; Int d; Word e; Int g] | Getsockopt a b d e g => [Int a; Int b; Int d; Word e; Word g]
  | Sendmsg a b d => [Int a; Word b; Uint d] | Recvmsg a b d => [Int a; Word b; Uint d] | Recvmmsg a b d e g => [Int a; Word b; Uint d; Uint e; Word g] | Sendmmsg a b d e => [Int a; Word b; Uint d; Uint e]
  end.
Definition arg_ok (a : arg) : Prop := match a with Int z => - 2 ^ 31 <= z < 2 ^ 31 | Uint z => 0 <= z < 2 ^ 32 | Word z => 0 <= z < 2 ^ 64 end.
Definition arg_word (a : arg) : Z := match a with Int z => u64 z | Uint z => z | Word z => z end.
(** A word in memory, least significant byte first. *)
Fixpoint le_bytes (n : nat) (w : Z) : list Z := match n with O => [] | S n => w mod 256 :: le_bytes n (w / 256) end.
Lemma le_bytes_len n : forall w, length (le_bytes n w) = n.
Proof using Type. induction n as [|n IH]; intros w; cbn; [done|]. by rewrite IH. Qed.
Lemma le_bytes_val n : forall w, 0 <= w < 256 ^ Z.of_nat n -> foldr (fun b acc => b + 256 * acc) 0 (le_bytes n w) = w.
Proof using Type.
  induction n as [|n IH]; intros w Hw; [cbn in *; lia|]. cbn [le_bytes foldr]. rewrite Nat2Z.inj_succ, Z.pow_succ_r in Hw by lia. rewrite IH; [pose proof (Z.div_mod w 256 ltac:(lia)); lia|]. split; [apply Z.div_pos; lia|apply Z.div_lt_upper_bound; lia].
Qed.
Lemma long_at_words ws : forall i w, Forall (fun w => 0 <= w < 2 ^ 64) ws -> ws !! i = Some w -> long_at (concat (le_bytes 8 <$> ws)) i = w.
Proof using Type.
  induction ws as [|w0 ws IH]; intros [|i] w Hw Hi; try done; apply Forall_cons in Hw as [Hw0 Hw].
  - injection Hi as <-. unfold long_at. rewrite Nat.mul_0_r, drop_0. cbn [fmap list_fmap concat]. rewrite take_app_le by (by rewrite le_bytes_len). rewrite take_ge by (by rewrite le_bytes_len). by apply le_bytes_val.
  - rewrite <- (IH i w Hw Hi). unfold long_at. cbn [fmap list_fmap concat]. rewrite (drop_app_ge _ _ (8 * S i)) by (rewrite le_bytes_len; lia). rewrite le_bytes_len. by replace (8 * S i - 8)%nat with (8 * i)%nat by lia.
Qed.
Lemma arg_word_range a : arg_ok a -> 0 <= arg_word a < 2 ^ 64.
Proof using Type. destruct a; cbn; intros; unfold u64; [apply Z.mod_pos_bound|..]; lia. Qed.
Lemma int_word z : - 2 ^ 31 <= z < 2 ^ 31 -> s32 (u64 z) = z.
Proof using Type. intros Hz. unfold s32, u64. replace ((z mod 2 ^ 64 + 2 ^ 31) mod 2 ^ 32) with ((z + 2 ^ 31) mod 2 ^ 32); [rewrite Z.mod_small; lia|]. rewrite <- (Z.add_mod_idemp_l (z mod 2 ^ 64)) by lia. rewrite <- Znumtheory.Zmod_div_mod by (lia || by exists (2 ^ 32)). by rewrite Z.add_mod_idemp_l by lia. Qed.
Lemma uint_word z : 0 <= z < 2 ^ 32 -> u32 z = z.
Proof using Type. intros. unfold u32. apply Z.mod_small. lia. Qed.
Lemma socketcall_reads s c args : sys_socketcall s (call_nr c) args =
  match copy_from_user (sy_user s) args (8 * Z.of_nat (length (call_args c))) with None => (- EFAULT, s) | Some bs => do_call s (socketcall_args (call_nr c) (long_at bs)) end.
Proof using Type. by destruct c. Qed.
Lemma args_decode c w : Forall arg_ok (call_args c) -> (forall i a, call_args c !! i = Some a -> w i = arg_word a) -> socketcall_args (call_nr c) w = c.
Proof using Type.
  intros Hok Hw. destruct c; cbn [call_args] in *; cbn [call_nr socketcall_args Z.eqb Pos.eqb]; rewrite !Forall_cons in Hok; cbn [arg_ok] in Hok; rewrite (Hw 0%nat _ eq_refl), (Hw 1%nat _ eq_refl); try rewrite (Hw 2%nat _ eq_refl); try rewrite (Hw 3%nat _ eq_refl); try rewrite (Hw 4%nat _ eq_refl); try rewrite (Hw 5%nat _ eq_refl); cbn [arg_word]; rewrite ?int_word, ?uint_word by tauto; reflexivity.
Qed.
(** socketcall() passes every argument of every call in its place: with the arguments of a call in
    the block in user memory, in their words and in the order of the call, it does what the call does;
    other numbers are refused, and so is a block that cannot be read. *)
Theorem socketcall_ok s c args nr : Forall arg_ok (call_args c) -> nr < 1 \/ 20 < nr ->
  let bytes := copy_from_user (sy_user s) args (8 * Z.of_nat (length (call_args c))) in
  (bytes = Some (concat (le_bytes 8 <$> (arg_word <$> call_args c))) -> sys_socketcall s (call_nr c) args = do_call s c) /\
  (bytes = None -> sys_socketcall s (call_nr c) args = (- EFAULT, s)) /\ sys_socketcall s nr args = (- EINVAL, s).
Proof using Type.
  intros Hok Hnr. cbn zeta. rewrite socketcall_reads. split_and!; [intros ->|by intros ->|unfold sys_socketcall; by replace ((nr <? 1) || (20 <? nr)) with true by lia]. f_equal. apply args_decode; [done|]. intros i a Ha. apply long_at_words; [apply Forall_fmap; eapply Forall_impl; [exact Hok|]; intros ?; apply arg_word_range|]. by rewrite list_lookup_fmap, Ha.
Qed.
End Layer.
Module Demo.
(** A kernel with one family, whose protocol logs what is sent and refuses to connect. *)
Notation U := (gmap Z Z).
Notation P := (list (nat * option (list Z))).
Notation state := (@sys P U).
Implicit Types (s : state).
Definition read (u : U) (a n : Z) : option (list Z) := mapM (fun k => u !! (a + Z.of_nat k)) (seq 0 (Z.to_nat n)).
Definition write (u : U) (a : Z) (bs : list Z) : option U := match read u a (Z.of_nat (length bs)) with Some _ => Some (foldr (fun kb u => <[a + Z.of_nat kb.1 := kb.2]> u) u (zip (seq 0 (length bs)) bs)) | None => None end.
Definition reserve s : Z * state := let fd := fresh (dom (fdt s)) in if fd <? 0 then (-24, s) else (fd, s <| fdt := <[fd := FdReserved]> (fdt s) |>).
Definition linux_with (drop : state -> nat -> state) : Sys (P := P) (U := U) := {|
  get_unused_fd_flags s _ := reserve s;
  put_unused_fd s fd := s <| fdt := delete fd (fdt s) |>;
  fd_install s fd f := s <| fdt := <[fd := FdOpen f]> (fdt s) |>;
  fget s fd := match fdt s !! fd with Some (FdOpen f) => (Some f, hold_file s f) | _ => (None, s) end;
  fget_light s fd := match fdt s !! fd with Some (FdOpen f) => (Some (f, true), hold_file s f) | _ => (None, s) end;
  fput := drop;
  fput_light s f needed := if needed then drop s f else s;
  sys_close s fd := match fdt s !! fd with Some (FdOpen f) => (0, drop (s <| fdt := delete fd (fdt s) |>) f) | _ => (- EBADF, s) end;
  new_inode_pseudo s := Some (fresh (dom (sockets s)));
  d_alloc_pseudo _ := true;
  alloc_file s := Some (fresh (dom (files s)));
  request_module s _ := s;
  try_module_get s m := (true, mod_add s m 1);
  module_get s m := mod_add s m 1;
  module_put s m := mod_add s m (-1);
  get_user u a := u !! a;
  put_user u a v := match u !! a with Some _ => Some (<[a := v]> u) | None => None end;
  copy_from_user := read;
  copy_to_user := write;
  get_msghdr u a := match read u a 6 with Some [b; c; d; e; f; g] => Some (mk_msghdr b c d e f g) | _ => None end;
  msg_field a := mk_fields (a + 1) (a + 6) (a + 5) (a + 7);
  get_timespec _ _ := None; put_timespec _ _ _ := None; poll_select_set_timeout _ _ := None; time_left _ _ := (0, 0);
  sizeof_mmsghdr := 8;
  audit_sockaddr _ := 0;
  verify_iovec u h _ := if msg_namelen h =? 0 then (10, None, []) else if (msg_namelen h <? 0) || (sizeof_sockaddr_storage <? msg_namelen h) then (- EINVAL, None, []) else match read u (msg_name h) (msg_namelen h) with Some a => (10, Some a, []) | None => (- EFAULT, None, []) end;
  sock_kmalloc s x n := Some (charge s x n);
  sock_kfree_s s x n := charge s x (- n);
  security h := match h with HSendmsg _ m _ => if bool_decide (km_name m ≫= head = Some 13) then - EPERM else 0 | _ => 0 end;
  somaxconn _ _ := 128;
  pf_create _ p _ type _ _ := if type =? 1 then (0, Some 5%nat, p) else (-94, Some 5%nat, p);
  ops_owner _ := 3%nat;
  ops_release _ p _ := p;
  ops_bind _ p _ _ := (0, p); ops_connect _ p _ _ _ := (-111, p); ops_listen _ p _ _ := (0, p); ops_accept _ p _ _ _ := (0, p); ops_socketpair _ p _ _ := (0, p);
  ops_getname _ _ _ _ := (0, [2; 0; 80]); ops_shutdown _ p _ _ := (0, p); ops_setsockopt _ p _ _ _ _ _ _ := (0, p); ops_getsockopt _ p u _ _ _ _ _ := (0, p, u);
  sock_setsockopt p _ _ _ _ _ := (0, p); sock_getsockopt p u _ _ _ _ := (0, p, u);
  ops_sendmsg _ p _ x m n := (n, p ++ [(x, km_name m)]);
  ops_recvmsg _ p u _ _ _ _ _ := (mk_recvd (- EAGAIN) [] 0 0, p, u);
  sock_error p _ := (0, p); set_sk_err p _ _ := p;
|}.
#[local] Instance linux : Sys := linux_with (@drop_file P U (linux_with (fun s _ => s))).
Lemma read_len u a n bs : 0 <= n -> read u a n = Some bs -> Z.of_nat (length bs) = n.
Proof. intros Hn Hr. unfold read in Hr. apply length_mapM in Hr. rewrite length_seq in Hr. lia. Qed.
#[local] Instance linux_laws : SysLaws (E := linux).
Proof.
  split; intros; cbn; try done.
  - unfold reserve. case_if_as Hc; [by left|]. right. apply Z.ltb_ge in Hc. split_and!; [done| |done]. apply not_elem_of_dom, is_fresh.
  - by exists true.
  - by rewrite H.
  - injection H as <-. apply not_elem_of_dom, is_fresh.
  - injection H as <-. apply not_elem_of_dom, is_fresh.
  - by exists (net_families s), (sy_proto s).
  - by exists true.
  - by injection H as <-.
  - destruct h; try done. by case_bool_decide.
  - cbn in H. revert H. destruct (type =? 1); intros [= <- <- _]; by split.
Qed.
#[local] Instance linux_iovec : IovecLaws (E := linux).
Proof.
  split. cbn. intros u h err name iov Hv He. revert Hv. destruct (Z.eqb_spec (msg_namelen h) 0) as [E0|E0]; [by intros [= _ <- _]|]. destruct ((msg_namelen h <? 0) || (sizeof_sockaddr_storage <? msg_namelen h)) eqn:Eb; [intros [= <- _ _]; done|]. destruct (read u (msg_name h) (msg_namelen h)) as [a|] eqn:Er; [|intros [= <- _ _]; done]. intros [= _ <- _]. split; [|lia]. eapply read_len; [|exact Er]. lia.
Qed.

(** A process with an empty table. *)
Definition mem : U := list_to_map ((fun k => (Z.of_nat k, 0)) <$> seq 100 60).
Definition s0 : state := mk_sys ∅ ∅ ∅ (fun _ => 0) {[PF_INET := mk_family PF_INET 3 0]} 0 (fun _ => 0) [] mem false.
Lemma s0_inv : inv (E := linux) (fun _ => 0) ∅ ∅ (fun _ => 0) s0.
Proof. split; cbn; try done; intros; rewrite ?lookup_empty in *; try done. Qed.
Definition s1 := (sys_socket (E := linux) s0 PF_INET 1 0).2.
Example made : (sys_socket (E := linux) s0 PF_INET 1 0).1 = 0 /\ mod_refs s1 3%nat = 1 /\ sockets_in_use s1 = 1 /\ map_to_list (f_count <$> files s1) = [(0%nat, 1)].
Proof. vm_compute. done. Qed.
(** A type that the family does not have, and no memory for the result of socketpair(). *)
Example failures : let '(r, s) := sys_socket (E := linux) s0 PF_INET 2 0 in r = -94 /\ map_to_list (sockets s) = [] /\ mod_refs s 3%nat = 0.
Proof. vm_compute. done. Qed.
Example pair_fault : let '(r, s) := sys_socketpair (E := linux) s0 PF_INET 1 0 7 in r = - EFAULT /\ map_to_list (sockets s) = [] /\ map_to_list (files s) = [] /\ map_to_list (fdt s) = [] /\ mod_refs s 3%nat = 0.
Proof. vm_compute. done. Qed.
Lemma syscall_no_leak_witness : result (E := linux) (fun _ => 0) ∅ ∅ (fun _ => 0) s0 2 (do_call (E := linux) s0 (Socketpair PF_INET 1 0 100)).1 (do_call (E := linux) s0 (Socketpair PF_INET 1 0 100)).2 /\ (do_call (E := linux) s0 (Socketpair PF_INET 1 0 100)).1 = 0.
Proof.
  pose proof (syscall_no_leak (E := linux) (fun _ => 0) ∅ (fun _ => 0) s0 (Socketpair PF_INET 1 0 100) s0_inv) as H. destruct (do_call s0 (Socketpair PF_INET 1 0 100)) as [r s'] eqn:E. split; [exact H|]. apply (f_equal fst) in E. vm_compute in E. symmetry. exact E.
Defined.

(** Two messages of a sendmmsg(): the address of the second is that of the first, so the security
    module is not asked again, and the protocol sends both. *)
Definition mem2 : U := foldr (fun kv u => <[kv.1 := kv.2]> u) mem [(100, 150); (101, 3); (108, 150); (109, 3); (150, 2); (151, 0); (152, 80)].
Definition s2 : state := s1 <| sy_user := mem2 |>.
Example sent_twice : let '(r, s) := do_call (E := linux) s2 (Sendmmsg 0 100 2 0) in r = 2 /\ sy_proto s = [(0%nat, Some [2; 0; 80]); (0%nat, Some [2; 0; 80])].
Proof. vm_compute. done. Qed.
Definition allowed (p : P) : Prop := Forall (fun e => e.2 ≫= head <> Some 13) p.
Lemma sends_approved_witness : allowed (sy_proto (do_call (E := linux) s2 (Sendmmsg 0 100 2 0)).2).
Proof.
  apply (sends_approved (E := linux) allowed s2 (Sendmmsg 0 100 2 0)); [reflexivity| |intros o p x Hp; exact Hp|constructor]. intros o p u x m n (m' & n' & E1 & _ & E3) Hp. cbn in *. apply Forall_app. split; [exact Hp|]. constructor; [|constructor]. cbn. rewrite E1 in E3. intros E4. rewrite bool_decide_eq_true_2 in E3 by exact E4. discriminate.
Defined.
Definition mem3 : U := foldr (fun kv u => <[kv.1 := kv.2]> u) ∅ (zip (Z.of_nat <$> seq 200 24) (concat (le_bytes 8 <$> [2; 1; 0]))).
Lemma socketcall_ok_witness : sys_socketcall (E := linux) (s0 <| sy_user := mem3 |>) 1 200 = sys_socket (E := linux) (s0 <| sy_user := mem3 |>) PF_INET 1 0.
Proof.
  apply (socketcall_ok (E := linux) (s0 <| sy_user := mem3 |>) (Socket 2 1 0) 200 21); [repeat constructor; cbn; lia|right; lia|vm_compute; reflexivity].
Defined.
(** Another thread closes the descriptor during recvmmsg(), so that the call holds the last reference:
    the socket is freed before the error is stored in it. *)
Example recvmmsg_use_after_put : let s := s1 <| fdt := ∅ |> in sy_oops s = false /\ sy_oops (recvmmsg_finish (E := linux) s 0 true 1 (- EFAULT)).2 = true.
Proof. vm_compute. done. Qed.
End Demo.
