(* ===== verification/Create.v ===== *)
(** * Making sockets

    net/ipv4/af_inet.c: the table of protocols (inetsw), inet_register_protosw,
    inet_unregister_protosw, inet_create and inet_release; tcp_v4_init_sock (net/ipv4/tcp_ipv4.c).
    The table has a list of protocols per socket type, permanent ones first.  The theorems: what a
    permanent protocol answers to stays so whatever modules register, a protocol that is removed
    leaves the table as it was, and socket() for TCP gives a socket from which bind(), listen() and
    connect() can start.

    Memory and the constructors of other protocols are the class [CreateEnv]; the state is the
    [net_state] of Life.v. *)

From stdpp Require Import gmap.
From S2P Require Import Prelude TcpTypes Kernel ReqQueue Hashtables Md5 Reply Icmp Child Connect Socket Life.

Definition SOCK_MAX : nat := 11.
Definition SOCK_STREAM : nat := 1.
Definition SOCK_DGRAM : nat := 2.
Definition SOCK_RAW : nat := 3.
Definition IPPROTO_IP : Z := 0.
Definition IPPROTO_ICMP : Z := 1.
Definition IPPROTO_TCP : Z := 6.
Definition IPPROTO_UDP : Z := 17.
Definition IPPROTO_RAW : Z := 255.
Definition MAX_INET_PROTOS : Z := 256.
Definition INET_PROTOSW_REUSE : Z := 1.
Definition INET_PROTOSW_PERMANENT : Z := 2.
Definition INET_PROTOSW_ICSK : Z := 4.

(** struct proto and struct proto_ops, by name. *)
Inductive proto := tcp_prot | udp_prot | ping_prot | raw_prot | other_prot (k : nat).
Inductive proto_ops := inet_stream_ops | inet_dgram_ops | inet_sockraw_ops | other_ops (k : nat).
#[export] Instance proto_eq_dec : EqDecision proto.
Proof. solve_decision. Defined.
#[export] Instance proto_ops_eq_dec : EqDecision proto_ops.
Proof. solve_decision. Defined.
(** struct inet_protosw; [psw_addr] is the address of the structure. *)
Record inet_protosw := mk_protosw { psw_addr : nat; psw_type : nat; psw_protocol : Z; psw_prot : proto; psw_ops : proto_ops; psw_flags : Z }.
#[export] Instance inet_protosw_eq_dec : EqDecision inet_protosw.
Proof. solve_decision. Defined.
Implicit Types (sw : list (list inet_protosw)) (l : list inet_protosw) (p a : inet_protosw).

(** ** The table *)
Definition permanent p : bool := has (psw_flags p) INET_PROTOSW_PERMANENT.
(** The position after the last permanent entry, or [None] when a permanent entry has the protocol. *)
Fixpoint last_perm (protocol : Z) l (pos last : nat) : option nat :=
  match l with
  | [] => Some last
  | answer :: l => if permanent answer then if protocol =? psw_protocol answer then None else last_perm protocol l (S pos) (S pos) else last_perm protocol l (S pos) last
  end.
(** [p->list] is linked into a list of the table. *)
Definition linked sw p : bool := existsb (fun l => bool_decide (p ∈ l)) sw.
(** list_add_rcu of an entry that is linked already breaks the list: [None]. *)
Definition inet_register_protosw sw p : option (list (list inet_protosw)) :=
  if (SOCK_MAX <=? psw_type p)%nat then Some sw
  else match sw !! psw_type p with
       | None => Some sw
       | Some l =>
         match last_perm (psw_protocol p) l 0 0 with
         | None => Some sw
         | Some k => if linked sw p then None else Some (<[psw_type p := take k l ++ p :: drop k l]> sw)
         end
       end.
(** list_del_rcu on the list the entry is in; the entries are constant, so that an entry is known by
    its record.  [None]: the entry is in no list (it was refused, or removed before), and list_del_rcu
    follows the NULL or poisoned links of the entry and crashes. *)
Definition inet_unregister_protosw sw p : option (list (list inet_protosw)) :=
  if permanent p then Some sw else if linked sw p then Some (filter (fun a => a <> p) <$> sw) else None.
Definition inetsw_array : list inet_protosw :=
  [mk_protosw 0 SOCK_STREAM IPPROTO_TCP tcp_prot inet_stream_ops (Z.lor INET_PROTOSW_PERMANENT INET_PROTOSW_ICSK);
   mk_protosw 1 SOCK_DGRAM IPPROTO_UDP udp_prot inet_dgram_ops INET_PROTOSW_PERMANENT;
   mk_protosw 2 SOCK_DGRAM IPPROTO_ICMP ping_prot inet_dgram_ops INET_PROTOSW_REUSE;
   mk_protosw 3 SOCK_RAW IPPROTO_IP raw_prot inet_sockraw_ops INET_PROTOSW_REUSE].
(** inet_init *)
Definition inetsw_init : list (list inet_protosw) := default [] (foldl (fun o p => o ≫= fun sw => inet_register_protosw sw p) (Some (replicate SOCK_MAX [])) inetsw_array).

(** ** inet_create *)

(** The search for a protocol: the entry, and the protocol it stands for. *)
Fixpoint find_protocol (protocol : Z) l : errno + inet_protosw * Z :=
  match l with
  | [] => inl EPROTONOSUPPORT
  | answer :: l =>
    if protocol =? psw_protocol answer then if negb (protocol =? IPPROTO_IP) then inr (answer, protocol) else find_protocol protocol l
    else if protocol =? IPPROTO_IP then inr (answer, psw_protocol answer)
    else if psw_protocol answer =? IPPROTO_IP then inr (answer, protocol)
    else find_protocol protocol l
  end.
Definition search_protocol sw (type : nat) (protocol : Z) : errno + inet_protosw * Z :=
  match sw !! type with
  | Some (a :: l) => find_protocol protocol (a :: l)
  | _ => inl ESOCKTNOSUPPORT
  end.

Class CreateEnv := {
  load_module : bool -> Z -> nat -> list (list inet_protosw) -> list (list inet_protosw); (* request_module, with the type in its name or not *)
  inet_protos : Z -> option bool; (* netns_ok of the protocol *)
  init_net : Z;
  sk_alloc : net_state -> Z -> proto -> option nat;
  sk_zeroed : full_sock; (* the memory of sk_alloc *)
  sock_init_data : full_sock -> full_sock;
  prot_hash : proto -> net_state -> nat -> net_state;
  prot_init : proto -> net_state -> nat -> option errno * net_state; (* of the other protocols *)
  sk_common_release : net_state -> nat -> net_state;
  no_pmtu_disc : bool;
  IP_PMTUDISC_WANT : Z;
  sysctl_tcp_wmem1 : Z;
  sysctl_tcp_rmem1 : Z;
  prot_close : proto -> net_state -> nat -> Z -> net_state;
}.
#[export] Instance set_pmtudisc : Setter pmtudisc. Proof. solve_setter eta_full_sock. Defined.

Section Create.
Context {K : Kernel} {H : HashEnv} {I : IcmpEnv} {E : CreateEnv}.
Implicit Types (n : net_state) (f : full_sock) (i : nat).

(** The random bytes until one word is not zero; [None]: still reading. *)
Fixpoint random_word (rnds : list Z) : option Z := match rnds with [] => None | r :: rnds => if r =? 0 then random_word rnds else Some r end.
Definition build_ehash_secret (secret : Z) (rnds : list Z) : option Z := (fun r => if secret =? 0 then r else secret) <$> random_word rnds.
(** The label lookup_protocol with the attempts to load a module. *)
Fixpoint lookup_protocol (tries : nat) sw (type : nat) (protocol : Z) : (errno + inet_protosw * Z) * list (list inet_protosw) :=
  match search_protocol sw type protocol with
  | inr r => (inr r, sw)
  | inl e =>
    match tries with
    | O => (inl e, sw)
    | S t => lookup_protocol t (load_module (Nat.eqb t 1) protocol type sw) type protocol
    end
  end.
Definition inet_netns_ok (net protocol : Z) : bool :=
  if net =? init_net then true
  else match inet_protos (Z.land protocol (MAX_INET_PROTOS - 1)) with None => true | Some ok => ok end.
(** The timers, the congestion module and the cookie values are set up by code outside. *)
Definition tcp_init_full f : full_sock :=
  let sk := (fs_sk f) <| tp; out_of_order_queue := [] |> in
  let sk := tcp_init_xmit_timers sk in
  let sk := sk <| tp := tcp_prequeue_init (tp sk) |> in
  let sk := sk <| icsk; icsk_rto := TCP_TIMEOUT_INIT |> <| tp; mdev := TCP_TIMEOUT_INIT |> <| tp; snd_cwnd := TCP_INIT_CWND |> <| tp; snd_ssthresh := TCP_INFINITE_SSTHRESH |>
               <| tp; snd_cwnd_clamp := u32 (Z.lnot 0) |> <| tp; mss_cache := TCP_MSS_DEFAULT |> <| tp; reordering := sysctl_tcp_reordering |> <| sk_state := TCP_CLOSE |> in
  f <| fs_sk := (sock_set_flag sk SOCK_USE_WRITE_QUEUE) <| sk_sndbuf := sysctl_tcp_wmem1 |> <| sk_rcvbuf := sysctl_tcp_rmem1 |> |>.
Definition tcp_v4_init_sock n i : net_state :=
  let n := upd_full n i tcp_init_full in
  n <| nt_tables := upd_sock (nt_tables n) i (fun isk => isk <| isk_state := TCP_CLOSE |>) |> <| nt_alloc := nt_alloc n + 1 |>.
(** sk->sk_prot->init *)
Definition init_sock (prot : proto) n i : option errno * net_state :=
  match prot with tcp_prot => (None, tcp_v4_init_sock n i) | _ => prot_init prot n i end.
(** inet_create from sk_alloc on: the error, sock->sk (which still points to the sock when its [init] fails) and the
    sockets.  The members for datagrams, raw packets and multicast are left out. *)
Definition create_sock n (net : Z) (type : nat) (protocol : Z) (answer : inet_protosw) : option errno * option nat * net_state :=
  match sk_alloc n net (psw_prot answer) with
  | None => (Some ENOBUFS, None, n)
  | Some i =>
    let num := if Nat.eqb type SOCK_RAW then protocol else 0 in
    let isk := mk_inet_sock net PF_INET TCP_CLOSE (has (psw_flags answer) INET_PROTOSW_REUSE) 0 false 0 0 num 0 0 0 false None in
    let f := sock_init_data (sk_zeroed <| pmtudisc := if no_pmtu_disc then IP_PMTUDISC_DONT else IP_PMTUDISC_WANT |>) in
    let n := n <| nt_tables := (nt_tables n) <| socks := <[i := isk]> (socks (nt_tables n)) |> |> <| nt_socks := <[i := f]> (nt_socks n) |> <| nt_refs := <[i := 1]> (nt_refs n) |> in
    let n := if num =? 0 then n else prot_hash (psw_prot answer) (n <| nt_tables := upd_sock (nt_tables n) i (fun isk => isk <| inet_sport := htons num |>) |>) i in
    let '(err, n) := init_sock (psw_prot answer) n i in
    match err with
    | Some e => (Some e, Some i, sk_common_release n i)
    | None => (None, Some i, n)
    end
  end.
(** What inet_create leaves: the error, sock->state, sock->ops, sock->sk, the sockets, the table and the secret. *)
Record made := mk_made { md_err : option errno; md_state : socket_state; md_ops : option proto_ops; md_sk : option nat; md_net : net_state; md_sw : list (list inet_protosw); md_secret : Z }.
(** [cap] is capable(CAP_NET_RAW); [None]: it waits for random bytes. *)
Definition inet_create sw n (secret : Z) (rnds : list Z) (net : Z) (type : nat) (protocol : Z) (kern cap : bool) : option made :=
  let secret := if (secret =? 0) && negb (Nat.eqb type SOCK_RAW) && negb (Nat.eqb type SOCK_DGRAM) then build_ehash_secret secret rnds else Some secret in
  match secret with
  | None => None
  | Some secret =>
    let '(r, sw) := lookup_protocol 2 sw type protocol in
    match r with
    | inl e => Some (mk_made (Some e) SS_UNCONNECTED None None n sw secret)
    | inr (answer, protocol) =>
      if Nat.eqb type SOCK_RAW && negb kern && negb cap then Some (mk_made (Some EPERM) SS_UNCONNECTED None None n sw secret)
      else if negb (inet_netns_ok net protocol) then Some (mk_made (Some EAFNOSUPPORT) SS_UNCONNECTED None None n sw secret)
      else let '(err, sk, n) := create_sock n net type protocol answer in Some (mk_made err SS_UNCONNECTED (Some (psw_ops answer)) sk n sw secret)
    end
  end.
(** [linger] is sk_lingertime; the process is not exiting where [exiting] is false.  Flow steering and
    multicast groups are left out. *)
Definition inet_release n (sk : option nat) (prot : proto) (linger : Z) (exiting : bool) : option nat * net_state :=
  match sk with
  | None => (None, n)
  | Some i =>
    let timeout := match nt_socks n !! i with Some f => if sock_flag (fs_sk f) SOCK_LINGER && negb exiting then linger else 0 | None => 0 end in
    (None, prot_close prot n i timeout)
  end.
End Create.

(** ** What the table promises *)
Inductive protosw_op := Register (p : inet_protosw) | Unregister (p : inet_protosw).
#[export] Instance protosw_op_eq_dec : EqDecision protosw_op.
Proof. solve_decision. Defined.
Definition sw_step sw (o : protosw_op) : option (list (list inet_protosw)) := match o with Register p => inet_register_protosw sw p | Unregister p => inet_unregister_protosw sw p end.
(** [None]: an operation of the sequence breaks the lists. *)
Fixpoint sw_run sw (ops : list protosw_op) : option (list (list inet_protosw)) :=
  match ops with [] => Some sw | o :: ops => sw_step sw o ≫= fun sw => sw_run sw ops end.
(** The permanent entries come first. *)
Definition split_ok (P Q : list inet_protosw) : Prop := Forall (fun a => permanent a = true) P /\ Forall (fun a => permanent a = false) Q.
Definition table_ok sw : Prop := forall t l, sw !! t = Some l -> exists P Q, l = P ++ Q /\ split_ok P Q.

Section Protocols.
Implicit Types (o : protosw_op) (t : nat) (P Q : list inet_protosw).

(** The entries of one type after an operation. *)
Definition add_entry p l : list inet_protosw := match last_perm (psw_protocol p) l 0 0 with None => l | Some k => take k l ++ p :: drop k l end.
Definition slot_op t l o : list inet_protosw :=
  match o with
  | Register p => if bool_decide (psw_type p = t) && negb (SOCK_MAX <=? t)%nat then add_entry p l else l
  | Unregister p => if permanent p then l else filter (fun a => a <> p) l
  end.
(** The operation breaks the lists. *)
Definition sw_breaks sw o : bool :=
  match o with
  | Register p => negb (SOCK_MAX <=? psw_type p)%nat && match sw !! psw_type p ≫= fun l => last_perm (psw_protocol p) l 0 0 with Some _ => linked sw p | None => false end
  | Unregister p => negb (permanent p) && negb (linked sw p)
  end.
Lemma step_spec sw o : match sw_step sw o with None => sw_breaks sw o = true | Some sw' => sw_breaks sw o = false /\ forall t, sw' !! t = (fun l => slot_op t l o) <$> sw !! t end.
Proof.
  assert (Hid : forall m : option (list inet_protosw), (fun l => l) <$> m = m) by (by intros []). destruct o as [p|p]; cbn [sw_step slot_op sw_breaks].
  - unfold inet_register_protosw, add_entry. destruct (SOCK_MAX <=? psw_type p)%nat eqn:Hm; cbn [negb andb].
    { split; [done|]. intros t. destruct (decide (psw_type p = t)) as [<-|Hn]; [rewrite Hm, andb_false_r|rewrite bool_decide_false by done]; by rewrite Hid. }
    assert (Ht : forall t, psw_type p <> t -> (fun l => if bool_decide (psw_type p = t) && negb (SOCK_MAX <=? t)%nat then match last_perm (psw_protocol p) l 0 0 with Some k => take k l ++ p :: drop k l | None => l end else l) <$> sw !! t = sw !! t) by (intros t Hn; rewrite bool_decide_false by done; apply Hid).
    destruct (sw !! psw_type p) as [l|] eqn:El; cbn [mbind option_bind]; [|split; [done|]; intros t; destruct (decide (psw_type p = t)) as [<-|Hn]; [by rewrite El|by rewrite Ht]].
    destruct (last_perm (psw_protocol p) l 0 0) as [k|] eqn:Ek; [destruct (linked sw p); [done|]|]; (split; [done|]); intros t; (destruct (decide (psw_type p = t)) as [<-|Hn]; [rewrite ?El, bool_decide_true, Hm by done; cbn; rewrite Ek|rewrite ?Ht by done]); try done; [rewrite list_lookup_insert_eq; [done|by eapply lookup_lt_Some]|by rewrite list_lookup_insert_ne].
  - unfold inet_unregister_protosw. destruct (permanent p) eqn:Hp; cbn [negb andb]; [split; [done|]; intros t; by rewrite Hid|]. destruct (linked sw p); cbn [negb]; [|done]. split; [done|]. intros t. by rewrite list_lookup_fmap.
Qed.
Lemma step_lookup sw o sw' t : sw_step sw o = Some sw' -> sw' !! t = (fun l => slot_op t l o) <$> sw !! t.
Proof. intros E. pose proof (step_spec sw o) as Hs. rewrite E in Hs. apply Hs. Qed.
Lemma run_lookup ops : forall sw sw' t, sw_run sw ops = Some sw' -> sw' !! t = (fun l => foldl (slot_op t) l ops) <$> sw !! t.
Proof.
  induction ops as [|o ops IH]; intros sw sw' t; cbn; [intros [= <-]; by destruct (sw !! t)|]. intros (sw1 & E1 & E2)%bind_Some. rewrite (IH _ _ _ E2), (step_lookup _ _ _ _ E1). by destruct (sw !! t).
Qed.
Lemma run_app ops1 ops2 : forall sw, sw_run sw (ops1 ++ ops2) = sw_run sw ops1 ≫= fun sw => sw_run sw ops2.
Proof. induction ops1 as [|o ops IH]; intros sw; cbn; [done|]. destruct (sw_step sw o); [apply IH|done]. Qed.

Lemma last_perm_split pr P Q k : split_ok P Q -> last_perm pr (P ++ Q) k k = if existsb (fun a => pr =? psw_protocol a) P then None else Some (k + length P)%nat.
Proof.
  intros [HP HQ]. revert k. induction HP as [|a P Ha HP IH]; intros k; cbn.
  - rewrite Nat.add_0_r. generalize k at 1. induction HQ as [|a Q Ha HQ IH]; intros j; cbn; [done|]. rewrite Ha. apply IH.
  - rewrite Ha. destruct (pr =? psw_protocol a); cbn; [done|]. rewrite IH. case_match; [done|]. f_equal. lia.
Qed.
Lemma add_split p P Q : split_ok P Q -> add_entry p (P ++ Q) = if existsb (fun a => psw_protocol p =? psw_protocol a) P then P ++ Q else P ++ p :: Q.
Proof. intros Hs. unfold add_entry. rewrite last_perm_split by done. destruct (existsb _ P); [done|]. cbn. by rewrite take_app_length, drop_app_length. Qed.
Lemma filter_perm p P : permanent p = false -> Forall (fun a => permanent a = true) P -> filter (fun a => a <> p) P = P.
Proof. intros Hp HP. induction HP as [|a P Ha HP IH]; [done|]. rewrite filter_cons_True, IH; [done|]. intros ->. congruence. Qed.
Lemma filter_plain p Q : Forall (fun a => permanent a = false) Q -> Forall (fun a => permanent a = false) (filter (fun a => a <> p) Q).
Proof. rewrite !Forall_forall. intros HQ a [_ Ha]%list_elem_of_filter. by apply HQ. Qed.

(** An operation keeps the permanent entries where they are. *)
Lemma slot_op_split t o P Q : split_ok P Q -> exists P' Q', slot_op t (P ++ Q) o = (P ++ P') ++ Q' /\ split_ok (P ++ P') Q'.
Proof.
  intros Hs. pose proof Hs as [HP HQ]. assert (Hid : exists P' Q', P ++ Q = (P ++ P') ++ Q' /\ split_ok (P ++ P') Q') by (exists [], Q; by rewrite app_nil_r). destruct o as [p|p]; cbn [slot_op].
  - case_match; [|done]. rewrite add_split by done. case_match; [done|]. destruct (permanent p) eqn:Hp.
    + exists [p], Q. rewrite <- app_assoc. split_and!; [done|]. split; [|done]. apply Forall_app_2; [done|by constructor].
    + exists [], (p :: Q). rewrite app_nil_r. split; [done|]. split; [done|by constructor].
  - destruct (permanent p) eqn:Hp; [done|]. exists [], (filter (fun a => a <> p) Q). rewrite app_nil_r, filter_app, filter_perm by done. split; [done|]. split; [done|by apply filter_plain].
Qed.
Lemma slot_run_split t ops : forall P Q, split_ok P Q -> exists P' Q', foldl (slot_op t) (P ++ Q) ops = (P ++ P') ++ Q' /\ split_ok (P ++ P') Q'.
Proof.
  induction ops as [|o ops IH]; intros P Q Hs; [exists [], Q; by rewrite app_nil_r|]. destruct (slot_op_split t o P Q Hs) as (P1 & Q1 & E1 & Hs1). cbn. rewrite E1. destruct (IH _ _ Hs1) as (P2 & Q2 & E2 & Hs2). exists (P1 ++ P2), Q2. by rewrite app_assoc.
Qed.
Lemma run_table_ok sw ops sw' : table_ok sw -> sw_run sw ops = Some sw' -> table_ok sw'.
Proof. intros Ht Er t l. rewrite (run_lookup _ _ _ _ Er), fmap_Some. intros (l0 & E0 & ->). destruct (Ht t l0 E0) as (P & Q & -> & Hs). destruct (slot_run_split t ops P Q Hs) as (P' & Q' & -> & Hs'). by exists (P ++ P'), Q'. Qed.

Lemma find_member pr l a pr' : find_protocol pr l = inr (a, pr') -> a ∈ l.
Proof. induction l as [|b l IH]; cbn; [done|]. repeat case_match; intros E; try (injection E as <- <-; by left); right; by apply IH. Qed.
Lemma find_app pr P Q : find_protocol pr (P ++ Q) = match find_protocol pr P with inr r => inr r | inl _ => find_protocol pr Q end.
Proof. induction P as [|b P IH]; cbn; [done|]. by destruct (pr =? psw_protocol b), (pr =? IPPROTO_IP), (psw_protocol b =? IPPROTO_IP). Qed.
Lemma search_cons sw t pr r : search_protocol sw t pr = inr r <-> exists l, sw !! t = Some l /\ find_protocol pr l = inr r.
Proof. unfold search_protocol. split; [destruct (sw !! t) as [[|a l]|]; [done|eauto|done]|]. intros ([|a l] & -> & E); [done|exact E]. Qed.

Lemma permanent_kept sw ops sw' t pr a pr' : table_ok sw -> search_protocol sw t pr = inr (a, pr') -> permanent a = true -> sw_run sw ops = Some sw' -> search_protocol sw' t pr = inr (a, pr').
Proof.
  intros Ht (l & El & Ef)%search_cons Ha Er. apply search_cons. rewrite (run_lookup _ _ _ _ Er), El. destruct (Ht _ l El) as (P & Q & -> & Hs). destruct (slot_run_split t ops P Q Hs) as (P' & Q' & E' & _). exists ((P ++ P') ++ Q'). split; [cbn; by rewrite E'|].
  rewrite find_app in Ef. rewrite !find_app. destruct (find_protocol pr P) as [e|r]; [|done]. apply find_member in Ef. destruct Hs as [_ HQ]. rewrite Forall_forall in HQ. specialize (HQ a Ef). congruence.
Qed.

(** A permanent protocol cannot be taken over.  In a table whose permanent entries come first (as
    those that inet_init and any registrations make), the type and the protocol (the wild card 0
    included) that a permanent entry answers to are answered by the same entry, with the same
    protocol number, after any sequence of inet_register_protosw and inet_unregister_protosw that
    does not break the lists; and the permanent entries still come first. *)
Theorem protosw_permanent sw ops sw' type protocol a pr : table_ok sw -> search_protocol sw type protocol = inr (a, pr) -> permanent a = true -> sw_run sw ops = Some sw' -> table_ok sw' /\ search_protocol sw' type protocol = inr (a, pr).
Proof.
  intros Ht Hs Ha Er. split; [by eapply run_table_ok|by eapply permanent_kept].
Qed.

(** Taking [p] out commutes with the operations that do not register it. *)
Lemma slot_op_filter t o p P Q : split_ok P Q -> permanent p = false -> o <> Register p -> filter (fun a => a <> p) (slot_op t (P ++ Q) o) = slot_op t (filter (fun a => a <> p) (P ++ Q)) o.
Proof.
  intros Hs Hp Ho. pose proof Hs as [HP HQ]. destruct o as [q|q]; cbn [slot_op].
  - case_match; [|done]. rewrite add_split by done. assert (Hs2 : split_ok P (filter (fun a => a <> p) Q)) by (split; [done|by apply filter_plain]). rewrite filter_app, (filter_perm p P), add_split by done. case_match; rewrite filter_app, filter_perm by done; [done|]. rewrite filter_cons_True; [done|]. by intros ->.
  - case_match; [done|]. rewrite !list_filter_filter. apply list_filter_iff. tauto.
Qed.
Definition without p sw : list (list inet_protosw) := filter (fun a => a <> p) <$> sw.
Definition touches p o : Prop := o = Register p \/ o = Unregister p.
Lemma linked_spec sw p : linked sw p = true <-> exists l, l ∈ sw /\ p ∈ l.
Proof. unfold linked. rewrite existsb_exists. split; intros (l & H1 & H2); exists l; rewrite <- list_elem_of_In, bool_decide_eq_true in *; done. Qed.
Lemma linked_without sw p q : q <> p -> linked (without p sw) q = linked sw q.
Proof.
  intros Hq. apply Bool.eq_iff_eq_true. rewrite !linked_spec. unfold without. split.
  - intros (l & (l0 & -> & Hl)%list_elem_of_fmap & [_ Hp]%list_elem_of_filter). by exists l0.
  - intros (l & Hl & Hp). exists (filter (fun a => a <> p) l). split; [apply list_elem_of_fmap; by exists l|by apply list_elem_of_filter].
Qed.
Lemma last_perm_filter pr p P Q : split_ok P Q -> permanent p = false -> last_perm pr (filter (fun a => a <> p) (P ++ Q)) 0 0 = last_perm pr (P ++ Q) 0 0.
Proof. intros Hs Hp. pose proof Hs as [HP HQ]. rewrite filter_app, filter_perm by done. rewrite !last_perm_split; [done|done|]. split; [done|by apply filter_plain]. Qed.
Lemma breaks_without sw p o : table_ok sw -> permanent p = false -> ~ touches p o -> sw_breaks (without p sw) o = sw_breaks sw o.
Proof.
  intros Ht Hp Ho. destruct o as [q|q]; cbn [sw_breaks]; (assert (Hq : q <> p) by (intros ->; apply Ho; unfold touches; tauto)); rewrite linked_without by done; [|done]. f_equal. unfold without. rewrite list_lookup_fmap. destruct (sw !! psw_type q) as [l|] eqn:El; [|done]. cbn. destruct (Ht _ _ El) as (P & Q & -> & Hs). by rewrite last_perm_filter.
Qed.
(** Without [p] the operations that do not concern it do the same to the others. *)
Lemma step_without sw p o : table_ok sw -> permanent p = false -> ~ touches p o -> sw_step (without p sw) o = without p <$> sw_step sw o.
Proof.
  intros Ht Hp Ho. pose proof (step_spec sw o) as H1. pose proof (step_spec (without p sw) o) as H2. rewrite breaks_without in H2 by done. destruct (sw_step sw o) as [s1|], (sw_step (without p sw) o) as [s2|]; cbn; [|destruct H1; congruence|destruct H2; congruence|done]. f_equal. destruct H1 as [_ H1], H2 as [_ H2]. apply list_eq. intros t. rewrite H2. unfold without. rewrite !list_lookup_fmap, H1. destruct (sw !! t) as [l|] eqn:El; [|done]. cbn. f_equal. destruct (Ht _ _ El) as (P & Q & -> & Hs). symmetry. apply slot_op_filter; [done..|]. intros ->. apply Ho. by left.
Qed.
Lemma run_without ops p : forall sw, table_ok sw -> permanent p = false -> (forall o, o ∈ ops -> ~ touches p o) -> sw_run (without p sw) ops = without p <$> sw_run sw ops.
Proof.
  induction ops as [|o ops IH]; intros sw Ht Hp Ho; cbn; [done|]. rewrite step_without by (try apply Ho; done || by left). destruct (sw_step sw o) as [s1|] eqn:E1; [|done]. cbn. apply IH; [|done|intros o' Ho'; apply Ho; by right]. apply (run_table_ok sw [o]); [done|]. cbn. by rewrite E1.
Qed.
Lemma linked_lookup sw p : linked sw p = true <-> exists t l, sw !! t = Some l /\ p ∈ l.
Proof. rewrite linked_spec. setoid_rewrite list_elem_of_lookup. firstorder. Qed.
Lemma step_linked sw p o sw' : ~ touches p o -> sw_step sw o = Some sw' -> linked sw p = true -> linked sw' p = true.
Proof.
  intros Ho E. rewrite !linked_lookup. intros (t & l & Hl & Hp). eexists t, _. split; [rewrite (step_lookup _ _ _ _ E), Hl; reflexivity|]. destruct o as [q|q]; cbn [slot_op].
  - case_match; [|done]. unfold add_entry. case_match; [|done]. rewrite <- (take_drop n l) in Hp. apply elem_of_app in Hp as [Hp|Hp]; apply elem_of_app; [by left|right; by right].
  - case_match; [done|]. apply list_elem_of_filter. split; [|done]. intros ->. apply Ho. by right.
Qed.
Lemma run_linked ops p : forall sw sw', (forall o, o ∈ ops -> ~ touches p o) -> sw_run sw ops = Some sw' -> linked sw p = true -> linked sw' p = true.
Proof.
  induction ops as [|o ops IH]; intros sw sw' Ho; cbn; [by intros [= <-]|]. intros (s1 & E1 & E2)%bind_Some Hl. apply (IH s1 sw'); [intros o' Ho'; apply Ho; by right|done|]. apply (step_linked sw p o); [apply Ho; by left|done..].
Qed.
Lemma filter_fresh p l : p ∉ l -> filter (fun a => a <> p) l = l.
Proof. induction l as [|a l IH]; [done|]. intros [Ha Hl]%not_elem_of_cons. rewrite filter_cons_True, IH; [done..|]. congruence. Qed.

Lemma without_fresh sw p : linked sw p = false -> without p sw = sw.
Proof.
  intros Hf. unfold without. apply list_eq. intros t. rewrite list_lookup_fmap. destruct (sw !! t) as [l|] eqn:El; [|done]. cbn. f_equal. apply filter_fresh. intros Hp. apply not_true_iff_false in Hf. apply Hf, linked_lookup. by exists t, l.
Qed.
(** [p] is registered: it follows the permanent entries of its type, and taking it out gives the table back. *)
Lemma register_new sw p P Q : table_ok sw -> permanent p = false -> linked sw p = false -> (psw_type p < SOCK_MAX)%nat -> sw !! psw_type p = Some (P ++ Q) -> split_ok P Q -> (forall e, e ∈ P -> psw_protocol e <> psw_protocol p) ->
  exists sw1, inet_register_protosw sw p = Some sw1 /\ sw1 !! psw_type p = Some (P ++ p :: Q) /\ without p sw1 = sw /\ linked sw1 p = true /\ table_ok sw1.
Proof.
  intros Ht Hp Hf Hlt El Hs He. pose proof (without_fresh sw p Hf) as Hw. unfold inet_register_protosw. rewrite (proj2 (Nat.leb_gt _ _)), El, last_perm_split by (done || lia). replace (existsb _ P) with false by (symmetry; apply not_true_iff_false; intros (e & Hin & E)%existsb_exists; apply list_elem_of_In in Hin; apply Z.eqb_eq in E; by apply (He e Hin)). rewrite Hf. cbn [Nat.add]. rewrite take_app_length, drop_app_length. eexists. split; [reflexivity|]. set (sw1 := <[_ := _]> sw).
  assert (E1 : sw1 !! psw_type p = Some (P ++ p :: Q)) by (apply list_lookup_insert_eq; by eapply lookup_lt_Some). destruct Hs as [HP HQ]. split_and!; [done| |apply linked_lookup; exists (psw_type p), (P ++ p :: Q); split; [done|apply elem_of_app; right; by left]|].
  - unfold without, sw1. rewrite list_fmap_insert. fold (without p sw). rewrite Hw. apply list_insert_id. rewrite El. f_equal. rewrite filter_app, filter_cons_False, <- filter_app by tauto. symmetry. apply filter_fresh. intros Hin. apply not_true_iff_false in Hf. apply Hf, linked_lookup. by exists (psw_type p), (P ++ Q).
  - intros t l. unfold sw1. intros [(<- & <- & _)|[_ Hl]]%list_lookup_insert_Some; [|by apply (Ht t)]. exists P, (p :: Q). split; [done|]. split; [done|by constructor].
Qed.
Lemma find_new p P Q : psw_protocol p <> IPPROTO_IP -> (forall e, e ∈ P -> psw_protocol e <> psw_protocol p /\ psw_protocol e <> IPPROTO_IP) -> find_protocol (psw_protocol p) (P ++ p :: Q) = inr (p, psw_protocol p).
Proof.
  intros Hip HP. rewrite find_app. replace (find_protocol (psw_protocol p) P) with (@inl errno (inet_protosw * Z) EPROTONOSUPPORT); [cbn; by rewrite Z.eqb_refl, (proj2 (Z.eqb_neq _ _) Hip)|].
  induction P as [|e P IH]; [done|]. cbn. destruct (HP e) as [H1 H2]; [by left|]. rewrite (proj2 (Z.eqb_neq (psw_protocol p) _)), (proj2 (Z.eqb_neq _ IPPROTO_IP) Hip), (proj2 (Z.eqb_neq _ _) H2) by congruence. apply IH. intros e' ?. apply HP. by right.
Qed.

(** C24. A protocol of a module takes over from the others that are not permanent and leaves no trace.
    When [p], not permanent and in no list, is registered for a type the table has, and no permanent
    entry of the type has its protocol, it is linked; removing it, after any operations on other
    entries in between, is safe, and gives the table that these operations alone would have made
    (and they break the lists with [p] exactly if they do without it).  Where no permanent entry
    answers to its protocol, the search for it finds [p]. *)
Theorem protosw_returns sw p ops l : table_ok sw -> permanent p = false -> linked sw p = false -> (psw_type p < SOCK_MAX)%nat -> sw !! psw_type p = Some l -> (forall e, e ∈ l -> permanent e = true -> psw_protocol e <> psw_protocol p) -> (forall o, o ∈ ops -> ~ touches p o) ->
  exists sw1, inet_register_protosw sw p = Some sw1 /\
    (sw_run sw1 ops ≫= fun sw2 => inet_unregister_protosw sw2 p) = sw_run sw ops /\
    (psw_protocol p <> IPPROTO_IP -> (forall e, e ∈ l -> permanent e = true -> psw_protocol e <> IPPROTO_IP) -> search_protocol sw1 (psw_type p) (psw_protocol p) = inr (p, psw_protocol p)).
Proof.
  intros Ht Hp Hf Hlt El He Ho. destruct (Ht _ _ El) as (P & Q & -> & Hs). pose proof Hs as [HP _]. rewrite Forall_forall in HP. destruct (register_new sw p P Q) as (sw1 & E1 & E2 & E3 & E4 & E5); [try done..|]; [intros e Hin; apply He; [apply elem_of_app; by left|by apply HP]|]. exists sw1. split; [done|]. split.
  - rewrite <- E3, run_without by done. destruct (sw_run sw1 ops) as [sw2|] eqn:Er; [|done]. cbn. unfold inet_unregister_protosw. by rewrite Hp, (run_linked ops p sw1).
  - intros Hip Hi. apply search_cons. eexists. split; [exact E2|]. apply find_new; [done|]. intros e Hin. assert (Hl : e ∈ P ++ Q) by (apply elem_of_app; by left). split; [apply He|apply Hi]; auto.
Qed.
End Protocols.

(** What the memory and the modules do: modules change the table by its operations, and the memory of a new socket is not in use. *)
Class CreateLaws (E : CreateEnv) : Prop := {
  load_module_ops g protocol type sw : exists ops, sw_run sw ops = Some (load_module g protocol type sw);
  sk_alloc_new n net prot i : sk_alloc n net prot = Some i -> socks (nt_tables n) !! i = None /\ nt_socks n !! i = None /\ nt_refs n !! i = None;
}.
Lemma init_run : sw_run (replicate SOCK_MAX []) (Register <$> inetsw_array) = Some inetsw_init.
Proof. reflexivity. Qed.
Lemma init_table_ok : table_ok inetsw_init.
Proof. apply (run_table_ok _ _ _) with (2 := init_run). intros t l [-> _]%lookup_replicate. by exists [], []. Qed.

Section New.
Context {K : Kernel} {CL : ChildLaws K} {H : HashEnv} {L : HashLaws H} {I : IcmpEnv} {E : CreateEnv} {LE : CreateLaws E}.
Implicit Types (n : net_state) (i : nat).

(** Whatever is asked for, inet_create changes the table by registrations of modules only. *)
Lemma lookup_runs tries : forall sw t pr r sw', lookup_protocol tries sw t pr = (r, sw') -> exists ops, sw_run sw ops = Some sw'.
Proof.
  induction tries as [|tries IH]; intros sw t pr r sw'; cbn; destruct (search_protocol sw t pr); intros Hl; try (injection Hl as _ <-; by exists []). destruct (IH _ _ _ _ _ Hl) as (ops2 & E2). destruct (load_module_ops (Nat.eqb tries 1) pr t sw) as (ops1 & E1). exists (ops1 ++ ops2). rewrite run_app, E1. exact E2.
Qed.
Lemma inet_create_table sw n secret rnds net t pr kern cap m : table_ok sw -> inet_create sw n secret rnds net t pr kern cap = Some m -> table_ok (md_sw m).
Proof.
  intros Ht. unfold inet_create. case_match; [|done]. destruct (lookup_protocol 2 sw t pr) as [r sw'] eqn:El. destruct (lookup_runs _ _ _ _ _ _ El) as (ops & Er). intros Hm. assert (md_sw m = sw') as ->; [|by eapply run_table_ok]. revert Hm. repeat case_match; intros Hm; injection Hm as <-; done.
Qed.
Lemma secret_ok secret rnds : Exists (fun r => r <> 0) rnds -> exists s, build_ehash_secret secret rnds = Some s /\ s <> 0 /\ (secret <> 0 -> s = secret).
Proof.
  intros Hr. assert (exists r, random_word rnds = Some r /\ r <> 0) as (r & Er & H0). { induction Hr as [r l Hr|r l _ (r' & E' & H')]; cbn; [|destruct (Z.eqb_spec r 0); [eauto|eauto]]. exists r. by rewrite (proj2 (Z.eqb_neq _ _) Hr). }
  unfold build_ehash_secret. rewrite Er. cbn. destruct (Z.eqb_spec secret 0) as [->|Hn]; [|eauto]. exists r. by split_and!.
Qed.
(** [n'] is [n] with the new socket [i]: free of a port, in no table. *)
Record fresh_sock n (net : Z) i n' : Prop := {
  fk_conn : conn_inv (nt_tables n');
  fk_off : off_chain (nt_tables n') i;
  fk_sock : exists isk f, socks (nt_tables n') !! i = Some isk /\ nt_socks n' !! i = Some f /\ nt_refs n' !! i = Some 1 /\
    (sk_net isk, isk_state isk, inet_num isk, icsk_bind_hash isk, sk_linked isk, sk_reuse isk) = (net, TCP_CLOSE, 0, None, false, false) /\
    sk_state (fs_sk f) = TCP_CLOSE /\ out_of_order_queue (tp (fs_sk f)) = [] /\ snd_cwnd (tp (fs_sk f)) = TCP_INIT_CWND /\ icsk_rto (icsk (fs_sk f)) = TCP_TIMEOUT_INIT;
  fk_other : forall j, j <> i -> socks (nt_tables n') !! j = socks (nt_tables n) !! j /\ nt_socks n' !! j = nt_socks n !! j /\ nt_refs n' !! j = nt_refs n !! j;
  fk_count : (nt_alloc n', nt_orphans n', nt_pool n', nt_warn n') = (nt_alloc n + 1, nt_orphans n, nt_pool n, nt_warn n);
}.
Lemma tcp_init_full_ok f : let f' := tcp_init_full f in sk_state (fs_sk f') = TCP_CLOSE /\ out_of_order_queue (tp (fs_sk f')) = [] /\ snd_cwnd (tp (fs_sk f')) = TCP_INIT_CWND /\ icsk_rto (icsk (fs_sk f')) = TCP_TIMEOUT_INIT.
Proof.
  cbn. split_and!; [done| |done..]. rewrite prequeue_init_spec, init_timers_tp. done.
Qed.
(** sk->sk_prot->init on a socket that is closed. *)
Lemma tcp_init_ok n i f isk : nt_socks n !! i = Some f -> socks (nt_tables n) !! i = Some isk -> isk_state isk = TCP_CLOSE ->
  tcp_v4_init_sock n i = n <| nt_socks := <[i := tcp_init_full f]> (nt_socks n) |> <| nt_alloc := nt_alloc n + 1 |>.
Proof.
  intros Hf Hi Hc. unfold tcp_v4_init_sock, upd_full, upd_sock. cbn. rewrite (alter_alt_Some _ _ i f Hf), (alter_alt_Some _ _ i isk Hi). replace (isk <| isk_state := TCP_CLOSE |>) with isk by (unfold set; cbn; by rewrite <- Hc). by rewrite insert_id.
Qed.
Lemma create_tcp_ok n net (answer : inet_protosw) protocol i : conn_inv (nt_tables n) -> psw_prot answer = tcp_prot -> has (psw_flags answer) INET_PROTOSW_REUSE = false -> sk_alloc n net tcp_prot = Some i ->
  exists n', create_sock n net SOCK_STREAM protocol answer = (None, Some i, n') /\ fresh_sock n net i n'.
Proof.
  intros Hc Hp Hr Ha. destruct (sk_alloc_new _ _ _ _ Ha) as (A1 & A2 & A3). unfold create_sock. rewrite Hp, Ha, Hr. cbn [Nat.eqb SOCK_STREAM SOCK_RAW]. change (0 =? 0) with true. cbn beta iota zeta. cbn [init_sock].
  set (isk := mk_inet_sock net PF_INET TCP_CLOSE false 0 false 0 0 0 0 0 0 false None). set (f := sock_init_data _). destruct (new_sock_conn (nt_tables n) i isk Hc A1 eq_refl) as [C1 C2].
  rewrite (tcp_init_ok _ i f isk) by (try apply lookup_insert_eq; done). eexists. split; [reflexivity|]. split; cbn [nt_tables nt_socks nt_refs nt_alloc nt_orphans nt_pool nt_warn set].
  - exact C1.
  - apply (same_off (nt_tables n)); [exact C2|]. by apply unknown_off; [apply Hc|].
  - exists isk, (tcp_init_full f). split_and!; try apply lookup_insert_eq; try apply tcp_init_full_ok; done.
  - intros j Hj. cbn. by rewrite !lookup_insert_ne.
  - done.
Qed.

(** C23. socket() for TCP.  Whatever protocols have been registered and removed since inet_init (by
    operations that do not break the lists), a
    stream socket with protocol 0 or IPPROTO_TCP in a network namespace where TCP may be used gets
    the operations of TCP (inet_stream_ops), without a module being loaded; inet_ehash_secret is set
    then, and was not changed if it was set before.  Without memory the error is ENOBUFS and nothing
    has changed.  Otherwise one new socket is there, closed, unbound and in no chain, with one
    reference and counted once, the tables stay consistent, and no other socket has changed: what
    bind(), listen() and connect() start from. *)
Theorem tcp_socket_ok n ops sw secret rnds net protocol kern cap : sw_run inetsw_init ops = Some sw -> conn_inv (nt_tables n) -> protocol = IPPROTO_IP \/ protocol = IPPROTO_TCP -> inet_netns_ok net IPPROTO_TCP = true -> secret <> 0 \/ Exists (fun r => r <> 0) rnds ->
  exists m, inet_create sw n secret rnds net SOCK_STREAM protocol kern cap = Some m /\
    (md_state m, md_ops m, md_sw m) = (SS_UNCONNECTED, Some inet_stream_ops, sw) /\ md_secret m <> 0 /\ (secret <> 0 -> md_secret m = secret) /\
    match sk_alloc n net tcp_prot with
    | None => (md_err m, md_sk m, md_net m) = (Some ENOBUFS, None, n)
    | Some i => (md_err m, md_sk m) = (None, Some i) /\ fresh_sock n net i (md_net m)
    end.
Proof.
  intros Hsw Hc Hpr Hn Hs. assert (exists s, (if (secret =? 0) && negb (Nat.eqb SOCK_STREAM SOCK_RAW) && negb (Nat.eqb SOCK_STREAM SOCK_DGRAM) then build_ehash_secret secret rnds else Some secret) = Some s /\ s <> 0 /\ (secret <> 0 -> s = secret)) as (s & Es & Hs0 & Hs1).
  { cbn. destruct (Z.eqb_spec secret 0) as [->|Hz]; cbn; [|eauto]. destruct Hs as [?|Hs]; [done|]. by apply secret_ok. }
  set (tcp := mk_protosw 0 SOCK_STREAM IPPROTO_TCP tcp_prot inet_stream_ops (Z.lor INET_PROTOSW_PERMANENT INET_PROTOSW_ICSK)). assert (Hl : search_protocol sw SOCK_STREAM protocol = inr (tcp, IPPROTO_TCP)).
  { apply (permanent_kept inetsw_init ops); [exact init_table_ok| |reflexivity|exact Hsw]. by destruct Hpr as [->| ->]. }
  unfold inet_create. rewrite Es. cbn [lookup_protocol]. rewrite Hl. cbn [Nat.eqb SOCK_STREAM SOCK_RAW andb]. rewrite Hn. cbn [negb]. destruct (sk_alloc n net tcp_prot) as [i|] eqn:Ea.
  - destruct (create_tcp_ok n net tcp IPPROTO_TCP i Hc eq_refl eq_refl Ea) as (n' & -> & Hf). eexists. split; [reflexivity|]. by split_and!.
  - unfold create_sock. change (psw_prot tcp) with tcp_prot. rewrite Ea. eexists. split; [reflexivity|]. by split_and!.
Qed.
End New.

Module Demo.
#[local] Existing Instance linux.
#[local] Existing Instance Hashtables.Demo.env.
#[local] Existing Instance Hashtables.Demo.laws.
#[local] Existing Instance Icmp.Demo.env.
(** A module for type 1, protocol 132. *)
Definition sctp := mk_protosw 10 SOCK_STREAM 132 (other_prot 1) (other_ops 1) 0.
Definition clash := mk_protosw 11 SOCK_STREAM IPPROTO_TCP (other_prot 2) (other_ops 2) 0.
#[local] Instance kernel : CreateEnv := {|
  load_module _ pr _ sw := if pr =? 132 then default sw (inet_register_protosw sw sctp) else sw;
  inet_protos _ := Some true;
  init_net := 0;
  sk_alloc n _ _ := Some (fresh (dom (socks (nt_tables n)) ∪ dom (nt_socks n) ∪ dom (nt_refs n)));
  sk_zeroed := Life.Demo.server <| fs_sk := blank_sock |> <| fs_queue := Life.Demo.blank |>;
  sock_init_data f := f;
  prot_hash _ n _ := n;
  prot_init _ n _ := (None, n);
  sk_common_release n _ := n;
  no_pmtu_disc := false;
  IP_PMTUDISC_WANT := 1;
  sysctl_tcp_wmem1 := 16384;
  sysctl_tcp_rmem1 := 87380;
  prot_close _ n _ _ := n;
|}.
#[local] Instance kernel_laws : CreateLaws kernel.
Proof.
  split.
  - intros g pr t sw. cbn [load_module kernel]. destruct (pr =? 132); [|by exists []]. destruct (inet_register_protosw sw sctp) as [s|] eqn:E; [|by exists []]. exists [Register sctp]. cbn [sw_run sw_step]. by rewrite E.
  - intros n net p i Hi. injection Hi as <-. rewrite <- !not_elem_of_dom. pose proof (is_fresh (dom (socks (nt_tables n)) ∪ dom (nt_socks n) ∪ dom (nt_refs n))) as Hf. set_solver.
Qed.
(** The errors of the search, a module that is loaded on demand, and TCP that stays; removing an entry
    whose registration was refused crashes. *)
Example searches : (search_protocol inetsw_init 5 0, search_protocol inetsw_init SOCK_STREAM 132, search_protocol inetsw_init SOCK_RAW 89) =
  (inl ESOCKTNOSUPPORT, inl EPROTONOSUPPORT, inr (mk_protosw 3 SOCK_RAW IPPROTO_IP raw_prot inet_sockraw_ops INET_PROTOSW_REUSE, 89)) /\
  fst (lookup_protocol 2 inetsw_init SOCK_STREAM 132) = inr (sctp, 132) /\ inet_register_protosw inetsw_init clash = Some inetsw_init /\
  inet_unregister_protosw inetsw_init clash = None.
Proof. split_and!; reflexivity. Qed.
(** A raw socket needs the capability. *)
Example raw_denied : md_err <$> inet_create inetsw_init Life.Demo.host 7 [] 0 SOCK_RAW 89 false false = Some (Some EPERM).
Proof. vm_compute. reflexivity. Qed.
Definition run_of ops : list (list inet_protosw) := default [] (sw_run inetsw_init ops).
Lemma protosw_permanent_witness : search_protocol (run_of [Register sctp; Register clash; Unregister sctp]) SOCK_STREAM IPPROTO_IP = inr (mk_protosw 0 SOCK_STREAM IPPROTO_TCP tcp_prot inet_stream_ops 6, IPPROTO_TCP).
Proof. apply (protosw_permanent inetsw_init [Register sctp; Register clash; Unregister sctp]); [exact init_table_ok|reflexivity|reflexivity|vm_compute; reflexivity]. Defined.
Lemma protosw_returns_witness : exists sw1, inet_register_protosw inetsw_init sctp = Some sw1 /\ (sw_run sw1 [Register clash] ≫= fun sw2 => inet_unregister_protosw sw2 sctp) = Some inetsw_init /\ search_protocol sw1 SOCK_STREAM 132 = inr (sctp, 132).
Proof.
  destruct (protosw_returns inetsw_init sctp [Register clash] (default [] (inetsw_init !! SOCK_STREAM))) as (sw1 & H1 & H2 & H3); [exact init_table_ok|reflexivity|vm_compute; reflexivity|vm_compute; lia|vm_compute; reflexivity| | |].
  - by intros e [->|?%elem_of_nil]%elem_of_cons _.
  - by intros o [->|?%elem_of_nil]%elem_of_cons [?|?].
  - exists sw1. split; [exact H1|]. split; [rewrite H2; vm_compute; reflexivity|]. apply H3; [discriminate|]. by intros e [->|?%elem_of_nil]%elem_of_cons _.
Defined.
Lemma tcp_socket_ok_witness : exists m, inet_create (run_of [Register sctp]) Life.Demo.host 0 [0; 5] 0 SOCK_STREAM 0 false false = Some m /\ md_ops m = Some inet_stream_ops /\ md_err m = None /\ conn_inv (nt_tables (md_net m)).
Proof.
  destruct (tcp_socket_ok Life.Demo.host [Register sctp] (run_of [Register sctp]) 0 [0; 5] 0 0 false false) as (m & E & E1 & _ & _ & E2 & F); [vm_compute; reflexivity|exact Hashtables.Demo.host_conn|by left|reflexivity|right; right; left; discriminate|].
  exists m. split; [exact E|]. split; [exact (f_equal (fun t => snd (fst t)) E1)|]. split; [exact (f_equal fst E2)|exact (fk_conn _ _ _ _ F)].
Defined.
End Demo.
