(* ===== verification/Offload.v ===== *)
(** * Segmentation and receive offload

    net/ipv4/af_inet.c: inet_gso_segment, which gives the pieces of a large packet their IP headers,
    inet_gro_receive, which finds the held packet that a received one continues, inet_gso_send_check
    and inet_gro_complete; and the TCP side of it in net/ipv4/tcp_ipv4.c.  The theorems: the pieces
    of a packet carry its identification, its offsets and exact lengths and checksums, the word
    arithmetic of inet_gro_receive compares exactly what it is meant to, and what inet_gso_segment
    cuts inet_gro_receive puts together again.

    The cutting and joining of the transport payload (tcp_tso_segment, tcp_gro_receive: tcp.c) and the
    checksum routines are fields of the class [OffEnv]. *)

From stdpp Require Import gmap.
From S2P Require Import Prelude TcpTypes Kernel Ipv4.

(** struct iphdr.  A member of 16 or 32 bits is the number that its bytes in network order stand for,
    so that htons() of an int is [u16].  [ip_opts] are the bytes of the options. *)
#[projections(primitive)]
Record ip4hdr := mk_ip4 { version_ihl : Z; tos : Z; tot_len : Z; ip_id : Z; frag_off : Z; ttl : Z; protocol : Z; check : Z; ip_saddr : Z; ip_daddr : Z; ip_opts : list Z }.
Definition eta_ip4hdr (r : ip4hdr) : ip4hdr := mk_ip4 (version_ihl r) (tos r) (tot_len r) (ip_id r) (frag_off r) (ttl r) (protocol r) (check r) (ip_saddr r) (ip_daddr r) (ip_opts r).
#[export] Instance set_tot_len : Setter tot_len. Proof. solve_setter eta_ip4hdr. Defined.
#[export] Instance set_ip_id : Setter ip_id. Proof. solve_setter eta_ip4hdr. Defined.
#[export] Instance set_frag_off : Setter frag_off. Proof. solve_setter eta_ip4hdr. Defined.
#[export] Instance set_check : Setter check. Proof. solve_setter eta_ip4hdr. Defined.

(** struct sk_buff with its control block (NAPI_GRO_CB).  [g_off] is the offset that GRO has reached
    (skb_gro_offset), [g_net] and [g_transport] the offsets of the headers, [g_body] what follows the
    IP header but for the checksum of TCP, [th_check]. *)
#[projections(primitive)]
Record gpkt := mk_gpkt {
  g_iph : ip4hdr; g_body : list Z; th_check : Z;
  g_len : Z; g_mac_len : Z; g_net : Z; g_transport : Z; g_off : Z;
  gso_type : Z; g_summed : ip_summed; g_csum : Z; csum_start : Z;
  same_flow : bool; flush : Z; count : Z }.
Definition eta_gpkt (r : gpkt) : gpkt :=
  mk_gpkt (g_iph r) (g_body r) (th_check r) (g_len r) (g_mac_len r) (g_net r) (g_transport r) (g_off r) (gso_type r) (g_summed r) (g_csum r) (csum_start r) (same_flow r) (flush r) (count r).
#[export] Instance set_g_iph : Setter g_iph. Proof. solve_setter eta_gpkt. Defined.
#[export] Instance set_g_body : Setter g_body. Proof. solve_setter eta_gpkt. Defined.
#[export] Instance set_th_check : Setter th_check. Proof. solve_setter eta_gpkt. Defined.
#[export] Instance set_g_len : Setter g_len. Proof. solve_setter eta_gpkt. Defined.
#[export] Instance set_g_mac_len : Setter g_mac_len. Proof. solve_setter eta_gpkt. Defined.
#[export] Instance set_g_net : Setter g_net. Proof. solve_setter eta_gpkt. Defined.
#[export] Instance set_g_transport : Setter g_transport. Proof. solve_setter eta_gpkt. Defined.
#[export] Instance set_g_off : Setter g_off. Proof. solve_setter eta_gpkt. Defined.
#[export] Instance set_gso_type : Setter gso_type. Proof. solve_setter eta_gpkt. Defined.
#[export] Instance set_g_summed : Setter g_summed. Proof. solve_setter eta_gpkt. Defined.
#[export] Instance set_csum_start : Setter csum_start. Proof. solve_setter eta_gpkt. Defined.
#[export] Instance set_same_flow : Setter same_flow. Proof. solve_setter eta_gpkt. Defined.
#[export] Instance set_flush : Setter flush. Proof. solve_setter eta_gpkt. Defined.
#[export] Instance set_count : Setter count. Proof. solve_setter eta_gpkt. Defined.

Definition IP_DF : Z := 0x4000.
Definition IP_MF : Z := 0x2000.
Definition SIZEOF_IPHDR : Z := 20.
Definition SIZEOF_TCPHDR : Z := 20.
Definition PROTO_TCP : Z := 6.
Definition PROTO_UDP : Z := 17.
Definition INET_PROTOS : Z := 256. (* MAX_INET_PROTOS *)
Definition SKB_GSO_TCPV4 : Z := 1.
Definition SKB_GSO_UDP : Z := 2.
Definition SKB_GSO_DODGY : Z := 4.
Definition SKB_GSO_TCP_ECN : Z := 8.
(** The bit field of the length of the header, in words. *)
Definition ihl (h : ip4hdr) : Z := Z.land (version_ihl h) 15.

(** struct net_protocol; a result [None] of gso_send_check and gro_complete is 0, an empty list of
    segments is NULL. *)
Record net_protocol := mk_net_protocol {
  gso_send_check : option (gpkt -> option errno * gpkt);
  gso_segment : option (gpkt -> Z -> errno + list gpkt);
  gro_receive : option (list gpkt -> gpkt -> option nat * list gpkt * gpkt);
  gro_complete : option (gpkt -> option errno * gpkt) }.

Class OffEnv := {
  pskb_may_pull : gpkt -> Z -> bool;
  gro_header : gpkt -> Z -> bool; (* skb_gro_header_fast, or skb_gro_header_slow: the header is there *)
  ip_fast_csum : ip4hdr -> Z;
  csum_replace2 : Z -> Z -> Z -> Z;
  tcp_check : Z -> Z -> Z -> Z -> Z; (* tcp_v4_check *)
  tcp_csum_partial : gpkt -> Z -> Z; (* csum_partial over the TCP header *)
  tcp_tso_segment : gpkt -> Z -> errno + list gpkt;
  tcp_gro_receive : list gpkt -> gpkt -> option nat * list gpkt * gpkt;
  tcp_gro_complete : gpkt -> option errno * gpkt;
  off_protos : Z -> option net_protocol; (* inet_protos *)
  NETIF_F_V4_CSUM : Z;
  NETIF_F_SG : Z;
}.

Section Offload.
Context {E : OffEnv}.
Implicit Types (h : ip4hdr) (p skb : gpkt) (head : list gpkt).

(** ** TCP *)
Definition tcp_v4_send_check_ skb (saddr daddr : Z) : gpkt :=
  match g_summed skb with
  | CHECKSUM_PARTIAL => skb <| th_check := u16 (Z.lnot (tcp_check (g_len skb) saddr daddr 0)) |> <| csum_start := g_transport skb |>
  | _ => skb <| th_check := tcp_check (g_len skb) saddr daddr (tcp_csum_partial skb (g_csum skb)) |>
  end.
Definition tcp_v4_gso_send_check skb : option errno * gpkt :=
  if negb (pskb_may_pull skb SIZEOF_TCPHDR) then (Some EINVAL, skb)
  else
    let skb := skb <| th_check := 0 |> <| g_summed := CHECKSUM_PARTIAL |> in
    (None, tcp_v4_send_check_ skb (ip_saddr (g_iph skb)) (ip_daddr (g_iph skb))).
Definition gro_len skb : Z := u32 (g_len skb - g_off skb).
Definition tcp4_gro_receive head skb : option nat * list gpkt * gpkt :=
  let none := (None, head, skb <| flush := 1 |>) in
  match g_summed skb with
  | CHECKSUM_COMPLETE =>
    if tcp_check (gro_len skb) (ip_saddr (g_iph skb)) (ip_daddr (g_iph skb)) (g_csum skb) =? 0 then tcp_gro_receive head (skb <| g_summed := CHECKSUM_UNNECESSARY |>) else none
  | CHECKSUM_NONE => none
  | _ => tcp_gro_receive head skb
  end.
Definition tcp4_gro_complete skb : option errno * gpkt :=
  let skb := skb <| th_check := u16 (Z.lnot (tcp_check (g_len skb - g_transport skb) (ip_saddr (g_iph skb)) (ip_daddr (g_iph skb)) 0)) |> in
  tcp_gro_complete (skb <| gso_type := SKB_GSO_TCPV4 |>).
Definition tcp_protocol : net_protocol := mk_net_protocol (Some tcp_v4_gso_send_check) (Some tcp_tso_segment) (Some tcp4_gro_receive) (Some tcp4_gro_complete).

(** ** GSO *)

(** The checks of the header that inet_gso_send_check and inet_gso_segment share; the length of it. *)
Definition gso_header skb : option Z :=
  if negb (pskb_may_pull skb SIZEOF_IPHDR) then None
  else
    let l := ihl (g_iph skb) * 4 in
    if l <? SIZEOF_IPHDR then None else if negb (pskb_may_pull skb l) then None else Some l.
(** __skb_pull and skb_reset_transport_header *)
Definition skb_pull skb (l : Z) : gpkt := skb <| g_len := g_len skb - l |> <| g_net := g_net skb - l |> <| g_transport := 0 |>.
Definition inet_gso_send_check skb : option errno * gpkt :=
  match gso_header skb with
  | None => (Some EINVAL, skb)
  | Some l =>
    let skb := skb_pull skb l in
    match off_protos (Z.land (protocol (g_iph skb)) (INET_PROTOS - 1)) ≫= gso_send_check with
    | Some f => f skb
    | None => (Some EPROTONOSUPPORT, skb)
    end
  end.
(** The loop over the segments. *)
Fixpoint gso_headers (proto id offset : Z) (segs : list gpkt) : list gpkt :=
  match segs with
  | [] => []
  | skb :: rest =>
    let h := g_iph skb in
    let h := if proto =? PROTO_UDP then
               let h := h <| ip_id := u16 id |> <| frag_off := u16 (Z.shiftr offset 3) |> in
               match rest with [] => h | _ => h <| frag_off := Z.lor (frag_off h) IP_MF |> end
             else h <| ip_id := u16 id |> in
    let offset := if proto =? PROTO_UDP then u32 (offset + (g_len skb - g_mac_len skb - ihl h * 4)) else offset in
    let id := if proto =? PROTO_UDP then id else id + 1 in
    let h := h <| tot_len := u16 (g_len skb - g_mac_len skb) |> <| check := 0 |> in
    let h := h <| check := ip_fast_csum h |> in
    skb <| g_iph := h |> :: gso_headers proto id offset rest
  end.
Definition inet_gso_segment skb (features : Z) : errno + list gpkt :=
  let features := if negb (has features NETIF_F_V4_CSUM) then Z.land features (Z.lnot NETIF_F_SG) else features in
  if has (gso_type skb) (Z.lnot (Z.lor (Z.lor (Z.lor SKB_GSO_TCPV4 SKB_GSO_UDP) SKB_GSO_DODGY) SKB_GSO_TCP_ECN)) then inl EINVAL
  else match gso_header skb with
  | None => inl EINVAL
  | Some l =>
    let skb := skb_pull skb l in
    let id := ip_id (g_iph skb) in
    let proto := Z.land (protocol (g_iph skb)) (INET_PROTOS - 1) in
    match off_protos proto ≫= gso_segment with
    | Some f => match f skb features with inl e => inl e | inr segs => inr (gso_headers proto id 0 segs) end
    | None => inl EPROTONOSUPPORT
    end
  end.

(** ** GRO *)

(** The first and the second word of the header. *)
Definition word0 h : Z := Z.lor (Z.shiftl (version_ihl h) 24) (Z.lor (Z.shiftl (tos h) 16) (tot_len h)).
Definition word1 h : Z := Z.lor (Z.shiftl (ip_id h) 16) (frag_off h).
Definition gro_flush h (glen : Z) : Z := u16 (Z.lor (Z.lxor (word0 h) glen) (Z.lxor (word1 h) IP_DF)).
(** The body of the loop over the held packets. *)
Definition gro_mark h (id fl : Z) p : gpkt :=
  if negb (same_flow p) then p
  else
    let h2 := g_iph p in
    if negb (Z.lor (Z.lor (Z.lor (Z.lxor (protocol h) (protocol h2)) (Z.lxor (tos h) (tos h2))) (Z.lxor (ip_saddr h) (ip_saddr h2))) (Z.lxor (ip_daddr h) (ip_daddr h2)) =? 0)
    then p <| same_flow := false |>
    else
      let p := p <| flush := Z.lor (flush p) (Z.lor (Z.lxor (ttl h) (ttl h2)) (Z.lxor (u16 (ip_id h2 + count p)) id)) |> in
      p <| flush := Z.lor (flush p) fl |>.
Definition inet_gro_receive head skb : option nat * list gpkt * gpkt :=
  let none := (None, head, skb <| flush := Z.lor (flush skb) 1 |>) in
  if negb (gro_header skb (g_off skb + SIZEOF_IPHDR)) then none
  else
    let h := g_iph skb in
    match off_protos (Z.land (protocol h) (INET_PROTOS - 1)) ≫= gro_receive with
    | None => none
    | Some f =>
      if negb (version_ihl h =? 0x45) then none
      else if negb (ip_fast_csum h =? 0) then none
      else
        let fl := gro_flush h (gro_len skb) in
        let id := Z.shiftr (word1 h) 16 in
        let head := gro_mark h id fl <$> head in
        let skb := skb <| flush := Z.lor (flush skb) fl |> in
        let skb := skb <| g_off := g_off skb + SIZEOF_IPHDR |> in
        let skb := skb <| g_transport := g_off skb |> in
        let '(pp, head, skb) := f head skb in
        (pp, head, skb <| flush := Z.lor (flush skb) fl |>)
    end.
Definition inet_gro_complete skb : option errno * gpkt :=
  let h := g_iph skb in
  let newlen := u16 (g_len skb - g_net skb) in
  let skb := skb <| g_iph := h <| check := csum_replace2 (check h) (tot_len h) newlen |> <| tot_len := newlen |> |> in
  match off_protos (Z.land (protocol h) (INET_PROTOS - 1)) ≫= gro_complete with
  | None => (Some ENOSYS, skb)
  | Some f => f skb
  end.
End Offload.

(** ** The words of the header *)
Section Words.
Implicit Types (h : ip4hdr) (p skb : gpkt).

Definition hdr_wf h : Prop :=
  is_u8 (version_ihl h) /\ is_u8 (tos h) /\ is_u16 (tot_len h) /\ is_u16 (ip_id h) /\ is_u16 (frag_off h) /\ is_u8 (ttl h) /\ is_u8 (protocol h) /\ is_u16 (check h) /\ is_u32 (ip_saddr h) /\ is_u32 (ip_daddr h) /\ Forall is_u8 (ip_opts h).
Lemma u16_bits x i : 0 <= i -> Z.testbit (u16 x) i = (i <? 16) && Z.testbit x i.
Proof. intros Hi. unfold u16. rewrite <- Z.land_ones, Z.land_spec, Z.testbit_ones_nonneg, andb_comm by lia. done. Qed.
Lemma u16_lor x y : u16 (Z.lor x y) = Z.lor (u16 x) (u16 y).
Proof. apply Z.bits_inj'. intros i Hi. rewrite Z.lor_spec, !u16_bits, Z.lor_spec by done. by destruct (i <? 16). Qed.
Lemma u16_lxor x y : u16 (Z.lxor x y) = Z.lxor (u16 x) (u16 y).
Proof. apply Z.bits_inj'. intros i Hi. rewrite Z.lxor_spec, !u16_bits, Z.lxor_spec by done. by destruct (i <? 16). Qed.
Lemma u16_shift x n : 16 <= n -> u16 (Z.shiftl x n) = 0.
Proof. intros Hn. apply Z.bits_inj'. intros i Hi. rewrite u16_bits, Z.bits_0, Z.shiftl_spec by done. destruct (Z.ltb_spec i 16); [|done]. by rewrite Z.testbit_neg_r by lia. Qed.
Lemma u16_id x : is_u16 x -> u16 x = x.
Proof. intros Hx. by apply Z.mod_small. Qed.
(** What the word arithmetic of inet_gro_receive compares. *)
Lemma gro_flush_zero h glen : hdr_wf h -> gro_flush h glen = 0 <-> tot_len h = u16 glen /\ frag_off h = IP_DF.
Proof.
  intros (_ & _ & H1 & _ & H2 & _). unfold gro_flush, word0, word1. rewrite u16_lor, !u16_lxor, !u16_lor, !u16_shift, !Z.lor_0_l, (u16_id (tot_len h)), (u16_id (frag_off h)), (u16_id IP_DF), Z.lor_eq_0_iff, !Z.lxor_eq_0_iff by (done || lia). done.
Qed.
Lemma word1_id h : hdr_wf h -> Z.shiftr (word1 h) 16 = ip_id h.
Proof. intros (_ & _ & _ & _ & H2 & _). unfold word1. rewrite Z.shiftr_lor, Z.shiftr_shiftl_l, Z.shiftl_0_r, (Z.shiftr_div_pow2 (frag_off h)), Z.div_small, Z.lor_0_r by (done || lia). done. Qed.

(** [h] is of the flow of [h2]; and it follows it directly, [n] packets after it. *)
Definition same_stream h h2 : bool := (protocol h =? protocol h2) && (tos h =? tos h2) && (ip_saddr h =? ip_saddr h2) && (ip_daddr h =? ip_daddr h2).
Definition continues h h2 (n glen : Z) : Prop := ttl h = ttl h2 /\ ip_id h = u16 (ip_id h2 + n) /\ tot_len h = u16 glen /\ frag_off h = IP_DF.
Lemma gro_mark_ok h glen p : hdr_wf h -> let p' := gro_mark h (Z.shiftr (word1 h) 16) (gro_flush h glen) p in
  same_flow p' = same_flow p && same_stream h (g_iph p) /\ (same_flow p' = true -> flush p' = 0 <-> flush p = 0 /\ continues h (g_iph p) (count p) glen) /\ p' <| same_flow := same_flow p |> <| flush := flush p |> = p.
Proof.
  intros Hw. rewrite word1_id by done. unfold gro_mark. destruct (same_flow p) eqn:Hs; cbn [negb]; [|rewrite Hs; split_and!; [done..|by rewrite <- Hs]]. set (x := Z.lor _ _ =? 0). assert (Hx : x = same_stream h (g_iph p)).
  { unfold x, same_stream. apply eq_bool_prop_intro. rewrite !Is_true_true, !andb_true_iff, !Z.eqb_eq, !Z.lor_eq_0_iff, !Z.lxor_eq_0_iff. tauto. }
  rewrite <- Hx. destruct x; cbn [negb].
  - cbn. split_and!; [exact Hs| |by rewrite <- Hs]. intros _. rewrite !Z.lor_eq_0_iff, !Z.lxor_eq_0_iff, gro_flush_zero by done. unfold continues. intuition congruence.
  - cbn. split_and!; [done..|by rewrite <- Hs].
Qed.
End Words.

(** What the code around promises.  inet_init has registered TCP; a header is there when the packet is
    long enough; tcp_gro_complete leaves the IP header and the data alone; and the checksum of a header
    over itself is 0 once it is filled in, also when it has been updated for another length. *)
Class OffLaws (E : OffEnv) : Prop := {
  tcp_registered : off_protos PROTO_TCP = Some tcp_protocol;
  header_there skb n : n <= g_len skb -> gro_header skb n = true;
  gro_completes skb : exists skb', tcp_gro_complete skb = (None, skb') /\ g_iph skb' = g_iph skb /\ g_body skb' = g_body skb;
  csum_range h : is_u16 (ip_fast_csum h);
  csum_fill h : ip_fast_csum (h <| check := ip_fast_csum (h <| check := 0 |>) |>) = 0;
  csum_change h new : hdr_wf h -> version_ihl h = 0x45 -> is_u16 new -> ip_fast_csum h = 0 -> ip_fast_csum (h <| check := csum_replace2 (check h) (tot_len h) new |> <| tot_len := new |>) = 0;
}.

(** ** The pieces of a packet *)
Section Pieces.
Context {E : OffEnv} {L : OffLaws E}.
Implicit Types (h : ip4hdr) (s q skb : gpkt) (segs qs : list gpkt).

(** What is not rewritten in a header. *)
Definition hdr_core h := (version_ihl h, tos h, ttl h, protocol h, (ip_saddr h, ip_daddr h, ip_opts h)).
Definition payload s : Z := g_len s - g_mac_len s - ihl (g_iph s) * 4.
Definition total segs : Z := foldr (fun s a => payload s + a) 0 segs.
(** [q] is the piece [s] with its header, the [k]-th. *)
Record piece (s q : gpkt) : Prop := {
  pc_same : q = s <| g_iph := g_iph q |>;
  pc_core : hdr_core (g_iph q) = hdr_core (g_iph s);
  pc_len : tot_len (g_iph q) = u16 (g_len s - g_mac_len s);
  pc_csum : ip_fast_csum (g_iph q) = 0;
  pc_check : is_u16 (check (g_iph q));
}.
Lemma csum_filled h : ip_fast_csum ((h <| check := 0 |>) <| check := ip_fast_csum (h <| check := 0 |>) |>) = 0.
Proof using L. exact (csum_fill h). Qed.
Lemma gso_headers_length proto segs : forall id off, length (gso_headers proto id off segs) = length segs.
Proof. induction segs as [|s segs IH]; intros id off; [done|]. cbn. by rewrite IH. Qed.
Lemma gso_headers_piece proto segs : forall id off k s q, segs !! k = Some s -> gso_headers proto id off segs !! k = Some q -> piece s q.
Proof using L.
  induction segs as [|s0 segs IH]; intros id off [|k] s q; cbn; [done|done| |apply IH]. intros Hs Hq. injection Hs as <-. injection Hq as <-. destruct (proto =? PROTO_UDP); [destruct segs|]; (split; [done|done|done|apply csum_filled|apply csum_range]).
Qed.
Lemma gso_headers_id proto segs : proto <> PROTO_UDP -> forall id off k s q, segs !! k = Some s -> gso_headers proto id off segs !! k = Some q -> ip_id (g_iph q) = u16 (id + Z.of_nat k) /\ frag_off (g_iph q) = frag_off (g_iph s).
Proof using Type.
  intros Hp. induction segs as [|s0 segs IH]; intros id off [|k] s q; cbn; [done|done| |]; rewrite (proj2 (Z.eqb_neq _ _) Hp).
  - intros Hs Hq. injection Hs as <-. injection Hq as <-. split; [|done]. cbn. by rewrite Z.add_0_r.
  - intros Hs Hq. destruct (IH _ _ _ _ _ Hs Hq) as [-> ->]. split; [|done]. f_equal. lia.
Qed.
Lemma total_nonneg segs : Forall (fun s => 0 <= payload s) segs -> 0 <= total segs.
Proof using Type. induction 1 as [|s segs Hs _ IH]; [done|]. change (total (s :: segs)) with (payload s + total segs). lia. Qed.
Lemma gso_headers_frag segs : forall id off k s q, 0 <= off -> Forall (fun s => 0 <= payload s) segs -> off + total segs < 2 ^ 16 -> segs !! k = Some s -> gso_headers PROTO_UDP id off segs !! k = Some q ->
  ip_id (g_iph q) = u16 id /\ frag_off (g_iph q) = Z.lor (Z.shiftr (off + total (take k segs)) 3) (if Nat.eqb (S k) (length segs) then 0 else IP_MF).
Proof using Type.
  induction segs as [|s0 segs IH]; intros id off k s q Ho Hf Ht; [done|]. apply Forall_cons in Hf as [H0 Hf]. pose proof (total_nonneg segs Hf) as Hn. change (total (s0 :: segs)) with (payload s0 + total segs) in Ht. assert (Hsh : forall x, 0 <= x < 2 ^ 16 -> u16 (Z.shiftr x 3) = Z.shiftr x 3) by (intros x Hx; apply u16_id; rewrite Z.shiftr_div_pow2 by done; unfold is_u16; change (2 ^ 3) with 8; split; [apply Z.div_pos|apply Z.div_lt_upper_bound]; lia).
  destruct k as [|k]; cbn [lookup list_lookup gso_headers].
  - intros Hs Hq. injection Hs as <-. injection Hq as <-. change (PROTO_UDP =? PROTO_UDP) with true. cbn [take total foldr]. rewrite Z.add_0_r. destruct segs; cbn; rewrite Hsh by lia; [by rewrite Z.lor_0_r|done].
  - change (PROTO_UDP =? PROTO_UDP) with true. cbn iota. intros Hs Hq. set (h1 := match segs with [] => _ | _ => _ end) in Hq. assert (Eh : ihl h1 = ihl (g_iph s0)) by (unfold h1; by destruct segs). rewrite Eh in Hq. change (g_len s0 - g_mac_len s0 - ihl (g_iph s0) * 4) with (payload s0) in Hq. unfold u32 in Hq. rewrite Z.mod_small in Hq by lia.
    destruct (IH id (off + payload s0) k s q ltac:(lia) Hf ltac:(lia) Hs Hq) as [-> ->]. split; [done|]. cbn [take]. change (total (s0 :: take k segs)) with (payload s0 + total (take k segs)). by rewrite Z.add_assoc.
Qed.
Lemma frag_split o (last : bool) : 0 <= o < 2 ^ 16 -> o mod 8 = 0 -> let f := Z.lor (Z.shiftr o 3) (if last then 0 else IP_MF) in Z.land f 0x1FFF * 8 = o /\ has f IP_MF = negb last.
Proof using Type.
  intros Ho H8. set (x := Z.shiftr o 3). assert (Hx : x = o / 8) by (unfold x; by rewrite Z.shiftr_div_pow2). assert (Hr : 0 <= x < 2 ^ 13) by (rewrite Hx; split; [apply Z.div_pos|apply Z.div_lt_upper_bound]; lia). assert (Hl : Z.land x 0x1FFF = x) by (change 0x1FFF with (Z.ones 13); rewrite Z.land_ones by done; by apply Z.mod_small). assert (Hm : Z.land x IP_MF = 0).
  { change IP_MF with (2 ^ 13). rewrite land_pow2 by done. replace (Z.testbit x 13) with false; [done|]. symmetry. apply Z.testbit_false; [done|]. by rewrite Z.div_small. }
  cbn zeta. unfold has. rewrite !Z.land_lor_distr_l, Hl, Hm. destruct last; cbn [negb]; rewrite ?Z.land_0_l, ?Z.lor_0_r; (split; [|done]); rewrite ?Z.lor_0_r, Hx; pose proof (Z.div_mod o 8); lia.
Qed.

Lemma segment_inv skb features qs : inet_gso_segment skb features = inr qs ->
  let proto := Z.land (protocol (g_iph skb)) (INET_PROTOS - 1) in
  exists l f feats segs, gso_header skb = Some l /\ off_protos proto ≫= gso_segment = Some f /\ f (skb_pull skb l) feats = inr segs /\ qs = gso_headers proto (ip_id (g_iph skb)) 0 segs.
Proof using Type.
  unfold inet_gso_segment. set (feats := if negb _ then _ else _). case_match; [done|]. destruct (gso_header skb) as [l|] eqn:El; [|done]. change (g_iph (skb_pull skb l)) with (g_iph skb). set (proto := Z.land _ _). destruct (off_protos proto ≫= gso_segment) as [f|] eqn:Ef; [|done]. destruct (f (skb_pull skb l) feats) as [e|segs] eqn:Es; [done|]. intros Hq. injection Hq as <-. by exists l, f, feats, segs.
Qed.
(** The pieces of a packet.  What the protocol has cut comes out of inet_gso_segment piece by
    piece, with the data unchanged and a header that differs from that of the packet in its length,
    which is that of the piece, its identification, its fragment offset and its checksum, which is
    right.  The segments of TCP (and of any protocol but UDP) are numbered from the identification of
    the packet on; the fragments of UDP share it, and, where their payloads are multiples of 8 and
    below 64 KB together, each has the offset of its data in the datagram and all but the last have
    the mark that more follow. *)
Theorem gso_segment_ok skb features qs : inet_gso_segment skb features = inr qs ->
  let proto := Z.land (protocol (g_iph skb)) (INET_PROTOS - 1) in
  exists l f feats segs, gso_header skb = Some l /\ off_protos proto ≫= gso_segment = Some f /\ f (skb_pull skb l) feats = inr segs /\ length qs = length segs /\
  forall k s q, segs !! k = Some s -> qs !! k = Some q -> piece s q /\
    (proto <> PROTO_UDP -> ip_id (g_iph q) = u16 (ip_id (g_iph skb) + Z.of_nat k) /\ frag_off (g_iph q) = frag_off (g_iph s)) /\
    (proto = PROTO_UDP -> Forall (fun s => 0 <= payload s) segs -> total segs < 2 ^ 16 -> Forall (fun s => payload s mod 8 = 0) (take k segs) ->
       ip_id (g_iph q) = u16 (ip_id (g_iph skb)) /\ Z.land (frag_off (g_iph q)) 0x1FFF * 8 = total (take k segs) /\ has (frag_off (g_iph q)) IP_MF = negb (Nat.eqb (S k) (length segs))).
Proof using L.
  intros Hg proto. destruct (segment_inv _ _ _ Hg) as (l & f & feats & segs & Hl & Hf & Hs0 & ->). fold proto in Hf |- *.
  exists l, f, feats, segs. split_and!; [done..|by rewrite gso_headers_length|]. intros k s q Hs Hq. split_and!; [by eapply gso_headers_piece|intros Hp; by eapply gso_headers_id|]. intros -> Hn Ht H8. destruct (gso_headers_frag segs (ip_id (g_iph skb)) 0 k s q ltac:(lia) Hn ltac:(lia) Hs Hq) as [-> ->]. split; [done|]. rewrite Z.add_0_l. apply frag_split.
  - split; [apply total_nonneg; by apply Forall_take|]. assert (total (take k segs) <= total segs); [|lia]. rewrite <- (take_drop k segs) at 2. clear -Hn. rewrite <- (take_drop k segs) in Hn. apply Forall_app in Hn as [_ Hn]. apply total_nonneg in Hn. induction (take k segs) as [|a l IH]; [done|]. change (total (a :: l) <= payload a + total (l ++ drop k segs)). change (total (a :: l)) with (payload a + total l). lia.
  - induction H8 as [|a l' Ha _ IH]; [done|]. change (total (a :: l')) with (payload a + total l'). rewrite Z.add_mod, Ha, IH by lia. done.
Qed.
End Pieces.

(** ** Cutting and joining *)

(** What TCP promises, on the bodies of its segments: [follows a b] says that [b] continues [a] (ports,
    sequence numbers, flags), and [join] is the segment that carries both.  tcp_tso_segment copies the
    headers and cuts the body into pieces that follow each other; tcp_gro_receive joins a packet to the
    held one when the IP layer has found them to match. *)
Section Laws.
Context (follows : list Z -> list Z -> bool) (join : list Z -> list Z -> list Z).
Fixpoint joins (acc : list Z) (l : list (list Z)) (body : list Z) : Prop := match l with [] => acc = body | b :: l => follows acc b = true /\ joins (join acc b) l body end.
Definition cut_of (skb s : gpkt) : Prop := g_iph s = g_iph skb /\ g_len s = g_mac_len s + ihl (g_iph s) * 4 + Z.of_nat (length (g_body s)).
Definition joined (p skb : gpkt) : gpkt := p <| g_body := join (g_body p) (g_body skb) |> <| g_len := g_len p + (Z.of_nat (length (join (g_body p) (g_body skb))) - Z.of_nat (length (g_body p))) |> <| count := count p + 1 |>.
Class TcpOffLaws (E : OffEnv) : Prop := {
  tso_cuts skb f segs : tcp_tso_segment skb f = inr segs -> exists s0 rest, segs = s0 :: rest /\ Forall (cut_of skb) segs /\ joins (g_body s0) (g_body <$> rest) (g_body skb);
  gro_joins p skb : same_flow p = true -> flush p = 0 -> flush skb = 0 -> g_summed skb = CHECKSUM_UNNECESSARY -> follows (g_body p) (g_body skb) = true -> exists pp skb', tcp_gro_receive [p] skb = (pp, [joined p skb], skb');
}.
End Laws.

(** The packet on the wire, as the receiver gets it from a device that has checked it; and the receiver,
    which holds [p], takes the next one. *)
Definition wire (q : gpkt) : gpkt :=
  q <| g_len := g_len q - g_mac_len q |> <| g_mac_len := 0 |> <| g_net := 0 |> <| g_off := 0 |> <| g_summed := CHECKSUM_UNNECESSARY |> <| same_flow := false |> <| flush := 0 |> <| count := 1 |>.
Definition hold {E : OffEnv} (p q : gpkt) : gpkt :=
  let '(_, head, _) := inet_gro_receive [p <| same_flow := true |> <| flush := 0 |>] (wire q) in
  match head with p :: _ => p | [] => p end.

Section RoundTrip.
Context {E : OffEnv} {L : OffLaws E} {follows : list Z -> list Z -> bool} {join : list Z -> list Z -> list Z} {T : TcpOffLaws follows join E}.
Implicit Types (h : ip4hdr) (p q skb : gpkt).

(** The held packet after [k] pieces. *)
Record holding h (k : Z) (acc : list Z) p : Prop := {
  hd_iph : g_iph p = h;
  hd_body : g_body p = acc;
  hd_count : count p = k;
  hd_len : g_len p = 20 + Z.of_nat (length acc);
  hd_net : g_net p = 0;
}.
(** A piece of [skb] with its header. *)
Definition sent skb (k : Z) q : Prop :=
  hdr_core (g_iph q) = hdr_core (g_iph skb) /\ ip_id (g_iph q) = u16 (ip_id (g_iph skb) + k) /\ frag_off (g_iph q) = IP_DF /\ tot_len (g_iph q) = u16 (20 + Z.of_nat (length (g_body q))) /\
  g_len q - g_mac_len q = 20 + Z.of_nat (length (g_body q)) /\ ip_fast_csum (g_iph q) = 0 /\ is_u16 (check (g_iph q)).
Definition plain skb : Prop := hdr_wf (g_iph skb) /\ version_ihl (g_iph skb) = 0x45 /\ protocol (g_iph skb) = PROTO_TCP.
Lemma sent_wf skb k q : plain skb -> sent skb k q -> hdr_wf (g_iph q) /\ version_ihl (g_iph q) = 0x45 /\ protocol (g_iph q) = PROTO_TCP.
Proof using Type.
  intros ((W1 & W2 & W3 & W4 & W5 & W6 & W7 & W8 & W9) & V & P) (C & J1 & J2 & J3 & _ & _ & K). unfold hdr_core in C. injection C as C1 C2 C3 C4 C5 C6 C7. unfold hdr_wf. rewrite J1, J2, J3, C1, C2, C3, C4, C5, C6, C7. split_and!; try done; try apply u16_range; apply W9.
Qed.
Lemma hold_ok skb q0 k acc p q : plain skb -> sent skb 0 q0 -> sent skb k q -> follows acc (g_body q) = true -> holding (g_iph q0) k acc p -> holding (g_iph q0) (k + 1) (join acc (g_body q)) (hold p q).
Proof using L T.
  intros Hp H0 Hq Hf [E1 E2 E3 E4 E5]. destruct (sent_wf skb k q Hp Hq) as (Wq & Vq & Pq). destruct Hq as (C & I & F & TL & G & CS & _). destruct H0 as (C0 & I0 & F0 & _). unfold hold, inet_gro_receive. set (p0 := p <| same_flow := true |> <| flush := 0 |>). change (g_iph (wire q)) with (g_iph q). change (g_off (wire q)) with 0.
  rewrite header_there by (change (g_len (wire q)) with (g_len q - g_mac_len q); unfold SIZEOF_IPHDR; lia). rewrite Pq. change (Z.land PROTO_TCP (INET_PROTOS - 1)) with PROTO_TCP. rewrite tcp_registered, Vq, CS. cbn [negb mbind option_bind tcp_protocol gro_receive]. change (0x45 =? 0x45) with true. change (0 =? 0) with true. cbn [negb]. cbn iota beta zeta.
  assert (Fl : gro_flush (g_iph q) (gro_len (wire q)) = 0).
  { apply gro_flush_zero; [done|]. split; [|done]. rewrite TL. change (gro_len (wire q)) with (u32 (g_len q - g_mac_len q - 0)). rewrite Z.sub_0_r, G. warith. }
  destruct (gro_mark_ok (g_iph q) (gro_len (wire q)) p0 Wq) as (M1 & M2 & M3). rewrite Fl in M1, M2, M3 |- *. cbn [fmap list_fmap]. set (p1 := gro_mark _ _ _ p0) in *. set (skb2 := set g_transport _ _).
  assert (Hs : same_flow p1 = true).
  { rewrite M1. change (same_flow p0) with true. change (g_iph p0) with (g_iph p). rewrite E1. unfold same_stream. unfold hdr_core in C, C0. rewrite <- C0 in C. injection C as _ B2 _ B4 B5 B6 _. rewrite B2, B4, B5, B6, !Z.eqb_refl. done. }
  assert (Hz : flush p1 = 0).
  { apply (M2 Hs). split; [done|]. change (g_iph p0) with (g_iph p). change (count p0) with (count p). rewrite E1, E3. unfold hdr_core in C, C0. rewrite <- C0 in C. injection C as _ _ B3 _ _ _ _. split_and!; [done|rewrite I, I0, Z.add_0_r; warith| |done]. apply (gro_flush_zero (g_iph q)) in Fl as [Fl _]; done. }
  assert (F1 : g_iph p1 = g_iph p) by exact (f_equal g_iph M3). assert (F2 : g_body p1 = g_body p) by exact (f_equal g_body M3). assert (F3 : g_len p1 = g_len p) by exact (f_equal g_len M3). assert (F4 : g_net p1 = g_net p) by exact (f_equal g_net M3). assert (F5 : count p1 = count p) by exact (f_equal count M3). clearbody p1.
  change (tcp4_gro_receive [p1] skb2) with (tcp_gro_receive [p1] skb2). destruct (gro_joins _ _ p1 skb2 Hs Hz eq_refl eq_refl) as (pp & skb' & ->); [rewrite F2, E2; exact Hf|]. unfold joined. change (g_body skb2) with (g_body q). rewrite F2, E2. split; cbn; [congruence|done|congruence| |congruence]. rewrite F3, E4. lia.
Qed.
Lemma hold_all skb q0 : plain skb -> sent skb 0 q0 -> forall qs k acc p body, (forall j q, qs !! j = Some q -> sent skb (k + Z.of_nat j) q) -> joins follows join acc (g_body <$> qs) body -> holding (g_iph q0) k acc p -> holding (g_iph q0) (k + Z.of_nat (length qs)) body (foldl hold p qs).
Proof using L T.
  intros Hp H0. induction qs as [|q qs IH]; intros k acc p body Hq Hj Hh; [cbn in Hj; subst body; by rewrite Z.add_0_r|]. destruct Hj as [Hf Hj]. cbn [foldl length]. replace (k + Z.of_nat (S (length qs))) with (k + 1 + Z.of_nat (length qs)) by lia. apply (IH (k + 1) (join acc (g_body q))); [|done|].
  - intros j q' Hj'. replace (k + 1 + Z.of_nat j) with (k + Z.of_nat (S j)) by lia. by apply (Hq (S j)).
  - apply (hold_ok skb); [done..| |done|done]. specialize (Hq 0%nat q eq_refl). by rewrite Z.add_0_r in Hq.
Qed.
(** The pieces of a TCP packet, as inet_gso_segment sends them. *)
Lemma segments_sent skb features qs : plain skb -> frag_off (g_iph skb) = IP_DF -> inet_gso_segment skb features = inr qs ->
  exists q0 rest, qs = q0 :: rest /\ (forall k q, qs !! k = Some q -> sent skb (Z.of_nat k) q) /\ joins follows join (g_body q0) (g_body <$> rest) (g_body skb).
Proof using L T.
  intros (Hw & Hv & Hp) Hd Hg. destruct (segment_inv skb features qs Hg) as (l & f & feats & segs & _ & Ef & Es & ->). rewrite Hp in Ef |- *. change (Z.land PROTO_TCP (INET_PROTOS - 1)) with PROTO_TCP in *. rewrite tcp_registered in Ef. injection Ef as <-. destruct (tso_cuts _ _ _ _ _ Es) as (s0 & rest & E0 & Hc & Hj).
  set (qs := gso_headers PROTO_TCP (ip_id (g_iph skb)) 0 segs). assert (Hb : g_body <$> qs = g_body <$> segs).
  { apply list_eq. intros k. rewrite !list_lookup_fmap. destruct (segs !! k) as [s|] eqn:Ek; destruct (qs !! k) as [q|] eqn:Eq; [|apply lookup_lt_Some in Ek; apply lookup_ge_None in Eq; unfold qs in Eq; rewrite gso_headers_length in Eq; lia|apply lookup_lt_Some in Eq; apply lookup_ge_None in Ek; unfold qs in Eq; rewrite gso_headers_length in Eq; lia|done]. pose proof (pc_same _ _ (gso_headers_piece _ _ _ _ _ _ _ Ek Eq)) as ->. done. }
  assert (Hs : forall k q, qs !! k = Some q -> sent skb (Z.of_nat k) q).
  { intros k q Eq. destruct (segs !! k) as [s|] eqn:Ek; [|apply lookup_lt_Some in Eq; apply lookup_ge_None in Ek; unfold qs in Eq; rewrite gso_headers_length in Eq; lia]. destruct (gso_headers_piece _ _ _ _ _ _ _ Ek Eq) as [P1 P2 P3 P4 P7]. destruct (gso_headers_id PROTO_TCP segs ltac:(done) _ _ _ _ _ Ek Eq) as [P5 P6]. rewrite Forall_lookup in Hc. destruct (Hc k s Ek) as [C1 C2]. rewrite C1 in C2, P2, P6. change (g_iph (skb_pull skb l)) with (g_iph skb) in C2, P2, P6. unfold ihl in C2. rewrite Hv in C2. change (Z.land 0x45 15 * 4) with 20 in C2.
    rewrite P1. unfold sent. cbn. rewrite P2, P3, P4, P5, P6. split_and!; try done; [f_equal; lia|lia]. }
  clearbody qs. rewrite E0 in Hb. destruct qs as [|q0 qs']; [done|]. exists q0, qs'. split; [done|]. split; [exact Hs|]. rewrite !fmap_cons in Hb. injection Hb as Hb1 Hb2. change (g_body q0 = g_body s0) in Hb1. rewrite Hb1, Hb2. exact Hj.
Qed.

(** C26. What inet_gso_segment cuts inet_gro_receive joins.  A TCP packet without IP options that must
    not be fragmented, cut into segments by TCP and inet_gso_segment, and received one by one by a
    device that has checked them, ends as one held packet with all segments counted, which
    inet_gro_complete gives the data, the identification and all other members of the original
    header, the length of the whole packet, and a right checksum.  The property is about the IP
    headers: the data is cut and joined by tcp_tso_segment and tcp_gro_receive, as their laws say. *)
Theorem gso_gro_roundtrip skb features qs : plain skb -> frag_off (g_iph skb) = IP_DF -> inet_gso_segment skb features = inr qs ->
  exists q0 rest, qs = q0 :: rest /\ count (foldl hold (wire q0) rest) = Z.of_nat (length qs) /\
  exists p, inet_gro_complete (foldl hold (wire q0) rest) = (None, p) /\ g_body p = g_body skb /\ hdr_core (g_iph p) = hdr_core (g_iph skb) /\ ip_id (g_iph p) = ip_id (g_iph skb) /\ frag_off (g_iph p) = IP_DF /\
    tot_len (g_iph p) = u16 (20 + Z.of_nat (length (g_body skb))) /\ ip_fast_csum (g_iph p) = 0.
Proof using L T.
  intros Hp Hd Hg. destruct (segments_sent skb features qs Hp Hd Hg) as (q0 & rest & -> & Hs & Hj). exists q0, rest. split; [done|]. pose proof (Hs 0%nat q0 eq_refl) as H0. assert (Hh : holding (g_iph q0) 1 (g_body q0) (wire q0)) by (split; try done; apply H0).
  apply (hold_all skb q0 Hp H0 rest 1 (g_body q0) (wire q0) (g_body skb)) in Hh; [|intros j q Hq; replace (1 + Z.of_nat j) with (Z.of_nat (S j)) by lia; by apply Hs|done]. destruct Hh as [E1 E2 E3 E4 E5]. set (p := foldl hold (wire q0) rest) in *. clearbody p. split; [rewrite E3; cbn; lia|].
  destruct (sent_wf skb 0 q0 Hp H0) as (Wq & Vq & Pq). destruct H0 as (C & J & F & TL & _ & CS & _). unfold inet_gro_complete. rewrite E1, Pq. change (Z.land PROTO_TCP (INET_PROTOS - 1)) with PROTO_TCP. rewrite tcp_registered. cbn [mbind option_bind tcp_protocol gro_complete]. unfold tcp4_gro_complete. match goal with |- context [tcp_gro_complete ?s] => destruct (gro_completes s) as (p' & -> & G1 & G2) end.
  exists p'. split; [done|]. rewrite G2, G1. cbn. rewrite E4, E5, Z.sub_0_r. split_and!; [done|exact C|rewrite J, Z.add_0_r; by apply u16_id, Hp|done|done|apply csum_change; [done..|apply u16_range|done]].
Qed.
End RoundTrip.


Module Demo.
(** The one's complement sum of the header. *)
Fixpoint opt_sum (l : list Z) : Z := match l with a :: b :: l => a * 256 + b + opt_sum l | [a] => a * 256 | [] => 0 end.
Definition hdr_sum (h : ip4hdr) : Z :=
  version_ihl h * 256 + tos h + tot_len h + ip_id h + frag_off h + ttl h * 256 + protocol h + check h + ip_saddr h / 65536 + ip_saddr h mod 65536 + ip_daddr h / 65536 + ip_daddr h mod 65536 + opt_sum (ip_opts h).
Definition fold16 (x : Z) : Z := 1 + (x - 1) mod 65535.
Definition csum (h : ip4hdr) : Z := 65535 - fold16 (hdr_sum h).
(** A segment is its sequence number and its data; TSO cuts it into single bytes. *)
Definition follows (a b : list Z) : bool := match a, b with s :: d, s' :: _ => s' =? s + Z.of_nat (length d) | _, _ => false end.
Definition join (a b : list Z) : list Z := a ++ tail b.
Fixpoint pieces (seq : Z) (d : list Z) : list (list Z) := match d with [] => [] | x :: d => [seq; x] :: pieces (seq + 1) d end.
Definition framed (skb : gpkt) (b : list Z) : gpkt := skb <| g_body := b |> <| g_mac_len := 14 |> <| g_len := 14 + ihl (g_iph skb) * 4 + Z.of_nat (length b) |>.
Definition tso (skb : gpkt) (features : Z) : errno + list gpkt := match g_body skb with seq :: x :: d => inr (framed skb <$> pieces seq (x :: d)) | _ => inl EINVAL end.
Definition gro (head : list gpkt) (skb : gpkt) : option nat * list gpkt * gpkt :=
  match head with
  | [p] => if same_flow p && (flush p =? 0) && (flush skb =? 0) && follows (g_body p) (g_body skb) then (None, [joined join p skb], skb) else (None, head, skb)
  | _ => (None, head, skb)
  end.
Definition base : OffEnv := {|
  pskb_may_pull skb n := n <=? g_len skb; gro_header skb n := n <=? g_len skb;
  ip_fast_csum := csum; csum_replace2 c old new := 65535 - fold16 (65535 - c + (65535 - old) + new);
  tcp_check _ _ _ _ := 0; tcp_csum_partial _ c := c;
  tcp_tso_segment := tso; tcp_gro_receive := gro; tcp_gro_complete skb := (None, skb);
  off_protos _ := None; NETIF_F_V4_CSUM := 2; NETIF_F_SG := 1; |}.
#[local] Instance env : OffEnv := {|
  pskb_may_pull := @pskb_may_pull base; gro_header := @gro_header base;
  ip_fast_csum := @ip_fast_csum base; csum_replace2 := @csum_replace2 base;
  tcp_check := @tcp_check base; tcp_csum_partial := @tcp_csum_partial base;
  tcp_tso_segment := @tcp_tso_segment base; tcp_gro_receive := @tcp_gro_receive base; tcp_gro_complete := @tcp_gro_complete base;
  off_protos k := if k =? PROTO_TCP then Some (@tcp_protocol base) else if k =? PROTO_UDP then Some (mk_net_protocol None (Some (fun skb _ => inr [framed skb (replicate 16 0); framed skb (replicate 5 1)])) None None) else None;
  NETIF_F_V4_CSUM := 2; NETIF_F_SG := 1; |}.
#[local] Instance env_laws : OffLaws env.
Proof.
  split; [done|intros skb n Hn; by apply Z.leb_le|intros skb; by exists skb| | |].
  - intros h. cbn. unfold csum, fold16, is_u16. pose proof (Z.mod_pos_bound (hdr_sum h - 1) 65535). lia.
  - intros h. cbn. unfold csum, fold16. set (s := hdr_sum (h <| check := 0 |>)). set (c := 65535 - (1 + (s - 1) mod 65535)). assert (Hs : hdr_sum (h <| check := c |>) = s + c) by (unfold s, hdr_sum; cbn; lia). rewrite Hs. unfold c. clearbody s. Z.div_mod_to_equations. lia.
  - intros h new _ _ _. cbn. unfold csum, fold16. set (c := 65535 - (1 + (65535 - check h + (65535 - tot_len h) + new - 1) mod 65535)). assert (Hs : hdr_sum (h <| check := c |> <| tot_len := new |>) = hdr_sum h - check h + c - tot_len h + new) by (unfold hdr_sum; cbn; lia). rewrite Hs. unfold c. set (s := hdr_sum h). clearbody s. intros H0. Z.div_mod_to_equations. lia.
Qed.
Lemma pieces_join seq d : forall pre, joins follows join (seq :: pre) (pieces (seq + Z.of_nat (length pre)) d) (seq :: pre ++ d).
Proof.
  induction d as [|x d IH]; intros pre; cbn; [by rewrite app_nil_r|]. split; [by apply Z.eqb_eq|]. specialize (IH (pre ++ [x])). rewrite length_app in IH. cbn in IH. rewrite <- app_assoc in IH. replace (seq + Z.of_nat (length pre) + 1) with (seq + Z.of_nat (length pre + 1)) by lia. exact IH.
Qed.
#[local] Instance env_tcp : TcpOffLaws follows join env.
Proof.
  split.
  - intros skb f segs. cbn. unfold tso. destruct (g_body skb) as [|seq [|x d]]; [done..|]. intros Hs. injection Hs as <-. eexists _, _. split; [reflexivity|]. split.
    + change (Forall (cut_of skb) (framed skb <$> pieces seq (x :: d))). apply Forall_fmap, Forall_true. intros b. split; [done|]. cbn. lia.
    + pose proof (pieces_join seq d [x]) as Hj. cbn [length] in Hj. change (Z.of_nat 1) with 1 in Hj. rewrite <- list_fmap_compose, (list_fmap_ext _ id) by done. rewrite list_fmap_id. exact Hj.
  - intros p skb H1 H2 H3 _ H4. exists None, skb. cbn. unfold gro. by rewrite H1, H2, H3, H4.
Qed.
Definition h0 := mk_ip4 0x45 0 24 65535 IP_DF 64 PROTO_TCP 0 167772161 167772162 [].
Definition big := mk_gpkt h0 [1000; 7; 8; 9] 0 24 14 0 20 0 SKB_GSO_TCPV4 CHECKSUM_PARTIAL 0 0 false 0 0.
Definition cut := match inet_gso_segment big 0 with inr qs => qs | inl _ => [] end.
(** Three segments; the identification wraps around. *)
Example cut_ids : (fun q => (ip_id (g_iph q), tot_len (g_iph q), g_body q)) <$> cut = [(65535, 22, [1000; 7]); (0, 22, [1001; 8]); (1, 22, [1002; 9])].
Proof. reflexivity. Qed.
Lemma gso_gro_roundtrip_witness : exists q0 rest p, cut = q0 :: rest /\ inet_gro_complete (foldl hold (wire q0) rest) = (None, p) /\ g_body p = [1000; 7; 8; 9] /\ ip_id (g_iph p) = 65535.
Proof.
  destruct (gso_gro_roundtrip (follows := follows) (join := join) big 0 cut) as (q0 & rest & E0 & _ & p & E1 & E2 & _ & E3 & _); [|reflexivity|reflexivity|exists q0, rest, p; by split_and!]. split_and!; [|done|done]. vm_compute. intuition (discriminate || constructor).
Defined.
Definition datagram := big <| g_iph := mk_ip4 0x45 0 41 7 0 64 PROTO_UDP 0 167772161 167772162 [] |> <| gso_type := SKB_GSO_UDP |>.
Lemma gso_segment_ok_witness : exists qs, inet_gso_segment datagram 0 = inr qs /\ (fun q => (ip_id (g_iph q), Z.land (frag_off (g_iph q)) 0x1FFF * 8, has (frag_off (g_iph q)) IP_MF)) <$> qs !! 1%nat = Some (7, 16, false).
Proof.
  destruct (inet_gso_segment datagram 0) as [e|qs] eqn:Eg; [vm_compute in Eg; discriminate|]. exists qs. split; [reflexivity|]. destruct (gso_segment_ok datagram 0 qs Eg) as (l & f & feats & segs & E1 & E2 & E3 & E4 & E5). injection E2 as <-. injection E3 as <-. destruct (qs !! 1%nat) as [q|] eqn:Eq; [|apply lookup_ge_None in Eq; rewrite E4 in Eq; cbn in Eq; lia].
  destruct (E5 1%nat _ q eq_refl Eq) as (_ & _ & H). vm_compute in E1. injection E1 as <-. destruct H as (H1 & H2 & H3); [reflexivity|repeat constructor; vm_compute; discriminate|vm_compute; reflexivity|repeat constructor|]. change (Some (ip_id (g_iph q), Z.land (frag_off (g_iph q)) 0x1FFF * 8, has (frag_off (g_iph q)) IP_MF) = Some (7, 16, false)). rewrite H1, H2, H3. reflexivity.
Defined.
End Demo.
